(* ===== verification/_CoqProject ===== *)
-Q . S2P
Prelude.v
GoStrings.v
GoTime.v
Sha256.v
AppErrors.v
Contracts.v
IntentTypes.v
Amounts.v
IntentParams.v
Intents.v
IntentSafety.v
Wallet.v
Auth.v
Approvals.v
Policies.v
Evaluator.v
PolicySafety.v
Execution.v
ExecutionSafety.v
Storage.v
Database.v
RuntimeEffects.v
ExecutionStore.v
Runtime.v
Protocol.v
RuntimeSafety.v
RuntimeGuarantees.v
Circuit.v
GoText.v
References.v
ChainEvidence.v
Deployments.v
Abi.v
PayrollContract.v
SwapContract.v
Plans.v
Settlement.v
PayrollSettlement.v
SwapSettlement.v
SendSettlement.v
Wiring.v
ArcClient.v
ArcAttestation.v
Autonomy.v
Recurrence.v
AutonomyLedger.v
AutonomyRuntime.v
Statements.v
Sessions.v
Foundation.v
Repositories.v
AutonomyStore.v
AutonomyRecords.v
AutonomyExclusion.v
Services.v
IntentService.v
ApprovalService.v
ExecutionService.v
Authority.v
AuthoritySessions.v
AutonomyService.v
AutonomySamples.v
GoBase64.v
Siwe.v
OAuthModel.v
SignInTables.v
SignInStore.v
SignInService.v
SignInSafety.v
SignInMoves.v
SignInSessions.v
SignInAuthority.v
CircleClient.v
CircleAdapter.v
Capabilities.v
ProviderPlane.v
ToolInputs.v
ToolHandlers.v
ToolServer.v
RequestAuth.v
