(* ===== verification/Prelude.v ===== *)
(** * A model of the WizPay MCP backend

    The program prepares, authorizes and executes payments on the Arc chain on
    behalf of users: an agent proposes a financial _intent_, the user approves
    it, a policy must allow it, and an execution runtime then submits it to a
    wallet provider exactly once and completes it only after verification.
    This development models that path from the data model to the database, with
    the Go code's own branches, checks and error values, and proves what makes
    it safe.  Paths below are relative to src/internal.

    ** Layers and files

    Foundations
    - [Prelude]: Go comparison, fallible computations ([result], [let!],
      [do!]), shared tactics and lemmas.
    - [GoStrings], [GoTime], [Sha256]: the parts of the Go standard library the
      program relies on — byte strings, UTF-8, strconv, math/big, hex, sort,
      instants in nanoseconds, RFC 3339 rendering, SHA-256.
    - [AppErrors] (errors/errors.go): error values and their public projection.

    Domain
    - [Contracts] (contracts/address.go, resources.go, deployment.go).
    - [IntentTypes], [Amounts], [IntentParams], [Intents]
      (intents/*.go): amounts, parameters, canonical material, digests, the
      aggregate and its lifecycle.  [IntentSafety]: its guarantees.
    - [Wallet] (wallet/*.go), [Auth] (auth/*.go), [Approvals] (approvals/*.go):
      each with its state record, operations, lifecycle relation and theorems.
    - [Policies], [Evaluator] (policies/*.go) and [PolicySafety].
    - [Execution] (execution/*.go) and [ExecutionSafety].

    Storage and runtime
    - [Storage] (storage/scope.go, runtime.go, postgres/mappers_common.go,
      errors.go, audit/*.go), [Database] (the execution tables and the statements of
      postgres/dbsqlc/foundation.sql.go on them).
    - [RuntimeEffects]: a tree of atomic actions ([prog]) — statements,
      transactions, adapter and verifier calls, clocks, sleeping — and the step
      of one action in an arbitrary environment that supplies the answers,
      the faults and the clocks.
    - [ExecutionStore] (postgres/execution_repository.go,
      runtime_repository.go, evidence_repository.go, audit_repository.go),
      [Runtime] (execution/runtime/service.go, worker.go): the code as trees.
    - [Protocol]: what a program knows and must know before it acts;
      [RuntimeSafety]: the system of any number of such programs interleaved
      over one database, its invariant; [RuntimeGuarantees]: the theorems.

    Contracts and settlement
    - [GoText]: hexadecimal words and more of Go's strings (Join, Cut,
      EqualFold, ParseUint).
    - [Deployments] (contracts/deployment.go, registry.go, allowlists.go,
      defaults.go): reviewed deployments and the registry that serves them.
    - [Abi], [PayrollContract], [SwapContract] (contracts/payroll/*.go,
      contracts/swap/*.go): calldata and events over an ABI codec.
    - [Plans] (providers/plan.go), [Settlement], [PayrollSettlement]
      (payroll/planner.go, verifier.go), [SwapSettlement] (swap/*.go),
      [SendSettlement] (send/*.go): the call an intent becomes, and what a
      receipt must show for it.
    - [Wiring] (providers/wiring/*.go): the planner and the
      verifier the runtime is given, composed of the above.

    Providers
    - [Circuit] (providers/circuit/breaker.go).
    - [References] (providers/reference.go), [ChainEvidence]
      (providers/classification.go, receipt.go, reorg.go, verifier.go,
      store.go): from a wallet provider's answer to chain evidence.
    - [ArcClient], [ArcAttestation] (providers/arc/*.go,
      providers/health.go): the JSON-RPC client threaded through an endpoint
      that answers what it likes, receipts, contract attestation and health.
    - [CircleClient] (providers/circle/client.go, status.go, config.go,
      health.go, providers/authorization.go), [CircleAdapter]
      (providers/circle/adapter.go): the wallet provider's HTTP client threaded
      through a session, and the adapter that submits and reconciles.
    - [Capabilities] (capabilities/*.go), [ProviderPlane]
      (providers/provider.go, registry.go, arc/config.go, wiring/wiring.go,
      runtime.go, availability.go): registries of versions behind one class,
      and the plane assembled from a configuration.

    Autonomy
    - [Autonomy], [Recurrence] (autonomy/model.go): civil dates, time zones
      and Go's AddDate, schedules, grants, delegations,
      occurrences and recurrence rules.
    - [AutonomyLedger] (autonomy/accounting.go), [AutonomyRuntime]
      (autonomy/runtime.go, scheduler.go) with their theorems.
    - [Statements]: a free monad of statements on one database type, the faults
      a statement can meet, the properties a method keeps ([keeps]) or
      returns ([returns], [yields]), and what an answer says of the databases
      its statements found ([seen], [learns], [finds]).
    - [AutonomyStore]
      (postgres/autonomy_repository.go, autonomy_authority.go,
      autonomy_runtime_store.go, migration 000004): tables, statements and
      methods; [AutonomyRecords], [AutonomyExclusion] (sessions interleaved by
      statement, row locks included): their theorems.
    - [AutonomyService] (services/autonomy.go) over the repositories;
      [AutonomySamples]: runs of the whole on concrete databases.

    Services
    - [Foundation]: the tables of tenants, identities, wallets, intents,
      approvals, policies and evaluations and every statement of
      postgres/dbsqlc/foundation.sql.go on them, constraints of the migrations
      included; [Repositories] (postgres/*_repository.go): the methods on them
      and the transactions across them.
    - [Services] (services/errors.go, requestauth/scope.go, and what the
      services share), [IntentService] (services/intent.go, send.go, swap.go,
      payroll.go), [ApprovalService] (approval.go, human_authority.go,
      execution_authorization.go, stepup.go), [ExecutionService] (policy.go,
      execution.go).
    - [Sessions]: methods interleaved statement by statement, and what each may
      rely on and must guarantee ([safe]); [Authority]: the moves of intents,
      approvals and requests, and the statements that make them;
      [AuthoritySessions]: every service call among all others, a history,
      and creating an intent twice.

    Sign-in
    - [GoBase64], [Siwe] (siwe/siwe.go), [OAuthModel] (oauth/model.go,
      browser/model.go): opaque credentials, the text a wallet signs, clients,
      transactions, codes, tokens and browser sessions.
    - [SignInTables] (migrations 000008 to 000012), [SignInStore]
      (postgres/browser_repository.go, siwe_repository.go, oauth_repository.go,
      dbsqlc/oauth.sql.go).
    - [SignInService] (oauth/service.go, browser/service.go, browser/siwe.go)
      over the repositories as interfaces.
    - [SignInSafety]: what is true of the tables and how they grow;
      [SignInMoves]: every write and every method keeps it;
      [SignInSessions]: the calls interleaved; [SignInAuthority]: the theorems,
      a sign-in and a logout.

    The outside
    - [ToolInputs], [ToolHandlers] (mcp/tools/*.go, services/services.go): the
      inputs of the MCP tools and their checks, the handlers over the services
      as records of operations, definitions and registries; [ToolServer]
      (mcp/server.go, ../cmd/server/main.go): the server and the tools the
      process registers in each of its modes, over the services above.
    - [RequestAuth] (requestauth/*.go, postgres/mcp_access_audit.go): the
      middleware in front of the tools over the sign-in store, and its log.

    ** How state and operations correspond

    A Go struct is a record with the struct's field names behind a short
    prefix; an enumeration is an inductive type with a [_string] function; a
    method [T.M] is a function [T_M] (or [M] where the name is free); a
    [(T, error)] result is [result T].  Code with effects is a [prog]; a
    transaction is one action, because PostgreSQL makes it atomic.

    ** What the theorems show

    - Submission: [submitted_at_most_once], [claimed_write_atomic],
      [stored_lifecycle_advances], [completed_has_evidence],
      [runtime_terminates] — for every interleaving of workers, callers, faults
      and clock readings — and [superseded_claim_inert]: what the whole turn of
      a worker whose claim was taken over still does, which is to append the
      observation of a pending verification and nothing else.
    - Settlement: what is sent is the intent ([planned_binds_intent]), what is
      reported VERIFIED settled it ([verified_settles_intent]), and the verdict
      on an intent's receipt does not hang ([gate_decides]).
    - Authority end to end, for every interleaving of service calls and
      faults: [execution_needs_people], and what it comes to in the code as it
      is, [nothing_is_executed].
    - Sign-in end to end, for every interleaving of calls, faults and
      administration: [token_needs_wallet_signature],
      [one_token_per_signature], [logout_is_final]; and the text that is
      signed: [Message_binds].
    - The tools: none decides an approval or gets past its confirmation
      ([tools_never_decide]), payments are not executed
      ([execute_tools_fail_closed]), reading changes nothing
      ([read_only_tools_change_nothing]), the order of Go's maps is not seen
      ([map_order_invisible]); which tools there are ([server_exposes]), and
      who reaches them ([oauth_serves_readers]).
    - Authorization: [NewRequest_authorized], [Evaluate_allow_sound],
      [approved_only_by_artifact], [approval_consumed_once],
      [approved_intent_is_covered], [Authorize_sound].
    - Aggregates: the lifecycle theorems of intents, approvals, policies,
      executions and wallet bindings; [Restore_roundtrip]; identifiers bind
      what they name ([request_identifiers_binding]) up to an explicit SHA-256
      collision.
    - Amounts: [decimalToBaseUnits_injective], [payroll_phase12_exact],
      [swap_phase12_economics], [swap_deadline_window],
      [cross_token_payroll_covers], [payroll_exposure_covers_fees].
    - Contracts and evidence: [payroll_calldata_roundtrip],
      [registry_serves_reviewed], [arc_receipt_sound], [attested_words_exact],
      [verified_only_by_receipt], [adapter_outcomes_safe],
      [reference_roundtrip], [restart_keeps_observations]; the circuit breaker
      implements its specification ([circuit_refines_history]).
    - Autonomy: [recurrence_next_exact], [missed_instants_bounded],
      [dispatch_gate_exact], [ledger_within_caps], and for the database under
      concurrent sessions and faults [claims_never_overlap],
      [claims_fence_off], [reservations_within_cap],
      [schedule_versions_permanent], [schedule_roundtrip]; the service in front
      of it: [schedule_creation_authorized].
    - The wallet provider: what leaves the process is the plan, once
      ([execute_submits_plan]), and reconciling it sends nothing
      ([reconciliation_only_reads]); resolution of providers
      ([resolution_newest_configured]), and the plane that the program
      assembles ([plane_never_executes]).
    - Defects, as theorems about the code as it is:
      [signed_base_units_accepted], [unaligned_evaluation_unreadable],
      [failure_observation_blocks_verification],
      [missing_transaction_evidence], [verified_payroll_log_budget],
      [recurrence_defects], [pausing_stops_nothing],
      [resumed_schedule_overlaps], [nothing_is_executed],
      [created_at_this_call], [rejected_read_fails_execution],
      [rejected_probe_closes_provider].

    ** Bounds and fuel

    Integers are [Z]; a [uint64] that the code increments wraps with [u64], and
    its checks are written out.  Two loops of the program are not structural.
    The number of rounds of the worker loop is an argument of [Run]:
    [runtime_terminates] bounds the actions of any number of rounds.  The search
    of [Next] for an instant takes fuel and answers [None] when it runs out:
    [recurrence_next_exact] gives the fuel that is enough, for every greater
    fuel the same answer, and [recurrence_defects] a rule for which none is.

    ** Parameters

    Code outside the repository is an argument with its documented behaviour:
    [EthCommon], [EthCrypto] (go-ethereum's IsHexAddress, Keccak-256 and
    checksummed addresses), [EthSignatures] (its signature recovery), [NetUrl]
    (net/url), [HexUtil] (its hexadecimal codec), [Abi] (its ABI
    codec), [UnicodeTables], [FoldTables] (Unicode case mapping and folding),
    [TimeZones] (the time zone database), [PgTimestamp] (microsecond columns),
    [PgAmount] (numeric columns), [CircleWire] (the decoding of Circle's
    responses), [JsonSchema] (the schema library), [MapOrder] (the order in which
    Go iterates over a map), the random bytes of the process, the replies of
    an Arc or Circle endpoint, and the repositories a service is given.  Each has an instance with which the sample
    runs are evaluated.

    Text columns compare byte by byte and hold any byte string: that PostgreSQL
    refuses a NUL byte and invalid UTF-8, and that an installation may order
    text by another collation, is outside the model.  A jsonb column holds the
    value it is written from.  A [context.Context] is
    never nil, and its cancellation is the fault of the statement it reaches.

    ** Not modelled

    Process start-up (cmd, apart from what it registers), configuration, logging,
    HTTP handlers, the browser user interface and the deployment files: glue over
    the standard library and the network.  The MCP SDK's transport and the JSON
    schemas of the tools: the library's; a call reaches a handler with decoded
    arguments.  The rate limiter of the HTTP boundary counts in floating point.
    Of the rest, the legacy JWT verifier and operator onboarding. *)
From Stdlib Require Export ZArith Lia Bool.
From stdpp Require Export base tactics list strings gmap sorting.

(** * Go-like boolean comparison

    Go compares strings, integers, enumeration constants and plain structs
    with one operator; so does the model, through decidable equality. *)
Declare Scope go_scope.
Delimit Scope go_scope with go.
Open Scope Z_scope.
Open Scope go_scope.

Notation "x == y" := (bool_decide (x = y)) (at level 38, no associativity) : go_scope.
Notation "x != y" := (negb (bool_decide (x = y))) (at level 38, no associativity) : go_scope.

(** * Fallible computations

    A Go function that returns [(T, error)] is a function into [result T]:
    [Err] carries the error and stands for a zero first component. *)
Inductive outcome (E A : Type) : Type :=
  | Ok (value : A)
  | Err (failure : E).
Arguments Ok {E A} value.
Arguments Err {E A} failure.

Definition rbind {E A B} (m : outcome E A) (k : A -> outcome E B) : outcome E B :=
  match m with
  | Ok a => k a
  | Err e => Err e
  end.

Notation "'let!' x ':=' m 'in' k" := (rbind m (fun x => k))
  (at level 10, x name, m at level 100, k at level 200,
   format "'[v' 'let!'  x  ':='  m  'in' '/' k ']'") : go_scope.
Notation "'do!' m ';' k" := (rbind m (fun _ : unit => k))
  (at level 10, m at level 100, k at level 200,
   format "'[v' 'do!'  m ';' '/' k ']'") : go_scope.

(** [if b { return e }] in a function that goes on otherwise. *)
Definition fail_if {E} (b : bool) (e : E) : outcome E unit := if b then Err e else Ok tt.

(** A loop over a slice that returns at the first error. *)
Fixpoint for_each {E A} (f : A -> outcome E unit) (l : list A) : outcome E unit :=
  match l with
  | [] => Ok tt
  | x :: l' => do! f x; for_each f l'
  end.

(** A loop that threads local variables and returns at the first error. *)
Fixpoint fold_result {E S A} (f : S -> A -> outcome E S) (s : S) (l : list A) : outcome E S :=
  match l with
  | [] => Ok s
  | x :: l' => let! s' := f s x in fold_result f s' l'
  end.

(** The [err] component. *)
Definition err_of {E A} (m : outcome E A) : option E :=
  match m with Ok _ => None | Err e => Some e end.

Definition is_ok {E A} (m : outcome E A) : bool :=
  match m with Ok _ => true | Err _ => false end.

(** [if err := m; err != nil { return wrap(err) }] *)
Definition map_err {E F A} (wrap : E -> F) (m : outcome E A) : outcome F A :=
  match m with Ok a => Ok a | Err e => Err (wrap e) end.

Section result_lemmas.
Context {E A B : Type}.
Implicit Types (m : outcome E A) (e : E).

Lemma rbind_ok m (k : A -> outcome E B) b :
  rbind m k = Ok b <-> exists a, m = Ok a /\ k a = Ok b.
Proof. destruct m; naive_solver. Qed.

Lemma rbind_err m (k : A -> outcome E B) e :
  rbind m k = Err e <-> m = Err e \/ exists a, m = Ok a /\ k a = Err e.
Proof. destruct m; naive_solver. Qed.

Lemma fail_if_ok (b : bool) e : fail_if b e = Ok tt <-> b = false.
Proof. destruct b; naive_solver. Qed.

Lemma fail_if_ok_any (b : bool) e u : fail_if b e = Ok u <-> b = false.
Proof. destruct b, u; naive_solver. Qed.

Lemma map_err_ok {F} (w : E -> F) m a : map_err w m = Ok a <-> m = Ok a.
Proof. destruct m; naive_solver. Qed.

Lemma is_ok_true m : is_ok m = true <-> exists a, m = Ok a.
Proof. destruct m; naive_solver. Qed.

Lemma err_of_none m : err_of m = None <-> exists a, m = Ok a.
Proof. destruct m; naive_solver. Qed.

End result_lemmas.

Section loop_lemmas.
Context {E A S : Type}.

Lemma for_each_ok (f : A -> outcome E unit) l :
  for_each f l = Ok tt <-> Forall (fun x => f x = Ok tt) l.
Proof.
  induction l as [|x l IH]; cbn; [split; auto|].
  rewrite Forall_cons, <- IH. destruct (f x) as [[]|e]; cbn; naive_solver.
Qed.

Lemma fold_result_app (f : S -> A -> outcome E S) s l1 l2 :
  fold_result f s (l1 ++ l2) = (let! s' := fold_result f s l1 in fold_result f s' l2).
Proof.
  revert s. induction l1 as [|x l1 IH]; intros s; cbn; [done|].
  destruct (f s x); cbn; auto.
Qed.

(** Loop invariants. *)
Lemma fold_result_inv (P : list A -> S -> Prop) (f : S -> A -> outcome E S) s l s' :
  P [] s ->
  (forall done x t t', P done t -> f t x = Ok t' -> P (done ++ [x]) t') ->
  fold_result f s l = Ok s' -> P l s'.
Proof.
  intros H0 Hstep.
  assert (Hgen : forall l done t, P done t -> fold_result f t l = Ok s' -> P (done ++ l) s').
  { clear - Hstep. induction l as [|x l IH]; cbn; intros done t HP Hf.
    - rewrite app_nil_r. congruence.
    - apply rbind_ok in Hf as (t' & Hx & Hl).
      rewrite cons_middle, app_assoc. eauto. }
  intros Hf. apply (Hgen l [] s); auto.
Qed.
End loop_lemmas.

(** * Machine integers *)
Definition max_uint64 : Z := 2 ^ 64 - 1.
Definition u64 (x : Z) : Z := x mod 2 ^ 64.
Definition u8 (x : Z) : Z := x mod 2 ^ 8.
(** [int], [int64] and [time.Duration] wrap in two's complement. *)
Definition i64 (x : Z) : Z := (x + 2 ^ 63) mod 2 ^ 64 - 2 ^ 63.

Lemma i64_small x : - 2 ^ 63 <= x < 2 ^ 63 -> i64 x = x.
Proof. intros Hx. unfold i64. rewrite Z.mod_small; lia. Qed.

(** Values of the unsigned types. *)
Definition is_u64 (x : Z) : Prop := 0 <= x < 2 ^ 64.
Definition is_u8 (x : Z) : Prop := 0 <= x < 2 ^ 8.

Lemma u64_range x : is_u64 (u64 x).
Proof. apply Z.mod_pos_bound. lia. Qed.

Lemma u64_small x : is_u64 x -> u64 x = x.
Proof. apply Z.mod_small. Qed.

Lemma u64_succ x : is_u64 x -> x <> max_uint64 -> u64 (x + 1) = x + 1.
Proof. unfold is_u64, max_uint64. intros H1 H2. apply Z.mod_small. lia. Qed.

Lemma u64_succ_max : u64 (max_uint64 + 1) = 0.
Proof. reflexivity. Qed.

(** * Boolean reflection *)
Lemma eqb_spec_true {A} `{EqDecision A} (x y : A) : (x == y) = true <-> x = y.
Proof. apply bool_decide_eq_true. Qed.
Lemma eqb_spec_false {A} `{EqDecision A} (x y : A) : (x == y) = false <-> x <> y.
Proof. apply bool_decide_eq_false. Qed.
Lemma neqb_spec_true {A} `{EqDecision A} (x y : A) : (x != y) = true <-> x <> y.
Proof. rewrite negb_true_iff. apply bool_decide_eq_false. Qed.
Lemma neqb_spec_false {A} `{EqDecision A} (x y : A) : (x != y) = false <-> x = y.
Proof. rewrite negb_false_iff. apply bool_decide_eq_true. Qed.
Lemma eqb_refl {A} `{EqDecision A} (x : A) : (x == x) = true.
Proof. by apply bool_decide_eq_true. Qed.
Lemma neqb_refl {A} `{EqDecision A} (x : A) : (x != x) = false.
Proof. by apply neqb_spec_false. Qed.

Create HintDb go discriminated.
Create Rewrite HintDb go.
#[export] Hint Rewrite @eqb_refl @neqb_refl : go.
#[export] Hint Resolve u64_range : go.

(** Turns boolean facts in the context into propositions. *)
Ltac reflect_in H :=
  lazymatch type of H with
  | (_ && _) = true => apply andb_true_iff in H; destruct H as [? H]
  | (_ || _) = false => apply orb_false_iff in H; destruct H as [? H]
  | negb _ = true => apply negb_true_iff in H
  | negb _ = false => apply negb_false_iff in H
  | bool_decide _ = true => apply bool_decide_eq_true in H
  | bool_decide _ = false => apply bool_decide_eq_false in H
  | (_ =? _) = true => apply Z.eqb_eq in H
  | (_ =? _) = false => apply Z.eqb_neq in H
  | (_ <? _) = true => apply Z.ltb_lt in H
  | (_ <? _) = false => apply Z.ltb_ge in H
  | (_ <=? _) = true => apply Z.leb_le in H
  | (_ <=? _) = false => apply Z.leb_gt in H
  end.
Ltac reflect_all :=
  repeat match goal with
  | H : _ = true |- _ => progress reflect_in H
  | H : _ = false |- _ => progress reflect_in H
  end.

(** Decomposes [computation = Ok v] hypotheses into the conditions under
    which every step of the computation succeeded. *)
Ltac ok_step :=
  match goal with
  | H : rbind _ _ = Ok _ |- _ =>
      let a := fresh "r" in apply rbind_ok in H; destruct H as (a & ? & H)
  | H : fail_if _ _ = Ok _ |- _ => apply fail_if_ok_any in H
  | H : map_err _ _ = Ok _ |- _ => apply map_err_ok in H
  | H : Ok _ = Ok _ |- _ => injection H as H
  | H : Err _ = Ok _ |- _ => discriminate H
  | H : Ok _ = Err _ |- _ => discriminate H
  | u : unit |- _ => destruct u
  end.
Ltac ok_inv := repeat (ok_step; try subst).
Ltac ok_reflect := ok_inv; reflect_all.
