(* ===== verification/GoStrings.v ===== *)
(** Go strings and the parts of [strings], [unicode], [unicode/utf8],
    [strconv], [math/big], [encoding/hex] and [sort] the program uses.

    A Go string is a sequence of bytes, modelled by [string] (each [ascii]
    is one byte).  Runes are code points in [Z]; [runes] decodes a string the
    way a [range] loop does, invalid bytes included. *)
From Stdlib Require Import Ascii DecimalString DecimalPos DecimalN DecimalFacts.
From Stdlib Require String.
From S2P Require Import Prelude.
Open Scope Z_scope.
Open Scope go_scope.

(** * Bytes *)
Definition byte_of (a : ascii) : Z := Z.of_N (N_of_ascii a).
Definition ascii_of (b : Z) : ascii := ascii_of_N (Z.to_N b).

Definition bytes (s : string) : list Z := byte_of <$> String.list_ascii_of_string s.
Definition of_bytes (l : list Z) : string := String.string_of_list_ascii (ascii_of <$> l).

(** [len(s)] *)
Definition len (s : string) : Z := Z.of_nat (String.length s).

(** * UTF-8 *)
Definition rune_error : Z := 0xFFFD.
Definition byte_in (lo hi b : Z) : bool := (lo <=? b) && (b <=? hi).
Definition is_cont (b : Z) : bool := byte_in 0x80 0xBF b.

(** [utf8.DecodeRune]: the first code point and its width; [(RuneError, 1)]
    for an invalid encoding and [(RuneError, 0)] for the empty string. *)
Definition decode_rune (l : list Z) : Z * nat :=
  match l with
  | [] => (rune_error, 0%nat)
  | b0 :: t =>
      if b0 <? 0x80 then (b0, 1%nat)
      else if byte_in 0xC2 0xDF b0 then
        match t with
        | b1 :: _ => if is_cont b1 then ((b0 - 0xC0) * 64 + (b1 - 0x80), 2%nat)
                     else (rune_error, 1%nat)
        | _ => (rune_error, 1%nat)
        end
      else if byte_in 0xE0 0xEF b0 then
        match t with
        | b1 :: b2 :: _ =>
            let lo := if b0 =? 0xE0 then 0xA0 else 0x80 in
            let hi := if b0 =? 0xED then 0x9F else 0xBF in
            if byte_in lo hi b1 && is_cont b2
            then ((b0 - 0xE0) * 4096 + (b1 - 0x80) * 64 + (b2 - 0x80), 3%nat)
            else (rune_error, 1%nat)
        | _ => (rune_error, 1%nat)
        end
      else if byte_in 0xF0 0xF4 b0 then
        match t with
        | b1 :: b2 :: b3 :: _ =>
            let lo := if b0 =? 0xF0 then 0x90 else 0x80 in
            let hi := if b0 =? 0xF4 then 0x8F else 0xBF in
            if byte_in lo hi b1 && is_cont b2 && is_cont b3
            then ((b0 - 0xF0) * 262144 + (b1 - 0x80) * 4096
                  + (b2 - 0x80) * 64 + (b3 - 0x80), 4%nat)
            else (rune_error, 1%nat)
        | _ => (rune_error, 1%nat)
        end
      else (rune_error, 1%nat)
  end.

(** [utf8.DecodeLastRune], on the reversed bytes. *)
Definition rune_start (b : Z) : bool := negb (is_cont b).
Definition decode_last_rune (rev : list Z) : Z * nat :=
  let whole (k : nat) (l : list Z) :=
    let '(r, size) := decode_rune l in
    if (size =? k)%nat then (r, size) else (rune_error, 1%nat) in
  match rev with
  | [] => (rune_error, 0%nat)
  | b0 :: t =>
      if b0 <? 0x80 then (b0, 1%nat) else
      match t with
      | [] => whole 1%nat [b0]
      | b1 :: t =>
          if rune_start b1 then whole 2%nat [b1; b0] else
          match t with
          | [] => whole 2%nat [b1; b0]
          | b2 :: t =>
              if rune_start b2 then whole 3%nat [b2; b1; b0] else
              match t with
              | [] => whole 3%nat [b2; b1; b0]
              | b3 :: _ => whole 4%nat [b3; b2; b1; b0]
              end
          end
      end
  end.

(** A [range] loop over the string: code points with their widths.  The fuel
    is the number of bytes, and every step consumes at least one. *)
Fixpoint runes_fuel (fuel : nat) (l : list Z) : list (Z * nat) :=
  match fuel, l with
  | S fuel, _ :: _ =>
      let '(r, size) := decode_rune l in (r, size) :: runes_fuel fuel (drop size l)
  | _, _ => []
  end.
Definition runes_of (l : list Z) : list (Z * nat) := runes_fuel (length l) l.
Definition runes (s : string) : list Z := fst <$> runes_of (bytes s).

(** [utf8.ValidString] *)
Definition ValidString (s : string) : bool :=
  forallb (fun '(r, size) => negb ((r =? rune_error) && (size =? 1)%nat)) (runes_of (bytes s)).

(** [utf8.AppendRune], for the code points a decoder returns. *)
Definition encode_rune (r : Z) : list Z :=
  if r <? 0x80 then [r]
  else if r <? 0x800 then [0xC0 + r / 64; 0x80 + r mod 64]
  else if r <? 0x10000 then [0xE0 + r / 4096; 0x80 + r / 64 mod 64; 0x80 + r mod 64]
  else [0xF0 + r / 262144; 0x80 + r / 4096 mod 64; 0x80 + r / 64 mod 64; 0x80 + r mod 64].

(** [unicode.IsControl] (category Cc) and [unicode.IsSpace] (White_Space). *)
Definition IsControl (r : Z) : bool := byte_in 0 0x1F r || byte_in 0x7F 0x9F r.
Definition IsSpace (r : Z) : bool :=
  byte_in 0x09 0x0D r || (r =? 0x20) || (r =? 0x85) || (r =? 0xA0) || (r =? 0x1680)
  || byte_in 0x2000 0x200A r || (r =? 0x2028) || (r =? 0x2029) || (r =? 0x202F)
  || (r =? 0x205F) || (r =? 0x3000).

(** [strings.IndexFunc(s, unicode.IsControl) >= 0] *)
Definition has_control (s : string) : bool := existsb IsControl (runes s).

(** [strings.TrimSpace] *)
Fixpoint trim_left (fuel : nat) (l : list Z) : list Z :=
  match fuel with
  | O => l
  | S fuel =>
      let '(r, size) := decode_rune l in
      if (0 <? size)%nat && IsSpace r then trim_left fuel (drop size l) else l
  end.
Fixpoint trim_right (fuel : nat) (rev : list Z) : list Z :=
  match fuel with
  | O => rev
  | S fuel =>
      let '(r, size) := decode_last_rune rev in
      if (0 <? size)%nat && IsSpace r then trim_right fuel (drop size rev) else rev
  end.
Definition TrimSpace (s : string) : string :=
  let l := trim_left (String.length s) (bytes s) in
  of_bytes (reverse (trim_right (length l) (reverse l))).

(** * Case folding

    [strings.ToLower] maps ASCII strings byte by byte and other strings rune
    by rune with [unicode.ToLower]; the Unicode tables behind the latter for
    code points from 0x80 are the parameter of this class. *)
Class UnicodeTables := unicode_to_lower_nonascii : Z -> Z.

Definition lower_byte (b : Z) : Z := if byte_in 65 90 b then b + 32 else b.
Definition is_ascii_string (s : string) : bool := forallb (fun b => b <? 0x80) (bytes s).
Definition ToLowerRune `{UnicodeTables} (r : Z) : Z :=
  if r <? 0x80 then lower_byte r else unicode_to_lower_nonascii r.
Definition ToLower `{UnicodeTables} (s : string) : string :=
  if is_ascii_string s then of_bytes (lower_byte <$> bytes s)
  else of_bytes (concat ((fun r => encode_rune (ToLowerRune r)) <$> runes s)).

(** * Other string functions *)
Definition HasPrefix (s prefix : string) : bool := String.prefix prefix s.

(** [strings.Contains(s, substr)] *)
Fixpoint Contains (s substr : string) : bool :=
  String.prefix substr s || match s with EmptyString => false | String _ s' => Contains s' substr end.

Fixpoint Repeat (s : string) (count : nat) : string :=
  match count with O => "" | S n => String.append s (Repeat s n) end.

(** [strings.Split(s, sep)] for a one-byte separator: never empty. *)
Fixpoint Split (s : string) (sep : ascii) : list string :=
  match s with
  | EmptyString => [""]
  | String c s' =>
      match Split s' sep with
      | [] => [""]
      | part :: parts =>
          if decide (c = sep) then "" :: part :: parts else String c part :: parts
      end
  end.

(** [strings.TrimSuffix(s, ".")] leaves [s] alone *)
Fixpoint last_byte (s : string) : option Z :=
  match s with
  | EmptyString => None
  | String c EmptyString => Some (byte_of c)
  | String _ s' => last_byte s'
  end.
Definition first_byte (s : string) : option Z :=
  match s with EmptyString => None | String c _ => Some (byte_of c) end.

(** [strings.TrimRight(s, "0")] *)
Fixpoint TrimRightZeros (s : string) : string :=
  match s with
  | EmptyString => ""
  | String c s' =>
      match TrimRightZeros s' with
      | EmptyString => if decide (c = "0"%char) then "" else String c ""
      | t => String c t
      end
  end.

(** * Decimal numbers *)
Definition is_digit_byte (b : Z) : bool := byte_in 48 57 b.
Definition is_digit (a : ascii) : bool := is_digit_byte (byte_of a).

(** [for _, r := range s { if r < '0' || r > '9' ... }] never fires. *)
Definition all_digits (s : string) : bool := forallb is_digit_byte (runes s).

(** [strconv.FormatUint(n, 10)], [fmt.Sprint(n)], [big.Int.String] for n >= 0. *)
Definition FormatUint (n : Z) : string := NilEmpty.string_of_uint (N.to_uint (Z.to_N n)).
Definition FormatInt (n : Z) : string :=
  if n <? 0 then String.append "-" (FormatUint (- n)) else FormatUint n.

(** The value of a digit sequence. *)
Definition parse_digits (s : string) : option Z :=
  match s with
  | EmptyString => None
  | _ => (fun d => Z.of_N (N.of_uint d)) <$> NilEmpty.uint_of_string s
  end.

(** [new(big.Int).SetString(s, 10)]: an optional sign and at least one digit
    ([None] when [ok] is false). *)
Definition SetString10 (s : string) : option Z :=
  match s with
  | String "+" s' => parse_digits s'
  | String "-" s' => Z.opp <$> parse_digits s'
  | _ => parse_digits s
  end.

(** [x.BitLen()] *)
Definition BitLen (x : Z) : Z := if x =? 0 then 0 else Z.log2 (Z.abs x) + 1.

(** * Hexadecimal *)
Definition hex_digit (n : Z) : Z := if n <? 10 then 48 + n else 87 + n.
(** [hex.EncodeToString] *)
Definition EncodeToString (l : list Z) : string :=
  of_bytes (concat ((fun b => [hex_digit (b / 16); hex_digit (b mod 16)]) <$> l)).

(** * Ordering and [sort] *)
Definition string_lt (a b : string) : bool := String.ltb a b.
Definition string_ge (a b : string) : bool := negb (string_lt a b).

(** [sort.Search(n, f)]: binary search for the smallest index in [0, n) at
    which [f] holds, [n] if there is none.  The interval shrinks at every
    step, so [n] steps are enough. *)
Fixpoint search_loop (fuel : nat) (i j : nat) (f : nat -> bool) : nat :=
  match fuel with
  | O => i
  | S fuel =>
      if (i <? j)%nat then
        let h := Nat.div2 (i + j) in
        if f h then search_loop fuel i h f else search_loop fuel (S h) j f
      else i
  end.
Definition Search (n : nat) (f : nat -> bool) : nat := search_loop n 0 n f.

(** [sort.Slice(l, func(i, j) bool { return key(l[i]) < key(l[j]) })].  Go
    leaves the order of elements with equal keys open; this sort keeps it. *)
Section sort_by.
Context {A : Type} (key : A -> string).
Definition key_le (x y : A) : Prop := String.le (key x) (key y).
#[global] Instance key_le_dec : RelDecision key_le.
Proof. intros x y. unfold key_le. apply _. Defined.
#[global] Instance key_le_total : Total key_le.
Proof. intros x y. unfold key_le. apply (total String.le). Qed.
#[global] Instance key_le_trans : Transitive key_le.
Proof. intros x y z. unfold key_le. apply transitivity. Qed.
Definition sort_by (l : list A) : list A := merge_sort key_le l.
End sort_by.
Definition sort_strings (l : list string) : list string := sort_by (fun s => s) l.

(** * Lemmas *)
Section byte_lemmas.
Implicit Types (s : string) (l : list Z) (a : ascii).

Lemma byte_of_range a : 0 <= byte_of a < 256.
Proof. unfold byte_of. pose proof (N_ascii_bounded a). lia. Qed.

Lemma ascii_of_byte_of a : ascii_of (byte_of a) = a.
Proof. unfold ascii_of, byte_of. rewrite N2Z.id. apply ascii_N_embedding. Qed.

Lemma byte_of_ascii_of b : 0 <= b < 256 -> byte_of (ascii_of b) = b.
Proof.
  intros Hb. unfold ascii_of, byte_of. rewrite N_ascii_embedding by lia. lia.
Qed.

Lemma byte_of_inj a1 a2 : byte_of a1 = byte_of a2 -> a1 = a2.
Proof. intros H. rewrite <- (ascii_of_byte_of a1), <- (ascii_of_byte_of a2). by rewrite H. Qed.

Lemma bytes_cons a s : bytes (String a s) = byte_of a :: bytes s.
Proof. reflexivity. Qed.

Lemma of_bytes_cons b l : of_bytes (b :: l) = String (ascii_of b) (of_bytes l).
Proof. reflexivity. Qed.

Lemma of_bytes_bytes s : of_bytes (bytes s) = s.
Proof.
  induction s as [|a s IH]; [done|].
  rewrite bytes_cons, of_bytes_cons, ascii_of_byte_of, IH. done.
Qed.

Lemma bytes_inj s1 s2 : bytes s1 = bytes s2 -> s1 = s2.
Proof. intros H. rewrite <- (of_bytes_bytes s1), <- (of_bytes_bytes s2). by rewrite H. Qed.

Lemma bytes_of_bytes l : Forall (fun b => 0 <= b < 256) l -> bytes (of_bytes l) = l.
Proof.
  induction 1 as [|b l Hb _ IH]; [done|].
  rewrite of_bytes_cons, bytes_cons, byte_of_ascii_of, IH by done. done.
Qed.

Lemma bytes_app s1 s2 : bytes (String.append s1 s2) = bytes s1 ++ bytes s2.
Proof.
  induction s1 as [|a s1 IH]; [done|].
  change (String.append (String a s1) s2) with (String a (String.append s1 s2)).
  rewrite !bytes_cons, IH. done.
Qed.

Lemma length_bytes s : length (bytes s) = String.length s.
Proof. induction s as [|a s IH]; [done|]. rewrite bytes_cons. cbn. by rewrite IH. Qed.

Lemma length_of_bytes l : String.length (of_bytes l) = length l.
Proof. induction l as [|b l IH]; [done|]. rewrite of_bytes_cons. cbn. by rewrite IH. Qed.

Lemma string_length_app s1 s2 :
  String.length (String.append s1 s2) = (String.length s1 + String.length s2)%nat.
Proof. rewrite <- !length_bytes, bytes_app, length_app. done. Qed.

Lemma bytes_range s : Forall (fun b => 0 <= b < 256) (bytes s).
Proof. induction s as [|a s IH]; constructor; [apply byte_of_range|done]. Qed.
End byte_lemmas.

(** Strings of printable, non-blank ASCII bytes: identifiers, digests, digits. *)
Definition plain_byte (b : Z) : bool := byte_in 0x21 0x7E b.
Definition plain (s : string) : bool := forallb plain_byte (bytes s).

Section plain_lemmas.
Implicit Types (s : string) (l : list Z).

Lemma decode_rune_ascii b l : (b <? 0x80) = true -> decode_rune (b :: l) = (b, 1%nat).
Proof. intros H. cbn. by rewrite H. Qed.

Lemma runes_of_ascii l :
  forallb (fun b => b <? 0x80) l = true -> runes_of l = (fun b => (b, 1%nat)) <$> l.
Proof.
  unfold runes_of. induction l as [|b l IH]; intros H; [done|].
  cbn [forallb] in H. apply andb_true_iff in H as [Hb Hl].
  cbn [length runes_fuel]. rewrite (decode_rune_ascii b l Hb). cbn [drop fmap list_fmap].
  f_equal. auto.
Qed.

Lemma plain_ascii l :
  forallb plain_byte l = true -> forallb (fun b => b <? 0x80) l = true.
Proof.
  rewrite !forallb_forall. intros H b Hb. specialize (H b Hb).
  unfold plain_byte, byte_in in H. reflect_all. lia.
Qed.

Lemma runes_ascii s :
  forallb (fun b => b <? 0x80) (bytes s) = true -> runes s = bytes s.
Proof.
  intros H. unfold runes. rewrite runes_of_ascii by done.
  rewrite <- list_fmap_compose. apply list_fmap_id.
Qed.

Lemma ValidString_ascii s :
  forallb (fun b => b <? 0x80) (bytes s) = true -> ValidString s = true.
Proof.
  intros H. unfold ValidString. rewrite runes_of_ascii by done.
  rewrite forallb_forall in H |- *. intros [r k] Hr.
  apply in_map_iff in Hr as (b & [= <- <-] & Hb). specialize (H b Hb).
  apply negb_true_iff, andb_false_iff. left. unfold rune_error.
  apply Z.ltb_lt in H. apply Z.eqb_neq. lia.
Qed.

Lemma plain_valid s : plain s = true -> ValidString s = true.
Proof. intros H. by apply ValidString_ascii, plain_ascii. Qed.

Lemma plain_no_control s : plain s = true -> has_control s = false.
Proof.
  intros H. unfold has_control. rewrite runes_ascii by by apply plain_ascii.
  unfold plain in H. induction (bytes s) as [|b l IH]; [done|].
  cbn in H |- *. apply andb_true_iff in H as [Hb Hl]. rewrite IH by done.
  unfold plain_byte, byte_in in Hb. unfold IsControl, byte_in. reflect_all. lia.
Qed.

Lemma plain_not_space b : plain_byte b = true -> IsSpace b = false.
Proof. unfold plain_byte, byte_in, IsSpace, byte_in. intros. reflect_all. lia. Qed.

Lemma trim_left_plain fuel l :
  forallb plain_byte l = true -> trim_left fuel l = l.
Proof.
  intros H. destruct fuel as [|fuel], l as [|b l]; try done.
  cbn [forallb] in H. apply andb_true_iff in H as [Hb Hl].
  unfold trim_left. rewrite decode_rune_ascii.
  - by rewrite plain_not_space.
  - unfold plain_byte, byte_in in Hb. reflect_all. lia.
Qed.

Lemma trim_right_plain fuel l :
  forallb plain_byte l = true -> trim_right fuel l = l.
Proof.
  intros H. destruct fuel as [|fuel], l as [|b l]; try done.
  cbn [forallb] in H. apply andb_true_iff in H as [Hb Hl].
  unfold trim_right. assert ((b <? 0x80) = true) as Hlt.
  { unfold plain_byte, byte_in in Hb. reflect_all. lia. }
  cbn [decode_last_rune]. rewrite Hlt. by rewrite plain_not_space.
Qed.

Lemma forallb_reverse {A} (f : A -> bool) (l : list A) : forallb f (reverse l) = forallb f l.
Proof.
  induction l as [|x l IH]; [done|]. rewrite reverse_cons, forallb_app, IH. cbn.
  rewrite andb_true_r. apply andb_comm.
Qed.

Lemma plain_trim s : plain s = true -> TrimSpace s = s.
Proof.
  intros H. unfold TrimSpace. rewrite trim_left_plain by done.
  rewrite trim_right_plain by (rewrite forallb_reverse; done).
  rewrite reverse_involutive. apply of_bytes_bytes.
Qed.

Lemma plain_app s1 s2 : plain (String.append s1 s2) = plain s1 && plain s2.
Proof. unfold plain. by rewrite bytes_app, forallb_app. Qed.

Lemma EncodeToString_bytes l :
  Forall (fun b => 0 <= b < 256) l ->
  bytes (EncodeToString l) = concat ((fun b => [hex_digit (b / 16); hex_digit (b mod 16)]) <$> l).
Proof.
  intros H. unfold EncodeToString. apply bytes_of_bytes.
  induction H as [|b l Hb _ IH]; cbn; [constructor|].
  assert (forall d, 0 <= d < 16 -> 0 <= hex_digit d < 256) as Hd.
  { intros d Hd. unfold hex_digit. destruct (d <? 10) eqn:E; reflect_all; lia. }
  repeat constructor; try apply Hd; try done.
  all: pose proof (Z.mod_pos_bound b 16); pose proof (Z.div_mod b 16); lia.
Qed.

Lemma EncodeToString_plain l :
  Forall (fun b => 0 <= b < 256) l -> plain (EncodeToString l) = true.
Proof.
  intros H. unfold plain. rewrite EncodeToString_bytes by done.
  assert (forall d, 0 <= d < 16 -> plain_byte (hex_digit d) = true) as Hd.
  { intros d Hd. unfold hex_digit, plain_byte, byte_in. destruct (d <? 10) eqn:E; reflect_all; lia. }
  induction H as [|b l Hb _ IH]; cbn; [done|].
  rewrite !Hd, IH; [done|..].
  all: pose proof (Z.mod_pos_bound b 16); pose proof (Z.div_mod b 16); lia.
Qed.

Lemma EncodeToString_length l : String.length (EncodeToString l) = (2 * length l)%nat.
Proof.
  unfold EncodeToString. rewrite length_of_bytes.
  induction l as [|b l IH]; cbn; [done|]. rewrite IH. lia.
Qed.
End plain_lemmas.

(** Hexadecimal encoding loses nothing. *)
Lemma hex_digit_inj d d' : 0 <= d < 16 -> 0 <= d' < 16 -> hex_digit d = hex_digit d' -> d = d'.
Proof. unfold hex_digit. intros. destruct (d <? 10) eqn:?, (d' <? 10) eqn:?; reflect_all; lia. Qed.

Lemma EncodeToString_inj l l' :
  Forall (fun b => 0 <= b < 256) l -> Forall (fun b => 0 <= b < 256) l' ->
  EncodeToString l = EncodeToString l' -> l = l'.
Proof.
  intros H H' E. apply (f_equal bytes) in E. rewrite !EncodeToString_bytes in E by done.
  revert l' H' E. induction H as [|b l Hb Hl IH]; intros l' H' E.
  - by destruct H'.
  - destruct H' as [|b' l' Hb' Hl']; [done|]. cbn in E.
    injection E as E1 E2 E3. f_equal; [|by apply IH].
    assert (forall c, 0 <= c < 256 -> 0 <= c / 16 < 16 /\ 0 <= c mod 16 < 16) as Hr.
    { intros c Hc. pose proof (Z.mod_pos_bound c 16). pose proof (Z.div_mod c 16). lia. }
    apply hex_digit_inj in E1; [|apply Hr; done..]. apply hex_digit_inj in E2; [|apply Hr; done..].
    rewrite (Z.div_mod b 16), (Z.div_mod b' 16) by lia. congruence.
Qed.

(** * Decimal lemmas *)
Definition digit_val (a : ascii) : Z := byte_of a - 48.

(** Horner evaluation of a digit sequence, on top of an accumulator. *)
Fixpoint horner (acc : Z) (s : string) : Z :=
  match s with
  | EmptyString => acc
  | String a s' => horner (10 * acc + digit_val a) s'
  end.

Lemma horner_app acc s1 s2 : horner acc (String.append s1 s2) = horner (horner acc s1) s2.
Proof.
  revert acc. induction s1 as [|a s1 IH]; intros acc; [done|].
  change (String.append (String a s1) s2) with (String a (String.append s1 s2)). cbn. apply IH.
Qed.

Lemma horner_acc acc s : horner acc s = acc * 10 ^ len s + horner 0 s.
Proof.
  revert acc. unfold len. induction s as [|a s IH]; intros acc; cbn [horner String.length].
  - change (Z.of_nat 0) with 0. rewrite Z.pow_0_r. lia.
  - rewrite (IH (10 * acc + digit_val a)), (IH (10 * 0 + digit_val a)).
    rewrite Nat2Z.inj_succ, Z.pow_succ_r by lia. ring.
Qed.

Lemma horner_zeros acc n : horner acc (Repeat "0" n) = acc * 10 ^ Z.of_nat n.
Proof.
  revert acc. induction n as [|n IH]; intros acc.
  - cbn. lia.
  - change (Repeat "0" (S n)) with (String "0" (Repeat "0" n)).
    cbn [horner]. rewrite IH, Nat2Z.inj_succ, Z.pow_succ_r by lia.
    change (digit_val "0") with 0. ring.
Qed.

Fixpoint uint_horner (acc : Z) (d : Decimal.uint) : Z :=
  match d with
  | Decimal.Nil => acc
  | Decimal.D0 d => uint_horner (10 * acc) d
  | Decimal.D1 d => uint_horner (10 * acc + 1) d
  | Decimal.D2 d => uint_horner (10 * acc + 2) d
  | Decimal.D3 d => uint_horner (10 * acc + 3) d
  | Decimal.D4 d => uint_horner (10 * acc + 4) d
  | Decimal.D5 d => uint_horner (10 * acc + 5) d
  | Decimal.D6 d => uint_horner (10 * acc + 6) d
  | Decimal.D7 d => uint_horner (10 * acc + 7) d
  | Decimal.D8 d => uint_horner (10 * acc + 8) d
  | Decimal.D9 d => uint_horner (10 * acc + 9) d
  end.

Lemma of_uint_acc_horner d p : Z.pos (Pos.of_uint_acc d p) = uint_horner (Z.pos p) d.
Proof.
  revert p. induction d as [|d IH|d IH|d IH|d IH|d IH|d IH|d IH|d IH|d IH|d IH];
    intros p; cbn [Pos.of_uint_acc uint_horner]; [done|..];
    rewrite IH; f_equal; lia.
Qed.

Lemma of_uint_horner d : Z.of_N (N.of_uint d) = uint_horner 0 d.
Proof.
  unfold N.of_uint. induction d; cbn [Pos.of_uint uint_horner];
    rewrite ?of_uint_acc_horner; try done; cbn [Z.of_N]; rewrite ?of_uint_acc_horner; done.
Qed.

Lemma uint_of_string_horner s d acc :
  NilEmpty.uint_of_string s = Some d -> uint_horner acc d = horner acc s.
Proof.
  revert d acc. induction s as [|a s IH]; intros d acc H; cbn in H.
  - by injection H as <-.
  - destruct (NilEmpty.uint_of_string s) as [d'|] eqn:E; [|done].
    apply uint_of_char_spec in H.
    destruct_or! H; destruct H as [-> ->]; cbn [uint_horner horner];
      rewrite (IH d') by done; f_equal; unfold digit_val;
      match goal with |- context [byte_of ?c] =>
        let v := eval vm_compute in (byte_of c) in change (byte_of c) with v end; lia.
Qed.

Lemma parse_digits_horner s n : parse_digits s = Some n -> n = horner 0 s.
Proof.
  unfold parse_digits. destruct s as [|a s]; [done|]. intros H.
  apply fmap_Some in H as (d & Hd & ->).
  rewrite of_uint_horner. by apply uint_of_string_horner.
Qed.

Lemma parse_digits_nonneg s n : parse_digits s = Some n -> 0 <= n.
Proof.
  unfold parse_digits. destruct s as [|a s]; [done|]. intros H.
  apply fmap_Some in H as (d & _ & ->). lia.
Qed.

(** Being parsable is being a nonempty sequence of decimal digits. *)
Fixpoint digit_string (s : string) : bool :=
  match s with EmptyString => true | String a s' => is_digit a && digit_string s' end.

Lemma uint_of_char_digit a d :
  is_digit a = true <-> is_Some (uint_of_char a (Some d)).
Proof.
  destruct a as [[] [] [] [] [] [] [] []]; cbn; split; intros H; try done; by destruct H.
Qed.

Lemma uint_of_string_digits s :
  digit_string s = true <-> is_Some (NilEmpty.uint_of_string s).
Proof.
  induction s as [|a s IH]; cbn; [naive_solver|].
  rewrite andb_true_iff, IH.
  destruct (NilEmpty.uint_of_string s) as [d|] eqn:E; cbn [uint_of_char].
  - pose proof (uint_of_char_digit a d). naive_solver.
  - split; [intros [_ [? H]]; done | intros [? H]; done].
Qed.

Lemma parse_digits_some s :
  is_Some (parse_digits s) <-> s <> "" /\ digit_string s = true.
Proof.
  unfold parse_digits. destruct s as [|a s]; [split; [by intros [? ?]|naive_solver]|].
  rewrite fmap_is_Some, <- uint_of_string_digits. naive_solver.
Qed.

Lemma FormatUint_nonempty n : FormatUint n <> "".
Proof.
  unfold FormatUint. intros H.
  assert (NilEmpty.uint_of_string (NilEmpty.string_of_uint (N.to_uint (Z.to_N n)))
          = NilEmpty.uint_of_string "") as E by by rewrite H.
  rewrite NilEmpty.usu in E. injection E as E. revert E. unfold N.to_uint.
  destruct (Z.to_N n); [done|]. apply DecimalPos.Unsigned.to_uint_nonnil.
Qed.

Lemma parse_FormatUint n : 0 <= n -> parse_digits (FormatUint n) = Some n.
Proof.
  intros Hn. pose proof (FormatUint_nonempty n) as Hne. unfold parse_digits.
  destruct (FormatUint n) as [|a s] eqn:E; [done|]. rewrite <- E. unfold FormatUint.
  rewrite NilEmpty.usu. cbn. rewrite DecimalN.Unsigned.of_to, Z2N.id by done. done.
Qed.

Lemma FormatUint_inj n m : 0 <= n -> 0 <= m -> FormatUint n = FormatUint m -> n = m.
Proof.
  intros Hn Hm H. apply parse_FormatUint in Hn. apply parse_FormatUint in Hm. congruence.
Qed.

Lemma digit_string_FormatUint n : digit_string (FormatUint n) = true.
Proof.
  apply uint_of_string_digits. unfold FormatUint. rewrite NilEmpty.usu. by eexists.
Qed.

(** A digit sequence without superfluous leading zero is what [FormatUint]
    prints for its value. *)
Definition leading_zero (s : string) : bool :=
  (1 <? len s) && (match first_byte s with Some b => b =? 48 | None => false end).

Lemma leading_zero_cons b s : leading_zero (String "0" (String b s)) = true.
Proof.
  unfold leading_zero, len. cbn [String.length first_byte]. apply andb_true_iff.
  split; [|reflexivity]. apply Z.ltb_lt. lia.
Qed.

Lemma unorm_canonical d s :
  NilEmpty.uint_of_string s = Some d -> s <> "" -> leading_zero s = false -> Decimal.unorm d = d.
Proof.
  intros H Hne Hlz. apply NilEmpty.sus in H. subst s.
  destruct d as [|d|d|d|d|d|d|d|d|d|d]; try done.
  destruct d; try done; cbn [NilEmpty.string_of_uint] in Hlz; by rewrite leading_zero_cons in Hlz.
Qed.

Lemma FormatUint_parse s n :
  parse_digits s = Some n -> leading_zero s = false -> FormatUint n = s.
Proof.
  intros H Hlz. assert (s <> "") as Hne by by intros ->.
  unfold parse_digits in H. destruct s as [|a s'] eqn:Es; [done|]. rewrite <- Es in *.
  apply fmap_Some in H as (d & Hd & ->). unfold FormatUint.
  rewrite N2Z.id, DecimalN.Unsigned.to_of, (unorm_canonical d s) by done.
  by apply NilEmpty.sus.
Qed.

Lemma digit_plain a : is_digit a = true -> plain_byte (byte_of a) = true.
Proof. unfold is_digit, is_digit_byte, plain_byte, byte_in. intros. reflect_all. lia. Qed.

Lemma digit_string_plain s : digit_string s = true -> plain s = true.
Proof.
  induction s as [|a s IH]; [done|]. cbn [digit_string]. intros H.
  apply andb_true_iff in H as [Ha Hs].
  unfold plain. rewrite bytes_cons. cbn [forallb]. rewrite digit_plain by done. by apply IH.
Qed.

Lemma FormatUint_plain n : plain (FormatUint n) = true.
Proof. apply digit_string_plain, digit_string_FormatUint. Qed.

(** A [range] loop checking for digits sees the bytes: a multi-byte or
    invalid sequence is rejected as a rune that is not a digit. *)
Lemma decode_rune_digit l r k :
  Forall (fun b => 0 <= b < 256) l ->
  decode_rune l = (r, k) -> is_digit_byte r = true -> k = 1%nat /\ exists t, l = r :: t.
Proof.
  intros Hl H Hr. unfold is_digit_byte, byte_in in Hr. reflect_all.
  destruct l as [|b0 t]; cbn in H.
  { injection H as <- <-. unfold rune_error in *. lia. }
  destruct (b0 <? 0x80); [injection H as -> <-; eauto|].
  exfalso. revert H. unfold is_cont, byte_in, rune_error in *.
  repeat case_match; intros [= <- <-]; reflect_all; repeat case_match; lia.
Qed.

Lemma decode_rune_small l b t k r :
  l = b :: t -> (b <? 0x80) = true -> decode_rune l = (r, k) -> r = b /\ k = 1%nat.
Proof. intros -> Hb H. rewrite decode_rune_ascii in H by done. by injection H as <- <-. Qed.

Lemma all_digits_spec s : all_digits s = digit_string s.
Proof.
  unfold all_digits, runes, runes_of. rewrite length_bytes.
  assert (forall n s, (String.length s <= n)%nat ->
    forallb is_digit_byte (runes_fuel n (bytes s)).*1 = digit_string s) as Hgen; [|by apply Hgen].
  clear s. induction n as [|n IH]; intros s Hn.
  { destruct s; cbn in Hn; [done|lia]. }
  destruct s as [|a s]; [done|]. rewrite bytes_cons. cbn [runes_fuel].
  destruct (decode_rune (byte_of a :: bytes s)) as [r k] eqn:E. cbn [fmap list_fmap fst forallb].
  cbn [digit_string]. unfold is_digit. destruct (is_digit_byte (byte_of a)) eqn:Ha.
  - apply (decode_rune_small _ (byte_of a) (bytes s)) in E as [-> ->]; [|done|].
    + rewrite Ha. cbn. apply IH. cbn in Hn. lia.
    + unfold is_digit_byte, byte_in in Ha. reflect_all. lia.
  - cbn. destruct (is_digit_byte r) eqn:Hr; [|done]. exfalso.
    apply decode_rune_digit in E as [_ [t Ht]]; [|rewrite <- bytes_cons; apply bytes_range|done].
    injection Ht as <- _. congruence.
Qed.

(** [SetString] on what a validated base-unit string can be. *)
Lemma SetString10_digits s :
  s <> "" -> digit_string s = true -> SetString10 s = parse_digits s.
Proof.
  intros Hne Hd. destruct s as [|a s]; [done|]. cbn [digit_string] in Hd.
  apply andb_true_iff in Hd as [Ha _].
  destruct a as [[] [] [] [] [] [] [] []]; done.
Qed.

Lemma SetString10_FormatUint n : 0 <= n -> SetString10 (FormatUint n) = Some n.
Proof.
  intros Hn. rewrite SetString10_digits, parse_FormatUint;
    auto using FormatUint_nonempty, digit_string_FormatUint.
Qed.

(** * [sort.Search] *)
Section search_lemmas.
Context (f : nat -> bool).
Hypothesis f_mono : forall i j, (i <= j)%nat -> f i = true -> f j = true.

Lemma search_loop_spec fuel i j :
  (i <= j)%nat -> (j - i <= fuel)%nat ->
  (forall k, (k < i)%nat -> f k = false) ->
  (forall k, (j <= k)%nat -> f k = true) ->
  let r := search_loop fuel i j f in
  (i <= r <= j)%nat /\ (forall k, (k < r)%nat -> f k = false) /\
  (forall k, (r <= k)%nat -> f k = true).
Proof using f_mono.
  revert i j. induction fuel as [|fuel IH]; intros i j Hij Hfuel Hlo Hhi;
    cbn [search_loop]; cbv zeta.
  { repeat split; try lia; auto. intros k Hk. apply Hhi. lia. }
  destruct (i <? j)%nat eqn:E.
  2: { apply Nat.ltb_ge in E. repeat split; try lia; auto. intros k Hk. apply Hhi. lia. }
  apply Nat.ltb_lt in E. pose proof (Nat.div2_div (i + j)) as Hdiv.
  assert (i <= Nat.div2 (i + j) < j)%nat as Hh.
  { rewrite Hdiv. split; [apply Nat.div_le_lower_bound; lia|apply Nat.Div0.div_lt_upper_bound; lia]. }
  destruct (f (Nat.div2 (i + j))) eqn:Ef.
  - destruct (IH i (Nat.div2 (i + j))) as (H1 & H2 & H3); try lia; auto.
    { intros k Hk. eapply f_mono; [|exact Ef]. lia. }
    repeat split; try lia; auto.
  - destruct (IH (S (Nat.div2 (i + j))) j) as (H1 & H2 & H3); try lia; auto.
    { intros k Hk. destruct (f k) eqn:Ek; [|done].
      rewrite (f_mono k (Nat.div2 (i + j))) in Ef; [done|lia|done]. }
    repeat split; try lia; auto.
Qed.
End search_lemmas.

Lemma Search_spec n (f : nat -> bool) :
  (forall i j, (i <= j < n)%nat -> f i = true -> f j = true) ->
  (Search n f <= n)%nat /\ (forall k, (k < Search n f)%nat -> f k = false) /\
  (forall k, (Search n f <= k < n)%nat -> f k = true).
Proof.
  intros Hmono.
  set (g := fun k => if (k <? n)%nat then f k else true).
  assert (forall fuel i j, (j <= n)%nat -> search_loop fuel i j f = search_loop fuel i j g) as Hext.
  { induction fuel as [|fuel IH]; intros i j Hj; [done|]. cbn [search_loop]; cbv zeta.
    destruct (i <? j)%nat eqn:E; [|done]. apply Nat.ltb_lt in E.
    assert (Nat.div2 (i + j) < n)%nat as Hh.
    { rewrite Nat.div2_div. apply Nat.Div0.div_lt_upper_bound. lia. }
    unfold g at 1. apply Nat.ltb_lt in Hh as Hh'. rewrite Hh'.
    rewrite !IH by lia. done. }
  assert (forall i j, (i <= j)%nat -> g i = true -> g j = true) as Hg.
  { intros i j Hij. unfold g. destruct (i <? n)%nat eqn:Ei, (j <? n)%nat eqn:Ej; auto.
    - apply Nat.ltb_lt in Ej. apply Hmono. lia.
    - apply Nat.ltb_lt in Ej. apply Nat.ltb_ge in Ei. lia. }
  unfold Search. rewrite Hext by lia.
  destruct (search_loop_spec g Hg n O n) as (H1 & H2 & H3); [lia|lia|lia|..].
  { intros k Hk. unfold g. destruct (k <? n)%nat eqn:Ek; [|done]. apply Nat.ltb_lt in Ek. lia. }
  repeat split; [lia|..].
  - intros k Hk. specialize (H2 k Hk). unfold g in H2. by case_match.
  - intros k [Hk1 Hk2]. specialize (H3 k Hk1). revert H3. unfold g at 1.
    apply Nat.ltb_lt in Hk2. by rewrite Hk2.
Qed.

(** [i := sort.Search(len(l), func(i int) bool { return key(l[i]) >= target });
     i < len(l) && key(l[i]) == target]: membership by binary search. *)
Definition search_contains {A} (key : A -> string) (l : list A) (target : string) : bool :=
  let i := Search (length l) (fun i =>
             match l !! i with Some x => string_ge (key x) target | None => true end) in
  match l !! i with Some x => key x == target | None => false end.

Lemma string_ge_le a b : string_ge a b = true <-> String.le b a.
Proof.
  unfold string_ge, string_lt, String.le, String.leb, String.ltb.
  rewrite (String.compare_antisym b a).
  destruct (String.compare a b); cbn; naive_solver.
Qed.

Section sorted_search.
Context {A : Type} (key : A -> string).
Implicit Types (l : list A) (target : string).

Lemma StronglySorted_lookup (R : relation A) `{!Reflexive R} l i j x y :
  StronglySorted R l -> (i <= j)%nat -> l !! i = Some x -> l !! j = Some y -> R x y.
Proof.
  intros Hs. revert i j. induction Hs as [|z l Hs IH Hall]; intros i j Hij Hi Hj; [done|].
  destruct i as [|i], j as [|j]; cbn in *; try lia; simplify_eq; try done.
  - rewrite Forall_forall in Hall. apply Hall. by eapply list_elem_of_lookup_2.
  - eapply (IH i j); [lia|done|done].
Qed.

#[local] Instance key_le_refl : Reflexive (key_le key).
Proof. intros x. unfold key_le. reflexivity. Qed.

(** Binary search over a list in key order decides membership. *)
Lemma search_contains_spec l target :
  StronglySorted (key_le key) l -> search_contains key l target = true <-> target ∈ key <$> l.
Proof.
  intros Hs. unfold search_contains.
  set (f := fun i => match l !! i with Some x => string_ge (key x) target | None => true end).
  destruct (Search_spec (length l) f) as (Hle & Hlo & Hhi).
  { intros i j Hij. unfold f.
    destruct (lookup_lt_is_Some_2 l i) as [x Hx]; [lia|].
    destruct (lookup_lt_is_Some_2 l j) as [y Hy]; [lia|]. rewrite Hx, Hy, !string_ge_le.
    intros H. etrans; [exact H|].
    eapply (StronglySorted_lookup (key_le key) l i j); eauto. lia. }
  fold f. split.
  - intros H. case_match; [|done]. apply bool_decide_eq_true in H. subst.
    apply list_elem_of_fmap_2. eauto using list_elem_of_lookup_2.
  - intros H. apply list_elem_of_fmap in H as (y & -> & Hy).
    apply list_elem_of_lookup in Hy as [j Hj].
    assert (Search (length l) f <= j)%nat as Hsj.
    { destruct (decide (Search (length l) f <= j)%nat) as [|Hn]; [done|]. exfalso.
      assert (f j = true) as Hf by (unfold f; rewrite Hj; apply string_ge_le; reflexivity).
      rewrite Hlo in Hf; [done|lia]. }
    pose proof (lookup_lt_Some _ _ _ Hj) as Hjl.
    destruct (lookup_lt_is_Some_2 l (Search (length l) f)) as [x Hx]; [lia|]. rewrite Hx.
    apply bool_decide_eq_true. apply (anti_symm String.le).
    + by apply (StronglySorted_lookup (key_le key) l _ _ x y Hs Hsj Hx Hj).
    + assert (f (Search (length l) f) = true) as Hf by (apply Hhi; lia).
      unfold f at 1 in Hf. rewrite Hx in Hf. by apply string_ge_le.
Qed.

Lemma sort_by_sorted l : StronglySorted (key_le key) (sort_by key l).
Proof. apply StronglySorted_merge_sort; apply _. Qed.

Lemma sort_by_perm l : sort_by key l ≡ₚ l.
Proof. apply merge_sort_Permutation. Qed.

(** Sorting by distinct keys depends on the elements only, not on their
    order; sorting a sorted list changes nothing. *)
Lemma sort_by_unique l1 l2 :
  NoDup (key <$> l1) -> l1 ≡ₚ l2 -> sort_by key l1 = sort_by key l2.
Proof.
  intros Hnd Hp. apply (StronglySorted_unique_strong (key_le key)); try apply sort_by_sorted.
  - intros x y Hx Hy Hxy Hyx. rewrite sort_by_perm in Hx. rewrite sort_by_perm in Hy.
    assert (key x = key y) as E by by apply (anti_symm String.le).
    apply list_elem_of_lookup in Hx as [i Hi]. rewrite <- Hp in Hy.
    apply list_elem_of_lookup in Hy as [j Hj].
    assert (i = j) as ->.
    { eapply NoDup_lookup; [exact Hnd|..]; rewrite list_lookup_fmap; [by rewrite Hi|].
      rewrite Hj. cbn. by f_equal. }
    congruence.
  - rewrite !sort_by_perm. done.
Qed.
End sorted_search.

Lemma sort_strings_unique l1 l2 : l1 ≡ₚ l2 -> sort_strings l1 = sort_strings l2.
Proof.
  intros Hp. apply (StronglySorted_unique_strong (key_le (fun s : string => s)));
    try apply sort_by_sorted.
  - intros x y _ _ H1 H2. by apply (anti_symm String.le).
  - unfold sort_strings. by rewrite !sort_by_perm.
Qed.

#[export] Hint Resolve sort_by_sorted plain_trim plain_valid plain_no_control FormatUint_plain : go.
#[export] Hint Rewrite of_bytes_bytes bytes_app length_bytes string_length_app : go.

(** * Fixed-width digit sequences *)
Lemma len_cons a s : len (String a s) = 1 + len s.
Proof. unfold len. cbn [String.length]. lia. Qed.
Lemma len_nonneg s : 0 <= len s.
Proof. unfold len. lia. Qed.
Lemma len_app s1 s2 : len (String.append s1 s2) = len s1 + len s2.
Proof. unfold len. rewrite string_length_app. lia. Qed.

Lemma digit_val_range a : is_digit a = true -> 0 <= digit_val a <= 9.
Proof. unfold is_digit, is_digit_byte, byte_in, digit_val. intros. reflect_all. lia. Qed.

Lemma digit_val_inj a b : digit_val a = digit_val b -> a = b.
Proof. unfold digit_val. intros. apply byte_of_inj. lia. Qed.

Lemma horner_cons a s : horner 0 (String a s) = digit_val a * 10 ^ len s + horner 0 s.
Proof. cbn [horner]. by rewrite horner_acc. Qed.

Lemma horner_bound s : digit_string s = true -> 0 <= horner 0 s < 10 ^ len s.
Proof.
  induction s as [|a s IH]; [by intros|]. cbn [digit_string]. intros [Ha Hs]%andb_true_iff.
  specialize (IH Hs). rewrite horner_cons, len_cons, Z.pow_add_r by (pose proof (len_nonneg s); lia).
  apply digit_val_range in Ha. nia.
Qed.

Lemma horner_fixed_inj s1 s2 :
  digit_string s1 = true -> digit_string s2 = true -> len s1 = len s2 ->
  horner 0 s1 = horner 0 s2 -> s1 = s2.
Proof.
  revert s2. induction s1 as [|a s1 IH]; intros s2 H1 H2 Hlen Hh.
  { destruct s2 as [|b s2]; [done|]. rewrite len_cons in Hlen. pose proof (len_nonneg s2).
    change (len "") with 0 in Hlen. lia. }
  destruct s2 as [|b s2].
  { rewrite len_cons in Hlen. pose proof (len_nonneg s1). change (len "") with 0 in Hlen. lia. }
  rewrite !len_cons in Hlen. rewrite !horner_cons in Hh. cbn [digit_string] in H1, H2.
  apply andb_true_iff in H1 as [Ha H1]. apply andb_true_iff in H2 as [Hb H2].
  pose proof (horner_bound s1 H1). pose proof (horner_bound s2 H2).
  assert (len s1 = len s2) as E by lia. rewrite <- E in *.
  destruct (Z.div_mod_unique (10 ^ len s1) (digit_val a) (digit_val b) (horner 0 s1) (horner 0 s2))
    as [E1 E2]; [by left|by left|lia|].
  f_equal; [by apply digit_val_inj|]. by apply IH.
Qed.

Lemma digit_string_app s1 s2 :
  digit_string (String.append s1 s2) = digit_string s1 && digit_string s2.
Proof.
  induction s1 as [|a s1 IH]; [done|].
  change (String.append (String a s1) s2) with (String a (String.append s1 s2)).
  cbn [digit_string]. by rewrite IH, andb_assoc.
Qed.

Lemma digit_string_zeros n : digit_string (Repeat "0" n) = true.
Proof. induction n as [|n IH]; [done|]. cbn. apply IH. Qed.

Lemma len_zeros n : len (Repeat "0" n) = Z.of_nat n.
Proof.
  induction n as [|n IH]; [done|].
  change (Repeat "0" (S n)) with (String "0" (Repeat "0" n)). rewrite len_cons, IH. lia.
Qed.

(** A digit sequence that does not end in zero is recovered from its padding. *)
Lemma TrimRightZeros_zeros n : TrimRightZeros (Repeat "0" n) = "".
Proof.
  induction n as [|n IH]; [done|].
  change (Repeat "0" (S n)) with (String "0" (Repeat "0" n)). cbn [TrimRightZeros]. by rewrite IH.
Qed.

Definition ends_in_zero (s : string) : bool :=
  match last_byte s with Some b => b =? 48 | None => false end.

Lemma ends_in_zero_cons a b s : ends_in_zero (String a (String b s)) = ends_in_zero (String b s).
Proof. reflexivity. Qed.

Lemma TrimRightZeros_pad s n :
  ends_in_zero s = false -> TrimRightZeros (String.append s (Repeat "0" n)) = s.
Proof.
  induction s as [|a s IH]; intros He.
  - apply TrimRightZeros_zeros.
  - change (String.append (String a s) (Repeat "0" n))
      with (String a (String.append s (Repeat "0" n))). cbn [TrimRightZeros].
    destruct s as [|b s].
    + change (String.append "" (Repeat "0" n)) with (Repeat "0" n).
      rewrite TrimRightZeros_zeros. case_decide as Hd; [|done]. subst a. done.
    + rewrite IH by done. done.
Qed.

Lemma TrimRightZeros_decomp s :
  exists n, s = String.append (TrimRightZeros s) (Repeat "0" n).
Proof.
  induction s as [|a s [n IH]]; [by exists O|]. cbn [TrimRightZeros].
  destruct (TrimRightZeros s) as [|b t] eqn:E.
  - case_decide as Hd.
    + subst a. exists (S n). change (String.append "" (Repeat "0" (S n))) with (String "0" (Repeat "0" n)).
      by rewrite IH at 1.
    + exists n. change (String.append (String a "") (Repeat "0" n)) with (String a (Repeat "0" n)).
      by rewrite IH at 1.
  - exists n. rewrite IH at 1. reflexivity.
Qed.

Lemma TrimRightZeros_ends s : ends_in_zero (TrimRightZeros s) = false.
Proof.
  induction s as [|a s IH]; [done|]. cbn [TrimRightZeros].
  destruct (TrimRightZeros s) as [|b t] eqn:E; [|done].
  case_decide as Hd; [done|]. unfold ends_in_zero. cbn [last_byte].
  apply Z.eqb_neq. intros Hb. apply Hd. apply byte_of_inj. exact Hb.
Qed.

(** [strings.Split] cuts at the separators. *)
Lemma Split_join s sep :
  exists p ps, Split s sep = p :: ps /\
    s = foldl (fun acc q => String.append acc (String sep q)) p ps.
Proof.
  induction s as [|c s (p & ps & E & Hs)]; [by exists "", []|]. cbn [Split]. rewrite E.
  assert (forall a qs, String c (foldl (fun acc q => String.append acc (String sep q)) a qs)
    = foldl (fun acc q => String.append acc (String sep q)) (String c a) qs) as Hc.
  { intros a qs. revert a. induction qs as [|q qs IH]; intros a; [done|]. cbn [foldl]. by rewrite IH. }
  case_decide as Hd.
  - subst c. exists "", (p :: ps). split; [done|]. cbn [foldl].
    change (String.append "" (String sep p)) with (String sep p). by rewrite <- Hc, <- Hs.
  - exists (String c p), ps. split; [done|]. by rewrite <- Hc, <- Hs.
Qed.

Lemma Split_no_sep s sep :
  Forall (fun a => a <> sep) (String.list_ascii_of_string s) -> Split s sep = [s].
Proof.
  induction s as [|c s IH]; [done|]. cbn [String.list_ascii_of_string].
  intros [Hc Hs]%Forall_cons. cbn [Split]. rewrite IH by done. by rewrite decide_False.
Qed.

Lemma Split_app_sep s1 s2 sep :
  Forall (fun a => a <> sep) (String.list_ascii_of_string s1) ->
  Split (String.append s1 (String sep s2)) sep = s1 :: Split s2 sep.
Proof.
  induction s1 as [|c s1 IH]; cbn [String.list_ascii_of_string].
  - intros _. change (String.append "" (String sep s2)) with (String sep s2). cbn [Split].
    destruct (Split_join s2 sep) as (p & ps & E & _). rewrite E. by rewrite decide_True.
  - intros [Hc Hs]%Forall_cons.
    change (String.append (String c s1) (String sep s2)) with (String c (String.append s1 (String sep s2))).
    cbn [Split]. rewrite IH by done. by rewrite decide_False.
Qed.

Lemma digit_string_no_dot s :
  digit_string s = true -> Forall (fun a => a <> "."%char) (String.list_ascii_of_string s).
Proof.
  induction s as [|a s IH]; [constructor|]. cbn [digit_string String.list_ascii_of_string].
  intros [Ha Hs]%andb_true_iff. constructor; [by intros ->|auto].
Qed.

Lemma leading_zero_FormatUint n : leading_zero (FormatUint n) = false.
Proof.
  unfold FormatUint. set (u := N.to_uint (Z.to_N n)).
  assert (Decimal.unorm u = u) as Hu.
  { unfold u. by rewrite <- DecimalN.Unsigned.to_of, DecimalN.Unsigned.of_to. }
  destruct u as [|u|u|u|u|u|u|u|u|u|u]; unfold leading_zero;
    try (apply andb_false_intro2; reflexivity).
  assert (u = Decimal.Nil \/ u <> Decimal.Nil) as [->|Hne] by (destruct u; auto); [done|]. exfalso.
  pose proof (DecimalFacts.nb_digits_unorm u Hne) as Hle.
  assert (Decimal.unorm u = Decimal.D0 u) as E by exact Hu. rewrite E in Hle. cbn in Hle. lia.
Qed.

(** Numbers below a power of ten have that few digits. *)
Lemma len_FormatUint n k : 0 <= n < 10 ^ k -> 1 <= k -> len (FormatUint n) <= k.
Proof.
  intros [Hn Hlt] Hk. destruct (Z.le_gt_cases (len (FormatUint n)) k) as [|Hgt]; [done|exfalso].
  pose proof (leading_zero_FormatUint n) as Hlz. pose proof (digit_string_FormatUint n) as Hd.
  pose proof (parse_digits_horner _ _ (parse_FormatUint n Hn)) as Hh.
  destruct (FormatUint n) as [|a s]; [change (len "") with 0 in Hgt; lia|].
  rewrite len_cons in Hgt. cbn [digit_string] in Hd. apply andb_true_iff in Hd as [Ha Hs].
  pose proof (horner_bound s Hs). pose proof (digit_val_range a Ha). rewrite horner_cons in Hh.
  assert (digit_val a <> 0) as Hnz.
  { intros E. unfold leading_zero in Hlz. rewrite len_cons in Hlz. cbn [first_byte] in Hlz.
    apply andb_false_iff in Hlz as [Hl|Hl]; reflect_all; [lia|]. unfold digit_val in E. lia. }
  assert (10 ^ k <= 10 ^ len s) by (apply Z.pow_le_mono_r; lia). nia.
Qed.

Lemma BitLen_bound x : 0 <= x -> BitLen x <= 128 -> x < 2 ^ 128.
Proof.
  intros Hx. unfold BitLen. destruct (x =? 0) eqn:E; reflect_all; [subst; lia|].
  intros Hl. rewrite Z.abs_eq in Hl by lia. apply Z.log2_lt_pow2; lia.
Qed.
