(* ===== verification/GoTime.v ===== *)
(** [time.Time] and [time.Duration].

    An instant is its distance in nanoseconds from the zero time
    (0001-01-01T00:00:00 UTC), so the zero [time.Time] is [0].  Locations only
    affect display and [UTC()] is the identity on instants. *)
From Stdlib Require Import Ascii.
From S2P Require Import Prelude GoStrings.
Open Scope Z_scope.
Open Scope go_scope.

Abbreviation Time := Z (only parsing).
Abbreviation Duration := Z (only parsing).

Definition Nanosecond : Duration := 1.
Definition Microsecond : Duration := 1000.
Definition Second : Duration := 1000000000.
Definition Minute : Duration := 60 * Second.
Definition Hour : Duration := 60 * Minute.

Definition zero_time : Time := 0.
Definition IsZero (t : Time) : bool := t =? zero_time.
Definition Before (t u : Time) : bool := t <? u.
Definition After (t u : Time) : bool := u <? t.
Definition UTC (t : Time) : Time := t.
Definition Add (t : Time) (d : Duration) : Time := t + d.

(** [t.Sub(u)] saturates at the [int64] bounds. *)
Definition max_duration : Duration := 2 ^ 63 - 1.
Definition min_duration : Duration := - 2 ^ 63.
Definition Sub (t u : Time) : Duration := Z.max min_duration (Z.min max_duration (t - u)).

(** [t.Truncate(d)] for [d > 0]: down to a multiple of [d] since the zero time. *)
Definition Truncate (t : Time) (d : Duration) : Time := t - t mod d.

(** [t.Unix()] *)
Definition unix_epoch : Time := 62135596800 * Second.
Definition Unix (t : Time) : Z := (t - unix_epoch) / Second.
Definition of_unix (s : Z) : Time := unix_epoch + s * Second.

(** * [t.UTC().Format(time.RFC3339Nano)] *)
Record civil := Civil { c_year : Z; c_month : Z; c_day : Z }.

(** Proleptic Gregorian date of a day number counted from 0001-01-01, through
    the 400-year era that starts on March 1st. *)
Definition civil_of_days (days : Z) : civil :=
  let z := days + 306 in
  let era := z / 146097 in
  let doe := z mod 146097 in
  let yoe := (doe - doe / 1460 + doe / 36524 - doe / 146096) / 365 in
  let doy := doe - (365 * yoe + yoe / 4 - yoe / 100) in
  let mp := (5 * doy + 2) / 153 in
  let d := doy - (153 * mp + 2) / 5 + 1 in
  let m := if mp <? 10 then mp + 3 else mp - 9 in
  Civil (yoe + era * 400 + (if m <=? 2 then 1 else 0)) m d.

(** [appendInt(b, x, width)] *)
Definition pad_left (width : nat) (s : string) : string :=
  String.append (Repeat "0" (width - String.length s)) s.
Definition append_int (x : Z) (width : nat) : string :=
  if x <? 0 then String.append "-" (pad_left width (FormatUint (- x)))
  else pad_left width (FormatUint x).

Definition format_fraction (ns : Z) : string :=
  if ns =? 0 then "" else String.append "." (TrimRightZeros (pad_left 9 (FormatUint ns))).

Definition FormatRFC3339Nano (t : Time) : string :=
  let days := t / (86400 * Second) in
  let rest := t mod (86400 * Second) in
  let secs := rest / Second in
  let c := civil_of_days days in
  (append_int (c_year c) 4 +:+ "-" +:+ append_int (c_month c) 2 +:+ "-" +:+ append_int (c_day c) 2
   +:+ "T" +:+ append_int (secs / 3600) 2 +:+ ":" +:+ append_int (secs / 60 mod 60) 2
   +:+ ":" +:+ append_int (secs mod 60) 2 +:+ format_fraction (rest mod Second) +:+ "Z")%stdpp.

(** Dates the library documentation gives, and leap-year boundaries. *)
Example format_epoch : FormatRFC3339Nano (of_unix 0) = "1970-01-01T00:00:00Z".
Proof. reflexivity. Qed.
Example format_leap : FormatRFC3339Nano (of_unix 951782400 + 120000000) = "2000-02-29T00:00:00.12Z".
Proof. reflexivity. Qed.
Example format_zero : FormatRFC3339Nano zero_time = "0001-01-01T00:00:00Z".
Proof. reflexivity. Qed.

(** * Lemmas *)
Lemma Truncate_idemp t d : 0 < d -> Truncate (Truncate t d) d = Truncate t d.
Proof.
  intros Hd. unfold Truncate. rewrite Zminus_mod_idemp_r, Z.sub_diag, Zmod_0_l. lia.
Qed.

Lemma Truncate_bounds t d : 0 < d -> t - d < Truncate t d <= t.
Proof. intros Hd. unfold Truncate. pose proof (Z.mod_pos_bound t d Hd). lia. Qed.

Lemma Truncate_mono t u d : 0 < d -> t <= u -> Truncate t d <= Truncate u d.
Proof.
  intros Hd H. unfold Truncate.
  pose proof (Z.div_mod t d ltac:(lia)). pose proof (Z.div_mod u d ltac:(lia)).
  pose proof (Z.div_le_mono t u d Hd H). nia.
Qed.

(** * The fraction of a formatted instant determines the fraction of the instant *)
Definition nodot (s : string) : Prop := Forall (fun a => a <> "."%char) (String.list_ascii_of_string s).

Lemma nodot_app a b : nodot a -> nodot b -> nodot (String.append a b).
Proof.
  unfold nodot. induction a as [|c a IH]; [done|]. intros [Hc Ha]%Forall_cons Hb. constructor; auto.
Qed.

Lemma digit_string_pad_left w n : digit_string (pad_left w (FormatUint n)) = true.
Proof. unfold pad_left. by rewrite digit_string_app, digit_string_zeros, digit_string_FormatUint. Qed.

Lemma nodot_append_int x w : nodot (append_int x w).
Proof.
  unfold append_int. destruct (x <? 0).
  - apply (nodot_app "-"); [by repeat constructor|]. apply digit_string_no_dot, digit_string_pad_left.
  - apply digit_string_no_dot, digit_string_pad_left.
Qed.

(** [s] is [r] after a dotless prefix. *)
Definition after_nodot (r s : string) : Prop := exists p, s = String.append p r /\ nodot p.

Lemma after_nodot_refl r : after_nodot r r.
Proof. exists "". split; [done|constructor]. Qed.

Lemma after_nodot_app r a s : nodot a -> after_nodot r s -> after_nodot r (String.append a s).
Proof.
  intros Ha (p & -> & Hp). exists (String.append a p). split; [|by apply nodot_app].
  clear. induction a as [|c a IH]; [done|].
  change (String.append (String c a) (String.append p r)) with (String c (String.append a (String.append p r))).
  by rewrite IH.
Qed.

Lemma FormatRFC3339Nano_shape t :
  after_nodot (String.append (format_fraction (t mod Second)) "Z") (FormatRFC3339Nano t).
Proof.
  unfold FormatRFC3339Nano.
  assert (t mod (86400 * Second) mod Second = t mod Second) as ->.
  { rewrite Z.mul_comm, Z.rem_mul_r by done. by rewrite Z.mul_comm, Z_mod_plus_full, Z.mod_mod. }
  repeat (apply after_nodot_app; [first [apply nodot_append_int|by repeat constructor]|]).
  apply after_nodot_refl.
Qed.

Lemma digit_string_TrimRightZeros s : digit_string s = true -> digit_string (TrimRightZeros s) = true.
Proof.
  destruct (TrimRightZeros_decomp s) as [n E]. rewrite E at 1. rewrite digit_string_app.
  by intros [? _]%andb_true_iff.
Qed.

Lemma horner_pad_left w n : 0 <= n -> horner 0 (pad_left w (FormatUint n)) = n.
Proof.
  intros Hn. unfold pad_left. rewrite horner_app, horner_zeros, Z.mul_0_l. symmetry.
  apply parse_digits_horner. by apply parse_FormatUint.
Qed.

(** A number below ten to the [w] is recovered from its padded digits without
    the trailing zeros. *)
Lemma trimmed_fraction_value n m :
  0 <= n -> 0 <= m -> len (pad_left 9 (FormatUint n)) = len (pad_left 9 (FormatUint m)) ->
  TrimRightZeros (pad_left 9 (FormatUint n)) = TrimRightZeros (pad_left 9 (FormatUint m)) -> n = m.
Proof.
  intros Hn Hm Hlen E. rewrite <- (horner_pad_left 9 n Hn), <- (horner_pad_left 9 m Hm).
  destruct (TrimRightZeros_decomp (pad_left 9 (FormatUint n))) as [i Ei].
  destruct (TrimRightZeros_decomp (pad_left 9 (FormatUint m))) as [j Ej].
  rewrite Ei, Ej in Hlen. rewrite !len_app, !len_zeros, E in Hlen.
  assert (i = j) as -> by lia. rewrite Ei, Ej. by rewrite E.
Qed.

Lemma append_Z_inj a b : String.append a "Z" = String.append b "Z" -> a = b.
Proof.
  revert b. induction a as [|c a IH]; intros [|d b] E; try done.
  - injection E as <- E. by destruct b.
  - injection E as -> E. by destruct a.
  - injection E as -> E. f_equal. by apply IH.
Qed.

Lemma len_pad_left w n : 0 <= n < 10 ^ Z.of_nat w -> (1 <= w)%nat -> len (pad_left w (FormatUint n)) = Z.of_nat w.
Proof.
  intros Hn Hw. pose proof (len_FormatUint n (Z.of_nat w) Hn ltac:(lia)).
  unfold pad_left. rewrite len_app, len_zeros. unfold len in *. lia.
Qed.

Lemma format_fraction_Z_inj n m :
  0 <= n < Second -> 0 <= m < Second ->
  String.append (format_fraction n) "Z" = String.append (format_fraction m) "Z" -> n = m.
Proof.
  intros Hn Hm E%append_Z_inj. unfold format_fraction in E.
  destruct (n =? 0) eqn:E1, (m =? 0) eqn:E2; reflect_all; try done; [lia|].
  assert (TrimRightZeros (pad_left 9 (FormatUint n)) = TrimRightZeros (pad_left 9 (FormatUint m))) as Et
    by (by injection E).
  apply trimmed_fraction_value; try lia; [|done].
  rewrite !len_pad_left; [done|by change (10 ^ Z.of_nat 9) with Second|lia|by change (10 ^ Z.of_nat 9) with Second|lia].
Qed.

(** Equal formats, equal nanoseconds within the second. *)
Lemma FormatRFC3339Nano_fraction t u :
  FormatRFC3339Nano t = FormatRFC3339Nano u -> t mod Second = u mod Second.
Proof.
  intros E. destruct (FormatRFC3339Nano_shape t) as (p & Ep & Hp), (FormatRFC3339Nano_shape u) as (q & Eq & Hq).
  pose proof (Z.mod_pos_bound t Second ltac:(done)) as Bt. pose proof (Z.mod_pos_bound u Second ltac:(done)) as Bu.
  rewrite Ep, Eq in E. apply (f_equal (fun s => Split s ".")) in E.
  set (n := t mod Second) in *. set (m := u mod Second) in *.
  assert (forall x, 0 <= x < Second -> format_fraction x = "" /\ x = 0 \/
            exists d, format_fraction x = String "." d /\ nodot (String.append d "Z")) as Hf.
  { intros x Hx. unfold format_fraction. destruct (x =? 0) eqn:Ex; [left; reflect_all; done|right].
    eexists. split; [reflexivity|]. apply nodot_app; [|by repeat constructor].
    apply digit_string_no_dot, digit_string_TrimRightZeros, digit_string_pad_left. }
  assert (forall r x d, nodot r -> format_fraction x = String "." d -> nodot (String.append d "Z") ->
            Split (String.append r (String.append (format_fraction x) "Z")) "." = [r; String.append d "Z"]) as Hs2.
  { intros r x d Hr Hd Hn. rewrite Hd. change (String.append (String "." d) "Z") with (String "." (String.append d "Z")).
    rewrite Split_app_sep by done. by rewrite Split_no_sep. }
  assert (forall r x, nodot r -> format_fraction x = "" ->
            Split (String.append r (String.append (format_fraction x) "Z")) "." = [String.append r "Z"]) as Hs1.
  { intros r x Hr Hd. rewrite Hd. apply Split_no_sep. apply nodot_app; [done|by repeat constructor]. }
  destruct (Hf n Bt) as [[Fn Zn]|(d & Fn & Dn)], (Hf m Bu) as [[Fm Zm]|(d' & Fm & Dm)].
  - congruence.
  - by rewrite (Hs1 p n Hp Fn), (Hs2 q m d' Hq Fm Dm) in E.
  - by rewrite (Hs2 p n d Hp Fn Dn), (Hs1 q m Hq Fm) in E.
  - rewrite (Hs2 p n d Hp Fn Dn), (Hs2 q m d' Hq Fm Dm) in E.
    assert (String.append d "Z" = String.append d' "Z") as E' by (by injection E).
    apply format_fraction_Z_inj; [done..|]. rewrite Fn, Fm.
    change (String "." (String.append d "Z") = String "." (String.append d' "Z")). by rewrite E'.
Qed.
