(* ===== verification/Sha256.v ===== *)
(** [crypto/sha256]: [Sum256] on a byte sequence (FIPS 180-4). *)
From Stdlib Require Import PrimInt63 Uint63Axioms.
From S2P Require Import Prelude GoStrings.
Open Scope Z_scope.

(** * 32-bit words

    A [uint32] is a machine integer below [2 ^ 32]; sums and left shifts, the
    only operations that leave the range, are masked. *)
Section word_operations.
#[local] Open Scope uint63_scope.

Definition mask32 : int := 0xFFFFFFFF.
Definition add32 (x y : int) : int := land (add x y) mask32.
Definition rotr (x n : int) : int := lor (lsr x n) (land (lsl x (sub 32 n)) mask32).

Definition small_sigma0 (x : int) : int := lxor (lxor (rotr x 7) (rotr x 18)) (lsr x 3).
Definition small_sigma1 (x : int) : int := lxor (lxor (rotr x 17) (rotr x 19)) (lsr x 10).
Definition big_sigma0 (x : int) : int := lxor (lxor (rotr x 2) (rotr x 13)) (rotr x 22).
Definition big_sigma1 (x : int) : int := lxor (lxor (rotr x 6) (rotr x 11)) (rotr x 25).
Definition choose (e f g : int) : int := lxor (land e f) (land (lxor e mask32) g).
Definition majority (a b c : int) : int := lxor (lxor (land a b) (land a c)) (land b c).

Definition round_constants : list int :=
  ([0x428a2f98; 0x71374491; 0xb5c0fbcf; 0xe9b5dba5] ++ [0x3956c25b; 0x59f111f1; 0x923f82a4; 0xab1c5ed5] ++
   [0xd807aa98; 0x12835b01; 0x243185be; 0x550c7dc3] ++ [0x72be5d74; 0x80deb1fe; 0x9bdc06a7; 0xc19bf174] ++
   [0xe49b69c1; 0xefbe4786; 0x0fc19dc6; 0x240ca1cc] ++ [0x2de92c6f; 0x4a7484aa; 0x5cb0a9dc; 0x76f988da] ++
   [0x983e5152; 0xa831c66d; 0xb00327c8; 0xbf597fc7] ++ [0xc6e00bf3; 0xd5a79147; 0x06ca6351; 0x14292967] ++
   [0x27b70a85; 0x2e1b2138; 0x4d2c6dfc; 0x53380d13] ++ [0x650a7354; 0x766a0abb; 0x81c2c92e; 0x92722c85] ++
   [0xa2bfe8a1; 0xa81a664b; 0xc24b8b70; 0xc76c51a3] ++ [0xd192e819; 0xd6990624; 0xf40e3585; 0x106aa070] ++
   [0x19a4c116; 0x1e376c08; 0x2748774c; 0x34b0bcb5] ++ [0x391c0cb3; 0x4ed8aa4a; 0x5b9cca4f; 0x682e6ff3] ++
   [0x748f82ee; 0x78a5636f; 0x84c87814; 0x8cc70208] ++ [0x90befffa; 0xa4506ceb; 0xbef9a3f7; 0xc67178f2])%list.

Record digest_state := DS { d_a : int; d_b : int; d_c : int; d_d : int; d_e : int; d_f : int; d_g : int; d_h : int }.

Definition initial_state : digest_state :=
  DS 0x6a09e667 0xbb67ae85 0x3c6ef372 0xa54ff53a 0x510e527f 0x9b05688c 0x1f83d9ab 0x5be0cd19.
End word_operations.

(** Message padding to a multiple of 64 bytes. *)
Fixpoint be_bytes (n : nat) (x : Z) : list Z :=
  match n with O => [] | S n => be_bytes n (x / 256) ++ [x mod 256] end.
Definition padding (l : list Z) : list Z :=
  let n := Z.of_nat (length l) in
  l ++ [0x80] ++ replicate (Z.to_nat ((55 - n) mod 64)) 0 ++ be_bytes 8 (8 * n).

Fixpoint words (l : list Z) : list int :=
  match l with
  | a :: b :: c :: d :: t => of_Z (((a * 256 + b) * 256 + c) * 256 + d) :: words t
  | _ => []
  end.

(** The message schedule, latest word first. *)
Fixpoint schedule (n : nat) (w : list int) : list int :=
  match n with
  | O => w
  | S n =>
      let x := add32 (add32 (small_sigma1 (nth 1 w 0%uint63)) (nth 6 w 0%uint63))
                     (add32 (small_sigma0 (nth 14 w 0%uint63)) (nth 15 w 0%uint63)) in
      schedule n (x :: w)
  end.

Definition sha_round (s : digest_state) (kw : int * int) : digest_state :=
  let '(DS a b c d e f g h) := s in
  let t1 := add32 (add32 (add32 h (big_sigma1 e)) (add32 (choose e f g) (fst kw))) (snd kw) in
  let t2 := add32 (big_sigma0 a) (majority a b c) in
  DS (add32 t1 t2) a b c (add32 d t1) e f g.

Definition compress (s : digest_state) (block : list Z) : digest_state :=
  let w := reverse (schedule 48 (reverse (words block))) in
  let '(DS a b c d e f g h) := s in
  let '(DS a' b' c' d' e' f' g' h') := fold_left sha_round (combine round_constants w) s in
  DS (add32 a a') (add32 b b') (add32 c c') (add32 d d')
     (add32 e e') (add32 f f') (add32 g g') (add32 h h').

Fixpoint compress_all (blocks : nat) (s : digest_state) (l : list Z) : digest_state :=
  match blocks with
  | O => s
  | S n => compress_all n (compress s (take 64 l)) (drop 64 l)
  end.

Definition Sum256 (l : list Z) : list Z :=
  let p := padding l in
  let '(DS a b c d e f g h) := compress_all (length p / 64) initial_state p in
  be_bytes 4 (to_Z a) ++ be_bytes 4 (to_Z b) ++ be_bytes 4 (to_Z c) ++ be_bytes 4 (to_Z d) ++
  be_bytes 4 (to_Z e) ++ be_bytes 4 (to_Z f) ++ be_bytes 4 (to_Z g) ++ be_bytes 4 (to_Z h).

(** [hex.EncodeToString(sha256.Sum256([]byte(s))[:])] *)
Definition sha256_hex (s : string) : string := EncodeToString (Sum256 (bytes s)).

(** FIPS 180-4 test vectors. *)
Example sha256_abc :
  sha256_hex "abc" = "ba7816bf8f01cfea414140de5dae2223b00361a396177a9cb410ff61f20015ad".
Proof. vm_compute. reflexivity. Qed.
Example sha256_two_blocks :
  sha256_hex "abcdbcdecdefdefgefghfghighijhijkijkljklmklmnlmnomnopnopq"
  = "248d6a61d20638b8e5c026930c3e6039a33ce45964ff2167f6ecedd419db06c1".
Proof. vm_compute. reflexivity. Qed.

(** * Lemmas *)
Lemma be_bytes_range n x : Forall (fun b => 0 <= b < 256) (be_bytes n x).
Proof.
  revert x. induction n as [|n IH]; intros x; cbn; [constructor|].
  apply Forall_app. split; [apply IH|]. repeat constructor; apply Z.mod_pos_bound; lia.
Qed.

Lemma be_bytes_length n x : length (be_bytes n x) = n.
Proof. revert x. induction n as [|n IH]; intros x; cbn; [done|]. rewrite length_app, IH. cbn. lia. Qed.

Lemma Sum256_range l : Forall (fun b => 0 <= b < 256) (Sum256 l).
Proof. unfold Sum256. destruct (compress_all _ _ _). rewrite !Forall_app. auto 10 using be_bytes_range. Qed.

Lemma Sum256_length l : length (Sum256 l) = 32%nat.
Proof. unfold Sum256. destruct (compress_all _ _ _). rewrite !length_app, !be_bytes_length. done. Qed.

Lemma sha256_hex_plain s : plain (sha256_hex s) = true.
Proof. apply EncodeToString_plain, Sum256_range. Qed.

Lemma sha256_hex_length s : String.length (sha256_hex s) = 64%nat.
Proof. unfold sha256_hex. by rewrite EncodeToString_length, Sum256_length. Qed.

Lemma sha256_hex_nonempty s : sha256_hex s <> "".
Proof. intros H. pose proof (sha256_hex_length s) as E. rewrite H in E. done. Qed.

(** Two different messages with one hash. *)
Definition collision (m1 m2 : string) : Prop :=
  m1 <> m2 /\ Sum256 (bytes m1) = Sum256 (bytes m2).

(** Equal hexadecimal digests come from equal messages, or those very
    messages collide. *)
Lemma sha256_hex_binding s1 s2 : sha256_hex s1 = sha256_hex s2 -> s1 = s2 \/ collision s1 s2.
Proof.
  intros H. apply EncodeToString_inj in H; [|apply Sum256_range..].
  destruct (decide (s1 = s2)) as [E|E]; [by left|by right].
Qed.

#[export] Hint Resolve sha256_hex_plain sha256_hex_nonempty : go.
