(* ===== verification/AppErrors.v ===== *)
(** internal/errors: the application error, its public projection, and the
    [error] values of the whole program. *)
From S2P Require Import Prelude GoStrings.
Open Scope go_scope.

(** [errors.Code]; [CodeOther] is any string outside the published set. *)
Inductive Code : Type :=
  | CodeValidationError | CodeAuthenticationRequired | CodeAuthorizationRequired
  | CodeApprovalRequired | CodeIdentityNotFound | CodeIdentitySuspended | CodeIdentityRevoked
  | CodeWalletNotBound | CodeWalletMismatch | CodeWalletRevoked | CodeIntentNotFound
  | CodeIntentExpired | CodeIntentMutated | CodeApprovalNotFound | CodeApprovalExpired
  | CodeApprovalRejected | CodeApprovalAlreadyConsumed | CodePolicyNotFound | CodePolicyInvalid
  | CodePolicyDenied | CodePolicyExpired | CodePolicyDisabled | CodeReviewRequired
  | CodeCapabilityNotFound | CodeCapabilityUnavailable | CodeCapabilityConflict
  | CodeProviderNotFound | CodeProviderUnavailable | CodeProviderConflict
  | CodeContractNotFound | CodeContractUnavailable | CodeContractConflict
  | CodeExecutionNotFound | CodeExecutionInvalid | CodeExecutionNotAuthorized
  | CodeExecutionConflict | CodeExecutionFailed | CodeExecutionRecoverable
  | CodeInternalError
  | CodeOther (raw : string).
#[global] Instance Code_eq_dec : EqDecision Code.
Proof. solve_decision. Defined.

Definition Code_valid (c : Code) : bool :=
  match c with CodeOther _ => false | _ => true end.

(** Every [error] of the program: [errors.Error] with its cause, the values
    of [fmt.Errorf] (format, string arguments and the error behind [%w]), the
    adapter and verifier errors of the execution runtime, the database errors
    of the driver with their SQLSTATE, and named sentinels such as
    [pgx.ErrNoRows]. *)
#[warnings="-register-all"]
Inductive error : Type :=
  | AppError (code : Code) (SafeMessage : string)
      (Retryable UserActionRequired Terminal : bool) (cause : option error)
  | Errorf (format : string) (args : list string) (wrapped : option error)
  | AdapterError (Kind ReasonCode : string)
  | VerificationError (ReasonCode : string)
  | PgError (SQLSTATE : string)
  | Sentinel (name : string).

Abbreviation result := (outcome error).

Definition New (code : Code) (msg : string) (retryable userAction terminal : bool) : error :=
  AppError code msg retryable userAction terminal None.
Definition Wrap (code : Code) (msg : string) (retryable userAction terminal : bool)
    (cause : error) : error :=
  AppError code msg retryable userAction terminal (Some cause).

Definition errorf (format : string) : error := Errorf format [] None.
Definition errorf1 (format a : string) : error := Errorf format [a] None.
Definition errorf2 (format a b : string) : error := Errorf format [a; b] None.
Definition errorf_wrap (format : string) (args : list string) (e : error) : error :=
  Errorf format args (Some e).

Definition internalMessage : string := "An internal error occurred.".

(** The [Error] method of an application error. *)
Definition Error_message (e : error) : option string :=
  match e with
  | AppError _ msg _ _ _ _ => Some (if msg == "" then internalMessage else msg)
  | _ => None
  end.

(** [errors.Unwrap] *)
Definition Unwrap (e : error) : option error :=
  match e with
  | AppError _ _ _ _ _ cause => cause
  | Errorf _ _ wrapped => wrapped
  | _ => None
  end.

(** [errors.As(err, target)]: the first error of the chain the target accepts. *)
Fixpoint errors_As {A} (target : error -> option A) (e : error) : option A :=
  match target e with
  | Some a => Some a
  | None =>
      match e with
      | AppError _ _ _ _ _ (Some cause) => errors_As target cause
      | Errorf _ _ (Some wrapped) => errors_As target wrapped
      | _ => None
      end
  end.

Record PublicError := MkPublicError {
  pub_Code : Code; pub_Message : string;
  pub_Retryable : bool; pub_UserActionRequired : bool; pub_Terminal : bool
}.
#[global] Instance PublicError_eq_dec : EqDecision PublicError.
Proof. solve_decision. Defined.

Definition as_app (e : error) : option PublicError :=
  match e with
  | AppError c msg r u t _ => Some (MkPublicError c msg r u t)
  | _ => None
  end.

Definition internal_public : PublicError :=
  MkPublicError CodeInternalError internalMessage false false false.

(** [ToPublic]; [None] is the nil error. *)
Definition ToPublic (err : option error) : PublicError :=
  match err with
  | None => internal_public
  | Some e =>
      match errors_As as_app e with
      | Some p =>
          if Code_valid (pub_Code p)
          then MkPublicError (pub_Code p)
                 (if pub_Message p == "" then internalMessage else pub_Message p)
                 (pub_Retryable p) (pub_UserActionRequired p) (pub_Terminal p)
          else internal_public
      | None => internal_public
      end
  end.

(** The code a caller dispatches on. *)
Definition error_code (e : error) : option Code := pub_Code <$> errors_As as_app e.

(** Structural replacement of everything below the application error: causes
    and format arguments. *)
Fixpoint same_surface (e1 e2 : error) : Prop :=
  match e1, e2 with
  | AppError c1 m1 r1 u1 t1 _, AppError c2 m2 r2 u2 t2 _ =>
      c1 = c2 /\ m1 = m2 /\ r1 = r2 /\ u1 = u2 /\ t1 = t2
  | Errorf _ _ (Some w1), Errorf _ _ (Some w2) => same_surface w1 w2
  | AppError _ _ _ _ _ _, _ | _, AppError _ _ _ _ _ _ => False
  | Errorf _ _ (Some _), _ | _, Errorf _ _ (Some _) => False
  | _, _ => True
  end.

Lemma errors_As_same_surface e1 e2 :
  same_surface e1 e2 -> errors_As as_app e1 = errors_As as_app e2.
Proof.
  revert e1 e2. fix IH 1. intros e1 e2 H.
  destruct e1 as [c1 m1 r1 u1 t1 k1|f1 a1 [w1|]|? ?|?|?|?],
           e2 as [c2 m2 r2 u2 t2 k2|f2 a2 [w2|]|? ?|?|?|?]; cbn in *;
    try done.
  - by destruct H as (-> & -> & -> & -> & ->).
  - by apply IH.
Qed.

(** The public projection is a function of the safe fields only: two
    errors that differ in causes, wrapped details, formats or arguments are
    indistinguishable to a client, and the projected code is always one of
    the published codes with a nonempty message. *)
Theorem ToPublic_safe (e1 e2 : error) :
  same_surface e1 e2 ->
  ToPublic (Some e1) = ToPublic (Some e2) /\
  Code_valid (pub_Code (ToPublic (Some e1))) = true /\
  pub_Message (ToPublic (Some e1)) <> "".
Proof.
  intros H. split_and!.
  - unfold ToPublic. by rewrite (errors_As_same_surface _ _ H).
  - unfold ToPublic. repeat case_match; done.
  - unfold ToPublic. repeat case_match; cbn; try done. by case_bool_decide.
Qed.

Lemma ToPublic_safe_witness :
  ToPublic (Some (Wrap CodePolicyInvalid "Policy is invalid." false true true (errorf "secret")))
  = ToPublic (Some (New CodePolicyInvalid "Policy is invalid." false true true)).
Proof. apply ToPublic_safe. cbn. auto. Defined.
