(* ===== verification/Contracts.v ===== *)
(** internal/contracts: EVM address handling (address.go) and the canonical
    Arc Mainnet resources the intent and policy layers rely on (resources.go,
    constants of deployment.go). *)
From S2P Require Import Prelude GoStrings AppErrors.
Open Scope Z_scope.
Open Scope go_scope.

(** go-ethereum's [common.IsHexAddress] is outside the repository. *)
Class EthCommon := IsHexAddress : string -> bool.

Definition is_hex_byte (b : Z) : bool :=
  byte_in 48 57 b || byte_in 97 102 b || byte_in 65 70 b.
Definition has_hex_prefix_bytes (l : list Z) : bool :=
  match l with b0 :: b1 :: _ => (b0 =? 48) && ((b1 =? 120) || (b1 =? 88)) | _ => false end.
Definition strip_hex_prefix (l : list Z) : list Z :=
  if has_hex_prefix_bytes l then drop 2 l else l.

(** Its documented behaviour: "verifies whether a string can represent a valid
    hex-encoded Ethereum address or not", with or without the 0x prefix. *)
Class EthCommonSpec `{EthCommon} : Prop :=
  IsHexAddress_spec : forall s,
    IsHexAddress s = (length (strip_hex_prefix (bytes s)) =? 40)%nat
                     && forallb is_hex_byte (strip_hex_prefix (bytes s)).

(** An implementation with that behaviour, for concrete evaluation. *)
Module Eth.
Definition is_hex_address : EthCommon := fun s =>
  (length (strip_hex_prefix (bytes s)) =? 40)%nat
  && forallb is_hex_byte (strip_hex_prefix (bytes s)).
Lemma is_hex_address_spec : @EthCommonSpec is_hex_address.
Proof. intros s. reflexivity. Qed.
(** Any table will do for strings without non-ASCII letters. *)
Definition no_folding : UnicodeTables := fun r => r.
End Eth.

(** * Constants *)
Definition RegistryVersion : Z := 1.
Definition ContractWizPayPayroll : string := "WIZPAY_PAYROLL".
Definition ContractWizPaySwapExecutor : string := "WIZPAY_SWAP_EXECUTOR".
Definition ChainIDArcMainnet : string := "5042".
Definition NetworkArcMainnet : string := "MAINNET".
Definition AddressWizPayPayroll : string := "0x77AC7Cb6507D404b5530fC03e3D39BAaEdE10C34".
Definition AddressWizPaySwapExecutor : string := "0x7A051F17B237750EF9D4E63fb75381B9F8755774".
Definition AddressUSDCMainnet : string := "0x3600000000000000000000000000000000000000".
Definition AddressEURCMainnet : string := "0xbEf5f6d51CB62b58e6A8f77868681825C6fe21c1".
Definition AddressUniswapUniversalRouter : string := "0x4fca4a51ab4f23a7447b3284fbd7d73289a89fb1".
Definition CanonicalTokenDecimals : Z := 6.
Definition ContractMaxFeeBPS : Z := 100.
Definition zero_address : string := "0x0000000000000000000000000000000000000000".

Record TokenResource := MkTokenResource {
  res_Symbol : string; res_ChainID : string; res_Network : string;
  res_Address : string; res_Decimals : Z
}.

(** [DefaultArcMainnetResources().Tokens] *)
Definition ArcMainnetTokens : list TokenResource :=
  [ MkTokenResource "USDC" ChainIDArcMainnet NetworkArcMainnet AddressUSDCMainnet CanonicalTokenDecimals;
    MkTokenResource "EURC" ChainIDArcMainnet NetworkArcMainnet AddressEURCMainnet CanonicalTokenDecimals ].

Definition CanonicalToken (symbol : string) : result TokenResource :=
  match list_find (fun t => res_Symbol t = symbol) ArcMainnetTokens with
  | Some (_, t) => Ok t
  | None => Err (errorf1 "token %q is not registered for Arc Mainnet" symbol)
  end.

(** * Addresses *)
Section address.
Context `{EthCommon} `{UnicodeTables}.

Definition hasHexPrefix (value : string) : bool := has_hex_prefix_bytes (bytes value).

Definition ValidAddress (value : string) : bool :=
  hasHexPrefix value && (len value =? 42) && IsHexAddress value.

Definition NormalizeAddress (value : string) : string :=
  let value := TrimSpace value in
  if negb (ValidAddress value) then value else ToLower value.

Definition AddressesEqual (a b : string) : bool :=
  if negb (ValidAddress a) || negb (ValidAddress b) then false
  else NormalizeAddress a == NormalizeAddress b.

(** Comparison is an equivalence on valid addresses and false elsewhere. *)
Lemma AddressesEqual_spec a b :
  AddressesEqual a b = true <->
  ValidAddress a = true /\ ValidAddress b = true /\ NormalizeAddress a = NormalizeAddress b.
Proof.
  unfold AddressesEqual. destruct (ValidAddress a), (ValidAddress b); cbn; try naive_solver.
  rewrite bool_decide_eq_true. naive_solver.
Qed.

Lemma AddressesEqual_sym a b : AddressesEqual a b = AddressesEqual b a.
Proof. apply eq_true_iff_eq. rewrite !AddressesEqual_spec. naive_solver. Qed.

Lemma AddressesEqual_trans a b c :
  AddressesEqual a b = true -> AddressesEqual b c = true -> AddressesEqual a c = true.
Proof. rewrite !AddressesEqual_spec. intros (?&?&?) (?&?&?). split_and!; congruence. Qed.
End address.

Section address_spec.
Context `{EthCommonSpec} `{UnicodeTables}.

Lemma hex_byte_plain b : is_hex_byte b = true -> plain_byte b = true.
Proof.
  unfold is_hex_byte, plain_byte, byte_in. intros Hb.
  apply orb_true_iff in Hb as [[Hb|Hb]%orb_true_iff|Hb]; reflect_all; lia.
Qed.

(** A valid address is a prefix and forty hexadecimal digits. *)
Lemma ValidAddress_shape s :
  ValidAddress s = true <->
  exists x l, bytes s = 48 :: x :: l /\ (x = 120 \/ x = 88) /\ length l = 40%nat /\
              forallb is_hex_byte l = true.
Proof.
  unfold ValidAddress, hasHexPrefix. rewrite IsHexAddress_spec.
  unfold len. rewrite <- length_bytes. unfold strip_hex_prefix.
  destruct (bytes s) as [|b0 [|b1 l]]; cbn [has_hex_prefix_bytes];
    [split; [done|naive_solver]..|].
  cbn [length drop]. rewrite !andb_true_iff, orb_true_iff, !Z.eqb_eq. split.
  - intros [[[-> Hx] Hlen] [Hn Hh]].
    assert ((48 =? 48) && ((b1 =? 120) || (b1 =? 88)) = true) as E.
    { apply andb_true_iff. by rewrite orb_true_iff, !Z.eqb_eq. }
    rewrite E in Hn, Hh. cbn [drop] in Hn, Hh. apply Nat.eqb_eq in Hn. eauto 10.
  - intros (x & l' & [= -> -> ->] & Hx & Hlen & Hhex). rewrite Hlen.
    assert ((48 =? 48) && ((x =? 120) || (x =? 88)) = true) as ->.
    { by destruct Hx as [-> | ->]. }
    rewrite drop_0, Hlen, Hhex. split_and!; done.
Qed.

Lemma ValidAddress_plain s : ValidAddress s = true -> plain s = true.
Proof.
  intros (x & l & Hs & Hx & _ & Hl)%ValidAddress_shape. unfold plain. rewrite Hs. cbn [forallb].
  assert (forallb plain_byte l = true) as ->.
  { rewrite forallb_forall in Hl |- *. intros. by apply hex_byte_plain, Hl. }
  by destruct Hx as [-> | ->].
Qed.

Lemma lower_hex_byte b : is_hex_byte b = true -> is_hex_byte (lower_byte b) = true.
Proof.
  unfold is_hex_byte, lower_byte, byte_in. intros Hb.
  rewrite !orb_true_iff, !andb_true_iff, !Z.leb_le in *.
  destruct ((65 <=? b) && (b <=? 90)) eqn:E; [reflect_all; lia|].
  apply andb_false_iff in E. rewrite !Z.leb_gt in E. lia.
Qed.

Lemma ToLower_ascii s : is_ascii_string s = true -> bytes (ToLower s) = lower_byte <$> bytes s.
Proof.
  intros Ha. unfold ToLower. rewrite Ha. apply bytes_of_bytes.
  rewrite Forall_fmap. eapply Forall_impl; [apply bytes_range|].
  intros b Hb. cbn in *. unfold lower_byte, byte_in. case_match; reflect_all; lia.
Qed.

Lemma lower_byte_idemp b : lower_byte (lower_byte b) = lower_byte b.
Proof.
  unfold lower_byte, byte_in. destruct ((65 <=? b) && (b <=? 90)) eqn:E; [|by rewrite E].
  reflect_all. replace ((65 <=? b + 32) && (b + 32 <=? 90)) with false; [done|].
  symmetry. apply andb_false_iff. right. apply Z.leb_gt. lia.
Qed.

Lemma valid_ascii s : ValidAddress s = true -> is_ascii_string s = true.
Proof. intros Hv. by apply plain_ascii, ValidAddress_plain. Qed.

Lemma NormalizeAddress_valid s :
  ValidAddress s = true -> bytes (NormalizeAddress s) = lower_byte <$> bytes s.
Proof.
  intros Hv. unfold NormalizeAddress. rewrite plain_trim by by apply ValidAddress_plain.
  rewrite Hv. cbn. apply ToLower_ascii. by apply valid_ascii.
Qed.

Lemma NormalizeAddress_is_valid s :
  ValidAddress s = true -> ValidAddress (NormalizeAddress s) = true.
Proof.
  intros Hv. pose proof Hv as (x & l & Hs & Hx & Hlen & Hl)%ValidAddress_shape.
  apply ValidAddress_shape. rewrite NormalizeAddress_valid, Hs by done.
  exists 120, (lower_byte <$> l). cbn [fmap list_fmap].
  split_and!; [by destruct Hx as [-> | ->]|by left|by rewrite length_fmap|].
  rewrite forallb_forall in Hl |- *. intros b (c & <- & Hc)%in_map_iff.
  apply lower_hex_byte. auto.
Qed.

(** Normalisation is idempotent: a second pass keeps every frozen address. *)
Lemma NormalizeAddress_idemp s :
  ValidAddress s = true -> NormalizeAddress (NormalizeAddress s) = NormalizeAddress s.
Proof.
  intros Hv. apply bytes_inj.
  rewrite (NormalizeAddress_valid (NormalizeAddress s)) by by apply NormalizeAddress_is_valid.
  rewrite NormalizeAddress_valid by done.
  rewrite <- list_fmap_compose. apply list_fmap_ext. intros. apply lower_byte_idemp.
Qed.
End address_spec.
