(* ===== verification/IntentTypes.v ===== *)
(** internal/intents/types.go and address.go: the financial data model —
    exact amounts, tokens, the closed union of parameter shapes — and its
    text, chain and address validation. *)
From Stdlib Require Import Ascii.
From S2P Require Import Prelude GoStrings GoTime AppErrors Contracts.
Open Scope Z_scope.
Open Scope go_scope.

Definition maxTextLength : Z := 256.

(** [intents.Type]; [TypeOther] is any string outside the closed set. *)
Inductive Type_ : Set :=
  | TypeSend | TypePayroll | TypeSwap | TypeBridge | TypeANSRegistration
  | TypeOther (raw : string).
#[global] Instance Type_eq_dec : EqDecision Type_.
Proof. solve_decision. Defined.

Definition Type_string (t : Type_) : string :=
  match t with
  | TypeSend => "SEND" | TypePayroll => "PAYROLL" | TypeSwap => "SWAP"
  | TypeBridge => "BRIDGE" | TypeANSRegistration => "ANS_REGISTRATION"
  | TypeOther raw => raw
  end.
Definition Type_Valid (t : Type_) : bool :=
  match t with TypeOther _ => false | _ => true end.

(** * Text *)
Definition validateText (name value : string) : result unit :=
  do! fail_if (negb (ValidString value)) (errorf1 "%s must be valid UTF-8" name);
  do! fail_if ((value == "") || (TrimSpace value != value))
        (errorf1 "%s is required and must not contain surrounding whitespace" name);
  do! fail_if (maxTextLength <? len value)
        (errorf2 "%s exceeds %d characters" name (FormatInt maxTextLength));
  do! fail_if (has_control value) (errorf1 "%s contains control characters" name);
  Ok tt.

Definition validateChainID (value : string) : result unit :=
  let e := errorf "chain ID must be a canonical positive decimal string" in
  do! fail_if ((value == "") || (20 <? len value)
               || (match first_byte value with Some b => b =? 48 | None => false end)) e;
  do! fail_if (negb (all_digits value)) e;
  Ok tt.

(** * Amounts *)
Record Amount := MkAmount { amt_Decimal : string; amt_BaseUnits : string; amt_Decimals : Z }.
#[global] Instance Amount_eq_dec : EqDecision Amount.
Proof. solve_decision. Defined.
Definition zero_amount : Amount := MkAmount "" "" 0.

Definition decimalToBaseUnits (value : string) (decimals : Z) : result Z :=
  let canonical := errorf "amount decimal must be a canonical non-negative decimal string" in
  do! fail_if ((value == "") || (TrimSpace value != value)
               || HasPrefix value "+" || HasPrefix value "-") canonical;
  let parts := Split value "." in
  let part0 := nth 0 parts "" in
  do! fail_if ((2 <? Z.of_nat (length parts)) || (part0 == "") || leading_zero part0) canonical;
  do! fail_if (negb (all_digits part0)) canonical;
  let! fraction :=
    if Z.of_nat (length parts) =? 2 then
      let fraction := nth 1 parts "" in
      do! fail_if ((fraction == "") || (decimals <? len fraction)
                   || (match last_byte fraction with Some b => b =? 48 | None => false end))
            (errorf "amount decimal has a non-canonical fractional component");
      do! fail_if (negb (all_digits fraction)) (errorf "amount decimal must contain digits only");
      Ok fraction
    else Ok "" in
  let digits := String.append part0
      (String.append fraction (Repeat "0" (Z.to_nat (decimals - len fraction)))) in
  match SetString10 digits with
  | Some result => Ok result
  | None => Err (errorf "amount decimal is invalid")
  end.

Definition Amount_Validate (a : Amount) : result unit :=
  do! fail_if (36 <? amt_Decimals a) (errorf "amount decimals cannot exceed 36");
  let! want := decimalToBaseUnits (amt_Decimal a) (amt_Decimals a) in
  let canonical := errorf "amount base units must be a canonical non-negative integer" in
  do! fail_if ((amt_BaseUnits a == "") || leading_zero (amt_BaseUnits a)) canonical;
  match SetString10 (amt_BaseUnits a) with
  | None => Err canonical
  | Some got =>
      do! fail_if (got <? 0) canonical;
      do! fail_if (want != got) (errorf "amount decimal and base units do not match");
      Ok tt
  end.

Definition Amount_IsZero (a : Amount) : bool :=
  (amt_Decimal a == "") && (amt_BaseUnits a == "") && (amt_Decimals a == 0).

Definition Amount_IsPositive (a : Amount) : bool :=
  match Amount_Validate a with
  | Err _ => false
  | Ok _ => match SetString10 (amt_BaseUnits a) with Some v => 0 <? v | None => false end
  end.

Definition BaseInt (a : Amount) : result Z :=
  do! Amount_Validate a;
  match SetString10 (amt_BaseUnits a) with
  | Some v => Ok v
  | None => Err (errorf "amount base units are invalid")
  end.

(** * Tokens *)
Record Token := MkToken {
  tok_ChainID : string; tok_Standard : string; tok_Address : string;
  tok_Symbol : string; tok_Decimals : Z
}.
#[global] Instance Token_eq_dec : EqDecision Token.
Proof. solve_decision. Defined.
Definition zero_token : Token := MkToken "" "" "" "" 0.

Definition Token_IsZero (t : Token) : bool :=
  (tok_ChainID t == "") && (tok_Standard t == "") && (tok_Address t == "")
  && (tok_Symbol t == "") && (tok_Decimals t == 0).

Definition Token_Validate (t : Token) : result unit :=
  do! validateChainID (tok_ChainID t);
  do! validateText "token standard" (tok_Standard t);
  do! validateText "token address" (tok_Address t);
  do! validateText "token symbol" (tok_Symbol t);
  do! fail_if (36 <? tok_Decimals t) (errorf "token decimals cannot exceed 36");
  Ok tt.

(** * Parameter shapes *)
Inductive PayrollVariant : Set :=
  | PayrollVariantSingle | PayrollVariantBatchSingleTokenOut | PayrollVariantBatchMultiTokenOut
  | PayrollVariantOther (raw : string).
#[global] Instance PayrollVariant_eq_dec : EqDecision PayrollVariant.
Proof. solve_decision. Defined.
Definition no_variant : PayrollVariant := PayrollVariantOther "".
Definition PayrollVariant_string (v : PayrollVariant) : string :=
  match v with
  | PayrollVariantSingle => "SINGLE"
  | PayrollVariantBatchSingleTokenOut => "BATCH_SINGLE_TOKEN_OUT"
  | PayrollVariantBatchMultiTokenOut => "BATCH_MULTI_TOKEN_OUT"
  | PayrollVariantOther raw => raw
  end.
Definition PayrollVariant_Valid (v : PayrollVariant) : bool :=
  match v with PayrollVariantOther _ => false | _ => true end.

Definition FinancialSchemaLegacy : Z := 0.
Definition FinancialSchemaPhase12 : Z := 1.

Record Recipient := MkRecipient {
  rcp_Address : string; rcp_Amount : Amount; rcp_TokenOut : Token;
  rcp_AmountIn : Amount; rcp_MinAmountOut : Amount
}.

Record CrossTokenPayrollParameters := MkCrossToken {
  ct_GrossInput : Amount; ct_MinTotalOut : Amount; ct_MinHopPriceX36 : string; ct_Deadline : Time
}.

Record PayrollParameters := MkPayroll {
  pay_SchemaVersion : Z; pay_Variant : PayrollVariant; pay_TokenIn : Token; pay_Token : Token;
  pay_Recipients : list Recipient; pay_Total : Amount; pay_ReferenceID : string;
  pay_CrossToken : option CrossTokenPayrollParameters
}.

Record SwapQuote := MkQuote {
  quo_QuoteID : string; quo_Source : string; quo_ExpectedAmountOut : Amount;
  quo_MinAmountOut : Amount; quo_Router : string; quo_ExpiresAt : Time;
  quo_EvidenceReference : string
}.

Record SwapParameters := MkSwap {
  swp_SchemaVersion : Z; swp_InputToken : Token; swp_OutputToken : Token;
  swp_InputAmount : Amount; swp_ExpectedOutput : Amount; swp_MinimumOutput : Amount;
  swp_QuoteReference : string; swp_MaxSlippageBPS : Z; swp_MinHopPriceX36 : string;
  swp_Router : string; swp_Recipient : string; swp_Quote : option SwapQuote; swp_Deadline : Time
}.

Record SendParameters := MkSend { snd_Token : Token; snd_Recipient : string; snd_Amount : Amount }.

Record BridgeParameters := MkBridge {
  brg_SourceChainID : string; brg_DestinationChainID : string; brg_SourceToken : Token;
  brg_SourceAmount : Amount; brg_DestinationAmount : Amount;
  brg_DestinationAddress : string; brg_PlanReference : string
}.

Record ANSParameters := MkANS {
  ans_NormalizedName : string; ans_NameVersion : string; ans_TermSeconds : Z;
  ans_Controller : string; ans_CostToken : Token; ans_Cost : Amount
}.

(** A closed union: pointers to at most five payloads. *)
Record FinancialParameters := MkFinancial {
  fin_Send : option SendParameters; fin_Payroll : option PayrollParameters;
  fin_Swap : option SwapParameters; fin_Bridge : option BridgeParameters;
  fin_ANS : option ANSParameters
}.

(** * Address validation (address.go) *)
Section address.
Context `{EthCommon} `{UnicodeTables}.

Definition normalizeEVMAddress (value : string) : string := NormalizeAddress value.

Definition validateEVMAddress (name value : string) : result unit :=
  fail_if (negb (ValidAddress value)) (errorf1 "%s is not a valid EVM address" name).

Definition validateNonZeroEVMAddress (name value : string) : result unit :=
  do! validateEVMAddress name value;
  do! fail_if (NormalizeAddress value == zero_address)
        (errorf1 "%s must not be the zero address" name);
  Ok tt.

Definition addressesEqual (a b : string) : bool := AddressesEqual a b.

Definition ValidatePhase12Token (name : string) (t : Token) : result unit :=
  do! map_err (errorf_wrap "%s: %w" [name]) (Token_Validate t);
  do! validateNonZeroEVMAddress (name +:+ " address") (tok_Address t);
  Ok tt.

Definition normalize_if_valid (value : string) : string :=
  if ValidAddress value then normalizeEVMAddress value else value.

Definition set_token_address (t : Token) (address : string) : Token :=
  MkToken (tok_ChainID t) (tok_Standard t) address (tok_Symbol t) (tok_Decimals t).

Definition normalize_token (t : Token) : Token :=
  set_token_address t (normalize_if_valid (tok_Address t)).

Definition normalize_recipient (r : Recipient) : Recipient :=
  MkRecipient (normalize_if_valid (rcp_Address r)) (rcp_Amount r)
    (if Token_IsZero (rcp_TokenOut r) then rcp_TokenOut r else normalize_token (rcp_TokenOut r))
    (rcp_AmountIn r) (rcp_MinAmountOut r).

Definition normalizePayrollAddresses (p : PayrollParameters) : PayrollParameters :=
  MkPayroll (pay_SchemaVersion p) (pay_Variant p)
    (if Token_IsZero (pay_TokenIn p) then pay_TokenIn p else normalize_token (pay_TokenIn p))
    (if Token_IsZero (pay_Token p) then pay_Token p else normalize_token (pay_Token p))
    (normalize_recipient <$> pay_Recipients p)
    (pay_Total p) (pay_ReferenceID p) (pay_CrossToken p).

Definition normalize_nonempty (value : string) : string :=
  if value == "" then value else normalize_if_valid value.

Definition normalizeSwapAddresses (p : SwapParameters) : SwapParameters :=
  MkSwap (swp_SchemaVersion p) (normalize_token (swp_InputToken p))
    (normalize_token (swp_OutputToken p)) (swp_InputAmount p) (swp_ExpectedOutput p)
    (swp_MinimumOutput p) (swp_QuoteReference p) (swp_MaxSlippageBPS p) (swp_MinHopPriceX36 p)
    (normalize_nonempty (swp_Router p)) (normalize_nonempty (swp_Recipient p))
    ((fun q => MkQuote (quo_QuoteID q) (quo_Source q) (quo_ExpectedAmountOut q)
                 (quo_MinAmountOut q) (normalize_nonempty (quo_Router q)) (quo_ExpiresAt q)
                 (quo_EvidenceReference q)) <$> swp_Quote p)
    (swp_Deadline p).
End address.
