(* ===== verification/Amounts.v ===== *)
(** Exactness of amounts: what [Amount.Validate] accepts, and the decimal
    rendering of base units used for policy exposure. *)
From Stdlib Require Import Ascii DecimalString DecimalN DecimalFacts.
From S2P Require Import Prelude GoStrings GoTime AppErrors Contracts IntentTypes.
Open Scope Z_scope.
Open Scope go_scope.

(** A canonical decimal: integer digits without superfluous leading zero and,
    optionally, a fraction of at most [decimals] digits not ending in zero. *)
Record decimal_parts (value : string) (decimals : Z) (whole fraction : string) : Prop := {
  dp_whole : digit_string whole = true;
  dp_whole_nonempty : whole <> "";
  dp_no_leading_zero : leading_zero whole = false;
  dp_fraction : digit_string fraction = true;
  dp_fraction_len : fraction = "" \/ len fraction <= decimals;
  dp_no_trailing_zero : ends_in_zero fraction = false;
  dp_value : value = if decide (fraction = "") then whole
                     else String.append whole (String "." fraction)
}.

(** The rational [whole.fraction] scaled by [10^decimals]. *)
Definition scaled (decimals : Z) (whole fraction : string) : Z :=
  horner 0 whole * 10 ^ decimals + horner 0 fraction * 10 ^ (decimals - len fraction).

Lemma parse_digits_of_digits s :
  s <> "" -> digit_string s = true -> parse_digits s = Some (horner 0 s).
Proof.
  intros Hne Hd. destruct (proj2 (parse_digits_some s)) as [n Hn]; [done|].
  rewrite Hn. f_equal. by apply parse_digits_horner.
Qed.

Lemma app_nonempty s1 s2 : s1 <> "" -> String.append s1 s2 <> "".
Proof. destruct s1; [done|]. intros _. discriminate. Qed.

Lemma scaled_parse decimals whole fraction :
  0 <= decimals -> whole <> "" -> digit_string whole = true -> digit_string fraction = true ->
  fraction = "" \/ len fraction <= decimals ->
  SetString10 (String.append whole
    (String.append fraction (Repeat "0" (Z.to_nat (decimals - len fraction)))))
  = Some (scaled decimals whole fraction).
Proof.
  intros Hd Hne Hw Hf Hlen.
  rewrite SetString10_digits, parse_digits_of_digits;
    rewrite ?digit_string_app, ?Hw, ?Hf, ?digit_string_zeros; auto using app_nonempty.
  assert (0 <= decimals - len fraction) as Hpos.
  { destruct Hlen as [-> | ?]; [change (len "") with 0|]; lia. }
  f_equal. rewrite !horner_app, horner_zeros, Z2Nat.id by lia.
  rewrite horner_acc. unfold scaled.
  replace (10 ^ decimals) with (10 ^ len fraction * 10 ^ (decimals - len fraction)).
  - ring.
  - rewrite <- Z.pow_add_r by (pose proof (len_nonneg fraction); lia). f_equal. lia.
Qed.

Lemma HasPrefix_digit c s whole rest :
  is_digit c = false -> digit_string whole = true -> whole <> "" ->
  s = String.append whole rest -> HasPrefix s (String c "") = false.
Proof.
  intros Hc Hw Hne ->. destruct whole as [|a w]; [done|].
  cbn [digit_string] in Hw. apply andb_true_iff in Hw as [Ha _].
  unfold HasPrefix. change (String.append (String a w) rest) with (String a (String.append w rest)).
  cbn [String.prefix]. destruct (ascii_dec c a) as [->|]; [congruence|done].
Qed.

Lemma dot_plain : plain "." = true.
Proof. reflexivity. Qed.

Lemma decimal_parts_plain value decimals whole fraction :
  decimal_parts value decimals whole fraction -> plain value = true.
Proof.
  intros [Hw _ _ Hf _ _ ->]. case_decide; [by apply digit_string_plain|].
  change (String "." fraction) with (String.append "." fraction).
  by rewrite !plain_app, dot_plain, !digit_string_plain.
Qed.

Lemma decimal_parts_split value decimals whole fraction :
  decimal_parts value decimals whole fraction ->
  Split value "." = if decide (fraction = "") then [whole] else [whole; fraction].
Proof.
  intros [Hw _ _ Hf _ _ ->]. case_decide.
  - apply Split_no_sep. by apply digit_string_no_dot.
  - rewrite Split_app_sep by by apply digit_string_no_dot. f_equal.
    apply Split_no_sep. by apply digit_string_no_dot.
Qed.

(** [decimalToBaseUnits] accepts exactly the canonical decimals, and returns
    the exact scaled integer. *)
Lemma decimalToBaseUnits_complete value decimals whole fraction :
  0 <= decimals -> decimal_parts value decimals whole fraction ->
  decimalToBaseUnits value decimals = Ok (scaled decimals whole fraction).
Proof.
  intros Hd Hp. pose proof (decimal_parts_plain _ _ _ _ Hp) as Hplain.
  pose proof (decimal_parts_split _ _ _ _ Hp) as Hsplit.
  destruct Hp as [Hw Hne Hlz Hf Hlen Htz Hv].
  assert (exists rest, value = String.append whole rest) as [rest Hrest].
  { rewrite Hv. case_decide; [|eauto]. exists "". clear. induction whole; [done|].
    change (String.append (String a whole) "") with (String a (String.append whole "")). congruence. }
  unfold decimalToBaseUnits.
  assert ((value == "") = false) as -> by (apply eqb_spec_false; rewrite Hrest; by apply app_nonempty).
  rewrite (plain_trim value), neqb_refl by done.
  rewrite !(HasPrefix_digit _ value whole rest) by done. cbn [orb fail_if rbind].
  assert ((whole == "") = false) as Ewhole by by apply eqb_spec_false.
  rewrite Hsplit. destruct (decide (fraction = "")) as [->|Hfne]; cbn [nth length].
  - change (2 <? Z.of_nat 1) with false. change (Z.of_nat 1 =? 2) with false.
    rewrite Hlz, Ewhole, all_digits_spec, Hw. cbn [orb negb fail_if rbind].
    by rewrite (scaled_parse decimals whole "") by auto.
  - change (2 <? Z.of_nat 2) with false. change (Z.of_nat 2 =? 2) with true.
    rewrite Hlz, Ewhole, !all_digits_spec, Hw, Hf.
    assert ((fraction == "") = false) as -> by by apply eqb_spec_false.
    fold (ends_in_zero fraction). rewrite Htz.
    assert ((decimals <? len fraction) = false) as -> by (apply Z.ltb_ge; naive_solver).
    cbn [negb orb fail_if rbind]. by rewrite scaled_parse by auto.
Qed.

Lemma decimalToBaseUnits_sound value decimals n :
  0 <= decimals -> decimalToBaseUnits value decimals = Ok n ->
  exists whole fraction, decimal_parts value decimals whole fraction /\ n = scaled decimals whole fraction.
Proof.
  intros Hd H. unfold decimalToBaseUnits in H.
  destruct (Split_join value ".") as (p & ps & Hs & Hv). rewrite Hs in H.
  apply rbind_ok in H as ([] & _ & H).
  apply rbind_ok in H as ([] & Hshape & H). apply fail_if_ok in Hshape.
  apply rbind_ok in H as ([] & Hw & H). apply fail_if_ok in Hw.
  apply rbind_ok in H as (fraction & Hf & H).
  cbn [nth length] in Hshape, Hw, Hf, H. rewrite all_digits_spec in Hw. reflect_all.
  exists p, fraction.
  assert (fraction = "" /\ ps = [] \/
          exists q, ps = [q] /\ fraction = q /\ q <> "" /\ len q <= decimals /\
                    ends_in_zero q = false /\ digit_string q = true) as Hcases.
  { destruct ps as [|q [|q' ps]]; cbn [length nth] in *.
    - left. change (Z.of_nat 1 =? 2) with false in Hf. cbn [rbind] in Hf. by ok_inv.
    - right. exists q. change (Z.of_nat 2 =? 2) with true in Hf. cbn [nth] in Hf.
      fold (ends_in_zero q) in Hf. ok_reflect. rewrite all_digits_spec in *. done.
    - exfalso. lia. }
  assert (decimal_parts value decimals p fraction) as Hp.
  { destruct Hcases as [[-> ->]|(q & -> & -> & Hq & Hqlen & Hqz & Hqd)]; cbn [foldl] in Hv.
    - by constructor; auto.
    - constructor; auto. by rewrite decide_False. }
  split; [done|]. destruct Hp. rewrite scaled_parse in H by auto. by injection H as <-.
Qed.

(** [Amount.Validate] in terms of values. *)
Lemma Amount_Validate_spec a :
  0 <= amt_Decimals a ->
  Amount_Validate a = Ok tt <->
  amt_Decimals a <= 36 /\ amt_BaseUnits a <> "" /\ leading_zero (amt_BaseUnits a) = false /\
  exists n, 0 <= n /\ decimalToBaseUnits (amt_Decimal a) (amt_Decimals a) = Ok n /\
            SetString10 (amt_BaseUnits a) = Some n.
Proof.
  intros Hd. unfold Amount_Validate. split.
  - intros H. ok_reflect. destruct (SetString10 (amt_BaseUnits a)) as [got|]; ok_reflect.
    split_and!; try done. exists got. split_and!; [done|congruence|done].
  - intros (H36 & Hne & Hlz & n & Hn & Hdec & Hset).
    assert ((36 <? amt_Decimals a) = false) as -> by by apply Z.ltb_ge.
    rewrite Hdec, Hlz, Hset. cbn [fail_if rbind].
    assert ((amt_BaseUnits a == "") = false) as -> by by apply eqb_spec_false.
    assert ((n <? 0) = false) as -> by by apply Z.ltb_ge. by rewrite neqb_refl.
Qed.

Lemma BaseInt_ok a n :
  BaseInt a = Ok n <-> Amount_Validate a = Ok tt /\ SetString10 (amt_BaseUnits a) = Some n.
Proof.
  unfold BaseInt. destruct (Amount_Validate a) as [[]|e]; cbn; [|naive_solver].
  destruct (SetString10 _); naive_solver.
Qed.

Lemma IsPositive_spec a :
  Amount_IsPositive a = true <->
  Amount_Validate a = Ok tt /\ exists n, 0 < n /\ SetString10 (amt_BaseUnits a) = Some n.
Proof.
  unfold Amount_IsPositive. destruct (Amount_Validate a) as [[]|e]; [|naive_solver].
  destruct (SetString10 _) as [n|]; [|naive_solver]. rewrite Z.ltb_lt. naive_solver.
Qed.

Lemma IsPositive_BaseInt a :
  Amount_IsPositive a = true -> exists n, 0 < n /\ BaseInt a = Ok n.
Proof. intros [Hv (n & Hn & Hs)]%IsPositive_spec. exists n. by rewrite BaseInt_ok. Qed.

Lemma fraction_padding decimals fraction :
  0 <= decimals -> fraction = "" \/ len fraction <= decimals ->
  0 <= decimals - len fraction.
Proof. intros Hd [-> | ?]; [change (len "") with 0|]; lia. Qed.

Lemma fraction_value decimals fraction :
  0 <= decimals -> digit_string fraction = true -> fraction = "" \/ len fraction <= decimals ->
  horner 0 fraction * 10 ^ (decimals - len fraction)
  = horner 0 (String.append fraction (Repeat "0" (Z.to_nat (decimals - len fraction)))).
Proof.
  intros Hd Hf Hlen. pose proof (fraction_padding decimals fraction Hd Hlen).
  by rewrite horner_app, horner_zeros, Z2Nat.id.
Qed.

Lemma padded_len decimals fraction :
  0 <= decimals -> fraction = "" \/ len fraction <= decimals ->
  len (String.append fraction (Repeat "0" (Z.to_nat (decimals - len fraction)))) = decimals.
Proof.
  intros Hd Hlen. pose proof (fraction_padding decimals fraction Hd Hlen).
  rewrite len_app, len_zeros, Z2Nat.id by done. lia.
Qed.

Lemma fraction_bound decimals fraction :
  0 <= decimals -> digit_string fraction = true -> fraction = "" \/ len fraction <= decimals ->
  0 <= horner 0 fraction * 10 ^ (decimals - len fraction) < 10 ^ decimals.
Proof.
  intros Hd Hf Hlen. rewrite fraction_value by done.
  rewrite <- (padded_len decimals fraction) at 3 by done. apply horner_bound.
  by rewrite digit_string_app, Hf, digit_string_zeros.
Qed.

Lemma canonical_whole_inj w1 w2 :
  w1 <> "" -> w2 <> "" -> digit_string w1 = true -> digit_string w2 = true ->
  leading_zero w1 = false -> leading_zero w2 = false -> horner 0 w1 = horner 0 w2 -> w1 = w2.
Proof.
  intros N1 N2 D1 D2 L1 L2 E.
  rewrite <- (FormatUint_parse w1 (horner 0 w1)) by eauto using parse_digits_of_digits.
  rewrite <- (FormatUint_parse w2 (horner 0 w2)) by eauto using parse_digits_of_digits. by rewrite E.
Qed.

(** A canonical decimal string is determined by its base units: for one
    scale, [decimalToBaseUnits] never maps two different strings to the same
    integer, so the human-readable amount an intent displays and freezes is a
    function of the integer that will move. *)
Theorem decimalToBaseUnits_injective (v1 v2 : string) (decimals n : Z)
    (Hd : 0 <= decimals)
    (H1 : decimalToBaseUnits v1 decimals = Ok n) (H2 : decimalToBaseUnits v2 decimals = Ok n) :
  v1 = v2.
Proof.
  apply decimalToBaseUnits_sound in H1 as (w1 & f1 & P1 & ->); [|done].
  apply decimalToBaseUnits_sound in H2 as (w2 & f2 & P2 & E); [|done].
  destruct P1 as [W1 N1 L1 F1 G1 T1 ->], P2 as [W2 N2 L2 F2 G2 T2 ->]. unfold scaled in E.
  pose proof (fraction_bound decimals f1 Hd F1 G1). pose proof (fraction_bound decimals f2 Hd F2 G2).
  destruct (Z.div_mod_unique (10 ^ decimals) (horner 0 w1) (horner 0 w2)
    (horner 0 f1 * 10 ^ (decimals - len f1)) (horner 0 f2 * 10 ^ (decimals - len f2)))
    as [Ew Ef]; [by left|by left|lia|].
  apply canonical_whole_inj in Ew; auto. subst w2.
  rewrite !fraction_value in Ef by done. apply horner_fixed_inj in Ef;
    rewrite ?digit_string_app, ?F1, ?F2, ?digit_string_zeros, ?padded_len; auto.
  apply (f_equal TrimRightZeros) in Ef. rewrite !TrimRightZeros_pad in Ef by done. by subst f2.
Qed.

Lemma decimalToBaseUnits_injective_witness : "12.5" = "12.5".
Proof.
  apply (decimalToBaseUnits_injective "12.5" "12.5" 6 12500000); [lia|vm_compute; reflexivity..].
Defined.

(** * Rendering base units (policies/evaluator.go) *)
Fixpoint str_take (n : nat) (s : string) : string :=
  match n, s with S n, String a s => String a (str_take n s) | _, _ => "" end.
Fixpoint str_drop (n : nat) (s : string) : string :=
  match n, s with S n, String _ s => str_drop n s | _, _ => s end.

Definition canonicalAmountDecimal (value decimals : Z) : string :=
  let digits := FormatInt value in
  let width := decimals in
  if width =? 0 then digits
  else
    let digits :=
      if len digits <=? width
      then String.append (Repeat "0" (Z.to_nat (width - len digits + 1))) digits else digits in
    let cut := Z.to_nat (len digits - width) in
    let whole := str_take cut digits in
    let fraction := TrimRightZeros (str_drop cut digits) in
    if fraction == "" then whole else String.append whole (String.append "." fraction).

Lemma str_take_drop n s : s = String.append (str_take n s) (str_drop n s).
Proof.
  revert s. induction n as [|n IH]; intros s; [done|]. destruct s as [|a s]; [done|].
  cbn [str_take str_drop].
  change (String.append (String a (str_take n s)) (str_drop n s))
    with (String a (String.append (str_take n s) (str_drop n s))). by rewrite <- IH.
Qed.

Lemma str_take_length n s : (n <= String.length s)%nat -> String.length (str_take n s) = n.
Proof.
  revert s. induction n as [|n IH]; intros s Hn; [done|]. destruct s as [|a s]; cbn in *; [lia|].
  rewrite IH; lia.
Qed.

Lemma str_take_leading_zero n s : (1 < n)%nat -> leading_zero (str_take n s) = true -> leading_zero s = true.
Proof.
  intros Hn. destruct n as [|n]; [lia|]. destruct s as [|a s]; [done|]. cbn [str_take].
  unfold leading_zero. cbn [first_byte]. rewrite !andb_true_iff, !Z.ltb_lt, !len_cons.
  intros [H1 H2]. split; [|done]. destruct n as [|n]; [lia|].
  destruct s as [|b s]; [done|]. rewrite len_cons. pose proof (len_nonneg s). lia.
Qed.

Lemma leading_zero_single s : len s = 1 -> leading_zero s = false.
Proof. intros H. unfold leading_zero. by rewrite H. Qed.

Lemma leading_zero_take n s :
  (0 < n <= String.length s)%nat -> leading_zero s = false -> leading_zero (str_take n s) = false.
Proof.
  intros Hn Hs. destruct (decide (n = 1%nat)) as [->|Hne].
  - apply leading_zero_single. unfold len. by rewrite str_take_length by lia.
  - destruct (leading_zero (str_take n s)) eqn:E; [|done].
    apply str_take_leading_zero in E; [congruence|lia].
Qed.

Lemma len_FormatUint_pos n : 0 < len (FormatUint n).
Proof.
  pose proof (FormatUint_nonempty n). pose proof (len_nonneg (FormatUint n)).
  destruct (FormatUint n); [done|]. rewrite len_cons in *. pose proof (len_nonneg s). lia.
Qed.

(** Cutting a digit sequence of value [n] before its last [decimals] digits. *)
Lemma cut_digits decimals digits :
  0 <= decimals -> decimals < len digits -> digit_string digits = true ->
  let cut := Z.to_nat (len digits - decimals) in
  (len digits = decimals + 1 \/ leading_zero digits = false) ->
  let whole := str_take cut digits in
  let fraction := TrimRightZeros (str_drop cut digits) in
  whole <> "" /\ leading_zero whole = false /\ digit_string whole = true /\
  digit_string fraction = true /\ len fraction <= decimals /\
  scaled decimals whole fraction = horner 0 digits.
Proof.
  intros Hd Hlen Hdig cut Hlz whole fraction.
  pose proof (str_take_drop cut digits) as Hsplit.
  assert (Z.of_nat cut = len digits - decimals) as Hcut by (unfold cut; lia).
  assert (len digits = Z.of_nat (String.length digits)) as Hdl by reflexivity. clearbody cut.
  assert (String.length whole = cut) as Hwl by (apply str_take_length; lia).
  assert (len (str_drop cut digits) = decimals) as Hfl.
  { pose proof (f_equal len Hsplit) as E. rewrite len_app in E. fold whole in E.
    assert (len whole = Z.of_nat cut) by (unfold len; by rewrite Hwl). lia. }
  assert (digit_string whole = true /\ digit_string (str_drop cut digits) = true) as [Hw Hr].
  { rewrite Hsplit, digit_string_app in Hdig. by apply andb_true_iff. }
  destruct (TrimRightZeros_decomp (str_drop cut digits)) as [k Hk]. fold fraction in Hk.
  assert (digit_string fraction = true) as Hf.
  { rewrite Hk, digit_string_app in Hr. by apply andb_true_iff in Hr as [Hr _]. }
  assert (len fraction + Z.of_nat k = decimals) as Hfk by (rewrite <- Hfl, Hk, len_app, len_zeros; done).
  split_and!; try done; try lia.
  - intros E. rewrite E in Hwl. cbn in Hwl. lia.
  - destruct Hlz as [E|Hlz].
    + apply leading_zero_single. unfold len. rewrite Hwl. lia.
    + apply leading_zero_take; [lia|done].
  - unfold scaled. transitivity (horner 0 (String.append whole (str_drop cut digits))).
    + rewrite horner_app, (horner_acc (horner 0 whole)), Hfl. f_equal.
      rewrite Hk, horner_app, horner_zeros. do 2 f_equal. lia.
    + unfold whole. by rewrite <- Hsplit.
Qed.

(** Rendering base units as a decimal and parsing the result gives the
    same base units, for every scale: the exposure amount that the policy
    evaluator synthesises is itself an exact canonical amount. *)
Lemma canonicalAmountDecimal_parse (n decimals : Z) (Hn : 0 <= n) (Hd : 0 <= decimals) :
  decimalToBaseUnits (canonicalAmountDecimal n decimals) decimals = Ok n.
Proof.
  unfold canonicalAmountDecimal, FormatInt.
  assert ((n <? 0) = false) as -> by by apply Z.ltb_ge.
  assert (horner 0 (FormatUint n) = n) as Hval.
  { symmetry. by apply parse_digits_horner, parse_FormatUint. }
  pose proof (digit_string_FormatUint n) as Hdig. pose proof (leading_zero_FormatUint n) as Hlz.
  destruct (decimals =? 0) eqn:E0.
  { apply Z.eqb_eq in E0. subst decimals.
    rewrite (decimalToBaseUnits_complete _ 0 (FormatUint n) ""); [|done|].
    - f_equal. unfold scaled. change (len "") with 0. cbn [horner]. rewrite Hval. lia.
    - constructor; auto using FormatUint_nonempty. }
  apply Z.eqb_neq in E0.
  set (digits := if len (FormatUint n) <=? decimals then _ else FormatUint n).
  assert (decimals < len digits /\ digit_string digits = true /\ horner 0 digits = n /\
          (len digits = decimals + 1 \/ leading_zero digits = false)) as (H1 & H2 & H3 & H4).
  { unfold digits. destruct (len (FormatUint n) <=? decimals) eqn:E; reflect_all.
    - rewrite len_app, len_zeros, digit_string_app, digit_string_zeros, horner_app, horner_zeros,
        Z.mul_0_l, Z2Nat.id by lia. split_and!; try done; lia.
    - split_and!; auto. }
  clearbody digits.
  destruct (cut_digits decimals digits Hd H1 H2 H4) as (Wn & Wl & Wd & Fd & Fl & Fs).
  set (whole := str_take _ digits) in *. set (fraction := TrimRightZeros _) in *.
  rewrite (decimalToBaseUnits_complete _ decimals whole fraction); [by rewrite Fs, H3|done|].
  constructor; auto; [apply TrimRightZeros_ends|].
  destruct (decide (fraction = "")) as [E|E].
  - assert ((fraction == "") = true) as -> by by apply eqb_spec_true. done.
  - assert ((fraction == "") = false) as -> by by apply eqb_spec_false. done.
Qed.

(** The base-unit string is required to be "a canonical non-negative
    integer", but [big.Int.SetString] accepts a sign: for every valid amount
    the same amount with a ["+"] in front of its digits is valid too, although
    the two values are different strings and freeze to different digests. *)
Theorem signed_base_units_accepted (a : Amount) (Hd : 0 <= amt_Decimals a)
    (Hv : Amount_Validate a = Ok tt) (Hdig : digit_string (amt_BaseUnits a) = true) :
  Amount_Validate (MkAmount (amt_Decimal a) (String "+" (amt_BaseUnits a)) (amt_Decimals a)) = Ok tt.
Proof.
  apply Amount_Validate_spec in Hv as (H36 & Hne & Hlz & n & Hn & Hdec & Hset); [|done].
  apply Amount_Validate_spec; [done|]. cbn [amt_Decimals amt_BaseUnits amt_Decimal].
  split_and!; [done|done|..].
  - unfold leading_zero. apply andb_false_intro2. reflexivity.
  - exists n. split_and!; [done|done|]. by rewrite SetString10_digits in Hset.
Qed.

Lemma signed_base_units_accepted_witness :
  Amount_Validate (MkAmount "1.5" "+1500000" 6) = Ok tt.
Proof.
  apply (signed_base_units_accepted (MkAmount "1.5" "1500000" 6));
    [cbn; lia|vm_compute; reflexivity..].
Defined.

#[export] Hint Resolve len_nonneg : go.
