(* ===== verification/IntentParams.v ===== *)
(** Validation of the typed payloads: internal/intents/send_params.go,
    payroll_params.go, swap_params.go, deferred_params.go, and the closed
    union's [validate] (types.go). *)
From S2P Require Import Prelude GoStrings GoTime AppErrors Contracts IntentTypes Amounts.
Open Scope Z_scope.
Open Scope go_scope.

Inductive RouteType : Set :=
  | RouteDirectWallet | RouteAllowlistedContract | RouteApprovedProvider
  | RouteTypeOther (raw : string).
#[global] Instance RouteType_eq_dec : EqDecision RouteType.
Proof. solve_decision. Defined.
Definition RouteType_string (r : RouteType) : string :=
  match r with
  | RouteDirectWallet => "DIRECT_WALLET" | RouteAllowlistedContract => "ALLOWLISTED_CONTRACT"
  | RouteApprovedProvider => "APPROVED_PROVIDER" | RouteTypeOther raw => raw
  end.
Definition RouteType_Valid (r : RouteType) : bool :=
  match r with RouteTypeOther _ => false | _ => true end.

Record Route := MkRoute { rte_Type : RouteType; rte_Reference : string; rte_Version : Z }.

Definition RouteReferenceSend : string := "ARC_MAINNET_ERC20_TRANSFER".
Definition RouteVersionSend : Z := 1.
Definition RouteReferencePayroll : string := ContractWizPayPayroll.
Definition RouteVersionPayroll : Z := RegistryVersion.
Definition RouteReferenceSwap : string := ContractWizPaySwapExecutor.
Definition RouteVersionSwap : Z := RegistryVersion.

Definition maxPayrollRecipientsPhase12 : Z := 50.
Definition maxPayrollRecipientsLegacy : Z := 500.
Definition maxPayrollReferenceIDLength : Z := 64.

Definition count_list {A} (l : list A) : Z := Z.of_nat (length l).

Section params.
Context `{EthCommon} `{UnicodeTables}.

(** * SEND *)
Definition SendParameters_validate (p : SendParameters) : result unit :=
  do! ValidatePhase12Token "send token" (snd_Token p);
  let! canonical := map_err (fun _ => errorf "send token is unsupported")
                      (CanonicalToken (tok_Symbol (snd_Token p))) in
  do! fail_if ((tok_ChainID (snd_Token p) != res_ChainID canonical)
               || (tok_Standard (snd_Token p) != "ERC20")
               || negb (AddressesEqual (tok_Address (snd_Token p)) (res_Address canonical))
               || (tok_Decimals (snd_Token p) != res_Decimals canonical))
        (errorf "send token does not match the canonical Arc Mainnet registry");
  do! validateNonZeroEVMAddress "send recipient" (snd_Recipient p);
  do! fail_if (negb (Amount_IsPositive (snd_Amount p))) (errorf "send amount must be positive");
  do! fail_if (amt_Decimals (snd_Amount p) != res_Decimals canonical)
        (errorf "send amount decimals do not match canonical token");
  Ok tt.

Definition validateSendRoute (route : Route) : result unit :=
  do! fail_if ((rte_Type route != RouteDirectWallet) || (rte_Reference route != RouteReferenceSend)
               || (rte_Version route != RouteVersionSend))
        (errorf "SEND requires the canonical direct ERC-20 route");
  Ok tt.

(** * PAYROLL *)
Definition Payroll_IsPhase12 (p : PayrollParameters) : bool :=
  (FinancialSchemaPhase12 <=? pay_SchemaVersion p)
  || (pay_Variant p != no_variant)
  || negb (Token_IsZero (pay_TokenIn p))
  || (match pay_CrossToken p with Some _ => true | None => false end)
  || existsb (fun r => negb (Token_IsZero (rcp_TokenOut r)) || negb (Amount_IsZero (rcp_AmountIn r))
                       || negb (Amount_IsZero (rcp_MinAmountOut r))) (pay_Recipients p).

Definition isCrossTokenShape (p : PayrollParameters) : bool :=
  match pay_CrossToken p with Some _ => true | None => false end.

Definition validatePayrollReferenceID (value : string) : result unit :=
  do! validateText "reference_id" value;
  do! fail_if (maxPayrollReferenceIDLength <? len value)
        (errorf1 "reference_id exceeds maximum UTF-8 byte length %d"
           (FormatInt maxPayrollReferenceIDLength));
  Ok tt.

Definition canonicalPayrollToken (token : Token) : bool :=
  if (tok_ChainID token != ChainIDArcMainnet) || (tok_Standard token != "ERC20")
     || (tok_Decimals token != 6) then false
  else if tok_Symbol token == "USDC" then addressesEqual (tok_Address token) AddressUSDCMainnet
  else if tok_Symbol token == "EURC" then addressesEqual (tok_Address token) AddressEURCMainnet
  else false.

Definition samePayrollToken (a b : Token) : bool :=
  canonicalPayrollToken a && canonicalPayrollToken b && (tok_ChainID a == tok_ChainID b)
  && (tok_Standard a == tok_Standard b) && (tok_Decimals a == tok_Decimals b)
  && (tok_Symbol a == tok_Symbol b) && addressesEqual (tok_Address a) (tok_Address b).

Definition positivePayrollUint128 (name : string) (amount : Amount) (decimals : Z) : result Z :=
  do! fail_if (negb (Amount_IsPositive amount) || (amt_Decimals amount != decimals))
        (errorf1 "%s must be positive with canonical token decimals" name);
  let value := match BaseInt amount with Ok v => v | Err _ => 0 end in
  do! fail_if (128 <? BitLen value) (errorf1 "%s exceeds uint128" name);
  Ok value.

(** "%s[i]..." names of the recipient lines. *)
Definition line (i : nat) : string := FormatUint (Z.of_nat i).

(** Loop state of the recipient checks: addresses seen, running sum, and the
    output token of the first line. *)
Definition cross_token_line (tokenIn : Token) (employer : string)
    (st : gset string * Z * Token) (ir : nat * Recipient)
    : result (gset string * Z * Token) :=
  let '(seen, obligations, tokenOut) := st in
  let '(i, r) := ir in
  do! validateNonZeroEVMAddress (line i) (rcp_Address r);
  do! fail_if (addressesEqual (rcp_Address r) AddressWizPayPayroll
               || ((employer != "") && addressesEqual (rcp_Address r) employer))
        (errorf1 "recipients[%d] is a forbidden payroll recipient" (line i));
  let normalized := normalizeEVMAddress (rcp_Address r) in
  do! fail_if (bool_decide (normalized ∈ seen))
        (errorf1 "recipients[%d]: duplicate recipient address" (line i));
  do! fail_if (negb (canonicalPayrollToken (rcp_TokenOut r)) || samePayrollToken tokenIn (rcp_TokenOut r))
        (errorf1 "recipients[%d].token_out must be the opposite canonical token" (line i));
  let! tokenOut :=
    if (i =? 0)%nat then Ok (rcp_TokenOut r)
    else (do! fail_if (negb (samePayrollToken tokenOut (rcp_TokenOut r)))
                (errorf "cross-token payroll requires one identical token_out");
          Ok tokenOut) in
  do! fail_if (negb (Amount_IsZero (rcp_AmountIn r)) || negb (Amount_IsZero (rcp_Amount r)))
        (errorf1 "recipients[%d] cross-token input allocation is not allowed" (line i));
  do! fail_if (negb (Amount_IsPositive (rcp_MinAmountOut r))
               || (amt_Decimals (rcp_MinAmountOut r) != tok_Decimals (rcp_TokenOut r)))
        (errorf1 "recipients[%d] output obligation must be positive in token_out units" (line i));
  let amount := match BaseInt (rcp_MinAmountOut r) with Ok v => v | Err _ => 0 end in
  do! fail_if (128 <? BitLen amount)
        (errorf1 "recipients[%d] output obligation exceeds uint128" (line i));
  Ok ({[normalized]} ∪ seen, obligations + amount, tokenOut).

(** [for i, recipient := range p.Recipients] *)
Definition numbered {A} (l : list A) : list (nat * A) := combine (seq 0 (length l)) l.

(** A canonical positive uint128 written in decimal. *)
Definition validHopPrice (s : string) : bool :=
  match SetString10 s with
  | None => false
  | Some price => negb ((price <=? 0) || (128 <? BitLen price) || leading_zero s)
  end.

Definition validateCrossTokenTimeline (p : PayrollParameters)
    (createdAt constraintDeadline expiresAt : Time) (employer : string) : result unit :=
  match pay_CrossToken p with
  | None => Err (errorf "cross-token payroll material is required")
  | Some crossToken =>
      do! fail_if (pay_SchemaVersion p != FinancialSchemaPhase12)
            (errorf1 "cross-token payroll requires schema_version %d" (FormatInt FinancialSchemaPhase12));
      do! fail_if ((pay_Variant p != PayrollVariantSingle)
                   && (pay_Variant p != PayrollVariantBatchSingleTokenOut))
            (errorf "cross-token payroll requires a single output-token variant");
      do! fail_if (negb (canonicalPayrollToken (pay_TokenIn p)))
            (errorf "token_in must be canonical Arc Mainnet USDC or EURC");
      do! fail_if ((count_list (pay_Recipients p) =? 0)
                   || (maxPayrollRecipientsPhase12 <? count_list (pay_Recipients p)))
            (errorf1 "cross-token payroll requires 1 to %d recipients"
               (FormatInt maxPayrollRecipientsPhase12));
      do! fail_if ((pay_Variant p == PayrollVariantSingle) && negb (count_list (pay_Recipients p) =? 1))
            (errorf "SINGLE payroll requires exactly one recipient");
      do! validatePayrollReferenceID (pay_ReferenceID p);
      let! st := fold_result (cross_token_line (pay_TokenIn p) employer)
                   (∅, 0, zero_token) (numbered (pay_Recipients p)) in
      let '(_, obligations, tokenOut) := st in
      do! fail_if (negb (Amount_IsPositive (pay_Total p))
                   || (amt_Decimals (pay_Total p) != tok_Decimals tokenOut)
                   || (amt_BaseUnits (pay_Total p) != FormatInt obligations))
            (errorf "payroll total must equal exact output obligations");
      let! gross := positivePayrollUint128 "gross_input" (ct_GrossInput crossToken)
                      (tok_Decimals (pay_TokenIn p)) in
      let! minimum := positivePayrollUint128 "min_total_out" (ct_MinTotalOut crossToken)
                        (tok_Decimals tokenOut) in
      do! fail_if (minimum <? obligations)
            (errorf "min_total_out must cover exact output obligations");
      do! fail_if (negb (validHopPrice (ct_MinHopPriceX36 crossToken)))
            (errorf "min_hop_price_x36 must be a canonical positive uint128 integer");
      let deadline := UTC (ct_Deadline crossToken) in
      do! fail_if ((gross <=? 0) || IsZero (ct_Deadline crossToken) || (Unix deadline <=? 0))
            (errorf "cross-token payroll deadline is required");
      do! (if IsZero createdAt then Ok tt else
           do! fail_if (negb (After deadline createdAt))
                 (errorf "cross-token payroll deadline has expired");
           do! fail_if (After deadline (Add createdAt (20 * Minute)))
                 (errorf "cross-token payroll deadline exceeds 20 minute contract window");
           Ok tt);
      do! fail_if (negb (IsZero constraintDeadline) && After deadline constraintDeadline)
            (errorf "cross-token payroll deadline exceeds constraint deadline");
      do! fail_if (negb (IsZero expiresAt) && After deadline expiresAt)
            (errorf "cross-token payroll deadline exceeds intent expiry");
      do! fail_if (negb (Token_IsZero (pay_Token p)))
            (errorf "legacy token is not allowed for cross-token payroll");
      Ok tt
  end.

Definition ValidateCrossToken (p : PayrollParameters) : result unit :=
  validateCrossTokenTimeline p zero_time zero_time zero_time "".

Definition CrossTokenExecutable (p : PayrollParameters) : bool := is_ok (ValidateCrossToken p).

Definition SourceToken (p : PayrollParameters) : Token :=
  if Payroll_IsPhase12 p && negb (Token_IsZero (pay_TokenIn p)) then pay_TokenIn p else pay_Token p.

Definition legacy_line (token : Token) (total : Z) (ir : nat * Recipient) : result Z :=
  let '(i, r) := ir in
  do! map_err (errorf_wrap "recipient %d: %w" [line i]) (validateText "recipient address" (rcp_Address r));
  do! map_err (errorf_wrap "recipient %d: %w" [line i]) (Amount_Validate (rcp_Amount r));
  do! fail_if (amt_Decimals (rcp_Amount r) != tok_Decimals token)
        (errorf1 "recipient %d amount decimals do not match token" (line i));
  match SetString10 (amt_BaseUnits (rcp_Amount r)) with
  | None => Err (errorf1 "recipient %d amount is invalid" (line i))
  | Some value => Ok (total + value)
  end.

Definition Payroll_validateLegacy (p : PayrollParameters) : result unit :=
  do! Token_Validate (pay_Token p);
  do! fail_if ((count_list (pay_Recipients p) =? 0)
               || (maxPayrollRecipientsLegacy <? count_list (pay_Recipients p)))
        (errorf1 "payroll requires 1 to %d recipients" (FormatInt maxPayrollRecipientsLegacy));
  let! total := fold_result (legacy_line (pay_Token p)) 0 (numbered (pay_Recipients p)) in
  do! Amount_Validate (pay_Total p);
  do! fail_if ((amt_Decimals (pay_Total p) != tok_Decimals (pay_Token p))
               || (FormatInt total != amt_BaseUnits (pay_Total p)))
        (errorf "payroll total does not match recipient amounts");
  Ok tt.


(** Loop state: addresses seen, running total, and the first output token
    of a single-output batch. *)
Definition phase12_line (variant : PayrollVariant) (tokenIn : Token)
    (st : gset string * Z * string) (ir : nat * Recipient)
    : result (gset string * Z * string) :=
  let '(seen, total, singleTokenOut) := st in
  let '(i, r) := ir in
  do! validateNonZeroEVMAddress (line i) (rcp_Address r);
  let normalized := normalizeEVMAddress (rcp_Address r) in
  do! fail_if (bool_decide (normalized ∈ seen))
        (errorf1 "recipients[%d]: duplicate recipient address" (line i));
  do! ValidatePhase12Token (line i) (rcp_TokenOut r);
  do! fail_if (tok_ChainID (rcp_TokenOut r) != tok_ChainID tokenIn)
        (errorf1 "recipients[%d].token_out chain does not match token_in chain" (line i));
  do! fail_if (negb (Amount_IsPositive (rcp_AmountIn r)))
        (errorf1 "recipients[%d].amount_in must be a positive amount" (line i));
  do! fail_if (amt_Decimals (rcp_AmountIn r) != tok_Decimals tokenIn)
        (errorf1 "recipients[%d].amount_in decimals do not match token_in" (line i));
  do! fail_if (negb (Amount_IsPositive (rcp_MinAmountOut r)))
        (errorf1 "recipients[%d].min_amount_out must be a positive amount" (line i));
  do! fail_if (amt_Decimals (rcp_MinAmountOut r) != tok_Decimals (rcp_TokenOut r))
        (errorf1 "recipients[%d].min_amount_out decimals do not match token_out" (line i));
  do! fail_if (negb (Amount_IsZero (rcp_Amount r)))
        (errorf1 "recipients[%d]: legacy amount field is not allowed on Phase 12 payroll lines" (line i));
  let! value := map_err (errorf_wrap "recipients[%d].amount_in: %w" [line i])
                  (BaseInt (rcp_AmountIn r)) in
  let total := total + value in
  let! singleTokenOut :=
    if variant == PayrollVariantBatchSingleTokenOut then
      let out := normalizeEVMAddress (tok_Address (rcp_TokenOut r)) in
      if (i =? 0)%nat then Ok out
      else (do! fail_if (out != singleTokenOut)
                  (errorf "BATCH_SINGLE_TOKEN_OUT requires identical token_out on every recipient");
            Ok singleTokenOut)
    else Ok singleTokenOut in
  Ok ({[normalized]} ∪ seen, total, singleTokenOut).

Definition validatePhase12_reference (variant : PayrollVariant) (reference : string) : result unit :=
  match variant with
  | PayrollVariantBatchSingleTokenOut | PayrollVariantBatchMultiTokenOut =>
      validatePayrollReferenceID reference
  | PayrollVariantSingle =>
      if reference != "" then validatePayrollReferenceID reference else Ok tt
  | PayrollVariantOther _ => Ok tt
  end.

Definition Payroll_validatePhase12 (p : PayrollParameters) : result unit :=
  let tokenIn := pay_TokenIn p in
  do! fail_if (pay_SchemaVersion p != FinancialSchemaPhase12)
        (if pay_SchemaVersion p == FinancialSchemaLegacy
         then errorf1 "phase 12 payroll requires explicit schema_version %d" (FormatInt FinancialSchemaPhase12)
         else errorf1 "unsupported payroll schema version %d" (FormatInt (pay_SchemaVersion p)));
  do! fail_if (negb (PayrollVariant_Valid (pay_Variant p)))
        (errorf1 "invalid payroll variant %q" (PayrollVariant_string (pay_Variant p)));
  do! ValidatePhase12Token "token_in" tokenIn;
  do! fail_if (count_list (pay_Recipients p) =? 0)
        (errorf "payroll requires at least one recipient");
  do! fail_if (maxPayrollRecipientsPhase12 <? count_list (pay_Recipients p))
        (errorf1 "payroll recipients exceed maximum batch size %d" (FormatInt maxPayrollRecipientsPhase12));
  do! fail_if ((pay_Variant p == PayrollVariantSingle) && negb (count_list (pay_Recipients p) =? 1))
        (errorf "SINGLE payroll requires exactly one recipient");
  do! validatePhase12_reference (pay_Variant p) (pay_ReferenceID p);
  let! st := fold_result (phase12_line (pay_Variant p) tokenIn) (∅, 0, "") (numbered (pay_Recipients p)) in
  let '(_, total, _) := st in
  do! Amount_Validate (pay_Total p);
  do! fail_if (amt_Decimals (pay_Total p) != tok_Decimals tokenIn)
        (errorf "payroll total decimals do not match token_in");
  do! fail_if (negb (Amount_IsPositive (pay_Total p))) (errorf "payroll total must be positive");
  do! fail_if (FormatInt total != amt_BaseUnits (pay_Total p))
        (errorf "payroll total does not match recipient amounts");
  if negb (Token_IsZero (pay_Token p)) then
    do! map_err (errorf_wrap "legacy token: %w" []) (Token_Validate (pay_Token p));
    do! fail_if (negb (addressesEqual (tok_Address (pay_Token p)) (tok_Address tokenIn))
                 || (tok_ChainID (pay_Token p) != tok_ChainID tokenIn)
                 || (tok_Decimals (pay_Token p) != tok_Decimals tokenIn)
                 || (tok_Standard (pay_Token p) != tok_Standard tokenIn))
          (errorf "legacy token does not match token_in");
    Ok tt
  else Ok tt.

Definition Payroll_validate (p : PayrollParameters) : result unit :=
  if Payroll_IsPhase12 p then
    if isCrossTokenShape p then ValidateCrossToken p else Payroll_validatePhase12 p
  else Payroll_validateLegacy p.

Definition Payroll_Phase12Executable (p : PayrollParameters) : bool :=
  Payroll_IsPhase12 p && is_ok (Payroll_validate p).

Definition same_token_line (tokenIn : Token) (ir : nat * Recipient) : result unit :=
  let '(i, r) := ir in
  do! fail_if (negb (samePayrollToken tokenIn (rcp_TokenOut r)))
        (errorf1 "recipients[%d].token_out must exactly match token_in" (line i));
  do! fail_if (rcp_AmountIn r != rcp_MinAmountOut r)
        (errorf1 "recipients[%d] same-token amount must be exact" (line i));
  Ok tt.

Definition ValidateSameToken (p : PayrollParameters) : result unit :=
  do! fail_if (isCrossTokenShape p) (errorf "cross-token payroll is not same-token payroll");
  do! Payroll_validatePhase12 p;
  do! validatePayrollReferenceID (pay_ReferenceID p);
  do! fail_if ((pay_Variant p != PayrollVariantSingle)
               && (pay_Variant p != PayrollVariantBatchSingleTokenOut))
        (errorf "cross-token payroll is unavailable");
  do! fail_if (negb (canonicalPayrollToken (pay_TokenIn p)))
        (errorf "token_in must be canonical Arc Mainnet USDC or EURC");
  do! for_each (same_token_line (pay_TokenIn p)) (numbered (pay_Recipients p));
  Ok tt.

Definition SameTokenExecutable (p : PayrollParameters) : bool := is_ok (ValidateSameToken p).

(** * SWAP *)
Definition Swap_IsPhase12 (p : SwapParameters) : bool :=
  (FinancialSchemaPhase12 <=? swp_SchemaVersion p)
  || (swp_MinHopPriceX36 p != "") || (swp_Router p != "") || (swp_Recipient p != "")
  || (match swp_Quote p with Some _ => true | None => false end)
  || negb (IsZero (swp_Deadline p)).

Definition legacy_amount (item : string * Amount * Z) : result unit :=
  let '(name, amount, decimals) := item in
  do! map_err (errorf_wrap "%s amount: %w" [name]) (Amount_Validate amount);
  do! fail_if (amt_Decimals amount != decimals) (errorf1 "%s amount decimals do not match token" name);
  Ok tt.

Definition base_units (a : Amount) : Z :=
  match SetString10 (amt_BaseUnits a) with Some v => v | None => 0 end.

Definition Swap_validateLegacy (p : SwapParameters) : result unit :=
  do! Token_Validate (swp_InputToken p);
  do! Token_Validate (swp_OutputToken p);
  do! for_each legacy_amount
        [ ("input", swp_InputAmount p, tok_Decimals (swp_InputToken p));
          ("expected output", swp_ExpectedOutput p, tok_Decimals (swp_OutputToken p));
          ("minimum output", swp_MinimumOutput p, tok_Decimals (swp_OutputToken p)) ];
  do! validateText "quote reference" (swp_QuoteReference p);
  do! fail_if (10000 <? swp_MaxSlippageBPS p)
        (errorf "maximum slippage cannot exceed 10000 basis points");
  do! fail_if (base_units (swp_ExpectedOutput p) <? base_units (swp_MinimumOutput p))
        (errorf "minimum output cannot exceed expected output");
  Ok tt.

(** Euclidean division of [num.Div]; the divisor is positive. *)
Definition minimumOutputCeiling (expected maxSlippageBPS : Z) : Z :=
  let remaining := 10000 - maxSlippageBPS in
  (expected * remaining + (10000 - 1)) / 10000.

Definition validateCanonicalSwapToken (token : Token) (name : string) : result unit :=
  do! fail_if ((tok_ChainID token != ChainIDArcMainnet) || (tok_Standard token != "ERC20")
               || (tok_Decimals token != CanonicalTokenDecimals))
        (errorf1 "%s must be a canonical Arc Mainnet 6-decimal ERC20 token" name);
  if addressesEqual (tok_Address token) AddressUSDCMainnet then
    fail_if (tok_Symbol token != "USDC") (errorf1 "%s symbol does not match canonical USDC" name)
  else if addressesEqual (tok_Address token) AddressEURCMainnet then
    fail_if (tok_Symbol token != "EURC") (errorf1 "%s symbol does not match canonical EURC" name)
  else Err (errorf1 "%s address is not a supported swap token" name).

Definition Quote_validate (q : SwapQuote) (outputDecimals : Z) : result unit :=
  do! validateText "quote_id" (quo_QuoteID q);
  do! validateText "quote source" (quo_Source q);
  do! validateText "quote evidence_reference" (quo_EvidenceReference q);
  do! validateNonZeroEVMAddress "quote router" (quo_Router q);
  do! fail_if (IsZero (quo_ExpiresAt q)) (errorf "quote expires_at is required");
  do! fail_if (negb (Amount_IsPositive (quo_ExpectedAmountOut q)))
        (errorf "quote expected amount out must be positive");
  do! fail_if (amt_Decimals (quo_ExpectedAmountOut q) != outputDecimals)
        (errorf "quote expected amount out decimals do not match output token");
  do! fail_if (negb (Amount_IsPositive (quo_MinAmountOut q)))
        (errorf "quote minimum amount out must be positive");
  do! fail_if (amt_Decimals (quo_MinAmountOut q) != outputDecimals)
        (errorf "quote minimum amount out decimals do not match output token");
  let! min := BaseInt (quo_MinAmountOut q) in
  let! expected := BaseInt (quo_ExpectedAmountOut q) in
  do! fail_if (expected <? min)
        (errorf "quote minimum amount out cannot exceed expected amount out");
  Ok tt.

Definition canonical_pair (a b : string) : bool :=
  (addressesEqual a AddressUSDCMainnet && addressesEqual b AddressEURCMainnet)
  || (addressesEqual a AddressEURCMainnet && addressesEqual b AddressUSDCMainnet).

(** Lines 113-147: schema and tokens. *)
Definition swap_tokens (p : SwapParameters) : result unit :=
  do! fail_if (swp_SchemaVersion p != FinancialSchemaPhase12)
        (if swp_SchemaVersion p == FinancialSchemaLegacy
         then errorf1 "phase 12 swap requires explicit schema_version %d" (FormatInt FinancialSchemaPhase12)
         else errorf1 "unsupported swap schema version %d" (FormatInt (swp_SchemaVersion p)));
  do! ValidatePhase12Token "input_token" (swp_InputToken p);
  do! ValidatePhase12Token "output_token" (swp_OutputToken p);
  do! fail_if (tok_ChainID (swp_InputToken p) != tok_ChainID (swp_OutputToken p))
        (errorf "swap input and output tokens must share the same chain");
  do! fail_if (addressesEqual (tok_Address (swp_InputToken p)) (tok_Address (swp_OutputToken p)))
        (errorf "swap input and output tokens must differ");
  do! validateCanonicalSwapToken (swp_InputToken p) "input_token";
  do! validateCanonicalSwapToken (swp_OutputToken p) "output_token";
  do! fail_if (negb (canonical_pair (tok_Address (swp_InputToken p)) (tok_Address (swp_OutputToken p))))
        (errorf "swap token pair must be canonical Arc Mainnet USDC/EURC");
  Ok tt.

(** Amounts, price guard and slippage. *)
Definition swap_amounts (p : SwapParameters) : result unit :=
  do! fail_if (negb (Amount_IsPositive (swp_InputAmount p))) (errorf "input amount must be positive");
  do! fail_if (amt_Decimals (swp_InputAmount p) != tok_Decimals (swp_InputToken p))
        (errorf "input amount decimals do not match input token");
  do! fail_if (negb (Amount_IsPositive (swp_ExpectedOutput p))) (errorf "expected output must be positive");
  do! fail_if (amt_Decimals (swp_ExpectedOutput p) != tok_Decimals (swp_OutputToken p))
        (errorf "expected output decimals do not match output token");
  do! fail_if (negb (Amount_IsPositive (swp_MinimumOutput p))) (errorf "minimum output must be positive");
  do! fail_if (amt_Decimals (swp_MinimumOutput p) != tok_Decimals (swp_OutputToken p))
        (errorf "minimum output decimals do not match output token");
  do! fail_if (10000 <? swp_MaxSlippageBPS p)
        (errorf "maximum slippage cannot exceed 10000 basis points");
  do! fail_if (negb (validHopPrice (swp_MinHopPriceX36 p)))
        (errorf "min_hop_price_x36 must be a canonical positive uint128 integer");
  let! expected := map_err (errorf_wrap "expected output: %w" []) (BaseInt (swp_ExpectedOutput p)) in
  let! minimum := map_err (errorf_wrap "minimum output: %w" []) (BaseInt (swp_MinimumOutput p)) in
  do! fail_if (expected <? minimum) (errorf "minimum output cannot exceed expected output");
  do! fail_if (minimum <? minimumOutputCeiling expected (swp_MaxSlippageBPS p))
        (errorf "minimum output is weaker than max_slippage_bps allows");
  Ok tt.

(** Router, recipient and frozen quote; the quote on success. *)
Definition swap_quote (p : SwapParameters) : result SwapQuote :=
  do! validateNonZeroEVMAddress "router" (swp_Router p);
  do! fail_if (negb (addressesEqual (swp_Router p) AddressUniswapUniversalRouter))
        (errorf "swap router must be the canonical Universal Router");
  do! validateNonZeroEVMAddress "recipient" (swp_Recipient p);
  match swp_Quote p with
  | None => Err (errorf "swap quote is required")
  | Some q =>
      do! Quote_validate q (tok_Decimals (swp_OutputToken p));
      do! fail_if (negb (addressesEqual (quo_Router q) (swp_Router p)))
            (errorf "quote router must equal frozen router");
      do! fail_if (quo_ExpectedAmountOut q != swp_ExpectedOutput p)
            (errorf "quote expected output must equal frozen expected output");
      do! fail_if (quo_MinAmountOut q != swp_MinimumOutput p)
            (errorf "quote minimum output must equal frozen minimum output");
      do! fail_if ((swp_QuoteReference p != "") && (swp_QuoteReference p != quo_QuoteID q))
            (errorf "quote_reference must match quote_id when both are set");
      Ok q
  end.

Definition Swap_validatePhase12 (p : SwapParameters)
    (createdAt constraintDeadline expiresAt : Time) : result unit :=
  do! swap_tokens p;
  do! swap_amounts p;
  let! q := swap_quote p in
  do! fail_if (IsZero (swp_Deadline p)) (errorf "swap deadline is required");
  let pDeadline := UTC (swp_Deadline p) in
  do! (if IsZero createdAt then Ok tt else
       do! fail_if (negb (After (quo_ExpiresAt q) createdAt))
             (errorf "quote has already expired at freeze time");
       do! fail_if (negb (After pDeadline createdAt)) (errorf "swap deadline must follow creation");
       do! fail_if (After pDeadline (Add createdAt (20 * Minute)))
             (errorf "swap deadline cannot exceed the contract maximum window of 20 minutes");
       Ok tt);
  do! fail_if (negb (IsZero (quo_ExpiresAt q)) && After pDeadline (UTC (quo_ExpiresAt q)))
        (errorf "swap deadline cannot be after quote expiry");
  do! fail_if (negb (IsZero constraintDeadline) && After pDeadline (UTC constraintDeadline))
        (errorf "swap deadline cannot exceed constraint deadline");
  do! fail_if (negb (IsZero expiresAt) && After pDeadline (UTC expiresAt))
        (errorf "swap deadline cannot exceed intent expiration");
  Ok tt.

Definition Swap_Phase12Executable (p : SwapParameters) : bool :=
  Swap_IsPhase12 p && is_ok (Swap_validatePhase12 p zero_time zero_time zero_time).

Definition Swap_validate (p : SwapParameters) : result unit :=
  if Swap_IsPhase12 p then Swap_validatePhase12 p zero_time zero_time zero_time
  else Swap_validateLegacy p.

Definition Swap_validateWithTimeline (p : SwapParameters)
    (createdAt constraintDeadline expiresAt : Time) : result unit :=
  if negb (Swap_IsPhase12 p) then Swap_validateLegacy p
  else Swap_validatePhase12 p createdAt constraintDeadline expiresAt.

(** * BRIDGE and ANS_REGISTRATION (deferred_params.go) *)
Definition Bridge_validate (p : BridgeParameters) : result unit :=
  do! validateChainID (brg_SourceChainID p);
  do! validateChainID (brg_DestinationChainID p);
  do! fail_if (brg_SourceChainID p == brg_DestinationChainID p)
        (errorf "bridge source and destination chains must differ");
  do! Token_Validate (brg_SourceToken p);
  do! fail_if (tok_ChainID (brg_SourceToken p) != brg_SourceChainID p)
        (errorf "bridge source token chain does not match source chain");
  do! Amount_Validate (brg_SourceAmount p);
  do! Amount_Validate (brg_DestinationAmount p);
  do! fail_if (amt_Decimals (brg_SourceAmount p) != tok_Decimals (brg_SourceToken p))
        (errorf "bridge source amount decimals do not match token");
  do! validateText "destination address" (brg_DestinationAddress p);
  validateText "bridge plan reference" (brg_PlanReference p).

(** [strings.TrimSuffix(name, ".") != name] holds when the last byte is a dot. *)
Definition ends_in_dot (s : string) : bool :=
  match last_byte s with Some b => b =? 46 | None => false end.

Definition ANS_validate (p : ANSParameters) : result unit :=
  do! validateText "normalized name" (ans_NormalizedName p);
  do! fail_if ((ans_NormalizedName p != ToLower (ans_NormalizedName p))
               || ends_in_dot (ans_NormalizedName p))
        (errorf "ANS name must be normalized lowercase without a trailing dot");
  do! validateText "name version" (ans_NameVersion p);
  do! fail_if (ans_TermSeconds p =? 0) (errorf "ANS term must be positive");
  do! validateText "ANS controller" (ans_Controller p);
  do! Token_Validate (ans_CostToken p);
  do! Amount_Validate (ans_Cost p);
  do! fail_if (amt_Decimals (ans_Cost p) != tok_Decimals (ans_CostToken p))
        (errorf "ANS cost decimals do not match token");
  Ok tt.

(** * The union *)
Definition present {A} (o : option A) : Z := match o with Some _ => 1 | None => 0 end.

Definition required {A} (o : option A) (message : string) : result A :=
  match o with Some v => Ok v | None => Err (errorf message) end.

Definition Financial_validate (p : FinancialParameters) (kind : Type_) : result unit :=
  do! fail_if (negb (present (fin_Send p) + present (fin_Payroll p) + present (fin_Swap p)
                     + present (fin_Bridge p) + present (fin_ANS p) =? 1))
        (errorf "financial parameters must contain exactly one typed payload");
  match kind with
  | TypeSend => let! v := required (fin_Send p) "SEND requires send parameters" in SendParameters_validate v
  | TypePayroll => let! v := required (fin_Payroll p) "PAYROLL requires payroll parameters" in Payroll_validate v
  | TypeSwap => let! v := required (fin_Swap p) "SWAP requires swap parameters" in Swap_validate v
  | TypeBridge => let! v := required (fin_Bridge p) "BRIDGE requires bridge parameters" in Bridge_validate v
  | TypeANSRegistration =>
      let! v := required (fin_ANS p) "ANS_REGISTRATION requires ANS parameters" in ANS_validate v
  | TypeOther raw => Err (errorf1 "invalid intent type %q" raw)
  end.
End params.

(** * Lemmas *)
Definition sum_list_Z (l : list Z) : Z := foldr Z.add 0 l.

Lemma sum_list_Z_app l1 l2 : sum_list_Z (l1 ++ l2) = sum_list_Z l1 + sum_list_Z l2.
Proof. induction l1; cbn; unfold sum_list_Z in *; lia. Qed.

Lemma numbered_snd {A} (l : list A) : (numbered l).*2 = l.
Proof.
  unfold numbered. generalize 0%nat. induction l; intros n; cbn; [done|]. by rewrite IHl.
Qed.

Lemma FormatInt_parse n : 0 <= n -> SetString10 (FormatInt n) = Some n.
Proof.
  intros Hn. unfold FormatInt. destruct (n <? 0) eqn:E; [reflect_all; lia|].
  by apply SetString10_FormatUint.
Qed.

Section params_lemmas.
Context `{EthCommon} `{UnicodeTables}.

Lemma nonzero_ok name v :
  validateNonZeroEVMAddress name v = Ok tt ->
  ValidAddress v = true /\ NormalizeAddress v <> zero_address.
Proof.
  unfold validateNonZeroEVMAddress, validateEVMAddress. intros Hv.
  apply rbind_ok in Hv as ([] & Ha & Hv). apply rbind_ok in Hv as ([] & Hb & _).
  apply fail_if_ok in Ha, Hb. by reflect_all.
Qed.

Lemma positive_base a : Amount_IsPositive a = true -> 0 < base_units a.
Proof. intros [_ (n & Hn & E)]%IsPositive_spec. unfold base_units. by rewrite E. Qed.

Lemma BaseInt_base_units a n : BaseInt a = Ok n -> n = base_units a.
Proof. intros [_ E]%BaseInt_ok. unfold base_units. by rewrite E. Qed.

(** What the recipient loop of [validatePhase12] has established. *)
Definition phase12_seen (done : list (nat * Recipient)) (st : gset string * Z * string) : Prop :=
  let '(seen, total, _) := st in
  Forall (fun r => ValidAddress (rcp_Address r) = true
                   /\ NormalizeAddress (rcp_Address r) <> zero_address
                   /\ Amount_IsPositive (rcp_AmountIn r) = true
                   /\ Amount_IsPositive (rcp_MinAmountOut r) = true) done.*2
  /\ NoDup ((fun r => normalizeEVMAddress (rcp_Address r)) <$> done.*2)
  /\ (forall a, a ∈ seen <-> a ∈ ((fun r => normalizeEVMAddress (rcp_Address r)) <$> done.*2))
  /\ total = sum_list_Z ((fun r => base_units (rcp_AmountIn r)) <$> done.*2).

Lemma phase12_line_seen variant tokenIn done x st st' :
  phase12_seen done st -> phase12_line variant tokenIn st x = Ok st' -> phase12_seen (done ++ [x]) st'.
Proof.
  destruct st as [[seen total] s], st' as [[seen' total'] s'], x as [i r].
  intros (Hall & Hdup & Hseen & Htot) Hf. unfold phase12_line in Hf. ok_inv.
  repeat match goal with E : validateNonZeroEVMAddress _ _ = _ |- _ => apply nonzero_ok in E as [? ?] end.
  match goal with E : BaseInt _ = _ |- _ => apply BaseInt_base_units in E as -> end.
  reflect_all. unfold phase12_seen. rewrite fmap_app. cbn [fmap list_fmap snd].
  rewrite Forall_app, Forall_singleton, fmap_app, NoDup_app. cbn [fmap list_fmap].
  split_and!; try done.
  - intros a Ha ->%list_elem_of_singleton. by apply Hseen in Ha.
  - apply NoDup_singleton.
  - intros a. rewrite elem_of_union, elem_of_app, Hseen, elem_of_singleton.
    cbn [fmap list_fmap]. rewrite list_elem_of_singleton. tauto.
  - rewrite fmap_app, sum_list_Z_app. cbn. lia.
Qed.

Lemma phase12_loop variant tokenIn rs st :
  fold_result (phase12_line variant tokenIn) (∅, 0, "") (numbered rs) = Ok st ->
  phase12_seen (numbered rs) st.
Proof.
  apply (fold_result_inv phase12_seen).
  - cbn. split_and!; try constructor; set_solver.
  - intros. by eapply phase12_line_seen.
Qed.

Lemma count_list_numbered {A} (l : list A) : count_list (numbered l).*2 = count_list l.
Proof. by rewrite numbered_snd. Qed.

Lemma phase12_facts p :
  Payroll_validatePhase12 p = Ok tt ->
  1 <= count_list (pay_Recipients p) <= maxPayrollRecipientsPhase12 /\
  Forall (fun r => ValidAddress (rcp_Address r) = true
                   /\ NormalizeAddress (rcp_Address r) <> zero_address
                   /\ Amount_IsPositive (rcp_AmountIn r) = true
                   /\ Amount_IsPositive (rcp_MinAmountOut r) = true) (pay_Recipients p) /\
  NoDup ((fun r => normalizeEVMAddress (rcp_Address r)) <$> pay_Recipients p) /\
  BaseInt (pay_Total p)
  = Ok (sum_list_Z ((fun r => base_units (rcp_AmountIn r)) <$> pay_Recipients p)).
Proof.
  intros Hok. unfold Payroll_validatePhase12 in Hok. do 7 (apply rbind_ok in Hok as ([] & ? & Hok)).
  apply rbind_ok in Hok as ([[seen total] s] & Hloop & Hok).
  apply phase12_loop in Hloop as (Hall & Hdup & _ & ->). rewrite numbered_snd in *.
  do 4 (apply rbind_ok in Hok as ([] & ? & Hok)).
  repeat match goal with E : fail_if _ _ = Ok _ |- _ => apply fail_if_ok in E end. reflect_all.
  split_and!; try done; [unfold count_list in *; lia|].
  apply BaseInt_ok. split; [done|].
  match goal with E : FormatInt _ = _ |- _ => rewrite <- E end. apply FormatInt_parse.
  clear - Hall. induction Hall as [|r rs (_ & _ & Hp & _) _ IH]; [done|].
  apply positive_base in Hp. cbn. unfold sum_list_Z in IH. lia.
Qed.

(** [C19] A validated schema-1 payroll pays exactly its total: it has one to
    fifty lines, every line pays a distinct, valid, non-zero address a
    positive input amount with a positive minimum output, and the sum of the
    line amounts in base units is the declared total. *)
Theorem payroll_phase12_exact (p : PayrollParameters)
    (Hok : Payroll_validatePhase12 p = Ok tt) :
  1 <= count_list (pay_Recipients p) <= maxPayrollRecipientsPhase12 /\
  Forall (fun r => ValidAddress (rcp_Address r) = true
                   /\ NormalizeAddress (rcp_Address r) <> zero_address
                   /\ Amount_IsPositive (rcp_AmountIn r) = true
                   /\ Amount_IsPositive (rcp_MinAmountOut r) = true) (pay_Recipients p) /\
  NoDup ((fun r => normalizeEVMAddress (rcp_Address r)) <$> pay_Recipients p) /\
  BaseInt (pay_Total p)
  = Ok (sum_list_Z ((fun r => base_units (rcp_AmountIn r)) <$> pay_Recipients p)).
Proof. by apply phase12_facts. Qed.

(** The slippage floor is exactly the ceiling of
    [expected * (10000 - bps) / 10000]: the least integer whose ten-thousandfold
    is not below the tolerated share of the expected output. *)
Lemma minimumOutputCeiling_least (expected bps m : Z) :
  minimumOutputCeiling expected bps <= m <-> expected * (10000 - bps) <= 10000 * m.
Proof.
  unfold minimumOutputCeiling. set (n := expected * (10000 - bps)).
  pose proof (Z.div_mod (n + 9999) 10000 ltac:(lia)).
  pose proof (Z.mod_pos_bound (n + 9999) 10000 ltac:(lia)).
  change (10000 - 1) with 9999. lia.
Qed.

Lemma swap_amounts_slippage p :
  swap_amounts p = Ok tt ->
  swp_MaxSlippageBPS p <= 10000 /\
  exists input expected minimum,
    BaseInt (swp_InputAmount p) = Ok input /\ 0 < input /\
    BaseInt (swp_ExpectedOutput p) = Ok expected /\
    BaseInt (swp_MinimumOutput p) = Ok minimum /\ 0 < minimum <= expected /\
    expected * (10000 - swp_MaxSlippageBPS p) <= 10000 * minimum.
Proof.
  unfold swap_amounts. intros Hok. ok_reflect.
  repeat match goal with
  | E : Amount_IsPositive _ = true |- _ => apply IsPositive_BaseInt in E as (? & ? & ?)
  end.
  repeat match goal with
  | E1 : BaseInt ?a = Ok ?m, E2 : BaseInt ?a = Ok ?n |- _ =>
      assert (m = n) as -> by congruence; clear E1
  end.
  split; [done|]. do 3 eexists. split_and!; eauto.
  by apply minimumOutputCeiling_least.
Qed.

(** [C20] A validated schema-1 swap freezes sound economics: a positive input,
    and a positive minimum output that is at most the expected output and at
    least the share of it the slippage tolerance leaves; the frozen quote
    promises exactly these two outputs through the canonical router. *)
Theorem swap_phase12_economics (p : SwapParameters) (createdAt constraintDeadline expiresAt : Time)
    (Hok : Swap_validatePhase12 p createdAt constraintDeadline expiresAt = Ok tt) :
  swp_MaxSlippageBPS p <= 10000 /\
  (exists input expected minimum,
    BaseInt (swp_InputAmount p) = Ok input /\ 0 < input /\
    BaseInt (swp_ExpectedOutput p) = Ok expected /\
    BaseInt (swp_MinimumOutput p) = Ok minimum /\ 0 < minimum <= expected /\
    expected * (10000 - swp_MaxSlippageBPS p) <= 10000 * minimum) /\
  exists q, swp_Quote p = Some q /\ quo_ExpectedAmountOut q = swp_ExpectedOutput p /\
    quo_MinAmountOut q = swp_MinimumOutput p /\
    NormalizeAddress (quo_Router q) = NormalizeAddress AddressUniswapUniversalRouter.
Proof.
  unfold Swap_validatePhase12 in Hok.
  apply rbind_ok in Hok as ([] & _ & Hok). apply rbind_ok in Hok as ([] & Ha & Hok).
  apply rbind_ok in Hok as (q & Hq & _).
  destruct (swap_amounts_slippage p Ha) as [Hs He]. split_and!; try done.
  unfold swap_quote in Hq. destruct (swp_Quote p) as [q'|]; ok_reflect.
  all: repeat match goal with E : addressesEqual _ _ = true |- _ => apply AddressesEqual_spec in E as (? & ? & ?) end.
  exists q. split_and!; congruence.
Qed.

(** The swap deadline is executable only in the promised window: after
    the freeze clock, at most twenty minutes later, and no later than the
    quote's expiry, the constraint deadline or the intent's expiry. *)
Theorem swap_deadline_window (p : SwapParameters) (createdAt constraintDeadline expiresAt : Time)
    (Hc : createdAt <> zero_time) (Hd : constraintDeadline <> zero_time) (He : expiresAt <> zero_time)
    (Hok : Swap_validatePhase12 p createdAt constraintDeadline expiresAt = Ok tt) :
  exists q, swp_Quote p = Some q /\
    createdAt < swp_Deadline p /\ swp_Deadline p <= createdAt + 20 * Minute /\
    swp_Deadline p <= quo_ExpiresAt q /\ createdAt < quo_ExpiresAt q /\
    swp_Deadline p <= constraintDeadline /\ swp_Deadline p <= expiresAt.
Proof.
  unfold Swap_validatePhase12 in Hok.
  apply rbind_ok in Hok as ([] & _ & Hok). apply rbind_ok in Hok as ([] & Ha & Hok).
  apply rbind_ok in Hok as (q & Hq & Hok).
  assert (swp_Quote p = Some q /\ quo_ExpiresAt q <> zero_time) as [Hsome Hexp].
  { unfold swap_quote in Hq. destruct (swp_Quote p) as [q'|]; [|ok_inv].
    unfold Quote_validate in Hq. ok_inv. unfold IsZero in *. by reflect_all. }
  exists q. unfold IsZero, After, Add, UTC in Hok.
  rewrite (proj2 (Z.eqb_neq _ _) Hc), (proj2 (Z.eqb_neq _ _) Hd), (proj2 (Z.eqb_neq _ _) He),
    (proj2 (Z.eqb_neq _ _) Hexp) in Hok. cbn [negb andb] in Hok.
  ok_reflect. split_and!; try done; lia.
Qed.

(** What the recipient loop of a cross-token payroll has established. *)
Definition cross_seen (employer : string) (done : list (nat * Recipient))
    (st : gset string * Z * Token) : Prop :=
  let '(seen, obligations, _) := st in
  Forall (fun r => ValidAddress (rcp_Address r) = true
                   /\ addressesEqual (rcp_Address r) AddressWizPayPayroll = false
                   /\ (employer <> "" -> addressesEqual (rcp_Address r) employer = false)
                   /\ Amount_IsPositive (rcp_MinAmountOut r) = true
                   /\ base_units (rcp_MinAmountOut r) < 2 ^ 128) done.*2
  /\ NoDup ((fun r => normalizeEVMAddress (rcp_Address r)) <$> done.*2)
  /\ (forall a, a ∈ seen <-> a ∈ ((fun r => normalizeEVMAddress (rcp_Address r)) <$> done.*2))
  /\ obligations = sum_list_Z ((fun r => base_units (rcp_MinAmountOut r)) <$> done.*2).

Lemma base_units_match a :
  Amount_IsPositive a = true -> match BaseInt a with Ok v => v | Err _ => 0 end = base_units a.
Proof. intros (n & Hn & E)%IsPositive_BaseInt. rewrite E. by apply BaseInt_base_units. Qed.

Lemma cross_line_seen tokenIn employer done x st st' :
  cross_seen employer done st -> cross_token_line tokenIn employer st x = Ok st' ->
  cross_seen employer (done ++ [x]) st'.
Proof.
  destruct st as [[seen total] s], st' as [[seen' total'] s'], x as [i r].
  intros (Hall & Hdup & Hseen & Htot) Hf. unfold cross_token_line in Hf.
  apply rbind_ok in Hf as ([] & Hv & Hf). apply rbind_ok in Hf as ([] & Hforb & Hf).
  apply rbind_ok in Hf as ([] & Hnew & Hf). apply rbind_ok in Hf as ([] & _ & Hf).
  apply rbind_ok in Hf as (tokenOut & _ & Hf). apply rbind_ok in Hf as ([] & _ & Hf).
  apply rbind_ok in Hf as ([] & Hpos & Hf). apply rbind_ok in Hf as ([] & Hbits & Hf).
  apply nonzero_ok in Hv as [Hv _]. apply fail_if_ok in Hforb, Hnew, Hpos, Hbits.
  injection Hf as <- <- <-.
  apply orb_false_iff in Hforb as [Hself Hemp], Hpos as [Hpos _]. apply negb_false_iff in Hpos.
  rewrite base_units_match in Hbits |- * by done. pose proof (positive_base _ Hpos).
  reflect_all. unfold cross_seen. rewrite !fmap_app. cbn [fmap list_fmap snd].
  rewrite Forall_app, Forall_singleton, NoDup_app. split_and!; try done.
  - intros Hne. apply andb_false_iff in Hemp as [Hemp|Hemp]; [|done].
    by apply neqb_spec_false in Hemp as ->.
  - apply BitLen_bound; [lia|done].
  - intros a Ha ->%list_elem_of_singleton. by apply Hseen in Ha.
  - apply NoDup_singleton.
  - intros a. rewrite elem_of_union, elem_of_app, Hseen, elem_of_singleton.
    cbn [fmap list_fmap]. rewrite list_elem_of_singleton. tauto.
  - rewrite sum_list_Z_app. cbn. lia.
Qed.

Lemma cross_loop tokenIn employer rs st :
  fold_result (cross_token_line tokenIn employer) (∅, 0, zero_token) (numbered rs) = Ok st ->
  cross_seen employer (numbered rs) st.
Proof.
  apply (fold_result_inv (cross_seen employer)).
  - cbn. split_and!; try constructor; set_solver.
  - intros. by eapply cross_line_seen.
Qed.

Lemma positivePayrollUint128_ok name a d v :
  positivePayrollUint128 name a d = Ok v ->
  v = base_units a /\ BaseInt a = Ok v /\ 0 < v < 2 ^ 128 /\ amt_Decimals a = d.
Proof.
  unfold positivePayrollUint128. intros Hok. ok_reflect.
  match goal with E : Amount_IsPositive _ = true |- _ =>
    pose proof (base_units_match _ E) as Hm; pose proof (positive_base _ E) as Hp;
    apply IsPositive_BaseInt in E as (n & Hn & E); rewrite E in * end.
  split_and!; try done; try congruence. apply BitLen_bound; lia.
Qed.

(** A validated cross-token payroll freezes coverable obligations: the
    recipients are distinct, valid, neither the payroll contract nor the
    employer, each obligation fits in a uint128, their sum is the declared
    total, and the aggregate swap's guaranteed output covers that sum. *)
Theorem cross_token_payroll_covers (p : PayrollParameters)
    (createdAt constraintDeadline expiresAt : Time) (employer : string) (Hemp : employer <> "")
    (Hok : validateCrossTokenTimeline p createdAt constraintDeadline expiresAt employer = Ok tt) :
  1 <= count_list (pay_Recipients p) <= maxPayrollRecipientsPhase12 /\
  NoDup ((fun r => normalizeEVMAddress (rcp_Address r)) <$> pay_Recipients p) /\
  Forall (fun r => ValidAddress (rcp_Address r) = true
                   /\ addressesEqual (rcp_Address r) AddressWizPayPayroll = false
                   /\ addressesEqual (rcp_Address r) employer = false
                   /\ 0 < base_units (rcp_MinAmountOut r) < 2 ^ 128) (pay_Recipients p) /\
  exists c gross minimum,
    pay_CrossToken p = Some c /\
    BaseInt (ct_GrossInput c) = Ok gross /\ 0 < gross < 2 ^ 128 /\
    BaseInt (ct_MinTotalOut c) = Ok minimum /\ 0 < minimum < 2 ^ 128 /\
    let obligations := sum_list_Z ((fun r => base_units (rcp_MinAmountOut r)) <$> pay_Recipients p) in
    amt_BaseUnits (pay_Total p) = FormatInt obligations /\ obligations <= minimum.
Proof.
  unfold validateCrossTokenTimeline in Hok. destruct (pay_CrossToken p) as [c|]; [|done].
  do 6 (apply rbind_ok in Hok as ([] & ? & Hok)).
  apply rbind_ok in Hok as ([[seen obligations] tokenOut] & Hloop & Hok).
  apply cross_loop in Hloop as (Hall & Hdup & _ & ->). rewrite numbered_snd in *.
  apply rbind_ok in Hok as ([] & Htotal & Hok).
  apply rbind_ok in Hok as (gross & Hg & Hok). apply rbind_ok in Hok as (minimum & Hm & Hok).
  apply rbind_ok in Hok as ([] & Hcover & _).
  apply positivePayrollUint128_ok in Hg as (-> & ? & ? & _), Hm as (-> & ? & ? & _).
  repeat match goal with E : fail_if _ _ = Ok _ |- _ => apply fail_if_ok in E end. reflect_all.
  split_and!; try done; [unfold count_list in *; lia| |].
  - eapply Forall_impl; [exact Hall|]. cbn. intros r (? & ? & He & Hp%positive_base & ?).
    split_and!; auto.
  - exists c. do 2 eexists. split_and!; eauto; lia.
Qed.
End params_lemmas.

(** * Concrete payloads *)
Module Samples.
Definition usdc : Token := MkToken ChainIDArcMainnet "ERC20" AddressUSDCMainnet "USDC" 6.
Definition eurc : Token := MkToken ChainIDArcMainnet "ERC20" AddressEURCMainnet "EURC" 6.
Definition alice : string := "0x1111111111111111111111111111111111111111".
Definition bob : string := "0x2222222222222222222222222222222222222222".
Definition employer : string := "0x3333333333333333333333333333333333333333".
Definition wallet : string := employer.

(** [amount whole] is a six-decimal whole amount. *)
Definition amount (n : Z) : Amount := MkAmount (FormatInt n) (FormatInt (n * 1000000)) 6.

Definition payroll_line (address : string) (n : Z) : Recipient :=
  MkRecipient address zero_amount usdc (amount n) (amount n).
Definition payroll : PayrollParameters :=
  MkPayroll 1 PayrollVariantBatchSingleTokenOut usdc zero_token
    [payroll_line alice 40; payroll_line bob 60] (amount 100) "payroll-2026-01" None.

Definition now : Time := of_unix 1780000000.
Definition cross_line (address : string) (n : Z) : Recipient :=
  MkRecipient address zero_amount eurc zero_amount (amount n).
Definition cross_payroll : PayrollParameters :=
  MkPayroll 1 PayrollVariantBatchSingleTokenOut usdc zero_token
    [cross_line alice 40; cross_line bob 60] (amount 100) "payroll-2026-01"
    (Some (MkCrossToken (amount 120) (amount 101) "1000000" (now + 10 * Minute))).

Definition quote : SwapQuote :=
  MkQuote "quote-1" "uniswap" (amount 100) (amount 99) AddressUniswapUniversalRouter
    (now + 15 * Minute) "evidence-1".
Definition swap : SwapParameters :=
  MkSwap 1 usdc eurc (amount 110) (amount 100) (amount 99) "quote-1" 100 "1000000"
    AddressUniswapUniversalRouter wallet (Some quote) (now + 10 * Minute).
End Samples.

Section params_witnesses.
Import Samples.
#[local] Existing Instance Eth.is_hex_address.
#[local] Existing Instance Eth.no_folding.

Lemma payroll_phase12_exact_witness :
  BaseInt (pay_Total payroll) = Ok 100000000.
Proof. apply (payroll_phase12_exact payroll). vm_compute. reflexivity. Defined.

Lemma cross_token_payroll_covers_witness :
  1 <= count_list (pay_Recipients cross_payroll) <= 50.
Proof.
  apply (cross_token_payroll_covers cross_payroll now (now + Hour) (now + Hour) employer);
    [discriminate|vm_compute; reflexivity].
Defined.

Lemma swap_phase12_economics_witness : swp_MaxSlippageBPS swap <= 10000.
Proof.
  apply (swap_phase12_economics swap now (now + Hour) (now + Hour)). vm_compute. reflexivity.
Defined.

Lemma swap_deadline_window_witness :
  exists q, swp_Quote swap = Some q /\
    now < swp_Deadline swap /\ swp_Deadline swap <= now + 20 * Minute /\
    swp_Deadline swap <= quo_ExpiresAt q /\ now < quo_ExpiresAt q /\
    swp_Deadline swap <= now + Hour /\ swp_Deadline swap <= now + Hour.
Proof.
  apply (swap_deadline_window swap now (now + Hour) (now + Hour));
    [vm_compute; discriminate..|vm_compute; reflexivity].
Defined.
End params_witnesses.
