(* ===== verification/Intents.v ===== *)
(** internal/intents/canonical.go: the RFC 8785 subset that turns the closed
    material envelope into digest bytes.

    [reflect.Value]s are the trees of [json]: what reflection sees of a value
    is its kind, and for a struct its exported fields with the names of their
    tags.  The aggregate itself, its lifecycle and the encoders of its structs
    follow. *)
From S2P Require Import Prelude GoStrings GoTime AppErrors.
Open Scope Z_scope.
Open Scope go_scope.

#[warnings="-register-all"]
Inductive json : Type :=
  | JNull
  | JString (s : string)
  | JInt (n : Z)
  | JBool (b : bool)
  | JArray (items : list json)
  | JObject (fields : list (string * json)).

(** [time.Time] is encoded as a string. *)
Definition JTime (t : Time) : json := JString (FormatRFC3339Nano (UTC t)).

(** [builder.WriteString], [WriteByte] and [WriteRune] over bytes. *)
Definition escape_rune (r : Z) : list Z :=
  if (r =? 34) || (r =? 92) then 92 :: encode_rune r
  else if r =? 8 then [92; 98]
  else if r =? 9 then [92; 116]
  else if r =? 10 then [92; 110]
  else if r =? 12 then [92; 102]
  else if r =? 13 then [92; 114]
  else if r <? 0x20 then [92; 117; 48; 48; hex_digit (Z.shiftr r 4); hex_digit (Z.land r 0x0f)]
  else encode_rune r.

Definition appendJSONString (value : string) : list Z :=
  [34] ++ concat (escape_rune <$> runes value) ++ [34].

Definition write (s : string) : list Z := bytes s.

(** [for index, item := range items { if index > 0 { ',' } ... }] *)
Fixpoint join (items : list (list Z)) : list Z :=
  match items with
  | [] => []
  | [x] => x
  | x :: rest => x ++ [44] ++ join rest
  end.

Section monadic_map.
Context {A B : Type} (f : A -> result B).
Fixpoint map_result (l : list A) : result (list B) :=
  match l with
  | [] => Ok []
  | x :: l' => let! y := f x in let! ys := map_result l' in Ok (y :: ys)
  end.
End monadic_map.

(** The fields are rendered and then ordered by name; Go orders them first.
    The only failure is the invalid UTF-8 error, which carries no position. *)
Fixpoint appendCanonical (value : json) : result (list Z) :=
  match value with
  | JNull => Ok (write "null")
  | JString s =>
      do! fail_if (negb (ValidString s)) (errorf "canonical material contains invalid UTF-8");
      Ok (appendJSONString s)
  | JInt n => Ok (write (FormatInt n))
  | JBool b => Ok (write (if b then "true" else "false"))
  | JArray items =>
      let! parts := map_result appendCanonical items in
      Ok ([91] ++ join parts ++ [93])
  | JObject fields =>
      let! parts := map_result (fun '(name, v) => let! out := appendCanonical v in Ok (name, out)) fields in
      let written := (fun '(name, out) => appendJSONString name ++ [58] ++ out) <$> sort_by fst parts in
      Ok ([123] ++ join written ++ [125])
  end.

Definition canonicalJSON (value : json) : result string :=
  let! out := appendCanonical value in Ok (of_bytes out).

(** Quotes are shown as apostrophes. *)
Definition show (l : list Z) : string := of_bytes ((fun b => if b =? 34 then 39 else b) <$> l).

Example canonical_sorts :
  match appendCanonical (JObject [("b", JInt 7); ("a", JArray [JNull; JBool true]); ("c", JString "x/y")]) with
  | Ok out => show out | Err _ => "" end
  = "{'a':[null,true],'b':7,'c':'x/y'}".
Proof. vm_compute. reflexivity. Qed.

(** internal/intents: the intent aggregate — construction and normalisation
    (intent.go), canonical material and digest (canonical.go,
    ownership_material.go), lifecycle (lifecycle.go), restoration
    (restore.go) and the operation identity (idempotency.go). *)
From S2P Require Import GoTime Sha256 AppErrors Contracts IntentTypes Amounts IntentParams.

Definition digestDomain : string := of_bytes (bytes "WIZPAY_MCP_INTENT_V1" ++ [10]).

Record Ownership := MkOwnership {
  own_UserID : string; own_IdentityProvider : string; own_WalletProvider : string;
  own_ProviderUserReference : string; own_WalletBindingID : string;
  own_WalletBindingVersion : Z; own_WalletID : string; own_WalletAddress : string;
  own_ChainID : string; own_Network : string
}.
#[global] Instance Ownership_eq_dec : EqDecision Ownership.
Proof. solve_decision. Defined.

Definition EffectiveWalletProvider (o : Ownership) : string :=
  if own_WalletProvider o != "" then own_WalletProvider o else own_IdentityProvider o.

Definition validate_texts (fields : list (string * string)) : result unit :=
  for_each (fun '(name, value) => validateText name value) fields.

Definition Ownership_validate (o : Ownership) : result unit :=
  do! (if own_WalletProvider o != "" then validateText "wallet provider" (own_WalletProvider o) else Ok tt);
  do! validate_texts
        [ ("user ID", own_UserID o); ("identity provider", own_IdentityProvider o);
          ("provider user reference", own_ProviderUserReference o);
          ("wallet binding ID", own_WalletBindingID o); ("wallet ID", own_WalletID o);
          ("wallet address", own_WalletAddress o); ("network", own_Network o) ];
  do! fail_if (own_WalletBindingVersion o =? 0) (errorf "wallet binding version must be at least 1");
  validateChainID (own_ChainID o).

Definition Route_validate (r : Route) : result unit :=
  do! fail_if (negb (RouteType_Valid (rte_Type r)))
        (errorf1 "invalid route type %q" (RouteType_string (rte_Type r)));
  do! validateText "route reference" (rte_Reference r);
  do! fail_if (rte_Version r =? 0) (errorf "route version must be at least 1");
  Ok tt.

Record Constraints := MkConstraints { con_Deadline : Time; con_PolicyReference : string }.

Definition Constraints_validate (c : Constraints) (createdAt expiresAt : Time) : result unit :=
  do! fail_if (IsZero (con_Deadline c) || Before (con_Deadline c) createdAt
               || After (con_Deadline c) expiresAt)
        (errorf "constraint deadline must be between creation and expiration");
  validateText "policy reference" (con_PolicyReference c).

Record Params := MkParams {
  prm_IntentID : string; prm_Version : Z; prm_ClientRequestID : string; prm_Nonce : string;
  prm_Type : Type_; prm_Ownership : Ownership; prm_Financial : FinancialParameters;
  prm_Route : Route; prm_Constraints : Constraints; prm_CreatedAt : Time; prm_ExpiresAt : Time
}.

Inductive Status : Set :=
  | StatusDraft | StatusCreated | StatusApprovalRequired | StatusApproved
  | StatusReadyForExecution | StatusExpired | StatusCancelled
  | StatusOther (raw : string).
#[global] Instance Status_eq_dec : EqDecision Status.
Proof. solve_decision. Defined.
Definition Status_string (s : Status) : string :=
  match s with
  | StatusDraft => "DRAFT" | StatusCreated => "CREATED" | StatusApprovalRequired => "APPROVAL_REQUIRED"
  | StatusApproved => "APPROVED" | StatusReadyForExecution => "READY_FOR_EXECUTION"
  | StatusExpired => "EXPIRED" | StatusCancelled => "CANCELLED" | StatusOther raw => raw
  end.
Definition Status_Valid (s : Status) : bool :=
  match s with StatusOther _ => false | _ => true end.
Definition Status_Terminal (s : Status) : bool := (s == StatusExpired) || (s == StatusCancelled).

Record Intent := MkIntent {
  int_params : Params; int_status : Status; int_digest : string; int_lifecycleRevision : Z
}.

(** * Canonical material *)
Definition omitempty (name : string) (o : option json) : list (string * json) :=
  match o with Some v => [(name, v)] | None => [] end.

Definition Amount_json (a : Amount) : json :=
  JObject [("decimal", JString (amt_Decimal a)); ("base_units", JString (amt_BaseUnits a));
           ("decimals", JInt (amt_Decimals a))].
Definition Token_json (t : Token) : json :=
  JObject [("chain_id", JString (tok_ChainID t)); ("standard", JString (tok_Standard t));
           ("address", JString (tok_Address t)); ("symbol", JString (tok_Symbol t));
           ("decimals", JInt (tok_Decimals t))].
Definition SendParameters_json (p : SendParameters) : json :=
  JObject [("token", Token_json (snd_Token p)); ("recipient", JString (snd_Recipient p));
           ("amount", Amount_json (snd_Amount p))].
Definition Recipient_json (r : Recipient) : json :=
  JObject [("address", JString (rcp_Address r)); ("amount", Amount_json (rcp_Amount r));
           ("token_out", Token_json (rcp_TokenOut r)); ("amount_in", Amount_json (rcp_AmountIn r));
           ("min_amount_out", Amount_json (rcp_MinAmountOut r))].
Definition CrossToken_json (c : CrossTokenPayrollParameters) : json :=
  JObject [("gross_input", Amount_json (ct_GrossInput c));
           ("min_total_out", Amount_json (ct_MinTotalOut c));
           ("min_hop_price_x36", JString (ct_MinHopPriceX36 c)); ("deadline", JTime (ct_Deadline c))].
Definition PayrollParameters_json (p : PayrollParameters) : json :=
  JObject ([("schema_version", JInt (pay_SchemaVersion p));
            ("variant", JString (PayrollVariant_string (pay_Variant p)));
            ("token_in", Token_json (pay_TokenIn p)); ("token", Token_json (pay_Token p));
            ("recipients", JArray (Recipient_json <$> pay_Recipients p));
            ("total", Amount_json (pay_Total p)); ("reference_id", JString (pay_ReferenceID p))]
           ++ omitempty "cross_token" (CrossToken_json <$> pay_CrossToken p)).
Definition Quote_json (q : SwapQuote) : json :=
  JObject [("quote_id", JString (quo_QuoteID q)); ("source", JString (quo_Source q));
           ("expected_amount_out", Amount_json (quo_ExpectedAmountOut q));
           ("min_amount_out", Amount_json (quo_MinAmountOut q)); ("router", JString (quo_Router q));
           ("expires_at", JTime (quo_ExpiresAt q));
           ("evidence_reference", JString (quo_EvidenceReference q))].
Definition SwapParameters_json (p : SwapParameters) : json :=
  JObject ([("schema_version", JInt (swp_SchemaVersion p));
            ("input_token", Token_json (swp_InputToken p));
            ("output_token", Token_json (swp_OutputToken p));
            ("input_amount", Amount_json (swp_InputAmount p));
            ("expected_output", Amount_json (swp_ExpectedOutput p));
            ("minimum_output", Amount_json (swp_MinimumOutput p));
            ("quote_reference", JString (swp_QuoteReference p));
            ("max_slippage_bps", JInt (swp_MaxSlippageBPS p));
            ("min_hop_price_x36", JString (swp_MinHopPriceX36 p));
            ("router", JString (swp_Router p)); ("recipient", JString (swp_Recipient p))]
           ++ omitempty "quote" (Quote_json <$> swp_Quote p)
           ++ [("deadline", JTime (swp_Deadline p))]).
Definition BridgeParameters_json (p : BridgeParameters) : json :=
  JObject [("source_chain_id", JString (brg_SourceChainID p));
           ("destination_chain_id", JString (brg_DestinationChainID p));
           ("source_token", Token_json (brg_SourceToken p));
           ("source_amount", Amount_json (brg_SourceAmount p));
           ("destination_amount", Amount_json (brg_DestinationAmount p));
           ("destination_address", JString (brg_DestinationAddress p));
           ("plan_reference", JString (brg_PlanReference p))].
Definition ANSParameters_json (p : ANSParameters) : json :=
  JObject [("normalized_name", JString (ans_NormalizedName p));
           ("name_version", JString (ans_NameVersion p)); ("term_seconds", JInt (ans_TermSeconds p));
           ("controller", JString (ans_Controller p)); ("cost_token", Token_json (ans_CostToken p));
           ("cost", Amount_json (ans_Cost p))].
Definition FinancialParameters_json (p : FinancialParameters) : json :=
  JObject (omitempty "send" (SendParameters_json <$> fin_Send p)
           ++ omitempty "payroll" (PayrollParameters_json <$> fin_Payroll p)
           ++ omitempty "swap" (SwapParameters_json <$> fin_Swap p)
           ++ omitempty "bridge" (BridgeParameters_json <$> fin_Bridge p)
           ++ omitempty "ans_registration" (ANSParameters_json <$> fin_ANS p)).

(** [canonicalOwnership]: an absent wallet provider leaves no trace. *)
Definition ownershipMaterial (o : Ownership) : json :=
  JObject ([("user_id", JString (own_UserID o)); ("identity_provider", JString (own_IdentityProvider o))]
           ++ omitempty "wallet_provider"
                (if own_WalletProvider o != "" then Some (JString (own_WalletProvider o)) else None)
           ++ [("provider_user_reference", JString (own_ProviderUserReference o));
               ("wallet_binding_id", JString (own_WalletBindingID o));
               ("wallet_binding_version", JInt (own_WalletBindingVersion o));
               ("wallet_id", JString (own_WalletID o)); ("wallet_address", JString (own_WalletAddress o));
               ("chain_id", JString (own_ChainID o)); ("network", JString (own_Network o))]).
Definition Route_json (r : Route) : json :=
  JObject [("type", JString (RouteType_string (rte_Type r))); ("reference", JString (rte_Reference r));
           ("version", JInt (rte_Version r))].
Definition Constraints_json (c : Constraints) : json :=
  JObject [("deadline", JTime (con_Deadline c)); ("policy_reference", JString (con_PolicyReference c))].

Definition materialEnvelope (p : Params) : json :=
  JObject [("intent_id", JString (prm_IntentID p)); ("intent_version", JInt (prm_Version p));
           ("client_request_id", JString (prm_ClientRequestID p)); ("nonce", JString (prm_Nonce p));
           ("intent_type", JString (Type_string (prm_Type p)));
           ("ownership", ownershipMaterial (prm_Ownership p));
           ("financial_parameters", FinancialParameters_json (prm_Financial p));
           ("route", Route_json (prm_Route p)); ("constraints", Constraints_json (prm_Constraints p));
           ("created_at", JTime (prm_CreatedAt p)); ("expires_at", JTime (prm_ExpiresAt p))].

Definition canonicalMaterial (p : Params) : result string := canonicalJSON (materialEnvelope p).

Definition digestBytes (material : string) : string :=
  "sha256:" +:+ sha256_hex (digestDomain +:+ material).

(** * Validation *)
(** A nil pointer dereference; [Financial_validate] excludes it. *)
Definition deref {A} (o : option A) : result A :=
  match o with Some v => Ok v | None => Err (Sentinel "nil pointer dereference") end.

Section intents.
Context `{EthCommon} `{UnicodeTables}.

Definition validateAllowlistedRoute (route : Route) (what reference : string) (version : Z) : result unit :=
  do! fail_if (rte_Type route != RouteAllowlistedContract)
        (errorf (what +:+ " requires ALLOWLISTED_CONTRACT route"));
  do! fail_if (rte_Reference route != reference)
        (errorf1 (what +:+ " route reference must be %s") reference);
  do! fail_if (rte_Version route != version)
        (errorf1 (what +:+ " route version must be %d") (FormatInt version));
  Ok tt.
Definition validatePayrollRoute (route : Route) : result unit :=
  validateAllowlistedRoute route "phase 12 payroll" RouteReferencePayroll RouteVersionPayroll.
Definition validateSwapRoute (route : Route) : result unit :=
  validateAllowlistedRoute route "phase 12 swap" RouteReferenceSwap RouteVersionSwap.

(** The payload's relation to the owning wallet, the route and the clock. *)
Definition validate_send_context (p : Params) (s : SendParameters) : result unit :=
  let o := prm_Ownership p in
  do! fail_if (tok_ChainID (snd_Token s) != own_ChainID o)
        (errorf "send token chain does not match owning wallet chain");
  do! fail_if ((own_ChainID o != ChainIDArcMainnet) || (own_Network o != NetworkArcMainnet))
        (errorf "SEND requires Arc Mainnet wallet ownership");
  do! fail_if (addressesEqual (own_WalletAddress o) (snd_Recipient s))
        (errorf "send recipient cannot equal source wallet");
  validateSendRoute (prm_Route p).

Definition validate_payroll_context (p : Params) (pay : PayrollParameters) : result unit :=
  let o := prm_Ownership p in
  do! fail_if (tok_ChainID (SourceToken pay) != own_ChainID o)
        (errorf "payroll token chain does not match owning wallet chain");
  if Payroll_IsPhase12 pay then
    do! fail_if ((SameTokenExecutable pay || CrossTokenExecutable pay)
                 && (own_Network o != NetworkArcMainnet))
          (errorf "phase 12 payroll requires MAINNET ownership network");
    do! (if isCrossTokenShape pay
         then validateCrossTokenTimeline pay (prm_CreatedAt p) (con_Deadline (prm_Constraints p))
                (prm_ExpiresAt p) (own_WalletAddress o)
         else Ok tt);
    validatePayrollRoute (prm_Route p)
  else Ok tt.

Definition validate_swap_context (p : Params) (s : SwapParameters) : result unit :=
  let o := prm_Ownership p in
  do! fail_if (tok_ChainID (swp_InputToken s) != own_ChainID o)
        (errorf "swap input token chain does not match owning wallet chain");
  if Swap_IsPhase12 s then
    do! fail_if (own_Network o != NetworkArcMainnet)
          (errorf "phase 12 swap requires MAINNET ownership network");
    do! fail_if (negb (addressesEqual (swp_Recipient s) (own_WalletAddress o)))
          (errorf "swap recipient must equal the bound wallet");
    do! Swap_validateWithTimeline s (prm_CreatedAt p) (con_Deadline (prm_Constraints p)) (prm_ExpiresAt p);
    validateSwapRoute (prm_Route p)
  else Ok tt.

Definition validate_context (p : Params) : result unit :=
  let chain := own_ChainID (prm_Ownership p) in
  match prm_Type p with
  | TypeSend => let! s := deref (fin_Send (prm_Financial p)) in validate_send_context p s
  | TypePayroll => let! pay := deref (fin_Payroll (prm_Financial p)) in validate_payroll_context p pay
  | TypeSwap => let! s := deref (fin_Swap (prm_Financial p)) in validate_swap_context p s
  | TypeBridge =>
      let! b := deref (fin_Bridge (prm_Financial p)) in
      fail_if (brg_SourceChainID b != chain) (errorf "bridge source chain does not match owning wallet chain")
  | TypeANSRegistration =>
      let! a := deref (fin_ANS (prm_Financial p)) in
      fail_if (tok_ChainID (ans_CostToken a) != chain)
        (errorf "ANS cost token chain does not match owning wallet chain")
  | TypeOther _ => Ok tt
  end.

Definition validateParams (p : Params) : result unit :=
  do! validate_texts [("intent ID", prm_IntentID p); ("client request ID", prm_ClientRequestID p);
                      ("nonce", prm_Nonce p)];
  do! fail_if (prm_Version p =? 0) (errorf "intent version must be at least 1");
  do! fail_if (negb (Type_Valid (prm_Type p)))
        (errorf1 "invalid intent type %q" (Type_string (prm_Type p)));
  do! Ownership_validate (prm_Ownership p);
  do! Financial_validate (prm_Financial p) (prm_Type p);
  do! validate_context p;
  do! Route_validate (prm_Route p);
  do! fail_if (IsZero (prm_CreatedAt p)) (errorf "intent creation time is required");
  do! fail_if (IsZero (prm_ExpiresAt p) || negb (After (prm_ExpiresAt p) (prm_CreatedAt p)))
        (errorf "intent expiration must follow creation");
  Constraints_validate (prm_Constraints p) (prm_CreatedAt p) (prm_ExpiresAt p).

(** * Normalisation *)

(** [cloneFinancial] copies every pointed-to payload before anything is
    rewritten: values here are immutable, so the copy is the value. *)
Definition cloneFinancial (p : FinancialParameters) : FinancialParameters :=
  MkFinancial (fin_Send p) (fin_Payroll p) (fin_Swap p) (fin_Bridge p) (fin_ANS p).

Definition trim_ownership (o : Ownership) : Ownership :=
  MkOwnership (TrimSpace (own_UserID o)) (TrimSpace (own_IdentityProvider o))
    (TrimSpace (own_WalletProvider o)) (TrimSpace (own_ProviderUserReference o))
    (TrimSpace (own_WalletBindingID o)) (own_WalletBindingVersion o) (TrimSpace (own_WalletID o))
    (TrimSpace (own_WalletAddress o)) (TrimSpace (own_ChainID o)) (TrimSpace (own_Network o)).

(** Applies [f] to the times of a payload. *)
Definition map_cross_times (f : Time -> Time) (c : CrossTokenPayrollParameters) :=
  MkCrossToken (ct_GrossInput c) (ct_MinTotalOut c) (ct_MinHopPriceX36 c) (f (ct_Deadline c)).
Definition map_payroll_times (f : Time -> Time) (p : PayrollParameters) : PayrollParameters :=
  MkPayroll (pay_SchemaVersion p) (pay_Variant p) (pay_TokenIn p) (pay_Token p) (pay_Recipients p)
    (pay_Total p) (pay_ReferenceID p) (map_cross_times f <$> pay_CrossToken p).
Definition map_quote_times (f : Time -> Time) (q : SwapQuote) : SwapQuote :=
  MkQuote (quo_QuoteID q) (quo_Source q) (quo_ExpectedAmountOut q) (quo_MinAmountOut q)
    (quo_Router q) (f (quo_ExpiresAt q)) (quo_EvidenceReference q).
Definition map_swap_times (f : Time -> Time) (p : SwapParameters) : SwapParameters :=
  MkSwap (swp_SchemaVersion p) (swp_InputToken p) (swp_OutputToken p) (swp_InputAmount p)
    (swp_ExpectedOutput p) (swp_MinimumOutput p) (swp_QuoteReference p) (swp_MaxSlippageBPS p)
    (swp_MinHopPriceX36 p) (swp_Router p) (swp_Recipient p) (map_quote_times f <$> swp_Quote p)
    (f (swp_Deadline p)).
Definition map_financial_times (f : Time -> Time) (p : FinancialParameters) : FinancialParameters :=
  MkFinancial (fin_Send p) (map_payroll_times f <$> fin_Payroll p) (map_swap_times f <$> fin_Swap p)
    (fin_Bridge p) (fin_ANS p).
Definition map_params_times (f : Time -> Time) (p : Params) : Params :=
  MkParams (prm_IntentID p) (prm_Version p) (prm_ClientRequestID p) (prm_Nonce p) (prm_Type p)
    (prm_Ownership p) (map_financial_times f (prm_Financial p)) (prm_Route p)
    (MkConstraints (f (con_Deadline (prm_Constraints p))) (con_PolicyReference (prm_Constraints p)))
    (f (prm_CreatedAt p)) (f (prm_ExpiresAt p)).

Definition normalizeParams (p : Params) : Params :=
  map_params_times UTC
    (MkParams (TrimSpace (prm_IntentID p)) (prm_Version p) (TrimSpace (prm_ClientRequestID p))
       (TrimSpace (prm_Nonce p)) (prm_Type p) (trim_ownership (prm_Ownership p))
       (cloneFinancial (prm_Financial p))
       (MkRoute (rte_Type (prm_Route p)) (TrimSpace (rte_Reference (prm_Route p))) (rte_Version (prm_Route p)))
       (MkConstraints (con_Deadline (prm_Constraints p))
          (TrimSpace (con_PolicyReference (prm_Constraints p))))
       (prm_CreatedAt p) (prm_ExpiresAt p)).

Definition truncatePostgresTimestamp (value : Time) : Time :=
  if IsZero value then value else Truncate value Microsecond.

Definition normalizeCreationTimestamps (p : Params) : Params :=
  map_params_times truncatePostgresTimestamp p.

Definition normalizeOwnershipWalletAddress (o : Ownership) : Ownership :=
  MkOwnership (own_UserID o) (own_IdentityProvider o) (own_WalletProvider o)
    (own_ProviderUserReference o) (own_WalletBindingID o) (own_WalletBindingVersion o)
    (own_WalletID o) (normalize_if_valid (own_WalletAddress o)) (own_ChainID o) (own_Network o).

Definition normalizeSendAddresses (s : SendParameters) : SendParameters :=
  MkSend (normalize_token (snd_Token s)) (normalize_if_valid (snd_Recipient s)) (snd_Amount s).

Definition normalizeCreationAddresses (p : Params) : Params :=
  let f := prm_Financial p in
  MkParams (prm_IntentID p) (prm_Version p) (prm_ClientRequestID p) (prm_Nonce p) (prm_Type p)
    (normalizeOwnershipWalletAddress (prm_Ownership p))
    (MkFinancial (normalizeSendAddresses <$> fin_Send f) (normalizePayrollAddresses <$> fin_Payroll f)
       (normalizeSwapAddresses <$> fin_Swap f) (fin_Bridge f) (fin_ANS f))
    (prm_Route p) (prm_Constraints p) (prm_CreatedAt p) (prm_ExpiresAt p).

Definition creation_normal_form (p : Params) : Params :=
  normalizeCreationAddresses (normalizeCreationTimestamps (normalizeParams p)).

(** * Operations *)
Definition intent_invalid : error -> error :=
  Wrap CodeValidationError "Intent is invalid." false true true.
Definition material_change : error :=
  New CodeIntentMutated "A material intent change requires a new intent and approval." false true true.

Definition NewDraft (params : Params) : result Intent :=
  let params := creation_normal_form params in
  do! map_err intent_invalid (validateParams params);
  Ok (MkIntent params StatusDraft "" 1).

Definition Intent_Validate (i : Intent) : result unit :=
  do! map_err intent_invalid (validateParams (int_params i));
  do! fail_if (negb (Status_Valid (int_status i)))
        (New CodeValidationError "Intent status is invalid." false true true);
  do! fail_if (int_lifecycleRevision i =? 0)
        (New CodeValidationError "Intent lifecycle revision must be at least 1." false true true);
  if int_status i == StatusDraft then
    fail_if (int_digest i != "") (New CodeValidationError "Draft intent cannot have a digest." false true true)
  else
    let! canonical := map_err intent_invalid (canonicalMaterial (int_params i)) in
    fail_if ((int_digest i == "") || (digestBytes canonical != int_digest i))
      (New CodeIntentMutated "Intent material does not match its digest." false true true).

(** The lifecycle revision of a draft is incremented as a [uint64], without
    the overflow check of the transitions. *)
Definition ReviseDraft (i : Intent) (params : Params) : result Intent :=
  do! Intent_Validate i;
  let params := creation_normal_form params in
  do! map_err intent_invalid (validateParams params);
  do! fail_if ((prm_IntentID (int_params i) != prm_IntentID params)
               || (prm_Version (int_params i) != prm_Version params)) material_change;
  if int_status i == StatusDraft then
    Ok (MkIntent params StatusDraft "" (u64 (int_lifecycleRevision i + 1)))
  else
    let! canonical := map_err intent_invalid (canonicalMaterial params) in
    if digestBytes canonical == int_digest i then Ok i else Err material_change.

(** * Lifecycle (lifecycle.go) *)
Definition validTransition (current next : Status) : result unit :=
  let allowed :=
    match current with
    | StatusDraft => next == StatusCreated
    | StatusCreated => (next == StatusApprovalRequired) || (next == StatusCancelled) || (next == StatusExpired)
    | StatusApprovalRequired => (next == StatusCancelled) || (next == StatusExpired)
    | StatusApproved => (next == StatusReadyForExecution) || (next == StatusCancelled) || (next == StatusExpired)
    | StatusReadyForExecution => (next == StatusCancelled) || (next == StatusExpired)
    | _ => false
    end in
  fail_if (negb allowed)
    (errorf2 "transition from %s to %s is not allowed" (Status_string current) (Status_string next)).

Definition approval_required : error :=
  New CodeApprovalRequired "Explicit matching approval is required." false true false.
Definition intent_expired : error :=
  New CodeIntentExpired "Intent has expired." false true true.

(** [next.status = status; next.lifecycleRevision++] *)
Definition advance (i : Intent) (digest : string) (status : Status) : Intent :=
  MkIntent (int_params i) status digest (u64 (int_lifecycleRevision i + 1)).

Definition Intent_Transition (i : Intent) (next : Status) (at_ : Time) : result Intent :=
  do! Intent_Validate i;
  if next == int_status i then Ok i
  else if next == StatusApproved then Err approval_required
  else
    do! fail_if (IsZero at_ || Before at_ (prm_CreatedAt (int_params i)))
          (New CodeValidationError "Intent transition time is invalid." false true true);
    do! map_err (Wrap CodeValidationError "Intent lifecycle transition is invalid." false true true)
          (validTransition (int_status i) next);
    do! (if next == StatusExpired then
           fail_if (Before at_ (prm_ExpiresAt (int_params i)))
             (New CodeValidationError "Intent has not reached its expiration time." false true false)
         else fail_if (negb (Before at_ (prm_ExpiresAt (int_params i)))) intent_expired);
    let! digest :=
      if next == StatusCreated then
        let! canonical := canonicalMaterial (int_params i) in Ok (digestBytes canonical)
      else Ok (int_digest i) in
    let nextIntent := advance i digest next in
    do! Intent_Validate nextIntent;
    Ok nextIntent.

(** The artifact is an interface value: absent, or a check of an intent at
    an instant. *)
Record ApprovalArtifact := MkArtifact { EnsureAuthorizes : Intent -> Time -> result unit }.

Definition Intent_Approve (i : Intent) (artifact : option ApprovalArtifact) (at_ : Time) : result Intent :=
  do! Intent_Validate i;
  do! fail_if ((int_status i != StatusApprovalRequired) && (int_status i != StatusApproved))
        (New CodeValidationError "Intent is not awaiting approval." false true true);
  match artifact with
  | None => Err approval_required
  | Some a =>
      do! fail_if (IsZero at_ || Before at_ (prm_CreatedAt (int_params i)))
            (New CodeValidationError "Intent approval time is invalid." false true true);
      do! fail_if (negb (Before at_ (prm_ExpiresAt (int_params i)))) intent_expired;
      do! EnsureAuthorizes a i at_;
      if int_status i == StatusApproved then Ok i
      else
        let next := advance i (int_digest i) StatusApproved in
        do! Intent_Validate next;
        Ok next
  end.

(** * Restoration (restore.go) *)
Definition Intent_Restore (params : Params) (status : Status) (digest : string) (revision : Z) : result Intent :=
  let params := normalizeParams params in
  do! map_err intent_invalid (validateParams params);
  let value := MkIntent params status digest revision in
  do! Intent_Validate value;
  do! (if status != StatusDraft then
         let! canonical := canonicalMaterial params in
         fail_if (digest != digestBytes canonical)
           (New CodeIntentMutated "Intent material does not match its digest." false true true)
       else Ok tt);
  do! fail_if (negb (Status_Valid status)) (errorf "invalid persisted intent status");
  Ok value.

(** * Operation identity (idempotency.go) *)
Definition operationDomain : string := of_bytes (bytes "WIZPAY_MCP_OPERATION_V1" ++ [10]).
Definition OperationIdentityVersion : Z := 1.
Definition newline : string := of_bytes [10].

Record OperationIdentity := MkOperationIdentity {
  opi_intentID : string; opi_intentVersion : Z; opi_intentDigest : string;
  opi_operationKey : string; opi_version : Z
}.
#[global] Instance OperationIdentity_eq_dec : EqDecision OperationIdentity.
Proof. solve_decision. Defined.

(** [fmt.Sprintf("%s\n%d\n%s", id, version, digest)] *)
Definition operation_material (id : string) (version : Z) (digest : string) : string :=
  id +:+ newline +:+ FormatUint version +:+ newline +:+ digest.

Definition NewOperationIdentity (i : Intent) : result OperationIdentity :=
  do! Intent_Validate i;
  do! fail_if ((int_status i == StatusDraft) || (int_digest i == ""))
        (New CodeValidationError "Intent must be frozen before assigning an operation identity." false true true);
  let p := int_params i in
  Ok (MkOperationIdentity (prm_IntentID p) (prm_Version p) (int_digest i)
        (sha256_hex (operationDomain +:+ operation_material (prm_IntentID p) (prm_Version p) (int_digest i)))
        OperationIdentityVersion).

Definition OperationIdentity_EnsureMatches (o : OperationIdentity) (i : Intent) : result unit :=
  let! other := NewOperationIdentity i in
  fail_if (o != other)
    (New CodeIntentMutated "Operation identity does not match the frozen intent." false true true).
End intents.
