(* ===== verification/IntentSafety.v ===== *)
(** What the intent aggregate guarantees: the lifecycle as a step relation,
    validity of every reachable intent, immutability of frozen material,
    approval as the only way to APPROVED, restoration, and the bindings of the
    digest and of the operation identity. *)
From S2P Require Import Prelude GoStrings GoTime Sha256 AppErrors Contracts IntentTypes Amounts IntentParams Intents.
Open Scope Z_scope.
Open Scope go_scope.

(** The lifecycle edges [Transition] may take; approval has its own. *)
Inductive intent_edge : Status -> Status -> Prop :=
  | edge_freeze : intent_edge StatusDraft StatusCreated
  | edge_request : intent_edge StatusCreated StatusApprovalRequired
  | edge_ready : intent_edge StatusApproved StatusReadyForExecution
  | edge_close s next :
      s = StatusCreated \/ s = StatusApprovalRequired \/ s = StatusApproved \/ s = StatusReadyForExecution ->
      next = StatusCancelled \/ next = StatusExpired -> intent_edge s next.

Ltac edge_cases He :=
  destruct He as [| | |s next [->|[->|[->| ->]]] [->| ->]]; try done.

Section safety.
Context `{EthCommon} `{UnicodeTables}.

(** * Validity *)
Definition digest_matches (i : Intent) : Prop :=
  match int_status i with
  | StatusDraft => int_digest i = ""
  | _ => exists c, canonicalMaterial (int_params i) = Ok c /\ int_digest i = digestBytes c
  end.

Lemma digestBytes_nonempty m : digestBytes m <> "".
Proof. discriminate. Qed.

Lemma Intent_Validate_ok i :
  Intent_Validate i = Ok tt <->
  validateParams (int_params i) = Ok tt /\ Status_Valid (int_status i) = true /\
  int_lifecycleRevision i <> 0 /\ digest_matches i.
Proof.
  unfold Intent_Validate, digest_matches.
  destruct (validateParams (int_params i)) as [[]|e]; cbn [map_err rbind]; [|naive_solver].
  destruct (Status_Valid (int_status i)) eqn:Hs; cbn [fail_if negb rbind]; [|naive_solver].
  destruct (int_lifecycleRevision i =? 0) eqn:Hr; reflect_all; cbn [fail_if rbind]; [naive_solver|].
  pose proof digestBytes_nonempty as Hne.
  assert (int_status i = StatusDraft \/ int_status i <> StatusDraft) as [E|E]
    by (destruct (int_status i); auto).
  - rewrite E, eqb_refl, fail_if_ok, neqb_spec_false. naive_solver.
  - rewrite (proj2 (eqb_spec_false _ _) E).
    assert (forall P Q : Prop, match int_status i with StatusDraft => P | _ => Q end <-> Q) as Em
      by (intros; destruct (int_status i); tauto).
    rewrite Em. destruct (canonicalMaterial _) as [c|e]; cbn [map_err rbind]; [|naive_solver].
    clear Em. rewrite fail_if_ok, orb_false_iff, eqb_spec_false, neqb_spec_false. split.
    + intros [_ Hd]. split_and!; eauto.
    + intros (_ & _ & _ & c' & [= <-] & ->). eauto.
Qed.

Lemma validTransition_ok s next :
  validTransition s next = Ok tt -> s <> next -> next <> StatusApproved -> intent_edge s next.
Proof.
  unfold validTransition. intros Hv Hne Ha.
  destruct s; cbn in Hv; try discriminate;
    repeat case_bool_decide; subst; try discriminate; cbn in *; try done;
    try (by constructor); by (apply edge_close; auto).
Qed.

Lemma validTransition_complete s next : intent_edge s next -> validTransition s next = Ok tt.
Proof.
  intros He. edge_cases He.
Qed.

Lemma edge_distinct s next : intent_edge s next -> s <> next /\ next <> StatusApproved /\ next <> StatusDraft.
Proof.
  intros He. edge_cases He.
Qed.

Lemma edge_from_draft s next : intent_edge s next -> s = StatusDraft <-> next = StatusCreated.
Proof.
  intros He. edge_cases He.
Qed.

Lemma intent_edge_valid s next : intent_edge s next -> Status_Valid next = true.
Proof.
  intros He. edge_cases He.
Qed.

(** The clock condition of an edge. *)
Definition in_time (i : Intent) (next : Status) (at_ : Time) : Prop :=
  at_ <> zero_time /\ prm_CreatedAt (int_params i) <= at_ /\
  (if next == StatusExpired then prm_ExpiresAt (int_params i) <= at_ else at_ < prm_ExpiresAt (int_params i)).

(** What a transition writes. *)
Definition moved (i : Intent) (next : Status) (i' : Intent) : Prop :=
  int_params i' = int_params i /\ int_status i' = next /\
  int_lifecycleRevision i' = int_lifecycleRevision i + 1 /\
  (if next == StatusCreated
   then exists c, canonicalMaterial (int_params i) = Ok c /\ int_digest i' = digestBytes c
   else int_digest i' = int_digest i).

Lemma advance_revision i d s :
  is_u64 (int_lifecycleRevision i) -> int_lifecycleRevision (advance i d s) <> 0 ->
  int_lifecycleRevision (advance i d s) = int_lifecycleRevision i + 1.
Proof.
  intros Hr Hne. cbn in *. destruct (decide (int_lifecycleRevision i = max_uint64)) as [E|E].
  - rewrite E in Hne. by rewrite u64_succ_max in Hne.
  - by apply u64_succ.
Qed.

Lemma Transition_moved i next at_ i' :
  is_u64 (int_lifecycleRevision i) ->
  Intent_Transition i next at_ = Ok i' -> next <> int_status i ->
  intent_edge (int_status i) next /\ in_time i next at_ /\ moved i next i' /\ Intent_Validate i' = Ok tt.
Proof.
  intros Hr Hok Hne. unfold Intent_Transition in Hok.
  apply rbind_ok in Hok as ([] & Hv & Hok). rewrite (proj2 (eqb_spec_false _ _) Hne) in Hok.
  destruct (next == StatusApproved) eqn:Ha; [done|].
  apply rbind_ok in Hok as ([] & Ht & Hok). apply rbind_ok in Hok as ([] & He & Hok).
  apply rbind_ok in Hok as ([] & Hx & Hok). apply rbind_ok in Hok as (d & Hd & Hok).
  apply rbind_ok in Hok as ([] & Hv' & [= <-]).
  apply map_err_ok in He. apply fail_if_ok in Ht. apply orb_false_iff in Ht as [Ht1 Ht2].
  unfold IsZero, Before in *. reflect_all.
  split; [apply validTransition_ok; auto|]. split; [|split; [|done]].
  - split_and!; try done. unfold in_time. destruct (next == StatusExpired); apply fail_if_ok in Hx;
      reflect_all; lia.
  - apply Intent_Validate_ok in Hv' as (_ & _ & Hn & _). unfold moved.
    split_and!; try done; [by apply advance_revision|].
    destruct (next == StatusCreated); cbn [int_digest advance].
    + apply rbind_ok in Hd as (c & Hc & [= <-]). eauto.
    + by injection Hd as ->.
Qed.

Lemma moved_valid i next i' :
  Intent_Validate i = Ok tt -> intent_edge (int_status i) next -> moved i next i' ->
  0 <= int_lifecycleRevision i -> Intent_Validate i' = Ok tt.
Proof.
  intros (Hp & _ & _ & Hd)%Intent_Validate_ok He (Ep & Es & Er & Ed) Hr.
  apply Intent_Validate_ok. rewrite Ep, Es, Er. split_and!; [done|by eapply intent_edge_valid|lia|].
  unfold digest_matches in *. rewrite Es, Ep.
  pose proof (edge_distinct _ _ He) as (_ & _ & Hnd). pose proof (edge_from_draft _ _ He) as Hiff.
  destruct (next == StatusCreated) eqn:Hc; reflect_all; [by rewrite Hc|].
  rewrite Ed. destruct (int_status i); [by specialize (proj1 Hiff eq_refl)|..]; by destruct next.
Qed.

(** The behaviour of [Transition] on every branch: a valid intent moves
    exactly along the edges of the lifecycle, in time, with its material kept,
    its revision incremented and its digest assigned when it is frozen; a
    repeated delivery returns the intent unchanged; nothing else succeeds. *)
Theorem Transition_spec (i : Intent) (next : Status) (at_ : Time) (i' : Intent)
    (Hr : is_u64 (int_lifecycleRevision i)) :
  Intent_Transition i next at_ = Ok i' <->
  Intent_Validate i = Ok tt /\
  (next = int_status i /\ i' = i \/
   intent_edge (int_status i) next /\ in_time i next at_ /\
   int_lifecycleRevision i <> max_uint64 /\ moved i next i').
Proof.
  split.
  - intros Hok. assert (Intent_Validate i = Ok tt) as Hv.
    { unfold Intent_Transition in Hok. by apply rbind_ok in Hok as ([] & ? & _). }
    split; [done|]. destruct (decide (next = int_status i)) as [->|Hne].
    + left. unfold Intent_Transition in Hok. rewrite Hv, eqb_refl in Hok. by injection Hok.
    + right. destruct (Transition_moved _ _ _ _ Hr Hok Hne) as (He & Ht & Hm & Hv').
      split_and!; try done. intros Emax. unfold Intent_Transition in Hok. ok_inv.
      apply Intent_Validate_ok in Hv' as (_ & _ & Hz & _).
      destruct Hm as (_ & _ & Er & _).
      match goal with H : (if ?b then Ok _ else _) = Ok _ |- _ => destruct b; [|destruct (next == StatusApproved)] end;
        ok_inv; [lia|]. cbn in Hz. rewrite Emax in Hz. done.
  - intros (Hv & [[-> ->]|(He & Ht & Hmax & Hm)]).
    + unfold Intent_Transition. by rewrite Hv, eqb_refl.
    + pose proof (edge_distinct _ _ He) as (Hne & Ha & _).
      assert (Intent_Validate i' = Ok tt) as Hv' by (eapply moved_valid; eauto; destruct Hr; lia).
      destruct Ht as (Ht1 & Ht2 & Ht3), Hm as (Ep & Es & Er & Ed).
      unfold Intent_Transition. rewrite Hv. cbn [rbind].
      rewrite (proj2 (eqb_spec_false _ _) (not_eq_sym Hne)), (proj2 (eqb_spec_false _ _) Ha).
      unfold IsZero, Before.
      rewrite (proj2 (Z.eqb_neq _ _) Ht1), (proj2 (Z.ltb_ge _ _) Ht2). cbn [orb fail_if rbind].
      rewrite (validTransition_complete _ _ He). cbn [map_err rbind].
      assert (exists d, (if next == StatusCreated then
           let! canonical := canonicalMaterial (int_params i) in Ok (digestBytes canonical)
           else Ok (int_digest i)) = Ok d /\ i' = advance i d next) as (d & Hd & ->).
      { exists (int_digest i'). split.
        - destruct (next == StatusCreated); [|by rewrite Ed]. destruct Ed as (c & -> & ->). done.
        - destruct i'. cbn in *. unfold advance. subst. f_equal. by rewrite u64_succ. }
      destruct (next == StatusExpired).
      * rewrite (proj2 (Z.ltb_ge _ _) Ht3). cbn [fail_if rbind]. rewrite Hd. cbn [rbind]. by rewrite Hv'.
      * rewrite (proj2 (Z.ltb_lt _ _) Ht3). cbn [fail_if rbind negb]. rewrite Hd. cbn [rbind]. by rewrite Hv'.
Qed.

(** * Runs *)
(** One call on the aggregate that returned a new value. *)
Inductive intent_step (i i' : Intent) : Prop :=
  | step_revise params : ReviseDraft i params = Ok i' -> intent_step i i'
  | step_transition next at_ : Intent_Transition i next at_ = Ok i' -> intent_step i i'
  | step_approve artifact at_ : Intent_Approve i artifact at_ = Ok i' -> intent_step i i'.

(** Values obtained from a new draft by at most [n] calls. *)
Inductive reachable : nat -> Intent -> Prop :=
  | reachable_draft params i : NewDraft params = Ok i -> reachable 0 i
  | reachable_step n i i' : reachable n i -> intent_step i i' -> reachable (S n) i'.

Lemma step_valid i i' : intent_step i i' -> Intent_Validate i = Ok tt.
Proof.
  intros [ps Hok|next t Hok|a t Hok];
    unfold ReviseDraft, Intent_Transition, Intent_Approve in Hok;
    by apply rbind_ok in Hok as ([] & ? & _).
Qed.

Lemma Approve_cases i artifact at_ i' :
  is_u64 (int_lifecycleRevision i) -> Intent_Approve i artifact at_ = Ok i' ->
  exists a, artifact = Some a /\ EnsureAuthorizes a i at_ = Ok tt /\
    prm_CreatedAt (int_params i) <= at_ < prm_ExpiresAt (int_params i) /\
    (int_status i = StatusApproved /\ i' = i \/
     int_status i = StatusApprovalRequired /\ Intent_Validate i' = Ok tt /\
     int_params i' = int_params i /\ int_digest i' = int_digest i /\
     int_status i' = StatusApproved /\ int_lifecycleRevision i' = int_lifecycleRevision i + 1).
Proof.
  intros Hr Hok. unfold Intent_Approve in Hok.
  apply rbind_ok in Hok as ([] & _ & Hok). apply rbind_ok in Hok as ([] & Hs & Hok).
  destruct artifact as [a|]; [|done]. exists a.
  apply rbind_ok in Hok as ([] & Ht & Hok). apply rbind_ok in Hok as ([] & Hx & Hok).
  apply rbind_ok in Hok as ([] & Ha & Hok). apply fail_if_ok in Hs, Ht, Hx.
  unfold IsZero, Before in *. reflect_all. split_and!; try done.
  destruct (int_status i == StatusApproved) eqn:E.
  - left. injection Hok. by reflect_all.
  - right. apply rbind_ok in Hok as ([] & Hv & [= <-]).
    apply andb_false_iff in Hs as [Hs|Hs]; reflect_all; [|done].
    pose proof Hv as (_ & _ & Hz & _)%Intent_Validate_ok.
    split_and!; try done. by apply advance_revision.
Qed.

(** Beyond [DRAFT], every call keeps the material and the digest. *)
Lemma step_frozen i i' :
  is_u64 (int_lifecycleRevision i) -> intent_step i i' -> int_status i <> StatusDraft ->
  int_params i' = int_params i /\ int_digest i' = int_digest i /\ int_status i' <> StatusDraft /\
  int_lifecycleRevision i <= int_lifecycleRevision i' <= int_lifecycleRevision i + 1 /\
  (Status_Terminal (int_status i) = true -> i' = i) /\
  Intent_Validate i' = Ok tt.
Proof.
  intros Hr Hstep Hs. pose proof (step_valid _ _ Hstep) as Hv.
  destruct Hstep as [ps Hok|next t Hok|a t Hok].
  - assert (i' = i) as ->; [|split_and!; auto; lia].
    unfold ReviseDraft in Hok. apply rbind_ok in Hok as ([] & _ & Hok).
    apply rbind_ok in Hok as ([] & _ & Hok). apply rbind_ok in Hok as ([] & _ & Hok).
    rewrite (proj2 (eqb_spec_false _ _) Hs) in Hok. apply rbind_ok in Hok as (c & _ & Hok).
    by destruct (digestBytes c == int_digest i); [injection Hok|].
  - destruct (decide (next = int_status i)) as [->|Hne].
    + assert (i' = i) as ->; [|split_and!; auto; lia].
      unfold Intent_Transition in Hok. rewrite Hv, eqb_refl in Hok. by injection Hok.
    + destruct (Transition_moved _ _ _ _ Hr Hok Hne) as (He & _ & (Ep & Es & Er & Ed) & Hv').
      pose proof (edge_distinct _ _ He) as (_ & _ & Hnd). pose proof (edge_from_draft _ _ He) as Hiff.
      rewrite (proj2 (eqb_spec_false _ _)) in Ed by tauto.
      split_and!; try congruence; try lia. intros Ht. exfalso.
      clear - He Ht. by edge_cases He.
  - destruct (Approve_cases _ _ _ _ Hr Hok) as (b & _ & _ & _ & [[Ha ->]|(Ha & Hv' & Ep & Ed & Es & Er)]).
    + split_and!; auto; lia.
    + split_and!; try congruence; try lia. by rewrite Ha.
Qed.

Lemma step_from_draft i i' :
  is_u64 (int_lifecycleRevision i) -> intent_step i i' -> int_status i = StatusDraft ->
  (int_status i' = StatusDraft \/ int_status i' = StatusCreated) /\
  int_lifecycleRevision i' <= int_lifecycleRevision i + 1 /\
  (int_lifecycleRevision i <> max_uint64 -> Intent_Validate i' = Ok tt).
Proof.
  intros Hr Hstep Hs. pose proof (step_valid _ _ Hstep) as Hv.
  destruct Hstep as [ps Hok|next t Hok|a t Hok].
  - unfold ReviseDraft in Hok. apply rbind_ok in Hok as ([] & _ & Hok).
    apply rbind_ok in Hok as ([] & Hp & Hok). apply rbind_ok in Hok as ([] & _ & Hok).
    rewrite Hs, eqb_refl in Hok. injection Hok as <-. cbn [int_status int_lifecycleRevision].
    split_and!; [by left|unfold u64; destruct Hr; apply Z.mod_le; lia|].
    intros Hm. apply map_err_ok in Hp. apply Intent_Validate_ok. cbn. rewrite u64_succ by done.
    destruct Hr. split_and!; try done; lia.
  - destruct (decide (next = int_status i)) as [->|Hne].
    + unfold Intent_Transition in Hok. rewrite Hv, eqb_refl in Hok. injection Hok as <-. auto with lia.
    + destruct (Transition_moved _ _ _ _ Hr Hok Hne) as (He & _ & (Ep & Es & Er & Ed) & Hv').
      apply edge_from_draft in He as Hiff. split_and!; [naive_solver|lia|done].
  - destruct (Approve_cases _ _ _ _ Hr Hok) as (b & _ & _ & _ & [[Ha _]|(Ha & _)]); congruence.
Qed.

Lemma reachable_invariant n i :
  reachable n i -> Z.of_nat n < max_uint64 ->
  Intent_Validate i = Ok tt /\ 1 <= int_lifecycleRevision i <= Z.of_nat n + 1.
Proof.
  induction 1 as [ps i Hok|n i i' Hn IH Hstep]; intros Hlt.
  - unfold NewDraft in Hok. ok_inv. split; [|cbn; lia]. by apply Intent_Validate_ok.
  - destruct IH as [Hv Hr]; [lia|]. unfold max_uint64 in *.
    assert (is_u64 (int_lifecycleRevision i)) as Hu by (unfold is_u64; lia).
    destruct (decide (int_status i = StatusDraft)) as [Hs|Hs].
    + destruct (step_from_draft _ _ Hu Hstep Hs) as (_ & Hle & Hv'). specialize (Hv' ltac:(unfold max_uint64; lia)).
      split; [done|]. pose proof Hv' as (_ & _ & Hz & _)%Intent_Validate_ok.
      split; [|lia]. clear - Hstep Hs Hu Hv Hz Hr.
      destruct Hstep as [ps Hok|next t Hok|a t Hok].
      * unfold ReviseDraft in Hok. ok_inv. rewrite Hs, eqb_refl in Hok. injection Hok as <-.
        cbn in *. pose proof (u64_range (int_lifecycleRevision i + 1)) as [? ?]. lia.
      * destruct (decide (next = int_status i)) as [->|Hne].
        { unfold Intent_Transition in Hok. rewrite Hv, eqb_refl in Hok. injection Hok as <-. lia. }
        destruct (Transition_moved _ _ _ _ Hu Hok Hne) as (_ & _ & (_ & _ & Er & _) & _). lia.
      * destruct (Approve_cases _ _ _ _ Hu Hok) as (b & _ & _ & _ & [[_ ->]|(_ & _ & _ & _ & _ & Er)]); lia.
    + destruct (step_frozen _ _ Hu Hstep Hs) as (_ & _ & _ & Hle & _ & Hv'). split; [done|lia].
Qed.

Lemma step_u64 i i' : intent_step i i' -> is_u64 (int_lifecycleRevision i) -> is_u64 (int_lifecycleRevision i').
Proof.
  intros [ps Hok|next t Hok|a t Hok] Hr.
  - unfold ReviseDraft in Hok. ok_inv.
    destruct (int_status i == StatusDraft); ok_inv; [apply u64_range|].
    match goal with H : (if ?b then _ else _) = Ok _ |- _ => destruct b end; by ok_inv.
  - destruct (decide (next = int_status i)) as [->|Hne].
    + unfold Intent_Transition in Hok. ok_inv. rewrite eqb_refl in Hok. by ok_inv.
    + unfold Intent_Transition in Hok. ok_inv.
      rewrite (proj2 (eqb_spec_false _ _) Hne) in Hok. destruct (next == StatusApproved); ok_inv.
      apply u64_range.
  - destruct (Approve_cases _ _ _ _ Hr Hok) as (b & _). unfold Intent_Approve in Hok. ok_inv.
    destruct a; ok_inv. destruct (int_status i == StatusApproved); ok_inv; [done|apply u64_range].
Qed.

Lemma steps_frozen n i j :
  nsteps intent_step n i j -> is_u64 (int_lifecycleRevision i) -> int_status i <> StatusDraft ->
  int_params j = int_params i /\ int_digest j = int_digest i /\ int_status j <> StatusDraft /\
  int_lifecycleRevision i <= int_lifecycleRevision j /\
  (Status_Terminal (int_status i) = true -> j = i) /\
  (n <> 0%nat -> Intent_Validate i = Ok tt /\ Intent_Validate j = Ok tt).
Proof.
  induction 1 as [i|n i k j Hstep Hrest IH]; intros Hr Hs; [by split_and!|].
  destruct (step_frozen _ _ Hr Hstep Hs) as (Ep & Ed & Hs' & Hle & Ht & Hv).
  destruct IH as (Ep' & Ed' & Hs'' & Hle' & Ht' & Hv'); [by eapply step_u64|done|].
  split_and!; try congruence; try lia.
  - intros Hterm. rewrite Ht' by by rewrite Ht. by apply Ht.
  - intros _. split; [by eapply step_valid|]. destruct n; [by inversion Hrest; subst|naive_solver].
Qed.

(** [C22] Freezing is final: once an intent has left DRAFT, no sequence of
    revisions, transitions and approvals changes its material or its digest or
    lowers its revision, EXPIRED and CANCELLED admit no further state, and the
    operation identity that keys its retries stays the same. *)
Theorem frozen_forever (n : nat) (i j : Intent)
    (Hsteps : nsteps intent_step n i j) (Hr : is_u64 (int_lifecycleRevision i))
    (Hs : int_status i <> StatusDraft) :
  int_params j = int_params i /\ int_digest j = int_digest i /\ int_status j <> StatusDraft /\
  int_lifecycleRevision i <= int_lifecycleRevision j /\
  (Status_Terminal (int_status i) = true -> j = i) /\
  NewOperationIdentity j = NewOperationIdentity i.
Proof.
  destruct (steps_frozen _ _ _ Hsteps Hr Hs) as (Ep & Ed & Hs' & Hle & Ht & Hv).
  split_and!; try done. destruct (decide (n = 0%nat)) as [->|Hn]; [by inversion Hsteps|].
  destruct (Hv Hn) as [Hv1 Hv2]. unfold NewOperationIdentity.
  by rewrite Hv1, Hv2, Ep, Ed, !(proj2 (eqb_spec_false _ StatusDraft)) by done.
Qed.

(** ** Histories

    What was called on an intent since its draft, with the artifacts and the
    instants that were given. *)
Inductive intent_event : Type :=
  | Revised (params : Params)
  | Transitioned (next : Status) (at_ : Time)
  | Approved (artifact : option ApprovalArtifact) (at_ : Time).
Definition intent_call (i : Intent) (e : intent_event) : result Intent :=
  match e with
  | Revised params => ReviseDraft i params
  | Transitioned next at_ => Intent_Transition i next at_
  | Approved artifact at_ => Intent_Approve i artifact at_
  end.
(** The intent after calls that all succeeded. *)
Definition replay (params : Params) (events : list intent_event) : result Intent :=
  let! i := NewDraft params in fold_result intent_call i events.

Lemma replay_snoc params events e i : replay params (events ++ [e]) = Ok i ->
  exists j, replay params events = Ok j /\ intent_call j e = Ok i.
Proof.
  unfold replay. destruct (NewDraft params) as [d|]; [|done]. cbn [rbind]. rewrite fold_result_app. intros Hf.
  apply rbind_ok in Hf as (j & Hj & Hf). exists j. split; [done|]. cbn in Hf. by apply rbind_ok in Hf as (? & Hc & [= <-]).
Qed.
Lemma intent_call_step i e i' : intent_call i e = Ok i' -> intent_step i i'.
Proof. destruct e; cbn; intros Hok; [by eapply step_revise|by eapply step_transition|by eapply step_approve]. Qed.
Lemma replay_reachable params events i : replay params events = Ok i -> reachable (length events) i.
Proof.
  revert i. induction events as [|e events IH] using rev_ind; intros i Hr.
  - unfold replay in Hr. apply rbind_ok in Hr as (d & Hd & [= <-]). by eapply reachable_draft.
  - apply replay_snoc in Hr as (j & Hj & Hc). rewrite length_app, Nat.add_1_r.
    eapply reachable_step; [by apply IH|by eapply intent_call_step].
Qed.

(** Only [Approve] leads into APPROVED, and nothing into READY_FOR_EXECUTION
    but what was APPROVED. *)
Definition past_approval (s : Status) : Prop := s = StatusApproved \/ s = StatusReadyForExecution.
Lemma past_approval_dec s : past_approval s \/ ~ past_approval s.
Proof. unfold past_approval. destruct (decide (s = StatusApproved)), (decide (s = StatusReadyForExecution)); tauto. Qed.
Lemma enters_approved j e i : is_u64 (int_lifecycleRevision j) -> int_status j <> StatusDraft -> intent_call j e = Ok i ->
  past_approval (int_status i) -> ~ past_approval (int_status j) ->
  exists a at_, e = Approved (Some a) at_ /\ int_status j = StatusApprovalRequired /\ EnsureAuthorizes a j at_ = Ok tt /\
    prm_CreatedAt (int_params j) <= at_ < prm_ExpiresAt (int_params j).
Proof.
  intros Hu Hnd Hc Hs Hnew. destruct e as [ps|next t|a t]; cbn in Hc.
  - exfalso. unfold ReviseDraft in Hc. ok_inv. rewrite (proj2 (eqb_spec_false _ _) Hnd) in Hc. ok_inv.
    match goal with H : (if ?b then _ else _) = Ok _ |- _ => destruct b end; by ok_inv.
  - exfalso. destruct (decide (next = int_status j)) as [->|Hne].
    + unfold Intent_Transition in Hc. ok_inv. rewrite eqb_refl in Hc. by ok_inv.
    + destruct (Transition_moved _ _ _ _ Hu Hc Hne) as (He & _ & (_ & Es & _) & _). rewrite Es in Hs.
      apply Hnew. clear - He Hs. unfold past_approval in *. destruct Hs as [-> | ->]; inversion He; naive_solver.
  - destruct (Approve_cases _ _ _ _ Hu Hc) as (b & -> & Ha & Ht & [[E _]|(E & _)]); [destruct Hnew; by left|].
    exists b, t. repeat (split; [done|]); done.
Qed.

(** [C18] Approval is the only way into APPROVED and READY_FOR_EXECUTION: in the
    history of an intent that is in one of them there is a call of [Approve],
    made when the intent was in APPROVAL_REQUIRED with the very material and
    digest it has now; the artifact given to that call authorized the intent at
    the instant given, which lies inside the intent's lifetime. *)
Theorem approved_only_by_artifact (params : Params) (events : list intent_event) (i : Intent)
    (Hn : Z.of_nat (length events) < max_uint64) (Hreplay : replay params events = Ok i)
    (Hs : int_status i = StatusApproved \/ int_status i = StatusReadyForExecution) :
  exists earlier a at_ later j, events = earlier ++ Approved (Some a) at_ :: later /\
    replay params earlier = Ok j /\ int_status j = StatusApprovalRequired /\ EnsureAuthorizes a j at_ = Ok tt /\
    prm_CreatedAt (int_params i) <= at_ < prm_ExpiresAt (int_params i) /\
    int_params j = int_params i /\ int_digest j = int_digest i.
Proof.
  revert i Hn Hreplay Hs. induction events as [|e events IH] using rev_ind; intros i Hn Hreplay Hs.
  { unfold replay in Hreplay. apply rbind_ok in Hreplay as (d & Hd & [= <-]). unfold NewDraft in Hd. ok_inv. cbn in Hs. naive_solver. }
  rewrite length_app, Nat.add_1_r in Hn. apply replay_snoc in Hreplay as (j & Hj & Hc).
  assert (Z.of_nat (length events) < max_uint64) as Hn' by lia.
  destruct (reachable_invariant _ j (replay_reachable _ _ _ Hj) Hn') as [_ Hr]. unfold max_uint64 in *.
  assert (is_u64 (int_lifecycleRevision j)) as Hu by (unfold is_u64; lia). pose proof (intent_call_step _ _ _ Hc) as Hstep.
  assert (int_status j <> StatusDraft) as Hnd.
  { intros E. destruct (step_from_draft _ _ Hu Hstep E) as [[E'|E'] _]; rewrite E' in Hs; naive_solver. }
  destruct (step_frozen _ _ Hu Hstep Hnd) as (Ep & Ed & _). rewrite Ep, Ed.
  destruct (past_approval_dec (int_status j)) as [Hold|Hnew].
  - destruct (IH j Hn' Hj Hold) as (l1 & a & t & l2 & j' & -> & ?). exists l1, a, t, (l2 ++ [e]), j'.
    split; [by rewrite <-app_assoc|done].
  - destruct (enters_approved j e i Hu Hnd Hc Hs Hnew) as (a & t & -> & ? & ? & ?). by exists events, a, t, [], j.
Qed.

(** * Restoration *)
Lemma validateText_trim name v : validateText name v = Ok tt -> TrimSpace v = v.
Proof. unfold validateText. intros. ok_reflect. done. Qed.

Lemma validateChainID_trim v : validateChainID v = Ok tt -> TrimSpace v = v.
Proof.
  unfold validateChainID. intros. ok_reflect. apply plain_trim, digit_string_plain.
  by rewrite <- all_digits_spec.
Qed.

Lemma validate_texts_trim fields name v :
  validate_texts fields = Ok tt -> (name, v) ∈ fields -> TrimSpace v = v.
Proof.
  unfold validate_texts. rewrite for_each_ok, Forall_forall. intros Hall Hin.
  by apply Hall in Hin as ?%validateText_trim.
Qed.

Lemma trim_ownership_fixed o : Ownership_validate o = Ok tt -> trim_ownership o = o.
Proof.
  unfold Ownership_validate. intros Hok. apply rbind_ok in Hok as ([] & Hw & Hok).
  apply rbind_ok in Hok as ([] & Ht & Hok). apply rbind_ok in Hok as ([] & _ & Hc%validateChainID_trim).
  assert (TrimSpace (own_WalletProvider o) = own_WalletProvider o) as Ew.
  { destruct (own_WalletProvider o != "") eqn:E; [by eapply validateText_trim|].
    reflect_all. by rewrite E. }
  destruct o as [o1 o2 o3 o4 o5 o6 o7 o8 o9 o10]. unfold trim_ownership. cbn [own_UserID own_IdentityProvider own_WalletProvider
    own_ProviderUserReference own_WalletBindingID own_WalletBindingVersion own_WalletID
    own_WalletAddress own_ChainID own_Network] in *.
  f_equal; try done; eapply validate_texts_trim; eauto; rewrite !elem_of_cons; eauto 10.
Qed.

Lemma map_params_times_id p : map_params_times UTC p = p.
Proof.
  destruct p as [? ? ? ? ? ? [fs fp fw fb fa] ? [? ?] ? ?]. unfold map_params_times. cbn. f_equal.
  unfold map_financial_times. cbn. f_equal.
  - destruct fp as [[? ? ? ? ? ? ? [[? ? ? ?]|]]|]; done.
  - destruct fw as [[? ? ? ? ? ? ? ? ? ? ? [[? ? ? ? ? ? ?]|] ?]|]; done.
Qed.

(** Validated material is in normal form. *)
Lemma normalizeParams_fixed p : validateParams p = Ok tt -> normalizeParams p = p.
Proof.
  intros Hok. unfold normalizeParams. rewrite map_params_times_id. unfold validateParams in Hok.
  apply rbind_ok in Hok as ([] & Ht & Hok). do 2 (apply rbind_ok in Hok as ([] & _ & Hok)).
  apply rbind_ok in Hok as ([] & Ho%trim_ownership_fixed & Hok).
  do 2 (apply rbind_ok in Hok as ([] & _ & Hok)).
  apply rbind_ok in Hok as ([] & Hr & Hok). do 2 (apply rbind_ok in Hok as ([] & _ & Hok)).
  unfold Route_validate in Hr. apply rbind_ok in Hr as ([] & _ & Hr).
  apply rbind_ok in Hr as ([] & Hr%validateText_trim & _).
  unfold Constraints_validate in Hok. apply rbind_ok in Hok as ([] & _ & Hc%validateText_trim).
  destruct p as [p1 p2 p3 p4 p5 p6 [fs fp fw fb fa] [r1 r2 r3] [c1 c2] p10 p11].
  cbn [prm_IntentID prm_Version prm_ClientRequestID prm_Nonce prm_Type prm_Ownership prm_Financial
    prm_Route prm_Constraints prm_CreatedAt prm_ExpiresAt rte_Type rte_Reference rte_Version
    con_Deadline con_PolicyReference] in *.
  rewrite Ho, Hr, Hc. f_equal; eapply validate_texts_trim; eauto; rewrite !elem_of_cons; eauto 10.
Qed.

Lemma Restore_valid i :
  Intent_Validate i = Ok tt ->
  Intent_Restore (int_params i) (int_status i) (int_digest i) (int_lifecycleRevision i) = Ok i.
Proof.
  intros Hv. pose proof Hv as (Hp & Hs & _ & Hd)%Intent_Validate_ok. unfold Intent_Restore.
  rewrite (normalizeParams_fixed _ Hp), Hp. cbn [map_err rbind].
  replace (MkIntent _ _ _ _) with i by by destruct i. rewrite Hv, Hs. cbn [rbind].
  unfold digest_matches in Hd.
  destruct (int_status i != StatusDraft) eqn:E; cbn [rbind fail_if negb]; [|done].
  reflect_all. destruct (int_status i); try done; destruct Hd as (c & -> & ->); cbn [rbind];
    by rewrite neqb_refl.
Qed.

(** Persistence loses nothing: every intent reachable from a draft
    validates, and restoring it from its stored material, status, digest and
    revision gives it back; conversely whatever [Restore] returns is valid and
    carries the stored status, digest and revision. *)
Theorem Restore_roundtrip (n : nat) (i : Intent) (Hn : Z.of_nat n < max_uint64) (Hreach : reachable n i) :
  Intent_Validate i = Ok tt /\
  Intent_Restore (int_params i) (int_status i) (int_digest i) (int_lifecycleRevision i) = Ok i /\
  forall params status digest revision j,
    Intent_Restore params status digest revision = Ok j ->
    Intent_Validate j = Ok tt /\ int_params j = normalizeParams params /\ int_status j = status /\
    int_digest j = digest /\ int_lifecycleRevision j = revision.
Proof.
  destruct (reachable_invariant n i Hreach Hn) as [Hv _].
  split_and!; [done|by apply Restore_valid|].
  intros ps s d r j Hok. unfold Intent_Restore in Hok.
  apply rbind_ok in Hok as ([] & _ & Hok). apply rbind_ok in Hok as ([] & Hj & Hok).
  apply rbind_ok in Hok as ([] & _ & Hok). apply rbind_ok in Hok as ([] & _ & [= <-]). by split_and!.
Qed.

(** * Digests *)
Lemma append_inj_l s a b : String.append s a = String.append s b -> a = b.
Proof. induction s as [|c s IH]; [done|]. cbn [String.append]. intros [= E]. auto. Qed.

Lemma digestBytes_binding a b :
  digestBytes a = digestBytes b -> a = b \/ collision (digestDomain +:+ a) (digestDomain +:+ b).
Proof.
  unfold digestBytes. intros [E%append_inj_l|Hc]%append_inj_l%sha256_hex_binding; auto.
Qed.
End safety.

(** * A concrete intent *)
Module IntentSamples.
Import Samples.
#[local] Existing Instance Eth.is_hex_address.
#[local] Existing Instance Eth.no_folding.

Definition ownership : Ownership :=
  MkOwnership "user-1" "privy" "" "did:privy:1" "binding-1" 1 "wallet-1" wallet ChainIDArcMainnet NetworkArcMainnet.
Definition send_params : Params :=
  MkParams "intent-1" 1 "client-1" "nonce-1" TypeSend ownership
    (MkFinancial (Some (MkSend usdc alice (amount 25))) None None None None)
    (MkRoute RouteDirectWallet RouteReferenceSend RouteVersionSend)
    (MkConstraints (now + Hour) "policy-1") now (now + Hour).

Definition get (m : result Intent) : Intent :=
  match m with Ok i => i | Err _ => MkIntent send_params (StatusOther "") "" 0 end.
Definition draft : Intent := Eval vm_compute in get (NewDraft send_params).
Definition created : Intent := Eval vm_compute in get (Intent_Transition draft StatusCreated now).
Definition requested : Intent := Eval vm_compute in get (Intent_Transition created StatusApprovalRequired now).
Definition anyone : ApprovalArtifact := MkArtifact (fun _ _ => Ok tt).
Definition approved : Intent := Eval vm_compute in get (Intent_Approve requested (Some anyone) (now + Minute)).

Lemma reachable_approved : reachable 3 approved.
Proof.
  apply (reachable_step 2 requested);
    [|apply (step_approve _ _ (Some anyone) (now + Minute)); vm_compute; reflexivity].
  apply (reachable_step 1 created);
    [|apply (step_transition _ _ StatusApprovalRequired now); vm_compute; reflexivity].
  apply (reachable_step 0 draft);
    [|apply (step_transition _ _ StatusCreated now); vm_compute; reflexivity].
  apply (reachable_draft send_params). vm_compute. reflexivity.
Qed.

Lemma Transition_spec_witness :
  Intent_Transition draft StatusCreated now = Ok created <->
  Intent_Validate draft = Ok tt /\
  (StatusCreated = int_status draft /\ created = draft \/
   intent_edge (int_status draft) StatusCreated /\ in_time draft StatusCreated now /\
   int_lifecycleRevision draft <> max_uint64 /\ moved draft StatusCreated created).
Proof. apply Transition_spec. split; vm_compute; [discriminate|reflexivity]. Defined.

Lemma frozen_forever_witness : int_digest requested = int_digest created.
Proof.
  refine (proj1 (proj2 (frozen_forever 1 created requested _ _ _)));
    [|split; vm_compute; [discriminate|reflexivity]|vm_compute; discriminate].
  apply (nsteps_l intent_step 0 _ requested); [|constructor].
  apply (step_transition _ _ StatusApprovalRequired now). vm_compute. reflexivity.
Defined.

Lemma approved_only_by_artifact_witness :
  exists earlier a at_ later j,
    [Transitioned StatusCreated now; Transitioned StatusApprovalRequired now; Approved (Some anyone) (now + Minute)]
      = earlier ++ Approved (Some a) at_ :: later /\
    replay send_params earlier = Ok j /\ int_status j = StatusApprovalRequired /\ EnsureAuthorizes a j at_ = Ok tt /\
    prm_CreatedAt (int_params approved) <= at_ < prm_ExpiresAt (int_params approved) /\
    int_params j = int_params approved /\ int_digest j = int_digest approved.
Proof.
  apply (approved_only_by_artifact send_params _ approved);
    [vm_compute; reflexivity|vm_compute; reflexivity|left; vm_compute; reflexivity].
Defined.

Lemma Restore_roundtrip_witness :
  Intent_Restore (int_params approved) (int_status approved) (int_digest approved)
    (int_lifecycleRevision approved) = Ok approved.
Proof. apply (Restore_roundtrip 3 approved); [vm_compute; reflexivity|exact reachable_approved]. Defined.
End IntentSamples.
