(* ===== verification/Wallet.v ===== *)
(** internal/wallet: the binding between an application user and one
    provider-managed wallet (binding.go), and its lifecycle (state.go). *)
From S2P Require Import Prelude GoStrings GoTime AppErrors.
Open Scope Z_scope.
Open Scope go_scope.

Inductive BindingStatus : Set :=
  | BindingStatusPending | BindingStatusActive | BindingStatusRevoked
  | BindingStatusOther (raw : string).
#[global] Instance BindingStatus_eq_dec : EqDecision BindingStatus.
Proof. solve_decision. Defined.
Definition BindingStatus_string (s : BindingStatus) : string :=
  match s with
  | BindingStatusPending => "PENDING" | BindingStatusActive => "ACTIVE"
  | BindingStatusRevoked => "REVOKED" | BindingStatusOther raw => raw
  end.
Definition BindingStatus_Valid (s : BindingStatus) : bool :=
  match s with BindingStatusOther _ => false | _ => true end.

Definition maxBindingFieldLength : Z := 256.
Definition maxChainIDLength : Z := 20.

(** [Binding]; [BindingParams] has the same fields. *)
Record Binding := MkBinding {
  bnd_bindingID : string; bnd_version : Z; bnd_userID : string; bnd_provider : string;
  bnd_providerUserReference : string; bnd_walletID : string; bnd_address : string;
  bnd_chainID : string; bnd_network : string; bnd_status : BindingStatus;
  bnd_verificationReference : string; bnd_createdAt : Time; bnd_verifiedAt : Time; bnd_revokedAt : Time
}.
#[global] Instance Binding_eq_dec : EqDecision Binding.
Proof. solve_decision. Defined.

Definition validateChainID (chainID : string) : result unit :=
  let e := errorf "chain ID must be a canonical positive decimal string" in
  do! fail_if ((chainID == "") || (maxChainIDLength <? len chainID)
               || (match first_byte chainID with Some b => b =? 48 | None => false end)) e;
  do! fail_if (negb (all_digits chainID)) e;
  Ok tt.

Definition binding_field (field : string * string) : result unit :=
  let '(name, value) := field in
  do! fail_if (value == "") (errorf1 "%s is required" name);
  do! fail_if (maxBindingFieldLength <? len value)
        (errorf2 "%s exceeds %d characters" name (FormatInt maxBindingFieldLength));
  do! fail_if (has_control value) (errorf1 "%s contains control characters" name);
  Ok tt.

(** The lifecycle metadata each status allows. *)
Definition binding_lifecycle (b : Binding) : result unit :=
  match bnd_status b with
  | BindingStatusPending =>
      fail_if (negb (IsZero (bnd_verifiedAt b)) || negb (IsZero (bnd_revokedAt b))
               || (bnd_verificationReference b != ""))
        (errorf "pending binding cannot contain verification or revocation metadata")
  | BindingStatusActive =>
      do! fail_if (IsZero (bnd_verifiedAt b) || (bnd_verificationReference b == ""))
            (errorf "active binding requires verification time and reference");
      fail_if (negb (IsZero (bnd_revokedAt b))) (errorf "active binding cannot contain revocation time")
  | BindingStatusRevoked =>
      fail_if (IsZero (bnd_revokedAt b)) (errorf "revoked binding requires revocation time")
  | BindingStatusOther _ => Ok tt
  end.

Definition Binding_Validate (b : Binding) : result unit :=
  do! for_each binding_field
        [ ("binding ID", bnd_bindingID b); ("user ID", bnd_userID b);
          ("wallet provider", bnd_provider b); ("provider user reference", bnd_providerUserReference b);
          ("wallet ID", bnd_walletID b); ("wallet address", bnd_address b); ("network", bnd_network b) ];
  do! fail_if (bnd_version b =? 0) (errorf "binding version must be at least 1");
  do! validateChainID (bnd_chainID b);
  do! fail_if (negb (BindingStatus_Valid (bnd_status b)))
        (errorf1 "invalid wallet binding status %q" (BindingStatus_string (bnd_status b)));
  do! fail_if (IsZero (bnd_createdAt b)) (errorf "binding creation time is required");
  do! binding_lifecycle b;
  do! fail_if (negb (IsZero (bnd_verifiedAt b)) && Before (bnd_verifiedAt b) (bnd_createdAt b))
        (errorf "verification time cannot precede creation time");
  do! fail_if (negb (IsZero (bnd_revokedAt b)) && Before (bnd_revokedAt b) (bnd_createdAt b))
        (errorf "revocation time cannot precede creation time");
  do! fail_if (negb (IsZero (bnd_revokedAt b)) && negb (IsZero (bnd_verifiedAt b))
               && Before (bnd_revokedAt b) (bnd_verifiedAt b))
        (errorf "revocation time cannot precede verification time");
  do! fail_if (maxBindingFieldLength <? len (bnd_verificationReference b))
        (errorf1 "verification reference exceeds %d characters" (FormatInt maxBindingFieldLength));
  Ok tt.

Definition NewBinding (p : Binding) : result Binding :=
  let b := MkBinding (TrimSpace (bnd_bindingID p)) (bnd_version p) (TrimSpace (bnd_userID p))
             (TrimSpace (bnd_provider p)) (TrimSpace (bnd_providerUserReference p))
             (TrimSpace (bnd_walletID p)) (TrimSpace (bnd_address p)) (TrimSpace (bnd_chainID p))
             (TrimSpace (bnd_network p)) (bnd_status p) (TrimSpace (bnd_verificationReference p))
             (UTC (bnd_createdAt p)) (UTC (bnd_verifiedAt p)) (UTC (bnd_revokedAt p)) in
  do! Binding_Validate b;
  Ok b.

Definition validateTransition (current next : BindingStatus) : result unit :=
  let arrow f := errorf2 f (BindingStatus_string current) (BindingStatus_string next) in
  do! fail_if (negb (BindingStatus_Valid current) || negb (BindingStatus_Valid next))
        (arrow "invalid wallet binding state transition %s -> %s");
  if current == next then Ok tt
  else
    let allowed :=
      match current with
      | BindingStatusPending => (next == BindingStatusActive) || (next == BindingStatusRevoked)
      | BindingStatusActive => next == BindingStatusRevoked
      | _ => false
      end in
    fail_if (negb allowed) (arrow "wallet binding transition %s -> %s is not allowed").

(** The next value: version, status and the metadata of the new status. *)
Definition binding_next (b : Binding) (next : BindingStatus) (at_ : Time) (reference : string) : Binding :=
  MkBinding (bnd_bindingID b) (u64 (bnd_version b + 1)) (bnd_userID b) (bnd_provider b)
    (bnd_providerUserReference b) (bnd_walletID b) (bnd_address b) (bnd_chainID b) (bnd_network b) next
    (match next with BindingStatusActive => TrimSpace reference | _ => bnd_verificationReference b end)
    (bnd_createdAt b)
    (match next with BindingStatusActive => UTC at_ | _ => bnd_verifiedAt b end)
    (match next with BindingStatusRevoked => UTC at_ | _ => bnd_revokedAt b end).

Definition Binding_Transition (b : Binding) (next : BindingStatus) (at_ : Time) (reference : string)
    : result Binding :=
  do! Binding_Validate b;
  do! validateTransition (bnd_status b) next;
  if next == bnd_status b then Ok b
  else
    do! fail_if (IsZero at_ || Before at_ (bnd_createdAt b))
          (errorf "transition time must not precede binding creation");
    do! fail_if (bnd_version b == max_uint64) (errorf "binding version cannot advance");
    let nextBinding := binding_next b next at_ reference in
    do! Binding_Validate nextBinding;
    Ok nextBinding.

Record Reference := MkReference {
  ref_UserID : string; ref_WalletID : string; ref_Address : string; ref_ChainID : string
}.

Definition binding_invalid : error -> error :=
  Wrap CodeValidationError "Wallet binding is invalid." false true true.

Definition Binding_EnsureMatches (b : Binding) (r : Reference) : result unit :=
  do! map_err binding_invalid (Binding_Validate b);
  fail_if ((bnd_userID b != TrimSpace (ref_UserID r)) || (bnd_walletID b != TrimSpace (ref_WalletID r))
           || (bnd_address b != TrimSpace (ref_Address r)) || (bnd_chainID b != TrimSpace (ref_ChainID r)))
    (New CodeWalletMismatch "Wallet binding does not match the request." false true true).

Definition Binding_EnsureAuthorizable (b : Binding) (userID : string) : result unit :=
  do! map_err binding_invalid (Binding_Validate b);
  do! fail_if (bnd_userID b != TrimSpace userID)
        (New CodeWalletMismatch "Wallet binding does not match the identity." false true true);
  match bnd_status b with
  | BindingStatusActive => Ok tt
  | BindingStatusPending => Err (New CodeWalletNotBound "Wallet binding is not active." false true false)
  | BindingStatusRevoked => Err (New CodeWalletRevoked "Wallet binding is revoked." false true true)
  | BindingStatusOther _ => Err (New CodeInternalError "An internal error occurred." false false false)
  end.

Definition nul : string := of_bytes [0].

Definition DuplicateKey (b : Binding) : result string :=
  do! Binding_Validate b;
  Ok (bnd_chainID b +:+ nul +:+ bnd_network b +:+ nul +:+ bnd_address b).

(** * Properties *)
(** The step relation of the lifecycle. *)
Definition binding_step (b b' : Binding) : Prop :=
  exists next at_ reference, Binding_Transition b next at_ reference = Ok b'.

Lemma Transition_ok b next at_ reference b' :
  is_u64 (bnd_version b) -> Binding_Transition b next at_ reference = Ok b' ->
  Binding_Validate b = Ok tt /\
  (next = bnd_status b /\ b' = b \/
   next <> bnd_status b /\ bnd_status b <> BindingStatusRevoked /\ next <> BindingStatusPending /\
   bnd_createdAt b <= at_ /\ bnd_version b <> max_uint64 /\
   b' = binding_next b next at_ reference /\ Binding_Validate b' = Ok tt).
Proof.
  intros Hu Hok. unfold Binding_Transition in Hok. apply rbind_ok in Hok as ([] & Hv & Hok).
  apply rbind_ok in Hok as ([] & Ht & Hok). split; [done|].
  destruct (next == bnd_status b) eqn:E; [left; injection Hok; by reflect_all|right].
  apply rbind_ok in Hok as ([] & Hat & Hok). apply rbind_ok in Hok as ([] & Hmax & Hok).
  apply rbind_ok in Hok as ([] & Hv' & [= <-]). apply fail_if_ok in Hat, Hmax. unfold IsZero, Before in *.
  reflect_all. unfold validateTransition in Ht. apply rbind_ok in Ht as ([] & _ & Ht).
  rewrite (proj2 (eqb_spec_false (bnd_status b) next)) in Ht by congruence. apply fail_if_ok in Ht.
  split_and!; try done.
  - intros Es. by rewrite Es in Ht.
  - intros ->. destruct (bnd_status b); cbn in Ht; by repeat case_bool_decide.
Qed.

(** The binding lifecycle only moves forward: along any sequence of
    transitions the owner, wallet, address and chain are unchanged, each state
    change increments the version by exactly one, a revoked binding never
    changes again, and every value reached from a valid binding is valid. *)
Theorem binding_lifecycle_forward (n : nat) (b b' : Binding)
    (Hsteps : nsteps binding_step n b b') (Hu : is_u64 (bnd_version b))
    (Hv : Binding_Validate b = Ok tt) :
  Binding_Validate b' = Ok tt /\
  (bnd_userID b', bnd_walletID b', bnd_address b', bnd_chainID b', bnd_network b')
  = (bnd_userID b, bnd_walletID b, bnd_address b, bnd_chainID b, bnd_network b) /\
  bnd_version b <= bnd_version b' <= bnd_version b + Z.of_nat n /\
  (bnd_version b' = bnd_version b -> b' = b) /\
  (bnd_status b = BindingStatusRevoked -> b' = b).
Proof.
  induction Hsteps as [b|n b k b' (next & t & r & Hok) Hrest IH]; [by split_and!; try lia|].
  destruct (Transition_ok _ _ _ _ _ Hu Hok) as [_ [[-> ->]|(Hne & Hnr & _ & _ & Hmax & -> & Hvk)]].
  - destruct (IH Hu Hv) as (? & ? & ? & ? & ?). split_and!; auto; lia.
  - assert (bnd_version (binding_next b next t r) = bnd_version b + 1) as Ever by by apply u64_succ.
    destruct IH as (? & Hsame & Hrange & _ & _); [apply u64_range|done|]. rewrite Ever in Hrange.
    split_and!; try done; try lia.
Qed.

(** [EnsureAuthorizable] accepts exactly the valid, active bindings of the
    named user, and names the reason of every refusal. *)
Theorem EnsureAuthorizable_iff (b : Binding) (userID : string) :
  Binding_EnsureAuthorizable b userID = Ok tt <->
  Binding_Validate b = Ok tt /\ bnd_userID b = TrimSpace userID /\ bnd_status b = BindingStatusActive.
Proof.
  unfold Binding_EnsureAuthorizable. destruct (Binding_Validate b) as [[]|e]; cbn [map_err rbind]; [|naive_solver].
  destruct (bnd_userID b != TrimSpace userID) eqn:E; reflect_all; cbn [fail_if rbind]; [naive_solver|].
  destruct (bnd_status b); naive_solver.
Qed.

Module WalletSamples.
Definition now : Time := of_unix 1780000000.
Definition pending : Binding :=
  MkBinding "binding-1" 1 "user-1" "privy" "did:privy:1" "wallet-1"
    "0x3333333333333333333333333333333333333333" "5042" "MAINNET" BindingStatusPending "" now 0 0.
Definition active : Binding := binding_next pending BindingStatusActive now "proof-1".
Lemma binding_lifecycle_forward_witness : Binding_Validate active = Ok tt.
Proof.
  apply (binding_lifecycle_forward 1 pending active);
    [|split; vm_compute; [discriminate|reflexivity]|vm_compute; reflexivity].
  apply (nsteps_l binding_step 0 _ active); [|constructor].
  exists BindingStatusActive, now, "proof-1". vm_compute. reflexivity.
Defined.
End WalletSamples.
