(* ===== verification/Auth.v ===== *)
(** internal/auth: identities (identity.go), request metadata (context.go),
    permissions (permission.go), authenticated principals (principal.go),
    trusted requests (request.go), the separate human authority (human.go) and
    the permission authorizer (authorizer.go). *)
From S2P Require Import Prelude GoStrings GoTime AppErrors Wallet.
Open Scope Z_scope.
Open Scope go_scope.

Definition maxIdentityFieldLength : Z := 256.

Definition validateIdentityField (name value : string) : result unit :=
  do! fail_if (value == "") (errorf1 "%s is required" name);
  do! fail_if (maxIdentityFieldLength <? len value)
        (errorf2 "%s exceeds %d characters" name (FormatInt maxIdentityFieldLength));
  do! fail_if (has_control value) (errorf1 "%s contains control characters" name);
  Ok tt.

(** * Identities *)
Inductive IdentityStatus : Set :=
  | IdentityStatusUnknown | IdentityStatusActive | IdentityStatusSuspended | IdentityStatusRevoked
  | IdentityStatusOther (raw : string).
#[global] Instance IdentityStatus_eq_dec : EqDecision IdentityStatus.
Proof. solve_decision. Defined.
Definition IdentityStatus_string (s : IdentityStatus) : string :=
  match s with
  | IdentityStatusUnknown => "UNKNOWN" | IdentityStatusActive => "ACTIVE"
  | IdentityStatusSuspended => "SUSPENDED" | IdentityStatusRevoked => "REVOKED"
  | IdentityStatusOther raw => raw
  end.
Definition IdentityStatus_Valid (s : IdentityStatus) : bool :=
  match s with IdentityStatusOther _ => false | _ => true end.

Record Identity := MkIdentity {
  idn_userID : string; idn_provider : string; idn_providerSubject : string; idn_status : IdentityStatus
}.

Definition invalid_identity_status (s : IdentityStatus) : error :=
  errorf1 "invalid identity status %q" (IdentityStatus_string s).

Definition Identity_Validate (i : Identity) : result unit :=
  do! validateIdentityField "user ID" (idn_userID i);
  do! validateIdentityField "identity provider" (idn_provider i);
  do! validateIdentityField "provider subject" (idn_providerSubject i);
  do! fail_if (negb (IdentityStatus_Valid (idn_status i))) (invalid_identity_status (idn_status i));
  Ok tt.

Definition NewIdentityWithSubject (userID provider providerSubject : string) (status : IdentityStatus)
    : result Identity :=
  let identity := MkIdentity (TrimSpace userID) (TrimSpace provider) (TrimSpace providerSubject) status in
  do! Identity_Validate identity;
  Ok identity.

Definition NewIdentity (userID provider : string) (status : IdentityStatus) : result Identity :=
  NewIdentityWithSubject userID provider ("legacy-unmapped:" +:+ TrimSpace userID) status.

Definition identity_edge (current next : IdentityStatus) : bool :=
  match current with
  | IdentityStatusUnknown =>
      (next == IdentityStatusActive) || (next == IdentityStatusSuspended) || (next == IdentityStatusRevoked)
  | IdentityStatusActive => (next == IdentityStatusSuspended) || (next == IdentityStatusRevoked)
  | IdentityStatusSuspended => (next == IdentityStatusActive) || (next == IdentityStatusRevoked)
  | IdentityStatusRevoked => false
  | IdentityStatusOther _ => false
  end.

Definition Identity_Transition (i : Identity) (next : IdentityStatus) : result Identity :=
  do! Identity_Validate i;
  do! fail_if (negb (IdentityStatus_Valid next)) (invalid_identity_status next);
  if next == idn_status i then Ok i
  else
    do! fail_if (negb (identity_edge (idn_status i) next))
          (errorf2 "identity transition %s -> %s is not allowed"
             (IdentityStatus_string (idn_status i)) (IdentityStatus_string next));
    Ok (MkIdentity (idn_userID i) (idn_provider i) (idn_providerSubject i) next).

Definition Identity_EnsureAuthorizable (i : Identity) : result unit :=
  do! map_err (Wrap CodeValidationError "Identity is invalid." false true true) (Identity_Validate i);
  match idn_status i with
  | IdentityStatusActive => Ok tt
  | IdentityStatusUnknown => Err (New CodeIdentityNotFound "Identity is not active." false true false)
  | IdentityStatusSuspended => Err (New CodeIdentitySuspended "Identity is suspended." false true false)
  | IdentityStatusRevoked => Err (New CodeIdentityRevoked "Identity is revoked." false true true)
  | IdentityStatusOther _ => Err (New CodeInternalError "An internal error occurred." false false false)
  end.

(** * Request metadata *)
Record RequestMetadata := MkMetadata { md_RequestID : string; md_ClientID : string; md_TraceID : string }.
Record IdentityContext := MkIdentityContext { ic_identity : Identity; ic_metadata : RequestMetadata }.

Definition optional_field (field : string * string) : result unit :=
  let '(name, value) := field in
  if value != "" then validateIdentityField name value else Ok tt.

Definition NewIdentityContext (identity : Identity) (metadata : RequestMetadata) : result IdentityContext :=
  do! map_err (errorf_wrap "invalid identity context: %w" []) (Identity_Validate identity);
  let metadata := MkMetadata (TrimSpace (md_RequestID metadata)) (TrimSpace (md_ClientID metadata))
                    (TrimSpace (md_TraceID metadata)) in
  do! fail_if (md_RequestID metadata == "") (errorf "request ID is required");
  do! fail_if ((maxIdentityFieldLength <? len (md_RequestID metadata))
               || (maxIdentityFieldLength <? len (md_ClientID metadata))
               || (maxIdentityFieldLength <? len (md_TraceID metadata)))
        (errorf1 "request metadata exceeds %d characters" (FormatInt maxIdentityFieldLength));
  do! for_each optional_field [("request ID", md_RequestID metadata); ("client ID", md_ClientID metadata);
                               ("trace ID", md_TraceID metadata)];
  Ok (MkIdentityContext identity metadata).

(** * Permissions *)
Inductive Permission : Set :=
  | PermissionCreateIntent | PermissionReadIntent | PermissionRequestApproval
  | PermissionDecideApproval | PermissionConfirmExecution | PermissionReadApproval
  | PermissionEvaluatePolicy | PermissionPrepareExecution | PermissionAutonomyRead
  | PermissionAutonomyControl
  | PermissionOther (raw : string).
#[global] Instance Permission_eq_dec : EqDecision Permission.
Proof. solve_decision. Defined.
Definition Permission_string (p : Permission) : string :=
  match p with
  | PermissionCreateIntent => "intent:create" | PermissionReadIntent => "intent:read"
  | PermissionRequestApproval => "approval:request" | PermissionDecideApproval => "approval:decide:human"
  | PermissionConfirmExecution => "execution:confirm:human" | PermissionReadApproval => "approval:read"
  | PermissionEvaluatePolicy => "policy:evaluate" | PermissionPrepareExecution => "execution:prepare"
  | PermissionAutonomyRead => "autonomy:read" | PermissionAutonomyControl => "autonomy:control"
  | PermissionOther raw => raw
  end.
Definition Permission_Valid (p : Permission) : bool :=
  match p with PermissionOther _ => false | _ => true end.
Definition validatePermission (p : Permission) : result unit :=
  fail_if (negb (Permission_Valid p)) (errorf1 "unsupported permission %q" (Permission_string p)).

(** * Principals *)
(** [AuthenticatedPrincipal]; [PrincipalParams] has the same fields. *)
Record AuthenticatedPrincipal := MkPrincipal {
  prn_tenantID : string; prn_actorID : string; prn_identityProvider : string; prn_providerSubject : string;
  prn_clientID : string; prn_tokenID : string; prn_authenticatedAt : Time; prn_issuedAt : Time;
  prn_notBefore : Time; prn_expiresAt : Time; prn_permissions : list Permission
}.

(** Go iterates two maps of fields and a set of permissions in unspecified
    order: which error is reported may differ, the outcome does not. *)
Definition NewAuthenticatedPrincipal (q : AuthenticatedPrincipal) : result AuthenticatedPrincipal :=
  let tenantID := TrimSpace (prn_tenantID q) in
  let actorID := TrimSpace (prn_actorID q) in
  let identityProvider := TrimSpace (prn_identityProvider q) in
  let providerSubject := TrimSpace (prn_providerSubject q) in
  let clientID := TrimSpace (prn_clientID q) in
  let tokenID := TrimSpace (prn_tokenID q) in
  do! for_each (fun '(name, value) => validateIdentityField name value)
        [ ("tenant ID", tenantID); ("actor ID", actorID); ("identity provider", identityProvider);
          ("provider subject", providerSubject) ];
  do! for_each optional_field [("client ID", clientID); ("token ID", tokenID)];
  do! fail_if (IsZero (UTC (prn_expiresAt q))) (errorf "credential expiration is required");
  do! for_each validatePermission (prn_permissions q);
  Ok (MkPrincipal tenantID actorID identityProvider providerSubject clientID tokenID
        (UTC (prn_authenticatedAt q)) (UTC (prn_issuedAt q)) (UTC (prn_notBefore q)) (UTC (prn_expiresAt q))
        (sort_by Permission_string (remove_dups (prn_permissions q)))).

Definition Principal_Validate (p : AuthenticatedPrincipal) : result unit :=
  let! _ := NewAuthenticatedPrincipal p in Ok tt.

Definition HasPermission (p : AuthenticatedPrincipal) (permission : Permission) : bool :=
  search_contains Permission_string (prn_permissions p) (Permission_string permission).

(** * Trusted requests *)
Definition authorizationDenied : error :=
  New CodeAuthorizationRequired "Access is forbidden." false true true.
Definition authentication_required : error :=
  New CodeAuthenticationRequired "Authentication is required." false true false.

Record TrustedRequest := MkTrusted {
  tr_principal : AuthenticatedPrincipal; tr_identity : Identity; tr_metadata : RequestMetadata
}.

Definition NewTrustedRequest (principal : AuthenticatedPrincipal) (identity : Identity)
    (metadata : RequestMetadata) : result TrustedRequest :=
  do! map_err (errorf_wrap "invalid authenticated principal: %w" []) (Principal_Validate principal);
  do! Identity_EnsureAuthorizable identity;
  let! identityContext := NewIdentityContext identity metadata in
  do! fail_if ((idn_userID identity != prn_actorID principal)
               || (idn_provider identity != prn_identityProvider principal)
               || (idn_providerSubject identity != prn_providerSubject principal)) authorizationDenied;
  Ok (MkTrusted principal identity (ic_metadata identityContext)).

Definition Trusted_Validate (r : TrustedRequest) : result unit :=
  let! _ := NewTrustedRequest (tr_principal r) (tr_identity r) (tr_metadata r) in Ok tt.

(** A [context.Context] carries at most one value under each of the two keys. *)
Record Context := MkContext { ctx_trusted : option TrustedRequest; ctx_human : option TrustedRequest }.

(** [ctx] is [None] for the nil context. *)
Definition WithTrustedRequest (ctx : option Context) (request : TrustedRequest) : option Context :=
  match ctx with
  | None => None
  | Some c => if negb (is_ok (Trusted_Validate request)) then Some c else Some (MkContext (Some request) None)
  end.

Definition TrustedRequestFromContext (ctx : option Context) : result TrustedRequest :=
  match c ← ctx; ctx_trusted c with
  | Some request => if is_ok (Trusted_Validate request) then Ok request else Err authentication_required
  | None => Err authentication_required
  end.

(** * Human authority *)
Definition sameAuthority (a b : TrustedRequest) : bool :=
  let x := tr_principal a in
  let y := tr_principal b in
  (prn_tenantID x == prn_tenantID y) && (prn_actorID x == prn_actorID y)
  && (prn_identityProvider x == prn_identityProvider y) && (prn_providerSubject x == prn_providerSubject y)
  && (prn_clientID x == prn_clientID y) && (prn_tokenID x == prn_tokenID y).

(** [verifier] is the authentication port: [None] for nil, else the request or
    error it returned.  The second component is the error. *)
Definition AuthenticateHumanContext (ctx : option Context) (verifier : option (result TrustedRequest))
    : option Context * option error :=
  match ctx, verifier with
  | Some c, Some answer =>
      match answer with
      | Err _ => (ctx, Some authorizationDenied)
      | Ok human =>
          if negb (is_ok (Trusted_Validate human)) then (ctx, Some authorizationDenied)
          else match TrustedRequestFromContext ctx with
               | Err _ => (ctx, Some authorizationDenied)
               | Ok current =>
                   if negb (sameAuthority current human) then (ctx, Some authorizationDenied)
                   else (Some (MkContext (ctx_trusted c) (Some human)), None)
               end
      end
  | _, _ => (ctx, Some authorizationDenied)
  end.

Definition RequireHuman (ctx : option Context) (permission : Permission) : result unit :=
  let! request := TrustedRequestFromContext ctx in
  match c ← ctx; ctx_human c with
  | None => Err authorizationDenied
  | Some human =>
      fail_if (negb (is_ok (Trusted_Validate human)) || negb (sameAuthority request human)
               || negb (HasPermission (tr_principal human) permission)) authorizationDenied
  end.

Definition VerifiedAgentID (request : TrustedRequest) : result string :=
  do! fail_if (negb (is_ok (Trusted_Validate request)) || (prn_clientID (tr_principal request) == ""))
        authorizationDenied;
  Ok (prn_clientID (tr_principal request)).

(** * Authorization *)
(** The interface [WalletBindingContext]. *)
Record WalletBindingContext := MkWalletContext {
  wbc_OwnerUserID : string; wbc_EnsureAuthorizable : string -> result unit
}.
(** The wallet domain implements it. *)
Definition binding_context (b : Binding) : WalletBindingContext :=
  MkWalletContext (bnd_userID b) (Binding_EnsureAuthorizable b).

Record AuthorizationInput := MkAuthorization {
  auz_Request : TrustedRequest; auz_Permission : Permission; auz_ResourceOwnerID : string;
  auz_Wallet : option WalletBindingContext
}.

Definition human_permission (p : Permission) : bool :=
  (p == PermissionDecideApproval) || (p == PermissionConfirmExecution).

Definition Authorize (ctx : option Context) (input : AuthorizationInput) : result unit :=
  let principal := tr_principal (auz_Request input) in
  do! fail_if (bool_decide (ctx = None :> option Context) || negb (is_ok (Trusted_Validate (auz_Request input)))
               || negb (Permission_Valid (auz_Permission input))) authorizationDenied;
  do! (if human_permission (auz_Permission input) then
         do! RequireHuman ctx (auz_Permission input);
         match TrustedRequestFromContext ctx with
         | Err _ => Err authorizationDenied
         | Ok trusted => fail_if (negb (sameAuthority trusted (auz_Request input))) authorizationDenied
         end
       else Ok tt);
  do! fail_if (negb (HasPermission principal (auz_Permission input))) authorizationDenied;
  do! fail_if ((auz_ResourceOwnerID input != "") && (auz_ResourceOwnerID input != prn_actorID principal))
        authorizationDenied;
  match auz_Wallet input with
  | None => Ok tt
  | Some wallet =>
      fail_if ((wbc_OwnerUserID wallet != prn_actorID principal)
               || negb (is_ok (wbc_EnsureAuthorizable wallet (prn_actorID principal)))) authorizationDenied
  end.

(** * Properties *)
Lemma search_contains_sound {A} (key : A -> string) l target :
  search_contains key l target = true -> target ∈ key <$> l.
Proof.
  unfold search_contains. intros Hs. case_match eqn:E; [|done]. reflect_all. subst.
  apply list_elem_of_fmap_2. by eapply list_elem_of_lookup_2.
Qed.

Lemma Permission_string_inj p q :
  Permission_Valid p = true -> Permission_Valid q = true -> Permission_string p = Permission_string q -> p = q.
Proof. destruct p, q; try done. Qed.

Lemma principal_permissions_valid q p :
  NewAuthenticatedPrincipal q = Ok p ->
  Forall (fun x => Permission_Valid x = true) (prn_permissions q) /\
  prn_permissions p = sort_by Permission_string (remove_dups (prn_permissions q)).
Proof.
  unfold NewAuthenticatedPrincipal. intros Hok. do 3 (apply rbind_ok in Hok as ([] & _ & Hok)).
  apply rbind_ok in Hok as ([] & Hv & [= <-]). split; [|done]. apply for_each_ok in Hv.
  eapply Forall_impl; [exact Hv|]. cbn. intros x Hx. apply fail_if_ok in Hx. by reflect_all.
Qed.

(** The binary search of [HasPermission] is set membership: a principal
    built from verified claims holds exactly the permissions of the claims,
    whatever their order and multiplicity. *)
Theorem HasPermission_exact (claims p : AuthenticatedPrincipal) (permission : Permission)
    (Hnew : NewAuthenticatedPrincipal claims = Ok p) (Hv : Permission_Valid permission = true) :
  HasPermission p permission = true <-> permission ∈ prn_permissions claims.
Proof.
  apply principal_permissions_valid in Hnew as [Hvalid Ep]. unfold HasPermission. rewrite Ep.
  rewrite search_contains_spec by apply sort_by_sorted. rewrite sort_by_perm, list_elem_of_fmap.
  rewrite Forall_forall in Hvalid. setoid_rewrite elem_of_remove_dups. split; [|eauto].
  intros (x & E & Hx). assert (permission = x) as ->; [|done]. apply Permission_string_inj; auto.
Qed.

Lemma Trusted_Validate_permissions r :
  Trusted_Validate r = Ok tt -> Forall (fun x => Permission_Valid x = true) (prn_permissions (tr_principal r)).
Proof.
  unfold Trusted_Validate, NewTrustedRequest, Principal_Validate. intros Hok. ok_inv.
  by match goal with H : NewAuthenticatedPrincipal _ = Ok _ |- _ => apply principal_permissions_valid in H as [? _] end.
Qed.

Lemma HasPermission_granted r permission :
  Trusted_Validate r = Ok tt -> Permission_Valid permission = true ->
  HasPermission (tr_principal r) permission = true -> permission ∈ prn_permissions (tr_principal r).
Proof.
  intros Hr%Trusted_Validate_permissions Hv (x & E & Hx)%search_contains_sound%list_elem_of_fmap.
  rewrite Forall_forall in Hr. assert (permission = x) as ->; [|done]. apply Permission_string_inj; auto.
Qed.

Lemma FromContext_ok ctx r :
  TrustedRequestFromContext ctx = Ok r ->
  exists c, ctx = Some c /\ ctx_trusted c = Some r /\ Trusted_Validate r = Ok tt.
Proof.
  unfold TrustedRequestFromContext. destruct ctx as [c|]; [|done]. cbn.
  destruct (ctx_trusted c) as [x|] eqn:E; [|done].
  destruct (Trusted_Validate x) as [[]|e] eqn:Hx; cbn; [|done]. intros [= ->]. eauto.
Qed.

Lemma RequireHuman_ok ctx permission :
  RequireHuman ctx permission = Ok tt ->
  exists c r h, ctx = Some c /\ ctx_trusted c = Some r /\ ctx_human c = Some h /\
    sameAuthority r h = true /\ Trusted_Validate h = Ok tt /\
    HasPermission (tr_principal h) permission = true.
Proof.
  unfold RequireHuman. intros (r & (c & -> & Hr & _)%FromContext_ok & Hok)%rbind_ok. cbn in Hok.
  destruct (ctx_human c) as [h|] eqn:Hh; [|done]. apply fail_if_ok in Hok. reflect_all.
  exists c, r, h. split_and!; try done. by destruct (Trusted_Validate h) as [[]|].
Qed.

(** What a successful authorization means: the request is valid and was
    granted the very permission asked for; deciding an approval or confirming an
    execution also needs a separately authenticated human, attested in the
    context for the same authority and granted the same permission; the resource
    and the wallet belong to the actor and the wallet may authorize. *)
Theorem Authorize_sound (ctx : option Context) (input : AuthorizationInput)
    (Hok : Authorize ctx input = Ok tt) :
  let principal := tr_principal (auz_Request input) in
  Trusted_Validate (auz_Request input) = Ok tt /\
  auz_Permission input ∈ prn_permissions principal /\
  (human_permission (auz_Permission input) = true ->
   exists c r h, ctx = Some c /\ ctx_trusted c = Some r /\ ctx_human c = Some h /\
     Trusted_Validate h = Ok tt /\ auz_Permission input ∈ prn_permissions (tr_principal h) /\
     sameAuthority r h = true /\ sameAuthority r (auz_Request input) = true) /\
  (auz_ResourceOwnerID input <> "" -> auz_ResourceOwnerID input = prn_actorID principal) /\
  (forall w, auz_Wallet input = Some w ->
     wbc_OwnerUserID w = prn_actorID principal /\
     wbc_EnsureAuthorizable w (prn_actorID principal) = Ok tt).
Proof.
  intros principal. unfold Authorize in Hok. fold principal in Hok.
  apply rbind_ok in Hok as ([] & Hreq & Hok). apply rbind_ok in Hok as ([] & Hhum & Hok).
  apply rbind_ok in Hok as ([] & Hperm & Hok). apply rbind_ok in Hok as ([] & Hown & Hwal).
  apply fail_if_ok in Hreq, Hperm, Hown. reflect_all.
  assert (Trusted_Validate (auz_Request input) = Ok tt) as Hv
    by by destruct (Trusted_Validate (auz_Request input)) as [[]|].
  split_and!; [done|by apply HasPermission_granted| | |].
  - intros Hp. rewrite Hp in Hhum.
    apply rbind_ok in Hhum as ([] & (c & r & h & -> & Hr & Hh & Hs & Hvh & Hph)%RequireHuman_ok & Hhum).
    destruct (TrustedRequestFromContext (Some c)) as [t|] eqn:Ht; [|done].
    apply FromContext_ok in Ht as (c' & [= <-] & Ht & _). rewrite Hr in Ht. injection Ht as <-.
    apply fail_if_ok in Hhum. reflect_all. exists c, r, h. split_and!; try done.
    by apply HasPermission_granted.
  - intros Hne. apply andb_false_iff in Hown as [Hown|Hown]; by reflect_all.
  - intros w Ew. rewrite Ew in Hwal. apply fail_if_ok in Hwal. reflect_all. split; [done|].
    by destruct (wbc_EnsureAuthorizable w (prn_actorID principal)) as [[]|].
Qed.

(** Human authority is neither inherited nor transferable: replacing the
    request authority of a context discards the human attestation, and a failed
    human authentication leaves the context as it was. *)
Theorem human_attestation_discarded (ctx : option Context) (r : TrustedRequest) (permission : Permission)
    (verifier : option (result TrustedRequest)) (Hr : Trusted_Validate r = Ok tt) :
  RequireHuman (WithTrustedRequest ctx r) permission <> Ok tt /\
  (forall ctx' e, AuthenticateHumanContext ctx verifier = (ctx', Some e) -> ctx' = ctx) /\
  (forall ctx', AuthenticateHumanContext ctx verifier = (ctx', None) ->
     exists c c' t h, ctx = Some c /\ ctx' = Some c' /\ ctx_trusted c = Some t /\ ctx_trusted c' = Some t /\
       ctx_human c' = Some h /\ verifier = Some (Ok h) /\ sameAuthority t h = true).
Proof.
  split_and!.
  - intros (c & t & h & Hc & _ & Hh & _)%RequireHuman_ok. unfold WithTrustedRequest in Hc.
    destruct ctx as [c0|]; [|done]. rewrite Hr in Hc. by injection Hc as <-.
  - intros ctx' e. unfold AuthenticateHumanContext. repeat case_match; congruence.
  - intros ctx'. unfold AuthenticateHumanContext.
    destruct ctx as [c|]; [|done]. destruct verifier as [[h|e]|]; try done.
    destruct (is_ok (Trusted_Validate h)); cbn [negb]; [|done].
    destruct (TrustedRequestFromContext (Some c)) as [t|] eqn:Ht; [|done].
    destruct (sameAuthority t h) eqn:Hs; cbn [negb]; [|done]. intros [= <-].
    apply FromContext_ok in Ht as (c' & [= <-] & Ht & _). eauto 12.
Qed.

Module AuthSamples.
Definition now : Time := of_unix 1780000000.
Definition claims : AuthenticatedPrincipal :=
  MkPrincipal "tenant-1" "user-1" "privy" "did:privy:1" "client-1" "token-1" now now now (now + Hour)
    [PermissionReadIntent; PermissionDecideApproval; PermissionReadIntent; PermissionCreateIntent].
Definition principal : AuthenticatedPrincipal :=
  match NewAuthenticatedPrincipal claims with Ok p => p | Err _ => claims end.
Definition request : TrustedRequest :=
  MkTrusted principal (MkIdentity "user-1" "privy" "did:privy:1" IdentityStatusActive)
    (MkMetadata "request-1" "" "").
Definition human_context : option Context := Some (MkContext (Some request) (Some request)).

Lemma HasPermission_exact_witness :
  HasPermission principal PermissionReadIntent = true <-> PermissionReadIntent ∈ prn_permissions claims.
Proof. apply (HasPermission_exact claims principal); vm_compute; reflexivity. Defined.

Lemma Authorize_sound_witness : Trusted_Validate request = Ok tt.
Proof.
  refine (proj1 (Authorize_sound human_context
    (MkAuthorization request PermissionDecideApproval "user-1"
       (Some (binding_context WalletSamples.active))) _)).
  vm_compute. reflexivity.
Defined.

Lemma human_attestation_discarded_witness :
  RequireHuman (WithTrustedRequest human_context request) PermissionDecideApproval <> Ok tt.
Proof.
  refine (proj1 (human_attestation_discarded human_context request PermissionDecideApproval None _)).
  vm_compute. reflexivity.
Defined.
End AuthSamples.
