(* ===== verification/Approvals.v ===== *)
(** internal/approvals: the explicit approval artifact (approval.go), its
    lifecycle (lifecycle.go) and its restoration (restore.go). *)
From S2P Require Import Prelude GoStrings GoTime Sha256 AppErrors Contracts IntentTypes IntentParams Intents.
From S2P Require Import IntentSafety.
Open Scope Z_scope.
Open Scope go_scope.

Definition maxFieldLength : Z := 256.

Inductive Status : Set :=
  | StatusPending | StatusApproved | StatusReadyForExecutionConfirmation | StatusRejected
  | StatusExpired | StatusConsumed
  | StatusOther (raw : string).
#[global] Instance Approval_Status_eq_dec : EqDecision Status.
Proof. solve_decision. Defined.
Definition Status_Valid (s : Status) : bool := match s with StatusOther _ => false | _ => true end.
Definition Approval_Status_string (s : Status) : string :=
  match s with
  | StatusPending => "PENDING" | StatusApproved => "APPROVED"
  | StatusReadyForExecutionConfirmation => "READY_FOR_EXECUTION_CONFIRMATION" | StatusRejected => "REJECTED"
  | StatusExpired => "EXPIRED" | StatusConsumed => "CONSUMED" | StatusOther raw => raw
  end.
Definition Status_Terminal (s : Status) : bool :=
  (s == StatusRejected) || (s == StatusExpired) || (s == StatusConsumed).

Inductive Decision : Set :=
  | DecisionPending | DecisionApproved | DecisionRejected | DecisionOther (raw : string).
#[global] Instance Approval_Decision_eq_dec : EqDecision Decision.
Proof. solve_decision. Defined.
Definition Decision_Valid (d : Decision) : bool := match d with DecisionOther _ => false | _ => true end.

Record Params := MkParams {
  prm_ApprovalID : string; prm_Version : Z; prm_ApprovalRequestID : string;
  prm_CreatedAt : Time; prm_ExpiresAt : Time
}.

(** [Approval]; [RestoreParams] has the same fields. *)
Record Approval := MkApproval {
  apr_approvalID : string; apr_version : Z; apr_approvalRequestID : string;
  apr_intentID : string; apr_intentVersion : Z; apr_intentDigest : string; apr_userID : string;
  apr_walletBindingID : string; apr_walletBindingVersion : Z; apr_walletID : string;
  apr_walletAddress : string; apr_chainID : string; apr_status : Status; apr_decision : Decision;
  apr_createdAt : Time; apr_expiresAt : Time; apr_decidedAt : Time; apr_consumedAt : Time;
  apr_operationKey : string; apr_operationVersion : Z; apr_lifecycleRevision : Z
}.
#[global] Instance Approval_eq_dec : EqDecision Approval.
Proof. solve_decision. Defined.

Definition validateText (name value : string) : result unit :=
  do! fail_if ((value == "") || (TrimSpace value != value)) (errorf1 "%s is required" name);
  do! fail_if (maxFieldLength <? len value)
        (errorf2 "%s exceeds %d characters" name (FormatInt maxFieldLength));
  do! fail_if (has_control value) (errorf1 "%s contains control characters" name);
  Ok tt.

Definition approval_error (msg : string) : error := AppErrors.New CodeValidationError msg false true true.
Definition invalidLifecycle : error := approval_error "Approval lifecycle metadata is invalid.".
Definition invalidTransition : error := approval_error "Approval lifecycle transition is invalid.".
Definition approval_expired : error := AppErrors.New CodeApprovalExpired "Approval has expired." false true true.
Definition already_consumed : error :=
  AppErrors.New CodeApprovalAlreadyConsumed "Approval has already been consumed." false true true.

Definition unconsumed (a : Approval) : bool :=
  IsZero (apr_consumedAt a) && (apr_operationKey a == "") && (apr_operationVersion a == 0).

(** The metadata each status allows. *)
Definition lifecycle_metadata (a : Approval) : bool :=
  match apr_status a with
  | StatusPending => (apr_decision a == DecisionPending) && IsZero (apr_decidedAt a) && unconsumed a
  | StatusApproved | StatusReadyForExecutionConfirmation =>
      (apr_decision a == DecisionApproved) && negb (IsZero (apr_decidedAt a)) && unconsumed a
  | StatusRejected => (apr_decision a == DecisionRejected) && negb (IsZero (apr_decidedAt a)) && unconsumed a
  | StatusExpired => unconsumed a
  | StatusConsumed =>
      (apr_decision a == DecisionApproved) && negb (IsZero (apr_decidedAt a))
      && negb (IsZero (apr_consumedAt a)) && (apr_operationKey a != "") && (apr_operationVersion a != 0)
  | StatusOther _ => true
  end.

Definition Approval_Validate (a : Approval) : result unit :=
  do! map_err (Wrap CodeValidationError "Approval is invalid." false true true)
        (for_each (fun '(name, value) => validateText name value)
          [ ("approval ID", apr_approvalID a); ("approval request ID", apr_approvalRequestID a);
            ("intent ID", apr_intentID a); ("intent digest", apr_intentDigest a); ("user ID", apr_userID a);
            ("wallet binding ID", apr_walletBindingID a); ("wallet ID", apr_walletID a);
            ("wallet address", apr_walletAddress a); ("chain ID", apr_chainID a) ]);
  do! fail_if ((apr_version a =? 0) || (apr_intentVersion a =? 0) || (apr_walletBindingVersion a =? 0)
               || (apr_lifecycleRevision a =? 0)) (approval_error "Approval versions must be at least 1.");
  do! fail_if (negb (Status_Valid (apr_status a)) || negb (Decision_Valid (apr_decision a)))
        (approval_error "Approval lifecycle value is invalid.");
  do! fail_if (IsZero (apr_createdAt a) || IsZero (apr_expiresAt a)
               || negb (After (apr_expiresAt a) (apr_createdAt a)))
        (approval_error "Approval validity period is invalid.");
  fail_if (negb (lifecycle_metadata a)) invalidLifecycle.

(** Writes status, decision, the two times, the operation and the revision. *)
Definition apr_update (a : Approval) (status : Status) (decision : Decision) (decidedAt consumedAt : Time)
    (key : string) (keyVersion : Z) : Approval :=
  MkApproval (apr_approvalID a) (apr_version a) (apr_approvalRequestID a) (apr_intentID a)
    (apr_intentVersion a) (apr_intentDigest a) (apr_userID a) (apr_walletBindingID a)
    (apr_walletBindingVersion a) (apr_walletID a) (apr_walletAddress a) (apr_chainID a) status decision
    (apr_createdAt a) (apr_expiresAt a) decidedAt consumedAt key keyVersion
    (u64 (apr_lifecycleRevision a + 1)).

(** [return next, next.Validate()] *)
Definition validated (next : Approval) : result Approval := do! Approval_Validate next; Ok next.

Definition validateDecisionTime (a : Approval) (at_ : Time) : result unit :=
  do! fail_if (IsZero at_ || Before at_ (apr_createdAt a)) (approval_error "Approval decision time is invalid.");
  fail_if (negb (Before at_ (apr_expiresAt a))) approval_expired.

(** [Approve] and [Reject] share their shape. *)
Definition decide_approval (a : Approval) (status : Status) (decision : Decision) (at_ : Time) : result Approval :=
  do! Approval_Validate a;
  if apr_status a == status then Ok a
  else
    do! fail_if (apr_status a != StatusPending) invalidTransition;
    do! validateDecisionTime a at_;
    validated (apr_update a status decision (UTC at_) (apr_consumedAt a) (apr_operationKey a) (apr_operationVersion a)).

Definition Approve (a : Approval) (at_ : Time) : result Approval :=
  decide_approval a StatusApproved DecisionApproved at_.
Definition Reject (a : Approval) (at_ : Time) : result Approval :=
  decide_approval a StatusRejected DecisionRejected at_.

(** A new status with everything else kept. *)
Definition with_status (a : Approval) (status : Status) : Approval :=
  apr_update a status (apr_decision a) (apr_decidedAt a) (apr_consumedAt a) (apr_operationKey a)
    (apr_operationVersion a).

Definition ReadyForExecutionConfirmation (a : Approval) (at_ : Time) : result Approval :=
  do! Approval_Validate a;
  if apr_status a == StatusReadyForExecutionConfirmation then Ok a
  else
    do! fail_if (apr_status a != StatusApproved) invalidTransition;
    do! fail_if (IsZero at_ || negb (Before at_ (apr_expiresAt a))) approval_expired;
    validated (with_status a StatusReadyForExecutionConfirmation).

Definition Expire (a : Approval) (at_ : Time) : result Approval :=
  do! Approval_Validate a;
  if apr_status a == StatusExpired then Ok a
  else
    do! fail_if ((apr_status a != StatusPending) && (apr_status a != StatusApproved)
                 && (apr_status a != StatusReadyForExecutionConfirmation)) invalidTransition;
    do! fail_if (IsZero at_ || Before at_ (apr_expiresAt a))
          (AppErrors.New CodeValidationError "Approval has not reached its expiration time." false true false);
    validated (with_status a StatusExpired).

Definition Consume (a : Approval) (at_ : Time) (operation : OperationIdentity) : result Approval :=
  do! Approval_Validate a;
  if apr_status a == StatusConsumed then
    if (apr_operationKey a == opi_operationKey operation) && (apr_operationVersion a == opi_version operation)
    then Ok a else Err already_consumed
  else
    do! fail_if ((apr_status a != StatusApproved) && (apr_status a != StatusReadyForExecutionConfirmation))
          invalidTransition;
    do! fail_if (IsZero at_ || Before at_ (apr_createdAt a)) (approval_error "Approval consumption time is invalid.");
    do! fail_if (negb (Before at_ (apr_expiresAt a))) approval_expired;
    do! fail_if ((apr_intentID a != opi_intentID operation) || (apr_intentVersion a != opi_intentVersion operation)
                 || (apr_intentDigest a != opi_intentDigest operation) || (opi_operationKey operation == ""))
          (AppErrors.New CodeApprovalRequired "Approval does not match the logical operation." false true true);
    validated (apr_update a StatusConsumed (apr_decision a) (apr_decidedAt a) (UTC at_)
                 (opi_operationKey operation) (opi_version operation)).

Definition Approval_Restore (p : Approval) : result Approval :=
  let value := MkApproval (apr_approvalID p) (apr_version p) (apr_approvalRequestID p) (apr_intentID p)
    (apr_intentVersion p) (apr_intentDigest p) (apr_userID p) (apr_walletBindingID p)
    (apr_walletBindingVersion p) (apr_walletID p) (apr_walletAddress p) (apr_chainID p) (apr_status p)
    (apr_decision p) (UTC (apr_createdAt p)) (UTC (apr_expiresAt p)) (UTC (apr_decidedAt p))
    (UTC (apr_consumedAt p)) (apr_operationKey p) (apr_operationVersion p) (apr_lifecycleRevision p) in
  do! Approval_Validate value;
  Ok value.

(** * Binding to intents *)
Section approvals.
Context `{EthCommon} `{UnicodeTables}.

Definition New (params : Params) (i : Intent) : result Approval :=
  do! Intent_Validate i;
  do! fail_if (int_status i != StatusApprovalRequired) (approval_error "Intent is not awaiting approval.");
  let owner := Intents.prm_Ownership (int_params i) in
  let a := MkApproval (TrimSpace (prm_ApprovalID params)) (prm_Version params)
    (TrimSpace (prm_ApprovalRequestID params)) (prm_IntentID (int_params i))
    (Intents.prm_Version (int_params i)) (int_digest i) (own_UserID owner) (own_WalletBindingID owner)
    (own_WalletBindingVersion owner) (own_WalletID owner) (own_WalletAddress owner) (own_ChainID owner)
    StatusPending DecisionPending (UTC (prm_CreatedAt params)) (UTC (prm_ExpiresAt params)) zero_time zero_time
    "" 0 1 in
  do! Approval_Validate a;
  do! fail_if (Before (apr_createdAt a) (Intents.prm_CreatedAt (int_params i))
               || After (apr_expiresAt a) (Intents.prm_ExpiresAt (int_params i)))
        (approval_error "Approval validity must be contained by intent validity.");
  Ok a.

(** Every intent, identity and wallet field of the approval. *)
Definition matches_intent (a : Approval) (i : Intent) : bool :=
  let owner := Intents.prm_Ownership (int_params i) in
  (apr_intentID a == prm_IntentID (int_params i)) && (apr_intentVersion a == Intents.prm_Version (int_params i))
  && (apr_intentDigest a == int_digest i) && (apr_userID a == own_UserID owner)
  && (apr_walletBindingID a == own_WalletBindingID owner)
  && (apr_walletBindingVersion a == own_WalletBindingVersion owner)
  && (apr_walletID a == own_WalletID owner) && (apr_walletAddress a == own_WalletAddress owner)
  && (apr_chainID a == own_ChainID owner).

Definition Approval_EnsureAuthorizes (a : Approval) (i : Intent) (at_ : Time) : result unit :=
  do! Approval_Validate a;
  do! Intent_Validate i;
  do! fail_if (negb (matches_intent a i))
        (AppErrors.New CodeApprovalRequired "Approval does not match the intent and wallet binding." false true true);
  do! fail_if (IsZero at_ || negb (Before at_ (apr_expiresAt a))) approval_expired;
  match apr_status a with
  | StatusApproved | StatusReadyForExecutionConfirmation => Ok tt
  | StatusRejected => Err (AppErrors.New CodeApprovalRejected "Approval was rejected." false true true)
  | StatusConsumed => Err already_consumed
  | _ => Err (AppErrors.New CodeApprovalRequired "Explicit approval is required." false true false)
  end.

(** The approval as the intents' [ApprovalArtifact]. *)
Definition artifact (a : Approval) : ApprovalArtifact := MkArtifact (Approval_EnsureAuthorizes a).
End approvals.

(** * Lifecycle *)
Inductive approval_step (a a' : Approval) : Prop :=
  | step_Approve at_ : Approve a at_ = Ok a' -> approval_step a a'
  | step_Reject at_ : Reject a at_ = Ok a' -> approval_step a a'
  | step_Ready at_ : ReadyForExecutionConfirmation a at_ = Ok a' -> approval_step a a'
  | step_Expire at_ : Expire a at_ = Ok a' -> approval_step a a'
  | step_Consume at_ op : Consume a at_ op = Ok a' -> approval_step a a'.

(** What no operation writes. *)
Definition binding_of (a : Approval) :=
  (apr_approvalID a, apr_intentID a, apr_intentVersion a, apr_intentDigest a, apr_userID a,
   (apr_walletBindingID a, apr_walletBindingVersion a, apr_walletID a, apr_walletAddress a, apr_chainID a),
   apr_createdAt a, apr_expiresAt a).

Lemma validated_ok next a' : validated next = Ok a' -> a' = next /\ Approval_Validate a' = Ok tt.
Proof. unfold validated. intros (u & Hv & [= <-])%rbind_ok. by destruct u. Qed.

Lemma step_valid_before a a' : approval_step a a' -> Approval_Validate a = Ok tt.
Proof.
  intros [t Hok|t Hok|t Hok|t Hok|t op Hok];
    unfold Approve, Reject, decide_approval, ReadyForExecutionConfirmation, Expire, Consume in Hok;
    by apply rbind_ok in Hok as ([] & ? & _).
Qed.

(** One step keeps the value or writes a fresh status. *)
Definition fresh_status (a a' : Approval) : Prop :=
  binding_of a' = binding_of a /\ apr_lifecycleRevision a' = u64 (apr_lifecycleRevision a + 1) /\
  Status_Terminal (apr_status a) = false /\ apr_status a' <> StatusPending /\
  (apr_status a <> StatusPending -> apr_decision a' = apr_decision a /\ apr_decidedAt a' = apr_decidedAt a).

Lemma decide_cases a status d at_ a' :
  status <> StatusPending -> decide_approval a status d at_ = Ok a' ->
  a' = a \/
  Approval_Validate a' = Ok tt /\ fresh_status a a' /\ apr_status a = StatusPending /\
  apr_status a' = status /\ apr_createdAt a <= at_ < apr_expiresAt a.
Proof.
  intros Hne Hok. unfold decide_approval in Hok. apply rbind_ok in Hok as ([] & _ & Hok).
  destruct (apr_status a == status); [left; by injection Hok|right].
  apply rbind_ok in Hok as ([] & Hs & Hok). apply rbind_ok in Hok as ([] & Ht & Hok).
  apply validated_ok in Hok as [-> Hv]. unfold validateDecisionTime, IsZero, Before in Ht.
  apply rbind_ok in Ht as ([] & Ht1 & Ht2). apply fail_if_ok in Hs, Ht1, Ht2. reflect_all.
  split_and!; try done. unfold fresh_status. rewrite Hs. by split_and!.
Qed.

Lemma step_cases a a' :
  approval_step a a' -> a' = a \/ Approval_Validate a' = Ok tt /\ fresh_status a a'.
Proof.
  intros [t Hok|t Hok|t Hok|t Hok|t op Hok].
  - destruct (decide_cases a StatusApproved DecisionApproved t a' ltac:(done) Hok) as [?|(? & ? & _)]; auto.
  - destruct (decide_cases a StatusRejected DecisionRejected t a' ltac:(done) Hok) as [?|(? & ? & _)]; auto.
  - unfold ReadyForExecutionConfirmation in Hok. apply rbind_ok in Hok as ([] & _ & Hok).
    destruct (_ == _); [left; by injection Hok|right].
    apply rbind_ok in Hok as ([] & Hs & Hok). apply rbind_ok in Hok as ([] & _ & Hok).
    apply validated_ok in Hok as [-> Hv]. apply fail_if_ok in Hs. reflect_all.
    split; [done|]. unfold fresh_status. rewrite Hs. by split_and!.
  - unfold Expire in Hok. apply rbind_ok in Hok as ([] & _ & Hok).
    destruct (_ == _); [left; by injection Hok|right].
    apply rbind_ok in Hok as ([] & Hs & Hok). apply rbind_ok in Hok as ([] & _ & Hok).
    apply validated_ok in Hok as [-> Hv]. apply fail_if_ok in Hs.
    split; [done|]. unfold fresh_status. split_and!; try done. by destruct (apr_status a).
  - unfold Consume in Hok. apply rbind_ok in Hok as ([] & _ & Hok).
    destruct (_ == StatusConsumed); [left; by destruct (_ && _); [injection Hok|]|right].
    apply rbind_ok in Hok as ([] & Hs & Hok). do 3 (apply rbind_ok in Hok as ([] & _ & Hok)).
    apply validated_ok in Hok as [-> Hv]. apply fail_if_ok in Hs.
    split; [done|]. unfold fresh_status. split_and!; try done. by destruct (apr_status a).
Qed.

Lemma steps_terminal n a a' :
  nsteps approval_step n a a' -> Status_Terminal (apr_status a) = true -> a' = a.
Proof.
  induction 1 as [|n a k a' Hs _ IH]; [done|]. intros Ht.
  destruct (step_cases _ _ Hs) as [-> | [_ (_ & _ & Hf & _)]]; [auto|congruence].
Qed.

Lemma steps_kept n a a' :
  nsteps approval_step n a a' ->
  binding_of a' = binding_of a /\ (Approval_Validate a = Ok tt -> Approval_Validate a' = Ok tt) /\
  (apr_status a <> StatusPending -> apr_status a' <> StatusPending /\
     apr_decision a' = apr_decision a /\ apr_decidedAt a' = apr_decidedAt a).
Proof.
  induction 1 as [|n a k a' Hs _ (Hb & Hv & Hd)]; [done|].
  destruct (step_cases _ _ Hs) as [-> | [Hvk (Hbk & _ & _ & Hp & Hdk)]]; [done|].
  split_and!; [congruence|auto|]. intros Hne. destruct (Hd Hp) as (? & ? & ?), (Hdk Hne).
  split_and!; congruence.
Qed.

(** A decision is made once: along any sequence of lifecycle calls the
    approval stays bound to the same intent digest, user and wallet and stays
    valid, its decision and decision time never change after the first, and a
    rejected, expired or consumed approval never changes again. *)
Theorem approval_decided_once (n : nat) (a a' : Approval)
    (Hsteps : nsteps approval_step n a a') (Hv : Approval_Validate a = Ok tt) :
  Approval_Validate a' = Ok tt /\ binding_of a' = binding_of a /\
  (apr_status a <> StatusPending -> apr_status a' <> StatusPending /\
     apr_decision a' = apr_decision a /\ apr_decidedAt a' = apr_decidedAt a) /\
  (Status_Terminal (apr_status a) = true -> a' = a).
Proof.
  destruct (steps_kept _ _ _ Hsteps) as (Hb & Hv' & Hd). split_and!; auto.
  by apply steps_terminal with (1 := Hsteps).
Qed.

Lemma Consume_ok a at_ op a' :
  Consume a at_ op = Ok a' ->
  apr_status a' = StatusConsumed /\ apr_operationKey a' = opi_operationKey op /\
  apr_operationVersion a' = opi_version op /\
  (a' = a \/
   (apr_status a = StatusApproved \/ apr_status a = StatusReadyForExecutionConfirmation) /\
   apr_createdAt a <= at_ < apr_expiresAt a /\ apr_intentID a = opi_intentID op /\
   apr_intentVersion a = opi_intentVersion op /\ apr_intentDigest a = opi_intentDigest op).
Proof.
  unfold Consume. intros Hok. apply rbind_ok in Hok as ([] & Hv & Hok).
  destruct (apr_status a == StatusConsumed) eqn:E.
  - destruct ((_ == _) && _) eqn:Ek; [|done]. injection Hok as <-. reflect_all. by split_and!; auto.
  - apply rbind_ok in Hok as ([] & Hs & Hok). apply rbind_ok in Hok as ([] & Ht & Hok).
    apply rbind_ok in Hok as ([] & Hx & Hok). apply rbind_ok in Hok as ([] & Hm & Hok).
    apply validated_ok in Hok as [-> _]. apply fail_if_ok in Hs, Ht, Hx, Hm.
    unfold IsZero, Before in *. split_and!; try done. right.
    apply andb_false_iff in Hs. rewrite !orb_false_iff in Hm. destruct Hm as [[[? ?] ?] _].
    split; [destruct Hs; reflect_all; auto|]. reflect_all. by split_and!.
Qed.

(** [C15] An approval authorizes one logical operation: if it is consumed for
    [op1] and, after any further lifecycle calls, consumed again for [op2], then
    both are the same operation key and version and the second call changes
    nothing; the first consumption named the intent version and digest the
    approval is bound to and happened before its expiry. *)
Theorem approval_consumed_once (n : nat) (a a1 a2 a3 : Approval) (at1 at2 : Time)
    (op1 op2 : OperationIdentity) (Hfresh : apr_status a <> StatusConsumed)
    (H1 : Consume a at1 op1 = Ok a1) (Hsteps : nsteps approval_step n a1 a2)
    (H2 : Consume a2 at2 op2 = Ok a3) :
  opi_operationKey op2 = opi_operationKey op1 /\ opi_version op2 = opi_version op1 /\ a3 = a1 /\
  apr_intentID a = opi_intentID op1 /\ apr_intentVersion a = opi_intentVersion op1 /\
  apr_intentDigest a = opi_intentDigest op1 /\ apr_createdAt a <= at1 < apr_expiresAt a.
Proof.
  destruct (Consume_ok _ _ _ _ H1) as (Hs1 & Hk1 & Hv1 & [->|(_ & ? & ? & ? & ?)]); [done|].
  rewrite (steps_terminal _ _ _ Hsteps) in H2 by by rewrite Hs1.
  destruct (Consume_ok _ _ _ _ H2) as (Hs3 & Hk3 & Hv3 & [->|([Hbad|Hbad] & _)]); [|congruence..].
  split_and!; congruence || lia.
Qed.

Section authorization.
Context `{EthCommon} `{UnicodeTables}.

(** [EnsureAuthorizes] is exact: it succeeds if and only if the approval
    and the intent are valid, every bound field agrees, the approval has been
    granted and not consumed, rejected or expired, and the clock is before its
    expiry. *)
Lemma EnsureAuthorizes_iff (a : Approval) (i : Intent) (at_ : Time) :
  Approval_EnsureAuthorizes a i at_ = Ok tt <->
  Approval_Validate a = Ok tt /\ Intent_Validate i = Ok tt /\ matches_intent a i = true /\
  at_ <> zero_time /\ at_ < apr_expiresAt a /\
  (apr_status a = StatusApproved \/ apr_status a = StatusReadyForExecutionConfirmation).
Proof.
  unfold Approval_EnsureAuthorizes, IsZero, Before.
  destruct (Approval_Validate a) as [[]|]; cbn [rbind]; [|naive_solver].
  destruct (Intent_Validate i) as [[]|]; cbn [rbind]; [|naive_solver].
  destruct (matches_intent a i); cbn [rbind negb fail_if]; [|naive_solver].
  destruct (at_ =? zero_time) eqn:Ez; reflect_all; cbn [orb fail_if rbind]; [naive_solver|].
  destruct (at_ <? apr_expiresAt a) eqn:Ex; reflect_all; cbn [negb fail_if rbind].
  - destruct (apr_status a); naive_solver.
  - split; [done|]. intros (_ & _ & _ & _ & Hlt & _). lia.
Qed.

(** End to end: an intent advanced to APPROVED by an approval artifact is
    covered by that artifact after the fact — its identifier, version, digest,
    user and wallet binding are the ones the user approved, and an approval
    created for one intent never approves another digest. *)
Theorem approved_intent_is_covered (a : Approval) (i i' : Intent) (at_ : Time)
    (Hr : is_u64 (int_lifecycleRevision i))
    (Hok : Intent_Approve i (Some (artifact a)) at_ = Ok i') :
  int_status i' = Intents.StatusApproved /\ matches_intent a i' = true /\
  apr_intentDigest a = int_digest i' /\ apr_decision a = DecisionApproved /\
  at_ < apr_expiresAt a /\ at_ < Intents.prm_ExpiresAt (int_params i').
Proof.
  destruct (Approve_cases _ _ _ _ Hr Hok) as (b & [= <-] & Ha & Ht & Hcases). cbn [EnsureAuthorizes artifact] in Ha.
  apply EnsureAuthorizes_iff in Ha as (Hv & _ & Hm & _ & Hlt & Hs).
  assert (int_params i' = int_params i /\ int_digest i' = int_digest i /\
          int_status i' = Intents.StatusApproved) as (Ep & Ed & Es)
    by (destruct Hcases as [[? ->]|(_ & _ & ? & ? & ? & _)]; done).
  assert (matches_intent a i' = true) as Hm' by (revert Hm; unfold matches_intent; by rewrite Ep, Ed).
  split_and!; try done.
  - unfold matches_intent in Hm'. by reflect_all.
  - unfold Approval_Validate in Hv. ok_reflect. unfold lifecycle_metadata in Hv.
    by destruct Hs as [E|E]; rewrite E in Hv; reflect_all.
  - rewrite Ep. lia.
Qed.
End authorization.

Module ApprovalSamples.
Import Samples IntentSamples.
#[local] Existing Instance Eth.is_hex_address.
#[local] Existing Instance Eth.no_folding.

Definition get (m : result Approval) (default : Approval) : Approval :=
  match m with Ok a => a | Err _ => default end.
Definition blank : Approval :=
  MkApproval "" 0 "" "" 0 "" "" "" 0 "" "" "" StatusPending DecisionPending 0 0 0 0 "" 0 0.
Definition pending : Approval := Eval vm_compute in
  get (New (MkParams "approval-1" 1 "request-1" (now + Second) (now + 30 * Minute)) requested) blank.
Definition granted : Approval := Eval vm_compute in get (Approve pending (now + Minute)) blank.
Definition get_operation (m : result OperationIdentity) : OperationIdentity :=
  match m with Ok o => o | Err _ => MkOperationIdentity "" 0 "" "" 0 end.
Definition operation : OperationIdentity := Eval vm_compute in get_operation (NewOperationIdentity approved).
Definition consumed : Approval := Eval vm_compute in get (Consume granted (now + 2 * Minute) operation) blank.

Lemma approval_decided_once_witness : Approval_Validate granted = Ok tt.
Proof.
  refine (proj1 (approval_decided_once 1 pending granted _ _)); [|vm_compute; reflexivity].
  apply (nsteps_l approval_step 0 _ granted); [|constructor].
  apply (step_Approve _ _ (now + Minute)). vm_compute. reflexivity.
Defined.

Lemma approval_consumed_once_witness : opi_operationKey operation = opi_operationKey operation.
Proof.
  refine (proj1 (approval_consumed_once 0 granted consumed consumed consumed
    (now + 2 * Minute) (now + 3 * Minute) operation operation _ _ _ _));
    [vm_compute; discriminate|vm_compute; reflexivity|constructor|vm_compute; reflexivity].
Defined.

Lemma approved_intent_is_covered_witness :
  int_status (IntentSamples.get (Intent_Approve requested (Some (artifact granted)) (now + 2 * Minute)))
  = Intents.StatusApproved.
Proof.
  refine (proj1 (approved_intent_is_covered granted requested _ (now + 2 * Minute) _ _));
    [split; vm_compute; [discriminate|reflexivity]|vm_compute; reflexivity].
Defined.
End ApprovalSamples.
