(* ===== verification/Policies.v ===== *)
(** internal/policies: policies and their scopes and rules (types.go,
    policy.go, rules.go), their lifecycle (lifecycle.go), restoration
    (restore.go), and the evaluation of an intent (evaluator.go). *)
From S2P Require Import Prelude GoStrings GoTime Sha256 AppErrors Contracts IntentTypes Amounts IntentParams Intents.
From S2P Require Import Wallet Auth.
Open Scope Z_scope.
Open Scope go_scope.

Definition maxPolicyTextLength : Z := 256.
Definition maxRules : Z := 100.

Inductive Decision : Set := DecisionAllow | DecisionDeny | DecisionRequireReview | DecisionOther (raw : string).
#[global] Instance Policy_Decision_eq_dec : EqDecision Decision.
Proof. solve_decision. Defined.
Definition violationDecision (d : Decision) : bool := (d == DecisionDeny) || (d == DecisionRequireReview).

Inductive EvaluationStage : Set := EvaluationStageBeforeApproval | EvaluationStageBeforeExecution.
#[global] Instance EvaluationStage_eq_dec : EqDecision EvaluationStage.
Proof. solve_decision. Defined.

Inductive RuleType : Set :=
  | RuleTypeSpendingLimit | RuleTypeOperationAllowlist | RuleTypeChainAllowlist
  | RuleTypeTokenAllowlist | RuleTypeRecipient | RuleTypeExpiration
  | RuleTypeNone.
#[global] Instance RuleType_eq_dec : EqDecision RuleType.
Proof. solve_decision. Defined.

Definition validateText (name value : string) : result unit :=
  do! fail_if ((value == "") || (TrimSpace value != value))
        (errorf1 "%s is required and must not contain surrounding whitespace" name);
  do! fail_if (maxPolicyTextLength <? len value)
        (errorf2 "%s exceeds %d characters" name (FormatInt maxPolicyTextLength));
  do! fail_if (has_control value) (errorf1 "%s contains control characters" name);
  Ok tt.

Definition validateChainID (value : string) : result unit :=
  let e := errorf "chain ID must be a canonical positive decimal string" in
  do! fail_if ((value == "") || (20 <? len value)
               || (match first_byte value with Some b => b =? 48 | None => false end)) e;
  do! fail_if (negb (all_digits value)) e;
  Ok tt.

(** A loop that rejects a repeated key after checking each element. *)
Definition distinct_step {A} (check : A -> result unit) (key : A -> string) (e : A -> error)
    (seen : gset string) (x : A) : result (gset string) :=
  do! check x;
  do! fail_if (bool_decide (key x ∈ seen)) (e x);
  Ok ({[key x]} ∪ seen).
Definition each_distinct {A} (check : A -> result unit) (key : A -> string) (e : A -> error)
    (l : list A) : result unit :=
  let! _ := fold_result (distinct_step check key e) ∅ l in Ok tt.

(** * Scope *)
Record Scope := MkScope { scp_UserID : string; scp_WalletBindingID : string; scp_IntentTypes : list Type_ }.

Definition check_type (message : string) (t : Type_) : result unit :=
  fail_if (negb (Type_Valid t)) (errorf1 message (Type_string t)).

Definition Scope_validate (s : Scope) : result unit :=
  do! validateText "policy user ID" (scp_UserID s);
  do! (if scp_WalletBindingID s != "" then validateText "policy wallet binding ID" (scp_WalletBindingID s)
       else Ok tt);
  each_distinct (check_type "invalid scoped intent type %q") Type_string
    (fun t => errorf1 "duplicate scoped intent type %q" (Type_string t)) (scp_IntentTypes s).

Definition sort_types (l : list Type_) : list Type_ := sort_by Type_string l.

Definition normalizeScope (s : Scope) : Scope :=
  MkScope (TrimSpace (scp_UserID s)) (TrimSpace (scp_WalletBindingID s)) (sort_types (scp_IntentTypes s)).

Definition containsIntentType (values : list Type_) (target : Type_) : bool :=
  search_contains Type_string values (Type_string target).

Definition Scope_includes (s : Scope) (kind : Type_) : bool :=
  match scp_IntentTypes s with [] => true | l => containsIntentType l kind end.

(** * Token references *)
Record TokenReference := MkTokenReference {
  tkr_ChainID : string; tkr_Standard : string; tkr_Address : string; tkr_Decimals : Z
}.
Definition TokenReference_validate (t : TokenReference) : result unit :=
  do! validateChainID (tkr_ChainID t);
  do! validateText "token standard" (tkr_Standard t);
  do! validateText "token address" (tkr_Address t);
  do! fail_if (36 <? tkr_Decimals t) (errorf "token decimals cannot exceed 36");
  Ok tt.
Definition tokenReference (t : Token) : TokenReference :=
  MkTokenReference (tok_ChainID t) (tok_Standard t) (tok_Address t) (tok_Decimals t).

(** * Rules *)
Record SpendingLimitRule := MkSpendingLimit {
  spl_IntentTypes : list Type_; spl_Token : TokenReference; spl_Maximum : Amount
}.
Record ExpirationRule := MkExpiration { exp_MaxLifetimeSeconds : Z; exp_MinimumRemainingSeconds : Z }.

Record Rule := MkRule {
  rul_RuleID : string; rul_OnViolation : Decision; rul_SpendingLimit : option SpendingLimitRule;
  rul_OperationAllowlist : option (list Type_); rul_ChainAllowlist : option (list string);
  rul_TokenAllowlist : option (list TokenReference); rul_Recipient : option (list string);
  rul_Expiration : option ExpirationRule
}.

Definition isSome {A} (o : option A) : bool := match o with Some _ => true | None => false end.

Definition Rule_Type (r : Rule) : RuleType :=
  if isSome (rul_SpendingLimit r) then RuleTypeSpendingLimit
  else if isSome (rul_OperationAllowlist r) then RuleTypeOperationAllowlist
  else if isSome (rul_ChainAllowlist r) then RuleTypeChainAllowlist
  else if isSome (rul_TokenAllowlist r) then RuleTypeTokenAllowlist
  else if isSome (rul_Recipient r) then RuleTypeRecipient
  else if isSome (rul_Expiration r) then RuleTypeExpiration
  else RuleTypeNone.

Definition nonempty {A} (l : list A) (message : string) : result unit :=
  fail_if (match l with [] => true | _ => false end) (errorf message).

Definition validateIntentTypes (values : list Type_) (allowEmpty : bool) : result unit :=
  do! (if allowEmpty then Ok tt else nonempty values "intent type list cannot be empty");
  each_distinct (check_type "invalid intent type %q") Type_string
    (fun t => errorf1 "duplicate intent type %q" (Type_string t)) values.
Definition validateChains (values : list string) : result unit :=
  do! nonempty values "chain allowlist cannot be empty";
  each_distinct validateChainID (fun s => s) (fun s => errorf1 "duplicate chain %q" s) values.
Definition validateStrings (name : string) (values : list string) : result unit :=
  do! nonempty values (name +:+ " allowlist cannot be empty");
  each_distinct (validateText name) (fun s => s) (fun s => errorf2 "duplicate %s %q" name s) values.

(** The largest number of seconds a [time.Duration] holds. *)
Definition maxDurationSeconds : Z := max_duration / 1000000000.

Definition Expiration_validate (r : ExpirationRule) : result unit :=
  do! fail_if ((exp_MaxLifetimeSeconds r =? 0) && (exp_MinimumRemainingSeconds r =? 0))
        (errorf "expiration rule requires at least one positive constraint");
  do! fail_if ((maxDurationSeconds <? exp_MaxLifetimeSeconds r)
               || (maxDurationSeconds <? exp_MinimumRemainingSeconds r))
        (errorf "expiration rule duration exceeds supported range");
  Ok tt.

Definition SpendingLimit_validate (r : SpendingLimitRule) : result unit :=
  do! validateIntentTypes (spl_IntentTypes r) false;
  do! TokenReference_validate (spl_Token r);
  do! Amount_Validate (spl_Maximum r);
  do! fail_if (amt_BaseUnits (spl_Maximum r) == "0") (errorf "spending limit must be positive");
  do! fail_if (amt_Decimals (spl_Maximum r) != tkr_Decimals (spl_Token r))
        (errorf "spending limit decimals do not match token");
  Ok tt.

(** [int64] wrap-around of [time.Duration(seconds) * time.Second]. *)
Definition duration_of_seconds (seconds : Z) : Duration := i64 (i64 seconds * Second).

Definition invalidPolicy (cause : error) : error :=
  Wrap CodePolicyInvalid "Policy is invalid." false true true cause.

Inductive Status : Set :=
  | StatusDraft | StatusActive | StatusDisabled | StatusExpired | StatusOther (raw : string).
#[global] Instance Policy_Status_eq_dec : EqDecision Status.
Proof. solve_decision. Defined.
Definition Status_Valid (s : Status) : bool := match s with StatusOther _ => false | _ => true end.
Definition Status_Terminal (s : Status) : bool := (s == StatusDisabled) || (s == StatusExpired).
Definition Status_string (s : Status) : string :=
  match s with
  | StatusDraft => "DRAFT" | StatusActive => "ACTIVE" | StatusDisabled => "DISABLED"
  | StatusExpired => "EXPIRED" | StatusOther raw => raw
  end.

Record Params := MkParams {
  prm_PolicyID : string; prm_Version : Z; prm_Name : string; prm_Scope : Scope; prm_Rules : list Rule;
  prm_CreatedAt : Time; prm_ValidFrom : Time; prm_ExpiresAt : Time
}.

Record Policy := MkPolicy {
  pol_policyID : string; pol_version : Z; pol_name : string; pol_scope : Scope; pol_rules : list Rule;
  pol_status : Status; pol_createdAt : Time; pol_validFrom : Time; pol_expiresAt : Time;
  pol_lifecycleRevision : Z
}.

Section policies.
Context `{EthCommon} `{UnicodeTables}.

Definition TokenReference_key (t : TokenReference) : string :=
  tkr_ChainID t +:+ nul +:+ tkr_Standard t +:+ nul +:+ NormalizeAddress (tkr_Address t) +:+ nul
  +:+ FormatUint (tkr_Decimals t).

Definition validateTokens (values : list TokenReference) : result unit :=
  do! nonempty values "token allowlist cannot be empty";
  each_distinct TokenReference_validate TokenReference_key (fun _ => errorf "duplicate token reference") values.

Definition Rule_count (r : Rule) : Z :=
  present (rul_SpendingLimit r) + present (rul_OperationAllowlist r) + present (rul_ChainAllowlist r)
  + present (rul_TokenAllowlist r) + present (rul_Recipient r) + present (rul_Expiration r).

Definition Rule_validate (r : Rule) : result unit :=
  do! validateText "rule ID" (rul_RuleID r);
  do! fail_if (negb (violationDecision (rul_OnViolation r)))
        (errorf "rule violation decision must be DENY or REQUIRE_REVIEW");
  do! fail_if (negb (Rule_count r =? 1)) (errorf "rule must contain exactly one typed rule body");
  match Rule_Type r with
  | RuleTypeSpendingLimit => let! b := deref (rul_SpendingLimit r) in SpendingLimit_validate b
  | RuleTypeOperationAllowlist => let! b := deref (rul_OperationAllowlist r) in validateIntentTypes b false
  | RuleTypeChainAllowlist => let! b := deref (rul_ChainAllowlist r) in validateChains b
  | RuleTypeTokenAllowlist => let! b := deref (rul_TokenAllowlist r) in validateTokens b
  | RuleTypeRecipient => let! b := deref (rul_Recipient r) in validateStrings "recipient" b
  | RuleTypeExpiration => let! b := deref (rul_Expiration r) in Expiration_validate b
  | RuleTypeNone => Err (errorf "invalid rule type")
  end.

Definition sort_tokens (l : list TokenReference) : list TokenReference := sort_by TokenReference_key l.

Definition normalizeRule (r : Rule) : Rule :=
  MkRule (TrimSpace (rul_RuleID r)) (rul_OnViolation r)
    ((fun b => MkSpendingLimit (sort_types (spl_IntentTypes b)) (spl_Token b) (spl_Maximum b)) <$> rul_SpendingLimit r)
    (sort_types <$> rul_OperationAllowlist r) (sort_strings <$> rul_ChainAllowlist r)
    (sort_tokens <$> rul_TokenAllowlist r) (sort_strings <$> rul_Recipient r) (rul_Expiration r).
Definition cloneRules (rules : list Rule) : list Rule := normalizeRule <$> rules.

(** Loop state: rule identifiers seen, and the previous one. *)
Definition policy_rule (st : gset string * string) (r : Rule) : result (gset string * string) :=
  let '(seen, previous) := st in
  do! map_err (fun e => invalidPolicy (errorf_wrap "rule %q: %w" [rul_RuleID r] e)) (Rule_validate r);
  do! fail_if (bool_decide (rul_RuleID r ∈ seen))
        (invalidPolicy (errorf1 "duplicate rule ID %q" (rul_RuleID r)));
  do! fail_if ((previous != "") && string_lt (rul_RuleID r) previous)
        (invalidPolicy (errorf "policy rules are not in canonical order"));
  Ok ({[rul_RuleID r]} ∪ seen, rul_RuleID r).

Definition Policy_Validate (p : Policy) : result unit :=
  do! map_err invalidPolicy (validateText "policy ID" (pol_policyID p));
  do! map_err invalidPolicy (validateText "policy name" (pol_name p));
  do! fail_if (pol_version p =? 0) (invalidPolicy (errorf "policy version must be at least 1"));
  do! fail_if (pol_lifecycleRevision p =? 0)
        (invalidPolicy (errorf "policy lifecycle revision must be at least 1"));
  do! map_err invalidPolicy (Scope_validate (pol_scope p));
  do! fail_if ((count_list (pol_rules p) =? 0) || (maxRules <? count_list (pol_rules p)))
        (invalidPolicy (errorf1 "policy requires 1 to %d rules" (FormatInt maxRules)));
  let! _ := fold_result policy_rule (∅, "") (pol_rules p) in
  do! fail_if (negb (Status_Valid (pol_status p)))
        (invalidPolicy (errorf1 "invalid policy status %q" (Status_string (pol_status p))));
  do! fail_if (IsZero (pol_createdAt p) || IsZero (pol_validFrom p) || IsZero (pol_expiresAt p)
               || Before (pol_validFrom p) (pol_createdAt p) || negb (After (pol_expiresAt p) (pol_validFrom p)))
        (invalidPolicy (errorf "policy validity window is invalid"));
  Ok tt.

Definition NewDraft (params : Params) : result Policy :=
  let policy := MkPolicy (TrimSpace (prm_PolicyID params)) (prm_Version params) (TrimSpace (prm_Name params))
    (normalizeScope (prm_Scope params)) (sort_by rul_RuleID (cloneRules (prm_Rules params))) StatusDraft
    (UTC (prm_CreatedAt params)) (UTC (prm_ValidFrom params)) (UTC (prm_ExpiresAt params)) 1 in
  do! Policy_Validate policy;
  Ok policy.

(** [fmt.Sprintf("%s:%d", id, version)] *)
Definition Policy_Reference (p : Policy) : string := pol_policyID p +:+ ":" +:+ FormatUint (pol_version p).

Definition set_status (p : Policy) (status : Status) (revision : Z) : Policy :=
  MkPolicy (pol_policyID p) (pol_version p) (pol_name p) (pol_scope p) (pol_rules p) status (pol_createdAt p)
    (pol_validFrom p) (pol_expiresAt p) revision.

Definition Policy_Restore (params : Params) (status : Status) (revision : Z) : result Policy :=
  let! value := NewDraft params in
  let value := set_status value status revision in
  do! Policy_Validate value;
  Ok value.

Definition Policy_Transition (p : Policy) (next : Status) (at_ : Time) : result Policy :=
  do! Policy_Validate p;
  if next == pol_status p then Ok p
  else
    do! fail_if (negb (Status_Valid next)) (invalidPolicy (errorf1 "invalid policy status %q" (Status_string next)));
    do! fail_if (IsZero at_ || Before at_ (pol_createdAt p))
          (invalidPolicy (errorf "policy transition time is invalid"));
    let allowed :=
      match pol_status p with
      | StatusDraft => (next == StatusActive) || (next == StatusDisabled) || (next == StatusExpired)
      | StatusActive => (next == StatusDisabled) || (next == StatusExpired)
      | _ => false
      end in
    do! fail_if (negb allowed)
          (invalidPolicy (errorf2 "policy transition %s -> %s is not allowed"
             (Status_string (pol_status p)) (Status_string next)));
    do! (if next == StatusExpired then
           fail_if (Before at_ (pol_expiresAt p))
             (invalidPolicy (errorf "policy has not reached its expiration time"))
         else fail_if (negb (Before at_ (pol_expiresAt p)))
                (AppErrors.New CodePolicyExpired "Policy has expired." false true true));
    do! fail_if ((next == StatusActive) && Before at_ (pol_validFrom p))
          (invalidPolicy (errorf "policy cannot activate before its validity window"));
    let nextPolicy := set_status p next (u64 (pol_lifecycleRevision p + 1)) in
    do! Policy_Validate nextPolicy;
    Ok nextPolicy.
End policies.
