(* ===== verification/Evaluator.v ===== *)
(** internal/policies/evaluator.go: the view of an intent that rules look at,
    the evaluation of a rule, and the evaluation of a policy. *)
From S2P Require Import Prelude GoStrings GoTime Sha256 AppErrors Contracts IntentTypes Amounts IntentParams Intents.
From S2P Require Import IntentSafety Wallet Auth Policies.
Open Scope Z_scope.
Open Scope go_scope.

Inductive Reason : Set :=
  | ReasonPolicyDraft | ReasonPolicyNotEffective | ReasonPolicyDisabled | ReasonPolicyExpired
  | ReasonPolicyReferenceMismatch | ReasonScopeMismatch | ReasonOperationNotAllowed
  | ReasonSpendingLimitExceeded | ReasonChainNotAllowed | ReasonTokenNotAllowed
  | ReasonRecipientNotAllowed | ReasonExpirationConstraintViolated
  | ReasonNone.
#[global] Instance Reason_eq_dec : EqDecision Reason.
Proof. solve_decision. Defined.

Record Finding := MkFinding {
  fnd_RuleID : string; fnd_RuleType : RuleType; fnd_Decision : Decision; fnd_Reason : Reason
}.

Record Result := MkResult {
  res_PolicyID : string; res_PolicyVersion : Z; res_IntentID : string; res_IntentVersion : Z;
  res_IntentDigest : string; res_Stage : EvaluationStage; res_Decision : Decision; res_EvaluatedAt : Time;
  res_Findings : list Finding
}.

Record intentView := MkView {
  viw_kind : Type_; viw_spendToken : TokenReference; viw_spendAmount : Amount; viw_chains : list string;
  viw_tokens : list TokenReference; viw_recipients : list string; viw_createdAt : Time;
  viw_effectiveDeadline : Time
}.

Definition combineDecision (current next : Decision) : Decision :=
  if (current == DecisionDeny) || (next == DecisionDeny) then DecisionDeny
  else if (current == DecisionRequireReview) || (next == DecisionRequireReview) then DecisionRequireReview
  else DecisionAllow.

Definition lifecycleDecision (r : Result) (reason : Reason) : Result :=
  MkResult (res_PolicyID r) (res_PolicyVersion r) (res_IntentID r) (res_IntentVersion r) (res_IntentDigest r)
    (res_Stage r) DecisionDeny (res_EvaluatedAt r) [MkFinding "" RuleTypeNone DecisionDeny reason].
Definition denyDecision (r : Result) (reason : Reason) : Result := lifecycleDecision r reason.

(** [Result.Error]: [None] is nil. *)
Definition Result_Error (r : Result) : option error :=
  if res_Decision r == DecisionAllow then None
  else
    let verdict :=
      if res_Decision r == DecisionRequireReview
      then New CodeReviewRequired "Policy requires explicit review." false true false
      else New CodePolicyDenied "Policy denied the intent." false true true in
    Some match res_Findings r with
         | [] => verdict
         | f :: _ =>
             match fnd_Reason f with
             | ReasonPolicyExpired => New CodePolicyExpired "Policy has expired." false true true
             | ReasonPolicyDisabled | ReasonPolicyDraft | ReasonPolicyNotEffective =>
                 New CodePolicyDisabled "Policy is not active." false true true
             | _ => verdict
             end
         end.

(** Adjacent duplicates by key are dropped, the first of each run kept. *)
Fixpoint dedup_adjacent {A} (key : A -> string) (last : option string) (l : list A) : list A :=
  match l with
  | [] => []
  | x :: rest =>
      if bool_decide (last = Some (key x)) then dedup_adjacent key last rest
      else x :: dedup_adjacent key (Some (key x)) rest
  end.

Definition uniqueSorted (values : list string) : list string :=
  dedup_adjacent (fun s => s) None (sort_strings values).

Definition ContractMaxFeeBPS_amount (base : Z) : Z := Z.quot (base * ContractMaxFeeBPS) 10000.

Definition payrollMaximumEmployerExposure (obligations : Amount) : Amount :=
  match BaseInt obligations with
  | Err _ => obligations
  | Ok base =>
      let total := base + ContractMaxFeeBPS_amount base in
      MkAmount (canonicalAmountDecimal total (amt_Decimals obligations)) (FormatInt total)
        (amt_Decimals obligations)
  end.

Definition allStringsAllowed (values allowed : list string) : bool :=
  forallb (search_contains (fun s => s) allowed) values.

Section evaluator.
Context `{EthCommon} `{UnicodeTables}.

Definition uniqueTokens (tokens : list TokenReference) : list TokenReference :=
  dedup_adjacent TokenReference_key None (sort_tokens tokens).

Definition allTokensAllowed (values allowed : list TokenReference) : bool :=
  forallb (fun v => search_contains TokenReference_key allowed (TokenReference_key v)) values.

(** The type-dependent part of the view: spend token and amount, chains,
    tokens, recipients and the effective deadline. *)
Definition view_of (kind : Type_) (f : FinancialParameters) (createdAt deadline : Time) : result intentView :=
  match kind with
  | TypeSend =>
      let! s := deref (fin_Send f) in
      Ok (MkView kind (tokenReference (snd_Token s)) (snd_Amount s) [tok_ChainID (snd_Token s)]
            [tokenReference (snd_Token s)] [snd_Recipient s] createdAt deadline)
  | TypePayroll =>
      let! p := deref (fin_Payroll f) in
      let source := SourceToken p in
      let view amount deadline :=
        MkView kind (tokenReference source) amount [tok_ChainID source] [tokenReference source]
          (rcp_Address <$> pay_Recipients p) createdAt deadline in
      if SameTokenExecutable p then Ok (view (payrollMaximumEmployerExposure (pay_Total p)) deadline)
      else if CrossTokenExecutable p then
        let! c := deref (pay_CrossToken p) in
        Ok (view (ct_GrossInput c) (if Before (ct_Deadline c) deadline then ct_Deadline c else deadline))
      else Ok (view (pay_Total p) deadline)
  | TypeSwap =>
      let! s := deref (fin_Swap f) in
      Ok (MkView kind (tokenReference (swp_InputToken s)) (swp_InputAmount s)
            [tok_ChainID (swp_InputToken s); tok_ChainID (swp_OutputToken s)]
            [tokenReference (swp_InputToken s); tokenReference (swp_OutputToken s)] [] createdAt deadline)
  | TypeBridge =>
      let! b := deref (fin_Bridge f) in
      Ok (MkView kind (tokenReference (brg_SourceToken b)) (brg_SourceAmount b)
            [brg_SourceChainID b; brg_DestinationChainID b] [tokenReference (brg_SourceToken b)]
            [brg_DestinationAddress b] createdAt deadline)
  | TypeANSRegistration =>
      let! a := deref (fin_ANS f) in
      Ok (MkView kind (tokenReference (ans_CostToken a)) (ans_Cost a) [tok_ChainID (ans_CostToken a)]
            [tokenReference (ans_CostToken a)] [ans_Controller a] createdAt deadline)
  | TypeOther raw => Err (errorf1 "unsupported intent type %q" raw)
  end.

Definition newIntentView (i : Intent) : result intentView :=
  let p := int_params i in
  let deadline := con_Deadline (prm_Constraints p) in
  let effective := if Before deadline (Intents.prm_ExpiresAt p) then deadline else Intents.prm_ExpiresAt p in
  let! v := view_of (prm_Type p) (cloneFinancial (prm_Financial p)) (Intents.prm_CreatedAt p) effective in
  Ok (MkView (viw_kind v) (viw_spendToken v) (viw_spendAmount v) (uniqueSorted (viw_chains v))
        (uniqueTokens (viw_tokens v)) (uniqueSorted (viw_recipients v)) (viw_createdAt v)
        (viw_effectiveDeadline v)).

Definition evaluateSpendingLimit (b : SpendingLimitRule) (view : intentView) : result (bool * Reason) :=
  if negb (containsIntentType (spl_IntentTypes b) (viw_kind view)) then Ok (false, ReasonNone)
  else if TokenReference_key (spl_Token b) != TokenReference_key (viw_spendToken view)
  then Ok (true, ReasonTokenNotAllowed)
  else match SetString10 (amt_BaseUnits (spl_Maximum b)) with
       | None => Err (errorf "invalid spending limit base units")
       | Some maximum =>
           match SetString10 (amt_BaseUnits (viw_spendAmount view)) with
           | None => Err (errorf "invalid intent amount base units")
           | Some amount => Ok (maximum <? amount, ReasonSpendingLimitExceeded)
           end
       end.

Definition evaluateExpiration (b : ExpirationRule) (view : intentView) (at_ : Time) : bool :=
  let lifetime := Sub (viw_effectiveDeadline view) (viw_createdAt view) in
  let remaining := Sub (viw_effectiveDeadline view) at_ in
  ((0 <? exp_MaxLifetimeSeconds b) && (duration_of_seconds (exp_MaxLifetimeSeconds b) <? lifetime))
  || ((0 <? exp_MinimumRemainingSeconds b) && (remaining <? duration_of_seconds (exp_MinimumRemainingSeconds b))).

(** Whether the rule is violated, and why. *)
Definition evaluateRule (r : Rule) (view : intentView) (at_ : Time) : result (bool * Reason) :=
  match Rule_Type r with
  | RuleTypeOperationAllowlist =>
      let! b := deref (rul_OperationAllowlist r) in
      Ok (negb (containsIntentType b (viw_kind view)), ReasonOperationNotAllowed)
  | RuleTypeSpendingLimit => let! b := deref (rul_SpendingLimit r) in evaluateSpendingLimit b view
  | RuleTypeChainAllowlist =>
      let! b := deref (rul_ChainAllowlist r) in
      Ok (negb (allStringsAllowed (viw_chains view) b), ReasonChainNotAllowed)
  | RuleTypeTokenAllowlist =>
      let! b := deref (rul_TokenAllowlist r) in
      Ok (negb (allTokensAllowed (viw_tokens view) b), ReasonTokenNotAllowed)
  | RuleTypeRecipient =>
      let! b := deref (rul_Recipient r) in
      Ok (negb (allStringsAllowed (viw_recipients view) b), ReasonRecipientNotAllowed)
  | RuleTypeExpiration =>
      let! b := deref (rul_Expiration r) in
      if evaluateExpiration b view at_ then Ok (true, ReasonExpirationConstraintViolated)
      else Ok (false, ReasonNone)
  | RuleTypeNone => Err (errorf "unsupported policy rule type")
  end.

Definition add_finding (r : Result) (rule : Rule) (reason : Reason) : Result :=
  MkResult (res_PolicyID r) (res_PolicyVersion r) (res_IntentID r) (res_IntentVersion r) (res_IntentDigest r)
    (res_Stage r) (combineDecision (res_Decision r) (rul_OnViolation rule)) (res_EvaluatedAt r)
    (res_Findings r ++ [MkFinding (rul_RuleID rule) (Rule_Type rule) (rul_OnViolation rule) reason]).

Definition apply_rule (view : intentView) (at_ : Time) (r : Result) (rule : Rule) : result Result :=
  let! out := map_err invalidPolicy (evaluateRule rule view at_) in
  let '(violated, reason) := out in
  if violated then Ok (add_finding r rule reason) else Ok r.

Definition context_matches (i : Intent) (identity : Identity) (b : Binding) : bool :=
  let owner := prm_Ownership (int_params i) in
  (idn_userID identity == own_UserID owner) && (idn_provider identity == own_IdentityProvider owner)
  && (bnd_bindingID b == own_WalletBindingID owner) && (bnd_version b == own_WalletBindingVersion owner)
  && (bnd_provider b == EffectiveWalletProvider owner)
  && (bnd_providerUserReference b == own_ProviderUserReference owner)
  && (bnd_walletID b == own_WalletID owner) && (bnd_address b == own_WalletAddress owner)
  && (bnd_chainID b == own_ChainID owner) && (bnd_network b == own_Network owner).

Definition scope_applies (scope : Scope) (i : Intent) : bool :=
  let owner := prm_Ownership (int_params i) in
  (scp_UserID scope == own_UserID owner)
  && ((scp_WalletBindingID scope == "") || (scp_WalletBindingID scope == own_WalletBindingID owner))
  && Scope_includes scope (prm_Type (int_params i)).

(** The guards that must hold before a decision is made (lines 31-64). *)
Definition evaluation_guards (policy : Policy) (i : Intent) (identity : IdentityContext) (b : Binding)
    (at_ : Time) (stage : EvaluationStage) : result unit :=
  do! Policy_Validate policy;
  do! Intent_Validate i;
  do! fail_if (IsZero at_) (invalidPolicy (errorf "evaluation time is required"));
  let expectedStatus :=
    if stage == EvaluationStageBeforeApproval then StatusCreated else StatusApproved in
  do! fail_if (int_status i != expectedStatus)
        (if stage == EvaluationStageBeforeExecution
         then New CodeApprovalRequired "Approved intent is required for policy evaluation." false true false
         else invalidPolicy (errorf "created intent is required for pre-approval policy evaluation"));
  do! fail_if (negb (Before at_ (Intents.prm_ExpiresAt (int_params i)))
               || negb (Before at_ (con_Deadline (prm_Constraints (int_params i)))))
        (New CodeIntentExpired "Intent has expired." false true true);
  let resolved := ic_identity identity in
  do! Identity_EnsureAuthorizable resolved;
  do! Binding_EnsureAuthorizable b (idn_userID resolved);
  fail_if (negb (context_matches i resolved b))
    (New CodeWalletMismatch "Identity and wallet context do not match the approved intent." false true true).

Definition evaluate (policy : Policy) (i : Intent) (identity : IdentityContext) (b : Binding)
    (at_ : Time) (stage : EvaluationStage) : result Result :=
  do! evaluation_guards policy i identity b at_ stage;
  let at_ := UTC at_ in
  let base := MkResult (pol_policyID policy) (pol_version policy) (prm_IntentID (int_params i))
    (Intents.prm_Version (int_params i)) (int_digest i) stage DecisionAllow at_ [] in
  if pol_status policy == Policies.StatusDisabled then Ok (lifecycleDecision base ReasonPolicyDisabled)
  else if (pol_status policy == Policies.StatusExpired) || negb (Before at_ (pol_expiresAt policy))
  then Ok (lifecycleDecision base ReasonPolicyExpired)
  else if pol_status policy != Policies.StatusActive then Ok (lifecycleDecision base ReasonPolicyDraft)
  else if Before at_ (pol_validFrom policy) then Ok (lifecycleDecision base ReasonPolicyNotEffective)
  else if con_PolicyReference (prm_Constraints (int_params i)) != Policy_Reference policy
  then Ok (denyDecision base ReasonPolicyReferenceMismatch)
  else if negb (scope_applies (normalizeScope (pol_scope policy)) i)
  then Ok (denyDecision base ReasonScopeMismatch)
  else
    let! view := map_err invalidPolicy (newIntentView i) in
    fold_result (apply_rule view at_) base (cloneRules (pol_rules policy)).

Definition Evaluate policy i identity b at_ := evaluate policy i identity b at_ EvaluationStageBeforeExecution.
Definition EvaluateForApproval policy i identity b at_ :=
  evaluate policy i identity b at_ EvaluationStageBeforeApproval.
End evaluator.
