(* ===== verification/PolicySafety.v ===== *)
(** What policies guarantee: rules mean what they say although the code
    searches sorted slices and counts nanoseconds, the decision is the worst
    violation, ALLOW is sound, the order in which rules are written is
    irrelevant, and the exposure of a payroll covers its fees. *)
From S2P Require Import Prelude GoStrings GoTime Sha256 AppErrors Contracts IntentTypes Amounts IntentParams Intents.
From S2P Require Import IntentSafety Wallet Auth Policies Evaluator.
Open Scope Z_scope.
Open Scope go_scope.

Lemma search_sorted_strings (l : list string) x : search_contains (fun s => s) (sort_strings l) x = true <-> x ∈ l.
Proof.
  unfold sort_strings. rewrite search_contains_spec by apply sort_by_sorted.
  rewrite list_fmap_id. by rewrite sort_by_perm.
Qed.

Lemma search_sorted_by {A} (key : A -> string) l x :
  search_contains key (sort_by key l) x = true <-> x ∈ key <$> l.
Proof. rewrite search_contains_spec by apply sort_by_sorted. by rewrite sort_by_perm. Qed.

Lemma Type_string_inj t u : Type_Valid t = true -> Type_Valid u = true -> Type_string t = Type_string u -> t = u.
Proof. destruct t, u; done. Qed.


(** Below the validated bound, the conversion to [time.Duration] is exact. *)
Lemma duration_exact s : 0 <= s <= maxDurationSeconds -> duration_of_seconds s = s * Second.
Proof.
  change maxDurationSeconds with 9223372036. unfold duration_of_seconds, Second. intros Hs.
  rewrite (i64_small s) by lia. apply i64_small. lia.
Qed.

(** Saturation of [Sub] never changes a comparison with such a duration. *)
Lemma Sub_exceeds t u s : 0 <= s <= maxDurationSeconds -> s * Second < Sub t u <-> s * Second < t - u.
Proof.
  change maxDurationSeconds with 9223372036. unfold Sub, Second, max_duration, min_duration. lia.
Qed.
Lemma Sub_below t u s : 0 <= s <= maxDurationSeconds -> Sub t u < s * Second <-> t - u < s * Second.
Proof.
  change maxDurationSeconds with 9223372036. unfold Sub, Second, max_duration, min_duration. lia.
Qed.

Section policy_safety.
Context `{EthCommon} `{UnicodeTables}.

(** * What a rule says *)
Definition rule_satisfied (r : Rule) (view : intentView) (at_ : Time) : Prop :=
  match Rule_Type r with
  | RuleTypeSpendingLimit => forall b, rul_SpendingLimit r = Some b ->
      Type_string (viw_kind view) ∈ Type_string <$> spl_IntentTypes b ->
      TokenReference_key (viw_spendToken view) = TokenReference_key (spl_Token b) /\
      exists maximum amount,
        SetString10 (amt_BaseUnits (spl_Maximum b)) = Some maximum /\
        SetString10 (amt_BaseUnits (viw_spendAmount view)) = Some amount /\ amount <= maximum
  | RuleTypeOperationAllowlist => forall l, rul_OperationAllowlist r = Some l ->
      Type_string (viw_kind view) ∈ Type_string <$> l
  | RuleTypeChainAllowlist => forall l, rul_ChainAllowlist r = Some l ->
      forall c, c ∈ viw_chains view -> c ∈ l
  | RuleTypeTokenAllowlist => forall l, rul_TokenAllowlist r = Some l ->
      forall t, t ∈ viw_tokens view -> TokenReference_key t ∈ TokenReference_key <$> l
  | RuleTypeRecipient => forall l, rul_Recipient r = Some l ->
      forall a, a ∈ viw_recipients view -> a ∈ l
  | RuleTypeExpiration => forall b, rul_Expiration r = Some b ->
      (0 < exp_MaxLifetimeSeconds b ->
       viw_effectiveDeadline view - viw_createdAt view <= exp_MaxLifetimeSeconds b * Second) /\
      (0 < exp_MinimumRemainingSeconds b ->
       exp_MinimumRemainingSeconds b * Second <= viw_effectiveDeadline view - at_)
  | RuleTypeNone => False
  end.

Lemma normalizeRule_type r : Rule_Type (normalizeRule r) = Rule_Type r.
Proof. destruct r as [? ? [] [] [] [] [] []]; reflexivity. Qed.

Lemma allStringsAllowed_spec values allowed :
  allStringsAllowed values (sort_strings allowed) = true <-> forall x, x ∈ values -> x ∈ allowed.
Proof.
  unfold allStringsAllowed. rewrite forallb_forall. setoid_rewrite search_sorted_strings.
  by setoid_rewrite <- list_elem_of_In.
Qed.

Lemma allTokensAllowed_spec values allowed :
  allTokensAllowed values (sort_tokens allowed) = true <->
  forall t, t ∈ values -> TokenReference_key t ∈ TokenReference_key <$> allowed.
Proof.
  unfold allTokensAllowed, sort_tokens. rewrite forallb_forall. setoid_rewrite search_sorted_by.
  by setoid_rewrite <- list_elem_of_In.
Qed.

Lemma containsIntentType_spec l t :
  containsIntentType (sort_types l) t = true <-> Type_string t ∈ Type_string <$> l.
Proof. apply search_sorted_by. Qed.

Lemma evaluateExpiration_spec b view at_ :
  exp_MaxLifetimeSeconds b <= maxDurationSeconds -> exp_MinimumRemainingSeconds b <= maxDurationSeconds ->
  evaluateExpiration b view at_ = false <->
  (0 < exp_MaxLifetimeSeconds b ->
   viw_effectiveDeadline view - viw_createdAt view <= exp_MaxLifetimeSeconds b * Second) /\
  (0 < exp_MinimumRemainingSeconds b ->
   exp_MinimumRemainingSeconds b * Second <= viw_effectiveDeadline view - at_).
Proof.
  intros H1 H2. unfold evaluateExpiration. rewrite orb_false_iff, !andb_false_iff, !Z.ltb_ge.
  set (deadline := viw_effectiveDeadline view). set (created := viw_createdAt view).
  assert (exp_MaxLifetimeSeconds b <= 0 \/ duration_of_seconds (exp_MaxLifetimeSeconds b) < Sub deadline created
          <-> exp_MaxLifetimeSeconds b <= 0 \/ exp_MaxLifetimeSeconds b * Second < deadline - created) as E1.
  { destruct (Z_le_gt_dec (exp_MaxLifetimeSeconds b) 0); [tauto|].
    rewrite duration_exact, Sub_exceeds by lia. tauto. }
  assert (exp_MinimumRemainingSeconds b <= 0 \/ Sub deadline at_ < duration_of_seconds (exp_MinimumRemainingSeconds b)
          <-> exp_MinimumRemainingSeconds b <= 0 \/ deadline - at_ < exp_MinimumRemainingSeconds b * Second) as E2.
  { destruct (Z_le_gt_dec (exp_MinimumRemainingSeconds b) 0); [tauto|].
    rewrite duration_exact, Sub_below by lia. tauto. }
  lia.
Qed.

(** Evaluating a validated rule decides what the rule says. *)
Lemma evaluateRule_exact r view at_ violated reason :
  Rule_validate r = Ok tt -> evaluateRule (normalizeRule r) view at_ = Ok (violated, reason) ->
  violated = false <-> rule_satisfied r view at_.
Proof.
  intros Hv Hok. unfold evaluateRule in Hok. rewrite normalizeRule_type in Hok.
  unfold Rule_validate in Hv. do 3 (apply rbind_ok in Hv as ([] & _ & Hv)).
  unfold rule_satisfied. destruct (Rule_Type r).
  - destruct (rul_SpendingLimit r) as [b|] eqn:E; [|done]. cbn [normalizeRule rul_SpendingLimit] in Hok.
    rewrite E in Hok. cbn [fmap option_fmap option_map deref rbind] in Hok.
    unfold evaluateSpendingLimit in Hok. cbn [spl_IntentTypes spl_Token spl_Maximum] in Hok.
    destruct (containsIntentType _ _) eqn:Ec; cbn [negb] in Hok.
    + apply containsIntentType_spec in Ec. destruct (_ != _) eqn:Ek; [|].
      * injection Hok as <- <-. reflect_all. split; [done|]. intros Hs. destruct (Hs b eq_refl Ec). congruence.
      * reflect_all. destruct (SetString10 (amt_BaseUnits (spl_Maximum b))) as [m|] eqn:Em; [|done].
        destruct (SetString10 (amt_BaseUnits (viw_spendAmount view))) as [a|] eqn:Ea; [|done]. injection Hok as <- <-. rewrite Z.ltb_ge. split.
        -- intros Hle b' [= <-] _. eauto 10.
        -- intros Hs. destruct (Hs b eq_refl Ec) as (_ & m' & a' & ? & ? & ?). simplify_eq. lia.
    + injection Hok as <- <-. split; [|done]. intros _ b' [= <-] Hin.
      apply containsIntentType_spec in Hin. congruence.
  - destruct (rul_OperationAllowlist r) as [l|] eqn:E; [|done]. cbn [normalizeRule rul_OperationAllowlist] in Hok.
    rewrite E in Hok. injection Hok as <- <-. rewrite negb_false_iff, containsIntentType_spec. naive_solver.
  - destruct (rul_ChainAllowlist r) as [l|] eqn:E; [|done]. cbn [normalizeRule rul_ChainAllowlist] in Hok.
    rewrite E in Hok. injection Hok as <- <-. rewrite negb_false_iff, allStringsAllowed_spec. naive_solver.
  - destruct (rul_TokenAllowlist r) as [l|] eqn:E; [|done]. cbn [normalizeRule rul_TokenAllowlist] in Hok.
    rewrite E in Hok. injection Hok as <- <-. rewrite negb_false_iff, allTokensAllowed_spec. naive_solver.
  - destruct (rul_Recipient r) as [l|] eqn:E; [|done]. cbn [normalizeRule rul_Recipient] in Hok.
    rewrite E in Hok. injection Hok as <- <-. rewrite negb_false_iff, allStringsAllowed_spec. naive_solver.
  - destruct (rul_Expiration r) as [b|] eqn:E; [|done]. cbn [normalizeRule rul_Expiration] in Hok.
    rewrite E in Hok. cbn [deref rbind] in Hok, Hv. unfold Expiration_validate in Hv. ok_reflect.
    pose proof (evaluateExpiration_spec b view at_ ltac:(done) ltac:(done)) as Hspec.
    destruct (evaluateExpiration b view at_); injection Hok as <- <-; naive_solver.
  - done.
Qed.

Lemma Policy_Validate_rules p :
  Policy_Validate p = Ok tt -> Forall (fun r => Rule_validate r = Ok tt) (pol_rules p).
Proof.
  unfold Policy_Validate. intros Hok. do 6 (apply rbind_ok in Hok as ([] & _ & Hok)).
  apply rbind_ok in Hok as (st & Hf & _). revert Hf.
  apply (fold_result_inv (fun done _ => Forall (fun r => Rule_validate r = Ok tt) done)); [constructor|].
  intros done_ r [seen prev] st' Hd Hstep. unfold policy_rule in Hstep.
  apply rbind_ok in Hstep as ([] & Hv%map_err_ok & _). rewrite Forall_app, Forall_singleton. auto.
Qed.

Lemma combine_deny d1 d2 : combineDecision d1 d2 = DecisionDeny <-> d1 = DecisionDeny \/ d2 = DecisionDeny.
Proof. destruct d1, d2; cbv; split; intros; intuition congruence. Qed.

Lemma combine_allow d1 d2 : violationDecision d2 = true -> combineDecision d1 d2 <> DecisionAllow.
Proof. destruct d1, d2; by cbv. Qed.

(** The loop over the rules: what it has decided after [done]. *)
Definition decided (view : intentView) (at_ : Time) (done : list Rule) (r : Result) : Prop :=
  (res_Decision r = DecisionDeny <->
   exists rule, rule ∈ done /\ ~ rule_satisfied rule view at_ /\ rul_OnViolation rule = DecisionDeny) /\
  (res_Decision r = DecisionAllow <-> Forall (fun rule => rule_satisfied rule view at_) done) /\
  (forall f, f ∈ res_Findings r -> exists rule, rule ∈ done /\ ~ rule_satisfied rule view at_ /\
     fnd_Decision f = rul_OnViolation rule).

Lemma rules_decided view at_ base rules r :
  res_Decision base = DecisionAllow -> res_Findings base = [] ->
  Forall (fun rule => Rule_validate rule = Ok tt) rules ->
  fold_result (apply_rule view at_) base (cloneRules rules) = Ok r -> decided view at_ rules r.
Proof.
  intros Hb Hf Hall. unfold cloneRules. revert r. induction rules as [|x rules IH] using rev_ind; intros r Hok.
  { cbn in Hok. injection Hok as <-. unfold decided. rewrite Hb, Hf.
    split_and!; [|naive_solver|intros f Hin; by apply not_elem_of_nil in Hin].
    split; [done|]. intros (rule & Hin & _). by apply not_elem_of_nil in Hin. }
  rewrite Forall_app, Forall_singleton in Hall. destruct Hall as [Hall Hx].
  rewrite fmap_app, fold_result_app in Hok. apply rbind_ok in Hok as (r0 & H0' & Hok).
  destruct (IH Hall r0 H0') as (Hdeny & Hallow & Hfind). cbn [fmap list_fmap fold_result] in Hok.
  apply rbind_ok in Hok as (r1 & Hstep & [= <-]). unfold apply_rule in Hstep.
  apply rbind_ok in Hstep as ([violated reason] & He%map_err_ok & Hstep).
  pose proof (evaluateRule_exact _ _ _ _ _ Hx He) as Hexact.
  assert (violationDecision (rul_OnViolation x) = true) as Hvd.
  { unfold Rule_validate in Hx. apply rbind_ok in Hx as ([] & _ & Hx).
    apply rbind_ok in Hx as ([] & Hd & _). apply fail_if_ok in Hd. by reflect_all. }
  unfold decided. setoid_rewrite elem_of_app. setoid_rewrite list_elem_of_singleton. rewrite Forall_app, Forall_singleton.
  destruct violated; injection Hstep as <-; cbn [add_finding res_Decision res_Findings].
  - assert (~ rule_satisfied x view at_) as Hns by (rewrite <- Hexact; done).
    split_and!.
    + rewrite combine_deny, Hdeny. cbn [normalizeRule rul_OnViolation]. naive_solver.
    + split; [|naive_solver]. intros Ha. exfalso. revert Ha. by apply combine_allow.
    + intros f [Hin|Hin]%elem_of_app.
      * destruct (Hfind f Hin) as (rule & ? & ? & ?). exists rule. split_and!; auto.
      * apply list_elem_of_singleton in Hin as ->. exists x. split_and!; auto.
  - assert (rule_satisfied x view at_) as Hs by by apply Hexact.
    split_and!; [naive_solver|naive_solver|].
    intros f Hin. destruct (Hfind f Hin) as (rule & ? & ? & ?). exists rule. split_and!; auto.
Qed.

(** The policy governs this intent at this time. *)
Definition policy_effective (policy : Policy) (i : Intent) (at_ : Time) : Prop :=
  pol_status policy = Policies.StatusActive /\ pol_validFrom policy <= at_ < pol_expiresAt policy /\
  con_PolicyReference (prm_Constraints (int_params i)) = Policy_Reference policy /\
  scope_applies (normalizeScope (pol_scope policy)) i = true.

Lemma evaluate_cases policy i identity b at_ stage r :
  evaluate policy i identity b at_ stage = Ok r ->
  evaluation_guards policy i identity b at_ stage = Ok tt /\
  (res_Decision r = DecisionDeny /\ ~ policy_effective policy i at_ \/
   policy_effective policy i at_ /\
   exists view, newIntentView i = Ok view /\ decided view at_ (pol_rules policy) r).
Proof.
  unfold evaluate. intros Hok. apply rbind_ok in Hok as ([] & Hg & Hok). split; [done|].
  assert (Policy_Validate policy = Ok tt) as Hv.
  { unfold evaluation_guards in Hg. by apply rbind_ok in Hg as ([] & ? & _). }
  unfold policy_effective, UTC, Before in *.
  destruct (pol_status policy == Policies.StatusDisabled) eqn:E1.
  { injection Hok as <-. left. reflect_all. split; [done|]. intros (? & _). congruence. }
  destruct (_ || _) eqn:E2 in Hok.
  { injection Hok as <-. left. split; [done|]. intros (? & ? & _).
    apply orb_true_iff in E2 as [E2|E2]; reflect_all; [congruence|lia]. }
  destruct (_ != _) eqn:E3 in Hok.
  { injection Hok as <-. left. reflect_all. split; [done|]. tauto. }
  destruct (at_ <? pol_validFrom policy) eqn:E4.
  { injection Hok as <-. left. reflect_all. split; [done|]. lia. }
  destruct (_ != _) eqn:E5 in Hok.
  { injection Hok as <-. left. reflect_all. split; [done|]. tauto. }
  destruct (scope_applies _ _) eqn:E6; cbn [negb] in Hok; [|by injection Hok as <-; left; naive_solver].
  right. reflect_all. apply rbind_ok in Hok as (view & Hview%map_err_ok & Hok). split_and!; try done.
  exists view. split; [done|]. eapply rules_decided; eauto using Policy_Validate_rules; done.
Qed.

(** [C16] ALLOW is sound: when a policy evaluation before execution answers
    ALLOW, the intent is valid, APPROVED and unexpired, the identity is active,
    the wallet binding is active and is exactly the one the intent froze, the
    policy is ACTIVE and inside its validity window, is the one the intent
    names and covers it, and every rule of the policy is satisfied as
    written: membership in its lists, amount at most the limit in the same
    token, exact lifetimes in seconds. *)
Theorem Evaluate_allow_sound (policy : Policy) (i : Intent) (identity : IdentityContext) (b : Binding)
    (at_ : Time) (r : Result)
    (Hok : Evaluate policy i identity b at_ = Ok r) (Hallow : res_Decision r = DecisionAllow) :
  Intent_Validate i = Ok tt /\ int_status i = StatusApproved /\
  at_ < Intents.prm_ExpiresAt (int_params i) /\ at_ < con_Deadline (prm_Constraints (int_params i)) /\
  idn_status (ic_identity identity) = IdentityStatusActive /\
  bnd_status b = BindingStatusActive /\ context_matches i (ic_identity identity) b = true /\
  policy_effective policy i at_ /\
  exists view, newIntentView i = Ok view /\
    Forall (fun rule => rule_satisfied rule view at_) (pol_rules policy).
Proof.
  destruct (evaluate_cases _ _ _ _ _ _ _ Hok) as [Hg [[Hd _]|(Heff & view & Hview & _ & Hiff & _)]];
    [congruence|].
  unfold evaluation_guards in Hg. cbn [bool_decide] in Hg.
  apply rbind_ok in Hg as ([] & _ & Hg). apply rbind_ok in Hg as ([] & Hi & Hg).
  apply rbind_ok in Hg as ([] & _ & Hg). apply rbind_ok in Hg as ([] & Hs & Hg).
  apply rbind_ok in Hg as ([] & Ht & Hg). apply rbind_ok in Hg as ([] & Hid & Hg).
  apply rbind_ok in Hg as ([] & Hb & Hm). apply fail_if_ok in Hs, Ht, Hm. unfold Before in Ht.
  reflect_all. split_and!; try done.
  - unfold Identity_EnsureAuthorizable in Hid. apply rbind_ok in Hid as ([] & _ & Hid).
    by destruct (idn_status (ic_identity identity)).
  - unfold Binding_EnsureAuthorizable in Hb. apply rbind_ok in Hb as ([] & _ & Hb).
    apply rbind_ok in Hb as ([] & _ & Hb). by destruct (bnd_status b).
  - exists view. split; [done|]. by apply Hiff.
Qed.

(** The decision is the worst violation: under an effective policy the
    answer is DENY exactly when some violated rule says DENY, ALLOW exactly when
    no rule is violated, and REQUIRE_REVIEW otherwise; under any other policy the
    answer is DENY. *)
Theorem evaluate_worst_violation (policy : Policy) (i : Intent) (identity : IdentityContext) (b : Binding)
    (at_ : Time) (stage : EvaluationStage) (r : Result)
    (Hok : evaluate policy i identity b at_ stage = Ok r) :
  (~ policy_effective policy i at_ -> res_Decision r = DecisionDeny) /\
  (policy_effective policy i at_ -> exists view, newIntentView i = Ok view /\
    (res_Decision r = DecisionDeny <-> exists rule, rule ∈ pol_rules policy /\
       ~ rule_satisfied rule view at_ /\ rul_OnViolation rule = DecisionDeny) /\
    (res_Decision r = DecisionAllow <-> Forall (fun rule => rule_satisfied rule view at_) (pol_rules policy))).
Proof.
  destruct (evaluate_cases _ _ _ _ _ _ _ Hok) as [Hg [[Hd Hne]|(Heff & view & Hview & Hdeny & Hallow & _)]].
  - split; [done|]. intros; contradiction.
  - split; [intros; contradiction|]. intros _. exists view. by split_and!.
Qed.

(** * Canonical order *)
Definition with_rules (p : Policies.Params) (rules : list Rule) : Policies.Params :=
  Policies.MkParams (prm_PolicyID p) (Policies.prm_Version p) (prm_Name p) (prm_Scope p) rules
    (Policies.prm_CreatedAt p) (prm_ValidFrom p) (Policies.prm_ExpiresAt p).

Lemma policy_rules_nodup p : Policy_Validate p = Ok tt -> NoDup (rul_RuleID <$> pol_rules p).
Proof.
  unfold Policy_Validate. intros Hok. do 6 (apply rbind_ok in Hok as ([] & _ & Hok)).
  apply rbind_ok in Hok as (st & Hf & _).
  assert (let '(seen, _) := st in NoDup (rul_RuleID <$> pol_rules p) /\
          forall a, a ∈ seen <-> a ∈ rul_RuleID <$> pol_rules p) as Hinv.
  { revert Hf. apply (fold_result_inv (fun done st => let '(seen, _) := st in
      NoDup (rul_RuleID <$> done) /\ forall a, a ∈ seen <-> a ∈ rul_RuleID <$> done)).
    - split; [constructor|]. set_solver.
    - intros done_ r [seen prev] [seen' prev'] [Hd Hs] Hstep. unfold policy_rule in Hstep.
      apply rbind_ok in Hstep as ([] & _ & Hstep). apply rbind_ok in Hstep as ([] & Hnew & Hstep).
      apply rbind_ok in Hstep as ([] & _ & [= <- <-]). apply fail_if_ok in Hnew. reflect_all.
      rewrite fmap_app. cbn [fmap list_fmap]. rewrite NoDup_app. split.
      + split_and!; [done| |apply NoDup_singleton].
        intros a Ha ->%list_elem_of_singleton. by apply Hs in Ha.
      + intros a. rewrite elem_of_union, elem_of_app, elem_of_singleton, list_elem_of_singleton, Hs. tauto. }
  by destruct st, Hinv.
Qed.

(** Rules are a set: writing the rules of a policy in another order
    gives the very same policy, hence the same reference and decisions. *)
Theorem policy_order_irrelevant (params : Policies.Params) (rules : list Rule) (policy : Policy)
    (Hperm : rules ≡ₚ prm_Rules params) (Hok : Policies.NewDraft params = Ok policy) :
  Policies.NewDraft (with_rules params rules) = Ok policy.
Proof.
  unfold Policies.NewDraft in *. apply rbind_ok in Hok as ([] & Hv & [= <-]).
  pose proof (policy_rules_nodup _ Hv) as Hnd. cbn [pol_rules] in Hnd.
  cbn [with_rules prm_PolicyID Policies.prm_Version prm_Name prm_Scope prm_Rules Policies.prm_CreatedAt
    prm_ValidFrom Policies.prm_ExpiresAt] in *.
  assert (sort_by rul_RuleID (cloneRules rules) = sort_by rul_RuleID (cloneRules (prm_Rules params))) as ->.
  { apply sort_by_unique; [|unfold cloneRules; by rewrite Hperm].
    rewrite sort_by_perm in Hnd. unfold cloneRules in *. by rewrite Hperm. }
  by rewrite Hv.
Qed.

(** * Policy lifecycle *)
Definition policy_step (p p' : Policy) : Prop := exists next at_, Policy_Transition p next at_ = Ok p'.

Lemma Transition_cases p next at_ p' :
  Policy_Transition p next at_ = Ok p' ->
  p' = p \/
  Policies.Status_Terminal (pol_status p) = false /\ pol_status p' = next /\ next <> Policies.StatusDraft /\
  p' = set_status p next (u64 (pol_lifecycleRevision p + 1)) /\ Policy_Validate p' = Ok tt /\
  (next = Policies.StatusActive -> pol_status p = Policies.StatusDraft /\
     pol_validFrom p <= at_ < pol_expiresAt p).
Proof.
  unfold Policy_Transition. intros Hok. apply rbind_ok in Hok as ([] & _ & Hok).
  destruct (next == pol_status p) eqn:E; [left; by injection Hok|right].
  apply rbind_ok in Hok as ([] & _ & Hok). apply rbind_ok in Hok as ([] & _ & Hok).
  apply rbind_ok in Hok as ([] & Ha & Hok). apply rbind_ok in Hok as ([] & Hx & Hok).
  apply rbind_ok in Hok as ([] & Hf & Hok). apply rbind_ok in Hok as ([] & Hv & [= <-]).
  apply fail_if_ok in Ha, Hf. split_and!; try done.
  - by destruct (pol_status p).
  - intros ->. by destruct (pol_status p).
  - intros ->. rewrite eqb_refl in Hf. unfold Before in *.
    assert ((Policies.StatusActive == Policies.StatusExpired) = false) as Ene by reflexivity.
    rewrite Ene in Hx. apply fail_if_ok in Hx. reflect_all. cbn [andb] in Hf. reflect_all.
    split; [by destruct (pol_status p)|lia].
Qed.

(** An active policy's rules cannot be replaced in place: along any
    sequence of transitions the identifier, version, scope, rules and window of
    the policy stay the same, a disabled or expired policy never changes again,
    and a policy becomes active only from DRAFT. *)
Theorem policy_lifecycle (n : nat) (p p' : Policy) (Hsteps : nsteps policy_step n p p') :
  (Policy_Reference p', pol_scope p', pol_rules p', pol_createdAt p', pol_validFrom p', pol_expiresAt p')
  = (Policy_Reference p, pol_scope p, pol_rules p, pol_createdAt p, pol_validFrom p, pol_expiresAt p) /\
  (Policies.Status_Terminal (pol_status p) = true -> p' = p) /\
  (pol_status p' = Policies.StatusActive ->
   pol_status p = Policies.StatusActive \/ pol_status p = Policies.StatusDraft) /\
  (Policy_Validate p = Ok tt -> Policy_Validate p' = Ok tt).
Proof.
  induction Hsteps as [p|n p k p' (next & t & Hok) _ (Hsame & Hterm & Hact & Hval)]; [by split_and!; auto|].
  destruct (Transition_cases _ _ _ _ Hok) as [->|(Hnt & Es & Hnd & -> & Hv & Hstart)]; [done|].
  cbn [pol_status set_status] in *.
  split_and!; [exact Hsame|intros Ht; congruence| |auto].
  intros Ha. destruct (Hact Ha) as [E|E]; [|done]. right. by apply Hstart.
Qed.

(** * Exposure *)
(** The amount a same-token payroll is checked with is an exact canonical
    amount that covers every fee the contract may charge: the obligations plus
    the fee at any rate up to the contract's maximum, rounded down. *)
Theorem payroll_exposure_covers_fees (p : PayrollParameters) (Hd : 0 <= amt_Decimals (pay_Total p))
    (Hsame : SameTokenExecutable p = true) :
  let total := sum_list_Z ((fun r => base_units (rcp_AmountIn r)) <$> pay_Recipients p) in
  exists exposure,
    BaseInt (payrollMaximumEmployerExposure (pay_Total p)) = Ok exposure /\
    amt_Decimals (payrollMaximumEmployerExposure (pay_Total p)) = amt_Decimals (pay_Total p) /\
    forall bps, 0 <= bps <= ContractMaxFeeBPS -> total + total * bps / 10000 <= exposure.
Proof.
  intros total. unfold SameTokenExecutable, ValidateSameToken in Hsame.
  apply is_ok_true in Hsame as [u Hok]. apply rbind_ok in Hok as ([] & _ & Hok).
  apply rbind_ok in Hok as ([] & Hp12 & _).
  apply phase12_facts in Hp12 as (_ & Hall & _ & Htotal). fold total in Htotal.
  assert (0 <= total) as Hpos.
  { unfold total. clear - Hall. induction Hall as [|r rs (_ & _ & Hp & _) _ IH]; [done|].
    apply positive_base in Hp. cbn. unfold sum_list_Z in IH. lia. }
  unfold payrollMaximumEmployerExposure. rewrite Htotal. set (exposure := total + _).
  assert (ContractMaxFeeBPS_amount total = total * 100 / 10000) as Efee
    by (unfold ContractMaxFeeBPS_amount; apply Z.quot_div_nonneg; lia).
  assert (0 <= exposure) as He by (unfold exposure; rewrite Efee; pose proof (Z.div_pos (total * 100) 10000); lia).
  exists exposure. cbn [amt_Decimals]. split_and!; [|done|].
  - apply BaseInt_ok. cbn [amt_BaseUnits]. split; [|by apply FormatInt_parse].
    apply BaseInt_ok in Htotal as [Hv _]. apply Amount_Validate_spec in Hv as (H36 & _); [|done].
    apply Amount_Validate_spec; [done|]. cbn [amt_Decimals amt_BaseUnits amt_Decimal].
    assert (FormatInt exposure = FormatUint exposure) as Ef.
    { unfold FormatInt. destruct (exposure <? 0) eqn:E; [reflect_all; lia|done]. }
    split_and!; [done|rewrite Ef; apply FormatUint_nonempty|rewrite Ef; apply leading_zero_FormatUint|].
    exists exposure. split_and!; [done| |by apply FormatInt_parse]. by apply canonicalAmountDecimal_parse.
  - intros bps Hb. change ContractMaxFeeBPS with 100 in Hb. unfold exposure. rewrite Efee.
    pose proof (Z.div_le_mono (total * bps) (total * 100) 10000 ltac:(lia) ltac:(nia)). lia.
Qed.
End policy_safety.

(** * A concrete policy *)
Module PolicySamples.
Import Samples IntentSamples.
#[local] Existing Instance Eth.is_hex_address.
#[local] Existing Instance Eth.no_folding.

Definition rule (id : string) (d : Decision) : Rule := MkRule id d None None None None None None.
Definition limit : Rule :=
  MkRule "limit" DecisionDeny
    (Some (MkSpendingLimit [TypeSend; TypePayroll] (tokenReference usdc) (amount 100))) None None None None None.
Definition lifetime : Rule :=
  MkRule "expiry" DecisionRequireReview None None None None None (Some (MkExpiration 7200 60)).
Definition recipients : Rule :=
  MkRule "recipients" DecisionDeny None None None None (Some [bob; alice]) None.
Definition params : Policies.Params :=
  Policies.MkParams "policy" 1 "Spending" (MkScope "user-1" "" [TypeSend]) [recipients; limit; lifetime]
    (now - Hour) (now - Hour) (now + 24 * Hour).
Definition get_policy (m : result Policy) (d : Policy) : Policy := match m with Ok p => p | Err _ => d end.
Definition blank : Policy :=
  MkPolicy "" 0 "" (MkScope "" "" []) [] Policies.StatusDraft 0 0 0 0.
Definition draft_policy : Policy := Eval vm_compute in get_policy (Policies.NewDraft params) blank.
Definition active_policy : Policy := Eval vm_compute in
  get_policy (Policy_Transition draft_policy Policies.StatusActive (now - Minute)) blank.

(** An approved intent that names the policy. *)
Definition governed_params : Intents.Params :=
  Intents.MkParams "intent-1" 1 "client-1" "nonce-1" TypeSend
    (MkOwnership "user-1" "privy" "privy" "did:privy:1" "binding-1" 2 "wallet-1" wallet ChainIDArcMainnet NetworkArcMainnet)
    (MkFinancial (Some (MkSend usdc alice (amount 25))) None None None None)
    (MkRoute RouteDirectWallet RouteReferenceSend RouteVersionSend)
    (MkConstraints (now + Hour) "policy:1") now (now + Hour).
Definition governed : Intent := Eval vm_compute in
  get (Intent_Approve (get (Intent_Transition (get (Intent_Transition (get (Intents.NewDraft governed_params))
    StatusCreated now)) StatusApprovalRequired now)) (Some anyone) (now + Minute)).
Definition identity : IdentityContext :=
  MkIdentityContext (MkIdentity "user-1" "privy" "did:privy:1" IdentityStatusActive) (MkMetadata "request-1" "" "").
Definition get_result (m : result Result) : Result :=
  match m with Ok r => r | Err _ => MkResult "" 0 "" 0 "" EvaluationStageBeforeExecution (DecisionOther "") 0 [] end.
Definition answer : Result := Eval vm_compute in
  get_result (Evaluate active_policy governed identity WalletSamples.active (now + 2 * Minute)).

Lemma Evaluate_allow_sound_witness : Intent_Validate governed = Ok tt.
Proof.
  refine (proj1 (Evaluate_allow_sound active_policy governed identity WalletSamples.active
    (now + 2 * Minute) answer _ _)); vm_compute; reflexivity.
Defined.

(** The policy before its activation denies. *)
Definition refusal : Result := Eval vm_compute in
  get_result (Evaluate draft_policy governed identity WalletSamples.active (now + 2 * Minute)).

Lemma evaluate_worst_violation_witness : res_Decision refusal = DecisionDeny.
Proof.
  refine (proj1 (evaluate_worst_violation draft_policy governed identity WalletSamples.active
    (now + 2 * Minute) EvaluationStageBeforeExecution refusal _) _); [vm_compute; reflexivity|].
  intros [H _]. vm_compute in H. discriminate H.
Defined.

Lemma policy_order_irrelevant_witness :
  Policies.NewDraft (with_rules params [limit; recipients; lifetime]) = Ok draft_policy.
Proof.
  apply (policy_order_irrelevant params [limit; recipients; lifetime] draft_policy);
    [apply perm_swap|vm_compute; reflexivity].
Defined.

Lemma policy_lifecycle_witness : Policy_Validate active_policy = Ok tt.
Proof.
  refine (proj2 (proj2 (proj2 (policy_lifecycle 1 draft_policy active_policy _))) _); [|vm_compute; reflexivity].
  apply (nsteps_l policy_step 0 _ active_policy); [|constructor].
  exists Policies.StatusActive, (now - Minute). vm_compute. reflexivity.
Defined.

Lemma payroll_exposure_covers_fees_witness :
  exists exposure, BaseInt (payrollMaximumEmployerExposure (pay_Total payroll)) = Ok exposure.
Proof.
  destruct (payroll_exposure_covers_fees payroll) as (exposure & He & _);
    [cbn; lia|vm_compute; reflexivity|]. by exists exposure.
Defined.
End PolicySamples.
