(* ===== verification/Execution.v ===== *)
(** internal/execution: execution requests bound to an authorization
    (request.go), the lifecycle record (lifecycle.go, types.go), adapter
    results (result.go) and restoration (restore.go). *)
From S2P Require Approvals Evaluator.
From S2P Require Import Prelude GoStrings GoTime Sha256 AppErrors Contracts IntentTypes IntentParams Intents.
From S2P Require Import IntentSafety Wallet Auth Policies.
Open Scope Z_scope.
Open Scope go_scope.

Definition maxExecutionTextLength : Z := 256.
Definition maxAdapterReferenceLength : Z := 512.

Inductive Status : Set :=
  | StatusCreated | StatusAuthorized | StatusQueued | StatusExecuting | StatusSubmitted
  | StatusConfirming | StatusConfirmed | StatusVerified | StatusCompleted | StatusFailed
  | StatusRecoveryRequired | StatusCancelled
  | StatusOther (raw : string).
#[global] Instance Execution_Status_eq_dec : EqDecision Status.
Proof. solve_decision. Defined.
(** The zero value. *)
Definition no_status : Status := StatusOther "".
Definition Status_Valid (s : Status) : bool := match s with StatusOther _ => false | _ => true end.
Definition Status_string (s : Status) : string :=
  match s with
  | StatusCreated => "CREATED" | StatusAuthorized => "AUTHORIZED" | StatusQueued => "QUEUED"
  | StatusExecuting => "EXECUTING" | StatusSubmitted => "SUBMITTED" | StatusConfirming => "CONFIRMING"
  | StatusConfirmed => "CONFIRMED" | StatusVerified => "VERIFIED" | StatusCompleted => "COMPLETED"
  | StatusFailed => "FAILED" | StatusRecoveryRequired => "RECOVERY_REQUIRED"
  | StatusCancelled => "CANCELLED" | StatusOther raw => raw
  end.

Inductive RecoveryEligibility : Set := RecoveryTerminal | RecoveryRecoverable | RecoveryOther (raw : string).
#[global] Instance RecoveryEligibility_eq_dec : EqDecision RecoveryEligibility.
Proof. solve_decision. Defined.
Definition Eligibility_Valid (e : RecoveryEligibility) : bool :=
  match e with RecoveryOther _ => false | _ => true end.
Definition Eligibility_string (e : RecoveryEligibility) : string :=
  match e with RecoveryTerminal => "TERMINAL" | RecoveryRecoverable => "RECOVERABLE" | RecoveryOther raw => raw end.

Record Failure := MkFailure { fai_Code : string; fai_Eligibility : RecoveryEligibility; fai_RecoveryTarget : Status }.
#[global] Instance Failure_eq_dec : EqDecision Failure.
Proof. solve_decision. Defined.
Definition no_failure : Failure := MkFailure "" (RecoveryOther "") no_status.
Record Recovery := MkRecovery { rec_ReasonCode : string; rec_FromStatus : Status; rec_Target : Status }.
#[global] Instance Recovery_eq_dec : EqDecision Recovery.
Proof. solve_decision. Defined.
Definition no_recovery : Recovery := MkRecovery "" no_status no_status.

(** * Text *)
Definition validateBoundedText (name value : string) (max : Z) : result unit :=
  do! fail_if ((value == "") || (TrimSpace value != value)) (errorf1 "%s is required" name);
  do! fail_if (max <? len value) (errorf2 "%s exceeds %d characters" name (FormatInt max));
  do! fail_if (has_control value) (errorf1 "%s contains control characters" name);
  Ok tt.
Definition validateExecutionText (name value : string) : result unit :=
  validateBoundedText name value maxExecutionTextLength.
Definition validateAdapterReference (value : string) : result unit :=
  validateBoundedText "adapter reference" value maxAdapterReferenceLength.

Definition upper_byte (b : Z) : bool := byte_in 65 90 b.
Definition reason_rune (r : Z) : bool := byte_in 65 90 r || byte_in 48 57 r || (r =? 95).

Definition validateReasonCode (name value : string) : result unit :=
  let e := errorf1 "%s must be an uppercase safe reason code" name in
  do! fail_if ((len value <? 2) || (64 <? len value)
               || (match first_byte value with Some b => negb (upper_byte b) | None => true end)) e;
  do! fail_if (negb (forallb reason_rune (runes (of_bytes (drop 1 (bytes value)))))) e;
  Ok tt.

Definition validRecoveryTarget (from target : Status) : bool :=
  match from with
  | StatusQueued | StatusExecuting => target == StatusExecuting
  | StatusSubmitted | StatusConfirming => target == StatusConfirming
  | StatusConfirmed => target == StatusConfirmed
  | StatusVerified => target == StatusVerified
  | _ => false
  end.

Definition Failure_validate (f : Failure) (failedFrom : Status) : result unit :=
  do! validateReasonCode "failure code" (fai_Code f);
  do! fail_if (negb (Eligibility_Valid (fai_Eligibility f)))
        (errorf1 "invalid recovery eligibility %q" (Eligibility_string (fai_Eligibility f)));
  if fai_Eligibility f == RecoveryTerminal then
    fail_if (fai_RecoveryTarget f != no_status) (errorf "terminal failure cannot have a recovery target")
  else
    fail_if (negb (validRecoveryTarget failedFrom (fai_RecoveryTarget f)))
      (errorf2 "recovery target %s is invalid after failure from %s"
         (Status_string (fai_RecoveryTarget f)) (Status_string failedFrom)).

Definition Recovery_validate (r : Recovery) : result unit :=
  do! validateReasonCode "recovery reason code" (rec_ReasonCode r);
  fail_if (negb (validRecoveryTarget (rec_FromStatus r) (rec_Target r)))
    (errorf2 "recovery target %s is invalid from %s"
       (Status_string (rec_Target r)) (Status_string (rec_FromStatus r))).

(** * Requests *)
Definition RequestVersion : Z := 1.
Definition domain (name : string) : string := of_bytes (bytes name ++ [10]).
Definition executionIdentityDomain : string := domain "WIZPAY_MCP_EXECUTION_V1".
Definition executionRequestDomain : string := domain "WIZPAY_MCP_EXECUTION_REQUEST_V1".
Definition policyEvaluationDomain : string := domain "WIZPAY_MCP_POLICY_EVALUATION_REFERENCE_V1".

Definition Stage_string (s : EvaluationStage) : string :=
  match s with
  | EvaluationStageBeforeApproval => "BEFORE_APPROVAL" | EvaluationStageBeforeExecution => "BEFORE_EXECUTION"
  end.
Definition Decision_string (d : Decision) : string :=
  match d with
  | DecisionAllow => "ALLOW" | DecisionDeny => "DENY" | DecisionRequireReview => "REQUIRE_REVIEW"
  | Policies.DecisionOther raw => raw
  end.

(** What [hash] writes: the domain, and each part after its length. *)
Fixpoint frame (parts : list string) : string :=
  match parts with
  | [] => ""
  | part :: rest => FormatUint (len part) +:+ ":" +:+ part +:+ frame rest
  end.
Definition hash (dom : string) (parts : list string) : string := sha256_hex (dom +:+ frame parts).

(** [Request]; [RestoreRequestParams] has the same fields. *)
Record Request := MkRequest {
  req_requestID : string; req_requestKey : string; req_version : Z; req_executionID : string;
  req_operationKey : string; req_operationVersion : Z; req_intentID : string; req_intentVersion : Z;
  req_intentDigest : string; req_approvalID : string; req_approvalVersion : Z; req_policyID : string;
  req_policyVersion : Z; req_policyEvaluationKey : string; req_policyEvaluationStage : EvaluationStage;
  req_policyEvaluatedAt : Time; req_createdAt : Time
}.
#[global] Instance Request_eq_dec : EqDecision Request.
Proof. solve_decision. Defined.

Definition invalidExecution (cause : error) : error :=
  Wrap CodeExecutionInvalid "Execution request is invalid." false true true cause.

Definition execution_id (operationKey : string) (operationVersion : Z) : string :=
  "exec_" +:+ hash executionIdentityDomain [operationKey; FormatUint operationVersion].
Definition policy_key (policyID : string) (policyVersion : Z) (intentID : string) (intentVersion : Z)
    (intentDigest : string) (stage : EvaluationStage) (evaluatedAt : Time) (decision : Decision) : string :=
  hash policyEvaluationDomain
    [policyID; FormatUint policyVersion; intentID; FormatUint intentVersion; intentDigest;
     Stage_string stage; FormatRFC3339Nano (UTC evaluatedAt); Decision_string decision].
Definition request_key (operationKey : string) (operationVersion : Z) (approvalID : string)
    (approvalVersion : Z) (policyEvaluationKey : string) : string :=
  hash executionRequestDomain
    [operationKey; FormatUint operationVersion; approvalID; FormatUint approvalVersion; policyEvaluationKey].

Definition PolicyEvaluationKey (r : Evaluator.Result) : string :=
  policy_key (Evaluator.res_PolicyID r) (Evaluator.res_PolicyVersion r) (Evaluator.res_IntentID r)
    (Evaluator.res_IntentVersion r) (Evaluator.res_IntentDigest r) (Evaluator.res_Stage r)
    (Evaluator.res_EvaluatedAt r) (Evaluator.res_Decision r).

Definition Request_Validate (r : Request) : result unit :=
  do! map_err invalidExecution
        (for_each (fun '(name, value) => validateExecutionText name value)
          [ ("request ID", req_requestID r); ("request key", req_requestKey r);
            ("execution ID", req_executionID r); ("operation key", req_operationKey r);
            ("intent ID", req_intentID r); ("intent digest", req_intentDigest r);
            ("approval ID", req_approvalID r); ("policy ID", req_policyID r);
            ("policy evaluation key", req_policyEvaluationKey r) ]);
  do! fail_if ((req_version r != RequestVersion) || (req_operationVersion r =? 0) || (req_intentVersion r =? 0)
               || (req_approvalVersion r =? 0) || (req_policyVersion r =? 0))
        (invalidExecution (errorf "execution request version is invalid"));
  do! fail_if (req_policyEvaluationStage r != EvaluationStageBeforeExecution)
        (invalidExecution (errorf "execution request requires a pre-execution policy evaluation"));
  do! fail_if (IsZero (req_policyEvaluatedAt r) || IsZero (req_createdAt r)
               || After (req_policyEvaluatedAt r) (req_createdAt r))
        (invalidExecution (errorf "execution request timestamps are invalid"));
  let wantExecutionID := execution_id (req_operationKey r) (req_operationVersion r) in
  let wantPolicyEvaluationKey :=
    policy_key (req_policyID r) (req_policyVersion r) (req_intentID r) (req_intentVersion r)
      (req_intentDigest r) (req_policyEvaluationStage r) (req_policyEvaluatedAt r) DecisionAllow in
  let wantRequestKey :=
    request_key (req_operationKey r) (req_operationVersion r) (req_approvalID r) (req_approvalVersion r)
      wantPolicyEvaluationKey in
  fail_if ((req_executionID r != wantExecutionID) || (req_policyEvaluationKey r != wantPolicyEvaluationKey)
           || (req_requestKey r != wantRequestKey) || (req_requestID r != ("exreq_" +:+ wantRequestKey)))
    (invalidExecution (errorf "execution request identity is invalid")).

Definition RestoreRequest (p : Request) : result Request :=
  let value := MkRequest (req_requestID p) (req_requestKey p) (req_version p) (req_executionID p)
    (req_operationKey p) (req_operationVersion p) (req_intentID p) (req_intentVersion p) (req_intentDigest p)
    (req_approvalID p) (req_approvalVersion p) (req_policyID p) (req_policyVersion p) (req_policyEvaluationKey p)
    (req_policyEvaluationStage p) (UTC (req_policyEvaluatedAt p)) (UTC (req_createdAt p)) in
  do! Request_Validate value;
  Ok value.

Section requests.
Context `{EthCommon} `{UnicodeTables}.

(** The consumed approval covers the intent and its operation. *)
Definition approval_covers (i : Intent) (a : Approvals.Approval) (op : OperationIdentity) : bool :=
  (Approvals.apr_status a == Approvals.StatusConsumed)
  && (Approvals.apr_decision a == Approvals.DecisionApproved) && Approvals.matches_intent a i
  && (Approvals.apr_operationKey a == opi_operationKey op)
  && (Approvals.apr_operationVersion a == opi_version op).

(** The allowing, finding-free policy result names the intent and precedes
    the consumption. *)
Definition policy_covers (i : Intent) (a : Approvals.Approval) (r : Evaluator.Result) : bool :=
  (Evaluator.res_Decision r == DecisionAllow)
  && (Evaluator.res_Stage r == EvaluationStageBeforeExecution)
  && (match Evaluator.res_Findings r with [] => true | _ => false end)
  && (Evaluator.res_PolicyID r != "") && negb (Evaluator.res_PolicyVersion r =? 0)
  && (Evaluator.res_IntentID r == prm_IntentID (int_params i))
  && (Evaluator.res_IntentVersion r == Intents.prm_Version (int_params i))
  && (Evaluator.res_IntentDigest r == int_digest i)
  && negb (IsZero (Evaluator.res_EvaluatedAt r))
  && negb (After (Evaluator.res_EvaluatedAt r) (Approvals.apr_consumedAt a))
  && (con_PolicyReference (prm_Constraints (int_params i))
      == (Evaluator.res_PolicyID r +:+ ":" +:+ FormatUint (Evaluator.res_PolicyVersion r))).

Definition not_authorized (msg : string) : error :=
  AppErrors.New CodeExecutionNotAuthorized msg false true true.

Definition NewRequest (i : Intent) (a : Approvals.Approval) (policyResult : Evaluator.Result) (at_ : Time)
    : result Request :=
  do! Intent_Validate i;
  do! Approvals.Approval_Validate a;
  do! fail_if (IsZero at_) (invalidExecution (errorf "request creation time is required"));
  let at_ := UTC at_ in
  do! fail_if ((int_status i != StatusApproved) && (int_status i != StatusReadyForExecution))
        (not_authorized "Execution request is not authorized.");
  do! fail_if (negb (Before at_ (Intents.prm_ExpiresAt (int_params i)))
               || negb (Before at_ (con_Deadline (prm_Constraints (int_params i)))))
        (AppErrors.New CodeIntentExpired "Intent has expired." false true true);
  let! operation := NewOperationIdentity i in
  do! fail_if (negb (approval_covers i a operation))
        (not_authorized "Execution approval does not match the intent.");
  do! fail_if (After (Approvals.apr_consumedAt a) at_)
        (invalidExecution (errorf "approval consumption cannot follow request creation"));
  do! fail_if (negb (policy_covers i a policyResult))
        (not_authorized "Allowing policy evaluation does not match the intent.");
  let executionID := execution_id (opi_operationKey operation) (opi_version operation) in
  let policyEvaluationKey := PolicyEvaluationKey policyResult in
  let requestKey := request_key (opi_operationKey operation) (opi_version operation)
                      (Approvals.apr_approvalID a) (Approvals.apr_version a) policyEvaluationKey in
  let request := MkRequest ("exreq_" +:+ requestKey) requestKey RequestVersion executionID
    (opi_operationKey operation) (opi_version operation) (prm_IntentID (int_params i))
    (Intents.prm_Version (int_params i)) (int_digest i) (Approvals.apr_approvalID a) (Approvals.apr_version a)
    (Evaluator.res_PolicyID policyResult) (Evaluator.res_PolicyVersion policyResult) policyEvaluationKey
    (Evaluator.res_Stage policyResult) (UTC (Evaluator.res_EvaluatedAt policyResult)) (Approvals.apr_consumedAt a) in
  do! Request_Validate request;
  Ok request.
End requests.

(** * Lifecycle *)
(** [Execution]; [RestoreExecutionParams] has the same fields. *)
Record Execution := MkExecution {
  exe_request : Request; exe_status : Status; exe_revision : Z; exe_createdAt : Time; exe_updatedAt : Time;
  exe_failure : Failure; exe_failedFrom : Status; exe_recovery : Recovery
}.
#[global] Instance Execution_eq_dec : EqDecision Execution.
Proof. solve_decision. Defined.

Definition Execution_Validate (e : Execution) : result unit :=
  do! Request_Validate (exe_request e);
  do! fail_if (negb (Status_Valid (exe_status e)))
        (invalidExecution (errorf1 "invalid execution status %q" (Status_string (exe_status e))));
  do! fail_if ((exe_revision e =? 0) || IsZero (exe_createdAt e) || IsZero (exe_updatedAt e)
               || Before (exe_updatedAt e) (exe_createdAt e))
        (invalidExecution (errorf "execution lifecycle metadata is invalid"));
  do! (if exe_status e == StatusFailed then
         do! fail_if (negb (Status_Valid (exe_failedFrom e)) || (exe_failedFrom e == StatusFailed)
                      || (fai_Code (exe_failure e) == ""))
               (invalidExecution (errorf "failed execution metadata is invalid"));
         map_err invalidExecution (Failure_validate (exe_failure e) (exe_failedFrom e))
       else Ok tt);
  if exe_status e == StatusRecoveryRequired then map_err invalidExecution (Recovery_validate (exe_recovery e))
  else Ok tt.

Definition New (request : Request) : result Execution :=
  do! Request_Validate request;
  let execution := MkExecution request StatusCreated 1 (req_createdAt request) (req_createdAt request)
                     no_failure no_status no_recovery in
  do! Execution_Validate execution;
  Ok execution.

Definition validateTransitionTime (e : Execution) (at_ : Time) : result unit :=
  do! fail_if (IsZero at_ || Before at_ (exe_updatedAt e))
        (invalidExecution (errorf "execution transition time is invalid"));
  do! fail_if (exe_revision e == max_uint64) (invalidExecution (errorf "execution revision cannot advance"));
  Ok tt.

Definition advance (e : Execution) (status : Status) (at_ : Time) : result Execution :=
  let next := MkExecution (exe_request e) status (u64 (exe_revision e + 1)) (exe_createdAt e) (UTC at_)
                (exe_failure e) (exe_failedFrom e) (exe_recovery e) in
  do! Execution_Validate next;
  Ok next.

Definition validTransition (current next : Status) : bool :=
  match current with
  | StatusCreated => (next == StatusAuthorized) || (next == StatusCancelled)
  | StatusAuthorized => (next == StatusQueued) || (next == StatusCancelled)
  | StatusQueued => next == StatusExecuting
  | StatusExecuting => (next == StatusSubmitted) || (next == StatusConfirming)
  | StatusSubmitted => next == StatusConfirming
  | StatusConfirming => next == StatusConfirmed
  | StatusConfirmed => next == StatusVerified
  | StatusVerified => next == StatusCompleted
  | _ => false
  end.

Definition Transition (e : Execution) (next : Status) (at_ : Time) : result Execution :=
  do! Execution_Validate e;
  if next == exe_status e then Ok e
  else
    do! fail_if ((next == StatusFailed) || (next == StatusRecoveryRequired))
          (invalidExecution (errorf "failure and recovery transitions require explicit metadata"));
    do! validateTransitionTime e at_;
    do! fail_if (negb (validTransition (exe_status e) next))
          (invalidExecution (errorf2 "execution transition %s -> %s is not allowed"
             (Status_string (exe_status e)) (Status_string next)));
    advance e next at_.

Definition conflict (msg : string) : error := AppErrors.New CodeExecutionConflict msg false true true.

Definition can_fail (s : Status) : bool :=
  match s with StatusExecuting | StatusSubmitted | StatusConfirming | StatusConfirmed => true | _ => false end.

Definition Fail_ (e : Execution) (failure : Failure) (at_ : Time) : result Execution :=
  do! Execution_Validate e;
  if exe_status e == StatusFailed then
    if exe_failure e == failure then Ok e
    else Err (conflict "Execution failure record conflicts with existing state.")
  else
    do! validateTransitionTime e at_;
    do! fail_if (negb (can_fail (exe_status e)))
          (invalidExecution (errorf1 "execution cannot fail from %s" (Status_string (exe_status e))));
    do! map_err invalidExecution (Failure_validate failure (exe_status e));
    advance (MkExecution (exe_request e) (exe_status e) (exe_revision e) (exe_createdAt e) (exe_updatedAt e)
               failure (exe_status e) (exe_recovery e)) StatusFailed at_.

Definition recoveryTarget (s : Status) : Status :=
  match s with
  | StatusQueued | StatusExecuting => StatusExecuting
  | StatusSubmitted | StatusConfirming => StatusConfirming
  | StatusConfirmed => StatusConfirmed
  | StatusVerified => StatusVerified
  | _ => no_status
  end.

Definition with_recovery (e : Execution) (r : Recovery) : Execution :=
  MkExecution (exe_request e) (exe_status e) (exe_revision e) (exe_createdAt e) (exe_updatedAt e)
    (exe_failure e) (exe_failedFrom e) r.

Definition RequireRecovery (e : Execution) (reasonCode : string) (at_ : Time) : result Execution :=
  do! Execution_Validate e;
  if exe_status e == StatusRecoveryRequired then
    if rec_ReasonCode (exe_recovery e) == reasonCode then Ok e
    else Err (conflict "Recovery record conflicts with existing state.")
  else
    do! validateTransitionTime e at_;
    let recovery := MkRecovery reasonCode (exe_status e) (recoveryTarget (exe_status e)) in
    do! map_err invalidExecution (Recovery_validate recovery);
    advance (with_recovery e recovery) StatusRecoveryRequired at_.

Definition Recover (e : Execution) (at_ : Time) : result Execution :=
  do! Execution_Validate e;
  do! fail_if (exe_status e != StatusFailed)
        (invalidExecution (errorf "only failed execution can use failure recovery"));
  do! fail_if (fai_Eligibility (exe_failure e) != RecoveryRecoverable)
        (AppErrors.New CodeExecutionFailed "Execution failure is terminal." false true true);
  do! validateTransitionTime e at_;
  advance (with_recovery e (MkRecovery (fai_Code (exe_failure e)) (exe_failedFrom e)
             (fai_RecoveryTarget (exe_failure e)))) StatusRecoveryRequired at_.

Definition Resume (e : Execution) (at_ : Time) : result Execution :=
  do! Execution_Validate e;
  do! fail_if (exe_status e != StatusRecoveryRequired)
        (invalidExecution (errorf "execution is not awaiting recovery"));
  do! validateTransitionTime e at_;
  advance e (rec_Target (exe_recovery e)) at_.

Definition Terminal (e : Execution) : bool :=
  (exe_status e == StatusCompleted) || (exe_status e == StatusCancelled)
  || ((exe_status e == StatusFailed) && (fai_Eligibility (exe_failure e) == RecoveryTerminal)).

Definition Execution_Restore (p : Execution) : result Execution :=
  let value := MkExecution (exe_request p) (exe_status p) (exe_revision p) (UTC (exe_createdAt p))
                 (UTC (exe_updatedAt p)) (exe_failure p) (exe_failedFrom p) (exe_recovery p) in
  do! Execution_Validate value;
  Ok value.

(** * Adapter results (result.go) *)
(** [Result]; [ResultParams] has the same fields. *)
Record Result := MkResult {
  res_executionID : string; res_executionVersion : Z; res_status : Status; res_adapterReference : string;
  res_errorCode : string; res_observedAt : Time
}.
#[global] Instance Execution_Result_eq_dec : EqDecision Result.
Proof. solve_decision. Defined.

Definition Result_Validate (r : Result) : result unit :=
  do! map_err invalidExecution (validateExecutionText "result execution ID" (res_executionID r));
  do! fail_if ((res_executionVersion r =? 0) || IsZero (res_observedAt r))
        (invalidExecution (errorf "execution result metadata is invalid"));
  do! match res_status r with
      | StatusSubmitted | StatusConfirming | StatusConfirmed | StatusVerified | StatusCompleted =>
          do! fail_if (res_adapterReference r == "")
                (invalidExecution (errorf "execution result reference is required"));
          fail_if (res_errorCode r != "")
            (invalidExecution (errorf "successful execution result cannot have an error code"))
      | StatusFailed | StatusRecoveryRequired =>
          fail_if (res_errorCode r == "")
            (invalidExecution (errorf "failed or recoverable result requires an error code"))
      | s => Err (invalidExecution (errorf1 "status %s is not an adapter result state" (Status_string s)))
      end;
  do! (if res_adapterReference r != "" then
         map_err invalidExecution (validateAdapterReference (res_adapterReference r)) else Ok tt);
  if res_errorCode r != "" then map_err invalidExecution (validateReasonCode "result error code" (res_errorCode r))
  else Ok tt.

Definition NewResult (p : Result) : result Result :=
  let r := MkResult (TrimSpace (res_executionID p)) (res_executionVersion p) (res_status p)
             (TrimSpace (res_adapterReference p)) (TrimSpace (res_errorCode p)) (UTC (res_observedAt p)) in
  do! Result_Validate r;
  Ok r.

Definition Result_EnsureMatches (r : Result) (request : Request) : result unit :=
  do! Result_Validate r;
  do! Request_Validate request;
  fail_if ((res_executionID r != req_executionID request) || (res_executionVersion r != req_version request))
    (conflict "Execution result does not match the request.").
