(* ===== verification/ExecutionSafety.v ===== *)
(** What executions guarantee: a lifecycle that only makes progress and never
    executes again what was submitted, completion only after verification,
    requests that carry a complete authorization, and identifiers that determine
    what they identify. *)
From S2P Require Approvals Evaluator PolicySafety.
From S2P Require Import Prelude GoStrings GoTime Sha256 AppErrors Contracts IntentTypes Amounts IntentParams Intents.
From S2P Require Import IntentSafety Wallet Auth Policies Execution.
Open Scope Z_scope.
Open Scope go_scope.

(** * Steps *)
Inductive execution_step (e e' : Execution) : Prop :=
  | step_Transition next at_ : Transition e next at_ = Ok e' -> execution_step e e'
  | step_Fail failure at_ : Fail_ e failure at_ = Ok e' -> execution_step e e'
  | step_RequireRecovery code at_ : RequireRecovery e code at_ = Ok e' -> execution_step e e'
  | step_Recover at_ : Recover e at_ = Ok e' -> execution_step e e'
  | step_Resume at_ : Resume e at_ = Ok e' -> execution_step e e'.

Definition rank (s : Status) : Z :=
  match s with
  | StatusCreated => 0 | StatusAuthorized => 1 | StatusQueued => 2 | StatusExecuting => 3
  | StatusSubmitted => 4 | StatusConfirming => 5 | StatusConfirmed => 6 | StatusVerified => 7
  | StatusCompleted => 8 | _ => 9
  end.

(** How far an execution has come: in recovery, and after a recoverable
    failure, the checkpoint it can resume from. *)
Definition progress (e : Execution) : Z :=
  match exe_status e with
  | StatusRecoveryRequired => rank (rec_Target (exe_recovery e))
  | StatusFailed =>
      if fai_Eligibility (exe_failure e) == RecoveryRecoverable
      then rank (fai_RecoveryTarget (exe_failure e)) else 9
  | s => rank s
  end.

(** One real step. *)
Definition advanced (e e' : Execution) (at_ : Time) : Prop :=
  exe_request e' = exe_request e /\ exe_createdAt e' = exe_createdAt e /\
  exe_updatedAt e <= at_ /\ exe_updatedAt e' = at_ /\ exe_revision e <> max_uint64 /\
  exe_revision e' = u64 (exe_revision e + 1) /\ Execution_Validate e' = Ok tt.

Lemma validateTransitionTime_ok e at_ :
  validateTransitionTime e at_ = Ok tt -> exe_updatedAt e <= at_ /\ exe_revision e <> max_uint64.
Proof.
  unfold validateTransitionTime, IsZero, Before. intros Hok. ok_reflect. by split.
Qed.

Lemma advance_ok e s at_ e' :
  Execution.advance e s at_ = Ok e' ->
  Execution_Validate e' = Ok tt /\
  e' = MkExecution (exe_request e) s (u64 (exe_revision e + 1)) (exe_createdAt e) at_ (exe_failure e)
         (exe_failedFrom e) (exe_recovery e).
Proof. unfold Execution.advance. intros Hok. ok_inv. done. Qed.

Lemma recovery_rank from target : validRecoveryTarget from target = true -> rank from <= rank target.
Proof. destruct from; cbn; try done; intros Hv; reflect_all; subst; cbn; lia. Qed.

Lemma transition_rank s next : validTransition s next = true -> rank s < rank next.
Proof.
  destruct s; cbn; try done; intros Hv; rewrite ?orb_true_iff in Hv;
    try destruct Hv as [Hv|Hv]; reflect_all; subst; cbn; lia.
Qed.

Lemma validTransition_ordinary s next :
  validTransition s next = true ->
  s <> StatusFailed /\ s <> StatusRecoveryRequired /\ next <> StatusFailed /\ next <> StatusRecoveryRequired.
Proof.
  destruct s; cbn; try done; intros Hv; rewrite ?orb_true_iff in Hv;
    try destruct Hv as [Hv|Hv]; reflect_all; subst; done.
Qed.

Lemma progress_ordinary e :
  exe_status e <> StatusFailed -> exe_status e <> StatusRecoveryRequired -> progress e = rank (exe_status e).
Proof. unfold progress. by destruct (exe_status e). Qed.

Lemma Failure_target f from :
  Failure_validate f from = Ok tt ->
  fai_Eligibility f = RecoveryTerminal \/
  fai_Eligibility f = RecoveryRecoverable /\ validRecoveryTarget from (fai_RecoveryTarget f) = true.
Proof.
  unfold Failure_validate. intros Hok. ok_reflect. destruct (fai_Eligibility f) eqn:E; cbn in *; auto.
  - right. split; [done|]. change (RecoveryRecoverable == RecoveryTerminal) with false in Hok. cbv iota in Hok.
    apply fail_if_ok in Hok. by reflect_all.
  - done.
Qed.

(** Every successful call keeps the value or advances it: the request stays,
    progress does not decrease, and nothing leaves a terminal state. *)
Lemma step_advanced e e' :
  execution_step e e' ->
  e' = e \/
  exists at_, advanced e e' at_ /\ progress e <= progress e' /\ Terminal e = false /\
    (exe_status e' = StatusCompleted -> exe_status e = StatusVerified).
Proof.
  intros [next t Hok|f t Hok|code t Hok|t Hok|t Hok].
  - unfold Transition in Hok. apply rbind_ok in Hok as ([] & _ & Hok).
    destruct (next == exe_status e); [left; by injection Hok|right].
    apply rbind_ok in Hok as ([] & _ & Hok).
    apply rbind_ok in Hok as ([] & [Ht Hm]%validateTransitionTime_ok & Hok).
    apply rbind_ok in Hok as ([] & Hv & Hok). apply fail_if_ok, negb_false_iff in Hv.
    apply advance_ok in Hok as [Hval ->]. exists t.
    pose proof (validTransition_ordinary _ _ Hv) as (? & ? & ? & ?).
    pose proof (transition_rank _ _ Hv).
    rewrite !progress_ordinary by done. cbn [exe_status]. split_and!; try done; [lia| |].
    + unfold Terminal. by destruct (exe_status e).
    + intros ->. by destruct (exe_status e).
  - unfold Fail_ in Hok. apply rbind_ok in Hok as ([] & _ & Hok).
    destruct (exe_status e == StatusFailed) eqn:E.
    { left. destruct (exe_failure e == f); [by injection Hok|done]. }
    right. apply rbind_ok in Hok as ([] & [Ht Hm]%validateTransitionTime_ok & Hok).
    apply rbind_ok in Hok as ([] & Hc & Hok). apply fail_if_ok, negb_false_iff in Hc.
    apply rbind_ok in Hok as ([] & Hf%map_err_ok & Hok). apply advance_ok in Hok as [Hval ->]. exists t.
    split_and!; try done.
    + rewrite progress_ordinary by (destruct (exe_status e); done). unfold progress. cbn.
      destruct (Failure_target _ _ Hf) as [->|[-> Hrt%recovery_rank]].
      * change (RecoveryTerminal == RecoveryRecoverable) with false. by destruct (exe_status e).
      * by rewrite eqb_refl.
    + unfold Terminal. by destruct (exe_status e).
  - unfold RequireRecovery in Hok. apply rbind_ok in Hok as ([] & _ & Hok).
    destruct (exe_status e == StatusRecoveryRequired) eqn:E.
    { left. destruct (_ == code); [by injection Hok|done]. }
    right. apply rbind_ok in Hok as ([] & [Ht Hm]%validateTransitionTime_ok & Hok).
    apply rbind_ok in Hok as ([] & Hr%map_err_ok & Hok). apply advance_ok in Hok as [Hval ->]. exists t.
    unfold Recovery_validate in Hr. ok_reflect. cbn [rec_FromStatus rec_Target] in *.
    split_and!; try done.
    + rewrite progress_ordinary by (destruct (exe_status e); done). unfold progress. cbn. by apply recovery_rank.
    + unfold Terminal. by destruct (exe_status e).
  - unfold Recover in Hok. apply rbind_ok in Hok as ([] & _ & Hok).
    apply rbind_ok in Hok as ([] & Hs & Hok). apply rbind_ok in Hok as ([] & Hr & Hok).
    apply rbind_ok in Hok as ([] & [Ht Hm]%validateTransitionTime_ok & Hok).
    apply fail_if_ok in Hs, Hr. apply advance_ok in Hok as [Hval ->]. reflect_all. right. exists t.
    split_and!; try done.
    + unfold progress. by rewrite Hs, Hr.
    + unfold Terminal. by rewrite Hs, Hr.
  - unfold Resume in Hok. apply rbind_ok in Hok as ([] & Hval0 & Hok).
    apply rbind_ok in Hok as ([] & Hs & Hok).
    apply rbind_ok in Hok as ([] & [Ht Hm]%validateTransitionTime_ok & Hok).
    apply fail_if_ok in Hs. apply advance_ok in Hok as [Hval ->]. reflect_all. right. exists t.
    assert (validRecoveryTarget (rec_FromStatus (exe_recovery e)) (rec_Target (exe_recovery e)) = true) as Hrt.
    { unfold Execution_Validate in Hval0. do 4 (apply rbind_ok in Hval0 as ([] & _ & Hval0)).
      rewrite Hs, eqb_refl in Hval0. apply map_err_ok in Hval0. unfold Recovery_validate in Hval0. by ok_reflect. }
    split_and!; try done.
    + unfold progress at 1. rewrite Hs, progress_ordinary; cbn; [done|..];
        intros E; rewrite E in Hrt; by destruct (rec_FromStatus (exe_recovery e)).
    + unfold Terminal. by rewrite Hs.
    + intros E. cbn in E. rewrite E in Hrt. by destruct (rec_FromStatus (exe_recovery e)).
Qed.

Lemma steps_progress n e e' :
  nsteps execution_step n e e' -> is_u64 (exe_revision e) ->
  exe_request e' = exe_request e /\ exe_createdAt e' = exe_createdAt e /\
  exe_updatedAt e <= exe_updatedAt e' /\ exe_revision e <= exe_revision e' /\
  (exe_revision e' = exe_revision e -> e' = e) /\ progress e <= progress e' /\
  (Terminal e = true -> e' = e) /\ (Execution_Validate e = Ok tt -> Execution_Validate e' = Ok tt).
Proof.
  induction 1 as [e|n e k e' Hs _ IH]; intros Hu; [by split_and!|].
  destruct (step_advanced _ _ Hs) as [->|(t & (Er & Ec & Ht & Eu & Hm & Ev & Hv) & Hp & Hterm & _)]; [by apply IH|].
  assert (exe_revision k = exe_revision e + 1) as Ev' by (rewrite Ev; by apply u64_succ).
  destruct IH as (? & ? & ? & ? & _ & ? & _ & Hval); [rewrite Ev; apply u64_range|].
  split_and!; try congruence; try lia. auto.
Qed.

(** The statuses before anything was handed to the adapter's network. *)
Definition before_submission (s : Status) : bool :=
  match s with
  | StatusCreated | StatusAuthorized | StatusQueued | StatusExecuting => true | _ => false
  end.

(** An execution only makes progress: along any sequence of transitions,
    failures, recoveries and resumptions the request and creation time stay, the
    clock and the revision never go back and every change has its own revision,
    a completed, cancelled or terminally failed execution never changes again,
    and once the execution has been SUBMITTED no recovery ever brings it back
    to a state in which it would be executed again. *)
Theorem execution_never_resubmitted (n : nat) (e e' : Execution)
    (Hsteps : nsteps execution_step n e e') (Hu : is_u64 (exe_revision e)) :
  exe_request e' = exe_request e /\ exe_createdAt e' = exe_createdAt e /\
  exe_updatedAt e <= exe_updatedAt e' /\
  exe_revision e <= exe_revision e' /\ (exe_revision e' = exe_revision e -> e' = e) /\
  (Terminal e = true -> e' = e) /\
  (rank StatusSubmitted <= progress e -> before_submission (exe_status e') = false).
Proof.
  destruct (steps_progress _ _ _ Hsteps Hu) as (? & ? & ? & ? & ? & Hp & ? & _). split_and!; auto.
  intros Hge. unfold progress in Hp at 2. destruct (exe_status e'); cbn in *; try done; lia.
Qed.

(** No execution completes unverified: whatever the interleaving of
    failures and recoveries, a COMPLETED execution that started from a request
    went through VERIFIED, and through CONFIRMED before, for that same request,
    and every value on the way is valid. *)
Theorem completed_after_verification (n : nat) (r : Request) (e0 e : Execution)
    (Hnew : New r = Ok e0) (Hsteps : nsteps execution_step n e0 e) (Hc : exe_status e = StatusCompleted) :
  Execution_Validate e = Ok tt /\ exe_request e = r /\
  exists m v, (m < n)%nat /\ nsteps execution_step m e0 v /\ exe_status v = StatusVerified /\
    exe_request v = r /\ Execution_Validate v = Ok tt.
Proof.
  assert (Execution_Validate e0 = Ok tt /\ exe_request e0 = r /\ exe_status e0 = StatusCreated /\
          exe_revision e0 = 1) as (Hv0 & Hr0 & Hs0 & Hrev0) by (unfold New in Hnew; by ok_inv).
  assert (is_u64 (exe_revision e0)) as Hu0 by (rewrite Hrev0; split; lia).
  destruct (steps_progress _ _ _ Hsteps Hu0) as (Hreq & _ & _ & _ & _ & _ & _ & Hval).
  split; [by apply Hval|]. split; [congruence|]. revert e Hsteps Hc Hreq Hval.
  induction n as [|n IH]; intros e Hsteps Hc Hreq Hval.
  { inversion Hsteps; subst. congruence. }
  apply nsteps_inv_r in Hsteps as (k & Hk & Hstep).
  destruct (steps_progress _ _ _ Hk Hu0) as (Hreqk & _ & _ & _ & _ & _ & _ & Hvalk).
  destruct (step_advanced _ _ Hstep) as [->|(t & _ & _ & _ & Hlast)].
  - destruct (IH k Hk Hc Hreqk Hvalk) as (m & v & Hm & ?). exists m, v. split; [lia|done].
  - exists n, k. split_and!; try done; [lia|auto|congruence|auto].
Qed.

(** * Identifiers *)
Definition colon : string := ":".

Lemma digits_before_colon d1 d2 r1 r2 :
  digit_string d1 = true -> digit_string d2 = true -> d1 +:+ colon +:+ r1 = d2 +:+ colon +:+ r2 ->
  d1 = d2 /\ r1 = r2.
Proof.
  revert d2. induction d1 as [|a d1 IH]; intros [|b d2] H1 H2 E; cbn in E.
  - by injection E.
  - injection E as Ea _. subst. cbn in H2. by apply andb_true_iff in H2 as [? _].
  - injection E as Ea _. subst. cbn in H1. by apply andb_true_iff in H1 as [? _].
  - injection E as -> E. cbn in H1, H2. apply andb_true_iff in H1 as [_ H1], H2 as [_ H2].
    by destruct (IH d2 H1 H2 E) as [-> ->].
Qed.

Lemma append_same_length p q r1 r2 : len p = len q -> p +:+ r1 = q +:+ r2 -> p = q /\ r1 = r2.
Proof.
  revert q. induction p as [|a p IH]; intros [|b q] Hl E; cbn in E; try (unfold len in Hl; cbn in Hl; lia).
  - done.
  - injection E as -> E. destruct (IH q) as [-> ->]; [unfold len in *; cbn in Hl; lia|done|done].
Qed.

(** The length-prefixed framing of [hash] is injective. *)
Lemma frame_inj ps qs : frame ps = frame qs -> ps = qs.
Proof.
  revert qs. induction ps as [|p ps IH]; intros [|q qs] E; [done|..].
  - cbn [frame] in E. symmetry in E. by apply app_nonempty in E; [|apply FormatUint_nonempty].
  - cbn [frame] in E. by apply app_nonempty in E; [|apply FormatUint_nonempty].
  - cbn [frame] in E.
    apply digits_before_colon in E as [El E]; [|apply digit_string_FormatUint..].
    apply FormatUint_inj in El; [|apply len_nonneg..].
    destruct (append_same_length _ _ _ _ El E) as [-> E']. f_equal. auto.
Qed.

Lemma hash_binding dom ps qs :
  hash dom ps = hash dom qs -> ps = qs \/ collision (dom +:+ frame ps) (dom +:+ frame qs).
Proof.
  unfold hash. intros [E%append_inj_l%frame_inj|Hc]%sha256_hex_binding; auto.
Qed.

Lemma Request_identity r :
  Request_Validate r = Ok tt ->
  req_executionID r = execution_id (req_operationKey r) (req_operationVersion r) /\
  req_policyEvaluationKey r = policy_key (req_policyID r) (req_policyVersion r) (req_intentID r)
    (req_intentVersion r) (req_intentDigest r) EvaluationStageBeforeExecution (req_policyEvaluatedAt r) DecisionAllow /\
  req_requestKey r = request_key (req_operationKey r) (req_operationVersion r) (req_approvalID r)
    (req_approvalVersion r) (req_policyEvaluationKey r).
Proof.
  unfold Request_Validate. intros Hok. ok_reflect.
  match goal with E : req_policyEvaluationStage r = _ |- _ => rewrite E in * end.
  split_and!; congruence.
Qed.

(** Identifiers determine what they name: two valid requests with the
    same execution ID are for the same operation key and version, and two with
    the same request key also for the same approval and policy evaluation —
    or an explicit pair of messages collides under SHA-256. *)
Theorem request_identifiers_binding (r1 r2 : Request)
    (H1 : Request_Validate r1 = Ok tt) (H2 : Request_Validate r2 = Ok tt)
    (Hw1 : 0 <= req_operationVersion r1 /\ 0 <= req_approvalVersion r1)
    (Hw2 : 0 <= req_operationVersion r2 /\ 0 <= req_approvalVersion r2) :
  (req_executionID r1 = req_executionID r2 ->
   (req_operationKey r1 = req_operationKey r2 /\ req_operationVersion r1 = req_operationVersion r2) \/
   exists m1 m2, collision (executionIdentityDomain +:+ m1) (executionIdentityDomain +:+ m2)) /\
  (req_requestKey r1 = req_requestKey r2 ->
   (req_operationKey r1 = req_operationKey r2 /\ req_operationVersion r1 = req_operationVersion r2 /\
    req_approvalID r1 = req_approvalID r2 /\ req_approvalVersion r1 = req_approvalVersion r2 /\
    req_policyEvaluationKey r1 = req_policyEvaluationKey r2) \/
   exists m1 m2, collision (executionRequestDomain +:+ m1) (executionRequestDomain +:+ m2)).
Proof.
  destruct (Request_identity _ H1) as (E1 & _ & K1), (Request_identity _ H2) as (E2 & _ & K2).
  destruct Hw1, Hw2. split.
  - rewrite E1, E2. unfold execution_id. intros [E|Hc]%append_inj_l%hash_binding; [left|right; eauto].
    injection E as -> E%FormatUint_inj; auto.
  - rewrite K1, K2. unfold request_key. intros [E|Hc]%hash_binding; [left|right; eauto].
    injection E as -> Ev%FormatUint_inj -> Ea%FormatUint_inj ->; auto.
Qed.

(** * Authorization *)
Section authorization.
Context `{EthCommon} `{UnicodeTables}.

(** A request carries a complete authorization: when [NewRequest]
    succeeds, the intent is valid, approved and unexpired; the approval was
    granted and consumed for exactly this intent's operation, before the
    request; an ALLOW evaluation without findings, before execution, of the
    policy the intent names covers the same intent digest and precedes the
    consumption; and the request is valid and names all of them. *)
Theorem NewRequest_authorized (i : Intent) (a : Approvals.Approval) (p : Evaluator.Result) (at_ : Time)
    (r : Request) (Hok : NewRequest i a p at_ = Ok r) :
  Intent_Validate i = Ok tt /\
  (int_status i = Intents.StatusApproved \/ int_status i = Intents.StatusReadyForExecution) /\
  at_ < Intents.prm_ExpiresAt (int_params i) /\
  Approvals.apr_status a = Approvals.StatusConsumed /\
  Approvals.apr_decision a = Approvals.DecisionApproved /\ Approvals.matches_intent a i = true /\
  (exists op, NewOperationIdentity i = Ok op /\ Approvals.apr_operationKey a = opi_operationKey op /\
     req_operationKey r = opi_operationKey op /\ req_operationVersion r = opi_version op /\
     req_executionID r = execution_id (opi_operationKey op) (opi_version op)) /\
  Evaluator.res_Decision p = DecisionAllow /\ Evaluator.res_Findings p = [] /\
  Evaluator.res_Stage p = EvaluationStageBeforeExecution /\ Evaluator.res_IntentDigest p = int_digest i /\
  Evaluator.res_EvaluatedAt p <= Approvals.apr_consumedAt a <= at_ /\
  Request_Validate r = Ok tt /\
  (req_intentID r, req_intentVersion r, req_intentDigest r, req_approvalID r, req_createdAt r)
  = (prm_IntentID (int_params i), Intents.prm_Version (int_params i), int_digest i, Approvals.apr_approvalID a,
     Approvals.apr_consumedAt a).
Proof.
  unfold NewRequest in Hok. apply rbind_ok in Hok as ([] & Hi & Hok).
  apply rbind_ok in Hok as ([] & _ & Hok). apply rbind_ok in Hok as ([] & _ & Hok).
  apply rbind_ok in Hok as ([] & Hs & Hok). apply rbind_ok in Hok as ([] & Hx & Hok).
  apply rbind_ok in Hok as (op & Hop & Hok). apply rbind_ok in Hok as ([] & Ha & Hok).
  apply rbind_ok in Hok as ([] & Hat & Hok). apply rbind_ok in Hok as ([] & Hp & Hok).
  apply rbind_ok in Hok as ([] & Hv & [= <-]). apply fail_if_ok in Hs, Hx, Ha, Hat, Hp.
  unfold approval_covers, policy_covers, After, Before, UTC in *. rewrite negb_false_iff in Ha, Hp.
  reflect_all. split_and!; try done; try lia.
  - apply andb_false_iff in Hs as [Hs|Hs]; reflect_all; auto.
  - exists op. by split_and!.
  - by destruct (Evaluator.res_Findings p).
Qed.
End authorization.

(** * A concrete execution *)
Module ExecutionSamples.
Import Samples IntentSamples PolicySafety.PolicySamples.
#[local] Existing Instance Eth.is_hex_address.
#[local] Existing Instance Eth.no_folding.

Definition governed_requested : Intent := Eval vm_compute in
  get (Intent_Transition (get (Intent_Transition (get (Intents.NewDraft governed_params))
    Intents.StatusCreated now)) Intents.StatusApprovalRequired now).
Definition get_approval := fun m => Approvals.ApprovalSamples.get m Approvals.ApprovalSamples.blank.
Definition granted : Approvals.Approval := Eval vm_compute in
  get_approval (Approvals.Approve (get_approval (Approvals.New
    (Approvals.MkParams "approval-1" 1 "request-1" (now + Second) (now + 30 * Minute)) governed_requested))
    (now + Minute)).
Definition operation : OperationIdentity := Eval vm_compute in
  Approvals.ApprovalSamples.get_operation (NewOperationIdentity governed).
Definition consumed : Approvals.Approval := Eval vm_compute in get_approval (Approvals.Consume granted (now + 3 * Minute) operation).

Definition blank_request : Request :=
  MkRequest "" "" 0 "" "" 0 "" 0 "" "" 0 "" 0 "" EvaluationStageBeforeApproval 0 0.
Definition get_request (m : result Request) : Request := match m with Ok r => r | Err _ => blank_request end.
Definition request : Request := Eval vm_compute in get_request (NewRequest governed consumed answer (now + 4 * Minute)).

Definition get_execution (m : result Execution) : Execution :=
  match m with Ok e => e | Err _ => MkExecution blank_request no_status 0 0 0 no_failure no_status no_recovery end.
Definition created : Execution := Eval vm_compute in get_execution (New request).
Definition at_ (n : Z) : Time := now + (10 + n) * Minute.
(** Ordinary transitions, one per minute. *)
Fixpoint run (e : Execution) (n : nat) (l : list Status) : Execution :=
  match l with
  | [] => e
  | s :: rest => run (get_execution (Transition e s (at_ (Z.of_nat n)))) (S n) rest
  end.
Definition happy_path : list Status :=
  [StatusAuthorized; StatusQueued; StatusExecuting; StatusSubmitted; StatusConfirming; StatusConfirmed;
   StatusVerified; StatusCompleted].
(** Computed values. *)
Definition completed : Execution := Eval vm_compute in run created 0 happy_path.
Definition submitted : Execution := Eval vm_compute in run created 0 (take 4 happy_path).
Definition ambiguous : Execution := Eval vm_compute in get_execution (RequireRecovery submitted "RECEIPT_UNKNOWN" (at_ 9)).

Lemma NewRequest_authorized_witness : Intent_Validate governed = Ok tt.
Proof.
  refine (proj1 (NewRequest_authorized governed consumed answer (now + 4 * Minute) request _)).
  vm_compute. reflexivity.
Defined.

Lemma execution_never_resubmitted_witness : before_submission (exe_status ambiguous) = false.
Proof.
  refine (proj2 (proj2 (proj2 (proj2 (proj2 (proj2
    (execution_never_resubmitted 1 submitted ambiguous _ _)))))) _);
    [|split; vm_compute; [discriminate|reflexivity]|vm_compute; discriminate].
  apply (nsteps_l execution_step 0 _ ambiguous); [|constructor].
  apply (step_RequireRecovery _ _ "RECEIPT_UNKNOWN" (at_ 9)). vm_compute. reflexivity.
Defined.

(** The same walk, [None] when a transition is refused. *)
Fixpoint walk (e : Execution) (n : nat) (l : list Status) : option Execution :=
  match l with
  | [] => Some e
  | s :: rest => match Transition e s (at_ (Z.of_nat n)) with Ok e' => walk e' (S n) rest | Err _ => None end
  end.

Lemma walk_steps l : forall e n e', walk e n l = Some e' -> nsteps execution_step (length l) e e'.
Proof.
  induction l as [|s l IH]; intros e n e'; cbn [walk length]; [intros [= <-]; constructor|].
  destruct (Transition e s _) as [x|err] eqn:E; [|done]. intros Hw.
  apply nsteps_l with x; [by eapply step_Transition|by eapply IH].
Qed.

Lemma completed_after_verification_witness : Execution_Validate completed = Ok tt.
Proof.
  refine (proj1 (completed_after_verification 8 request created completed _ _ eq_refl)).
  - vm_compute. reflexivity.
  - apply (walk_steps happy_path created 0). vm_compute. reflexivity.
Defined.

Lemma request_identifiers_binding_witness :
  (req_operationKey request = req_operationKey request /\ req_operationVersion request = req_operationVersion request) \/
  exists m1 m2, collision (executionIdentityDomain +:+ m1) (executionIdentityDomain +:+ m2).
Proof.
  refine (proj1 (request_identifiers_binding request request _ _ _ _) _);
    [vm_compute; reflexivity|vm_compute; reflexivity|split; vm_compute; discriminate..|reflexivity].
Defined.
End ExecutionSamples.
