(* ===== verification/Storage.v ===== *)
(** internal/storage: the tenant scope of every repository call (scope.go),
    the execution claim (runtime.go), and the conversions between domain
    values and columns (postgres/mappers_common.go, postgres/errors.go); the
    audit record (internal/audit). *)
From S2P Require Import Prelude GoStrings GoTime AppErrors Execution.
Open Scope Z_scope.
Open Scope go_scope.

(** * Scopes *)
Record Scope := MkScope { sc_tenantID : string; sc_actorID : string; sc_requestID : string; sc_traceID : string }.
#[global] Instance Scope_eq_dec : EqDecision Scope.
Proof. solve_decision. Defined.

Definition validateScopeField (name value : string) (required : bool) : result unit :=
  if required && (value == "") then Err (errorf1 "%s is required" name)
  else if value == "" then Ok tt
  else if (256 <? len value) || has_control value then Err (errorf1 "%s is invalid" name)
  else Ok tt.

(** The loop ranges over a Go map; its order only selects the error text. *)
Definition NewScope (tenantID actorID requestID traceID : string) : result Scope :=
  let scope := MkScope (TrimSpace tenantID) (TrimSpace actorID) (TrimSpace requestID) (TrimSpace traceID) in
  do! for_each (fun '(name, value) => validateScopeField name value true)
        [("tenant ID", sc_tenantID scope); ("actor ID", sc_actorID scope); ("request ID", sc_requestID scope)];
  do! validateScopeField "trace ID" (sc_traceID scope) false;
  Ok scope.

Definition Scope_Validate (s : Scope) : result unit :=
  let! _ := NewScope (sc_tenantID s) (sc_actorID s) (sc_requestID s) (sc_traceID s) in Ok tt.

(** The context of a call, as far as the execution layer reads it: the scope
    it carries. *)
Definition Context_ : Type := option Scope.
Definition WithScope (ctx : Context_) (scope : Scope) : Context_ :=
  if is_ok (Scope_Validate scope) then Some scope else ctx.
Definition ScopeFromContext (ctx : Context_) : option Scope :=
  match ctx with
  | Some scope => if is_ok (Scope_Validate scope) then Some scope else None
  | None => None
  end.

(** * Claims *)
Record ExecutionClaim := MkExecutionClaim {
  cl_Scope : Scope; cl_Execution : Execution; cl_LeaseOwner : string; cl_FencingToken : Z;
  cl_LeaseExpiresAt : Time; cl_SubmissionStarted : bool
}.
(** [claim.Scope.TenantID()], [claim.Execution.ExecutionID()] *)
Definition ExecutionID (e : Execution) : string := req_executionID (exe_request e).
Definition cl_tenant (c : ExecutionClaim) : string := sc_tenantID (cl_Scope c).
Definition cl_key (c : ExecutionClaim) : string * string := (cl_tenant c, ExecutionID (cl_Execution c)).

(** * Columns *)
(** A [timestamptz] column keeps whole microseconds; how the driver and the
    server round an instant to one is theirs. *)
Class PgTimestamp := timestamptz : Time -> Time.
Class PgTimestampSpec `{PgTimestamp} : Prop := timestamptz_resolution : forall t, timestamptz t mod Microsecond = 0.

Module Pg.
(** Rounding down, as [truncatePostgresTimestamp] of internal/intents assumes. *)
Definition truncating : PgTimestamp := fun t => Truncate t Microsecond.
Lemma truncating_spec : @PgTimestampSpec truncating.
Proof.
  intros t. unfold timestamptz, truncating, Truncate. change Microsecond with 1000.
  rewrite Zminus_mod_idemp_r, Z.sub_diag. done.
Qed.
End Pg.

(** [None] is SQL's NULL. *)
Definition dbTime `{PgTimestamp} (value : Time) : option Time :=
  if IsZero value then None else Some (timestamptz value).
Definition domainTime (value : option Time) : Time := match value with None => zero_time | Some t => UTC t end.

Definition max_int64 : Z := 2 ^ 63 - 1.
Definition dbVersion (value : Z) : result Z :=
  if (value =? 0) || (max_int64 <? value) then Err (errorf "version is outside PostgreSQL bigint range") else Ok value.
Definition domainVersion (value : Z) : result Z :=
  if value <=? 0 then Err (errorf "persisted version must be positive") else Ok value.
(** [int64(x)] of a [uint64] *)
Definition int64 (x : Z) : Z := if x <=? max_int64 then x else x - 2 ^ 64.

(** * Database errors *)
Definition ErrNoRows : error := Sentinel "no rows in result set".
Definition Canceled : error := Sentinel "context canceled".
Definition DeadlineExceeded : error := Sentinel "context deadline exceeded".
Definition is_sentinel (target e : error) : option unit :=
  match target, e with Sentinel k, Sentinel n => if k == n then Some tt else None | _, _ => None end.
Definition as_pg (e : error) : option string := match e with PgError code => Some code | _ => None end.
(** [errors.Is(err, target)] *)
Definition errors_Is (e target : error) : bool :=
  match errors_As (is_sentinel target) e with Some _ => true | None => false end.

Definition interrupted (e : error) : error :=
  Wrap CodeInternalError "Database operation was interrupted." true false false e.
Definition persistence_error (e : error) : error :=
  Wrap CodeInternalError "A persistence error occurred." true false false e.

Definition mapDatabaseError (e : error) : error :=
  if errors_Is e Canceled || errors_Is e DeadlineExceeded then interrupted e
  else if errors_Is e ErrNoRows then e
  else
    match errors_As as_pg e with
    | Some code =>
        if (code == "23505") || (code == "40001") || (code == "40P01") then
          Wrap CodeExecutionConflict "A concurrent persistence conflict occurred." true false false e
        else if bool_decide (code ∈ ["23502"; "23503"; "23514"; "22000"; "22P02"; "55000"]) then
          Wrap CodeValidationError "Persistence constraints rejected the operation." false true true e
        else persistence_error e
    | None => persistence_error e
    end.

Definition notFound (code : Code) (message : string) : error := AppErrors.New code message false true true.

(** * Lemmas *)
Lemma dbVersion_ok v w : dbVersion v = Ok w -> w = v /\ v <> 0 /\ v <= max_int64.
Proof.
  unfold dbVersion. destruct ((v =? 0) || (max_int64 <? v)) eqn:E; [done|]. intros [= <-].
  reflect_all. split_and!; try done; lia.
Qed.

Lemma domainVersion_ok v w : domainVersion v = Ok w -> w = v /\ 0 < v.
Proof. unfold domainVersion. destruct (v <=? 0) eqn:E; [done|]. intros [= <-]. reflect_all. done. Qed.

Lemma NewScope_ok t a r tr s :
  NewScope t a r tr = Ok s -> s = MkScope (TrimSpace t) (TrimSpace a) (TrimSpace r) (TrimSpace tr).
Proof. unfold NewScope. intros Hok. ok_inv. done. Qed.

(** internal/audit: the typed audit envelope (events.go) and its validation
    (validation.go). *)

(** The event types of the execution runtime; [EventOther] is any other
    string, among them the intent, approval, policy and autonomy events. *)
Inductive EventType : Set :=
  | EventExecutionCreated | EventExecutionAuthorized | EventExecutionQueued | EventExecutionExecuting
  | EventExecutionSubmitted | EventExecutionConfirming | EventExecutionConfirmed | EventExecutionVerified
  | EventExecutionCompleted | EventExecutionFailed | EventExecutionRecoveryRequired | EventExecutionRecovered
  | EventExecutionCancelled
  | EventOther (raw : string).
#[global] Instance EventType_eq_dec : EqDecision EventType.
Proof. solve_decision. Defined.
Definition no_event : EventType := EventOther "".

Record Event := MkEvent {
  ev_EventID : string; ev_Type : EventType; ev_OccurredAt : Time; ev_IntentID : string; ev_IntentVersion : Z;
  ev_IntentDigest : string; ev_ApprovalID : string; ev_PolicyID : string; ev_PolicyVersion : Z;
  ev_PolicyDecision : string; ev_PolicyEvaluationKey : string; ev_ExecutionID : string; ev_ExecutionRevision : Z;
  ev_ExecutionRequestID : string; ev_ExecutionRequestKey : string; ev_ExecutionStatus : string;
  ev_RecoveryReasonCode : string; ev_WalletBindingID : string; ev_WalletBindingVersion : Z; ev_UserID : string;
  ev_OperationKey : string; ev_OperationVersion : Z
}.
#[global] Instance Event_eq_dec : EqDecision Event.
Proof. solve_decision. Defined.

(** [audit.Record] *)
Record AuditRecord := MkAuditRecord {
  aud_Event : Event; aud_ActorType : string; aud_ActorID : string; aud_RequestID : string; aud_TraceID : string;
  aud_ResourceType : string; aud_ResourceID : string; aud_PreviousState : string; aud_NewState : string;
  aud_SafeReasonCode : string; aud_SourceComponent : string
}.
#[global] Instance AuditRecord_eq_dec : EqDecision AuditRecord.
Proof. solve_decision. Defined.

Definition safeField (name value : string) (required : bool) : result unit :=
  if required && (value == "") then Err (errorf1 "%s is required" name)
  else if (256 <? len value) || has_control value then Err (errorf1 "%s is invalid" name)
  else Ok tt.

Definition forbidden_words : list string :=
  [ "private_key"; "private key"; "seed phrase"; "mnemonic"; "signing share"; "oauth token"; "access_token";
    "refresh_token"; "authorization: bearer"; "client_secret"; "api_key" ].

Section validation.
Context `{UnicodeTables}.

Definition containsForbidden (value : string) : bool :=
  let lower := ToLower value in existsb (Contains lower) forbidden_words.

Definition audited_fields (r : AuditRecord) : list string :=
  let e := aud_Event r in
  [ aud_ActorType r; aud_ActorID r; aud_RequestID r; aud_TraceID r; aud_ResourceType r; aud_ResourceID r;
    aud_SafeReasonCode r; aud_SourceComponent r; ev_IntentID e; ev_IntentDigest e; ev_ApprovalID e; ev_PolicyID e;
    ev_PolicyEvaluationKey e; ev_ExecutionID e; ev_ExecutionRequestID e; ev_ExecutionRequestKey e;
    ev_RecoveryReasonCode e; ev_WalletBindingID e; ev_UserID e; ev_OperationKey e ].

(** [Record.Validate]; the two field loops range over Go maps, whose order
    only decides which of several invalid fields is named. *)
Definition AuditRecord_Validate (r : AuditRecord) : result unit :=
  let e := aud_Event r in
  do! fail_if ((ev_EventID e == "") || (ev_Type e == no_event) || IsZero (ev_OccurredAt e))
        (errorf "audit event identity and time are required");
  do! for_each (fun '(name, value) => safeField name value true)
        [ ("actor type", aud_ActorType r); ("actor ID", aud_ActorID r); ("request ID", aud_RequestID r);
          ("resource type", aud_ResourceType r); ("resource ID", aud_ResourceID r);
          ("source component", aud_SourceComponent r) ];
  do! for_each (fun '(name, value) => safeField name value false)
        [ ("trace ID", aud_TraceID r); ("previous state", aud_PreviousState r); ("new state", aud_NewState r);
          ("safe reason code", aud_SafeReasonCode r) ];
  for_each (fun value => fail_if (containsForbidden value)
                           (errorf "audit record contains forbidden material")) (audited_fields r).
End validation.
