(* ===== verification/Database.v ===== *)
(** The tables behind the execution runtime and the SQL statements the
    repositories run on them (db/queries/foundation.sql, with the constraints
    and triggers of db/migrations), as functions on a database value.

    A statement either fails and leaves the database alone or returns its
    answer with the next database.  The execution_revisions table is left out:
    it only repeats (revision, status) pairs of past rows, and every constraint
    on it follows from the guards below. *)
From S2P Require Import Prelude GoStrings GoTime AppErrors Execution Storage.
Open Scope Z_scope.
Open Scope go_scope.

(** * Rows *)
(** (tenant_id, execution_id) *)
Abbreviation key := (string * string)%type (only parsing).

(** execution_requests, less the tenant. *)
Record request_row := MkRequestRow { rq_user_id : string; rq_request : Request }.

(** executions, less the key. *)
Record execution_row := MkExecutionRow {
  ex_request_id : string; ex_status : Status; ex_revision : Z; ex_created_at : Time; ex_updated_at : Time;
  ex_failure : Failure; ex_failed_from : Status; ex_recovery : Recovery
}.

(** execution_runtime_work, less the key. *)
Record work_row := MkWorkRow {
  wk_next_run_at : Time; wk_lease_owner : string; wk_lease_expires_at : option Time; wk_fencing_token : Z;
  wk_submission_started : bool
}.

(** verification_evidence; the identity column is the position in the table. *)
Record evidence_row := MkEvidenceRow {
  evd_key : key; evd_version : Z; evd_status : Status; evd_reference : string; evd_error_code : string;
  evd_observed_at : Time
}.

(** audit_records *)
Record audit_row := MkAuditRow { ar_tenant : string; ar_record : AuditRecord }.

Record Database := MkDatabase {
  db_requests : gmap (string * string) request_row;
  db_executions : gmap (string * string) execution_row;
  db_work : gmap (string * string) work_row;
  db_evidence : list evidence_row;
  db_audit : list audit_row
}.
Definition empty_database : Database := MkDatabase ∅ ∅ ∅ [] [].

Definition set_executions (db : Database) m := MkDatabase (db_requests db) m (db_work db) (db_evidence db) (db_audit db).
Definition set_work (db : Database) m := MkDatabase (db_requests db) (db_executions db) m (db_evidence db) (db_audit db).

Definition unique_violation : error := PgError "23505".
Definition check_violation : error := PgError "23514".
Definition null_violation : error := PgError "23502".
Definition not_null (t : option Time) : result Time := match t with Some t => Ok t | None => Err null_violation end.

(** * Creating an execution *)
Definition CreateExecutionRequest (tenant : string) (row : request_row) (db : Database) : result Database :=
  let r := rq_request row in
  let clashes (k : key) (other : request_row) : Prop :=
    k.1 = tenant /\ (req_requestID (rq_request other) = req_requestID r
      \/ (req_requestKey (rq_request other) = req_requestKey r /\ req_version (rq_request other) = req_version r)
      \/ k.2 = req_executionID r
      \/ (req_operationKey (rq_request other) = req_operationKey r
          /\ req_operationVersion (rq_request other) = req_operationVersion r)) in
  do! fail_if (bool_decide (map_Exists clashes (db_requests db))) unique_violation;
  Ok (MkDatabase (<[(tenant, req_executionID r) := row]> (db_requests db)) (db_executions db) (db_work db)
        (db_evidence db) (db_audit db)).

(** The insert and its trigger, which creates the runtime work row unless one
    exists. *)
Definition CreateExecution_row (tenant id : string) (row : execution_row) (db : Database) : result Database :=
  do! fail_if (negb (Status_Valid (ex_status row)) || (ex_revision row <=? 0)) check_violation;
  match db_executions db !! (tenant, id) with
  | Some _ => Err unique_violation
  | None =>
      let work := match db_work db !! (tenant, id) with
                  | Some w => w
                  | None => MkWorkRow (ex_updated_at row) "" None 0 false
                  end in
      Ok (MkDatabase (db_requests db) (<[(tenant, id) := row]> (db_executions db))
            (<[(tenant, id) := work]> (db_work db)) (db_evidence db) (db_audit db))
  end.

(** * Reading executions *)
(** [executions e JOIN execution_requests r USING (tenant_id, request_id)]; the
    foreign key makes the joined request the one of this execution. *)
Definition joined (tenant id actor : string) (db : Database) : option (execution_row * request_row) :=
  match db_executions db !! (tenant, id), db_requests db !! (tenant, id) with
  | Some e, Some r =>
      if (ex_request_id e == req_requestID (rq_request r)) && (rq_user_id r == actor) then Some (e, r) else None
  | _, _ => None
  end.

Definition find_joined (tenant actor : string) (p : Request -> bool) (db : Database)
    : option (string * execution_row * request_row) :=
  head (omap (fun '(k, r) =>
          if (k.1 == tenant) && p (rq_request r) then
            match joined tenant k.2 actor db with Some (e, r) => Some (k.2, e, r) | None => None end
          else None) (map_to_list (db_requests db))).

(** * Updating an execution *)
Record UpdateParams := MkUpdateParams {
  up_tenant : string; up_execution_id : string; up_status : Status; up_revision : Z; up_updated_at : option Time;
  up_failure : Failure; up_failed_from : Status; up_recovery : Recovery; up_expected : Z; up_actor : string
}.

Definition UpdateExecution_row (p : UpdateParams) (db : Database) : result (execution_row * Database) :=
  match joined (up_tenant p) (up_execution_id p) (up_actor p) db with
  | Some (e, _) =>
      do! fail_if ((ex_revision e != up_expected p) || (up_revision p != (up_expected p + 1))) ErrNoRows;
      let! updated_at := not_null (up_updated_at p) in
      do! fail_if (negb (Status_Valid (up_status p)) || (up_revision p <=? 0)) check_violation;
      let row := MkExecutionRow (ex_request_id e) (up_status p) (up_revision p) (ex_created_at e) updated_at
                   (up_failure p) (up_failed_from p) (up_recovery p) in
      Ok (row, set_executions db (<[(up_tenant p, up_execution_id p) := row]> (db_executions db)))
  | None => Err ErrNoRows
  end.

(** * Runtime work *)
(** Past its run time, not leased, and not terminal. *)
Definition claimable (clock : Time) (w : work_row) (e : execution_row) : bool :=
  (wk_next_run_at w <=? clock)
  && (match wk_lease_expires_at w with None => true | Some t => t <=? clock end)
  && (ex_status e != StatusCompleted) && (ex_status e != StatusCancelled)
  && negb ((ex_status e == StatusFailed) && (fai_Eligibility (ex_failure e) == RecoveryTerminal)).

Definition leased (owner : string) (microseconds : Z) (clock : Time) (w : work_row) : work_row :=
  MkWorkRow (wk_next_run_at w) owner (Some (clock + microseconds * Microsecond)) (wk_fencing_token w + 1)
    (wk_submission_started w).

Definition take_lease (k : key) (owner : string) (microseconds : Z) (clock : Time) (w : work_row) (db : Database)
    : work_row * Database :=
  let w' := leased owner microseconds clock w in (w', set_work db (<[k := w']> (db_work db))).

Definition ClaimExecutionWork_row (owner : string) (microseconds : Z) (tenant id actor : string) (clock : Time)
    (db : Database) : result (work_row * Database) :=
  match db_work db !! (tenant, id), joined tenant id actor db with
  | Some w, Some (e, _) =>
      if claimable clock w e then Ok (take_lease (tenant, id) owner microseconds clock w db) else Err ErrNoRows
  | _, _ => Err ErrNoRows
  end.

(** [ORDER BY w.next_run_at, w.tenant_id, w.execution_id] with text compared
    byte by byte; the collation only breaks ties. *)
Definition runs_before (x y : key * work_row) : bool :=
  let '((t1, i1), w1) := x in
  let '((t2, i2), w2) := y in
  (wk_next_run_at w1 <? wk_next_run_at w2)
  || ((wk_next_run_at w1 =? wk_next_run_at w2)
      && ((String.ltb t1 t2) || ((t1 == t2) && String.leb i1 i2))).
Definition first_to_run (l : list (key * work_row)) : option (key * work_row) :=
  foldr (fun x best => match best with
                       | Some y => if runs_before x y then Some x else Some y
                       | None => Some x
                       end) None l.
Definition candidates (clock : Time) (locked : list key) (db : Database) : list (key * work_row) :=
  omap (fun '(k, w) =>
    if bool_decide (k ∈ locked) then None else
    match db_executions db !! k with
    | Some e => if claimable clock w e then Some (k, w) else None
    | None => None
    end) (map_to_list (db_work db)).

(** [FOR UPDATE OF w SKIP LOCKED LIMIT 1]: rows that another transaction
    holds are passed over. *)
Definition ClaimNextExecutionWork_row (owner : string) (microseconds : Z) (clock : Time) (locked : list key)
    (db : Database) : result (key * work_row * Database) :=
  match first_to_run (candidates clock locked db) with
  | Some (k, w) => let '(w', db') := take_lease k owner microseconds clock w db in Ok (k, w', db')
  | None => Err ErrNoRows
  end.

(** The presented claim is the current lease. *)
Definition holds (owner : string) (token : Z) (w : work_row) : bool :=
  (wk_lease_owner w == owner) && (wk_fencing_token w =? token).
Definition unexpired (clock : Time) (w : work_row) : bool :=
  match wk_lease_expires_at w with Some t => clock <? t | None => false end.

Definition ValidateExecutionClaim (k : key) (owner : string) (token : Z) (clock : Time) (db : Database) : Z :=
  match db_work db !! k with
  | Some w => if holds owner token w && unexpired clock w then 1 else 0
  | None => 0
  end.

Definition set_submission (started : bool) (w : work_row) : work_row :=
  MkWorkRow (wk_next_run_at w) (wk_lease_owner w) (wk_lease_expires_at w) (wk_fencing_token w) started.

Definition MarkSubmissionStarted_row (k : key) (owner : string) (token : Z) (clock : Time) (db : Database)
    : result (work_row * Database) :=
  match db_work db !! k with
  | Some w =>
      if holds owner token w && unexpired clock w && negb (wk_submission_started w) then
        let w' := set_submission true w in Ok (w', set_work db (<[k := w']> (db_work db)))
      else Err ErrNoRows
  | None => Err ErrNoRows
  end.

Definition ResetSubmissionStarted_rows (k : key) (owner : string) (token : Z) (clock : Time) (db : Database)
    : Z * Database :=
  match db_work db !! k with
  | Some w =>
      if holds owner token w && unexpired clock w && wk_submission_started w
      then (1, set_work db (<[k := set_submission false w]> (db_work db))) else (0, db)
  | None => (0, db)
  end.

Definition ReleaseExecutionWork_rows (k : key) (owner : string) (token : Z) (nextRunAt : option Time) (db : Database)
    : result (Z * Database) :=
  match db_work db !! k with
  | Some w =>
      if holds owner token w then
        let! t := not_null nextRunAt in
        Ok (1, set_work db (<[k := MkWorkRow t "" None (wk_fencing_token w) (wk_submission_started w)]> (db_work db)))
      else Ok (0, db)
  | None => Ok (0, db)
  end.

(** * Evidence and audit *)
Definition evidence_clashes (row other : evidence_row) : bool :=
  (evd_key other == evd_key row) && (evd_version other =? evd_version row) && (evd_status other == evd_status row)
  && (evd_observed_at other =? evd_observed_at row).

Definition evidence_status (s : Status) : bool :=
  match s with
  | StatusSubmitted | StatusConfirming | StatusConfirmed | StatusVerified | StatusCompleted | StatusFailed
  | StatusRecoveryRequired => true
  | _ => false
  end.

Record EvidenceParams := MkEvidenceParams {
  ep_tenant : string; ep_execution_id : string; ep_version : Z; ep_status : Status; ep_reference : string;
  ep_error_code : string; ep_observed_at : option Time; ep_actor : string
}.

(** Inserts a row when the execution is the actor's and at this very revision
    and status. *)
Definition AppendVerificationEvidence_rows (p : EvidenceParams) (db : Database) : result (Z * Database) :=
  match joined (ep_tenant p) (ep_execution_id p) (ep_actor p) db with
  | Some (e, _) =>
      if (ex_revision e =? ep_version p) && (ex_status e == ep_status p) then
        let! observed_at := not_null (ep_observed_at p) in
        do! fail_if (negb (evidence_status (ep_status p)) || (ep_version p <=? 0)) check_violation;
        let row := MkEvidenceRow (ep_tenant p, ep_execution_id p) (ep_version p) (ep_status p) (ep_reference p)
                     (ep_error_code p) observed_at in
        do! fail_if (existsb (evidence_clashes row) (db_evidence db)) unique_violation;
        Ok (1, MkDatabase (db_requests db) (db_executions db) (db_work db) (db_evidence db ++ [row]) (db_audit db))
      else Ok (0, db)
  | None => Ok (0, db)
  end.

(** [ORDER BY v.observed_at, v.evidence_id] *)
Fixpoint insert_by_time (x : evidence_row) (l : list evidence_row) : list evidence_row :=
  match l with
  | [] => [x]
  | y :: l' => if evd_observed_at x <=? evd_observed_at y then x :: l else y :: insert_by_time x l'
  end.
Definition sort_by_time (l : list evidence_row) : list evidence_row := foldr insert_by_time [] l.

Definition FindVerificationEvidence_rows (tenant id actor : string) (db : Database) : list evidence_row :=
  match joined tenant id actor db with
  | Some _ => sort_by_time (filter (fun v => evd_key v = (tenant, id)) (db_evidence db))
  | None => []
  end.

Definition AppendAudit_row (row : audit_row) (db : Database) : result Database :=
  do! fail_if (existsb (fun o => (ar_tenant o == ar_tenant row)
                 && (ev_EventID (aud_Event (ar_record o)) == ev_EventID (aud_Event (ar_record row)))) (db_audit db))
        unique_violation;
  Ok (MkDatabase (db_requests db) (db_executions db) (db_work db) (db_evidence db) (db_audit db ++ [row])).
