(* ===== verification/RuntimeEffects.v ===== *)
(** The effects of the execution runtime: statements and transactions on the
    database, the execution adapter and verifier (internal/execution/adapter.go,
    internal/execution/runtime/boundaries.go), clocks and sleeping.

    Code with effects is a tree of them ([prog]), one node per atomic action, so
    that several workers can be interleaved between any two actions; [step]
    runs one node in an environment that supplies the answers. *)
From S2P Require Import Prelude GoStrings GoTime AppErrors Execution Storage Database.
Open Scope Z_scope.
Open Scope go_scope.

(** * Adapter and verifier results (boundaries.go) *)
Inductive VerificationOutcome : Set :=
  VerificationPending | VerificationVerified | VerificationFailed | OutcomeOther (raw : string).

Record VerificationResult := MkVerificationResult {
  vr_Outcome : VerificationOutcome; vr_Reference : string; vr_ReasonCode : string; vr_ObservedAt : Time
}.

Definition VerificationResult_Validate (r : VerificationResult) : result unit :=
  do! fail_if (IsZero (vr_ObservedAt r)) (errorf "verification observation time is required");
  match vr_Outcome r with
  | VerificationPending | VerificationVerified =>
      fail_if ((vr_Reference r == "") || (vr_ReasonCode r != ""))
        (errorf "verification reference is required without a failure reason")
  | VerificationFailed => fail_if (vr_ReasonCode r == "") (errorf "verified failure reason is required")
  | OutcomeOther _ => Err (errorf "verification outcome is invalid")
  end.

Definition AdapterFailureTransient : string := "TRANSIENT".
Definition AdapterFailurePermanent : string := "PERMANENT".
Definition NewAdapterError (kind reasonCode : string) : error := AdapterError kind reasonCode.
Definition NewVerificationError (reasonCode : string) : error := VerificationError reasonCode.
Definition as_adapter (e : error) : option (string * string) :=
  match e with AdapterError kind code => Some (kind, code) | _ => None end.
Definition as_verification (e : error) : option string :=
  match e with VerificationError code => Some code | _ => None end.
Definition adapterFailure (e : error) : option (string * string) := errors_As as_adapter e.
Definition verificationFailure (e : error) : option string := errors_As as_verification e.

(** * Statements and transactions *)
Record RequestParams := MkRequestParams {
  rp_tenant : string; rp_user_id : string; rp_request : Request; rp_policy_evaluated_at : option Time;
  rp_created_at : option Time
}.
Record ExecutionParams := MkExecutionParams {
  xp_tenant : string; xp_execution_id : string; xp_request_id : string; xp_status : Status; xp_revision : Z;
  xp_created_at : option Time; xp_updated_at : option Time; xp_failure : Failure; xp_failed_from : Status;
  xp_recovery : Recovery
}.

(** The write of a claim holder: validate the claim, update the execution,
    append the evidence if there is any, append the audit record. *)
Record ClaimedWrite := MkClaimedWrite {
  cw_key : key; cw_owner : string; cw_token : Z; cw_update : UpdateParams; cw_evidence : option EvidenceParams;
  cw_audit : audit_row
}.

Inductive query : Type -> Type :=
  | CreateExecution_tx (r : RequestParams) (e : ExecutionParams) : query unit
  | FindByID (tenant id actor : string) : query (string * execution_row * request_row)
  | FindByRequestKey (tenant requestKey : string) (version : Z) (actor : string) : query (string * execution_row * request_row)
  | FindByOperationKey (tenant operationKey : string) (version : Z) (actor : string) : query (string * execution_row * request_row)
  | UpdateExecution_q (p : UpdateParams) : query execution_row
  | ClaimWork (owner : string) (microseconds : Z) (tenant id actor : string) : query work_row
  | ClaimNext (owner : string) (microseconds : Z) : query (key * work_row)
  | FindExecutionOwner (k : key) : query string
  | ValidateClaim (k : key) (owner : string) (token : Z) : query Z
  | MarkSubmission (k : key) (owner : string) (token : Z) : query work_row
  | ResetSubmission (k : key) (owner : string) (token : Z) : query Z
  | ReleaseWork (k : key) (owner : string) (token : Z) (nextRunAt : option Time) : query Z
  | AppendEvidence (p : EvidenceParams) : query Z
  | FindEvidence (tenant id actor : string) : query (list evidence_row)
  | ClaimedWrite_tx (w : ClaimedWrite) : query unit.

(** Instants and other transactions' locks at the moment a statement runs. *)
Record moment := MkMoment { mo_clock : Time; mo_locked : list key }.

Definition read {Y} (found : option Y) (db : Database) : result (Y * Database) :=
  match found with Some y => Ok (y, db) | None => Err ErrNoRows end.

Definition run_create (r : RequestParams) (e : ExecutionParams) (db : Database) : result Database :=
  let! evaluated_at := not_null (rp_policy_evaluated_at r) in
  let! requested_at := not_null (rp_created_at r) in
  let q := rp_request r in
  let row := MkRequestRow (rp_user_id r)
    (MkRequest (req_requestID q) (req_requestKey q) (req_version q) (req_executionID q) (req_operationKey q)
       (req_operationVersion q) (req_intentID q) (req_intentVersion q) (req_intentDigest q) (req_approvalID q)
       (req_approvalVersion q) (req_policyID q) (req_policyVersion q) (req_policyEvaluationKey q)
       (req_policyEvaluationStage q) evaluated_at requested_at) in
  let! db := CreateExecutionRequest (rp_tenant r) row db in
  let! created_at := not_null (xp_created_at e) in
  let! updated_at := not_null (xp_updated_at e) in
  CreateExecution_row (xp_tenant e) (xp_execution_id e)
    (MkExecutionRow (xp_request_id e) (xp_status e) (xp_revision e) created_at updated_at (xp_failure e)
       (xp_failed_from e) (xp_recovery e)) db.

Definition run_evidence (p : option EvidenceParams) (db : Database) : result Database :=
  match p with
  | None => Ok db
  | Some p =>
      let! r := AppendVerificationEvidence_rows p db in
      do! fail_if (fst r != 1) ErrNoRows;
      Ok (snd r)
  end.

Definition run_claimed_write (w : ClaimedWrite) (clock : Time) (db : Database) : result Database :=
  do! fail_if (ValidateExecutionClaim (cw_key w) (cw_owner w) (cw_token w) clock db != 1) ErrNoRows;
  let! r := UpdateExecution_row (cw_update w) db in
  let! db := run_evidence (cw_evidence w) (snd r) in
  AppendAudit_row (cw_audit w) db.

Definition as_unit (m : result Database) : result (unit * Database) := let! db := m in Ok (tt, db).

Definition run_query {Y} (q : query Y) (now : moment) (db : Database) : result (Y * Database) :=
  match q in query Y return result (Y * Database) with
  | CreateExecution_tx r e => as_unit (run_create r e db)
  | FindByID tenant id actor =>
      read (match joined tenant id actor db with Some (e, r) => Some (id, e, r) | None => None end) db
  | FindByRequestKey tenant k version actor =>
      read (find_joined tenant actor (fun r => (req_requestKey r == k) && (req_version r =? version)) db) db
  | FindByOperationKey tenant k version actor =>
      read (find_joined tenant actor (fun r => (req_operationKey r == k) && (req_operationVersion r =? version)) db) db
  | UpdateExecution_q p => UpdateExecution_row p db
  | ClaimWork owner us tenant id actor => ClaimExecutionWork_row owner us tenant id actor (mo_clock now) db
  | ClaimNext owner us => ClaimNextExecutionWork_row owner us (mo_clock now) (mo_locked now) db
  | FindExecutionOwner k => read (rq_user_id <$> db_requests db !! k) db
  | ValidateClaim k owner token => Ok (ValidateExecutionClaim k owner token (mo_clock now) db, db)
  | MarkSubmission k owner token => MarkSubmissionStarted_row k owner token (mo_clock now) db
  | ResetSubmission k owner token => Ok (ResetSubmissionStarted_rows k owner token (mo_clock now) db)
  | ReleaseWork k owner token at_ => ReleaseExecutionWork_rows k owner token at_ db
  | AppendEvidence p => AppendVerificationEvidence_rows p db
  | FindEvidence tenant id actor => Ok (FindVerificationEvidence_rows tenant id actor db, db)
  | ClaimedWrite_tx w => as_unit (run_claimed_write w (mo_clock now) db)
  end.

(** * Programs *)
Inductive prog (A : Type) : Type :=
  | Ret (a : A)
  | Query {Y : Type} (q : query Y) (k : result Y -> prog A)
  | Execute (ctx : Context_) (r : Request) (k : result Result -> prog A)
  | GetStatus (ctx : Context_) (executionID : string) (k : result Result -> prog A)
  | Verify (ctx : Context_) (e : Execution) (reference : string) (k : result VerificationResult -> prog A)
  | Now (k : Time -> prog A)
  | Sleep (d : Duration) (k : result unit -> prog A).
Arguments Ret {A} a.
Arguments Query {A Y} q k.
Arguments Execute {A} ctx r k.
Arguments GetStatus {A} ctx executionID k.
Arguments Verify {A} ctx e reference k.
Arguments Now {A} k.
Arguments Sleep {A} d k.

Fixpoint bind {A B} (p : prog A) (f : A -> prog B) : prog B :=
  match p with
  | Ret a => f a
  | Query q k => Query q (fun x => bind (k x) f)
  | Execute ctx r k => Execute ctx r (fun x => bind (k x) f)
  | GetStatus ctx id k => GetStatus ctx id (fun x => bind (k x) f)
  | Verify ctx e ref k => Verify ctx e ref (fun x => bind (k x) f)
  | Now k => Now (fun x => bind (k x) f)
  | Sleep d k => Sleep d (fun x => bind (k x) f)
  end.

Notation "'let*' x ':=' p 'in' k" := (bind p (fun x => k))
  (at level 10, x name, p at level 100, k at level 200,
   format "'[v' 'let*'  x  ':='  p  'in' '/' k ']'") : go_scope.

(** [x, err := p; if err != nil { return err }] *)
Definition try_bind {A B} (p : prog (result A)) (f : A -> prog (result B)) : prog (result B) :=
  let* r := p in match r with Ok a => f a | Err e => Ret (Err e) end.
Notation "'try' x ':=' p 'in' k" := (try_bind p (fun x => k))
  (at level 10, x name, p at level 100, k at level 200,
   format "'[v' 'try'  x  ':='  p  'in' '/' k ']'") : go_scope.
Definition pure {A} (r : result A) : prog (result A) := Ret r.
Definition ask {Y} (q : query Y) : prog (result Y) := Query q Ret.

(** * Worlds *)
(** The database and what was handed to [Adapter.Execute], latest first. *)
Record World := MkWorld { w_db : Database; w_submitted : list (Context_ * Request) }.

(** What the surroundings decide about one action: the instants and locks, the
    answers of adapter, verifier and clock, and whether a statement fails on the
    way to the server ([fault] with [false]) or on the way back ([true]: it took
    effect although the caller sees an error). *)
Record environment := MkEnvironment {
  env_moment : moment; env_fault : option (error * bool); env_result : result Result;
  env_verification : result VerificationResult; env_now : Time; env_sleep : result unit
}.

Definition answer_query {Y} (q : query Y) (env : environment) (db : Database) : result Y * Database :=
  let '(r, db') := match run_query q (env_moment env) db with
                   | Ok (y, db') => (Ok y, db')
                   | Err e => (Err e, db)
                   end in
  match env_fault env with
  | None => (r, db')
  | Some (e, took_effect) => (Err e, if took_effect then db' else db)
  end.

(** One action; [None] when the program has returned. *)
Definition step {A} (p : prog A) (env : environment) (w : World) : option (prog A * World) :=
  match p with
  | Ret _ => None
  | Query q k => let '(r, db') := answer_query q env (w_db w) in Some (k r, MkWorld db' (w_submitted w))
  | Execute ctx r k => Some (k (env_result env), MkWorld (w_db w) ((ctx, r) :: w_submitted w))
  | GetStatus _ _ k => Some (k (env_result env), w)
  | Verify _ _ _ k => Some (k (env_verification env), w)
  | Now k => Some (k (env_now env), w)
  | Sleep _ k => Some (k (env_sleep env), w)
  end.

(** Runs a program alone, one environment per action. *)
Fixpoint run {A} (p : prog A) (envs : list environment) (w : World) : prog A * World :=
  match envs with
  | [] => (p, w)
  | env :: rest => match step p env w with Some (p', w') => run p' rest w' | None => (p, w) end
  end.
