(* ===== verification/ExecutionStore.v ===== *)
(** internal/storage/postgres: the execution, runtime and evidence
    repositories (execution_repository.go, runtime_repository.go,
    evidence_repository.go, audit_repository.go). *)
From S2P Require Import Prelude GoStrings GoTime AppErrors Policies Execution Storage Database RuntimeEffects.
Open Scope Z_scope.
Open Scope go_scope.

Section store.
Context `{UnicodeTables} `{PgTimestamp}.

(** A single statement of a method, with the driver error it maps. *)
Definition mapped {Y} (q : query Y) : prog (result Y) := Query q (fun r => Ret (map_err mapDatabaseError r)).
(** [errors.Is(err, pgx.ErrNoRows)] tested on the driver error first. *)
Definition if_no_rows {Y Z'} (q : query Y) (none : result Z') (some : Y -> prog (result Z')) : prog (result Z') :=
  Query q (fun r => match r with
                    | Ok y => some y
                    | Err e => Ret (if errors_Is e ErrNoRows then none else Err (mapDatabaseError e))
                    end).

(** * Columns of executions (execution_repository.go) *)
Definition requestCreateParams (scope : Scope) (value : Request) : result RequestParams :=
  let! _ := dbVersion (req_version value) in
  let! _ := dbVersion (req_operationVersion value) in
  let! _ := dbVersion (req_intentVersion value) in
  let! _ := dbVersion (req_approvalVersion value) in
  let! _ := dbVersion (req_policyVersion value) in
  Ok (MkRequestParams (sc_tenantID scope) (sc_actorID scope) value (dbTime (req_policyEvaluatedAt value))
        (dbTime (req_createdAt value))).

Definition executionCreateParams (scope : Scope) (value : Execution) : result ExecutionParams :=
  let! revision := dbVersion (exe_revision value) in
  Ok (MkExecutionParams (sc_tenantID scope) (ExecutionID value) (req_requestID (exe_request value))
        (exe_status value) revision (dbTime (exe_createdAt value)) (dbTime (exe_updatedAt value))
        (exe_failure value) (exe_failedFrom value) (exe_recovery value)).

Definition executionUpdateParams (scope : Scope) (value : Execution) (expected : Z) : result UpdateParams :=
  let! revision := dbVersion (exe_revision value) in
  let! expectedRevision := dbVersion expected in
  Ok (MkUpdateParams (sc_tenantID scope) (ExecutionID value) (exe_status value) revision
        (dbTime (exe_updatedAt value)) (exe_failure value) (exe_failedFrom value) (exe_recovery value)
        expectedRevision (sc_actorID scope)).

(** The record of an execution row joined with its request row. *)
Definition restoreExecutionRecord (id : string) (e : execution_row) (r : request_row) : result Execution :=
  let q := rq_request r in
  let! requestVersion := domainVersion (req_version q) in
  let! operationVersion := domainVersion (req_operationVersion q) in
  let! intentVersion := domainVersion (req_intentVersion q) in
  let! approvalVersion := domainVersion (req_approvalVersion q) in
  let! policyVersion := domainVersion (req_policyVersion q) in
  let! revision := domainVersion (ex_revision e) in
  let! request := RestoreRequest
    (MkRequest (ex_request_id e) (req_requestKey q) requestVersion id (req_operationKey q) operationVersion
       (req_intentID q) intentVersion (req_intentDigest q) (req_approvalID q) approvalVersion (req_policyID q)
       policyVersion (req_policyEvaluationKey q) (req_policyEvaluationStage q)
       (domainTime (Some (req_policyEvaluatedAt q))) (domainTime (Some (req_createdAt q)))) in
  Execution_Restore (MkExecution request (ex_status e) revision (domainTime (Some (ex_created_at e)))
                       (domainTime (Some (ex_updated_at e))) (ex_failure e) (ex_failed_from e) (ex_recovery e)).

Definition equalExecutionRequest (a b : Request) : bool := a == b.

(** * Finding and creating *)
Definition execution_not_found : error := notFound CodeExecutionNotFound "Execution is not accessible.".
Definition restored (q : query (string * execution_row * request_row)) : prog (result Execution) :=
  if_no_rows q (Err execution_not_found)
    (fun '(id, e, r) => pure (restoreExecutionRecord id e r)).

Definition FindExecutionByID (scope : Scope) (id : string) : prog (result Execution) :=
  try _ := pure (Scope_Validate scope) in
  restored (FindByID (sc_tenantID scope) id (sc_actorID scope)).

Definition FindExecutionByRequestKey (scope : Scope) (k : string) (version : Z) : prog (result Execution) :=
  try _ := pure (Scope_Validate scope) in
  try dbv := pure (dbVersion version) in
  restored (FindByRequestKey (sc_tenantID scope) k dbv (sc_actorID scope)).

Definition FindExecutionByOperationKey (scope : Scope) (k : string) (version : Z) : prog (result Execution) :=
  try _ := pure (Scope_Validate scope) in
  try dbv := pure (dbVersion version) in
  restored (FindByOperationKey (sc_tenantID scope) k dbv (sc_actorID scope)).

Definition store_conflict (msg : string) : error := AppErrors.New CodeExecutionConflict msg false true true.

(** [CreateExecution]: the execution and whether this call created it. *)
Definition CreateExecution (scope : Scope) (value : Execution) : prog (result (Execution * bool)) :=
  try _ := pure (Scope_Validate scope) in
  try _ := pure (Execution_Validate value) in
  try requestParams := pure (requestCreateParams scope (exe_request value)) in
  try executionParams := pure (executionCreateParams scope value) in
  let* r := mapped (CreateExecution_tx requestParams executionParams) in
  match r with
  | Ok _ => Ret (Ok (value, true))
  | Err err =>
      if negb (error_code err == Some CodeExecutionConflict) then Ret (Err err) else
      let* found := FindExecutionByOperationKey scope (req_operationKey (exe_request value))
                      (req_operationVersion (exe_request value)) in
      match found with
      | Err _ => Ret (Err err)
      | Ok existing =>
          if negb (equalExecutionRequest (exe_request existing) (exe_request value))
          then Ret (Err (store_conflict "Operation already has a different execution request."))
          else Ret (Ok (existing, false))
      end
  end.

Definition UpdateExecution (scope : Scope) (value : Execution) (expected : Z) : prog (result Execution) :=
  try _ := pure (Scope_Validate scope) in
  try _ := pure (Execution_Validate value) in
  try _ := pure (fail_if ((expected =? max_uint64) || (exe_revision value != u64 (expected + 1)))
                  (store_conflict "Execution revision must advance exactly once.")) in
  try p := pure (executionUpdateParams scope value expected) in
  if_no_rows (UpdateExecution_q p) (Err (store_conflict "Execution changed concurrently."))
    (fun row =>
       let q := exe_request value in
       pure (restoreExecutionRecord (ExecutionID value) row
         (MkRequestRow (sc_actorID scope)
            (MkRequest (req_requestID q) (req_requestKey q) (int64 (req_version q)) (req_executionID q)
               (req_operationKey q) (int64 (req_operationVersion q)) (req_intentID q) (int64 (req_intentVersion q))
               (req_intentDigest q) (req_approvalID q) (int64 (req_approvalVersion q)) (req_policyID q)
               (int64 (req_policyVersion q)) (req_policyEvaluationKey q) (req_policyEvaluationStage q)
               (domainTime (dbTime (req_policyEvaluatedAt q))) (domainTime (dbTime (req_createdAt q))))))).

(** * Evidence (evidence_repository.go) *)
Definition evidence_params (scope : Scope) (value : Result) (version : Z) (errorCode : string) : EvidenceParams :=
  MkEvidenceParams (sc_tenantID scope) (res_executionID value) version (res_status value) (res_adapterReference value)
    errorCode (dbTime (res_observedAt value)) (sc_actorID scope).

Definition AppendVerificationEvidence (scope : Scope) (value : Result) : prog (result unit) :=
  try _ := pure (Scope_Validate scope) in
  try _ := pure (Result_Validate value) in
  try version := pure (dbVersion (res_executionVersion value)) in
  try inserted := mapped (AppendEvidence (evidence_params scope value version (res_errorCode value))) in
  pure (fail_if (inserted != 1)
          (store_conflict "Verification evidence does not match the current execution revision.")).

Definition evidence_from_row (row : evidence_row) : result Result :=
  let! version := domainVersion (evd_version row) in
  NewResult (MkResult (evd_key row).2 version (evd_status row) (evd_reference row) (evd_error_code row)
               (domainTime (Some (evd_observed_at row)))).

Definition evidence_from_rows (rows : list evidence_row) : result (list Result) :=
  fold_result (fun values row => let! value := evidence_from_row row in Ok (values ++ [value])) [] rows.

Definition FindVerificationEvidence (scope : Scope) (executionID : string) : prog (result (list Result)) :=
  try _ := pure (Scope_Validate scope) in
  try rows := mapped (FindEvidence (sc_tenantID scope) executionID (sc_actorID scope)) in
  pure (evidence_from_rows rows).

(** * Audit rows (audit_repository.go) *)
Definition auditParams (scope : Scope) (record : AuditRecord) : result audit_row :=
  do! Scope_Validate scope;
  do! AuditRecord_Validate record;
  let actorMatches :=
    if (aud_ActorType record == "system") && (aud_SourceComponent record == "execution_runtime")
    then (aud_ActorID record != "") && (ev_UserID (aud_Event record) == sc_actorID scope)
    else aud_ActorID record == sc_actorID scope in
  do! fail_if (negb actorMatches || (aud_RequestID record != sc_requestID scope)
               || (aud_TraceID record != sc_traceID scope))
        (AppErrors.New CodeAuthorizationRequired "Audit attribution does not match the trusted request scope."
           false true true);
  let e := aud_Event record in
  Ok (MkAuditRow (sc_tenantID scope)
    (MkAuditRecord
      (MkEvent (ev_EventID e) (ev_Type e) (domainTime (dbTime (ev_OccurredAt e))) (ev_IntentID e)
         (int64 (ev_IntentVersion e)) (ev_IntentDigest e) (ev_ApprovalID e) (ev_PolicyID e)
         (int64 (ev_PolicyVersion e)) (ev_PolicyDecision e) (ev_PolicyEvaluationKey e) (ev_ExecutionID e)
         (int64 (ev_ExecutionRevision e)) (ev_ExecutionRequestID e) (ev_ExecutionRequestKey e)
         (ev_ExecutionStatus e) (ev_RecoveryReasonCode e) (ev_WalletBindingID e) (int64 (ev_WalletBindingVersion e))
         (ev_UserID e) (ev_OperationKey e) (int64 (ev_OperationVersion e)))
      (aud_ActorType record) (aud_ActorID record) (aud_RequestID record) (aud_TraceID record)
      (aud_ResourceType record) (aud_ResourceID record) (aud_PreviousState record) (aud_NewState record)
      (aud_SafeReasonCode record) (aud_SourceComponent record))).

(** * Claims (runtime_repository.go) *)
Definition invalid_claim : error :=
  AppErrors.New CodeValidationError "Execution work claim is invalid." false true true.
Definition claim_changed : error :=
  AppErrors.New CodeExecutionConflict "Execution work claim changed concurrently." true false false.

Definition validateClaimInput (workerID : string) (now : Time) (leaseDuration : Duration) : result unit :=
  fail_if ((workerID == "") || IsZero now || (leaseDuration <=? 0) || (Hour <? leaseDuration)) invalid_claim.

Definition executionClaim (scope : Scope) (value : work_row) (e : Execution) : result ExecutionClaim :=
  let! token := domainVersion (wk_fencing_token value) in
  Ok (MkExecutionClaim scope e (wk_lease_owner value) token (domainTime (wk_lease_expires_at value))
        (wk_submission_started value)).

Definition Microseconds (d : Duration) : Z := Z.quot d Microsecond.

(** What both claim methods do once the lease is theirs. *)
Definition confirm_claim (scope : Scope) (k : key) (workerID : string) (row : work_row)
    : prog (result (option ExecutionClaim)) :=
  try value := FindExecutionByID scope k.2 in
  try rows := mapped (ValidateClaim k workerID (wk_fencing_token row)) in
  try _ := pure (fail_if (rows != 1) claim_changed) in
  try claim := pure (executionClaim scope row value) in
  Ret (Ok (Some claim)).

(** [None]: nothing to claim. *)
Definition ClaimExecutionWork (scope : Scope) (executionID workerID : string) (now : Time)
    (leaseDuration : Duration) : prog (result (option ExecutionClaim)) :=
  try _ := pure (Scope_Validate scope) in
  try _ := pure (fail_if (executionID == "")
                  (AppErrors.New CodeValidationError "Execution identity is required." false true true)) in
  try _ := pure (validateClaimInput workerID now leaseDuration) in
  if_no_rows (ClaimWork workerID (Microseconds leaseDuration) (sc_tenantID scope) executionID (sc_actorID scope))
    (Ok None)
    (fun row => confirm_claim scope (sc_tenantID scope, executionID) workerID row).

Definition ClaimNextExecutionWork (workerID : string) (now : Time) (leaseDuration : Duration)
    : prog (result (option ExecutionClaim)) :=
  try _ := pure (validateClaimInput workerID now leaseDuration) in
  if_no_rows (ClaimNext workerID (Microseconds leaseDuration)) (Ok None)
    (fun '(k, row) =>
       try owner := mapped (FindExecutionOwner k) in
       try scope := pure (NewScope k.1 owner
                            ("runtime:" +:+ workerID +:+ ":" +:+ FormatInt (wk_fencing_token row)) "") in
       confirm_claim scope k workerID row).

Definition MarkSubmissionStarted (claim : ExecutionClaim) (now : Time) : prog (result (ExecutionClaim * bool)) :=
  try token := pure (dbVersion (cl_FencingToken claim)) in
  if_no_rows (MarkSubmission (cl_key claim) (cl_LeaseOwner claim) token) (Ok (claim, false))
    (fun row =>
       try updated := pure (executionClaim (cl_Scope claim) row (cl_Execution claim)) in
       Ret (Ok (updated, true))).

Definition validateClaimParams (claim : ExecutionClaim) (now : Time) : result Z :=
  do! Scope_Validate (cl_Scope claim);
  do! fail_if ((cl_LeaseOwner claim == "") || IsZero now) invalid_claim;
  dbVersion (cl_FencingToken claim).

(** Not called by the runtime. *)
Definition ResetSubmissionStarted (claim : ExecutionClaim) (now : Time) : prog (result (ExecutionClaim * bool)) :=
  try token := pure (validateClaimParams claim now) in
  try rows := mapped (ResetSubmission (cl_key claim) (cl_LeaseOwner claim) token) in
  if rows != 1 then Ret (Ok (claim, false))
  else Ret (Ok (MkExecutionClaim (cl_Scope claim) (cl_Execution claim) (cl_LeaseOwner claim)
                  (cl_FencingToken claim) (cl_LeaseExpiresAt claim) false, true)).

Definition validateRuntimeAudit (claim : ExecutionClaim) (next : Execution) (record : AuditRecord) : result unit :=
  let current := cl_Execution claim in
  fail_if ((ExecutionID current != ExecutionID next) || (aud_ResourceType record != "execution")
           || (aud_ResourceID record != ExecutionID next)
           || (aud_PreviousState record != Status_string (exe_status current))
           || (aud_NewState record != Status_string (exe_status next))
           || (ev_ExecutionID (aud_Event record) != ExecutionID next)
           || (ev_ExecutionRevision (aud_Event record) != exe_revision next)
           || (ev_ExecutionStatus (aud_Event record) != Status_string (exe_status next)))
    (AppErrors.New CodeExecutionInvalid "Execution audit does not match the claimed transition." false true true).

(** The transaction of a claim holder and the mapping of its error. *)
Definition claimed_write (claim : ExecutionClaim) (token : Z) (update : UpdateParams)
    (evidence : option EvidenceParams) (auditValue : audit_row) (changed : string) (value : Execution)
    : prog (result Execution) :=
  let* r := mapped (ClaimedWrite_tx
              (MkClaimedWrite (cl_key claim) (cl_LeaseOwner claim) token update evidence auditValue)) in
  match r with
  | Ok _ => Ret (Ok value)
  | Err err =>
      Ret (Err (if errors_Is err ErrNoRows
                then AppErrors.New CodeExecutionConflict changed true false false else err))
  end.

Definition UpdateClaimedExecution (claim : ExecutionClaim) (value : Execution) (expected : Z)
    (record : AuditRecord) (now : Time) : prog (result Execution) :=
  try token := pure (validateClaimParams claim now) in
  try _ := pure (Execution_Validate value) in
  try _ := pure (validateRuntimeAudit claim value record) in
  try update := pure (executionUpdateParams (cl_Scope claim) value expected) in
  try auditValue := pure (auditParams (cl_Scope claim) record) in
  claimed_write claim token update None auditValue
    "Execution work claim or revision changed concurrently." value.

Definition mismatch (msg : string) : error := AppErrors.New CodeExecutionInvalid msg false true true.

(** The evidence parameters carry no error code here. *)
Definition PersistClaimedObservation (claim : ExecutionClaim) (evidence : Result) (value : Execution)
    (expected : Z) (record : AuditRecord) (now : Time) : prog (result Execution) :=
  try token := pure (validateClaimParams claim now) in
  try _ := pure (Result_Validate evidence) in
  try _ := pure (validateRuntimeAudit claim value record) in
  try _ := pure (fail_if ((res_executionID evidence != ExecutionID value)
                          || (res_executionVersion evidence != exe_revision value)
                          || (exe_revision value != u64 (expected + 1)))
                  (mismatch "Execution observation does not match the execution revision.")) in
  try version := pure (dbVersion (res_executionVersion evidence)) in
  try update := pure (executionUpdateParams (cl_Scope claim) value expected) in
  try auditValue := pure (auditParams (cl_Scope claim) record) in
  claimed_write claim token update (Some (evidence_params (cl_Scope claim) evidence version "")) auditValue
    "Execution work claim, revision, or observation changed concurrently." value.

Definition PersistClaimedEvidence (claim : ExecutionClaim) (evidence : Result) (value : Execution)
    (expected : Z) (record : AuditRecord) (now : Time) : prog (result Execution) :=
  try token := pure (validateClaimParams claim now) in
  try _ := pure (Result_Validate evidence) in
  try _ := pure (validateRuntimeAudit claim value record) in
  try _ := pure (fail_if ((exe_status value != StatusVerified) || (res_status evidence != StatusVerified)
                          || (res_executionID evidence != ExecutionID value)
                          || (exe_revision value != u64 (expected + 1))
                          || (res_executionVersion evidence != exe_revision value))
                  (mismatch "Verification evidence does not match the verified execution.")) in
  try version := pure (dbVersion (res_executionVersion evidence)) in
  try update := pure (executionUpdateParams (cl_Scope claim) value expected) in
  try auditValue := pure (auditParams (cl_Scope claim) record) in
  claimed_write claim token update
    (Some (evidence_params (cl_Scope claim) evidence version (res_errorCode evidence))) auditValue
    "Execution work claim, revision, or evidence changed concurrently." value.

Definition ReleaseExecutionWork (claim : ExecutionClaim) (nextRunAt : Time) : prog (result bool) :=
  try _ := pure (Scope_Validate (cl_Scope claim)) in
  try _ := pure (fail_if (IsZero nextRunAt)
                  (AppErrors.New CodeValidationError "Next execution run time is required." false true true)) in
  try token := pure (dbVersion (cl_FencingToken claim)) in
  try rows := mapped (ReleaseWork (cl_key claim) (cl_LeaseOwner claim) token (dbTime nextRunAt)) in
  try _ := pure (fail_if (rows != 1) claim_changed) in
  Ret (Ok true).
End store.
