(* ===== verification/Runtime.v ===== *)
(** internal/execution/runtime: the service that drives an execution through
    its lifecycle (service.go) and the polling worker (worker.go). *)
From S2P Require Import Prelude GoStrings GoTime Sha256 AppErrors Policies Execution Storage Database RuntimeEffects.
From S2P Require Import ExecutionStore.
Open Scope Z_scope.
Open Scope go_scope.

Record Config := MkConfig { cfg_WorkerID : string; cfg_LeaseDuration : Duration; cfg_RetryInterval : Duration }.

Definition Config_Validate (c : Config) : result unit :=
  fail_if ((cfg_WorkerID c == "") || (cfg_LeaseDuration c <=? 0) || (Hour <? cfg_LeaseDuration c)
           || (cfg_RetryInterval c <=? 0) || (Hour <? cfg_RetryInterval c))
    (errorf "valid worker ID, lease duration, and retry interval are required").

(** [execution.Execution{}] *)
Definition no_request : Request :=
  MkRequest "" "" 0 "" "" 0 "" 0 "" "" 0 "" 0 "" EvaluationStageBeforeExecution zero_time zero_time.
Definition no_execution : Execution :=
  MkExecution no_request no_status 0 zero_time zero_time no_failure no_status no_recovery.

(** Handlers return the current value together with the error. *)
Definition outcome_pair : Type := (Execution * option error)%type.
Definition keep (value : Execution) (e : error) : prog outcome_pair := Ret (value, Some e).
Definition done (value : Execution) : prog outcome_pair := Ret (value, None).
(** [return s.runtime.F(...)] of a method that returns [(Execution, error)]. *)
Definition returning (p : prog (result Execution)) : prog outcome_pair :=
  let* r := p in Ret (match r with Ok v => (v, None) | Err e => (no_execution, Some e) end).
(** [x, err := m; if err != nil { return value, err }] *)
Definition or_keep {A} (value : Execution) (m : result A) (k : A -> prog outcome_pair) : prog outcome_pair :=
  match m with Ok a => k a | Err e => keep value e end.

Section service.
Context `{UnicodeTables} `{PgTimestamp}.

(** * Audit *)
Definition eventType (s : Status) : EventType :=
  match s with
  | StatusAuthorized => EventExecutionAuthorized | StatusQueued => EventExecutionQueued
  | StatusExecuting => EventExecutionExecuting | StatusSubmitted => EventExecutionSubmitted
  | StatusConfirming => EventExecutionConfirming | StatusConfirmed => EventExecutionConfirmed
  | StatusVerified => EventExecutionVerified | StatusCompleted => EventExecutionCompleted
  | StatusFailed => EventExecutionFailed | StatusRecoveryRequired => EventExecutionRecoveryRequired
  | _ => no_event
  end.

Definition auditRecord (scope : Scope) (workerID : string) (previous next : Execution) (at_ : Time)
    (reason : string) : AuditRecord :=
  let request := exe_request next in
  let t := if exe_status previous == StatusRecoveryRequired then EventExecutionRecovered
           else eventType (exe_status next) in
  let t := if t == no_event then EventExecutionRecovered else t in
  let digest := sha256_hex (ExecutionID next +:+ ":" +:+ FormatUint (exe_revision next) +:+ ":"
                            +:+ Status_string (exe_status next)) in
  MkAuditRecord
    (MkEvent ("event_" +:+ digest) t at_ (req_intentID request) (req_intentVersion request)
       (req_intentDigest request) (req_approvalID request) (req_policyID request) (req_policyVersion request)
       "ALLOW" (req_policyEvaluationKey request) (ExecutionID next) (exe_revision next) (req_requestID request)
       (req_requestKey request) (Status_string (exe_status next)) reason "" 0 (sc_actorID scope)
       (req_operationKey request) (req_operationVersion request))
    "system" workerID (sc_requestID scope) (sc_traceID scope) "execution" (ExecutionID next)
    (Status_string (exe_status previous)) (Status_string (exe_status next)) reason "execution_runtime".

(** * Persisting *)
Definition persist (claim : ExecutionClaim) (current next : Execution) (now : Time) (reason : string)
    : prog outcome_pair :=
  returning (UpdateClaimedExecution claim next (exe_revision current)
    (auditRecord (cl_Scope claim) (cl_LeaseOwner claim) current next now reason) now).

Definition transition (claim : ExecutionClaim) (current : Execution) (status : Status) (now : Time)
    (reason : string) : prog outcome_pair :=
  or_keep current (Transition current status now) (fun next => persist claim current next now reason).

Definition persistObservation (claim : ExecutionClaim) (current : Execution) (r : Result) (status : Status)
    (now : Time) : prog outcome_pair :=
  or_keep current (Transition current status now) (fun next =>
  or_keep current (NewResult (MkResult (ExecutionID next) (exe_revision next) (exe_status next)
                                (res_adapterReference r) "" (res_observedAt r))) (fun evidence =>
  returning (PersistClaimedObservation claim evidence next (exe_revision current)
    (auditRecord (cl_Scope claim) (cl_LeaseOwner claim) current next now "") now))).

Definition persistFailureObservation (claim : ExecutionClaim) (current next : Execution) (r : Result) (now : Time)
    (reason : string) : prog outcome_pair :=
  or_keep current (NewResult (MkResult (ExecutionID next) (exe_revision next) (exe_status next)
                                (res_adapterReference r) (res_errorCode r) (res_observedAt r))) (fun observation =>
  returning (PersistClaimedObservation claim observation next (exe_revision current)
    (auditRecord (cl_Scope claim) (cl_LeaseOwner claim) current next now reason) now)).

(** * Evidence *)
Definition reference_unavailable : error :=
  AppErrors.New CodeExecutionRecoverable "Execution verification reference is unavailable." true false false.

(** The loop runs from the end. *)
Definition latest_of (values : list Result) : option string :=
  match list_find (fun v => res_adapterReference v <> "") (reverse values) with
  | Some (_, v) => Some (res_adapterReference v)
  | None => None
  end.
Definition latestReference (scope : Scope) (executionID : string) : prog (result string) :=
  try values := FindVerificationEvidence scope executionID in
  pure (match latest_of values with Some reference => Ok reference | None => Err reference_unavailable end).

Definition verifies (value : Execution) (evidence : Result) : bool :=
  (res_status evidence == StatusVerified) && (res_executionVersion evidence =? exe_revision value).
Definition hasVerifiedEvidence (scope : Scope) (value : Execution) : prog (result bool) :=
  try values := FindVerificationEvidence scope (ExecutionID value) in
  Ret (Ok (existsb (verifies value) values)).

(** * Submission *)
Definition ambiguous : string := "SUBMISSION_OUTCOME_AMBIGUOUS".
Definition runtime_invalid (msg : string) : error := AppErrors.New CodeExecutionInvalid msg false true true.

Definition observed (e : Execution) (status : Status) (reference code : string) (at_ : Time) : Result :=
  MkResult (ExecutionID e) (exe_revision e) status reference code at_.

(** The adapter reported an error. *)
Definition submission_error (claim : ExecutionClaim) (value : Execution) (now : Time) (err : error)
    : prog outcome_pair :=
  match adapterFailure err with
  | Some (kind, code) =>
      let failure := if kind == AdapterFailurePermanent
                     then MkFailure code RecoveryTerminal no_status
                     else MkFailure code RecoveryRecoverable StatusExecuting in
      or_keep value (Fail_ value failure now) (fun next =>
      or_keep value (NewResult (observed next StatusFailed "" code now)) (fun observation =>
      persistFailureObservation claim value next observation now code))
  | None =>
      or_keep value (RequireRecovery value ambiguous now) (fun next =>
      or_keep value (NewResult (observed next StatusRecoveryRequired "" ambiguous now)) (fun observation =>
      persistFailureObservation claim value next observation now ambiguous))
  end.

(** The adapter reported a state. *)
Definition submission_result (claim : ExecutionClaim) (value : Execution) (now : Time) (r : Result)
    : prog outcome_pair :=
  or_keep value (Result_EnsureMatches r (exe_request value)) (fun _ =>
  match res_status r with
  | StatusSubmitted => persistObservation claim value r StatusSubmitted now
  | StatusConfirming | StatusConfirmed => persistObservation claim value r StatusConfirming now
  | StatusFailed =>
      or_keep value (Fail_ value (MkFailure (res_errorCode r) RecoveryTerminal no_status) now) (fun next =>
      persistFailureObservation claim value next r now (res_errorCode r))
  | StatusRecoveryRequired =>
      or_keep value (RequireRecovery value (res_errorCode r) now) (fun next =>
      persistFailureObservation claim value next r now (res_errorCode r))
  | _ => keep value (runtime_invalid "Execution adapter returned an invalid runtime state.")
  end).

Definition submission_answer (claim : ExecutionClaim) (value : Execution) (now : Time) (answer : result Result)
    : prog outcome_pair :=
  match answer with
  | Err err => submission_error claim value now err
  | Ok r => submission_result claim value now r
  end.

Definition already_started : string := "SUBMISSION_ALREADY_STARTED".

Definition submitOrReconcile (ctx : Context_) (claim : ExecutionClaim) (value : Execution) (now : Time)
    : prog outcome_pair :=
  if cl_SubmissionStarted claim then
    GetStatus ctx (ExecutionID value) (submission_answer claim value now)
  else
    let* m := MarkSubmissionStarted claim now in
    match m with
    | Err err => keep value err
    | Ok (_, false) =>
        or_keep value (RequireRecovery value already_started now) (fun next =>
        persist claim value next now already_started)
    | Ok (marked, true) => Execute ctx (exe_request value) (submission_answer marked value now)
    end.

(** * Verification *)
Definition verification_ambiguous : string := "VERIFICATION_OUTCOME_AMBIGUOUS".
Definition verification_invalid (e : error) : error :=
  Wrap CodeExecutionInvalid "Verification result is invalid." false true true e.

Definition verification_pending (claim : ExecutionClaim) (value : Execution) (reference : string)
    (r : VerificationResult) : prog outcome_pair :=
  if (vr_Reference r != "") && (vr_Reference r != reference) then
    or_keep value (NewResult (observed value (exe_status value) (vr_Reference r) "" (vr_ObservedAt r)))
      (fun observation =>
         let* appended := AppendVerificationEvidence (cl_Scope claim) observation in
         match appended with Ok _ => done value | Err err => keep value err end)
  else done value.

(** From CONFIRMED: VERIFIED together with its evidence. *)
Definition persist_verified (claim : ExecutionClaim) (confirmed : Execution) (r : VerificationResult) (now : Time)
    : prog outcome_pair :=
  or_keep confirmed (Transition confirmed StatusVerified now) (fun verified =>
  or_keep confirmed (NewResult (observed verified StatusVerified (vr_Reference r) "" (vr_ObservedAt r)))
    (fun evidence =>
       returning (PersistClaimedEvidence claim evidence verified (exe_revision confirmed)
         (auditRecord (cl_Scope claim) (cl_LeaseOwner claim) confirmed verified now "") now))).

Definition with_execution (claim : ExecutionClaim) (e : Execution) : ExecutionClaim :=
  MkExecutionClaim (cl_Scope claim) e (cl_LeaseOwner claim) (cl_FencingToken claim) (cl_LeaseExpiresAt claim)
    (cl_SubmissionStarted claim).

Definition verification_verified (claim : ExecutionClaim) (value : Execution) (r : VerificationResult) (now : Time)
    : prog outcome_pair :=
  if exe_status value == StatusConfirming then
    or_keep value (Transition value StatusConfirmed now) (fun next =>
    let* stored := persist claim value next now "" in
    match stored with
    | (confirmed, None) => persist_verified (with_execution claim confirmed) confirmed r now
    | (_, Some err) => keep value err
    end)
  else persist_verified claim value r now.

Definition verification_failed (claim : ExecutionClaim) (value : Execution) (r : VerificationResult) (now : Time)
    : prog outcome_pair :=
  or_keep value (Fail_ value (MkFailure (vr_ReasonCode r) RecoveryTerminal no_status) now) (fun next =>
  or_keep value (NewResult (observed next StatusFailed "" (vr_ReasonCode r) (vr_ObservedAt r))) (fun observation =>
  persistFailureObservation claim value next observation now (vr_ReasonCode r))).

Definition verification_error (claim : ExecutionClaim) (value : Execution) (now : Time) (err : error)
    : prog outcome_pair :=
  match verificationFailure err with
  | Some _ => done value
  | None =>
      or_keep value (RequireRecovery value verification_ambiguous now) (fun next =>
      persist claim value next now verification_ambiguous)
  end.

Definition verification_result (claim : ExecutionClaim) (value : Execution) (now : Time) (reference : string)
    (r : VerificationResult) : prog outcome_pair :=
  or_keep value (map_err verification_invalid (VerificationResult_Validate r)) (fun _ =>
  match vr_Outcome r with
  | VerificationPending => verification_pending claim value reference r
  | VerificationFailed => verification_failed claim value r now
  | VerificationVerified => verification_verified claim value r now
  | OutcomeOther _ => keep value (runtime_invalid "Verification result is invalid.")
  end).

Definition verify (ctx : Context_) (claim : ExecutionClaim) (value : Execution) (now : Time) : prog outcome_pair :=
  let* found := latestReference (cl_Scope claim) (ExecutionID value) in
  match found with
  | Err err => keep value err
  | Ok reference =>
      Verify ctx value reference (fun answer =>
        match answer with
        | Err err => verification_error claim value now err
        | Ok r => verification_result claim value now reference r
        end)
  end.

(** * Processing *)
Definition verified_evidence_unavailable : error :=
  AppErrors.New CodeExecutionRecoverable "Verified execution evidence is unavailable." true false false.

Definition complete (claim : ExecutionClaim) (value : Execution) (now : Time) : prog outcome_pair :=
  let* verified := hasVerifiedEvidence (cl_Scope claim) value in
  match verified with
  | Err err => keep value err
  | Ok false => keep value verified_evidence_unavailable
  | Ok true => transition claim value StatusCompleted now ""
  end.

Definition processClaim (ctx : Context_) (claim : ExecutionClaim) (now : Time) : prog outcome_pair :=
  let ctx := WithScope ctx (cl_Scope claim) in
  let value := cl_Execution claim in
  match exe_status value with
  | StatusCreated => transition claim value StatusAuthorized now ""
  | StatusAuthorized => transition claim value StatusQueued now ""
  | StatusQueued => transition claim value StatusExecuting now ""
  | StatusExecuting => submitOrReconcile ctx claim value now
  | StatusSubmitted => transition claim value StatusConfirming now ""
  | StatusConfirming | StatusConfirmed => verify ctx claim value now
  | StatusVerified => complete claim value now
  | StatusFailed =>
      if (fai_Code (exe_failure value) == "") || (fai_Eligibility (exe_failure value) == RecoveryTerminal)
      then done value
      else or_keep value (Recover value now) (fun next => persist claim value next now "")
  | StatusRecoveryRequired =>
      or_keep value (Resume value now) (fun next => persist claim value next now "")
  | StatusCompleted | StatusCancelled => done value
  | StatusOther _ => keep value (runtime_invalid "Execution runtime state is invalid.")
  end.

(** [Start] *)
Definition Start (scope : Scope) (request : Request) : prog (result Execution) :=
  try _ := pure (Scope_Validate scope) in
  try value := pure (New request) in
  try r := CreateExecution scope value in
  Ret (Ok (fst r)).

(** [Process] *)
Definition Process (ctx : Context_) (config : Config) (scope : Scope) (executionID : string) : prog outcome_pair :=
  Now (fun at_ =>
    let now := UTC at_ in
    let* claimed := ClaimExecutionWork scope executionID (cfg_WorkerID config) now (cfg_LeaseDuration config) in
    match claimed with
    | Err err => Ret (no_execution, Some err)
    | Ok None => returning (FindExecutionByID scope executionID)
    | Ok (Some claim) =>
        let* processed := processClaim ctx claim now in
        let '(value, processErr) := processed in
        let nextRun := if Terminal value then Add now Hour else Add now (cfg_RetryInterval config) in
        let* released := ReleaseExecutionWork claim nextRun in
        Ret (value, match processErr with
                    | Some e => Some e
                    | None => err_of released
                    end)
    end).

(** * The worker loop

    One round of [Run]: [None] when the loop goes on, [Some err] when it
    returns. *)
Definition Run_round (ctx : Context_) (config : Config) : prog (option error) :=
  Now (fun at_ =>
    let* claimed := ClaimNextExecutionWork (cfg_WorkerID config) (UTC at_) (cfg_LeaseDuration config) in
    match claimed with
    | Err err => Ret (Some err)
    | Ok (Some claim) =>
        Now (fun started =>
          let* processed := processClaim ctx claim (UTC started) in
          Now (fun released_at =>
            let* released := ReleaseExecutionWork claim (Add (UTC released_at) (cfg_RetryInterval config)) in
            Ret (match snd processed with Some e => Some e | None => err_of released end)))
    | Ok None => Sleep (cfg_RetryInterval config) (fun r => Ret (err_of r))
    end).

(** [Run], for as many rounds as it is given. *)
Fixpoint Run (rounds : nat) (ctx : Context_) (config : Config) : prog (option error) :=
  match rounds with
  | O => Ret None
  | S rounds =>
      let* stopped := Run_round ctx config in
      match stopped with Some err => Ret (Some err) | None => Run rounds ctx config end
  end.
End service.
