(* ===== verification/Protocol.v ===== *)
(** The discipline the runtime's programs follow, stated for programs alone:
    what a program has learned from the database so far ([knows]), and what it
    must know before an action that changes an execution or submits it
    ([conforms]).  Every job of the runtime conforms. *)
From S2P Require Import Prelude GoStrings GoTime AppErrors Policies Execution ExecutionSafety Storage Database.
From S2P Require Import RuntimeEffects ExecutionStore Runtime.
Open Scope Z_scope.
Open Scope go_scope.

(** * Lifecycle columns *)
Record lifecycle := MkLifecycle {
  lc_status : Status; lc_revision : Z; lc_failure : Failure; lc_failed_from : Status; lc_recovery : Recovery
}.
Definition lifecycle_of (e : Execution) : lifecycle :=
  MkLifecycle (exe_status e) (exe_revision e) (exe_failure e) (exe_failedFrom e) (exe_recovery e).
Definition row_lifecycle (e : execution_row) : lifecycle :=
  MkLifecycle (ex_status e) (ex_revision e) (ex_failure e) (ex_failed_from e) (ex_recovery e).
Definition update_lifecycle (p : UpdateParams) : lifecycle :=
  MkLifecycle (up_status p) (up_revision p) (up_failure p) (up_failed_from p) (up_recovery p).

(** A call of the domain's lifecycle leads from one to the other. *)
Definition lifecycle_call (l l' : lifecycle) : Prop :=
  exists e e', lifecycle_of e = l /\ lifecycle_of e' = l' /\ execution_step e e'.

(** * Knowledge *)
Record knows := MkKnows {
  k_submit : option key;                (** may hand this execution to the adapter, once *)
  k_rows : list (key * lifecycle);      (** stored at some point *)
  k_verified : list (key * Z)           (** VERIFIED evidence stored for this revision *)
}.
Definition nothing : knows := MkKnows None [] [].
Definition may_submit (k : option key) (s : knows) := MkKnows k (k_rows s) (k_verified s).
Definition saw_row (k : key) (l : lifecycle) (s : knows) := MkKnows (k_submit s) ((k, l) :: k_rows s) (k_verified s).
Definition verified_row (k : key) (v : evidence_row) : option (key * Z) :=
  if evd_status v == StatusVerified then Some (k, evd_version v) else None.
Definition saw_evidence (k : key) (rows : list evidence_row) (s : knows) :=
  MkKnows (k_submit s) (k_rows s) (omap (verified_row k) rows ++ k_verified s).

Definition extends (s s' : knows) : Prop := k_rows s ⊆ k_rows s' /\ k_verified s ⊆ k_verified s'.
#[global] Instance extends_preorder : PreOrder extends.
Proof.
  split; [by split|]. intros s1 s2 s3 [H1 H2] [H3 H4]. split; etransitivity; eassumption.
Qed.

(** * The discipline *)
Definition write_allowed (s : knows) (w : ClaimedWrite) : Prop :=
  let p := cw_update w in
  cw_key w = (up_tenant p, up_execution_id p) /\
  exists l, (cw_key w, l) ∈ k_rows s /\ lc_revision l = up_expected p /\ lifecycle_call l (update_lifecycle p) /\
    (up_status p = StatusCompleted -> (cw_key w, up_expected p) ∈ k_verified s).

Definition allowed (s : knows) {Y} (q : query Y) : Prop :=
  match q with
  | CreateExecution_tx _ e => xp_status e = StatusCreated
  | UpdateExecution_q _ | ResetSubmission _ _ _ => False
  | ClaimedWrite_tx w => write_allowed s w
  | _ => True
  end.

Definition learn (s : knows) {Y} (q : query Y) (r : result Y) : knows :=
  match q in query Y return result Y -> knows with
  | FindByID tenant _ _ => fun r => match r with Ok (id, e, _) => saw_row (tenant, id) (row_lifecycle e) s | Err _ => s end
  | MarkSubmission k _ _ => fun r => match r with Ok _ => may_submit (Some k) s | Err _ => s end
  | FindEvidence tenant id _ => fun r => match r with Ok rows => saw_evidence (tenant, id) rows s | Err _ => s end
  | ClaimedWrite_tx w =>
      fun r => match r with Ok _ => saw_row (cw_key w) (update_lifecycle (cw_update w)) s | Err _ => s end
  | _ => fun _ => s
  end r.

(** The execution a call of [Adapter.Execute] is about. *)
Definition submission_key (call : Context_ * Request) : option key :=
  match fst call with Some scope => Some (sc_tenantID scope, req_executionID (snd call)) | None => None end.

Fixpoint conforms {A} (s : knows) (p : prog A) (Q : knows -> A -> Prop) : Prop :=
  match p with
  | Ret a => Q s a
  | Query q k => allowed s q /\ forall r, conforms (learn s q r) (k r) Q
  | Execute ctx r k =>
      (exists key, k_submit s = Some key /\ submission_key (ctx, r) = Some key) /\
      forall x, conforms (may_submit None s) (k x) Q
  | GetStatus _ _ k => forall x, conforms s (k x) Q
  | Verify _ _ _ k => forall x, conforms s (k x) Q
  | Now k => forall x, conforms s (k x) Q
  | Sleep _ k => forall x, conforms s (k x) Q
  end.

Lemma conforms_weaken {A} (p : prog A) (Q Q' : knows -> A -> Prop) : forall s,
  (forall s a, Q s a -> Q' s a) -> conforms s p Q -> conforms s p Q'.
Proof. induction p; cbn; naive_solver. Qed.

Lemma conforms_bind {A B} (p : prog A) (f : A -> prog B) (Q : knows -> B -> Prop) : forall s,
  conforms s p (fun s' a => conforms s' (f a) Q) -> conforms s (bind p f) Q.
Proof. induction p; cbn; naive_solver. Qed.

(** The usual way to use a lemma about [p] inside a longer program. *)
Lemma conforms_then {A B} (p : prog A) (f : A -> prog B) (Q : knows -> A -> Prop) (R : knows -> B -> Prop) s :
  conforms s p Q -> (forall s' a, Q s' a -> conforms s' (f a) R) -> conforms s (bind p f) R.
Proof. intros Hp Hf. apply conforms_bind. eapply conforms_weaken; [|exact Hp]. auto. Qed.

Lemma conforms_try {A B} (p : prog (result A)) (f : A -> prog (result B)) Q R s :
  conforms s p Q ->
  (forall s' e, Q s' (Err e) -> R s' (Err e)) ->
  (forall s' a, Q s' (Ok a) -> conforms s' (f a) R) ->
  conforms s (try_bind p f) R.
Proof. intros Hp He Hf. eapply conforms_then; [exact Hp|]. intros s' [a|e] Hq; cbn; auto. Qed.

Lemma conforms_pure_try {A B} (m : result A) (f : A -> prog (result B)) R s :
  (forall e, m = Err e -> R s (Err e)) ->
  (forall a, m = Ok a -> conforms s (f a) R) -> conforms s (try_bind (pure m) f) R.
Proof. intros He Hf. destruct m; cbn; auto. Qed.

Lemma conforms_or_keep {A} value (m : result A) k (R : knows -> outcome_pair -> Prop) s :
  (forall e, m = Err e -> R s (value, Some e)) ->
  (forall a, m = Ok a -> conforms s (k a) R) -> conforms s (or_keep value m k) R.
Proof. intros He Hf. destruct m; cbn; auto. Qed.

Lemma conforms_mapped {Y} (q : query Y) (R : knows -> result Y -> Prop) s :
  allowed s q -> (forall r, R (learn s q r) (map_err mapDatabaseError r)) -> conforms s (mapped q) R.
Proof. cbn. auto. Qed.

Lemma learn_err s {Y} (q : query Y) e : learn s q (Err e) = s.
Proof. by destruct q. Qed.

Lemma conforms_if_no_rows {Y Z'} (q : query Y) (none : result Z') some (R : knows -> result Z' -> Prop) s :
  allowed s q -> (forall r, r = none \/ (exists e, r = Err e) -> R s r) ->
  (forall y, conforms (learn s q (Ok y)) (some y) R) -> conforms s (if_no_rows q none some) R.
Proof.
  intros Ha Hn Hs. cbn. split; [done|]. intros [y|e]; [apply Hs|]. cbn. rewrite learn_err.
  apply Hn. destruct (errors_Is e ErrNoRows); eauto.
Qed.

(** * The store *)
Section store.
Context `{UnicodeTables} `{PgTimestamp}.
Implicit Types (s : knows) (claim : ExecutionClaim) (scope : Scope).

Lemma restored_lifecycle id e r x :
  restoreExecutionRecord id e r = Ok x -> lifecycle_of x = row_lifecycle e /\ ExecutionID x = id.
Proof.
  unfold restoreExecutionRecord, Execution_Restore, RestoreRequest. intros Hok.
  do 5 (apply rbind_ok in Hok as (? & _ & Hok)).
  apply rbind_ok in Hok as (v & [-> _]%domainVersion_ok & Hok).
  apply rbind_ok in Hok as (q & Hq & Hok). apply rbind_ok in Hq as (? & _ & [= <-]).
  apply rbind_ok in Hok as (? & _ & [= <-]). done.
Qed.

Lemma extends_saw_row s k l : extends s (saw_row k l s).
Proof. split; [|done]. intros x Hx. by apply list_elem_of_further. Qed.
Lemma extends_saw_evidence s k rows : extends s (saw_evidence k rows s).
Proof. split; [done|]. intros x Hx. cbn. apply elem_of_app. auto. Qed.
Lemma extends_may_submit s k : extends s (may_submit k s).
Proof. by split. Qed.
#[local] Hint Resolve extends_saw_row extends_saw_evidence extends_may_submit : go.

(** What a caller of [FindExecutionByID] knows. *)
Definition found s scope (s' : knows) (r : result Execution) : Prop :=
  extends s s' /\ k_submit s' = k_submit s /\
  match r with
  | Ok e => ((sc_tenantID scope, ExecutionID e), lifecycle_of e) ∈ k_rows s' /\ Scope_Validate scope = Ok tt
  | Err _ => True
  end.

Lemma FindExecutionByID_conforms s scope id :
  conforms s (FindExecutionByID scope id) (found s scope).
Proof.
  apply conforms_pure_try; [by split|]. intros [] Hs. apply conforms_if_no_rows; [done| |].
  - intros r [->|[e ->]]; by split.
  - intros [[id' e] r]. cbn. split; [auto with go|]. split; [done|].
    destruct (restoreExecutionRecord id' e r) as [x|] eqn:E; [|done].
    apply restored_lifecycle in E as [-> ->]. split; [apply list_elem_of_here|done].
Qed.

Lemma FindExecutionByOperationKey_conforms s scope k v :
  conforms s (FindExecutionByOperationKey scope k v) (fun s' _ => s' = s).
Proof.
  apply conforms_pure_try; [done|]. intros _ _. apply conforms_pure_try; [done|]. intros dbv _.
  apply conforms_if_no_rows; [done|done|]. by intros [[id' e] r].
Qed.

Lemma CreateExecution_conforms s scope value :
  exe_status value = StatusCreated -> conforms s (CreateExecution scope value) (fun _ _ => True).
Proof.
  intros Hc. do 3 (apply conforms_pure_try; [done|]; intros ? _).
  apply conforms_pure_try; [done|]. intros p Hp.
  apply conforms_then with (Q := fun s' _ => s' = s).
  - apply conforms_mapped; [|done]. unfold executionCreateParams in Hp. ok_inv. done.
  - intros ? [[]|err] ->; [done|]. destruct (negb _); [done|].
    eapply conforms_then; [apply FindExecutionByOperationKey_conforms|].
    intros ? [existing|err'] _; [by destruct (negb _)|done].
Qed.

(** * Claims *)
(** A claim whose execution was read from the database, in a valid scope. *)
Definition backed s claim : Prop :=
  (cl_key claim, lifecycle_of (cl_Execution claim)) ∈ k_rows s /\ Scope_Validate (cl_Scope claim) = Ok tt.

Definition claimed s (s' : knows) (r : result (option ExecutionClaim)) : Prop :=
  extends s s' /\ match r with Ok (Some c) => backed s' c | _ => True end.

Lemma confirm_claim_conforms s scope k workerID row :
  conforms s (confirm_claim scope k workerID row) (claimed s).
Proof.
  eapply conforms_try; [apply FindExecutionByID_conforms|..].
  - intros s' e (He & _). by split.
  - intros s' value (He & _ & Hrow). eapply conforms_try with (Q := fun s1 _ => s1 = s').
    + by apply conforms_mapped.
    + by intros ? e ->.
    + intros ? rows ->. apply conforms_pure_try; [by split|]. intros _ _.
      apply conforms_pure_try; [by split|]. intros claim Hc. split; [done|].
      unfold executionClaim in Hc. apply rbind_ok in Hc as (token & _ & [= <-]). exact Hrow.
Qed.

Lemma ClaimExecutionWork_conforms s scope id worker now d :
  conforms s (ClaimExecutionWork scope id worker now d) (claimed s).
Proof.
  do 3 (apply conforms_pure_try; [by split|]; intros _ _).
  apply conforms_if_no_rows; [done| |].
  - intros r [->|[e ->]]; by split.
  - intros row. apply confirm_claim_conforms.
Qed.

Lemma ClaimNextExecutionWork_conforms s worker now d :
  conforms s (ClaimNextExecutionWork worker now d) (claimed s).
Proof.
  apply conforms_pure_try; [by split|]. intros _ _. apply conforms_if_no_rows; [done| |].
  - intros r [->|[e ->]]; by split.
  - intros [k row]. eapply conforms_try with (Q := fun s' _ => s' = s).
    + by apply conforms_mapped.
    + intros ? e ->. by split.
    + intros ? owner ->. apply conforms_pure_try; [by split|]. intros scope _. apply confirm_claim_conforms.
Qed.

Lemma ReleaseExecutionWork_conforms s claim t : conforms s (ReleaseExecutionWork claim t) (fun _ _ => True).
Proof.
  do 3 (apply conforms_pure_try; [done|]; intros ? _).
  eapply conforms_try with (Q := fun _ _ => True); [by apply conforms_mapped|done|].
  intros s' rows _. apply conforms_pure_try; done.
Qed.

(** A successful mark licenses one submission. *)
Lemma MarkSubmissionStarted_conforms s claim now :
  conforms s (MarkSubmissionStarted claim now) (fun s' r =>
    extends s s' /\
    match r with
    | Ok (c, true) => k_submit s' = Some (cl_key claim) /\ cl_Scope c = cl_Scope claim /\
                      cl_Execution c = cl_Execution claim
    | _ => True
    end).
Proof.
  apply conforms_pure_try; [by split|]. intros token _. apply conforms_if_no_rows; [done| |].
  - intros r [->|[e ->]]; by split.
  - intros row. cbn [learn]. apply conforms_pure_try; [intros; split; [auto with go|done]|]. intros c Hc.
    unfold executionClaim in Hc. apply rbind_ok in Hc as (t & _ & [= <-]). split; [auto with go|done].
Qed.

(** * Claimed writes *)
(** The step a write makes is justified by what the program saw. *)
Definition justified s claim (current next : Execution) : Prop :=
  (cl_key claim, lifecycle_of current) ∈ k_rows s /\ execution_step current next /\
  (exe_status next = StatusCompleted -> (cl_key claim, exe_revision current) ∈ k_verified s).

(** What is known after the write. *)
Definition written s claim (next : Execution) (s' : knows) (r : result Execution) : Prop :=
  extends s s' /\
  match r with Ok v => v = next /\ (cl_key claim, lifecycle_of next) ∈ k_rows s' | Err _ => True end.

Lemma claimed_write_conforms s claim token current next update evidence a msg :
  ExecutionID (cl_Execution claim) = ExecutionID next ->
  executionUpdateParams (cl_Scope claim) next (exe_revision current) = Ok update ->
  justified s claim current next ->
  conforms s (claimed_write claim token update evidence a msg next) (written s claim next).
Proof.
  intros Hid Hu (Hrow & Hstep & Hev). unfold executionUpdateParams in Hu.
  apply rbind_ok in Hu as (rev & [-> _]%dbVersion_ok & Hu).
  apply rbind_ok in Hu as (exp & [-> _]%dbVersion_ok & [= <-]).
  apply conforms_then with (Q := fun s' r =>
    match r with Ok _ => s' = saw_row (cl_key claim) (lifecycle_of next) s | Err _ => s' = s end).
  - apply conforms_mapped; [|by intros [[]|e]]. cbn. split.
    { unfold cl_key, cl_tenant. by rewrite Hid. }
    exists (lifecycle_of current). split_and!; try done. by exists current, next.
  - intros s' [[]|e] ->; cbn; [|by split]. split; [auto with go|]. split; [done|]. apply list_elem_of_here.
Qed.

Lemma audit_names claim next record :
  validateRuntimeAudit claim next record = Ok tt -> ExecutionID (cl_Execution claim) = ExecutionID next.
Proof. unfold validateRuntimeAudit. intros Hok%fail_if_ok. by reflect_all. Qed.

(** Skips the checks before a claimed write; a failed check knows nothing new. *)
Ltac skip_checks :=
  repeat (apply conforms_pure_try; [by split|]; intros ? ?);
  repeat match goal with u : unit |- _ => destruct u end.

Lemma UpdateClaimedExecution_conforms s claim current next record now :
  justified s claim current next ->
  conforms s (UpdateClaimedExecution claim next (exe_revision current) record now) (written s claim next).
Proof.
  intros Hj. unfold UpdateClaimedExecution. skip_checks.
  eapply claimed_write_conforms; [|done..]. eapply audit_names; eassumption.
Qed.

Lemma PersistClaimedObservation_conforms s claim evidence current next record now :
  justified s claim current next ->
  conforms s (PersistClaimedObservation claim evidence next (exe_revision current) record now) (written s claim next).
Proof.
  intros Hj. unfold PersistClaimedObservation. skip_checks.
  eapply claimed_write_conforms; [|done..]. eapply audit_names; eassumption.
Qed.

Lemma PersistClaimedEvidence_conforms s claim evidence current next record now :
  justified s claim current next ->
  conforms s (PersistClaimedEvidence claim evidence next (exe_revision current) record now) (written s claim next).
Proof.
  intros Hj. unfold PersistClaimedEvidence. skip_checks.
  eapply claimed_write_conforms; [|done..]. eapply audit_names; eassumption.
Qed.

(** * Evidence *)
Lemma AppendVerificationEvidence_conforms s scope r :
  conforms s (AppendVerificationEvidence scope r) (fun _ _ => True).
Proof.
  do 3 (apply conforms_pure_try; [done|]; intros ? _).
  eapply conforms_try with (Q := fun _ _ => True); [by apply conforms_mapped|done|]. done.
Qed.
End store.

(** * The service *)
Section service.
Context `{UnicodeTables} `{PgTimestamp}.
Implicit Types (s : knows) (claim : ExecutionClaim) (value : Execution).

Lemma no_completion e e' :
  execution_step e e' -> exe_status e <> StatusVerified -> exe_status e <> StatusCompleted ->
  exe_status e' <> StatusCompleted.
Proof. intros [->|(t & _ & _ & _ & Hc)]%step_advanced Hv Hn; [done|]. auto. Qed.

Lemma justified_step s claim value next :
  (cl_key claim, lifecycle_of value) ∈ k_rows s -> execution_step value next ->
  exe_status value <> StatusVerified -> exe_status value <> StatusCompleted -> justified s claim value next.
Proof. intros Hr Hs Hv Hc. split_and!; try done. intros E. exfalso. eapply no_completion; eassumption. Qed.

Lemma step_names e e' : execution_step e e' -> ExecutionID e' = ExecutionID e.
Proof. intros [->|(t & (Er & _) & _)]%step_advanced; [done|]. unfold ExecutionID. by rewrite Er. Qed.

(** Any result will do. *)
Definition any {A} : knows -> A -> Prop := fun _ _ => True.

Definition persisted s claim next (s' : knows) (out : outcome_pair) : Prop :=
  extends s s' /\ (snd out = None -> fst out = next /\ (cl_key claim, lifecycle_of next) ∈ k_rows s').

Lemma returning_conforms s claim next p :
  conforms s p (written s claim next) -> conforms s (returning p) (persisted s claim next).
Proof.
  intros Hp. eapply conforms_then; [exact Hp|]. intros s' [v|e] [He Hw]; by cbn.
Qed.

Lemma any_weaken {A} s (p : prog A) Q : conforms s p Q -> conforms s p any.
Proof. by apply conforms_weaken. Qed.

Lemma persist_conforms s claim current next now reason :
  justified s claim current next -> conforms s (persist claim current next now reason) (persisted s claim next).
Proof. intros Hj. by apply returning_conforms, UpdateClaimedExecution_conforms. Qed.

Lemma transition_conforms s claim current status now reason :
  (forall next, Transition current status now = Ok next -> justified s claim current next) ->
  conforms s (transition claim current status now reason) any.
Proof.
  intros Hj. apply conforms_or_keep; [done|]. intros next Hn. eapply any_weaken, persist_conforms. auto.
Qed.

Section known.
Context (s : knows) (claim : ExecutionClaim) (value : Execution) (now : Time).
Hypothesis Hrow : (cl_key claim, lifecycle_of value) ∈ k_rows s.
Hypothesis Hnot_verified : exe_status value <> StatusVerified.
Hypothesis Hnot_completed : exe_status value <> StatusCompleted.

Lemma known_step next : execution_step value next -> justified s claim value next.
Proof. intros. by apply justified_step. Qed.

Lemma persist_known next reason :
  execution_step value next -> conforms s (persist claim value next now reason) (persisted s claim next).
Proof. intros. by apply persist_conforms, known_step. Qed.

Lemma persistObservation_known r status : conforms s (persistObservation claim value r status now) any.
Proof.
  apply conforms_or_keep; [done|]. intros next Hn. apply conforms_or_keep; [done|]. intros evidence _.
  eapply any_weaken, returning_conforms, PersistClaimedObservation_conforms, known_step.
  by econstructor.
Qed.

Lemma persistFailureObservation_known next r reason :
  execution_step value next -> conforms s (persistFailureObservation claim value next r now reason) any.
Proof.
  intros Hs. apply conforms_or_keep; [done|]. intros observation _.
  eapply any_weaken, returning_conforms, PersistClaimedObservation_conforms. by apply known_step.
Qed.

(** A failure or recovery step followed by its observation. *)
Lemma step_then_observe (m : result Execution) (r : Execution -> Result) reason :
  (forall next, m = Ok next -> execution_step value next) ->
  conforms s (or_keep value m (fun next => or_keep value (NewResult (r next)) (fun observation =>
    persistFailureObservation claim value next observation now reason))) any.
Proof.
  intros Hm. apply conforms_or_keep; [done|]. intros next Hn. apply conforms_or_keep; [done|].
  intros observation _. apply persistFailureObservation_known. auto.
Qed.

Lemma submission_answer_known answer : conforms s (submission_answer claim value now answer) any.
Proof.
  destruct answer as [r|err]; cbn.
  - apply conforms_or_keep; [done|]. intros _ _.
    destruct (res_status r); try done; try apply persistObservation_known;
      (apply conforms_or_keep; [done|]; intros next Hn; apply persistFailureObservation_known; by econstructor).
  - unfold submission_error. destruct (adapterFailure err) as [[kind code]|];
      apply step_then_observe; intros next Hn; by econstructor.
Qed.

Lemma verification_error_known err : conforms s (verification_error claim value now err) any.
Proof.
  unfold verification_error. destruct (verificationFailure err); [done|].
  apply conforms_or_keep; [done|]. intros next Hn. eapply any_weaken, persist_known. by econstructor.
Qed.
End known.

Lemma persist_verified_known s claim value r now :
  (cl_key claim, lifecycle_of value) ∈ k_rows s -> conforms s (persist_verified claim value r now) any.
Proof.
  intros Hrow. apply conforms_or_keep; [done|]. intros verified Hv. apply conforms_or_keep; [done|].
  intros evidence _. eapply any_weaken, returning_conforms, PersistClaimedEvidence_conforms.
  split_and!; [done|by econstructor|]. intros Hc. exfalso.
  unfold Transition in Hv. apply rbind_ok in Hv as ([] & _ & Hv).
  destruct (StatusVerified == exe_status value) eqn:E; [injection Hv as <-; reflect_all; congruence|].
  do 3 (apply rbind_ok in Hv as ([] & _ & Hv)). apply advance_ok in Hv as [_ ->]. done.
Qed.

Lemma verification_verified_known s claim value r now :
  (cl_key claim, lifecycle_of value) ∈ k_rows s -> ExecutionID (cl_Execution claim) = ExecutionID value ->
  conforms s (verification_verified claim value r now) any.
Proof.
  intros Hrow Hid. unfold verification_verified. destruct (exe_status value == StatusConfirming) eqn:E;
    [|by apply persist_verified_known].
  reflect_in E. apply conforms_or_keep; [done|]. intros next Hn.
  eapply conforms_then; [apply persist_known; [done|congruence..|by econstructor]|].
  intros s' [confirmed [err|]] [He Hp]; cbn in *; [done|]. destruct Hp as [-> Hrow']; [done|].
  apply persist_verified_known. unfold cl_key, cl_tenant in *. cbn.
  rewrite (step_names value next), <- Hid; [done|by econstructor].
Qed.

Lemma verification_pending_conforms s claim value reference r :
  conforms s (verification_pending claim value reference r) any.
Proof.
  unfold verification_pending. destruct (_ && _); [|done]. apply conforms_or_keep; [done|]. intros observation _.
  eapply conforms_then; [apply AppendVerificationEvidence_conforms|]. by intros s' [[]|e] _.
Qed.

Lemma verification_failed_known s claim value r now :
  (cl_key claim, lifecycle_of value) ∈ k_rows s -> exe_status value <> StatusVerified ->
  exe_status value <> StatusCompleted -> conforms s (verification_failed claim value r now) any.
Proof. intros. apply step_then_observe; [done..|]. intros next Hn. by econstructor. Qed.

Lemma latestReference_conforms s scope id :
  conforms s (latestReference scope id) (fun s' _ => extends s s').
Proof.
  eapply conforms_try with (Q := fun s' _ => extends s s'); [|done|].
  - apply conforms_pure_try; [done|]. intros _ _. cbn. split; [done|]. intros [rows|e]; cbn; [|done].
    apply extends_saw_evidence.
  - intros s' values He. exact He.
Qed.

(** What [verify] and [submitOrReconcile] are called with. *)
Definition current s claim : Prop :=
  backed s claim /\ exe_status (cl_Execution claim) <> StatusVerified /\
  exe_status (cl_Execution claim) <> StatusCompleted.

Lemma verify_conforms s ctx claim now :
  current s claim -> conforms s (verify ctx claim (cl_Execution claim) now) any.
Proof.
  intros [[Hrow _] [Hv Hc]]. eapply conforms_then; [apply latestReference_conforms|].
  intros s' [reference|err] [He _]; cbn; [|done]. apply He in Hrow.
  intros [r|err]; [|by apply verification_error_known].
  apply conforms_or_keep; [done|]. intros _ _. destruct (vr_Outcome r); try done.
  - apply verification_pending_conforms.
  - by apply verification_verified_known.
  - by apply verification_failed_known.
Qed.

Lemma submitOrReconcile_conforms s ctx claim now :
  current s claim ->
  conforms s (submitOrReconcile (WithScope ctx (cl_Scope claim)) claim (cl_Execution claim) now) any.
Proof.
  intros [[Hrow Hs] [Hv Hc]]. unfold submitOrReconcile. destruct (cl_SubmissionStarted claim); cbn [conforms].
  { intros answer. by apply submission_answer_known. }
  eapply conforms_then; [apply MarkSubmissionStarted_conforms|].
  intros s' [[marked [|]]|err] [He Hm]; [| |done]; apply He in Hrow.
  - destruct Hm as (Hk & Esc & Ex). cbn [conforms]. split.
    + exists (cl_key claim). split; [done|]. unfold WithScope. by rewrite Hs.
    + intros answer. apply submission_answer_known; [|done..].
      unfold cl_key, cl_tenant in *. by rewrite Esc, Ex.
  - apply conforms_or_keep; [done|]. intros next Hn. eapply any_weaken, persist_known; [done..|]. by econstructor.
Qed.

(** Rows that convert to evidence keep status and version. *)
Lemma evidence_from_row_ok row r :
  evidence_from_row row = Ok r -> res_status r = evd_status row /\ res_executionVersion r = evd_version row.
Proof.
  unfold evidence_from_row, NewResult. intros Hok. apply rbind_ok in Hok as (v & [-> _]%domainVersion_ok & Hok).
  apply rbind_ok in Hok as (u & _ & [= <-]). done.
Qed.

Lemma evidence_from_rows_in rows values r :
  evidence_from_rows rows = Ok values -> r ∈ values -> exists row, row ∈ rows /\ evidence_from_row row = Ok r.
Proof.
  intros Hok. revert r. pattern rows, values.
  refine (fold_result_inv (fun rows values => forall r, r ∈ values -> exists row, row ∈ rows /\ _) _ _ _ _ _ _ Hok).
  - intros r Hr. by apply elem_of_nil in Hr.
  - intros done_ x t t' IH Hx r Hr. apply rbind_ok in Hx as (v & Hv & [= <-]).
    apply elem_of_app in Hr as [Hr|Hr].
    + destruct (IH r Hr) as (row & Hin & E). exists row. split; [apply elem_of_app; auto|done].
    + apply list_elem_of_singleton in Hr as ->. exists x. split; [|done].
      apply elem_of_app. right. by apply list_elem_of_singleton.
Qed.

Lemma hasVerifiedEvidence_conforms s scope value :
  conforms s (hasVerifiedEvidence scope value) (fun s' r =>
    extends s s' /\ (r = Ok true -> ((sc_tenantID scope, ExecutionID value), exe_revision value) ∈ k_verified s')).
Proof.
  eapply conforms_try with (Q := fun s' r => extends s s' /\
    match r with
    | Ok values => forall v, v ∈ values -> res_status v = StatusVerified ->
        ((sc_tenantID scope, ExecutionID value), res_executionVersion v) ∈ k_verified s'
    | Err _ => True
    end).
  - apply conforms_pure_try; [by split|]. intros _ _. cbn. split; [done|]. intros [rows|e]; cbn; [|by split].
    split; [apply extends_saw_evidence|]. destruct (evidence_from_rows rows) as [values|] eqn:E; [|done].
    intros v Hv Hs. destruct (evidence_from_rows_in _ _ _ E Hv) as (row & Hrow & [Es Ev]%evidence_from_row_ok).
    apply elem_of_app. left. apply list_elem_of_omap. exists row. split; [done|]. unfold verified_row.
    rewrite <- Es, Hs, eqb_refl. by rewrite Ev.
  - intros s' e [He _]. by split.
  - intros s' values [He Hv]. cbn. split; [done|]. intros [= (v & Hin & Hver)%existsb_exists].
    unfold verifies in Hver. reflect_all. rewrite <- Hver. apply Hv; [by apply list_elem_of_In|done].
Qed.

Lemma complete_conforms s claim now :
  backed s claim -> conforms s (complete claim (cl_Execution claim) now) any.
Proof.
  intros [Hrow _]. eapply conforms_then; [apply hasVerifiedEvidence_conforms|].
  intros s' [[|]|err] [He Hv]; [|done..]. apply He in Hrow. apply transition_conforms.
  intros next Hn. split_and!; [done|by econstructor|]. intros _. by apply Hv.
Qed.

Lemma processClaim_conforms s ctx claim now :
  backed s claim -> conforms s (processClaim ctx claim now) any.
Proof.
  intros Hb. pose proof Hb as [Hrow _]. unfold processClaim.
  assert (forall status, exe_status (cl_Execution claim) <> StatusVerified ->
            exe_status (cl_Execution claim) <> StatusCompleted ->
            conforms s (transition claim (cl_Execution claim) status now "") any) as Htr.
  { intros status Hv Hc. apply transition_conforms. intros next Hn. apply justified_step; [done| |done..].
    by econstructor. }
  assert (forall m, (forall next, m = Ok next -> execution_step (cl_Execution claim) next) ->
            exe_status (cl_Execution claim) <> StatusVerified ->
            exe_status (cl_Execution claim) <> StatusCompleted ->
            conforms s (or_keep (cl_Execution claim) m (fun next =>
              persist claim (cl_Execution claim) next now "")) any) as Hrec.
  { intros m Hm Hv Hc. apply conforms_or_keep; [done|]. intros next Hn.
    eapply any_weaken, persist_conforms, justified_step; auto. }
  assert (exe_status (cl_Execution claim) <> StatusVerified ->
            exe_status (cl_Execution claim) <> StatusCompleted -> current s claim) as Hcur by (intros; by split).
  destruct (exe_status (cl_Execution claim)) eqn:E; try done; try by apply Htr.
  - by apply submitOrReconcile_conforms, Hcur.
  - by apply verify_conforms, Hcur.
  - by apply verify_conforms, Hcur.
  - by apply complete_conforms.
  - destruct (_ || _); [done|]. apply Hrec; [|done..]. intros next Hn. by econstructor.
  - apply Hrec; [|done..]. intros next Hn. by econstructor.
Qed.

(** * Jobs *)
(** What a process of the system runs: a caller of [Start] or [Process], or
    a worker. *)
Inductive job : Type :=
  | JobStart (scope : Scope) (request : Request)
  | JobProcess (ctx : Context_) (config : Config) (scope : Scope) (executionID : string)
  | JobRun (rounds : nat) (ctx : Context_) (config : Config).

Definition job_prog (j : job) : prog unit :=
  match j with
  | JobStart scope request => bind (Start scope request) (fun _ => Ret tt)
  | JobProcess ctx config scope id => bind (Process ctx config scope id) (fun _ => Ret tt)
  | JobRun rounds ctx config => bind (Run rounds ctx config) (fun _ => Ret tt)
  end.

Lemma Start_conforms s scope request : conforms s (Start scope request) any.
Proof.
  apply conforms_pure_try; [done|]. intros _ _. apply conforms_pure_try; [done|]. intros value Hv.
  eapply conforms_try with (Q := any); [|done|done]. apply CreateExecution_conforms.
  unfold New in Hv. apply rbind_ok in Hv as (u & _ & Hv). apply rbind_ok in Hv as (u' & _ & [= <-]). done.
Qed.

Lemma Process_conforms s ctx config scope id : conforms s (Process ctx config scope id) any.
Proof.
  intros at_. eapply conforms_then; [apply ClaimExecutionWork_conforms|].
  intros s' [[claim|]|err] [He Hb]; [| |done].
  - eapply conforms_then; [by apply processClaim_conforms|]. intros s2 [value err] _.
    eapply conforms_then; [apply ReleaseExecutionWork_conforms|]. done.
  - eapply conforms_then; [apply FindExecutionByID_conforms|]. by intros s2 [v|e] _.
Qed.

Lemma Run_round_conforms s ctx config : conforms s (Run_round ctx config) any.
Proof.
  intros at_. eapply conforms_then; [apply ClaimNextExecutionWork_conforms|].
  intros s' [[claim|]|err] [He Hb]; [|done..].
  intros started. eapply conforms_then; [by apply processClaim_conforms|]. intros s2 [value err] _ released_at.
  eapply conforms_then; [apply ReleaseExecutionWork_conforms|]. done.
Qed.

Lemma Run_conforms rounds ctx config : forall s, conforms s (Run rounds ctx config) any.
Proof.
  induction rounds as [|n IH]; intros s; [done|]. eapply conforms_then; [apply Run_round_conforms|].
  intros s' [err|] _; [done|apply IH].
Qed.

Lemma job_conforms s j : conforms s (job_prog j) any.
Proof.
  destruct j; (eapply conforms_then; [|done]); [apply Start_conforms|apply Process_conforms|apply Run_conforms].
Qed.
End service.
