(* ===== verification/RuntimeSafety.v ===== *)
(** What the execution runtime guarantees however its workers, callers,
    failures and clocks interleave: an execution is handed to the adapter at
    most once, a superseded claim writes nothing, stored lifecycles only make
    legal steps, and completion rests on stored verification evidence. *)
From S2P Require Import Prelude GoStrings GoTime Sha256 AppErrors Policies Execution ExecutionSafety Storage Database.
From S2P Require Import RuntimeEffects ExecutionStore Runtime Protocol.
Open Scope Z_scope.
Open Scope go_scope.

(** * Steps of stored lifecycles *)
Definition lifecycle_step (l l' : lifecycle) : Prop :=
  lifecycle_call l l' /\ lc_revision l' = lc_revision l + 1.

Lemma lifecycle_steps_revision l l' :
  rtc lifecycle_step l l' -> lc_revision l <= lc_revision l' /\ (lc_revision l = lc_revision l' -> l = l').
Proof.
  induction 1 as [l|l m l' [_ Hr] _ [IH1 IH2]]; [by split; [lia|]|]. split; [lia|]. intros. exfalso. lia.
Qed.

(** How far a stored lifecycle has come, and whether it is terminal. *)
Definition lifecycle_progress (l : lifecycle) : Z :=
  match lc_status l with
  | StatusRecoveryRequired => rank (rec_Target (lc_recovery l))
  | StatusFailed =>
      if fai_Eligibility (lc_failure l) == RecoveryRecoverable then rank (fai_RecoveryTarget (lc_failure l)) else 9
  | s => rank s
  end.
Definition lifecycle_terminal (l : lifecycle) : bool :=
  (lc_status l == StatusCompleted) || (lc_status l == StatusCancelled)
  || ((lc_status l == StatusFailed) && (fai_Eligibility (lc_failure l) == RecoveryTerminal)).

Lemma lifecycle_step_facts l l' :
  lifecycle_step l l' -> lifecycle_progress l <= lifecycle_progress l' /\ lifecycle_terminal l = false.
Proof.
  intros [(e & e' & <- & <- & Hs) Hr].
  destruct (step_advanced _ _ Hs) as [->|(t & _ & Hp & Ht & _)]; [cbn in Hr; lia|]. by split.
Qed.

Lemma lifecycle_steps_facts l l' :
  rtc lifecycle_step l l' ->
  lifecycle_progress l <= lifecycle_progress l' /\ (lifecycle_terminal l = true -> l' = l).
Proof.
  induction 1 as [l|l m l' Hs _ [IH1 _]]; [by split; [lia|]|].
  destruct (lifecycle_step_facts _ _ Hs) as [Hp Ht]. split; [lia|]. by rewrite Ht.
Qed.

(** * The database only grows *)
Record grows (db db' : Database) : Prop := {
  grows_executions : forall k row, db_executions db !! k = Some row ->
    exists row', db_executions db' !! k = Some row' /\ rtc lifecycle_step (row_lifecycle row) (row_lifecycle row');
  grows_evidence : db_evidence db `prefix_of` db_evidence db';
  grows_work : forall k w, db_work db !! k = Some w ->
    exists w', db_work db' !! k = Some w' /\ wk_fencing_token w <= wk_fencing_token w'
}.

#[global] Instance grows_preorder : PreOrder grows.
Proof.
  split.
  - intros db. constructor; [|done|]; intros k r Hr; exists r; by split; [|reflexivity].
  - intros a b c [E1 V1 W1] [E2 V2 W2]. constructor; [|by etransitivity|].
    + intros k r (r1 & Hr1 & C1)%E1. destruct (E2 _ _ Hr1) as (r2 & Hr2 & C2). exists r2. split; [done|].
      by etransitivity.
    + intros k w (w1 & Hw1 & C1)%W1. destruct (W2 _ _ Hw1) as (w2 & Hw2 & C2). exists w2. split; [done|]. lia.
Qed.

(** * Effects of single statements *)
Lemma joined_ok tenant id actor db e r :
  joined tenant id actor db = Some (e, r) ->
  db_executions db !! (tenant, id) = Some e /\ db_requests db !! (tenant, id) = Some r /\
  ex_request_id e = req_requestID (rq_request r) /\ rq_user_id r = actor.
Proof.
  unfold joined. destruct (db_executions db !! _) as [e0|] eqn:E; [|done].
  destruct (db_requests db !! _) as [r0|] eqn:R; [|done].
  destruct (_ && _) eqn:C; [|done]. intros [= <- <-]. reflect_all. done.
Qed.

Lemma UpdateExecution_row_ok p db row db' :
  UpdateExecution_row p db = Ok (row, db') ->
  exists e r, joined (up_tenant p) (up_execution_id p) (up_actor p) db = Some (e, r) /\
    ex_revision e = up_expected p /\ up_revision p = up_expected p + 1 /\
    row_lifecycle row = update_lifecycle p /\ ex_request_id row = ex_request_id e /\
    db' = set_executions db (<[(up_tenant p, up_execution_id p) := row]> (db_executions db)).
Proof.
  unfold UpdateExecution_row. destruct (joined _ _ _ db) as [[e r]|]; [|done]. intros Hok.
  apply rbind_ok in Hok as ([] & Hg%fail_if_ok & Hok). apply rbind_ok in Hok as (t & _ & Hok).
  apply rbind_ok in Hok as ([] & _ & [= <- <-]). reflect_all. by exists e, r.
Qed.

(** The row an evidence statement inserts. *)
Definition evidence_row_of (p : EvidenceParams) (row : evidence_row) : Prop :=
  evd_key row = (ep_tenant p, ep_execution_id p) /\ evd_version row = ep_version p /\
  evd_status row = ep_status p /\ evd_reference row = ep_reference p /\ evd_error_code row = ep_error_code p.

Definition with_evidence (db : Database) (rows : list evidence_row) : Database :=
  MkDatabase (db_requests db) (db_executions db) (db_work db) (db_evidence db ++ rows) (db_audit db).

Lemma AppendVerificationEvidence_ok p db n db' :
  AppendVerificationEvidence_rows p db = Ok (n, db') ->
  (n = 0 /\ db' = db) \/
  (n = 1 /\ exists e r row, joined (ep_tenant p) (ep_execution_id p) (ep_actor p) db = Some (e, r) /\
     ex_revision e = ep_version p /\ ex_status e = ep_status p /\ evidence_row_of p row /\
     db' = with_evidence db [row]).
Proof.
  unfold AppendVerificationEvidence_rows. destruct (joined _ _ _ db) as [[e r]|]; [|intros [= <- <-]; auto].
  destruct (_ && _) eqn:C; [|intros [= <- <-]; auto]. intros Hok. right.
  apply rbind_ok in Hok as (t & _ & Hok). apply rbind_ok in Hok as ([] & _ & Hok).
  apply rbind_ok in Hok as ([] & _ & [= <- <-]). reflect_all. split; [done|].
  exists e, r, (MkEvidenceRow (ep_tenant p, ep_execution_id p) (ep_version p) (ep_status p) (ep_reference p)
    (ep_error_code p) t). by split_and!.
Qed.

Lemma AppendAudit_ok row db db' :
  AppendAudit_row row db = Ok db' ->
  db' = MkDatabase (db_requests db) (db_executions db) (db_work db) (db_evidence db) (db_audit db ++ [row]).
Proof. unfold AppendAudit_row. intros Hok. apply rbind_ok in Hok as (u & _ & [= <-]). done. Qed.

(** A claim is live when the work row still carries its owner and token and
    the lease has not run out. *)
Definition live (db : Database) (k : key) (owner : string) (token : Z) (clock : Time) : Prop :=
  exists w, db_work db !! k = Some w /\ wk_lease_owner w = owner /\ wk_fencing_token w = token /\
    exists t, wk_lease_expires_at w = Some t /\ clock < t.

Lemma holds_unexpired w owner token clock :
  holds owner token w && unexpired clock w = true <->
  wk_lease_owner w = owner /\ wk_fencing_token w = token /\ exists t, wk_lease_expires_at w = Some t /\ clock < t.
Proof.
  unfold holds, unexpired. rewrite !andb_true_iff, bool_decide_eq_true, Z.eqb_eq.
  destruct (wk_lease_expires_at w) as [t|]; rewrite ?Z.ltb_lt; naive_solver.
Qed.

Lemma ValidateExecutionClaim_live k owner token clock db :
  ValidateExecutionClaim k owner token clock db = 1 <-> live db k owner token clock.
Proof.
  unfold ValidateExecutionClaim, live. destruct (db_work db !! k) as [w|]; [|naive_solver].
  pose proof (holds_unexpired w owner token clock) as Hh. destruct (_ && _); naive_solver.
Qed.

(** The whole of a claimed write. *)
Lemma run_claimed_write_ok w clock db db' :
  run_claimed_write w clock db = Ok db' ->
  let p := cw_update w in
  live db (cw_key w) (cw_owner w) (cw_token w) clock /\
  exists e r row rows, joined (up_tenant p) (up_execution_id p) (up_actor p) db = Some (e, r) /\
    ex_revision e = up_expected p /\ up_revision p = up_expected p + 1 /\
    row_lifecycle row = update_lifecycle p /\ ex_request_id row = ex_request_id e /\
    match cw_evidence w with
    | None => rows = []
    | Some ev => exists v, rows = [v] /\ evidence_row_of ev v
    end /\
    db' = MkDatabase (db_requests db) (<[(up_tenant p, up_execution_id p) := row]> (db_executions db)) (db_work db)
            (db_evidence db ++ rows) (db_audit db ++ [cw_audit w]).
Proof.
  intros Hok p. unfold run_claimed_write in Hok. apply rbind_ok in Hok as ([] & Hl & Hok).
  apply fail_if_ok in Hl. reflect_all. split; [by apply ValidateExecutionClaim_live|].
  apply rbind_ok in Hok as ([row db1] & Hu & Hok). apply rbind_ok in Hok as (db2 & Hv & ->%AppendAudit_ok).
  destruct (UpdateExecution_row_ok _ _ _ _ Hu) as (e & r & Hj & Hrev & Hnext & Hlc & Hid & ->).
  unfold run_evidence in Hv. cbn [snd] in Hv. destruct (cw_evidence w) as [ev|].
  - apply rbind_ok in Hv as ([n db3] & Ha & Hv). apply rbind_ok in Hv as ([] & Hn%fail_if_ok & [= <-]).
    reflect_all. cbn in Hn. subst n.
    destruct (AppendVerificationEvidence_ok _ _ _ _ Ha) as [[? _]|(_ & e1 & r1 & v & _ & _ & _ & Hrow & ->)]; [done|].
    exists e, r, row, [v]. split_and!; eauto.
  - injection Hv as <-. exists e, r, row, []. split_and!; try done. cbn. by rewrite app_nil_r.
Qed.

(** * Sound knowledge *)
Definition verified_at (db : Database) (k : key) (revision : Z) : Prop :=
  exists v, v ∈ db_evidence db /\ evd_key v = k /\ evd_status v = StatusVerified /\ evd_version v = revision.

Record sound (db : Database) (s : knows) : Prop := {
  sound_rows : forall k l, (k, l) ∈ k_rows s ->
    exists row, db_executions db !! k = Some row /\ rtc lifecycle_step l (row_lifecycle row);
  sound_verified : forall k v, (k, v) ∈ k_verified s -> verified_at db k v
}.

Lemma verified_at_grows db db' k v : grows db db' -> verified_at db k v -> verified_at db' k v.
Proof.
  intros [_ [tail E] _] (x & Hx & Hrest). exists x. split; [|done]. rewrite E. apply elem_of_app. auto.
Qed.

Lemma sound_grows db db' s : grows db db' -> sound db s -> sound db' s.
Proof.
  intros Hg [Hr Hv]. split.
  - intros k l (row & Hrow & C)%Hr. destruct (grows_executions _ _ Hg _ _ Hrow) as (row' & Hrow' & C').
    exists row'. split; [done|]. by etransitivity.
  - intros k v Hkv%Hv. by eapply verified_at_grows.
Qed.

Lemma sound_nothing db : sound db nothing.
Proof. split; intros ? ? H; by apply elem_of_nil in H. Qed.

(** COMPLETED executions rest on VERIFIED evidence of the revision before. *)
Definition completed_verified (db : Database) : Prop :=
  forall k row, db_executions db !! k = Some row -> ex_status row = StatusCompleted ->
    verified_at db k (ex_revision row - 1).

(** The submission mark. *)
Definition marked (db : Database) (k : key) : bool :=
  match db_work db !! k with Some w => wk_submission_started w | None => false end.
Definition marks {Y} (q : query Y) (k : key) : bool :=
  match q with MarkSubmission k' _ _ => k' == k | _ => false end.

(** What one statement does to a database, seen by a program that knows [s]. *)
Record preserves (s : knows) {Y} (q : query Y) (db : Database) (y : Y) (db' : Database) : Prop := {
  pr_grows : grows db db';
  pr_sound : sound db s -> sound db' (learn s q (Ok y));
  pr_completed : completed_verified db -> completed_verified db';
  pr_marked : forall k, marked db' k = if marks q k then true else marked db k;
  pr_unmarked : forall k, marks q k = true -> marked db k = false
}.

Lemma preserves_read s {Y} (q : query Y) db y :
  (forall k, marks q k = false) -> (sound db s -> sound db (learn s q (Ok y))) -> preserves s q db y db.
Proof.
  intros Hm Hs. constructor; [reflexivity|done|done|..]; intros k; rewrite Hm; done.
Qed.

(** Replacing a work row. *)
Lemma grows_set_work db k w w' :
  db_work db !! k = Some w -> wk_fencing_token w <= wk_fencing_token w' ->
  grows db (set_work db (<[k := w']> (db_work db))).
Proof.
  intros Hw Ht. constructor; [intros k0 r Hr; exists r; by split; [|reflexivity]|done|].
  intros k0 w0 Hw0. cbn. destruct (decide (k = k0)) as [<-|Hne].
  - rewrite lookup_insert_eq. exists w'. split; [done|]. by rewrite Hw in Hw0; injection Hw0 as <-.
  - rewrite lookup_insert_ne by done. by exists w0.
Qed.

Lemma marked_set_work db k w' k0 :
  marked (set_work db (<[k := w']> (db_work db))) k0 =
  if decide (k = k0) then wk_submission_started w' else marked db k0.
Proof.
  unfold marked. cbn. destruct (decide (k = k0)) as [<-|Hne].
  - by rewrite lookup_insert_eq.
  - by rewrite lookup_insert_ne.
Qed.

Lemma preserves_work s {Y} (q : query Y) db y k w w' :
  db_work db !! k = Some w -> wk_fencing_token w <= wk_fencing_token w' ->
  learn s q (Ok y) = s -> (forall k, marks q k = false) ->
  wk_submission_started w' = wk_submission_started w ->
  preserves s q db y (set_work db (<[k := w']> (db_work db))).
Proof.
  intros Hw Ht Hl Hm Hst. pose proof (grows_set_work db k w w' Hw Ht) as Hg. constructor; [done| | |..].
  - intros Hs. rewrite Hl. by eapply sound_grows.
  - done.
  - intros k0. rewrite Hm, marked_set_work. case_decide as Hk; [|done]. subst k0. unfold marked. by rewrite Hw.
  - intros k0. by rewrite Hm.
Qed.

Lemma preserves_ClaimWork s owner us t id actor now db y db' :
  run_query (ClaimWork owner us t id actor) now db = Ok (y, db') ->
  preserves s (ClaimWork owner us t id actor) db y db'.
Proof.
  cbn. unfold ClaimExecutionWork_row. destruct (db_work db !! (t, id)) as [w|] eqn:E; [|done].
  destruct (joined t id actor db) as [[e r]|]; [|done]. destruct (claimable _ w e); [|done].
  intros [= <- <-]. eapply preserves_work; [exact E|cbn; lia|done..].
Qed.

Lemma first_to_run_in l x : first_to_run l = Some x -> x ∈ l.
Proof.
  revert x. induction l as [|y l IH]; cbn; [done|]. intros x.
  destruct (foldr _ None l) as [z|] eqn:E.
  - destruct (runs_before y z); intros [= <-]; [apply list_elem_of_here|]. apply list_elem_of_further. by apply IH.
  - intros [= <-]. apply list_elem_of_here.
Qed.

Lemma preserves_ClaimNext s owner us now db y db' :
  run_query (ClaimNext owner us) now db = Ok (y, db') -> preserves s (ClaimNext owner us) db y db'.
Proof.
  cbn. unfold ClaimNextExecutionWork_row. destruct (first_to_run _) as [[k w]|] eqn:E; [|done].
  intros [= <- <-]. apply first_to_run_in, list_elem_of_omap in E as ([k0 w0] & Hin%elem_of_map_to_list & Hc).
  case_bool_decide; [done|]. destruct (db_executions db !! k0); [|done]. destruct (claimable _ _ _); [|done].
  injection Hc as -> ->. eapply preserves_work; [exact Hin|cbn; lia|done..].
Qed.

Lemma preserves_Release s k owner token t now db y db' :
  run_query (ReleaseWork k owner token t) now db = Ok (y, db') ->
  preserves s (ReleaseWork k owner token t) db y db'.
Proof.
  cbn. unfold ReleaseExecutionWork_rows. destruct (db_work db !! k) as [w|] eqn:E;
    [|intros [= <- <-]; by apply preserves_read].
  destruct (holds owner token w); [|intros [= <- <-]; by apply preserves_read].
  intros Hok. apply rbind_ok in Hok as (at_ & _ & [= <- <-]). eapply preserves_work; [exact E|cbn; lia|done..].
Qed.

Lemma preserves_Mark s k owner token now db y db' :
  run_query (MarkSubmission k owner token) now db = Ok (y, db') ->
  preserves s (MarkSubmission k owner token) db y db'.
Proof.
  cbn. unfold MarkSubmissionStarted_row. destruct (db_work db !! k) as [w|] eqn:E; [|done].
  destruct (holds owner token w && unexpired (mo_clock now) w && negb (wk_submission_started w)) eqn:C; [|done].
  apply andb_true_iff in C as [_ C]. reflect_all. intros [= <- <-].
  pose proof (grows_set_work db k w (set_submission true w) E ltac:(cbn; lia)) as Hg. constructor; [done| | |..].
  - intros Hs. apply (sound_grows _ _ _ Hg) in Hs as [Hr Hv]. by split.
  - done.
  - intros k0. rewrite marked_set_work. cbn. case_decide as Hk; case_bool_decide; naive_solver.
  - intros k0 Hk. cbn in Hk. reflect_all. subst k0. unfold marked. by rewrite E.
Qed.

Lemma preserves_Create s r e now db y db' :
  allowed s (CreateExecution_tx r e) -> run_query (CreateExecution_tx r e) now db = Ok (y, db') ->
  preserves s (CreateExecution_tx r e) db y db'.
Proof.
  intros Hc Hok. cbn in Hc, Hok. unfold as_unit, run_create in Hok.
  apply rbind_ok in Hok as (db2 & Hok & [= <- <-]).
  do 2 (apply rbind_ok in Hok as (? & _ & Hok)). apply rbind_ok in Hok as (db1 & Hreq & Hok).
  unfold CreateExecutionRequest in Hreq. apply rbind_ok in Hreq as (? & _ & [= <-]).
  do 2 (apply rbind_ok in Hok as (? & _ & Hok)). unfold CreateExecution_row in Hok. cbn [db_executions db_work] in Hok.
  apply rbind_ok in Hok as (? & _ & Hok). set (k := (xp_tenant e, xp_execution_id e)) in *.
  destruct (db_executions db !! k) as [old|] eqn:Ex; [done|]. injection Hok as <-.
  set (row := MkExecutionRow _ _ _ _ _ _ _ _) in *.
  set (work := match db_work db !! k with Some w => w | None => MkWorkRow (ex_updated_at row) "" None 0 false end) in *.
  match goal with |- preserves _ _ _ _ ?db' => assert (grows db db') as Hg end.
  { constructor; cbn; [|done|].
    - intros k0 r0 Hr0. exists r0. split; [|reflexivity]. rewrite lookup_insert_ne; [done|congruence].
    - intros k0 w0 Hw0. destruct (decide (k = k0)) as [<-|Hne].
      + rewrite lookup_insert_eq. exists work. split; [done|]. unfold work. rewrite Hw0. lia.
      + rewrite lookup_insert_ne by done. by exists w0. }
  constructor; [exact Hg| | |..].
  - intros Hs. by eapply sound_grows.
  - intros Hcomp k0 r0 Hr0 Hst. cbn in Hr0. destruct (decide (k = k0)) as [<-|Hne].
    + rewrite lookup_insert_eq in Hr0. injection Hr0 as <-. cbn in Hst. congruence.
    + rewrite lookup_insert_ne in Hr0 by done. by apply (Hcomp k0 r0).
  - intros k0. cbn. unfold marked. cbn. destruct (decide (k = k0)) as [<-|Hne].
    + rewrite lookup_insert_eq. unfold work. by destruct (db_work db !! k).
    + by rewrite lookup_insert_ne.
  - done.
Qed.

Lemma verified_at_app db rows k v :
  verified_at db k v -> verified_at (with_evidence db rows) k v.
Proof. intros (x & Hx & Hrest). exists x. split; [|done]. cbn. apply elem_of_app. auto. Qed.

Lemma preserves_AppendEvidence s p now db y db' :
  run_query (AppendEvidence p) now db = Ok (y, db') -> preserves s (AppendEvidence p) db y db'.
Proof.
  cbn. intros [[-> ->]|(-> & e & r & row & _ & _ & _ & _ & ->)]%AppendVerificationEvidence_ok;
    [by apply preserves_read|].
  assert (grows db (with_evidence db [row])) as Hg.
  { constructor; [intros k x Hx; exists x; by split; [|reflexivity]|by apply prefix_app_r|].
    intros k w Hw. exists w. split; [done|lia]. }
  constructor; [done|by apply sound_grows| |done|done].
  intros Hcomp k x Hx Hst. apply verified_at_app. by apply (Hcomp k x).
Qed.

(** The write a program may make continues the stored lifecycle. *)
Lemma write_continues s w db e r :
  sound db s -> write_allowed s w ->
  joined (up_tenant (cw_update w)) (up_execution_id (cw_update w)) (up_actor (cw_update w)) db = Some (e, r) ->
  ex_revision e = up_expected (cw_update w) -> up_revision (cw_update w) = up_expected (cw_update w) + 1 ->
  lifecycle_step (row_lifecycle e) (update_lifecycle (cw_update w)) /\
  (up_status (cw_update w) = StatusCompleted -> verified_at db (cw_key w) (ex_revision e)).
Proof.
  intros [Hr Hv] (Hk & l & Hl & Hexp & Hcall & Hdone) (He & _)%joined_ok Hrev Hnext.
  destruct (Hr _ _ Hl) as (row & Hrow & C). rewrite Hk in Hrow. rewrite He in Hrow. injection Hrow as <-.
  destruct (lifecycle_steps_revision _ _ C) as [_ Heq]. rewrite <- Heq by (cbn; congruence).
  split; [split; [done|cbn; congruence]|]. intros Hc%Hdone%Hv. by rewrite Hrev.
Qed.

Lemma preserves_ClaimedWrite s w now db y db' :
  sound db s -> allowed s (ClaimedWrite_tx w) -> run_query (ClaimedWrite_tx w) now db = Ok (y, db') ->
  preserves s (ClaimedWrite_tx w) db y db'.
Proof.
  intros Hs Hal Hok. pose proof Hal as (Hk & _). cbn in Hok. unfold as_unit in Hok.
  apply rbind_ok in Hok as (db2 & Hok & [= <- <-]).
  destruct (run_claimed_write_ok _ _ _ _ Hok) as
    (_ & e & r & row & rows & Hj & Hrev & Hnext & Hlc & Hid & Hrows & ->).
  destruct (write_continues _ _ _ _ _ Hs Hal Hj Hrev Hnext) as [Hstep Hdone].
  apply joined_ok in Hj as (He & _). rewrite <- Hk in *. set (p := cw_update w) in *.
  set (db2 := MkDatabase _ _ _ _ _).
  assert (grows db db2) as Hg.
  { constructor; cbn; [|by apply prefix_app_r|].
    - intros k0 r0 Hr0. destruct (decide (cw_key w = k0)) as [<-|Hne].
      + rewrite lookup_insert_eq. exists row. split; [done|]. rewrite He in Hr0. injection Hr0 as <-.
        rewrite Hlc. by apply rtc_once.
      + rewrite lookup_insert_ne by done. exists r0. split; [done|reflexivity].
    - intros k0 w0 Hw0. exists w0. split; [done|lia]. }
  constructor; [done| | |done|done].
  - intros _. apply (sound_grows _ _ _ Hg) in Hs as [Hr Hv]. split; [|done]. cbn.
    intros k l [[= -> ->]|Hin]%elem_of_cons; [|by apply Hr]. exists row.
    rewrite lookup_insert_eq, Hlc. by split.
  - intros Hcomp k0 r0 Hr0 Hst. cbn in Hr0. destruct (decide (cw_key w = k0)) as [<-|Hne].
    + rewrite lookup_insert_eq in Hr0. injection Hr0 as <-.
      assert (up_status p = StatusCompleted /\ ex_revision row = up_revision p) as [Hup Er].
      { injection Hlc as E1 E2 _ _ _. by rewrite <- E1. }
      apply (verified_at_grows _ _ _ _ Hg). rewrite Er, Hnext, <- Hrev, Z.add_simpl_r. auto.
    + rewrite lookup_insert_ne in Hr0 by done. apply (verified_at_grows _ _ _ _ Hg). by apply (Hcomp k0 r0).
Qed.

Lemma sort_by_time_in x l : x ∈ sort_by_time l <-> x ∈ l.
Proof.
  assert (forall y l', x ∈ insert_by_time y l' <-> x = y \/ x ∈ l') as Hins.
  { intros y l'. induction l' as [|z l' IH]; cbn [insert_by_time]; [by rewrite elem_of_cons|].
    destruct (_ <=? _); rewrite !elem_of_cons, ?IH; naive_solver. }
  induction l as [|y l IH]; cbn; [done|]. by rewrite elem_of_cons, Hins, IH.
Qed.

Lemma learned_evidence db s tenant id actor :
  sound db s -> sound db (saw_evidence (tenant, id) (FindVerificationEvidence_rows tenant id actor db) s).
Proof.
  intros [Hr Hv]. split; [done|]. cbn. intros k v [Hin|Hin]%elem_of_app; [|by apply Hv].
  apply list_elem_of_omap in Hin as (x & Hx & Hk). unfold verified_row in Hk.
  destruct (evd_status x == StatusVerified) eqn:E; [|done]. injection Hk as <- <-. reflect_all.
  unfold FindVerificationEvidence_rows in Hx. destruct (joined _ _ _ _); [|by apply elem_of_nil in Hx].
  apply sort_by_time_in, list_elem_of_filter in Hx as [Hk Hx]. by exists x.
Qed.

Lemma learned_row db s tenant id actor e r :
  joined tenant id actor db = Some (e, r) -> sound db s -> sound db (saw_row (tenant, id) (row_lifecycle e) s).
Proof.
  intros (He & _)%joined_ok [Hr Hv]. split; [|done]. cbn. intros k l [[= -> ->]|Hin]%elem_of_cons; [|by apply Hr].
  by exists e.
Qed.

Lemma query_preserves s {Y} (q : query Y) now db y db' :
  sound db s -> allowed s q -> run_query q now db = Ok (y, db') -> preserves s q db y db'.
Proof.
  intros Hs Hal Hok. destruct q; try done.
  - by eapply preserves_Create.
  - cbn in Hok. destruct (joined _ _ _ _) as [[e r]|] eqn:E; cbn in Hok; [|done]. injection Hok as <- <-.
    apply preserves_read; [done|]. by eapply learned_row.
  - cbn in Hok. destruct (find_joined _ _ _ _); cbn in Hok; [|done]. injection Hok as <- <-. by apply preserves_read.
  - cbn in Hok. destruct (find_joined _ _ _ _); cbn in Hok; [|done]. injection Hok as <- <-. by apply preserves_read.
  - by eapply preserves_ClaimWork.
  - by eapply preserves_ClaimNext.
  - cbn in Hok. destruct (db_requests db !! k); cbn in Hok; [|done]. injection Hok as <- <-. by apply preserves_read.
  - cbn in Hok. injection Hok as <- <-. by apply preserves_read.
  - by eapply preserves_Mark.
  - by eapply preserves_Release.
  - by eapply preserves_AppendEvidence.
  - cbn in Hok. injection Hok as <- <-. apply preserves_read; [done|]. apply learned_evidence.
  - by eapply preserves_ClaimedWrite.
Qed.

(** * The system *)
Section system.
Context `{UnicodeTables} `{PgTimestamp}.

(** The world and the programs running in it. *)
Definition system : Type := World * list (prog unit).

Inductive sys_step : system -> system -> Prop :=
  | sys_spawn w ts j : sys_step (w, ts) (w, ts ++ [job_prog j])
  | sys_action w ts i p env p' w' :
      ts !! i = Some p -> step p env w = Some (p', w') -> sys_step (w, ts) (w', <[i := p']> ts).

Definition initial : system := (MkWorld empty_database [], []).
Definition reachable (sys : system) : Prop := rtc sys_step initial sys.

(** Calls of the adapter about an execution, and programs about to make one. *)
Definition submissions (k : key) (w : World) : nat :=
  length (filter (fun c => submission_key c = Some k) (w_submitted w)).
Definition pending (k : key) (ks : list knows) : nat := length (filter (fun s => k_submit s = Some k) ks).

Record inv (w : World) (ks : list knows) : Prop := {
  inv_sound : Forall (sound (w_db w)) ks;
  inv_completed : completed_verified (w_db w);
  inv_count : forall k, (pending k ks + submissions k w <= if marked (w_db w) k then 1 else 0)%nat
}.

Definition may (s : knows) (k : key) : nat := if decide (k_submit s = Some k) then 1 else 0.

Lemma pending_cons k s ks : pending k (s :: ks) = (may s k + pending k ks)%nat.
Proof. unfold pending, may. rewrite filter_cons. by case_decide. Qed.

Lemma pending_app k ks ks' : pending k (ks ++ ks') = (pending k ks + pending k ks')%nat.
Proof. unfold pending. by rewrite filter_app, length_app. Qed.

Lemma pending_insert k ks : forall i s s',
  ks !! i = Some s -> (pending k (<[i := s']> ks) + may s k = pending k ks + may s' k)%nat.
Proof.
  induction ks as [|x ks IH]; intros [|i] s s' Hs; try done.
  - injection Hs as ->. change (<[0%nat := s']> (s :: ks)) with (s' :: ks). rewrite !pending_cons. lia.
  - specialize (IH i s s' Hs). change (<[S i := s']> (x :: ks)) with (x :: <[i := s']> ks).
    rewrite !pending_cons. lia.
Qed.

Lemma submissions_cons k db c log :
  submissions k (MkWorld db (c :: log))
  = ((if decide (submission_key c = Some k) then 1 else 0) + submissions k (MkWorld db log))%nat.
Proof. unfold submissions. cbn [w_submitted]. rewrite filter_cons. by case_decide. Qed.

(** One program's knowledge changes and the database grows. *)
Lemma inv_update w ks i s s' db' log :
  inv w ks -> ks !! i = Some s -> grows (w_db w) db' -> sound db' s' -> completed_verified db' ->
  (forall k, (may s' k + submissions k (MkWorld db' log) + (if marked (w_db w) k then 1 else 0)
             <= may s k + submissions k w + (if marked db' k then 1 else 0))%nat) ->
  inv (MkWorld db' log) (<[i := s']> ks).
Proof.
  intros [Hs Hc Hn] Hi Hg Hs' Hc' Hk. constructor; [|done|].
  - apply Forall_insert; [|done]. eapply Forall_impl; [exact Hs|]. intros x. by apply sound_grows.
  - intros k. specialize (Hn k). specialize (Hk k). pose proof (pending_insert k ks i s s' Hi). cbn [w_db]. lia.
Qed.

Lemma submissions_db k db db' log : submissions k (MkWorld db log) = submissions k (MkWorld db' log).
Proof. done. Qed.

Lemma submissions_world k w : submissions k w = submissions k (MkWorld (w_db w) (w_submitted w)).
Proof. by destruct w. Qed.

Lemma learn_submit s {Y} (q : query Y) y k :
  (may (learn s q (Ok y)) k <= if marks q k then 1 else may s k)%nat.
Proof.
  destruct q; cbn [marks]; try (unfold may; cbn; lia).
  - by destruct y as [[id' e] r].
  - unfold may. cbn [learn may_submit k_submit marks]. destruct (decide (k0 = k)) as [->|Hne].
    + rewrite eqb_refl, decide_True by done. lia.
    + rewrite decide_False by congruence. lia.
Qed.

Lemma query_inv w ks i s {Y} (q : query Y) env r db' :
  inv w ks -> ks !! i = Some s -> allowed s q -> answer_query q env (w_db w) = (r, db') ->
  inv (MkWorld db' (w_submitted w)) (<[i := learn s q r]> ks) /\ grows (w_db w) db'.
Proof.
  intros Hinv Hi Hal Ha. pose proof (proj1 (Forall_lookup _ _) (inv_sound _ _ Hinv) _ _ Hi) as Hs.
  assert (forall e, inv (MkWorld (w_db w) (w_submitted w)) (<[i := learn s q (Err e)]> ks)) as Hsame.
  { intros e. rewrite learn_err, list_insert_id by done. by destruct w. }
  unfold answer_query in Ha. destruct (run_query q (env_moment env) (w_db w)) as [[y db1]|e] eqn:E.
  - destruct (query_preserves s q _ _ _ _ Hs Hal E) as [Hg Hsnd Hcomp Hmk Hun].
    destruct (env_fault env) as [[err [|]]|]; injection Ha as <- <-; split; try done.
    + rewrite learn_err. apply (inv_update w ks i s); try done; [by eapply sound_grows|by apply Hcomp, Hinv|].
      intros k. rewrite (submissions_world k w), Hmk. cbn [w_db w_submitted].
      rewrite (submissions_db k db1 (w_db w)). destruct (marks q k) eqn:Em; [|lia].
      rewrite (Hun _ Em). lia.
    + apply (inv_update w ks i s); try done; [by apply Hsnd|by apply Hcomp, Hinv|].
      intros k. pose proof (learn_submit s q y k). rewrite (submissions_world k w), Hmk. cbn [w_db w_submitted].
      rewrite (submissions_db k db1 (w_db w)). destruct (marks q k) eqn:Em; [|lia].
      rewrite (Hun _ Em). lia.
  - destruct (env_fault env) as [[err [|]]|]; injection Ha as <- <-; by split.
Qed.

Lemma submit_inv w ks i s k0 call :
  inv w ks -> ks !! i = Some s -> k_submit s = Some k0 -> submission_key call = Some k0 ->
  inv (MkWorld (w_db w) (call :: w_submitted w)) (<[i := may_submit None s]> ks).
Proof.
  intros Hinv Hi Hk Hcall. pose proof (proj1 (Forall_lookup _ _) (inv_sound _ _ Hinv) _ _ Hi) as [Hr Hv].
  apply (inv_update w ks i s); try done; [apply Hinv|]. intros k.
  rewrite submissions_cons, Hcall, (submissions_world k w). unfold may. rewrite Hk. cbn.
  repeat case_decide; try done; lia.
Qed.

Lemma action_inv w ks i s (p p' : prog unit) env w' :
  inv w ks -> ks !! i = Some s -> conforms s p any -> step p env w = Some (p', w') ->
  exists s', conforms s' p' any /\ inv w' (<[i := s']> ks) /\ grows (w_db w) (w_db w').
Proof.
  intros Hinv Hi Hp Hst.
  assert (forall q, conforms s q any -> w' = w -> p' = q ->
    exists s', conforms s' p' any /\ inv w' (<[i := s']> ks) /\ grows (w_db w) (w_db w')) as Hpure.
  { intros q Hq -> ->. exists s. split; [done|]. rewrite list_insert_id by done. by split. }
  destruct p as [a|Y q k|ctx r k|ctx id k|ctx e ref k|k|d k]; cbn in Hst; try done.
  - destruct (answer_query q env (w_db w)) as [r db'] eqn:E. injection Hst as <- <-. destruct Hp as [Hal Hk].
    destruct (query_inv _ _ _ _ _ _ _ _ Hinv Hi Hal E) as [Hinv' Hg]. by exists (learn s q r).
  - injection Hst as <- <-. destruct Hp as [(k0 & Hk0 & Hcall) Hk].
    exists (may_submit None s). split; [done|]. split; [by eapply submit_inv|reflexivity].
  - injection Hst as <- <-. exact (Hpure _ (Hp _) eq_refl eq_refl).
  - injection Hst as <- <-. exact (Hpure _ (Hp _) eq_refl eq_refl).
  - injection Hst as <- <-. exact (Hpure _ (Hp _) eq_refl eq_refl).
  - injection Hst as <- <-. exact (Hpure _ (Hp _) eq_refl eq_refl).
Qed.

Definition system_inv (sys : system) : Prop :=
  exists ks, Forall2 (fun s p => conforms s p any) ks (snd sys) /\ inv (fst sys) ks.

Lemma system_step_inv sys sys' :
  sys_step sys sys' -> system_inv sys -> system_inv sys' /\ grows (w_db (fst sys)) (w_db (fst sys')).
Proof.
  intros [w ts j|w ts i p env p' w' Hi Hst] (ks & Hks & Hinv); cbn in *.
  - split; [|reflexivity]. exists (ks ++ [nothing]). split.
    + apply Forall2_app; [done|]. repeat constructor. apply job_conforms.
    + destruct Hinv as [Hs Hc Hn]. constructor; [|done|].
      * apply Forall_app. split; [done|]. repeat constructor; cbn; intros ? ? Hin; by apply elem_of_nil in Hin.
      * intros k. rewrite pending_app. specialize (Hn k).
        assert (pending k [nothing] = 0%nat) as -> by reflexivity. by rewrite Nat.add_0_r.
  - destruct (Forall2_lookup_r _ _ _ _ _ Hks Hi) as (s & Hsi & Hp).
    destruct (action_inv _ _ _ _ _ _ _ _ Hinv Hsi Hp Hst) as (s' & Hp' & Hinv' & Hg).
    split; [|done]. exists (<[i := s']> ks). split; [|done]. by apply Forall2_insert.
Qed.

Lemma system_run_inv sys sys' :
  rtc sys_step sys sys' -> system_inv sys -> system_inv sys' /\ grows (w_db (fst sys)) (w_db (fst sys')).
Proof.
  induction 1 as [sys|x y z Hxy _ IH]; intros Hi; [by split|].
  destruct (system_step_inv _ _ Hxy Hi) as [Hy Hg]. destruct (IH Hy) as [Hz Hg']. split; [done|].
  by etransitivity.
Qed.

Lemma initial_inv : system_inv initial.
Proof.
  exists []. split; [done|]. constructor; [done| |].
  - intros k row Hr. cbn in Hr. by rewrite lookup_empty in Hr.
  - intros k. cbn. lia.
Qed.

Lemma reachable_inv sys : reachable sys -> system_inv sys.
Proof. intros Hr. apply (system_run_inv _ _ Hr initial_inv). Qed.
End system.
