(* ===== verification/RuntimeGuarantees.v ===== *)
(** The guarantees of the execution runtime, as theorems about every reachable
    state of the system of RuntimeSafety.v, with one complete run. *)
From S2P Require Evaluator Approvals PolicySafety.
From S2P Require Import Prelude GoStrings GoTime Sha256 AppErrors Contracts IntentTypes IntentParams Intents.
From S2P Require Import IntentSafety Policies Execution ExecutionSafety Storage Database RuntimeEffects ExecutionStore.
From S2P Require Import Runtime Protocol RuntimeSafety.
Open Scope Z_scope.
Open Scope go_scope.

Section guarantees.
Context `{UnicodeTables} `{PgTimestamp}.

(** [C1] Submission is at most once: in every reachable state of the system
    — any number of workers and callers, statements that fail or take effect
    without an answer, arbitrary clocks and adapter answers — the adapter was
    asked to execute an execution at most once, and only after the durable
    submission mark was set, which is never cleared. *)
Theorem submitted_at_most_once (sys : system) (k : key) (Hr : reachable sys) :
  (submissions k (fst sys) <= 1)%nat /\
  ((0 < submissions k (fst sys))%nat -> marked (w_db (fst sys)) k = true).
Proof.
  destruct (reachable_inv _ Hr) as (ks & _ & [_ _ Hn]). specialize (Hn k).
  destruct (marked _ k); split; try done; lia.
Qed.

(** [C4] Stored executions only move forward: between any two states of a run
    of the system, a stored execution keeps existing, its lifecycle columns
    change only by calls of the domain lifecycle that advance the revision by
    one each, its progress never decreases, and a terminal execution never
    changes again — whatever stale snapshots the workers act on. *)
Theorem stored_lifecycle_advances (sys sys' : system) (k : key) (row : execution_row)
    (Hr : reachable sys) (Hrun : rtc sys_step sys sys') (Hrow : db_executions (w_db (fst sys)) !! k = Some row) :
  exists row', db_executions (w_db (fst sys')) !! k = Some row' /\
    rtc lifecycle_step (row_lifecycle row) (row_lifecycle row') /\
    ex_revision row <= ex_revision row' /\
    lifecycle_progress (row_lifecycle row) <= lifecycle_progress (row_lifecycle row') /\
    (lifecycle_terminal (row_lifecycle row) = true -> row_lifecycle row' = row_lifecycle row).
Proof.
  destruct (system_run_inv _ _ Hrun (reachable_inv _ Hr)) as [_ Hg].
  destruct (grows_executions _ _ Hg _ _ Hrow) as (row' & Hrow' & Hsteps). exists row'.
  destruct (lifecycle_steps_revision _ _ Hsteps) as [Hle _].
  destruct (lifecycle_steps_facts _ _ Hsteps) as [Hp Ht]. by split_and!.
Qed.

(** [C5] Completion rests on evidence: in every reachable state, an
    execution stored as COMPLETED has a stored VERIFIED evidence row for
    exactly the revision before, the one at which it was VERIFIED. *)
Theorem completed_has_evidence (sys : system) (k : key) (row : execution_row) (Hr : reachable sys)
    (Hrow : db_executions (w_db (fst sys)) !! k = Some row) (Hst : ex_status row = StatusCompleted) :
  exists v, v ∈ db_evidence (w_db (fst sys)) /\ evd_key v = k /\ evd_status v = StatusVerified /\
    evd_version v = ex_revision row - 1.
Proof.
  destruct (reachable_inv _ Hr) as (ks & _ & [_ Hc _]). by apply (Hc k row).
Qed.

(** A claim with an old token is not live. *)
Lemma stale_not_live db k owner token clock w :
  db_work db !! k = Some w -> token < wk_fencing_token w -> ~ live db k owner token clock.
Proof. intros Hw Ht (w' & Hw' & _ & Hf & _). rewrite Hw in Hw'. injection Hw' as <-. lia. Qed.

Lemma stale_not_held w owner token : token < wk_fencing_token w -> holds owner token w = false.
Proof. unfold holds. intros Ht. apply andb_false_iff. right. apply Z.eqb_neq. lia. Qed.

(** * What a superseded claim still does *)
(** The claim's own steps, each with the world before and after it; the rest
    of the system works before each one. *)
Definition turn : Type := (World -> World) * environment.
Fixpoint own_steps {A} (p : prog A) (turns : list turn) (w : World) : list (World * World) :=
  match turns with
  | [] => []
  | (others, env) :: rest =>
      match step p env (others w) with
      | Some (p', w') => (others w, w') :: own_steps p' rest w'
      | None => []
      end
  end.
(** The rest of the system is free within what [system_run_inv] shows of it. *)
Definition others_grow (turns : list turn) : Prop := Forall (fun t => forall w, grows (w_db w) (w_db (fst t w))) turns.

Definition superseded (k : key) (token : Z) (db : Database) : Prop :=
  exists w, db_work db !! k = Some w /\ token < wk_fencing_token w.
(** The database is left as it is, or gains one evidence row: without an
    error code, CONFIRMING or CONFIRMED, at the revision and in the state the
    stored execution is in at that moment. *)
Definition observes (k : key) (revision : Z) (db db' : Database) : Prop :=
  db' = db \/
  exists v e, db' = with_evidence db [v] /\ evd_key v = k /\ evd_error_code v = "" /\ evd_version v = revision /\
    (evd_status v = StatusConfirming \/ evd_status v = StatusConfirmed) /\
    db_executions db !! k = Some e /\ ex_revision e = revision /\ ex_status e = evd_status v.

Lemma superseded_grows k token db db' : grows db db' -> superseded k token db -> superseded k token db'.
Proof. intros Hg (w & Hw & Ht). destruct (grows_work _ _ Hg _ _ Hw) as (w' & Hw' & Hle). exists w'. split; [done|lia]. Qed.
Lemma superseded_observes k revision token db db' : observes k revision db db' -> superseded k token db -> superseded k token db'.
Proof. by intros [->|(v & e & -> & _)]. Qed.

(** The statements of an execution's superseded claim. *)
Section inert.
Variables (k : key) (token revision : Z).

(** While the claim is superseded, the program never calls [Adapter.Execute],
    its statements do no more than observe, and what it returns satisfies [Q]. *)
Fixpoint inert {A} (Q : A -> Prop) (p : prog A) : Prop :=
  match p with
  | Ret a => Q a
  | Query q c =>
      (forall env db, superseded k token db -> observes k revision db (snd (answer_query q env db))) /\
      (forall r, (exists env db, superseded k token db /\ r = fst (answer_query q env db)) -> inert Q (c r))
  | Execute _ _ _ => False
  | GetStatus _ _ c => forall r, inert Q (c r)
  | Verify _ _ _ c => forall r, inert Q (c r)
  | Now c => forall t, inert Q (c t)
  | Sleep _ c => forall r, inert Q (c r)
  end.

Lemma inert_steps {A} (Q : A -> Prop) : forall turns (p : prog A) w before after,
  inert Q p -> superseded k token (w_db w) -> others_grow turns -> (before, after) ∈ own_steps p turns w ->
  w_submitted after = w_submitted before /\ observes k revision (w_db before) (w_db after).
Proof.
  induction turns as [|[others env] turns IH]; intros p w before after Hp Hw Ht; cbn [own_steps]; [by intros ?%not_elem_of_nil|].
  inversion_clear Ht as [|? ? Hg Ht']. cbn in Hg. pose proof (superseded_grows _ _ _ _ (Hg w) Hw) as Hw'.
  destruct p as [a|Y q c|ctx r c|ctx id c|ctx e ref c|c|d c]; cbn [step]; [by intros ?%not_elem_of_nil| |done|..].
  2-5: intros [[= -> ->]|Hin]%elem_of_cons; [by split; [|left]|by eapply IH, Hin; [apply Hp|..]].
  destruct Hp as [Hq Hc]. destruct (answer_query q env (w_db (others w))) as [r db'] eqn:Ea.
  pose proof (Hq env _ Hw') as Ho. rewrite Ea in Ho. cbn in Ho.
  intros [[= -> ->]|Hin]%elem_of_cons; [by split|]. eapply IH, Hin; [|by eapply superseded_observes|done].
  apply Hc. exists env, (w_db (others w)). by rewrite Ea.
Qed.

Lemma inert_bind {A B} (P : A -> Prop) (Q : B -> Prop) (p : prog A) (f : A -> prog B) :
  inert P p -> (forall a, P a -> inert Q (f a)) -> inert Q (bind p f).
Proof. intros Hp Hf. induction p as [a|Y q c IH|ctx r c IH|ctx id c IH|ctx e ref c IH|c IH|d c IH]; cbn in *; [auto| |done|auto..]. split; [apply Hp|]. intros r Hr. apply IH, Hp, Hr. Qed.
Lemma inert_weaken {A} (P Q : A -> Prop) (p : prog A) : (forall a, P a -> Q a) -> inert P p -> inert Q p.
Proof. intros Hi Hp. induction p as [a|Y q c IH|ctx r c IH|ctx id c IH|ctx e ref c IH|c IH|d c IH]; cbn in *; [auto| |done|auto..]. split; [apply Hp|]. intros r Hr. apply IH, Hp, Hr. Qed.

(** A statement that leaves every database alone. *)
Lemma inert_read {Y A} (q : query Y) (Q : A -> Prop) c :
  (forall now db, match run_query q now db with Ok (_, db') => db' = db | Err _ => True end) ->
  (forall r, inert Q (c r)) -> inert Q (Query q c).
Proof.
  intros Hq Hc. split; [|auto]. intros env db _. left. unfold answer_query. specialize (Hq (env_moment env) db).
  destruct (run_query q _ db) as [[y db']|e]; subst; by destruct (env_fault env) as [[? [|]]|].
Qed.
(** A statement that is refused while the claim is superseded. *)
Lemma inert_refused {Y A} (q : query Y) (Q : A -> Prop) c :
  (forall now db, superseded k token db -> run_query q now db = Err ErrNoRows) ->
  (forall e, inert Q (c (Err e))) -> inert Q (Query q c).
Proof.
  intros Hq Hc. split.
  - intros env db Hdb. left. unfold answer_query. rewrite Hq by done. by destruct (env_fault env) as [[? [|]]|].
  - intros r (env & db & Hdb & ->). unfold answer_query. rewrite Hq by done. by destruct (env_fault env) as [[? [|]]|]; cbn.
Qed.
End inert.
Arguments inert : simpl never.

(** Every later statement of the claim is refused. *)
Lemma superseded_write w k token now db : cw_key w = k -> cw_token w = token -> superseded k token db ->
  run_query (ClaimedWrite_tx w) now db = Err ErrNoRows.
Proof.
  intros Hk Ht (row & Hrow & Hlt). cbn. unfold run_claimed_write. rewrite Hk, Ht.
  destruct (ValidateExecutionClaim k (cw_owner w) token (mo_clock now) db != 1) eqn:E; [done|].
  reflect_all. apply ValidateExecutionClaim_live in E. by apply (stale_not_live _ _ _ _ _ _ Hrow Hlt) in E.
Qed.
Lemma superseded_mark k owner token now db : superseded k token db -> run_query (MarkSubmission k owner token) now db = Err ErrNoRows.
Proof. intros (row & Hrow & Hlt). cbn. unfold MarkSubmissionStarted_row. by rewrite Hrow, stale_not_held. Qed.
Lemma superseded_release k owner token next now db : superseded k token db ->
  run_query (ReleaseWork k owner token next) now db = Ok (0, db).
Proof. intros (row & Hrow & Hlt). cbn. unfold ReleaseExecutionWork_rows. by rewrite Hrow, stale_not_held. Qed.

(** ** The runtime with a superseded claim *)
Section claim.
Variable claim : ExecutionClaim.
Let k := cl_key claim.
Let token := cl_FencingToken claim.
Let revision := exe_revision (cl_Execution claim).
Abbreviation quiet Q p := (inert k token revision Q p) (only parsing).
Abbreviation failed := (fun r : outcome_pair => snd r <> None) (only parsing).

Lemma claim_token now t : validateClaimParams claim now = Ok t -> t = token.
Proof.
  unfold validateClaimParams. intros Ht. apply rbind_ok in Ht as (? & _ & Ht). apply rbind_ok in Ht as (? & _ & Ht).
  unfold dbVersion in Ht. destruct (_ || _); [done|by injection Ht].
Qed.
Lemma quiet_pure {A B} (r : result A) (f : A -> prog (result B)) (Q : result B -> Prop) :
  (forall e, Q (Err e)) -> (forall a, r = Ok a -> quiet Q (f a)) -> quiet Q (try_bind (pure r) f).
Proof. intros He Hf. destruct r as [a|e]; [by apply Hf|apply He]. Qed.
Lemma quiet_keep {A} v (r : result A) c (Q : outcome_pair -> Prop) :
  (forall e, Q (v, Some e)) -> (forall a, r = Ok a -> quiet Q (c a)) -> quiet Q (or_keep v r c).
Proof. intros He Hf. destruct r as [a|e]; [by apply Hf|apply He]. Qed.
Ltac quiet_keeps :=
  repeat match goal with |- inert _ _ _ _ (or_keep _ _ _) => apply quiet_keep; [done|]; intros ? _ end.
Lemma quiet_claimed_write u ev a msg v : quiet (fun r => is_ok r = false) (claimed_write claim token u ev a msg v).
Proof. apply inert_refused; [|done]. intros now db. by apply superseded_write. Qed.
Lemma quiet_returning p : quiet (fun r => is_ok r = false) p -> quiet failed (returning p).
Proof. intros Hp. eapply inert_bind; [exact Hp|]. by intros [v|e]. Qed.
Ltac refused := apply quiet_returning; repeat (apply quiet_pure; [done|]; intros ? ?);
  match goal with Ht : validateClaimParams _ _ = Ok _ |- _ => apply claim_token in Ht as -> end; apply quiet_claimed_write.

Lemma quiet_persist c v now reason : quiet failed (persist claim c v now reason).
Proof. unfold persist, UpdateClaimedExecution. refused. Qed.
Lemma quiet_observation ev v n record now : quiet failed (returning (PersistClaimedObservation claim ev v n record now)).
Proof. unfold PersistClaimedObservation. refused. Qed.
Lemma quiet_evidence ev v n record now : quiet failed (returning (PersistClaimedEvidence claim ev v n record now)).
Proof. unfold PersistClaimedEvidence. refused. Qed.
(** Reading evidence. *)
Lemma quiet_found scope id : quiet (fun _ => True) (FindVerificationEvidence scope id).
Proof.
  apply quiet_pure; [done|]. intros _ _. eapply (inert_bind _ _ _ (fun _ => True)); [by apply inert_read|]. by intros [rows|e].
Qed.
Lemma quiet_find {B} scope id (f : list Result -> prog (result B)) :
  (forall l, quiet (fun _ => True) (f l)) -> quiet (fun _ => True) (try_bind (FindVerificationEvidence scope id) f).
Proof. intros Hf. eapply inert_bind; [apply quiet_found|]. by intros [l|e] _. Qed.
Lemma quiet_failure v n r now reason : quiet (fun _ => True) (persistFailureObservation claim v n r now reason).
Proof. apply quiet_keep; [done|]. intros ? _. eapply inert_weaken, quiet_observation. done. Qed.
Lemma quiet_submission_answer v now answer : quiet (fun _ => True) (submission_answer claim v now answer).
Proof.
  destruct answer as [r|e]; cbn.
  - apply quiet_keep; [done|]. intros _ _. destruct (res_status r); try done.
    all: unfold persistObservation; quiet_keeps;
      match goal with |- inert _ _ _ _ (returning _) => eapply inert_weaken, quiet_observation; done | _ => apply quiet_failure end.
  - unfold submission_error. destruct (adapterFailure e) as [[kind code]|]; quiet_keeps; apply quiet_failure.
Qed.
Lemma dbVersion_same v x : dbVersion v = Ok x -> x = v.
Proof. unfold dbVersion. destruct (_ || _); [done|by intros [= ->]]. Qed.

Lemma validated_id e : Execution_Validate e = Ok tt -> TrimSpace (ExecutionID e) = ExecutionID e.
Proof.
  unfold Execution_Validate. intros Hv. apply rbind_ok in Hv as ([] & Hv & _). unfold Request_Validate in Hv.
  apply rbind_ok in Hv as ([] & Hv & _). apply map_err_ok in Hv. rewrite for_each_ok, Forall_forall in Hv.
  assert (validateExecutionText "execution ID" (ExecutionID e) = Ok tt) as Ht
    by (apply (Hv ("execution ID"%string, ExecutionID e)), list_elem_of_further, list_elem_of_further, list_elem_of_here).
  unfold validateExecutionText, validateBoundedText in Ht. apply rbind_ok in Ht as ([] & Hg%fail_if_ok & _). by reflect_all.
Qed.

(** The one statement that goes through. *)
Hypothesis Hvalid : Execution_Validate (cl_Execution claim) = Ok tt.
Lemma quiet_pending reference r :
  exe_status (cl_Execution claim) = StatusConfirming \/ exe_status (cl_Execution claim) = StatusConfirmed ->
  quiet (fun _ => True) (verification_pending claim (cl_Execution claim) reference r).
Proof.
  intros Hst. unfold verification_pending. destruct (_ && _); [|done]. apply quiet_keep; [done|]. intros o Ho.
  eapply (inert_bind _ _ _ (fun _ => True)); [|by intros [[]|e] _].
  unfold AppendVerificationEvidence. repeat (apply quiet_pure; [done|]; intros ? ?).
  eapply (inert_bind _ _ _ (fun _ => True)); [|by intros [n|e]].
  unfold NewResult in Ho. apply rbind_ok in Ho as (_ & _ & [= <-]).
  split; [|done]. intros env db _. unfold answer_query. destruct (run_query _ _ db) as [[n db']|e] eqn:Eq.
  2: left; by destruct (env_fault env) as [[? [|]]|].
  assert (observes k revision db db') as Ho'; [|destruct (env_fault env) as [[? [|]]|]; cbn; first [done|by left]].
  apply AppendVerificationEvidence_ok in Eq as [[_ ->]|(_ & e & rq & v & Hj & Hrev & Hes & (Hk & Hv & Hvs & _ & Hcode) & ->)]; [by left|].
  right. apply joined_ok in Hj as (He & _).
  match goal with Hd : dbVersion _ = Ok _ |- _ => apply dbVersion_same in Hd as -> end. cbn in *. rewrite (validated_id _ Hvalid) in Hk, He.
  exists v, e. split_and!; first [congruence | done | idtac]. all: rewrite ?Hvs; auto.
Qed.

Lemma quiet_verification_result now reference r :
  exe_status (cl_Execution claim) = StatusConfirming \/ exe_status (cl_Execution claim) = StatusConfirmed ->
  quiet (fun _ => True) (verification_result claim (cl_Execution claim) now reference r).
Proof.
  intros Hst. apply quiet_keep; [done|]. intros _ _. destruct (vr_Outcome r); [by apply quiet_pending| | |done].
  - unfold verification_verified, persist_verified. destruct (_ == _); quiet_keeps.
    + eapply inert_bind; [apply quiet_persist|]. by intros [confirmed [e|]].
    + eapply inert_weaken, quiet_evidence. done.
  - unfold verification_failed. quiet_keeps. apply quiet_failure.
Qed.
Lemma quiet_verify ctx now :
  exe_status (cl_Execution claim) = StatusConfirming \/ exe_status (cl_Execution claim) = StatusConfirmed ->
  quiet (fun _ => True) (verify ctx claim (cl_Execution claim) now).
Proof.
  intros Hst. eapply (inert_bind _ _ _ (fun _ => True)); [by apply quiet_find|].
  intros [reference|e] _; [|done]. intros [r|e]; [by apply quiet_verification_result|].
  unfold verification_error. destruct (verificationFailure e); [done|]. apply quiet_keep; [done|]. intros ? _.
  eapply inert_weaken, quiet_persist. done.
Qed.

(** The submission mark is refused, so the adapter is not reached. *)
Lemma quiet_submit ctx v now : quiet (fun _ => True) (submitOrReconcile ctx claim v now).
Proof.
  unfold submitOrReconcile. destruct (cl_SubmissionStarted claim); [intros answer; apply quiet_submission_answer|].
  eapply (inert_bind _ _ _ (fun m => match m with Ok (_, true) => False | _ => True end)).
  - apply quiet_pure; [done|]. intros t ->%dbVersion_same. apply inert_refused; [|by intros e; unfold inert; destruct (errors_Is _ _)].
    intros w db. by apply superseded_mark.
  - intros [[c [|]]|e]; [done|intros _|done]. apply quiet_keep; [done|]. intros ? _. eapply inert_weaken, quiet_persist. done.
Qed.

Lemma quiet_process ctx now : quiet (fun _ => True) (processClaim ctx claim now).
Proof.
  assert (forall c v n reason, quiet (fun _ : outcome_pair => True) (persist claim c v n reason)) as Hp
    by (intros; eapply inert_weaken, quiet_persist; done).
  assert (forall v s n reason, quiet (fun _ : outcome_pair => True) (transition claim v s n reason)) as Ht
    by (intros; apply quiet_keep; [done|]; intros; apply Hp).
  unfold processClaim. destruct (exe_status (cl_Execution claim)) eqn:Hst; try apply Ht; try done.
  - apply quiet_submit.
  - apply quiet_verify. auto.
  - apply quiet_verify. auto.
  - eapply (inert_bind _ _ _ (fun _ => True)); [by apply quiet_find|]. intros [[|]|e] _; [apply Ht|done..].
  - destruct (_ || _); [done|]. apply quiet_keep; [done|]. intros; apply Hp.
  - apply quiet_keep; [done|]. intros; apply Hp.
Qed.
Lemma quiet_release next : quiet (fun _ => True) (ReleaseExecutionWork claim next).
Proof.
  unfold ReleaseExecutionWork. repeat (apply quiet_pure; [done|]; intros ? ?).
  match goal with Hd : dbVersion _ = Ok _ |- _ => apply dbVersion_same in Hd as -> end.
  eapply (inert_bind _ _ _ (fun _ => True)).
  - split; [|done]. intros env db Hs. left. unfold answer_query. rewrite (superseded_release _ _ _ _ _ _ Hs).
    by destruct (env_fault env) as [[? [|]]|].
  - intros [n|e] _; [|done]. apply quiet_pure; done.
Qed.
End claim.


(** A claimed write is all or nothing: with the answer of the server,
    either it committed — then the claim was live, the stored revision was
    the expected one and advanced by exactly one, and the execution row, the
    evidence row if any, and the audit row were written together and nothing
    else — or the database is unchanged. *)
Theorem claimed_write_atomic (w : ClaimedWrite) (env : environment) (db db' : Database) (r : result unit)
    (Hnf : env_fault env = None) (Ha : answer_query (ClaimedWrite_tx w) env db = (r, db')) :
  let p := cw_update w in
  (is_ok r = false /\ db' = db) \/
  (r = Ok tt /\ live db (cw_key w) (cw_owner w) (cw_token w) (mo_clock (env_moment env)) /\
   exists e row rows, db_executions db !! (up_tenant p, up_execution_id p) = Some e /\
     ex_revision e = up_expected p /\ ex_revision row = ex_revision e + 1 /\
     row_lifecycle row = update_lifecycle p /\
     match cw_evidence w with
     | None => rows = []
     | Some ev => exists v, rows = [v] /\ evidence_row_of ev v
     end /\
     db' = MkDatabase (db_requests db) (<[(up_tenant p, up_execution_id p) := row]> (db_executions db))
             (db_work db) (db_evidence db ++ rows) (db_audit db ++ [cw_audit w])).
Proof.
  intros p. unfold answer_query in Ha. rewrite Hnf in Ha. cbn [run_query] in Ha. unfold as_unit in Ha.
  destruct (run_claimed_write w (mo_clock (env_moment env)) db) as [db1|e] eqn:E; injection Ha as <- <-;
    [right|by left]. split; [done|].
  destruct (run_claimed_write_ok _ _ _ _ E) as
    (Hl & e & r & row & rows & (He & _)%joined_ok & Hrev & Hnext & Hlc & _ & Hrows & ->).
  split; [done|]. exists e, row, rows. pose proof (f_equal lc_revision Hlc) as E2. cbn in E2.
  split_and!; try done. by rewrite E2, Hnext, Hrev.
Qed.
End guarantees.

(** * Termination *)
(** The program returns after at most [n] actions, whatever the answers. *)
Fixpoint within {A} (n : nat) (p : prog A) : Prop :=
  match p with
  | Ret _ => True
  | Query _ k => match n with O => False | S n => forall x, within n (k x) end
  | Execute _ _ k => match n with O => False | S n => forall x, within n (k x) end
  | GetStatus _ _ k => match n with O => False | S n => forall x, within n (k x) end
  | Verify _ _ _ k => match n with O => False | S n => forall x, within n (k x) end
  | Now k => match n with O => False | S n => forall x, within n (k x) end
  | Sleep _ k => match n with O => False | S n => forall x, within n (k x) end
  end.

Arguments within : simpl never.

Lemma within_weaken {A} (p : prog A) : forall n m, (n <= m)%nat -> within n p -> within m p.
Proof.
  induction p as [a|Y q k IH|ctx r k IH|ctx id k IH|ctx e ref k IH|k IH|d k IH]; intros n m Hle Hw;
    [by destruct m|..].
  all: destruct n as [|n]; [done|]; destruct m as [|m]; [lia|].
  all: intros x; apply (IH x n m); [lia|apply Hw].
Qed.

Lemma within_bind {A B} (p : prog A) (f : A -> prog B) m : forall n,
  within n p -> (forall a, within m (f a)) -> within (n + m) (bind p f).
Proof.
  induction p as [a|Y q k IH|ctx r k IH|ctx id k IH|ctx e ref k IH|k IH|d k IH]; intros n Hw Hf.
  { apply (within_weaken _ m); [lia|apply Hf]. }
  all: destruct n as [|n]; [done|]; intros x; by apply (IH x n).
Qed.

Lemma within_try {A B} (p : prog (result A)) (f : A -> prog (result B)) n m :
  within n p -> (forall a, within m (f a)) -> within (n + m) (try_bind p f).
Proof. intros Hp Hf. apply within_bind; [done|]. by intros [a|e]; [apply Hf|]; destruct m. Qed.

Lemma within_pure_try {A B} (r : result A) (f : A -> prog (result B)) m :
  (forall a, within m (f a)) -> within m (try_bind (pure r) f).
Proof. intros Hf. destruct r; cbn; [apply Hf|by destruct m]. Qed.

Lemma within_or_keep {A} v (r : result A) k m : (forall a, within m (k a)) -> within m (or_keep v r k).
Proof. intros Hk. destruct r; cbn; [apply Hk|by destruct m]. Qed.

Lemma within_if_no_rows {Y Z'} (q : query Y) (none : result Z') some m :
  (forall y, within m (some y)) -> within (S m) (if_no_rows q none some).
Proof. intros Hs. cbn. intros [y|e]; [apply Hs|by destruct m]. Qed.

Lemma within_Now {A} n (k : Time -> prog A) : (forall x, within n (k x)) -> within (S n) (Now k).
Proof. done. Qed.
Lemma within_Sleep {A} n d (k : result unit -> prog A) : (forall x, within n (k x)) -> within (S n) (Sleep d k).
Proof. done. Qed.

Lemma within_ret {A} n (a : A) : within n (Ret a).
Proof. by destruct n. Qed.

Lemma within_run {A} (p : prog A) : forall n envs w,
  within n p -> (n <= length envs)%nat -> exists a w', run p envs w = (Ret a, w').
Proof.
  induction p as [a|Y q k IH|ctx r k IH|ctx id k IH|ctx e ref k IH|k IH|d k IH]; intros n envs w Hw Hl.
  { destruct envs; by eauto. }
  all: destruct n as [|n]; [done|]; destruct envs as [|env envs]; [cbn in Hl; lia|].
  all: cbn [run step]; cbn in Hl; try (eapply IH; [apply Hw|lia]).
  destruct (answer_query q env (w_db w)) as [r db']. eapply IH; [apply Hw|lia].
Qed.

Section termination.
Context `{UnicodeTables} `{PgTimestamp}.

Lemma claimed_write_within claim token u ev a msg v : within 1 (claimed_write claim token u ev a msg v).
Proof. intros [[]|e]; cbn; done. Qed.

Ltac bounded :=
  repeat first
    [ apply within_ret
    | apply claimed_write_within
    | apply within_pure_try; intros ?
    | apply within_or_keep; intros ? ].

Lemma returning_within p n : within n p -> within n (returning p).
Proof.
  intros Hp. unfold returning. rewrite <- (Nat.add_0_r n). apply within_bind; [done|]. by intros [v|e].
Qed.

Lemma persist_within claim c v now reason : within 1 (persist claim c v now reason).
Proof. apply returning_within. unfold UpdateClaimedExecution. bounded. Qed.
Lemma observation_within claim ev v n record now : within 1 (returning (PersistClaimedObservation claim ev v n record now)).
Proof. apply returning_within. unfold PersistClaimedObservation. bounded. Qed.
Lemma evidence_within claim ev v n record now : within 1 (returning (PersistClaimedEvidence claim ev v n record now)).
Proof. apply returning_within. unfold PersistClaimedEvidence. bounded. Qed.

Lemma submission_answer_within claim v now answer : within 1 (submission_answer claim v now answer).
Proof.
  destruct answer as [r|e]; cbn.
  - apply within_or_keep. intros _. destruct (res_status r); bounded; try apply observation_within; done.
  - unfold submission_error. destruct (adapterFailure e) as [[kind code]|]; bounded; apply observation_within.
Qed.

Lemma FindVerificationEvidence_within scope id : within 1 (FindVerificationEvidence scope id).
Proof. apply within_pure_try. intros _. cbn. by intros [rows|e]. Qed.

(** A bound on part of a program is a bound on the rest. *)
Lemma within_le {A} n m (p : prog A) : within n p -> (n <= m)%nat -> within m p.
Proof. intros. by eapply within_weaken. Qed.

Lemma submitOrReconcile_within ctx claim value now : within 3 (submitOrReconcile ctx claim value now).
Proof.
  unfold submitOrReconcile. destruct (cl_SubmissionStarted claim).
  - intros answer. eapply within_le; [apply submission_answer_within|lia].
  - apply (within_bind _ _ 2 1).
    + apply within_pure_try. intros token. apply within_if_no_rows. intros row. bounded.
    + intros [[marked_ [|]]|e]; [|bounded; eapply within_le; [apply persist_within|lia]|done].
      intros answer. apply submission_answer_within.
Qed.

Lemma verification_result_within claim v now reference r : within 2 (verification_result claim v now reference r).
Proof.
  apply within_or_keep. intros _. destruct (vr_Outcome r); [| | |done].
  - unfold verification_pending. destruct (_ && _); [|done]. bounded. apply (within_bind _ _ 1 1); [|by intros [[]|e]].
    unfold AppendVerificationEvidence. bounded. by intros [n|e]; bounded.
  - unfold verification_verified, persist_verified. destruct (_ == _); bounded.
    + apply (within_bind _ _ 1 1); [apply persist_within|]. intros [confirmed [e|]]; bounded. apply evidence_within.
    + eapply within_le; [apply evidence_within|lia].
  - unfold verification_failed, persistFailureObservation. bounded.
    eapply within_le; [apply observation_within|lia].
Qed.

Lemma verify_within ctx claim v now : within 4 (verify ctx claim v now).
Proof.
  apply (within_bind _ _ 3 1).
  - unfold latestReference. apply (within_try _ _ 1 0); [apply FindVerificationEvidence_within|]. intros values. bounded.
  - intros [reference|e]; [|done]. intros [r|e]; [apply verification_result_within|].
    unfold verification_error. destruct (verificationFailure e); [done|]. bounded.
    eapply within_le; [apply persist_within|lia].
Qed.

Lemma processClaim_within ctx claim now : within 4 (processClaim ctx claim now).
Proof.
  pose proof (fun c v s n r => within_le _ 4 _ (persist_within c v s n r) ltac:(lia)) as Hp.
  unfold processClaim, transition. destruct (exe_status (cl_Execution claim)); bounded; try apply Hp; try done.
  - eapply within_le; [apply submitOrReconcile_within|lia].
  - apply verify_within.
  - apply verify_within.
  - apply (within_bind _ _ 3 1).
    + apply (within_try _ _ 1 0); [apply FindVerificationEvidence_within|]. intros values. bounded.
    + intros [[|]|e]; [|done..]. unfold transition. bounded. eapply within_le; [apply persist_within|lia].
  - destruct (_ || _); bounded. apply Hp.
Qed.

Lemma confirm_claim_within scope k worker row : within 2 (confirm_claim scope k worker row).
Proof.
  apply (within_try _ _ 1 1).
  - apply within_pure_try. intros _. apply within_if_no_rows. intros [[id e] r]. bounded.
  - intros value. apply (within_try _ _ 1 0); [by intros [n|e]|]. intros rows. bounded.
Qed.

Lemma Release_within claim t : within 1 (ReleaseExecutionWork claim t).
Proof.
  unfold ReleaseExecutionWork. bounded. apply (within_try _ _ 1 0); [by intros [n|e]|]. intros rows. bounded.
Qed.

Lemma ClaimExecutionWork_within scope id worker now d : within 3 (ClaimExecutionWork scope id worker now d).
Proof.
  unfold ClaimExecutionWork. bounded. apply within_if_no_rows. intros row. apply confirm_claim_within.
Qed.

Lemma ClaimNextExecutionWork_within worker now d : within 4 (ClaimNextExecutionWork worker now d).
Proof.
  unfold ClaimNextExecutionWork. bounded. apply within_if_no_rows. intros [k row].
  apply (within_try _ _ 1 2); [by intros [owner|e]|]. intros owner. bounded. apply confirm_claim_within.
Qed.

Lemma Process_within ctx config scope id : within 9 (Process ctx config scope id).
Proof.
  apply within_Now. intros at_. apply (within_bind _ _ 5 3); [apply ClaimExecutionWork_within|].
  intros [[claim|]|e]; [| |done].
  - apply (within_bind _ _ 1 4); [apply processClaim_within|]. intros [value err].
    apply (within_bind _ _ 0 1); [apply Release_within|]. done.
  - apply returning_within. unfold FindExecutionByID. bounded. apply within_if_no_rows. intros [[i e] r]. bounded.
Qed.

Lemma Run_round_within ctx config : within 12 (Run_round ctx config).
Proof.
  apply within_Now. intros at_. apply (within_bind _ _ 7 4); [apply ClaimNextExecutionWork_within|].
  intros [[claim|]|e]; [|apply within_Sleep; intros r; apply within_ret|apply within_ret].
  apply within_Now. intros started. apply (within_bind _ _ 2 4); [apply processClaim_within|].
  intros processed. apply within_Now. intros released_at.
  apply (within_bind _ _ 0 1); [apply Release_within|]. intros r. apply within_ret.
Qed.

Lemma Run_within rounds ctx config : within (rounds * 12) (Run rounds ctx config).
Proof.
  induction rounds as [|n IH]; [done|]. apply (within_bind _ _ (n * 12) 12); [apply Run_round_within|].
  intros [err|]; [apply within_ret|exact IH].
Qed.

(** [C21] The runtime never hangs by itself: whatever the database, adapter,
    verifier and clocks answer, a call of [Process] returns after at most nine
    actions, and [n] rounds of the worker loop after at most [12 * n]. *)
Theorem runtime_terminates (ctx : Context_) (config : Config) (scope : Scope) (id : string) (rounds : nat)
    (envs : list environment) (w : World) :
  ((9 <= length envs)%nat -> exists out w', run (Process ctx config scope id) envs w = (Ret out, w')) /\
  ((rounds * 12 <= length envs)%nat -> exists out w', run (Run rounds ctx config) envs w = (Ret out, w')).
Proof.
  split; intros Hl; eapply within_run; try exact Hl; [apply Process_within|apply Run_within].
Qed.
End termination.

(** * What is lost on the way to the database *)
Section losses.
Context `{UnicodeTables} `{PgTimestampSpec}.

(** What the database keeps of a request. *)
Definition stored_request (r : Request) : Request :=
  MkRequest (req_requestID r) (req_requestKey r) (req_version r) (req_executionID r) (req_operationKey r)
    (req_operationVersion r) (req_intentID r) (req_intentVersion r) (req_intentDigest r) (req_approvalID r)
    (req_approvalVersion r) (req_policyID r) (req_policyVersion r) (req_policyEvaluationKey r)
    (req_policyEvaluationStage r) (timestamptz (req_policyEvaluatedAt r)) (timestamptz (req_createdAt r)).

Lemma unaligned_fraction t : t mod Microsecond <> 0 -> FormatRFC3339Nano t <> FormatRFC3339Nano (timestamptz t).
Proof.
  intros Ht E%FormatRFC3339Nano_fraction. pose proof (timestamptz_resolution t) as Hr.
  apply (f_equal (fun x => x mod Microsecond)) in E.
  rewrite !Z.mod_mod_divide in E by (by exists 1000000). congruence.
Qed.

Lemma policy_key_binding p pv i iv d st t t' dec :
  policy_key p pv i iv d st t dec = policy_key p pv i iv d st t' dec ->
  FormatRFC3339Nano t = FormatRFC3339Nano t' \/
  exists m1 m2, collision (policyEvaluationDomain +:+ m1) (policyEvaluationDomain +:+ m2).
Proof. unfold policy_key, UTC. intros [E|Hc]%hash_binding; [left; by injection E|right; eauto]. Qed.

(** An execution whose policy was evaluated at an instant that is not a
    whole number of microseconds cannot be read back: the evaluation key of a
    valid request hashes the instant with its nanoseconds, the database keeps
    microseconds, and restoring the stored record recomputes the key and
    refuses it, unless SHA-256 collides. *)
Theorem unaligned_evaluation_unreadable (r : Request) (id : string) (e : execution_row) (row : request_row)
    (Hv : Request_Validate r = Ok tt) (Ht : req_policyEvaluatedAt r mod Microsecond <> 0)
    (Hrow : rq_request row = stored_request r) :
  (exists err, restoreExecutionRecord id e row = Err err) \/
  (exists m1 m2, collision (policyEvaluationDomain +:+ m1) (policyEvaluationDomain +:+ m2)).
Proof.
  destruct (restoreExecutionRecord id e row) as [x|err] eqn:E; [right|left; eauto].
  unfold restoreExecutionRecord, RestoreRequest in E. rewrite Hrow in E.
  apply rbind_ok in E as (v1 & [-> _]%domainVersion_ok & E). apply rbind_ok in E as (v2 & [-> _]%domainVersion_ok & E).
  apply rbind_ok in E as (v3 & [-> _]%domainVersion_ok & E). apply rbind_ok in E as (v4 & [-> _]%domainVersion_ok & E).
  apply rbind_ok in E as (v5 & [-> _]%domainVersion_ok & E). apply rbind_ok in E as (v6 & [-> _]%domainVersion_ok & E).
  apply rbind_ok in E as (q & Hq & _). apply rbind_ok in Hq as ([] & (_ & Hk' & _)%Request_identity & _).
  destruct (Request_identity _ Hv) as (_ & Hk & _). cbn in Hk'. rewrite Hk in Hk'.
  destruct (policy_key_binding _ _ _ _ _ _ _ _ _ Hk') as [Ef|Hc]; [|done].
  exfalso. by apply (unaligned_fraction _ Ht).
Qed.

(** Evidence with a failure status and no error code is refused. *)
Lemma codeless_failure_refused row :
  evd_status row = StatusFailed \/ evd_status row = StatusRecoveryRequired -> evd_error_code row = "" ->
  is_ok (evidence_from_row row) = false.
Proof.
  intros Hs Hc. destruct (evidence_from_row row) as [r|] eqn:E; [exfalso|done].
  unfold evidence_from_row, NewResult, Result_Validate in E. rewrite Hc in E.
  apply rbind_ok in E as (v & _ & E). apply rbind_ok in E as ([] & Hv & _).
  do 2 (apply rbind_ok in Hv as ([] & _ & Hv)). apply rbind_ok in Hv as ([] & Hm & _).
  cbn [res_status res_errorCode] in Hm. by destruct Hs as [Hs|Hs]; rewrite Hs in Hm.
Qed.

Lemma evidence_from_rows_refused rows row :
  row ∈ rows -> is_ok (evidence_from_row row) = false -> is_ok (evidence_from_rows rows) = false.
Proof.
  intros (l1 & l2 & ->)%list_elem_of_split Hr. unfold evidence_from_rows. rewrite fold_result_app.
  destruct (fold_result _ [] l1) as [vs|e]; [|done]. cbn. by destruct (evidence_from_row row).
Qed.

Lemma failure_status r : Result_Validate r = Ok tt -> res_errorCode r <> "" ->
  res_status r = StatusFailed \/ res_status r = StatusRecoveryRequired.
Proof.
  intros Hv Hc. unfold Result_Validate in Hv. do 2 (apply rbind_ok in Hv as ([] & _ & Hv)).
  apply rbind_ok in Hv as ([] & Hm & _). destruct (res_status r); try done; auto; exfalso;
    apply rbind_ok in Hm as ([] & _ & Hm); apply fail_if_ok in Hm; by reflect_all.
Qed.

(** A committed observation with an error code leaves a row without it. *)
Lemma observation_row claim ev v n record now env w x w' :
  res_errorCode ev <> "" ->
  run (PersistClaimedObservation claim ev v n record now) [env] w = (Ret (Ok x), w') ->
  exists row, row ∈ db_evidence (w_db w') /\ evd_key row = (cl_tenant claim, ExecutionID v) /\
    is_ok (evidence_from_row row) = false.
Proof.
  intros Hc Hrun. unfold PersistClaimedObservation in Hrun.
  destruct (validateClaimParams claim now) as [token|]; [|done].
  destruct (Result_Validate ev) as [[]|] eqn:Hv; [|done].
  destruct (validateRuntimeAudit claim v record) as [[]|]; [|done].
  destruct (fail_if _ _) as [[]|] eqn:Hid in Hrun; [|done].
  destruct (dbVersion (res_executionVersion ev)) as [version|]; [|done].
  destruct (executionUpdateParams (cl_Scope claim) v n) as [update|]; [|done].
  destruct (auditParams (cl_Scope claim) record) as [a|]; [|done].
  cbn -[answer_query run_claimed_write] in Hrun. unfold answer_query in Hrun. cbn [run_query] in Hrun.
  unfold as_unit in Hrun. set (cw := MkClaimedWrite _ _ _ _ _ _) in Hrun.
  destruct (run_claimed_write cw (mo_clock (env_moment env)) (w_db w)) as [db'|err] eqn:E;
    [|by destruct (env_fault env) as [[e [|]]|]; cbn in Hrun].
  destruct (env_fault env) as [[e [|]]|]; cbn in Hrun; try done. injection Hrun as <- <-.
  destruct (run_claimed_write_ok _ _ _ _ E) as
    (_ & old & req & new & rows & _ & _ & _ & _ & _ & (row & -> & Hrow) & ->).
  apply fail_if_ok in Hid. apply orb_false_iff in Hid as [Hid _]. apply orb_false_iff in Hid as [Hid _].
  reflect_in Hid. reflect_in Hid.
  destruct Hrow as (Hk & _ & Hs & _ & Hcode). cbn in Hk, Hs, Hcode. exists row. split_and!.
  - cbn. apply elem_of_app. right. apply list_elem_of_here.
  - by rewrite Hk, Hid.
  - apply codeless_failure_refused; [|done]. rewrite Hs. by apply failure_status.
Qed.

(** A row that is refused hides all evidence of its execution. *)
Definition poisoned (db : Database) (k : key) : Prop :=
  exists row, row ∈ db_evidence db /\ evd_key row = k /\ is_ok (evidence_from_row row) = false.

Lemma poisoned_grows db db' k : grows db db' -> poisoned db k -> poisoned db' k.
Proof.
  intros [_ [tail E] _] (row & Hin & Hrest). exists row. split; [|done]. rewrite E. apply elem_of_app. auto.
Qed.

Lemma poisoned_rows db tenant id actor :
  poisoned db (tenant, id) ->
  FindVerificationEvidence_rows tenant id actor db = [] \/
  is_ok (evidence_from_rows (FindVerificationEvidence_rows tenant id actor db)) = false.
Proof.
  intros (row & Hin & Hk & Hr). unfold FindVerificationEvidence_rows. destruct (joined _ _ _ _); [right|by left].
  apply (evidence_from_rows_refused _ row); [|done]. apply sort_by_time_in, list_elem_of_filter. by split.
Qed.

Lemma run_bind_ret {A B} (f : A -> prog B) a b envs : forall p w w',
  run p envs w = (Ret a, w') -> f a = Ret b -> run (bind p f) envs w = (Ret b, w').
Proof.
  induction envs as [|env envs IH]; intros p w w' Hr Hf.
  - cbn in *. injection Hr as -> <-. cbn. by rewrite Hf.
  - destruct p as [x|Y q k|ctx r k|ctx id k|ctx e ref k|k|d k]; cbn [run step bind] in *; try by apply IH.
    + injection Hr as -> <-. by rewrite Hf.
    + destruct (answer_query q env (w_db w)) as [r db']. by apply IH.
Qed.

(** What a reader of the evidence gets. *)
Lemma poisoned_find db scope id env log :
  poisoned db (sc_tenantID scope, id) ->
  exists r, run (FindVerificationEvidence scope id) [env] (MkWorld db log) = (Ret r, MkWorld db log) /\
    (r = Ok [] \/ is_ok r = false).
Proof.
  intros Hp. unfold FindVerificationEvidence. destruct (Scope_Validate scope) as [u|e]; cbn; [|by exists (Err e); auto].
  unfold answer_query. cbn [run_query env_fault].
  pose proof (poisoned_rows db _ id (sc_actorID scope) Hp) as Hrows.
  destruct (env_fault env) as [[e [|]]|]; cbn; eexists; (split; [reflexivity|]); auto.
  destruct Hrows as [->|Hr]; [by left|by right].
Qed.

(** [C30] A failed or ambiguous submission can never be verified: when
    [PersistClaimedObservation] commits an observation with an error code, the
    stored row lacks the code, and in every later state of the database, under
    every claim of the execution in the tenant — also the next worker's, whose
    scope has another request ID — [verify] stops with an error before it asks
    the verifier and [complete] stops with an error before it completes,
    whatever the surroundings answer. *)
Theorem failure_observation_blocks_verification (claim c : ExecutionClaim) (ev : Result) (v : Execution) (n : Z)
    (record : AuditRecord) (now now' : Time) (env env' : environment) (w w' : World) (x : Execution)
    (db : Database) (log : list (Context_ * Request)) (ctx : Context_)
    (Hc : res_errorCode ev <> "")
    (Hrun : run (PersistClaimedObservation claim ev v n record now) [env] w = (Ret (Ok x), w'))
    (Hg : grows (w_db w') db)
    (Hsame : sc_tenantID (cl_Scope c) = sc_tenantID (cl_Scope claim) /\ ExecutionID (cl_Execution c) = ExecutionID v) :
  (exists e, run (verify ctx c (cl_Execution c) now') [env'] (MkWorld db log)
             = (Ret (cl_Execution c, Some e), MkWorld db log)) /\
  (exists e, run (complete c (cl_Execution c) now') [env'] (MkWorld db log)
             = (Ret (cl_Execution c, Some e), MkWorld db log)).
Proof.
  destruct (observation_row _ _ _ _ _ _ _ _ _ _ Hc Hrun) as (row & Hin & Hk & Hr). destruct Hsame as [Hs Hid].
  assert (poisoned db (sc_tenantID (cl_Scope c), ExecutionID (cl_Execution c))) as Hp.
  { apply (poisoned_grows _ _ _ Hg). exists row. rewrite Hs, Hid. by split_and!. }
  destruct (poisoned_find _ _ _ env' log Hp) as (r & Hf & Hr').
  assert (exists e, run (latestReference (cl_Scope c) (ExecutionID (cl_Execution c))) [env'] (MkWorld db log)
                    = (Ret (Err e), MkWorld db log)) as [e He].
  { destruct Hr' as [->|Hr']; [exists reference_unavailable|destruct r as [vs|e]; [done|exists e]];
      by apply (run_bind_ret _ _ _ _ _ _ _ Hf). }
  split; [exists e; by apply (run_bind_ret _ _ _ _ _ _ _ He)|].
  destruct Hr' as [->|Hr'].
  - exists verified_evidence_unavailable.
    assert (run (hasVerifiedEvidence (cl_Scope c) (cl_Execution c)) [env'] (MkWorld db log)
            = (Ret (Ok false), MkWorld db log)) as Hv
      by exact (run_bind_ret _ _ _ _ _ _ _ Hf eq_refl).
    by apply (run_bind_ret _ _ _ _ _ _ _ Hv).
  - destruct r as [vs|e']; [done|]. exists e'.
    assert (run (hasVerifiedEvidence (cl_Scope c) (cl_Execution c)) [env'] (MkWorld db log)
            = (Ret (Err e'), MkWorld db log)) as Hv
      by exact (run_bind_ret _ _ _ _ _ _ _ Hf eq_refl).
    by apply (run_bind_ret _ _ _ _ _ _ _ Hv).
Qed.
End losses.

(** * A complete run *)
Module RuntimeSamples.
Import Samples IntentSamples PolicySafety.PolicySamples ExecutionSamples.
#[local] Existing Instance Eth.is_hex_address.
#[local] Existing Instance Eth.no_folding.
#[local] Existing Instance Pg.truncating.
#[local] Existing Instance Pg.truncating_spec.

(** A schedule: start a job, or let one program take its next action. *)
Inductive action : Type := Spawn (j : job) | Act (i : nat) (env : environment).
Definition act (sys : system) (a : action) : system :=
  match a with
  | Spawn j => (fst sys, snd sys ++ [job_prog j])
  | Act i env =>
      match snd sys !! i with
      | Some p => match step p env (fst sys) with Some (p', w') => (w', <[i := p']> (snd sys)) | None => sys end
      | None => sys
      end
  end.
Definition schedule (l : list action) (sys : system) : system := fold_left act l sys.

Lemma act_steps sys a : rtc sys_step sys (act sys a).
Proof.
  destruct sys as [w ts], a as [j|i env]; cbn; [apply rtc_once; constructor|].
  destruct (ts !! i) as [p|] eqn:Hi; [|done]. destruct (step p env w) as [[p' w']|] eqn:Hs; [|done].
  apply rtc_once. by econstructor.
Qed.

Lemma schedule_steps l : forall sys, rtc sys_step sys (schedule l sys).
Proof. induction l as [|a l IH]; intros sys; [done|]. etransitivity; [apply act_steps|apply IH]. Qed.

Definition scope : Scope := MkScope "tenant-1" "user-1" "request-1" "".
Definition config : Config := MkConfig "worker-1" Minute Minute.
Definition id : string := req_executionID request.
Definition k : key := ("tenant-1", id).
Definition submitted_ : Result := MkResult id 1 StatusSubmitted "0xref" "" (at_ 1).
Definition verified_ : VerificationResult := MkVerificationResult VerificationVerified "0xref" "" (at_ 2).
(** The surroundings of the [n]-th call, two minutes apart. *)
Definition around (n : Z) (r : result Result) : environment :=
  MkEnvironment (MkMoment (at_ (2 * n)) []) None r (Ok verified_) (at_ (2 * n)) (Ok tt).
Definition calls (n : Z) (i : nat) (r : result Result) : list action :=
  Spawn (JobProcess None config scope id) :: repeat (Act i (around n r)) 9.
Fixpoint process (n : Z) (i count : nat) (r : result Result) : list action :=
  match count with O => [] | S count => calls n i r ++ process (n + 1) (S i) count r end.
Definition start : list action :=
  Spawn (JobStart scope request) :: repeat (Act 0 (around 0 (Ok submitted_))) 2.

(** [Start], then eight calls of [Process]. *)
Definition cooperative : system := schedule (start ++ process 1 1 8 (Ok submitted_)) initial.
(** [Start], three calls, a fourth whose submission has no clear outcome,
    then [Resume], a reconciliation, and a verification. *)
Definition unclear : system :=
  schedule (start ++ process 1 1 3 (Ok submitted_) ++ process 4 4 1 (Err DeadlineExceeded)) initial.
Definition reconciled : system := schedule (process 5 5 10 (Ok submitted_)) unclear.

Definition status_of (sys : system) : option Status := ex_status <$> db_executions (w_db (fst sys)) !! k.

(** The cooperative run completes with one submission; the unclear one never
    leaves CONFIRMING, although the verifier would answer VERIFIED. *)
Example cooperative_completes :
  (status_of cooperative, submissions k (fst cooperative), length (db_audit (w_db (fst cooperative))))
  = (Some StatusCompleted, 1%nat, 8%nat).
Proof. vm_compute. reflexivity. Qed.
Example unclear_never_completes :
  (status_of unclear, status_of reconciled, submissions k (fst reconciled))
  = (Some StatusRecoveryRequired, Some StatusConfirming, 1%nat).
Proof. vm_compute. reflexivity. Qed.

Lemma submitted_at_most_once_witness : marked (w_db (fst cooperative)) k = true.
Proof.
  refine (proj2 (submitted_at_most_once cooperative k (schedule_steps _ initial)) _).
  apply Nat.ltb_lt. vm_compute. reflexivity.
Defined.

Definition blank_row : execution_row := MkExecutionRow "" no_status 0 0 0 no_failure no_status no_recovery.
Definition row_of (sys : system) : execution_row :=
  match db_executions (w_db (fst sys)) !! k with Some r => r | None => blank_row end.

Lemma stored_lifecycle_advances_witness :
  exists row', db_executions (w_db (fst reconciled)) !! k = Some row' /\
    rtc lifecycle_step (row_lifecycle (row_of unclear)) (row_lifecycle row').
Proof.
  destruct (stored_lifecycle_advances unclear reconciled k (row_of unclear)) as (row' & Hrow & Hsteps & _);
    [exact (schedule_steps _ initial)|exact (schedule_steps _ unclear)|vm_compute; reflexivity|].
  exact (ex_intro _ row' (conj Hrow Hsteps)).
Defined.

Lemma completed_has_evidence_witness :
  exists v, v ∈ db_evidence (w_db (fst cooperative)) /\ evd_key v = k /\ evd_status v = StatusVerified /\
    evd_version v = ex_revision (row_of cooperative) - 1.
Proof.
  refine (completed_has_evidence cooperative k (row_of cooperative) (schedule_steps _ initial) _ _);
    vm_compute; reflexivity.
Defined.

(** * A hand-made database: the execution is EXECUTING and leased *)
Definition executing : Execution := Eval vm_compute in ExecutionSamples.run created 0 (take 3 happy_path).
Definition recovering : Execution :=
  Eval vm_compute in get_execution (RequireRecovery executing Runtime.ambiguous (at_ 4)).
Definition held : Database :=
  MkDatabase {[k := MkRequestRow "user-1" request]}
    {[k := MkExecutionRow (req_requestID request) (exe_status executing) (exe_revision executing)
             (exe_createdAt executing) (exe_updatedAt executing) no_failure no_status no_recovery]}
    {[k := MkWorkRow (at_ 3) "worker-1" (Some (at_ 5)) 1 true]} [] [].
Definition claim : ExecutionClaim := MkExecutionClaim scope executing "worker-1" 1 (at_ 5) true.
Definition record : AuditRecord := auditRecord scope "worker-1" executing recovering (at_ 4) Runtime.ambiguous.
Definition now4 : environment := around 2 (Ok submitted_).
Definition write : ClaimedWrite :=
  MkClaimedWrite k "worker-1" 1
    (MkUpdateParams "tenant-1" id StatusRecoveryRequired (exe_revision recovering) (Some (at_ 4))
       no_failure no_status (exe_recovery recovering) (exe_revision executing) "user-1")
    None (MkAuditRow "tenant-1" record).

Definition answer_ : result unit * Database := Eval vm_compute in answer_query (ClaimedWrite_tx write) now4 held.
Lemma claimed_write_atomic_witness :
  is_ok (fst answer_) = false \/ live held k "worker-1" 1 (mo_clock (env_moment now4)).
Proof.
  destruct (claimed_write_atomic write now4 held (snd answer_) (fst answer_) eq_refl
    (@eq_refl (result unit * Database) (fst answer_, snd answer_) <: answer_query (ClaimedWrite_tx write) now4 held = (fst answer_, snd answer_))) as [[H _]|[_ [H _]]].
  - left. exact H.
  - right. exact H.
Defined.

(** Two more calls of [Process] while the chain has not confirmed: the first
    one's claim, token 6, is superseded by the second one's. *)
Definition pending_ : VerificationResult := MkVerificationResult VerificationPending "0xref" "" (at_ 2).
Definition waiting_around (n : Z) (r : VerificationResult) : environment :=
  MkEnvironment (MkMoment (at_ (2 * n)) []) None (Ok submitted_) (Ok r) (at_ (2 * n)) (Ok tt).
Definition waits (n : Z) (i : nat) : list action :=
  Spawn (JobProcess None config scope id) :: repeat (Act i (waiting_around n pending_)) 9.
Definition waiting : system := schedule (start ++ process 1 1 5 (Ok submitted_) ++ waits 6 6) initial.
Definition superseding : system := schedule (waits 7 7) waiting.
Definition stale_execution : Execution := Eval vm_compute in
  match fst (RuntimeEffects.run (FindExecutionByID scope id) [around 8 (Ok submitted_)] (fst superseding)) with
  | Ret (Ok e) => e
  | _ => no_execution
  end.
Definition stale_claim : ExecutionClaim := MkExecutionClaim scope stale_execution "worker-1" 6 (at_ 13) true.
(** Its verifier still answers, with a newer reference. *)
Definition late_turns : list turn :=
  repeat (fun w => w, waiting_around 8 (MkVerificationResult VerificationPending "0xnewer" "" (at_ 15))) 5.
Definition late_run : prog (result bool) :=
  let* processed := processClaim None stale_claim (at_ 16) in ReleaseExecutionWork stale_claim (at_ 17).
Definition late_steps : list (World * World) := own_steps late_run late_turns (fst superseding).
(** The rows of evidence before and after each step of the superseded claim. *)
Example late_observation :
  (fun '(b, a) => (length (db_evidence (w_db b)), length (db_evidence (w_db a)))) <$> late_steps = [(1, 1); (1, 1); (1, 2); (2, 2)]%nat.
Proof. vm_compute. reflexivity. Qed.


Definition unclear_observation : Result :=
  observed recovering StatusRecoveryRequired "" Runtime.ambiguous (at_ 4).
Definition persisting : prog (result Execution) :=
  PersistClaimedObservation claim unclear_observation recovering (exe_revision executing) record (at_ 4).
Definition blocked : World := Eval vm_compute in snd (RuntimeEffects.run persisting [now4] (MkWorld held [])).

(** The next worker's claim, with the scope [ClaimNextExecutionWork] gives it. *)
Definition next_claim : ExecutionClaim :=
  MkExecutionClaim (MkScope "tenant-1" "user-1" "runtime:worker-2:2" "") recovering "worker-2" 2 (at_ 9) true.
Lemma failure_observation_blocks_verification_witness :
  exists e, RuntimeEffects.run (verify None next_claim (cl_Execution next_claim) (at_ 6)) [now4] (MkWorld (w_db blocked) [])
            = (Ret (cl_Execution next_claim, Some e), MkWorld (w_db blocked) []).
Proof.
  assert (res_errorCode unclear_observation <> "") as Hc by (vm_compute; discriminate).
  refine (proj1 (failure_observation_blocks_verification claim next_claim unclear_observation recovering
    (exe_revision executing) record (at_ 4) (at_ 6) now4 now4 (MkWorld held []) blocked recovering (w_db blocked)
    [] None Hc
    (@eq_refl (prog (result Execution) * World) (Ret (Ok recovering), blocked)
      <: RuntimeEffects.run persisting [now4] (MkWorld held []) = (Ret (Ok recovering), blocked)) (PreOrder_Reflexive _) (conj eq_refl eq_refl))).
Defined.

(** An evaluation one nanosecond past the microsecond. *)
Definition late_answer : Evaluator.Result :=
  Evaluator.MkResult (Evaluator.res_PolicyID answer) (Evaluator.res_PolicyVersion answer)
    (Evaluator.res_IntentID answer) (Evaluator.res_IntentVersion answer) (Evaluator.res_IntentDigest answer)
    (Evaluator.res_Stage answer) (Evaluator.res_Decision answer)
    (Evaluator.res_EvaluatedAt answer + 1) (Evaluator.res_Findings answer).
Definition late_request : Request := get_request (NewRequest governed consumed late_answer (now + 4 * Minute)).

Lemma unaligned_evaluation_unreadable_witness :
  (exists err, restoreExecutionRecord id (row_of unclear) (MkRequestRow "user-1" (stored_request late_request)) = Err err) \/
  (exists m1 m2, collision (policyEvaluationDomain +:+ m1) (policyEvaluationDomain +:+ m2)).
Proof.
  refine (unaligned_evaluation_unreadable late_request id (row_of unclear)
            (MkRequestRow "user-1" (stored_request late_request)) _ _ eq_refl).
  - vm_compute. reflexivity.
  - vm_compute. discriminate.
Defined.
End RuntimeSamples.
