(* ===== verification/Circuit.v ===== *)
(** internal/providers/circuit/breaker.go: the circuit breaker of the outbound
    provider calls.

    A method is one atomic step (it holds the breaker's mutex) from a breaker
    and a reading of its clock; calls are in flight between [Allow] and the
    outcome they record, in any interleaving. *)
From S2P Require Import Prelude GoStrings GoTime AppErrors.
Open Scope string_scope.
Open Scope Z_scope.
Open Scope go_scope.

(** * The breaker *)
Inductive State : Type := StateClosed | StateOpen | StateHalfOpen.
#[global] Instance State_eq_dec : EqDecision State.
Proof. solve_decision. Defined.

Record Config := MkConfig { FailureThreshold : Z; OpenDuration : Duration; HalfOpenMaxProbes : Z }.

Definition Config_Validate (c : Config) : result unit :=
  do! fail_if (FailureThreshold c <? 1) (errorf "circuit breaker failure threshold must be at least 1");
  do! fail_if (OpenDuration c <=? 0) (errorf "circuit breaker open duration must be positive");
  do! fail_if (HalfOpenMaxProbes c <? 1) (errorf "circuit breaker half-open probe limit must be at least 1");
  Ok tt.

Definition DefaultConfig : Config := MkConfig 5 (30 * Second) 1.

Definition ErrOpen : error := errorf "provider circuit breaker is open".

Record Breaker := MkBreaker {
  brk_config : Config;
  brk_state : State;
  brk_consecutiveFails : Z;
  brk_openedAt : Time;
  brk_lastFailureAt : Time;
  brk_lastSuccessAt : Time;
  brk_halfOpenProbes : Z;
}.
#[global] Instance Config_eq_dec : EqDecision Config.
Proof. solve_decision. Defined.
#[global] Instance Breaker_eq_dec : EqDecision Breaker.
Proof. solve_decision. Defined.

Definition New (config : Config) : result Breaker :=
  do! Config_Validate config;
  Ok (MkBreaker config StateClosed 0 zero_time zero_time zero_time 0).

Definition with_state (b : Breaker) (s : State) (probes : Z) : Breaker :=
  MkBreaker (brk_config b) s (brk_consecutiveFails b) (brk_openedAt b) (brk_lastFailureAt b)
    (brk_lastSuccessAt b) probes.

Definition Allow (now : Time) (b : Breaker) : result unit * Breaker :=
  match brk_state b with
  | StateClosed => (Ok tt, b)
  | StateOpen =>
      if Before (UTC now) (Add (brk_openedAt b) (OpenDuration (brk_config b))) then (Err ErrOpen, b)
      else (Ok tt, with_state b StateHalfOpen 1)
  | StateHalfOpen =>
      if HalfOpenMaxProbes (brk_config b) <=? brk_halfOpenProbes b then (Err ErrOpen, b)
      else (Ok tt, with_state b StateHalfOpen (i64 (brk_halfOpenProbes b + 1)))
  end.

Definition RecordSuccess (now : Time) (b : Breaker) : Breaker :=
  MkBreaker (brk_config b) StateClosed 0 zero_time (brk_lastFailureAt b) (UTC now) 0.

Definition openLocked (now : Time) (b : Breaker) : Breaker :=
  MkBreaker (brk_config b) StateOpen (brk_consecutiveFails b) now (brk_lastFailureAt b)
    (brk_lastSuccessAt b) 0.

Definition RecordFailure (now : Time) (b : Breaker) : Breaker :=
  let b := MkBreaker (brk_config b) (brk_state b) (i64 (brk_consecutiveFails b + 1)) (brk_openedAt b)
             (UTC now) (brk_lastSuccessAt b) (brk_halfOpenProbes b) in
  match brk_state b with
  | StateHalfOpen => openLocked (UTC now) b
  | StateClosed =>
      if FailureThreshold (brk_config b) <=? brk_consecutiveFails b then openLocked (UTC now) b else b
  | StateOpen => b
  end.

Record Snapshot := MkSnapshot {
  snp_State : State; snp_ConsecutiveFails : Z; snp_OpenedAt : Time; snp_LastFailureAt : Time; snp_LastSuccessAt : Time
}.
Definition snapshot (b : Breaker) : Snapshot :=
  MkSnapshot (brk_state b) (brk_consecutiveFails b) (brk_openedAt b) (brk_lastFailureAt b) (brk_lastSuccessAt b).

(** * Histories *)
(** What happened to a breaker, latest event first: a call asked for
    permission, or recorded its outcome. *)
Inductive event : Type :=
  | Asked (now : Time) (answer : bool)
  | Succeeded (now : Time)
  | Failed (now : Time).

(** [run c h b]: the events [h] took a new breaker to [b]. *)
Inductive run (c : Config) : list event -> Breaker -> Prop :=
  | run_new b : New c = Ok b -> run c [] b
  | run_ask h b now : run c h b -> run c (Asked now (is_ok (fst (Allow now b))) :: h) (snd (Allow now b))
  | run_success h b now : run c h b -> run c (Succeeded now :: h) (RecordSuccess now b)
  | run_failure h b now : run c h b -> run c (Failed now :: h) (RecordFailure now b).

(** The failures since the last success. *)
Fixpoint failures (h : list event) : Z :=
  match h with
  | [] | Succeeded _ :: _ => 0
  | Failed _ :: h => failures h + 1
  | Asked _ _ :: h => failures h
  end.
(** The abstract breaker: when it last opened, and how many calls it has
    admitted since the cooldown ended, as functions of the history alone. *)
Record view := MkView { v_failures : Z; v_opened : Time; v_probes : Z }.
Definition half_open (v : view) : bool := 0 <? v_probes v.
Definition closed (c : Config) (v : view) : bool := v_failures v <? FailureThreshold c.

Fixpoint spec (c : Config) (h : list event) : view :=
  match h with
  | [] => MkView 0 zero_time 0
  | Succeeded _ :: _ => MkView 0 zero_time 0
  | Failed now :: h =>
      let v := spec c h in
      let n := v_failures v + 1 in
      if closed c v && (n <? FailureThreshold c) then MkView n zero_time 0
      else if closed c v || half_open v then MkView n now 0
      else MkView n (v_opened v) 0
  | Asked now answer :: h =>
      let v := spec c h in
      if answer && negb (closed c v) then MkView (v_failures v) (v_opened v) (v_probes v + 1) else v
  end.

(** Whom the abstract breaker admits. *)
Definition admits (c : Config) (v : view) (now : Time) : bool :=
  closed c v ||
  (if half_open v then v_probes v <? HalfOpenMaxProbes c else Add (v_opened v) (OpenDuration c) <=? now).

(** * The breaker implements the abstract one *)
Definition abstraction (c : Config) (v : view) (b : Breaker) : Prop :=
  brk_config b = c /\ brk_consecutiveFails b = v_failures v /\ brk_halfOpenProbes b = v_probes v /\
  match brk_state b with
  | StateClosed => v_failures v < FailureThreshold c /\ v_probes v = 0
  | StateOpen => FailureThreshold c <= v_failures v /\ v_probes v = 0 /\ brk_openedAt b = v_opened v
  | StateHalfOpen =>
      FailureThreshold c <= v_failures v /\ 1 <= v_probes v <= HalfOpenMaxProbes c
  end.


Lemma New_ok c b :
  New c = Ok b ->
  1 <= FailureThreshold c /\ 0 < OpenDuration c /\ 1 <= HalfOpenMaxProbes c /\ abstraction c (MkView 0 zero_time 0) b.
Proof.
  unfold New, Config_Validate. intros Hok. ok_reflect. unfold abstraction. cbn. split_and!; done || lia.
Qed.

Lemma run_config c h b : run c h b -> exists b0, New c = Ok b0.
Proof. induction 1; eauto. Qed.

(** The counters cannot exceed the number of events. *)
Lemma spec_bounds c h b :
  run c h b -> 0 <= v_failures (spec c h) <= Z.of_nat (length h) /\ 0 <= v_probes (spec c h) <= Z.of_nat (length h).
Proof.
  induction 1 as [b Hn|h b now Hrun IH|h b now Hrun IH|h b now Hrun IH]; cbn [spec length]; [cbn; lia|..].
  - case_match; cbn; lia.
  - cbn. lia.
  - repeat case_match; cbn; lia.
Qed.

Lemma abstraction_ask c v b now :
  abstraction c v b -> 0 < OpenDuration c -> 1 <= HalfOpenMaxProbes c -> v_probes v < 2 ^ 63 - 1 ->
  is_ok (fst (Allow now b)) = admits c v now /\
  abstraction c (if is_ok (fst (Allow now b)) && negb (closed c v)
                 then MkView (v_failures v) (v_opened v) (v_probes v + 1) else v) (snd (Allow now b)).
Proof.
  destruct b as [cfg st n opened lf ls probes]. unfold abstraction, Allow, admits, closed, half_open, UTC, Before. cbn.
  intros (-> & -> & -> & Hst) Hd Hm Hp. destruct st.
  - destruct (_ <? _) eqn:E; reflect_all; [|lia]. cbn. split; [done|]. split_and!; try done; lia.
  - destruct Hst as (Hf & Hz & ->). destruct (v_failures v <? FailureThreshold c) eqn:E; reflect_all; [lia|].
    rewrite Hz. change (0 <? 0) with false. cbn [orb].
    destruct (now <? Add (v_opened v) (OpenDuration c)) eqn:E2, (Add (v_opened v) (OpenDuration c) <=? now) eqn:E3;
      cbn; reflect_all; try lia; (split; [done|]); cbn; split_and!; done || lia.
  - destruct Hst as (Hf & Hz). destruct (v_failures v <? FailureThreshold c) eqn:E; reflect_all; [lia|].
    destruct (0 <? v_probes v) eqn:E1; reflect_all; [|lia]. cbn [orb].
    destruct (HalfOpenMaxProbes c <=? v_probes v) eqn:E2, (v_probes v <? HalfOpenMaxProbes c) eqn:E3;
      cbn; reflect_all; try lia; (split; [done|]); cbn; rewrite ?i64_small by lia; split_and!; done || lia.
Qed.

Lemma abstraction_failure c v b now :
  abstraction c v b -> 1 <= FailureThreshold c -> 0 <= v_failures v < 2 ^ 63 - 1 ->
  abstraction c (let n := v_failures v + 1 in
                 if closed c v && (n <? FailureThreshold c) then MkView n zero_time 0
                 else if closed c v || half_open v then MkView n now 0 else MkView n (v_opened v) 0)
    (RecordFailure now b).
Proof.
  destruct b as [cfg st n opened lf ls probes]. unfold abstraction, RecordFailure, closed, half_open, UTC. cbn.
  intros (-> & -> & -> & Hst) Ht Hf. rewrite i64_small by lia.
  destruct st; cbn; destruct (v_failures v <? FailureThreshold c) eqn:E; reflect_all; try lia; cbn [andb orb].
  - destruct (v_failures v + 1 <? FailureThreshold c) eqn:E1, (FailureThreshold c <=? v_failures v + 1) eqn:E2;
      cbn; reflect_all; try lia; split_and!; done || lia.
  - destruct Hst as (? & Hz & ->). rewrite Hz. cbn. split_and!; done || lia.
  - destruct (0 <? v_probes v) eqn:E1; reflect_all; [|lia]. cbn. split_and!; done || lia.
Qed.

Lemma run_abstraction c h b :
  run c h b -> Z.of_nat (length h) < 2 ^ 63 -> abstraction c (spec c h) b.
Proof.
  intros Hrun. pose proof (run_config _ _ _ Hrun) as [b0 Hn]. apply New_ok in Hn as (Ht & Hd & Hm & _).
  induction Hrun as [b Hn|h b now Hrun IH|h b now Hrun IH|h b now Hrun IH]; cbn [length spec]; intros Hl.
  - by apply New_ok in Hn as (_ & _ & _ & Ha).
  - pose proof (spec_bounds c h b Hrun) as Hb. eapply abstraction_ask; [apply IH; lia|done|done|lia].
  - destruct IH as (Ec & _); [lia|]. unfold abstraction. cbn. split_and!; done || lia.
  - pose proof (spec_bounds c h b Hrun) as Hb. apply abstraction_failure; [apply IH; lia|done|lia].
Qed.

Lemma spec_failures c h : v_failures (spec c h) = failures h.
Proof.
  induction h as [|[now answer|now|now] h IH]; cbn; try done; repeat case_match; cbn in *; lia.
Qed.

(** [C32] The breaker is the one the configuration describes: whatever calls
    were in flight and in whatever order they recorded their outcomes, it is
    CLOSED exactly while fewer than the threshold of failures followed the last
    success, it admits exactly the calls the abstract breaker admits — all of
    them while closed, none before the open duration has passed since it
    opened, and then at most the configured number until one records its
    outcome — and any success closes it. *)
Theorem circuit_refines_history (c : Config) (h : list event) (b : Breaker)
    (Hrun : run c h b) (Hl : Z.of_nat (length h) < 2 ^ 63 - 1) :
  (brk_state b = StateClosed <-> failures h < FailureThreshold c) /\
  (forall now, is_ok (fst (Allow now b)) = admits c (spec c h) now) /\
  (brk_state b = StateHalfOpen -> v_probes (spec c h) <= HalfOpenMaxProbes c) /\
  (brk_state b = StateOpen -> brk_openedAt b = v_opened (spec c h)) /\
  (forall now, brk_state (RecordSuccess now b) = StateClosed).
Proof.
  pose proof (run_config _ _ _ Hrun) as [b0 Hn]. apply New_ok in Hn as (Ht & Hd & Hm & _).
  pose proof (run_abstraction _ _ _ Hrun ltac:(lia)) as Ha. pose proof (spec_bounds _ _ _ Hrun) as Hb.
  split_and!.
  - rewrite <- (spec_failures c). destruct Ha as (_ & _ & _ & Hst). destruct (brk_state b); naive_solver lia.
  - intros now. apply abstraction_ask; auto. lia.
  - destruct Ha as (_ & _ & _ & Hst). intros E. rewrite E in Hst. lia.
  - destruct Ha as (_ & _ & _ & Hst). intros E. rewrite E in Hst. tauto.
  - done.
Qed.

Module CircuitSamples.
Definition start : Breaker :=
  Eval vm_compute in match New DefaultConfig with Ok b => b | Err _ => MkBreaker DefaultConfig StateOpen 0 0 0 0 0 end.
Definition now : Time := of_unix 1780000000.
Definition fail (n : nat) : Breaker := Nat.iter n (RecordFailure now) start.
(** Five failures open it; a probe half a minute later is the only call. *)
Definition probed : Breaker := snd (Allow (now + 30 * Second) (fail 5)).

Lemma probed_run :
  run DefaultConfig (Asked (now + 30 * Second) true :: repeat (Failed now) 5) probed.
Proof.
  change true with (is_ok (fst (Allow (now + 30 * Second) (fail 5)))). apply run_ask.
  cbn [repeat fail Nat.iter]. do 5 apply run_failure. apply run_new. reflexivity.
Qed.

Lemma circuit_refines_history_witness : v_probes (spec DefaultConfig (Asked (now + 30 * Second) true :: repeat (Failed now) 5)) <= 1.
Proof.
  apply (circuit_refines_history DefaultConfig _ probed probed_run); vm_compute; reflexivity.
Defined.
End CircuitSamples.
