(* ===== verification/GoText.v ===== *)
(** More of Go's [strings] and [strconv]: joining and cutting, range loops that
    test characters, unsigned parsing; used by the provider and contract
    layers. *)
From Stdlib Require Import Ascii.
From S2P Require Import Prelude GoStrings AppErrors.
Open Scope string_scope.
Open Scope Z_scope.
Open Scope go_scope.

(** [strings.Join(parts, sep)] *)
Fixpoint Join (parts : list string) (sep : string) : string :=
  match parts with
  | [] => ""
  | [p] => p
  | p :: rest => p +:+ (sep +:+ Join rest sep)
  end.

(** [strings.Cut(s, sep)] for a one-byte separator; [None] when not found. *)
Fixpoint Cut (s : string) (sep : ascii) : option (string * string) :=
  match s with
  | EmptyString => None
  | String c s' =>
      if decide (c = sep) then Some ("", s')
      else match Cut s' sep with Some (a, b) => Some (String c a, b) | None => None end
  end.

(** [for _, c := range s { if !f(c) ... }] never fires. *)
Definition all_runes (f : Z -> bool) (s : string) : bool := forallb f (runes s).

(** Characters of the ASCII range only. *)
Definition ascii_only (f : Z -> bool) : Prop := forall r, f r = true -> 0 <= r < 0x80.

Definition is_lower (r : Z) : bool := byte_in 97 122 r.
Definition is_upper (r : Z) : bool := byte_in 65 90 r.
Definition is_lower_hex (r : Z) : bool := is_digit_byte r || byte_in 97 102 r.

(** [strconv.ParseUint(s, 10, 64)] *)
Definition ParseUint64 (s : string) : result Z :=
  match parse_digits s with
  | Some n => if n <? 2 ^ 64 then Ok n else Err (Sentinel "strconv.ErrRange")
  | None => Err (Sentinel "strconv.ErrSyntax")
  end.

(** [strings.EqualFold]: rune by rune, letters of the ASCII range without
    case, and other runes by the Unicode folding orbits, a parameter. *)
Class FoldTables := unicode_fold : Z -> Z -> bool.
Definition fold_rune `{FoldTables} (a b : Z) : bool :=
  (a =? b) || (if (a <? 0x80) && (b <? 0x80) then lower_byte a =? lower_byte b else unicode_fold a b).
Fixpoint fold_runes `{FoldTables} (s t : list Z) : bool :=
  match s, t with
  | [], [] => true
  | a :: s, b :: t => fold_rune a b && fold_runes s t
  | _, _ => false
  end.
Definition EqualFold `{FoldTables} (s t : string) : bool := fold_runes (runes s) (runes t).

(** No byte of [s] is the separator. *)
Definition free_of (sep : ascii) (s : string) : Prop :=
  Forall (fun a => a <> sep) (String.list_ascii_of_string s).

(** * Lemmas *)
Lemma free_of_app sep s1 s2 : free_of sep s1 -> free_of sep s2 -> free_of sep (s1 +:+ s2).
Proof.
  unfold free_of. induction s1 as [|a s1 IH]; [done|].
  cbn [String.list_ascii_of_string String.append]. rewrite !Forall_cons. naive_solver.
Qed.

Lemma free_of_bytes sep s : Forall (fun b => b <> byte_of sep) (bytes s) -> free_of sep s.
Proof.
  unfold free_of. induction s as [|a s IH]; [constructor|]. rewrite bytes_cons.
  intros [Ha Hs]%Forall_cons. constructor; [congruence|auto].
Qed.

Lemma Split_Join parts sep :
  parts <> [] -> Forall (free_of sep) parts -> Split (Join parts (String sep "")) sep = parts.
Proof.
  induction parts as [|p parts IH]; [done|]. intros _ [Hp Hps]%Forall_cons. destruct parts as [|q parts].
  - by apply Split_no_sep.
  - change (Join (p :: q :: parts) (String sep "")) with (p +:+ String sep (Join (q :: parts) (String sep ""))).
    rewrite Split_app_sep by done.
    by rewrite IH by done.
Qed.

Lemma Cut_app sep a b : free_of sep a -> Cut (a +:+ String sep b) sep = Some (a, b).
Proof.
  unfold free_of. induction a as [|c a IH]; intros Hf.
  - change ("" +:+ ?x) with x. cbn [Cut]. by rewrite decide_True.
  - apply Forall_cons in Hf as [Hc Ha]. change (String c a +:+ ?x) with (String c (a +:+ x)). cbn [Cut].
    rewrite decide_False by done. by rewrite IH.
Qed.

Lemma Cut_some s sep a b : Cut s sep = Some (a, b) -> s = a +:+ String sep b /\ free_of sep a.
Proof.
  revert a. induction s as [|c s IH]; cbn [Cut]; [done|]. intros a. case_decide as Hd.
  - intros [= <- <-]. subst. split; [done|constructor].
  - destruct (Cut s sep) as [[a' b']|]; [|done]. intros [= <- <-]. destruct (IH a' eq_refl) as [-> Hf].
    split; [done|]. by constructor.
Qed.

(** A rune of the ASCII range is a byte of the string. *)
Lemma decode_rune_ascii_only f l r k :
  ascii_only f -> Forall (fun b => 0 <= b < 256) l ->
  decode_rune l = (r, k) -> f r = true -> k = 1%nat /\ exists t, l = r :: t.
Proof.
  intros Hf Hl H Hr. apply Hf in Hr. destruct l as [|b0 t]; cbn in H.
  { injection H as <- <-. unfold rune_error in *. lia. }
  destruct (b0 <? 0x80); [injection H as -> <-; eauto|].
  exfalso. revert H. unfold is_cont, byte_in, rune_error in *.
  repeat case_match; intros [= <- <-]; reflect_all; repeat case_match; lia.
Qed.

(** Such a loop sees the bytes. *)
Lemma all_runes_bytes f s : ascii_only f -> all_runes f s = forallb f (bytes s).
Proof.
  intros Hf. unfold all_runes, runes, runes_of. rewrite length_bytes.
  assert (forall n s, (String.length s <= n)%nat ->
    forallb f (runes_fuel n (bytes s)).*1 = forallb f (bytes s)) as Hgen; [|by apply Hgen].
  clear s. induction n as [|n IH]; intros s Hn.
  { destruct s; cbn in Hn; [done|lia]. }
  destruct s as [|a s]; [done|]. rewrite bytes_cons. cbn [runes_fuel].
  destruct (decode_rune (byte_of a :: bytes s)) as [r k] eqn:E. cbn [fmap list_fmap fst forallb].
  destruct (f (byte_of a)) eqn:Ha.
  - apply (decode_rune_small _ (byte_of a) (bytes s)) in E as [-> ->]; [|done|apply Hf in Ha; apply Z.ltb_lt; lia].
    rewrite Ha. cbn. apply IH. cbn in Hn. lia.
  - cbn. destruct (f r) eqn:Hr; [|done]. exfalso.
    apply (decode_rune_ascii_only f) in E as [_ [t Ht]]; [|done|rewrite <- bytes_cons; apply bytes_range|done].
    injection Ht as <- _. congruence.
Qed.

Lemma ascii_only_digit : ascii_only is_digit_byte.
Proof. intros r. unfold is_digit_byte, byte_in. intros. reflect_all. lia. Qed.
Lemma ascii_only_range lo hi : 0 <= lo -> hi < 0x80 -> ascii_only (byte_in lo hi).
Proof. intros ? ? r. unfold byte_in. intros. reflect_all. lia. Qed.
Lemma ascii_only_or f g : ascii_only f -> ascii_only g -> ascii_only (fun r => f r || g r).
Proof. intros Hf Hg r [H|H]%orb_true_iff; auto. Qed.
Lemma ascii_only_lower_hex : ascii_only is_lower_hex.
Proof. apply ascii_only_or; [apply ascii_only_digit|by apply ascii_only_range]. Qed.

(** Excluding the separator from the alphabet excludes it from the string. *)
Lemma all_runes_free f sep s : ascii_only f -> f (byte_of sep) = false -> all_runes f s = true -> free_of sep s.
Proof.
  intros Hf Hsep. rewrite all_runes_bytes by done. rewrite forallb_forall. intros Hall.
  apply free_of_bytes, Forall_forall. intros b Hb ->. rewrite list_elem_of_In in Hb. apply Hall in Hb. congruence.
Qed.

Lemma all_runes_plain f s :
  ascii_only f -> (forall r, f r = true -> plain_byte r = true) -> all_runes f s = true -> plain s = true.
Proof. intros Hf Hp. rewrite all_runes_bytes by done. unfold plain. rewrite !forallb_forall. eauto. Qed.

Lemma list_fmap_fixed {A} (g : A -> A) l : (forall x, In x l -> g x = x) -> g <$> l = l.
Proof. induction l as [|x l IH]; intros Hg; [done|]. cbn. rewrite Hg, IH; cbn; auto. intros; apply Hg; cbn; auto. Qed.

(** Lowering a string without upper-case letters changes nothing. *)
Lemma ToLower_stable `{UnicodeTables} f s :
  ascii_only f -> (forall r, f r = true -> is_upper r = false) -> all_runes f s = true -> ToLower s = s.
Proof.
  intros Hf Hu. rewrite all_runes_bytes by done. rewrite forallb_forall. intros Hall. unfold ToLower.
  assert (is_ascii_string s = true) as ->.
  { unfold is_ascii_string. apply forallb_forall. intros b Hb%Hall%Hf. apply Z.ltb_lt. lia. }
  assert (lower_byte <$> bytes s = bytes s) as ->; [|apply of_bytes_bytes].
  apply list_fmap_fixed. intros b Hb%Hall%Hu. unfold lower_byte. unfold is_upper in Hb. by rewrite Hb.
Qed.

(** On ASCII strings it is equality of the lowered strings. *)
Lemma fold_runes_ascii `{FoldTables} l1 : forall l2,
  Forall (fun b => 0 <= b < 0x80) l1 -> Forall (fun b => 0 <= b < 0x80) l2 ->
  fold_runes l1 l2 = true <-> lower_byte <$> l1 = lower_byte <$> l2.
Proof.
  induction l1 as [|a l1 IH]; intros [|b l2]; cbn; try done.
  intros [Ha H1]%Forall_cons [Hb H2]%Forall_cons. rewrite andb_true_iff, IH by done. unfold fold_rune.
  destruct (a <? 0x80) eqn:E1, (b <? 0x80) eqn:E2; reflect_all; try lia. cbn [andb].
  rewrite orb_true_iff, !Z.eqb_eq. split; [intros [[-> |Hl] ->]; congruence|]. intros [= Hl ->]. auto.
Qed.

Lemma is_ascii_runes s : is_ascii_string s = true -> runes s = bytes s /\ Forall (fun b => 0 <= b < 0x80) (bytes s).
Proof.
  intros Hs. split; [by apply runes_ascii|]. pose proof (bytes_range s) as Hr. rewrite Forall_forall in Hr |- *.
  unfold is_ascii_string in Hs. rewrite forallb_forall in Hs. intros b Hb. specialize (Hr b Hb).
  rewrite list_elem_of_In in Hb. apply Hs in Hb. reflect_all. lia.
Qed.

Lemma EqualFold_ascii `{FoldTables} `{UnicodeTables} s t :
  is_ascii_string s = true -> is_ascii_string t = true -> EqualFold s t = true <-> ToLower s = ToLower t.
Proof.
  intros Hs Ht. unfold EqualFold, ToLower. rewrite Hs, Ht.
  destruct (is_ascii_runes s Hs) as [-> Rs], (is_ascii_runes t Ht) as [-> Rt].
  rewrite fold_runes_ascii by done. split; [congruence|]. intros E. apply (f_equal bytes) in E.
  assert (forall l, Forall (fun b => 0 <= b < 0x80) l -> Forall (fun b => 0 <= b < 256) (lower_byte <$> l)) as Hl.
  { intros l Hr. apply Forall_fmap. eapply Forall_impl; [exact Hr|]. cbn. intros b Hb. unfold lower_byte. case_match; lia. }
  by rewrite !bytes_of_bytes in E by auto.
Qed.

Lemma EqualFold_refl `{FoldTables} s : EqualFold s s = true.
Proof.
  unfold EqualFold. induction (runes s) as [|a l IH]; cbn; [done|]. unfold fold_rune. by rewrite Z.eqb_refl.
Qed.

Lemma ParseUint64_FormatUint n : 0 <= n < 2 ^ 64 -> ParseUint64 (FormatUint n) = Ok n.
Proof.
  intros Hn. unfold ParseUint64. rewrite parse_FormatUint by lia. case_match; [done|reflect_all; lia].
Qed.

Lemma string_app_assoc (a b c : string) : (a +:+ b) +:+ c = a +:+ (b +:+ c).
Proof. induction a as [|x a IH]; [done|]. exact (f_equal (String x) IH). Qed.

Lemma string_app_nil_r (a : string) : a +:+ "" = a.
Proof. induction a as [|x a IH]; [done|]. exact (f_equal (String x) IH). Qed.

#[export] Hint Resolve ascii_only_digit ascii_only_range ascii_only_lower_hex ascii_only_or free_of_app : go.

(** [s[:n]] and [s[n:]] of byte slices that are long enough. *)
Definition first_bytes (n : nat) (s : string) : string := of_bytes (take n (bytes s)).
Definition rest_bytes (n : nat) (s : string) : string := of_bytes (drop n (bytes s)).

Lemma len_bytes s : len s = Z.of_nat (length (bytes s)).
Proof. unfold len. by rewrite length_bytes. Qed.

Lemma bytes_first n s : bytes (first_bytes n s) = take n (bytes s).
Proof. apply bytes_of_bytes. apply Forall_take, bytes_range. Qed.
Lemma bytes_rest n s : bytes (rest_bytes n s) = drop n (bytes s).
Proof. apply bytes_of_bytes. apply Forall_drop, bytes_range. Qed.

Lemma first_bytes_app n a b : len a = Z.of_nat n -> first_bytes n (a +:+ b) = a.
Proof.
  intros Ha. rewrite len_bytes in Ha. apply bytes_inj. rewrite bytes_first, bytes_app, take_app_length'; [done|lia].
Qed.
Lemma rest_bytes_app n a b : len a = Z.of_nat n -> rest_bytes n (a +:+ b) = b.
Proof.
  intros Ha. rewrite len_bytes in Ha. apply bytes_inj. rewrite bytes_rest, bytes_app, drop_app_length'; [done|lia].
Qed.
Lemma first_rest n s : first_bytes n s +:+ rest_bytes n s = s.
Proof. apply bytes_inj. by rewrite bytes_app, bytes_first, bytes_rest, take_drop. Qed.
Lemma len_first n s : Z.of_nat n <= len s -> len (first_bytes n s) = Z.of_nat n.
Proof. rewrite !len_bytes, bytes_first, length_take. lia. Qed.

Lemma FormatUint_free sep n : is_digit_byte (byte_of sep) = false -> free_of sep (FormatUint n).
Proof.
  intros Hs. apply (all_runes_free is_digit_byte); [apply ascii_only_digit|done|].
  change (all_digits (FormatUint n) = true). rewrite all_digits_spec. apply digit_string_FormatUint.
Qed.

(** encoding/hex, strconv and math/big on hexadecimal text: what the chain
    adapters and the verifiers read digits with. *)
From S2P Require Import AppErrors Contracts.

Definition hex_value (b : Z) : Z := if b <=? 57 then b - 48 else if b <=? 70 then b - 55 else b - 87.
Fixpoint hex_pairs (l : list Z) : list Z :=
  match l with h :: d :: l => (16 * hex_value h + hex_value d) :: hex_pairs l | _ => [] end.

(** [hex.DecodeString]: an even number of digits of either case. *)
Definition DecodeString (s : string) : result string :=
  if negb (forallb is_hex_byte (bytes s)) then Err (errorf "encoding/hex: invalid byte")
  else if Z.odd (len s) then Err (errorf "encoding/hex: odd length hex string")
  else Ok (of_bytes (hex_pairs (bytes s))).

(** The number that digits, or bytes, stand for. *)
Definition horner16 (l : list Z) : Z := foldl (fun n b => 16 * n + hex_value b) 0 l.
(** [new(big.Int).SetBytes] *)
Definition SetBytes (s : string) : Z := foldl (fun n b => 256 * n + b) 0 (bytes s).

(** [strconv.ParseUint(s, 16, 64)] *)
Definition ParseHex64 (s : string) : result Z :=
  if (s == "") || negb (forallb is_hex_byte (bytes s)) then Err (errorf "strconv.ParseUint: invalid syntax")
  else let n := horner16 (bytes s) in
       if n <? 2 ^ 64 then Ok n else Err (errorf "strconv.ParseUint: value out of range").

(** [new(big.Int).SetString(s, 16)]: an optional sign and at least one digit. *)
Definition hex_digits (s : string) : option Z :=
  if (s == "") || negb (forallb is_hex_byte (bytes s)) then None else Some (horner16 (bytes s)).
Definition SetString16 (s : string) : option Z :=
  match s with
  | String "+" s' => hex_digits s'
  | String "-" s' => Z.opp <$> hex_digits s'
  | _ => hex_digits s
  end.
(** [strings.TrimPrefix] *)
Definition TrimPrefix (s prefix : string) : string :=
  if HasPrefix s prefix then rest_bytes (String.length prefix) s else s.

(** * Bounds *)
Lemma hex_value_range b : is_hex_byte b = true -> 0 <= hex_value b < 16.
Proof.
  unfold is_hex_byte, byte_in, hex_value. intros Hb.
  destruct (Z.leb_spec b 57), (Z.leb_spec b 70); apply orb_true_iff in Hb as [[Hb|Hb]%orb_true_iff|Hb]; reflect_all; lia.
Qed.

Lemma foldl_base_bound base l acc k :
  0 < base -> Forall (fun d => 0 <= d < base) l -> 0 <= acc < base ^ k -> 0 <= k ->
  0 <= foldl (fun n d => base * n + d) acc l < base ^ (k + Z.of_nat (length l)).
Proof.
  intros Hb Hl. revert acc k. induction Hl as [|d l Hd Hl IH]; intros acc k Hacc Hk; cbn.
  - by rewrite Z.add_0_r.
  - replace (k + Z.of_nat (S (length l))) with (k + 1 + Z.of_nat (length l)) by lia.
    apply IH; [|lia]. rewrite Z.pow_add_r, Z.pow_1_r by lia. nia.
Qed.

Lemma horner16_fold l : horner16 l = foldl (fun n d => 16 * n + d) 0 (hex_value <$> l).
Proof. unfold horner16. generalize 0. induction l as [|b l IH]; intros acc; cbn; [done|]. apply IH. Qed.

Lemma horner16_bound l : forallb is_hex_byte l = true -> 0 <= horner16 l < 16 ^ Z.of_nat (length l).
Proof.
  intros Hl. rewrite horner16_fold. pose proof (foldl_base_bound 16 (hex_value <$> l) 0 0) as B.
  rewrite length_fmap in B. apply B; [lia| |done|lia].
  apply Forall_fmap. rewrite forallb_forall in Hl. apply Forall_forall. intros b Hb.
  apply hex_value_range, Hl. by apply list_elem_of_In.
Qed.

Lemma SetBytes_bound s : 0 <= SetBytes s < 256 ^ len s.
Proof.
  unfold SetBytes. rewrite len_bytes. apply (foldl_base_bound 256 (bytes s) 0 0); [lia|apply bytes_range|done|lia].
Qed.
