(* ===== verification/References.v ===== *)
(** internal/providers/reference.go: the provider reference that is persisted
    as the adapter reference of an execution, its one-line encoding and its
    parser.

    A [map] that [Validate] ranges over only decides which of several errors is
    reported; it is read in the order it is written. *)
From Stdlib Require Import Ascii.
From S2P Require Import Prelude GoStrings GoText AppErrors.
Open Scope string_scope.
Open Scope Z_scope.
Open Scope go_scope.

Definition maxReferenceLength : Z := 512.
Definition maxSafeTextLength : Z := 256.
Definition maxChainIDLength : Z := 20.
Definition referencePrefix : string := "wzp1".

(** provider.go: [ProviderID] is a string type with one valid value. *)
Definition ProviderCircleUserControlled : string := "CIRCLE_USER_CONTROLLED_WALLET".
Definition ProviderID_Valid (id : string) : bool := id == ProviderCircleUserControlled.

Record Reference := MkReference {
  ref_Provider : string;
  ref_ChainID : string;
  ref_WalletID : string;
  ref_ChallengeID : string;
  ref_ProviderTransactionID : string;
  ref_TransactionHash : string;
  ref_ObsPresent : bool;
  ref_ObsKnown : bool;
  ref_ObsBlockHash : string;
  ref_ObsBlockNumber : Z;
  ref_ObsConfirmations : Z;
  ref_ObsLogFingerprint : string;
}.
#[global] Instance Reference_eq_dec : EqDecision Reference.
Proof. solve_decision. Defined.
Definition no_reference : Reference := MkReference "" "" "" "" "" "" false false "" 0 0 "".

(** * Text checks *)
Definition lowerHex (value : string) : bool := all_runes is_lower_hex value.

Definition ValidTransactionHash (value : string) : bool :=
  if (len value != 66) || negb (HasPrefix value "0x") then false
  else match value with String _ (String _ digits) => lowerHex digits | _ => false end.

Definition is_hex_rune (r : Z) : bool := is_digit_byte r || byte_in 97 102 r || byte_in 65 70 r.
Definition ValidAddress (value : string) : bool :=
  if (len value != 42) || negb (HasPrefix value "0x") then false
  else match value with String _ (String _ digits) => all_runes is_hex_rune digits | _ => false end.

Definition is_identifier_rune (r : Z) : bool := is_digit_byte r || is_lower r || is_upper r || (r =? 45).
Definition validProviderIdentifier (value : string) : bool :=
  if (value == "") || (64 <? len value) then false else all_runes is_identifier_rune value.

Definition validChainID (value : string) : bool :=
  if (value == "") || (maxChainIDLength <? len value)
     || match first_byte value with Some b => b =? 48 | None => true end
  then false else all_digits value.

Definition validSafeText (value : string) : bool :=
  if (value == "") || (maxSafeTextLength <? len value) || (TrimSpace value != value) then false
  else negb (has_control value).

Definition validLogFingerprint (value : string) : bool := if len value != 64 then false else lowerHex value.

Definition invalid_uint : error := errorf "invalid unsigned integer".
Definition parseUintField (value : string) : result Z :=
  do! match first_byte value with
      | None => Err invalid_uint
      | Some b =>
          if b =? 48 then fail_if (len value != 1) invalid_uint
          else fail_if (negb (all_digits value)) invalid_uint
      end;
  map_err (fun _ => invalid_uint) (ParseUint64 value).

(** * Validation *)
Section reference.
Context `{UnicodeTables}.

Definition hasObservationMetadata (r : Reference) : bool :=
  ref_ObsKnown r || ref_ObsPresent r || (ref_ObsBlockHash r != "") || (ref_ObsBlockNumber r != 0)
  || (ref_ObsConfirmations r != 0) || (ref_ObsLogFingerprint r != "").

Definition validateObservationMetadata (r : Reference) : result unit :=
  if negb (hasObservationMetadata r) then Ok tt
  else
    do! fail_if ((ref_TransactionHash r == "") || negb (ValidTransactionHash (ref_TransactionHash r)))
          (errorf "provider reference observation metadata requires a valid transaction hash");
    do! fail_if (ref_ObsPresent r && negb (ref_ObsKnown r))
          (errorf "provider reference observation present without known flag");
    fail_if (negb (ref_ObsKnown r)) (errorf "provider reference observation fields require a known observation").

Definition identifier_ok (f : string * string) : result unit :=
  fail_if ((snd f != "") && negb (validProviderIdentifier (snd f)))
    (errorf1 "provider reference has an invalid %s" (fst f)).

Definition Reference_Validate (r : Reference) : result unit :=
  do! fail_if (negb (ProviderID_Valid (ref_Provider r))) (errorf "provider reference has an invalid provider");
  do! fail_if (negb (validChainID (ref_ChainID r))) (errorf "provider reference has an invalid chain ID");
  do! fail_if ((ref_ChallengeID r == "") && (ref_ProviderTransactionID r == "") && (ref_TransactionHash r == ""))
        (errorf "provider reference requires at least one provider identifier");
  do! for_each identifier_ok
        [("challenge ID", ref_ChallengeID r); ("provider transaction ID", ref_ProviderTransactionID r);
         ("wallet ID", ref_WalletID r)];
  do! fail_if ((ref_TransactionHash r != "") && negb (ValidTransactionHash (ref_TransactionHash r)))
        (errorf "provider reference has an invalid transaction hash");
  do! fail_if ((ref_ObsBlockHash r != "") && negb (ValidTransactionHash (ref_ObsBlockHash r)))
        (errorf "provider reference has an invalid observation block hash");
  do! fail_if ((ref_ObsLogFingerprint r != "") && negb (validLogFingerprint (ref_ObsLogFingerprint r)))
        (errorf "provider reference has an invalid observation log fingerprint");
  validateObservationMetadata r.

(** Three conditional updates in a row. *)
Definition normalizeObservationMetadata (r : Reference) : Reference :=
  let lower s := ToLower (TrimSpace s) in
  let block := (ref_ObsBlockHash r != "") || (ref_ObsBlockNumber r != 0) in
  let logs := ref_ObsLogFingerprint r != "" in
  MkReference (ref_Provider r) (ref_ChainID r) (ref_WalletID r) (ref_ChallengeID r)
    (ref_ProviderTransactionID r) (ref_TransactionHash r) (ref_ObsPresent r)
    (ref_ObsKnown r || ref_ObsPresent r || block || logs)
    (if block then lower (ref_ObsBlockHash r) else ref_ObsBlockHash r)
    (ref_ObsBlockNumber r) (ref_ObsConfirmations r)
    (if logs then lower (ref_ObsLogFingerprint r) else ref_ObsLogFingerprint r).

(** * Encoding *)
(** An optional field: left out when empty. *)
Definition field (key value : string) : list string := if value != "" then [key +:+ value] else [].
Definition uint_field (key : string) (n : Z) : list string := if n != 0 then [key +:+ FormatUint n] else [].

Definition observation_parts (r : Reference) : list string :=
  if ref_ObsKnown r || ref_ObsPresent r || (ref_ObsBlockHash r != "") || (ref_ObsBlockNumber r != 0)
     || (ref_ObsLogFingerprint r != "")
  then
    [if ref_ObsPresent r then "rp=1" else "rp=0"]
    ++ (if ref_ObsKnown r || ref_ObsPresent r then ["rk=1"] else [])
    ++ (if ref_ObsBlockHash r != "" then ["bh=" +:+ ToLower (ref_ObsBlockHash r)] else [])
    ++ uint_field "bn=" (ref_ObsBlockNumber r)
    ++ uint_field "cf=" (ref_ObsConfirmations r)
    ++ (if ref_ObsLogFingerprint r != "" then ["lf=" +:+ ToLower (ref_ObsLogFingerprint r)] else [])
  else [].

Definition parts (r : Reference) : list string :=
  [referencePrefix; "p=" +:+ ref_Provider r; "chain=" +:+ ref_ChainID r]
  ++ field "w=" (ref_WalletID r) ++ field "ch=" (ref_ChallengeID r) ++ field "tx=" (ref_ProviderTransactionID r)
  ++ field "hash=" (ref_TransactionHash r) ++ observation_parts r.

Definition Encode (r : Reference) : result string :=
  let r := normalizeObservationMetadata r in
  do! Reference_Validate r;
  let encoded := Join (parts r) ";" in
  do! fail_if (maxReferenceLength <? len encoded)
        (errorf1 "provider reference exceeds %d characters" (FormatUint maxReferenceLength));
  Ok encoded.

(** * Parsing *)
(** One assignment of the parser's switch. *)
Definition set_field (key value : string) (r : Reference) : result Reference :=
  let '(MkReference p chain w ch tx hash rp rk bh bn cf lf) := r in
  if key == "p" then Ok (MkReference value chain w ch tx hash rp rk bh bn cf lf)
  else if key == "chain" then Ok (MkReference p value w ch tx hash rp rk bh bn cf lf)
  else if key == "w" then Ok (MkReference p chain value ch tx hash rp rk bh bn cf lf)
  else if key == "ch" then Ok (MkReference p chain w value tx hash rp rk bh bn cf lf)
  else if key == "tx" then Ok (MkReference p chain w ch value hash rp rk bh bn cf lf)
  else if key == "hash" then Ok (MkReference p chain w ch tx value rp rk bh bn cf lf)
  else if key == "rp" then
    if value == "0" then Ok (MkReference p chain w ch tx hash false rk bh bn cf lf)
    else if value == "1" then Ok (MkReference p chain w ch tx hash true rk bh bn cf lf)
    else Err (errorf "provider reference has an invalid observation present flag")
  else if key == "rk" then
    if value != "1" then Err (errorf "provider reference has an invalid observation known flag")
    else Ok (MkReference p chain w ch tx hash rp true bh bn cf lf)
  else if key == "bh" then Ok (MkReference p chain w ch tx hash rp rk value bn cf lf)
  else if key == "bn" then
    let! n := map_err (fun _ => errorf "provider reference has an invalid observation block number") (parseUintField value) in
    Ok (MkReference p chain w ch tx hash rp rk bh n cf lf)
  else if key == "cf" then
    let! n := map_err (fun _ => errorf "provider reference has an invalid observation confirmations") (parseUintField value) in
    Ok (MkReference p chain w ch tx hash rp rk bh bn n lf)
  else if key == "lf" then Ok (MkReference p chain w ch tx hash rp rk bh bn cf value)
  else Err (errorf1 "provider reference has an unknown field %q" key).

(** One segment: the keys seen so far and the reference built so far. *)
Definition parse_segment (st : gset string * Reference) (segment : string) : result (gset string * Reference) :=
  let '(seen, r) := st in
  match Cut segment "=" with
  | None => Err (errorf "provider reference is malformed")
  | Some (key, value) =>
      do! fail_if (value == "") (errorf "provider reference is malformed");
      do! fail_if (bool_decide (key ∈ seen)) (errorf1 "provider reference repeats field %q" key);
      let! r := set_field key value r in
      Ok ({[key]} ∪ seen, r)
  end.

Definition ParseReference (value : string) : result Reference :=
  do! fail_if ((value == "") || (maxReferenceLength <? len value)) (errorf "provider reference is malformed");
  match Split value ";" with
  | prefix :: segments =>
      do! fail_if (prefix != referencePrefix) (errorf "provider reference has an unsupported encoding");
      let! st := fold_result parse_segment (∅, no_reference) segments in
      let r := normalizeObservationMetadata (snd st) in
      do! Reference_Validate r;
      Ok r
  | [] => Err (errorf "provider reference is malformed")
  end.

(** [WithTransaction]: never clears an identifier. *)
Definition WithTransaction (r : Reference) (providerTransactionID transactionHash : string) : Reference :=
  MkReference (ref_Provider r) (ref_ChainID r) (ref_WalletID r) (ref_ChallengeID r)
    (if providerTransactionID != "" then providerTransactionID else ref_ProviderTransactionID r)
    (if transactionHash != "" then ToLower transactionHash else ref_TransactionHash r)
    (ref_ObsPresent r) (ref_ObsKnown r) (ref_ObsBlockHash r) (ref_ObsBlockNumber r)
    (ref_ObsConfirmations r) (ref_ObsLogFingerprint r).
End reference.

(** * The encoding is read back *)
Section roundtrip.
Context `{UnicodeTables}.

(** What validation says of each field. *)
Definition hash_text (s : string) : Prop := s = "" \/ ValidTransactionHash s = true.
Definition fingerprint_text (s : string) : Prop := s = "" \/ validLogFingerprint s = true.
Definition identifier_text (s : string) : Prop := s = "" \/ validProviderIdentifier s = true.

Lemma or_negb (b c : bool) : b && negb c = false -> b = false \/ c = true.
Proof. destruct b, c; auto. Qed.

Lemma Validate_facts r :
  Reference_Validate r = Ok tt ->
  ref_Provider r = ProviderCircleUserControlled /\ validChainID (ref_ChainID r) = true /\
  identifier_text (ref_WalletID r) /\ identifier_text (ref_ChallengeID r) /\
  identifier_text (ref_ProviderTransactionID r) /\ hash_text (ref_TransactionHash r) /\
  hash_text (ref_ObsBlockHash r) /\ fingerprint_text (ref_ObsLogFingerprint r) /\
  validateObservationMetadata r = Ok tt.
Proof.
  unfold Reference_Validate, hash_text, fingerprint_text, identifier_text, identifier_ok.
  cbn [for_each fst snd]. intros Hok. ok_inv.
  repeat match goal with E : (_ && negb _)%bool = false |- _ => apply or_negb in E end.
  reflect_all. unfold ProviderID_Valid in *. reflect_all.
  repeat match goal with E : _ \/ _ |- _ => destruct E end; reflect_all; split_and!; auto.
Qed.

Lemma ValidTransactionHash_shape s :
  ValidTransactionHash s = true -> exists d, s = "0x" +:+ d /\ lowerHex d = true.
Proof.
  unfold ValidTransactionHash, HasPrefix. destruct s as [|a [|b d]]; cbn [String.prefix]; try (by destruct (_ != _)).
  - destruct (_ || _) eqn:E; [done|]. apply orb_false_iff in E as [_ E]. by destruct (ascii_dec _ _).
  - destruct (_ || _) eqn:E; [done|]. apply orb_false_iff in E as [_ E]. intros Hd. exists d.
    destruct (ascii_dec "0" a) as [<-|]; [|done]. destruct (ascii_dec "x" b) as [<-|]; [|done]. done.
Qed.

Definition is_hash_rune (r : Z) : bool := is_lower_hex r || (r =? 120).
Lemma ascii_only_hash_rune : ascii_only is_hash_rune.
Proof. intros r Hr%orb_true_iff. destruct Hr as [Hr|Hr]; [by apply ascii_only_lower_hex|reflect_all; lia]. Qed.

Lemma forallb_weaken {A} (f g : A -> bool) l :
  (forall x, f x = true -> g x = true) -> forallb f l = true -> forallb g l = true.
Proof. rewrite !forallb_forall. eauto. Qed.

Lemma hash_text_runes s : hash_text s -> all_runes is_hash_rune s = true.
Proof.
  intros [->|(d & -> & Hd)%ValidTransactionHash_shape]; [done|].
  rewrite all_runes_bytes by apply ascii_only_hash_rune.
  change (forallb is_hash_rune (bytes d) = true). unfold lowerHex in Hd.
  rewrite all_runes_bytes in Hd by apply ascii_only_lower_hex. revert Hd. apply forallb_weaken.
  intros x Hx. unfold is_hash_rune. by rewrite Hx.
Qed.

Lemma fingerprint_text_runes s : fingerprint_text s -> all_runes is_hash_rune s = true.
Proof.
  intros [->|Hf]; [done|]. unfold validLogFingerprint, lowerHex in Hf. destruct (_ != _); [done|].
  rewrite all_runes_bytes in * by (apply ascii_only_hash_rune || apply ascii_only_lower_hex). revert Hf.
  apply forallb_weaken. intros x Hx. unfold is_hash_rune. by rewrite Hx.
Qed.

Lemma hash_rune_facts r : is_hash_rune r = true -> is_upper r = false /\ plain_byte r = true.
Proof.
  unfold is_hash_rune, is_lower_hex, is_digit_byte, is_upper, plain_byte, byte_in.
  intros Hr. repeat (apply orb_true_iff in Hr as [Hr|Hr]); reflect_all; split; try lia;
    apply andb_false_iff; rewrite !Z.leb_gt; lia.
Qed.

(** Lower-case hexadecimal text survives normalisation. *)
Lemma hash_runes_stable s : all_runes is_hash_rune s = true -> ToLower s = s /\ TrimSpace s = s.
Proof.
  intros Hs. split.
  - apply (ToLower_stable is_hash_rune); [apply ascii_only_hash_rune|apply hash_rune_facts|done].
  - apply plain_trim. apply (all_runes_plain is_hash_rune); [apply ascii_only_hash_rune|apply hash_rune_facts|done].
Qed.

Lemma identifier_text_runes s : identifier_text s -> all_runes is_identifier_rune s = true.
Proof. intros [->|Hi]; [done|]. unfold validProviderIdentifier in Hi. by destruct (_ || _). Qed.
Lemma ascii_only_identifier : ascii_only is_identifier_rune.
Proof.
  intros r. unfold is_identifier_rune, is_digit_byte, is_lower, is_upper, byte_in. intros Hr.
  repeat (apply orb_true_iff in Hr as [Hr|Hr]); reflect_all; lia.
Qed.

(** No field contains the separator of fields. *)
Lemma identifier_free s : identifier_text s -> free_of ";" s.
Proof.
  intros Hs%identifier_text_runes. by apply (all_runes_free is_identifier_rune); [apply ascii_only_identifier| |].
Qed.
Lemma hash_runes_free s : all_runes is_hash_rune s = true -> free_of ";" s.
Proof. intros Hs. by apply (all_runes_free is_hash_rune); [apply ascii_only_hash_rune| |]. Qed.
Lemma chain_free s : validChainID s = true -> free_of ";" s.
Proof.
  unfold validChainID. destruct (_ || _); [done|]. intros Hs.
  by apply (all_runes_free is_digit_byte); [apply ascii_only_digit| |].
Qed.
Ltac free_literal := unfold free_of; repeat (apply Forall_cons_2; [discriminate|]); apply Forall_nil_2.

Lemma parts_free r : Reference_Validate r = Ok tt -> Forall (free_of ";") (parts r).
Proof.
  intros (Hp & Hc & Hw & Hch & Htx & Hh & Hbh & Hlf & _)%Validate_facts.
  pose proof (hash_text_runes _ Hbh) as Hb%hash_runes_stable. pose proof (fingerprint_text_runes _ Hlf) as Hl%hash_runes_stable.
  unfold parts, observation_parts, field, uint_field. rewrite Hp. destruct Hb as [-> _], Hl as [-> _].
  assert (forall s, free_of ";" s -> forall k, free_of ";" k -> free_of ";" (k +:+ s)) as Happ by auto using free_of_app.
  assert (forall (b : bool) l, Forall (free_of ";") l -> Forall (free_of ";") (if b then l else [])) as Hif by by intros [].
  repeat (lazymatch goal with |- Forall _ _ => idtac end;
          first [apply Forall_app_2 | apply Hif | apply Forall_cons_2 | apply Forall_nil_2]);
    try (apply Happ; [|free_literal]);
    eauto using identifier_free, hash_runes_free, chain_free, FormatUint_free, hash_text_runes, fingerprint_text_runes.
  all: try case_match; free_literal.
Qed.

(** Reading one segment, and one optional segment. *)
Lemma parse_segment_ok seen r r' segment key value :
  Cut segment "=" = Some (key, value) -> value <> "" -> key ∉ seen -> set_field key value r = Ok r' ->
  parse_segment (seen, r) segment = Ok ({[key]} ∪ seen, r').
Proof.
  intros Hc Hv Hk Hs. unfold parse_segment. rewrite Hc, Hs.
  rewrite (proj2 (eqb_spec_false value "") Hv). by rewrite bool_decide_eq_false_2.
Qed.

Definition mark (b : bool) (key : string) (seen : gset string) : gset string := if b then {[key]} ∪ seen else seen.
Lemma mark_fresh b key other seen : other <> key -> other ∉ seen -> other ∉ mark b key seen.
Proof. unfold mark. destruct b; set_solver. Qed.

Lemma parse_optional (b : bool) seen (r r' : Reference) segment key value :
  (b = true -> Cut segment "=" = Some (key, value)) -> (b = true -> value <> "") -> key ∉ seen ->
  (b = true -> set_field key value r = Ok r') -> (b = false -> r' = r) ->
  fold_result parse_segment (seen, r) (if b then [segment] else []) = Ok (mark b key seen, r').
Proof.
  intros Hc Hv Hk Hs Hn. destruct b; cbn [fold_result].
  - by rewrite (parse_segment_ok seen r r' segment key value) by auto.
  - by rewrite Hn.
Qed.

Lemma parse_text seen (k : string -> Reference) seg key value :
  (forall v, Cut (seg +:+ v) "=" = Some (key, v)) -> key ∉ seen ->
  (forall v, set_field key v (k "") = Ok (k v)) ->
  fold_result parse_segment (seen, k "") (field seg value) = Ok (mark (value != "") key seen, k value).
Proof.
  intros Hc Hk Hs. unfold field. apply parse_optional with (value := value); auto; intros E; reflect_all; congruence.
Qed.

Lemma parseUintField_FormatUint n : is_u64 n -> parseUintField (FormatUint n) = Ok n.
Proof.
  intros Hn. unfold parseUintField. pose proof (leading_zero_FormatUint n) as Hz. unfold leading_zero in Hz.
  pose proof (digit_string_FormatUint n) as Hd. pose proof (FormatUint_nonempty n) as Hne.
  rewrite ParseUint64_FormatUint, all_digits_spec, Hd by done.
  destruct (FormatUint n) as [|a s]; [done|]. cbn [first_byte] in *. pose proof (len_nonneg s). rewrite len_cons in *.
  destruct (byte_of a =? 48) eqn:E; [|done]. cbn [rbind].
  apply andb_false_iff in Hz as [Hz|Hz]; [|done]. apply Z.ltb_ge in Hz.
  assert (1 + len s = 1) as -> by lia. done.
Qed.

Lemma parse_uint seen (k : Z -> Reference) seg key n :
  (forall v, Cut (seg +:+ v) "=" = Some (key, v)) -> key ∉ seen -> is_u64 n ->
  (forall v, parseUintField v = Ok n -> set_field key v (k 0) = Ok (k n)) ->
  fold_result parse_segment (seen, k 0) (uint_field seg n) = Ok (mark (n != 0) key seen, k n).
Proof.
  intros Hc Hk Hn Hs. unfold uint_field. apply parse_optional with (value := FormatUint n); auto;
    intros E; reflect_all; [apply FormatUint_nonempty|by apply Hs, parseUintField_FormatUint|congruence].
Qed.

Ltac unseen := repeat (apply mark_fresh; [discriminate|]); set_solver.
Ltac next_text k seg key v :=
  rewrite fold_result_app, (parse_text _ k seg key v); [cbn [rbind]|done|unseen|done].
Ltac next_uint k seg key v :=
  rewrite fold_result_app, (parse_uint _ k seg key v);
    [cbn [rbind]|done|unseen|done|intros ? E; cbn; by rewrite E].

Lemma parse_flags seen p chain w ch tx hash (rp : bool) :
  "rp" ∉ seen -> "rk" ∉ seen ->
  fold_result parse_segment (seen, MkReference p chain w ch tx hash false false "" 0 0 "")
    ([if rp then "rp=1" else "rp=0"] ++ ["rk=1"])
  = Ok ({["rk"]} ∪ ({["rp"]} ∪ seen), MkReference p chain w ch tx hash rp true "" 0 0 "").
Proof.
  intros H1 H2. cbn [app fold_result].
  rewrite (parse_segment_ok seen _ (MkReference p chain w ch tx hash rp false "" 0 0 "") _ "rp" (if rp then "1" else "0"))
    by (by destruct rp).
  cbn [rbind]. by rewrite (parse_segment_ok _ _ (MkReference p chain w ch tx hash rp true "" 0 0 "") "rk=1" "rk" "1")
    by (done || set_solver).
Qed.

(** The observation fields of a normalised reference. *)
Lemma parse_observation seen p chain w ch tx hash rp rk bh bn cf lf :
  let r := MkReference p chain w ch tx hash rp rk bh bn cf lf in
  (forall k, k ∈ ["rp"; "rk"; "bh"; "bn"; "cf"; "lf"] -> k ∉ seen) ->
  hash_text bh -> fingerprint_text lf -> is_u64 bn -> is_u64 cf ->
  validateObservationMetadata r = Ok tt ->
  exists seen', fold_result parse_segment
    (seen, MkReference p chain w ch tx hash false false "" 0 0 "") (observation_parts r) = Ok (seen', r).
Proof.
  cbn zeta. intros Hk Hbh Hlf Hbn Hcf Hv. unfold observation_parts, validateObservationMetadata, hasObservationMetadata in *.
  cbn [ref_ObsPresent ref_ObsKnown ref_ObsBlockHash ref_ObsBlockNumber ref_ObsConfirmations ref_ObsLogFingerprint ref_TransactionHash] in *.
  pose proof (hash_text_runes _ Hbh) as [-> _]%hash_runes_stable.
  pose proof (fingerprint_text_runes _ Hlf) as [-> _]%hash_runes_stable.
  destruct (negb _) eqn:Hm in Hv.
  { apply negb_true_iff in Hm. rewrite !orb_false_iff in Hm. destruct Hm as [[[[[-> ->] Hbh0] Hbn0] Hcf0] Hlf0].
    rewrite Hbh0, Hbn0, Hlf0. reflect_all. subst. cbn. eauto. }
  ok_inv. destruct rk; [|done]. cbn [orb].
  rewrite (app_assoc [_] ["rk=1"]), fold_result_app, parse_flags by (apply Hk; set_solver). cbn [rbind].
  set (seen1 := {["rk"]} ∪ ({["rp"]} ∪ seen)).
  assert (forall k, k ∈ ["bh"; "bn"; "cf"; "lf"] -> k ∉ seen1) as Hf.
  { intros k Hin. pose proof (Hk k ltac:(set_solver)). unfold seen1. set_solver. }
  clearbody seen1. change (if bh != "" then ["bh=" +:+ bh] else []) with (field "bh=" bh).
  change (if lf != "" then ["lf=" +:+ lf] else []) with (field "lf=" lf).
  next_text (fun bh => MkReference p chain w ch tx hash rp true bh 0 0 "") "bh=" "bh" bh.
  next_uint (fun bn => MkReference p chain w ch tx hash rp true bh bn 0 "") "bn=" "bn" bn.
  next_uint (fun cf => MkReference p chain w ch tx hash rp true bh bn cf "") "cf=" "cf" cf.
  eexists. apply (parse_text _ (fun lf => MkReference p chain w ch tx hash rp true bh bn cf lf)); [done|unseen|done].
Qed.

Lemma parse_parts r :
  Reference_Validate r = Ok tt -> is_u64 (ref_ObsBlockNumber r) -> is_u64 (ref_ObsConfirmations r) ->
  exists seen, fold_result parse_segment (∅, no_reference) (tail (parts r)) = Ok (seen, r).
Proof.
  intros (Hp & Hc & _ & _ & _ & _ & Hbh & Hlf & Hv)%Validate_facts Hbn Hcf.
  destruct r as [p chain w ch tx hash rp rk bh bn cf lf].
  cbn [ref_Provider ref_ChainID ref_ObsBlockHash ref_ObsLogFingerprint ref_ObsBlockNumber ref_ObsConfirmations] in *.
  unfold parts. set (o := observation_parts _).
  cbn [ref_Provider ref_ChainID ref_WalletID ref_ChallengeID ref_ProviderTransactionID ref_TransactionHash app tail].
  change (("p=" +:+ p) :: ("chain=" +:+ chain) :: ?x) with (app ["p=" +:+ p] (app ["chain=" +:+ chain] x)).
  assert (["p=" +:+ p] = field "p=" p) as -> by (by subst).
  assert (["chain=" +:+ chain] = field "chain=" chain) as -> by (unfold field; destruct chain; done).
  next_text (fun p => MkReference p "" "" "" "" "" false false "" 0 0 "") "p=" "p" p.
  next_text (fun chain => MkReference p chain "" "" "" "" false false "" 0 0 "") "chain=" "chain" chain.
  next_text (fun w => MkReference p chain w "" "" "" false false "" 0 0 "") "w=" "w" w.
  next_text (fun ch => MkReference p chain w ch "" "" false false "" 0 0 "") "ch=" "ch" ch.
  next_text (fun tx => MkReference p chain w ch tx "" false false "" 0 0 "") "tx=" "tx" tx.
  next_text (fun hash => MkReference p chain w ch tx hash false false "" 0 0 "") "hash=" "hash" hash.
  apply parse_observation; auto. intros k Hk.
  repeat (apply mark_fresh; [intros ->; clear -Hk; set_solver|]). set_solver.
Qed.
Lemma normalize_stable r :
  let n := normalizeObservationMetadata r in
  hash_text (ref_ObsBlockHash n) -> fingerprint_text (ref_ObsLogFingerprint n) -> normalizeObservationMetadata n = n.
Proof.
  set (n := normalizeObservationMetadata r). cbn zeta. intros Hbh Hlf.
  pose proof (hash_text_runes _ Hbh) as [Hb1 Hb2]%hash_runes_stable.
  pose proof (fingerprint_text_runes _ Hlf) as [Hl1 Hl2]%hash_runes_stable.
  assert (ref_ObsKnown n = false ->
    ref_ObsPresent n = false /\ ref_ObsBlockHash n = "" /\ ref_ObsBlockNumber n = 0 /\ ref_ObsLogFingerprint n = "") as Hk.
  { unfold n, normalizeObservationMetadata. cbn. rewrite !orb_false_iff. intros [[[_ ?] [Hh ?]] Hl].
    rewrite Hh, Hl. reflect_all. subst. rewrite bool_decide_eq_true_2 by done. done. }
  destruct n as [p chain w ch tx hash rp rk bh bn cf lf] eqn:E. cbn in Hb1, Hb2, Hl1, Hl2, Hk.
  unfold normalizeObservationMetadata at 1. cbn. rewrite Hb2, Hb1, Hl2, Hl1.
  assert (rk || rp || (bh != "" || bn != 0) || lf != "" = rk) as ->.
  { destruct rk; [done|]. destruct Hk as (-> & -> & -> & ->); [done|]. done. }
  f_equal; by case_match.
Qed.

Lemma normalize_idempotent r :
  Reference_Validate (normalizeObservationMetadata r) = Ok tt ->
  normalizeObservationMetadata (normalizeObservationMetadata r) = normalizeObservationMetadata r.
Proof. intros (_ & _ & _ & _ & _ & _ & Hbh & Hlf & _)%Validate_facts. by apply normalize_stable. Qed.

Lemma Encode_Parse r s :
  is_u64 (ref_ObsBlockNumber r) -> is_u64 (ref_ObsConfirmations r) -> Encode r = Ok s ->
  ParseReference s = Ok (normalizeObservationMetadata r) /\ Encode (normalizeObservationMetadata r) = Ok s.
Proof.
  intros Hbn Hcf Hok. unfold Encode in *.
  apply rbind_ok in Hok as ([] & Hv & Hok). apply rbind_ok in Hok as ([] & Hl & Hok).
  assert (s = Join (parts (normalizeObservationMetadata r)) ";") as -> by congruence. clear Hok.
  pose proof (normalize_idempotent _ Hv) as Hi. split; [|by rewrite Hi, Hv, Hl].
  set (n := normalizeObservationMetadata r) in *. apply fail_if_ok in Hl.
  unfold ParseReference. rewrite Hl, Split_Join; [|done|by apply parts_free].
  destruct (parse_parts n Hv) as [seen Hp]; [done..|].
  replace (parts n) with (referencePrefix :: tail (parts n)) by done.
  cbn [fail_if rbind Join]. rewrite neqb_refl. cbn [fail_if rbind]. rewrite Hp. cbn [rbind snd]. rewrite Hi, Hv.
  by destruct (_ == "") eqn:E; [apply eqb_spec_true in E|].
Qed.

(** A persisted provider reference is read back exactly: whatever
    [Encode] writes, [ParseReference] returns the normalised reference it
    encodes, with every identifier, flag and counter; so no identifier can
    forge a field, two references with one encoding are one reference, and
    encoding what was parsed writes the same line again. *)
Theorem reference_roundtrip (r : Reference) (s : string)
    (Hbn : is_u64 (ref_ObsBlockNumber r)) (Hcf : is_u64 (ref_ObsConfirmations r)) (Hok : Encode r = Ok s) :
  ParseReference s = Ok (normalizeObservationMetadata r) /\
  Encode (normalizeObservationMetadata r) = Ok s /\
  forall r', is_u64 (ref_ObsBlockNumber r') -> is_u64 (ref_ObsConfirmations r') -> Encode r' = Ok s ->
    normalizeObservationMetadata r' = normalizeObservationMetadata r.
Proof.
  destruct (Encode_Parse r s Hbn Hcf Hok) as [Hp He]. split_and!; [done..|].
  intros r' H1 H2 H3. destruct (Encode_Parse r' s H1 H2 H3) as [Hp' _]. congruence.
Qed.
End roundtrip.

Module ReferenceSamples.
Definition hash : string := "0x8f3a8f3a8f3a8f3a8f3a8f3a8f3a8f3a8f3a8f3a8f3a8f3a8f3a8f3a8f3a8f3a".
#[local] Instance tables : UnicodeTables := fun r => r.
Definition reference : Reference :=
  MkReference ProviderCircleUserControlled "5042" "wallet-1" "challenge-1" "" hash true true hash 1204 3 "".
Definition encoded : string := Eval vm_compute in match Encode reference with Ok s => s | Err _ => "" end.

Lemma reference_roundtrip_witness : ParseReference encoded = Ok (normalizeObservationMetadata reference).
Proof.
  refine (proj1 (reference_roundtrip reference encoded _ _ _)); [split; vm_compute; done..|].
  vm_compute. reflexivity.
Defined.
End ReferenceSamples.
