(* ===== verification/ChainEvidence.v ===== *)
(** internal/providers: the classification of provider outcomes
    (classification.go), receipts and their logs (receipt.go), the comparison
    of successive observations of one transaction (reorg.go), and the verifier
    that turns a persisted reference into on-chain evidence (verifier.go).

    The provider's resolver and the chain client are outside this package;
    their answers are arguments. *)
From S2P Require Import Prelude GoStrings GoText GoTime Sha256 AppErrors Execution RuntimeEffects References.
Open Scope string_scope.
Open Scope Z_scope.
Open Scope go_scope.

(** * Classification *)
Inductive Classification : Type :=
  | ClassPreSubmissionValidationFailure | ClassUserAuthorizationRequired | ClassTransientProviderError
  | ClassPermanentProviderRejection | ClassAmbiguousSubmission | ClassSubmittedPending
  | ClassConfirmedOnchainFailed | ClassVerifiedSuccess
  | ClassOther (raw : string).
#[global] Instance Classification_eq_dec : EqDecision Classification.
Proof. solve_decision. Defined.

Definition Class_Valid (c : Classification) : bool := match c with ClassOther _ => false | _ => true end.
Definition ReconciliationOnly (c : Classification) : bool :=
  match c with ClassPreSubmissionValidationFailure | ClassPermanentProviderRejection => false | _ => true end.
Definition Class_Terminal (c : Classification) : bool :=
  match c with
  | ClassPreSubmissionValidationFailure | ClassPermanentProviderRejection | ClassConfirmedOnchainFailed => true
  | _ => false
  end.
Definition Class_string (c : Classification) : string :=
  match c with
  | ClassPreSubmissionValidationFailure => "PRE_SUBMISSION_VALIDATION_FAILURE"
  | ClassUserAuthorizationRequired => "USER_AUTHORIZATION_REQUIRED"
  | ClassTransientProviderError => "TRANSIENT_PROVIDER_ERROR"
  | ClassPermanentProviderRejection => "PERMANENT_PROVIDER_REJECTION"
  | ClassAmbiguousSubmission => "AMBIGUOUS_SUBMISSION"
  | ClassSubmittedPending => "SUBMITTED_PENDING"
  | ClassConfirmedOnchainFailed => "CONFIRMED_ONCHAIN_FAILED"
  | ClassVerifiedSuccess => "VERIFIED_SUCCESS"
  | ClassOther raw => raw
  end.

Definition reason_char (r : Z) : bool := is_upper r || is_digit_byte r || (r =? 95).
Definition validReasonCode (value : string) : bool :=
  if (len value <? 2) || (64 <? len value) then false
  else match value with
       | String a rest => if negb (is_upper (byte_of a)) then false else all_runes reason_char rest
       | EmptyString => false
       end.

Record Outcome := MkOutcome {
  out_Class : Classification; out_ReasonCode : string; out_Reference : Reference; out_ObservedAt : Time;
  out_HasReference : bool
}.

Section outcomes.
Context `{UnicodeTables}.

Definition Outcome_Validate (o : Outcome) : result unit :=
  do! fail_if (negb (Class_Valid (out_Class o))) (errorf "provider outcome classification is invalid");
  do! fail_if (IsZero (out_ObservedAt o)) (errorf "provider outcome observation time is required");
  do! match out_Class o with
      | ClassSubmittedPending | ClassVerifiedSuccess =>
          do! fail_if (out_ReasonCode o != "")
                (errorf1 "provider outcome %s cannot carry a reason code" (Class_string (out_Class o)));
          fail_if (negb (out_HasReference o))
            (errorf1 "provider outcome %s requires a provider reference" (Class_string (out_Class o)))
      | c =>
          fail_if (negb (validReasonCode (out_ReasonCode o)))
            (errorf1 "provider outcome %s requires a safe reason code" (Class_string c))
      end;
  if out_HasReference o then Reference_Validate (out_Reference o) else Ok tt.

Definition encodedReference (o : Outcome) : result string :=
  if negb (out_HasReference o) then Ok "" else Encode (out_Reference o).

Definition AdapterResult (o : Outcome) (executionID : string) : result Result :=
  do! Outcome_Validate o;
  let! reference := encodedReference o in
  let params status code := MkResult executionID RequestVersion status reference code (out_ObservedAt o) in
  match out_Class o with
  | ClassPreSubmissionValidationFailure | ClassPermanentProviderRejection =>
      Err (NewAdapterError AdapterFailurePermanent (out_ReasonCode o))
  | ClassTransientProviderError => Err (NewAdapterError AdapterFailureTransient (out_ReasonCode o))
  | ClassUserAuthorizationRequired | ClassAmbiguousSubmission =>
      NewResult (params StatusRecoveryRequired (out_ReasonCode o))
  | ClassSubmittedPending => NewResult (params StatusSubmitted "")
  | ClassConfirmedOnchainFailed => NewResult (params StatusFailed (out_ReasonCode o))
  | ClassVerifiedSuccess => NewResult (params StatusConfirming "")
  | ClassOther _ => Err (errorf "provider outcome classification is invalid")
  end.

Definition Outcome_VerificationResult (o : Outcome) : result VerificationResult :=
  do! Outcome_Validate o;
  let! reference := encodedReference o in
  match out_Class o with
  | ClassVerifiedSuccess => Ok (MkVerificationResult VerificationVerified reference "" (out_ObservedAt o))
  | ClassConfirmedOnchainFailed =>
      Ok (MkVerificationResult VerificationFailed "" (out_ReasonCode o) (out_ObservedAt o))
  | ClassTransientProviderError => Err (NewVerificationError (out_ReasonCode o))
  | _ =>
      if reference == "" then Err (NewVerificationError (out_ReasonCode o))
      else Ok (MkVerificationResult VerificationPending reference "" (out_ObservedAt o))
  end.
End outcomes.

(** * Receipts (receipt.go) *)
Definition MaxReceiptLogs : Z := 64.
Definition MaxLogTopics : Z := 4.
Definition MaxLogDataBytes : Z := 8192.

(** Byte slices are strings. *)
Record ReceiptLog := MkReceiptLog {
  rlg_Address : string; rlg_Topics : list string; rlg_Data : string; rlg_Index : Z; rlg_HasIndex : bool;
  rlg_TransactionHash : string
}.

Definition ReceiptLog_Validate (l : ReceiptLog) : result unit :=
  do! fail_if (negb (ValidAddress (rlg_Address l))) (errorf "receipt log address is invalid");
  do! fail_if (MaxLogTopics <? Z.of_nat (length (rlg_Topics l))) (errorf "receipt log exceeds max topics");
  do! for_each (fun it => fail_if (len (snd it) != 32)
        (errorf1 "receipt log topic %d is malformed" (FormatUint (Z.of_nat (fst it))))) (imap pair (rlg_Topics l));
  do! fail_if (MaxLogDataBytes <? len (rlg_Data l)) (errorf "receipt log data exceeds max size");
  fail_if ((rlg_TransactionHash l != "") && negb (ValidTransactionHash (rlg_TransactionHash l)))
    (errorf "receipt log transaction hash is invalid").

Definition ValidateLogs (logs : list ReceiptLog) : result unit :=
  do! fail_if (MaxReceiptLogs <? Z.of_nat (length logs))
        (errorf1 "receipt exceeds max logs (%d)" (FormatUint MaxReceiptLogs));
  for_each (fun il => map_err (errorf_wrap "receipt log %d: %w" [FormatUint (Z.of_nat (fst il))])
              (ReceiptLog_Validate (snd il))) (imap pair logs).

Inductive ReceiptStatus : Type :=
  ReceiptUnknown | ReceiptSuccess | ReceiptReverted | ReceiptReorgInconsistent | ReceiptOther (raw : string).
#[global] Instance ReceiptStatus_eq_dec : EqDecision ReceiptStatus.
Proof. solve_decision. Defined.

Record Receipt := MkReceipt {
  rct_Status : ReceiptStatus; rct_ChainID : string; rct_TransactionHash : string; rct_BlockNumber : Z;
  rct_BlockHash : string; rct_Confirmations : Z; rct_Logs : list ReceiptLog;
  rct_HasTransaction : bool; rct_From : string; rct_To : string; rct_Value : string; rct_Input : string
}.

Definition newline : string := of_bytes [10].

Section receipts.
Context `{UnicodeTables} `{FoldTables}.

Definition lower_trim (s : string) : string := ToLower (TrimSpace s).

Definition log_text (l : ReceiptLog) : string :=
  ("a=" +:+ lower_trim (rlg_Address l) +:+ newline)
  +:+ ("t=" +:+ FormatUint (Z.of_nat (length (rlg_Topics l))) +:+ newline)
  +:+ foldr (fun t acc => ("topic:" +:+ t +:+ newline) +:+ acc) "" (rlg_Topics l)
  +:+ ("d=" +:+ FormatUint (len (rlg_Data l)) +:+ newline) +:+ (rlg_Data l +:+ newline)
  +:+ (if rlg_HasIndex l then "i=" +:+ FormatUint (rlg_Index l) +:+ newline else "")
  +:+ (if rlg_TransactionHash l != "" then "h=" +:+ ToLower (rlg_TransactionHash l) +:+ newline else "").

Definition LogFingerprint (logs : list ReceiptLog) : string :=
  match logs with
  | [] => ""
  | _ => sha256_hex (("wzp-receipt-logs-v1" +:+ newline +:+ FormatUint (Z.of_nat (length logs)) +:+ newline)
                     +:+ foldr (fun l acc => log_text l +:+ acc) "" logs)
  end.

Fixpoint LogsEqual (a b : list ReceiptLog) : bool :=
  match a, b with
  | [], [] => true
  | x :: a, y :: b =>
      EqualFold (rlg_Address x) (rlg_Address y) && (rlg_Topics x == rlg_Topics y) && (rlg_Data x == rlg_Data y)
      && LogsEqual a b
  | _, _ => false
  end.

(** * Observations (reorg.go) *)
Record ReceiptObservation := MkObservation {
  obs_ChainID : string; obs_TransactionHash : string; obs_Status : ReceiptStatus; obs_BlockNumber : Z;
  obs_BlockHash : string; obs_Confirmations : Z; obs_Present : bool; obs_Known : bool; obs_LogFingerprint : string
}.

Definition HasInclusion (o : ReceiptObservation) : bool :=
  obs_Known o || obs_Present o || (obs_BlockHash o != "") || (obs_BlockNumber o != 0).

Inductive ReorgSignal : Type :=
  ReorgNone | ReorgReceiptMissing | ReorgBlockHashChanged | ReorgBlockNumberChanged
  | ReorgConfirmationsDecreased | ReorgLogsChanged.
#[global] Instance ReorgSignal_eq_dec : EqDecision ReorgSignal.
Proof. solve_decision. Defined.
Definition Inconsistent (s : ReorgSignal) : bool := s != ReorgNone.

Definition CompareReceiptObservations (prior current : ReceiptObservation) : ReorgSignal :=
  if negb (HasInclusion prior) then ReorgNone
  else if negb (obs_Present current) then (if obs_Present prior then ReorgReceiptMissing else ReorgNone)
  else if (obs_BlockHash prior != "") && (obs_BlockHash current != "")
          && negb (EqualFold (obs_BlockHash prior) (obs_BlockHash current)) then ReorgBlockHashChanged
  else if (obs_BlockNumber prior != 0) && (obs_BlockNumber current != 0)
          && (obs_BlockNumber prior != obs_BlockNumber current) then ReorgBlockNumberChanged
  else if obs_Present prior && (0 <? obs_Confirmations prior) && (obs_Confirmations current <? obs_Confirmations prior)
       then ReorgConfirmationsDecreased
  else if obs_Present prior && obs_Present current && (obs_LogFingerprint prior != "")
          && ((obs_LogFingerprint current == "") || (obs_LogFingerprint prior != obs_LogFingerprint current))
       then ReorgLogsChanged
  else ReorgNone.

Definition MergeObservation (prior current : ReceiptObservation) : ReceiptObservation :=
  let hash := lower_trim (obs_TransactionHash current) in
  if obs_Present current then
    MkObservation (obs_ChainID current) hash (obs_Status current) (obs_BlockNumber current)
      (lower_trim (obs_BlockHash current)) (obs_Confirmations current) true true
      (lower_trim (obs_LogFingerprint current))
  else if HasInclusion prior then
    MkObservation (obs_ChainID current) hash ReceiptUnknown (obs_BlockNumber prior) (obs_BlockHash prior) 0
      false true (obs_LogFingerprint prior)
  else
    MkObservation (obs_ChainID current) hash (obs_Status current) (obs_BlockNumber current)
      (obs_BlockHash current) (obs_Confirmations current) false false (obs_LogFingerprint current).

Definition no_observation : ReceiptObservation := MkObservation "" "" (ReceiptOther "") 0 "" 0 false false "".

(** What a reference carries across a restart (reference.go). *)
Definition Reference_ReceiptObservation (r : Reference) : ReceiptObservation :=
  if negb (ref_ObsKnown r) && negb (ref_ObsPresent r) && (ref_ObsBlockHash r == "") && (ref_ObsBlockNumber r =? 0)
     && (ref_ObsLogFingerprint r == "")
  then no_observation
  else
    MkObservation (ref_ChainID r) (ref_TransactionHash r) (ReceiptOther "") (ref_ObsBlockNumber r)
      (lower_trim (ref_ObsBlockHash r)) (ref_ObsConfirmations r) (ref_ObsPresent r)
      (ref_ObsKnown r || ref_ObsPresent r || (ref_ObsBlockHash r != "") || (ref_ObsBlockNumber r != 0)
       || (ref_ObsLogFingerprint r != ""))
      (lower_trim (ref_ObsLogFingerprint r)).

Definition WithReceiptObservation (r : Reference) (o : ReceiptObservation) : Reference :=
  normalizeObservationMetadata
    (MkReference (ref_Provider r) (ref_ChainID r) (ref_WalletID r) (ref_ChallengeID r) (ref_ProviderTransactionID r)
       (if (ref_TransactionHash r == "") && (obs_TransactionHash o != "")
        then lower_trim (obs_TransactionHash o) else ref_TransactionHash r)
       (obs_Present o)
       (obs_Known o || obs_Present o || (obs_BlockHash o != "") || (obs_BlockNumber o != 0)
        || (obs_LogFingerprint o != ""))
       (lower_trim (obs_BlockHash o)) (obs_BlockNumber o) (obs_Confirmations o)
       (lower_trim (obs_LogFingerprint o))).

(** The tracker: the latest observation of each transaction. *)
Definition observationKey (chainID transactionHash : string) : string :=
  chainID +:+ "|" +:+ lower_trim transactionHash.
Definition Prior (t : gmap string ReceiptObservation) (chainID transactionHash : string) : option ReceiptObservation :=
  t !! observationKey chainID transactionHash.
Definition Remember (t : gmap string ReceiptObservation) (o : ReceiptObservation) : gmap string ReceiptObservation :=
  if (obs_ChainID o == "") || (obs_TransactionHash o == "") then t
  else
    let o := MkObservation (obs_ChainID o) (lower_trim (obs_TransactionHash o)) (obs_Status o) (obs_BlockNumber o)
               (obs_BlockHash o) (obs_Confirmations o) (obs_Present o) (obs_Known o) (obs_LogFingerprint o) in
    <[observationKey (obs_ChainID o) (obs_TransactionHash o) := o]> t.

Definition with_identity (o : ReceiptObservation) (chainID transactionHash : string) : ReceiptObservation :=
  MkObservation chainID transactionHash (obs_Status o) (obs_BlockNumber o) (obs_BlockHash o) (obs_Confirmations o)
    (obs_Present o) (obs_Known o) (obs_LogFingerprint o).

Definition Evaluate (t : gmap string ReceiptObservation) (durablePrior current : ReceiptObservation)
    : ReorgSignal * ReceiptObservation * (gmap string ReceiptObservation) :=
  let current := with_identity current
    (if obs_ChainID current == "" then obs_ChainID durablePrior else obs_ChainID current)
    (if obs_TransactionHash current == "" then obs_TransactionHash durablePrior else obs_TransactionHash current) in
  let prior := match Prior t (obs_ChainID current) (obs_TransactionHash current) with
               | Some o => o | None => durablePrior end in
  let signal := CompareReceiptObservations prior current in
  let merged := MergeObservation prior current in
  let merged := with_identity merged
    (if obs_ChainID merged == "" then obs_ChainID current else obs_ChainID merged)
    (if obs_TransactionHash merged == "" then lower_trim (obs_TransactionHash current) else obs_TransactionHash merged) in
  (signal, merged, Remember t merged).

Definition ObservationFromReceipt (r : Receipt) (present : bool) : ReceiptObservation :=
  MkObservation (rct_ChainID r) (rct_TransactionHash r) (rct_Status r) (rct_BlockNumber r)
    (lower_trim (rct_BlockHash r)) (rct_Confirmations r) present present
    (if present then LogFingerprint (rct_Logs r) else "").

Definition ReasonCodeForReorg (s : ReorgSignal) : string :=
  match s with
  | ReorgReceiptMissing => "ONCHAIN_REORG_RECEIPT_MISSING"
  | ReorgBlockHashChanged => "ONCHAIN_REORG_BLOCK_HASH_CHANGED"
  | ReorgBlockNumberChanged => "ONCHAIN_REORG_BLOCK_NUMBER_CHANGED"
  | ReorgConfirmationsDecreased => "ONCHAIN_REORG_CONFIRMATIONS_DECREASED"
  | ReorgLogsChanged => "ONCHAIN_REORG_LOGS_CHANGED"
  | ReorgNone => "ONCHAIN_REORG_INCONSISTENT"
  end.
End receipts.
Abbreviation ObservationTracker := (gmap string ReceiptObservation).

(** * The verifier (verifier.go) *)
Record VerificationObservation := MkVerificationObservation {
  vo_Result : VerificationResult; vo_Reference : Reference; vo_Receipt : option Receipt; vo_FinalSuccess : bool
}.

Section verifier.
Context `{UnicodeTables} `{FoldTables}.
(** [VerifierConfig] and the clock; the resolver and the chain client. *)
Variable MinConfirmations : Z.
Variable now : Time.
Variable ResolveReference : string -> Reference -> result Reference.
Variable TransactionReceipt : string -> string -> result Receipt.

Definition VerifierConfig_Validate : result unit :=
  fail_if (MinConfirmations <? 1) (errorf "verifier requires at least one confirmation").

Definition resolveHash (executionID : string) (reference : Reference) : result Reference :=
  if ref_TransactionHash reference != "" then Ok reference
  else
    let! resolved := map_err (fun _ => NewVerificationError "PROVIDER_RECONCILIATION_UNAVAILABLE")
                       (ResolveReference executionID reference) in
    do! fail_if ((ref_Provider resolved != ref_Provider reference) || (ref_ChainID resolved != ref_ChainID reference))
          (errorf "resolved provider reference changed provider identity");
    do! fail_if ((ref_ProviderTransactionID reference != "")
                 && (ref_ProviderTransactionID resolved != ref_ProviderTransactionID reference))
          (errorf "resolved provider reference changed the provider transaction");
    do! Reference_Validate resolved;
    Ok resolved.

Definition ensureReceiptMatches (reference : Reference) (receipt : Receipt) : result unit :=
  if rct_Status receipt == ReceiptUnknown then Ok tt
  else
    do! fail_if (rct_ChainID receipt != ref_ChainID reference)
          (errorf "receipt chain does not match the provider reference");
    fail_if (negb (EqualFold (rct_TransactionHash receipt) (ref_TransactionHash reference)))
      (errorf "receipt transaction does not match the provider reference").

Definition pending (reference : Reference) : result VerificationResult :=
  let! encoded := Encode reference in
  Ok (MkVerificationResult VerificationPending encoded "" (UTC now)).

Definition present (receipt : Receipt) : bool :=
  (rct_BlockNumber receipt != 0) || (rct_BlockHash receipt != "")
  || (rct_Status receipt == ReceiptSuccess) || (rct_Status receipt == ReceiptReverted).

(** The observation of one pass, as the tracker sees it. *)
Definition observation (reference : Reference) (receipt : Receipt) : ReceiptObservation :=
  with_identity (ObservationFromReceipt receipt (present receipt)) (ref_ChainID reference) (ref_TransactionHash reference).

(** The final branches: what a consistent receipt means. *)
Definition judge (reference : Reference) (receipt : Receipt) : result VerificationResult :=
  let outcome class code := Outcome_VerificationResult (MkOutcome class code reference (UTC now) true) in
  match rct_Status receipt with
  | ReceiptSuccess =>
      if rct_Confirmations receipt <? MinConfirmations then pending reference
      else outcome ClassVerifiedSuccess ""
  | ReceiptReverted => outcome ClassConfirmedOnchainFailed "ONCHAIN_EXECUTION_REVERTED"
  | _ => pending reference
  end.

(** [FinalSuccess] is set on the branch that reports the verified success. *)
Definition final (receipt : Receipt) : bool :=
  (rct_Status receipt == ReceiptSuccess) && negb (rct_Confirmations receipt <? MinConfirmations).

(** The answer, with the tracker that the pass leaves behind. *)
Definition VerifyObservation (t : ObservationTracker) (executionID encoded : string)
    : result VerificationObservation * ObservationTracker :=
  match (let! reference := ParseReference encoded in resolveHash executionID reference) with
  | Err err => (Err err, t)
  | Ok reference =>
      if ref_TransactionHash reference == "" then
        ((let! r := pending reference in Ok (MkVerificationObservation r reference None false)), t)
      else
        match (let! receipt := map_err (fun _ => NewVerificationError "CHAIN_VERIFICATION_UNAVAILABLE")
                                 (TransactionReceipt (ref_ChainID reference) (ref_TransactionHash reference)) in
               do! ensureReceiptMatches reference receipt; Ok receipt) with
        | Err err => (Err err, t)
        | Ok receipt =>
            let '(signal, merged, t) :=
              Evaluate t (Reference_ReceiptObservation reference) (observation reference receipt) in
            let reference := WithReceiptObservation reference merged in
            if Inconsistent signal || (rct_Status receipt == ReceiptReorgInconsistent) then
              ((let! r := pending reference in Ok (MkVerificationObservation r reference (Some receipt) false)), t)
            else
              ((let! r := judge reference receipt in
                Ok (MkVerificationObservation r reference (Some receipt) (final receipt))), t)
        end
  end.

Definition Verify (t : ObservationTracker) (executionID encoded : string)
    : result VerificationResult * ObservationTracker :=
  let '(r, t) := VerifyObservation t executionID encoded in ((let! o := r in Ok (vo_Result o)), t).
End verifier.

(** store.go: the newest reference of the stored evidence; an unreadable one
    is an error, never an absence. *)
Section store.
Context `{UnicodeTables}.

Fixpoint newest (references : list string) : result (option Reference) :=
  match references with
  | [] => Ok None
  | encoded :: older =>
      if encoded == "" then newest older
      else let! reference := ParseReference encoded in Ok (Some reference)
  end.
Definition LatestReference (records : result (list Result)) : result (option Reference) :=
  let! records := records in newest (res_adapterReference <$> reverse records).
End store.

(** * Fingerprints *)
Lemma EncodeToString_lower_hex l :
  Forall (fun b => 0 <= b < 256) l -> all_runes is_lower_hex (EncodeToString l) = true.
Proof.
  intros Hl. rewrite all_runes_bytes by apply ascii_only_lower_hex. rewrite EncodeToString_bytes by done.
  assert (forall d, 0 <= d < 16 -> is_lower_hex (hex_digit d) = true) as Hd.
  { intros d Hd. unfold hex_digit, is_lower_hex, is_digit_byte, byte_in.
    destruct (d <? 10) eqn:E; reflect_all; apply orb_true_iff; rewrite !andb_true_iff, !Z.leb_le; lia. }
  induction Hl as [|b l Hb _ IH]; cbn; [done|]. rewrite !Hd, IH; [done|..].
  all: pose proof (Z.mod_pos_bound b 16); pose proof (Z.div_mod b 16); lia.
Qed.

Section evidence.
Context `{UnicodeTables} `{FoldTables}.

Lemma LogFingerprint_text logs : fingerprint_text (LogFingerprint logs).
Proof.
  unfold LogFingerprint. destruct logs as [|l logs]; [by left|right].
  set (text := _ +:+ _). unfold validLogFingerprint, lowerHex, len.
  rewrite sha256_hex_length. cbn. apply EncodeToString_lower_hex, Sum256_range.
Qed.

(** * Only a receipt verifies *)
Lemma outcome_result o r :
  Outcome_VerificationResult o = Ok r ->
  match out_Class o with
  | ClassVerifiedSuccess =>
      vr_Outcome r = VerificationVerified /\ Encode (out_Reference o) = Ok (vr_Reference r)
  | ClassConfirmedOnchainFailed => vr_Outcome r = VerificationFailed /\ vr_Reference r = ""
  | _ => vr_Outcome r = VerificationPending
  end.
Proof.
  unfold Outcome_VerificationResult, encodedReference. intros Hok.
  apply rbind_ok in Hok as ([] & Hv & Hok). apply rbind_ok in Hok as (s & Hs & Hok).
  unfold Outcome_Validate in Hv. destruct o as [class code ref at_ has]; cbn in *. destruct class; ok_inv; cbn; try done.
  all: first [by destruct (s == ""); ok_inv | by destruct has].
Qed.

Lemma pending_ok now reference r :
  pending now reference = Ok r -> vr_Outcome r = VerificationPending /\ Encode reference = Ok (vr_Reference r).
Proof. unfold pending. intros Hok. by ok_inv. Qed.

Lemma judge_ok minimum now reference receipt r :
  judge minimum now reference receipt = Ok r ->
  match vr_Outcome r with
  | VerificationVerified =>
      rct_Status receipt = ReceiptSuccess /\ minimum <= rct_Confirmations receipt /\
      final minimum receipt = true /\ Encode reference = Ok (vr_Reference r)
  | VerificationFailed => rct_Status receipt = ReceiptReverted /\ final minimum receipt = false
  | VerificationPending => final minimum receipt = false
  | OutcomeOther _ => False
  end.
Proof.
  unfold judge, final. intros Hok. destruct (rct_Status receipt) eqn:Es;
    try (apply pending_ok in Hok as [-> _]; done).
  - destruct (rct_Confirmations receipt <? minimum) eqn:E.
    + by apply pending_ok in Hok as [-> _].
    + apply outcome_result in Hok as [-> He]. reflect_all. cbn in He. done.
  - by apply outcome_result in Hok as [-> He].
Qed.

Lemma resolveHash_ok resolve id reference r :
  resolveHash resolve id reference = Ok r ->
  ref_TransactionHash reference <> "" /\ r = reference \/
  ref_TransactionHash reference = "" /\ resolve id reference = Ok r /\ Reference_Validate r = Ok tt /\
  ref_Provider r = ref_Provider reference /\ ref_ChainID r = ref_ChainID reference /\
  (ref_ProviderTransactionID reference <> "" -> ref_ProviderTransactionID r = ref_ProviderTransactionID reference).
Proof.
  unfold resolveHash. destruct (ref_TransactionHash reference != "") eqn:E; reflect_all; [naive_solver|].
  intros Hok. right. apply rbind_ok in Hok as (r' & Hr & Hok). apply map_err_ok in Hr.
  ok_reflect. match goal with E : (_ && _)%bool = false |- _ => apply andb_false_iff in E as [E|E] end; reflect_all; naive_solver.
Qed.

(** The prior observation of a pass: memory first, then the reference. *)
Definition prior_of (t : ObservationTracker) (durable current : ReceiptObservation) : ReceiptObservation :=
  match Prior t (obs_ChainID current) (obs_TransactionHash current) with Some o => o | None => durable end.

Lemma Evaluate_signal t durable current :
  obs_ChainID current <> "" -> obs_TransactionHash current <> "" ->
  fst (fst (Evaluate t durable current)) = CompareReceiptObservations (prior_of t durable current) current.
Proof.
  intros Hc Hh. unfold Evaluate, prior_of. destruct current as [chain hash st bn bh cf p k fp]. cbn in *.
  by rewrite !(proj2 (eqb_spec_false _ _)) by done.
Qed.

(** The answer of one pass. *)
Lemma VerifyObservation_ok (minimum : Z) (now : Time)
    (resolve : string -> Reference -> result Reference) (chain : string -> string -> result Receipt)
    (t t' : ObservationTracker) (id encoded : string) (o : VerificationObservation)
    (Hok : VerifyObservation minimum now resolve chain t id encoded = (Ok o, t')) :
  (vo_FinalSuccess o = true <-> vr_Outcome (vo_Result o) = VerificationVerified) /\
  (vr_Outcome (vo_Result o) = VerificationVerified \/ vr_Outcome (vo_Result o) = VerificationFailed ->
   exists reference receipt,
     (let! r := ParseReference encoded in resolveHash resolve id r) = Ok reference /\
     ref_TransactionHash reference <> "" /\
     chain (ref_ChainID reference) (ref_TransactionHash reference) = Ok receipt /\
     vo_Receipt o = Some receipt /\ rct_ChainID receipt = ref_ChainID reference /\
     EqualFold (rct_TransactionHash receipt) (ref_TransactionHash reference) = true /\
     (ref_ChainID reference <> "" ->
      CompareReceiptObservations
        (prior_of t (Reference_ReceiptObservation reference) (observation reference receipt))
        (observation reference receipt) = ReorgNone) /\
     (vr_Outcome (vo_Result o) = VerificationVerified ->
        rct_Status receipt = ReceiptSuccess /\ minimum <= rct_Confirmations receipt /\
        Encode (vo_Reference o) = Ok (vr_Reference (vo_Result o))) /\
     (vr_Outcome (vo_Result o) = VerificationFailed -> rct_Status receipt = ReceiptReverted)).
Proof.
  unfold VerifyObservation in Hok. destruct (rbind _ _) as [reference|e] eqn:Href; [|done].
  destruct (ref_TransactionHash reference == "") eqn:Eh; reflect_all.
  { apply (f_equal fst) in Hok. cbn in Hok. apply rbind_ok in Hok as (r & Hp & [= <-]). cbn.
    apply pending_ok in Hp as [-> _]. split; [done|]. by intros [|]. }
  destruct (rbind (map_err _ _) _) as [receipt|e] eqn:Hrec; [|done].
  apply rbind_ok in Hrec as (rc & Hc & Hm). apply map_err_ok in Hc. apply rbind_ok in Hm as ([] & Hm & [= ->]).
  destruct (Evaluate _ _ _) as [[signal merged] t1] eqn:Ev.
  assert (ref_ChainID reference <> "" -> signal = CompareReceiptObservations
    (prior_of t (Reference_ReceiptObservation reference) (observation reference receipt)) (observation reference receipt)) as Hsig.
  { intros Hne. rewrite <- Evaluate_signal by done. by rewrite Ev. }
  destruct (Inconsistent signal || _) eqn:Ei.
  { apply (f_equal fst) in Hok. cbn in Hok. apply rbind_ok in Hok as (r & Hp & [= <-]). cbn.
    apply pending_ok in Hp as [-> _]. split; [done|]. by intros [|]. }
  apply (f_equal fst) in Hok. cbn in Hok. apply rbind_ok in Hok as (r & Hj & [= <-]). cbn [vo_Result vo_FinalSuccess vo_Receipt vo_Reference].
  apply judge_ok in Hj. split; [destruct (vr_Outcome r); destruct_and?; split; intros; congruence || done|]. intros Hout. exists reference, receipt.
  apply orb_false_iff in Ei as [Ei _]. unfold Inconsistent in Ei. reflect_all.
  assert (rct_Status receipt <> ReceiptUnknown) as Hst
    by (destruct Hout as [Hout|Hout]; rewrite Hout in Hj; destruct_and?; congruence).
  unfold ensureReceiptMatches in Hm. rewrite (proj2 (eqb_spec_false _ _) Hst) in Hm. ok_reflect.
  split_and!; try done; try congruence.
  - intros Hne. rewrite <- Hsig by done. done.
  - intros E. rewrite E in Hj. tauto.
  - intros E. rewrite E in Hj. tauto.
Qed.

(** [C31] Only the chain verifies: an execution is reported VERIFIED exactly
    when the chain client returned, for the chain and the transaction the
    persisted (or resolved) reference names, a SUCCESS receipt with at least
    the configured confirmations that does not contradict the last observation
    of that transaction; it is reported FAILED only for a REVERTED receipt; and
    the reference stored with a verified result is one the parser reads back.
    No provider answer alone verifies or fails an execution. *)
Theorem verified_only_by_receipt (minimum : Z) (now : Time)
    (resolve : string -> Reference -> result Reference) (chain : string -> string -> result Receipt)
    (t t' : ObservationTracker) (id encoded : string) (o : VerificationObservation)
    (Hok : VerifyObservation minimum now resolve chain t id encoded = (Ok o, t')) :
  (vo_FinalSuccess o = true <-> vr_Outcome (vo_Result o) = VerificationVerified) /\
  (vr_Outcome (vo_Result o) = VerificationVerified \/ vr_Outcome (vo_Result o) = VerificationFailed ->
   exists reference receipt,
     (let! r := ParseReference encoded in resolveHash resolve id r) = Ok reference /\
     ref_TransactionHash reference <> "" /\
     chain (ref_ChainID reference) (ref_TransactionHash reference) = Ok receipt /\
     vo_Receipt o = Some receipt /\ rct_ChainID receipt = ref_ChainID reference /\
     EqualFold (rct_TransactionHash receipt) (ref_TransactionHash reference) = true /\
     (ref_ChainID reference <> "" ->
      CompareReceiptObservations
        (prior_of t (Reference_ReceiptObservation reference) (observation reference receipt))
        (observation reference receipt) = ReorgNone) /\
     (vr_Outcome (vo_Result o) = VerificationVerified ->
        rct_Status receipt = ReceiptSuccess /\ minimum <= rct_Confirmations receipt /\
        Encode (vo_Reference o) = Ok (vr_Reference (vo_Result o))) /\
     (vr_Outcome (vo_Result o) = VerificationFailed -> rct_Status receipt = ReceiptReverted)).
Proof. exact (VerifyObservation_ok minimum now resolve chain t t' id encoded o Hok). Qed.

(** * Observations survive a restart *)
(** What a comparison and a merge look at in the prior observation. *)
Definition same_prior (a b : ReceiptObservation) : Prop :=
  HasInclusion a = HasInclusion b /\
  (HasInclusion a = true ->
   obs_Present a = obs_Present b /\ obs_BlockHash a = obs_BlockHash b /\ obs_BlockNumber a = obs_BlockNumber b /\
   obs_Confirmations a = obs_Confirmations b /\ obs_LogFingerprint a = obs_LogFingerprint b).

Lemma compare_same_prior a b current :
  same_prior a b -> CompareReceiptObservations a current = CompareReceiptObservations b current.
Proof.
  intros [Hi Hs]. unfold CompareReceiptObservations. rewrite <- Hi. destruct (HasInclusion a); [|done].
  destruct Hs as (-> & -> & -> & -> & ->); done.
Qed.

Lemma merge_same_prior a b current : same_prior a b -> MergeObservation a current = MergeObservation b current.
Proof.
  intros [Hi Hs]. unfold MergeObservation. rewrite <- Hi. destruct (obs_Present current), (HasInclusion a); try done.
  destruct Hs as (_ & -> & -> & _ & ->); done.
Qed.

(** Observations whose texts are hashes and whose counters are [uint64]. *)
Definition typed (o : ReceiptObservation) : Prop :=
  hash_text (obs_BlockHash o) /\ fingerprint_text (obs_LogFingerprint o) /\
  is_u64 (obs_BlockNumber o) /\ is_u64 (obs_Confirmations o) /\
  (HasInclusion o = false -> obs_LogFingerprint o = "").
Definition typed_receipt (r : Receipt) : Prop :=
  hash_text (rct_BlockHash r) /\ is_u64 (rct_BlockNumber r) /\ is_u64 (rct_Confirmations r).

Lemma lower_trim_hash s : hash_text s -> lower_trim s = s.
Proof. intros Hs%hash_text_runes%hash_runes_stable. unfold lower_trim. destruct Hs as [E1 E2]. by rewrite E2. Qed.
Lemma lower_trim_hash' s : hash_text s -> ToLower (TrimSpace s) = s.
Proof. apply lower_trim_hash. Qed.
Lemma lower_trim_fingerprint s : fingerprint_text s -> lower_trim s = s.
Proof.
  intros Hs%fingerprint_text_runes%hash_runes_stable. unfold lower_trim. destruct Hs as [E1 E2]. by rewrite E2.
Qed.

Lemma observation_typed reference receipt :
  typed_receipt receipt -> typed (observation reference receipt).
Proof.
  intros (Hh & Hn & Hc). unfold observation, with_identity, ObservationFromReceipt, typed, HasInclusion. cbn.
  rewrite lower_trim_hash by done. split_and!; try done; destruct (present receipt); try done;
    apply LogFingerprint_text || by left.
Qed.

Lemma merge_typed prior current :
  typed prior -> typed current -> obs_Known current = obs_Present current -> typed (MergeObservation prior current).
Proof.
  unfold typed. intros (P1 & P2 & P3 & P4 & P5) (C1 & C2 & C3 & C4 & C5) Hk. unfold MergeObservation.
  destruct (obs_Present current) eqn:Ep; [|destruct (HasInclusion prior) eqn:Ei]; unfold HasInclusion in *; cbn;
    rewrite ?lower_trim_hash, ?lower_trim_fingerprint by done; split_and!; try done.
  intros Hi. apply C5. by rewrite Ep, Hk.
Qed.

(** The reference written after a pass carries the observation of the pass. *)
Lemma durable_same_prior r m :
  typed m -> same_prior m (Reference_ReceiptObservation (WithReceiptObservation r m)).
Proof.
  intros (Hh & Hf & _ & _ & Hi). unfold same_prior, Reference_ReceiptObservation, WithReceiptObservation, normalizeObservationMetadata.
  destruct m as [chain hash st bn bh cf p k fp]. unfold HasInclusion in *.
  cbn [obs_ChainID obs_TransactionHash obs_Status obs_BlockNumber obs_BlockHash obs_Confirmations obs_Present obs_Known obs_LogFingerprint
       ref_ObsPresent ref_ObsKnown ref_ObsBlockHash ref_ObsBlockNumber ref_ObsConfirmations ref_ObsLogFingerprint
       ref_ChainID ref_TransactionHash] in *.
  rewrite ?(lower_trim_hash bh Hh), ?(lower_trim_fingerprint fp Hf), ?(lower_trim_hash' bh Hh).
  fold (lower_trim fp). rewrite ?(lower_trim_fingerprint fp Hf).
  assert ((if bh != "" || bn != 0 then bh else bh) = bh) as -> by by case_match.
  assert ((if fp != "" then fp else fp) = fp) as -> by by case_match.
  rewrite (lower_trim_hash bh Hh), (lower_trim_fingerprint fp Hf).
  assert ((bn =? 0) = bool_decide (bn = 0)) as ->.
  { clear. destruct (decide (bn = 0)) as [->|Hn]; [done|]. rewrite bool_decide_eq_false_2 by done. by apply Z.eqb_neq. }
  destruct (bool_decide (bh = "")) eqn:E1, (bool_decide (bn = 0)) eqn:E2, (bool_decide (fp = "")) eqn:E3, k, p;
    cbn; reflect_all; subst; try done.
  by specialize (Hi eq_refl).
Qed.

Lemma WithReceiptObservation_texts r m :
  typed m ->
  let w := WithReceiptObservation r m in
  ref_ObsBlockHash w = obs_BlockHash m /\ ref_ObsLogFingerprint w = obs_LogFingerprint m /\
  normalizeObservationMetadata w = w.
Proof.
  intros (Hh & Hf & _). cbn zeta.
  assert (ref_ObsBlockHash (WithReceiptObservation r m) = obs_BlockHash m /\
          ref_ObsLogFingerprint (WithReceiptObservation r m) = obs_LogFingerprint m) as [E1 E2].
  { unfold WithReceiptObservation, normalizeObservationMetadata.
    cbn [ref_ObsBlockHash ref_ObsLogFingerprint ref_ObsBlockNumber].
    rewrite (lower_trim_hash _ Hh), (lower_trim_fingerprint _ Hf), (lower_trim_hash' _ Hh).
    fold (lower_trim (obs_LogFingerprint m)). rewrite (lower_trim_fingerprint _ Hf). split; by case_match. }
  split_and!; [done..|]. apply normalize_stable; fold (WithReceiptObservation r m); by rewrite ?E1, ?E2.
Qed.

Lemma Evaluate_merged t durable current :
  obs_ChainID current <> "" -> obs_TransactionHash current <> "" -> lower_trim (obs_TransactionHash current) <> "" ->
  snd (fst (Evaluate t durable current)) = MergeObservation (prior_of t durable current) current /\
  snd (Evaluate t durable current) = Remember t (MergeObservation (prior_of t durable current) current).
Proof.
  intros Hc Hh Hl. unfold Evaluate, prior_of. destruct current as [chain hash st bn bh cf p k fp]. cbn in *.
  rewrite !(proj2 (eqb_spec_false chain _)), !(proj2 (eqb_spec_false hash _)) by done. cbn.
  set (m := MergeObservation _ _).
  assert (obs_ChainID m = chain /\ obs_TransactionHash m = lower_trim hash) as [E1 E2].
  { unfold m, MergeObservation. cbn. by destruct p; [|destruct (HasInclusion _)]. }
  rewrite E1, E2, !(proj2 (eqb_spec_false chain _)), !(proj2 (eqb_spec_false (lower_trim hash) _)) by done.
  assert (with_identity m chain (lower_trim hash) = m) as -> by (unfold with_identity; rewrite <- E1, <- E2; by destruct m).
  done.
Qed.

Definition tracker_typed (t : ObservationTracker) : Prop := map_Forall (fun _ o => typed o) t.

(** Observation integrity does not depend on the worker's memory: after a
    pass over a transaction, the reference that the pass persists carries
    enough that a worker restarted with an empty tracker — which knows only the
    parsed reference — raises the same signal, and merges to the same
    observation, for every later receipt as the worker that remembers. *)
Theorem restart_keeps_observations (t : ObservationTracker) (reference reference' : Reference)
    (receipt : Receipt) (s : string) (current : ReceiptObservation)
    (Ht : tracker_typed t) (Hd : typed (Reference_ReceiptObservation reference)) (Hr : typed_receipt receipt)
    (Hc : ref_ChainID reference <> "") (Hh : ValidTransactionHash (ref_TransactionHash reference) = true)
    (Hs : Encode (WithReceiptObservation reference
            (snd (fst (Evaluate t (Reference_ReceiptObservation reference) (observation reference receipt))))) = Ok s)
    (Hp : ParseReference s = Ok reference')
    (Hcur : obs_ChainID current = ref_ChainID reference /\ obs_TransactionHash current = ref_TransactionHash reference) :
  let after := snd (Evaluate t (Reference_ReceiptObservation reference) (observation reference receipt)) in
  let durable := Reference_ReceiptObservation reference' in
  fst (Evaluate after durable current) = fst (Evaluate ∅ durable current).
Proof.
  assert (ref_TransactionHash reference <> "") as Hne by (intros E; rewrite E in Hh; done).
  assert (lower_trim (ref_TransactionHash reference) = ref_TransactionHash reference) as Hlow by (apply lower_trim_hash; by right).
  set (cur0 := observation reference receipt) in *. set (dur0 := Reference_ReceiptObservation reference) in *.
  destruct (Evaluate_merged t dur0 cur0 Hc Hne) as [Em Et]; [intros E; apply Hne; rewrite <- Hlow; exact E|].
  set (m := MergeObservation (prior_of t dur0 cur0) cur0) in *. rewrite Em in Hs. cbn zeta. rewrite Et.
  assert (typed m) as Hm.
  { apply merge_typed; [|by apply observation_typed|done]. unfold prior_of, Prior.
    destruct (t !! _) as [o|] eqn:El; [|done]. exact (Ht _ _ El). }
  assert (reference' = WithReceiptObservation reference m) as ->.
  { pose proof Hm as (_ & _ & Hmn & Hmc & _). set (w := WithReceiptObservation reference m) in *.
    assert (normalizeObservationMetadata w = w) as Hw by by apply WithReceiptObservation_texts.
    destruct (Encode_Parse w s) as [Hrt _]; [done..|]. rewrite Hw in Hrt. congruence. }
  assert (same_prior m (Reference_ReceiptObservation (WithReceiptObservation reference m))) as Hsame by by apply durable_same_prior.
  set (durable := Reference_ReceiptObservation (WithReceiptObservation reference m)) in *. destruct Hcur as [Ec Eh].
  assert (obs_ChainID m = ref_ChainID reference /\ obs_TransactionHash m = ref_TransactionHash reference) as [E1 E2].
  { split; unfold m, MergeObservation; repeat case_match; try done; exact Hlow. }
  assert (prior_of (Remember t m) durable current = m) as E3.
  { unfold prior_of, Prior, Remember, observationKey. rewrite Ec, Eh, E1, E2, !(proj2 (eqb_spec_false _ _)) by done.
    cbn [orb obs_ChainID obs_TransactionHash]. rewrite !Hlow, lookup_insert_eq. clear -E1 E2. destruct m. cbn in *. by subst. }
  assert (prior_of ∅ durable current = durable) as E4 by done.
  assert (forall t, fst (Evaluate t durable current)
    = (CompareReceiptObservations (prior_of t durable current) current, MergeObservation (prior_of t durable current) current)) as Hev.
  { intros t0. rewrite (surjective_pairing (fst (Evaluate t0 durable current))).
    rewrite Evaluate_signal by congruence. f_equal. apply Evaluate_merged; rewrite ?Eh, ?Hlow; congruence. }
  rewrite !Hev, E3, E4. by rewrite (compare_same_prior _ _ _ Hsame), (merge_same_prior _ _ _ Hsame).
Qed.
End evidence.

(** * The adapter contract *)
Section adapter_contract.
Context `{UnicodeTables}.

(** Errors of validation and encoding carry no adapter verdict. *)
Definition plain_error (e : error) : Prop := exists f a w, e = Errorf f a w.
Lemma errorf_plain f : plain_error (errorf f). Proof. unfold plain_error, errorf. eauto. Qed.
Lemma errorf1_plain f a : plain_error (errorf1 f a). Proof. unfold plain_error, errorf1. eauto. Qed.
#[local] Hint Resolve errorf_plain errorf1_plain : core.

Lemma fail_if_err (b : bool) (e e' : error) : fail_if b e = Err e' -> e' = e.
Proof. destruct b; cbn; congruence. Qed.

Ltac plain_errors :=
  repeat match goal with
  | E : rbind ?m _ = Err _ |- _ => apply rbind_err in E as [E|(? & _ & E)]
  | E : fail_if _ _ = Err _ |- _ => apply fail_if_err in E; subst
  | E : (if ?b then _ else _) = Err _ |- _ => destruct b
  | E : Ok _ = Err _ |- _ => discriminate
  | E : Err _ = Err _ |- _ => injection E as <-
  end; auto.

Lemma Reference_Validate_plain r e : Reference_Validate r = Err e -> plain_error e.
Proof.
  unfold Reference_Validate, validateObservationMetadata, identifier_ok. cbn [for_each fst snd]. intros He. plain_errors.
Qed.

Lemma encodedReference_plain o e : encodedReference o = Err e -> plain_error e.
Proof.
  unfold encodedReference, Encode. intros He. destruct (negb _); [done|].
  apply rbind_err in He as [He|(? & _ & He)]; [by eapply Reference_Validate_plain|]. plain_errors.
Qed.

Lemma Outcome_Validate_plain o e : Outcome_Validate o = Err e -> plain_error e.
Proof.
  unfold Outcome_Validate. intros He.
  apply rbind_err in He as [He|(? & _ & He)]; [by plain_errors|].
  apply rbind_err in He as [He|(? & _ & He)]; [by plain_errors|].
  apply rbind_err in He as [He|(? & _ & He)]; [destruct (out_Class o); by plain_errors|].
  destruct (out_HasReference o); [by eapply Reference_Validate_plain|done].
Qed.

Lemma NewResult_status p r : NewResult p = Ok r -> res_status r = res_status p.
Proof. unfold NewResult. intros Hok. ok_inv. done. Qed.

(** A result error is an application error. *)
Lemma NewResult_err p e : NewResult p = Err e -> forall kind code, e <> NewAdapterError kind code.
Proof.
  unfold NewResult, Result_Validate, map_err, invalidExecution. intros He kind code ->.
  repeat first
    [ match goal with
      | E : rbind ?m _ = Err _ |- _ => apply rbind_err in E as [E|(? & _ & E)]
      | E : fail_if _ _ = Err _ |- _ => apply fail_if_err in E
      end
    | progress case_match | discriminate ].
Qed.

(** What a provider outcome may become: an adapter never reports
    VERIFIED, CONFIRMED or COMPLETED, it reports FAILED only for a transaction
    the chain confirmed as failed, and it reports a permanent failure — the
    verdict that ends an execution — only for outcomes that rule out that
    anything was submitted; every outcome that may have been submitted stays
    open for reconciliation. *)
Theorem adapter_outcomes_safe (o : Outcome) (id : string) :
  (forall r, AdapterResult o id = Ok r ->
     (res_status r = StatusSubmitted \/ res_status r = StatusConfirming \/ res_status r = StatusRecoveryRequired \/
      res_status r = StatusFailed /\ out_Class o = ClassConfirmedOnchainFailed) /\
     (out_Class o = ClassVerifiedSuccess -> res_status r = StatusConfirming)) /\
  (forall code, AdapterResult o id = Err (NewAdapterError AdapterFailurePermanent code) ->
     ReconciliationOnly (out_Class o) = false) /\
  (forall r, ReconciliationOnly (out_Class o) = false -> AdapterResult o id <> Ok r).
Proof.
  unfold AdapterResult. split_and!.
  - intros r Hok. apply rbind_ok in Hok as ([] & _ & Hok). apply rbind_ok in Hok as (s & _ & Hok).
    destruct (out_Class o); try done; apply NewResult_status in Hok; rewrite Hok; cbn; naive_solver.
  - intros code He. apply rbind_err in He as [He|([] & _ & He)].
    { apply Outcome_Validate_plain in He as (? & ? & ? & He). discriminate. }
    apply rbind_err in He as [He|(s & _ & He)].
    { apply encodedReference_plain in He as (? & ? & ? & He). discriminate. }
    destruct (out_Class o); try done; by destruct (NewResult_err _ _ He _ _ eq_refl).
  - intros r Hc Hok. apply rbind_ok in Hok as ([] & _ & Hok). apply rbind_ok in Hok as (s & _ & Hok).
    by destruct (out_Class o).
Qed.
End adapter_contract.

Module EvidenceSamples.
Import ReferenceSamples.
#[local] Existing Instance tables.
#[local] Instance folds : FoldTables := fun _ _ => false.
Definition now : Time := of_unix 1780000000.
Definition block : string := "0x00000000000000000000000000000000000000000000000000000000000000aa".
Definition receipt (confirmations : Z) : Receipt :=
  MkReceipt ReceiptSuccess "5042" hash 1204 block confirmations [] false "" "" "" "".
Definition unseen : Reference :=
  MkReference ProviderCircleUserControlled "5042" "wallet-1" "challenge-1" "" hash false false "" 0 0 "".
Definition line : string := Eval vm_compute in match Encode unseen with Ok s => s | Err _ => "" end.
Definition no_resolver (_ : string) (r : Reference) : result Reference := Err (errorf "unused").
Definition chain (confirmations : Z) (_ _ : string) : result Receipt := Ok (receipt confirmations).
Definition pass (confirmations : Z) (line : string) (t : ObservationTracker) :=
  VerifyObservation 1 now no_resolver (chain confirmations) t "execution-1" line.
Definition blank : VerificationObservation :=
  MkVerificationObservation (MkVerificationResult (OutcomeOther "") "" "" 0) no_reference None false.
Definition get (r : result VerificationObservation) : VerificationObservation := match r with Ok o => o | Err _ => blank end.
Definition first_pass : VerificationObservation := Eval vm_compute in get (fst (pass 3 line ∅)).

Definition remembered : ObservationTracker := Eval vm_compute in snd (pass 3 line ∅).

Lemma verified_only_by_receipt_witness : vr_Outcome (vo_Result first_pass) = VerificationVerified.
Proof.
  refine (proj1 (proj1 (verified_only_by_receipt 1 now no_resolver (chain 3) ∅ remembered
    "execution-1" line first_pass _)) eq_refl).
  vm_compute. reflexivity.
Defined.

Definition next : ReceiptObservation := with_identity (ObservationFromReceipt (receipt 2) true) "5042" hash.
Definition stored : string := vr_Reference (vo_Result first_pass).
Definition parsed : Reference := Eval vm_compute in match ParseReference stored with Ok r => r | Err _ => no_reference end.
Definition after : ObservationTracker :=
  snd (Evaluate ∅ (Reference_ReceiptObservation unseen) (observation unseen (receipt 3))).

(** The restarted worker notices that confirmations went down. *)
Lemma restart_keeps_observations_witness :
  fst (Evaluate after (Reference_ReceiptObservation parsed) next)
  = fst (Evaluate ∅ (Reference_ReceiptObservation parsed) next).
Proof.
  refine (restart_keeps_observations ∅ unseen parsed (receipt 3) stored next _ _ _ _ _ _ _ _).
  - intros k o Hk. rewrite lookup_empty in Hk. discriminate Hk.
  - unfold typed. split_and!; try (by left); vm_compute; done.
  - unfold typed_receipt. split_and!; [right; vm_compute; reflexivity|split; vm_compute; done..].
  - discriminate.
  - vm_compute. reflexivity.
  - vm_compute. reflexivity.
  - vm_compute. reflexivity.
  - split; vm_compute; reflexivity.
Defined.
End EvidenceSamples.
