(* ===== verification/Deployments.v ===== *)
(** internal/contracts: the reviewed contract deployments (deployment.go,
    allowlists.go, defaults.go), the in-process registry of them (registry.go)
    and the sealed calls that only a registered deployment can produce.

    A byte slice is a string of its bytes.  go-ethereum's addresses and the
    Keccak hash are parameters. *)
From S2P Require Import Prelude GoStrings GoText Sha256 AppErrors Contracts.
Open Scope string_scope.
Open Scope Z_scope.
Open Scope go_scope.

(** * go-ethereum's common.Address and sha3 *)
(** [HexToAddress], [Address.Hex] and the Keccak-256 hash; an address is its
    twenty bytes. *)
Class EthCrypto := {
  HexToAddress : string -> string;
  AddressHex : string -> string;
  Keccak256 : string -> string
}.

(** Their documented behaviour: [Hex] writes the 0x-prefixed digits in some
    mixture of cases, [HexToAddress] reads the digits of a valid address. *)
Class EthCryptoSpec `{EthCommon} `{UnicodeTables} `{EthCrypto} : Prop := {
  AddressHex_valid a : len a = 20 -> ValidAddress (AddressHex a) = true;
  AddressHex_lower a : len a = 20 -> ToLower (AddressHex a) = "0x" +:+ EncodeToString (bytes a);
  HexToAddress_len s : len (HexToAddress s) = 20;
  HexToAddress_digits s : ValidAddress s = true -> "0x" +:+ EncodeToString (bytes (HexToAddress s)) = ToLower s;
  Keccak256_len s : len (Keccak256 s) = 32
}.

(** * Text helpers *)
Section text.
Context `{EthCommon} `{UnicodeTables} `{EthCrypto}.

Definition validateSafeText (name value : string) : result unit :=
  do! fail_if ((value == "") || (TrimSpace value != value)) (errorf1 "%s must be non-empty trimmed text" name);
  do! fail_if (256 <? len value) (errorf1 "%s exceeds 256 characters" name);
  fail_if (existsb (fun r => (r <? 0x20) || (r =? 0x7f)) (runes value)) (errorf1 "%s contains control characters" name).

Definition validateUniqueStrings (values : list string) (name : string) : result unit :=
  let! _ := fold_result (fun (seen : gset string) value =>
    do! fail_if ((TrimSpace value == "") || (TrimSpace value != value)) (errorf2 "invalid %s %q" name value);
    do! fail_if (bool_decide (value ∈ seen)) (errorf2 "duplicate %s %q" name value);
    Ok ({[value]} ∪ seen)) ∅ values in
  Ok tt.

Definition ChecksumAddress (value : string) : string :=
  let value := TrimSpace value in
  if negb (ValidAddress value) then value else AddressHex (HexToAddress value).

Definition Selector4 (signature : string) : string := first_bytes 4 (Keccak256 signature).
Definition EventTopic0 (signature : string) : string := Keccak256 signature.
End text.

(** * Allowlists (allowlists.go) *)
Definition canonicalPayrollExecution : list string :=
  ["executeCrossTokenPayroll(address,address,address[],uint256[],uint256,uint256,uint256,uint256,string)";
   "executeSameTokenPayroll(address,address[],uint256[],string)"].
Definition canonicalPayrollReads : list string :=
  ["ARC_MAINNET_CHAIN_ID()"; "ARC_MAINNET_POOL_FEE()"; "ARC_MAINNET_POOL_TICK_SPACING()"; "ARC_NATIVE_USDC_SCALE()";
   "EURC()"; "MAX_BATCH_SIZE()"; "MAX_DEADLINE_WINDOW()"; "MAX_FEE_BPS()"; "MAX_REFERENCE_ID_LENGTH()"; "USDC()";
   "feeBps()"; "feeRecipient()"; "owner()"; "paused()"; "permit2()"; "poolFee()"; "poolManager()";
   "poolTickSpacing()"; "universalRouter()"; "usedReferenceHashes(bytes32)"].
Definition canonicalPayrollEvents : list string :=
  ["PayrollBatchExecuted(address,address,address,uint256,uint256,uint256,uint256,string)";
   "PayrollPayment(bytes32,address,address,address,uint256,uint256)";
   "PayrollReferenceConsumed(bytes32,address,address,address,bytes32,uint256,uint256,uint256,uint256,string)";
   "PayrollSurplusRefunded(bytes32,address,address,uint256)";
   "PayrollSwapExecuted(bytes32,address,address,address,uint256,uint256,uint256,uint256,uint256)"].
Definition canonicalSwapExecution : list string :=
  ["executeSwap(address,address,uint256,uint256,uint256,uint256)"].
Definition canonicalSwapReads : list string :=
  ["ARC_MAINNET_CHAIN_ID()"; "ARC_MAINNET_POOL_FEE()"; "ARC_MAINNET_POOL_TICK_SPACING()"; "ARC_NATIVE_USDC_SCALE()";
   "EURC()"; "MAX_DEADLINE_WINDOW()"; "MAX_FEE_BPS()"; "USDC()"; "feeBps()"; "feeRecipient()"; "owner()"; "paused()";
   "permit2()"; "poolFee()"; "poolTickSpacing()"; "universalRouter()"].
Definition canonicalSwapEvents : list string :=
  ["WizPayMainnetSwapExecuted(address,address,address,uint256,uint256,uint256,uint256,uint256)"].

(** A count per string: the first loop counts up, the second counts down. *)
Definition sameStringSet (a b : list string) : bool :=
  if Z.of_nat (length a) != Z.of_nat (length b) then false
  else
    let count (counts : gmap string Z) value := default 0 (counts !! value) in
    let counts := fold_left (fun counts value => <[value := count counts value + 1]> counts) a ∅ in
    match fold_result (fun counts value =>
            do! fail_if (count counts value =? 0) tt;
            Ok (<[value := count counts value - 1]> counts)) counts b with
    | Err _ => false
    | Ok counts => forallb (fun kn => snd kn =? 0) (map_to_list counts)
    end.

(** * Deployments (deployment.go) *)
Definition ContractID_Valid (id : string) : bool :=
  (id == ContractWizPayPayroll) || (id == ContractWizPaySwapExecutor).

Inductive DeploymentStatus : Type := DeploymentEnabled | DeploymentDisabled | DeploymentOther (raw : string).
#[global] Instance DeploymentStatus_eq_dec : EqDecision DeploymentStatus.
Proof. solve_decision. Defined.
Definition DeploymentStatus_string (s : DeploymentStatus) : string :=
  match s with DeploymentEnabled => "ENABLED" | DeploymentDisabled => "DISABLED" | DeploymentOther raw => raw end.
Definition DeploymentStatus_Valid (s : DeploymentStatus) : bool :=
  match s with DeploymentOther _ => false | _ => true end.

Record Deployment := MkDeployment {
  dep_ID : string; dep_RegistryVersion : Z; dep_Name : string; dep_ChainID : string; dep_Network : string;
  dep_Address : string; dep_ExecutionFunctions : list string; dep_ReadFunctions : list string;
  dep_VerificationEvents : list string; dep_Status : DeploymentStatus; dep_ABISource : string;
  dep_SourceContract : string; dep_Notes : string
}.
#[global] Instance Deployment_eq_dec : EqDecision Deployment.
Proof. solve_decision. Defined.

Section deployment.
Context `{EthCommon} `{UnicodeTables} `{EthCrypto}.

Definition validateAddressMatchesID (d : Deployment) : result unit :=
  let normalized := NormalizeAddress (dep_Address d) in
  if dep_ID d == ContractWizPayPayroll then
    do! fail_if (normalized != NormalizeAddress AddressWizPayPayroll)
          (errorf "WIZPAY_PAYROLL address does not match the reviewed Arc Mainnet deployment");
    fail_if (dep_Name d != "WizPayPayrollMainnet") (errorf "WIZPAY_PAYROLL name must be WizPayPayrollMainnet")
  else if dep_ID d == ContractWizPaySwapExecutor then
    do! fail_if (normalized != NormalizeAddress AddressWizPaySwapExecutor)
          (errorf "WIZPAY_SWAP_EXECUTOR address does not match the reviewed Arc Mainnet deployment");
    fail_if (dep_Name d != "WizPaySwapExecutorMainnet")
      (errorf "WIZPAY_SWAP_EXECUTOR name must be WizPaySwapExecutorMainnet")
  else Ok tt.

Definition validateCanonicalAllowlists (d : Deployment) : result unit :=
  let check (what : string) (have want : list string) :=
    fail_if (negb (sameStringSet have want)) (errorf2 "%s %s allowlist does not match the canonical set" (dep_ID d) what) in
  if dep_ID d == ContractWizPayPayroll then
    do! check "execution function" (dep_ExecutionFunctions d) canonicalPayrollExecution;
    do! check "read function" (dep_ReadFunctions d) canonicalPayrollReads;
    check "verification event" (dep_VerificationEvents d) canonicalPayrollEvents
  else if dep_ID d == ContractWizPaySwapExecutor then
    do! check "execution function" (dep_ExecutionFunctions d) canonicalSwapExecution;
    do! check "read function" (dep_ReadFunctions d) canonicalSwapReads;
    check "verification event" (dep_VerificationEvents d) canonicalSwapEvents
  else Err (errorf1 "unknown contract ID %q" (dep_ID d)).

Definition Deployment_Validate (d : Deployment) : result unit :=
  do! fail_if (negb (ContractID_Valid (dep_ID d))) (errorf1 "invalid contract ID %q" (dep_ID d));
  do! fail_if (dep_RegistryVersion d =? 0) (errorf "registry version must be positive");
  do! validateSafeText "contract name" (dep_Name d);
  do! fail_if (dep_ChainID d != ChainIDArcMainnet)
        (errorf1 "chain ID %q is not the supported Arc Mainnet chain" (dep_ChainID d));
  do! fail_if (dep_Network d != NetworkArcMainnet)
        (errorf1 "network %q is not the supported Arc Mainnet network label" (dep_Network d));
  do! fail_if (negb (ValidAddress (dep_Address d))) (errorf "deployment address is malformed");
  do! fail_if (negb (DeploymentStatus_Valid (dep_Status d)))
        (errorf1 "invalid deployment status %q" (DeploymentStatus_string (dep_Status d)));
  do! validateSafeText "ABI source" (dep_ABISource d);
  do! fail_if (Z.of_nat (length (dep_ExecutionFunctions d)) =? 0)
        (errorf "deployment must declare at least one execution function");
  do! validateUniqueStrings (dep_ExecutionFunctions d) "execution function";
  do! validateUniqueStrings (dep_ReadFunctions d) "read function";
  do! validateUniqueStrings (dep_VerificationEvents d) "verification event";
  do! validateAddressMatchesID d;
  validateCanonicalAllowlists d.

Definition Normalized (d : Deployment) : Deployment :=
  MkDeployment (dep_ID d) (dep_RegistryVersion d) (dep_Name d) (dep_ChainID d) (dep_Network d)
    (ChecksumAddress (dep_Address d)) (sort_strings (dep_ExecutionFunctions d)) (sort_strings (dep_ReadFunctions d))
    (sort_strings (dep_VerificationEvents d)) (dep_Status d) (dep_ABISource d) (dep_SourceContract d) (dep_Notes d).

(** [encoding/json]: one character of a string, then the members of the
    descriptor in the order of its fields. *)
Definition json_rune (rn : Z * nat) : list Z :=
  let '(r, n) := rn in
  let hex4 := [hex_digit (Z.land (Z.shiftr r 4) 0xf); hex_digit (Z.land r 0xf)] in
  if (r =? 34) || (r =? 92) then [92; r]
  else if r =? 8 then [92; 98]
  else if r =? 12 then [92; 102]
  else if r =? 10 then [92; 110]
  else if r =? 13 then [92; 114]
  else if r =? 9 then [92; 116]
  else if (r <? 0x20) || (r =? 60) || (r =? 62) || (r =? 38) then ([92; 117; 48; 48] ++ hex4)%list
  else if (r =? rune_error) && (n =? 1)%nat then bytes "\ufffd"
  else if (r =? 0x2028) || (r =? 0x2029) then (bytes "\u202" ++ [hex_digit (Z.land r 0xf)])%list
  else encode_rune r.
Definition json_string (s : string) : string :=
  let quote := of_bytes [34] in
  quote +:+ (of_bytes (concat (json_rune <$> runes_of (bytes s))) +:+ quote).
(** An empty list is a nil slice here: [Normalized] appends to nil. *)
Definition json_strings (l : list string) : string :=
  match l with [] => "null" | _ => "[" +:+ (Join (json_string <$> l) "," +:+ "]") end.
Definition json_members (d : Deployment) : list (string * string) :=
  app [("id", json_string (dep_ID d)); ("registry_version", FormatUint (dep_RegistryVersion d));
   ("name", json_string (dep_Name d)); ("chain_id", json_string (dep_ChainID d));
   ("network", json_string (dep_Network d)); ("address", json_string (dep_Address d));
   ("execution_functions", json_strings (dep_ExecutionFunctions d));
   ("read_functions", json_strings (dep_ReadFunctions d));
   ("verification_events", json_strings (dep_VerificationEvents d));
   ("status", json_string (DeploymentStatus_string (dep_Status d))); ("abi_source", json_string (dep_ABISource d))]
  (app (if dep_SourceContract d == "" then [] else [("source_contract", json_string (dep_SourceContract d))])
     (if dep_Notes d == "" then [] else [("notes", json_string (dep_Notes d))])).
Definition Deployment_json (d : Deployment) : string :=
  "{" +:+ (Join ((fun '(k, v) => json_string k +:+ (":" +:+ v)) <$> json_members d) "," +:+ "}").

Definition Digest (d : Deployment) : string := "sha256:" +:+ sha256_hex (Deployment_json (Normalized d)).

Definition AllowsExecution (d : Deployment) (signature : string) : bool :=
  existsb (fun candidate => candidate == signature) (dep_ExecutionFunctions d).
Definition AllowsRead (d : Deployment) (signature : string) : bool :=
  existsb (fun candidate => candidate == signature) (dep_ReadFunctions d).
Definition AllowsEvent (d : Deployment) (signature : string) : bool :=
  existsb (fun candidate => candidate == signature) (dep_VerificationEvents d).
End deployment.

(** * Sealed calls *)
Record EncodedCall := MkEncodedCall {
  cal_contractID : string; cal_registryVersion : Z; cal_chainID : string; cal_network : string; cal_to : string;
  cal_function : string; cal_selector : string; cal_callData : string
}.

(** The record of event decoders: [contracts.Log]. *)
Record Log := MkLog { log_Address : string; log_Topics : list string; log_Data : string; log_ChainID : string }.

Section calls.
Context `{EthCommon} `{UnicodeTables} `{EthCrypto}.

Definition newEncodedCall (d : Deployment) (function selector callData : string) : EncodedCall :=
  MkEncodedCall (dep_ID d) (dep_RegistryVersion d) (dep_ChainID d) (dep_Network d) (dep_Address d)
    function selector callData.

Definition NewEncodedCall (d : Deployment) (function selector callData : string) : result EncodedCall :=
  do! map_err (errorf_wrap "encoded call deployment is invalid: %w" []) (Deployment_Validate d);
  do! fail_if (negb (AllowsExecution d function))
        (errorf1 "function %q is not an allowlisted execution function" function);
  do! fail_if (selector != Selector4 function) (errorf "selector does not match function signature");
  do! fail_if (len callData <? 4) (errorf "call data is too short");
  do! fail_if (first_bytes 4 callData != selector) (errorf "call data does not begin with the function selector");
  Ok (newEncodedCall d function selector callData).
End calls.

(** * The registry (registry.go) *)
Record Registry := MkRegistry {
  reg_entries : gmap string (gmap Z Deployment);
  reg_byLocation : gmap string (string * Z)
}.
Definition NewRegistry : Registry := MkRegistry ∅ ∅.

(** errors.go *)
Definition validationError (message : string) (cause : option error) : error :=
  match cause with
  | None => New CodeValidationError message false true true
  | Some cause => Wrap CodeValidationError message false true true cause
  end.
Definition contractNotFound : error := New CodeContractNotFound "Contract deployment was not found." false true true.
Definition contractUnavailable : error :=
  New CodeContractUnavailable "Contract deployment is unavailable." false true false.
Definition contractConflict : error :=
  New CodeContractConflict "Contract deployment conflicts with an existing definition." false true true.

Section registry.
Context `{EthCommon} `{UnicodeTables} `{EthCrypto}.

Definition locationIndex (chainID address : string) : string := chainID +:+ ("|" +:+ NormalizeAddress address).

(** The registry after the call comes with the answer: a refused registration
    may leave an empty version table behind. *)
Definition Register (r : Registry) (deployment : Deployment) : result unit * Registry :=
  match Deployment_Validate deployment with
  | Err err => (Err (validationError "Contract deployment definition is invalid." (Some err)), r)
  | Ok _ =>
      let normalized := Normalized deployment in
      let location := locationIndex (dep_ChainID normalized) (dep_Address normalized) in
      let key := (dep_ID normalized, dep_RegistryVersion normalized) in
      let versions := default ∅ (reg_entries r !! dep_ID normalized) in
      let r := MkRegistry (<[dep_ID normalized := versions]> (reg_entries r)) (reg_byLocation r) in
      match versions !! dep_RegistryVersion normalized with
      | Some existing => if Digest existing == Digest normalized then (Ok tt, r) else (Err contractConflict, r)
      | None =>
          if match reg_byLocation r !! location with Some owner => owner != key | None => false end
          then (Err (validationError "Contract deployment address conflicts with another registered deployment." None), r)
          else (Ok tt, MkRegistry
            (<[dep_ID normalized := <[dep_RegistryVersion normalized := normalized]> versions]> (reg_entries r))
            (<[location := key]> (reg_byLocation r)))
      end
  end.

Definition GetVersion (r : Registry) (id : string) (version : Z) : result Deployment :=
  do! fail_if (negb (ContractID_Valid id) || (version =? 0))
        (validationError "Contract deployment lookup is invalid." None);
  match reg_entries r !! id with
  | None => Err contractNotFound
  | Some versions =>
      match versions !! version with
      | None => Err contractNotFound
      | Some deployment => Ok (Normalized deployment)
      end
  end.

Definition newer (latest : option Deployment) (deployment : Deployment) : option Deployment :=
  let seen := match latest with Some d => dep_RegistryVersion d | None => 0 end in
  if (dep_Status deployment == DeploymentEnabled) && (seen <? dep_RegistryVersion deployment)
  then Some deployment else latest.

Definition GetEnabled (r : Registry) (id : string) : result Deployment :=
  do! fail_if (negb (ContractID_Valid id)) (validationError "Contract deployment lookup is invalid." None);
  match reg_entries r !! id with
  | None => Err contractNotFound
  | Some versions =>
      match fold_left newer (snd <$> map_to_list versions) None with
      | None => Err contractUnavailable
      | Some latest => Ok (Normalized latest)
      end
  end.

Definition Require_ (r : Registry) (id : string) (version : Z) (chainID network : string) : result Deployment :=
  let! deployment := GetVersion r id version in
  do! fail_if (dep_Status deployment != DeploymentEnabled) contractUnavailable;
  do! fail_if ((chainID != "") && (chainID != dep_ChainID deployment)) (validationError
        "Contract deployment chain ID does not match the registered Arc Mainnet deployment." None);
  do! fail_if ((network != "") && (network != dep_Network deployment)) (validationError
        "Contract deployment network does not match the registered Arc Mainnet deployment." None);
  Ok deployment.

Definition zero_deployment : Deployment := MkDeployment "" 0 "" "" "" "" [] [] [] (DeploymentOther "") "" "" "".

Definition LookupByAddress (r : Registry) (chainID address : string) : result Deployment :=
  do! fail_if ((chainID == "") || negb (ValidAddress address))
        (validationError "Contract address lookup is invalid." None);
  match reg_byLocation r !! locationIndex chainID address with
  | None => Err contractNotFound
  | Some (id, version) =>
      Ok (Normalized (default zero_deployment (default ∅ (reg_entries r !! id) !! version)))
  end.

(** The deployments of the registry in any order; [List] sorts them. *)
Definition registered (r : Registry) : list Deployment :=
  map_to_list (reg_entries r) ≫= fun '(_, versions) => snd <$> map_to_list versions.
Definition deployment_le (x y : Deployment) : Prop :=
  if dep_ID x == dep_ID y then dep_RegistryVersion x <= dep_RegistryVersion y else String.le (dep_ID x) (dep_ID y).
#[export] Instance deployment_le_dec x y : Decision (deployment_le x y).
Proof. unfold deployment_le. destruct (_ == _); apply _. Defined.
Definition List_ (r : Registry) : list Deployment := merge_sort deployment_le (Normalized <$> registered r).

(** defaults.go *)
Definition payrollDeploymentV1 : Deployment :=
  MkDeployment ContractWizPayPayroll RegistryVersion "WizPayPayrollMainnet" ChainIDArcMainnet NetworkArcMainnet
    AddressWizPayPayroll canonicalPayrollExecution canonicalPayrollReads canonicalPayrollEvents DeploymentEnabled
    "contracts/abi/WizPayPayrollMainnet.json" "src/WizPayPayrollMainnet.sol"
    "Track A descriptor only. Capabilities remain disabled; native-value and ERC-20 approval execution are not implemented. Admin functions are excluded.".
Definition swapDeploymentV1 : Deployment :=
  MkDeployment ContractWizPaySwapExecutor RegistryVersion "WizPaySwapExecutorMainnet" ChainIDArcMainnet
    NetworkArcMainnet AddressWizPaySwapExecutor canonicalSwapExecution canonicalSwapReads canonicalSwapEvents
    DeploymentEnabled "contracts/abi/WizPaySwapExecutorMainnet.json" "src/WizPaySwapExecutorMainnet.sol"
    "Track A descriptor only. Swap capability remains disabled; native-value and ERC-20 approval execution are not implemented. Admin functions are excluded.".
Definition DefaultDeployments : list Deployment := [payrollDeploymentV1; swapDeploymentV1].

(** [DefaultRegistry] panics when a registration is refused. *)
Definition DefaultRegistry : result Registry :=
  fold_result (fun r deployment => let '(answer, r) := Register r deployment in do! answer; Ok r)
    NewRegistry DefaultDeployments.
End registry.

(** * The allowlist comparison *)
(** Go's doc comment says that duplicates on either side yield false; the code
    compares multiplicities. *)
Section same_strings.
Abbreviation occ := (count_occ (decide_rel (=@{string}))).
Definition tallies (f : string -> Z) (counts : gmap string Z) : Prop := forall x, default 0 (counts !! x) = f x.

Lemma tally_insert f counts x n :
  tallies f counts -> tallies (fun y => if decide (y = x) then n else f y) (<[x := n]> counts).
Proof.
  intros Hf y. destruct (decide (y = x)) as [->|Hne]; [by rewrite lookup_insert_eq|].
  rewrite lookup_insert_ne by congruence. apply Hf.
Qed.

Lemma tally_ext f g counts : (forall x, f x = g x) -> tallies f counts -> tallies g counts.
Proof. intros Hfg Hf x. by rewrite <- Hfg. Qed.

Lemma tally_up a f counts :
  tallies f counts ->
  tallies (fun x => f x + Z.of_nat (occ a x))
    (fold_left (fun counts value => <[value := default 0 (counts !! value) + 1]> counts) a counts).
Proof.
  revert f counts. induction a as [|v a IH]; intros f counts Hf; cbn [fold_left].
  - eapply tally_ext; [|done]. intros x. cbn. lia.
  - eapply tally_ext; [|apply IH, tally_insert, Hf]. intros x. cbn.
    destruct (decide (x = v)) as [->|Hne].
    + rewrite Hf. destruct (decide_rel (=) v v); [lia|done].
    + destruct (decide_rel (=) v x); [congruence|done].
Qed.

Lemma tally_down b f counts :
  tallies f counts -> (forall x, 0 <= f x) ->
  match fold_result (fun counts value =>
          do! fail_if (default 0 (counts !! value) =? 0) tt;
          Ok (<[value := default 0 (counts !! value) - 1]> counts)) counts b with
  | Ok counts => tallies (fun x => f x - Z.of_nat (occ b x)) counts /\ forall x, Z.of_nat (occ b x) <= f x
  | Err _ => exists x, f x < Z.of_nat (occ b x)
  end.
Proof.
  revert f counts. induction b as [|v b IH]; intros f counts Hf Hpos; cbn [fold_result].
  - split; [|intros x; cbn; apply Hpos]. eapply tally_ext; [|done]. intros x. cbn. lia.
  - destruct (default 0 (counts !! v) =? 0) eqn:E; cbn [fail_if rbind]; reflect_all.
    { exists v. rewrite <- Hf, E. cbn. destruct (decide_rel (=) v v); [lia|done]. }
    specialize (IH _ _ (tally_insert _ _ v (default 0 (counts !! v) - 1) Hf)).
    assert (forall x, occ (v :: b) x = ((if decide (x = v) then 1 else 0) + occ b x)%nat) as Hocc.
    { intros x. cbn. destruct (decide_rel (=) v x), (decide (x = v)); congruence || lia. }
    pose proof (Hf v) as Hv. pose proof (Hpos v) as Hv'.
    destruct (fold_result _ _ b) as [counts'|[]].
    + destruct IH as [Ht Hle]. { intros x. case_match; [lia|apply Hpos]. }
      split; [eapply tally_ext; [|done]|]; intros x; rewrite Hocc; pose proof (Hle x); cbn;
        destruct (decide (x = v)) as [->|]; lia.
    + destruct IH as [x Hx]. { intros x. case_match; [lia|apply Hpos]. }
      exists x. rewrite Hocc. cbn in Hx. destruct (decide (x = v)) as [->|]; lia.
Qed.

Lemma sameStringSet_spec a b : sameStringSet a b = true <-> a ≡ₚ b.
Proof.
  unfold sameStringSet. destruct (_ != _) eqn:El; reflect_all.
  { split; [done|]. intros Hp%Permutation_length. congruence. }
  assert (tallies (fun _ => 0) ∅) as H0 by by intros x.
  pose proof (tally_up a _ _ H0) as Ha. pose proof (tally_down b _ _ Ha ltac:(intros; cbn; lia)) as Hb.
  rewrite (Permutation_count_occ (decide_rel (=@{string}))).
  destruct (fold_result _ _ b) as [counts|[]].
  - destruct Hb as [Ht Hle]. rewrite forallb_forall. split.
    + intros Hall x. pose proof (Ht x) as Hx. cbn in Hx. destruct (counts !! x) as [n|] eqn:E; cbn in Hx; [|lia].
      specialize (Hall (x, n)). cbn in Hall. rewrite <- list_elem_of_In, elem_of_map_to_list in Hall.
      specialize (Hall E). reflect_all. lia.
    + intros Heq [x n] Hin. rewrite <- list_elem_of_In, elem_of_map_to_list in Hin. cbn.
      specialize (Ht x). rewrite Hin in Ht. cbn in Ht. rewrite Heq in Ht. apply Z.eqb_eq. lia.
  - destruct Hb as [x Hx]. cbn in Hx. split; [done|]. intros Heq. rewrite Heq in Hx. lia.
Qed.
End same_strings.

(** * Addresses *)
Section addresses.
Context `{EthCommonSpec} `{UnicodeTables} `{EthCrypto} `{!EthCryptoSpec}.

Lemma NormalizeAddress_lower s : ValidAddress s = true -> NormalizeAddress s = ToLower s.
Proof.
  intros Hv. unfold NormalizeAddress. rewrite plain_trim by by apply ValidAddress_plain. by rewrite Hv.
Qed.

Lemma ValidAddress_lower s : ValidAddress s = true -> ValidAddress (ToLower s) = true.
Proof. intros Hv. rewrite <- NormalizeAddress_lower by done. by apply NormalizeAddress_is_valid. Qed.

Lemma string_app_inj_l (p a b : string) : p +:+ a = p +:+ b -> a = b.
Proof. induction p as [|c p IH]; cbn; [done|]. intros [= E]. auto. Qed.

Lemma HexToAddress_AddressHex a : len a = 20 -> HexToAddress (AddressHex a) = a.
Proof.
  intros Ha. pose proof (HexToAddress_digits _ (AddressHex_valid _ Ha)) as E. rewrite AddressHex_lower in E by done.
  apply string_app_inj_l, EncodeToString_inj in E; [|apply bytes_range..]. by apply bytes_inj.
Qed.

Lemma AddressHex_inj a b : len a = 20 -> len b = 20 -> AddressesEqual (AddressHex a) (AddressHex b) = true -> a = b.
Proof.
  intros Ha Hb (Va & Vb & E)%AddressesEqual_spec. rewrite !NormalizeAddress_lower, !AddressHex_lower in E by done.
  apply string_app_inj_l, EncodeToString_inj in E; [|apply bytes_range..]. by apply bytes_inj.
Qed.

(** The checksum form of a valid address is the same address. *)
Lemma AddressHex_HexToAddress s :
  ValidAddress s = true -> AddressesEqual (AddressHex (HexToAddress s)) s = true.
Proof.
  intros Hv. pose proof (HexToAddress_len s) as Hl. apply AddressesEqual_spec.
  split_and!; [by apply AddressHex_valid|done|].
  rewrite !NormalizeAddress_lower by (done || by apply AddressHex_valid).
  rewrite AddressHex_lower by done. by apply HexToAddress_digits.
Qed.

Lemma ChecksumAddress_valid s :
  ValidAddress s = true -> ChecksumAddress s = AddressHex (HexToAddress s).
Proof. intros Hv. unfold ChecksumAddress. rewrite plain_trim by by apply ValidAddress_plain. by rewrite Hv. Qed.

Lemma NormalizeAddress_checksum s :
  ValidAddress s = true -> NormalizeAddress (ChecksumAddress s) = NormalizeAddress s.
Proof.
  intros Hv. rewrite ChecksumAddress_valid by done.
  by pose proof (AddressHex_HexToAddress _ Hv) as (_ & _ & ->)%AddressesEqual_spec.
Qed.

Lemma ChecksumAddress_idemp s :
  ValidAddress s = true -> ChecksumAddress (ChecksumAddress s) = ChecksumAddress s.
Proof.
  intros Hv. pose proof (HexToAddress_len s) as Hl. rewrite (ChecksumAddress_valid s) by done.
  rewrite ChecksumAddress_valid by by apply AddressHex_valid. by rewrite HexToAddress_AddressHex.
Qed.
End addresses.

(** An implementation with lower-case digits and a toy hash. *)
Module EthDigits.
Definition decode (s : string) : string :=
  let l := hex_pairs (drop 2 (bytes s)) in of_bytes (take 20 (l ++ replicate 20 0)).
Definition toy_hash (s : string) : string :=
  let h := foldl (fun n b => (257 * n + b) mod 4294967291) 5381 (bytes s) in
  of_bytes (concat (replicate 8 [h / 2 ^ 24; (h / 2 ^ 16) mod 256; (h / 2 ^ 8) mod 256; h mod 256])).
#[export] Instance crypto : EthCrypto := {
  HexToAddress := decode;
  AddressHex a := "0x" +:+ EncodeToString (bytes a);
  Keccak256 := toy_hash
}.

Lemma hex_value_digit b : is_hex_byte b = true -> 0 <= hex_value b < 16 /\ hex_digit (hex_value b) = lower_byte b.
Proof.
  unfold is_hex_byte, hex_digit, lower_byte, byte_in, hex_value.
  repeat match goal with
  | |- context [?x <=? ?y] => destruct (Z.leb_spec x y)
  | |- context [?x <? ?y] => destruct (Z.ltb_spec x y)
  end; cbn; try done; lia.
Qed.

Lemma hex_digit_facts n : 0 <= n < 16 -> is_hex_byte (hex_digit n) = true /\ lower_byte (hex_digit n) = hex_digit n.
Proof.
  intros Hn. unfold is_hex_byte, hex_digit, lower_byte, byte_in.
  repeat match goal with
  | |- context [?x <=? ?y] => destruct (Z.leb_spec x y)
  | |- context [?x <? ?y] => destruct (Z.ltb_spec x y)
  end; cbn; split; done || lia.
Qed.

Lemma byte_nibbles b : 0 <= b < 256 -> 0 <= b / 16 < 16 /\ 0 <= b mod 16 < 16.
Proof. intros Hb. split; [split; [apply Z.div_pos|apply Z.div_lt_upper_bound]|apply Z.mod_pos_bound]; lia. Qed.

Lemma hex_pairs_digits l :
  forallb is_hex_byte l = true -> Nat.Even (length l) ->
  concat ((fun b => [hex_digit (b / 16); hex_digit (b mod 16)]) <$> hex_pairs l) = lower_byte <$> l
  /\ Forall (fun b => 0 <= b < 256) (hex_pairs l) /\ length l = (2 * length (hex_pairs l))%nat.
Proof.
  assert (forall h d, is_hex_byte h = true -> is_hex_byte d = true ->
    hex_digit ((16 * hex_value h + hex_value d) / 16) = lower_byte h
    /\ hex_digit ((16 * hex_value h + hex_value d) mod 16) = lower_byte d
    /\ 0 <= 16 * hex_value h + hex_value d < 256) as Hpair.
  { intros h d [H1 E1]%hex_value_digit [H2 E2]%hex_value_digit.
    replace ((16 * hex_value h + hex_value d) / 16) with (hex_value h) by (apply Z.div_unique with (hex_value d); lia).
    replace ((16 * hex_value h + hex_value d) mod 16) with (hex_value d) by (apply Z.mod_unique with (hex_value h); lia).
    split_and!; [done..|lia|lia]. }
  revert l. fix IH 1. intros [|h [|d l]] Hl He; cbn [hex_pairs].
  - cbn. auto.
  - exfalso. destruct He as [k Hk]. cbn in Hk. lia.
  - cbn in Hl. apply andb_true_iff in Hl as [Hh Hl]. apply andb_true_iff in Hl as [Hd Hl].
    destruct (IH l Hl) as (E & F & L). { destruct He as [k Hk]. cbn in Hk. exists (k - 1)%nat. lia. }
    destruct (Hpair h d Hh Hd) as (E1 & E2 & R). cbn. rewrite E, E1, E2. split_and!; [done|by constructor|].
    cbn in L |- *. lia.
Qed.

Lemma decode_digits (fold : UnicodeTables) (s : string) :
  @ValidAddress Eth.is_hex_address s = true ->
  "0x" +:+ EncodeToString (bytes (decode s)) = @ToLower fold s.
Proof.
  intros Hv. pose proof (@valid_ascii _ Eth.is_hex_address_spec _ Hv) as Ha.
  apply (@ValidAddress_shape _ Eth.is_hex_address_spec) in Hv as (x & l & Hs & Hx & Hlen & Hl).
  destruct (hex_pairs_digits l Hl) as (E & F & L). { exists 20%nat. lia. }
  apply bytes_inj. rewrite bytes_app, ToLower_ascii, Hs by done. unfold decode. rewrite Hs. cbn [drop].
  rewrite drop_0, take_app_length' by lia. rewrite bytes_of_bytes by done.
  rewrite EncodeToString_bytes by done. rewrite E. by destruct Hx as [-> | ->].
Qed.

Lemma decode_len s : len (decode s) = 20.
Proof.
  unfold decode, len. rewrite length_of_bytes, length_take, length_app, length_replicate. lia.
Qed.

Lemma crypto_spec (fold : UnicodeTables) : @EthCryptoSpec Eth.is_hex_address fold crypto.
Proof.
  split.
  - intros a Ha. apply (@ValidAddress_shape _ Eth.is_hex_address_spec). cbn.
    exists 120, (bytes (EncodeToString (bytes a))). split_and!; [done|by left|..].
    + rewrite length_bytes, EncodeToString_length, length_bytes. unfold len in Ha. lia.
    + rewrite EncodeToString_bytes by apply bytes_range. pose proof (bytes_range a) as Hr. clear Ha.
      induction Hr as [|b l Hb Hl IH]; cbn; [done|]. rewrite IH.
      destruct (byte_nibbles b Hb) as [H1 H2]. by rewrite (proj1 (hex_digit_facts _ H1)), (proj1 (hex_digit_facts _ H2)).
  - intros a Ha. cbn. apply bytes_inj. rewrite ToLower_ascii.
    + rewrite (bytes_app "0x"), fmap_app. f_equal.
      rewrite EncodeToString_bytes by apply bytes_range. pose proof (bytes_range a) as Hr. clear Ha.
      induction Hr as [|b l Hb Hl IH]; cbn; [done|]. rewrite IH.
      destruct (byte_nibbles b Hb) as [H1 H2]. by rewrite (proj2 (hex_digit_facts _ H1)), (proj2 (hex_digit_facts _ H2)).
    + apply plain_ascii. unfold plain. rewrite (bytes_app "0x"). cbn. apply EncodeToString_plain.
      eapply Forall_impl; [apply bytes_range|]. cbn. lia.
  - apply decode_len.
  - apply decode_digits.
  - intros s. unfold len, Keccak256, crypto, toy_hash. by rewrite length_of_bytes.
Qed.
End EthDigits.

(** * What the registry can hold *)
Section registry_invariant.
Context `{EthCommonSpec} `{UnicodeTables} `{EthCrypto} `{!EthCryptoSpec}.

(** A reviewed deployment: one of the two contracts, at its address on Arc
    Mainnet, with exactly the reviewed functions and events. *)
Definition reviewed (d : Deployment) : Prop :=
  dep_RegistryVersion d <> 0 /\ dep_ChainID d = ChainIDArcMainnet /\ dep_Network d = NetworkArcMainnet /\
  ValidAddress (dep_Address d) = true /\
  ((dep_ID d = ContractWizPayPayroll /\ NormalizeAddress (dep_Address d) = NormalizeAddress AddressWizPayPayroll /\
    dep_ExecutionFunctions d ≡ₚ canonicalPayrollExecution /\ dep_ReadFunctions d ≡ₚ canonicalPayrollReads /\
    dep_VerificationEvents d ≡ₚ canonicalPayrollEvents) \/
   (dep_ID d = ContractWizPaySwapExecutor /\
    NormalizeAddress (dep_Address d) = NormalizeAddress AddressWizPaySwapExecutor /\
    dep_ExecutionFunctions d ≡ₚ canonicalSwapExecution /\ dep_ReadFunctions d ≡ₚ canonicalSwapReads /\
    dep_VerificationEvents d ≡ₚ canonicalSwapEvents)).

Lemma Deployment_Validate_reviewed d : Deployment_Validate d = Ok tt -> reviewed d.
Proof.
  unfold Deployment_Validate, validateAddressMatchesID, validateCanonicalAllowlists, reviewed. intros Hv.
  repeat (apply rbind_ok in Hv as ([] & ? & Hv)).
  repeat match goal with H : validateSafeText _ _ = _ |- _ => clear H | H : validateUniqueStrings _ _ = _ |- _ => clear H end.
  destruct (dep_ID d == ContractWizPayPayroll) eqn:E1; [|destruct (dep_ID d == ContractWizPaySwapExecutor) eqn:E2; [|done]];
    ok_reflect; split_and!; try done; [left|right]; rewrite ?sameStringSet_spec in *; auto.
Qed.

Lemma Normalized_reviewed d : reviewed d -> reviewed (Normalized d).
Proof.
  unfold reviewed. cbn. intros (? & ? & ? & Hv & Hc).
  assert (AddressesEqual (ChecksumAddress (dep_Address d)) (dep_Address d) = true) as (Hv' & _ & ->)%AddressesEqual_spec.
  { rewrite ChecksumAddress_valid by done. by apply AddressHex_HexToAddress. }
  unfold sort_strings. rewrite !sort_by_perm. auto.
Qed.

Lemma Normalized_idemp d : reviewed d -> Normalized (Normalized d) = Normalized d.
Proof.
  intros (_ & _ & _ & Hv & _). unfold Normalized. cbn. rewrite ChecksumAddress_idemp by done.
  f_equal; apply sort_strings_unique; apply sort_by_perm.
Qed.

Definition find_entry (r : Registry) (id : string) (version : Z) : option Deployment :=
  reg_entries r !! id ≫= fun versions => versions !! version.
Definition location_of (d : Deployment) : string := locationIndex (dep_ChainID d) (dep_Address d).

Definition registry_inv (r : Registry) : Prop :=
  (forall id v d, find_entry r id v = Some d ->
     dep_ID d = id /\ dep_RegistryVersion d = v /\ Normalized d = d /\ reviewed d /\
     reg_byLocation r !! location_of d = Some (id, v)) /\
  (forall l id v, reg_byLocation r !! l = Some (id, v) ->
     exists d, find_entry r id v = Some d /\ location_of d = l).

(** The registries that registrations lead to. *)
Inductive registers : Registry -> Prop :=
  | registers_new : registers NewRegistry
  | registers_add r d : registers r -> registers (snd (Register r d)).

(** What a registration does to the entries and the locations. *)
Lemma Register_effect r d : let r' := snd (Register r d) in
  ((forall id v, find_entry r' id v = find_entry r id v) /\ reg_byLocation r' = reg_byLocation r) \/
  (let n := Normalized d in Deployment_Validate d = Ok tt /\
   find_entry r (dep_ID n) (dep_RegistryVersion n) = None /\
   (forall key, reg_byLocation r !! location_of n = Some key -> key = (dep_ID n, dep_RegistryVersion n)) /\
   (forall id v, find_entry r' id v =
      if decide (id = dep_ID n /\ v = dep_RegistryVersion n) then Some n else find_entry r id v) /\
   reg_byLocation r' = <[location_of n := (dep_ID n, dep_RegistryVersion n)]> (reg_byLocation r)).
Proof.
  cbn zeta. unfold Register. destruct (Deployment_Validate d) as [[]|e]; [|by left].
  set (n := Normalized d). clearbody n. set (versions := default ∅ (reg_entries r !! dep_ID n)).
  assert (forall v, find_entry r (dep_ID n) v = versions !! v) as Hvs.
  { intros v. unfold find_entry, versions. destruct (reg_entries r !! dep_ID n); cbn; [done|by rewrite lookup_empty]. }
  assert (forall loc id v, find_entry (MkRegistry (<[dep_ID n := versions]> (reg_entries r)) loc) id v
    = find_entry r id v) as Hsame.
  { intros loc id v. unfold find_entry at 1. cbn. destruct (decide (id = dep_ID n)) as [->|Hne].
    - by rewrite lookup_insert_eq, Hvs.
    - by rewrite lookup_insert_ne by done. }
  destruct (versions !! dep_RegistryVersion n) as [existing|] eqn:Ev.
  { left. destruct (_ == _); (split; [exact (Hsame _)|done]). }
  case_match eqn:Eloc; [left; split; [exact (Hsame _)|done]|]. right. cbn [snd reg_entries reg_byLocation]. split_and!; [done|by rewrite Hvs| | |done].
  - intros key Hk. change (reg_byLocation r !! locationIndex (dep_ChainID n) (dep_Address n) = Some key) in Hk.
    cbn in Eloc. rewrite Hk in Eloc. by reflect_all.
  - intros id v. unfold find_entry at 1. cbn. rewrite insert_insert_eq.
    destruct (decide (id = dep_ID n)) as [->|Hne].
    + rewrite lookup_insert_eq. cbn. destruct (decide (v = dep_RegistryVersion n)) as [->|Hv].
      * rewrite lookup_insert_eq. by rewrite decide_True.
      * rewrite lookup_insert_ne, <- Hvs by done. rewrite decide_False; [done|]. by intros [_ ?].
    + rewrite lookup_insert_ne by done. rewrite decide_False; [done|]. by intros [? _].
Qed.

Lemma registers_inv r : registers r -> registry_inv r.
Proof.
  induction 1 as [|r d _ [He Hl]].
  - split; [by intros id v d|]. by intros l id v.
  - destruct (Register_effect r d) as [[Hsame Hloc]|(Hv & Hnone & Hfree & Hf & Hloc)].
    + split.
      * intros id v x. rewrite Hsame, Hloc. apply He.
      * intros l id v. rewrite Hloc. intros (x & Hx & <-)%Hl. exists x. by rewrite Hsame.
    + cbn zeta in *. set (n := Normalized d) in *. apply Deployment_Validate_reviewed in Hv. split.
      * intros id v x. rewrite Hf, Hloc. case_decide as Hd.
        -- intros [= <-]. destruct Hd as [-> ->]. split_and!; [done..|by apply Normalized_idemp|by apply Normalized_reviewed|].
           by rewrite lookup_insert_eq.
        -- intros Hx. destruct (He _ _ _ Hx) as (? & ? & ? & ? & Hlx). split_and!; try done.
           destruct (decide (location_of x = location_of n)) as [E|E]; [|by rewrite lookup_insert_ne by congruence].
           rewrite E in Hlx. apply Hfree in Hlx. injection Hlx as -> ->. by destruct Hd.
      * intros l id v. rewrite Hloc. destruct (decide (l = location_of n)) as [->|Hne].
        -- rewrite lookup_insert_eq. intros [= <- <-]. exists n. by rewrite Hf, decide_True.
        -- rewrite lookup_insert_ne by congruence. intros (x & Hx & <-)%Hl. exists x. split; [|done].
           rewrite Hf, decide_False; [done|]. intros [-> ->]. congruence.
Qed.

Lemma GetVersion_entry r id v d :
  registry_inv r -> GetVersion r id v = Ok d <-> find_entry r id v = Some d.
Proof.
  intros [He _]. unfold GetVersion, find_entry. split.
  - intros Hg. ok_inv. case_match eqn:E1; [|done]. case_match eqn:E2; [|done]. cbn. rewrite E2. ok_inv.
    destruct (He id v d0) as (_ & _ & E & _); [unfold find_entry; by rewrite E1|]. congruence.
  - intros Hf. destruct (He _ _ _ Hf) as (<- & <- & E & Hr & _).
    assert (ContractID_Valid (dep_ID d) = true) as ->.
    { unfold ContractID_Valid. by destruct Hr as (_ & _ & _ & _ & [(-> & _)|(-> & _)]). }
    rewrite (proj2 (Z.eqb_neq _ _)) by apply Hr. cbn. apply bind_Some in Hf as (versions & -> & ->). by rewrite E.
Qed.

Lemma registered_entry r d : d ∈ registered r <-> exists id v, find_entry r id v = Some d.
Proof.
  unfold registered, find_entry. rewrite list_elem_of_bind. split.
  - intros ([id versions] & Hd & Hv). apply list_elem_of_fmap in Hd as ([v x] & -> & Hx).
    apply elem_of_map_to_list in Hx. apply elem_of_map_to_list in Hv. exists id, v. by rewrite Hv.
  - intros (id & v & (versions & Hv & Hd)%bind_Some). exists (id, versions). split.
    + apply list_elem_of_fmap. exists (v, d). split; [done|]. by apply elem_of_map_to_list.
    + by apply elem_of_map_to_list.
Qed.

Lemma List_registered r d : registry_inv r -> d ∈ List_ r <-> d ∈ registered r.
Proof.
  intros [He _]. unfold List_. rewrite merge_sort_Permutation, list_elem_of_fmap.
  assert (forall x, x ∈ registered r -> Normalized x = x) as Hn.
  { intros x (id & v & Hx)%registered_entry. by apply (He _ _ _ Hx). }
  split; [intros (x & -> & Hx); by rewrite Hn|]. intros Hd. exists d. by rewrite Hn.
Qed.

Lemma locationIndex_inj chain address chain' address' :
  ValidAddress address = true -> ValidAddress address' = true ->
  locationIndex chain address = locationIndex chain' address' ->
  chain = chain' /\ NormalizeAddress address = NormalizeAddress address'.
Proof.
  intros Hv Hv' E. apply (f_equal bytes) in E. unfold locationIndex in E.
  rewrite !(bytes_app _ ("|" +:+ _)), !(bytes_app "|") in E.
  assert (forall a, ValidAddress a = true -> length (bytes (NormalizeAddress a)) = 42%nat) as Hlen.
  { intros a Ha. rewrite NormalizeAddress_valid, length_fmap, length_bytes by done.
    unfold ValidAddress, len in Ha. apply andb_true_iff in Ha as [[_ Ha]%andb_true_iff _]. lia. }
  apply app_inj_2 in E as [E1 E2]; [|rewrite !length_app, !Hlen by done; done].
  apply bytes_inj in E1 as ->. apply app_inj_1 in E2 as [_ E2]; [|done]. split; [done|by apply bytes_inj].
Qed.

(** [C29] The registry never serves anything but a reviewed deployment: whatever was
    registered, in whatever order, every deployment that a lookup or a listing
    returns is one of the two contracts at its reviewed address on Arc Mainnet
    with exactly the reviewed functions and events; lookups by version, by
    address and by listing agree; no two deployments share a location, so a
    contract has at most one registered version; and no later registration
    changes an answer. *)
Theorem registry_serves_reviewed (r : Registry) (Hr : registers r) :
  (forall d, d ∈ List_ r -> reviewed d /\ GetVersion r (dep_ID d) (dep_RegistryVersion d) = Ok d /\
     LookupByAddress r (dep_ChainID d) (dep_Address d) = Ok d) /\
  (forall id v d, GetVersion r id v = Ok d -> d ∈ List_ r /\ dep_ID d = id /\ dep_RegistryVersion d = v) /\
  (forall chain address d, LookupByAddress r chain address = Ok d ->
     d ∈ List_ r /\ dep_ChainID d = chain /\ AddressesEqual (dep_Address d) address = true) /\
  (forall d d', d ∈ List_ r -> d' ∈ List_ r -> dep_ID d = dep_ID d' -> d = d') /\
  (forall x id v d, GetVersion r id v = Ok d -> GetVersion (snd (Register r x)) id v = Ok d).
Proof.
  pose proof (registers_inv _ Hr) as Hi. pose proof Hi as [He Hl].
  assert (forall d, d ∈ List_ r -> find_entry r (dep_ID d) (dep_RegistryVersion d) = Some d) as Hin.
  { intros d Hd. apply List_registered, registered_entry in Hd as (id & v & Hd); [|done].
    by destruct (He _ _ _ Hd) as (-> & -> & _). }
  assert (forall id v d, find_entry r id v = Some d -> d ∈ List_ r) as Hout.
  { intros id v d Hd. apply List_registered; [done|]. apply registered_entry. eauto. }
  split_and!.
  - intros d Hd%Hin. pose proof (He _ _ _ Hd) as (_ & _ & Hn & Hrev & Hloc). split_and!; [done|by apply GetVersion_entry|].
    unfold LookupByAddress. change (locationIndex (dep_ChainID d) (dep_Address d)) with (location_of d).
    pose proof Hrev as (_ & -> & _ & -> & _). rewrite Hloc. cbn.
    apply bind_Some in Hd as (versions & -> & E).
    change (default ∅ (Some versions)) with versions. rewrite E. change (default zero_deployment (Some d)) with d. by rewrite Hn.
  - intros id v d Hg%GetVersion_entry; [|done]. destruct (He _ _ _ Hg) as (? & ? & _). eauto.
  - intros chain address d Hd. unfold LookupByAddress in Hd. ok_reflect. case_match eqn:E; [|done].
    destruct p as [id v]. destruct (Hl _ _ _ E) as (x & Hx & Hloc). pose proof Hx as Hx'.
    apply bind_Some in Hx' as (versions & Hv & Hx'). rewrite Hv in Hd. change (default ∅ (Some versions)) with versions in Hd.
    rewrite Hx' in Hd. change (default zero_deployment (Some x)) with x in Hd. ok_inv.
    destruct (He _ _ _ Hx) as (_ & _ & -> & (_ & _ & _ & Hva & _) & _). split; [by eapply Hout|].
    apply locationIndex_inj in Hloc as [-> En]; [|done..]. split; [done|]. by apply AddressesEqual_spec.
  - intros d d' Hd%Hin Hd'%Hin Eid. pose proof (He _ _ _ Hd) as (_ & _ & _ & Hrd & Hld).
    pose proof (He _ _ _ Hd') as (_ & _ & _ & Hrd' & Hld').
    assert (location_of d = location_of d') as El.
    { unfold location_of, locationIndex. destruct Hrd as (_ & -> & _ & _ & Hd1). destruct Hrd' as (_ & -> & _ & _ & Hd2).
      do 2 f_equal. by destruct Hd1 as [(E1 & -> & _)|(E1 & -> & _)], Hd2 as [(E2 & -> & _)|(E2 & -> & _)];
        try done; rewrite E1, E2 in Eid. }
    rewrite El in Hld. rewrite Hld in Hld'. injection Hld' as Ei Ev. rewrite <- Ei, <- Ev in Hd'. congruence.
  - intros x id v d Hg%GetVersion_entry; [|done]. apply GetVersion_entry; [by apply registers_inv, registers_add|].
    destruct (Register_effect r x) as [[-> _]|(_ & Hnone & _ & Hf & _)]; [done|].
    rewrite Hf, decide_False; [done|]. intros [-> ->]. congruence.
Qed.

(** The registry the planners and verifiers use by default. *)
Lemma constant_valid a : forallb is_hex_byte (drop 2 (bytes a)) = true -> has_hex_prefix_bytes (bytes a) = true ->
  len a = 42 -> ValidAddress a = true.
Proof.
  intros Hd Hp Hl. unfold ValidAddress, hasHexPrefix. rewrite Hp, Hl, IsHexAddress_spec. unfold strip_hex_prefix.
  rewrite Hp, Hd. unfold len in Hl. rewrite length_drop, length_bytes.
  assert (String.length a - 2 = 40)%nat as -> by lia. done.
Qed.

Lemma payroll_address_valid : ValidAddress AddressWizPayPayroll = true.
Proof. by apply constant_valid. Qed.
Lemma swap_address_valid : ValidAddress AddressWizPaySwapExecutor = true.
Proof. by apply constant_valid. Qed.

Lemma DefaultDeployments_valid :
  Deployment_Validate payrollDeploymentV1 = Ok tt /\ Deployment_Validate swapDeploymentV1 = Ok tt.
Proof.
  unfold Deployment_Validate, validateAddressMatchesID.
  cbn -[ValidAddress NormalizeAddress validateSafeText validateUniqueStrings validateCanonicalAllowlists].
  rewrite payroll_address_valid, swap_address_valid, !neqb_refl. split; vm_compute; reflexivity.
Qed.

Lemma Register_fresh r d : let n := Normalized d in
  Deployment_Validate d = Ok tt -> find_entry r (dep_ID n) (dep_RegistryVersion n) = None ->
  reg_byLocation r !! location_of n = None ->
  exists r', Register r d = (Ok tt, r') /\ reg_byLocation r' = <[location_of n := (dep_ID n, dep_RegistryVersion n)]> (reg_byLocation r) /\
    (forall id v, find_entry r' id v =
       if decide (id = dep_ID n /\ v = dep_RegistryVersion n) then Some n else find_entry r id v).
Proof.
  cbn zeta. intros Hv Hn Hl. destruct (Register_effect r d) as [[Hf Hr]|(_ & _ & _ & Hf & Hr)]; revert Hf Hr.
  all: unfold Register; rewrite Hv; unfold find_entry in Hn; unfold location_of in *; set (n := Normalized d) in *; clearbody n.
  all: assert (default ∅ (reg_entries r !! dep_ID n) !! dep_RegistryVersion n = None) as ->
    by (destruct (reg_entries r !! dep_ID n); cbn in *; [done|apply lookup_empty]).
  all: cbn [reg_byLocation]; rewrite Hl; cbn [snd]; intros Hf Hr.
  - exfalso. cbn in Hr. rewrite <- Hr, lookup_insert_eq in Hl. discriminate.
  - eexists. split_and!; [reflexivity|exact Hr|exact Hf].
Qed.

Lemma DefaultRegistry_ok : exists r, DefaultRegistry = Ok r /\ registers r /\
  find_entry r ContractWizPayPayroll RegistryVersion = Some (Normalized payrollDeploymentV1) /\
  find_entry r ContractWizPaySwapExecutor RegistryVersion = Some (Normalized swapDeploymentV1).
Proof.
  destruct DefaultDeployments_valid as [Hp Hs].
  destruct (Register_fresh NewRegistry payrollDeploymentV1 Hp eq_refl eq_refl) as (r1 & E1 & L1 & F1).
  assert (location_of (Normalized payrollDeploymentV1) <> location_of (Normalized swapDeploymentV1)) as Hd.
  { pose proof (Normalized_reviewed _ (Deployment_Validate_reviewed _ Hp)) as (_ & _ & _ & Vp & _).
    pose proof (Normalized_reviewed _ (Deployment_Validate_reviewed _ Hs)) as (_ & _ & _ & Vs & _).
    intros E. destruct (locationIndex_inj _ _ _ _ Vp Vs E) as [_ E']. clear E. rename E' into E.
    change (NormalizeAddress (ChecksumAddress AddressWizPayPayroll)
            = NormalizeAddress (ChecksumAddress AddressWizPaySwapExecutor)) in E.
    rewrite !NormalizeAddress_checksum, !NormalizeAddress_lower in E by (apply payroll_address_valid || apply swap_address_valid).
    vm_compute in E. discriminate. }
  destruct (Register_fresh r1 swapDeploymentV1 Hs) as (r2 & E2 & _ & F2).
  { by rewrite F1. }
  { rewrite L1, lookup_insert_ne by done. apply lookup_empty. }
  exists r2. split_and!.
  - unfold DefaultRegistry. cbn [DefaultDeployments fold_result]. rewrite E1. cbn. by rewrite E2.
  - replace r2 with (snd (Register r1 swapDeploymentV1)) by by rewrite E2. apply registers_add.
    replace r1 with (snd (Register NewRegistry payrollDeploymentV1)) by by rewrite E1. apply registers_add, registers_new.
  - rewrite F2, decide_False, F1, decide_True; done || by intros [? _].
  - by rewrite F2, decide_True.
Qed.
End registry_invariant.

Module DeploymentSamples.
#[local] Existing Instances Eth.is_hex_address Eth.no_folding.
Import EthDigits.
Definition registry : Registry := Eval vm_compute in match DefaultRegistry with Ok r => r | Err _ => NewRegistry end.
Lemma registry_registers : registers registry.
Proof.
  assert (registry = snd (Register (snd (Register NewRegistry payrollDeploymentV1)) swapDeploymentV1)) as ->
    by (vm_compute; reflexivity).
  apply registers_add, registers_add, registers_new.
Qed.
Definition found : Deployment := Eval vm_compute in Normalized swapDeploymentV1.
Lemma registry_serves_reviewed_witness :
  LookupByAddress registry ChainIDArcMainnet "0x7a051f17b237750ef9d4e63fb75381b9f8755774" = Ok found
  /\ reviewed found.
Proof.
  assert (LookupByAddress registry ChainIDArcMainnet "0x7a051f17b237750ef9d4e63fb75381b9f8755774" = Ok found) as L
    by (vm_compute; reflexivity).
  pose proof (@registry_serves_reviewed _ Eth.is_hex_address_spec _ _ (crypto_spec _) registry registry_registers)
    as (Hlisted & _ & Hlookup & _).
  split; [exact L|]. apply Hlisted. exact (proj1 (Hlookup _ _ _ L)).
Defined.
End DeploymentSamples.
