(* ===== verification/Abi.v ===== *)
(** go-ethereum's accounts/abi, as far as internal/contracts uses it: methods
    and events with their identifiers, and the packing of argument lists.

    The codec itself is a parameter with the documented behaviour: unpacking
    yields values of the declared types, and packed values unpack to
    themselves.  [Netstrings] is a codec with that behaviour. *)
From Stdlib Require Import Ascii.
From S2P Require Import Prelude GoStrings GoText AppErrors Contracts Deployments.
Open Scope string_scope.
Open Scope Z_scope.
Open Scope go_scope.

(** The Solidity types of the reviewed functions and events, and the Go values
    they unpack to: an address is twenty bytes, a [*big.Int] a number. *)
Inductive abi_type : Type := TAddress | TUint256 | TBytes32 | TString | TAddresses | TUints.
Inductive abi_value : Type :=
  | VAddress (a : string) | VUint (n : Z) | VBytes32 (b : string) | VString (s : string)
  | VAddresses (l : list string) | VUints (l : list Z).

Definition is_address (a : string) : bool := len a =? 20.
Definition is_uint256 (n : Z) : bool := (0 <=? n) && (n <? 2 ^ 256).
Definition has_type (v : abi_value) (t : abi_type) : bool :=
  match t, v with
  | TAddress, VAddress a => is_address a
  | TUint256, VUint n => is_uint256 n
  | TBytes32, VBytes32 b => len b =? 32
  | TString, VString _ => true
  | TAddresses, VAddresses l => forallb is_address l
  | TUints, VUints l => forallb is_uint256 l
  | _, _ => false
  end.
Fixpoint typed_values (vs : list abi_value) (ts : list abi_type) : bool :=
  match vs, ts with
  | [], [] => true
  | v :: vs, t :: ts => has_type v t && typed_values vs ts
  | _, _ => false
  end.

(** [Arguments.Pack] and [Arguments.Unpack] *)
Class Abi := {
  Pack : list abi_type -> list abi_value -> result string;
  Unpack : list abi_type -> string -> result (list abi_value)
}.
Class AbiSpec `{Abi} : Prop := {
  Unpack_typed ts data vs : Unpack ts data = Ok vs -> typed_values vs ts = true;
  Unpack_Pack ts vs : typed_values vs ts = true -> exists data, Pack ts vs = Ok data /\ Unpack ts data = Ok vs
}.

(** [abi.Method] and [abi.Event]; [ID] derives from the canonical signature. *)
Record Method := MkMethod { mth_Sig : string; mth_Inputs : list abi_type }.
Record Event := MkEvent { evt_Sig : string; evt_Inputs : list (abi_type * bool) }.

Section identifiers.
Context `{EthCrypto}.
Definition mth_ID (m : Method) : string := Selector4 (mth_Sig m).
Definition evt_ID (e : Event) : string := EventTopic0 (evt_Sig e).
(** [Inputs.NonIndexed()] *)
Definition NonIndexed (e : Event) : list abi_type := fst <$> filter (fun i => snd i = false) (evt_Inputs e).
End identifiers.

Definition find_method (what : string) (methods : list Method) (signature : string) : result Method :=
  match list_find (fun m => mth_Sig m = signature) methods with
  | Some (_, m) => Ok m
  | None => Err (errorf2 "%s method %q is not on the allowlisted ABI fragment" what signature)
  end.
Definition find_event (what : string) (events : list Event) (signature : string) : result Event :=
  match list_find (fun e => evt_Sig e = signature) events with
  | Some (_, e) => Ok e
  | None => Err (errorf2 "%s event %q is not on the allowlisted ABI fragment" what signature)
  end.

(** Inversion of a typed argument list, one argument at a time. *)
Lemma typed_nil vs : typed_values vs [] = true -> vs = [].
Proof. by destruct vs. Qed.
Lemma typed_cons vs t ts : typed_values vs (t :: ts) = true ->
  exists v vs', vs = v :: vs' /\ typed_values vs' ts = true /\
  match t with
  | TAddress => exists a, v = VAddress a /\ is_address a = true
  | TUint256 => exists n, v = VUint n /\ is_uint256 n = true
  | TBytes32 => exists b, v = VBytes32 b /\ len b = 32
  | TString => exists s, v = VString s
  | TAddresses => exists l, v = VAddresses l /\ forallb is_address l = true
  | TUints => exists l, v = VUints l /\ forallb is_uint256 l = true
  end.
Proof.
  destruct vs as [|v vs]; [done|]. intros [Hv Hvs]%andb_true_iff. exists v, vs. split_and!; [done..|].
  destruct t, v; cbn in Hv; try done; rewrite ?Z.eqb_eq in Hv; eauto.
Qed.
Ltac typed_shape H :=
  repeat (apply typed_cons in H; let v := fresh "v" in let vs := fresh "vs" in
    destruct H as (v & vs & -> & H & ?); destruct_and?; repeat match goal with E : exists _, _ |- _ => destruct E end; destruct_and?; subst v);
  apply typed_nil in H; subst.

(** A decoded call is accepted only when its arguments pack back to the data:
    [bytes.Equal(data, append(method.ID, repacked...))]. *)
Definition repacks `{EthCrypto} `{Abi} (m : Method) (vs : list abi_value) (data : string) : bool :=
  match Pack (mth_Inputs m) vs with
  | Ok packed => data == (mth_ID m +:+ packed)
  | Err _ => false
  end.

(** [hexutil.DecodeBig]: a 0x-prefixed quantity. *)
Class HexUtil := DecodeBig : string -> result Z.

(** * A codec with the documented behaviour
    Every value is written as a decimal length, a colon and that many bytes. *)
Module Netstrings.
Definition netstring (s : string) : string := FormatUint (len s) +:+ (":" +:+ s).
Definition read (s : string) : option (string * string) :=
  match Cut s ":" with
  | None => None
  | Some (digits, rest) =>
      match parse_digits digits with
      | None => None
      | Some n => if n <=? len rest then Some (first_bytes (Z.to_nat n) rest, rest_bytes (Z.to_nat n) rest) else None
      end
  end.

Lemma read_netstring a b : read (netstring a +:+ b) = Some (a, b).
Proof.
  unfold read, netstring. rewrite !string_app_assoc. change (":" +:+ (a +:+ b)) with (String ":" (a +:+ b)).
  rewrite Cut_app by by apply FormatUint_free. pose proof (len_nonneg a). rewrite parse_FormatUint by done.
  rewrite (proj2 (Z.leb_le _ _)) by (rewrite len_app; pose proof (len_nonneg b); lia).
  rewrite first_bytes_app, rest_bytes_app by lia. done.
Qed.

Definition write_list (l : list string) : string :=
  netstring (FormatUint (Z.of_nat (length l))) +:+ foldr (fun a acc => netstring a +:+ acc) "" l.
Fixpoint read_items (n : nat) (s : string) : option (list string * string) :=
  match n with
  | O => Some ([], s)
  | S n => match read s with
           | None => None
           | Some (a, s) => match read_items n s with Some (l, s) => Some (a :: l, s) | None => None end
           end
  end.
Definition read_list (s : string) : option (list string * string) :=
  match read s with
  | None => None
  | Some (digits, s) => match parse_digits digits with Some n => read_items (Z.to_nat n) s | None => None end
  end.

Lemma read_items_write l b : read_items (length l) (foldr (fun a acc => netstring a +:+ acc) "" l +:+ b) = Some (l, b).
Proof. induction l as [|a l IH]; cbn; [done|]. by rewrite string_app_assoc, read_netstring, IH. Qed.
Lemma read_list_write l b : read_list (write_list l +:+ b) = Some (l, b).
Proof.
  unfold read_list, write_list. rewrite string_app_assoc, read_netstring, parse_FormatUint by lia.
  by rewrite Nat2Z.id, read_items_write.
Qed.

(** Values as texts, then as netstrings or lists of them. *)
Definition number (s : string) : Z := default 0 (parse_digits s).
Lemma number_FormatUint n : 0 <= n -> number (FormatUint n) = n.
Proof. intros Hn. unfold number. by rewrite parse_FormatUint. Qed.

Definition encode (v : abi_value) : string :=
  match v with
  | VAddress s | VBytes32 s | VString s => netstring s
  | VUint n => netstring (FormatUint n)
  | VAddresses l => write_list l
  | VUints l => write_list (FormatUint <$> l)
  end.
Definition decode (t : abi_type) (s : string) : option (abi_value * string) :=
  match t with
  | TAddress => prod_map VAddress id <$> read s
  | TUint256 => prod_map (fun a => VUint (number a)) id <$> read s
  | TBytes32 => prod_map VBytes32 id <$> read s
  | TString => prod_map VString id <$> read s
  | TAddresses => prod_map VAddresses id <$> read_list s
  | TUints => prod_map (fun l => VUints (number <$> l)) id <$> read_list s
  end.

Lemma decode_encode v t s : has_type v t = true -> decode t (encode v +:+ s) = Some (v, s).
Proof.
  destruct t, v; cbn; try done; intros Ht; rewrite ?read_netstring, ?read_list_write; cbn; try done.
  - unfold is_uint256 in Ht. apply andb_true_iff in Ht as [Ht _]. rewrite number_FormatUint by lia. done.
  - do 3 f_equal. rewrite <- list_fmap_compose. apply list_fmap_fixed. intros n Hn.
    rewrite forallb_forall in Ht. specialize (Ht n Hn).
    unfold is_uint256 in Ht. apply andb_true_iff in Ht as [Ht _]. cbn. apply number_FormatUint. lia.
Qed.

Fixpoint decode_all (ts : list abi_type) (s : string) : option (list abi_value) :=
  match ts with
  | [] => if s == "" then Some [] else None
  | t :: ts => match decode t s with
               | None => None
               | Some (v, s) => match decode_all ts s with Some vs => Some (v :: vs) | None => None end
               end
  end.

#[export] Instance codec : Abi := {
  Pack ts vs := if typed_values vs ts then Ok (foldr (fun v acc => encode v +:+ acc) "" vs)
                else Err (errorf "abi: cannot use value as argument");
  Unpack ts s := match decode_all ts s with
                 | Some vs => if typed_values vs ts then Ok vs else Err (errorf "abi: improperly encoded")
                 | None => Err (errorf "abi: length insufficient")
                 end
}.

#[export] Instance codec_spec : AbiSpec.
Proof.
  split.
  - intros ts data vs. cbn. case_match; [|done]. case_match; congruence.
  - intros ts vs Ht. cbn. rewrite Ht. eexists. split; [done|].
    assert (decode_all ts (foldr (fun v acc => encode v +:+ acc) "" vs) = Some vs) as ->; [|by rewrite Ht].
    revert ts Ht. induction vs as [|v vs IH]; intros [|t ts] Ht; cbn in *; try done.
    apply andb_true_iff in Ht as [Hv Ht]. by rewrite decode_encode, IH.
Qed.
End Netstrings.
