(* ===== verification/PayrollContract.v ===== *)
(** internal/contracts/payroll: the calldata of the WizPay payroll contract
    (abi.go, encoder.go, decoder.go, validation.go), its verification events
    (events.go, event_decoder.go) and its replay domain (reference.go). *)
From S2P Require Import Prelude GoStrings GoText AppErrors Contracts Deployments Abi.
Open Scope string_scope.
Open Scope Z_scope.
Open Scope go_scope.

(** * The reviewed ABI fragment (abi.go) *)
Definition SigExecuteSameTokenPayroll : string := "executeSameTokenPayroll(address,address[],uint256[],string)".
Definition SigExecuteCrossTokenPayroll : string :=
  "executeCrossTokenPayroll(address,address,address[],uint256[],uint256,uint256,uint256,uint256,string)".
Definition SigPayrollBatchExecuted : string :=
  "PayrollBatchExecuted(address,address,address,uint256,uint256,uint256,uint256,string)".
Definition SigPayrollPayment : string := "PayrollPayment(bytes32,address,address,address,uint256,uint256)".
Definition SigPayrollReferenceConsumed : string :=
  "PayrollReferenceConsumed(bytes32,address,address,address,bytes32,uint256,uint256,uint256,uint256,string)".
Definition SigPayrollSurplusRefunded : string := "PayrollSurplusRefunded(bytes32,address,address,uint256)".
Definition SigPayrollSwapExecuted : string :=
  "PayrollSwapExecuted(bytes32,address,address,address,uint256,uint256,uint256,uint256,uint256)".

(** [minimalABI], parsed; the getters take nothing. *)
Definition methods : list Method :=
  [MkMethod SigExecuteSameTokenPayroll [TAddress; TAddresses; TUints; TString];
   MkMethod SigExecuteCrossTokenPayroll
     [TAddress; TAddress; TAddresses; TUints; TUint256; TUint256; TUint256; TUint256; TString]]
  ++ ((fun name => MkMethod name []) <$> take 19 canonicalPayrollReads)
  ++ [MkMethod "usedReferenceHashes(bytes32)" [TBytes32]].
Definition indexed (t : abi_type) : abi_type * bool := (t, true).
Definition plain_input (t : abi_type) : abi_type * bool := (t, false).
Definition events : list Event :=
  [MkEvent SigPayrollBatchExecuted (app (indexed <$> [TAddress; TAddress; TAddress])
     (plain_input <$> [TUint256; TUint256; TUint256; TUint256; TString]));
   MkEvent SigPayrollPayment (app (indexed <$> [TBytes32; TAddress; TAddress])
     (plain_input <$> [TAddress; TUint256; TUint256]));
   MkEvent SigPayrollReferenceConsumed (app (indexed <$> [TBytes32; TAddress; TAddress])
     (plain_input <$> [TAddress; TBytes32; TUint256; TUint256; TUint256; TUint256; TString]));
   MkEvent SigPayrollSurplusRefunded (app (indexed <$> [TBytes32; TAddress; TAddress]) (plain_input <$> [TUint256]));
   MkEvent SigPayrollSwapExecuted (app (indexed <$> [TBytes32; TAddress; TAddress])
     (plain_input <$> [TAddress; TUint256; TUint256; TUint256; TUint256; TUint256]))].

Definition MethodBySignature (signature : string) : result Method := find_method "payroll" methods signature.
Definition EventBySignature (signature : string) : result Event := find_event "payroll" events signature.

(** * Terms of a call (types_mainnet.go, decoder.go) *)
Record SameTokenPayrollInput := MkSameToken {
  sti_Token : string; sti_Recipients : list string; sti_Amounts : list Z; sti_ReferenceID : string
}.
Record CrossTokenPayrollInput := MkCrossTokenInput {
  cti_TokenIn : string; cti_TokenOut : string; cti_Recipients : list string; cti_OutputAmounts : list Z;
  cti_GrossInput : Z; cti_MinTotalOut : Z; cti_MinHopPriceX36 : Z; cti_Deadline : Z; cti_ReferenceID : string
}.
(** The decoded calls carry the same fields. *)
Abbreviation DecodedSameTokenPayroll := SameTokenPayrollInput.
Abbreviation DecodedCrossTokenPayroll := CrossTokenPayrollInput.

Definition maxReferenceIDLength : Z := 64.
Definition maxBatchRecipients : Z := 50.

Section payroll.
Context `{EthCommon} `{UnicodeTables} `{EthCrypto} `{Abi}.

Definition Selector (signature : string) : result string :=
  let! method := MethodBySignature signature in Ok (mth_ID method).

(** A nil registry is the default one. *)
Definition ExpectedDeployment (registry : option Registry) : result Deployment :=
  let! registry := match registry with None => DefaultRegistry | Some r => Ok r end in
  Require_ registry ContractWizPayPayroll RegistryVersion ChainIDArcMainnet NetworkArcMainnet.

(** * Validation (validation.go) *)
Definition validateDeployment (d : Deployment) : result unit :=
  fail_if ((dep_ID d != ContractWizPayPayroll) || (dep_RegistryVersion d != RegistryVersion)
           || (dep_ChainID d != ChainIDArcMainnet) || (dep_Network d != NetworkArcMainnet)
           || negb (AddressesEqual (dep_Address d) AddressWizPayPayroll) || (dep_Status d != DeploymentEnabled))
    (errorf "payroll deployment does not match the canonical Arc Mainnet descriptor").

Definition canonicalToken (value : string) : bool :=
  AddressesEqual value AddressUSDCMainnet || AddressesEqual value AddressEURCMainnet.
Definition canonicalPair (tokenIn tokenOut : string) : bool :=
  (AddressesEqual tokenIn AddressUSDCMainnet && AddressesEqual tokenOut AddressEURCMainnet)
  || (AddressesEqual tokenIn AddressEURCMainnet && AddressesEqual tokenOut AddressUSDCMainnet).

Definition positiveUint128 (name : string) (value : Z) : result unit :=
  do! fail_if (value <=? 0) (errorf1 "%s must be greater than zero" name);
  fail_if (128 <? BitLen value) (errorf1 "%s exceeds uint128" name).

Definition index (i : nat) : string := FormatUint (Z.of_nat i).

Definition batch_line (it : nat * (string * Z)) : result unit :=
  let '(i, (recipient, amount)) := it in
  do! fail_if (negb (ValidAddress recipient) || AddressesEqual recipient zero_address)
        (errorf1 "recipients[%d] is invalid" (index i));
  positiveUint128 ("amounts[" +:+ (index i +:+ "]")) amount.

Definition validateBatch (recipients : list string) (amounts : list Z) (referenceID : string) : result unit :=
  do! fail_if ((Z.of_nat (length recipients) =? 0) || (maxBatchRecipients <? Z.of_nat (length recipients)))
        (errorf1 "recipient count must be between 1 and %d" (FormatUint maxBatchRecipients));
  do! fail_if (Z.of_nat (length amounts) != Z.of_nat (length recipients))
        (errorf "amounts length must match recipients length");
  do! fail_if ((referenceID == "") || (TrimSpace referenceID != referenceID) || (maxReferenceIDLength <? len referenceID))
        (errorf1 "referenceId must be non-empty trimmed text of at most %d bytes" (FormatUint maxReferenceIDLength));
  for_each batch_line (imap pair (combine recipients amounts)).

Definition validateSameToken (i : SameTokenPayrollInput) : result unit :=
  do! fail_if (negb (canonicalToken (sti_Token i))) (errorf "token must be canonical Arc Mainnet USDC or EURC");
  validateBatch (sti_Recipients i) (sti_Amounts i) (sti_ReferenceID i).

Definition distinct_line (seen : gset string) (it : nat * string) : result (gset string) :=
  let '(i, recipient) := it in
  do! fail_if (AddressesEqual recipient AddressWizPayPayroll)
        (errorf1 "recipients[%d] cannot be the payroll contract" (index i));
  let normalized := NormalizeAddress recipient in
  do! fail_if (bool_decide (normalized ∈ seen)) (errorf1 "recipients[%d] is duplicated" (index i));
  Ok ({[normalized]} ∪ seen).

Definition validateCrossToken (i : CrossTokenPayrollInput) : result unit :=
  do! fail_if (negb (canonicalPair (cti_TokenIn i) (cti_TokenOut i)))
        (errorf "token pair must be canonical Arc Mainnet USDC/EURC");
  do! validateBatch (cti_Recipients i) (cti_OutputAmounts i) (cti_ReferenceID i);
  let! _ := fold_result distinct_line ∅ (imap pair (cti_Recipients i)) in
  do! for_each (fun nv => positiveUint128 (fst nv) (snd nv))
        [("grossInput", cti_GrossInput i); ("minTotalOut", cti_MinTotalOut i);
         ("minHopPriceX36", cti_MinHopPriceX36 i); ("deadline", cti_Deadline i)];
  fail_if (cti_MinTotalOut i <? foldl Z.add 0 (cti_OutputAmounts i))
    (errorf "minTotalOut must cover exact output obligations").

Fixpoint reject_unlisted (signatures : list string) (selector : string) : result unit :=
  match signatures with
  | [] => Err (errorf "selector is not an allowlisted payroll Mainnet selector")
  | signature :: rest =>
      let! allowed := Selector signature in
      if selector == allowed then Ok tt else reject_unlisted rest selector
  end.
Definition RejectAdminSelector (selector : string) : result unit :=
  reject_unlisted [SigExecuteSameTokenPayroll; SigExecuteCrossTokenPayroll] selector.

(** * Encoding (encoder.go) *)
Definition buildCall (d : Deployment) (signature selector packed : string) : result EncodedCall :=
  do! fail_if (len selector != 4) (errorf "invalid selector length");
  do! RejectAdminSelector selector;
  NewEncodedCall d signature selector (selector +:+ packed).

Definition checked_deployment (registry : option Registry) : result Deployment :=
  let! deployment := ExpectedDeployment registry in
  do! map_err (Wrap CodeValidationError "Payroll deployment validation failed." false true true)
        (validateDeployment deployment);
  Ok deployment.

Definition EncodeSameTokenPayroll (registry : option Registry) (i : SameTokenPayrollInput) : result EncodedCall :=
  let! deployment := checked_deployment registry in
  do! map_err (Wrap CodeValidationError "Same-token payroll descriptor is invalid." false true true) (validateSameToken i);
  let! method := MethodBySignature SigExecuteSameTokenPayroll in
  let! packed := map_err (errorf_wrap "encode same-token payroll descriptor: %w" [])
    (Pack (mth_Inputs method) [VAddress (HexToAddress (sti_Token i)); VAddresses (HexToAddress <$> sti_Recipients i);
       VUints (sti_Amounts i); VString (sti_ReferenceID i)]) in
  buildCall deployment SigExecuteSameTokenPayroll (mth_ID method) packed.

Definition EncodeCrossTokenPayroll (registry : option Registry) (i : CrossTokenPayrollInput) : result EncodedCall :=
  let! deployment := checked_deployment registry in
  do! map_err (Wrap CodeValidationError "Cross-token payroll descriptor is invalid." false true true) (validateCrossToken i);
  let! method := MethodBySignature SigExecuteCrossTokenPayroll in
  let! packed := map_err (errorf_wrap "encode cross-token payroll descriptor: %w" [])
    (Pack (mth_Inputs method) [VAddress (HexToAddress (cti_TokenIn i)); VAddress (HexToAddress (cti_TokenOut i));
       VAddresses (HexToAddress <$> cti_Recipients i); VUints (cti_OutputAmounts i); VUint (cti_GrossInput i);
       VUint (cti_MinTotalOut i); VUint (cti_MinHopPriceX36 i); VUint (cti_Deadline i); VString (cti_ReferenceID i)]) in
  buildCall deployment SigExecuteCrossTokenPayroll (mth_ID method) packed.

(** * Decoding (decoder.go) *)
Definition DecodeSameTokenPayrollCall (data : string) : result DecodedSameTokenPayroll :=
  let! method := MethodBySignature SigExecuteSameTokenPayroll in
  do! fail_if ((len data <? 4) || (first_bytes 4 data != mth_ID method))
        (errorf "calldata selector is not executeSameTokenPayroll");
  let! values := map_err (errorf_wrap "decode same-token payroll calldata: %w" [])
    (Unpack (mth_Inputs method) (rest_bytes 4 data)) in
  do! fail_if (Z.of_nat (length values) != 4) (errorf "decode same-token payroll calldata: %w");
  match values with
  | [VAddress token; VAddresses recipients; VUints amounts; VString referenceID] =>
      let out := MkSameToken (AddressHex token) (AddressHex <$> recipients) amounts referenceID in
      do! validateSameToken out;
      do! fail_if (negb (repacks method values data)) (errorf "same-token payroll calldata is not canonical");
      Ok out
  | _ => Err (errorf "same-token payroll calldata has unexpected ABI types")
  end.

Definition DecodeCrossTokenPayrollCall (data : string) : result DecodedCrossTokenPayroll :=
  let! method := MethodBySignature SigExecuteCrossTokenPayroll in
  do! fail_if ((len data <? 4) || (first_bytes 4 data != mth_ID method))
        (errorf "calldata selector is not executeCrossTokenPayroll");
  let! values := map_err (errorf_wrap "decode cross-token payroll calldata: %w" [])
    (Unpack (mth_Inputs method) (rest_bytes 4 data)) in
  do! fail_if (Z.of_nat (length values) != 9) (errorf "decode cross-token payroll calldata: %w");
  match values with
  | [VAddress tokenIn; VAddress tokenOut; VAddresses recipients; VUints amounts; VUint gross; VUint minimum;
     VUint price; VUint deadline; VString reference] =>
      let out := MkCrossTokenInput (AddressHex tokenIn) (AddressHex tokenOut) (AddressHex <$> recipients) amounts
                   gross minimum price deadline reference in
      do! validateCrossToken out;
      do! fail_if (negb (repacks method values data)) (errorf "cross-token payroll calldata is not canonical");
      Ok out
  | _ => Err (errorf "cross-token payroll calldata has unexpected ABI types")
  end.
End payroll.

(** * Verification events (events.go, event_decoder.go) *)
Record PaymentEvent := MkPayment {
  pmt_ReferenceHash : string; pmt_Employer : string; pmt_TokenOut : string; pmt_Recipient : string;
  pmt_PaymentIndex : Z; pmt_AmountOut : Z
}.
Record ReferenceConsumedEvent := MkReferenceConsumed {
  rcd_ReferenceHash : string; rcd_BatchDigest : string; rcd_Employer : string; rcd_TokenIn : string;
  rcd_TokenOut : string; rcd_TotalInput : Z; rcd_TotalOutput : Z; rcd_TotalFees : Z; rcd_RecipientCount : Z;
  rcd_ReferenceID : string
}.
Record BatchExecutedEvent := MkBatchExecuted {
  bat_Employer : string; bat_TokenIn : string; bat_TokenOut : string; bat_TotalInput : Z; bat_TotalOutput : Z;
  bat_TotalFees : Z; bat_RecipientCount : Z; bat_ReferenceID : string
}.
Record SwapExecutedEvent := MkSwapExecuted {
  swe_ReferenceHash : string; swe_Employer : string; swe_TokenIn : string; swe_TokenOut : string;
  swe_GrossInput : Z; swe_FeeAmount : Z; swe_NetAmountIn : Z; swe_AmountOut : Z; swe_MinTotalOut : Z
}.
Record SurplusRefundedEvent := MkSurplus {
  sur_ReferenceHash : string; sur_Employer : string; sur_TokenOut : string; sur_Amount : Z
}.

Section payroll_events.
Context `{EthCommon} `{UnicodeTables} `{EthCrypto} `{Abi}.

Definition EventTopic0 (signature : string) : result string :=
  let! deployment := ExpectedDeployment None in
  do! fail_if (negb (AllowsEvent deployment signature)) (errorf "payroll event is not allowlisted");
  let! event := EventBySignature signature in
  Ok (evt_ID event).

Definition ValidateEventLog (registry : option Registry) (signature : string) (log : Log) : result unit :=
  let! deployment := ExpectedDeployment registry in
  do! fail_if (negb (AllowsEvent deployment signature)) (errorf "payroll event is not allowlisted");
  do! fail_if ((log_ChainID log != "") && (log_ChainID log != dep_ChainID deployment))
        (errorf "log chain ID does not match payroll deployment");
  do! fail_if (negb (AddressesEqual (log_Address log) (dep_Address deployment)))
        (errorf "log address does not match payroll deployment");
  let! topic0 := EventTopic0 signature in
  fail_if (match log_Topics log with [] => true | t :: _ => t != topic0 end) (errorf "payroll event topic mismatch").

Definition topicHash (topic : string) : string := if len topic =? 32 then topic else of_bytes (replicate 32 0).
Definition topicAddress (topic : string) : string :=
  if len topic != 32 then "" else AddressHex (rest_bytes 12 topic).

(** What every decoder does: the context and topic checks, the data and the
    three indexed topics. *)
Definition decode_log (registry : option Registry) (signature name : string) (count : Z) (log : Log)
    : result (string * string * string * list abi_value) :=
  do! ValidateEventLog registry signature log;
  match log_Topics log with
  | [_; t1; t2; t3] =>
      let! event := EventBySignature signature in
      let! values := map_err (errorf_wrap "decode %s: %w" [name]) (Unpack (NonIndexed event) (log_Data log)) in
      do! fail_if (Z.of_nat (length values) != count) (errorf1 "decode %s: %w" name);
      Ok (t1, t2, t3, values)
  | _ => Err (errorf1 "%s requires four topics" name)
  end.
Definition check_canonical (signature name : string) (values : list abi_value) (log : Log) : result unit :=
  let! event := EventBySignature signature in
  fail_if (match Pack (NonIndexed event) values with Ok packed => packed != log_Data log | Err _ => true end)
    (errorf1 "%s data is not canonical" name).
Definition unexpected {A} (name : string) : result A := Err (errorf1 "%s has unexpected ABI types" name).

Definition DecodePaymentEvent (registry : option Registry) (log : Log) : result PaymentEvent :=
  let! decoded := decode_log registry SigPayrollPayment "PayrollPayment" 3 log in
  match decoded with
  | (t1, t2, t3, [VAddress recipient; VUint index; VUint amount] as values) =>
      do! check_canonical SigPayrollPayment "PayrollPayment" values log;
      Ok (MkPayment (topicHash t1) (topicAddress t2) (topicAddress t3) (AddressHex recipient) index amount)
  | _ => unexpected "PayrollPayment"
  end.

Definition DecodeReferenceConsumedEvent (registry : option Registry) (log : Log) : result ReferenceConsumedEvent :=
  let! decoded := decode_log registry SigPayrollReferenceConsumed "PayrollReferenceConsumed" 7 log in
  match decoded with
  | (t1, t2, t3, [VAddress tokenOut; VBytes32 digest; VUint totalIn; VUint totalOut; VUint fees; VUint count;
                  VString ref] as values) =>
      do! check_canonical SigPayrollReferenceConsumed "PayrollReferenceConsumed" values log;
      Ok (MkReferenceConsumed (topicHash t1) digest (topicAddress t2) (topicAddress t3) (AddressHex tokenOut)
            totalIn totalOut fees count ref)
  | _ => unexpected "PayrollReferenceConsumed"
  end.

Definition DecodeBatchExecutedEvent (registry : option Registry) (log : Log) : result BatchExecutedEvent :=
  let! decoded := decode_log registry SigPayrollBatchExecuted "PayrollBatchExecuted" 5 log in
  match decoded with
  | (t1, t2, t3, [VUint totalIn; VUint totalOut; VUint fees; VUint count; VString ref] as values) =>
      do! check_canonical SigPayrollBatchExecuted "PayrollBatchExecuted" values log;
      Ok (MkBatchExecuted (topicAddress t1) (topicAddress t2) (topicAddress t3) totalIn totalOut fees count ref)
  | _ => unexpected "PayrollBatchExecuted"
  end.

Definition DecodeSwapExecutedEvent (registry : option Registry) (log : Log) : result SwapExecutedEvent :=
  let! decoded := decode_log registry SigPayrollSwapExecuted "PayrollSwapExecuted" 6 log in
  match decoded with
  | (t1, t2, t3, [VAddress tokenOut; VUint gross; VUint fee; VUint net; VUint amountOut; VUint minimum] as values) =>
      do! check_canonical SigPayrollSwapExecuted "PayrollSwapExecuted" values log;
      Ok (MkSwapExecuted (topicHash t1) (topicAddress t2) (topicAddress t3) (AddressHex tokenOut) gross fee net
            amountOut minimum)
  | _ => unexpected "PayrollSwapExecuted"
  end.

Definition DecodeSurplusRefundedEvent (registry : option Registry) (log : Log) : result SurplusRefundedEvent :=
  let! decoded := decode_log registry SigPayrollSurplusRefunded "PayrollSurplusRefunded" 1 log in
  match decoded with
  | (t1, t2, t3, [VUint amount] as values) =>
      do! check_canonical SigPayrollSurplusRefunded "PayrollSurplusRefunded" values log;
      Ok (MkSurplus (topicHash t1) (topicAddress t2) (topicAddress t3) amount)
  | _ => unexpected "PayrollSurplusRefunded"
  end.

(** The replay domain of the contract (reference.go). *)
Definition ReferenceHash (employer referenceID : string) : result string :=
  do! fail_if (negb (ValidAddress employer) || (referenceID == "")) (errorf "reference hash material is invalid");
  let! encoded := Pack [TUint256; TAddress; TAddress; TString]
    [VUint 5042; VAddress (HexToAddress AddressWizPayPayroll); VAddress (HexToAddress employer); VString referenceID] in
  Ok (Keccak256 encoded).
End payroll_events.

(** * Calldata and terms determine each other *)
Section roundtrip.
Context `{EthCommonSpec} `{UnicodeTables} `{EthCrypto} `{!EthCryptoSpec} `{AbiSpec}.

(** The checksum form in which a decoder returns an address. *)
Definition checksummed (s : string) : string := AddressHex (HexToAddress s).

Lemma checksummed_valid s : ValidAddress (checksummed s) = true.
Proof. apply AddressHex_valid, HexToAddress_len. Qed.
Lemma checksummed_equal s t : ValidAddress s = true -> AddressesEqual (checksummed s) t = AddressesEqual s t.
Proof.
  intros Hs. pose proof (AddressHex_HexToAddress _ Hs) as (Vc & _ & E)%AddressesEqual_spec.
  unfold AddressesEqual, checksummed. by rewrite Vc, Hs, E.
Qed.
Lemma checksummed_normal s : ValidAddress s = true -> NormalizeAddress (checksummed s) = NormalizeAddress s.
Proof. intros Hs. apply AddressHex_HexToAddress, AddressesEqual_spec in Hs as (_ & _ & E). exact E. Qed.

Lemma positiveUint128_ok name v : positiveUint128 name v = Ok tt -> 0 < v < 2 ^ 128.
Proof. unfold positiveUint128. intros Hok. ok_reflect. split; [lia|]. apply BitLen_bound; lia. Qed.

Lemma positiveUint128_uint name v : positiveUint128 name v = Ok tt -> is_uint256 v = true.
Proof. intros Hv%positiveUint128_ok. unfold is_uint256. apply andb_true_iff. split; [lia|]. apply Z.ltb_lt. lia. Qed.

Lemma canonicalToken_valid t : canonicalToken t = true -> ValidAddress t = true.
Proof. by intros [(Hv & _)%AddressesEqual_spec|(Hv & _)%AddressesEqual_spec]%orb_true_iff. Qed.
Lemma canonicalPair_valid a b : canonicalPair a b = true -> ValidAddress a = true /\ ValidAddress b = true.
Proof.
  unfold canonicalPair. rewrite orb_true_iff, !andb_true_iff, !AddressesEqual_spec. naive_solver.
Qed.

(** What a valid batch is. *)
Record batch (recipients : list string) (amounts : list Z) (referenceID : string) : Prop := MkBatch {
  batch_count : 1 <= Z.of_nat (length recipients) <= maxBatchRecipients;
  batch_lengths : length amounts = length recipients;
  batch_reference : referenceID <> "" /\ TrimSpace referenceID = referenceID /\ len referenceID <= maxReferenceIDLength;
  batch_recipients : Forall (fun r => ValidAddress r = true /\ AddressesEqual r zero_address = false) recipients;
  batch_amounts : Forall (fun v => 0 < v < 2 ^ 128) amounts
}.

Lemma positiveUint128_complete name v : 0 < v < 2 ^ 128 -> positiveUint128 name v = Ok tt.
Proof.
  intros Hv. unfold positiveUint128. rewrite (proj2 (Z.leb_gt _ _)) by lia. cbn. apply fail_if_ok, Z.ltb_ge.
  unfold BitLen. rewrite (proj2 (Z.eqb_neq _ _)) by lia. rewrite Z.abs_eq by lia.
  pose proof (proj1 (Z.log2_lt_pow2 v 128 ltac:(lia)) ltac:(lia)). lia.
Qed.

Lemma batch_lines recipients amounts : length amounts = length recipients ->
  for_each batch_line (imap pair (combine recipients amounts)) = Ok tt <->
  Forall (fun r => ValidAddress r = true /\ AddressesEqual r zero_address = false) recipients /\
  Forall (fun v => 0 < v < 2 ^ 128) amounts.
Proof.
  intros Hl. assert (forall i r v, batch_line (i, (r, v)) = Ok tt <->
    (ValidAddress r = true /\ AddressesEqual r zero_address = false) /\ 0 < v < 2 ^ 128) as Hline.
  { intros i r v. unfold batch_line. split.
    - intros Hok. apply rbind_ok in Hok as ([] & Hv & Hp). apply positiveUint128_ok in Hp. ok_reflect. auto.
    - intros [[Hv Hz] Hp]. rewrite Hv, Hz. cbn. by apply positiveUint128_complete. }
  rewrite for_each_ok, Forall_lookup. split.
  - intros Hall. rewrite !Forall_lookup. split; intros k x Hk.
    + destruct (lookup_lt_is_Some_2 amounts k) as [v Hv]; [rewrite Hl; by eapply lookup_lt_Some|].
      assert (combine recipients amounts !! k = Some (x, v)) as Hc by by apply lookup_zip_Some.
      specialize (Hall k (k, (x, v))). rewrite list_lookup_imap, Hc in Hall. destruct (proj1 (Hline k x v) (Hall eq_refl)) as [Hres _]; exact Hres.
    + destruct (lookup_lt_is_Some_2 recipients k) as [r Hr]; [rewrite <- Hl; by eapply lookup_lt_Some|].
      assert (combine recipients amounts !! k = Some (r, x)) as Hc by by apply lookup_zip_Some.
      specialize (Hall k (k, (r, x))). rewrite list_lookup_imap, Hc in Hall. destruct (proj1 (Hline k r x) (Hall eq_refl)) as [_ Hres]; exact Hres.
  - intros [Hr Hv] k [i [r v]] Hk. rewrite list_lookup_imap in Hk. apply fmap_Some in Hk as ([r' v'] & Hc & [= -> -> ->]).
    apply lookup_zip_Some in Hc as [Hc1 Hc2]. apply Hline. rewrite Forall_lookup in Hr. rewrite Forall_lookup in Hv. eauto.
Qed.

Lemma validateBatch_ok recipients amounts referenceID :
  validateBatch recipients amounts referenceID = Ok tt <-> batch recipients amounts referenceID.
Proof.
  unfold validateBatch. split.
  - intros Hok. repeat (apply rbind_ok in Hok as ([] & ? & Hok)). ok_reflect.
    assert (length amounts = length recipients) as Hl by lia. apply batch_lines in Hok as [? ?]; [|done].
    by split; [lia|..].
  - intros [Hc Hl (Hr1 & Hr2 & Hr3) Hrec Ham]. rewrite (proj2 (Z.eqb_neq _ _)), (proj2 (Z.ltb_ge maxBatchRecipients _)) by lia.
    rewrite Hl, neqb_refl, (proj2 (eqb_spec_false _ _) Hr1), Hr2, neqb_refl, (proj2 (Z.ltb_ge maxReferenceIDLength _)) by lia.
    cbn. by apply batch_lines.
Qed.

Lemma batch_checksummed recipients amounts referenceID :
  batch recipients amounts referenceID -> batch (checksummed <$> recipients) amounts referenceID.
Proof.
  intros [Hc Hl Hr Hrec Ham]. split; rewrite ?length_fmap; try done. apply Forall_fmap. eapply Forall_impl; [exact Hrec|].
  intros r [Hv Hz]. cbn. rewrite checksummed_equal by done. split; [apply checksummed_valid|done].
Qed.

Definition sti_checksummed (i : SameTokenPayrollInput) : SameTokenPayrollInput :=
  MkSameToken (checksummed (sti_Token i)) (checksummed <$> sti_Recipients i) (sti_Amounts i) (sti_ReferenceID i).
Definition cti_checksummed (i : CrossTokenPayrollInput) : CrossTokenPayrollInput :=
  MkCrossTokenInput (checksummed (cti_TokenIn i)) (checksummed (cti_TokenOut i)) (checksummed <$> cti_Recipients i)
    (cti_OutputAmounts i) (cti_GrossInput i) (cti_MinTotalOut i) (cti_MinHopPriceX36 i) (cti_Deadline i)
    (cti_ReferenceID i).

Lemma validateSameToken_ok i :
  validateSameToken i = Ok tt <->
  canonicalToken (sti_Token i) = true /\ batch (sti_Recipients i) (sti_Amounts i) (sti_ReferenceID i).
Proof.
  unfold validateSameToken. rewrite <- validateBatch_ok. destruct (canonicalToken _); cbn; naive_solver.
Qed.

Lemma validateSameToken_checksummed i :
  validateSameToken i = Ok tt -> validateSameToken (sti_checksummed i) = Ok tt.
Proof.
  rewrite !validateSameToken_ok. cbn. intros [Ht Hb]. split; [|by apply batch_checksummed].
  unfold canonicalToken. rewrite !checksummed_equal by by apply canonicalToken_valid. done.
Qed.

Lemma distinct_lines_checksummed rs i seen :
  Forall (fun r => ValidAddress r = true) rs ->
  fold_result distinct_line seen (imap (fun k r => (i + k, r))%nat (checksummed <$> rs))
  = fold_result distinct_line seen (imap (fun k r => (i + k, r))%nat rs).
Proof.
  intros Hv. revert i seen. induction Hv as [|r rs Hr Hv IH]; intros i seen; cbn; [done|].
  rewrite checksummed_equal, checksummed_normal by done.
  destruct (AddressesEqual r AddressWizPayPayroll); cbn; [done|].
  destruct (bool_decide _); cbn; [done|].
  pose proof (IH (S i) ({[NormalizeAddress r]} ∪ seen)) as E.
  rewrite (imap_ext _ (fun k r => (S i + k, r)%nat)) by (intros; cbn; f_equal; lia).
  rewrite E. f_equal. apply imap_ext. intros. cbn. f_equal. lia.
Qed.

Lemma validateCrossToken_checksummed i :
  validateCrossToken i = Ok tt -> validateCrossToken (cti_checksummed i) = Ok tt.
Proof.
  unfold validateCrossToken. intros Hok. apply rbind_ok in Hok as ([] & Hp & Hok). apply fail_if_ok, negb_false_iff in Hp.
  apply rbind_ok in Hok as ([] & Hb & Hok). apply validateBatch_ok in Hb.
  pose proof (canonicalPair_valid _ _ Hp) as [Va Vb]. cbn.
  assert (canonicalPair (checksummed (cti_TokenIn i)) (checksummed (cti_TokenOut i)) = true) as ->.
  { unfold canonicalPair. by rewrite !checksummed_equal. }
  cbn. rewrite (proj2 (validateBatch_ok _ _ _) (batch_checksummed _ _ _ Hb)). cbn.
  pose proof (distinct_lines_checksummed (cti_Recipients i) 0 ∅) as E. cbn in E.
  change (fun (k : nat) (r : string) => (k, r)) with (@pair nat string) in E. rewrite E; [exact Hok|].
  eapply Forall_impl; [exact (batch_recipients _ _ _ Hb)|]. by intros r [? _].
Qed.

Lemma batch_typed recipients amounts referenceID :
  batch recipients amounts referenceID ->
  has_type (VAddresses (HexToAddress <$> recipients)) TAddresses = true /\ has_type (VUints amounts) TUints = true.
Proof.
  intros [_ _ _ _ Ham]. cbn. split; apply forallb_forall; intros x Hx; apply list_elem_of_In in Hx.
  - apply list_elem_of_fmap in Hx as (r & -> & _). unfold is_address. rewrite HexToAddress_len. done.
  - rewrite Forall_forall in Ham. specialize (Ham x Hx). cbn in Ham. unfold is_uint256. apply andb_true_iff. split; lia.
Qed.

Lemma selector_len m : len (mth_ID m) = 4.
Proof.
  unfold mth_ID, Selector4. apply (len_first 4). rewrite Keccak256_len. lia.
Qed.

Lemma buildCall_ok d signature selector packed call :
  buildCall d signature selector packed = Ok call ->
  call = newEncodedCall d signature selector (selector +:+ packed) /\ Deployment_Validate d = Ok tt.
Proof. unfold buildCall, NewEncodedCall. intros Hok. ok_inv. done. Qed.

Definition same_method : Method := MkMethod SigExecuteSameTokenPayroll [TAddress; TAddresses; TUints; TString].
Definition cross_method : Method := MkMethod SigExecuteCrossTokenPayroll
  [TAddress; TAddress; TAddresses; TUints; TUint256; TUint256; TUint256; TUint256; TString].
Definition same_values (token : string) (recipients : list string) (x : SameTokenPayrollInput) : list abi_value :=
  [VAddress token; VAddresses recipients; VUints (sti_Amounts x); VString (sti_ReferenceID x)].
Definition cross_values (tokenIn tokenOut : string) (recipients : list string) (x : CrossTokenPayrollInput) : list abi_value :=
  [VAddress tokenIn; VAddress tokenOut; VAddresses recipients; VUints (cti_OutputAmounts x); VUint (cti_GrossInput x);
   VUint (cti_MinTotalOut x); VUint (cti_MinHopPriceX36 x); VUint (cti_Deadline x); VString (cti_ReferenceID x)].

Lemma repacks_ok m vs data : repacks m vs data = true <-> exists packed, Pack (mth_Inputs m) vs = Ok packed /\ data = mth_ID m +:+ packed.
Proof. unfold repacks. destruct (Pack _ _); rewrite ?bool_decide_eq_true; naive_solver. Qed.

Lemma decode_same_ok data x :
  DecodeSameTokenPayrollCall data = Ok x ->
  validateSameToken x = Ok tt /\
  exists token recipients, is_address token = true /\ forallb is_address recipients = true /\
    sti_Token x = AddressHex token /\ sti_Recipients x = AddressHex <$> recipients /\
    repacks same_method (same_values token recipients x) data = true.
Proof.
  unfold DecodeSameTokenPayrollCall. change (MethodBySignature _) with (@Ok error Method same_method). cbn [rbind].
  intros Hok. apply rbind_ok in Hok as ([] & _ & Hok). apply rbind_ok in Hok as (vs & Hu & Hok). apply map_err_ok in Hu.
  apply rbind_ok in Hok as ([] & _ & Hok). apply Unpack_typed in Hu.
  typed_shape Hu. rename x0 into token, x1 into recipients.
  apply rbind_ok in Hok as ([] & Hv & Hok). apply rbind_ok in Hok as ([] & Hr & [= <-]).
  apply fail_if_ok, negb_false_iff in Hr. split; [exact Hv|]. by exists token, recipients.
Qed.

Lemma decode_cross_ok data x :
  DecodeCrossTokenPayrollCall data = Ok x ->
  validateCrossToken x = Ok tt /\
  exists tokenIn tokenOut recipients, is_address tokenIn = true /\ is_address tokenOut = true /\
    forallb is_address recipients = true /\ cti_TokenIn x = AddressHex tokenIn /\ cti_TokenOut x = AddressHex tokenOut /\
    cti_Recipients x = AddressHex <$> recipients /\
    repacks cross_method (cross_values tokenIn tokenOut recipients x) data = true.
Proof.
  unfold DecodeCrossTokenPayrollCall. change (MethodBySignature _) with (@Ok error Method cross_method). cbn [rbind].
  intros Hok. apply rbind_ok in Hok as ([] & _ & Hok). apply rbind_ok in Hok as (vs & Hu & Hok). apply map_err_ok in Hu.
  apply rbind_ok in Hok as ([] & _ & Hok). apply Unpack_typed in Hu.
  typed_shape Hu. rename x0 into tokenIn, x1 into tokenOut, x2 into recipients.
  apply rbind_ok in Hok as ([] & Hv & Hok). apply rbind_ok in Hok as ([] & Hr & [= <-]).
  apply fail_if_ok, negb_false_iff in Hr. split; [exact Hv|]. by exists tokenIn, tokenOut, recipients.
Qed.

Lemma address_list_inj l l' :
  forallb is_address l = true -> forallb is_address l' = true -> AddressHex <$> l = AddressHex <$> l' -> l = l'.
Proof.
  intros Hl Hl' E. assert (HexToAddress <$> (AddressHex <$> l) = HexToAddress <$> (AddressHex <$> l')) as E' by by rewrite E.
  rewrite <- !list_fmap_compose in E'. rewrite !list_fmap_fixed in E'; [done|..]; intros a Ha; apply HexToAddress_AddressHex.
  - rewrite forallb_forall in Hl'. apply Z.eqb_eq, Hl', Ha.
  - rewrite forallb_forall in Hl. apply Z.eqb_eq, Hl, Ha.
Qed.
Lemma address_inj a b : is_address a = true -> is_address b = true -> AddressHex a = AddressHex b -> a = b.
Proof.
  intros Ha Hb E. pose proof (address_list_inj [a] [b]) as Hl. cbn in Hl. rewrite Ha, Hb, E in Hl. specialize (Hl eq_refl eq_refl eq_refl). congruence.
Qed.

(** Unpacking what was packed behind a selector. *)
Lemma call_parts m packed : first_bytes 4 (mth_ID m +:+ packed) = mth_ID m /\ rest_bytes 4 (mth_ID m +:+ packed) = packed
  /\ (len (mth_ID m +:+ packed) <? 4) = false.
Proof.
  pose proof (selector_len m) as Hl. rewrite first_bytes_app, rest_bytes_app by done. split_and!; [done..|].
  apply Z.ltb_ge. rewrite len_app, Hl. pose proof (len_nonneg packed). lia.
Qed.

Lemma decode_encoded_same i packed :
  validateSameToken i = Ok tt ->
  Pack (mth_Inputs same_method) (same_values (HexToAddress (sti_Token i)) (HexToAddress <$> sti_Recipients i) i) = Ok packed ->
  DecodeSameTokenPayrollCall (mth_ID same_method +:+ packed) = Ok (sti_checksummed i).
Proof.
  intros Hv Hp. pose proof (proj1 (validateSameToken_ok _) Hv) as [_ Hb]. apply batch_typed in Hb as [T1 T2].
  destruct (Unpack_Pack (mth_Inputs same_method)
    (same_values (HexToAddress (sti_Token i)) (HexToAddress <$> sti_Recipients i) i)) as (d & Hd & Hu).
  { cbn in T1, T2 |- *. unfold is_address at 1. by rewrite HexToAddress_len, T1, T2. }
  rewrite Hp in Hd. injection Hd as <-. unfold DecodeSameTokenPayrollCall.
  change (MethodBySignature _) with (@Ok error Method same_method). cbn [rbind].
  destruct (call_parts same_method packed) as (-> & -> & ->). rewrite neqb_refl, Hu. cbn [orb fail_if rbind map_err same_values length].
  change (Z.of_nat 4 != 4) with false. cbn [fail_if rbind].
  assert (AddressHex <$> (HexToAddress <$> sti_Recipients i) = checksummed <$> sti_Recipients i) as ->.
  { by rewrite <- list_fmap_compose. }
  change (MkSameToken _ _ _ _) with (sti_checksummed i). rewrite validateSameToken_checksummed by done. cbn [rbind].
  rewrite (proj2 (repacks_ok _ _ _)); [done|]. exists packed. split; [exact Hp|done].
Qed.

Lemma decode_encoded_cross i packed :
  validateCrossToken i = Ok tt ->
  Pack (mth_Inputs cross_method) (cross_values (HexToAddress (cti_TokenIn i)) (HexToAddress (cti_TokenOut i))
    (HexToAddress <$> cti_Recipients i) i) = Ok packed ->
  DecodeCrossTokenPayrollCall (mth_ID cross_method +:+ packed) = Ok (cti_checksummed i).
Proof.
  intros Hv Hp. pose proof Hv as Hv'. unfold validateCrossToken in Hv'.
  repeat (apply rbind_ok in Hv' as (? & ? & Hv')).
  match goal with H : validateBatch _ _ _ = Ok ?u |- _ => destruct u; apply validateBatch_ok, batch_typed in H as [T1 T2] end.
  match goal with H : for_each _ _ = Ok ?u |- _ => destruct u; rename H into Hpos end.
  destruct (Unpack_Pack (mth_Inputs cross_method) (cross_values (HexToAddress (cti_TokenIn i))
    (HexToAddress (cti_TokenOut i)) (HexToAddress <$> cti_Recipients i) i)) as (d & Hd & Hu).
  { apply for_each_ok in Hpos. rewrite !Forall_cons in Hpos. destruct Hpos as (P1 & P2 & P3 & P4 & _). cbn in P1, P2, P3, P4.
    apply positiveUint128_uint in P1, P2, P3, P4.
    cbn in T1, T2 |- *. unfold is_address at 1 2. by rewrite !HexToAddress_len, T1, T2, P1, P2, P3, P4. }
  rewrite Hp in Hd. injection Hd as <-. unfold DecodeCrossTokenPayrollCall.
  change (MethodBySignature _) with (@Ok error Method cross_method). cbn [rbind].
  destruct (call_parts cross_method packed) as (-> & -> & ->). rewrite neqb_refl, Hu. cbn [orb fail_if rbind map_err cross_values length].
  change (Z.of_nat 9 != 9) with false. cbn [fail_if rbind].
  assert (AddressHex <$> (HexToAddress <$> cti_Recipients i) = checksummed <$> cti_Recipients i) as ->.
  { by rewrite <- list_fmap_compose. }
  change (MkCrossTokenInput _ _ _ _ _ _ _ _ _) with (cti_checksummed i). rewrite validateCrossToken_checksummed by done. cbn [rbind].
  rewrite (proj2 (repacks_ok _ _ _)); [done|]. exists packed. split; [exact Hp|done].
Qed.

(** Where an encoded call goes. *)
Definition to_payroll (call : EncodedCall) : Prop :=
  cal_contractID call = ContractWizPayPayroll /\ cal_chainID call = ChainIDArcMainnet /\
  cal_network call = NetworkArcMainnet /\ cal_registryVersion call = RegistryVersion /\
  AddressesEqual (cal_to call) AddressWizPayPayroll = true.
Lemma checked_deployment_call registry d signature selector packed call :
  checked_deployment registry = Ok d -> buildCall d signature selector packed = Ok call ->
  to_payroll call /\ cal_callData call = selector +:+ packed /\ cal_function call = signature.
Proof.
  unfold checked_deployment, validateDeployment, to_payroll. intros Hd [-> _]%buildCall_ok. ok_reflect. cbn. split_and!; done.
Qed.

Lemma encode_same_ok registry i call :
  EncodeSameTokenPayroll registry i = Ok call ->
  to_payroll call /\ cal_function call = SigExecuteSameTokenPayroll /\ DecodeSameTokenPayrollCall (cal_callData call) = Ok (sti_checksummed i).
Proof.
  unfold EncodeSameTokenPayroll. change (MethodBySignature _) with (@Ok error Method same_method).
  intros Hok. apply rbind_ok in Hok as (d & Hd & Hok). apply rbind_ok in Hok as ([] & Hv & Hok). apply map_err_ok in Hv.
  cbn [rbind] in Hok. apply rbind_ok in Hok as (packed & Hp & Hok). apply map_err_ok in Hp.
  destruct (checked_deployment_call _ _ _ _ _ _ Hd Hok) as (Hto & -> & Hf). split_and!; [done..|]. by apply decode_encoded_same.
Qed.
Lemma encode_cross_ok registry i call :
  EncodeCrossTokenPayroll registry i = Ok call ->
  to_payroll call /\ cal_function call = SigExecuteCrossTokenPayroll /\ DecodeCrossTokenPayrollCall (cal_callData call) = Ok (cti_checksummed i).
Proof.
  unfold EncodeCrossTokenPayroll. change (MethodBySignature _) with (@Ok error Method cross_method).
  intros Hok. apply rbind_ok in Hok as (d & Hd & Hok). apply rbind_ok in Hok as ([] & Hv & Hok). apply map_err_ok in Hv.
  cbn [rbind] in Hok. apply rbind_ok in Hok as (packed & Hp & Hok). apply map_err_ok in Hp.
  destruct (checked_deployment_call _ _ _ _ _ _ Hd Hok) as (Hto & -> & Hf). split_and!; [done..|]. by apply decode_encoded_cross.
Qed.

(** [C28] Payroll calldata means what was encoded, and nothing else does:
    decoding an encoded call gives the input back with its addresses in
    checksum form; an encoded call goes to the payroll contract on Arc Mainnet;
    and two calldata that decode to the same terms are the same bytes, so a
    decoded call pins down the transaction input completely. *)
Theorem payroll_calldata_roundtrip :
  (forall registry i call, EncodeSameTokenPayroll registry i = Ok call ->
     to_payroll call /\ DecodeSameTokenPayrollCall (cal_callData call) = Ok (sti_checksummed i)) /\
  (forall registry i call, EncodeCrossTokenPayroll registry i = Ok call ->
     to_payroll call /\ DecodeCrossTokenPayrollCall (cal_callData call) = Ok (cti_checksummed i)) /\
  (forall data data' x, DecodeSameTokenPayrollCall data = Ok x -> DecodeSameTokenPayrollCall data' = Ok x -> data = data') /\
  (forall data data' x, DecodeCrossTokenPayrollCall data = Ok x -> DecodeCrossTokenPayrollCall data' = Ok x -> data = data').
Proof.
  split_and!.
  - intros registry i call (? & _ & ?)%encode_same_ok. auto.
  - intros registry i call (? & _ & ?)%encode_cross_ok. auto.
  - intros data data' x (_ & t & r & Ht & Hr & Et & Er & (p & Hp & ->)%repacks_ok)%decode_same_ok
      (_ & t' & r' & Ht' & Hr' & Et' & Er' & (p' & Hp' & ->)%repacks_ok)%decode_same_ok.
    assert (t = t') as -> by (apply address_inj; congruence). assert (r = r') as -> by (apply address_list_inj; congruence). congruence.
  - intros data data' x (_ & t & o & r & Ht & Ho & Hr & Et & Eo & Er & (p & Hp & ->)%repacks_ok)%decode_cross_ok
      (_ & t' & o' & r' & Ht' & Ho' & Hr' & Et' & Eo' & Er' & (p' & Hp' & ->)%repacks_ok)%decode_cross_ok.
    assert (t = t') as -> by (apply address_inj; congruence). assert (o = o') as -> by (apply address_inj; congruence).
    assert (r = r') as -> by (apply address_list_inj; congruence). congruence.
Qed.
End roundtrip.

Module PayrollContractSamples.
#[local] Existing Instances Eth.is_hex_address Eth.no_folding Eth.is_hex_address_spec.
#[local] Existing Instance EthDigits.crypto.
#[local] Instance crypto_ok : EthCryptoSpec := EthDigits.crypto_spec _.
#[local] Existing Instances Netstrings.codec Netstrings.codec_spec.
Definition terms : SameTokenPayrollInput :=
  MkSameToken AddressUSDCMainnet
    ["0xAbCdEf0000000000000000000000000000000001"; "0x2222222222222222222222222222222222222222"]
    [1500000; 2500000] "payroll-2026-07".
Definition no_call : EncodedCall := MkEncodedCall "" 0 "" "" "" "" "" "".
Definition call : EncodedCall :=
  Eval vm_compute in match EncodeSameTokenPayroll None terms with Ok c => c | Err _ => no_call end.
Definition terms_checksummed : SameTokenPayrollInput := Eval vm_compute in sti_checksummed terms.
Lemma payroll_calldata_roundtrip_witness : DecodeSameTokenPayrollCall (cal_callData call) = Ok terms_checksummed.
Proof.
  refine (proj2 (proj1 payroll_calldata_roundtrip None terms call _)). vm_compute. reflexivity.
Defined.
End PayrollContractSamples.
