(* ===== verification/SwapContract.v ===== *)
(** internal/contracts/swap: the calldata of the swap executor contract
    (abi.go, encoder.go, decoder.go, validation.go) and its event
    (events.go). *)
From S2P Require Import Prelude GoStrings GoText AppErrors Contracts Deployments Abi PayrollContract.
Open Scope string_scope.
Open Scope Z_scope.
Open Scope go_scope.

Definition SigExecuteSwap : string := "executeSwap(address,address,uint256,uint256,uint256,uint256)".
Definition SigWizPayMainnetSwapExecuted : string :=
  "WizPayMainnetSwapExecuted(address,address,address,uint256,uint256,uint256,uint256,uint256)".

Definition swap_methods : list Method :=
  MkMethod SigExecuteSwap [TAddress; TAddress; TUint256; TUint256; TUint256; TUint256]
  :: ((fun name => MkMethod name []) <$> canonicalSwapReads).
Definition swap_events : list Event :=
  [MkEvent SigWizPayMainnetSwapExecuted (app (indexed <$> [TAddress; TAddress; TAddress])
     (plain_input <$> [TUint256; TUint256; TUint256; TUint256; TUint256]))].

Record ExecuteSwapInput := MkSwapInput {
  swi_TokenIn : string; swi_TokenOut : string; swi_AmountIn : Z; swi_MinAmountOut : Z; swi_MinHopPriceX36 : Z;
  swi_Deadline : Z
}.
Abbreviation DecodedExecuteSwap := ExecuteSwapInput.

Record WizPayMainnetSwapExecuted := MkSwapEvent {
  swx_Caller : string; swx_TokenIn : string; swx_TokenOut : string; swx_AmountIn : Z; swx_FeeAmount : Z;
  swx_NetAmountIn : Z; swx_AmountOut : Z; swx_MinAmountOut : Z
}.

Module Swap.
Section swap.
Context `{EthCommon} `{UnicodeTables} `{EthCrypto} `{Abi}.

Definition MethodBySignature (signature : string) : result Method := find_method "swap" swap_methods signature.
Definition EventBySignature (signature : string) : result Event := find_event "swap" swap_events signature.
Definition Selector (signature : string) : result string :=
  let! method := MethodBySignature signature in Ok (mth_ID method).
Definition ExpectedDeployment (registry : option Registry) : result Deployment :=
  let! registry := match registry with None => DefaultRegistry | Some r => Ok r end in
  Require_ registry ContractWizPaySwapExecutor RegistryVersion ChainIDArcMainnet NetworkArcMainnet.

Definition validateDeployment (d : Deployment) : result unit :=
  fail_if ((dep_ID d != ContractWizPaySwapExecutor) || (dep_RegistryVersion d != RegistryVersion)
           || (dep_ChainID d != ChainIDArcMainnet) || (dep_Network d != NetworkArcMainnet)
           || negb (AddressesEqual (dep_Address d) AddressWizPaySwapExecutor) || (dep_Status d != DeploymentEnabled))
    (errorf "swap deployment does not match the canonical Arc Mainnet descriptor").

(** The package has its own copy of [canonicalPair]. *)
Definition validateExecuteSwap (i : ExecuteSwapInput) : result unit :=
  do! fail_if (negb (canonicalPair (swi_TokenIn i) (swi_TokenOut i)))
        (errorf "token pair must be canonical Arc Mainnet USDC/EURC");
  for_each (fun nv =>
    do! fail_if (snd nv <=? 0) (errorf1 "%s must be greater than zero" (fst nv));
    fail_if (128 <? BitLen (snd nv)) (errorf1 "%s exceeds uint128" (fst nv)))
    [("amountIn", swi_AmountIn i); ("minAmountOut", swi_MinAmountOut i); ("minHopPriceX36", swi_MinHopPriceX36 i);
     ("deadline", swi_Deadline i)].

Definition RejectAdminSelector (selector : string) : result unit :=
  let! allowed := Selector SigExecuteSwap in
  fail_if (selector != allowed) (errorf "selector is not the allowlisted swap Mainnet selector").

Definition EncodeExecuteSwap (registry : option Registry) (i : ExecuteSwapInput) : result EncodedCall :=
  let! deployment := ExpectedDeployment registry in
  do! map_err (Wrap CodeValidationError "Swap deployment validation failed." false true true) (validateDeployment deployment);
  do! map_err (Wrap CodeValidationError "Swap descriptor is invalid." false true true) (validateExecuteSwap i);
  let! method := MethodBySignature SigExecuteSwap in
  let! packed := map_err (errorf_wrap "encode swap descriptor: %w" [])
    (Pack (mth_Inputs method) [VAddress (HexToAddress (swi_TokenIn i)); VAddress (HexToAddress (swi_TokenOut i));
       VUint (swi_AmountIn i); VUint (swi_MinAmountOut i); VUint (swi_MinHopPriceX36 i); VUint (swi_Deadline i)]) in
  let selector := mth_ID method in
  do! RejectAdminSelector selector;
  NewEncodedCall deployment SigExecuteSwap selector (mth_ID method +:+ packed).

Definition DecodeExecuteSwapCall (data : string) : result DecodedExecuteSwap :=
  let! method := MethodBySignature SigExecuteSwap in
  do! fail_if ((len data <? 4) || (first_bytes 4 data != mth_ID method)) (errorf "calldata selector is not executeSwap");
  let! values := map_err (errorf_wrap "decode executeSwap calldata: %w" []) (Unpack (mth_Inputs method) (rest_bytes 4 data)) in
  do! fail_if (Z.of_nat (length values) != 6) (errorf "decode executeSwap calldata: %w");
  match values with
  | [VAddress tokenIn; VAddress tokenOut; VUint amountIn; VUint minAmountOut; VUint minHopPrice; VUint deadline] =>
      let out := MkSwapInput (AddressHex tokenIn) (AddressHex tokenOut) amountIn minAmountOut minHopPrice deadline in
      do! validateExecuteSwap out;
      do! fail_if (negb (repacks method values data)) (errorf "executeSwap calldata is not canonical");
      Ok out
  | _ => Err (errorf "executeSwap calldata has unexpected ABI types")
  end.

(** * The event *)
(** [contracts.AddressFromTopic] *)
Definition AddressFromTopic (topic : string) : option string :=
  if len topic != 32 then None
  else if existsb (fun b => negb (b =? 0)) (take 12 (bytes topic)) then None
  else Some (AddressHex (rest_bytes 12 topic)).
Definition topic_address (topic what : string) : result string :=
  match AddressFromTopic topic with Some a => Ok a | None => Err (errorf1 "%s topic is malformed" what) end.

Definition DecodeWizPayMainnetSwapExecuted (registry : option Registry) (log : Log) : result WizPayMainnetSwapExecuted :=
  let! deployment := ExpectedDeployment registry in
  do! fail_if (negb (AllowsEvent deployment SigWizPayMainnetSwapExecuted)
               || ((log_ChainID log != "") && (log_ChainID log != dep_ChainID deployment))
               || negb (AddressesEqual (log_Address log) (dep_Address deployment))
               || (Z.of_nat (length (log_Topics log)) != 4))
        (New CodeValidationError "WizPayMainnetSwapExecuted log context is invalid." false true true);
  let! event := EventBySignature SigWizPayMainnetSwapExecuted in
  match log_Topics log with
  | [t0; t1; t2; t3] =>
      do! fail_if (t0 != evt_ID event) (errorf "swap event topic mismatch");
      let! caller := topic_address t1 "caller" in
      let! tokenIn := topic_address t2 "tokenIn" in
      let! tokenOut := topic_address t3 "tokenOut" in
      let! values := map_err (fun _ => errorf "swap event data is malformed") (Unpack (NonIndexed event) (log_Data log)) in
      do! fail_if (Z.of_nat (length values) != 5) (errorf "swap event data is malformed");
      match values with
      | [VUint amountIn; VUint fee; VUint net; VUint amountOut; VUint minimum] =>
          Ok (MkSwapEvent caller tokenIn tokenOut amountIn fee net amountOut minimum)
      | _ => Err (errorf "swap event amount %d is malformed")
      end
  | _ => Err (New CodeValidationError "WizPayMainnetSwapExecuted log context is invalid." false true true)
  end.

Definition EventTopic0 : result string :=
  let! event := EventBySignature SigWizPayMainnetSwapExecuted in Ok (evt_ID event).
End swap.
End Swap.

(** * Calldata and terms determine each other *)
Section roundtrip.
Context `{EthCommonSpec} `{UnicodeTables} `{EthCrypto} `{!EthCryptoSpec} `{AbiSpec}.

Definition swi_checksummed (i : ExecuteSwapInput) : ExecuteSwapInput :=
  MkSwapInput (checksummed (swi_TokenIn i)) (checksummed (swi_TokenOut i)) (swi_AmountIn i) (swi_MinAmountOut i)
    (swi_MinHopPriceX36 i) (swi_Deadline i).
Definition swap_method : Method := MkMethod SigExecuteSwap [TAddress; TAddress; TUint256; TUint256; TUint256; TUint256].
Definition swap_values (tokenIn tokenOut : string) (x : ExecuteSwapInput) : list abi_value :=
  [VAddress tokenIn; VAddress tokenOut; VUint (swi_AmountIn x); VUint (swi_MinAmountOut x); VUint (swi_MinHopPriceX36 x);
   VUint (swi_Deadline x)].

Lemma validateExecuteSwap_ok i : Swap.validateExecuteSwap i = Ok tt ->
  canonicalPair (swi_TokenIn i) (swi_TokenOut i) = true /\
  Forall (fun v => 0 < v < 2 ^ 128) [swi_AmountIn i; swi_MinAmountOut i; swi_MinHopPriceX36 i; swi_Deadline i].
Proof.
  unfold Swap.validateExecuteSwap. intros Hok. apply rbind_ok in Hok as ([] & Hp & Hok). apply fail_if_ok, negb_false_iff in Hp.
  split; [done|]. apply for_each_ok in Hok. rewrite !Forall_cons in Hok. rewrite !Forall_cons.
  destruct Hok as (P1 & P2 & P3 & P4 & _).
  exact (conj (positiveUint128_ok _ _ P1) (conj (positiveUint128_ok _ _ P2) (conj (positiveUint128_ok _ _ P3)
    (conj (positiveUint128_ok _ _ P4) (Forall_nil_2 _))))).
Qed.

Lemma decode_swap_ok data x :
  Swap.DecodeExecuteSwapCall data = Ok x ->
  Swap.validateExecuteSwap x = Ok tt /\
  exists tokenIn tokenOut, is_address tokenIn = true /\ is_address tokenOut = true /\
    swi_TokenIn x = AddressHex tokenIn /\ swi_TokenOut x = AddressHex tokenOut /\
    repacks swap_method (swap_values tokenIn tokenOut x) data = true.
Proof.
  unfold Swap.DecodeExecuteSwapCall. change (Swap.MethodBySignature _) with (@Ok error Method swap_method). cbn [rbind].
  intros Hok. apply rbind_ok in Hok as ([] & _ & Hok). apply rbind_ok in Hok as (vs & Hu & Hok). apply map_err_ok in Hu.
  apply rbind_ok in Hok as ([] & _ & Hok). apply Unpack_typed in Hu.
  typed_shape Hu. rename x0 into tokenIn, x1 into tokenOut.
  apply rbind_ok in Hok as ([] & Hv & Hok). apply rbind_ok in Hok as ([] & Hr & [= <-]).
  apply fail_if_ok, negb_false_iff in Hr. split; [exact Hv|]. by exists tokenIn, tokenOut.
Qed.

Lemma decode_encoded_swap i packed :
  Swap.validateExecuteSwap i = Ok tt ->
  Pack (mth_Inputs swap_method) (swap_values (HexToAddress (swi_TokenIn i)) (HexToAddress (swi_TokenOut i)) i) = Ok packed ->
  Swap.DecodeExecuteSwapCall (mth_ID swap_method +:+ packed) = Ok (swi_checksummed i).
Proof.
  intros Hv Hp. pose proof (validateExecuteSwap_ok _ Hv) as [Hpair Hpos].
  destruct (Unpack_Pack (mth_Inputs swap_method) (swap_values (HexToAddress (swi_TokenIn i))
    (HexToAddress (swi_TokenOut i)) i)) as (d & Hd & Hu).
  { rewrite !Forall_cons in Hpos. destruct Hpos as (P1 & P2 & P3 & P4 & _). cbn. unfold is_address, is_uint256.
    rewrite !HexToAddress_len, !andb_true_iff. lia. }
  rewrite Hp in Hd. injection Hd as <-. unfold Swap.DecodeExecuteSwapCall.
  change (Swap.MethodBySignature _) with (@Ok error Method swap_method). cbn [rbind].
  destruct (call_parts swap_method packed) as (-> & -> & ->). rewrite neqb_refl, Hu. cbn [orb fail_if rbind map_err swap_values length].
  change (Z.of_nat 6 != 6) with false. cbn [fail_if rbind].
  change (MkSwapInput _ _ _ _ _ _) with (swi_checksummed i).
  assert (Swap.validateExecuteSwap (swi_checksummed i) = Ok tt) as ->.
  { pose proof (canonicalPair_valid _ _ Hpair) as [Va Vb]. unfold Swap.validateExecuteSwap in *. cbn [swi_checksummed swi_TokenIn swi_TokenOut] in *.
    assert (canonicalPair (checksummed (swi_TokenIn i)) (checksummed (swi_TokenOut i)) = true) as ->.
    { unfold canonicalPair. by rewrite !checksummed_equal. }
    apply rbind_ok in Hv as ([] & _ & Hv). exact Hv. }
  cbn [rbind]. rewrite (proj2 (repacks_ok _ _ _)); [done|]. exists packed. split; [exact Hp|done].
Qed.

Definition to_swap (call : EncodedCall) : Prop :=
  cal_contractID call = ContractWizPaySwapExecutor /\ cal_chainID call = ChainIDArcMainnet /\
  cal_network call = NetworkArcMainnet /\ cal_registryVersion call = RegistryVersion /\
  AddressesEqual (cal_to call) AddressWizPaySwapExecutor = true.

Lemma encode_swap_ok registry i call :
  Swap.EncodeExecuteSwap registry i = Ok call ->
  to_swap call /\ cal_function call = SigExecuteSwap /\ Swap.DecodeExecuteSwapCall (cal_callData call) = Ok (swi_checksummed i).
Proof.
  unfold Swap.EncodeExecuteSwap. change (Swap.MethodBySignature _) with (@Ok error Method swap_method).
  intros Hok. apply rbind_ok in Hok as (d & Hd & Hok). apply rbind_ok in Hok as ([] & Hdv & Hok). apply map_err_ok in Hdv.
  apply rbind_ok in Hok as ([] & Hv & Hok). apply map_err_ok in Hv. cbn [rbind] in Hok.
  apply rbind_ok in Hok as (packed & Hp & Hok). apply map_err_ok in Hp. apply rbind_ok in Hok as ([] & _ & Hok).
  unfold NewEncodedCall, Swap.validateDeployment in *. ok_reflect. cbn. split_and!; [by unfold to_swap; cbn|done|].
  by apply decode_encoded_swap.
Qed.

Lemma decode_swap_inj data data' x :
  Swap.DecodeExecuteSwapCall data = Ok x -> Swap.DecodeExecuteSwapCall data' = Ok x -> data = data'.
Proof.
  intros (_ & t & o & Ht & Ho & Et & Eo & (p & Hp & ->)%repacks_ok)%decode_swap_ok
    (_ & t' & o' & Ht' & Ho' & Et' & Eo' & (p' & Hp' & ->)%repacks_ok)%decode_swap_ok.
  assert (t = t') as -> by (apply address_inj; congruence). assert (o = o') as -> by (apply address_inj; congruence). congruence.
Qed.
End roundtrip.
