(* ===== verification/Plans.v ===== *)
(** internal/providers/plan.go: what a single execution submits — a canonical
    token transfer or a sealed contract call — with the freshness bound and the
    native value sealed into it, and the provider's idempotency key. *)
From Stdlib Require Import Ascii.
From S2P Require Import Prelude GoStrings GoText GoTime Sha256 AppErrors Contracts Deployments Abi PayrollContract.
From S2P Require Import SwapContract Execution References.
Open Scope string_scope.
Open Scope Z_scope.
Open Scope go_scope.

(** [PlanKind]; [PlanKindOther ""] is the empty kind. *)
Inductive PlanKind : Type := PlanKindTokenTransfer | PlanKindContractExecution | PlanKindOther (raw : string).
#[global] Instance PlanKind_eq_dec : EqDecision PlanKind.
Proof. solve_decision. Defined.

(** [pln_encodedCall] and its has-flag are one option, as are the freshness
    bound and the native value. *)
Record Plan := MkPlan {
  pln_Kind : PlanKind; pln_WalletBindingID : string; pln_WalletID : string; pln_WalletAddress : string;
  pln_ChainID : string; pln_Network : string; pln_DestinationAddress : string; pln_TokenID : string;
  pln_Amount : string; pln_TokenAddress : string; pln_TokenDecimals : Z; pln_AmountBaseUnits : string;
  pln_encodedCall : option EncodedCall; pln_submitNotAfter : option Time; pln_nativeValueBaseUnits : option string
}.
Record TokenTransferParams := MkTokenTransferParams {
  ttp_WalletBindingID : string; ttp_WalletID : string; ttp_WalletAddress : string; ttp_ChainID : string;
  ttp_Network : string; ttp_Destination : string; ttp_TokenID : string; ttp_TokenAddress : string;
  ttp_TokenDecimals : Z; ttp_Amount : string; ttp_AmountBaseUnits : string
}.
Record ContractExecutionParams := MkContractExecutionParams {
  cep_WalletBindingID : string; cep_WalletID : string; cep_WalletAddress : string; cep_ChainID : string;
  cep_Network : string; cep_Call : EncodedCall; cep_SubmitNotAfter : Time; cep_NativeValueBaseUnits : string
}.

Definition is_some {A} (o : option A) : bool := match o with Some _ => true | None => false end.

Definition EffectiveKind (p : Plan) : PlanKind :=
  if pln_Kind p == PlanKindOther "" then PlanKindTokenTransfer else pln_Kind p.

(** [(whole, fraction, found)] of [strings.Cut(s, ".")] *)
Definition cut_dot (s : string) : string * string * bool :=
  match Cut s "." with Some (whole, fraction) => (whole, fraction, true) | None => (s, "", false) end.
Definition leading_zeros (s : string) : bool := (1 <? len s) && match first_byte s with Some b => b =? 48 | None => false end.

Definition validateExactBaseUnits (decimal baseUnits : string) (decimals : Z) : result unit :=
  do! fail_if ((baseUnits == "") || leading_zeros baseUnits) (errorf "strict token transfer base units are invalid");
  match SetString10 baseUnits with
  | None => Err (errorf "strict token transfer base units must be positive")
  | Some actual =>
      do! fail_if (actual <=? 0) (errorf "strict token transfer base units must be positive");
      let '(whole, fraction, hasFraction) := cut_dot decimal in
      do! fail_if ((decimals <? len fraction) || (whole == "") || (hasFraction && (fraction == "")))
            (errorf "strict token transfer amount precision is invalid");
      match SetString10 (whole +:+ (fraction +:+ Repeat "0" (Z.to_nat (decimals - len fraction)))) with
      | None => Err (errorf "strict token transfer decimal and base units do not match")
      | Some expected =>
          fail_if (expected != actual) (errorf "strict token transfer decimal and base units do not match")
      end
  end.

Definition validateAmount (amount : string) : result unit :=
  do! fail_if ((amount == "") || (80 <? len amount) || (amount != TrimSpace amount))
        (errorf "submission plan amount is invalid");
  let '(whole, fraction, hasFraction) := cut_dot amount in
  do! fail_if ((whole == "") || (hasFraction && (fraction == ""))) (errorf "submission plan amount is invalid");
  let characters := app (runes whole) (runes fraction) in
  do! fail_if (negb (forallb is_digit_byte characters)) (errorf "submission plan amount is invalid");
  fail_if (forallb (fun c => c =? 48) characters) (errorf "submission plan amount must be positive").

Definition validCanonicalNonNegativeInteger (value : string) : bool :=
  if (value == "") || leading_zeros value then false
  else match SetString10 value with Some n => (0 <=? n) && (BitLen n <=? 256) | None => false end.

Definition allowedContractExecutionID (id : string) : bool :=
  (id == ContractWizPayPayroll) || (id == ContractWizPaySwapExecutor).

(** The bound of [SubmitNotAfter()], when it is set and not zero. *)
Definition SubmitNotAfter (p : Plan) : option Time :=
  match pln_submitNotAfter p with Some t => if IsZero t then None else Some (UTC t) | None => None end.
Definition FreshnessExpired (p : Plan) (at_ : Time) : bool :=
  match SubmitNotAfter p with
  | None => false
  | Some bound => if IsZero at_ then true else negb (Before (UTC at_) bound)
  end.
Definition earlier (earliest candidate : Time) : Time :=
    if IsZero candidate then earliest
    else if IsZero earliest || Before (UTC candidate) earliest then UTC candidate else earliest.
Definition EarliestDeadline (candidates : list Time) : Time := fold_left earlier candidates zero_time.

Section plans.
Context `{EthCommon} `{UnicodeTables} `{FoldTables} `{EthCrypto} `{Abi}.
(** The provider package's own [ValidAddress], of reference.go. *)
Abbreviation ProviderAddress := References.ValidAddress.

Definition validateTokenTransfer (p : Plan) : result unit :=
  do! fail_if (is_some (pln_encodedCall p)) (errorf "submission plan token transfer cannot carry an encoded call");
  do! fail_if (is_some (pln_submitNotAfter p))
        (errorf "submission plan token transfer cannot carry a contract freshness bound");
  do! fail_if (is_some (pln_nativeValueBaseUnits p))
        (errorf "submission plan token transfer cannot carry native contract value");
  do! fail_if (negb (validSafeText (pln_TokenID p))) (errorf "submission plan token ID is invalid");
  do! fail_if (negb (ProviderAddress (pln_DestinationAddress p))) (errorf "submission plan destination address is invalid");
  do! fail_if (EqualFold (pln_WalletAddress p) (pln_DestinationAddress p))
        (errorf "submission plan destination cannot equal the source wallet");
  validateAmount (pln_Amount p).

Definition validateContractExecution (p : Plan) : result unit :=
  do! fail_if ((pln_DestinationAddress p != "") || (pln_TokenID p != "") || (pln_Amount p != ""))
        (errorf "submission plan contract execution cannot carry token-transfer fields");
  match pln_encodedCall p with
  | None => Err (errorf "submission plan contract execution requires a sealed encoded call")
  | Some call =>
      do! fail_if (match pln_submitNotAfter p with None => true | Some t => IsZero t end)
            (errorf "submission plan contract execution requires a submit-not-after freshness bound");
      do! fail_if (match pln_nativeValueBaseUnits p with None => true | Some v => negb (validCanonicalNonNegativeInteger v) end)
            (errorf "submission plan contract execution requires exact native value");
      do! fail_if (negb (allowedContractExecutionID (cal_contractID call)))
            (errorf1 "submission plan contract %q is not supported" (cal_contractID call));
      do! fail_if (cal_registryVersion call =? 0) (errorf "submission plan registry version is invalid");
      do! fail_if ((cal_chainID call == "") || (cal_to call == "") || (cal_function call == "") || (len (cal_callData call) <? 4))
            (errorf "submission plan encoded call is incomplete");
      do! fail_if (negb (ProviderAddress (cal_to call))) (errorf "submission plan contract address is invalid");
      do! fail_if (pln_ChainID p != cal_chainID call) (errorf "submission plan chain ID does not match encoded call");
      fail_if ((pln_Network p != "") && (cal_network call != "") && (pln_Network p != cal_network call))
        (errorf "submission plan network does not match encoded call")
  end.

Definition Plan_Validate (p : Plan) : result unit :=
  do! for_each (fun nv => fail_if (negb (validSafeText (snd nv))) (errorf1 "submission plan %s is invalid" (fst nv)))
        [("wallet binding ID", pln_WalletBindingID p); ("wallet ID", pln_WalletID p); ("network", pln_Network p)];
  do! fail_if (negb (validChainID (pln_ChainID p))) (errorf "submission plan chain ID is invalid");
  do! fail_if (negb (ProviderAddress (pln_WalletAddress p))) (errorf "submission plan wallet address is invalid");
  match EffectiveKind p with
  | PlanKindTokenTransfer => validateTokenTransfer p
  | PlanKindContractExecution => validateContractExecution p
  | PlanKindOther _ => Err (errorf "submission plan kind is invalid")
  end.

Definition NewTokenTransferPlan (params : TokenTransferParams) : result Plan :=
  let plan := MkPlan PlanKindTokenTransfer (ttp_WalletBindingID params) (ttp_WalletID params) (ttp_WalletAddress params)
    (ttp_ChainID params) (ttp_Network params) (ttp_Destination params) (ttp_TokenID params) (ttp_Amount params)
    (ttp_TokenAddress params) (ttp_TokenDecimals params) (ttp_AmountBaseUnits params) None None None in
  do! Plan_Validate plan;
  do! fail_if (negb (ProviderAddress (pln_TokenAddress plan)) || (pln_AmountBaseUnits plan == ""))
        (errorf "strict token transfer requires token address and base units");
  do! fail_if (match CanonicalToken (pln_TokenID plan) with
               | Err _ => true
               | Ok canonical =>
                   (pln_ChainID plan != res_ChainID canonical) || (pln_Network plan != res_Network canonical)
                   || negb (AddressesEqual (pln_TokenAddress plan) (res_Address canonical))
                   || (pln_TokenDecimals plan != res_Decimals canonical)
               end) (errorf "strict token transfer requires a canonical Arc Mainnet token");
  do! validateExactBaseUnits (pln_Amount plan) (pln_AmountBaseUnits plan) (pln_TokenDecimals plan);
  Ok plan.

(** USDC is Arc's native token with eighteen decimals. *)
Definition native_scale : Z := 1000000000000.
Definition nativeValueForCall (call : EncodedCall) : result string :=
  if cal_contractID call == ContractWizPayPayroll then
    if cal_function call == SigExecuteCrossTokenPayroll then
      let! decoded := map_err (errorf_wrap "decode cross-token payroll native value: %w" [])
                        (DecodeCrossTokenPayrollCall (cal_callData call)) in
      if AddressesEqual (cti_TokenIn decoded) AddressUSDCMainnet
      then Ok (FormatInt (cti_GrossInput decoded * native_scale)) else Ok "0"
    else Ok "0"
  else if cal_contractID call == ContractWizPaySwapExecutor then
    let! decoded := map_err (errorf_wrap "decode swap native value: %w" []) (Swap.DecodeExecuteSwapCall (cal_callData call)) in
    if AddressesEqual (swi_TokenIn decoded) AddressUSDCMainnet
    then Ok (FormatInt (swi_AmountIn decoded * native_scale)) else Ok "0"
  else Err (errorf "contract execution native value is unsupported").

Definition NewContractExecutionPlan (params : ContractExecutionParams) : result Plan :=
  let call := cep_Call params in
  do! fail_if ((cal_to call == "") || (len (cal_callData call) <? 4))
        (errorf "contract execution plan requires a sealed encoded call");
  do! fail_if (negb (allowedContractExecutionID (cal_contractID call)))
        (errorf1 "contract execution plan contract %q is not supported" (cal_contractID call));
  do! fail_if (IsZero (cep_SubmitNotAfter params))
        (errorf "contract execution plan requires a submit-not-after freshness bound");
  let! expectedNativeValue := nativeValueForCall call in
  do! fail_if ((cep_NativeValueBaseUnits params != "") && (cep_NativeValueBaseUnits params != expectedNativeValue))
        (errorf "contract execution native value does not match sealed call");
  let plan := MkPlan PlanKindContractExecution (cep_WalletBindingID params) (cep_WalletID params) (cep_WalletAddress params)
    (cep_ChainID params) (cep_Network params) "" "" "" "" 0 "" (Some call) (Some (UTC (cep_SubmitNotAfter params)))
    (Some expectedNativeValue) in
  do! Plan_Validate plan;
  Ok plan.

(** A version 4 UUID whose bits are the digest's. *)
Definition idempotencyDomain : string := "WIZPAY_MCP_PROVIDER_IDEMPOTENCY_V1" +:+ of_bytes [10].
Definition uuid (sum : list Z) : string :=
  let masked := imap (fun i b => if (i =? 6)%nat then Z.lor (Z.land b 0x0f) 0x40
                                 else if (i =? 8)%nat then Z.lor (Z.land b 0x3f) 0x80 else b) sum in
  let encoded := bytes (EncodeToString (take 16 masked)) in
  let part lo hi := of_bytes (take (hi - lo) (drop lo encoded)) in
  Join [part 0 8; part 8 12; part 12 16; part 16 20; part 20 32]%nat "-".
Definition IdempotencyKey (r : Request) : result string :=
  do! Request_Validate r;
  Ok (uuid (Sum256 (bytes (idempotencyDomain +:+ frame
    [req_executionID r; req_requestKey r; FormatUint (req_version r); req_operationKey r;
     FormatUint (req_operationVersion r)])))).
End plans.

(** * Deadlines *)
Lemma earlier_spec e c : earlier e c =
  if decide (c = zero_time) then e else if decide (e = zero_time) then c else Z.min e c.
Proof.
  unfold earlier, IsZero, Before, UTC. destruct (c =? zero_time) eqn:E1; reflect_all; [by rewrite decide_True|].
  rewrite decide_False by done. destruct (e =? zero_time) eqn:E2; reflect_all; [by rewrite decide_True|].
  rewrite decide_False by done. cbn. destruct (c <? e) eqn:E3; reflect_all; lia.
Qed.

Lemma EarliestDeadline_from candidates e :
  let r := fold_left earlier candidates e in
  (e <> zero_time -> r <> zero_time /\ r <= e) /\
  (forall c, c ∈ candidates -> c <> zero_time -> r <> zero_time /\ r <= c).
Proof.
  revert e. induction candidates as [|d candidates IH]; intros e; cbn.
  { split; [lia|]. by intros c ?%elem_of_nil. }
  pose proof (earlier_spec e d) as Hx. destruct (IH (earlier e d)) as [Hacc Hin]. unfold zero_time in *.
  set (x := earlier e d) in *. clearbody x. split.
  - intros He. destruct (decide (d = 0)); [subst x; auto|]. destruct (decide (e = 0)); [done|].
    destruct Hacc as [? ?]; [lia|]. split; [done|lia].
  - intros c Hc Hne. apply elem_of_cons in Hc as [->|Hc]; [|auto].
    destruct (decide (d = 0)); [done|]. destruct (decide (e = 0)); [subst x; auto|].
    destruct Hacc as [? ?]; [lia|]. split; [done|lia].
Qed.

(** The earliest deadline precedes every deadline that is set. *)
Lemma EarliestDeadline_bound candidates c :
  c ∈ candidates -> c <> zero_time -> EarliestDeadline candidates <> zero_time /\ EarliestDeadline candidates <= c.
Proof. apply EarliestDeadline_from. Qed.

Lemma FreshnessExpired_at p bound at_ :
  SubmitNotAfter p = Some bound -> bound <= at_ -> FreshnessExpired p at_ = true.
Proof.
  intros Hb Hle. unfold FreshnessExpired. rewrite Hb. destruct (IsZero at_); [done|]. apply negb_true_iff, Z.ltb_ge. exact Hle.
Qed.

Section plan_facts.
Context `{EthCommon} `{UnicodeTables} `{FoldTables} `{EthCrypto} `{Abi}.
Lemma NewContractExecutionPlan_ok params p :
  NewContractExecutionPlan params = Ok p ->
  pln_encodedCall p = Some (cep_Call params) /\ SubmitNotAfter p = Some (cep_SubmitNotAfter params) /\
  pln_ChainID p = cep_ChainID params /\ pln_WalletAddress p = cep_WalletAddress params /\
  pln_WalletID p = cep_WalletID params /\ Plan_Validate p = Ok tt /\
  exists v, pln_nativeValueBaseUnits p = Some v /\ nativeValueForCall (cep_Call params) = Ok v.
Proof.
  unfold NewContractExecutionPlan. intros Hok. ok_inv. cbn. unfold SubmitNotAfter, UTC. cbn.
  match goal with H : IsZero _ = false |- _ => rewrite H end. split_and!; eauto.
Qed.
End plan_facts.
