(* ===== verification/Settlement.v ===== *)
(** internal/payroll and internal/swap, planning: the sealed call that a frozen
    intent stands for (payroll/planner.go, plan.go; swap/planner.go, plan.go),
    and what their verifiers share: a domain verdict and the checks on the
    transaction envelope.  The verdicts themselves are in [PayrollSettlement]
    and [SwapSettlement]. *)
From S2P Require Import Prelude GoStrings GoText GoTime AppErrors Contracts IntentTypes Amounts IntentParams Intents.
From S2P Require Import Deployments Abi PayrollContract SwapContract References ChainEvidence.
Open Scope string_scope.
Open Scope Z_scope.
Open Scope go_scope.

(** The two packages' [Plan]s have the same fields. *)
Record DomainPlan := MkDomainPlan {
  dpl_intentID : string; dpl_intentDigest : string; dpl_capability : Type_; dpl_contractID : string;
  dpl_registryVersion : Z; dpl_chainID : string; dpl_walletAddress : string; dpl_encodedCall : EncodedCall
}.

(** [amount, _ := a.BaseInt()]: the intents were validated. *)
Definition base_int (a : Amount) : Z := match BaseInt a with Ok n => n | Err _ => 0 end.
(** [price, _ := new(big.Int).SetString(s, 10)] *)
Definition big_int (s : string) : Z := match SetString10 s with Some n => n | None => 0 end.

Definition newPlan (capability : Type_) (i : Intent) (call : EncodedCall) : DomainPlan :=
  MkDomainPlan (prm_IntentID (int_params i)) (int_digest i) capability (cal_contractID call) (cal_registryVersion call)
    (cal_chainID call) (own_WalletAddress (prm_Ownership (int_params i))) call.

Section planning.
Context `{EthCommon} `{UnicodeTables} `{EthCrypto} `{Abi}.

(** The binding checks of the two planners, which differ in names only. *)
Definition validateBinding (what reference : string) (version : Z) (expected : result Deployment) (address : string)
    (route : Route) (o : Ownership) : result unit :=
  do! fail_if (rte_Type route != RouteAllowlistedContract) (errorf1 "%s route must be ALLOWLISTED_CONTRACT" what);
  do! fail_if (rte_Reference route != reference) (errorf2 "%s route reference must be %s" what reference);
  do! fail_if (rte_Version route != version) (errorf2 "%s route version must be %d" what (FormatUint version));
  do! fail_if (rte_Version route != RegistryVersion) (errorf2 "%s route version must be %d" what (FormatUint RegistryVersion));
  do! fail_if (own_ChainID o != ChainIDArcMainnet) (errorf2 "%s ownership chain must be %s" what ChainIDArcMainnet);
  do! fail_if (own_Network o != NetworkArcMainnet) (errorf2 "%s ownership network must be %s" what NetworkArcMainnet);
  let! deployment := map_err (errorf_wrap "resolve %s deployment: %w" [what]) expected in
  fail_if ((own_ChainID o != dep_ChainID deployment) || negb (AddressesEqual (dep_Address deployment) address))
    (errorf1 "%s deployment does not match canonical Arc Mainnet binding" what).

(** * Payroll plans (payroll/planner.go) *)
Definition recipient_amount (ir : nat * Recipient) : result Z :=
  map_err (errorf_wrap "recipient %d amount: %w" [index (fst ir)]) (BaseInt (rcp_AmountIn (snd ir))).
Fixpoint amounts_of (lines : list (nat * Recipient)) : result (list Z) :=
  match lines with
  | [] => Ok []
  | ir :: rest => let! n := recipient_amount ir in let! ns := amounts_of rest in Ok (n :: ns)
  end.

Definition planSameToken (registry : option Registry) (i : Intent) (f : PayrollParameters) : result DomainPlan :=
  let! amounts := amounts_of (imap pair (pay_Recipients f)) in
  let! call := map_err (errorf_wrap "encode same-token payroll: %w" []) (EncodeSameTokenPayroll registry
    (MkSameToken (tok_Address (pay_TokenIn f)) (rcp_Address <$> pay_Recipients f) amounts (pay_ReferenceID f))) in
  Ok (newPlan TypePayroll i call).

Definition zero_recipient : Recipient := MkRecipient "" zero_amount zero_token zero_amount zero_amount.
Definition zero_cross : CrossTokenPayrollParameters := MkCrossToken zero_amount zero_amount "" zero_time.
(** [financial.Recipients[0].TokenOut.Address] and [financial.CrossToken] of a
    cross-token payroll. *)
Definition token_out (f : PayrollParameters) : string :=
  tok_Address (rcp_TokenOut (default zero_recipient (pay_Recipients f !! 0%nat))).
Definition cross_token (f : PayrollParameters) : CrossTokenPayrollParameters := default zero_cross (pay_CrossToken f).

Definition cross_terms (f : PayrollParameters) : CrossTokenPayrollInput :=
  let c := cross_token f in
  MkCrossTokenInput (tok_Address (pay_TokenIn f)) (token_out f) (rcp_Address <$> pay_Recipients f)
    ((fun r => base_int (rcp_MinAmountOut r)) <$> pay_Recipients f) (base_int (ct_GrossInput c))
    (base_int (ct_MinTotalOut c)) (big_int (ct_MinHopPriceX36 c)) (Unix (UTC (ct_Deadline c))) (pay_ReferenceID f).

Definition planCrossToken (registry : option Registry) (i : Intent) (f : PayrollParameters) : result DomainPlan :=
  let! call := map_err (errorf_wrap "encode cross-token payroll: %w" []) (EncodeCrossTokenPayroll registry (cross_terms f)) in
  Ok (newPlan TypePayroll i call).

Definition frozen (i : Intent) : bool := negb ((int_digest i == "") || (int_status i == StatusDraft)).

Definition payroll_Plan (registry : option Registry) (i : Intent) : result DomainPlan :=
  do! map_err (errorf_wrap "payroll intent is invalid: %w" []) (Intent_Validate i);
  do! fail_if (prm_Type (int_params i) != TypePayroll) (errorf "payroll planner requires PAYROLL intent");
  do! fail_if (negb (frozen i)) (errorf "payroll planner requires a frozen intent");
  match fin_Payroll (prm_Financial (int_params i)) with
  | None => Err (errorf "payroll financial parameters are required")
  | Some f =>
      do! validateBinding "payroll" RouteReferencePayroll RouteVersionPayroll (ExpectedDeployment registry)
            AddressWizPayPayroll (prm_Route (int_params i)) (prm_Ownership (int_params i));
      if SameTokenExecutable f then planSameToken registry i f
      else
        do! map_err (errorf_wrap "payroll intent is not an executable same-token or cross-token payroll: %w" [])
              (ValidateCrossToken f);
        planCrossToken registry i f
  end.

(** * Swap plans (swap/planner.go) *)
Definition swap_terms (f : SwapParameters) : ExecuteSwapInput :=
  MkSwapInput (tok_Address (swp_InputToken f)) (tok_Address (swp_OutputToken f)) (base_int (swp_InputAmount f))
    (base_int (swp_MinimumOutput f)) (big_int (swp_MinHopPriceX36 f)) (Unix (UTC (swp_Deadline f))).

Definition swap_Plan (registry : option Registry) (i : Intent) : result DomainPlan :=
  do! map_err (errorf_wrap "swap intent is invalid: %w" []) (Intent_Validate i);
  do! fail_if (prm_Type (int_params i) != TypeSwap) (errorf "swap planner requires SWAP intent");
  do! fail_if (negb (frozen i)) (errorf "swap planner requires a frozen intent");
  match fin_Swap (prm_Financial (int_params i)) with
  | None => Err (errorf "swap financial parameters are required")
  | Some f =>
      do! fail_if (negb (Swap_Phase12Executable f)) (errorf "swap intent is not Phase 12 executable");
      do! validateBinding "swap" RouteReferenceSwap RouteVersionSwap (Swap.ExpectedDeployment registry)
            AddressWizPaySwapExecutor (prm_Route (int_params i)) (prm_Ownership (int_params i));
      let! amountIn := map_err (errorf_wrap "swap amountIn: %w" []) (BaseInt (swp_InputAmount f)) in
      let! minAmountOut := map_err (errorf_wrap "swap minAmountOut: %w" []) (BaseInt (swp_MinimumOutput f)) in
      match SetString10 (swp_MinHopPriceX36 f) with
      | None => Err (errorf "swap minHopPriceX36 is invalid")
      | Some minHopPrice =>
          do! fail_if (minHopPrice <=? 0) (errorf "swap minHopPriceX36 is invalid");
          let! call := map_err (errorf_wrap "encode swap: %w" []) (Swap.EncodeExecuteSwap registry
            (MkSwapInput (tok_Address (swp_InputToken f)) (tok_Address (swp_OutputToken f)) amountIn minAmountOut
               minHopPrice (Unix (UTC (swp_Deadline f))))) in
          Ok (newPlan TypeSwap i call)
      end
  end.
End planning.

(** * Verdicts *)
Inductive DomainStatus : Type := DomainVerified | DomainAggregateOnly | DomainUnverified | DomainFailed.
#[global] Instance DomainStatus_eq_dec : EqDecision DomainStatus.
Proof. solve_decision. Defined.
Record DomainResult := MkDomainResult {
  dom_Status : DomainStatus; dom_ReasonCode : string; dom_EventSignature : string; dom_Provable : list string;
  dom_TransactionHash : string; dom_definitiveFailure : bool
}.
Definition DefinitiveFailure (r : DomainResult) : bool := (dom_Status r == DomainFailed) && dom_definitiveFailure r.
Definition FinancialComplete (r : DomainResult) : bool := dom_Status r == DomainVerified.

(** How a verifier leaves its checks early: [return fail(code)], or
    [return result, nil] with nothing decided. *)
Inductive early : Type := Failed (code : string) | Undecided.
Abbreviation failed_if b code := (fail_if b (Failed code)).
Definition concluded (receipt : Receipt) `{UnicodeTables} (verdict : outcome early (string * string * list string)) : DomainResult :=
  let hash := lower_trim (rct_TransactionHash receipt) in
  match verdict with
  | Ok (code, signature, provable) => MkDomainResult DomainVerified code signature provable hash false
  | Err (Failed code) => MkDomainResult DomainFailed code "" [] hash true
  | Err Undecided => MkDomainResult DomainUnverified "RECEIPT_NOT_SUCCESS" "" [] hash false
  end.

Section envelope.
Context `{EthCommon} `{UnicodeTables} `{EthCrypto} `{Abi}.
(** The checks every verdict starts with, up to the transaction's target. *)
Definition envelope (target : string) (plan : DomainPlan) (receipt : Receipt) : outcome early unit :=
  do! fail_if (rct_Status receipt == ReceiptReverted) (Failed "ONCHAIN_EXECUTION_REVERTED");
  do! fail_if (rct_Status receipt != ReceiptSuccess) Undecided;
  do! fail_if (rct_ChainID receipt != ChainIDArcMainnet) (Failed "RECEIPT_CHAIN_MISMATCH");
  do! fail_if (negb (ValidTransactionHash (lower_trim (rct_TransactionHash receipt)))) (Failed "RECEIPT_HASH_INVALID");
  do! fail_if (negb (rct_HasTransaction receipt)) Undecided;
  do! fail_if (negb (AddressesEqual (rct_From receipt) (dpl_walletAddress plan))) (Failed "TRANSACTION_SENDER_MISMATCH");
  fail_if (negb (AddressesEqual (rct_To receipt) target)) (Failed "TRANSACTION_TARGET_MISMATCH").

(** [ReceiptLog.ContractLog] *)
Definition ContractLog (l : ReceiptLog) (chainID : string) : Log :=
  MkLog (rlg_Address l) (rlg_Topics l) (rlg_Data l) chainID.

(** The transaction that the receipt is of: the sealed call, sent by the
    plan's wallet to the contract, and successful on Arc Mainnet. *)
Definition sealed_transaction (target : string) (plan : DomainPlan) (receipt : Receipt) : Prop :=
  rct_Status receipt = ReceiptSuccess /\ rct_ChainID receipt = ChainIDArcMainnet /\ rct_HasTransaction receipt = true /\
  ValidTransactionHash (lower_trim (rct_TransactionHash receipt)) = true /\
  AddressesEqual (rct_From receipt) (dpl_walletAddress plan) = true /\ AddressesEqual (rct_To receipt) target = true /\
  rct_Input receipt = cal_callData (dpl_encodedCall plan).

Lemma envelope_ok target plan receipt :
  envelope target plan receipt = Ok tt -> rct_Input receipt = cal_callData (dpl_encodedCall plan) ->
  sealed_transaction target plan receipt.
Proof.
  unfold envelope, sealed_transaction. intros E Hi. ok_reflect. split_and!; done.
Qed.

Lemma AddressesEqual_refl a : Contracts.ValidAddress a = true -> AddressesEqual a a = true.
Proof. intros Ha. by apply AddressesEqual_spec. Qed.

(** What the planners checked of the route, the owner and the deployment. *)
Lemma validateBinding_ok what reference version expected address route o :
  validateBinding what reference version expected address route o = Ok tt ->
  own_ChainID o = ChainIDArcMainnet /\ own_Network o = NetworkArcMainnet /\
  exists d, expected = Ok d /\ AddressesEqual (dep_Address d) address = true.
Proof. unfold validateBinding. intros E. ok_reflect. eauto. Qed.

(** A DOMAIN_VERIFIED verdict is the end of all the checks. *)
Lemma concluded_verified receipt verdict : dom_Status (concluded receipt verdict) = DomainVerified -> is_ok verdict = true.
Proof. by destruct verdict as [[[? ?] ?]|[]]. Qed.
End envelope.

(** A computation that does not leave the verdict undecided. *)
Section decided.
Definition decided {A} (m : outcome early A) : Prop := m <> Err Undecided.
Lemma decided_ok {A} (a : A) : decided (Ok a).
Proof. done. Qed.
Lemma decided_failed {A} code : @decided A (Err (Failed code)).
Proof. done. Qed.
Lemma decided_fail_if b code : decided (failed_if b code).
Proof. by destruct b. Qed.
Lemma decided_map_err {E A} (m : outcome E A) code : decided (map_err (fun _ => Failed code) m).
Proof. by destruct m. Qed.
Lemma decided_bind {A B} (m : outcome early A) (k : A -> outcome early B) :
  decided m -> (forall a, decided (k a)) -> decided (rbind m k).
Proof. intros Hm Hk. destruct m; cbn; [apply Hk|]. intros [= ->]. by apply Hm. Qed.
Lemma decided_for_each {A} (f : A -> outcome early unit) l : (forall x, decided (f x)) -> decided (for_each f l).
Proof. intros Hf. induction l; cbn; [done|]. by apply decided_bind. Qed.
Lemma decided_fold {S A} (f : S -> A -> outcome early S) l s : (forall s x, decided (f s x)) -> decided (fold_result f s l).
Proof. intros Hf. revert s. induction l as [|x l IH]; intros s; cbn; [done|]. by apply decided_bind. Qed.
End decided.
Create HintDb decided.
#[export] Hint Resolve decided_ok decided_failed decided_fail_if decided_map_err : decided.
(** Descends through binds and matches to the checks. *)
Ltac decide_verdict :=
  repeat first
    [ solve [auto with decided]
    | apply decided_bind; [|intros ?]
    | apply decided_for_each; intros ?
    | apply decided_fold; intros ? ?
    | match goal with |- decided (match ?x with _ => _ end) => destruct x end ].

Section envelope_decided.
Context `{EthCommon} `{UnicodeTables}.
Lemma envelope_decided target plan receipt :
  rct_Status receipt = ReceiptSuccess -> rct_HasTransaction receipt = true -> decided (envelope target plan receipt).
Proof. intros Hs Ht. unfold envelope. rewrite Hs, Ht, neqb_refl. cbn. decide_verdict. Qed.
(** Without it, the verdict waits. *)
Lemma envelope_waits target plan receipt :
  rct_Status receipt = ReceiptSuccess -> rct_ChainID receipt = ChainIDArcMainnet ->
  ValidTransactionHash (lower_trim (rct_TransactionHash receipt)) = true -> rct_HasTransaction receipt = false ->
  envelope target plan receipt = Err Undecided.
Proof. intros Hs Hc Hh Ht. unfold envelope. by rewrite Hs, Hc, Hh, Ht, !neqb_refl. Qed.
End envelope_decided.
