(* ===== verification/PayrollSettlement.v ===== *)
(** internal/payroll/verifier.go: from the receipt of a payroll transaction to
    a verdict on the payroll.  The loop that sorts the contract's logs into
    slices is the list of the contract's events and its projections. *)
From S2P Require Import Prelude GoStrings GoText GoTime AppErrors Contracts IntentTypes Amounts IntentParams Intents.
From S2P Require Import Deployments Abi PayrollContract References ChainEvidence Settlement.
Open Scope string_scope.
Open Scope Z_scope.
Open Scope go_scope.

Inductive payroll_event : Type :=
  | EPayment (e : PaymentEvent) | EReference (e : ReferenceConsumedEvent) | EBatch (e : BatchExecutedEvent)
  | ESwap (e : SwapExecutedEvent) | ESurplus (e : SurplusRefundedEvent).
Definition payments_of (l : list payroll_event) : list PaymentEvent :=
  omap (fun e => match e with EPayment p => Some p | _ => None end) l.
Definition references_of (l : list payroll_event) : list ReferenceConsumedEvent :=
  omap (fun e => match e with EReference p => Some p | _ => None end) l.
Definition batches_of (l : list payroll_event) : list BatchExecutedEvent :=
  omap (fun e => match e with EBatch p => Some p | _ => None end) l.
Definition swaps_of (l : list payroll_event) : list SwapExecutedEvent :=
  omap (fun e => match e with ESwap p => Some p | _ => None end) l.
Definition surplus_of (l : list payroll_event) : list SurplusRefundedEvent :=
  omap (fun e => match e with ESurplus p => Some p | _ => None end) l.

Section verifier.
Context `{EthCommon} `{UnicodeTables} `{EthCrypto} `{Abi} `{HexUtil}.
Context (registry : option Registry).

(** * The plan binds the intent (validatePlan) *)
Definition cross_binds (f : PayrollParameters) (decoded : CrossTokenPayrollInput) : bool :=
  let t := cross_terms f in
  AddressesEqual (cti_TokenIn decoded) (cti_TokenIn t) && AddressesEqual (cti_TokenOut decoded) (cti_TokenOut t)
  && (cti_GrossInput decoded =? cti_GrossInput t) && (cti_MinTotalOut decoded =? cti_MinTotalOut t)
  && (cti_MinHopPriceX36 decoded =? cti_MinHopPriceX36 t) && (cti_Deadline decoded =? cti_Deadline t)
  && (cti_ReferenceID decoded == cti_ReferenceID t)
  && (Z.of_nat (length (cti_Recipients decoded)) =? Z.of_nat (length (pay_Recipients f))).
(** [decoded.Recipients[i]] and the decoded amount against recipient [i]. *)
Definition line_binds (recipients : list string) (amounts : list Z) (want : Recipient -> Amount) (ir : nat * Recipient) : bool :=
  let '(i, r) := ir in
  AddressesEqual (default "" (recipients !! i)) (rcp_Address r) && (default 0 (amounts !! i) =? base_int (want r)).

Definition validatePlan (i : Intent) (plan : DomainPlan) : result unit :=
  let o := prm_Ownership (int_params i) in
  let call := dpl_encodedCall plan in
  do! fail_if ((dpl_intentID plan != prm_IntentID (int_params i)) || (dpl_intentDigest plan != int_digest i)
               || (dpl_capability plan != TypePayroll)) (errorf "plan does not bind the frozen payroll intent");
  do! fail_if ((dpl_contractID plan != ContractWizPayPayroll) || (dpl_registryVersion plan != RegistryVersion)
               || (dpl_chainID plan != ChainIDArcMainnet)) (errorf "plan does not bind the canonical payroll deployment");
  do! fail_if ((dpl_chainID plan != own_ChainID o) || negb (AddressesEqual (dpl_walletAddress plan) (own_WalletAddress o)))
        (errorf "plan sender or chain does not match intent ownership");
  do! fail_if (negb (AddressesEqual (cal_to call) AddressWizPayPayroll) || (cal_contractID call != ContractWizPayPayroll))
        (errorf "plan target is not the canonical payroll contract");
  let! deployment := ExpectedDeployment registry in
  do! fail_if (negb (AddressesEqual (dep_Address deployment) (cal_to call))) (errorf "plan target does not match registry");
  match fin_Payroll (prm_Financial (int_params i)) with
  | None => Err (errorf "payroll financial parameters are required")
  | Some f =>
      if CrossTokenExecutable f then
        let! decoded := DecodeCrossTokenPayrollCall (cal_callData call) in
        let unbound := errorf "plan calldata does not bind cross-token intent" in
        do! fail_if (negb (cross_binds f decoded)) unbound;
        for_each (fun ir => fail_if (negb (line_binds (cti_Recipients decoded) (cti_OutputAmounts decoded) rcp_MinAmountOut ir)) unbound)
          (imap pair (pay_Recipients f))
      else
        do! fail_if (negb (SameTokenExecutable f)) (errorf "intent is not same-token payroll");
        let! decoded := DecodeSameTokenPayrollCall (cal_callData call) in
        let unbound := errorf "plan calldata does not bind intent" in
        do! fail_if (negb (AddressesEqual (sti_Token decoded) (tok_Address (pay_TokenIn f)))
                     || (sti_ReferenceID decoded != pay_ReferenceID f)
                     || (Z.of_nat (length (sti_Recipients decoded)) != Z.of_nat (length (pay_Recipients f)))) unbound;
        for_each (fun ir => fail_if (negb (line_binds (sti_Recipients decoded) (sti_Amounts decoded) rcp_AmountIn ir)) unbound)
          (imap pair (pay_Recipients f))
  end.

(** * The contract's events *)
(** The switch over topic 0; the same-token verifier refuses the events of a
    swap without decoding them. *)
Definition decode_event (cross : bool) (receipt : Receipt) (raw : ReceiptLog) : outcome early (option payroll_event) :=
  let topic sig := match EventTopic0 sig with Ok t => t | Err _ => "" end in
  let log := ContractLog raw (rct_ChainID receipt) in
  let decoded {E} (m : result E) (wrap : E -> payroll_event) (code : string) :=
    match m with Ok e => Ok (Some (wrap e)) | Err _ => Err (Failed code) end in
  if negb (AddressesEqual (rlg_Address raw) AddressWizPayPayroll) then Ok None
  else match rlg_Topics raw with
  | [] => Ok None
  | t :: _ =>
      if t == topic SigPayrollPayment then decoded (DecodePaymentEvent registry log) EPayment "PAYROLL_PAYMENT_MALFORMED"
      else if t == topic SigPayrollReferenceConsumed then
        decoded (DecodeReferenceConsumedEvent registry log) EReference "PAYROLL_REFERENCE_MALFORMED"
      else if t == topic SigPayrollBatchExecuted then
        decoded (DecodeBatchExecutedEvent registry log) EBatch "PAYROLL_BATCH_MALFORMED"
      else if cross then
        if t == topic SigPayrollSwapExecuted then decoded (DecodeSwapExecutedEvent registry log) ESwap "PAYROLL_SWAP_MALFORMED"
        else if t == topic SigPayrollSurplusRefunded then
          decoded (DecodeSurplusRefundedEvent registry log) ESurplus "PAYROLL_SURPLUS_MALFORMED"
        else Ok None
      else if (t == topic SigPayrollSwapExecuted) || (t == topic SigPayrollSurplusRefunded)
      then Err (Failed "CROSS_TOKEN_EVENT_PRESENT")
      else Ok None
  end.
Definition events_of (cross : bool) (receipt : Receipt) : outcome early (list payroll_event) :=
  fold_result (fun events raw => let! e := decode_event cross receipt raw in
                 Ok (match e with Some e => app events [e] | None => events end)) [] (rct_Logs receipt).

(** * The same-token verdict *)
Definition transaction_value (receipt : Receipt) : result Z := DecodeBig (rct_Value receipt).
Definition same_terms (f : PayrollParameters) (decoded : SameTokenPayrollInput) : outcome early unit :=
  do! failed_if (negb (AddressesEqual (sti_Token decoded) (tok_Address (pay_TokenIn f)))
                 || (sti_ReferenceID decoded != pay_ReferenceID f)
                 || (Z.of_nat (length (sti_Recipients decoded)) != Z.of_nat (length (pay_Recipients f)))
                 || (Z.of_nat (length (sti_Amounts decoded)) != Z.of_nat (length (pay_Recipients f))))
        "TRANSACTION_FINANCIAL_MISMATCH";
  for_each (fun ir => failed_if (negb (line_binds (sti_Recipients decoded) (sti_Amounts decoded) rcp_AmountIn ir))
                        "TRANSACTION_FINANCIAL_MISMATCH") (imap pair (pay_Recipients f)).

(** One payment; the indices seen so far and the reference hash of the first. *)
Definition same_payment (wallet : string) (f : PayrollParameters) (st : gset Z * string) (it : nat * PaymentEvent)
    : outcome early (gset Z * string) :=
  let '(seen, referenceHash) := st in
  let '(position, payment) := it in
  let i := pmt_PaymentIndex payment in
  do! failed_if ((i <? 0) || negb (i <? 2 ^ 64) || (i != Z.of_nat position)) "PAYROLL_PAYMENT_INDEX_MISMATCH";
  do! failed_if (bool_decide (i ∈ seen)) "PAYROLL_PAYMENT_INDEX_MISMATCH";
  let recipient := default zero_recipient (pay_Recipients f !! Z.to_nat i) in
  do! failed_if (negb (AddressesEqual (pmt_Employer payment) wallet)
                 || negb (AddressesEqual (pmt_TokenOut payment) (tok_Address (pay_TokenIn f)))
                 || negb (AddressesEqual (pmt_Recipient payment) (rcp_Address recipient))
                 || (pmt_AmountOut payment != base_int (rcp_AmountIn recipient))) "PAYROLL_PAYMENT_MISMATCH";
  do! failed_if (negb (position =? 0)%nat && (pmt_ReferenceHash payment != referenceHash)) "PAYROLL_REFERENCE_HASH_MISMATCH";
  Ok ({[i]} ∪ seen, if (position =? 0)%nat then pmt_ReferenceHash payment else referenceHash).

Definition same_aggregates (wallet referenceHash : string) (f : PayrollParameters) (ref : ReferenceConsumedEvent)
    (batch : BatchExecutedEvent) : outcome early unit :=
  let token := tok_Address (pay_TokenIn f) in
  let total := foldl (fun t r => t + base_int (rcp_AmountIn r)) 0 (pay_Recipients f) in
  let count := Z.of_nat (length (pay_Recipients f)) in
  let maximumFee := Z.quot (total * ContractMaxFeeBPS) 10000 in
  do! failed_if ((rcd_ReferenceHash ref != referenceHash) || negb (AddressesEqual (rcd_Employer ref) wallet)
                 || negb (AddressesEqual (rcd_TokenIn ref) token) || negb (AddressesEqual (rcd_TokenOut ref) token)
                 || (rcd_ReferenceID ref != pay_ReferenceID f)) "PAYROLL_REFERENCE_MISMATCH";
  do! failed_if (negb (AddressesEqual (bat_Employer batch) wallet) || negb (AddressesEqual (bat_TokenIn batch) token)
                 || negb (AddressesEqual (bat_TokenOut batch) token) || (bat_ReferenceID batch != pay_ReferenceID f))
        "PAYROLL_BATCH_MISMATCH";
  failed_if ((rcd_RecipientCount ref != count) || (bat_RecipientCount batch != count) || (rcd_TotalOutput ref != total)
             || (bat_TotalOutput batch != total) || (rcd_TotalInput ref != bat_TotalInput batch)
             || (rcd_TotalFees ref != bat_TotalFees batch) || (maximumFee <? rcd_TotalFees ref)
             || (rcd_TotalInput ref != (total + rcd_TotalFees ref))) "PAYROLL_AGGREGATE_TOTAL_MISMATCH".

Definition verify_same (f : PayrollParameters) (plan : DomainPlan) (receipt : Receipt) : outcome early (string * string * list string) :=
  do! envelope AddressWizPayPayroll plan receipt;
  do! failed_if (match transaction_value receipt with Ok v => v != 0 | Err _ => true end) "TRANSACTION_VALUE_NONZERO";
  do! failed_if (rct_Input receipt != cal_callData (dpl_encodedCall plan)) "TRANSACTION_CALLDATA_PLAN_MISMATCH";
  let! decoded := map_err (fun _ => Failed "TRANSACTION_CALLDATA_INVALID") (DecodeSameTokenPayrollCall (rct_Input receipt)) in
  do! failed_if (negb (SameTokenExecutable f)) "INTENT_NOT_SAME_TOKEN";
  do! same_terms f decoded;
  do! map_err (fun _ => Failed "RECEIPT_LOGS_MALFORMED") (ValidateLogs (rct_Logs receipt));
  let! events := events_of false receipt in
  let payments := payments_of events in
  do! failed_if (Z.of_nat (length payments) != Z.of_nat (length (pay_Recipients f))) "PAYROLL_PAYMENT_COUNT_MISMATCH";
  match references_of events, batches_of events with
  | [ref], [batch] =>
      let! st := fold_result (same_payment (dpl_walletAddress plan) f) (∅, of_bytes (replicate 32 0)) (imap pair payments) in
      do! same_aggregates (dpl_walletAddress plan) (snd st) f ref batch;
      Ok ("SAME_TOKEN_PAYROLL_VERIFIED", SigPayrollBatchExecuted,
          ["sender"; "target"; "zero_native_value"; "calldata"; "ordered_payments"; "aggregate_totals"; "reference"])
  | _, _ => Err (Failed "PAYROLL_AGGREGATE_EVENT_COUNT_MISMATCH")
  end.

(** * The cross-token verdict (verifyCrossToken) *)
Definition cross_obligations (f : PayrollParameters) : Z :=
  foldl (fun t r => t + base_int (rcp_MinAmountOut r)) 0 (pay_Recipients f).
Definition cross_gross (f : PayrollParameters) : Z := base_int (ct_GrossInput (cross_token f)).
Definition cross_minimum (f : PayrollParameters) : Z := base_int (ct_MinTotalOut (cross_token f)).
(** USDC is the native coin: its calls carry the gross input, at 18 decimals. *)
Definition expected_value (f : PayrollParameters) : Z :=
  if AddressesEqual (tok_Address (pay_TokenIn f)) AddressUSDCMainnet then cross_gross f * 1000000000000 else 0.

Definition cross_swap (wallet expectedHash : string) (f : PayrollParameters) (e : SwapExecutedEvent) : outcome early unit :=
  do! failed_if ((swe_ReferenceHash e != expectedHash) || negb (AddressesEqual (swe_Employer e) wallet)
                 || negb (AddressesEqual (swe_TokenIn e) (tok_Address (pay_TokenIn f)))
                 || negb (AddressesEqual (swe_TokenOut e) (token_out f)) || (swe_GrossInput e != cross_gross f)
                 || (swe_MinTotalOut e != cross_minimum f)) "PAYROLL_SWAP_MISMATCH";
  do! failed_if ((swe_NetAmountIn e + swe_FeeAmount e) != cross_gross f) "PAYROLL_FEE_ARITHMETIC_MISMATCH";
  do! failed_if (cross_gross f * ContractMaxFeeBPS <? swe_FeeAmount e * 10000) "PAYROLL_FEE_EXCEEDS_MAXIMUM";
  failed_if ((swe_AmountOut e <? cross_minimum f) || (swe_AmountOut e <? cross_obligations f))
    "PAYROLL_OUTPUT_BELOW_REQUIRED".

Definition cross_payment (wallet expectedHash : string) (f : PayrollParameters) (ip : nat * PaymentEvent) : outcome early unit :=
  let '(i, payment) := ip in
  let recipient := default zero_recipient (pay_Recipients f !! i) in
  failed_if ((pmt_ReferenceHash payment != expectedHash)
             || negb ((0 <=? pmt_PaymentIndex payment) && (pmt_PaymentIndex payment <? 2 ^ 64))
             || (pmt_PaymentIndex payment != Z.of_nat i) || negb (AddressesEqual (pmt_Employer payment) wallet)
             || negb (AddressesEqual (pmt_TokenOut payment) (token_out f))
             || negb (AddressesEqual (pmt_Recipient payment) (rcp_Address recipient))
             || (pmt_AmountOut payment != base_int (rcp_MinAmountOut recipient))) "PAYROLL_PAYMENT_MISMATCH".

Definition cross_aggregates (wallet expectedHash : string) (f : PayrollParameters) (fee : Z) (ref : ReferenceConsumedEvent)
    (batch : BatchExecutedEvent) : outcome early unit :=
  let count := Z.of_nat (length (pay_Recipients f)) in
  do! failed_if ((rcd_ReferenceHash ref != expectedHash) || negb (AddressesEqual (rcd_Employer ref) wallet)
                 || negb (AddressesEqual (rcd_TokenIn ref) (tok_Address (pay_TokenIn f)))
                 || negb (AddressesEqual (rcd_TokenOut ref) (token_out f)) || (rcd_ReferenceID ref != pay_ReferenceID f)
                 || (rcd_TotalInput ref != cross_gross f) || (rcd_TotalOutput ref != cross_obligations f)
                 || (rcd_TotalFees ref != fee) || (rcd_RecipientCount ref != count)) "PAYROLL_REFERENCE_MISMATCH";
  failed_if (negb (AddressesEqual (bat_Employer batch) wallet)
             || negb (AddressesEqual (bat_TokenIn batch) (tok_Address (pay_TokenIn f)))
             || negb (AddressesEqual (bat_TokenOut batch) (token_out f)) || (bat_ReferenceID batch != pay_ReferenceID f)
             || (bat_TotalInput batch != cross_gross f) || (bat_TotalOutput batch != cross_obligations f)
             || (bat_TotalFees batch != fee) || (bat_RecipientCount batch != count)) "PAYROLL_BATCH_MISMATCH".

Definition cross_surplus (wallet expectedHash : string) (f : PayrollParameters) (surplus : Z)
    (refunds : list SurplusRefundedEvent) : outcome early unit :=
  if 0 <? surplus then
    match refunds with
    | [refund] =>
        failed_if ((sur_ReferenceHash refund != expectedHash) || negb (AddressesEqual (sur_Employer refund) wallet)
                   || negb (AddressesEqual (sur_TokenOut refund) (token_out f)) || (sur_Amount refund != surplus))
          "PAYROLL_SURPLUS_MISMATCH"
    | _ => Err (Failed "PAYROLL_SURPLUS_MISMATCH")
    end
  else failed_if (Z.of_nat (length refunds) != 0) "PAYROLL_UNEXPECTED_SURPLUS".

Definition verify_cross (f : PayrollParameters) (plan : DomainPlan) (receipt : Receipt) : outcome early (string * string * list string) :=
  let wallet := dpl_walletAddress plan in
  do! envelope AddressWizPayPayroll plan receipt;
  do! failed_if (rct_Input receipt != cal_callData (dpl_encodedCall plan)) "TRANSACTION_CALLDATA_PLAN_MISMATCH";
  let! decoded := map_err (fun _ => Failed "TRANSACTION_CALLDATA_INVALID") (DecodeCrossTokenPayrollCall (rct_Input receipt)) in
  do! failed_if (negb (cross_binds f decoded)) "TRANSACTION_FINANCIAL_MISMATCH";
  do! for_each (fun ir => failed_if (negb (line_binds (cti_Recipients decoded) (cti_OutputAmounts decoded) rcp_MinAmountOut ir))
                            "TRANSACTION_FINANCIAL_MISMATCH") (imap pair (pay_Recipients f));
  let! value := map_err (fun _ => Failed "TRANSACTION_VALUE_INVALID") (transaction_value receipt) in
  do! failed_if (value != expected_value f) "TRANSACTION_VALUE_MISMATCH";
  do! map_err (fun _ => Failed "RECEIPT_LOGS_MALFORMED") (ValidateLogs (rct_Logs receipt));
  let! events := events_of true receipt in
  let payments := payments_of events in
  match swaps_of events, references_of events, batches_of events with
  | [swapEvent], [ref], [batch] =>
      do! failed_if (Z.of_nat (length payments) != Z.of_nat (length (pay_Recipients f))) "PAYROLL_EVENT_COUNT_MISMATCH";
      let! expectedHash := map_err (fun _ => Failed "PAYROLL_REFERENCE_HASH_INVALID") (ReferenceHash wallet (pay_ReferenceID f)) in
      do! cross_swap wallet expectedHash f swapEvent;
      do! for_each (cross_payment wallet expectedHash f) (imap pair payments);
      do! cross_aggregates wallet expectedHash f (swe_FeeAmount swapEvent) ref batch;
      do! cross_surplus wallet expectedHash f (swe_AmountOut swapEvent - cross_obligations f) (surplus_of events);
      Ok ("CROSS_TOKEN_PAYROLL_VERIFIED", SigPayrollSwapExecuted,
          ["sender"; "target"; "calldata"; "funding"; "ordered_payments"; "aggregate_totals"; "reference"; "swap"; "surplus"])
  | _, _, _ => Err (Failed "PAYROLL_EVENT_COUNT_MISMATCH")
  end.

Definition payroll_Verify (i : Intent) (plan : DomainPlan) (receipt : Receipt) : result DomainResult :=
  do! map_err (errorf_wrap "payroll intent is invalid: %w" []) (Intent_Validate i);
  do! fail_if ((prm_Type (int_params i) != TypePayroll) || negb (frozen i))
        (errorf "payroll verifier requires a frozen PAYROLL intent");
  do! map_err (errorf_wrap "payroll plan binding is invalid: %w" []) (validatePlan i plan);
  match fin_Payroll (prm_Financial (int_params i)) with
  | None => Err (errorf "payroll financial parameters are required")
  | Some f => Ok (concluded receipt (if CrossTokenExecutable f then verify_cross f plan receipt else verify_same f plan receipt))
  end.
End verifier.

(** * What a verdict means *)
Section settled.
Context `{EthCommon} `{UnicodeTables} `{EthCrypto} `{Abi} `{HexUtil}.
Context (registry : option Registry).

(** Payment [k] of the events pays recipient [k] of the intent. *)
Definition pays (wallet token hash : string) (want : Recipient -> Amount) (k : nat) (r : Recipient) (p : PaymentEvent) : Prop :=
  pmt_PaymentIndex p = Z.of_nat k /\ pmt_ReferenceHash p = hash /\ pmt_AmountOut p = base_int (want r) /\
  AddressesEqual (pmt_Recipient p) (rcp_Address r) = true /\ AddressesEqual (pmt_Employer p) wallet = true /\
  AddressesEqual (pmt_TokenOut p) token = true.
Definition pays_all (wallet token hash : string) (want : Recipient -> Amount) (recipients : list Recipient)
    (payments : list PaymentEvent) : Prop :=
  length payments = length recipients /\
  forall k r p, recipients !! k = Some r -> payments !! k = Some p -> pays wallet token hash want k r p.

(** Both aggregate events report these totals. *)
Definition totals (wallet tokenIn tokenOut reference : string) (input output fees count : Z) (ref : ReferenceConsumedEvent)
    (batch : BatchExecutedEvent) : Prop :=
  (rcd_TotalInput ref = input /\ rcd_TotalOutput ref = output /\ rcd_TotalFees ref = fees /\ rcd_RecipientCount ref = count /\
   rcd_ReferenceID ref = reference /\ AddressesEqual (rcd_Employer ref) wallet = true /\
   AddressesEqual (rcd_TokenIn ref) tokenIn = true /\ AddressesEqual (rcd_TokenOut ref) tokenOut = true) /\
  (bat_TotalInput batch = input /\ bat_TotalOutput batch = output /\ bat_TotalFees batch = fees /\
   bat_RecipientCount batch = count /\ bat_ReferenceID batch = reference /\ AddressesEqual (bat_Employer batch) wallet = true /\
   AddressesEqual (bat_TokenIn batch) tokenIn = true /\ AddressesEqual (bat_TokenOut batch) tokenOut = true).

Definition same_total (f : PayrollParameters) : Z := foldl (fun t r => t + base_int (rcp_AmountIn r)) 0 (pay_Recipients f).

Definition same_settled (f : PayrollParameters) (wallet : string) (receipt : Receipt) : Prop :=
  exists events ref batch fees, events_of registry false receipt = Ok events /\
    references_of events = [ref] /\ batches_of events = [batch] /\
    pays_all wallet (tok_Address (pay_TokenIn f)) (rcd_ReferenceHash ref) rcp_AmountIn (pay_Recipients f) (payments_of events) /\
    totals wallet (tok_Address (pay_TokenIn f)) (tok_Address (pay_TokenIn f)) (pay_ReferenceID f) (same_total f + fees)
      (same_total f) fees (Z.of_nat (length (pay_Recipients f))) ref batch /\
    fees <= Z.quot (same_total f * ContractMaxFeeBPS) 10000.

Definition cross_settled (f : PayrollParameters) (wallet : string) (receipt : Receipt) : Prop :=
  exists events swap ref batch hash, events_of registry true receipt = Ok events /\
    swaps_of events = [swap] /\ references_of events = [ref] /\ batches_of events = [batch] /\
    ReferenceHash wallet (pay_ReferenceID f) = Ok hash /\ rcd_ReferenceHash ref = hash /\ swe_ReferenceHash swap = hash /\
    pays_all wallet (token_out f) hash rcp_MinAmountOut (pay_Recipients f) (payments_of events) /\
    totals wallet (tok_Address (pay_TokenIn f)) (token_out f) (pay_ReferenceID f) (cross_gross f) (cross_obligations f)
      (swe_FeeAmount swap) (Z.of_nat (length (pay_Recipients f))) ref batch /\
    swe_NetAmountIn swap + swe_FeeAmount swap = cross_gross f /\
    swe_FeeAmount swap * 10000 <= cross_gross f * ContractMaxFeeBPS /\
    cross_minimum f <= swe_AmountOut swap /\
    swe_AmountOut swap = cross_obligations f + foldr (fun e n => sur_Amount e + n) 0 (surplus_of events).

Lemma imap_pair_lookup {A} (l : list A) k : imap pair l !! k = pair k <$> l !! k.
Proof. by rewrite list_lookup_imap. Qed.

(** One payment, and the reference hash it leaves. *)
Lemma same_payment_ok wallet f st n p st' :
  same_payment wallet f st (n, p) = Ok st' ->
  pays wallet (tok_Address (pay_TokenIn f)) (snd st') rcp_AmountIn n (default zero_recipient (pay_Recipients f !! n)) p /\
  (n <> 0%nat -> snd st' = snd st).
Proof.
  destruct st as [seen hash]. unfold same_payment. intros E. ok_inv. reflect_all.
  unfold pays. cbn [snd] in *. replace (Z.to_nat (pmt_PaymentIndex p)) with n in * by lia.
  destruct (decide (n = 0%nat)) as [->|Hn]; [cbn; by split_and!|].
  rewrite (proj2 (Nat.eqb_neq n 0)) in * by done. cbn in *. reflect_all. split_and!; done.
Qed.

Lemma same_payments_from wallet f payments : forall n st st',
  fold_result (same_payment wallet f) st (imap (fun i p => ((n + i)%nat, p)) payments) = Ok st' ->
  (forall k p, payments !! k = Some p ->
    pays wallet (tok_Address (pay_TokenIn f)) (snd st') rcp_AmountIn (n + k) (default zero_recipient (pay_Recipients f !! (n + k)%nat)) p) /\
  (n <> 0%nat -> snd st' = snd st).
Proof.
  induction payments as [|p payments IH]; intros n st st' E; cbn in E.
  - injection E as <-. split; [intros k p; by rewrite lookup_nil|done].
  - apply rbind_ok in E as (st1 & E1 & E). rewrite Nat.add_0_r in E1. apply same_payment_ok in E1 as [Hp Hh].
    rewrite (imap_ext _ (fun i p => ((S n + i)%nat, p))) in E by (intros; cbn; f_equal; lia).
    apply IH in E as [Hall Hsame]. split.
    + intros [|k] q Hq; cbn in Hq.
      * injection Hq as <-. rewrite Nat.add_0_r, Hsame by lia. done.
      * rewrite Nat.add_succ_r. by apply Hall.
    + intros Hn. rewrite Hsame by lia. auto.
Qed.

Lemma same_payments_ok wallet f payments hash0 st :
  fold_result (same_payment wallet f) (∅, hash0) (imap pair payments) = Ok st ->
  length payments = length (pay_Recipients f) ->
  pays_all wallet (tok_Address (pay_TokenIn f)) (snd st) rcp_AmountIn (pay_Recipients f) payments.
Proof.
  intros E Hlen. split; [done|]. intros k r p Hr Hp.
  apply (same_payments_from wallet f payments 0) in E as [Hall _]. apply Hall in Hp. cbn [Nat.add] in Hp. by rewrite Hr in Hp.
Qed.

Lemma cross_payments_ok wallet hash f payments :
  for_each (cross_payment wallet hash f) (imap pair payments) = Ok tt ->
  length payments = length (pay_Recipients f) ->
  pays_all wallet (token_out f) hash rcp_MinAmountOut (pay_Recipients f) payments.
Proof.
  intros E Hlen. split; [done|]. intros k r p Hr Hp. rewrite for_each_ok, Forall_forall in E.
  specialize (E (k, p)). unfold cross_payment in E. rewrite Hr in E. cbn in E.
  assert ((k, p) ∈ imap pair payments) as Hk by (apply list_elem_of_lookup; exists k; by rewrite imap_pair_lookup, Hp).
  apply E, fail_if_ok in Hk. unfold pays. reflect_all. split_and!; done.
Qed.

Lemma same_aggregates_ok wallet hash f ref batch :
  same_aggregates wallet hash f ref batch = Ok tt ->
  exists fees, rcd_ReferenceHash ref = hash /\
    totals wallet (tok_Address (pay_TokenIn f)) (tok_Address (pay_TokenIn f)) (pay_ReferenceID f) (same_total f + fees)
      (same_total f) fees (Z.of_nat (length (pay_Recipients f))) ref batch /\
    fees <= Z.quot (same_total f * ContractMaxFeeBPS) 10000.
Proof.
  unfold same_aggregates. fold (same_total f). generalize (same_total f). intros total E. ok_reflect.
  exists (rcd_TotalFees ref). unfold totals. split_and!; done || congruence || lia.
Qed.

Lemma cross_swap_ok wallet hash f e : cross_swap wallet hash f e = Ok tt ->
  swe_ReferenceHash e = hash /\ swe_NetAmountIn e + swe_FeeAmount e = cross_gross f /\
  swe_FeeAmount e * 10000 <= cross_gross f * ContractMaxFeeBPS /\
  cross_minimum f <= swe_AmountOut e /\ cross_obligations f <= swe_AmountOut e.
Proof. unfold cross_swap. intros E. ok_reflect. split_and!; done || lia. Qed.

Lemma cross_aggregates_ok wallet hash f fee ref batch : cross_aggregates wallet hash f fee ref batch = Ok tt ->
  rcd_ReferenceHash ref = hash /\
  totals wallet (tok_Address (pay_TokenIn f)) (token_out f) (pay_ReferenceID f) (cross_gross f) (cross_obligations f)
    fee (Z.of_nat (length (pay_Recipients f))) ref batch.
Proof. unfold cross_aggregates. intros E. ok_reflect. unfold totals. split_and!; done. Qed.

(** Whatever the swap yields beyond the obligations is refunded. *)
Lemma cross_surplus_ok wallet hash f surplus refunds :
  cross_surplus wallet hash f surplus refunds = Ok tt -> 0 <= surplus ->
  surplus = foldr (fun e n => sur_Amount e + n) 0 refunds.
Proof.
  unfold cross_surplus. intros E Hs. destruct (0 <? surplus) eqn:Hpos.
  - destruct refunds as [|refund [|]]; try done. ok_reflect. cbn. lia.
  - ok_reflect. destruct refunds; cbn in *; [|lia]. lia.
Qed.

Lemma verify_same_ok f plan receipt v : verify_same registry f plan receipt = Ok v ->
  sealed_transaction AddressWizPayPayroll plan receipt /\ transaction_value receipt = Ok 0 /\
  ValidateLogs (rct_Logs receipt) = Ok tt /\ same_settled f (dpl_walletAddress plan) receipt.
Proof.
  unfold verify_same. intros E.
  apply rbind_ok in E as ([] & Henv & E). apply rbind_ok in E as ([] & Hval & E). apply rbind_ok in E as ([] & Hin & E).
  apply rbind_ok in E as (decoded & _ & E). apply rbind_ok in E as ([] & _ & E). apply rbind_ok in E as ([] & _ & E).
  apply rbind_ok in E as ([] & Hlogs & E). apply rbind_ok in E as (events & Hev & E).
  apply rbind_ok in E as ([] & Hcount & E). apply fail_if_ok in Hcount, Hval, Hin. reflect_all.
  destruct (references_of events) as [|ref []] eqn:Href; try done. destruct (batches_of events) as [|batch []] eqn:Hb; try done.
  apply rbind_ok in E as (st & Hpay & E). apply rbind_ok in E as ([] & Hagg & _).
  apply same_aggregates_ok in Hagg as (fees & Hh & Htot & Hfee).
  split_and!; [by apply envelope_ok| |by apply map_err_ok in Hlogs|].
  - destruct (transaction_value receipt); [|done]. reflect_all. by subst.
  - exists events, ref, batch, fees. split_and!; try done. rewrite Hh. eapply same_payments_ok; [done|lia].
Qed.

Lemma verify_cross_ok f plan receipt v : verify_cross registry f plan receipt = Ok v ->
  sealed_transaction AddressWizPayPayroll plan receipt /\ transaction_value receipt = Ok (expected_value f) /\
  ValidateLogs (rct_Logs receipt) = Ok tt /\ cross_settled f (dpl_walletAddress plan) receipt.
Proof.
  unfold verify_cross. intros E.
  apply rbind_ok in E as ([] & Henv & E). apply rbind_ok in E as ([] & Hin & E). apply rbind_ok in E as (decoded & _ & E).
  apply rbind_ok in E as ([] & _ & E). apply rbind_ok in E as ([] & _ & E). apply rbind_ok in E as (value & Hval & E).
  apply rbind_ok in E as ([] & Hv & E). apply rbind_ok in E as ([] & Hlogs & E). apply rbind_ok in E as (events & Hev & E).
  apply fail_if_ok in Hin, Hv. reflect_all. subst value.
  destruct (swaps_of events) as [|swap []] eqn:Hs; try done. destruct (references_of events) as [|ref []] eqn:Href; try done.
  destruct (batches_of events) as [|batch []] eqn:Hb; try done.
  apply rbind_ok in E as ([] & Hcount & E). apply rbind_ok in E as (hash & Hhash & E). apply rbind_ok in E as ([] & Hswap & E).
  apply rbind_ok in E as ([] & Hpay & E). apply rbind_ok in E as ([] & Hagg & E). apply rbind_ok in E as ([] & Hsur & _).
  apply fail_if_ok in Hcount. reflect_all.
  apply cross_swap_ok in Hswap as (? & ? & ? & ? & ?). apply cross_aggregates_ok in Hagg as [? ?].
  apply cross_surplus_ok in Hsur; [|lia].
  split_and!; [by apply envelope_ok|by apply map_err_ok in Hval|by apply map_err_ok in Hlogs|].
  exists events, swap, ref, batch, hash. apply map_err_ok in Hhash. split_and!; try done; [|lia].
  apply cross_payments_ok; [done|lia].
Qed.

(** The payroll that the receipt settles, by its kind. *)
Definition payroll_settled (f : PayrollParameters) (plan : DomainPlan) (receipt : Receipt) : Prop :=
  sealed_transaction AddressWizPayPayroll plan receipt /\ ValidateLogs (rct_Logs receipt) = Ok tt /\
  if CrossTokenExecutable f
  then transaction_value receipt = Ok (expected_value f) /\ cross_settled f (dpl_walletAddress plan) receipt
  else transaction_value receipt = Ok 0 /\ same_settled f (dpl_walletAddress plan) receipt.

Lemma payroll_Verify_ok i plan receipt d :
  payroll_Verify registry i plan receipt = Ok d -> dom_Status d = DomainVerified ->
  Intent_Validate i = Ok tt /\ prm_Type (int_params i) = TypePayroll /\ validatePlan registry i plan = Ok tt /\
  exists f, fin_Payroll (prm_Financial (int_params i)) = Some f /\ payroll_settled f plan receipt.
Proof.
  unfold payroll_Verify. intros E Hd. apply rbind_ok in E as ([] & Hi & E). apply rbind_ok in E as ([] & Ht & E).
  apply rbind_ok in E as ([] & Hp & E). apply map_err_ok in Hi, Hp. apply fail_if_ok in Ht. reflect_all.
  destruct (fin_Payroll _) as [f|]; [|done]. injection E as <-. split_and!; try done. exists f. split; [done|].
  apply concluded_verified, is_ok_true in Hd as [v Hv]. unfold payroll_settled.
  destruct (CrossTokenExecutable f); [apply verify_cross_ok in Hv|apply verify_same_ok in Hv]; naive_solver.
Qed.
(** The events are the contract's logs that decode, in their order. *)
Definition event_at (cross : bool) (receipt : Receipt) (raw : ReceiptLog) : option payroll_event :=
  match decode_event registry cross receipt raw with Ok e => e | Err _ => None end.
Definition of_contract (raw : ReceiptLog) : bool := AddressesEqual (rlg_Address raw) AddressWizPayPayroll.

Lemma events_of_logs cross receipt events :
  events_of registry cross receipt = Ok events -> events = omap (event_at cross receipt) (rct_Logs receipt).
Proof.
  unfold events_of. intros E. apply (fold_result_inv (fun done events => events = omap (event_at cross receipt) done)) in E;
    [done..|]. intros done raw l l' -> Hr. apply rbind_ok in Hr as (e & He & Hr). injection Hr as <-.
  rewrite omap_app. cbn [omap list_omap].
  assert (event_at cross receipt raw = e) as -> by (unfold event_at; by rewrite He).
  destruct e; [done|by rewrite app_nil_r].
Qed.

Lemma event_at_contract cross receipt raw e : event_at cross receipt raw = Some e -> of_contract raw = true.
Proof. unfold event_at, decode_event, of_contract. by destruct (AddressesEqual _ _). Qed.

Lemma events_length cross receipt events :
  events_of registry cross receipt = Ok events ->
  (length events + length (filter (fun l => of_contract l = false) (rct_Logs receipt)) <= length (rct_Logs receipt))%nat.
Proof.
  intros ->%events_of_logs. induction (rct_Logs receipt) as [|raw logs IH]; [done|]. rewrite filter_cons.
  pose proof (event_at_contract cross receipt raw) as Hc. cbn [omap list_omap length].
  destruct (event_at cross receipt raw) as [e|]; [rewrite (Hc e eq_refl)|];
    destruct (decide _); cbn; done || lia.
Qed.

Lemma aggregates_length events :
  (length (payments_of events) + length (references_of events) + length (batches_of events) <= length events)%nat.
Proof. induction events as [|[] events IH]; cbn; unfold payments_of, references_of, batches_of in *; lia. Qed.

Lemma settled_logs cross f wallet receipt events ref batch token hash want :
  events_of registry cross receipt = Ok events -> references_of events = [ref] -> batches_of events = [batch] ->
  pays_all wallet token hash want (pay_Recipients f) (payments_of events) -> ValidateLogs (rct_Logs receipt) = Ok tt ->
  Z.of_nat (length (pay_Recipients f)) + 2 + Z.of_nat (length (filter (fun l => of_contract l = false) (rct_Logs receipt)))
  <= MaxReceiptLogs.
Proof.
  intros He Hr Hb [Hlen _] Hl. apply events_length in He. pose proof (aggregates_length events) as Ha.
  rewrite Hr, Hb in Ha. cbn in Ha. unfold ValidateLogs in Hl. apply rbind_ok in Hl as ([] & Hl & _).
  apply fail_if_ok in Hl. reflect_all. lia.
Qed.

(** The log bound limits the payrolls that can be verified: a verified
    payroll of n recipients leaves room for the n payments, the two aggregates
    and every log of another contract among the 64 logs of a receipt.  A token
    that logs its own transfer for each payment therefore admits no more than
    31 recipients, although intents are accepted with up to 50. *)
Theorem verified_payroll_log_budget (i : Intent) (plan : DomainPlan) (receipt : Receipt) (d : DomainResult)
    (Hok : payroll_Verify registry i plan receipt = Ok d) (Hd : dom_Status d = DomainVerified) :
  exists f, fin_Payroll (prm_Financial (int_params i)) = Some f /\
    let n := Z.of_nat (length (pay_Recipients f)) in
    let others := Z.of_nat (length (filter (fun l => of_contract l = false) (rct_Logs receipt))) in
    n + 2 + others <= MaxReceiptLogs /\ (n <= others -> n <= 31).
Proof.
  apply payroll_Verify_ok in Hok as (_ & _ & _ & f & Hf & _ & Hl & Hset); [|done]. exists f. split; [done|].
  enough (Z.of_nat (length (pay_Recipients f)) + 2
          + Z.of_nat (length (filter (fun l => of_contract l = false) (rct_Logs receipt))) <= MaxReceiptLogs) as Hb
    by (unfold MaxReceiptLogs in *; cbn zeta; lia).
  destruct (CrossTokenExecutable f).
  - destruct Hset as (_ & events & swap & ref & batch & hash & He & _ & Hr & Hb & _ & _ & _ & Hp & _). by eapply settled_logs.
  - destruct Hset as (_ & events & ref & batch & fees & He & Hr & Hb & Hp & _). by eapply settled_logs.
Qed.
End settled.

(** Once the transaction of a successful receipt is known, the verdict is
    definite. *)
Section definite.
Context `{EthCommon} `{UnicodeTables} `{EthCrypto} `{Abi} `{HexUtil}.
Context (registry : option Registry).
Lemma events_decided cross receipt : decided (events_of registry cross receipt).
Proof. unfold events_of, decode_event. decide_verdict. Qed.

Lemma verify_same_decided f plan receipt :
  rct_Status receipt = ReceiptSuccess -> rct_HasTransaction receipt = true -> decided (verify_same registry f plan receipt).
Proof.
  intros Hs Ht. pose proof (events_decided false receipt). unfold verify_same, same_terms, same_aggregates.
  apply decided_bind; [by apply envelope_decided|intros _]. unfold same_payment. decide_verdict.
Qed.
Lemma verify_cross_decided f plan receipt :
  rct_Status receipt = ReceiptSuccess -> rct_HasTransaction receipt = true -> decided (verify_cross registry f plan receipt).
Proof.
  intros Hs Ht. pose proof (events_decided true receipt). unfold verify_cross, cross_swap, cross_aggregates, cross_surplus.
  apply decided_bind; [by apply envelope_decided|intros _]. unfold cross_payment. decide_verdict.
Qed.
End definite.

(** * Plans are accepted *)
Section planned.
Context `{EthCommonSpec} `{UnicodeTables} `{EthCrypto} `{!EthCryptoSpec} `{Abi} `{!AbiSpec}.
Context (registry : option Registry).

Lemma encode_same_valid i call : EncodeSameTokenPayroll registry i = Ok call -> validateSameToken i = Ok tt.
Proof.
  unfold EncodeSameTokenPayroll. intros E. apply rbind_ok in E as (? & _ & E). apply rbind_ok in E as ([] & E & _).
  by apply map_err_ok in E.
Qed.
Lemma encode_cross_valid i call : EncodeCrossTokenPayroll registry i = Ok call -> validateCrossToken i = Ok tt.
Proof.
  unfold EncodeCrossTokenPayroll. intros E. apply rbind_ok in E as (? & _ & E). apply rbind_ok in E as ([] & E & _).
  by apply map_err_ok in E.
Qed.

(** The lines of the call are the lines of the intent. *)
Lemma lines_bind recipients amounts want e :
  Forall (fun a => Contracts.ValidAddress a = true) (rcp_Address <$> recipients) ->
  amounts = (fun r => base_int (want r)) <$> recipients ->
  for_each (fun ir => fail_if (negb (line_binds (checksummed <$> (rcp_Address <$> recipients)) amounts want ir)) e)
    (imap pair recipients) = (Ok tt : result unit).
Proof.
  intros Hv ->. apply for_each_ok, Forall_forall. intros [k r] Hk. apply fail_if_ok, negb_false_iff.
  apply list_elem_of_lookup in Hk as [j Hj]. rewrite imap_pair_lookup in Hj.
  destruct (recipients !! j) as [r'|] eqn:Er; [|done]. injection Hj as -> ->.
  unfold line_binds. rewrite !list_lookup_fmap, Er. cbn. rewrite Z.eqb_refl, andb_true_r.
  rewrite Forall_fmap, Forall_lookup in Hv. apply Hv in Er. rewrite checksummed_equal by done. by apply AddressesEqual_refl.
Qed.

Lemma amounts_of_base recipients : forall n ns, amounts_of (imap (fun i r => ((n + i)%nat, r)) recipients) = Ok ns ->
  ns = (fun r => base_int (rcp_AmountIn r)) <$> recipients.
Proof.
  induction recipients as [|r recipients IH]; intros n ns E; cbn in E; [by injection E as <-|].
  rewrite (imap_ext _ (fun i r => ((S n + i)%nat, r))) in E by (intros; cbn; f_equal; lia).
  apply rbind_ok in E as (a & Ha & E). apply rbind_ok in E as (rest & Hr & E). injection E as <-.
  apply IH in Hr as ->. unfold recipient_amount in Ha. apply map_err_ok in Ha. cbn in Ha. cbn. unfold base_int at 2. by rewrite Ha.
Qed.
Lemma same_not_cross f : SameTokenExecutable f = true -> CrossTokenExecutable f = false.
Proof.
  unfold SameTokenExecutable, CrossTokenExecutable, ValidateSameToken, ValidateCrossToken, validateCrossTokenTimeline, isCrossTokenShape.
  by destruct (pay_CrossToken f).
Qed.

(** The plan's own fields, for either call. *)
Lemma newPlan_binds i call d :
  let o := prm_Ownership (int_params i) in
  to_payroll call -> own_ChainID o = ChainIDArcMainnet -> Contracts.ValidAddress (own_WalletAddress o) = true ->
  ExpectedDeployment registry = Ok d -> AddressesEqual (dep_Address d) AddressWizPayPayroll = true ->
  validatePlan registry i (newPlan TypePayroll i call) =
  match fin_Payroll (prm_Financial (int_params i)) with
  | None => Err (errorf "payroll financial parameters are required")
  | Some f =>
      if CrossTokenExecutable f then
        let! decoded := DecodeCrossTokenPayrollCall (cal_callData call) in
        let unbound := errorf "plan calldata does not bind cross-token intent" in
        do! fail_if (negb (cross_binds f decoded)) unbound;
        for_each (fun ir => fail_if (negb (line_binds (cti_Recipients decoded) (cti_OutputAmounts decoded) rcp_MinAmountOut ir)) unbound)
          (imap pair (pay_Recipients f))
      else
        do! fail_if (negb (SameTokenExecutable f)) (errorf "intent is not same-token payroll");
        let! decoded := DecodeSameTokenPayrollCall (cal_callData call) in
        let unbound := errorf "plan calldata does not bind intent" in
        do! fail_if (negb (AddressesEqual (sti_Token decoded) (tok_Address (pay_TokenIn f)))
                     || (sti_ReferenceID decoded != pay_ReferenceID f)
                     || (Z.of_nat (length (sti_Recipients decoded)) != Z.of_nat (length (pay_Recipients f)))) unbound;
        for_each (fun ir => fail_if (negb (line_binds (sti_Recipients decoded) (sti_Amounts decoded) rcp_AmountIn ir)) unbound)
          (imap pair (pay_Recipients f))
  end.
Proof.
  intros o (Hid & Hchain & Hnet & Hver & Hto) Ho Hw Hd Hda. unfold validatePlan, newPlan.
  cbn [dpl_intentID dpl_intentDigest dpl_capability dpl_contractID dpl_registryVersion dpl_chainID dpl_walletAddress dpl_encodedCall].
  fold o. rewrite Hid, Hver, Hchain, Ho, Hto, !neqb_refl, AddressesEqual_refl, Hd by done. cbn [orb negb fail_if rbind].
  by rewrite (AddressesEqual_trans _ _ _ Hda) by by rewrite AddressesEqual_sym.
Qed.

(** The sealed call of a payroll plan has the terms of the intent. *)
Definition same_input (f : PayrollParameters) : SameTokenPayrollInput :=
  MkSameToken (tok_Address (pay_TokenIn f)) (rcp_Address <$> pay_Recipients f)
    ((fun r => base_int (rcp_AmountIn r)) <$> pay_Recipients f) (pay_ReferenceID f).
Definition payroll_call (f : PayrollParameters) (call : EncodedCall) : Prop :=
  to_payroll call /\
  if SameTokenExecutable f then
    cal_function call = SigExecuteSameTokenPayroll /\ validateSameToken (same_input f) = Ok tt /\
    DecodeSameTokenPayrollCall (cal_callData call) = Ok (sti_checksummed (same_input f))
  else
    cal_function call = SigExecuteCrossTokenPayroll /\ CrossTokenExecutable f = true /\ validateCrossToken (cross_terms f) = Ok tt /\
    DecodeCrossTokenPayrollCall (cal_callData call) = Ok (cti_checksummed (cross_terms f)).

Lemma payroll_Plan_call i plan :
  payroll_Plan registry i = Ok plan ->
  exists f d, fin_Payroll (prm_Financial (int_params i)) = Some f /\
    own_ChainID (prm_Ownership (int_params i)) = ChainIDArcMainnet /\
    ExpectedDeployment registry = Ok d /\ AddressesEqual (dep_Address d) AddressWizPayPayroll = true /\
    plan = newPlan TypePayroll i (dpl_encodedCall plan) /\ payroll_call f (dpl_encodedCall plan).
Proof.
  unfold payroll_Plan, payroll_call. intros E. apply rbind_ok in E as ([] & _ & E). apply rbind_ok in E as ([] & _ & E).
  apply rbind_ok in E as ([] & _ & E). destruct (fin_Payroll _) as [f|] eqn:Hf; [|done].
  apply rbind_ok in E as ([] & Hb & E). apply validateBinding_ok in Hb as (Ho & _ & d & Hd & Hda).
  exists f, d. destruct (SameTokenExecutable f) eqn:Hsame.
  - apply rbind_ok in E as (ns & Hns & E). apply rbind_ok in E as (call & Hcall & [= <-]). apply map_err_ok in Hcall.
    apply (amounts_of_base _ 0) in Hns as ->. fold (same_input f) in Hcall. pose proof (encode_same_valid _ _ Hcall) as Hv.
    apply encode_same_ok in Hcall as (Hto & Hfun & Hdec). split_and!; done.
  - apply rbind_ok in E as ([] & Hcross & E). apply map_err_ok in Hcross.
    apply rbind_ok in E as (call & Hcall & [= <-]). apply map_err_ok in Hcall.
    pose proof (encode_cross_valid _ _ Hcall) as Hv. apply encode_cross_ok in Hcall as (Hto & Hfun & Hdec).
    split_and!; try done. unfold CrossTokenExecutable. by rewrite Hcross.
Qed.

(** The verifier accepts the planner's plan. *)
Lemma payroll_Plan_accepted i plan :
  payroll_Plan registry i = Ok plan -> Contracts.ValidAddress (own_WalletAddress (prm_Ownership (int_params i))) = true ->
  validatePlan registry i plan = Ok tt.
Proof.
  intros Hp Hw. apply payroll_Plan_call in Hp as (f & d & Hf & Ho & Hd & Hda & Eplan & Hto & Hcall).
  remember (dpl_encodedCall plan) as call eqn:Hc. rewrite Eplan. clear Eplan Hc.
  rewrite (newPlan_binds i call d), Hf by done. destruct (SameTokenExecutable f) eqn:Hsame.
  - destruct Hcall as (_ & [Ht Hbatch]%validateSameToken_ok & ->). rewrite (same_not_cross _ Hsame).
    cbn [rbind negb fail_if sti_checksummed same_input sti_Token sti_ReferenceID sti_Recipients sti_Amounts] in *.
    rewrite checksummed_equal, AddressesEqual_refl, neqb_refl, !length_fmap, neqb_refl by by apply canonicalToken_valid.
    cbn [negb orb fail_if rbind]. apply lines_bind; [|done].
    eapply Forall_impl; [apply (batch_recipients _ _ _ Hbatch)|]. naive_solver.
  - destruct Hcall as (_ & -> & Hv & ->). unfold validateCrossToken in Hv.
    apply rbind_ok in Hv as ([] & Hpair & Hv). apply fail_if_ok, negb_false_iff in Hpair.
    apply rbind_ok in Hv as ([] & Hbatch & _). apply validateBatch_ok in Hbatch. cbn in Hpair.
    apply canonicalPair_valid in Hpair as [Va Vb]. cbn [rbind].
    assert (cross_binds f (cti_checksummed (cross_terms f)) = true) as ->.
    { unfold cross_binds. cbn. by rewrite !checksummed_equal, !AddressesEqual_refl, !Z.eqb_refl, eqb_refl, !length_fmap, Z.eqb_refl by done. }
    cbn [negb fail_if rbind]. apply lines_bind; [|done].
    eapply Forall_impl; [apply (batch_recipients _ _ _ Hbatch)|]. naive_solver.
Qed.
End planned.
