(* ===== verification/SwapSettlement.v ===== *)
(** internal/swap/verifier.go: from the receipt of a swap transaction to a
    verdict on the swap.  The checks on one token transfer log are shared with
    internal/send. *)
From S2P Require Import Prelude GoStrings GoText GoTime AppErrors Contracts IntentTypes Amounts IntentParams Intents.
From S2P Require Import Deployments Abi PayrollContract SwapContract References ChainEvidence Settlement.
Open Scope string_scope.
Open Scope Z_scope.
Open Scope go_scope.

Section verifier.
Context `{EthCommon} `{UnicodeTables} `{EthCrypto} `{Abi} `{HexUtil}.
Context (registry : option Registry).

(** * ERC-20 transfer logs *)
Definition transferEventID : string := Keccak256 "Transfer(address,address,uint256)".
Definition word_address (word : string) : string := "0x" +:+ EncodeToString (bytes (rest_bytes 12 word)).
Definition padded (word : string) : bool := forallb (fun b => b =? 0) (take 12 (bytes word)).
Definition topicAddress (topic address : string) : bool :=
  if len topic != 32 then false
  else if negb (padded topic) then false
  else AddressesEqual (word_address topic) address.

(** One turn of the loop of [hasOutputTransfer]. *)
Definition is_output_transfer (token recipient : string) (amount : Z) (log : ReceiptLog) : bool :=
  if negb (AddressesEqual (rlg_Address log) token) || (Z.of_nat (length (rlg_Topics log)) != 3)
     || (default "" (rlg_Topics log !! 0%nat) != transferEventID) || (len (rlg_Data log) != 32) then false
  else topicAddress (default "" (rlg_Topics log !! 2%nat)) recipient && (SetBytes (rlg_Data log) =? amount).
Definition hasOutputTransfer (logs : list ReceiptLog) (token recipient : string) (amount : Z) : bool :=
  existsb (is_output_transfer token recipient amount) logs.

(** * The plan binds the intent (validatePlan) *)
(** The decoded call has the terms of the intent. *)
Definition swap_binds (f : SwapParameters) (decoded : DecodedExecuteSwap) : bool :=
  let t := swap_terms f in
  AddressesEqual (swi_TokenIn decoded) (swi_TokenIn t) && AddressesEqual (swi_TokenOut decoded) (swi_TokenOut t)
  && (swi_AmountIn decoded =? swi_AmountIn t) && (swi_MinAmountOut decoded =? swi_MinAmountOut t)
  && (swi_MinHopPriceX36 decoded =? swi_MinHopPriceX36 t) && (swi_Deadline decoded =? swi_Deadline t).

Definition swap_validatePlan (i : Intent) (plan : DomainPlan) : result unit :=
  let o := prm_Ownership (int_params i) in
  let call := dpl_encodedCall plan in
  do! fail_if ((dpl_intentID plan != prm_IntentID (int_params i)) || (dpl_intentDigest plan != int_digest i)
               || (dpl_capability plan != TypeSwap)) (errorf "plan does not bind the frozen swap intent");
  do! fail_if ((dpl_contractID plan != ContractWizPaySwapExecutor) || (dpl_registryVersion plan != RegistryVersion)
               || (dpl_chainID plan != ChainIDArcMainnet)) (errorf "plan does not bind the canonical swap deployment");
  do! fail_if ((dpl_chainID plan != own_ChainID o) || negb (AddressesEqual (dpl_walletAddress plan) (own_WalletAddress o)))
        (errorf "plan sender or chain does not match intent ownership");
  do! fail_if (negb (AddressesEqual (cal_to call) AddressWizPaySwapExecutor) || (cal_contractID call != ContractWizPaySwapExecutor))
        (errorf "plan target is not the canonical swap contract");
  do! fail_if (match Swap.ExpectedDeployment registry with
               | Err _ => true
               | Ok deployment => negb (AddressesEqual (dep_Address deployment) (cal_to call))
               end) (errorf "plan target does not match registry");
  match fin_Swap (prm_Financial (int_params i)) with
  | None => Err (errorf "intent is not executable swap")
  | Some f =>
      do! fail_if (negb (Swap_Phase12Executable f)) (errorf "intent is not executable swap");
      let! decoded := Swap.DecodeExecuteSwapCall (cal_callData call) in
      fail_if (negb (swap_binds f decoded)) (errorf "plan calldata does not bind intent")
  end.

(** * The verdict *)
Definition swap_expected_value (f : SwapParameters) : Z :=
  if AddressesEqual (tok_Address (swp_InputToken f)) AddressUSDCMainnet
  then base_int (swp_InputAmount f) * 1000000000000 else 0.

Definition swap_event (receipt : Receipt) (raw : ReceiptLog) : outcome early (list WizPayMainnetSwapExecuted) :=
  let eventTopic := match Swap.EventTopic0 with Ok t => t | Err _ => "" end in
  match rlg_Topics raw with
  | [] => Ok []
  | t :: _ =>
      if negb (AddressesEqual (rlg_Address raw) AddressWizPaySwapExecutor) || (t != eventTopic) then Ok []
      else match Swap.DecodeWizPayMainnetSwapExecuted registry (ContractLog raw (rct_ChainID receipt)) with
           | Ok event => Ok [event]
           | Err _ => Err (Failed "SWAP_EVENT_MALFORMED")
           end
  end.
Definition swap_executed (receipt : Receipt) : outcome early (list WizPayMainnetSwapExecuted) :=
  fold_result (fun executed raw => let! e := swap_event receipt raw in Ok (app executed e)) [] (rct_Logs receipt).

Definition swap_outcome (f : SwapParameters) (wallet : string) (logs : list ReceiptLog) (e : WizPayMainnetSwapExecuted)
    : outcome early unit :=
  let amountIn := base_int (swp_InputAmount f) in
  let minAmountOut := base_int (swp_MinimumOutput f) in
  do! failed_if (negb (AddressesEqual (swx_Caller e) wallet)) "SWAP_EVENT_CALLER_MISMATCH";
  do! failed_if (negb (AddressesEqual (swx_TokenIn e) (tok_Address (swp_InputToken f)))
                 || negb (AddressesEqual (swx_TokenOut e) (tok_Address (swp_OutputToken f)))) "SWAP_EVENT_TOKEN_MISMATCH";
  do! failed_if ((swx_AmountIn e != amountIn) || (swx_MinAmountOut e != minAmountOut)) "SWAP_EVENT_FINANCIAL_MISMATCH";
  do! failed_if (swx_AmountOut e <? minAmountOut) "SWAP_OUTPUT_BELOW_MINIMUM";
  do! failed_if ((swx_NetAmountIn e + swx_FeeAmount e) != amountIn) "SWAP_FEE_ARITHMETIC_MISMATCH";
  do! failed_if ((swx_FeeAmount e <? 0) || (swx_NetAmountIn e <? 0)
                 || (amountIn * ContractMaxFeeBPS <? swx_FeeAmount e * 10000)) "SWAP_FEE_EXCEEDS_MAXIMUM";
  failed_if (negb (hasOutputTransfer logs (tok_Address (swp_OutputToken f)) wallet (swx_AmountOut e)))
    "SWAP_OUTPUT_TRANSFER_MISSING".

Definition verify_swap (f : SwapParameters) (plan : DomainPlan) (receipt : Receipt) : outcome early (string * string * list string) :=
  do! envelope AddressWizPaySwapExecutor plan receipt;
  do! failed_if (rct_Input receipt != cal_callData (dpl_encodedCall plan)) "TRANSACTION_CALLDATA_PLAN_MISMATCH";
  let! decoded := map_err (fun _ => Failed "TRANSACTION_CALLDATA_INVALID") (Swap.DecodeExecuteSwapCall (rct_Input receipt)) in
  do! failed_if (negb (swap_binds f decoded)) "TRANSACTION_FINANCIAL_MISMATCH";
  let! value := map_err (fun _ => Failed "TRANSACTION_VALUE_INVALID") (DecodeBig (rct_Value receipt)) in
  do! failed_if (value != swap_expected_value f) "TRANSACTION_VALUE_MISMATCH";
  do! map_err (fun _ => Failed "RECEIPT_LOGS_MALFORMED") (ValidateLogs (rct_Logs receipt));
  let! executed := swap_executed receipt in
  match executed with
  | [event] =>
      do! swap_outcome f (dpl_walletAddress plan) (rct_Logs receipt) event;
      Ok ("SWAP_VERIFIED", SigWizPayMainnetSwapExecuted,
          ["sender"; "target"; "calldata"; "funding"; "swap_event"; "fee_arithmetic"; "minimum_output"; "output_transfer"])
  | _ => Err (Failed "SWAP_EVENT_COUNT_MISMATCH")
  end.

Definition swap_Verify (i : Intent) (plan : DomainPlan) (receipt : Receipt) : result DomainResult :=
  do! map_err (errorf_wrap "swap intent is invalid: %w" []) (Intent_Validate i);
  do! fail_if ((prm_Type (int_params i) != TypeSwap) || negb (frozen i))
        (errorf "swap verifier requires a frozen SWAP intent");
  do! map_err (errorf_wrap "swap plan binding is invalid: %w" []) (swap_validatePlan i plan);
  let! f := deref (fin_Swap (prm_Financial (int_params i))) in
  Ok (concluded receipt (verify_swap f plan receipt)).
End verifier.

(** * What a verdict means *)
Section settled.
Context `{EthCommon} `{UnicodeTables} `{EthCrypto} `{Abi} `{HexUtil}.
Context (registry : option Registry).

(** The one event of the executor, and the transfer of its output. *)
Definition swap_settled (f : SwapParameters) (plan : DomainPlan) (receipt : Receipt) : Prop :=
  sealed_transaction AddressWizPaySwapExecutor plan receipt /\
  DecodeBig (rct_Value receipt) = Ok (swap_expected_value f) /\ ValidateLogs (rct_Logs receipt) = Ok tt /\
  exists event, swap_executed registry receipt = Ok [event] /\
    AddressesEqual (swx_Caller event) (dpl_walletAddress plan) = true /\
    AddressesEqual (swx_TokenIn event) (tok_Address (swp_InputToken f)) = true /\
    AddressesEqual (swx_TokenOut event) (tok_Address (swp_OutputToken f)) = true /\
    swx_AmountIn event = base_int (swp_InputAmount f) /\ base_int (swp_MinimumOutput f) <= swx_AmountOut event /\
    swx_NetAmountIn event + swx_FeeAmount event = base_int (swp_InputAmount f) /\
    0 <= swx_FeeAmount event /\ 0 <= swx_NetAmountIn event /\
    swx_FeeAmount event * 10000 <= base_int (swp_InputAmount f) * ContractMaxFeeBPS /\
    exists log, log ∈ rct_Logs receipt /\
      is_output_transfer (tok_Address (swp_OutputToken f)) (dpl_walletAddress plan) (swx_AmountOut event) log = true.

Lemma hasOutputTransfer_spec logs token recipient amount :
  hasOutputTransfer logs token recipient amount = true <->
  exists log, log ∈ logs /\ is_output_transfer token recipient amount log = true.
Proof. unfold hasOutputTransfer. rewrite existsb_exists. setoid_rewrite list_elem_of_In. done. Qed.

Lemma verify_swap_ok f plan receipt v : verify_swap registry f plan receipt = Ok v -> swap_settled f plan receipt.
Proof.
  unfold verify_swap. intros E.
  apply rbind_ok in E as ([] & Henv & E). apply rbind_ok in E as ([] & Hin & E). apply rbind_ok in E as (decoded & _ & E).
  apply rbind_ok in E as ([] & _ & E). apply rbind_ok in E as (value & Hval & E). apply rbind_ok in E as ([] & Hv & E).
  apply rbind_ok in E as ([] & Hlogs & E). apply rbind_ok in E as (executed & Hex & E).
  apply fail_if_ok in Hin, Hv. reflect_all. subst value. destruct executed as [|event []]; try done.
  apply rbind_ok in E as ([] & Hout & _). unfold swap_outcome in Hout. ok_reflect.
  split_and!; [by apply envelope_ok|done..|]. exists event. split_and!; try done || lia.
  by apply hasOutputTransfer_spec.
Qed.

Lemma swap_Verify_ok i plan receipt d :
  swap_Verify registry i plan receipt = Ok d -> dom_Status d = DomainVerified ->
  Intent_Validate i = Ok tt /\ prm_Type (int_params i) = TypeSwap /\ swap_validatePlan registry i plan = Ok tt /\
  exists f, fin_Swap (prm_Financial (int_params i)) = Some f /\ swap_settled f plan receipt.
Proof.
  unfold swap_Verify. intros E Hd. apply rbind_ok in E as ([] & Hi & E). apply rbind_ok in E as ([] & Ht & E).
  apply rbind_ok in E as ([] & Hp & E). apply map_err_ok in Hi, Hp. apply fail_if_ok in Ht. reflect_all.
  destruct (fin_Swap _) as [f|]; [|done]. injection E as <-. split_and!; try done. exists f. split; [done|].
  apply concluded_verified, is_ok_true in Hd as [v Hv]. by eapply verify_swap_ok.
Qed.
End settled.

(** Once the transaction of a successful receipt is known, the verdict is
    definite. *)
Section definite.
Context `{EthCommon} `{UnicodeTables} `{EthCrypto} `{Abi} `{HexUtil}.
Context (registry : option Registry).
Lemma verify_swap_decided f plan receipt :
  rct_Status receipt = ReceiptSuccess -> rct_HasTransaction receipt = true -> decided (verify_swap registry f plan receipt).
Proof.
  intros Hs Ht. unfold verify_swap, swap_outcome, swap_executed, swap_event.
  apply decided_bind; [by apply envelope_decided|intros _]. decide_verdict.
Qed.
End definite.

(** * Plans are accepted *)
Section planned.
Context `{EthCommonSpec} `{UnicodeTables} `{EthCrypto} `{!EthCryptoSpec} `{Abi} `{!AbiSpec}.
Context (registry : option Registry).

(** The sealed call of a swap plan has the terms of the intent. *)
Lemma swap_Plan_call i plan :
  swap_Plan registry i = Ok plan ->
  exists f d, fin_Swap (prm_Financial (int_params i)) = Some f /\ Swap_Phase12Executable f = true /\
    own_ChainID (prm_Ownership (int_params i)) = ChainIDArcMainnet /\
    Swap.ExpectedDeployment registry = Ok d /\ AddressesEqual (dep_Address d) AddressWizPaySwapExecutor = true /\
    plan = newPlan TypeSwap i (dpl_encodedCall plan) /\ to_swap (dpl_encodedCall plan) /\
    canonicalPair (swi_TokenIn (swap_terms f)) (swi_TokenOut (swap_terms f)) = true /\
    Swap.DecodeExecuteSwapCall (cal_callData (dpl_encodedCall plan)) = Ok (swi_checksummed (swap_terms f)).
Proof.
  unfold swap_Plan. intros E. apply rbind_ok in E as ([] & _ & E). apply rbind_ok in E as ([] & _ & E).
  apply rbind_ok in E as ([] & _ & E). destruct (fin_Swap _) as [f|] eqn:Hf; [|done].
  apply rbind_ok in E as ([] & Hex & E). apply fail_if_ok, negb_false_iff in Hex.
  apply rbind_ok in E as ([] & Hb & E). apply validateBinding_ok in Hb as (Ho & _ & d & Hd & Hda).
  apply rbind_ok in E as (amountIn & Hin & E). apply rbind_ok in E as (minimum & Hmin & E). apply map_err_ok in Hin, Hmin.
  destruct (SetString10 (swp_MinHopPriceX36 f)) as [price|] eqn:Hprice; [|done].
  apply rbind_ok in E as ([] & _ & E). apply rbind_ok in E as (call & Hcall & [= <-]). apply map_err_ok in Hcall.
  assert (MkSwapInput (tok_Address (swp_InputToken f)) (tok_Address (swp_OutputToken f)) amountIn minimum price
            (Unix (UTC (swp_Deadline f))) = swap_terms f) as Eterms.
  { unfold swap_terms, base_int, big_int. by rewrite Hin, Hmin, Hprice. }
  rewrite Eterms in Hcall. assert (Swap.validateExecuteSwap (swap_terms f) = Ok tt) as [Hpair _]%validateExecuteSwap_ok.
  { unfold Swap.EncodeExecuteSwap in Hcall. apply rbind_ok in Hcall as (? & _ & Hcall).
    apply rbind_ok in Hcall as ([] & _ & Hcall). apply rbind_ok in Hcall as ([] & Hv & _). by apply map_err_ok in Hv. }
  apply encode_swap_ok in Hcall as (Hto & _ & Hdec). exists f, d. split_and!; done.
Qed.

(** The verifier accepts the planner's plan. *)
Lemma swap_Plan_accepted i plan :
  swap_Plan registry i = Ok plan -> Contracts.ValidAddress (own_WalletAddress (prm_Ownership (int_params i))) = true ->
  swap_validatePlan registry i plan = Ok tt.
Proof.
  intros Hp Hw. apply swap_Plan_call in Hp as (f & d & Hf & Hex & Ho & Hd & Hda & Eplan & Hto & Hpair & Hdec).
  remember (dpl_encodedCall plan) as call eqn:Hc. rewrite Eplan. clear Eplan Hc. destruct Hto as (Hid & Hchain & Hnet & Hver & Hto).
  unfold swap_validatePlan, newPlan.
  cbn [dpl_intentID dpl_intentDigest dpl_capability dpl_contractID dpl_registryVersion dpl_chainID dpl_walletAddress dpl_encodedCall].
  rewrite Hid, Hver, Hchain, Ho, Hto, !neqb_refl, AddressesEqual_refl, Hd by done. cbn [orb negb fail_if rbind].
  rewrite (AddressesEqual_trans _ _ _ Hda) by by rewrite AddressesEqual_sym. cbn [negb fail_if rbind].
  rewrite Hf, Hex, Hdec. cbn [negb fail_if rbind]. apply canonicalPair_valid in Hpair as [Va Vb]. cbn in Va, Vb.
  apply fail_if_ok, negb_false_iff. unfold swap_binds. cbn.
  by rewrite !checksummed_equal, !AddressesEqual_refl, !Z.eqb_refl by done.
Qed.
End planned.
