(* ===== verification/SendSettlement.v ===== *)
(** internal/send: the plan of one canonical ERC-20 transfer (planner.go,
    plan.go) and the verdict on its receipt (verifier.go). *)
From S2P Require Import Prelude GoStrings GoText GoTime AppErrors Contracts IntentTypes Amounts IntentParams Intents.
From S2P Require Import Deployments Abi References ChainEvidence Plans Settlement SwapSettlement.
Open Scope string_scope.
Open Scope Z_scope.
Open Scope go_scope.

(** send.[Plan] *)
Record SendPlan := MkSendPlan {
  spl_intentID : string; spl_intentDigest : string; spl_token : Token; spl_recipient : string; spl_amount : Amount;
  spl_wallet : string; spl_provider : Plan
}.

Section send.
Context `{EthCommon} `{UnicodeTables} `{FoldTables} `{EthCrypto} `{Abi}.

(** The token is the canonical one of its symbol, on Arc Mainnet. *)
Definition send_token (financial : SendParameters) (owner : Ownership) : result TokenResource :=
  let refused := errorf "send requires a canonical Arc Mainnet token" in
  let! canonical := map_err (fun _ => refused) (CanonicalToken (tok_Symbol (snd_Token financial))) in
  do! fail_if ((tok_ChainID (snd_Token financial) != ChainIDArcMainnet) || (own_ChainID owner != ChainIDArcMainnet)
               || (own_Network owner != NetworkArcMainnet)
               || negb (AddressesEqual (tok_Address (snd_Token financial)) (res_Address canonical))
               || (tok_Decimals (snd_Token financial) != res_Decimals canonical)
               || (tok_Standard (snd_Token financial) != "ERC20")) refused;
  Ok canonical.

Definition send_Plan (i : Intent) : result SendPlan :=
  do! map_err (errorf_wrap "send intent is invalid: %w" []) (Intent_Validate i);
  do! fail_if (prm_Type (int_params i) != TypeSend) (errorf "send planner requires SEND intent");
  do! fail_if ((int_digest i == "") || ((int_status i != StatusApproved) && (int_status i != StatusReadyForExecution)))
        (errorf "send planner requires an approved frozen intent");
  let! financial := deref (fin_Send (prm_Financial (int_params i))) in
  let owner := prm_Ownership (int_params i) in
  let! canonical := send_token financial owner in
  let! provider := map_err (errorf_wrap "build send provider plan: %w" []) (NewTokenTransferPlan
    (MkTokenTransferParams (own_WalletBindingID owner) (own_WalletID owner) (own_WalletAddress owner) (own_ChainID owner)
       (own_Network owner) (snd_Recipient financial) (tok_Symbol (snd_Token financial)) (res_Address canonical)
       (res_Decimals canonical) (amt_Decimal (snd_Amount financial)) (amt_BaseUnits (snd_Amount financial)))) in
  Ok (MkSendPlan (prm_IntentID (int_params i)) (int_digest i) (snd_Token financial) (snd_Recipient financial)
        (snd_Amount financial) (own_WalletAddress owner) provider).

(** * The verdict *)
Definition transferSelector : string := of_bytes [0xa9; 0x05; 0x9c; 0xbb].
(** [transferEventID] is the swap verifier's. *)
Definition bytes_between (lo hi : nat) (s : string) : string := first_bytes (hi - lo) (rest_bytes lo s).

Definition decodeTransfer (input : string) : result (string * Z) :=
  do! fail_if ((len input != 68) || (first_bytes 4 input != transferSelector))
        (errorf "calldata is not exact ERC-20 transfer");
  do! fail_if (negb (forallb (fun b => b =? 0) (bytes (bytes_between 4 16 input)))) (errorf "recipient word is malformed");
  let recipient := "0x" +:+ EncodeToString (bytes (bytes_between 16 36 input)) in
  do! fail_if (negb (Contracts.ValidAddress recipient) || AddressesEqual recipient zero_address) (errorf "recipient is invalid");
  let amount := SetBytes (bytes_between 36 68 input) in
  do! fail_if (amount <=? 0) (errorf "amount is invalid");
  Ok (recipient, amount).

Definition topicAddressEquals (topic address : string) : bool :=
  if len topic != 32 then false
  else if negb (padded topic) then false
  else EqualFold (word_address topic) address.

Definition is_transfer_event (token from to : string) (amount : Z) (log : ReceiptLog) : bool :=
  if negb (AddressesEqual (rlg_Address log) token) || (Z.of_nat (length (rlg_Topics log)) != 3)
     || (default "" (rlg_Topics log !! 0%nat) != transferEventID) || (len (rlg_Data log) != 32) then false
  else if negb (topicAddressEquals (default "" (rlg_Topics log !! 1%nat)) from)
          || negb (topicAddressEquals (default "" (rlg_Topics log !! 2%nat)) to)
          || (SetBytes (rlg_Data log) != amount) then false
  else true.
Definition hasTransferEvent (logs : list ReceiptLog) (token from to : string) (amount : Z) : bool :=
  existsb (is_transfer_event token from to amount) logs.

(** [SetString(TrimPrefix(ToLower(value), "0x"), 16)] is the number zero. *)
Definition zero_value (value : string) : bool :=
  match SetString16 (TrimPrefix (ToLower value) "0x") with Some n => n =? 0 | None => false end.

Definition send_Verify (i : Intent) (plan : SendPlan) (receipt : Receipt) : result unit :=
  do! fail_if (negb (is_ok (Intent_Validate i)) || (prm_Type (int_params i) != TypeSend)) (errorf "invalid SEND intent");
  do! fail_if ((spl_intentID plan != prm_IntentID (int_params i)) || (spl_intentDigest plan != int_digest i))
        (errorf "send plan does not match frozen intent");
  do! fail_if ((rct_ChainID receipt != ChainIDArcMainnet) || (rct_Status receipt != ReceiptSuccess))
        (errorf "send receipt is not a successful Arc Mainnet receipt");
  do! fail_if (negb (rct_HasTransaction receipt)) (errorf "send transaction evidence is missing");
  do! fail_if (negb (AddressesEqual (rct_From receipt) (spl_wallet plan))
               || negb (AddressesEqual (rct_To receipt) (tok_Address (spl_token plan))))
        (errorf "send transaction source or token is wrong");
  do! fail_if (negb (zero_value (rct_Value receipt))) (errorf "send transaction value must be zero");
  let mismatch := errorf "send calldata does not match frozen intent" in
  let! decoded := map_err (fun _ => mismatch) (decodeTransfer (rct_Input receipt)) in
  let '(recipient, amount) := decoded in
  do! fail_if (negb (AddressesEqual recipient (spl_recipient plan)) || (FormatInt amount != amt_BaseUnits (spl_amount plan)))
        mismatch;
  fail_if (negb (hasTransferEvent (rct_Logs receipt) (tok_Address (spl_token plan)) (spl_wallet plan) (spl_recipient plan) amount))
    (errorf "matching ERC-20 Transfer event is missing").
End send.

(** * What a verdict means *)
Section settled.
Context `{EthCommon} `{UnicodeTables} `{FoldTables} `{EthCrypto} `{Abi}.

(** The transaction is the token's transfer of exactly the amount, and a log
    of the token records it. *)
Definition send_settled (plan : SendPlan) (receipt : Receipt) : Prop :=
  rct_Status receipt = ReceiptSuccess /\ rct_ChainID receipt = ChainIDArcMainnet /\ rct_HasTransaction receipt = true /\
  AddressesEqual (rct_From receipt) (spl_wallet plan) = true /\
  AddressesEqual (rct_To receipt) (tok_Address (spl_token plan)) = true /\ zero_value (rct_Value receipt) = true /\
  exists recipient amount, decodeTransfer (rct_Input receipt) = Ok (recipient, amount) /\
    AddressesEqual recipient (spl_recipient plan) = true /\ FormatInt amount = amt_BaseUnits (spl_amount plan) /\
    exists log, log ∈ rct_Logs receipt /\
      is_transfer_event (tok_Address (spl_token plan)) (spl_wallet plan) (spl_recipient plan) amount log = true.

Lemma send_Verify_ok i plan receipt : send_Verify i plan receipt = Ok tt ->
  Intent_Validate i = Ok tt /\ prm_Type (int_params i) = TypeSend /\ spl_intentID plan = prm_IntentID (int_params i) /\
  spl_intentDigest plan = int_digest i /\ send_settled plan receipt.
Proof.
  unfold send_Verify. intros E. apply rbind_ok in E as ([] & Hi & E). apply rbind_ok in E as ([] & Hb & E).
  apply rbind_ok in E as ([] & Hs & E). apply rbind_ok in E as ([] & Ht & E). apply rbind_ok in E as ([] & Ha & E).
  apply rbind_ok in E as ([] & Hv & E). apply rbind_ok in E as ([recipient amount] & Hd & E). apply map_err_ok in Hd.
  apply rbind_ok in E as ([] & Hm & E). apply fail_if_ok in Hi, Hb, Hs, Ht, Ha, Hv, Hm, E. reflect_all.
  match goal with H : is_ok _ = true |- _ => apply is_ok_true in H as [[] ?] end.
  split_and!; try done. unfold send_settled. split_and!; try done. exists recipient, amount. split_and!; try done.
  unfold hasTransferEvent in E. apply existsb_exists in E as (log & Hin & Hlog). apply list_elem_of_In in Hin. eauto.
Qed.

Lemma send_Plan_binds i plan : send_Plan i = Ok plan ->
  exists s, fin_Send (prm_Financial (int_params i)) = Some s /\ spl_token plan = snd_Token s /\
    spl_recipient plan = snd_Recipient s /\ spl_amount plan = snd_Amount s /\
    spl_wallet plan = own_WalletAddress (prm_Ownership (int_params i)) /\
    spl_intentID plan = prm_IntentID (int_params i) /\ spl_intentDigest plan = int_digest i.
Proof.
  unfold send_Plan. intros E. apply rbind_ok in E as ([] & _ & E). apply rbind_ok in E as ([] & _ & E).
  apply rbind_ok in E as ([] & _ & E). destruct (fin_Send _) as [s|]; [|done]. cbn [deref rbind] in E.
  apply rbind_ok in E as (canonical & _ & E). apply rbind_ok in E as (provider & _ & [= <-]). eauto 10.
Qed.

Lemma NewTokenTransferPlan_ok params p : NewTokenTransferPlan params = Ok p ->
  Plan_Validate p = Ok tt /\ pln_encodedCall p = None /\ pln_WalletID p = ttp_WalletID params /\
  pln_WalletAddress p = ttp_WalletAddress params /\ pln_ChainID p = ttp_ChainID params /\
  pln_DestinationAddress p = ttp_Destination params /\ pln_TokenID p = ttp_TokenID params /\
  pln_Amount p = ttp_Amount params /\ pln_AmountBaseUnits p = ttp_AmountBaseUnits params.
Proof.
  unfold NewTokenTransferPlan. intros E. apply rbind_ok in E as ([] & Hv & E). apply rbind_ok in E as ([] & _ & E).
  apply rbind_ok in E as ([] & _ & E). apply rbind_ok in E as ([] & _ & [= <-]). split; [exact Hv|]. cbn. split_and!; done.
Qed.

(** The provider's plan of a send carries the intent's terms. *)
Lemma send_Plan_provider i plan (o := prm_Ownership (int_params i)) (p := spl_provider plan) :
  send_Plan i = Ok plan ->
  (pln_WalletID p = own_WalletID o /\ pln_WalletAddress p = own_WalletAddress o /\ pln_ChainID p = own_ChainID o /\
   Plan_Validate p = Ok tt) /\
  exists s, fin_Send (prm_Financial (int_params i)) = Some s /\ pln_encodedCall p = None /\
    pln_DestinationAddress p = snd_Recipient s /\ pln_TokenID p = tok_Symbol (snd_Token s) /\
    pln_Amount p = amt_Decimal (snd_Amount s) /\ pln_AmountBaseUnits p = amt_BaseUnits (snd_Amount s).
Proof.
  unfold send_Plan. intros E. apply rbind_ok in E as ([] & _ & E). apply rbind_ok in E as ([] & _ & E).
  apply rbind_ok in E as ([] & _ & E). destruct (fin_Send _) as [s|]; [|done]. cbn [deref rbind] in E.
  apply rbind_ok in E as (canonical & _ & E). apply rbind_ok in E as (provider & Hp & [= <-]). apply map_err_ok in Hp.
  apply NewTokenTransferPlan_ok in Hp as (? & ? & ? & ? & ? & ? & ? & ? & ?). subst p. cbn in *. split; [done|]. by exists s.
Qed.
End settled.
