(* ===== verification/Wiring.v ===== *)
(** internal/providers/wiring: the frozen intent between the execution request
    and the chain.  The planner (planner.go) turns the intent a request refers
    to into the plan that is submitted; the composed verifier (verifier.go)
    lets a chain success complete an execution only through the verdict of the
    intent's own domain.  At the end, an intent planned, settled and verified. *)
From S2P Require Import Prelude GoStrings GoText GoTime AppErrors Contracts IntentTypes Amounts IntentParams Intents.
From S2P Require Import IntentSafety Execution Storage RuntimeEffects Deployments Abi PayrollContract SwapContract.
From S2P Require Import References ChainEvidence Plans Settlement PayrollSettlement SwapSettlement SendSettlement.
Open Scope string_scope.
Open Scope Z_scope.
Open Scope go_scope.

(** * Domain verdicts as verification results *)
Definition genericPending (generic : VerificationResult) : VerificationResult :=
  MkVerificationResult VerificationPending (vr_Reference generic) "" (vr_ObservedAt generic).
(** [mapPayrollResult] and [mapSwapResult], whose [DomainResult]s differ in
    DOMAIN_AGGREGATE_ONLY, which no verifier returns. *)
Definition mapDomainResult (what : string) (generic : VerificationResult) (domain : DomainResult) : result VerificationResult :=
  match dom_Status domain with
  | DomainVerified => Ok generic
  | DomainAggregateOnly | DomainUnverified => Ok (genericPending generic)
  | DomainFailed =>
      do! fail_if (negb (DefinitiveFailure domain))
            (errorf2 "%s domain verification failed without definitive on-chain contradiction: %s" what (dom_ReasonCode domain));
      Ok (MkVerificationResult VerificationFailed "" (dom_ReasonCode domain) (vr_ObservedAt generic))
  end.

Section wiring.
Context `{EthCommon} `{UnicodeTables} `{FoldTables} `{EthCrypto} `{Abi} `{HexUtil}.
(** The registry both domains read, the scope of the context and the intent
    repository. *)
Context (registry : option Registry) (scope : option Scope) (FindIntentByID : Scope -> string -> result Intent).

(** The exact frozen intent that a request names. *)
Definition frozen_intent (lost missing : string) (r : Request) : result Intent :=
  let! s := match scope with Some s => Ok s | None => Err (errorf lost) end in
  let! i := map_err (errorf_wrap missing []) (FindIntentByID s (req_intentID r)) in
  do! fail_if ((prm_IntentID (int_params i) != req_intentID r) || (prm_Version (int_params i) != req_intentVersion r)
               || (int_digest i != req_intentDigest r)) (errorf "frozen intent does not match execution request");
  do! map_err (errorf_wrap "frozen intent is invalid: %w" []) (Intent_Validate i);
  Ok i.

(** * The planner (planner.go) *)
Definition native_text (amount : result Z) (what : string) : result string :=
  let! n := map_err (errorf_wrap what []) amount in Ok (FormatInt (n * native_scale)).
Definition swap_native (i : Intent) : result (list Time * string) :=
  match fin_Swap (prm_Financial (int_params i)) with
  | None => Ok ([], "0")
  | Some f =>
      let! value := if AddressesEqual (tok_Address (swp_InputToken f)) AddressUSDCMainnet
                    then native_text (BaseInt (swp_InputAmount f)) "derive swap native value: %w" else Ok "0" in
      Ok (swp_Deadline f :: match swp_Quote f with Some q => [quo_ExpiresAt q] | None => [] end, value)
  end.
Definition payroll_native (i : Intent) (value : string) : result (list Time * string) :=
  match fin_Payroll (prm_Financial (int_params i)) with
  | None => Ok ([], value)
  | Some f =>
      if CrossTokenExecutable f then
        let! value := if AddressesEqual (tok_Address (pay_TokenIn f)) AddressUSDCMainnet
                      then native_text (BaseInt (ct_GrossInput (cross_token f))) "derive payroll native value: %w"
                      else Ok value in
        Ok ([ct_Deadline (cross_token f)], value)
      else Ok ([], value)
  end.

Definition contractPlan (i : Intent) (planIntentID planDigest : string) (call : EncodedCall) : result Plan :=
  do! fail_if ((planIntentID != prm_IntentID (int_params i)) || (planDigest != int_digest i))
        (errorf "domain plan does not match frozen intent");
  let owner := prm_Ownership (int_params i) in
  let! swap := swap_native i in
  let! payroll := payroll_native i (snd swap) in
  let deadlines := app [prm_ExpiresAt (int_params i); con_Deadline (prm_Constraints (int_params i))]
                       (app (fst swap) (fst payroll)) in
  map_err (errorf_wrap "build contract execution plan: %w" []) (NewContractExecutionPlan
    (MkContractExecutionParams (own_WalletBindingID owner) (own_WalletID owner) (own_WalletAddress owner)
       (own_ChainID owner) (own_Network owner) call (EarliestDeadline deadlines) (snd payroll))).

Definition domain_plan (i : Intent) (what : string) (plan : result DomainPlan) : result Plan :=
  let! plan := map_err (errorf_wrap what []) plan in
  contractPlan i (dpl_intentID plan) (dpl_intentDigest plan) (dpl_encodedCall plan).

(** [Planner.Plan] *)
Definition Planner_Plan (r : Request) : result Plan :=
  do! map_err (errorf_wrap "execution request is invalid: %w" []) (Request_Validate r);
  let! i := frozen_intent "persistence scope is unavailable for planner" "find frozen intent: %w" r in
  do! fail_if (int_status i != StatusApproved) (errorf "frozen intent is not approved");
  match prm_Type (int_params i) with
  | TypeSend =>
      let! plan := map_err (errorf_wrap "plan send intent: %w" []) (send_Plan i) in
      Ok (spl_provider plan)
  | TypePayroll => domain_plan i "plan payroll intent: %w" (payroll_Plan registry i)
  | TypeSwap => domain_plan i "plan swap intent: %w" (swap_Plan registry i)
  | t => Err (errorf1 "unsupported intent type %q" (Type_string t))
  end.

(** * The composed verifier (verifier.go) *)
(** [Verify] after the generic verifier's single read of the chain, whose
    outcome is the argument. *)
Definition domain_gate (r : Request) (generic : VerificationResult) (receipt : Receipt) : result VerificationResult :=
  let! i := frozen_intent "persistence scope is unavailable for domain verification"
              "find frozen intent for domain verification: %w" r in
  do! fail_if ((int_status i != StatusApproved) && (int_status i != StatusReadyForExecution))
        (errorf "frozen intent is not execution-authorized");
  match prm_Type (int_params i) with
  | TypeSend =>
      let! plan := map_err (errorf_wrap "plan send intent for domain verification: %w" []) (send_Plan i) in
      match send_Verify i plan receipt with
      | Err _ => Ok (MkVerificationResult VerificationFailed "" "SEND_EVIDENCE_MISMATCH" (vr_ObservedAt generic))
      | Ok _ => Ok generic
      end
  | TypePayroll =>
      let! plan := map_err (errorf_wrap "plan payroll intent for domain verification: %w" []) (payroll_Plan registry i) in
      let! domain := map_err (errorf_wrap "verify payroll domain: %w" []) (payroll_Verify registry i plan receipt) in
      mapDomainResult "payroll" generic domain
  | TypeSwap =>
      let! plan := map_err (errorf_wrap "plan swap intent for domain verification: %w" []) (swap_Plan registry i) in
      let! domain := map_err (errorf_wrap "verify swap domain: %w" []) (swap_Verify registry i plan receipt) in
      mapDomainResult "swap" generic domain
  | t => Err (errorf1 "unsupported intent type %q for domain verification" (Type_string t))
  end.

Definition ComposedVerify (r : Request) (observed : result VerificationObservation) : result VerificationResult :=
  let! o := observed in
  if negb (vo_FinalSuccess o) then Ok (vo_Result o)
  else let! receipt := deref (vo_Receipt o) in domain_gate r (vo_Result o) receipt.
End wiring.

(** * The intent behind a verification *)
Section guarantees.
Context `{EthCommonSpec} `{UnicodeTables} `{FoldTables} `{EthCrypto} `{!EthCryptoSpec} `{Abi} `{!AbiSpec} `{HexUtil}.
Context (registry : option Registry) (scope : option Scope) (FindIntentByID : Scope -> string -> result Intent).
Abbreviation gate := (domain_gate registry scope FindIntentByID).
Abbreviation plan_of := (Planner_Plan registry scope FindIntentByID).

(** The frozen intent that a request names, as the repository has it. *)
Definition names (r : Request) (i : Intent) : Prop :=
  (exists s, scope = Some s /\ FindIntentByID s (req_intentID r) = Ok i) /\
  prm_IntentID (int_params i) = req_intentID r /\ prm_Version (int_params i) = req_intentVersion r /\
  int_digest i = req_intentDigest r /\ Intent_Validate i = Ok tt.

(** The receipt settles exactly what the intent says. *)
Definition settled (i : Intent) (receipt : Receipt) : Prop :=
  match prm_Type (int_params i) with
  | TypeSend => exists plan, send_Plan i = Ok plan /\ send_settled plan receipt
  | TypePayroll => exists plan f, payroll_Plan registry i = Ok plan /\ fin_Payroll (prm_Financial (int_params i)) = Some f /\
                     payroll_settled registry f plan receipt
  | TypeSwap => exists plan f, swap_Plan registry i = Ok plan /\ fin_Swap (prm_Financial (int_params i)) = Some f /\
                  swap_settled registry f plan receipt
  | _ => False
  end.

Lemma frozen_intent_ok lost missing r i :
  frozen_intent scope FindIntentByID lost missing r = Ok i <-> names r i.
Proof.
  unfold frozen_intent, names. split.
  - intros E. apply rbind_ok in E as (s & Hs & E). destruct scope as [s'|]; [|done]. injection Hs as ->.
    apply rbind_ok in E as (i' & Hi & E). apply map_err_ok in Hi. apply rbind_ok in E as ([] & Hm & E).
    apply rbind_ok in E as ([] & Hv & [= ->]). apply map_err_ok in Hv. apply fail_if_ok in Hm. reflect_all. eauto 10.
  - intros ((s & -> & Hi) & E1 & E2 & E3 & Hv). cbn [rbind]. rewrite Hi. cbn [map_err rbind].
    by rewrite E1, E2, E3, !neqb_refl, Hv.
Qed.

Lemma mapDomainResult_verified what generic d v :
  mapDomainResult what generic d = Ok v -> vr_Outcome v = VerificationVerified -> dom_Status d = DomainVerified /\ v = generic.
Proof. unfold mapDomainResult. destruct (dom_Status d); intros E Hv; ok_inv; done. Qed.

(** An answer of a verifier is never the error of [mapDomainResult]. *)
Lemma mapDomainResult_concluded what generic receipt verdict :
  exists v, mapDomainResult what generic (concluded receipt verdict) = Ok v /\
    vr_Outcome v = match verdict with Ok _ => vr_Outcome generic | Err Undecided => VerificationPending | Err (Failed _) => VerificationFailed end.
Proof. destruct verdict as [[[code signature] provable]|[code|]]; cbn; eauto. Qed.

Lemma domain_gate_verified r generic receipt v :
  gate r generic receipt = Ok v -> vr_Outcome v = VerificationVerified ->
  exists i, names r i /\ (int_status i = StatusApproved \/ int_status i = StatusReadyForExecution) /\
    settled i receipt /\ v = generic.
Proof.
  unfold domain_gate. intros E Hv. apply rbind_ok in E as (i & Hi & E). apply frozen_intent_ok in Hi.
  apply rbind_ok in E as ([] & Hs & E). apply fail_if_ok, andb_false_iff in Hs.
  exists i. split; [done|]. split; [destruct Hs as [Hs|Hs]; reflect_all; tauto|]. unfold settled.
  destruct (prm_Type (int_params i)) eqn:Ht; try done; apply rbind_ok in E as (plan & Hp & E); apply map_err_ok in Hp.
  - destruct (send_Verify i plan receipt) as [[]|] eqn:Hsend; [|by injection E as <-]. injection E as <-.
    apply send_Verify_ok in Hsend as (_ & _ & _ & _ & Hset). eauto.
  - apply rbind_ok in E as (d & Hd & E). apply map_err_ok in Hd. apply mapDomainResult_verified in E as [Hdv ->]; [|done].
    apply payroll_Verify_ok in Hd as (_ & _ & _ & f & Hf & Hset); [|done]. eauto 10.
  - apply rbind_ok in E as (d & Hd & E). apply map_err_ok in Hd. apply mapDomainResult_verified in E as [Hdv ->]; [|done].
    apply swap_Verify_ok in Hd as (_ & _ & _ & f & Hf & Hset); [|done]. eauto 10.
Qed.

(** [C13] A verified execution has done what was approved: when the composed
    verifier answers VERIFIED for an execution, the repository holds, under the
    request's identifier, version and digest, a valid intent that is approved
    or ready for execution; the chain client returned for the stored reference a
    SUCCESS receipt with at least the configured confirmations; and that receipt
    settles the intent: the plan's exact call was sent by the intent's wallet to
    the right contract, and the contract's own events pay every recipient (or
    deliver the swap's output, or the token transfer) the exact amounts of the
    intent, within its minimum and the maximum fee. *)
Theorem verified_settles_intent (minimum : Z) (now : Time) (resolve : string -> Reference -> result Reference)
    (chain : string -> string -> result Receipt) (t t' : ObservationTracker) (id encoded : string)
    (observed : result VerificationObservation) (r : Request) (v : VerificationResult)
    (Hobs : VerifyObservation minimum now resolve chain t id encoded = (observed, t'))
    (Hok : ComposedVerify registry scope FindIntentByID r observed = Ok v)
    (Hv : vr_Outcome v = VerificationVerified) :
  exists i reference receipt,
    names r i /\ (int_status i = StatusApproved \/ int_status i = StatusReadyForExecution) /\
    (let! ref := ParseReference encoded in resolveHash resolve id ref) = Ok reference /\
    chain (ref_ChainID reference) (ref_TransactionHash reference) = Ok receipt /\
    rct_Status receipt = ReceiptSuccess /\ minimum <= rct_Confirmations receipt /\ settled i receipt.
Proof.
  unfold ComposedVerify in Hok. apply rbind_ok in Hok as (o & -> & Hok). apply VerifyObservation_ok in Hobs as [Hfinal Hobs].
  destruct (vo_FinalSuccess o) eqn:Ef; cbn [negb] in Hok.
  - assert (vr_Outcome (vo_Result o) = VerificationVerified) as Hg by by apply Hfinal.
    destruct (Hobs (or_introl Hg)) as (reference & receipt & Href & _ & Hc & Hrec & _ & _ & _ & Hsucc & _).
    rewrite Hrec in Hok. cbn [deref rbind] in Hok. apply domain_gate_verified in Hok as (i & Hi & Hst & Hset & _); [|done].
    destruct (Hsucc Hg) as (? & ? & _). exists i, reference, receipt. split_and!; done.
  - injection Hok as <-. apply Hfinal in Hv. congruence.
Qed.

(** * The gate decides *)
Definition planned (i : Intent) : Prop :=
  match prm_Type (int_params i) with
  | TypeSend => exists plan, send_Plan i = Ok plan
  | TypePayroll => exists plan, payroll_Plan registry i = Ok plan
  | TypeSwap => exists plan, swap_Plan registry i = Ok plan
  | _ => False
  end.
Definition authorized (i : Intent) : Prop := int_status i = StatusApproved \/ int_status i = StatusReadyForExecution.

(** What the gate computes, once the intent is found. *)
Lemma domain_gate_names r generic receipt i :
  names r i -> authorized i ->
  gate r generic receipt =
  match prm_Type (int_params i) with
  | TypeSend =>
      let! plan := map_err (errorf_wrap "plan send intent for domain verification: %w" []) (send_Plan i) in
      match send_Verify i plan receipt with
      | Err _ => Ok (MkVerificationResult VerificationFailed "" "SEND_EVIDENCE_MISMATCH" (vr_ObservedAt generic))
      | Ok _ => Ok generic
      end
  | TypePayroll =>
      let! plan := map_err (errorf_wrap "plan payroll intent for domain verification: %w" []) (payroll_Plan registry i) in
      let! domain := map_err (errorf_wrap "verify payroll domain: %w" []) (payroll_Verify registry i plan receipt) in
      mapDomainResult "payroll" generic domain
  | TypeSwap =>
      let! plan := map_err (errorf_wrap "plan swap intent for domain verification: %w" []) (swap_Plan registry i) in
      let! domain := map_err (errorf_wrap "verify swap domain: %w" []) (swap_Verify registry i plan receipt) in
      mapDomainResult "swap" generic domain
  | t => Err (errorf1 "unsupported intent type %q for domain verification" (Type_string t))
  end.
Proof.
  intros Hn Ha. unfold domain_gate. rewrite (proj2 (frozen_intent_ok _ _ r i) Hn). cbn [rbind].
  by destruct Ha as [-> | ->].
Qed.

(** An authorized intent is frozen, so its own plan verifies to a verdict. *)
Lemma authorized_frozen i : authorized i -> Intent_Validate i = Ok tt -> frozen i = true.
Proof.
  intros Ha Hv. apply Intent_Validate_ok in Hv as (_ & _ & _ & Hd). unfold digest_matches in Hd. unfold frozen.
  destruct Ha as [Es|Es]; rewrite Es in Hd |- *; destruct Hd as (c & _ & ->); done.
Qed.

Lemma payroll_Verify_total i plan receipt :
  authorized i -> Intent_Validate i = Ok tt -> prm_Type (int_params i) = TypePayroll -> payroll_Plan registry i = Ok plan ->
  Contracts.ValidAddress (own_WalletAddress (prm_Ownership (int_params i))) = true ->
  exists f, fin_Payroll (prm_Financial (int_params i)) = Some f /\ payroll_Verify registry i plan receipt =
    Ok (concluded receipt (if CrossTokenExecutable f then verify_cross registry f plan receipt else verify_same registry f plan receipt)).
Proof.
  intros Ha Hi Ht Hp Hw. pose proof (payroll_Plan_accepted _ _ _ Hp Hw) as Hv.
  apply payroll_Plan_call in Hp as (f & _ & Hf & _). exists f. split; [done|].
  unfold payroll_Verify. by rewrite Hi, Ht, (authorized_frozen i Ha Hi), Hv, Hf.
Qed.
Lemma swap_Verify_total i plan receipt :
  authorized i -> Intent_Validate i = Ok tt -> prm_Type (int_params i) = TypeSwap -> swap_Plan registry i = Ok plan ->
  Contracts.ValidAddress (own_WalletAddress (prm_Ownership (int_params i))) = true ->
  exists f, fin_Swap (prm_Financial (int_params i)) = Some f /\
    swap_Verify registry i plan receipt = Ok (concluded receipt (verify_swap registry f plan receipt)).
Proof.
  intros Ha Hi Ht Hp Hw. pose proof (swap_Plan_accepted _ _ _ Hp Hw) as Hv.
  apply swap_Plan_call in Hp as (f & _ & Hf & _). exists f. split; [done|].
  unfold swap_Verify. by rewrite Hi, Ht, (authorized_frozen i Ha Hi), Hv, Hf.
Qed.

(** A definite verdict is the generic result or FAILED. *)
Lemma decided_result what generic receipt verdict :
  decided verdict -> exists v, mapDomainResult what generic (concluded receipt verdict) = Ok v /\
    (v = generic \/ vr_Outcome v = VerificationFailed /\ vr_ObservedAt v = vr_ObservedAt generic).
Proof.
  intros Hd. destruct verdict as [[[code signature] provable]|[code|]]; cbn; [eauto..|by destruct Hd].
Qed.

(** [C27] The domain gate decides: for an authorized intent whose plan can be
    built and whose wallet address is valid, the verdict on a successful
    receipt that carries its transaction is never an error and never pending:
    it is the generic result or FAILED.  In particular a domain verifier accepts
    the plan its own planner makes, so an execution cannot be stuck between the
    two. *)
Theorem gate_decides (r : Request) (i : Intent) (generic : VerificationResult) (receipt : Receipt)
    (Hn : names r i) (Ha : authorized i) (Hp : planned i)
    (Hw : Contracts.ValidAddress (own_WalletAddress (prm_Ownership (int_params i))) = true)
    (Hs : rct_Status receipt = ReceiptSuccess) (Ht : rct_HasTransaction receipt = true) :
  exists v, gate r generic receipt = Ok v /\
    (v = generic \/ vr_Outcome v = VerificationFailed /\ vr_ObservedAt v = vr_ObservedAt generic).
Proof.
  rewrite (domain_gate_names r generic receipt i) by done. assert (Intent_Validate i = Ok tt) as Hi by apply Hn.
  unfold planned in Hp. destruct (prm_Type (int_params i)) eqn:Ety; try done; destruct Hp as [plan Hp]; rewrite Hp; cbn [map_err rbind].
  - destruct (send_Verify i plan receipt) as [[]|]; eexists; (split; [reflexivity|]); [by left|by right].
  - destruct (payroll_Verify_total i plan receipt Ha Hi Ety Hp Hw) as (f & _ & ->). cbn [map_err rbind].
    apply decided_result. destruct (CrossTokenExecutable f); [by apply verify_cross_decided|by apply verify_same_decided].
  - destruct (swap_Verify_total i plan receipt Ha Hi Ety Hp Hw) as (f & _ & ->). cbn [map_err rbind].
    by apply decided_result, verify_swap_decided.
Qed.

(** The checks of a verdict, up to where it waits. *)
Lemma verify_waits f g plan receipt :
  rct_Status receipt = ReceiptSuccess -> rct_ChainID receipt = ChainIDArcMainnet ->
  ValidTransactionHash (lower_trim (rct_TransactionHash receipt)) = true -> rct_HasTransaction receipt = false ->
  verify_same registry f plan receipt = Err Undecided /\ verify_cross registry f plan receipt = Err Undecided /\
  verify_swap registry g plan receipt = Err Undecided.
Proof. intros. unfold verify_same, verify_cross, verify_swap. by rewrite !envelope_waits. Qed.

(** Missing transaction evidence is not treated alike: while the node has
    the successful receipt of an execution but not yet its transaction, a
    payroll and a swap stay pending, to be verified again; a send is answered
    FAILED with SEND_EVIDENCE_MISMATCH, which is terminal, although nothing
    contradicts it. *)
Theorem missing_transaction_evidence (r : Request) (i : Intent) (generic : VerificationResult) (receipt : Receipt)
    (Hn : names r i) (Ha : authorized i) (Hp : planned i)
    (Hw : Contracts.ValidAddress (own_WalletAddress (prm_Ownership (int_params i))) = true)
    (Hs : rct_Status receipt = ReceiptSuccess) (Hc : rct_ChainID receipt = ChainIDArcMainnet)
    (Hh : ValidTransactionHash (lower_trim (rct_TransactionHash receipt)) = true)
    (Ht : rct_HasTransaction receipt = false) :
  gate r generic receipt = Ok (match prm_Type (int_params i) with
    | TypeSend => MkVerificationResult VerificationFailed "" "SEND_EVIDENCE_MISMATCH" (vr_ObservedAt generic)
    | _ => genericPending generic
    end).
Proof.
  rewrite (domain_gate_names r generic receipt i) by done. assert (Intent_Validate i = Ok tt) as Hi by apply Hn.
  unfold planned in Hp. destruct (prm_Type (int_params i)) eqn:Ety; try done; destruct Hp as [plan Hp]; rewrite Hp; cbn [map_err rbind].
  - pose proof (send_Plan_binds _ _ Hp) as (_ & _ & _ & _ & _ & _ & Eid & Edig).
    unfold send_Verify. by rewrite Hi, Ety, Eid, Edig, !neqb_refl, Hs, Hc, Ht.
  - destruct (payroll_Verify_total i plan receipt Ha Hi Ety Hp Hw) as (f & _ & ->). cbn [map_err rbind].
    destruct (verify_waits f (MkSwap 0 zero_token zero_token zero_amount zero_amount zero_amount "" 0 "" "" "" None zero_time) plan receipt Hs Hc Hh Ht)
      as (-> & -> & _). by destruct (CrossTokenExecutable f).
  - destruct (swap_Verify_total i plan receipt Ha Hi Ety Hp Hw) as (g & _ & ->). cbn [map_err rbind].
    by destruct (verify_waits (MkPayroll 0 no_variant zero_token zero_token [] zero_amount "" None) g plan receipt Hs Hc Hh Ht)
      as (_ & _ & ->).
Qed.

(** * What the planner submits *)
(** The native value of a payroll's call. *)
Definition payroll_value (f : PayrollParameters) : Z := if SameTokenExecutable f then 0 else expected_value f.
Definition within (bound : Time) (deadlines : list Time) : Prop :=
  IsZero bound = false /\ Forall (fun d => IsZero d = false -> bound <= d) deadlines.
Definition swap_deadlines (f : SwapParameters) : list Time :=
  swp_Deadline f :: match swp_Quote f with Some q => [quo_ExpiresAt q] | None => [] end.
Definition payroll_deadlines (f : PayrollParameters) : list Time :=
  if SameTokenExecutable f then [] else [ct_Deadline (cross_token f)].

Lemma payroll_native_value f call :
  payroll_call f call -> nativeValueForCall call = Ok (FormatInt (payroll_value f)).
Proof.
  intros [(Hid & _) Hcall]. unfold nativeValueForCall, payroll_value. rewrite Hid, eqb_refl.
  destruct (SameTokenExecutable f).
  - by destruct Hcall as (-> & _).
  - destruct Hcall as (-> & _ & Hv & Hdec). rewrite eqb_refl, Hdec. cbn [map_err rbind].
    unfold validateCrossToken in Hv. apply rbind_ok in Hv as ([] & Hpair & _). apply fail_if_ok, negb_false_iff in Hpair.
    apply canonicalPair_valid in Hpair as [Va _]. cbn in Va. cbn [cti_checksummed cti_TokenIn cti_GrossInput cross_terms].
    rewrite checksummed_equal by done. unfold expected_value. by destruct (AddressesEqual _ _).
Qed.

Lemma swap_native_value f call :
  to_swap call -> canonicalPair (swi_TokenIn (swap_terms f)) (swi_TokenOut (swap_terms f)) = true ->
  Swap.DecodeExecuteSwapCall (cal_callData call) = Ok (swi_checksummed (swap_terms f)) ->
  nativeValueForCall call = Ok (FormatInt (swap_expected_value f)).
Proof.
  intros (Hid & _) Hpair Hdec. unfold nativeValueForCall. rewrite Hid. change (ContractWizPaySwapExecutor == ContractWizPayPayroll) with false.
  rewrite eqb_refl, Hdec. cbn [map_err rbind]. apply canonicalPair_valid in Hpair as [Va _]. cbn in Va.
  cbn [swi_checksummed swi_TokenIn swi_AmountIn swap_terms]. rewrite checksummed_equal by done.
  unfold swap_expected_value. by destruct (AddressesEqual _ _).
Qed.

(** A contract plan, whatever its domain. *)
Definition owned (i : Intent) (p : Plan) : Prop :=
  let o := prm_Ownership (int_params i) in
  pln_WalletID p = own_WalletID o /\ pln_WalletAddress p = own_WalletAddress o /\ pln_ChainID p = own_ChainID o /\
  Plan_Validate p = Ok tt.
Definition intent_deadlines (i : Intent) : list Time := [prm_ExpiresAt (int_params i); con_Deadline (prm_Constraints (int_params i))].

Lemma within_earliest candidates deadlines :
  IsZero (EarliestDeadline candidates) = false -> deadlines ⊆ candidates -> within (EarliestDeadline candidates) deadlines.
Proof.
  intros Hz Hsub. split; [done|]. apply Forall_forall. intros d Hd Hne. apply EarliestDeadline_bound; [by apply Hsub|].
  by apply Z.eqb_neq.
Qed.

Lemma contractPlan_ok i id digest call p :
  contractPlan i id digest call = Ok p ->
  exists bound v swap payroll, pln_encodedCall p = Some call /\ owned i p /\ SubmitNotAfter p = Some bound /\
    pln_nativeValueBaseUnits p = Some v /\ nativeValueForCall call = Ok v /\ swap_native i = Ok swap /\
    payroll_native i (snd swap) = Ok payroll /\
    forall deadlines, deadlines ⊆ app (intent_deadlines i) (app (fst swap) (fst payroll)) -> within bound deadlines.
Proof.
  unfold contractPlan. intros E. apply rbind_ok in E as ([] & _ & E). apply rbind_ok in E as (swap & Hswap & E).
  apply rbind_ok in E as (payroll & Hpay & E). apply map_err_ok in E.
  apply NewContractExecutionPlan_ok in E as (Hc & Hs & Hch & Hw & Hid & Hv & v & Hnv & Hval). cbn [cep_Call cep_SubmitNotAfter cep_ChainID cep_WalletAddress cep_WalletID] in *.
  eexists _, v, swap, payroll. unfold owned. split_and!; try done. intros deadlines Hsub. apply within_earliest; [|done].
  unfold SubmitNotAfter in Hs. destruct (pln_submitNotAfter p) as [t|]; [|done].
  destruct (IsZero t) eqn:Ez; [done|]. injection Hs as Hs. unfold UTC in Hs. rewrite Hs in Ez. exact Ez.
Qed.

(** [C14] The plan submitted is the intent approved: when the planner answers a
    request, the repository holds the exact approved intent the request names,
    and the provider plan is that intent's: its wallet and chain; for a send
    the recipient, the token and the amount in decimal and base units; for a
    payroll or a swap a sealed call to the canonical contract that decodes to
    the intent's terms, the native value those terms require, and a freshness
    bound that no deadline of the intent, its constraints, its quote or its
    call precedes. *)
Theorem planned_binds_intent (r : Request) (p : Plan) (Hok : plan_of r = Ok p) :
  exists i, names r i /\ int_status i = StatusApproved /\ owned i p /\
    match prm_Type (int_params i) with
    | TypeSend => exists s, fin_Send (prm_Financial (int_params i)) = Some s /\ pln_encodedCall p = None /\
        pln_DestinationAddress p = snd_Recipient s /\ pln_TokenID p = tok_Symbol (snd_Token s) /\
        pln_Amount p = amt_Decimal (snd_Amount s) /\ pln_AmountBaseUnits p = amt_BaseUnits (snd_Amount s)
    | TypePayroll => exists f call bound, fin_Payroll (prm_Financial (int_params i)) = Some f /\
        pln_encodedCall p = Some call /\ payroll_call f call /\
        pln_nativeValueBaseUnits p = Some (FormatInt (payroll_value f)) /\
        SubmitNotAfter p = Some bound /\ within bound (app (intent_deadlines i) (payroll_deadlines f))
    | TypeSwap => exists f call bound, fin_Swap (prm_Financial (int_params i)) = Some f /\
        pln_encodedCall p = Some call /\ to_swap call /\
        Swap.DecodeExecuteSwapCall (cal_callData call) = Ok (swi_checksummed (swap_terms f)) /\
        pln_nativeValueBaseUnits p = Some (FormatInt (swap_expected_value f)) /\
        SubmitNotAfter p = Some bound /\ within bound (app (intent_deadlines i) (swap_deadlines f))
    | _ => False
    end.
Proof.
  unfold Planner_Plan in Hok. apply rbind_ok in Hok as ([] & _ & Hok). apply rbind_ok in Hok as (i & Hi & Hok).
  apply frozen_intent_ok in Hi. apply rbind_ok in Hok as ([] & Hst & Hok). apply fail_if_ok in Hst. reflect_all.
  exists i. split; [done|]. split; [done|]. destruct (prm_Type (int_params i)) eqn:Ety; try done.
  - apply rbind_ok in Hok as (plan & Hp & [= <-]). apply map_err_ok in Hp. by apply send_Plan_provider in Hp.
  - unfold domain_plan in Hok. apply rbind_ok in Hok as (plan & Hp & Hok). apply map_err_ok in Hp.
    apply payroll_Plan_call in Hp as (f & _ & Hf & _ & _ & _ & _ & Hcall).
    apply contractPlan_ok in Hok as (bound & v & swap & payroll & Hc & Ho & Hs & Hv & Hval & _ & Hpay & Hbound).
    split; [done|]. exists f, (dpl_encodedCall plan), bound. rewrite (payroll_native_value f) in Hval by done. injection Hval as <-.
    split_and!; try done. apply Hbound. unfold payroll_native in Hpay. rewrite Hf in Hpay. unfold payroll_deadlines.
    destruct (SameTokenExecutable f) eqn:Hsame; [set_solver|].
    destruct Hcall as [_ Hcall]. rewrite Hsame in Hcall. destruct Hcall as (_ & Hcross & _). rewrite Hcross in Hpay.
    apply rbind_ok in Hpay as (? & _ & [= <-]). cbn. set_solver.
  - unfold domain_plan in Hok. apply rbind_ok in Hok as (plan & Hp & Hok). apply map_err_ok in Hp.
    apply swap_Plan_call in Hp as (f & _ & Hf & _ & _ & _ & _ & _ & Hto & Hpair & Hdec).
    apply contractPlan_ok in Hok as (bound & v & swap & payroll & Hc & Ho & Hs & Hv & Hval & Hswap & _ & Hbound).
    split; [done|]. exists f, (dpl_encodedCall plan), bound. rewrite (swap_native_value f) in Hval by done. injection Hval as <-.
    split_and!; try done. apply Hbound. unfold swap_native in Hswap. rewrite Hf in Hswap.
    apply rbind_ok in Hswap as (? & _ & [= <-]). unfold swap_deadlines. cbn. set_solver.
Qed.
End guarantees.

(** Concrete intents and receipts for the theorems of [Wiring]: a cross-token
    payroll of two recipients, planned and settled, with the events its
    contract emits; and a send whose transaction the node does not have yet. *)
From S2P Require Import Policies Evaluator GoText GoTime AppErrors Contracts IntentTypes Amounts IntentParams Intents.
From S2P Require Import IntentSafety Execution Storage RuntimeEffects Deployments Abi PayrollContract SwapContract.
From S2P Require Import References ChainEvidence Plans Settlement PayrollSettlement SwapSettlement SendSettlement.

(** A computation, evaluated once by the kernel. *)
Ltac vm_refl := match goal with |- _ = ?b => vm_cast_no_check (eq_refl b) end.

Module WiringSamples.
Import Samples.
#[local] Existing Instances Eth.is_hex_address Eth.no_folding Eth.is_hex_address_spec EthDigits.crypto.
#[local] Instance crypto_ok : EthCryptoSpec := EthDigits.crypto_spec _.
#[local] Existing Instances Netstrings.codec Netstrings.codec_spec.
#[local] Instance folds : FoldTables := fun _ _ => false.
#[local] Instance quantities : HexUtil := fun s =>
  match hex_digits (TrimPrefix s "0x") with Some n => Ok n | None => Err (errorf "hexutil: invalid") end.

Definition payroll_params : Params :=
  MkParams "intent-1" 1 "client-1" "nonce-1" TypePayroll IntentSamples.ownership
    (MkFinancial None (Some cross_payroll) None None None)
    (MkRoute RouteAllowlistedContract RouteReferencePayroll RouteVersionPayroll)
    (MkConstraints (now + Hour) "policy-1") now (now + Hour).
Definition approve (p : Params) : result Intent :=
  let! draft := NewDraft p in
  let! created := Intent_Transition draft Intents.StatusCreated now in
  let! requested := Intent_Transition created Intents.StatusApprovalRequired now in
  Intent_Approve requested (Some IntentSamples.anyone) (now + Minute).
Definition intent : Intent := Eval vm_compute in IntentSamples.get (approve payroll_params).
Definition send_intent : Intent := IntentSamples.approved.

Definition scope : Storage.Scope := Storage.MkScope "tenant-1" "actor-1" "request-1" "trace-1".
Definition repository (i : Intent) (_ : Storage.Scope) (_ : string) : result Intent := Ok i.
Definition request_for (i : Intent) : Request :=
  let at_ := now + Minute in
  let policy := policy_key "policy-1" 1 "intent-1" 1 (int_digest i) EvaluationStageBeforeExecution at_ DecisionAllow in
  let key := request_key "operation-1" 1 "approval-1" 1 policy in
  MkRequest ("exreq_" +:+ key) key 1 (execution_id "operation-1" 1) "operation-1" 1 "intent-1" 1 (int_digest i) "approval-1" 1
    "policy-1" 1 policy EvaluationStageBeforeExecution at_ at_.
Definition request : Request := Eval vm_compute in request_for intent.

(** The receipt of the payroll's transaction: the swap, the two payments, the
    aggregates and the refund, as the contract logs them. *)
Definition no_call : EncodedCall := MkEncodedCall "" 0 "" "" "" "" "" "".
Definition call : EncodedCall := Eval vm_compute in
  match payroll_Plan None intent with Ok p => dpl_encodedCall p | Err _ => no_call end.
Definition word (address : string) : string := of_bytes (replicate 12 0) +:+ HexToAddress address.
Definition hash : string := Eval vm_compute in match ReferenceHash wallet "payroll-2026-01" with Ok h => h | Err _ => "" end.
Definition log (signature t1 t2 t3 : string) (values : list abi_value) : ReceiptLog :=
  let data := match EventBySignature signature with
              | Ok event => match Pack (NonIndexed event) values with Ok d => d | Err _ => "" end
              | Err _ => "" end in
  MkReceiptLog AddressWizPayPayroll [Keccak256 signature; t1; t2; t3] data 0 false "".
Definition payment (k : Z) (recipient : string) (amount : Z) : ReceiptLog :=
  log SigPayrollPayment hash (word wallet) (word AddressEURCMainnet) [VAddress (HexToAddress recipient); VUint k; VUint amount].
Definition logs : list ReceiptLog := Eval vm_compute in
  [log SigPayrollSwapExecuted hash (word wallet) (word AddressUSDCMainnet)
     [VAddress (HexToAddress AddressEURCMainnet); VUint 120000000; VUint 1000000; VUint 119000000; VUint 102000000; VUint 101000000];
   payment 0 alice 40000000; payment 1 bob 60000000;
   log SigPayrollReferenceConsumed hash (word wallet) (word AddressUSDCMainnet)
     [VAddress (HexToAddress AddressEURCMainnet); VBytes32 hash; VUint 120000000; VUint 100000000; VUint 1000000; VUint 2;
      VString "payroll-2026-01"];
   log SigPayrollBatchExecuted (word wallet) (word AddressUSDCMainnet) (word AddressEURCMainnet)
     [VUint 120000000; VUint 100000000; VUint 1000000; VUint 2; VString "payroll-2026-01"];
   log SigPayrollSurplusRefunded hash (word wallet) (word AddressEURCMainnet) [VUint 2000000]].
Definition receipt : Receipt :=
  MkReceipt ReceiptSuccess "5042" ReferenceSamples.hash 1204 EvidenceSamples.block 3 logs true wallet AddressWizPayPayroll
    "0x68155a43676e00000" (cal_callData call).
Definition chain (_ _ : string) : result Receipt := Ok receipt.
Definition observed : result VerificationObservation * ObservationTracker := Eval vm_compute in
  VerifyObservation 1 now EvidenceSamples.no_resolver chain ∅ "execution-1" EvidenceSamples.line.
Definition generic : VerificationResult := Eval vm_compute in
  match fst observed with Ok o => vo_Result o | Err _ => MkVerificationResult VerificationPending "" "" 0 end.
Definition tracked : ObservationTracker := Eval vm_compute in snd observed.
Definition observation : result VerificationObservation := Eval vm_compute in fst observed.

(** The payroll above is verified, so it is settled. *)
Lemma verified_settles_intent_witness :
  exists i rc, names (Some scope) (repository intent) request i /\ rct_Status rc = ReceiptSuccess /\ settled None i rc.
Proof.
  destruct (verified_settles_intent None (Some scope) (repository intent) 1 now EvidenceSamples.no_resolver chain ∅ tracked
    "execution-1" EvidenceSamples.line observation request generic) as (i & reference & rc & Hn & _ & _ & _ & Hs & _ & Hset).
  - vm_refl.
  - vm_refl.
  - vm_refl.
  - exists i, rc. exact (conj Hn (conj Hs Hset)).
Defined.

Definition domain_plan_of : option DomainPlan := Eval vm_compute in
  match payroll_Plan None intent with Ok p => Some p | Err _ => None end.
Definition domain_result : DomainResult :=
  MkDomainResult DomainVerified "CROSS_TOKEN_PAYROLL_VERIFIED" SigPayrollSwapExecuted
    ["sender"; "target"; "calldata"; "funding"; "ordered_payments"; "aggregate_totals"; "reference"; "swap"; "surplus"]
    ReferenceSamples.hash false.
Lemma verified_payroll_log_budget_witness :
  exists f, fin_Payroll (prm_Financial (int_params intent)) = Some f /\ Z.of_nat (length (pay_Recipients f)) <= 62.
Proof.
  pose (plan := match domain_plan_of with Some p => p | None => MkDomainPlan "" "" TypeSend "" 0 "" "" no_call end).
  destruct (verified_payroll_log_budget None intent plan receipt domain_result) as (f & Hf & Hb & _).
  - vm_refl.
  - reflexivity.
  - exists f. split; [exact Hf|]. unfold MaxReceiptLogs in Hb. lia.
Defined.

Definition no_provider_plan : Plan := MkPlan (PlanKindOther "") "" "" "" "" "" "" "" "" "" 0 "" None None None.
Definition provider_plan : Plan := Eval vm_compute in
  match Planner_Plan None (Some scope) (repository intent) request with Ok p => p | Err _ => no_provider_plan end.
Lemma planned_binds_intent_witness :
  exists i, names (Some scope) (repository intent) request i /\ owned i provider_plan.
Proof.
  destruct (planned_binds_intent None (Some scope) (repository intent) request provider_plan) as (i & Hn & _ & Ho & _).
  - vm_refl.
  - exists i. exact (conj Hn Ho).
Defined.

(** The send, with a receipt that has no transaction, and with one whose
    transaction is another. *)
Definition send_request : Request := Eval vm_compute in request_for send_intent.
Definition send_receipt (known : bool) : Receipt :=
  MkReceipt ReceiptSuccess "5042" ReferenceSamples.hash 1204 EvidenceSamples.block 3 [] known wallet AddressUSDCMainnet "0x0" "".
Definition send_plan : option SendPlan := Eval vm_compute in
  match send_Plan send_intent with Ok p => Some p | Err _ => None end.
Lemma names_send : names (Some scope) (repository send_intent) send_request send_intent.
Proof.
  split; [exists scope; split; reflexivity|]. split_and!; vm_compute; reflexivity.
Defined.
Lemma planned_send : planned None send_intent.
Proof.
  unfold planned. change (prm_Type (int_params send_intent)) with TypeSend. cbv iota.
  exists (default (MkSendPlan "" "" zero_token "" zero_amount "" no_provider_plan) send_plan). vm_refl.
Defined.

Lemma gate_decides_witness :
  exists v, domain_gate None (Some scope) (repository send_intent) send_request generic (send_receipt true) = Ok v.
Proof.
  destruct (gate_decides None (Some scope) (repository send_intent) send_request send_intent generic (send_receipt true))
    as (v & Hv & _).
  - exact names_send.
  - left. reflexivity.
  - exact planned_send.
  - vm_refl.
  - reflexivity.
  - reflexivity.
  - exists v. exact Hv.
Defined.

Lemma missing_transaction_evidence_witness :
  domain_gate None (Some scope) (repository send_intent) send_request generic (send_receipt false)
  = Ok (MkVerificationResult VerificationFailed "" "SEND_EVIDENCE_MISMATCH" (vr_ObservedAt generic)).
Proof.
  refine (missing_transaction_evidence None (Some scope) (repository send_intent) send_request send_intent generic
    (send_receipt false) names_send _ planned_send _ _ _ _ _).
  - left. reflexivity.
  - vm_refl.
  - reflexivity.
  - reflexivity.
  - vm_refl.
  - reflexivity.
Defined.
End WiringSamples.
