(* ===== verification/ArcClient.v ===== *)
(** internal/providers/arc, the data of the chain: hexadecimal quantities
    (client.go), transaction input (transaction.go) and the logs of a receipt
    (logs.go), from JSON-RPC text to provider-neutral evidence; then the client
    and the receipt verifier. *)
From S2P Require Import Prelude GoStrings GoText AppErrors Contracts References ChainEvidence.
Open Scope string_scope.
Open Scope Z_scope.
Open Scope go_scope.

Record rawReceiptLog := MkRawLog {
  raw_Address : string; raw_Topics : list string; raw_Data : string; raw_LogIndex : string; raw_TransactionHash : string
}.
Record receiptPayload := MkReceiptPayload {
  rpl_Status : string; rpl_TransactionHash : string; rpl_BlockNumber : string; rpl_BlockHash : string;
  rpl_Logs : list rawReceiptLog
}.
Record transactionPayload := MkTransactionPayload {
  tpl_Hash : string; tpl_From : string; tpl_To : string; tpl_Value : string; tpl_Input : string
}.

Definition parseQuantity (value : string) : result Z :=
  let trimmed := TrimPrefix (TrimSpace value) "0x" in
  do! fail_if ((trimmed == "") || (16 <? len trimmed)) (errorf1 "Arc quantity %q is invalid" value);
  map_err (fun _ => errorf "Arc quantity is invalid") (ParseHex64 trimmed).

Definition has_0x (value : string) : bool := HasPrefix value "0x" || HasPrefix value "0X".
Definition maxTransactionInputBytes : Z := 64 * 1024.
Definition decodeTransactionInput (value : string) : result string :=
  let value := TrimSpace value in
  do! fail_if (negb (has_0x value)) (errorf "transaction input lacks 0x prefix");
  let body := rest_bytes 2 value in
  do! fail_if (Z.odd (len body) || (maxTransactionInputBytes <? len body / 2))
        (errorf "transaction input has invalid size");
  map_err (fun _ => errorf "transaction input is invalid") (DecodeString body).

Definition decodeTopic32 (value : string) : result string :=
  let value := TrimSpace value in
  do! fail_if (negb (has_0x value)) (errorf "topic missing 0x prefix");
  let hexBody := rest_bytes 2 value in
  do! fail_if (len hexBody != 64) (errorf "topic length");
  let! decoded := map_err (fun _ => errorf "topic hex") (DecodeString hexBody) in
  do! fail_if (len decoded != 32) (errorf "topic hex");
  Ok decoded.

Definition decodeLogData (value : string) : result string :=
  let value := TrimSpace value in
  if (value == "") || (value == "0x") || (value == "0X") then Ok ""
  else
    do! fail_if (negb (has_0x value)) (errorf "malformed data");
    let hexBody := rest_bytes 2 value in
    do! fail_if (Z.odd (len hexBody)) (errorf "malformed data");
    do! fail_if (MaxLogDataBytes <? len hexBody / 2) (errorf "oversized data");
    map_err (fun _ => errorf "malformed data") (DecodeString hexBody).

Section logs.
Context `{UnicodeTables}.

Fixpoint decodeTopics (j : nat) (topics : list string) : result (list string) :=
  match topics with
  | [] => Ok []
  | topicHex :: rest =>
      let! topic := map_err (fun _ => errorf1 "malformed topic %d" (FormatUint (Z.of_nat j))) (decodeTopic32 topicHex) in
      let! topics := decodeTopics (S j) rest in
      Ok (topic :: topics)
  end.
(** [HasIndex] and [Index], which is 0 when it is not set. *)
Definition log_index (raw : string) : result (Z * bool) :=
  let trimmed := TrimSpace raw in
  if trimmed != "" then
    let! index := map_err (fun _ => errorf "malformed log index") (parseQuantity trimmed) in Ok (index, true)
  else Ok (0, false).
Definition log_transaction (raw expectedTxHash : string) : result string :=
  let trimmed := lower_trim raw in
  if trimmed != "" then
    do! fail_if (negb (ValidTransactionHash trimmed)) (errorf "malformed transaction hash");
    do! fail_if ((expectedTxHash != "") && (trimmed != expectedTxHash)) (errorf "transaction hash mismatch");
    Ok trimmed
  else Ok "".

Definition normalizeOneReceiptLog (raw : rawReceiptLog) (expectedTxHash : string) : result ReceiptLog :=
  let address := TrimSpace (raw_Address raw) in
  do! fail_if (negb (ValidAddress address)) (errorf "malformed address");
  do! fail_if (MaxLogTopics <? Z.of_nat (length (raw_Topics raw))) (errorf "too many topics");
  let! topics := decodeTopics 0 (raw_Topics raw) in
  let! data := decodeLogData (raw_Data raw) in
  do! fail_if (MaxLogDataBytes <? len data) (errorf "oversized data");
  let! index := log_index (raw_LogIndex raw) in
  let! hash := log_transaction (raw_TransactionHash raw) expectedTxHash in
  Ok (MkReceiptLog (ToLower address) topics data (fst index) (snd index) hash).

Fixpoint normalize_all (i : nat) (raw : list rawReceiptLog) (expectedTxHash : string) : result (list ReceiptLog) :=
  match raw with
  | [] => Ok []
  | item :: rest =>
      let! log := map_err (errorf_wrap "Arc receipt log %d: %w" [FormatUint (Z.of_nat i)])
                    (normalizeOneReceiptLog item expectedTxHash) in
      let! logs := normalize_all (S i) rest expectedTxHash in
      Ok (log :: logs)
  end.
Definition normalizeReceiptLogs (raw : list rawReceiptLog) (expectedTxHash : string) : result (list ReceiptLog) :=
  if Z.of_nat (length raw) =? 0 then Ok []
  else
    do! fail_if (MaxReceiptLogs <? Z.of_nat (length raw)) (errorf "Arc receipt has too many logs");
    let! out := normalize_all 0 raw (lower_trim expectedTxHash) in
    do! map_err (errorf_wrap "Arc receipt logs invalid: %w" []) (ValidateLogs out);
    Ok out.
End logs.

(** internal/providers/arc: the read-only JSON-RPC client behind its circuit
    breaker (client.go), the chain verifier that turns a receipt into evidence
    (verifier.go), the health probe (health.go) and the attestation of the
    deployed contracts (attestation.go, state_attestation.go).

    The n-th call of a client meets the n-th reply of its endpoint, in any
    order of methods; the breaker reads the clock before and after it.  A call
    threads the client: its breaker, whether the endpoint's chain was verified,
    and the number of calls so far. *)
From S2P Require Import GoText GoTime AppErrors Contracts Circuit References ChainEvidence Deployments.

(** What answers a request: the transport, an HTTP status outside 2xx, a body
    that cannot be read or decoded, a JSON-RPC error, a result that does not
    decode into the type asked for, or a result. *)
Inductive reply (A : Type) : Type :=
  | Unreachable | HttpStatus (code : Z) | Unread | Undecodable | RpcError (code : Z) | Undecoded | Reply (value : A).
Arguments Unreachable {A}.
Arguments HttpStatus {A} code.
Arguments Unread {A}.
Arguments Undecodable {A}.
Arguments RpcError {A} code.
Arguments Undecoded {A}.
Arguments Reply {A} value.

(** The methods the package issues.  An object is [None] when it is null or
    absent, and an error when it does not unmarshal into its payload. *)
Record Endpoint := MkEndpoint {
  eth_chainId : nat -> reply string;
  eth_blockNumber : nat -> reply string;
  eth_getTransactionReceipt : string -> nat -> reply (option (result receiptPayload));
  eth_getTransactionByHash : string -> nat -> reply (option (result transactionPayload));
  eth_getCode : string -> nat -> reply string;
  eth_call : string -> string -> nat -> reply string
}.

(** The fields of a validated, enabled configuration that the code reads. *)
Record ArcConfig := MkArcConfig { acf_ChainID : string; acf_MinConfirmations : Z }.
Record Client := MkClient { cli_breaker : option Breaker; cli_chainVerified : bool; cli_calls : nat }.

Definition chain (A : Type) : Type := Client -> result A * Client.
Definition pure_chain {A} (m : result A) : chain A := fun c => (m, c).
Definition bind_chain {A B} (m : chain A) (k : A -> chain B) : chain B :=
  fun c => match m c with (Ok a, c) => k a c | (Err e, c) => (Err e, c) end.
Notation "'ask!' x ':=' m 'in' k" := (bind_chain m (fun x => k))
  (at level 10, x name, m at level 100, k at level 200) : go_scope.
Notation "'ask_do!' m ';' k" := (bind_chain m (fun _ : unit => k))
  (at level 10, m at level 100, k at level 200) : go_scope.

Section client.
Context `{UnicodeTables} `{FoldTables}.
Context (config : ArcConfig) (endpoint : Endpoint) (clock : nat -> Time).

(** * The client (client.go) *)
Definition allow (c : Client) : result unit * option Breaker :=
  match cli_breaker c with
  | None => (Ok tt, None)
  | Some b => let '(r, b) := Allow (clock (2 * cli_calls c)) b in (r, Some b)
  end.
Definition record (success : bool) (n : nat) (breaker : option Breaker) : option Breaker :=
  (if success then RecordSuccess (clock (2 * n + 1)) else RecordFailure (clock (2 * n + 1))) <$> breaker.

Definition call {A} (ask : nat -> reply A) : chain A := fun c =>
  let n := cli_calls c in
  let '(allowed, breaker) := allow c in
  let done r success := (r, MkClient (record success n breaker) (cli_chainVerified c) (S n)) in
  match allowed with
  | Err _ => (Err (errorf "Arc endpoint circuit breaker is open"), MkClient breaker (cli_chainVerified c) (S n))
  | Ok _ =>
      match ask n with
      | Unreachable => done (Err (errorf "Arc endpoint is unreachable")) false
      | HttpStatus code => done (Err (errorf1 "Arc endpoint returned status %d" (FormatInt code))) false
      | Unread => done (Err (errorf "Arc response could not be read")) false
      | Undecodable => done (Err (errorf "Arc response could not be decoded")) false
      | RpcError code => done (Err (errorf1 "Arc endpoint reported RPC error %d" (FormatInt code))) false
      | Undecoded => done (Err (errorf "Arc result could not be decoded")) false
      | Reply a => done (Ok a) true
      end
  end.

Definition same_chain (encoded : string) : result unit :=
  let! observed := parseQuantity encoded in
  let! expected := map_err (fun _ => errorf "configured Arc chain ID is invalid") (ParseUint64 (acf_ChainID config)) in
  fail_if (observed != expected)
    (errorf2 "Arc endpoint serves chain %d but %d is configured" (FormatUint observed) (FormatUint expected)).
Definition ensureChainIdentity : chain unit := fun c =>
  if cli_chainVerified c then (Ok tt, c)
  else
    (ask! encoded := call (eth_chainId endpoint) in
     ask_do! pure_chain (same_chain encoded);
     fun c => (Ok tt, MkClient (cli_breaker c) true (cli_calls c))) c.

Definition BlockNumber : chain Z :=
  ask! encoded := call (eth_blockNumber endpoint) in pure_chain (parseQuantity encoded).

(** [Receipt] and [Transaction]; [None] is not found. *)
Definition readable (hash : string) (raw : option (result receiptPayload)) : result (option receiptPayload) :=
  match raw with
  | None => Ok None
  | Some payload =>
      let! payload := map_err (fun _ => errorf "Arc receipt is unreadable") payload in
      let! _ := map_err (fun _ => errorf "Arc receipt is unreadable") (normalizeReceiptLogs (rpl_Logs payload) (lower_trim hash)) in
      Ok (Some payload)
  end.
Definition ClientReceipt (hash : string) : chain (option receiptPayload) :=
  ask_do! ensureChainIdentity;
  ask! raw := call (eth_getTransactionReceipt endpoint hash) in pure_chain (readable hash raw).

Definition same_transaction (hash : string) (raw : option (result transactionPayload)) : result (option transactionPayload) :=
  match raw with
  | None => Ok None
  | Some payload =>
      let! payload := map_err (fun _ => errorf "Arc transaction is unreadable") payload in
      do! fail_if (negb (EqualFold (tpl_Hash payload) hash)) (errorf "Arc transaction is unreadable");
      Ok (Some payload)
  end.
Definition ClientTransaction (hash : string) : chain (option transactionPayload) :=
  ask_do! ensureChainIdentity;
  ask! raw := call (eth_getTransactionByHash endpoint hash) in pure_chain (same_transaction hash raw).

(** The chain and the height; the chain is "" when identity failed. *)
Definition ClientHealthCheck : chain (string * Z) :=
  ask_do! ensureChainIdentity;
  ask! head := BlockNumber in pure_chain (Ok (acf_ChainID config, head)).

(** * The verifier (verifier.go) *)
Definition receipt_of (status : ReceiptStatus) (chainID hash blockHash : string) (block confirmations : Z) (logs : list ReceiptLog) : Receipt :=
  MkReceipt status chainID hash block blockHash confirmations logs false "" "" "" "".
Definition with_transaction (r : Receipt) (t : option transactionPayload) : result Receipt :=
  match t with
  | None => Ok r
  | Some t =>
      let! input := map_err (fun _ => errorf "Arc transaction input is invalid") (decodeTransactionInput (tpl_Input t)) in
      Ok (MkReceipt (rct_Status r) (rct_ChainID r) (rct_TransactionHash r) (rct_BlockNumber r) (rct_BlockHash r)
            (rct_Confirmations r) (rct_Logs r) true (lower_trim (tpl_From t)) (lower_trim (tpl_To t))
            (lower_trim (tpl_Value t)) input)
  end.

(** The status read, and the depth it needs. *)
Definition classified (payload : receiptPayload) (r : Receipt) : Receipt :=
  let shallow := receipt_of ReceiptUnknown (rct_ChainID r) (rct_TransactionHash r) (rct_BlockHash r) (rct_BlockNumber r)
                   (rct_Confirmations r) (rct_Logs r) in
  let with_status status :=
    MkReceipt status (rct_ChainID r) (rct_TransactionHash r) (rct_BlockNumber r) (rct_BlockHash r)
      (rct_Confirmations r) (rct_Logs r) (rct_HasTransaction r) (rct_From r) (rct_To r) (rct_Value r) (rct_Input r) in
  let status := lower_trim (rpl_Status payload) in
  if status == "0x1" then
    if rct_Confirmations r <? acf_MinConfirmations config then shallow else with_status ReceiptSuccess
  else if status == "0x0" then with_status ReceiptReverted
  else shallow.

Definition evidence (chainID hash : string) (payload : receiptPayload) (block : Z) : chain Receipt :=
  ask! head := BlockNumber in
  if head <? block then pure_chain (Ok (receipt_of ReceiptUnknown chainID hash "" 0 0 []))
  else
    ask! logs := pure_chain (map_err (fun _ => errorf "Arc receipt logs are invalid") (normalizeReceiptLogs (rpl_Logs payload) hash)) in
    ask! transaction := ClientTransaction hash in
    ask! r := pure_chain (with_transaction (receipt_of (ReceiptOther "") chainID hash (lower_trim (rpl_BlockHash payload))
                                              block (u64 (head - block + 1)) logs) transaction) in
    pure_chain (Ok (classified payload r)).

Definition ArcTransactionReceipt (chainID transactionHash : string) : chain Receipt :=
  let hash := lower_trim transactionHash in
  let unknown := receipt_of ReceiptUnknown chainID hash "" 0 0 [] in
  ask_do! pure_chain (fail_if (chainID != acf_ChainID config) (errorf1 "Arc verifier does not serve chain %q" chainID));
  ask_do! pure_chain (fail_if (negb (ValidTransactionHash hash)) (errorf "Arc transaction hash is invalid"));
  ask! found := ClientReceipt hash in
  match found with
  | None => pure_chain (Ok unknown)
  | Some payload =>
      let observed := ToLower (rpl_TransactionHash payload) in
      ask_do! pure_chain (fail_if ((observed != "") && (observed != hash))
                            (errorf "Arc receipt does not match the requested transaction"));
      match parseQuantity (rpl_BlockNumber payload) with
      | Err _ => pure_chain (Ok unknown)
      | Ok block => evidence chainID hash payload block
      end
  end.
End client.

(** * Threading the client *)
Section threading.
Lemma bind_chain_ok {A B} (m : chain A) (k : A -> chain B) c b c' :
  bind_chain m k c = (Ok b, c') -> exists a c1, m c = (Ok a, c1) /\ k a c1 = (Ok b, c').
Proof. unfold bind_chain. destruct (m c) as [[a|e] c1]; [eauto|done]. Qed.
Lemma pure_chain_ok {A} (m : result A) c a c' : pure_chain m c = (Ok a, c') -> m = Ok a /\ c' = c.
Proof. unfold pure_chain. by intros [= -> ->]. Qed.

(** What a computation keeps of the client, whatever it answers. *)
Definition keeps (P : Client -> Prop) {A} (m : chain A) : Prop := forall c, P c -> P (snd (m c)).
Lemma keeps_pure P {A} (m : result A) : keeps P (pure_chain m).
Proof. by intros c Hc. Qed.
Lemma keeps_bind P {A B} (m : chain A) (k : A -> chain B) :
  keeps P m -> (forall a, keeps P (k a)) -> keeps P (bind_chain m k).
Proof.
  intros Hm Hk c Hc. unfold bind_chain. specialize (Hm c Hc). destruct (m c) as [[a|e] c1]; cbn in *; [by apply Hk|done].
Qed.
End threading.
Create HintDb chain.
#[export] Hint Resolve keeps_pure keeps_bind : chain.

Section guarantees.
Context `{UnicodeTables} `{FoldTables}.
Context (config : ArcConfig) (endpoint : Endpoint) (clock : nat -> Time).

Lemma call_cases {A} (ask : nat -> reply A) c :
  let '(r, c') := call clock ask c in
  cli_calls c' = S (cli_calls c) /\ cli_chainVerified c' = cli_chainVerified c /\
  (forall a, r = Ok a -> ask (cli_calls c) = Reply a).
Proof.
  unfold call. destruct (allow clock c) as [[u|e] breaker]; [destruct (ask (cli_calls c))|]; cbn; split_and!; congruence.
Qed.
Lemma call_ok {A} (ask : nat -> reply A) c a c' : call clock ask c = (Ok a, c') ->
  ask (cli_calls c) = Reply a /\ cli_calls c' = S (cli_calls c) /\ cli_chainVerified c' = cli_chainVerified c.
Proof. intros E. pose proof (call_cases ask c) as Hc. rewrite E in Hc. destruct Hc as (? & ? & Ha). eauto. Qed.

(** The three facts that every operation keeps: calls only grow; the chain is
    marked verified only by a reply that names the configured chain; and the
    breaker is one that its calls have driven. *)
Definition identified (c : Client) : Prop :=
  cli_chainVerified c = true ->
  exists k encoded, (k < cli_calls c)%nat /\ eth_chainId endpoint k = Reply encoded /\ same_chain config encoded = Ok tt.
Definition driven (b : Config) (c : Client) : Prop :=
  match cli_breaker c with None => True | Some breaker => exists h, run b h breaker end.
Definition sound (b : Config) (n : nat) (c : Client) : Prop := identified c /\ driven b c /\ (n <= cli_calls c)%nat.

Lemma call_keeps b n {A} (ask : nat -> reply A) : keeps (sound b n) (call clock ask).
Proof.
  intros c (Hi & Hd & Hn). pose proof (call_cases ask c) as Hc. unfold sound, identified, driven in *.
  destruct (call clock ask c) as [r c'] eqn:E. cbn [snd]. destruct Hc as (-> & -> & _). split_and!; [|clear Hi|lia].
  - intros Hv. destruct (Hi Hv) as (k & s & ? & ?). exists k, s. split; [lia|done].
  - unfold call, allow in E. destruct (cli_breaker c) as [br|]; [destruct Hd as [h Hd]; apply (run_ask b h br (clock (2 * cli_calls c)%nat)) in Hd|];
      [destruct (Allow _ br) as [[u|e] br']; cbn in E, Hd|cbn in E]; try destruct (ask (cli_calls c)); injection E as <- <-; cbn; try done;
      eexists; by (apply run_success || apply run_failure || eassumption).
Qed.
#[local] Hint Resolve call_keeps : chain.

Lemma identity_keeps b n : keeps (sound b n) (ensureChainIdentity config endpoint clock).
Proof.
  intros c Hc. unfold ensureChainIdentity. destruct (cli_chainVerified c); [done|].
  unfold bind_chain. pose proof (call_keeps b n (eth_chainId endpoint) c Hc) as Hs.
  pose proof (call_cases (eth_chainId endpoint) c) as Hcase. destruct (call clock _ c) as [[encoded|e] c1]; [|done].
  cbn in Hs |- *. destruct (same_chain config encoded) as [[]|e] eqn:Es; [|done].
  destruct Hs as (_ & Hd & Hn), Hcase as (Hl & _ & Ha). split_and!; [|done|cbn; lia].
  intros _. exists (cli_calls c), encoded. cbn. rewrite (Ha encoded eq_refl). split_and!; [lia|done..].
Qed.
#[local] Hint Resolve identity_keeps : chain.

Lemma BlockNumber_keeps b n : keeps (sound b n) (BlockNumber endpoint clock).
Proof. unfold BlockNumber. auto with chain. Qed.
Lemma ClientReceipt_keeps b n hash : keeps (sound b n) (ClientReceipt config endpoint clock hash).
Proof. unfold ClientReceipt. auto with chain. Qed.
Lemma ClientTransaction_keeps b n hash : keeps (sound b n) (ClientTransaction config endpoint clock hash).
Proof. unfold ClientTransaction. auto with chain. Qed.
#[local] Hint Resolve BlockNumber_keeps ClientReceipt_keeps ClientTransaction_keeps : chain.

Lemma evidence_keeps b n chainID hash payload block : keeps (sound b n) (evidence config endpoint clock chainID hash payload block).
Proof.
  unfold evidence. apply keeps_bind; [auto with chain|intros head]. destruct (head <? block); auto 6 with chain.
Qed.
#[local] Hint Resolve evidence_keeps : chain.
Lemma TransactionReceipt_keeps b n chainID hash : keeps (sound b n) (ArcTransactionReceipt config endpoint clock chainID hash).
Proof.
  unfold ArcTransactionReceipt. apply keeps_bind; [auto with chain|intros _]. apply keeps_bind; [auto with chain|intros _].
  apply keeps_bind; [auto with chain|intros [payload|]; [|auto with chain]]. apply keeps_bind; [auto with chain|intros _].
  destruct (parseQuantity _); auto with chain.
Qed.

(** What an operation that answered has read. *)
Lemma identity_ok c u c' : ensureChainIdentity config endpoint clock c = (Ok u, c') -> cli_chainVerified c' = true.
Proof.
  unfold ensureChainIdentity. destruct (cli_chainVerified c) eqn:E; [by intros [= _ <-]|].
  intros (encoded & c1 & _ & Hk)%bind_chain_ok. apply bind_chain_ok in Hk as (u' & c2 & _ & [= _ <-]). done.
Qed.
Lemma BlockNumber_ok c head c' : BlockNumber endpoint clock c = (Ok head, c') ->
  (exists k encoded, eth_blockNumber endpoint k = Reply encoded /\ parseQuantity encoded = Ok head) /\
  cli_chainVerified c' = cli_chainVerified c.
Proof.
  unfold BlockNumber. intros (encoded & c1 & (Hr & _ & Hv)%call_ok & [Hp ->]%pure_chain_ok)%bind_chain_ok. eauto.
Qed.
Lemma ClientReceipt_ok c hash payload c' : ClientReceipt config endpoint clock hash c = (Ok (Some payload), c') ->
  (exists k, eth_getTransactionReceipt endpoint hash k = Reply (Some (Ok payload))) /\ cli_chainVerified c' = true.
Proof.
  unfold ClientReceipt. intros (u & c1 & Hid%identity_ok & Hk)%bind_chain_ok.
  apply bind_chain_ok in Hk as (raw & c2 & (Hr & _ & Hv)%call_ok & [Hp ->]%pure_chain_ok). split; [|congruence].
  unfold readable in Hp. destruct raw as [[p|e]|]; try done. apply rbind_ok in Hp as (? & [= <-] & Hp).
  apply rbind_ok in Hp as (? & _ & [= ->]). eauto.
Qed.

(** A transaction only adds its own fields. *)
Lemma with_transaction_ok r t r' : with_transaction r t = Ok r' ->
  rct_ChainID r' = rct_ChainID r /\ rct_TransactionHash r' = rct_TransactionHash r /\ rct_BlockNumber r' = rct_BlockNumber r /\
  rct_Confirmations r' = rct_Confirmations r /\ rct_Logs r' = rct_Logs r.
Proof. destruct t as [t|]; cbn; intros E; ok_inv; cbn; auto. Qed.

Lemma normalizeReceiptLogs_valid raw hash logs : normalizeReceiptLogs raw hash = Ok logs -> ValidateLogs logs = Ok tt.
Proof.
  unfold normalizeReceiptLogs. destruct (_ =? 0); [by intros [= <-]|]. intros E. by ok_inv.
Qed.

(** [C23] Arc evidence is sound: the receipts a client reports as SUCCESS or
    REVERTED, in any interleaving of failing and lying replies, are for the
    configured chain and the requested transaction, were read from an endpoint
    whose chain identity had been verified by a reply naming that chain, carry a
    status 0x1 (or 0x0) payload of the endpoint, logs that all validate, and a
    number of confirmations computed from a head the endpoint reported at or
    after the receipt's block; a SUCCESS has at least the configured depth.
    Every operation keeps these facts about the client, and drives its circuit
    breaker by exactly the breaker's own steps. *)
Theorem arc_receipt_sound (b : Config) (n : nat) (chainID transactionHash : string) (c c' : Client) (r : Receipt)
    (Hc : sound b n c) (Hok : ArcTransactionReceipt config endpoint clock chainID transactionHash c = (Ok r, c')) :
  sound b n c' /\
  (rct_Status r = ReceiptSuccess \/ rct_Status r = ReceiptReverted ->
   let hash := lower_trim transactionHash in
   chainID = acf_ChainID config /\ rct_ChainID r = chainID /\ ValidTransactionHash hash = true /\ rct_TransactionHash r = hash /\
   cli_chainVerified c' = true /\ ValidateLogs (rct_Logs r) = Ok tt /\
   exists j k payload encoded head,
     eth_getTransactionReceipt endpoint hash j = Reply (Some (Ok payload)) /\
     parseQuantity (rpl_BlockNumber payload) = Ok (rct_BlockNumber r) /\
     eth_blockNumber endpoint k = Reply encoded /\ parseQuantity encoded = Ok head /\
     rct_BlockNumber r <= head /\ rct_Confirmations r = u64 (head - rct_BlockNumber r + 1) /\
     lower_trim (rpl_Status payload) = (if rct_Status r == ReceiptSuccess then "0x1" else "0x0") /\
     (rct_Status r = ReceiptSuccess -> acf_MinConfirmations config <= rct_Confirmations r)).
Proof.
  pose proof (TransactionReceipt_keeps b n chainID transactionHash c Hc) as Hkeep. rewrite Hok in Hkeep. split; [exact Hkeep|].
  intros Hst hash. unfold ArcTransactionReceipt in Hok. fold hash in Hok.
  apply bind_chain_ok in Hok as (u & c1 & [Hchain ->]%pure_chain_ok & Hok).
  apply bind_chain_ok in Hok as (u1 & c2 & [Hhash ->]%pure_chain_ok & Hok). apply fail_if_ok_any in Hchain, Hhash. reflect_all.
  apply bind_chain_ok in Hok as (found & c3 & Hrec & Hok).
  destruct found as [payload|]; [|apply pure_chain_ok in Hok as [[= <-] _]; by destruct Hst].
  apply ClientReceipt_ok in Hrec as [[j Hj] Hv]. apply bind_chain_ok in Hok as (u2 & c4 & [_ ->]%pure_chain_ok & Hok).
  destruct (parseQuantity (rpl_BlockNumber payload)) as [block|] eqn:Hblock;
    [|apply pure_chain_ok in Hok as [[= <-] _]; by destruct Hst].
  unfold evidence in Hok. apply bind_chain_ok in Hok as (head & c5 & Hhead & Hok).
  destruct (head <? block) eqn:Hlt; [apply pure_chain_ok in Hok as [[= <-] _]; by destruct Hst|]. reflect_all.
  apply bind_chain_ok in Hok as (logs & c6 & [Hlogs ->]%pure_chain_ok & Hok). apply map_err_ok, normalizeReceiptLogs_valid in Hlogs.
  apply bind_chain_ok in Hok as (t & c7 & Ht & Hok). apply bind_chain_ok in Hok as (r1 & c8 & [Hr1 ->]%pure_chain_ok & Hok).
  apply pure_chain_ok in Hok as [[= <-] ->]. apply with_transaction_ok in Hr1 as (E1 & E2 & E3 & E4 & E5). cbn in E1, E2, E3, E4, E5.
  apply BlockNumber_ok in Hhead as [(k & encoded & Hk & Hp) _].
  unfold ClientTransaction in Ht. apply bind_chain_ok in Ht as (u3 & c9 & Hid%identity_ok & Ht).
  apply bind_chain_ok in Ht as (raw & c10 & (_ & _ & Hcv)%call_ok & [_ ->]%pure_chain_ok).
  unfold classified in *. destruct (lower_trim (rpl_Status payload) == "0x1") eqn:Es1;
    [destruct (rct_Confirmations r1 <? _) eqn:Edepth|destruct (lower_trim (rpl_Status payload) == "0x0") eqn:Es2];
    cbn in Hst |- *; try (by destruct Hst); reflect_all; rewrite ?E1, ?E2, ?E3, ?E4, ?E5; split_and!; try done; try congruence;
    exists j, k, payload, encoded, head; split_and!; try done; try congruence; intros _; lia || done.
Qed.
End guarantees.

(** * A concrete endpoint *)
Module ArcSamples.
#[local] Instance tables : UnicodeTables := fun r => r.
#[local] Instance folds : FoldTables := fun _ _ => false.
Definition config : ArcConfig := MkArcConfig "5042" 2.
Definition hash : string := ReferenceSamples.hash.
Definition payload : receiptPayload := MkReceiptPayload "0x1" hash "0x4b4" EvidenceSamples.block [].
Definition endpoint : Endpoint := MkEndpoint (fun _ => Reply "0x13b2") (fun _ => Reply "0x4b6")
  (fun _ n => if (n <? 3)%nat then Unreachable else Reply (Some (Ok payload)))
  (fun _ _ => Reply (Some (Ok (MkTransactionPayload hash "0xAA" "0xBB" "0x0" "0xa9059cbb"))))
  (fun _ _ => Undecoded) (fun _ _ _ => Undecoded).
Definition clock (n : nat) : Time := of_unix (1780000000 + Z.of_nat n).
Definition client : Client := MkClient (Some CircuitSamples.start) false 0.
(** The first attempt meets an unreachable endpoint; the second one answers. *)
Definition failed_attempt : Client := snd (ArcTransactionReceipt config endpoint clock "5042" hash client).
Definition retry : Client := snd (ArcTransactionReceipt config endpoint clock "5042" hash failed_attempt).
Definition answer (c : Client) : Receipt := match fst (ArcTransactionReceipt config endpoint clock "5042" hash c) with
  | Ok r => r | Err _ => receipt_of ReceiptUnknown "" "" "" 0 0 [] end.

Lemma arc_receipt_sound_witness : rct_ChainID (answer retry) = "5042" /\ rct_Confirmations (answer retry) = 3.
Proof.
  destruct (arc_receipt_sound config endpoint clock DefaultConfig 0 "5042" hash retry
    (snd (ArcTransactionReceipt config endpoint clock "5042" hash retry)) (answer retry)) as [_ Hs].
  - do 2 (apply (TransactionReceipt_keeps config endpoint clock DefaultConfig 0 "5042" hash)).
    split; [discriminate|split; [exists []; apply run_new; vm_compute; reflexivity|apply le_0_n]].
  - vm_compute. reflexivity.
  - destruct Hs as (_ & E & _); [left; vm_compute; reflexivity|].
    split; [exact E|vm_compute; reflexivity].
Defined.
End ArcSamples.
