(* ===== verification/ArcAttestation.v ===== *)
(** What the Arc client can say of its endpoint and of the deployed contracts:
    health (providers/health.go, arc/health.go) and the attestation of
    bytecode and configuration (arc/attestation.go, arc/state_attestation.go). *)
From S2P Require Import Prelude GoStrings GoText GoTime AppErrors Contracts Circuit Deployments References.
From S2P Require Import ChainEvidence ArcClient.
Open Scope string_scope.
Open Scope Z_scope.
Open Scope go_scope.

(** * Health *)
Inductive HealthStatus : Set :=
  HealthHealthy | HealthDegraded | HealthUnavailable | HealthNotConfigured | HealthOther (raw : string).
#[global] Instance HealthStatus_eq_dec : EqDecision HealthStatus.
Proof. solve_decision. Defined.
Definition HealthStatus_Valid (s : HealthStatus) : bool := match s with HealthOther _ => false | _ => true end.

Record ComponentHealth := MkComponentHealth {
  chl_Name : string; chl_Status : HealthStatus; chl_Detail : string; chl_CheckedAt : Time; chl_BreakerState : string
}.
Definition ComponentHealth_Validate (h : ComponentHealth) : result unit :=
  do! fail_if (chl_Name h == "") (errorf "health component name is required");
  do! fail_if (negb (HealthStatus_Valid (chl_Status h))) (errorf "health status is invalid");
  fail_if (IsZero (chl_CheckedAt h)) (errorf "health check time is required").

(** A status that is not in the map ranks 0. *)
Definition health_rank (s : HealthStatus) : Z :=
  match s with
  | HealthHealthy | HealthOther _ => 0 | HealthNotConfigured => 1 | HealthDegraded => 2 | HealthUnavailable => 3
  end.
Definition Overall (components : list ComponentHealth) : HealthStatus :=
  match components with
  | [] => HealthNotConfigured
  | _ => foldl (fun worst c => if health_rank worst <? health_rank (chl_Status c) then chl_Status c else worst)
           HealthHealthy components
  end.

(** [safeCheck]: [answer] is [None] when the check panicked. *)
Definition safeCheck (name : string) (now : Time) (answer : option ComponentHealth) : ComponentHealth :=
  match answer with
  | None => MkComponentHealth name HealthUnavailable "health check panicked" (UTC now) ""
  | Some r =>
      let valid := HealthStatus_Valid (chl_Status r) in
      MkComponentHealth (if chl_Name r == "" then name else chl_Name r)
        (if valid then chl_Status r else HealthUnavailable)
        (if valid then chl_Detail r else "health check returned an invalid status")
        (if IsZero (chl_CheckedAt r) then UTC now else chl_CheckedAt r) (chl_BreakerState r)
  end.

Definition state_string (s : State) : string :=
  match s with StateClosed => "CLOSED" | StateOpen => "OPEN" | StateHalfOpen => "HALF_OPEN" end.

Section health.
Context `{UnicodeTables}.
Context (config : ArcConfig) (endpoint : Endpoint) (clock : nat -> Time).
Definition breaker_text (c : Client) : string :=
  match cli_breaker c with Some b => state_string (brk_state b) | None => "" end.

(** [HealthChecker.Check]; [None] is a checker whose configuration is absent. *)
Definition health_Check (now : Time) (c : Client) (configured : bool) : ComponentHealth * Client :=
  let component status detail breaker := MkComponentHealth "arc" status detail (UTC now) breaker in
  let before := breaker_text c in
  if negb configured then (component HealthNotConfigured "Arc chain adapter is not configured" before, c)
  else match ClientHealthCheck config endpoint clock c with
  | (Err _, c) => (component HealthUnavailable "Arc RPC is unavailable or chain identity failed" (breaker_text c), c)
  | (Ok (chainID, blockNumber), c) =>
      if chainID != ChainIDArcMainnet then (component HealthUnavailable "Arc chain ID mismatch" before, c)
      else if blockNumber =? 0 then
        (component HealthDegraded "Arc chain ID verified but block height is zero" before, c)
      else (component HealthHealthy "Arc RPC chain identity and block height verified" (breaker_text c), c)
  end.
End health.

(** * Words of 32 bytes *)
Definition decodeUint64Word (word : string) : result Z :=
  let value := SetBytes word in
  do! fail_if (negb (value <? 2 ^ 64)) (errorf "word exceeds uint64");
  Ok value.
Definition decodeBoolWord (word : string) : result bool :=
  let! value := map_err (fun _ => errorf "word is not bool") (decodeUint64Word word) in
  do! fail_if (1 <? value) (errorf "word is not bool");
  Ok (value =? 1).
Definition decodeInt32Word (word : string) : result Z :=
  let value := SetBytes word in
  let negative := match first_byte word with Some b => Z.testbit b 7 | None => false end in
  let value := if negative then value - Z.shiftl 1 256 else value in
  do! fail_if (negb ((- 2 ^ 63 <=? value) && (value <? 2 ^ 63)) || (value <? - 2 ^ 31) || (2 ^ 31 - 1 <? value))
        (errorf "word exceeds int32");
  Ok value.

(** * Attestation of the deployed contracts *)
Definition AddressUniswapV4PoolManager : string := "0x8366a39CC670B4001A1121B8F6A443A643e40951".
Definition AddressPermit2 : string := "0x000000000022D473030F116dDEE9F6B43aC78BA3".
Definition UniswapV4USDCEURCFee : Z := 500.
Definition UniswapV4TickSpacing : Z := 10.

Record DeploymentAttestation := MkCodeAttestation {
  att_ContractID : string; att_RegistryVersion : Z; att_ChainID : string; att_Network : string; att_Address : string;
  att_CodeSize : Z; att_CodeHash : string
}.
Record DeploymentStateAttestation := MkStateAttestation {
  sta_ContractID : string; sta_RegistryVersion : Z; sta_ChainID : string; sta_Network : string; sta_Address : string;
  sta_Owner : string; sta_FeeRecipient : string; sta_FeeBPS : Z; sta_Paused : bool; sta_USDC : string; sta_EURC : string;
  sta_PoolManager : string; sta_UniversalRouter : string; sta_Permit2 : string; sta_PoolFee : Z; sta_PoolTickSpacing : Z
}.

Section attestation.
Context `{EthCommon} `{UnicodeTables} `{FoldTables} `{EthCrypto}.
Context (config : ArcConfig) (endpoint : Endpoint) (clock : nat -> Time).

Definition expected_address (id : string) : string :=
  if id == ContractWizPayPayroll then AddressWizPayPayroll
  else if id == ContractWizPaySwapExecutor then AddressWizPaySwapExecutor else "".
Definition canonical_party (address what : string) : result unit :=
  fail_if (negb (Contracts.ValidAddress address) || AddressesEqual address zero_address)
    (errorf1 "attested %s is invalid" what).

Definition ValidateCanonicalResources (a : DeploymentStateAttestation) : result unit :=
  do! fail_if ((sta_ChainID a != ChainIDArcMainnet) || (sta_Network a != NetworkArcMainnet))
        (errorf "attested deployment has the wrong Arc Mainnet identity");
  do! fail_if ((expected_address (sta_ContractID a) == "")
               || negb (AddressesEqual (sta_Address a) (expected_address (sta_ContractID a))))
        (errorf "attested deployment address is not canonical");
  do! canonical_party (sta_Owner a) "owner";
  do! canonical_party (sta_FeeRecipient a) "fee recipient";
  do! fail_if (negb (AddressesEqual (sta_FeeRecipient a) (sta_Owner a))) (errorf "attested fee recipient must equal the owner");
  do! fail_if (negb (AddressesEqual (sta_USDC a) AddressUSDCMainnet) || negb (AddressesEqual (sta_EURC a) AddressEURCMainnet)
               || negb (AddressesEqual (sta_UniversalRouter a) AddressUniswapUniversalRouter)
               || negb (AddressesEqual (sta_Permit2 a) AddressPermit2))
        (errorf "attested token or router resources are not canonical");
  do! fail_if ((sta_ContractID a == ContractWizPayPayroll) && negb (AddressesEqual (sta_PoolManager a) AddressUniswapV4PoolManager))
        (errorf "attested PoolManager is not canonical");
  do! fail_if ((sta_PoolFee a != UniswapV4USDCEURCFee) || (sta_PoolTickSpacing a != UniswapV4TickSpacing))
        (errorf "attested pool parameters are not canonical");
  fail_if (ContractMaxFeeBPS <? sta_FeeBPS a)
    (errorf1 "attested fee basis points exceed the contract MAX_FEE_BPS of %d" (FormatUint ContractMaxFeeBPS)).

(** Both attestations start from an exact deployment of the static registry. *)
Definition canonical_deployment (what : string) (id : string) (version : Z) : result Deployment :=
  let! registry := DefaultRegistry in
  map_err (errorf_wrap what []) (Require_ registry id version ChainIDArcMainnet NetworkArcMainnet).

Definition runtime_code (encoded : string) : result string :=
  let malformed := errorf "Arc deployment bytecode is absent or malformed" in
  let trimmed := TrimPrefix (TrimSpace encoded) "0x" in
  do! fail_if ((trimmed == "") || Z.odd (len trimmed)) malformed;
  let! code := map_err (fun _ => malformed) (DecodeString trimmed) in
  do! fail_if (len code =? 0) malformed;
  Ok code.
(** [crypto.Keccak256Hash(code).Hex()] *)
Definition hash_hex (hash : string) : string := "0x" +:+ EncodeToString (bytes hash).

Definition AttestDeploymentCode (id : string) (version : Z) : chain DeploymentAttestation :=
  ask! deployment := pure_chain (canonical_deployment "Arc deployment attestation target is not canonical: %w" id version) in
  ask_do! ensureChainIdentity config endpoint clock;
  ask! encoded := call clock (eth_getCode endpoint (dep_Address deployment)) in
  ask! code := pure_chain (runtime_code encoded) in
  pure_chain (Ok (MkCodeAttestation id version (dep_ChainID deployment) (dep_Network deployment) (dep_Address deployment)
                    (len code) (hash_hex (Keccak256 code)))).

Definition result_word (signature encoded : string) : result string :=
  let malformed := errorf1 "Arc %s result is malformed" signature in
  let! word := map_err (fun _ => malformed) (DecodeString (TrimPrefix (TrimSpace encoded) "0x")) in
  do! fail_if (len word != 32) malformed;
  Ok word.
Definition callDeploymentWord (deployment : Deployment) (signature : string) : chain string :=
  ask! encoded := call clock (eth_call endpoint (dep_Address deployment) (hash_hex (Selector4 signature))) in
  pure_chain (result_word signature encoded).
Definition read_address (deployment : Deployment) (signature : string) : chain string :=
  ask! word := callDeploymentWord deployment signature in pure_chain (Ok (AddressHex (rest_bytes 12 word))).
Definition read_number {A} (deployment : Deployment) (signature what : string) (decode : string -> result A) : chain A :=
  ask! word := callDeploymentWord deployment signature in
  pure_chain (map_err (fun _ => errorf1 "Arc %s result is malformed" what) (decode word)).
Definition decode_pool_fee (word : string) : result Z :=
  let! fee := decodeUint64Word word in
  do! fail_if (2 ^ 32 - 1 <? fee) (errorf "Arc poolFee result is malformed");
  Ok fee.

Definition AttestDeploymentState (id : string) (version : Z) : chain DeploymentStateAttestation :=
  ask! d := pure_chain (canonical_deployment "Arc deployment state target is not canonical: %w" id version) in
  ask_do! ensureChainIdentity config endpoint clock;
  ask! owner := read_address d "owner()" in
  ask! feeRecipient := read_address d "feeRecipient()" in
  ask! usdc := read_address d "USDC()" in
  ask! eurc := read_address d "EURC()" in
  ask! universalRouter := read_address d "universalRouter()" in
  ask! permit2 := read_address d "permit2()" in
  ask! poolManager := if id == ContractWizPayPayroll then read_address d "poolManager()" else pure_chain (Ok "") in
  ask! fee := read_number d "feeBps()" "feeBps" decodeUint64Word in
  ask! paused := read_number d "paused()" "paused" decodeBoolWord in
  ask! poolFee := read_number d "poolFee()" "poolFee" decode_pool_fee in
  ask! tick := read_number d "poolTickSpacing()" "poolTickSpacing" decodeInt32Word in
  pure_chain (Ok (MkStateAttestation id version (dep_ChainID d) (dep_Network d) (dep_Address d) owner feeRecipient fee paused
                    usdc eurc poolManager universalRouter permit2 poolFee tick)).
End attestation.

(** * Words mean numbers *)
Section words.
Lemma foldl_base_acc base l acc :
  foldl (fun n d => base * n + d) acc l = acc * base ^ Z.of_nat (length l) + foldl (fun n d => base * n + d) 0 l.
Proof.
  revert acc. induction l as [|d l IH]; intros acc; cbn [foldl length]; [lia|].
  rewrite (IH (base * acc + d)), (IH (base * 0 + d)), Nat2Z.inj_succ, Z.pow_succ_r by lia. ring.
Qed.

(** The top bit is that of the first byte. *)
Lemma top_bit word : len word = 32 ->
  match first_byte word with Some b => Z.testbit b 7 | None => false end = (2 ^ 255 <=? SetBytes word).
Proof.
  intros Hl. rewrite len_bytes in Hl. unfold first_byte, SetBytes. destruct word as [|a w]; [done|].
  rewrite bytes_cons in Hl |- *. cbn [length foldl] in Hl |- *.
  pose proof (bytes_range (String a w)) as Hr. rewrite bytes_cons in Hr. apply Forall_cons in Hr as [Hb Hr].
  rewrite foldl_base_acc. replace (Z.of_nat (length (bytes w))) with 31 by lia.
  pose proof (foldl_base_bound 256 (bytes w) 0 0 ltac:(lia) Hr ltac:(done) ltac:(lia)) as Hrest.
  replace (0 + Z.of_nat (length (bytes w))) with 31 in Hrest by lia.
  rewrite Z.testbit_eqb by lia. change (2 ^ 7) with 128. change (256 ^ 31) with (2 ^ 248) in *.
  apply eq_true_iff_eq. rewrite Z.eqb_eq, Z.leb_le. set (rest := foldl _ 0 (bytes w)) in *. clearbody rest.
  assert (byte_of a / 128 = 0 \/ byte_of a / 128 = 1) as Hq.
  { assert (0 <= byte_of a / 128 < 2); [split; [apply Z.div_pos|apply Z.div_lt_upper_bound]; lia|lia]. }
  pose proof (Z.div_mod (byte_of a) 128 ltac:(lia)) as Hdm. pose proof (Z.mod_pos_bound (byte_of a) 128 ltac:(lia)).
  change (2 ^ 255) with (128 * 2 ^ 248). destruct Hq as [Hq|Hq]; rewrite Hq in *; cbn [Z.modulo]; split; intros; nia || done.
Qed.

(** A word decodes to a number exactly when it is that number's 256-bit
    two's complement representation and the number fits the Go type: an
    attested fee, flag, pool fee or (signed) tick spacing is the value the
    contract returned, never a truncation of it. *)
Theorem attested_words_exact (word : string) (Hl : len word = 32) :
  (forall n, decodeUint64Word word = Ok n <-> 0 <= n < 2 ^ 64 /\ SetBytes word = n mod 2 ^ 256) /\
  (forall b : bool, decodeBoolWord word = Ok b <-> SetBytes word = (if b then 1 else 0)) /\
  (forall n, decode_pool_fee word = Ok n <-> 0 <= n < 2 ^ 32 /\ SetBytes word = n mod 2 ^ 256) /\
  (forall n, decodeInt32Word word = Ok n <-> - 2 ^ 31 <= n < 2 ^ 31 /\ SetBytes word = n mod 2 ^ 256).
Proof.
  pose proof (top_bit word Hl) as Htop. pose proof (SetBytes_bound word) as Hb. rewrite Hl in Hb. change (256 ^ 32) with (2 ^ 256) in Hb.
  assert (forall n, 0 <= n < 2 ^ 256 -> n mod 2 ^ 256 = n) as Hsmall by (intros; by apply Z.mod_small).
  assert (forall n, decodeUint64Word word = Ok n <-> 0 <= n < 2 ^ 64 /\ SetBytes word = n mod 2 ^ 256) as Hu.
  { intros n. unfold decodeUint64Word. destruct (Z.ltb_spec (SetBytes word) (2 ^ 64)); cbn; split.
    - intros [= <-]. rewrite Hsmall by lia. lia.
    - intros [Hn ->]. rewrite Hsmall by lia. done.
    - done.
    - intros [Hn E]. rewrite Hsmall in E by lia. lia. }
  split_and!; [exact Hu|..].
  - intros b. unfold decodeBoolWord, decodeUint64Word. destruct (Z.ltb_spec (SetBytes word) (2 ^ 64)); cbn.
    + destruct (Z.ltb_spec 1 (SetBytes word)); cbn; split; [done|destruct b; lia| |].
      * intros [= <-]. destruct (Z.eqb_spec (SetBytes word) 1); lia.
      * intros ->. by destruct b.
    + split; [done|destruct b; lia].
  - intros n. unfold decode_pool_fee. case_eq (decodeUint64Word word); [intros m E|intros e E]; cbn.
    + apply Hu in E as [Hm E]. destruct (Z.ltb_spec (2 ^ 32 - 1) m); cbn; split; try done.
      * intros [Hn E']. rewrite E in E'. rewrite !Hsmall in E' by lia. lia.
      * intros [= <-]. split; [lia|done].
      * intros [Hn E']. rewrite E in E'. rewrite !Hsmall in E' by lia. by subst.
    + split; [done|]. intros [Hn E']. assert (decodeUint64Word word = Ok n) by (apply Hu; split; [lia|done]). congruence.
  - intros n. unfold decodeInt32Word. rewrite Htop. change (Z.shiftl 1 256) with (2 ^ 256).
    set (v := if 2 ^ 255 <=? SetBytes word then SetBytes word - 2 ^ 256 else SetBytes word).
    assert (forall n, - 2 ^ 31 <= n < 2 ^ 31 -> SetBytes word = n mod 2 ^ 256 <-> v = n) as Hv.
    { intros m Hm. subst v. assert (m mod 2 ^ 256 = if m <? 0 then m + 2 ^ 256 else m) as ->.
      { destruct (Z.ltb_spec m 0); [|apply Hsmall; lia]. symmetry. apply Z.mod_unique with (-1); lia. }
      destruct (Z.leb_spec (2 ^ 255) (SetBytes word)), (Z.ltb_spec m 0); lia. }
    clearbody v. destruct (negb _ || _ || _) eqn:E; cbn; split; try done.
    + intros [Hn E']. apply Hv in E'; [|lia]. subst v. exfalso. apply orb_true_iff in E as [[E|E]%orb_true_iff|E]; reflect_all; [|lia..].
      apply andb_false_iff in E as [E|E]; reflect_all; lia.
    + intros [= <-]. reflect_all. split; [lia|]. apply Hv; [lia|done].
    + intros [Hn E']. apply Hv in E'; [|lia]. by subst.
Qed.

Definition minus_ten : string := of_bytes (app (replicate 31 255) [246]).
Lemma attested_words_exact_witness : decodeInt32Word minus_ten = Ok (-10).
Proof. apply (attested_words_exact minus_ten); [vm_compute; reflexivity|]. split; [lia|vm_compute; reflexivity]. Defined.
End words.
