(* ===== verification/Autonomy.v ===== *)
(** [time.Location] and the calendar of [time.Time]: wall clocks, [time.Date],
    [AddDate] and [Weekday], as the recurrence rules of internal/autonomy use
    them.

    A location is its offset, in seconds east of UTC, at every Unix second;
    the database of named locations is a parameter.  The model of
    internal/autonomy follows. *)
From S2P Require Import Prelude GoStrings GoTime AppErrors.
Open Scope string_scope.
Open Scope Z_scope.
Open Scope go_scope.

Definition Location : Type := Z -> Z.
(** [time.LoadLocation], over the time zone database. *)
Class TimeZones := LoadLocation : string -> result Location.
Class TimeZonesSpec `{TimeZones} : Prop := LoadLocation_UTC : LoadLocation "UTC" = Ok (fun _ => 0).

Definition day : Z := 86400 * Second.

(** * Days and dates *)
(** The day number of a date; months out of range carry into years, and days
    out of range into months, as [time.Date] documents. *)
Definition days_of_civil (year month days : Z) : Z :=
  let year := year + (month - 1) / 12 in
  let month := (month - 1) mod 12 + 1 in
  let y := if month <=? 2 then year - 1 else year in
  let mp := (month + 9) mod 12 in
  let yoe := y mod 400 in
  let doy := (153 * mp + 2) / 5 + days - 1 in
  y / 400 * 146097 + (yoe * 365 + yoe / 4 - yoe / 100 + doy) - 306.

(** * Wall clocks *)
Definition offset_at (loc : Location) (t : Time) : Duration := loc (Unix t) * Second.
(** What a clock in [loc] shows at [t], counted like an instant. *)
Definition wall (loc : Location) (t : Time) : Time := t + offset_at loc t.
Definition wall_date (loc : Location) (t : Time) : civil := civil_of_days (wall loc t / day).
(** Hour, minute, second and nanosecond, as the time since midnight. *)
Definition wall_clock (loc : Location) (t : Time) : Duration := wall loc t mod day.
(** [t.Weekday()]; 0001-01-01 was a Monday. *)
Definition Weekday (loc : Location) (t : Time) : Z := (wall loc t / day + 1) mod 7.

(** [time.Date]: the offset in force at the wall clock's reading as if it were
    UTC, corrected once by the offset in force at the instant found. *)
Definition of_wall (loc : Location) (w : Time) : Time :=
  let offset := offset_at loc w in
  if offset =? 0 then w else w - offset_at loc (w - offset).
Definition Date (loc : Location) (year month days : Z) (clock : Duration) : Time :=
  of_wall loc (days_of_civil year month days * day + clock).
(** [t.AddDate(years, months, days)] *)
Definition AddDate (loc : Location) (t : Time) (years months days : Z) : Time :=
  let d := wall_date loc t in
  Date loc (c_year d + years) (c_month d + months) (c_day d + days) (wall_clock loc t).

(** * Days are counted back *)
Lemma days_of_civil_days (days k : Z) :
  let d := civil_of_days days in days_of_civil (c_year d) (c_month d) (c_day d + k) = days + k.
Proof.
  unfold civil_of_days, days_of_civil. cbn zeta. cbn [c_year c_month c_day].
  set (z := days + 306). set (doe := z mod 146097). set (era := z / 146097).
  assert (0 <= doe < 146097) as Hdoe by (apply Z.mod_pos_bound; lia).
  assert (days = era * 146097 + doe - 306) as Hdays.
  { pose proof (Z.div_mod z 146097 ltac:(lia)). subst era doe z. lia. }
  clearbody doe era. clear z. subst days.
  set (yoe := (doe - doe / 1460 + doe / 36524 - doe / 146096) / 365).
  assert (0 <= yoe < 400) as Hyoe.
  { subst yoe. split; [apply Z.div_pos|apply Z.div_lt_upper_bound]; try lia; Z.to_euclidean_division_equations; lia. }
  set (doy := doe - (365 * yoe + yoe / 4 - yoe / 100)).
  assert (0 <= doy < 366) as Hdoy.
  { subst doy yoe. Z.to_euclidean_division_equations. lia. }
  assert (yoe * 365 + yoe / 4 - yoe / 100 + doy = doe) as Hyd by (subst doy; lia).
  clearbody doy. set (mp := (5 * doy + 2) / 153).
  assert (0 <= mp <= 11) as Hmp by (subst mp; Z.to_euclidean_division_equations; lia).
  set (m := if mp <? 10 then mp + 3 else mp - 9).
  assert (1 <= m <= 12) as Hm by (subst m; destruct (mp <? 10) eqn:E; lia).
  rewrite (Z.div_small (m - 1) 12), (Z.mod_small (m - 1) 12) by lia. rewrite Z.add_0_r, Z.sub_add.
  assert ((m + 9) mod 12 = mp) as ->.
  { subst m. destruct (mp <? 10) eqn:E; [|rewrite Z.mod_small; lia].
    replace (mp + 3 + 9) with (mp + 1 * 12) by lia. rewrite Z.mod_add, Z.mod_small by lia. done. }
  replace (if m <=? 2 then yoe + era * 400 + (if m <=? 2 then 1 else 0) - 1 else yoe + era * 400 + (if m <=? 2 then 1 else 0))
    with (yoe + era * 400) by (destruct (m <=? 2); lia).
  rewrite Z.div_add, Z.mod_add, (Z.div_small yoe 400), (Z.mod_small yoe 400) by lia. lia.
Qed.

(** [AddDate(0, 0, n)] moves the wall clock by whole days. *)
Lemma AddDate_days loc t n : AddDate loc t 0 0 n = of_wall loc (wall loc t + n * day).
Proof.
  unfold AddDate, Date. f_equal. rewrite !Z.add_0_r. unfold wall_date. rewrite days_of_civil_days.
  unfold wall_clock. pose proof (Z.div_mod (wall loc t) day ltac:(done)). lia.
Qed.

(** * Locations *)
(** No two offsets of the location are a day apart: it never crossed the date
    line. *)
Definition steady (loc : Location) : Prop := forall s u, loc s - loc u < 86400.
Definition constant (offset : Z) : Location := fun _ => offset.
Lemma constant_steady o : steady (constant o).
Proof. intros s u. unfold constant. lia. Qed.

Lemma of_wall_between loc w : exists s, of_wall loc w = w - loc s * Second.
Proof.
  unfold of_wall, offset_at. destruct (Z.eqb_spec (loc (Unix w) * Second) 0) as [E|]; [exists (Unix w)|eexists; reflexivity].
  lia.
Qed.

(** A day later on the wall is later. *)
Lemma AddDate_later loc t n : steady loc -> 1 <= n -> t < AddDate loc t 0 0 n.
Proof.
  intros Hs Hn. rewrite AddDate_days. destruct (of_wall_between loc (wall loc t + n * day)) as [s ->].
  pose proof (Hs s (Unix t)). unfold wall, offset_at, day, Second in *. lia.
Qed.

Lemma of_wall_constant o w : of_wall (constant o) w = w - o * Second.
Proof. unfold of_wall, offset_at, constant. destruct (Z.eqb_spec (o * Second) 0); lia. Qed.
Lemma AddDate_constant o t n : AddDate (constant o) t 0 0 n = t + n * day.
Proof. rewrite AddDate_days, of_wall_constant. unfold wall, offset_at, constant. lia. Qed.

(** internal/autonomy, the data of the autonomous runtime (model.go): recurrence
    rules, schedules, delegations, spending grants and occurrences.

    The string types of the package are strings.  Loops over Go map literals
    run in the order they are written; the order only selects an error text. *)
From S2P Require Import GoTime Sha256 AppErrors.

Abbreviation IntentType := string (only parsing).
Definition IntentPayroll : IntentType := "PAYROLL".
Definition IntentSwap : IntentType := "SWAP".
Definition IntentType_Valid (t : IntentType) : bool := (t == IntentPayroll) || (t == IntentSwap).

Abbreviation ScheduleStatus := string (only parsing).
Definition ScheduleActive : ScheduleStatus := "ACTIVE".
Definition SchedulePaused : ScheduleStatus := "PAUSED".
Definition ScheduleRevoked : ScheduleStatus := "REVOKED".
Definition ScheduleStatus_Valid (s : ScheduleStatus) : bool :=
  (s == ScheduleActive) || (s == SchedulePaused) || (s == ScheduleRevoked).
Definition ValidScheduleTransition (from to : ScheduleStatus) : bool :=
  if from == ScheduleActive then (to == SchedulePaused) || (to == ScheduleRevoked)
  else if from == SchedulePaused then (to == ScheduleActive) || (to == ScheduleRevoked)
  else false.

Definition MissedSkip : string := "SKIP".
Definition MissedRunLatest : string := "RUN_LATEST".
Definition Missed_Valid (p : string) : bool := (p == MissedSkip) || (p == MissedRunLatest).
Definition ForbidOverlap : string := "FORBID_OVERLAP".

Definition Once : string := "ONCE".
Definition Daily : string := "DAILY".
Definition Weekly : string := "WEEKLY".
Definition Monthly : string := "MONTHLY".
Definition Frequency_Valid (f : string) : bool := (f == Once) || (f == Daily) || (f == Weekly) || (f == Monthly).

(** * Recurrence rules *)
(** [rec_StartLocal] is [Start.Location() == time.Local]. *)
Record Recurrence := MkRecurrence {
  rec_Frequency : string; rec_Start : Time; rec_StartLocal : bool; rec_End : Time; rec_Weekday : Z;
  rec_DayOfMonth : Z; rec_Location : string
}.

Section recurrence.
Context `{TimeZones}.

Definition Recurrence_Validate (r : Recurrence) : result unit :=
  do! fail_if (IsZero (rec_Start r) || rec_StartLocal r) (errorf "recurrence start and explicit timezone are required");
  do! fail_if (negb (Frequency_Valid (rec_Frequency r))) (errorf "unsupported recurrence frequency");
  do! fail_if (negb (IsZero (rec_End r)) && negb (After (rec_End r) (rec_Start r)))
        (errorf "recurrence end must follow start");
  do! fail_if ((rec_Frequency r == Weekly) && ((rec_Weekday r <? 0) || (6 <? rec_Weekday r))) (errorf "invalid weekly day");
  do! fail_if ((rec_Frequency r == Monthly) && ((rec_DayOfMonth r <? 1) || (31 <? rec_DayOfMonth r)))
        (errorf "invalid monthly day");
  do! fail_if (rec_Location r == "") (errorf "timezone is required");
  let! _ := map_err (errorf_wrap "invalid timezone: %w" []) (LoadLocation (rec_Location r)) in
  Ok tt.

(** [for !stop(next) { next = step(next) }]; [None] is a loop that has not
    stopped after [fuel] turns. *)
Fixpoint advance (fuel : nat) (stop : Time -> bool) (step : Time -> Time) (next : Time) : option Time :=
  if stop next then Some next
  else match fuel with O => None | S fuel => advance fuel stop step (step next) end.

Definition next_day (loc : Location) (next : Time) : Time := AddDate loc next 0 0 1.
(** The body of the monthly loop; [base]'s clock is kept. *)
Definition next_month (loc : Location) (base : Time) (dayOfMonth : Z) (next : Time) : Time :=
  let next := AddDate loc next 0 1 0 in
  let d := wall_date loc next in
  Date loc (c_year d) (c_month d) dayOfMonth (wall_clock loc base).

(** The switch of [Next]: the first candidate, zero when there is none. *)
Definition candidate (fuel : nat) (loc : Location) (r : Recurrence) (after : Time) : option Time :=
  let base := rec_Start r in
  if rec_Frequency r == Once then Some (if Before after base then base else zero_time)
  else if rec_Frequency r == Daily then advance fuel (fun next => After next after) (next_day loc) base
  else if rec_Frequency r == Weekly then
    advance fuel (fun next => After next after && (Weekday loc next =? rec_Weekday r)) (next_day loc) base
  else if rec_Frequency r == Monthly then
    advance fuel (fun next => After next after && (c_day (wall_date loc next) =? rec_DayOfMonth r))
      (next_month loc base (rec_DayOfMonth r)) base
  else Some zero_time.

(** [Next]: [None] while it runs, [Some None] for [(time.Time{}, false)]. *)
Definition Next (fuel : nat) (r : Recurrence) (after : Time) : option (option Time) :=
  if negb (is_ok (Recurrence_Validate r)) then Some None
  else match LoadLocation (rec_Location r) with
  | Err _ => Some None
  | Ok loc =>
      match candidate fuel loc r after with
      | None => None
      | Some next =>
          if IsZero next || (negb (IsZero (rec_End r)) && negb (Before next (rec_End r))) then Some None
          else Some (Some (UTC next))
      end
  end.
End recurrence.

(** * Schedules *)
Record ScheduleSpec := MkScheduleSpec {
  spc_Recurrence : Recurrence; spc_Missed : string; spc_Concurrency : string; spc_MaxRecipients : Z;
  spc_Intent : IntentType; spc_TemplateDigest : string
}.
Record Principal := MkPrincipal { prc_TenantID : string; prc_UserID : string; prc_AgentID : string }.
Record Schedule := MkSchedule {
  sch_ID : string; sch_Version : Z; sch_Principal : Principal; sch_WalletBindingID : string;
  sch_WalletBindingVersion : Z; sch_GrantID : string; sch_GrantVersion : Z; sch_DelegationID : string;
  sch_DelegationVersion : Z; sch_CreatedAt : Time; sch_UpdatedAt : Time; sch_Status : ScheduleStatus;
  sch_Spec : ScheduleSpec; sch_Digest : string
}.

Definition Principal_Validate (p : Principal) : result unit :=
  for_each (fun '(n, v) => fail_if ((TrimSpace v == "") || (256 <? len v)) (errorf1 "%s principal field is invalid" n))
    [("tenant", prc_TenantID p); ("user", prc_UserID p); ("agent", prc_AgentID p)].

(** [Sprintf("%s|%d|...")], piece by piece. *)
Fixpoint piped (parts : list string) : string :=
  match parts with [] => "" | [p] => p | p :: parts => p +:+ ("|" +:+ piped parts) end.
Definition digest_material (s : Schedule) : list string :=
  let r := spc_Recurrence (sch_Spec s) in
  [sch_ID s; FormatUint (sch_Version s); prc_TenantID (sch_Principal s); prc_UserID (sch_Principal s);
   sch_WalletBindingID s; FormatUint (sch_WalletBindingVersion s); sch_GrantID s; FormatUint (sch_GrantVersion s);
   sch_DelegationID s; FormatUint (sch_DelegationVersion s); spc_Intent (sch_Spec s); rec_Frequency r;
   FormatRFC3339Nano (rec_Start r); FormatRFC3339Nano (rec_End r); FormatInt (rec_Weekday r);
   FormatInt (rec_DayOfMonth r); rec_Location r; spc_Missed (sch_Spec s); spc_Concurrency (sch_Spec s);
   FormatInt (spc_MaxRecipients (sch_Spec s)); spc_TemplateDigest (sch_Spec s)].
Definition ComputeDigest (s : Schedule) : string := "sha256:" +:+ sha256_hex (piped (digest_material s)).

Section schedules.
Context `{TimeZones}.
Definition ScheduleSpec_Validate (s : ScheduleSpec) : result unit :=
  do! Recurrence_Validate (spc_Recurrence s);
  do! fail_if (negb (Missed_Valid (spc_Missed s))) (errorf "invalid missed-run policy");
  do! fail_if (spc_Concurrency s != ForbidOverlap) (errorf "unsupported concurrency policy");
  do! fail_if (negb (IntentType_Valid (spc_Intent s))) (errorf "unsupported intent type");
  do! fail_if ((spc_TemplateDigest s == "") || (128 <? len (spc_TemplateDigest s)))
        (errorf "typed intent template digest is required");
  fail_if ((spc_MaxRecipients s <? 1) || (500 <? spc_MaxRecipients s)) (errorf "recipient bound is invalid").

Definition Schedule_Validate (s : Schedule) : result unit :=
  do! fail_if ((sch_ID s == "") || (sch_Version s =? 0) || (sch_WalletBindingID s == "") || (sch_WalletBindingVersion s =? 0)
               || (sch_GrantID s == "") || (sch_GrantVersion s =? 0) || (sch_DelegationID s == "")
               || (sch_DelegationVersion s =? 0) || IsZero (sch_CreatedAt s) || IsZero (sch_UpdatedAt s))
        (errorf "invalid schedule identity");
  do! Principal_Validate (sch_Principal s);
  do! ScheduleSpec_Validate (sch_Spec s);
  do! fail_if (negb (ScheduleStatus_Valid (sch_Status s))) (errorf "invalid schedule status");
  do! fail_if (sch_Digest s == "") (errorf "schedule digest is required");
  fail_if (sch_Digest s != ComputeDigest s) (errorf "schedule digest does not match immutable schedule material").
End schedules.

(** * Delegations *)
Record Delegation := MkDelegation {
  dlg_ID : string; dlg_Version : Z; dlg_PrincipalUserID : string; dlg_AgentID : string;
  dlg_Capabilities : list IntentType; dlg_ExpiresAt : Time; dlg_Revoked : bool; dlg_NonTransitive : bool
}.
Definition Delegation_ValidateStructure (d : Delegation) : result unit :=
  do! fail_if ((dlg_ID d == "") || (256 <? len (dlg_ID d)) || (dlg_Version d =? 0) || (dlg_PrincipalUserID d == "")
               || (256 <? len (dlg_PrincipalUserID d)) || (dlg_AgentID d == "") || (256 <? len (dlg_AgentID d))
               || IsZero (dlg_ExpiresAt d)) (errorf "delegation identity is invalid");
  do! fail_if (negb (dlg_NonTransitive d)) (errorf "delegation must be explicitly non-transitive");
  let n := Z.of_nat (length (dlg_Capabilities d)) in
  do! fail_if ((n =? 0) || (2 <? n)) (errorf "delegation capabilities are required and bounded");
  let! _ := fold_result (fun (seen : list IntentType) capability =>
              do! fail_if (negb (IntentType_Valid capability) || bool_decide (capability ∈ seen))
                    (errorf "delegation capability is invalid");
              Ok (capability :: seen)) [] (dlg_Capabilities d) in
  Ok tt.
Definition Delegation_Validate (d : Delegation) (at_ : Time) (intent : IntentType) : result unit :=
  do! Delegation_ValidateStructure d;
  do! fail_if (dlg_Revoked d || negb (Before at_ (dlg_ExpiresAt d))) (errorf "delegation is not active");
  fail_if (negb (bool_decide (intent ∈ dlg_Capabilities d))) (errorf "delegation capability denied").

(** * Grants *)
Record Grant := MkGrant {
  grt_ID : string; grt_Version : Z; grt_PrincipalUserID : string; grt_WalletBindingID : string; grt_Intent : IntentType;
  grt_ScheduleID : string; grt_ExpiresAt : Time; grt_Paused : bool; grt_Revoked : bool; grt_PerActionBaseUnits : string;
  grt_AggregateCapBaseUnits : string; grt_RollingWindowCapBaseUnits : string; grt_RollingWindow : Duration;
  grt_StepUpAboveBaseUnits : string; grt_AllowedRecipients : list string; grt_AllowedTokens : list string;
  grt_AllowedChains : list string
}.
Definition positive_limit (v : string) : bool :=
  match SetString10 v with Some z => 0 <? z | None => false end.
Definition allowlist_ok (name : string) (values : list string) : result unit :=
  do! fail_if (500 <? Z.of_nat (length values)) (errorf1 "%s allowlist is too large" name);
  for_each (fun '(i, value) =>
      do! fail_if ((value == "") || (256 <? len value) || existsb (fun r => r <? 32) (runes value))
            (errorf1 "%s allowlist value is invalid" name);
      fail_if ((0 <? Z.of_nat i) && string_ge (default "" (values !! (i - 1)%nat)) value)
        (errorf1 "%s allowlist must be sorted and unique" name)) (imap pair values).
Definition Grant_Validate (g : Grant) : result unit :=
  do! fail_if ((grt_ID g == "") || (grt_Version g =? 0) || (grt_PrincipalUserID g == "") || (grt_WalletBindingID g == "")
               || negb (IntentType_Valid (grt_Intent g)) || IsZero (grt_ExpiresAt g)) (errorf "invalid policy grant");
  do! for_each (fun '(n, v) => fail_if ((v != "") && negb (positive_limit v)) (errorf1 "%s limit must be positive" n))
        [("per action", grt_PerActionBaseUnits g); ("aggregate", grt_AggregateCapBaseUnits g);
         ("rolling", grt_RollingWindowCapBaseUnits g)];
  do! fail_if ((grt_RollingWindowCapBaseUnits g != "") && (grt_RollingWindow g <=? 0)) (errorf "rolling window is required");
  for_each (fun '(name, values) => allowlist_ok name values)
    [("recipient", grt_AllowedRecipients g); ("token", grt_AllowedTokens g); ("chain", grt_AllowedChains g)].

(** [allowed]: [sort.SearchStrings] finds the first entry not below [value]. *)
Definition allowed (l : list string) (value : string) : bool :=
  if Z.of_nat (length l) =? 0 then true
  else let i := Search (length l) (fun i => string_ge (default "" (l !! i)) value) in
       bool_decide (l !! i = Some value).
Definition Grant_Active (g : Grant) (at_ : Time) : bool :=
  is_ok (Grant_Validate g) && negb (grt_Paused g) && negb (grt_Revoked g) && Before at_ (grt_ExpiresAt g).

(** * Occurrences *)
Definition OccurrenceDue : string := "DUE".
Definition OccurrenceClaimed : string := "CLAIMED".
Definition OccurrenceBlocked : string := "BLOCKED".
Definition OccurrenceApprovalRequired : string := "APPROVAL_REQUIRED".
Definition OccurrenceDispatched : string := "DISPATCHED".
Definition OccurrenceReconcile : string := "RECONCILIATION_ONLY".
Definition OccurrenceCompleted : string := "COMPLETED".
Definition OccurrenceSkipped : string := "SKIPPED".

Abbreviation ReasonCode := string (only parsing).
Definition ReasonEligible : ReasonCode := "ELIGIBLE".
Definition ReasonRuntimeDisabled : ReasonCode := "RUNTIME_DISABLED".
Definition ReasonSchedulePaused : ReasonCode := "SCHEDULE_PAUSED".
Definition ReasonGrantDenied : ReasonCode := "GRANT_DENIED".
Definition ReasonDelegationDenied : ReasonCode := "DELEGATION_DENIED".
Definition ReasonEmergencyStop : ReasonCode := "EMERGENCY_STOP".
Definition ReasonStepUp : ReasonCode := "STEP_UP_REQUIRED".
Definition ReasonOverlap : ReasonCode := "OVERLAP_FORBIDDEN".
Definition ReasonProviderUnavailable : ReasonCode := "CAPABILITY_UNAVAILABLE".
Definition ReasonAlreadySubmitted : ReasonCode := "ALREADY_SUBMITTED_RECONCILE".
Definition ReasonCode_Valid (r : ReasonCode) : bool :=
  bool_decide (r ∈ [ReasonEligible; ReasonRuntimeDisabled; ReasonSchedulePaused; ReasonGrantDenied; ReasonDelegationDenied;
                    ReasonEmergencyStop; ReasonStepUp; ReasonOverlap; ReasonProviderUnavailable; ReasonAlreadySubmitted]).

Record Occurrence := MkOccurrence {
  occ_ID : string; occ_Key : string; occ_ScheduleID : string; occ_ScheduleDigest : string; occ_GrantID : string;
  occ_GrantVersion : Z; occ_ScheduleVersion : Z; occ_ScheduledAt : Time; occ_CreatedAt : Time; occ_Status : string;
  occ_LeaseOwner : string; occ_LeaseUntil : Time; occ_Fence : Z; occ_IntentID : string; occ_ApprovalID : string;
  occ_ExecutionID : string; occ_Reason : ReasonCode
}.
Definition occurrence_key (scheduleID : string) (version : Z) (at_ : Time) : string :=
  scheduleID +:+ ("/" +:+ (FormatUint version +:+ ("/" +:+ FormatRFC3339Nano (UTC at_)))).
Definition occurrence_id (key : string) : string := "occ_" +:+ EncodeToString (take 16 (Sum256 (bytes key))).
Definition occurrence_statuses : list string :=
  [OccurrenceDue; OccurrenceClaimed; OccurrenceBlocked; OccurrenceApprovalRequired; OccurrenceDispatched;
   OccurrenceReconcile; OccurrenceCompleted; OccurrenceSkipped].
Definition Occurrence_Validate (o : Occurrence) : result unit :=
  do! fail_if ((occ_ID o == "") || (occ_Key o == "") || (occ_ScheduleID o == "") || (occ_ScheduleVersion o =? 0)
               || (occ_ScheduleDigest o == "") || (occ_GrantID o == "") || (occ_GrantVersion o =? 0)
               || IsZero (occ_ScheduledAt o) || IsZero (occ_CreatedAt o) || (occ_Fence o =? 0))
        (errorf "occurrence identity is invalid");
  do! fail_if (negb (bool_decide (occ_Status o ∈ occurrence_statuses))) (errorf "occurrence status is invalid");
  let expectedKey := occurrence_key (occ_ScheduleID o) (occ_ScheduleVersion o) (occ_ScheduledAt o) in
  do! fail_if (occ_Key o != expectedKey) (errorf "occurrence key is invalid");
  do! fail_if (occ_ID o != occurrence_id expectedKey) (errorf "occurrence ID is invalid");
  fail_if ((occ_Reason o != "") && negb (ReasonCode_Valid (occ_Reason o))) (errorf "occurrence reason is invalid").

(** [created] is [time.Now()]. *)
Definition NewOccurrence (s : Schedule) (at_ created : Time) : Occurrence :=
  let key := occurrence_key (sch_ID s) (sch_Version s) at_ in
  MkOccurrence (occurrence_id key) key (sch_ID s) (sch_Digest s) (sch_GrantID s) (sch_GrantVersion s) (sch_Version s)
    (UTC at_) (UTC created) OccurrenceDue "" zero_time 1 "" "" "" "".
