(* ===== verification/Recurrence.v ===== *)
(** What the recurrence rules of internal/autonomy (model.go) compute: exact
    instants where the clock of the location never changes, termination for
    every location that stays on one side of the date line, and the rules'
    defects elsewhere. *)
From S2P Require Import Prelude GoStrings GoTime AppErrors Autonomy.
Open Scope string_scope.
Open Scope Z_scope.
Open Scope go_scope.

(** * The loop *)
Lemma advance_finds stop step n t : stop (Nat.iter n step t) = true ->
  exists m, (m <= n)%nat /\ stop (Nat.iter m step t) = true /\ (forall j, (j < m)%nat -> stop (Nat.iter j step t) = false) /\
    forall fuel, (n <= fuel)%nat -> advance fuel stop step t = Some (Nat.iter m step t).
Proof.
  revert t. induction n as [|n IH]; intros t Hn.
  - exists 0%nat. split_and!; [lia|done|lia|]. intros fuel _. cbn in Hn |- *. destruct fuel; cbn; by rewrite Hn.
  - destruct (stop t) eqn:Et.
    + exists 0%nat. split_and!; [lia|done|lia|]. intros fuel _. destruct fuel; cbn; by rewrite Et.
    + rewrite Nat.iter_succ_r in Hn. apply IH in Hn as (m & Hm & Hs & Hj & Hf).
      exists (S m). rewrite <-Nat.iter_succ_r in Hs. split_and!; [lia|done| |].
      * intros [|j] Hlt; [done|]. rewrite Nat.iter_succ_r. apply Hj. lia.
      * intros [|fuel] Hle; [lia|]. cbn [advance]. rewrite Et, Nat.iter_succ_r. apply Hf. lia.
Qed.

Lemma advance_never stop step t : (forall n, stop (Nat.iter n step t) = false) -> forall fuel, advance fuel stop step t = None.
Proof.
  intros Hn fuel. revert t Hn. induction fuel as [|fuel IH]; intros t Hn; pose proof (Hn 0%nat) as H0; cbn in H0 |- *; rewrite H0; [done|].
  apply IH. intros n. specialize (Hn (S n)). by rewrite Nat.iter_succ_r in Hn.
Qed.

(** * Days *)
Lemma iter_day_constant o n t : Nat.iter n (next_day (constant o)) t = t + Z.of_nat n * day.
Proof.
  induction n as [|n IH]; [cbn; lia|]. rewrite Nat.iter_succ, IH. unfold next_day. rewrite AddDate_constant. lia.
Qed.
Lemma iter_day_steady loc n t : steady loc -> t + Z.of_nat n <= Nat.iter n (next_day loc) t.
Proof.
  intros Hs. induction n as [|n IH]; [cbn; lia|]. rewrite Nat.iter_succ.
  pose proof (AddDate_later loc (Nat.iter n (next_day loc) t) 1 Hs ltac:(lia)). unfold next_day at 1. lia.
Qed.

Lemma Weekday_constant o t k : Weekday (constant o) (t + k * day) = (Weekday (constant o) t + k) mod 7.
Proof.
  unfold Weekday, wall, offset_at, constant. replace (t + k * day + o * Second) with (t + o * Second + k * day) by lia.
  rewrite Z.div_add by done. rewrite Zplus_mod_idemp_l. f_equal. lia.
Qed.
(** Every weekday comes within a week. *)
Lemma Weekday_reached o t n w : 0 <= w < 7 ->
  exists k, n <= k < n + 7 /\ Weekday (constant o) (t + k * day) = w.
Proof.
  intros Hw. set (v := Weekday (constant o) (t + n * day)). exists (n + (w - v) mod 7).
  pose proof (Z.mod_pos_bound (w - v) 7 ltac:(lia)). split; [lia|].
  rewrite Z.mul_add_distr_r, Z.add_assoc, Weekday_constant. fold v. rewrite Zplus_mod_idemp_r.
  replace (v + (w - v)) with w by lia. by apply Z.mod_small.
Qed.

Section rules.
Context `{TimeZones}.

(** The instants of a rule in a location of constant offset [o]. *)
Definition occurs (o : Z) (r : Recurrence) (t : Time) : Prop :=
  exists k, 0 <= k /\ t = rec_Start r + k * day /\ (rec_Frequency r = Once -> k = 0) /\
    (rec_Frequency r = Weekly -> Weekday (constant o) t = rec_Weekday r).
Definition before_end (r : Recurrence) (t : Time) : Prop := rec_End r = zero_time \/ t < rec_End r.

(** [Next] after its candidate. *)
Lemma Next_candidate n r loc after next :
  Recurrence_Validate r = Ok tt -> LoadLocation (rec_Location r) = Ok loc ->
  (forall fuel, (n <= fuel)%nat -> candidate fuel loc r after = Some next) ->
  exists a, (forall fuel, (n <= fuel)%nat -> Next fuel r after = Some a) /\
    match a with
    | Some t => t = next /\ next <> zero_time /\ before_end r next
    | None => next = zero_time \/ ~ before_end r next
    end.
Proof.
  intros Hv Hl Hc.
  exists (if IsZero next || (negb (IsZero (rec_End r)) && negb (Before next (rec_End r))) then None else Some next). split.
  { intros fuel Hle. unfold Next. rewrite Hv, Hl, Hc by done. cbn [is_ok negb]. by destruct (_ || _). }
  unfold before_end, Before, IsZero. destruct (Z.eqb_spec next zero_time); cbn [orb]; [by left|].
  destruct (Z.eqb_spec (rec_End r) zero_time) as [->|]; cbn [negb andb]; [by auto|].
  destruct (Z.ltb_spec next (rec_End r)); cbn [negb]; [by auto|]. right. lia.
Qed.

Lemma weekday_range r : Recurrence_Validate r = Ok tt -> rec_Frequency r = Weekly -> 0 <= rec_Weekday r < 7.
Proof. unfold Recurrence_Validate. intros Hv Hf. rewrite Hf in Hv. ok_reflect.
  match goal with E : (_ == _) && _ = false |- _ => rewrite eqb_refl in E; cbn [andb] in E; reflect_all end. lia.
Qed.
Lemma valid_frequency r : Recurrence_Validate r = Ok tt ->
  rec_Frequency r = Once \/ rec_Frequency r = Daily \/ rec_Frequency r = Weekly \/ rec_Frequency r = Monthly.
Proof.
  unfold Recurrence_Validate, Frequency_Valid. intros Hv. ok_reflect.
  match goal with E : _ || _ = true |- _ => rewrite !orb_true_iff, !bool_decide_eq_true in E end. tauto.
Qed.

(** The candidate is the first instant of the rule after [after]. *)
Lemma candidate_exact o r after :
  Recurrence_Validate r = Ok tt -> rec_Frequency r <> Monthly -> 0 < rec_Start r ->
  exists n next, (forall fuel, (n <= fuel)%nat -> candidate fuel (constant o) r after = Some next) /\
    (next <> zero_time -> occurs o r next /\ after < next) /\
    forall t, occurs o r t -> after < t -> next <> zero_time /\ next <= t.
Proof.
  intros Hv Hm Hs. unfold candidate. destruct (valid_frequency r Hv) as [Hf|[Hf|[Hf|Hf]]]; [..|done]; rewrite Hf.
  - exists 0%nat. rewrite eqb_refl. eexists. split; [intros fuel _; reflexivity|]. unfold Before, occurs. rewrite Hf. split.
    + destruct (Z.ltb_spec after (rec_Start r)); [|done]. intros _. split; [|done]. exists 0. split_and!; [lia..|done].
    + intros t (k & _ & -> & Hk & _) Ha. rewrite (Hk eq_refl) in *. rewrite Z.mul_0_l, Z.add_0_r in *.
      rewrite (proj2 (Z.ltb_lt _ _)) by lia. unfold zero_time. lia.
  - change (Daily == Once) with false. rewrite eqb_refl. cbv iota.
    destruct (advance_finds (fun next => After next after) (next_day (constant o)) (Z.to_nat (after - rec_Start r + 1)) (rec_Start r))
      as (m & _ & Hst & Hj & Hfuel).
    { unfold After. rewrite iter_day_constant. apply Z.ltb_lt. unfold day, Second in *. lia. }
    exists (Z.to_nat (after - rec_Start r + 1)), (rec_Start r + Z.of_nat m * day).
    split; [intros fuel Hle; by rewrite Hfuel, iter_day_constant by done|]. rewrite iter_day_constant in Hst. unfold After in *. reflect_all.
    split.
    + intros _. split; [|lia]. exists (Z.of_nat m). rewrite Hf. split_and!; [lia|done|done|done].
    + intros t (k & Hk & -> & _) Ha. split; [unfold zero_time, day, Second in *; lia|].
      destruct (Z.lt_ge_cases k (Z.of_nat m)) as [Hlt|]; [|unfold day, Second in *; lia].
      specialize (Hj (Z.to_nat k) ltac:(lia)). rewrite iter_day_constant, Z2Nat.id in Hj by lia. reflect_all. lia.
  - change (Weekly == Once) with false. change (Weekly == Daily) with false. rewrite eqb_refl. cbv iota.
    pose proof (weekday_range r Hv Hf) as Hw.
    destruct (Weekday_reached o (rec_Start r) (Z.max 0 (after - rec_Start r + 1)) (rec_Weekday r) Hw) as (k0 & Hk0 & Hwk).
    destruct (advance_finds (fun next => After next after && (Weekday (constant o) next =? rec_Weekday r))
                (next_day (constant o)) (Z.to_nat k0) (rec_Start r)) as (m & _ & Hst & Hj & Hfuel).
    { rewrite iter_day_constant, Z2Nat.id by lia. apply andb_true_iff. split; [|by apply Z.eqb_eq].
      apply Z.ltb_lt. unfold day, Second in *. lia. }
    exists (Z.to_nat k0), (rec_Start r + Z.of_nat m * day).
    split; [intros fuel Hle; by rewrite Hfuel, iter_day_constant by done|]. rewrite iter_day_constant in Hst.
    apply andb_true_iff in Hst as [Ha%Z.ltb_lt Hwd%Z.eqb_eq]. split.
    + intros _. split; [|lia]. exists (Z.of_nat m). rewrite Hf. split_and!; [lia|done|done|done].
    + intros t (k & Hk & -> & _ & Hkw) Hat. split; [unfold zero_time, day, Second in *; lia|].
      destruct (Z.lt_ge_cases k (Z.of_nat m)) as [Hlt|]; [|unfold day, Second in *; lia].
      specialize (Hj (Z.to_nat k) ltac:(lia)). rewrite iter_day_constant, Z2Nat.id in Hj by lia.
      rewrite (Hkw Hf), Z.eqb_refl, andb_true_r in Hj. apply Z.ltb_ge in Hj. lia.
Qed.

(** [Next], where the clock never changes: the first instant of the rule. *)
Lemma Next_constant o r after :
  Recurrence_Validate r = Ok tt -> LoadLocation (rec_Location r) = Ok (constant o) -> rec_Frequency r <> Monthly -> 0 < rec_Start r ->
  exists n a, (forall fuel, (n <= fuel)%nat -> Next fuel r after = Some a) /\
    match a with
    | Some t => occurs o r t /\ after < t /\ before_end r t /\ (forall u, occurs o r u -> after < u -> t <= u)
    | None => forall u, occurs o r u -> after < u -> ~ before_end r u
    end.
Proof.
  intros Hv Hl Hm Hs. destruct (candidate_exact o r after Hv Hm Hs) as (n & next & Hc & Hin & Hmin). exists n.
  destruct (Next_candidate n r _ after next Hv Hl Hc) as (a & Ha & Hcase). exists a. split; [done|].
  destruct a as [t|].
  - destruct Hcase as (-> & Hz & Hb). destruct (Hin Hz) as [Ho Hlt]. split_and!; [done..|]. intros u Hu Hau. by apply Hmin.
  - intros u Hu Hau Hb. destruct (Hmin u Hu Hau) as [Hz Hle']. destruct Hcase as [|Hcase]; [done|]. apply Hcase.
    unfold before_end in *. destruct Hb; [by left|right; lia].
Qed.

(** [C39] A recurrence is the rule it states: in a location whose clock never
    changes, [Next] of a ONCE, DAILY or WEEKLY rule returns, and it returns
    the first instant after [after] among the start's whole days later that
    fall on the rule's weekday, or nothing when the rule has ended by then.
    In any location that keeps to one side of the date line a DAILY rule
    returns as well, with a later instant before its end. *)
Theorem recurrence_next_exact (r : Recurrence) (loc : Location) (after : Time)
    (Hv : Recurrence_Validate r = Ok tt) (Hl : LoadLocation (rec_Location r) = Ok loc) (Hs : 0 < rec_Start r) :
  (forall o, loc = constant o -> rec_Frequency r <> Monthly ->
     exists n a, (forall fuel, (n <= fuel)%nat -> Next fuel r after = Some a) /\
       match a with
       | Some t => occurs o r t /\ after < t /\ before_end r t /\ (forall u, occurs o r u -> after < u -> t <= u)
       | None => forall u, occurs o r u -> after < u -> ~ before_end r u
       end) /\
  (steady loc -> rec_Frequency r = Daily ->
     exists n a, (forall fuel, (n <= fuel)%nat -> Next fuel r after = Some a) /\
       forall t, a = Some t -> after < t /\ rec_Start r <= t /\ before_end r t).
Proof.
  split.
  - intros o -> Hm. by apply Next_constant.
  - intros Hst Hf.
    destruct (advance_finds (fun next => After next after) (next_day loc) (Z.to_nat (after - rec_Start r + 1)) (rec_Start r))
      as (m & _ & Hstop & _ & Hfuel).
    { apply Z.ltb_lt. pose proof (iter_day_steady loc (Z.to_nat (after - rec_Start r + 1)) (rec_Start r) Hst). lia. }
    set (n := Z.to_nat (after - rec_Start r + 1)) in *. exists n.
    assert (forall fuel, (n <= fuel)%nat -> candidate fuel loc r after = Some (Nat.iter m (next_day loc) (rec_Start r))) as Hcand.
    { intros fuel Hle. unfold candidate. rewrite Hf. change (Daily == Once) with false. rewrite eqb_refl. cbv iota. by apply Hfuel. }
    destruct (Next_candidate n r loc after _ Hv Hl Hcand) as (a & Ha & Hcase). exists a. split; [done|]. intros t ->. destruct Hcase as (-> & _ & Hb).
    pose proof (iter_day_steady loc m (rec_Start r) Hst). apply Z.ltb_lt in Hstop. split_and!; [lia..|done].
Qed.
End rules.

(** * The defects of the rules *)
Module RecurrenceSamples.
(** Cuba's clocks went from midnight to one on 2001-04-01, New York's from two
    to three on 2025-03-09. *)
Definition havana : Location := fun s => if s <? 986101200 then -5 * 3600 else -4 * 3600.
Definition new_york : Location := fun s => if s <? 1741503600 then -5 * 3600 else -4 * 3600.
#[local] Instance zones : TimeZones := fun name =>
  if name == "UTC" then Ok (constant 0)
  else if name == "America/Havana" then Ok havana
  else if name == "America/New_York" then Ok new_york else Err (errorf1 "unknown time zone %s" name).

(** Midnight UTC of a date. *)
Definition date (year month days : Z) : Time := days_of_civil year month days * day.
Definition first_of_month : Recurrence := MkRecurrence Monthly (date 2001 3 1 + 5 * Hour) false zero_time 0 1 "America/Havana".
Definition month_end : Recurrence := MkRecurrence Monthly (date 2025 1 15) false zero_time 0 31 "UTC".
Definition twentieth : Recurrence := MkRecurrence Monthly (date 2025 1 15) false zero_time 0 20 "UTC".
Definition half_past_two : Recurrence :=
  MkRecurrence Daily (date 2025 3 8 + 7 * Hour + 30 * Minute) false zero_time 0 0 "America/New_York".
Definition on_fridays : Recurrence := MkRecurrence Weekly (date 2025 1 15) false (date 2025 2 1) 5 0 "UTC".

Example epoch_day : date 1970 1 1 = of_unix 0 /\ Weekday (constant 0) (date 1970 1 1) = 4.
Proof. split; reflexivity. Qed.
Example fridays : Next 10 on_fridays (date 2025 1 17) = Some (Some (date 2025 1 24)) /\ Next 30 on_fridays (date 2025 1 31) = Some None.
Proof. split; reflexivity. Qed.

Lemma first_of_month_stays n : Nat.iter n (next_month havana (rec_Start first_of_month) 1) (rec_Start first_of_month) = rec_Start first_of_month.
Proof. induction n as [|n IH]; [done|]. rewrite Nat.iter_succ, IH. reflexivity. Qed.

(** Where the recurrence rules go wrong.  A MONTHLY rule on the first at
    midnight, in a location whose clocks skip that midnight, is asked for its
    second instant and never returns: adding a month and setting the day again
    leads back to the first instant.  A MONTHLY rule on the 31st that starts in
    the middle of January first runs on August 31st, and one on the 20th that
    starts on January 15th skips January.  A DAILY rule at half past two moves
    to half past one for good once the clocks have skipped that time. *)
Theorem recurrence_defects :
  (is_ok (Recurrence_Validate first_of_month) = true /\ steady havana /\
   forall (fuel n : nat), Next fuel first_of_month (rec_Start first_of_month + Z.of_nat n) = None) /\
  Next 8 month_end (rec_Start month_end) = Some (Some (date 2025 8 31)) /\
  Next 2 twentieth (rec_Start twentieth) = Some (Some (date 2025 2 20)) /\
  Next 200 half_past_two (date 2025 6 1) = Some (Some (date 2025 6 1 + 5 * Hour + 30 * Minute)).
Proof.
  split; [split_and!; [done| |]|split_and!; reflexivity].
  - intros s u. unfold havana. destruct (_ <? _), (_ <? _); lia.
  - intros fuel n. unfold Next. change (is_ok (Recurrence_Validate first_of_month)) with true.
    change (LoadLocation (rec_Location first_of_month)) with (@Ok error Location havana). cbn [negb].
    enough (candidate fuel havana first_of_month (rec_Start first_of_month + Z.of_nat n) = None) as -> by done.
    unfold candidate. change (rec_Frequency first_of_month) with Monthly. change (rec_DayOfMonth first_of_month) with 1.
    change (Monthly == Once) with false. change (Monthly == Daily) with false. change (Monthly == Weekly) with false.
    rewrite eqb_refl. cbv iota. apply advance_never. intros k. rewrite first_of_month_stays. unfold After.
    by rewrite (proj2 (Z.ltb_ge _ _)) by lia.
Qed.

Lemma recurrence_next_exact_witness :
  Recurrence_Validate on_fridays = Ok tt /\ LoadLocation (rec_Location on_fridays) = Ok (constant 0) /\
  0 < rec_Start on_fridays /\
  exists n a, (forall fuel, (n <= fuel)%nat -> Next fuel on_fridays (date 2025 1 17) = Some a) /\
    match a with
    | Some t => occurs 0 on_fridays t /\ date 2025 1 17 < t /\ before_end on_fridays t /\
                (forall u, occurs 0 on_fridays u -> date 2025 1 17 < u -> t <= u)
    | None => forall u, occurs 0 on_fridays u -> date 2025 1 17 < u -> ~ before_end on_fridays u
    end.
Proof.
  split_and!; [reflexivity|reflexivity|reflexivity|].
  refine (proj1 (recurrence_next_exact on_fridays (constant 0) (date 2025 1 17) _ _ _) 0 eq_refl _); [reflexivity..|discriminate].
Defined.
End RecurrenceSamples.
