(* ===== verification/AutonomyLedger.v ===== *)
(** internal/autonomy, the spending ledger of the in-memory runtime
    (accounting.go): reservations per occurrence under a grant's aggregate and
    rolling-window caps, and the proof that no history of calls exceeds them.

    A method holds the ledger's mutex: it is one atomic step. *)
From stdpp Require Import gmap strings.
From S2P Require Import Prelude GoStrings GoTime AppErrors Autonomy.
Open Scope string_scope.
Open Scope Z_scope.
Open Scope go_scope.

(** * Sums over a map *)
Section sums.
Context {K V : Type} `{Countable K}.
Implicit Types (f g : K -> V -> Z) (m : gmap K V).

(** [for k, v := range m { total += f(k, v) }]; addition makes the order of
    the loop irrelevant. *)
Definition sum_over f m : Z := map_fold (fun k v acc => f k v + acc) 0 m.

Lemma sum_over_insert f m k v : m !! k = None -> sum_over f (<[k:=v]> m) = f k v + sum_over f m.
Proof. intros Hk. unfold sum_over. rewrite map_fold_insert_L; [done|intros; lia|done]. Qed.
Lemma sum_over_delete f m k v : m !! k = Some v -> sum_over f m = f k v + sum_over f (delete k m).
Proof. intros Hk. unfold sum_over. rewrite (map_fold_delete_L _ _ k v) by (done || intros; lia). done. Qed.
Lemma sum_over_replace f m k v w : m !! k = Some v -> f k w = f k v -> sum_over f (<[k:=w]> m) = sum_over f m.
Proof.
  intros Hk Hf. rewrite (sum_over_delete f m k v Hk), <-insert_delete_eq, sum_over_insert by apply lookup_delete_eq. lia.
Qed.
Lemma sum_over_mono f g m : (forall k v, m !! k = Some v -> f k v <= g k v) -> sum_over f m <= sum_over g m.
Proof.
  induction m as [|k v m Hk IH] using map_ind; intros Hle; [done|]. rewrite !sum_over_insert by done.
  assert (f k v <= g k v) by apply (Hle k), lookup_insert_eq.
  assert (sum_over f m <= sum_over g m); [|lia]. apply IH. intros k' v' Hk'. apply (Hle k').
  rewrite lookup_insert_ne; [done|congruence].
Qed.
(** A map changed pointwise. *)
Lemma sum_over_imap f (h : K -> V -> option V) (change : K -> V -> V) m : (forall k v, h k v = Some (change k v)) ->
  sum_over f (map_imap h m) = sum_over (fun k v => f k (change k v)) m.
Proof.
  intros Hh. induction m as [|k v m Hk IH] using map_ind; [by rewrite map_imap_empty|].
  rewrite map_imap_insert, Hh, !sum_over_insert, IH; [done|done|]. by rewrite map_lookup_imap, Hk.
Qed.
End sums.

(** * The ledger *)
Record LedgerReservation := MkLedgerReservation {
  lr_GrantID : string; lr_OccurrenceID : string; lr_Amount : string; lr_GrantVersion : Z; lr_At : Time; lr_State : string
}.
Definition Reserved : string := "RESERVED".
Definition Committed : string := "COMMITTED".
Abbreviation Ledger := (gmap string LedgerReservation) (only parsing).
Definition NewLedger : Ledger := ∅.

(** [new(big.Int).SetString(s, 10)] where the error is dropped. *)
Definition amount_of (s : string) : Z := default 0 (SetString10 s).
Definition counted (g : Grant) (r : LedgerReservation) : bool :=
  negb ((lr_GrantID r != grt_ID g) || (lr_GrantVersion r != grt_Version g)
        || ((lr_State r != Reserved) && (lr_State r != Committed))).
Definition in_window (g : Grant) (at_ : Time) (r : LedgerReservation) : bool :=
  (0 <? grt_RollingWindow g) && (Sub at_ (lr_At r) <? grt_RollingWindow g).
Definition spent (p : LedgerReservation -> bool) (l : Ledger) : Z :=
  sum_over (fun _ r => if p r then amount_of (lr_Amount r) else 0) l.
(** [cap != "" && sum + z > cap] *)
Definition over_cap (cap : string) (sum z : Z) : bool := (cap != "") && (amount_of cap <? sum + z).

Definition Ledger_Reserve (g : Grant) (occurrence amount : string) (at_ : Time) (l : Ledger) : result bool * Ledger :=
  match Grant_Validate g with
  | Err e => (Err e, l)
  | Ok _ =>
      if negb (positive_limit amount) then (Err (errorf "reservation amount must be positive"), l) else
      let z := amount_of amount in
      match l !! occurrence with
      | Some old => (Ok ((lr_GrantID old == grt_ID g) && (lr_GrantVersion old == grt_Version g)), l)
      | None =>
          let total := spent (counted g) l in
          let window := spent (fun r => counted g r && in_window g at_ r) l in
          if over_cap (grt_AggregateCapBaseUnits g) total z then (Ok false, l)
          else if over_cap (grt_RollingWindowCapBaseUnits g) window z then (Ok false, l)
          else (Ok true, <[occurrence := MkLedgerReservation (grt_ID g) occurrence amount (grt_Version g) at_ Reserved]> l)
      end
  end.

Definition with_lr_State (state : string) (r : LedgerReservation) : LedgerReservation :=
  MkLedgerReservation (lr_GrantID r) (lr_OccurrenceID r) (lr_Amount r) (lr_GrantVersion r) (lr_At r) state.
Definition Ledger_Commit (occurrence : string) (l : Ledger) : result unit * Ledger :=
  match l !! occurrence with
  | None => (Err (errorf "reservation not found"), l)
  | Some r => (Ok tt, <[occurrence := with_lr_State Committed r]> l)
  end.
Definition Ledger_Release (occurrence : string) (l : Ledger) : result unit * Ledger :=
  match l !! occurrence with
  | Some r => if lr_State r == Reserved then (Ok tt, delete occurrence l) else (Ok tt, l)
  | None => (Ok tt, l)
  end.
Definition Ledger_Get (occurrence : string) (l : Ledger) : option LedgerReservation := l !! occurrence.

(** * Histories *)
Inductive call : Type :=
  | CReserve (g : Grant) (occurrence amount : string) (at_ : Time)
  | CCommit (occurrence : string)
  | CRelease (occurrence : string).
Definition apply_call (c : call) (l : Ledger) : Ledger :=
  match c with
  | CReserve g occurrence amount at_ => snd (Ledger_Reserve g occurrence amount at_ l)
  | CCommit occurrence => snd (Ledger_Commit occurrence l)
  | CRelease occurrence => snd (Ledger_Release occurrence l)
  end.
(** The calls in the order in which they took the mutex. *)
Definition after (calls : list call) : Ledger := foldl (fun l c => apply_call c l) NewLedger calls.

(** One grant per identifier and version. *)
Definition same_grant (g : Grant) (c : call) : Prop :=
  match c with
  | CReserve g' _ _ _ => grt_ID g' = grt_ID g -> grt_Version g' = grt_Version g -> g' = g
  | _ => True
  end.
(** Reservations read a clock that does not go back. *)
Fixpoint clocks_from (now : Time) (calls : list call) : Prop :=
  match calls with
  | [] => True
  | CReserve _ _ _ at_ :: calls => now <= at_ /\ clocks_from at_ calls
  | _ :: calls => clocks_from now calls
  end.

(** What the grant's reservations add up to: in all, and those made within the
    window that ends at [t]. *)
Definition reserved_total (g : Grant) (l : Ledger) : Z := spent (counted g) l.
Definition reserved_between (g : Grant) (t : Time) (l : Ledger) : Z :=
  spent (fun r => counted g r && (t - grt_RollingWindow g <? lr_At r) && (lr_At r <=? t)) l.
Definition within (cap : string) (sum : Z) : Prop := cap <> "" -> sum <= amount_of cap.

(** * The invariant *)
Record ledger_ok (g : Grant) (now : Time) (l : Ledger) : Prop := {
  lo_amounts : forall k r, l !! k = Some r -> 0 < amount_of (lr_Amount r);
  lo_states : forall k r, l !! k = Some r -> lr_State r = Reserved \/ lr_State r = Committed;
  lo_clock : forall k r, l !! k = Some r -> lr_At r <= now;
  lo_total : within (grt_AggregateCapBaseUnits g) (reserved_total g l);
  lo_window : forall t, within (grt_RollingWindowCapBaseUnits g) (reserved_between g t l);
}.

Lemma over_cap_within cap sum z : over_cap cap sum z = false -> within cap (sum + z).
Proof. unfold over_cap, within. intros Ho Hne. apply andb_false_iff in Ho as [Ho|Ho]; reflect_all; [done|lia]. Qed.
Lemma within_cap_le cap sum sum' : sum <= sum' -> within cap sum' -> within cap sum.
Proof. unfold within. intros. etransitivity; eauto. Qed.
Lemma positive_amount s : positive_limit s = true -> 0 < amount_of s.
Proof. unfold positive_limit, amount_of. destruct (SetString10 s); [|done]. cbn. by intros ?%Z.ltb_lt. Qed.
Lemma positive_cap g cap : Grant_Validate g = Ok tt ->
  cap = grt_AggregateCapBaseUnits g \/ cap = grt_RollingWindowCapBaseUnits g -> cap <> "" -> 0 < amount_of cap.
Proof.
  unfold Grant_Validate. intros Hv Hcap Hne.
  apply rbind_ok in Hv as ([] & _ & Hv). apply rbind_ok in Hv as ([] & Hl & _).
  rewrite for_each_ok in Hl. rewrite !Forall_cons in Hl. destruct Hl as (_ & Ha & Hr & _).
  rewrite !fail_if_ok in Ha, Hr. apply positive_amount.
  destruct Hcap as [->| ->]; [rename Ha into E|rename Hr into E]; apply andb_false_iff in E as [E|E]; reflect_all; done.
Qed.

(** The window the code sums is the one that ends now. *)
Lemma in_window_spec g at_ r : lr_At r <= at_ -> grt_RollingWindow g <= max_duration ->
  in_window g at_ r = (0 <? grt_RollingWindow g) && (at_ - grt_RollingWindow g <? lr_At r).
Proof. unfold in_window, Sub, min_duration, max_duration. intros. apply eq_true_iff_eq. rewrite !andb_true_iff, !Z.ltb_lt. lia. Qed.

Lemma spent_le (p q : LedgerReservation -> bool) l :
  (forall k r, l !! k = Some r -> 0 < amount_of (lr_Amount r)) ->
  (forall k r, l !! k = Some r -> p r = true -> q r = true) -> spent p l <= spent q l.
Proof.
  intros Hpos Hpq. apply sum_over_mono. intros k r Hk. pose proof (Hpos k r Hk). pose proof (Hpq k r Hk).
  destruct (p r), (q r); lia.
Qed.

(** Removing a reservation only lowers sums. *)
Lemma ledger_ok_delete g now l k : ledger_ok g now l -> ledger_ok g now (delete k l).
Proof.
  intros [Ha Hs Hc Ht Hw]. destruct (l !! k) as [r|] eqn:Hk; [|by rewrite delete_id by done].
  assert (forall p, spent p (delete k l) <= spent p l) as Hle.
  { intros p. unfold spent. rewrite (sum_over_delete _ l k r Hk). cbn. pose proof (Ha k r Hk). destruct (p r); lia. }
  split.
  - intros k' r' Hk'. apply lookup_delete_Some in Hk' as [_ Hk']. by apply (Ha k').
  - intros k' r' Hk'. apply lookup_delete_Some in Hk' as [_ Hk']. by apply (Hs k').
  - intros k' r' Hk'. apply lookup_delete_Some in Hk' as [_ Hk']. by apply (Hc k').
  - eapply within_cap_le; [apply Hle|done].
  - intros t. eapply within_cap_le; [apply Hle|apply Hw].
Qed.


(** Committing changes no sum: a reservation counts before and after. *)
Lemma ledger_ok_commit g now l k r : ledger_ok g now l -> l !! k = Some r ->
  ledger_ok g now (<[k := with_lr_State Committed r]> l).
Proof.
  intros [Ha Hs Hc Ht Hw] Hk.
  assert (counted g (with_lr_State Committed r) = counted g r) as Hcnt.
  { unfold counted. destruct (Hs k r Hk) as [E|E]; rewrite E; reflexivity. }
  split.
  - intros k' r' Hk'. apply lookup_insert_Some in Hk' as [[_ <-]|[_ Hk']]; [exact (Ha k r Hk)|exact (Ha k' r' Hk')].
  - intros k' r' Hk'. apply lookup_insert_Some in Hk' as [[_ <-]|[_ Hk']]; [by right|by apply (Hs k')].
  - intros k' r' Hk'. apply lookup_insert_Some in Hk' as [[_ <-]|[_ Hk']]; [exact (Hc k r Hk)|exact (Hc k' r' Hk')].
  - unfold reserved_total, spent. rewrite (sum_over_replace _ l k r) by (try done; by rewrite Hcnt). apply Ht.
  - intros t. unfold reserved_between, spent. rewrite (sum_over_replace _ l k r) by (try done; by rewrite Hcnt). apply Hw.
Qed.

(** A reservation the caps admit. *)
Lemma ledger_ok_reserve g now l k amount at_ :
  grt_RollingWindow g <= max_duration -> Grant_Validate g = Ok tt -> positive_limit amount = true ->
  l !! k = None -> now <= at_ -> ledger_ok g now l ->
  over_cap (grt_AggregateCapBaseUnits g) (spent (counted g) l) (amount_of amount) = false ->
  over_cap (grt_RollingWindowCapBaseUnits g) (spent (fun r => counted g r && in_window g at_ r) l) (amount_of amount) = false ->
  ledger_ok g at_ (<[k := MkLedgerReservation (grt_ID g) k amount (grt_Version g) at_ Reserved]> l).
Proof.
  intros Hmax Hv Hpos Hk Hnow [Ha Hs Hc Ht Hw] Hagg Hroll. set (new := MkLedgerReservation _ _ _ _ _ _).
  assert (counted g new = true) as Hnew by (unfold counted; cbn; rewrite !neqb_refl; done).
  apply over_cap_within in Hagg, Hroll. apply positive_amount in Hpos. split.
  - intros k' r' Hk'. apply lookup_insert_Some in Hk' as [[_ <-]|[_ Hk']]; [done|by apply (Ha k')].
  - intros k' r' Hk'. apply lookup_insert_Some in Hk' as [[_ <-]|[_ Hk']]; [by left|by apply (Hs k')].
  - intros k' r' Hk'. apply lookup_insert_Some in Hk' as [[_ <-]|[_ Hk']]; [done|]. etransitivity; [by eapply Hc|done].
  - unfold reserved_total, spent. rewrite sum_over_insert, Hnew by done. cbn. eapply within_cap_le, Hagg. unfold spent. lia.
  - intros t. unfold reserved_between, spent. rewrite sum_over_insert, Hnew by done. cbn [andb].
    change (lr_At new) with at_. change (lr_Amount new) with amount.
    destruct (_ && _) eqn:Hin; [|apply (Hw t)].
    apply andb_true_iff in Hin as [Hin1%Z.ltb_lt Hin2%Z.leb_le].
    eapply within_cap_le, Hroll. rewrite Z.add_comm. apply Z.add_le_mono_r. apply spent_le; [done|].
    intros k' r' Hk'. rewrite !andb_true_iff, Z.ltb_lt, Z.leb_le. intros [[Hcnt Hlt] Hle]. split; [done|].
    assert (lr_At r' <= at_) by (etransitivity; [by eapply Hc|done]).
    rewrite in_window_spec, andb_true_iff, !Z.ltb_lt by done. lia.
Qed.

(** Reservations of other grants do not count. *)
Lemma ledger_ok_other g now l k r : l !! k = None -> counted g r = false -> 0 < amount_of (lr_Amount r) ->
  lr_State r = Reserved -> now <= lr_At r -> ledger_ok g now l -> ledger_ok g (lr_At r) (<[k := r]> l).
Proof.
  intros Hk Hcnt Hpos Hst Hnow [Ha Hs Hc Ht Hw]. split.
  - intros k' r' Hk'. apply lookup_insert_Some in Hk' as [[_ <-]|[_ Hk']]; [done|by apply (Ha k')].
  - intros k' r' Hk'. apply lookup_insert_Some in Hk' as [[_ <-]|[_ Hk']]; [by left|by apply (Hs k')].
  - intros k' r' Hk'. apply lookup_insert_Some in Hk' as [[_ <-]|[_ Hk']]; [done|]. etransitivity; [by eapply Hc|done].
  - unfold reserved_total, spent. rewrite sum_over_insert, Hcnt by done. apply Ht.
  - intros t. unfold reserved_between, spent. rewrite sum_over_insert, Hcnt by done. apply Hw.
Qed.

Lemma ledger_ok_later g now now' l : now <= now' -> ledger_ok g now l -> ledger_ok g now' l.
Proof. intros Hle [Ha Hs Hc Ht Hw]. split; [done..| |done|done]. intros k r Hk. etransitivity; [by eapply Hc|done]. Qed.

Lemma Reserve_ok g g' k amount at_ now l :
  grt_RollingWindow g <= max_duration -> same_grant g (CReserve g' k amount at_) -> now <= at_ ->
  ledger_ok g now l -> ledger_ok g at_ (snd (Ledger_Reserve g' k amount at_ l)).
Proof.
  intros Hmax Hsame Hnow Hok. assert (ledger_ok g at_ l) as Hl by by eapply ledger_ok_later.
  unfold Ledger_Reserve. destruct (Grant_Validate g') as [[]|] eqn:Hv; [|done].
  destruct (positive_limit amount) eqn:Hp; [|done]. cbn [negb]. destruct (l !! k) eqn:Hk; [done|].
  destruct (over_cap (grt_AggregateCapBaseUnits g') _ _) eqn:Ha; [done|].
  destruct (over_cap (grt_RollingWindowCapBaseUnits g') _ _) eqn:Hr; [done|]. cbn [snd].
  destruct (decide (grt_ID g' = grt_ID g /\ grt_Version g' = grt_Version g)) as [[He1 He2]|Hne].
  - rewrite (Hsame He1 He2) in *. by eapply ledger_ok_reserve.
  - apply (ledger_ok_other g now l k (MkLedgerReservation _ _ _ _ at_ _)); try done.
    + unfold counted. cbn. apply negb_false_iff. rewrite orb_false_r, orb_true_iff.
      destruct (decide (grt_ID g' = grt_ID g)); [right|left]; apply neqb_spec_true; naive_solver.
    + by apply positive_amount.
Qed.

Lemma calls_ok g calls now l : grt_RollingWindow g <= max_duration ->
  Forall (same_grant g) calls -> clocks_from now calls -> ledger_ok g now l ->
  exists now', ledger_ok g now' (foldl (fun l c => apply_call c l) l calls).
Proof.
  intros Hmax. revert now l. induction calls as [|c calls IH]; intros now l Hs Hc Hok; [by exists now|].
  apply Forall_cons in Hs as [Hs Hss]. destruct c as [g' k amount at_|k|k]; cbn [clocks_from foldl apply_call] in *.
  - destruct Hc as [Hle Hc]. eapply (IH at_); [done..|]. by eapply Reserve_ok.
  - eapply (IH now); [done..|]. unfold Ledger_Commit. destruct (l !! k) eqn:Hk; [|done]. by apply ledger_ok_commit.
  - eapply (IH now); [done..|]. unfold Ledger_Release. destruct (l !! k); [|done].
    destruct (_ == _); [|done]. by apply ledger_ok_delete.
Qed.

Lemma empty_ledger_ok g now : Grant_Validate g = Ok tt -> ledger_ok g now NewLedger.
Proof.
  intros Hv. split; [done..| |].
  - intros Hne. apply Z.lt_le_incl. apply (positive_cap g); auto.
  - intros t Hne. apply Z.lt_le_incl. apply (positive_cap g); auto.
Qed.

(** No history of calls spends past a grant: whatever reservations,
    commits and releases came before, for this grant and others, what the
    grant's reservations add up to stays within its aggregate cap, and what
    was reserved within one rolling window, wherever the window lies, within
    its rolling cap, as long as the clock does not go back and a grant version
    does not change.  A reservation answered with true is in the ledger for
    this grant, and asking for it again changes nothing. *)
Theorem ledger_within_caps (g : Grant) (calls : list call) (start : Time)
    (Hv : Grant_Validate g = Ok tt) (Hw : grt_RollingWindow g <= max_duration)
    (Hg : Forall (same_grant g) calls) (Hc : clocks_from start calls) :
  within (grt_AggregateCapBaseUnits g) (reserved_total g (after calls)) /\
  (forall t, within (grt_RollingWindowCapBaseUnits g) (reserved_between g t (after calls))) /\
  (forall occurrence amount at_, fst (Ledger_Reserve g occurrence amount at_ (after calls)) = Ok true ->
     let l := snd (Ledger_Reserve g occurrence amount at_ (after calls)) in
     exists r, Ledger_Get occurrence l = Some r /\ lr_GrantID r = grt_ID g /\ lr_GrantVersion r = grt_Version g /\
       forall again, Ledger_Reserve g occurrence amount again l = (Ok true, l)).
Proof.
  destruct (calls_ok g calls start NewLedger Hw Hg Hc (empty_ledger_ok g start Hv)) as (now & [_ _ _ Ht Hwin]).
  split_and!; [done..|]. intros occurrence amount at_ Hr. cbn zeta. set (l := after calls) in *. clearbody l.
  revert Hr. unfold Ledger_Reserve, Ledger_Get. rewrite Hv. destruct (positive_limit amount) eqn:Hp; [|done]. cbn [negb].
  destruct (l !! occurrence) as [r|] eqn:Hk.
  - cbn [fst snd]. intros [= Hsame]. exists r. split_and!; [done| | |].
    1,2: apply andb_true_iff in Hsame as [H1 H2]; reflect_all; done.
    intros again. by rewrite Hk, Hsame.
  - destruct (over_cap _ _ _); [done|]. destruct (over_cap _ _ _); [done|]. intros _. cbn [snd]. eexists.
    rewrite lookup_insert_eq. split_and!; [done..|]. intros again. cbn. by rewrite !eqb_refl.
Qed.

Module LedgerSamples.
Definition grant : Grant :=
  MkGrant "grant-1" 1 "user-1" "wallet-1" IntentPayroll "" (of_unix 2000000000) false false "" "100" "60" Hour "" [] [] [].
Definition other : Grant :=
  MkGrant "grant-1" 2 "user-1" "wallet-1" IntentPayroll "" (of_unix 2000000000) false false "" "5" "" 0 "" [] [] [].
Definition t0 : Time := of_unix 1700000000.
Definition history : list call :=
  [CReserve grant "a" "40" t0; CReserve grant "b" "30" (t0 + Minute); CCommit "a"; CReserve other "c" "5" (t0 + Minute);
   CReserve grant "d" "60" (t0 + Hour); CReserve grant "e" "1" (t0 + 3 * Hour); CRelease "d"].
Example history_amounts :
  reserved_total grant (after (take 3 history)) = 40 /\ reserved_total grant (after (take 5 history)) = 100 /\
  reserved_total grant (after (take 6 history)) = 100 /\ reserved_total grant (after history) = 40.
Proof. vm_compute. repeat split. Qed.

Lemma ledger_within_caps_witness :
  Grant_Validate grant = Ok tt /\ Forall (same_grant grant) history /\ clocks_from t0 history /\
  within "100" (reserved_total grant (after history)) /\ forall t, within "60" (reserved_between grant t (after history)).
Proof.
  assert (Grant_Validate grant = Ok tt) as Hv by (vm_compute; reflexivity).
  assert (Forall (same_grant grant) history) as Hg.
  { repeat first [apply Forall_nil_2 | apply Forall_cons_2]; try exact I; intros ? E; first [reflexivity | vm_compute in E; discriminate E]. }
  assert (clocks_from t0 history) as Hc by (vm_compute; repeat split; discriminate).
  destruct (ledger_within_caps grant history t0 Hv ltac:(vm_compute; discriminate) Hg Hc) as (H1 & H2 & _).
  split_and!; assumption.
Defined.
End LedgerSamples.
