(* ===== verification/AutonomyRuntime.v ===== *)
(** internal/autonomy, the autonomous runtime (runtime.go, scheduler.go): the
    in-memory store, the simulation of an occurrence, the last gate before a
    dispatch and the scheduler, with the interface the gate needs of a store.

    The n-th reading of an injected clock is [now n].  The in-memory store's
    loops over Go maps take the order of the iteration as an argument. *)
From stdpp Require Import gmap strings.
From S2P Require Import Prelude GoStrings GoTime AppErrors Autonomy AutonomyLedger.
Open Scope string_scope.
Open Scope Z_scope.
Open Scope go_scope.

Record EmergencyStop := MkEmergencyStop {
  es_Active : bool; es_Scope : string; es_ChangedAt : Time; es_Actor : string; es_Reason : string
}.
Definition EmergencyStop_Validate (e : EmergencyStop) : result unit :=
  do! fail_if (es_Scope e != "TENANT") (errorf "emergency stop scope must be TENANT");
  fail_if ((es_Actor e == "") || (256 <? len (es_Actor e)) || IsZero (es_ChangedAt e) || (es_Reason e == "")
           || (256 <? len (es_Reason e))) (errorf "emergency stop state is invalid").
Definition no_stop : EmergencyStop := MkEmergencyStop false "" zero_time "" "".

Record Decision := MkDecision {
  dec_Eligible : bool; dec_RequiresStepUp : bool; dec_Reason : ReasonCode; dec_RemainingBaseUnits : string;
  dec_ScheduleID : string; dec_OccurrenceID : string; dec_GrantID : string
}.
Record DispatchGuard := MkDispatchGuard {
  dg_OccurrenceID : string; dg_ScheduleID : string; dg_GrantID : string; dg_PrincipalUserID : string; dg_AgentID : string;
  dg_DelegationID : string; dg_LeaseOwner : string; dg_ScheduleVersion : Z; dg_GrantVersion : Z; dg_DelegationVersion : Z;
  dg_Fence : Z
}.

(** * What the gate asks of a store *)
(** [holds s id worker fence at_ o]: [o] is an occurrence [id] whose lease
    [worker] holds at [at_] with the fencing token [fence]. *)
Class DispatchStore (S : Type) := {
  store_Emergency : S -> result EmergencyStop;
  store_CheckDispatchFence : S -> string -> string -> Z -> Time -> result (Occurrence * bool);
  holds : S -> string -> string -> Z -> Time -> Occurrence -> Prop
}.
Class DispatchStoreSpec (S : Type) `{DispatchStore S} : Prop :=
  fence_held : forall s id worker fence at_ o,
    store_CheckDispatchFence s id worker fence at_ = Ok (o, true) -> holds s id worker fence at_ o.

(** * The in-memory store *)
Record reservation := MkReservation { rsv_GrantID : string; rsv_Amount : string; rsv_GrantVersion : Z; rsv_ReservedAt : Time }.
Record MemoryStore := MkMemoryStore {
  ms_schedules : gmap string Schedule; ms_occurrences : gmap string Occurrence; ms_reservations : gmap string reservation;
  ms_stop : EmergencyStop
}.
Definition NewMemoryStore : MemoryStore := MkMemoryStore ∅ ∅ ∅ no_stop.
Definition schedule_key (id : string) (version : Z) : string := id +:+ ("/" +:+ FormatUint version).
Definition with_occurrences (m : MemoryStore) (o : gmap string Occurrence) : MemoryStore :=
  MkMemoryStore (ms_schedules m) o (ms_reservations m) (ms_stop m).

Section memory.
Context `{TimeZones}.
Implicit Types (m : MemoryStore) (order : list (string * Occurrence)).

Definition Memory_SaveSchedule (s : Schedule) m : result unit * MemoryStore :=
  match Schedule_Validate s with
  | Err e => (Err e, m)
  | Ok _ =>
      let key := schedule_key (sch_ID s) (sch_Version s) in
      match ms_schedules m !! key with
      | Some existing =>
          if (ComputeDigest existing != ComputeDigest s) || (sch_Status existing != sch_Status s)
          then (Err (errorf "schedule immutable conflict"), m) else (Ok tt, m)
      | None => (Ok tt, MkMemoryStore (<[key := s]> (ms_schedules m)) (ms_occurrences m) (ms_reservations m) (ms_stop m))
      end
  end.
Definition Memory_GetSchedule (id : string) (v : Z) m : result Schedule :=
  match ms_schedules m !! schedule_key id v with
  | Some s => Ok s
  | None => Err (errorf "schedule not found")
  end.
Definition Memory_SaveOccurrence (o : Occurrence) m : result unit * MemoryStore :=
  match Occurrence_Validate o with
  | Err e => (Err e, m)
  | Ok _ =>
      match ms_occurrences m !! occ_Key o with
      | Some existing =>
          if occ_ID existing != occ_ID o then (Err (errorf "occurrence key collision"), m)
          else if (occ_ScheduleDigest existing != occ_ScheduleDigest o) || (occ_GrantID existing != occ_GrantID o)
                  || (occ_GrantVersion existing != occ_GrantVersion o)
          then (Err (errorf "occurrence immutable conflict"), m) else (Ok tt, m)
      | None => (Ok tt, with_occurrences m (<[occ_Key o := o]> (ms_occurrences m)))
      end
  end.

(** The first entry of the loop that passes the test. *)
Definition first_of (p : Occurrence -> bool) order : option (string * Occurrence) :=
  snd <$> list_find (fun e => p e.2 = true) order.
Definition Memory_GetOccurrence order (id : string) : result Occurrence :=
  match first_of (fun o => occ_ID o == id) order with
  | Some (_, o) => Ok o
  | None => Err (errorf "occurrence not found")
  end.

Definition claimable (at_ : Time) (o : Occurrence) : bool :=
  negb (((occ_Status o != OccurrenceDue) && (occ_Status o != OccurrenceClaimed)) || After (occ_ScheduledAt o) at_)
  && negb ((occ_LeaseOwner o != "") && After (occ_LeaseUntil o) at_).
Definition claimed (worker : string) (until : Time) (o : Occurrence) : Occurrence :=
  MkOccurrence (occ_ID o) (occ_Key o) (occ_ScheduleID o) (occ_ScheduleDigest o) (occ_GrantID o) (occ_GrantVersion o)
    (occ_ScheduleVersion o) (occ_ScheduledAt o) (occ_CreatedAt o) OccurrenceClaimed worker until (u64 (occ_Fence o + 1))
    (occ_IntentID o) (occ_ApprovalID o) (occ_ExecutionID o) (occ_Reason o).
Definition Memory_ClaimDue order (at_ : Time) (worker : string) (lease : Duration) m : option Occurrence * MemoryStore :=
  match first_of (claimable at_) order with
  | None => (None, m)
  | Some (key, o) =>
      let o := claimed worker (Add at_ lease) o in
      (Some o, with_occurrences m (<[key := o]> (ms_occurrences m)))
  end.

Definition Memory_Reserve (occ grant : string) (grantVersion : Z) (amount : string) (at_ : Time) m : result bool * MemoryStore :=
  match ms_reservations m !! occ with
  | Some _ => (Ok true, m)
  | None =>
      if negb (positive_limit amount) then (Err (errorf "invalid reservation amount"), m)
      else (Ok true, MkMemoryStore (ms_schedules m) (ms_occurrences m)
              (<[occ := MkReservation grant amount grantVersion at_]> (ms_reservations m)) (ms_stop m))
  end.
Definition Memory_ReleaseReservation (occ : string) m : MemoryStore :=
  MkMemoryStore (ms_schedules m) (ms_occurrences m) (delete occ (ms_reservations m)) (ms_stop m).
Definition Memory_Emergency m : EmergencyStop := ms_stop m.
Definition Memory_SetEmergency (s : EmergencyStop) m : result unit * MemoryStore :=
  match EmergencyStop_Validate s with
  | Err e => (Err e, m)
  | Ok _ => (Ok tt, MkMemoryStore (ms_schedules m) (ms_occurrences m) (ms_reservations m) s)
  end.
Definition fence_refused (worker : string) (fence : Z) (at_ : Time) (o : Occurrence) : bool :=
  (occ_Status o != OccurrenceClaimed) || (occ_LeaseOwner o != worker) || (occ_Fence o != fence)
  || negb (After (occ_LeaseUntil o) at_).
Definition Memory_CheckDispatchFence order (id worker : string) (fence : Z) (at_ : Time) : result (Occurrence * bool) :=
  match first_of (fun o => occ_ID o == id) order with
  | Some (_, o) => Ok (o, negb (fence_refused worker fence at_ o))
  | None => Err (errorf "occurrence not found")
  end.
End memory.

(** * The runtime *)
Record Runtime (S : Type) := MkRuntime { rt_Store : option S; rt_Now : option (nat -> Time); rt_Enabled : bool; rt_WorkerID : string }.
#[global] Arguments MkRuntime {_}.
#[global] Arguments rt_Store {_}.
#[global] Arguments rt_Now {_}.
#[global] Arguments rt_Enabled {_}.
#[global] Arguments rt_WorkerID {_}.

Section runtime.
Context `{TimeZones} {S : Type}.

Definition denied (s : Schedule) (o : Occurrence) (g : Grant) (reason : ReasonCode) : Decision :=
  MkDecision false false reason "" (sch_ID s) (occ_ID o) (grt_ID g).
(** [z.Cmp(limit) > 0] with [limit, _ = SetString(v, 10)]; [None] is the nil
    pointer a text that is no number leaves behind. *)
Definition above (z : Z) (v : string) : option bool := (fun limit => limit <? z) <$> SetString10 v.

(** [Simulate]: [None] is a nil dereference.  [now] is the clock; a nil [Now]
    is one too. *)
Definition Simulate (r : Runtime S) (s : Schedule) (o : Occurrence) (g : Grant) (p : Principal) (delegation : Delegation)
    (amount recipient token chain : string) : option (result Decision) :=
  match (do! Schedule_Validate s; do! Grant_Validate g; Principal_Validate p) with
  | Err e => Some (Err e)
  | Ok _ =>
      let deny reason := Some (Ok (denied s o g reason)) in
      if (dlg_PrincipalUserID delegation != prc_UserID p) || (dlg_AgentID delegation != prc_AgentID p)
         || (prc_UserID (sch_Principal s) != prc_UserID p) || (prc_AgentID (sch_Principal s) != prc_AgentID p)
         || (sch_GrantID s != grt_ID g) || (sch_GrantVersion s != grt_Version g)
         || (sch_DelegationID s != dlg_ID delegation) || (sch_DelegationVersion s != dlg_Version delegation)
         || (occ_ScheduleID o != sch_ID s) || (occ_ScheduleVersion o != sch_Version s)
         || (occ_GrantID o != grt_ID g) || (occ_GrantVersion o != grt_Version g)
      then deny ReasonGrantDenied else
      match rt_Now r with
      | None => None
      | Some now =>
          if negb (is_ok (Delegation_Validate delegation (now 0%nat) (spc_Intent (sch_Spec s)))) then deny ReasonDelegationDenied
          else if negb (rt_Enabled r) then deny ReasonRuntimeDisabled
          else if sch_Status s != ScheduleActive then deny ReasonSchedulePaused
          else if negb (Grant_Active g (now 1%nat)) || (grt_PrincipalUserID g != prc_UserID p)
                  || (grt_WalletBindingID g != sch_WalletBindingID s)
                  || ((grt_ScheduleID g != "") && (grt_ScheduleID g != sch_ID s)) then deny ReasonGrantDenied
          else if negb (allowed (grt_AllowedRecipients g) recipient) || negb (allowed (grt_AllowedTokens g) token)
                  || negb (allowed (grt_AllowedChains g) chain) then deny ReasonGrantDenied
          else if negb (positive_limit amount) then Some (Err (errorf "amount must be positive base units"))
          else
            let z := amount_of amount in
            match (if grt_PerActionBaseUnits g != "" then above z (grt_PerActionBaseUnits g) else Some false) with
            | None => None
            | Some true => deny ReasonGrantDenied
            | Some false =>
                match (if grt_StepUpAboveBaseUnits g != "" then above z (grt_StepUpAboveBaseUnits g) else Some false) with
                | None => None
                | Some true => Some (Ok (MkDecision false true ReasonStepUp "" (sch_ID s) (occ_ID o) (grt_ID g)))
                | Some false =>
                    Some (Ok (MkDecision true false ReasonEligible (grt_AggregateCapBaseUnits g) (sch_ID s) (occ_ID o) (grt_ID g)))
                end
            end
      end
  end.

Context `{DispatchStore S}.

Definition runtime_validate (r : Runtime S) : result (S * (nat -> Time)) :=
  match rt_Store r, rt_Now r with
  | Some store, Some now => do! fail_if (rt_WorkerID r == "") (errorf "autonomy runtime dependencies are required"); Ok (store, now)
  | _, _ => Err (errorf "autonomy runtime dependencies are required")
  end.

(** [BeforeDispatch]: the reason and the error, as the code returns both. *)
Definition BeforeDispatch (r : Runtime S) (g : DispatchGuard) (s : Schedule) (grant : Grant) (p : Principal) (d : Delegation)
  : ReasonCode * option error :=
  match runtime_validate r with
  | Err e => ("", Some e)
  | Ok (store, now) =>
      match store_Emergency store with
      | Err e => ("", Some e)
      | Ok stop =>
          let recorded := es_Active stop || (es_Scope stop != "") || (es_Actor stop != "") || (es_Reason stop != "")
                          || negb (IsZero (es_ChangedAt stop)) in
          match (if recorded then err_of (EmergencyStop_Validate stop) else None) with
          | Some e => (ReasonEmergencyStop, Some e)
          | None =>
          if es_Active stop then (ReasonEmergencyStop, None)
          else if negb (rt_Enabled r) then (ReasonRuntimeDisabled, None)
          else if sch_Status s != ScheduleActive then (ReasonSchedulePaused, None)
          else if (sch_GrantID s != grt_ID grant) || (sch_GrantVersion s != grt_Version grant)
                  || (dg_GrantID g != grt_ID grant) || (dg_GrantVersion g != grt_Version grant)
                  || (dg_ScheduleID g != sch_ID s) || (dg_ScheduleVersion g != sch_Version s) then (ReasonGrantDenied, None)
          else if negb (Grant_Active grant (now 0%nat)) || (grt_PrincipalUserID grant != prc_UserID p)
                  || (grt_WalletBindingID grant != sch_WalletBindingID s)
                  || ((grt_ScheduleID grant != "") && (grt_ScheduleID grant != sch_ID s)) then (ReasonGrantDenied, None)
          else if (dlg_PrincipalUserID d != prc_UserID p) || (dlg_AgentID d != prc_AgentID p)
                  || (prc_UserID (sch_Principal s) != prc_UserID p) || (prc_AgentID (sch_Principal s) != prc_AgentID p)
                  || (dg_PrincipalUserID g != prc_UserID p) || (dg_AgentID g != prc_AgentID p)
                  || (dg_DelegationID g != dlg_ID d) || (dg_DelegationVersion g != dlg_Version d)
                  || (sch_DelegationID s != dlg_ID d) || (sch_DelegationVersion s != dlg_Version d) then (ReasonDelegationDenied, None)
          else if negb (is_ok (Delegation_Validate d (now 1%nat) (spc_Intent (sch_Spec s)))) then (ReasonDelegationDenied, None)
          else if (dg_OccurrenceID g == "") || (dg_LeaseOwner g == "") then (ReasonGrantDenied, None)
          else match store_CheckDispatchFence store (dg_OccurrenceID g) (dg_LeaseOwner g) (dg_Fence g) (now 2%nat) with
               | Err e => ("", Some e)
               | Ok (occurrence, valid) =>
                   if negb valid then (ReasonGrantDenied, None)
                   else if (occ_GrantID occurrence != grt_ID grant) || (occ_GrantVersion occurrence != grt_Version grant)
                           || (occ_ScheduleID occurrence != sch_ID s) || (occ_ScheduleVersion occurrence != sch_Version s)
                   then (ReasonGrantDenied, None)
                   else (ReasonEligible, None)
               end
          end
      end
  end.
End runtime.

(** * The scheduler *)
Record Scheduler := MkScheduler { sdl_Store : bool; sdl_Now : bool; sdl_WorkerID : string; sdl_Lease : Duration; sdl_MaxMissed : Z }.
Definition Scheduler_Validate (s : Scheduler) : result unit :=
  do! fail_if (negb (sdl_Store s) || negb (sdl_Now s) || (sdl_WorkerID s == "") || (sdl_Lease s <=? 0))
        (errorf "scheduler configuration is invalid");
  fail_if ((sdl_MaxMissed s <? 1) || (100 <? sdl_MaxMissed s)) (errorf "missed-run bound is invalid").

Section scheduler.
Context `{TimeZones}.
(** [created] is [time.Now()]. *)
Definition Materialize (s : Scheduler) (schedule : Schedule) (at_ created : Time) (m : MemoryStore)
  : result Occurrence * MemoryStore :=
  match (do! Scheduler_Validate s; Schedule_Validate schedule) with
  | Err e => (Err e, m)
  | Ok _ =>
      let o := NewOccurrence schedule at_ created in
      let '(r, m') := Memory_SaveOccurrence o m in
      match r with Err e => (Err e, m') | Ok _ => (Ok o, m') end
  end.
Definition Scheduler_Claim (s : Scheduler) (order : list (string * Occurrence)) (now : Time) (m : MemoryStore)
  : result (option Occurrence) * MemoryStore :=
  match Scheduler_Validate s with
  | Err e => (Err e, m)
  | Ok _ => let '(o, m') := Memory_ClaimDue order (UTC now) (sdl_WorkerID s) (sdl_Lease s) m in (Ok o, m')
  end.

(** [for len(result) < max]; [None] while [Next] runs. *)
Fixpoint missed_loop (fuel turns : nat) (r : Recurrence) (now cursor : Time) (result : list Time) : option (list Time) :=
  match turns with
  | O => Some result
  | Datatypes.S turns =>
      match Next fuel r cursor with
      | None => None
      | Some None => Some result
      | Some (Some next) => if After next now then Some result else missed_loop fuel turns r now next (app result [next])
      end
  end.
Definition MissedInstants (fuel : nat) (spec : ScheduleSpec) (from now : Time) (max : Z) : option (result (list Time)) :=
  match (do! ScheduleSpec_Validate spec; fail_if (max <? 1) (errorf "missed-run bound is required")) with
  | Err e => Some (Err e)
  | Ok _ =>
      if spc_Missed spec == MissedSkip then Some (Ok [])
      else (fun instants => Ok (match last instants with Some t => [t] | None => [] end)) <$>
             missed_loop fuel (Z.to_nat max) (spc_Recurrence spec) now (Add from (- Nanosecond)) []
  end.
End scheduler.

(** What the gate before a dispatch lets through (autonomy/runtime.go), against
    the interface of its store, and that the in-memory store keeps the
    interface's promise. *)

(** * The in-memory store *)
Section memory_store.
(** The order of a loop over the occurrences. *)
Context (iteration : gmap string Occurrence -> list (string * Occurrence)).

Definition memory_dispatch_store : DispatchStore MemoryStore := {|
  store_Emergency m := Ok (Memory_Emergency m);
  store_CheckDispatchFence m id worker fence at_ :=
    Memory_CheckDispatchFence (iteration (ms_occurrences m)) id worker fence at_;
  holds m id worker fence at_ o :=
    (exists key, ms_occurrences m !! key = Some o) /\ occ_ID o = id /\ occ_Status o = OccurrenceClaimed /\
    occ_LeaseOwner o = worker /\ occ_Fence o = fence /\ at_ < occ_LeaseUntil o
|}.

Lemma first_of_found p order key o : first_of p order = Some (key, o) -> (key, o) ∈ order /\ p o = true.
Proof.
  unfold first_of. destruct (list_find _ _) as [[i [k' o']]|] eqn:Hf; [|done]. intros [= -> ->].
  apply list_find_Some in Hf as (Hi & Hp & _). split; [|done]. by eapply list_elem_of_lookup_2.
Qed.

Lemma memory_store_spec (Hit : forall m, iteration m ≡ₚ map_to_list m) : @DispatchStoreSpec MemoryStore memory_dispatch_store.
Proof.
  intros m id worker fence at_ o. cbn. unfold Memory_CheckDispatchFence.
  destruct (first_of _ _) as [[key o']|] eqn:Hf; [|done]. intros [= -> Hr]. apply first_of_found in Hf as [Hin Hid].
  rewrite Hit, elem_of_map_to_list in Hin. apply negb_true_iff in Hr. unfold fence_refused in Hr.
  rewrite !orb_false_iff in Hr. destruct Hr as [[[H1 H2] H3] H4]. reflect_all. split_and!; [by exists key|done..|].
  unfold After in *. apply negb_false_iff in H4. lia.
Qed.
End memory_store.

(** * The gate *)
(** Everything the gate asks for. *)
Record dispatchable (now : nat -> Time) (g : DispatchGuard) (s : Schedule) (grant : Grant) (p : Principal) (d : Delegation)
    (o : Occurrence) : Prop := {
  dp_schedule : sch_Status s = ScheduleActive /\ dg_ScheduleID g = sch_ID s /\ dg_ScheduleVersion g = sch_Version s;
  dp_grant_version : sch_GrantID s = grt_ID grant /\ sch_GrantVersion s = grt_Version grant /\
    dg_GrantID g = grt_ID grant /\ dg_GrantVersion g = grt_Version grant;
  dp_grant : Grant_Validate grant = Ok tt /\ grt_Paused grant = false /\ grt_Revoked grant = false /\
    now 0%nat < grt_ExpiresAt grant /\ grt_PrincipalUserID grant = prc_UserID p /\
    grt_WalletBindingID grant = sch_WalletBindingID s /\ (grt_ScheduleID grant = "" \/ grt_ScheduleID grant = sch_ID s);
  dp_principal : dlg_PrincipalUserID d = prc_UserID p /\ dlg_AgentID d = prc_AgentID p /\
    prc_UserID (sch_Principal s) = prc_UserID p /\ prc_AgentID (sch_Principal s) = prc_AgentID p /\
    dg_PrincipalUserID g = prc_UserID p /\ dg_AgentID g = prc_AgentID p;
  dp_delegation_version : dg_DelegationID g = dlg_ID d /\ dg_DelegationVersion g = dlg_Version d /\
    sch_DelegationID s = dlg_ID d /\ sch_DelegationVersion s = dlg_Version d;
  dp_delegation : Delegation_ValidateStructure d = Ok tt /\ dlg_Revoked d = false /\ now 1%nat < dlg_ExpiresAt d /\
    spc_Intent (sch_Spec s) ∈ dlg_Capabilities d;
  dp_guard : dg_OccurrenceID g <> "" /\ dg_LeaseOwner g <> "";
  dp_occurrence : occ_GrantID o = grt_ID grant /\ occ_GrantVersion o = grt_Version grant /\
    occ_ScheduleID o = sch_ID s /\ occ_ScheduleVersion o = sch_Version s
}.
(** No emergency stop was recorded, or a well-formed inactive one. *)
Definition not_stopped (stop : EmergencyStop) : Prop :=
  es_Active stop = false /\ (stop = no_stop \/ EmergencyStop_Validate stop = Ok tt).

Lemma Grant_Active_iff g at_ : Grant_Active g at_ = true <->
  Grant_Validate g = Ok tt /\ grt_Paused g = false /\ grt_Revoked g = false /\ at_ < grt_ExpiresAt g.
Proof.
  unfold Grant_Active, Before. rewrite !andb_true_iff, !negb_true_iff, Z.ltb_lt, is_ok_true.
  split; [intros [[[[[] ?] ?] ?] ?]|intros (? & ? & ? & ?)]; eauto 10.
Qed.
Lemma Delegation_Validate_iff d at_ intent : Delegation_Validate d at_ intent = Ok tt <->
  Delegation_ValidateStructure d = Ok tt /\ dlg_Revoked d = false /\ at_ < dlg_ExpiresAt d /\ intent ∈ dlg_Capabilities d.
Proof.
  unfold Delegation_Validate, Before. destruct (Delegation_ValidateStructure d) as [[]|]; cbn [rbind]; [|naive_solver].
  destruct (dlg_Revoked d); cbn [orb fail_if rbind]; [naive_solver|].
  destruct (Z.ltb_spec at_ (dlg_ExpiresAt d)); cbn [negb fail_if rbind]; [|split; [done|lia || (intros (_ & _ & ? & _); lia)]].
  rewrite fail_if_ok, negb_false_iff, bool_decide_eq_true. naive_solver.
Qed.
Lemma not_stopped_recorded stop :
  (let recorded := es_Active stop || (es_Scope stop != "") || (es_Actor stop != "") || (es_Reason stop != "")
                   || negb (IsZero (es_ChangedAt stop)) in
   (if recorded then err_of (EmergencyStop_Validate stop) else None) = None) /\ es_Active stop = false <-> not_stopped stop.
Proof.
  cbn zeta. unfold not_stopped. split.
  - intros [Hr Ha]. split; [done|]. destruct (_ || _) eqn:E.
    + right. apply err_of_none in Hr as [[] Hr]. done.
    + left. rewrite !orb_false_iff, negb_false_iff in E. destruct E as [[[[_ H1] H2] H3] H4]. reflect_all.
      destruct stop; cbn in *. unfold IsZero in H4. apply Z.eqb_eq in H4. by subst.
  - intros [Ha [->|Hv]]; (split; [|done]); [done|]. rewrite Hv. by destruct (_ || _).
Qed.

Section gate.
Context `{TimeZones} {S : Type} `{DispatchStore S}.

Lemma unless (b : bool) reason k : reason <> ReasonEligible ->
  (if b then (reason, None) else k) = (ReasonEligible, @None error) <-> b = false /\ k = (ReasonEligible, None).
Proof. intros Hne. destruct b; [|tauto]. split; [intros [= E]; by destruct (Hne E)|by intros []]. Qed.

(** The gate after its dependencies and the emergency stop. *)
Lemma dispatchable_iff now g s grant p d o :
  dispatchable now g s grant p d o <->
  (sch_Status s != ScheduleActive) = false /\
  ((sch_GrantID s != grt_ID grant) || (sch_GrantVersion s != grt_Version grant)
   || (dg_GrantID g != grt_ID grant) || (dg_GrantVersion g != grt_Version grant)
   || (dg_ScheduleID g != sch_ID s) || (dg_ScheduleVersion g != sch_Version s)) = false /\
  (negb (Grant_Active grant (now 0%nat)) || (grt_PrincipalUserID grant != prc_UserID p)
   || (grt_WalletBindingID grant != sch_WalletBindingID s)
   || ((grt_ScheduleID grant != "") && (grt_ScheduleID grant != sch_ID s))) = false /\
  ((dlg_PrincipalUserID d != prc_UserID p) || (dlg_AgentID d != prc_AgentID p)
   || (prc_UserID (sch_Principal s) != prc_UserID p) || (prc_AgentID (sch_Principal s) != prc_AgentID p)
   || (dg_PrincipalUserID g != prc_UserID p) || (dg_AgentID g != prc_AgentID p)
   || (dg_DelegationID g != dlg_ID d) || (dg_DelegationVersion g != dlg_Version d)
   || (sch_DelegationID s != dlg_ID d) || (sch_DelegationVersion s != dlg_Version d)) = false /\
  negb (is_ok (Delegation_Validate d (now 1%nat) (spc_Intent (sch_Spec s)))) = false /\
  ((dg_OccurrenceID g == "") || (dg_LeaseOwner g == "")) = false /\
  ((occ_GrantID o != grt_ID grant) || (occ_GrantVersion o != grt_Version grant)
   || (occ_ScheduleID o != sch_ID s) || (occ_ScheduleVersion o != sch_Version s)) = false.
Proof.
  rewrite !orb_false_iff, !negb_false_iff, andb_false_iff, Grant_Active_iff, is_ok_true, !bool_decide_eq_true, !bool_decide_eq_false.
  assert ((exists a, Delegation_Validate d (now 1%nat) (spc_Intent (sch_Spec s)) = Ok a) <->
          Delegation_Validate d (now 1%nat) (spc_Intent (sch_Spec s)) = Ok tt) as ->.
  { split; [intros [[] ?]; done|eauto]. }
  rewrite Delegation_Validate_iff, !negb_false_iff, !bool_decide_eq_true.
  split; [intros []|intros]; [tauto|split; tauto].
Qed.

(** [C34] The last gate before a dispatch is exact and fails closed: it answers
    ELIGIBLE, with no error, if and only if the runtime is configured and
    enabled, no emergency stop is in force, and the schedule is active, the
    guard, the schedule, the grant and the delegation name each other with
    their versions and belong to the same user and agent, the grant is valid,
    neither paused nor revoked nor expired, and for the schedule's wallet, the
    delegation is valid, unexpired and for the schedule's intent type, and the
    store finds the guard's occurrence, of this schedule and grant, under the
    guard's lease and fence.  Schedule, grant and delegation are the ones given;
    the occurrence and the emergency stop are read anew, and no amount is looked
    at.  With a store that keeps its promise the lease is then held by the
    guard's worker with its fencing token. *)
Theorem dispatch_gate_exact (r : Runtime S) (g : DispatchGuard) (s : Schedule) (grant : Grant) (p : Principal) (d : Delegation) :
  (BeforeDispatch r g s grant p d = (ReasonEligible, None) <->
   exists store now stop o, runtime_validate r = Ok (store, now) /\ rt_Enabled r = true /\
     store_Emergency store = Ok stop /\ not_stopped stop /\ dispatchable now g s grant p d o /\
     store_CheckDispatchFence store (dg_OccurrenceID g) (dg_LeaseOwner g) (dg_Fence g) (now 2%nat) = Ok (o, true)) /\
  (DispatchStoreSpec S -> BeforeDispatch r g s grant p d = (ReasonEligible, None) ->
   exists store now o, runtime_validate r = Ok (store, now) /\
     holds store (dg_OccurrenceID g) (dg_LeaseOwner g) (dg_Fence g) (now 2%nat) o /\
     occ_ScheduleID o = sch_ID s /\ occ_GrantID o = grt_ID grant).
Proof.
  assert (BeforeDispatch r g s grant p d = (ReasonEligible, None) <->
   exists store now stop o, runtime_validate r = Ok (store, now) /\ rt_Enabled r = true /\
     store_Emergency store = Ok stop /\ not_stopped stop /\ dispatchable now g s grant p d o /\
     store_CheckDispatchFence store (dg_OccurrenceID g) (dg_LeaseOwner g) (dg_Fence g) (now 2%nat) = Ok (o, true)) as Hiff.
  2: { split; [done|]. intros Hspec He. apply Hiff in He as (store & now & stop & o & Hv & _ & _ & _ & Hd & Hf).
       exists store, now, o. split_and!; [done|by apply Hspec|apply Hd|apply Hd]. }
  unfold BeforeDispatch. destruct (runtime_validate r) as [[store now]|e0]; [|by split; [intros E; discriminate E|intros (? & ? & ? & ? & E & _)]].
  destruct (store_Emergency store) as [stop|e] eqn:Hs.
  2: { split; [intros E; discriminate E|]. intros (? & ? & ? & ? & [= <- <-] & _ & Hs' & _). by rewrite Hs in Hs'. }
  pose proof (not_stopped_recorded stop) as Hstop. cbn zeta in Hstop.
  destruct (if _ || _ then _ else _) eqn:Hrec.
  { split; [by intros [=]|]. intros (? & ? & ? & ? & [= <- <-] & _ & Hs' & Hns & _). rewrite Hs in Hs'.
    injection Hs' as <-. by apply Hstop in Hns as [? _]. }
  rewrite !unless by (intros E; vm_compute in E; discriminate E).
  destruct (store_CheckDispatchFence store _ _ _ _) as [[o []]|] eqn:Hf; cbn [negb].
  - rewrite unless by (intros E; vm_compute in E; discriminate E). split.
    + intros (Ha & He & Hrest). exists store, now, stop, o. rewrite dispatchable_iff. apply negb_false_iff in He.
      assert (not_stopped stop) by (by apply Hstop). tauto.
    + intros (store' & now' & stop' & o' & [= <- <-] & He & Hs' & Hns & Hd & Hf'). rewrite Hs in Hs'. injection Hs' as <-.
      rewrite Hf in Hf'. injection Hf' as <-. rewrite dispatchable_iff in Hd. apply Hstop in Hns as [_ Ha]. rewrite He. tauto.
  - split; [intros (_ & _ & _ & _ & _ & _ & _ & _ & E); vm_compute in E; discriminate E|]. intros (? & ? & ? & ? & [= <- <-] & _ & _ & _ & _ & Hf'). by rewrite Hf in Hf'.
  - split; [intros (_ & _ & _ & _ & _ & _ & _ & _ & E); vm_compute in E; discriminate E|]. intros (? & ? & ? & ? & [= <- <-] & _ & _ & _ & _ & Hf'). by rewrite Hf in Hf'.
Qed.
End gate.

Module GateSamples.
Definition t0 : Time := of_unix 1700000000.
Definition later : Time := of_unix 1800000000.
Definition principal : Principal := MkPrincipal "tenant-1" "user-1" "agent-1".
Definition rule : Recurrence := MkRecurrence Daily t0 false zero_time 0 0 "UTC".
Definition schedule : Schedule :=
  MkSchedule "schedule-1" 1 principal "wallet-1" 3 "grant-1" 2 "delegation-1" 1 t0 t0 ScheduleActive
    (MkScheduleSpec rule MissedSkip ForbidOverlap 10 IntentPayroll "template") "sha256:0".
Definition grant : Grant :=
  MkGrant "grant-1" 2 "user-1" "wallet-1" IntentPayroll "" later false false "50" "100" "" 0 "" [] [] [].
Definition delegation : Delegation := MkDelegation "delegation-1" 1 "user-1" "agent-1" [IntentPayroll] later false true.
Definition occurrence : Occurrence := NewOccurrence schedule t0 t0.
Definition guard : DispatchGuard :=
  MkDispatchGuard (occ_ID occurrence) "schedule-1" "grant-1" "user-1" "agent-1" "delegation-1" "worker" 1 2 1 2.
(** One occurrence, saved and claimed by the worker. *)
Definition saved : MemoryStore := snd (Memory_SaveOccurrence occurrence NewMemoryStore).
Definition store : MemoryStore := snd (Memory_ClaimDue (map_to_list (ms_occurrences saved)) t0 "worker" Minute saved).
#[local] Existing Instance memory_dispatch_store.
#[local] Instance samples_store : DispatchStore MemoryStore := memory_dispatch_store map_to_list.
Definition runtime (at_ : Time) : Runtime MemoryStore := MkRuntime (Some store) (Some (fun _ => at_)) true "worker".

Example gate_answers :
  BeforeDispatch (runtime (t0 + Second)) guard schedule grant principal delegation = (ReasonEligible, None) /\
  BeforeDispatch (runtime (t0 + Minute)) guard schedule grant principal delegation = (ReasonGrantDenied, None).
Proof. vm_compute. split; reflexivity. Qed.

Lemma dispatch_gate_exact_witness :
  exists o, holds store (occ_ID occurrence) "worker" 2 (t0 + Second) o /\ occ_ScheduleID o = "schedule-1" /\ occ_GrantID o = "grant-1".
Proof.
  destruct (dispatch_gate_exact (runtime (t0 + Second)) guard schedule grant principal delegation) as [_ Hsound].
  destruct (Hsound (memory_store_spec map_to_list (fun m => reflexivity _)) (proj1 gate_answers)) as (s & now & o & Hv & Ho).
  exists o. revert Hv Ho. unfold runtime. generalize store (t0 + Second). clear. intros st at_ Hv Ho.
  injection Hv as <- <-. exact Ho.
Defined.
End GateSamples.

(** What the missed-run policies select (autonomy/scheduler.go), for rules in
    a location whose clock never changes. *)
From S2P Require Import GoTime AppErrors Autonomy Recurrence.

Section missed.
Context `{TimeZones}.

(** The rule's instants after [cursor] that are due at [now]. *)
Definition missed (o : Z) (r : Recurrence) (cursor now u : Time) : Prop :=
  occurs o r u /\ cursor < u <= now /\ before_end r u.

(** [l] lists the first missed instants in order, all of them unless it is
    [turns] long. *)
Record first_missed (o : Z) (r : Recurrence) (cursor now : Time) (turns : nat) (l : list Time) : Prop := {
  fm_bound : (length l <= turns)%nat;
  fm_sound : forall u, u ∈ l -> missed o r cursor now u;
  fm_sorted : StronglySorted Z.lt l;
  fm_complete : forall u, missed o r cursor now u -> u ∈ l \/ (length l = turns /\ forall x, x ∈ l -> x < u)
}.

Lemma missed_loop_first o r now turns cursor acc :
  Recurrence_Validate r = Ok tt -> LoadLocation (rec_Location r) = Ok (constant o) -> rec_Frequency r <> Monthly -> 0 < rec_Start r ->
  exists n l, first_missed o r cursor now turns l /\
    forall fuel, (n <= fuel)%nat -> missed_loop fuel turns r now cursor acc = Some (app acc l).
Proof.
  intros Hv Hl Hm Hs. revert cursor acc. induction turns as [|turns IH]; intros cursor acc.
  { exists 0%nat, []. split; [|intros fuel _; cbn; by rewrite app_nil_r]. split; [done|set_solver|constructor|].
    intros u _. right. split; [done|set_solver]. }
  destruct (Next_constant o r cursor Hv Hl Hm Hs) as (n & a & Hn & Ha).
  assert ((exists t, a = Some t /\ t <= now) \/ first_missed o r cursor now (S turns) [] /\
    (a = None \/ exists t, a = Some t /\ now < t)) as [(t & -> & Ht)|[Hnil Hstop]].
  { destruct a as [t|].
    - destruct (Z.le_gt_cases t now); [left; eauto|]. right. split; [|eauto].
      split; [cbn; lia|set_solver|constructor|]. intros u (Ho & Hu & _). destruct Ha as (_ & _ & _ & Hmin).
      pose proof (Hmin u Ho ltac:(lia)). lia.
    - right. split; [|by left]. split; [cbn; lia|set_solver|constructor|]. intros u (Ho & Hu & Hb).
      destruct (Ha u Ho ltac:(lia) Hb). }
  - destruct Ha as (Ho & Hc & Hb & Hmin). destruct (IH t (app acc [t])) as (n' & l & [Hlen Hsound Hsort Hall] & Hloop).
    exists (n + n')%nat, (t :: l). split.
    + split.
      * cbn. lia.
      * intros u [->|Hu]%elem_of_cons; [by repeat split|]. destruct (Hsound u Hu) as (? & ? & ?). repeat split; try done; lia.
      * constructor; [done|]. apply Forall_forall. intros u Hu. destruct (Hsound u Hu) as (_ & ? & _). lia.
      * intros u (Hou & Hu & Hbu). pose proof (Hmin u Hou ltac:(lia)).
        destruct (decide (u = t)) as [->|Hne]; [left; set_solver|].
        destruct (Hall u) as [?|[Hn' Hlt]]; [repeat split; try done; lia|left; set_solver|].
        right. split; [cbn; lia|]. intros x [->|Hx]%elem_of_cons; [lia|auto].
    + intros fuel Hle. cbn [missed_loop]. rewrite Hn by lia. unfold After. rewrite (proj2 (Z.ltb_ge _ _)) by lia.
      rewrite Hloop by lia. by rewrite <-app_assoc.
  - exists n, []. split; [done|]. intros fuel Hle. cbn [missed_loop]. rewrite Hn by done. rewrite app_nil_r.
    destruct Hstop as [->|(t & -> & Ht)]; [done|]. unfold After. by rewrite (proj2 (Z.ltb_lt _ _)).
Qed.

(** The missed-run policies: with SKIP nothing is due; with RUN_LATEST
    the call returns, and what it selects is the last of the first [max]
    instants the rule missed between [from] and [now], nothing when it missed
    none.  When at most [max] instants were missed that is the latest one; when
    more were, it is the [max]th, an instant older than the latest. *)
Theorem missed_instants_bounded (spec : ScheduleSpec) (o : Z) (from now : Time) (max : Z)
    (Hv : ScheduleSpec_Validate spec = Ok tt)
    (Hl : LoadLocation (rec_Location (spc_Recurrence spec)) = Ok (constant o))
    (Hm : rec_Frequency (spc_Recurrence spec) <> Monthly) (Hs : 0 < rec_Start (spc_Recurrence spec)) (Hmax : 1 <= max) :
  let r := spc_Recurrence spec in
  let due := missed o r (from - 1) now in
  (spc_Missed spec = MissedSkip -> forall fuel, MissedInstants fuel spec from now max = Some (Ok [])) /\
  (spc_Missed spec = MissedRunLatest -> exists n l, first_missed o r (from - 1) now (Z.to_nat max) l /\
     (forall fuel, (n <= fuel)%nat ->
        MissedInstants fuel spec from now max = Some (Ok (match last l with Some t => [t] | None => [] end))) /\
     (last l = None -> forall u, ~ due u) /\
     (forall t, last l = Some t -> due t /\
        (Z.of_nat (length l) < max -> forall u, due u -> u <= t) /\
        (forall u, due u -> t < u -> Z.of_nat (length l) = max))).
Proof.
  cbn zeta. unfold MissedInstants. rewrite Hv. cbn [rbind]. unfold fail_if. rewrite (proj2 (Z.ltb_ge _ _)) by done.
  split; intros ->; [by rewrite eqb_refl|]. change (MissedRunLatest == MissedSkip) with false. cbv iota.
  assert (Recurrence_Validate (spc_Recurrence spec) = Ok tt) as Hr.
  { unfold ScheduleSpec_Validate in Hv. by apply rbind_ok in Hv as ([] & ? & _). }
  destruct (missed_loop_first o (spc_Recurrence spec) now (Z.to_nat max) (from - 1) [] Hr Hl Hm Hs) as (n & l & Hfm & Hloop).
  exists n, l. split; [done|]. split.
  { intros fuel Hle. unfold Add, Nanosecond. replace (from + - (1)) with (from - 1) by lia. by rewrite (Hloop fuel Hle). }
  destruct Hfm as [Hlen Hsound Hsort Hall]. split.
  - rewrite last_None. intros -> u Hu. destruct (Hall u Hu) as [?|[Hn _]]; [set_solver|cbn in Hn; lia].
  - intros t Ht. apply last_Some in Ht as [l' ->]. rewrite length_app in *. cbn in *.
    assert (forall u, u ∈ l' -> u <= t) as Hle.
    { intros u [i Hi]%list_elem_of_lookup. apply StronglySorted_app in Hsort as (Hc & _ & _). apply Z.lt_le_incl, Hc; [|set_solver].
      by eapply list_elem_of_lookup_2. }
    split; [apply Hsound; set_solver|]. split.
    + intros Hlt u Hu. destruct (Hall u Hu) as [[Hin|Hin]%elem_of_app|[? _]]; [auto|set_solver|lia].
    + intros u Hu Hgt. destruct (Hall u Hu) as [[Hin|Hin]%elem_of_app|[Hn _]]; [apply Hle in Hin; lia| |lia].
      apply list_elem_of_singleton in Hin. lia.
Qed.
End missed.

Module MissedSamples.
#[local] Existing Instance RecurrenceSamples.zones.
Definition rule : Recurrence := MkRecurrence Daily (RecurrenceSamples.date 2025 1 1) false zero_time 0 0 "UTC".
Definition spec : ScheduleSpec := MkScheduleSpec rule MissedRunLatest ForbidOverlap 10 IntentPayroll "template".
Definition from : Time := RecurrenceSamples.date 2025 1 1.
Definition now : Time := RecurrenceSamples.date 2025 1 5.

Example five_missed :
  MissedInstants 10 spec from now 10 = Some (Ok [now]) /\
  MissedInstants 10 spec from now 2 = Some (Ok [RecurrenceSamples.date 2025 1 2]).
Proof. vm_compute. split; reflexivity. Qed.

Lemma missed_instants_bounded_witness :
  ScheduleSpec_Validate spec = Ok tt /\
  exists n l, first_missed 0 rule (from - 1) now 2 l /\
    forall fuel, (n <= fuel)%nat ->
      MissedInstants fuel spec from now 2 = Some (Ok (match last l with Some t => [t] | None => [] end)).
Proof.
  assert (ScheduleSpec_Validate spec = Ok tt) as Hv by (vm_compute; reflexivity). split; [exact Hv|].
  destruct (missed_instants_bounded spec 0 from now 2 Hv ltac:(reflexivity) ltac:(discriminate) ltac:(vm_compute; reflexivity)
              ltac:(discriminate)) as [_ Hlatest].
  destruct (Hlatest ltac:(reflexivity)) as (n & l & Hfm & Hfuel & _). exists n, l. split; [exact Hfm|exact Hfuel].
Defined.
End MissedSamples.
