(* ===== verification/Statements.v ===== *)
(** Repository methods as programs over a database: a tree of statements, each
    atomic, with whatever other sessions do between them and whatever becomes
    of a statement on its way to the server and back. *)
From S2P Require Import Prelude GoStrings GoTime AppErrors Storage.
Open Scope Z_scope.
Open Scope go_scope.

(** A statement fails, leaving the database alone, or answers with the next one. *)
Abbreviation statement D Y := (D -> result (Y * D)) (only parsing).

Inductive method (D A : Type) : Type :=
  | Return (a : A)
  | Execute (Y : Type) (q : statement D Y) (k : result Y -> method D A).
#[global] Arguments Return {_ _} a.
#[global] Arguments Execute {_ _ _} q k.

Fixpoint mbind {D A B} (m : method D A) (f : A -> method D B) : method D B :=
  match m with
  | Return a => f a
  | Execute q k => Execute q (fun r => mbind (k r) f)
  end.
(** [if err != nil { return ..., err }] *)
Definition mtry {D A B} (m : method D (result A)) (f : A -> method D (result B)) : method D (result B) :=
  mbind m (fun r => match r with Ok a => f a | Err e => Return (Err e) end).
Notation "'sql!' x ':=' m 'in' k" := (mtry m (fun x => k))
  (at level 10, x pattern, m at level 100, k at level 200,
   format "'[v' 'sql!'  x  ':='  m  'in' '/' k ']'") : go_scope.
Notation "'act!' m ';' k" := (mtry m (fun _ : unit => k))
  (at level 10, m at level 100, k at level 200, format "'[v' 'act!'  m ';' '/' k ']'") : go_scope.
Definition plain_code {D A} (r : result A) : method D (result A) := Return r.

(** A statement whose driver error the method maps. *)
Definition mapped_statement {D Y} (q : statement D Y) : method D (result Y) :=
  Execute q (fun r => Return (map_err mapDatabaseError r)).
(** [errors.Is(err, pgx.ErrNoRows)] tested on the driver error first. *)
Definition unless_no_rows {D Y A} (q : statement D Y) (none : result A) (some : Y -> method D (result A)) : method D (result A) :=
  Execute q (fun r => match r with
                      | Ok y => some y
                      | Err e => Return (if errors_Is e ErrNoRows then none else Err (mapDatabaseError e))
                      end).
(** [QueryRow] *)
Definition select_row {D Y} (f : D -> option Y) : statement D Y :=
  fun db => match f db with Some y => Ok (y, db) | None => Err ErrNoRows end.

(** * Running *)
(** A statement runs, or is lost on its way to the server, or its answer is
    lost on the way back. *)
Inductive fate : Type := Arrives | Refused (e : error) | ReplyLost (e : error).
(** What happens around one statement: [before] is the work of other sessions
    since the previous one. *)
Record turn (D : Type) := MkTurn { before : D -> D; outcome_of : fate }.
#[global] Arguments MkTurn {_} _ _.
#[global] Arguments before {_} _ _.
#[global] Arguments outcome_of {_} _.
Definition quiet {D} : turn D := MkTurn id Arrives.

Definition attempt {D Y} (q : statement D Y) (f : fate) (db : D) : result Y * D :=
  match f with
  | Arrives => match q db with Ok (y, db) => (Ok y, db) | Err e => (Err e, db) end
  | Refused e => (Err e, db)
  | ReplyLost e => (Err e, match q db with Ok (_, db) => db | Err _ => db end)
  end.

(** Turns past the end of the list are quiet. *)
Fixpoint run {D A} (m : method D A) (turns : list (turn D)) (db : D) : A * D :=
  match m with
  | Return a => (a, db)
  | Execute q k =>
      let t := default quiet (head turns) in
      let '(r, db) := attempt q (outcome_of t) (before t db) in
      run (k r) (tail turns) db
  end.
Definition run_alone {D A} (m : method D A) (db : D) : A * D := run m [] db.

Lemma run_alone_mbind {D A B} (m : method D A) (f : A -> method D B) db :
  run_alone (mbind m f) db = let '(a, db') := run_alone m db in run_alone (f a) db'.
Proof.
  unfold run_alone. revert db. induction m as [a|Y q k IH]; intros db; cbn; [done|]. destruct (q db) as [[y db']|e]; apply IH.
Qed.
Lemma run_alone_mtry {D A B} (m : method D (result A)) (f : A -> method D (result B)) db :
  run_alone (mtry m f) db = match run_alone m db with (Ok a, db') => run_alone (f a) db' | (Err e, db') => (Err e, db') end.
Proof. unfold mtry. rewrite run_alone_mbind. by destruct (run_alone m db) as [[a|e] db']. Qed.

(** A component's database as a part of a larger one. *)
Fixpoint zoom {D E A} (get : E -> D) (put : D -> E -> E) (m : method D A) : method E A :=
  match m with
  | Return a => Return a
  | Execute q k =>
      Execute (fun e => match q (get e) with Ok (y, db) => Ok (y, put db e) | Err x => Err x end)
        (fun r => zoom get put (k r))
  end.

(** * What a method returns *)
(** Every answer of the method satisfies [Q], whatever its statements answer. *)
Fixpoint returns {D A} (m : method D A) (Q : A -> Prop) : Prop :=
  match m with
  | Return a => Q a
  | Execute q k => forall r, returns (k r) Q
  end.
(** Its values do; it may fail. *)
Definition yields {D A} (m : method D (result A)) (Q : A -> Prop) : Prop :=
  returns m (fun r => forall a, r = Ok a -> Q a).

Lemma returns_impl {D A} (m : method D A) (P Q : A -> Prop) : (forall a, P a -> Q a) -> returns m P -> returns m Q.
Proof. intros Hi. induction m as [a|Y q k IH]; cbn; eauto. Qed.
Lemma returns_mbind {D A B} (m : method D A) (f : A -> method D B) (P : A -> Prop) Q :
  returns m P -> (forall a, P a -> returns (f a) Q) -> returns (mbind m f) Q.
Proof. induction m as [a|Y q k IH]; cbn; eauto. Qed.
Lemma returns_any {D A} (m : method D A) (Q : A -> Prop) : (forall a, Q a) -> returns m Q.
Proof. intros HQ. induction m; cbn; auto. Qed.
Lemma yields_mtry {D A B} (m : method D (result A)) (f : A -> method D (result B)) (P : A -> Prop) Q :
  yields m P -> (forall a, P a -> yields (f a) Q) -> yields (mtry m f) Q.
Proof. intros Hm Hf. eapply returns_mbind; [exact Hm|]. intros [a|e] Ha; [by apply Hf, Ha|done]. Qed.
(** Nothing is known of the step's value. *)
Lemma yields_step {D A B} (m : method D (result A)) (f : A -> method D (result B)) Q :
  (forall a, yields (f a) Q) -> yields (mtry m f) Q.
Proof. intros Hf. apply (yields_mtry m f (fun _ => True)); [by apply returns_any|auto]. Qed.
Lemma yields_plain {D A B} (r : result A) (f : A -> method D (result B)) Q :
  (forall a, r = Ok a -> yields (f a) Q) -> yields (mtry (plain_code r) f) Q.
Proof. intros Hf. destruct r; cbn; [by apply Hf|done]. Qed.
Lemma yields_return {D A} (r : result A) (Q : A -> Prop) : (forall a, r = Ok a -> Q a) -> yields (D := D) (Return r) Q.
Proof. done. Qed.
Lemma yields_unless {D Y A} (q : statement D Y) (none : result A) some (Q : A -> Prop) :
  (forall a, none = Ok a -> Q a) -> (forall y, yields (some y) Q) -> yields (unless_no_rows q none some) Q.
Proof.
  intros Hn Hs [y|e]; [apply Hs|]. intros a. destruct (errors_Is e ErrNoRows); [apply Hn|done].
Qed.
Lemma returns_zoom {D E A} (get : E -> D) put (m : method D A) Q : returns m Q -> returns (zoom get put m) Q.
Proof. induction m as [a|Y q k IH]; cbn; auto. Qed.
Lemma run_returns {D A} (m : method D A) (Q : A -> Prop) turns db : returns m Q -> Q (fst (run m turns db)).
Proof.
  revert turns db. induction m as [a|Y q k IH]; intros turns db; cbn; [done|]. intros Hr. destruct (attempt _ _ _). by apply IH.
Qed.

(** * Invariants *)
(** Every statement of a method keeps [R], a relation of the database before
    and after. *)
Fixpoint keeps {D A} (R : D -> D -> Prop) (m : method D A) : Prop :=
  match m with
  | Return _ => True
  | Execute q k => (forall db y db', q db = Ok (y, db') -> R db db') /\ forall r, keeps R (k r)
  end.

Section keeps.
Context {D : Type} (R : relation D) `{!PreOrder R}.

Lemma keeps_mbind {A B} (m : method D A) (f : A -> method D B) :
  keeps R m -> (forall a, keeps R (f a)) -> keeps R (mbind m f).
Proof. intros Hm Hf. induction m as [a|Y q k IH]; cbn in *; [done|]. destruct Hm as [Hq Hk]. split; auto. Qed.
Lemma keeps_mtry {A B} (m : method D (result A)) (f : A -> method D (result B)) :
  keeps R m -> (forall a, keeps R (f a)) -> keeps R (mtry m f).
Proof. intros Hm Hf. apply keeps_mbind; [done|]. intros [a|e]; cbn; auto. Qed.

Definition keeps_statement {Y} (q : statement D Y) : Prop := forall db y db', q db = Ok (y, db') -> R db db'.
Lemma keeps_plain {A} (r : result A) : keeps R (plain_code r).
Proof. done. Qed.
Lemma keeps_mapped {Y} (q : statement D Y) : keeps_statement q -> keeps R (mapped_statement q).
Proof. by split. Qed.
Lemma keeps_unless {Y A} (q : statement D Y) (none : result A) some :
  keeps_statement q -> (forall y, keeps R (some y)) -> keeps R (unless_no_rows q none some).
Proof. intros Hq Hs. split; [done|]. intros [y|e]; [apply Hs|done]. Qed.
Lemma keeps_select {Y} (f : D -> option Y) : keeps_statement (select_row f).
Proof. intros db y db'. unfold select_row. destruct (f db); [|done]. intros [= _ <-]. reflexivity. Qed.

Lemma keeps_select_after {X Y} (m : result X) (f : X -> D -> option Y) :
  keeps_statement (fun db => let! x := m in select_row (f x) db).
Proof. intros db y db' Hq. apply rbind_ok in Hq as (x & _ & Hq). by eapply keeps_select. Qed.

Lemma attempt_keeps {Y} (q : statement D Y) f db :
  keeps_statement q -> R db (snd (attempt q f db)).
Proof. intros Hq. unfold attempt. destruct f; [|reflexivity|]; destruct (q db) as [[y db']|] eqn:E; cbn; try reflexivity; by eapply Hq. Qed.

(** Whatever the faults, a run goes through [R], as long as the other sessions do. *)
Lemma run_keeps {A} (m : method D A) turns db :
  keeps R m -> Forall (fun t => forall db, R db (before t db)) turns -> R db (snd (run m turns db)).
Proof.
  revert turns db. induction m as [a|Y q k IH]; intros turns db; cbn [run keeps]; [reflexivity|].
  intros [Hq Hk] Ht. set (t := default quiet (head turns)).
  assert (R db (before t db)) as H1 by (destruct turns; cbn; [reflexivity|by inversion Ht]).
  pose proof (attempt_keeps q (outcome_of t) (before t db) Hq) as H2.
  destruct (attempt q (outcome_of t) (before t db)) as [r db']. cbn in H2.
  rewrite H1, H2. apply IH; [done|]. destruct turns; cbn; [done|by inversion Ht].
Qed.
End keeps.

Lemma keeps_impl {D A} (R R' : relation D) (m : method D A) : (forall x y, R x y -> R' x y) -> keeps R m -> keeps R' m.
Proof. intros Hi. induction m as [a|Y q k IH]; cbn; [done|]. intros [Hq Hk]. split; [eauto|intros r; by apply IH]. Qed.

Create HintDb keeps discriminated.
#[export] Hint Resolve keeps_select : keeps.
(** Takes a method apart down to its statements. *)
Ltac keeps_tac :=
  repeat (intros; first
    [ match goal with |- keeps _ (Return _) => exact I | |- True => exact I end
    | apply keeps_plain
    | apply keeps_mtry
    | apply keeps_mbind
    | apply keeps_mapped
    | apply keeps_unless
    | apply keeps_select; exact _
    | apply keeps_select_after; exact _
    | solve [auto with keeps]
    | match goal with |- keeps _ (match ?x with _ => _ end) => destruct x end ]).

(** * What a method has seen *)
(** The databases as the statements of a run found them, in order. *)
Fixpoint seen {D A} (m : method D A) (turns : list (turn D)) (db : D) : list D :=
  match m with
  | Return _ => []
  | Execute q k =>
      let t := default quiet (head turns) in
      let '(r, db') := attempt q (outcome_of t) (before t db) in
      before t db :: seen (k r) (tail turns) db'
  end.

(** Every answer, with what was seen until then, satisfies [Q]; [h] was seen
    before.  A value answers the statement that found it. *)
Fixpoint learns {D A} (m : method D A) (Q : A -> list D -> Prop) (h : list D) : Prop :=
  match m with
  | Return a => Q a h
  | Execute q k => forall d, (forall y d', q d = Ok (y, d') -> learns (k (Ok y)) Q (h ++ [d])) /\
                             (forall e, learns (k (Err e)) Q (h ++ [d]))
  end.
(** Some database that was seen satisfies [F]. *)
Abbreviation noticed F h := (Exists F h).

Section learns.
Context {D : Type}.

Lemma run_learns {A} (m : method D A) Q turns db h : learns m Q h -> Q (fst (run m turns db)) (h ++ seen m turns db).
Proof.
  revert turns db h. induction m as [a|Y q k IH]; intros turns db h; cbn; [by rewrite app_nil_r|]. intros Hm.
  set (t := default quiet (head turns)). destruct (Hm (before t db)) as [Hok Herr].
  assert (exists r d', attempt q (outcome_of t) (before t db) = (r, d') /\ learns (k r) Q (h ++ [before t db])) as (r & d' & -> & Hl).
  { unfold attempt. destruct (outcome_of t); [destruct (q (before t db)) as [[y d']|e] eqn:Eq| |]; eauto. }
  replace (h ++ before t db :: seen (k r) (tail turns) d') with ((h ++ [before t db]) ++ seen (k r) (tail turns) d')
    by by rewrite <-app_assoc.
  by apply IH.
Qed.
Lemma learns_impl {A} (m : method D A) (P Q : A -> list D -> Prop) h :
  (forall a h', P a h' -> Q a h') -> learns m P h -> learns m Q h.
Proof.
  intros Hi. revert h. induction m as [a|Y q k IH]; intros h; cbn; [auto|]. intros Hm d. destruct (Hm d) as [Hok Herr].
  split; [intros y d' Hq; eauto|eauto].
Qed.
(** What was seen stays seen. *)
Lemma learns_mbind {A B} (m : method D A) (f : A -> method D B) P Q h :
  learns m P h -> (forall a h', h `prefix_of` h' -> P a h' -> learns (f a) Q h') -> learns (mbind m f) Q h.
Proof.
  assert (forall h0, h `prefix_of` h0 -> learns m P h0 -> (forall a h', h `prefix_of` h' -> P a h' -> learns (f a) Q h') ->
    learns (mbind m f) Q h0) as Hgen; [|by apply Hgen].
  induction m as [a|Y q k IH]; intros h0 Hp; cbn; [auto|]. intros Hm Hf d. destruct (Hm d) as [Hok Herr].
  assert (h `prefix_of` h0 ++ [d]) by by apply prefix_app_r. split; [intros y d' Hq|]; eauto.
Qed.
Lemma learns_any {A} (m : method D A) (Q : A -> list D -> Prop) h : (forall a h', Q a h') -> learns m Q h.
Proof. intros HQ. revert h. induction m; intros h; cbn; auto. Qed.
Lemma seen_prefix {E} (f : D -> E) h h' : h `prefix_of` h' -> f <$> h `prefix_of` f <$> h'.
Proof. intros [l ->]. rewrite fmap_app. by exists (f <$> l). Qed.
Lemma noticed_later (F : D -> Prop) h h' : h `prefix_of` h' -> noticed F h -> noticed F h'.
Proof. intros [l ->] Hn. apply Exists_app. by left. Qed.

(** [finds m F]: a value is only answered when [F] held of a database seen. *)
Definition finds {A} (m : method D (result A)) (F : A -> D -> Prop) : Prop :=
  forall h, learns m (fun r h' => forall a, r = Ok a -> noticed (F a) h') h.
(** [Q] of the values and what was seen. *)
Definition told {A} (Q : A -> list D -> Prop) : result A -> list D -> Prop := fun r h => forall a, r = Ok a -> Q a h.

Lemma learns_mtry {A B} (m : method D (result A)) (f : A -> method D (result B)) (P : A -> list D -> Prop) Q h :
  learns m (told P) h -> (forall a h', h `prefix_of` h' -> P a h' -> learns (f a) (told Q) h') -> learns (mtry m f) (told Q) h.
Proof. intros Hm Hf. eapply learns_mbind; [exact Hm|]. intros [a|e] h' Hp Ha; [by apply Hf, Ha|done]. Qed.
Lemma learns_finds {A B} (m : method D (result A)) (f : A -> method D (result B)) (F : A -> D -> Prop) Q h :
  finds m F -> (forall a h', h `prefix_of` h' -> noticed (F a) h' -> learns (f a) (told Q) h') -> learns (mtry m f) (told Q) h.
Proof. intros Hm. apply learns_mtry, Hm. Qed.
Lemma learns_plain {A B} (r : result A) (f : A -> method D (result B)) Q h :
  (forall a, r = Ok a -> learns (f a) (told Q) h) -> learns (mtry (plain_code r) f) (told Q) h.
Proof. intros Hf. destruct r; cbn; [by apply Hf|done]. Qed.
Lemma learns_step {A B} (m : method D (result A)) (f : A -> method D (result B)) Q h :
  (forall a h', h `prefix_of` h' -> learns (f a) (told Q) h') -> learns (mtry m f) (told Q) h.
Proof.
  intros Hf. eapply (learns_mbind _ _ (fun _ _ => True)); [by apply learns_any|]. intros [a|e] h' Hp _; [by apply Hf|done].
Qed.

Lemma finds_unless {Y A} (q : statement D Y) (none : error) (restore : Y -> result A) :
  finds (unless_no_rows q (Err none) (fun y => plain_code (restore y))) (fun a d => exists y d', q d = Ok (y, d') /\ restore y = Ok a).
Proof.
  intros h d. split.
  - intros y d' Hq. cbn. intros a Ha. apply Exists_app. right. constructor. eauto.
  - intros e. cbn. intros a. by destruct (errors_Is e ErrNoRows).
Qed.
Lemma finds_plain {A B} (r : result A) (f : A -> method D (result B)) F :
  (forall a, r = Ok a -> finds (f a) F) -> finds (mtry (plain_code r) f) F.
Proof. intros Hf h. apply learns_plain. intros a Ha. by apply Hf. Qed.
Lemma finds_impl {A} (m : method D (result A)) (F G : A -> D -> Prop) : (forall a d, F a d -> G a d) -> finds m F -> finds m G.
Proof. intros Hi Hm h. eapply learns_impl, Hm. intros r h' Hr a Ha. eapply Exists_impl; [by apply Hr|auto]. Qed.
End learns.
Lemma learns_zoom {D E A} (get : E -> D) put (m : method D A) (Q : A -> list D -> Prop) h :
  learns m Q (get <$> h) -> learns (zoom get put m) (fun a h' => Q a (get <$> h')) h.
Proof.
  revert h. induction m as [a|Y q k IH]; intros h; cbn; [done|]. intros Hm e. destruct (Hm (get e)) as [Hok Herr].
  split; [intros y e' Hq|intros x]; apply IH; rewrite fmap_app.
  - destruct (q (get e)) as [[y' d]|] eqn:Eq; [|done]. injection Hq as <- <-. by eapply Hok.
  - apply Herr.
Qed.
Lemma finds_zoom {D E A} (get : E -> D) put (m : method D (result A)) F :
  finds m F -> finds (zoom get put m) (fun a e => F a (get e)).
Proof.
  intros Hm h. eapply learns_impl; [|apply (learns_zoom get put m), Hm]. cbn. intros r h' Hr a Ha.
  apply Hr in Ha as (d & (e & -> & He)%list_elem_of_fmap & Hd)%Exists_exists. apply Exists_exists. by exists e.
Qed.
