(* ===== verification/Sessions.v ===== *)
(** Many sessions over one database: what a method may rely on between two of
    its statements, what each of its statements guarantees to the others, and
    the system of any number of methods interleaved statement by statement. *)
From S2P Require Import Prelude GoStrings GoTime AppErrors Storage Statements.
Open Scope Z_scope.
Open Scope go_scope.

(** * One method among others *)
(** [safe R m Q db]: from the database [db], while the others move it along
    [R], every statement of [m] moves it along [R] as well, whatever becomes of
    the statement on its way, and the answer satisfies [Q]. *)
Fixpoint safe {D A} (R : relation D) (m : method D A) (Q : A -> D -> Prop) (db : D) : Prop :=
  match m with
  | Return a => Q a db
  | Execute q k => forall db1, R db db1 ->
      (forall e, safe R (k (Err e)) Q db1) /\
      forall y db2, q db1 = Ok (y, db2) ->
        R db1 db2 /\ safe R (k (Ok y)) Q db2 /\ forall e, safe R (k (Err e)) Q db2
  end.

Section safe.
Context {D : Type} (R : relation D) `{!PreOrder R}.

Lemma safe_impl {A} (m : method D A) (P Q : A -> D -> Prop) db :
  (forall a db', P a db' -> Q a db') -> safe R m P db -> safe R m Q db.
Proof.
  intros Hi. revert db. induction m as [a|Y q k IH]; intros db; cbn; [apply Hi|].
  intros Hs db1 H1. destruct (Hs db1 H1) as [He Ho]. split; [intros e; apply IH, He|].
  intros y db2 Hq. destruct (Ho y db2 Hq) as (HR & Hy & Hl). split_and!; [done|by apply IH|intros e; apply IH, Hl].
Qed.
Lemma safe_mbind {A B} (m : method D A) (f : A -> method D B) (Q : B -> D -> Prop) db :
  safe R m (fun a db' => safe R (f a) Q db') db -> safe R (mbind m f) Q db.
Proof.
  revert db. induction m as [a|Y q k IH]; intros db; cbn; [done|].
  intros Hs db1 H1. destruct (Hs db1 H1) as [He Ho]. split; [intros e; apply IH, He|].
  intros y db2 Hq. destruct (Ho y db2 Hq) as (HR & Hy & Hl). split_and!; [done|by apply IH|intros e; apply IH, Hl].
Qed.
(** What was safe stays so as the others go on, for answers that do not spoil. *)
Lemma safe_later {A} (m : method D A) (Q : A -> D -> Prop) db db' :
  (forall a d d', R d d' -> Q a d -> Q a d') -> R db db' -> safe R m Q db -> safe R m Q db'.
Proof.
  intros HQ HR. destruct m as [a|Y q k]; cbn; [by apply HQ|]. intros Hs db1 H1. apply Hs. by etransitivity.
Qed.

(** ** Rules *)
(** A step that may fail, then the rest. *)
Lemma safe_mtry {A B} (m : method D (result A)) (f : A -> method D (result B)) (P : A -> D -> Prop) (Q : result B -> D -> Prop) db :
  (forall e d, Q (Err e) d) -> safe R m (fun r d => forall a, r = Ok a -> P a d) db ->
  (forall a d, P a d -> safe R (f a) Q d) -> safe R (mtry m f) Q db.
Proof.
  intros He Hm Hf. apply safe_mbind. eapply safe_impl, Hm. intros [a|e] d Ha; cbn; [by apply Hf, Ha|apply He].
Qed.
Lemma safe_plain {A B} (r : result A) (f : A -> method D (result B)) (Q : result B -> D -> Prop) db :
  (forall e d, Q (Err e) d) -> (forall a, r = Ok a -> safe R (f a) Q db) -> safe R (mtry (plain_code r) f) Q db.
Proof. intros He Hf. destruct r as [a|e]; cbn; [by apply Hf|apply He]. Qed.
(** A statement, and what its answer says of the database. *)
Definition performs {Y} (q : statement D Y) (P : Y -> D -> Prop) (db : D) : Prop :=
  forall db1, R db db1 -> forall y db2, q db1 = Ok (y, db2) -> R db1 db2 /\ P y db2.
Lemma safe_execute {Y A} (q : statement D Y) (k : result Y -> method D A) (P : Y -> D -> Prop) (Q : A -> D -> Prop) db :
  performs q P db -> (forall e d, R db d -> safe R (k (Err e)) Q d) -> (forall y d, R db d -> P y d -> safe R (k (Ok y)) Q d) ->
  safe R (Execute q k) Q db.
Proof.
  intros Hq He Hy db1 H1. split; [intros e; by apply He|]. intros y db2 Hok. destruct (Hq db1 H1 y db2 Hok) as [HR HP].
  split_and!; [done| |intros e; apply He; by etransitivity]. apply Hy; [by etransitivity|done].
Qed.
Lemma safe_mapped {Y} (q : statement D Y) (P : Y -> D -> Prop) db :
  performs q P db -> safe R (mapped_statement q) (fun r d => forall y, r = Ok y -> P y d) db.
Proof.
  intros Hq. eapply safe_execute; [exact Hq|done|]. cbn. by intros y d _ HP ? [= <-].
Qed.
Lemma safe_unless {Y A} (q : statement D Y) (none : result A) some (P : Y -> D -> Prop) (Q : result A -> D -> Prop) db :
  performs q P db -> (forall e d, Q (Err e) d) -> (forall a, none <> Ok a) ->
  (forall y d, R db d -> P y d -> safe R (some y) Q d) -> safe R (unless_no_rows q none some) Q db.
Proof.
  intros Hq He Hn Hs. eapply safe_execute; [exact Hq| |done].
  intros e d _. cbn. destruct (errors_Is e ErrNoRows); [|apply He]. destruct none as [a|]; [by destruct (Hn a)|apply He].
Qed.
Lemma performs_select {Y} (f : D -> option Y) db :
  performs (select_row f) (fun y d => f d = Some y) db.
Proof. intros db1 _ y db2. unfold select_row. destruct (f db1) eqn:E; [|done]. intros [= <- <-]. split; [reflexivity|done]. Qed.
Lemma performs_any {Y} (q : statement D Y) db : (forall d y d', q d = Ok (y, d') -> R d d') -> performs q (fun _ _ => True) db.
Proof. intros Hq db1 _ y db2 Hok. split; [by eapply Hq|done]. Qed.
(** Knowledge that the others do not spoil is there after the method as well. *)
Definition lasting (K : D -> Prop) : Prop := forall d d', R d d' -> K d -> K d'.
Lemma safe_frame {A} (m : method D A) (P : A -> D -> Prop) (K : D -> Prop) db :
  lasting K -> K db -> safe R m P db -> safe R m (fun a d => P a d /\ K d) db.
Proof.
  intros HK. revert db. induction m as [a|Y q k IH]; intros db Hk; cbn; [done|].
  intros Hs db1 H1. destruct (Hs db1 H1) as [He Ho]. pose proof (HK _ _ H1 Hk) as Hk1.
  split; [intros e; by apply IH|]. intros y db2 Hq. destruct (Ho y db2 Hq) as (HR & Hy & Hl).
  pose proof (HK _ _ HR Hk1) as Hk2. split_and!; [done|by apply IH|intros e; by apply IH].
Qed.
Lemma safe_mtry_with {A B} (K : D -> Prop) (m : method D (result A)) (f : A -> method D (result B)) (P : A -> D -> Prop)
    (Q : result B -> D -> Prop) db :
  lasting K -> K db -> (forall e d, Q (Err e) d) -> safe R m (fun r d => forall a, r = Ok a -> P a d) db ->
  (forall a d, P a d -> K d -> safe R (f a) Q d) -> safe R (mtry m f) Q db.
Proof.
  intros HK Hk He Hm Hf. eapply safe_mbind, safe_impl, safe_frame; [|exact HK|exact Hk|exact Hm].
  intros [a|e] d [Ha Hd]; cbn; [by apply Hf; [apply Ha|]|apply He].
Qed.
(** A method whose statements all keep [R], whatever was known. *)
Lemma safe_keeps {A} (m : method D A) db : keeps R m -> safe R m (fun _ _ => True) db.
Proof.
  revert db. induction m as [a|Y q k IH]; intros db; cbn; [done|]. intros [Hq Hk] db1 _.
  split; [intros e; apply IH, Hk|]. intros y db2 Hok. split_and!; [by eapply Hq|apply IH, Hk|intros e; apply IH, Hk].
Qed.
(** Such a step, then the rest. *)
Lemma safe_after {A B} (K : D -> Prop) (m : method D (result A)) (f : A -> method D (result B)) (Q : result B -> D -> Prop) db :
  lasting K -> K db -> (forall e d, Q (Err e) d) -> keeps R m ->
  (forall a d, K d -> safe R (f a) Q d) -> safe R (mtry m f) Q db.
Proof.
  intros HK Hk He Hm Hf. apply (safe_mtry_with K m f (fun _ _ => True)); [done..| |auto].
  eapply safe_impl, safe_keeps, Hm. done.
Qed.
End safe.
(** What plain code computed is known afterwards. *)
Lemma keeps_known {D A B} (R : relation D) (r : result A) (f : A -> method D (result B)) :
  (forall a, r = Ok a -> keeps R (f a)) -> keeps R (mtry (plain_code r) f).
Proof. intros Hf. destruct r as [a|]; cbn; [by apply Hf|done]. Qed.

(** * The system *)
Record sessions (D A : Type) := MkSessions { ss_db : D; ss_running : gmap nat (method D A) }.
#[global] Arguments MkSessions {_ _} _ _.
#[global] Arguments ss_db {_ _} _.
#[global] Arguments ss_running {_ _} _.

(** One statement of one session. *)
Inductive session_step {D A} : sessions D A -> sessions D A -> Prop :=
  | Session_statement s n Y (q : statement D Y) (k : result Y -> method D A) f r db' :
      ss_running s !! n = Some (Execute q k) -> attempt q f (ss_db s) = (r, db') ->
      session_step s (MkSessions db' (<[n := k r]> (ss_running s))).

Section system.
Context {D A : Type} (R : relation D) `{!PreOrder R} (Q : nat -> A -> D -> Prop).
Hypothesis stable : forall n a d d', R d d' -> Q n a d -> Q n a d'.

Definition all_safe (s : sessions D A) : Prop :=
  forall n m, ss_running s !! n = Some m -> safe R m (Q n) (ss_db s).

Lemma attempt_safe {Y} (q : statement D Y) (k : result Y -> method D A) (P : A -> D -> Prop) f db r db' :
  safe R (Execute q k) P db -> attempt q f db = (r, db') -> R db db' /\ safe R (k r) P db'.
Proof.
  intros Hs Ha. destruct (Hs db ltac:(reflexivity)) as [He Ho]. unfold attempt in Ha.
  destruct f as [|e|e].
  - destruct (q db) as [[y d]|e] eqn:Eq; injection Ha as <- <-; [destruct (Ho y d eq_refl) as (? & ? & _); by split|split; [reflexivity|apply He]].
  - injection Ha as <- <-. split; [reflexivity|apply He].
  - injection Ha as <- <-. destruct (q db) as [[y d]|e'] eqn:Eq; [|split; [reflexivity|apply He]].
    destruct (Ho y d eq_refl) as (? & _ & Hl). split; [done|apply Hl].
Qed.
Lemma session_step_safe s s' : all_safe s -> session_step s s' -> R (ss_db s) (ss_db s') /\ all_safe s'.
Proof.
  intros Hall Hstep. destruct Hstep as [s n Y q k f r db' Hn Ha].
  destruct (attempt_safe q k (Q n) f _ r db' (Hall n _ Hn) Ha) as [HR Hk]. split; [done|].
  intros n' m Hm. cbn in *. destruct (decide (n' = n)) as [->|Hne].
  - rewrite lookup_insert_eq in Hm. by injection Hm as <-.
  - rewrite lookup_insert_ne in Hm by done. refine (safe_later R m _ _ _ (stable n') HR _). by apply Hall.
Qed.
(** However the sessions interleave, the database moves along [R], and whoever
    has answered has answered as promised. *)
Lemma sessions_safe s s' : all_safe s -> rtc session_step s s' ->
  R (ss_db s) (ss_db s') /\ forall n a, ss_running s' !! n = Some (Return a) -> Q n a (ss_db s').
Proof.
  intros Hall Hrun. enough (R (ss_db s) (ss_db s') /\ all_safe s') as [HR Hs].
  { split; [done|]. intros n a Hn. exact (Hs n _ Hn). }
  induction Hrun as [s|s s1 s' Hstep Hrun IH]; [by split; [reflexivity|]|].
  destruct (session_step_safe s s1 Hall Hstep) as [HR1 Hs1]. destruct (IH Hs1) as [HR2 Hs2].
  split; [by etransitivity|done].
Qed.
End system.

(** One method, with whatever happens around its statements. *)
Lemma run_safe {D A} (R : relation D) `{!PreOrder R} (m : method D A) (Q : A -> D -> Prop) turns db :
  (forall a d d', R d d' -> Q a d -> Q a d') -> Forall (fun t => forall db, R db (before t db)) turns ->
  safe R m Q db -> Q (fst (run m turns db)) (snd (run m turns db)).
Proof.
  intros Hst. revert turns db. induction m as [a|Y q k IH]; intros turns db Ht Hs; cbn [run]; [exact Hs|].
  set (t := default quiet (head turns)).
  assert (R db (before t db)) as H1 by (destruct turns; cbn; [reflexivity|by inversion Ht]).
  apply (safe_later R _ Q db _ Hst H1) in Hs.
  destruct (attempt q (outcome_of t) (before t db)) as [r db'] eqn:Ha.
  destruct (attempt_safe R q k Q _ _ _ _ Hs Ha) as [_ Hk]. apply IH; [|done]. destruct turns; cbn; [done|by inversion Ht].
Qed.

(** * Running a schedule *)
(** The next statement of one session, which arrives. *)
Definition advance_session {D A} (s : sessions D A) (n : nat) : sessions D A :=
  match ss_running s !! n with
  | Some (Execute q k) => let '(r, db') := attempt q Arrives (ss_db s) in MkSessions db' (<[n := k r]> (ss_running s))
  | _ => s
  end.
Definition follow {D A} (schedule : list nat) (s : sessions D A) : sessions D A := fold_left advance_session schedule s.
Lemma advance_session_steps {D A} (s : sessions D A) n : rtc session_step s (advance_session s n).
Proof.
  unfold advance_session. destruct (ss_running s !! n) as [[a|Y q k]|] eqn:Hn; [done| |done].
  destruct (attempt q Arrives (ss_db s)) as [r db'] eqn:Ha. apply rtc_once. by eapply Session_statement.
Qed.
Lemma follow_steps {D A} schedule (s : sessions D A) :
  rtc session_step s (MkSessions (ss_db (follow schedule s)) (ss_running (follow schedule s))).
Proof.
  enough (rtc session_step s (follow schedule s)) as Hs by (by destruct (follow schedule s)).
  revert s. induction schedule as [|n l IH]; intros s; cbn; [done|]. etransitivity; [apply advance_session_steps|apply IH].
Qed.
