(* ===== verification/Foundation.v ===== *)
(** The tables of db/migrations/000001_phase7_foundation.up.sql, as later
    migrations amend them, and the statements of db/queries/foundation.sql on
    them (internal/storage/postgres/dbsqlc/foundation.sql.go): tenants,
    identities, wallet bindings, intents, approvals and policies, above the
    execution tables of Database.v.

    A row has the columns of its table less the key.  A statement applies the
    table's triggers, NOT NULL and CHECK constraints, unique indexes and foreign
    keys in this order, as PostgreSQL does.  The jsonb columns [financial] and
    [rules] hold the values they are written from. *)
From S2P Require Import Prelude GoStrings GoTime AppErrors Contracts IntentTypes IntentParams Intents Wallet Auth.
From S2P Require Import Approvals Policies Evaluator Execution Storage Statements Database RuntimeEffects.
Open Scope string_scope.
Open Scope Z_scope.
Open Scope go_scope.

(** * Equality of what jsonb columns hold ([reflect.DeepEqual]) *)
#[global] Instance Recipient_eq_dec : EqDecision Recipient.
Proof. solve_decision. Defined.
#[global] Instance CrossToken_eq_dec : EqDecision CrossTokenPayrollParameters.
Proof. solve_decision. Defined.
#[global] Instance PayrollParameters_eq_dec : EqDecision PayrollParameters.
Proof. solve_decision. Defined.
#[global] Instance SwapQuote_eq_dec : EqDecision SwapQuote.
Proof. solve_decision. Defined.
#[global] Instance SwapParameters_eq_dec : EqDecision SwapParameters.
Proof. solve_decision. Defined.
#[global] Instance SendParameters_eq_dec : EqDecision SendParameters.
Proof. solve_decision. Defined.
#[global] Instance BridgeParameters_eq_dec : EqDecision BridgeParameters.
Proof. solve_decision. Defined.
#[global] Instance ANSParameters_eq_dec : EqDecision ANSParameters.
Proof. solve_decision. Defined.
#[global] Instance FinancialParameters_eq_dec : EqDecision FinancialParameters.
Proof. solve_decision. Defined.
#[global] Instance Route_eq_dec : EqDecision Route.
Proof. solve_decision. Defined.
#[global] Instance Constraints_eq_dec : EqDecision Constraints.
Proof. solve_decision. Defined.
#[global] Instance TokenReference_eq_dec : EqDecision TokenReference.
Proof. solve_decision. Defined.
#[global] Instance SpendingLimitRule_eq_dec : EqDecision SpendingLimitRule.
Proof. solve_decision. Defined.
#[global] Instance ExpirationRule_eq_dec : EqDecision ExpirationRule.
Proof. solve_decision. Defined.
#[global] Instance Rule_eq_dec : EqDecision Rule.
Proof. solve_decision. Defined.
#[global] Instance PolicyScope_eq_dec : EqDecision Policies.Scope.
Proof. solve_decision. Defined.
#[global] Instance Finding_eq_dec : EqDecision Finding.
Proof. solve_decision. Defined.

(** * Rows *)
Record identity_row := MkIdentityRow {
  ir_provider : string; ir_provider_subject : string; ir_status : IdentityStatus; ir_created_at : option Time
}.
Record wallet_row := MkWalletRow {
  wr_version : Z; wr_user_id : string; wr_provider : string; wr_provider_user_reference : string; wr_wallet_id : string;
  wr_address : string; wr_chain_id : string; wr_network : string; wr_status : BindingStatus;
  wr_verification_reference : string; wr_created_at : option Time; wr_verified_at : option Time;
  wr_revoked_at : option Time
}.
(** The owner and wallet columns of an intent are its [Ownership]. *)
Record intent_row := MkIntentRow {
  it_version : Z; it_client_request_id : string; it_nonce : string; it_type : Type_; it_owner : Ownership;
  it_financial : FinancialParameters; it_route : Route; it_constraint_deadline : option Time;
  it_policy_reference : string; it_created_at : option Time; it_expires_at : option Time; it_status : Intents.Status;
  it_digest : option string; it_operation_key : option string; it_operation_version : option Z;
  it_lifecycle_version : Z
}.
Record approval_row := MkApprovalRow {
  aw_version : Z; aw_request_id : string; aw_intent_id : string; aw_intent_version : Z; aw_intent_digest : string;
  aw_user_id : string; aw_wallet_binding_id : string; aw_wallet_binding_version : Z; aw_wallet_id : string;
  aw_wallet_address : string; aw_chain_id : string; aw_status : Approvals.Status; aw_decision : Approvals.Decision;
  aw_created_at : option Time; aw_expires_at : option Time; aw_decided_at : option Time; aw_consumed_at : option Time;
  aw_operation_key : option string; aw_operation_version : option Z; aw_lifecycle_version : Z
}.
Record policy_row := MkPolicyRow {
  pr_name : string; pr_user_id : string; pr_wallet_binding_id : option string; pr_intent_types : list Type_;
  pr_rules : list Rule; pr_status : Policies.Status; pr_created_at : option Time; pr_valid_from : option Time;
  pr_expires_at : option Time; pr_lifecycle_version : Z
}.
Record evaluation_row := MkEvaluationRow {
  vw_policy_id : string; vw_policy_version : Z; vw_user_id : string; vw_intent_id : string; vw_intent_version : Z;
  vw_intent_digest : string; vw_stage : EvaluationStage; vw_decision : Policies.Decision; vw_evaluated_at : option Time
}.

(** The execution tables, audit records included, are [fd_runtime].  A policy
    version is keyed by tenant, policy and version, a wallet version likewise,
    a finding by tenant, evaluation and index. *)
Record Foundation := MkFoundation {
  fd_tenants : gmap string Time;
  fd_identities : gmap (string * string) identity_row;
  fd_wallets : gmap (string * string) wallet_row;
  fd_versions : gmap (string * string * Z) wallet_row;
  fd_intents : gmap (string * string) intent_row;
  fd_approvals : gmap (string * string) approval_row;
  fd_policies : gmap (string * string * Z) policy_row;
  fd_evaluations : gmap (string * string) evaluation_row;
  fd_findings : gmap (string * string * Z) Finding;
  fd_runtime : Database
}.
Definition empty_foundation : Foundation := MkFoundation ∅ ∅ ∅ ∅ ∅ ∅ ∅ ∅ ∅ empty_database.

Definition set_tenants m (f : Foundation) :=
  MkFoundation m (fd_identities f) (fd_wallets f) (fd_versions f) (fd_intents f) (fd_approvals f) (fd_policies f)
    (fd_evaluations f) (fd_findings f) (fd_runtime f).
Definition set_identities m (f : Foundation) :=
  MkFoundation (fd_tenants f) m (fd_wallets f) (fd_versions f) (fd_intents f) (fd_approvals f) (fd_policies f)
    (fd_evaluations f) (fd_findings f) (fd_runtime f).
Definition set_wallets m versions (f : Foundation) :=
  MkFoundation (fd_tenants f) (fd_identities f) m versions (fd_intents f) (fd_approvals f) (fd_policies f)
    (fd_evaluations f) (fd_findings f) (fd_runtime f).
Definition set_intents m (f : Foundation) :=
  MkFoundation (fd_tenants f) (fd_identities f) (fd_wallets f) (fd_versions f) m (fd_approvals f) (fd_policies f)
    (fd_evaluations f) (fd_findings f) (fd_runtime f).
Definition set_approvals m (f : Foundation) :=
  MkFoundation (fd_tenants f) (fd_identities f) (fd_wallets f) (fd_versions f) (fd_intents f) m (fd_policies f)
    (fd_evaluations f) (fd_findings f) (fd_runtime f).
Definition set_policies m (f : Foundation) :=
  MkFoundation (fd_tenants f) (fd_identities f) (fd_wallets f) (fd_versions f) (fd_intents f) (fd_approvals f) m
    (fd_evaluations f) (fd_findings f) (fd_runtime f).
Definition set_evaluations m findings (f : Foundation) :=
  MkFoundation (fd_tenants f) (fd_identities f) (fd_wallets f) (fd_versions f) (fd_intents f) (fd_approvals f)
    (fd_policies f) m findings (fd_runtime f).
Definition set_runtime db (f : Foundation) :=
  MkFoundation (fd_tenants f) (fd_identities f) (fd_wallets f) (fd_versions f) (fd_intents f) (fd_approvals f)
    (fd_policies f) (fd_evaluations f) (fd_findings f) db.

(** * Constraints *)
Definition broken_reference : error := PgError "23503".
Definition trigger_exception : error := PgError "55000".
Definition not_nulls (columns : list (option Time)) : result unit :=
  fail_if (existsb (fun t => negb (isSome t)) columns) null_violation.
Definition constrained (checks : bool) : result unit := fail_if (negb checks) check_violation.
Definition referenced (found : bool) : result unit := fail_if (negb found) broken_reference.
(** A comparison with NULL is not true. *)
Definition sql_lt (x y : option Time) : bool := match x, y with Some x, Some y => x <? y | _, _ => false end.
Definition sql_le (x y : option Time) : bool := match x, y with Some x, Some y => x <=? y | _, _ => false end.
(** Two equal values that are not NULL. *)
Definition sql_eq {A} `{EqDecision A} (x y : option A) : bool := isSome x && (x == y).
Definition positive (x : option Z) : bool := match x with Some x => 0 <? x | None => false end.
(** Some row of the table is in the way. *)
Definition taken_by {K A} `{Countable K} (clash : K -> A -> bool) (m : gmap K A) : bool :=
  existsb (fun '(k, a) => clash k a) (map_to_list m).
(** An insert at a key: unique there and nowhere else in the way. *)
Definition unique {K A} `{Countable K} (k : K) (clash : K -> A -> bool) (m : gmap K A) : result unit :=
  fail_if (isSome (m !! k) || taken_by clash m) unique_violation.

(** * Tenants and identities *)
Definition CreateTenant_q (tenant : string) (created_at : option Time) : statement Foundation Time := fun f =>
  let! t := not_null created_at in
  do! constrained (tenant != "");
  do! fail_if (isSome (fd_tenants f !! tenant)) unique_violation;
  Ok (t, set_tenants (<[tenant := t]> (fd_tenants f)) f).

Definition identity_clash (tenant user : string) (row : identity_row) (k : string * string) (other : identity_row) : bool :=
  (k.1 == tenant) && (ir_provider other == ir_provider row) && (ir_provider_subject other == ir_provider_subject row).
Definition CreateIdentity_q (tenant user : string) (row : identity_row) : statement Foundation unit := fun f =>
  do! not_nulls [ir_created_at row];
  do! constrained ((ir_provider_subject row != "") && IdentityStatus_Valid (ir_status row));
  do! unique (tenant, user) (identity_clash tenant user row) (fd_identities f);
  do! referenced (isSome (fd_tenants f !! tenant));
  Ok (tt, set_identities (<[(tenant, user) := row]> (fd_identities f)) f).
Definition FindIdentityByID_q (tenant user actor : string) : statement Foundation identity_row :=
  select_row (fun f => if user == actor then fd_identities f !! (tenant, user) else None).

(** * Wallet bindings *)
Section wallets.
Context `{UnicodeTables}.

Definition wallet_checks (row : wallet_row) : bool := (0 <? wr_version row) && BindingStatus_Valid (wr_status row).
Definition ExternalProvider : string := "EXTERNAL_EVM".
Definition wallet_clash (tenant : string) (row : wallet_row) (k : string * string) (other : wallet_row) : bool :=
  (k.1 == tenant) && (wr_chain_id other == wr_chain_id row) && (wr_network other == wr_network row)
  && ((wr_address other == wr_address row)
      || ((wr_provider other == ExternalProvider) && (wr_provider row == ExternalProvider)
          && (ToLower (wr_address other) == ToLower (wr_address row)))).
(** The row and, by trigger, its version. *)
Definition write_wallet (tenant id : string) (row : wallet_row) (f : Foundation) : result (wallet_row * Foundation) :=
  do! fail_if (isSome (fd_versions f !! (tenant, id, wr_version row))) unique_violation;
  Ok (row, set_wallets (<[(tenant, id) := row]> (fd_wallets f)) (<[(tenant, id, wr_version row) := row]> (fd_versions f)) f).
Definition CreateWalletBinding_q (tenant id : string) (row : wallet_row) : statement Foundation wallet_row := fun f =>
  do! not_nulls [wr_created_at row];
  do! constrained (wallet_checks row);
  do! unique (tenant, id) (wallet_clash tenant row) (fd_wallets f);
  do! referenced (isSome (fd_identities f !! (tenant, wr_user_id row)));
  write_wallet tenant id row f.
Definition owned_wallet (tenant id actor : string) (f : Foundation) : option wallet_row :=
  match fd_wallets f !! (tenant, id) with
  | Some row => if wr_user_id row == actor then Some row else None
  | None => None
  end.
Definition FindWalletBindingByID_q (tenant id actor : string) : statement Foundation (string * wallet_row) :=
  select_row (fun f => (fun row => (id, row)) <$> owned_wallet tenant id actor f).
Definition FindWalletBindingByWallet_q (tenant chain network address actor : string)
    : statement Foundation (string * wallet_row) :=
  select_row (fun f => head (omap (fun '(k, row) =>
    if (k.1 == tenant) && (wr_chain_id row == chain) && (wr_network row == network) && (wr_address row == address)
       && (wr_user_id row == actor) then Some (k.2, row) else None) (map_to_list (fd_wallets f)))).

(** The columns an update writes. *)
Definition updated_wallet (row : wallet_row) (version : Z) (status : BindingStatus) (reference : string)
    (verified_at revoked_at : option Time) : wallet_row :=
  MkWalletRow version (wr_user_id row) (wr_provider row) (wr_provider_user_reference row) (wr_wallet_id row)
    (wr_address row) (wr_chain_id row) (wr_network row) status reference (wr_created_at row) verified_at revoked_at.
Definition UpdateWalletBinding_q (tenant id : string) (version : Z) (status : BindingStatus) (reference : string)
    (verified_at revoked_at : option Time) (expected : Z) (actor : string) : statement Foundation wallet_row := fun f =>
  match owned_wallet tenant id actor f with
  | Some old =>
      do! fail_if ((wr_version old != expected) || (version != (expected + 1))) ErrNoRows;
      let row := updated_wallet old version status reference verified_at revoked_at in
      do! fail_if ((wr_status old == BindingStatusRevoked)
                   && ((status != BindingStatusRevoked) || (revoked_at != wr_revoked_at old))) trigger_exception;
      do! constrained (wallet_checks row);
      write_wallet tenant id row f
  | None => Err ErrNoRows
  end.
End wallets.

(** * Intents *)
Definition intent_checks (row : intent_row) : bool :=
  (0 <? it_version row) && Type_Valid (it_type row) && (0 <? own_WalletBindingVersion (it_owner row))
  && RouteType_Valid (rte_Type (it_route row)) && (0 <? rte_Version (it_route row)) && Intents.Status_Valid (it_status row)
  && (0 <? it_lifecycle_version row)
  && (if it_status row == Intents.StatusDraft
      then negb (isSome (it_digest row)) && negb (isSome (it_operation_key row)) && negb (isSome (it_operation_version row))
      else isSome (it_digest row) && isSome (it_operation_key row) && positive (it_operation_version row))
  && sql_lt (it_created_at row) (it_expires_at row) && sql_le (it_created_at row) (it_constraint_deadline row)
  && sql_le (it_constraint_deadline row) (it_expires_at row).
Definition intent_clash (tenant : string) (row : intent_row) (k : string * string) (other : intent_row) : bool :=
  (k.1 == tenant)
  && ((it_client_request_id other == it_client_request_id row) || sql_eq (it_digest other) (it_digest row)
      || (sql_eq (it_operation_key other) (it_operation_key row)
          && sql_eq (it_operation_version other) (it_operation_version row))).
(** The wallet version the owner columns name, of the provider they imply. *)
Definition intent_wallet (tenant : string) (o : Ownership) (f : Foundation) : bool :=
  match fd_versions f !! (tenant, own_WalletBindingID o, own_WalletBindingVersion o) with
  | Some w => (wr_user_id w == own_UserID o) && (wr_provider_user_reference w == own_ProviderUserReference o)
              && (wr_wallet_id w == own_WalletID o) && (wr_address w == own_WalletAddress o)
              && (wr_chain_id w == own_ChainID o) && (wr_network w == own_Network o)
              && (wr_provider w == EffectiveWalletProvider o)
  | None => false
  end.
Definition intent_identity (tenant : string) (o : Ownership) (f : Foundation) : bool :=
  match fd_identities f !! (tenant, own_UserID o) with
  | Some i => ir_provider i == own_IdentityProvider o
  | None => false
  end.
Definition CreateIntent_q (tenant id : string) (row : intent_row) : statement Foundation (string * intent_row) := fun f =>
  do! referenced (intent_wallet tenant (it_owner row) f);
  do! not_nulls [it_constraint_deadline row; it_created_at row; it_expires_at row];
  do! constrained (intent_checks row);
  do! unique (tenant, id) (intent_clash tenant row) (fd_intents f);
  do! referenced (intent_identity tenant (it_owner row) f);
  Ok ((id, row), set_intents (<[(tenant, id) := row]> (fd_intents f)) f).

Definition owned_intent (tenant id actor : string) (f : Foundation) : option intent_row :=
  match fd_intents f !! (tenant, id) with
  | Some row => if own_UserID (it_owner row) == actor then Some row else None
  | None => None
  end.
Definition first_intent (tenant actor : string) (p : intent_row -> bool) (f : Foundation) : option (string * intent_row) :=
  head (omap (fun '(k, row) =>
    if (k.1 == tenant) && p row && (own_UserID (it_owner row) == actor) then Some (k.2, row) else None)
    (map_to_list (fd_intents f))).
Definition FindIntentByID_q (tenant id actor : string) : statement Foundation (string * intent_row) :=
  select_row (fun f => (fun row => (id, row)) <$> owned_intent tenant id actor f).
Definition FindIntentByClientRequestID_q (tenant request actor : string) : statement Foundation (string * intent_row) :=
  select_row (first_intent tenant actor (fun row => it_client_request_id row == request)).
Definition FindIntentByOperationKey_q (tenant key : string) (version : Z) (actor : string)
    : statement Foundation (string * intent_row) :=
  select_row (first_intent tenant actor (fun row =>
    sql_eq (it_operation_key row) (Some key) && sql_eq (it_operation_version row) (Some version))).

Definition updated_intent (row : intent_row) (status : Intents.Status) (digest key : option string) (version : option Z)
    (lifecycle : Z) : intent_row :=
  MkIntentRow (it_version row) (it_client_request_id row) (it_nonce row) (it_type row) (it_owner row) (it_financial row)
    (it_route row) (it_constraint_deadline row) (it_policy_reference row) (it_created_at row) (it_expires_at row) status
    digest key version lifecycle.
(** The update of an owned row at a lifecycle version, its triggers included. *)
Definition update_intent (tenant id : string) (now_draft : bool) (change : intent_row -> intent_row) (lifecycle expected : Z)
    (actor : string) : statement Foundation (string * intent_row) := fun f =>
  match owned_intent tenant id actor f with
  | Some old =>
      do! fail_if (((it_status old == Intents.StatusDraft) != now_draft) || (it_lifecycle_version old != expected)
                   || (lifecycle != (expected + 1))) ErrNoRows;
      let row := change old in
      do! fail_if (now_draft && (negb (isSome (it_digest row)) || negb (isSome (it_operation_key row))
                                 || negb (positive (it_operation_version row)))) trigger_exception;
      do! referenced (intent_wallet tenant (it_owner row) f);
      do! constrained (intent_checks row);
      do! fail_if (taken_by (fun k other => (k != (tenant, id)) && intent_clash tenant row k other) (fd_intents f))
            unique_violation;
      Ok ((id, row), set_intents (<[(tenant, id) := row]> (fd_intents f)) f)
  | None => Err ErrNoRows
  end.
Definition UpdateIntent_q (tenant id : string) (status : Intents.Status) (lifecycle expected : Z) (actor : string)
    : statement Foundation (string * intent_row) :=
  update_intent tenant id false (fun row =>
    updated_intent row status (it_digest row) (it_operation_key row) (it_operation_version row) lifecycle)
    lifecycle expected actor.
Definition FreezeIntent_q (tenant id : string) (digest key : option string) (version : option Z) (lifecycle expected : Z)
    (actor : string) : statement Foundation (string * intent_row) :=
  update_intent tenant id true (fun row => updated_intent row Intents.StatusCreated digest key version lifecycle)
    lifecycle expected actor.

(** * Approvals *)
Definition decided_as (row : approval_row) (decision : Approvals.Decision) : bool :=
  (aw_decision row == decision) && isSome (aw_decided_at row).
Definition approval_checks (row : approval_row) : bool :=
  (0 <? aw_version row) && (0 <? aw_intent_version row) && (0 <? aw_wallet_binding_version row)
  && (0 <? aw_lifecycle_version row) && Approvals.Decision_Valid (aw_decision row)
  && sql_lt (aw_created_at row) (aw_expires_at row)
  && match aw_status row with
     | Approvals.StatusPending => (aw_decision row == Approvals.DecisionPending) && negb (isSome (aw_decided_at row))
     | Approvals.StatusApproved | Approvals.StatusReadyForExecutionConfirmation | Approvals.StatusConsumed =>
         decided_as row Approvals.DecisionApproved
     | Approvals.StatusRejected => decided_as row Approvals.DecisionRejected
     | Approvals.StatusExpired =>
         ((aw_decision row == Approvals.DecisionPending) && negb (isSome (aw_decided_at row)))
         || decided_as row Approvals.DecisionApproved
     | Approvals.StatusOther _ => false
     end
  && (negb (isSome (aw_decided_at row))
      || (sql_le (aw_created_at row) (aw_decided_at row) && sql_lt (aw_decided_at row) (aw_expires_at row)))
  && (if aw_status row == Approvals.StatusConsumed
      then sql_le (aw_decided_at row) (aw_consumed_at row) && sql_lt (aw_consumed_at row) (aw_expires_at row)
           && isSome (aw_operation_key row) && positive (aw_operation_version row)
      else negb (isSome (aw_consumed_at row)) && negb (isSome (aw_operation_key row))
           && negb (isSome (aw_operation_version row))).
Definition approval_clash (tenant : string) (row : approval_row) (k : string * string) (other : approval_row) : bool :=
  (k.1 == tenant)
  && ((aw_request_id other == aw_request_id row)
      || ((aw_intent_id other == aw_intent_id row) && (aw_intent_version other =? aw_intent_version row)
          && (aw_intent_digest other == aw_intent_digest row))).
(** The frozen intent a row names, [user] included where the key has it. *)
Definition names_intent (tenant id : string) (version : Z) (digest : string) (user : option string) (f : Foundation) : bool :=
  match fd_intents f !! (tenant, id) with
  | Some i => (it_version i =? version) && sql_eq (it_digest i) (Some digest)
              && match user with Some u => own_UserID (it_owner i) == u | None => true end
  | None => false
  end.
Definition approval_wallet (tenant : string) (row : approval_row) (f : Foundation) : bool :=
  isSome (fd_wallets f !! (tenant, aw_wallet_binding_id row))
  && match fd_versions f !! (tenant, aw_wallet_binding_id row, aw_wallet_binding_version row) with
     | Some w => (wr_user_id w == aw_user_id row) && (wr_wallet_id w == aw_wallet_id row)
                 && (wr_address w == aw_wallet_address row) && (wr_chain_id w == aw_chain_id row)
     | None => false
     end.
Definition CreateApproval_q (tenant id : string) (row : approval_row) : statement Foundation (string * approval_row) := fun f =>
  do! not_nulls [aw_created_at row; aw_expires_at row];
  do! constrained (approval_checks row);
  do! unique (tenant, id) (approval_clash tenant row) (fd_approvals f);
  do! referenced (names_intent tenant (aw_intent_id row) (aw_intent_version row) (aw_intent_digest row) None f
                  && approval_wallet tenant row f);
  Ok ((id, row), set_approvals (<[(tenant, id) := row]> (fd_approvals f)) f).

Definition owned_approval (tenant id actor : string) (f : Foundation) : option approval_row :=
  match fd_approvals f !! (tenant, id) with
  | Some row => if aw_user_id row == actor then Some row else None
  | None => None
  end.
Definition FindApprovalByID_q (tenant id actor : string) : statement Foundation (string * approval_row) :=
  select_row (fun f => (fun row => (id, row)) <$> owned_approval tenant id actor f).
Definition FindApprovalByIntent_q (tenant intent : string) (version : Z) (digest actor : string)
    : statement Foundation (string * approval_row) :=
  select_row (fun f => head (omap (fun '(k, row) =>
    if (k.1 == tenant) && (aw_intent_id row == intent) && (aw_intent_version row =? version)
       && (aw_intent_digest row == digest) && (aw_user_id row == actor) then Some (k.2, row) else None)
    (map_to_list (fd_approvals f)))).
(** [ORDER BY approval_id ASC LIMIT n], text compared byte by byte. *)
Definition ListApprovals_q (tenant actor status cursor : string) (limit : Z)
    : statement Foundation (list (string * approval_row)) := fun f =>
  let found := omap (fun '(k, row) =>
    if (k.1 == tenant) && (aw_user_id row == actor) && ((status == "") || (Approval_Status_string (aw_status row) == status))
       && ((cursor == "") || String.ltb cursor k.2) then Some (k.2, row) else None) (map_to_list (fd_approvals f)) in
  do! fail_if (limit <? 0) (PgError "2201W");
  Ok (take (Z.to_nat limit) (sort_by fst found), f).

(** The parameters of the update. *)
Record UpdateApprovalParams := MkUpdateApproval {
  ua_tenant : string; ua_approval_id : string; ua_status : Approvals.Status; ua_decision : Approvals.Decision;
  ua_decided_at : option Time; ua_consumed_at : option Time; ua_operation_key : option string;
  ua_operation_version : option Z; ua_lifecycle : Z; ua_expected : Z; ua_actor : string
}.
Definition updated_approval (row : approval_row) (p : UpdateApprovalParams) : approval_row :=
  MkApprovalRow (aw_version row) (aw_request_id row) (aw_intent_id row) (aw_intent_version row) (aw_intent_digest row)
    (aw_user_id row) (aw_wallet_binding_id row) (aw_wallet_binding_version row) (aw_wallet_id row) (aw_wallet_address row)
    (aw_chain_id row) (ua_status p) (ua_decision p) (aw_created_at row) (aw_expires_at row) (ua_decided_at p)
    (ua_consumed_at p) (ua_operation_key p) (ua_operation_version p) (ua_lifecycle p).
Definition UpdateApproval_q (p : UpdateApprovalParams) : statement Foundation (string * approval_row) := fun f =>
  match owned_approval (ua_tenant p) (ua_approval_id p) (ua_actor p) f with
  | Some old =>
      do! fail_if ((aw_lifecycle_version old != ua_expected p) || (ua_lifecycle p != (ua_expected p + 1))) ErrNoRows;
      let row := updated_approval old p in
      do! constrained (approval_checks row);
      Ok ((ua_approval_id p, row), set_approvals (<[(ua_tenant p, ua_approval_id p) := row]> (fd_approvals f)) f)
  | None => Err ErrNoRows
  end.

(** * Policies and evaluations *)
Definition policy_checks (version : Z) (row : policy_row) : bool :=
  (0 <? version) && Policies.Status_Valid (pr_status row) && (0 <? pr_lifecycle_version row)
  && sql_lt (pr_valid_from row) (pr_expires_at row) && sql_le (pr_created_at row) (pr_valid_from row).
Definition CreatePolicy_q (tenant id : string) (version : Z) (row : policy_row)
    : statement Foundation (string * Z * policy_row) := fun f =>
  do! not_nulls [pr_created_at row; pr_valid_from row; pr_expires_at row];
  do! constrained (policy_checks version row);
  do! unique (tenant, id, version) (fun _ _ => false) (fd_policies f);
  do! referenced (isSome (fd_identities f !! (tenant, pr_user_id row))
                  && match pr_wallet_binding_id row with Some w => isSome (fd_wallets f !! (tenant, w)) | None => true end);
  Ok ((id, version, row), set_policies (<[(tenant, id, version) := row]> (fd_policies f)) f).
Definition owned_policy (tenant id : string) (version : Z) (actor : string) (f : Foundation) : option policy_row :=
  match fd_policies f !! (tenant, id, version) with
  | Some row => if pr_user_id row == actor then Some row else None
  | None => None
  end.
Definition FindPolicyByID_q (tenant id : string) (version : Z) (actor : string) : statement Foundation (string * Z * policy_row) :=
  select_row (fun f => (fun row => (id, version, row)) <$> owned_policy tenant id version actor f).

(** The newest version of each policy, whoever owns it and whatever its status. *)
Definition newest_version (k : string * string * Z) (f : Foundation) : bool :=
  negb (taken_by (fun k' _ => (k'.1 == k.1) && (k.2 <? k'.2)) (fd_policies f)).
Definition FindApplicablePolicies_q (tenant user : string) (wallet : option string) (kind : string) (at_ : option Time)
    : statement Foundation (list (string * Z * policy_row)) := fun f =>
  Ok (sort_by (fun x => x.1.1) (omap (fun '(k, row) =>
    if (k.1.1 == tenant) && newest_version k f && (pr_user_id row == user)
       && (negb (isSome (pr_wallet_binding_id row)) || sql_eq (pr_wallet_binding_id row) wallet)
       && match pr_intent_types row with [] => true | l => existsb (fun t => Type_string t == kind) l end
       && (pr_status row == Policies.StatusActive) && sql_le (pr_valid_from row) at_ && sql_lt at_ (pr_expires_at row)
    then Some (k.1.2, k.2, row) else None) (map_to_list (fd_policies f))), f).
Definition updated_policy (row : policy_row) (status : Policies.Status) (lifecycle : Z) : policy_row :=
  MkPolicyRow (pr_name row) (pr_user_id row) (pr_wallet_binding_id row) (pr_intent_types row) (pr_rules row) status
    (pr_created_at row) (pr_valid_from row) (pr_expires_at row) lifecycle.
Definition UpdatePolicy_q (tenant id : string) (version : Z) (status : Policies.Status) (lifecycle expected : Z)
    (actor : string) : statement Foundation (string * Z * policy_row) := fun f =>
  match owned_policy tenant id version actor f with
  | Some old =>
      do! fail_if ((pr_lifecycle_version old != expected) || (lifecycle != (expected + 1))) ErrNoRows;
      let row := updated_policy old status lifecycle in
      do! constrained (policy_checks version row);
      Ok ((id, version, row), set_policies (<[(tenant, id, version) := row]> (fd_policies f)) f)
  | None => Err ErrNoRows
  end.

Definition stored_decision (d : Policies.Decision) : bool :=
  match d with Policies.DecisionOther _ => false | _ => true end.
Definition evaluation_clash (tenant : string) (row : evaluation_row) (k : string * string) (other : evaluation_row) : bool :=
  (k.1 == tenant) && (vw_policy_id other == vw_policy_id row) && (vw_policy_version other =? vw_policy_version row)
  && (vw_intent_id other == vw_intent_id row) && (vw_intent_version other =? vw_intent_version row)
  && (vw_intent_digest other == vw_intent_digest row) && (vw_stage other == vw_stage row)
  && sql_eq (vw_evaluated_at other) (vw_evaluated_at row).
Definition CreatePolicyEvaluation_q (tenant key : string) (row : evaluation_row) : statement Foundation unit := fun f =>
  do! not_nulls [vw_evaluated_at row];
  do! constrained (stored_decision (vw_decision row));
  do! unique (tenant, key) (evaluation_clash tenant row) (fd_evaluations f);
  do! referenced (isSome (owned_policy tenant (vw_policy_id row) (vw_policy_version row) (vw_user_id row) f)
                  && names_intent tenant (vw_intent_id row) (vw_intent_version row) (vw_intent_digest row)
                       (Some (vw_user_id row)) f);
  Ok (tt, set_evaluations (<[(tenant, key) := row]> (fd_evaluations f)) (fd_findings f) f).
(** [ON CONFLICT DO NOTHING] *)
Definition CreatePolicyFinding_q (tenant key : string) (index : Z) (finding : Finding) : statement Foundation unit := fun f =>
  do! constrained ((0 <=? index) && stored_decision (fnd_Decision finding));
  match fd_findings f !! (tenant, key, index) with
  | Some _ => Ok (tt, f)
  | None =>
      do! referenced (isSome (fd_evaluations f !! (tenant, key)));
      Ok (tt, set_evaluations (fd_evaluations f) (<[(tenant, key, index) := finding]> (fd_findings f)) f)
  end.
Definition FindPolicyEvaluation_q (tenant key actor : string) : statement Foundation evaluation_row :=
  select_row (fun f => match fd_evaluations f !! (tenant, key) with
                       | Some row => if vw_user_id row == actor then Some row else None
                       | None => None
                       end).
Definition by_index : relation (Z * Finding) := fun x y => x.1 <= y.1.
#[local] Instance by_index_dec : RelDecision by_index.
Proof. intros x y. unfold by_index. apply _. Defined.
Definition FindPolicyFindings_q (tenant key : string) : statement Foundation (list Finding) := fun f =>
  Ok (snd <$> merge_sort by_index
        (omap (fun '(k, finding) => if (k.1.1 == tenant) && (k.1.2 == key) then Some (k.2, finding) else None)
           (map_to_list (fd_findings f))), f).

(** * Executions and audit records *)
(** The foreign keys of execution_requests. *)
Definition request_references (tenant user : string) (r : Request) (evaluated_at : option Time) (f : Foundation) : bool :=
  names_intent tenant (req_intentID r) (req_intentVersion r) (req_intentDigest r) None f
  && match fd_approvals f !! (tenant, req_approvalID r) with
     | Some a => (aw_version a =? req_approvalVersion r) && (aw_intent_id a == req_intentID r)
                 && (aw_intent_version a =? req_intentVersion r) && (aw_intent_digest a == req_intentDigest r)
                 && (aw_user_id a == user)
     | None => false
     end
  && match fd_evaluations f !! (tenant, req_policyEvaluationKey r) with
     | Some v => (vw_policy_id v == req_policyID r) && (vw_policy_version v =? req_policyVersion r)
                 && (vw_user_id v == user) && (vw_intent_id v == req_intentID r)
                 && (vw_intent_version v =? req_intentVersion r) && (vw_intent_digest v == req_intentDigest r)
                 && (vw_stage v == req_policyEvaluationStage r) && sql_eq (vw_evaluated_at v) evaluated_at
     | None => false
     end.
(** Both inserts of an execution, in a transaction. *)
Definition CreateExecution_rows (r : RequestParams) (e : ExecutionParams) : statement Foundation unit := fun f =>
  let! db := run_create r e (fd_runtime f) in
  do! referenced (request_references (rp_tenant r) (rp_user_id r) (rp_request r) (rp_policy_evaluated_at r) f);
  Ok (tt, set_runtime db f).
Definition AppendAudit_q (row : audit_row) : statement Foundation unit := fun f =>
  let! db := AppendAudit_row row (fd_runtime f) in
  do! referenced (isSome (fd_tenants f !! ar_tenant row));
  Ok (tt, set_runtime db f).
(** [ORDER BY occurred_at, event_id] *)
Definition audit_before (x y : AuditRecord) : bool :=
  let t := ev_OccurredAt (aud_Event x) in
  let u := ev_OccurredAt (aud_Event y) in
  (t <? u) || ((t =? u) && String.leb (ev_EventID (aud_Event x)) (ev_EventID (aud_Event y))).
Definition audit_order : relation AuditRecord := fun x y => audit_before x y = true.
#[local] Instance audit_order_dec : RelDecision audit_order.
Proof. intros x y. unfold audit_order. apply _. Defined.
Definition FindAuditByResource_q (tenant kind id : string) : statement Foundation (list AuditRecord) := fun f =>
  Ok (merge_sort audit_order
        (omap (fun row => if (ar_tenant row == tenant) && (aud_ResourceType (ar_record row) == kind)
                             && (aud_ResourceID (ar_record row) == id) then Some (ar_record row) else None)
           (db_audit (fd_runtime f))), f).

(** A transaction: one step, or a failure that leaves the database alone. *)
Definition then_do {Y Z'} (q : statement Foundation Y) (k : Y -> statement Foundation Z') : statement Foundation Z' :=
  fun f => let! r := q f in k (fst r) (snd r).
