(* ===== verification/Repositories.v ===== *)
(** internal/storage/postgres: the repositories of the domain aggregates over
    the tables of Foundation.v — tenants and identities
    (identity_repository.go), wallet bindings (wallet_repository.go), intents
    (intent_repository.go), approvals (approval_repository.go), policies and
    their evaluations (policy_repository.go), audit records
    (audit_repository.go) and the transactions across them
    (atomic_repository.go).  Contexts are never nil. *)
From S2P Require Import Prelude GoStrings GoTime AppErrors Contracts IntentTypes IntentParams Intents Wallet Auth.
From S2P Require Import Approvals Policies Evaluator Execution Storage Database RuntimeEffects ExecutionStore.
From S2P Require Import Statements Foundation.
Open Scope string_scope.
Open Scope Z_scope.
Open Scope go_scope.

Abbreviation call A := (method Foundation (result A)) (only parsing).

(** * Columns (mappers_common.go) *)
Definition dbOptionalString (value : string) : option string := if value == "" then None else Some value.
Definition dbOptionalVersion (value : Z) : result (option Z) :=
  if value == 0 then Ok None else let! v := dbVersion value in Ok (Some v).
Definition domainOptionalString (value : option string) : string := default "" value.
Definition domainOptionalVersion (value : option Z) : Z :=
  match value with Some v => if v <=? 0 then 0 else v | None => 0 end.

(** [time.Time.MarshalJSON] *)
Definition json_year (t : Time) : bool :=
  let year := c_year (civil_of_days (t / (86400 * Second))) in (0 <=? year) && (year <=? 9999).
Definition financial_times (p : FinancialParameters) : list Time :=
  app (match fin_Payroll p with
       | Some pay => match pay_CrossToken pay with Some c => [ct_Deadline c] | None => [] end
       | None => []
       end)
      (match fin_Swap p with
       | Some s => app (match swp_Quote s with Some q => [quo_ExpiresAt q] | None => [] end) [swp_Deadline s]
       | None => []
       end).
(** [json.Marshal(value.Financial())] *)
Definition marshal_financial (p : FinancialParameters) : result FinancialParameters :=
  do! fail_if (negb (forallb json_year (financial_times p))) (errorf "json: error calling MarshalJSON for type time.Time");
  Ok p.

Definition inaccessible (message : string) : error := AppErrors.New CodeAuthorizationRequired message false true true.
Definition conflicts (message : string) : error := AppErrors.New CodeExecutionConflict message false true true.
(** [errors.As(err, &appErr) && appErr.Code == CodeExecutionConflict] *)
Definition is_conflict (e : error) : bool := error_code e == Some CodeExecutionConflict.
Definition isUniqueViolation (e : error) : bool := errors_As as_pg e == Some "23505".

(** An insert: what the row restores to, or what the method does about a
    conflict. *)
Definition insert_or {Y A} (q : statement Foundation Y) (made : Y -> result A) (conflict : error -> call A) : call A :=
  Execute q (fun r => match r with
                      | Ok y => Return (made y)
                      | Err e => let mapped := mapDatabaseError e in
                                 if is_conflict mapped then conflict mapped else Return (Err mapped)
                      end).
(** What a conflicting insert answers: the stored value when it is the one that
    was to be stored, an error otherwise. *)
Definition found_instead {A} (find : call A) (unreadable : error) (same : A -> bool) (different : error) : call (A * bool) :=
  mbind find (fun r => Return (match r with
                               | Err _ => Err unreadable
                               | Ok existing => if same existing then Ok (existing, false) else Err different
                               end)).
(** [errors.Is(err, pgx.ErrNoRows)] of a read, then the row. *)
Definition find_row {Y A} (q : statement Foundation Y) (missing : error) (restore : Y -> result A) : call A :=
  unless_no_rows q (Err missing) (fun y => plain_code (restore y)).

Section repositories.
Context `{EthCommon} `{UnicodeTables} `{PgTimestamp}.
Implicit Types (scope : Scope) (actor : string).

(** * Executions (execution_repository.go), inside the larger database *)
Definition on_runtime {Y} (q : Database -> result (Y * Database)) : statement Foundation Y := fun f =>
  let! r := q (fd_runtime f) in Ok (fst r, set_runtime (snd r) f).
(** A repository method of ExecutionStore.v, whose only actions are statements. *)
Fixpoint stored {A} (other : A) (p : prog A) : method Foundation A :=
  match p with
  | Ret a => Return a
  | Query q k => Execute (on_runtime (run_query q (MkMoment 0 []))) (fun r => stored other (k r))
  | _ => Return other
  end.
Definition not_a_statement {A} : result A := Err (errorf "not a statement").
Definition FindExecutionByID_ scope id : call Execution := stored not_a_statement (FindExecutionByID scope id).
Definition FindExecutionByOperationKey_ scope key version : call Execution :=
  stored not_a_statement (FindExecutionByOperationKey scope key version).

(** * Tenants and identities *)
Definition CreateTenant (tenant : string) (createdAt : Time) : call (string * Time) :=
  act! plain_code (map_err (fun _ => AppErrors.New CodeValidationError "Tenant is invalid." false true true)
         (do! validateScopeField "tenant ID" (TrimSpace tenant) true;
          fail_if (IsZero createdAt) (errorf "tenant creation time is required")));
  sql! t := mapped_statement (CreateTenant_q tenant (dbTime createdAt)) in
  Return (Ok (tenant, domainTime (Some t))).

Definition identity_from_row (user : string) (row : identity_row) : result Identity :=
  NewIdentityWithSubject user (ir_provider row) (ir_provider_subject row) (ir_status row).
Definition FindIdentityByID scope (user : string) : call Identity :=
  act! plain_code (Scope_Validate scope);
  find_row (FindIdentityByID_q (sc_tenantID scope) user (sc_actorID scope))
    (notFound CodeIdentityNotFound "Identity is not accessible.") (identity_from_row user).
Definition CreateIdentity scope (identity : Identity) (now : Time) : call Identity :=
  act! plain_code (Scope_Validate scope);
  act! plain_code (Identity_Validate identity);
  act! plain_code (fail_if (idn_userID identity != sc_actorID scope) (inaccessible "Identity is not accessible."));
  insert_or (CreateIdentity_q (sc_tenantID scope) (idn_userID identity)
               (MkIdentityRow (idn_provider identity) (idn_providerSubject identity) (idn_status identity) (dbTime now)))
    (fun _ => Ok identity)
    (fun mapped => mbind (FindIdentityByID scope (idn_userID identity)) (fun r => Return (
       match r with
       | Err _ => Err mapped
       | Ok existing => if (idn_provider existing != idn_provider identity)
                           || (idn_providerSubject existing != idn_providerSubject identity)
                           || (idn_status existing != idn_status identity) then Err mapped else Ok existing
       end))).

(** * Wallet bindings *)
Definition walletFromRow (found : string * wallet_row) : result Binding :=
  let '(id, row) := found in
  let! version := domainVersion (wr_version row) in
  NewBinding (MkBinding id version (wr_user_id row) (wr_provider row) (wr_provider_user_reference row) (wr_wallet_id row)
    (wr_address row) (wr_chain_id row) (wr_network row) (wr_status row) (wr_verification_reference row)
    (domainTime (wr_created_at row)) (domainTime (wr_verified_at row)) (domainTime (wr_revoked_at row))).
Definition walletCreateParams (value : Binding) : result wallet_row :=
  let! version := dbVersion (bnd_version value) in
  Ok (MkWalletRow version (bnd_userID value) (bnd_provider value) (bnd_providerUserReference value) (bnd_walletID value)
        (bnd_address value) (bnd_chainID value) (bnd_network value) (bnd_status value) (bnd_verificationReference value)
        (dbTime (bnd_createdAt value)) (dbTime (bnd_verifiedAt value)) (dbTime (bnd_revokedAt value))).
Definition equalBinding (a b : Binding) : bool := a == b.
Definition wallet_not_bound : error := notFound CodeWalletNotBound "Wallet binding is not accessible.".
Definition wallet_owner_mismatch : error :=
  inaccessible "Wallet binding owner does not match the trusted request scope.".
Definition StoredBindingByID scope (id : string) : call Binding :=
  act! plain_code (Scope_Validate scope);
  find_row (FindWalletBindingByID_q (sc_tenantID scope) id (sc_actorID scope)) wallet_not_bound walletFromRow.
Definition FindBindingByWallet scope (chainID network address : string) : call Binding :=
  act! plain_code (Scope_Validate scope);
  find_row (FindWalletBindingByWallet_q (sc_tenantID scope) chainID network address (sc_actorID scope)) wallet_not_bound
    walletFromRow.
Definition CreateBinding scope (value : Binding) : call (Binding * bool) :=
  act! plain_code (Scope_Validate scope);
  act! plain_code (Binding_Validate value);
  act! plain_code (fail_if (bnd_userID value != sc_actorID scope) wallet_owner_mismatch);
  sql! params := plain_code (walletCreateParams value) in
  insert_or (CreateWalletBinding_q (sc_tenantID scope) (bnd_bindingID value) params)
    (fun row => let! restored := walletFromRow (bnd_bindingID value, row) in Ok (restored, true))
    (fun mapped => found_instead (FindBindingByWallet scope (bnd_chainID value) (bnd_network value) (bnd_address value))
                     mapped (fun existing => equalBinding existing value) mapped).
Definition UpdateBinding scope (value : Binding) (expectedVersion : Z) : call Binding :=
  act! plain_code (Scope_Validate scope);
  act! plain_code (Binding_Validate value);
  act! plain_code (fail_if (bnd_userID value != sc_actorID scope) wallet_owner_mismatch);
  act! plain_code (fail_if ((expectedVersion == max_uint64) || (bnd_version value != u64 (expectedVersion + 1)))
                     (conflicts "Wallet binding version must advance exactly once."));
  sql! version := plain_code (dbVersion (bnd_version value)) in
  sql! expected := plain_code (dbVersion expectedVersion) in
  find_row (UpdateWalletBinding_q (sc_tenantID scope) (bnd_bindingID value) version (bnd_status value)
              (bnd_verificationReference value) (dbTime (bnd_verifiedAt value)) (dbTime (bnd_revokedAt value)) expected
              (sc_actorID scope))
    (conflicts "Wallet binding changed concurrently.") (fun row => walletFromRow (bnd_bindingID value, row)).

(** * Intents *)
(** The operation columns: NULL for a draft. *)
Definition operation_columns (value : Intent) : result (option string * option Z) :=
  if int_status value == Intents.StatusDraft then Ok (None, None)
  else
    let! operation := NewOperationIdentity value in
    let! version := dbOptionalVersion (opi_version operation) in
    Ok (dbOptionalString (opi_operationKey operation), version).
Definition intentCreateParams (value : Intent) : result intent_row :=
  let p := int_params value in
  let! version := dbVersion (Intents.prm_Version p) in
  let! _ := dbVersion (own_WalletBindingVersion (prm_Ownership p)) in
  let! _ := dbVersion (rte_Version (prm_Route p)) in
  let! financial := marshal_financial (prm_Financial p) in
  let! lifecycleRevision := dbVersion (int_lifecycleRevision value) in
  let! operation := operation_columns value in
  Ok (MkIntentRow version (prm_ClientRequestID p) (prm_Nonce p) (prm_Type p) (prm_Ownership p) financial (prm_Route p)
        (dbTime (con_Deadline (prm_Constraints p))) (con_PolicyReference (prm_Constraints p))
        (dbTime (Intents.prm_CreatedAt p)) (dbTime (Intents.prm_ExpiresAt p)) (int_status value)
        (dbOptionalString (int_digest value)) (fst operation) (snd operation) lifecycleRevision).
Definition intent_params_of (id : string) (row : intent_row) : Intents.Params :=
  Intents.MkParams id (it_version row) (it_client_request_id row) (it_nonce row) (it_type row) (it_owner row)
    (it_financial row) (it_route row)
    (MkConstraints (domainTime (it_constraint_deadline row)) (it_policy_reference row)) (domainTime (it_created_at row))
    (domainTime (it_expires_at row)).
Definition intentFromRow (found : string * intent_row) : result Intent :=
  let '(id, row) := found in
  let! _ := domainVersion (it_version row) in
  let! _ := domainVersion (own_WalletBindingVersion (it_owner row)) in
  let! _ := domainVersion (rte_Version (it_route row)) in
  let! lifecycleRevision := domainVersion (it_lifecycle_version row) in
  Intent_Restore (intent_params_of id row) (it_status row) (domainOptionalString (it_digest row)) lifecycleRevision.
Definition equalIntent (a b : Intent) : bool :=
  let p := int_params a in
  let q := int_params b in
  (prm_IntentID p == prm_IntentID q) && (Intents.prm_Version p == Intents.prm_Version q)
  && (prm_ClientRequestID p == prm_ClientRequestID q) && (prm_Nonce p == prm_Nonce q) && (prm_Type p == prm_Type q)
  && (prm_Ownership p == prm_Ownership q) && (prm_Financial p == prm_Financial q) && (prm_Route p == prm_Route q)
  && (prm_Constraints p == prm_Constraints q) && (Intents.prm_CreatedAt p == Intents.prm_CreatedAt q)
  && (Intents.prm_ExpiresAt p == Intents.prm_ExpiresAt q) && (int_status a == int_status b)
  && (int_digest a == int_digest b) && (int_lifecycleRevision a == int_lifecycleRevision b).
Definition intent_owner (value : Intent) : string := own_UserID (prm_Ownership (int_params value)).
Definition intent_not_found : error := notFound CodeIntentNotFound "Intent is not accessible.".

Definition FindIntentByID scope (id : string) : call Intent :=
  act! plain_code (Scope_Validate scope);
  find_row (FindIntentByID_q (sc_tenantID scope) id (sc_actorID scope)) intent_not_found intentFromRow.
Definition FindIntentByClientRequestID scope (id : string) : call Intent :=
  act! plain_code (Scope_Validate scope);
  find_row (FindIntentByClientRequestID_q (sc_tenantID scope) id (sc_actorID scope)) intent_not_found intentFromRow.
Definition FindIntentByOperationKey scope (key : string) (version : Z) : call Intent :=
  act! plain_code (Scope_Validate scope);
  sql! dbv := plain_code (dbVersion version) in
  find_row (FindIntentByOperationKey_q (sc_tenantID scope) key dbv (sc_actorID scope)) intent_not_found intentFromRow.
Definition created_intent (found : string * intent_row) : result (Intent * bool) :=
  let! restored := intentFromRow found in Ok (restored, true).
Definition CreateIntent scope (value : Intent) : call (Intent * bool) :=
  act! plain_code (Scope_Validate scope);
  act! plain_code (Intent_Validate value);
  act! plain_code (fail_if (intent_owner value != sc_actorID scope) (inaccessible "Intent is not accessible."));
  sql! params := plain_code (intentCreateParams value) in
  insert_or (CreateIntent_q (sc_tenantID scope) (prm_IntentID (int_params value)) params) created_intent
    (fun mapped => found_instead (FindIntentByClientRequestID scope (prm_ClientRequestID (int_params value))) mapped
       (fun existing => equalIntent existing value)
       (AppErrors.New CodeIntentMutated "Intent idempotency key conflicts with different material." false true true)).
Definition intent_changed : error := conflicts "Intent changed concurrently.".
Definition FreezeIntent scope (value : Intent) (expectedRevision : Z) : call Intent :=
  act! plain_code (Scope_Validate scope);
  act! plain_code (Intent_Validate value);
  act! plain_code (fail_if (int_status value != Intents.StatusCreated)
                     (AppErrors.New CodeValidationError "Only a CREATED intent may be frozen." false true true));
  act! plain_code (fail_if (intent_owner value != sc_actorID scope) (inaccessible "Intent is not accessible."));
  act! plain_code (fail_if ((expectedRevision == max_uint64) || (int_lifecycleRevision value != u64 (expectedRevision + 1)))
                     (conflicts "Intent revision must advance exactly once."));
  sql! operation := plain_code (NewOperationIdentity value) in
  sql! revision := plain_code (dbVersion (int_lifecycleRevision value)) in
  sql! expected := plain_code (dbVersion expectedRevision) in
  sql! operationVersion := plain_code (dbVersion (opi_version operation)) in
  find_row (FreezeIntent_q (sc_tenantID scope) (prm_IntentID (int_params value)) (dbOptionalString (int_digest value))
              (dbOptionalString (opi_operationKey operation)) (Some operationVersion) revision expected (sc_actorID scope))
    intent_changed intentFromRow.
Definition UpdateIntent scope (value : Intent) (expectedRevision : Z) : call Intent :=
  act! plain_code (Scope_Validate scope);
  act! plain_code (Intent_Validate value);
  act! plain_code (fail_if (intent_owner value != sc_actorID scope) (inaccessible "Intent is not accessible."));
  sql! revision := plain_code (dbVersion (int_lifecycleRevision value)) in
  sql! expected := plain_code (dbVersion expectedRevision) in
  find_row (UpdateIntent_q (sc_tenantID scope) (prm_IntentID (int_params value)) (int_status value) revision expected
              (sc_actorID scope)) intent_changed intentFromRow.

(** * Approvals *)
Definition approvalCreateParams (value : Approval) : result approval_row :=
  let! version := dbVersion (apr_version value) in
  let! intentVersion := dbVersion (apr_intentVersion value) in
  let! bindingVersion := dbVersion (apr_walletBindingVersion value) in
  let! operationVersion := dbOptionalVersion (apr_operationVersion value) in
  let! lifecycleRevision := dbVersion (apr_lifecycleRevision value) in
  Ok (MkApprovalRow version (apr_approvalRequestID value) (apr_intentID value) intentVersion (apr_intentDigest value)
        (apr_userID value) (apr_walletBindingID value) bindingVersion (apr_walletID value) (apr_walletAddress value)
        (apr_chainID value) (apr_status value) (apr_decision value) (dbTime (apr_createdAt value))
        (dbTime (apr_expiresAt value)) (dbTime (apr_decidedAt value)) (dbTime (apr_consumedAt value))
        (dbOptionalString (apr_operationKey value)) operationVersion lifecycleRevision).
Definition approvalFromRow (found : string * approval_row) : result Approval :=
  let '(id, row) := found in
  let! version := domainVersion (aw_version row) in
  let! intentVersion := domainVersion (aw_intent_version row) in
  let! bindingVersion := domainVersion (aw_wallet_binding_version row) in
  let! lifecycleRevision := domainVersion (aw_lifecycle_version row) in
  Approval_Restore (MkApproval id version (aw_request_id row) (aw_intent_id row) intentVersion (aw_intent_digest row)
    (aw_user_id row) (aw_wallet_binding_id row) bindingVersion (aw_wallet_id row) (aw_wallet_address row) (aw_chain_id row)
    (aw_status row) (aw_decision row) (domainTime (aw_created_at row)) (domainTime (aw_expires_at row))
    (domainTime (aw_decided_at row)) (domainTime (aw_consumed_at row)) (domainOptionalString (aw_operation_key row))
    (domainOptionalVersion (aw_operation_version row)) lifecycleRevision).
Definition equalApproval (a b : Approval) : bool := a == b.
Definition approval_not_found : error := notFound CodeApprovalNotFound "Approval is not accessible.".

Definition FindApprovalByID scope (id : string) : call Approval :=
  act! plain_code (Scope_Validate scope);
  find_row (FindApprovalByID_q (sc_tenantID scope) id (sc_actorID scope)) approval_not_found approvalFromRow.
Definition FindApprovalByIntent scope (intentID : string) (intentVersion : Z) (digest : string) : call Approval :=
  act! plain_code (Scope_Validate scope);
  sql! version := plain_code (dbVersion intentVersion) in
  find_row (FindApprovalByIntent_q (sc_tenantID scope) intentID version digest (sc_actorID scope)) approval_not_found
    approvalFromRow.
(** A loop that restores every row. *)
Definition restore_all {Y A} (restore : Y -> result A) (rows : list Y) : result (list A) :=
  fold_result (fun values row => let! value := restore row in Ok (app values [value])) [] rows.
Record ApprovalListOptions := MkListOptions { lo_Limit : Z; lo_Cursor : string; lo_Status : string }.
Definition StoredApprovals scope (options : ApprovalListOptions) : call (list Approval) :=
  act! plain_code (Scope_Validate scope);
  sql! rows := mapped_statement (ListApprovals_q (sc_tenantID scope) (sc_actorID scope) (lo_Status options)
                                   (lo_Cursor options) (lo_Limit options)) in
  plain_code (restore_all approvalFromRow rows).
Definition created_approval (found : string * approval_row) : result (Approval * bool) :=
  let! restored := approvalFromRow found in Ok (restored, true).
Definition CreateApproval scope (value : Approval) : call (Approval * bool) :=
  act! plain_code (Scope_Validate scope);
  act! plain_code (Approval_Validate value);
  act! plain_code (fail_if (apr_userID value != sc_actorID scope) (inaccessible "Approval is not accessible."));
  sql! params := plain_code (approvalCreateParams value) in
  insert_or (CreateApproval_q (sc_tenantID scope) (apr_approvalID value) params) created_approval
    (fun mapped => found_instead
       (FindApprovalByIntent scope (apr_intentID value) (apr_intentVersion value) (apr_intentDigest value)) mapped
       (fun existing => equalApproval existing value)
       (conflicts "Approval conflicts with the existing intent approval.")).
Definition updateApprovalParams scope (value : Approval) (expectedRevision : Z) : result UpdateApprovalParams :=
  let! operationVersion := dbOptionalVersion (apr_operationVersion value) in
  let! revision := dbVersion (apr_lifecycleRevision value) in
  let! expected := dbVersion expectedRevision in
  Ok (MkUpdateApproval (sc_tenantID scope) (apr_approvalID value) (apr_status value) (apr_decision value)
        (dbTime (apr_decidedAt value)) (dbTime (apr_consumedAt value)) (dbOptionalString (apr_operationKey value))
        operationVersion revision expected (sc_actorID scope)).
Definition UpdateApproval scope (value : Approval) (expectedRevision : Z) : call Approval :=
  act! plain_code (Scope_Validate scope);
  act! plain_code (Approval_Validate value);
  act! plain_code (fail_if (apr_userID value != sc_actorID scope) (inaccessible "Approval is not accessible."));
  sql! p := plain_code (updateApprovalParams scope value expectedRevision) in
  find_row (UpdateApproval_q p) (conflicts "Approval changed concurrently.") approvalFromRow.

(** * Policies *)
Definition policyCreateParams (value : Policy) : result policy_row :=
  let! _ := dbVersion (pol_version value) in
  let! lifecycleRevision := dbVersion (pol_lifecycleRevision value) in
  Ok (MkPolicyRow (pol_name value) (scp_UserID (pol_scope value))
        (dbOptionalString (scp_WalletBindingID (pol_scope value))) (scp_IntentTypes (pol_scope value)) (pol_rules value)
        (pol_status value) (dbTime (pol_createdAt value)) (dbTime (pol_validFrom value)) (dbTime (pol_expiresAt value))
        lifecycleRevision).
Definition policyFromRow (found : string * Z * policy_row) : result Policy :=
  let '(id, v, row) := found in
  let! version := domainVersion v in
  let! lifecycleRevision := domainVersion (pr_lifecycle_version row) in
  Policy_Restore (Policies.MkParams id version (pr_name row)
    (Policies.MkScope (pr_user_id row) (domainOptionalString (pr_wallet_binding_id row)) (pr_intent_types row)) (pr_rules row)
    (domainTime (pr_created_at row)) (domainTime (pr_valid_from row)) (domainTime (pr_expires_at row)))
    (pr_status row) lifecycleRevision.
Definition equalPolicy (a b : Policy) : bool :=
  (pol_policyID a == pol_policyID b) && (pol_version a == pol_version b) && (pol_name a == pol_name b)
  && (pol_scope a == pol_scope b) && (pol_rules a == pol_rules b) && (pol_status a == pol_status b)
  && (pol_createdAt a == pol_createdAt b) && (pol_validFrom a == pol_validFrom b) && (pol_expiresAt a == pol_expiresAt b)
  && (pol_lifecycleRevision a == pol_lifecycleRevision b).
Definition policy_not_accessible : error := inaccessible "Policy is not accessible.".
Definition FindPolicyByID scope (id : string) (version : Z) : call Policy :=
  act! plain_code (Scope_Validate scope);
  sql! dbv := plain_code (dbVersion version) in
  find_row (FindPolicyByID_q (sc_tenantID scope) id dbv (sc_actorID scope))
    (notFound CodePolicyNotFound "Policy is not accessible.") policyFromRow.
Definition CreatePolicy scope (value : Policy) : call (Policy * bool) :=
  act! plain_code (Scope_Validate scope);
  act! plain_code (Policy_Validate value);
  act! plain_code (fail_if (scp_UserID (pol_scope value) != sc_actorID scope) policy_not_accessible);
  sql! params := plain_code (policyCreateParams value) in
  insert_or (CreatePolicy_q (sc_tenantID scope) (pol_policyID value) (pol_version value) params)
    (fun found => let! restored := policyFromRow found in Ok (restored, true))
    (fun mapped => found_instead (FindPolicyByID scope (pol_policyID value) (pol_version value)) mapped
                     (fun existing => equalPolicy existing value) mapped).
Record Applicability := MkApplicability {
  app_UserID : string; app_WalletBindingID : string; app_IntentType : Type_; app_EvaluatedAt : Time
}.
Definition FindApplicablePolicies scope (input : Applicability) : call (list Policy) :=
  act! plain_code (Scope_Validate scope);
  act! plain_code (fail_if ((app_UserID input != sc_actorID scope) || (app_UserID input == "")
                            || negb (Type_Valid (app_IntentType input)) || IsZero (app_EvaluatedAt input))
         (AppErrors.New CodePolicyInvalid "Policy applicability input is invalid." false true true));
  sql! rows := mapped_statement (FindApplicablePolicies_q (sc_tenantID scope) (app_UserID input)
                 (dbOptionalString (app_WalletBindingID input)) (Type_string (app_IntentType input))
                 (dbTime (app_EvaluatedAt input))) in
  plain_code (restore_all policyFromRow rows).
Definition UpdatePolicy scope (value : Policy) (expectedRevision : Z) : call Policy :=
  act! plain_code (Scope_Validate scope);
  act! plain_code (Policy_Validate value);
  act! plain_code (fail_if (scp_UserID (pol_scope value) != sc_actorID scope) policy_not_accessible);
  sql! version := plain_code (dbVersion (pol_version value)) in
  sql! revision := plain_code (dbVersion (pol_lifecycleRevision value)) in
  sql! expected := plain_code (dbVersion expectedRevision) in
  find_row (UpdatePolicy_q (sc_tenantID scope) (pol_policyID value) version (pol_status value) revision expected
              (sc_actorID scope)) (conflicts "Policy changed concurrently.") policyFromRow.

(** [v, _ := dbVersion(x)] *)
Definition version_or_zero (v : Z) : Z := match dbVersion v with Ok v => v | Err _ => 0 end.
Definition evaluation_columns scope (r : Evaluator.Result) : evaluation_row :=
  MkEvaluationRow (res_PolicyID r) (version_or_zero (res_PolicyVersion r)) (sc_actorID scope) (res_IntentID r)
    (version_or_zero (res_IntentVersion r)) (res_IntentDigest r) (res_Stage r) (res_Decision r) (dbTime (res_EvaluatedAt r)).
Fixpoint create_findings (tenant key : string) (index : nat) (findings : list Finding) : statement Foundation unit :=
  match findings with
  | [] => fun f => Ok (tt, f)
  | finding :: rest =>
      then_do (CreatePolicyFinding_q tenant key (Z.of_nat index) finding) (fun _ => create_findings tenant key (S index) rest)
  end.
(** The transaction: the evaluation and its findings. *)
Definition CreatePolicyEvaluation_tx scope (key : string) (r : Evaluator.Result) : statement Foundation unit :=
  then_do (CreatePolicyEvaluation_q (sc_tenantID scope) key (evaluation_columns scope r))
    (fun _ => create_findings (sc_tenantID scope) key 0 (res_Findings r)).
Definition equalPolicyResult (a b : Evaluator.Result) : bool :=
  (res_PolicyID a == res_PolicyID b) && (res_PolicyVersion a == res_PolicyVersion b) && (res_IntentID a == res_IntentID b)
  && (res_IntentVersion a == res_IntentVersion b) && (res_IntentDigest a == res_IntentDigest b)
  && (res_Stage a == res_Stage b) && (res_Decision a == res_Decision b) && (res_EvaluatedAt a == res_EvaluatedAt b)
  && (res_Findings a == res_Findings b).
(** [uint64(x)] of an [int64] *)
Definition evaluation_from_rows (row : evaluation_row) (findings : list Finding) : Evaluator.Result :=
  Evaluator.MkResult (vw_policy_id row) (u64 (vw_policy_version row)) (vw_intent_id row) (u64 (vw_intent_version row))
    (vw_intent_digest row) (vw_stage row) (vw_decision row) (domainTime (vw_evaluated_at row)) findings.
Definition FindPolicyEvaluation scope (key : string) : call Evaluator.Result :=
  act! plain_code (Scope_Validate scope);
  unless_no_rows (FindPolicyEvaluation_q (sc_tenantID scope) key (sc_actorID scope))
    (Err (notFound CodePolicyNotFound "Policy evaluation is not accessible."))
    (fun row => sql! findings := mapped_statement (FindPolicyFindings_q (sc_tenantID scope) key) in
                Return (Ok (evaluation_from_rows row findings))).
Definition CreatePolicyEvaluation scope (r : Evaluator.Result) : call Evaluator.Result :=
  act! plain_code (Scope_Validate scope);
  act! plain_code (fail_if ((res_PolicyID r == "") || (res_PolicyVersion r == 0) || (res_IntentID r == "")
                            || (res_IntentVersion r == 0) || (res_IntentDigest r == "") || IsZero (res_EvaluatedAt r)
                            || negb (stored_decision (res_Decision r)))
         (AppErrors.New CodePolicyInvalid "Policy evaluation is invalid." false true true));
  let key := PolicyEvaluationKey r in
  Execute (CreatePolicyEvaluation_tx scope key r) (fun answer =>
    match answer with
    | Ok _ => Return (Ok r)
    | Err e =>
        let mapped := mapDatabaseError e in
        if negb (isUniqueViolation mapped) then Return (Err mapped)
        else mbind (FindPolicyEvaluation scope key) (fun found => Return (
          match found with
          | Ok existing => if equalPolicyResult existing r then Ok existing
                           else Err (conflicts "Policy evaluation conflicts with existing evidence.")
          | Err _ => Err (conflicts "Policy evaluation conflicts with existing evidence.")
          end))
    end).

(** * Audit records *)
Definition StoreAudit scope (record : AuditRecord) : call unit :=
  sql! params := plain_code (auditParams scope record) in
  mapped_statement (AppendAudit_q params).
(** [uint64(x)] of the version columns. *)
Definition audit_from_row (r : AuditRecord) : AuditRecord :=
  let e := aud_Event r in
  MkAuditRecord
    (MkEvent (ev_EventID e) (ev_Type e) (ev_OccurredAt e) (ev_IntentID e) (u64 (ev_IntentVersion e)) (ev_IntentDigest e)
       (ev_ApprovalID e) (ev_PolicyID e) (u64 (ev_PolicyVersion e)) (ev_PolicyDecision e) (ev_PolicyEvaluationKey e)
       (ev_ExecutionID e) (u64 (ev_ExecutionRevision e)) (ev_ExecutionRequestID e) (ev_ExecutionRequestKey e)
       (ev_ExecutionStatus e) (ev_RecoveryReasonCode e) (ev_WalletBindingID e) (u64 (ev_WalletBindingVersion e))
       (ev_UserID e) (ev_OperationKey e) (u64 (ev_OperationVersion e)))
    (aud_ActorType r) (aud_ActorID r) (aud_RequestID r) (aud_TraceID r) (aud_ResourceType r) (aud_ResourceID r)
    (aud_PreviousState r) (aud_NewState r) (aud_SafeReasonCode r) (aud_SourceComponent r).
Definition FindAuditByResource scope (resourceType resourceID : string) : call (list AuditRecord) :=
  act! plain_code (Scope_Validate scope);
  sql! rows := mapped_statement (FindAuditByResource_q (sc_tenantID scope) resourceType resourceID) in
  Return (Ok (audit_from_row <$> rows)).

(** * Transactions across the aggregates *)
Definition with_audit {Y} (q : statement Foundation Y) (record : audit_row) : statement Foundation Y :=
  then_do q (fun y => then_do (AppendAudit_q record) (fun _ f => Ok (y, f))).
(** A conflicting insert answers with the stored value only when it is the same. *)
Definition same_or_error {A} (find : call A) (same : A -> bool) (e : error) : call (A * bool) :=
  found_instead find e same e.
Definition CreateIntentWithAudit scope (value : Intent) (record : AuditRecord) : call (Intent * bool) :=
  act! plain_code (Scope_Validate scope);
  act! plain_code (Intent_Validate value);
  act! plain_code (fail_if (intent_owner value != sc_actorID scope)
                     (inaccessible "Intent owner does not match the trusted request scope."));
  sql! params := plain_code (intentCreateParams value) in
  sql! auditValue := plain_code (auditParams scope record) in
  insert_or (with_audit (CreateIntent_q (sc_tenantID scope) (prm_IntentID (int_params value)) params) auditValue)
    created_intent
    (same_or_error (FindIntentByClientRequestID scope (prm_ClientRequestID (int_params value)))
       (fun existing => equalIntent existing value)).
Definition CreateApprovalWithAudit scope (value : Approval) (record : AuditRecord) : call (Approval * bool) :=
  act! plain_code (Scope_Validate scope);
  act! plain_code (Approval_Validate value);
  act! plain_code (fail_if (apr_userID value != sc_actorID scope)
                     (inaccessible "Approval owner does not match the trusted request scope."));
  sql! params := plain_code (approvalCreateParams value) in
  sql! auditValue := plain_code (auditParams scope record) in
  insert_or (with_audit (CreateApproval_q (sc_tenantID scope) (apr_approvalID value) params) auditValue) created_approval
    (same_or_error (FindApprovalByIntent scope (apr_intentID value) (apr_intentVersion value) (apr_intentDigest value))
       (fun existing => equalApproval existing value)).

Definition ConsumeApproval_tx (p : UpdateApprovalParams) (r : RequestParams) (e : ExecutionParams) (record : audit_row)
    : statement Foundation (string * approval_row) :=
  with_audit (then_do (UpdateApproval_q p) (fun row => then_do (CreateExecution_rows r e) (fun _ f => Ok (row, f)))) record.
(** The approval, the execution, and whether this call created it. *)
Definition ConsumeApprovalAndCreateExecution scope (consumed : Approval) (expectedRevision : Z) (value : Execution)
    (record : AuditRecord) : call (Approval * (Execution * bool)) :=
  act! plain_code (Scope_Validate scope);
  act! plain_code (Approval_Validate consumed);
  act! plain_code (Execution_Validate value);
  act! plain_code (fail_if (apr_userID consumed != sc_actorID scope)
                     (inaccessible "Approval owner does not match the trusted request scope."));
  act! plain_code (fail_if ((expectedRevision == max_uint64) || (apr_lifecycleRevision consumed != u64 (expectedRevision + 1)))
                     (conflicts "Approval revision must advance exactly once."));
  sql! approvalParams := plain_code (updateApprovalParams scope consumed expectedRevision) in
  sql! requestParams := plain_code (requestCreateParams scope (exe_request value)) in
  sql! executionParams := plain_code (executionCreateParams scope value) in
  sql! auditValue := plain_code (auditParams scope record) in
  Execute (ConsumeApproval_tx approvalParams requestParams executionParams auditValue) (fun answer =>
    match answer with
    | Ok row => Return (let! restored := approvalFromRow row in Ok (restored, (value, true)))
    | Err e =>
        mbind (FindExecutionByOperationKey_ scope (req_operationKey (exe_request value))
                 (req_operationVersion (exe_request value))) (fun found =>
          match found with
          | Ok existing =>
              if equalExecutionRequest (exe_request existing) (exe_request value) then
                sql! approval := FindApprovalByID scope (apr_approvalID consumed) in
                Return (Ok (approval, (existing, false)))
              else Return (Err (conflicts "Operation already has a different execution request."))
          | Err _ => Return (Err (mapDatabaseError e))
          end)
    end).

(** The error of a transaction that updates an execution. *)
Definition execution_write_error (e : error) : error :=
  if errors_Is e ErrNoRows then conflicts "Execution changed concurrently." else mapDatabaseError e.
Definition execution_write {Y} (q : statement Foundation Y) (value : Execution) : call Execution :=
  Execute q (fun r => Return (match r with Ok _ => Ok value | Err e => Err (execution_write_error e) end)).
Definition UpdateExecutionWithAudit scope (value : Execution) (expected : Z) (record : AuditRecord) : call Execution :=
  act! plain_code (Scope_Validate scope);
  act! plain_code (Execution_Validate value);
  act! plain_code (fail_if ((expected == max_uint64) || (exe_revision value != u64 (expected + 1)))
                     (conflicts "Execution revision must advance exactly once."));
  sql! update := plain_code (executionUpdateParams scope value expected) in
  sql! auditValue := plain_code (auditParams scope record) in
  execution_write (with_audit (on_runtime (UpdateExecution_row update)) auditValue) value.
(** [if inserted != 1 { return pgx.ErrNoRows }] *)
Definition insert_evidence (p : EvidenceParams) : statement Foundation unit :=
  then_do (on_runtime (AppendVerificationEvidence_rows p)) (fun inserted f => do! fail_if (inserted != 1) ErrNoRows; Ok (tt, f)).
Definition AppendEvidenceAndVerify scope (evidence : Execution.Result) (verified : Execution) (expected : Z)
    (record : AuditRecord) : call Execution :=
  act! plain_code (Scope_Validate scope);
  act! plain_code (Result_Validate evidence);
  act! plain_code (Execution_Validate verified);
  act! plain_code (fail_if ((exe_status verified != StatusVerified) || (res_status evidence != StatusVerified)
                            || (res_executionID evidence != ExecutionID verified) || (expected == max_uint64)
                            || (exe_revision verified != u64 (expected + 1))
                            || (res_executionVersion evidence != exe_revision verified))
         (AppErrors.New CodeExecutionInvalid "Verification evidence does not match the verified execution." false true true));
  sql! version := plain_code (dbVersion (res_executionVersion evidence)) in
  sql! update := plain_code (executionUpdateParams scope verified expected) in
  sql! auditValue := plain_code (auditParams scope record) in
  execution_write (with_audit (then_do (on_runtime (UpdateExecution_row update))
                     (fun _ => insert_evidence (evidence_params scope evidence version (res_errorCode evidence)))) auditValue)
    verified.

(** * What a read answers is stored *)
Definition identity_at scope (user : string) (i : Identity) (f : Foundation) : Prop :=
  exists row, fd_identities f !! (sc_tenantID scope, user) = Some row /\ user = sc_actorID scope /\ identity_from_row user row = Ok i.
Definition binding_at scope (id : string) (b : Binding) (f : Foundation) : Prop :=
  exists row, fd_wallets f !! (sc_tenantID scope, id) = Some row /\ wr_user_id row = sc_actorID scope /\ walletFromRow (id, row) = Ok b.

Lemma FindIdentityByID_finds scope user : finds (FindIdentityByID scope user) (identity_at scope user).
Proof.
  apply finds_plain. intros _ _. eapply finds_impl, finds_unless. intros i f (row & f' & Hq & Hi). unfold FindIdentityByID_q, select_row in Hq.
  destruct (user == sc_actorID scope) eqn:Hu; [|done]. destruct (fd_identities f !! _) as [r|] eqn:Hr; [|done]. injection Hq as <- <-.
  reflect_all. by exists r.
Qed.
Lemma StoredBindingByID_finds scope id : finds (StoredBindingByID scope id) (binding_at scope id).
Proof.
  apply finds_plain. intros _ _. eapply finds_impl, finds_unless. intros b f (y & f' & Hq & Hb).
  unfold FindWalletBindingByID_q, select_row, owned_wallet in Hq. destruct (fd_wallets f !! _) as [r|] eqn:Hr; [|done].
  destruct (wr_user_id r == sc_actorID scope) eqn:Hu; [|done]. injection Hq as <- <-. reflect_all. by exists r.
Qed.
End repositories.
