(* ===== verification/AutonomyStore.v ===== *)
(** internal/storage/postgres: the autonomy repository (autonomy_repository.go,
    autonomy_authority.go, autonomy_runtime_store.go), over the tables of
    db/migrations/000004_phase13_autonomy.up.sql.

    Claiming due occurrences is at the end.  Contexts are never nil. *)
From stdpp Require Import gmap strings.
From S2P Require Import Prelude GoStrings GoTime AppErrors Storage Statements Autonomy AutonomyLedger AutonomyRuntime.
Open Scope string_scope.
Open Scope Z_scope.
Open Scope go_scope.

(** What a [numeric(78,0) CHECK (> 0)] column holds of a text, as text again. *)
Class PgAmount := amount_column : string -> result string.
Class PgAmountSpec `{PgAmount} : Prop := {
  amount_column_exact s z : SetString10 s = Some z -> 0 < z < 10 ^ 78 -> amount_column s = Ok (FormatUint z);
  amount_column_overflow s z : SetString10 s = Some z -> 10 ^ 78 <= z -> is_ok (amount_column s) = false
}.

(** * Tables *)
(** (tenant_id, id, version) *)
Abbreviation version_key := (string * string * Z)%type (only parsing).
(** (tenant_id, occurrence_id) *)
Abbreviation occurrence_key2 := (string * string)%type (only parsing).

Record grant_row := MkGrantRow {
  gr_principal_user_id : string; gr_wallet_binding_id : string; gr_intent_type : string; gr_schedule_id : option string;
  gr_expires_at : Time; gr_paused : bool; gr_revoked : bool; gr_per_action : option string; gr_aggregate_cap : option string;
  gr_rolling_cap : option string; gr_rolling_window_seconds : option Z; gr_step_up : option string;
  gr_allowed_recipients : list string; gr_allowed_tokens : list string; gr_allowed_chains : list string
}.
Record delegation_row := MkDelegationRow {
  dr_principal_user_id : string; dr_agent_id : string; dr_capabilities : list string; dr_expires_at : Time; dr_revoked : bool;
  dr_non_transitive : bool
}.
Record schedule_row := MkScheduleRow {
  sr_user_id : string; sr_agent_id : string; sr_wallet_binding_id : string; sr_wallet_binding_version : Z;
  sr_intent_type : string; sr_grant_id : string; sr_grant_version : Z; sr_delegation_id : string; sr_delegation_version : Z;
  sr_status : string; sr_spec_digest : string; sr_schedule_digest : string; sr_timezone : string; sr_start_at : Time;
  sr_end_at : option Time; sr_max_recipients : Z; sr_recurrence : string; sr_missed_run : string; sr_concurrency : string;
  sr_created_at : Time; sr_updated_at : Time
}.
Record occurrence_row := MkOccurrenceRow {
  or_occurrence_key : string; or_schedule_id : string; or_schedule_version : Z; or_schedule_digest : string;
  or_scheduled_at : Time; or_status : string; or_grant_id : string; or_grant_version : Z; or_intent_id : option string;
  or_approval_id : option string; or_execution_id : option string; or_lease_owner : option string;
  or_lease_until : option Time; or_fence : Z; or_reason_code : string; or_created_at : Time; or_updated_at : Time
}.
Record reservation_row := MkReservationRow { rr_amount : string; rr_reserved_at : Time; rr_state : string }.
Record stop_row := MkStopRow {
  tr_active : bool; tr_scope : string; tr_actor_id : string; tr_reason_code : string; tr_changed_at : Time
}.
Record Tables := MkTables {
  tb_grants : gmap (string * string * Z) grant_row;
  tb_delegations : gmap (string * string * Z) delegation_row;
  tb_schedules : gmap (string * string * Z) schedule_row;
  tb_occurrences : gmap (string * string) occurrence_row;
  tb_reservations : gmap (string * string * Z * string) reservation_row;
  tb_stops : gmap string stop_row
}.
Definition no_tables : Tables := MkTables ∅ ∅ ∅ ∅ ∅ ∅.
Definition set_occurrences (t : Tables) m : Tables :=
  MkTables (tb_grants t) (tb_delegations t) (tb_schedules t) m (tb_reservations t) (tb_stops t).
Definition set_reservations (t : Tables) m : Tables :=
  MkTables (tb_grants t) (tb_delegations t) (tb_schedules t) (tb_occurrences t) m (tb_stops t).

(** A [uint64] parameter of a [bigint] column. *)
Definition bigint (v : Z) : result Z :=
  if max_int64 <? v then Err (errorf1 "%s is greater than maximum value for int8" (FormatUint v)) else Ok v.
Definition nullableString (value : string) : option string := if value == "" then None else Some value.
Definition stringValue (value : option string) : string := default "" value.
Definition foreign_key_violation : error := PgError "23503".
(** A nullable amount parameter. *)
Definition nullable_amount `{PgAmount} (value : string) : result (option string) :=
  match nullableString value with
  | None => Ok None
  | Some s => let! text := amount_column s in Ok (Some text)
  end.
Definition nullableDuration (d : Duration) : option Z := if d <=? 0 then None else Some (d / Second).
Definition nullableTime `{PgTimestamp} (value : Time) : option Time :=
  if IsZero value then None else Some (timestamptz (UTC value)).

Section repository.
Context `{TimeZones} `{PgTimestamp} `{PgAmount}.
Implicit Types (db : Tables) (scope : Scope).

(** * Schedules *)
Definition schedule_columns (value : Schedule) : result schedule_row :=
  let! wallet_version := bigint (sch_WalletBindingVersion value) in
  let! grant_version := bigint (sch_GrantVersion value) in
  let! delegation_version := bigint (sch_DelegationVersion value) in
  let r := spc_Recurrence (sch_Spec value) in
  Ok (MkScheduleRow (prc_UserID (sch_Principal value)) (prc_AgentID (sch_Principal value)) (sch_WalletBindingID value)
        wallet_version (spc_Intent (sch_Spec value)) (sch_GrantID value) grant_version (sch_DelegationID value)
        delegation_version (sch_Status value) (spc_TemplateDigest (sch_Spec value)) (sch_Digest value) (rec_Location r)
        (timestamptz (UTC (rec_Start r))) (nullableTime (rec_End r)) (spc_MaxRecipients (sch_Spec value)) (rec_Frequency r)
        (spc_Missed (sch_Spec value)) (spc_Concurrency (sch_Spec value)) (timestamptz (UTC (sch_CreatedAt value)))
        (timestamptz (UTC (sch_UpdatedAt value)))).

(** [INSERT ... ON CONFLICT DO NOTHING]: how many rows it added. *)
Definition insert_schedule (tenant : string) (value : Schedule) : statement Tables Z := fun db =>
  let! version := bigint (sch_Version value) in
  let! row := schedule_columns value in
  let k := (tenant, sch_ID value, version) in
  match tb_schedules db !! k with
  | Some _ => Ok (0, db)
  | None =>
      match tb_grants db !! (tenant, sr_grant_id row, sr_grant_version row),
            tb_delegations db !! (tenant, sr_delegation_id row, sr_delegation_version row) with
      | Some _, Some _ =>
          Ok (1, MkTables (tb_grants db) (tb_delegations db) (<[k := row]> (tb_schedules db)) (tb_occurrences db)
                   (tb_reservations db) (tb_stops db))
      | _, _ => Err foreign_key_violation
      end
  end.

Definition SaveAutonomySchedule scope (value : Schedule) : method Tables (result unit) :=
  act! plain_code (Scope_Validate scope);
  act! plain_code (Schedule_Validate value);
  sql! added := mapped_statement (insert_schedule (sc_tenantID scope) value) in
  if added =? 0 then
    sql! existing := mapped_statement
      (select_row (fun db => tb_schedules db !! (sc_tenantID scope, sch_ID value, sch_Version value))) in
    plain_code (fail_if (negb ((sr_schedule_digest existing == sch_Digest value) && (sr_status existing == sch_Status value)))
                  (errorf "schedule immutable conflict"))
  else Return (Ok tt).

(** The value [LoadAutonomySchedule] rebuilds; the columns hold neither the
    weekday nor the day of the month. *)
Definition restore_schedule (tenant id : string) (version : Z) (row : schedule_row) : result Schedule :=
  let! loc := map_err (errorf_wrap "restore schedule timezone: %w" []) (LoadLocation (sr_timezone row)) in
  let rule := MkRecurrence (sr_recurrence row) (sr_start_at row) (sr_timezone row == "Local") (default zero_time (sr_end_at row))
                0 0 (sr_timezone row) in
  let value :=
    MkSchedule id version (MkPrincipal tenant (sr_user_id row) (sr_agent_id row)) (sr_wallet_binding_id row)
      (sr_wallet_binding_version row) (sr_grant_id row) (sr_grant_version row) (sr_delegation_id row)
      (sr_delegation_version row) (sr_created_at row) (sr_updated_at row) (sr_status row)
      (MkScheduleSpec rule (sr_missed_run row) (sr_concurrency row) (sr_max_recipients row) (sr_intent_type row)
         (sr_spec_digest row)) (sr_schedule_digest row) in
  do! map_err (errorf_wrap "restore autonomy schedule: %w" []) (Schedule_Validate value);
  Ok value.

Definition LoadAutonomySchedule scope (id : string) (version : Z) : method Tables (result Schedule) :=
  act! plain_code (Scope_Validate scope);
  act! plain_code (fail_if (max_int64 <? version) (errorf "version is outside PostgreSQL range"));
  unless_no_rows
    (select_row (fun db =>
       match tb_schedules db !! (sc_tenantID scope, id, version) with
       | Some row => if sr_user_id row == sc_actorID scope then Some row else None
       | None => None
       end))
    (Err (notFound CodeAuthorizationRequired "Schedule is not accessible."))
    (fun row => plain_code (restore_schedule (sc_tenantID scope) id version row)).

(** [ORDER BY schedule_id, version] with text compared byte by byte. *)
Definition listed_before (x y : string * Z) : Prop := String.ltb x.1 y.1 = true \/ (x.1 = y.1 /\ x.2 <= y.2).
#[global] Instance listed_before_dec : RelDecision listed_before.
Proof. intros x y. unfold listed_before. apply _. Defined.
Definition schedule_keys (tenant user : string) db : list (string * Z) :=
  merge_sort listed_before
    (omap (fun '((t, id, v), row) => if (t == tenant) && (sr_user_id row == user) then Some (id, v) else None)
       (map_to_list (tb_schedules db))).
Fixpoint load_each scope (keys : list (string * Z)) (loaded : list Schedule) : method Tables (result (list Schedule)) :=
  match keys with
  | [] => Return (Ok loaded)
  | (id, version) :: keys =>
      sql! value := LoadAutonomySchedule scope id version in
      load_each scope keys (app loaded [value])
  end.
Definition ListAutonomySchedules scope : method Tables (result (list Schedule)) :=
  act! plain_code (Scope_Validate scope);
  sql! keys := mapped_statement (select_row (fun db => Some (schedule_keys (sc_tenantID scope) (sc_actorID scope) db))) in
  load_each scope keys [].

(** * Occurrences *)
Definition occurrence_columns (value : Occurrence) (now : Time) : result occurrence_row :=
  let! schedule_version := bigint (occ_ScheduleVersion value) in
  let! grant_version := bigint (occ_GrantVersion value) in
  let! fence := bigint (occ_Fence value) in
  Ok (MkOccurrenceRow (occ_Key value) (occ_ScheduleID value) schedule_version (occ_ScheduleDigest value)
        (timestamptz (UTC (occ_ScheduledAt value))) (occ_Status value) (occ_GrantID value) grant_version
        (nullableString (occ_IntentID value)) (nullableString (occ_ApprovalID value)) (nullableString (occ_ExecutionID value))
        (nullableString (occ_LeaseOwner value)) (nullableTime (occ_LeaseUntil value)) fence (occ_Reason value)
        (timestamptz (UTC (occ_CreatedAt value))) (timestamptz (UTC now))).

Definition with_key (tenant key : string) db : option occurrence_row :=
  (fun e => e.2.2) <$> list_find (fun e => e.1.1 = tenant /\ or_occurrence_key e.2 = key) (map_to_list (tb_occurrences db)).
Definition insert_occurrence (tenant : string) (value : Occurrence) (now : Time) : statement Tables Z := fun db =>
  let! row := occurrence_columns value now in
  match with_key tenant (occ_Key value) db with
  | Some _ => Ok (0, db)
  | None =>
      let k := (tenant, occ_ID value) in
      match tb_occurrences db !! k with
      | Some _ => Err (PgError "23505")
      | None =>
          match tb_schedules db !! (tenant, or_schedule_id row, or_schedule_version row),
                tb_grants db !! (tenant, or_grant_id row, or_grant_version row) with
          | Some _, Some _ => Ok (1, set_occurrences db (<[k := row]> (tb_occurrences db)))
          | _, _ => Err foreign_key_violation
          end
      end
  end.

(** [now] is [time.Now()]. *)
Definition SaveAutonomyOccurrence scope (value : Occurrence) (now : Time) : method Tables (result unit) :=
  act! plain_code (Scope_Validate scope);
  act! plain_code (fail_if ((occ_ID value == "") || (occ_Key value == "") || (occ_ScheduleID value == "")
                            || (occ_ScheduleVersion value =? 0)) (errorf "invalid occurrence"));
  act! plain_code (Occurrence_Validate value);
  sql! added := mapped_statement (insert_occurrence (sc_tenantID scope) value now) in
  if added =? 0 then
    sql! existing := mapped_statement (select_row (with_key (sc_tenantID scope) (occ_Key value))) in
    plain_code (fail_if (negb ((or_schedule_digest existing == occ_ScheduleDigest value)
                               && (or_grant_id existing == occ_GrantID value)
                               && (or_grant_version existing =? occ_GrantVersion value)))
                  (errorf "occurrence immutable conflict"))
  else Return (Ok tt).

(** An occurrence joined with its schedule, of the user. *)
Definition owned_occurrence (tenant user id : string) db : option occurrence_row :=
  match tb_occurrences db !! (tenant, id) with
  | Some row =>
      match tb_schedules db !! (tenant, or_schedule_id row, or_schedule_version row) with
      | Some s => if sr_user_id s == user then Some row else None
      | None => None
      end
  | None => None
  end.
Definition restore_occurrence (id : string) (row : occurrence_row) : result Occurrence :=
  let o := MkOccurrence id (or_occurrence_key row) (or_schedule_id row) (or_schedule_digest row) (or_grant_id row)
             (or_grant_version row) (or_schedule_version row) (or_scheduled_at row) (or_created_at row) (or_status row)
             (stringValue (or_lease_owner row)) (default zero_time (or_lease_until row)) (or_fence row)
             (stringValue (or_intent_id row)) (stringValue (or_approval_id row)) (stringValue (or_execution_id row))
             (or_reason_code row) in
  do! map_err (errorf_wrap "restore autonomy occurrence: %w" []) (Occurrence_Validate o);
  Ok o.
Definition LoadAutonomyOccurrence scope (id : string) : method Tables (result Occurrence) :=
  act! plain_code (Scope_Validate scope);
  unless_no_rows (select_row (owned_occurrence (sc_tenantID scope) (sc_actorID scope) id))
    (Err (errorf "occurrence not found")) (fun row => plain_code (restore_occurrence id row)).

(** [UPDATE ... FROM autonomy_schedules s WHERE ...]: the row, when it is the
    user's and passes [condition], is replaced; how many rows changed. *)
Definition update_occurrence (tenant user id : string) (condition : occurrence_row -> bool)
    (change : occurrence_row -> occurrence_row) : statement Tables Z := fun db =>
  match owned_occurrence tenant user id db with
  | Some row =>
      if condition row then Ok (1, set_occurrences db (<[(tenant, id) := change row]> (tb_occurrences db))) else Ok (0, db)
  | None => Ok (0, db)
  end.
Definition at_fence (fence : Z) (row : occurrence_row) : bool := or_fence row =? fence.

Definition blocked (reason : ReasonCode) (now : Time) (row : occurrence_row) : occurrence_row :=
  MkOccurrenceRow (or_occurrence_key row) (or_schedule_id row) (or_schedule_version row) (or_schedule_digest row)
    (or_scheduled_at row) OccurrenceBlocked (or_grant_id row) (or_grant_version row) (or_intent_id row) (or_approval_id row)
    (or_execution_id row) None None (or_fence row) reason (or_created_at row) (timestamptz (UTC now)).
Definition awaiting_approval (approvalID : string) (now : Time) (row : occurrence_row) : occurrence_row :=
  MkOccurrenceRow (or_occurrence_key row) (or_schedule_id row) (or_schedule_version row) (or_schedule_digest row)
    (or_scheduled_at row) OccurrenceApprovalRequired (or_grant_id row) (or_grant_version row) (or_intent_id row)
    (Some approvalID) (or_execution_id row) (or_lease_owner row) (or_lease_until row) (or_fence row) (or_reason_code row)
    (or_created_at row) (timestamptz (UTC now)).

(** The fence parameter, a [uint64], is encoded before anything is sent; the
    reason column takes the package's codes only. *)
Definition block_statement scope (value : Occurrence) (reason : ReasonCode) (now : Time) : statement Tables Z := fun db =>
  let! fence := bigint (occ_Fence value) in
  let! r := update_occurrence (sc_tenantID scope) (sc_actorID scope) (occ_ID value) (at_fence fence) (blocked reason now) db in
  do! fail_if ((r.1 =? 1) && (reason != "") && negb (ReasonCode_Valid reason)) (PgError "23514");
  Ok r.
Definition BlockAutonomyOccurrence scope (value : Occurrence) (reason : ReasonCode) (now : Time) : method Tables (result unit) :=
  act! plain_code (Scope_Validate scope);
  sql! _ := mapped_statement (block_statement scope value reason now) in
  Return (Ok tt).

Definition bind_statement scope (value : Occurrence) (approvalID : string) (now : Time) : statement Tables Z := fun db =>
  let! fence := bigint (occ_Fence value) in
  update_occurrence (sc_tenantID scope) (sc_actorID scope) (occ_ID value)
    (fun row => at_fence fence row && bool_decide (or_approval_id row = None)) (awaiting_approval approvalID now) db.
Definition BindAutonomyApproval scope (value : Occurrence) (approvalID : string) (now : Time) : method Tables (result unit) :=
  act! plain_code (Scope_Validate scope);
  act! plain_code (fail_if (approvalID == "") (errorf "approval ID is required"));
  sql! _ := mapped_statement (bind_statement scope value approvalID now) in
  Return (Ok tt).

(** [o.status='CLAIMED' AND o.lease_owner=$4 AND o.fence=$5 AND o.lease_until>$6] *)
Definition lease_held (worker : string) (fence : Z) (at_ : Time) (row : occurrence_row) : bool :=
  (or_status row == OccurrenceClaimed) && (or_lease_owner row == Some worker) && at_fence fence row
  && match or_lease_until row with Some until => After until (timestamptz (UTC at_)) | None => false end.
Definition fence_statement scope (id worker : string) (fence : Z) (at_ : Time) : statement Tables Z := fun db =>
  let! fence := bigint fence in
  update_occurrence (sc_tenantID scope) (sc_actorID scope) id (lease_held worker fence at_) (fun row => row) db.
Definition zero_occurrence : Occurrence := MkOccurrence "" "" "" "" "" 0 0 zero_time zero_time "" "" zero_time 0 "" "" "" "".
Definition CheckAutonomyDispatchFence scope (id worker : string) (fence : Z) (at_ : Time)
  : method Tables (result (Occurrence * bool)) :=
  act! plain_code (Scope_Validate scope);
  sql! affected := mapped_statement (fence_statement scope id worker fence at_) in
  if affected =? 1 then
    sql! current := LoadAutonomyOccurrence scope id in
    Return (Ok (current, true))
  else
    mbind (LoadAutonomyOccurrence scope id) (fun current =>
      Return (Ok (match current with
                  | Ok o => o
                  | Err _ => zero_occurrence
                  end, false))).

(** * Grants and delegations (autonomy_authority.go) *)
Definition grant_columns (g : Grant) : result grant_row :=
  let! per := nullable_amount (grt_PerActionBaseUnits g) in
  let! aggregate := nullable_amount (grt_AggregateCapBaseUnits g) in
  let! rolling := nullable_amount (grt_RollingWindowCapBaseUnits g) in
  let! step := nullable_amount (grt_StepUpAboveBaseUnits g) in
  let window := nullableDuration (grt_RollingWindow g) in
  do! fail_if (bool_decide (window = Some 0)) (PgError "23514");
  Ok (MkGrantRow (grt_PrincipalUserID g) (grt_WalletBindingID g) (grt_Intent g) (nullableString (grt_ScheduleID g))
        (timestamptz (UTC (grt_ExpiresAt g))) (grt_Paused g) (grt_Revoked g) per aggregate rolling window step
        (grt_AllowedRecipients g) (grt_AllowedTokens g) (grt_AllowedChains g)).
Definition insert_grant (tenant : string) (g : Grant) : statement Tables Z := fun db =>
  let! version := bigint (grt_Version g) in
  let! row := grant_columns g in
  let k := (tenant, grt_ID g, version) in
  match tb_grants db !! k with
  | Some _ => Ok (0, db)
  | None => Ok (1, MkTables (<[k := row]> (tb_grants db)) (tb_delegations db) (tb_schedules db) (tb_occurrences db)
                     (tb_reservations db) (tb_stops db))
  end.
Definition same_grant_columns (row : grant_row) (g : Grant) : bool :=
  (gr_principal_user_id row == grt_PrincipalUserID g) && (gr_wallet_binding_id row == grt_WalletBindingID g)
  && (gr_intent_type row == grt_Intent g) && (stringValue (gr_schedule_id row) == grt_ScheduleID g)
  && (gr_expires_at row =? grt_ExpiresAt g) && (gr_paused row == grt_Paused g) && (gr_revoked row == grt_Revoked g)
  && (stringValue (gr_per_action row) == grt_PerActionBaseUnits g)
  && (stringValue (gr_aggregate_cap row) == grt_AggregateCapBaseUnits g)
  && (stringValue (gr_rolling_cap row) == grt_RollingWindowCapBaseUnits g)
  && (stringValue (gr_step_up row) == grt_StepUpAboveBaseUnits g)
  && (gr_allowed_recipients row == grt_AllowedRecipients g) && (gr_allowed_tokens row == grt_AllowedTokens g)
  && (gr_allowed_chains row == grt_AllowedChains g)
  && match gr_rolling_window_seconds row with
     | Some window => i64 (window * Second) =? grt_RollingWindow g
     | None => grt_RollingWindow g =? 0
     end.
Definition SaveAutonomyGrant scope (g : Grant) : method Tables (result unit) :=
  act! plain_code (Scope_Validate scope);
  act! plain_code (Grant_Validate g);
  sql! added := mapped_statement (insert_grant (sc_tenantID scope) g) in
  if added =? 0 then
    sql! existing := mapped_statement (select_row (fun db => tb_grants db !! (sc_tenantID scope, grt_ID g, grt_Version g))) in
    plain_code (fail_if (negb (same_grant_columns existing g)) (errorf "grant immutable conflict"))
  else Return (Ok tt).

Definition restore_grant (id : string) (version : Z) (row : grant_row) : result Grant :=
  let g := MkGrant id version (gr_principal_user_id row) (gr_wallet_binding_id row) (gr_intent_type row)
             (stringValue (gr_schedule_id row)) (gr_expires_at row) (gr_paused row) (gr_revoked row)
             (stringValue (gr_per_action row)) (stringValue (gr_aggregate_cap row)) (stringValue (gr_rolling_cap row))
             (match gr_rolling_window_seconds row with Some window => i64 (window * Second) | None => 0 end)
             (stringValue (gr_step_up row)) (gr_allowed_recipients row) (gr_allowed_tokens row) (gr_allowed_chains row) in
  do! map_err (errorf_wrap "restore grant: %w" []) (Grant_Validate g);
  Ok g.
Definition LoadAutonomyGrant scope (id : string) (version : Z) : method Tables (result Grant) :=
  act! plain_code (Scope_Validate scope);
  unless_no_rows
    (fun db => let! v := bigint version in
               select_row (fun db => match tb_grants db !! (sc_tenantID scope, id, v) with
                                     | Some row => if gr_principal_user_id row == sc_actorID scope then Some row else None
                                     | None => None
                                     end) db)
    (Err (errorf "grant not found")) (fun row => plain_code (restore_grant id version row)).

Definition delegation_columns (d : Delegation) : delegation_row :=
  MkDelegationRow (dlg_PrincipalUserID d) (dlg_AgentID d) (dlg_Capabilities d) (timestamptz (UTC (dlg_ExpiresAt d)))
    (dlg_Revoked d) (dlg_NonTransitive d).
Definition insert_delegation (tenant : string) (d : Delegation) : statement Tables Z := fun db =>
  let! version := bigint (dlg_Version d) in
  let k := (tenant, dlg_ID d, version) in
  match tb_delegations db !! k with
  | Some _ => Ok (0, db)
  | None => Ok (1, MkTables (tb_grants db) (<[k := delegation_columns d]> (tb_delegations db)) (tb_schedules db)
                     (tb_occurrences db) (tb_reservations db) (tb_stops db))
  end.
Definition SaveAutonomyDelegation scope (d : Delegation) : method Tables (result unit) :=
  act! plain_code (Scope_Validate scope);
  act! plain_code (Delegation_ValidateStructure d);
  sql! added := mapped_statement (insert_delegation (sc_tenantID scope) d) in
  if added =? 0 then
    sql! e := mapped_statement (select_row (fun db => tb_delegations db !! (sc_tenantID scope, dlg_ID d, dlg_Version d))) in
    plain_code (fail_if (negb ((dr_principal_user_id e == dlg_PrincipalUserID d) && (dr_agent_id e == dlg_AgentID d)
                               && (dr_capabilities e == dlg_Capabilities d) && (dr_expires_at e =? dlg_ExpiresAt d)
                               && (dr_revoked e == dlg_Revoked d) && (dr_non_transitive e == dlg_NonTransitive d)))
                  (errorf "delegation immutable conflict"))
  else Return (Ok tt).
Definition LoadAutonomyDelegation scope (id : string) (version : Z) : method Tables (result Delegation) :=
  act! plain_code (Scope_Validate scope);
  unless_no_rows
    (fun db => let! v := bigint version in
               select_row (fun db => match tb_delegations db !! (sc_tenantID scope, id, v) with
                                     | Some row => if dr_principal_user_id row == sc_actorID scope then Some row else None
                                     | None => None
                                     end) db)
    (Err (errorf "delegation not found"))
    (fun row => Return (Ok (MkDelegation id version (dr_principal_user_id row) (dr_agent_id row) (dr_capabilities row)
                              (dr_expires_at row) (dr_revoked row) (dr_non_transitive row)))).

(** * Spending *)
(** [SUM(amount_base_units)] over the reservations of a grant version that
    pass [condition] and are not released. *)
Definition sum_reserved (tenant grant : string) (version : Z) (condition : reservation_row -> bool) db : Z :=
  sum_over (fun '(t, g, v, _) row =>
    if (t == tenant) && (g == grant) && (v =? version) && condition row
       && ((rr_state row == Reserved) || (rr_state row == Committed))
    then amount_of (rr_amount row) else 0) (tb_reservations db).

(** The serializable transaction of [ReserveAutonomySpend]: one atomic step,
    or a failure that leaves the database alone. *)
Definition reserve_transaction (tenant : string) (grant : Grant) (occurrence amount : string) (at_ : Time)
  : statement Tables bool := fun db =>
  let z := amount_of amount in
  let! version := bigint (grt_Version grant) in
  let k := (tenant, grt_ID grant, version, occurrence) in
  match tb_reservations db !! k with
  | Some existing => Ok (rr_amount existing == amount, db)
  | None =>
      if over_cap (grt_AggregateCapBaseUnits grant)
           (sum_reserved tenant (grt_ID grant) version (fun _ => true) db) z then Ok (false, db)
      else if over_cap (grt_RollingWindowCapBaseUnits grant)
           (sum_reserved tenant (grt_ID grant) version
              (fun row => timestamptz (Add at_ (- grt_RollingWindow grant)) <=? rr_reserved_at row) db) z then Ok (false, db)
      else
        let! text := amount_column amount in
        match tb_grants db !! (tenant, grt_ID grant, version), tb_occurrences db !! (tenant, occurrence) with
        | Some _, Some _ =>
            Ok (true, set_reservations db
                        (<[k := MkReservationRow text (timestamptz (UTC at_)) Reserved]> (tb_reservations db)))
        | _, _ => Err foreign_key_violation
        end
  end.
Definition ReserveAutonomySpend scope (grant : Grant) (occurrence amount : string) (at_ : Time) : method Tables (result bool) :=
  act! plain_code (Scope_Validate scope);
  act! plain_code (Grant_Validate grant);
  act! plain_code (fail_if (negb (positive_limit amount)) (errorf "invalid spend amount"));
  mapped_statement (reserve_transaction (sc_tenantID scope) grant occurrence amount at_).

Definition released (row : reservation_row) : reservation_row := MkReservationRow (rr_amount row) (rr_reserved_at row) "RELEASED".
Definition release_statement (tenant occurrence : string) : statement Tables unit := fun db =>
  Ok (tt, set_reservations db
            (map_imap (fun '(t, _, _, o) row =>
               Some (if (t == tenant) && (o == occurrence) && (rr_state row == Reserved) then released row else row))
               (tb_reservations db))).
Definition ReleaseAutonomySpend scope (occurrence : string) : method Tables (result unit) :=
  act! plain_code (Scope_Validate scope);
  mapped_statement (release_statement (sc_tenantID scope) occurrence).

(** * Emergency stops *)
Definition LoadAutonomyEmergencyStop scope : method Tables (result EmergencyStop) :=
  act! plain_code (Scope_Validate scope);
  unless_no_rows (select_row (fun db => tb_stops db !! sc_tenantID scope)) (Ok no_stop)
    (fun row =>
       let e := MkEmergencyStop (tr_active row) (tr_scope row) (tr_changed_at row) (tr_actor_id row) (tr_reason_code row) in
       act! plain_code (map_err (errorf_wrap "malformed emergency stop state: %w" []) (EmergencyStop_Validate e));
       Return (Ok e)).
Definition SetAutonomyEmergencyStop scope (e : EmergencyStop) : method Tables (result unit) :=
  act! plain_code (Scope_Validate scope);
  act! plain_code (EmergencyStop_Validate e);
  mapped_statement (fun db =>
    Ok (tt, MkTables (tb_grants db) (tb_delegations db) (tb_schedules db) (tb_occurrences db) (tb_reservations db)
              (<[sc_tenantID scope := MkStopRow (es_Active e) (es_Scope e) (es_Actor e) (es_Reason e)
                                        (timestamptz (UTC (es_ChangedAt e)))]> (tb_stops db)))).

(** * The runtime's store (autonomy_runtime_store.go) *)
Definition RuntimeStore_Reserve scope (occurrenceID grantID : string) (grantVersion : Z) (amount : string) (at_ : Time)
  : method Tables (result bool) :=
  sql! grant := LoadAutonomyGrant scope grantID grantVersion in
  ReserveAutonomySpend scope grant occurrenceID amount at_.
End repository.

(** internal/storage/postgres: claiming due occurrences
    (autonomy_repository.go, ClaimAutonomyDue and ClaimNextAutonomyDue): the
    three statements of the transaction, the methods, and the step relation in
    which any number of sessions claim at once.

    An instant parameter is rounded to the column's resolution by the driver.
    Ties of ORDER BY are broken by the position in the table. *)

(** * Statements *)
Definition active_status (s : string) : bool :=
  (s == OccurrenceClaimed) || (s == OccurrenceDispatched) || (s == OccurrenceReconcile).
Definition waiting_status (s : string) : bool := (s == OccurrenceDue) || (s == OccurrenceClaimed).

Section statements.
Implicit Types (db : Tables).

(** [NOT EXISTS (SELECT 1 ... active)], negated. *)
Definition overlapped (tenant id : string) (row : occurrence_row) db : bool :=
  existsb (fun '((t, other), active) =>
    (t == tenant) && (or_schedule_id active == or_schedule_id row) && active_status (or_status active) && (other != id))
    (map_to_list (tb_occurrences db)).
Definition claim_ready (at_ : Time) (tenant id : string) (row : occurrence_row) db : bool :=
  (or_scheduled_at row <=? at_) && waiting_status (or_status row)
  && match or_lease_until row with None => true | Some until => until <=? at_ end
  && negb (overlapped tenant id row db).

(** [ORDER BY scheduled_at, occurrence_id LIMIT 1] with text compared byte by
    byte. *)
Definition due_before (x y : string * Time) : bool := (x.2 <? y.2) || ((x.2 =? y.2) && String.leb x.1 y.1).
Definition first_by {A} (rank : A -> string * Time) (l : list A) : option A :=
  foldr (fun x best => match best with
                       | Some y => if due_before (rank x) (rank y) then Some x else Some y
                       | None => Some x
                       end) None l.
(** The occurrences of a schedule version that can be claimed, less the rows
    in [locked]. *)
Definition ready_occurrences (at_ : Time) (k : string * string * Z) (locked : list (string * string)) db : list (string * Time) :=
  let '(tenant, sid, version) := k in
  omap (fun '((t, id), row) =>
    if (t == tenant) && (or_schedule_id row == sid) && (or_schedule_version row =? version)
       && negb (bool_decide ((t, id) ∈ locked)) && claim_ready at_ t id row db
    then Some (id, or_scheduled_at row) else None) (map_to_list (tb_occurrences db)).
Definition candidate_of (at_ : Time) (k : string * string * Z) db : option (string * Time) :=
  first_by (fun c => c) (ready_occurrences at_ k [] db).

(** The first statement: [FOR UPDATE OF schedule SKIP LOCKED LIMIT 1].  The
    scoped claim asks for a tenant and a user, the worker's for neither. *)
Definition lock_schedule (owner : option (string * string)) (at_ : Time) (locked : list (string * string * Z)) db
  : option (string * string * Z * schedule_row) :=
  fst <$> first_by snd
    (omap (fun '((t, sid, v), row) =>
       if match owner with Some (tenant, user) => (t == tenant) && (sr_user_id row == user) | None => true end
          && (sr_status row == ScheduleActive) && negb (bool_decide ((t, sid, v) ∈ locked))
       then (fun c => ((t, sid, v, row), c)) <$> candidate_of at_ (t, sid, v) db
       else None) (map_to_list (tb_schedules db))).
(** The second, on a fresh snapshot: [FOR UPDATE OF occurrence SKIP LOCKED]. *)
Definition pick_occurrence (k : string * string * Z) (user : string) (at_ : Time) (locked : list (string * string)) db : option string :=
  match tb_schedules db !! k with
  | Some row =>
      if (sr_user_id row == user) && (sr_status row == ScheduleActive)
      then fst <$> first_by (fun c => c) (ready_occurrences at_ k locked db) else None
  | None => None
  end.
(** [UPDATE ... SET status='CLAIMED', ..., updated_at=$2 RETURNING fence], and
    the commit. *)
Definition taken (worker : string) (until : Time) (row : occurrence_row) : occurrence_row :=
  MkOccurrenceRow (or_occurrence_key row) (or_schedule_id row) (or_schedule_version row) (or_schedule_digest row)
    (or_scheduled_at row) OccurrenceClaimed (or_grant_id row) (or_grant_version row) (or_intent_id row) (or_approval_id row)
    (or_execution_id row) (Some worker) (Some until) (or_fence row + 1) (or_reason_code row) (or_created_at row) until.
Definition take_occurrence (tenant id worker : string) (until : Time) : statement Tables Z := fun db =>
  match tb_occurrences db !! (tenant, id) with
  | None => Err ErrNoRows
  | Some row =>
      do! fail_if (or_fence row =? max_int64) (PgError "22003");
      let row := taken worker until row in
      Ok (or_fence row, set_occurrences db (<[(tenant, id) := row]> (tb_occurrences db)))
  end.
End statements.

(** * The methods *)
(** What other transactions hold locked while a claim runs its statements. *)
Record locks := MkLocks { lk_schedules : list (string * string * Z); lk_occurrences : list (string * string) }.

Section methods.
Context `{PgTimestamp}.

Definition with_Fence (fence : Z) (o : Occurrence) : Occurrence :=
  MkOccurrence (occ_ID o) (occ_Key o) (occ_ScheduleID o) (occ_ScheduleDigest o) (occ_GrantID o) (occ_GrantVersion o)
    (occ_ScheduleVersion o) (occ_ScheduledAt o) (occ_CreatedAt o) (occ_Status o) (occ_LeaseOwner o) (occ_LeaseUntil o) fence
    (occ_IntentID o) (occ_ApprovalID o) (occ_ExecutionID o) (occ_Reason o).
(** The statements after the schedule is locked. *)
Definition claim_locked (scope : Scope) (k : string * string * Z) (worker : string) (now : Time) (lease : Duration) (held : locks)
  : method Tables (result (option (Scope * Occurrence))) :=
  unless_no_rows
    (select_row (pick_occurrence k (sc_actorID scope) (timestamptz (UTC now)) (lk_occurrences held))) (Ok None)
    (fun id =>
       sql! fence := mapped_statement
         (take_occurrence (sc_tenantID scope) id worker (timestamptz (Add (UTC now) lease))) in
       sql! o := LoadAutonomyOccurrence scope id in
       Return (Ok (Some (scope, with_Fence fence o)))).

Definition ClaimAutonomyDue (scope : Scope) (now : Time) (worker : string) (lease : Duration) (held : locks)
  : method Tables (result (option (Scope * Occurrence))) :=
  act! plain_code (Scope_Validate scope);
  act! plain_code (fail_if ((worker == "") || (lease <=? 0)) (errorf "worker and lease are required"));
  unless_no_rows
    (select_row (lock_schedule (Some (sc_tenantID scope, sc_actorID scope)) (timestamptz (UTC now)) (lk_schedules held)))
    (Ok None) (fun '(k, _) => claim_locked scope k worker now lease held).

Definition ClaimNextAutonomyDue (worker : string) (now : Time) (lease : Duration) (held : locks)
  : method Tables (result (option (Scope * Occurrence))) :=
  act! plain_code (fail_if ((worker == "") || (lease <=? 0)) (errorf "worker and lease are required"));
  unless_no_rows (select_row (lock_schedule None (timestamptz (UTC now)) (lk_schedules held))) (Ok None)
    (fun '((tenant, _, _) as k, row) =>
       sql! scope := plain_code (NewScope tenant (sr_user_id row) ("autonomy-" +:+ worker) "") in
       claim_locked scope k worker now lease held).
End methods.
