(* ===== verification/AutonomyRecords.v ===== *)
(** What the autonomy repository keeps: stored schedule versions never change,
    whatever calls, faults and interleavings follow, and what is read back of
    a stored schedule; and what a grant's reservations add up to. *)
From stdpp Require Import gmap strings.
From S2P Require Import Prelude GoStrings GoTime AppErrors Storage Statements Autonomy AutonomyLedger AutonomyRuntime.
From S2P Require Import AutonomyStore.
Open Scope string_scope.
Open Scope Z_scope.
Open Scope go_scope.

(** * Schedule versions are permanent *)
Definition schedules_kept (db db' : Tables) : Prop :=
  forall k row, tb_schedules db !! k = Some row -> tb_schedules db' !! k = Some row.
#[global] Instance schedules_kept_preorder : PreOrder schedules_kept.
Proof. split; [by intros db k row|intros x y z H1 H2 k row Hk; auto]. Qed.

Lemma same_schedules db db' : tb_schedules db' = tb_schedules db -> schedules_kept db db'.
Proof. intros E k row. by rewrite E. Qed.

Section repository.
Context `{TimeZones} `{PgTimestamp} `{PgAmount}.

(** The calls of the repository that are one statement after another. *)
Inductive repository_call : Type :=
  | RSaveSchedule (value : Schedule)
  | RLoadSchedule (id : string) (version : Z)
  | RListSchedules
  | RSaveOccurrence (value : Occurrence) (now : Time)
  | RLoadOccurrence (id : string)
  | RBlock (value : Occurrence) (reason : ReasonCode) (now : Time)
  | RBind (value : Occurrence) (approvalID : string) (now : Time)
  | RCheckFence (id worker : string) (fence : Z) (at_ : Time)
  | RSaveGrant (g : Grant)
  | RLoadGrant (id : string) (version : Z)
  | RSaveDelegation (d : Delegation)
  | RLoadDelegation (id : string) (version : Z)
  | RReserve (occurrence grantID : string) (version : Z) (amount : string) (at_ : Time)
  | RRelease (occurrence : string)
  | RLoadStop
  | RSetStop (e : EmergencyStop).

Definition discard {A} (m : method Tables (result A)) : method Tables (result unit) := mtry m (fun _ => Return (Ok tt)).
Definition call_method (scope : Scope) (c : repository_call) : method Tables (result unit) :=
  match c with
  | RSaveSchedule value => SaveAutonomySchedule scope value
  | RLoadSchedule id version => discard (LoadAutonomySchedule scope id version)
  | RListSchedules => discard (ListAutonomySchedules scope)
  | RSaveOccurrence value now => SaveAutonomyOccurrence scope value now
  | RLoadOccurrence id => discard (LoadAutonomyOccurrence scope id)
  | RBlock value reason now => BlockAutonomyOccurrence scope value reason now
  | RBind value approvalID now => BindAutonomyApproval scope value approvalID now
  | RCheckFence id worker fence at_ => discard (CheckAutonomyDispatchFence scope id worker fence at_)
  | RSaveGrant g => SaveAutonomyGrant scope g
  | RLoadGrant id version => discard (LoadAutonomyGrant scope id version)
  | RSaveDelegation d => SaveAutonomyDelegation scope d
  | RLoadDelegation id version => discard (LoadAutonomyDelegation scope id version)
  | RReserve occurrence grantID version amount at_ => discard (RuntimeStore_Reserve scope occurrence grantID version amount at_)
  | RRelease occurrence => ReleaseAutonomySpend scope occurrence
  | RLoadStop => discard (LoadAutonomyEmergencyStop scope)
  | RSetStop e => SetAutonomyEmergencyStop scope e
  end.

(** A statement that leaves the schedules alone. *)
Lemma keeps_untouched {Y} (q : statement Tables Y) :
  (forall db y db', q db = Ok (y, db') -> tb_schedules db' = tb_schedules db) -> keeps_statement schedules_kept q.
Proof. intros Hq db y db' E. apply same_schedules. by eapply Hq. Qed.
Lemma update_occurrence_schedules tenant user id condition change db y db' :
  update_occurrence tenant user id condition change db = Ok (y, db') -> tb_schedules db' = tb_schedules db.
Proof. unfold update_occurrence. destruct (owned_occurrence _ _ _ _); [destruct (condition _)|]; by intros [= _ <-]. Qed.

Ltac untouched := apply keeps_untouched; intros db y db' E;
  repeat first
    [ progress (apply rbind_ok in E as (? & ? & E))
    | discriminate E
    | (by injection E as _ <-)
    | exact (update_occurrence_schedules _ _ _ _ _ _ _ _ E)
    | case_match ].

Lemma insert_schedule_keeps tenant value : keeps_statement schedules_kept (insert_schedule tenant value).
Proof.
  intros db y db'. unfold insert_schedule. intros Hi.
  apply rbind_ok in Hi as (v & _ & Hi). apply rbind_ok in Hi as (row & _ & Hi).
  destruct (tb_schedules db !! _) eqn:Hk; [by injection Hi as _ <-|].
  case_match; [|done]. case_match; [|done]. injection Hi as _ <-.
  intros k r Hr. cbn. rewrite lookup_insert_ne; [done|congruence].
Qed.
Lemma insert_occurrence_keeps tenant value now : keeps_statement schedules_kept (insert_occurrence tenant value now).
Proof. unfold insert_occurrence. untouched. Qed.
Lemma insert_grant_keeps tenant g : keeps_statement schedules_kept (insert_grant tenant g).
Proof. unfold insert_grant. untouched. Qed.
Lemma insert_delegation_keeps tenant d : keeps_statement schedules_kept (insert_delegation tenant d).
Proof. unfold insert_delegation. untouched. Qed.
Lemma reserve_keeps tenant g occurrence amount at_ :
  keeps_statement schedules_kept (reserve_transaction tenant g occurrence amount at_).
Proof. unfold reserve_transaction. untouched. Qed.
Lemma block_keeps scope value reason now : keeps_statement schedules_kept (block_statement scope value reason now).
Proof.
  apply keeps_untouched. intros db y db' E. unfold block_statement in E. apply rbind_ok in E as (f & _ & E).
  apply rbind_ok in E as ([n db''] & Hu & E). apply rbind_ok in E as ([] & _ & [= _ <-]). by eapply update_occurrence_schedules.
Qed.
Lemma bind_keeps scope value id now : keeps_statement schedules_kept (bind_statement scope value id now).
Proof. unfold bind_statement. untouched. Qed.
Lemma fence_keeps scope id worker fence at_ : keeps_statement schedules_kept (fence_statement scope id worker fence at_).
Proof. unfold fence_statement. untouched. Qed.
Lemma release_keeps tenant occurrence : keeps_statement schedules_kept (release_statement tenant occurrence).
Proof. unfold release_statement. untouched. Qed.
Lemma load_each_keeps scope keys loaded : keeps schedules_kept (load_each scope keys loaded).
Proof. revert loaded. induction keys as [|[id v] keys IH]; intros loaded; cbn [load_each]; [done|]. keeps_tac. Qed.
#[local] Hint Resolve insert_schedule_keeps insert_occurrence_keeps insert_grant_keeps insert_delegation_keeps reserve_keeps
  block_keeps bind_keeps fence_keeps release_keeps load_each_keeps : keeps.

Lemma repository_call_keeps scope c : keeps schedules_kept (call_method scope c).
Proof.
  destruct c; cbn [call_method]; unfold discard; keeps_tac. untouched.
Qed.

(** Before a statement, other sessions make at most calls of the repository,
    themselves with faults. *)
Definition other_calls (t : turn Tables) : Prop :=
  forall db : Tables, exists (scope : Scope) (c : repository_call) (faults : list fate),
    before t db = snd (run (call_method scope c) (MkTurn id <$> faults) db).

(** Stored schedule versions are permanent: in every history of calls of
    the repository, from any number of sessions, with statements refused or
    their replies lost, and other sessions' calls between any two statements,
    a row of the schedules table stays as it was inserted.  No call turns an
    ACTIVE version into a PAUSED or REVOKED one. *)
Theorem schedule_versions_permanent (scope : Scope) (c : repository_call) (turns : list (turn Tables)) (db : Tables)
    (k : string * string * Z) (row : schedule_row) (Hk : tb_schedules db !! k = Some row)
    (Hothers : Forall other_calls turns) :
  tb_schedules (snd (run (call_method scope c) turns db)) !! k = Some row.
Proof.
  apply (run_keeps schedules_kept (call_method scope c) turns db (repository_call_keeps scope c)); [|exact Hk].
  eapply Forall_impl; [exact Hothers|]. intros t Ht d. destruct (Ht d) as (scope' & c' & faults & ->).
  apply run_keeps; [exact _|apply repository_call_keeps|]. apply Forall_fmap, Forall_true. intros f d'. reflexivity.
Qed.
End repository.

(** * What is read back *)
Section roundtrip.
Context `{TimeZones} `{PgTimestamp} `{PgAmount}.

(** A schedule's instants, and the driver's roundings of them. *)
Definition stored_exactly (value : Schedule) : Prop :=
  let r := spc_Recurrence (sch_Spec value) in
  Forall (fun t => timestamptz t = t) [rec_Start r; rec_End r; sch_CreatedAt value; sch_UpdatedAt value].
Definition in_bigint (value : Schedule) : Prop :=
  Forall (fun v => v <= max_int64) [sch_Version value; sch_WalletBindingVersion value; sch_GrantVersion value; sch_DelegationVersion value].

Lemma bigint_small v : v <= max_int64 -> bigint v = Ok v.
Proof. intros Hv. unfold bigint. by rewrite (proj2 (Z.ltb_ge _ _)). Qed.

(** The row of a schedule whose instants are stored exactly. *)
Definition row_of (value : Schedule) : schedule_row :=
  let r := spc_Recurrence (sch_Spec value) in
  MkScheduleRow (prc_UserID (sch_Principal value)) (prc_AgentID (sch_Principal value)) (sch_WalletBindingID value)
    (sch_WalletBindingVersion value) (spc_Intent (sch_Spec value)) (sch_GrantID value) (sch_GrantVersion value)
    (sch_DelegationID value) (sch_DelegationVersion value) (sch_Status value) (spc_TemplateDigest (sch_Spec value))
    (sch_Digest value) (rec_Location r) (rec_Start r) (if IsZero (rec_End r) then None else Some (rec_End r))
    (spc_MaxRecipients (sch_Spec value)) (rec_Frequency r) (spc_Missed (sch_Spec value)) (spc_Concurrency (sch_Spec value))
    (sch_CreatedAt value) (sch_UpdatedAt value).
Lemma schedule_columns_exact value : stored_exactly value -> in_bigint value -> schedule_columns value = Ok (row_of value).
Proof.
  unfold stored_exactly, in_bigint. rewrite !Forall_cons. intros (Hs & He & Hc & Hu & _) (_ & Hw & Hg & Hd & _).
  unfold schedule_columns, row_of, nullableTime, UTC. rewrite !bigint_small by done. cbn [rbind]. by rewrite Hs, He, Hc, Hu.
Qed.

Lemma save_fresh scope value db : Scope_Validate scope = Ok tt -> Schedule_Validate value = Ok tt ->
  stored_exactly value -> in_bigint value ->
  tb_schedules db !! (sc_tenantID scope, sch_ID value, sch_Version value) = None ->
  is_Some (tb_grants db !! (sc_tenantID scope, sch_GrantID value, sch_GrantVersion value)) ->
  is_Some (tb_delegations db !! (sc_tenantID scope, sch_DelegationID value, sch_DelegationVersion value)) ->
  exists db', run_alone (SaveAutonomySchedule scope value) db = (Ok tt, db') /\
    tb_schedules db' = <[(sc_tenantID scope, sch_ID value, sch_Version value) := row_of value]> (tb_schedules db).
Proof.
  intros Hs Hv He Hb Hfresh [g Hg] [d Hd]. eexists. split; [|shelve].
  unfold SaveAutonomySchedule, plain_code, mtry. cbn [mbind]. rewrite Hs. cbn [mbind]. rewrite Hv.
  unfold run_alone. cbn [mbind run mapped_statement attempt outcome_of quiet before head tail default Datatypes.id].
  unfold insert_schedule, Datatypes.id. rewrite schedule_columns_exact by done. unfold in_bigint in Hb. rewrite Forall_cons in Hb.
  rewrite bigint_small by apply Hb. cbn [rbind]. rewrite Hfresh. cbn [row_of sr_grant_id sr_grant_version sr_delegation_id sr_delegation_version].
  rewrite Hg, Hd. reflexivity. Unshelve. reflexivity.
Qed.

Lemma restore_monthly tenant id version row : sr_recurrence row = Monthly -> is_ok (restore_schedule tenant id version row) = false.
Proof.
  intros Hm. unfold restore_schedule. destruct (LoadLocation (sr_timezone row)); [|done]. cbn [map_err rbind].
  destruct (Schedule_Validate _) as [[]|] eqn:Hv; [exfalso|done].
  unfold Schedule_Validate in Hv. apply rbind_ok in Hv as ([] & _ & Hv). apply rbind_ok in Hv as ([] & _ & Hv).
  apply rbind_ok in Hv as ([] & Hv & _). unfold ScheduleSpec_Validate in Hv. apply rbind_ok in Hv as ([] & Hv & _).
  unfold Recurrence_Validate in Hv. cbn in Hv. rewrite Hm in Hv. do 4 apply rbind_ok in Hv as ([] & _ & Hv).
  by apply rbind_ok in Hv as ([] & [=] & _).
Qed.
Lemma load_alone scope id version db : Scope_Validate scope = Ok tt -> version <= max_int64 ->
  run_alone (LoadAutonomySchedule scope id version) db =
  (match tb_schedules db !! (sc_tenantID scope, id, version) with
   | Some row => if sr_user_id row == sc_actorID scope then restore_schedule (sc_tenantID scope) id version row
                 else Err (notFound CodeAuthorizationRequired "Schedule is not accessible.")
   | None => Err (notFound CodeAuthorizationRequired "Schedule is not accessible.")
   end, db).
Proof.
  intros Hs Hv. unfold LoadAutonomySchedule, plain_code, mtry. cbn [mbind]. rewrite Hs. cbn [mbind].
  unfold fail_if. rewrite (proj2 (Z.ltb_ge _ _)) by done. unfold run_alone, select_row. cbn. unfold Datatypes.id.
  destruct (tb_schedules db !! _) as [row|]; [|done]. by destruct (sr_user_id row == sc_actorID scope).
Qed.
(** One version that cannot be restored fails the whole list. *)
Lemma load_each_fails scope keys loaded db id version : (id, version) ∈ keys ->
  (forall id v, (id, v) ∈ keys -> snd (run_alone (LoadAutonomySchedule scope id v) db) = db) ->
  is_ok (fst (run_alone (LoadAutonomySchedule scope id version) db)) = false ->
  is_ok (fst (run_alone (load_each scope keys loaded) db)) = false.
Proof.
  intros Hin Hsame Hbad. revert loaded. induction keys as [|[i v] keys IH]; intros loaded; [set_solver|].
  cbn [load_each]. rewrite run_alone_mtry. pose proof (Hsame i v ltac:(set_solver)) as Hdb.
  apply elem_of_cons in Hin as [[= -> ->]|Hin].
  - destruct (run_alone (LoadAutonomySchedule scope i v) db) as [[a|e] db']; [done|done].
  - destruct (run_alone (LoadAutonomySchedule scope i v) db) as [[a|e] db']; [|done]. cbn in Hdb. subst db'.
    apply IH; [done|]. intros i' v' Hi'. apply Hsame. set_solver.
Qed.

(** [C38] What is read back of a stored schedule.  A new version whose instants
    the columns hold exactly, of the scope's tenant and user and in a named time
    zone (not "Local", the server's own), is stored and read back as it was,
    provided its rule has weekday 0 and day of month 0: the table has no columns
    for them.  A MONTHLY version is stored as well,
    but can never be loaded, and from then on the user's schedules cannot be
    listed. *)
Theorem schedule_roundtrip (scope : Scope) (value : Schedule) (db : Tables)
    (Hscope : Scope_Validate scope = Ok tt) (Hv : Schedule_Validate value = Ok tt)
    (Hexact : stored_exactly value) (Hbig : in_bigint value)
    (Hversions : forall t id v row, tb_schedules db !! (t, id, v) = Some row -> v <= max_int64)
    (Hlocal : rec_Location (spc_Recurrence (sch_Spec value)) <> "Local")
    (Howner : prc_TenantID (sch_Principal value) = sc_tenantID scope /\ prc_UserID (sch_Principal value) = sc_actorID scope)
    (Hfresh : tb_schedules db !! (sc_tenantID scope, sch_ID value, sch_Version value) = None)
    (Hgrant : is_Some (tb_grants db !! (sc_tenantID scope, sch_GrantID value, sch_GrantVersion value)))
    (Hdelegation : is_Some (tb_delegations db !! (sc_tenantID scope, sch_DelegationID value, sch_DelegationVersion value))) :
  let r := spc_Recurrence (sch_Spec value) in
  exists db', run_alone (SaveAutonomySchedule scope value) db = (Ok tt, db') /\
    (rec_Weekday r = 0 -> rec_DayOfMonth r = 0 ->
       run_alone (LoadAutonomySchedule scope (sch_ID value) (sch_Version value)) db' = (Ok value, db')) /\
    (rec_Frequency r = Monthly ->
       is_ok (fst (run_alone (LoadAutonomySchedule scope (sch_ID value) (sch_Version value)) db')) = false /\
       is_ok (fst (run_alone (ListAutonomySchedules scope) db')) = false).
Proof.
  cbn zeta. destruct (save_fresh scope value db Hscope Hv Hexact Hbig Hfresh Hgrant Hdelegation) as (db' & Hsave & Htab).
  exists db'. split; [done|]. destruct Howner as [Ht Hu].
  assert (sch_Version value <= max_int64) as Hver by (unfold in_bigint in Hbig; rewrite Forall_cons in Hbig; apply Hbig).
  assert (run_alone (LoadAutonomySchedule scope (sch_ID value) (sch_Version value)) db' =
          (restore_schedule (sc_tenantID scope) (sch_ID value) (sch_Version value) (row_of value), db')) as Hload.
  { rewrite load_alone, Htab, lookup_insert_eq by done. cbn [row_of sr_user_id]. by rewrite Hu, eqb_refl. }
  rewrite Hload. split.
  - intros Hw Hd. f_equal. unfold restore_schedule. cbn [row_of sr_timezone].
    pose proof Hv as Hv'. unfold Schedule_Validate, ScheduleSpec_Validate, Recurrence_Validate in Hv'. ok_inv.
    match goal with E : LoadLocation _ = Ok _ |- _ => rewrite E end. cbn [map_err rbind].
    match goal with |- context [Schedule_Validate ?v] => replace v with value end; [by rewrite Hv|].
    match goal with E : IsZero _ || rec_StartLocal _ = false |- _ => apply orb_false_iff in E as [_ Hsl] end.
    destruct value as [i vv [pt pu pa] wb wv g gv dl dv ca ua st [[f s0 sl e w d l] m c mr it td] dg]. cbn in *. subst.
    f_equal. f_equal. f_equal; [by rewrite bool_decide_eq_false_2|]. unfold IsZero. destruct (Z.eqb_spec e zero_time); by subst.
  - intros Hm. assert (is_ok (restore_schedule (sc_tenantID scope) (sch_ID value) (sch_Version value) (row_of value)) = false) as Hbad
      by by apply restore_monthly. split; [done|].
    unfold ListAutonomySchedules, plain_code. rewrite run_alone_mtry. change (run_alone (Return ?a) ?d) with (a, d). rewrite Hscope.
    rewrite run_alone_mtry. cbn [run_alone run mapped_statement select_row attempt]. cbn. apply (load_each_fails _ _ _ _ (sch_ID value) (sch_Version value)).
    + unfold schedule_keys. rewrite merge_sort_Permutation. apply list_elem_of_omap.
      exists ((sc_tenantID scope, sch_ID value, sch_Version value), row_of value). rewrite elem_of_map_to_list, Htab, lookup_insert_eq.
      split; [done|]. cbn. by rewrite Hu, !eqb_refl.
    + intros i v Hin. unfold schedule_keys in Hin. rewrite merge_sort_Permutation in Hin.
      apply list_elem_of_omap in Hin as ([[[t i'] v'] row] & Hin & Hp). rewrite elem_of_map_to_list, Htab in Hin.
      case_match; [|done]. injection Hp as -> ->. rewrite load_alone; [done|done|].
      apply lookup_insert_Some in Hin as [[[= _ _ <-] _]|[_ Hin]]; [done|by eapply Hversions].
    + by rewrite Hload.
Qed.
End roundtrip.

(** Spend reservations in the database (postgres/autonomy_repository.go,
    ReserveAutonomySpend and ReleaseAutonomySpend): the aggregate cap, and what
    happens to a reservation that was released. *)

Section spending.
Context `{TimeZones} `{PgTimestamp} `{PgAmountSpec}.

Inductive spending_call : Type :=
  | SReserve (scope : Scope) (grant : Grant) (occurrence amount : string) (at_ : Time)
  | SRelease (scope : Scope) (occurrence : string).
Definition spend (c : spending_call) (f : fate) (db : Tables) : Tables :=
  match c with
  | SReserve scope grant occurrence amount at_ =>
      snd (run (ReserveAutonomySpend scope grant occurrence amount at_) [MkTurn id f] db)
  | SRelease scope occurrence => snd (run (ReleaseAutonomySpend scope occurrence) [MkTurn id f] db)
  end.
(** The transactions in the order in which they take effect. *)
Definition spend_all (history : list (spending_call * fate)) (db : Tables) : Tables :=
  foldl (fun db '(c, f) => spend c f db) db history.

(** One grant per tenant, identifier and version. *)
Definition the_grant (tenant : string) (grant : Grant) (c : spending_call) : Prop :=
  match c with
  | SReserve scope g _ _ _ =>
      sc_tenantID scope = tenant -> grt_ID g = grt_ID grant -> grt_Version g = grt_Version grant -> g = grant
  | SRelease _ _ => True
  end.
Definition grant_total (tenant : string) (grant : Grant) (db : Tables) : Z :=
  sum_reserved tenant (grt_ID grant) (grt_Version grant) (fun _ => true) db.

Record spending_ok (tenant : string) (grant : Grant) (db : Tables) : Prop := {
  so_amounts : forall k row, tb_reservations db !! k = Some row -> 0 < amount_of (rr_amount row);
  so_total : within (grt_AggregateCapBaseUnits grant) (grant_total tenant grant db)
}.

Lemma amount_column_value s text : positive_limit s = true -> amount_column s = Ok text -> amount_of text = amount_of s.
Proof.
  intros Hp Ht. pose proof (positive_amount s Hp) as Hpos. unfold amount_of in *. unfold positive_limit in Hp.
  destruct (SetString10 s) as [z|] eqn:Hz; [|done]. cbn in Hpos |- *.
  destruct (Z.lt_ge_cases z (10 ^ 78)) as [Hlt|Hge].
  - rewrite (amount_column_exact s z Hz) in Ht by lia. injection Ht as <-. by rewrite SetString10_FormatUint by lia.
  - pose proof (amount_column_overflow s z Hz Hge) as Ho. by rewrite Ht in Ho.
Qed.

(** The outcome of a reservation's transaction. *)
Lemma reserve_transaction_cases tenant grant occurrence amount at_ db ok db' :
  reserve_transaction tenant grant occurrence amount at_ db = Ok (ok, db') ->
  db' = db \/
  exists text, ok = true /\ tb_reservations db !! (tenant, grt_ID grant, grt_Version grant, occurrence) = None /\
    amount_column amount = Ok text /\
    over_cap (grt_AggregateCapBaseUnits grant) (grant_total tenant grant db) (amount_of amount) = false /\
    db' = set_reservations db (<[(tenant, grt_ID grant, grt_Version grant, occurrence) :=
                                   MkReservationRow text (timestamptz (UTC at_)) Reserved]> (tb_reservations db)).
Proof.
  unfold reserve_transaction. intros Hr. apply rbind_ok in Hr as (v & Hv & Hr).
  unfold bigint in Hv. destruct (_ <? _); [discriminate Hv|]. injection Hv as <-.
  destruct (tb_reservations db !! _) eqn:Hk; [left; by injection Hr as _ <-|].
  destruct (over_cap (grt_AggregateCapBaseUnits grant) _ _) eqn:Ha; [left; by injection Hr as _ <-|].
  destruct (over_cap (grt_RollingWindowCapBaseUnits grant) _ _); [left; by injection Hr as _ <-|].
  apply rbind_ok in Hr as (text & Ht & Hr). right. exists text.
  case_match; [|done]. case_match; [|done]. injection Hr as <- <-. by repeat split.
Qed.

Lemma spending_ok_reserve tenant grant t g occurrence amount at_ db ok db' :
  positive_limit amount = true -> (t = tenant -> grt_ID g = grt_ID grant -> grt_Version g = grt_Version grant -> g = grant) ->
  spending_ok tenant grant db -> reserve_transaction t g occurrence amount at_ db = Ok (ok, db') -> spending_ok tenant grant db'.
Proof.
  intros Hp Hg [Ha Ht] Hr. apply reserve_transaction_cases in Hr as [->|(text & -> & Hk & Htext & Hcap & ->)]; [done|].
  pose proof (positive_amount amount Hp) as Hpos. pose proof (amount_column_value amount text Hp Htext) as Hval. split.
  - cbn. intros k row Hrow. apply lookup_insert_Some in Hrow as [[_ <-]|[_ Hrow]]; [cbn; lia|by eapply Ha].
  - unfold grant_total, sum_reserved. cbn [tb_reservations set_reservations]. rewrite sum_over_insert by done. cbn [rr_state rr_amount].
    destruct (_ && _ && _ && _ && _) eqn:Hc; [|apply Ht].
    rewrite !andb_true_iff, !bool_decide_eq_true, Z.eqb_eq in Hc. destruct Hc as [[[[-> Hid] Hver] _] _].
    rewrite (Hg eq_refl Hid Hver) in *. apply over_cap_within in Hcap.
    eapply within_cap_le, Hcap. unfold grant_total, sum_reserved. lia.
Qed.
Lemma spending_ok_release tenant grant t occurrence db db' :
  spending_ok tenant grant db -> release_statement t occurrence db = Ok (tt, db') -> spending_ok tenant grant db'.
Proof.
  unfold release_statement. intros [Ha Ht] [= <-]. split; cbn.
  - intros k row. rewrite map_lookup_imap. destruct (tb_reservations db !! k) as [r|] eqn:Hk; [|done]. cbn.
    destruct k as [[[kt kg] kv] ko]. intros [= <-]. pose proof (Ha _ _ Hk). by case_match.
  - eapply within_cap_le, Ht. unfold grant_total, sum_reserved. cbn [tb_reservations set_reservations].
    rewrite (sum_over_imap _ _ (fun '(t', _, _, o) row =>
      if (t' == t) && (o == occurrence) && (rr_state row == Reserved) then released row else row)) by by intros [[[? ?] ?] ?] ?.
    + apply sum_over_mono. intros [[[kt kg] kv] ko] r Hk. pose proof (Ha _ _ Hk) as Hpos.
      destruct ((kt == t) && (ko == occurrence) && (rr_state r == Reserved)) eqn:Hc; [|done].
      cbn [released rr_state rr_amount]. rewrite andb_false_r. destruct (_ && _ && _ && _ && _); lia.
Qed.

Lemma spend_ok tenant grant c f db : the_grant tenant grant c -> spending_ok tenant grant db -> spending_ok tenant grant (spend c f db).
Proof.
  intros Hg Hok. destruct c as [scope g occurrence amount at_|scope occurrence]; cbn [spend the_grant] in *.
  - unfold ReserveAutonomySpend, plain_code, mtry. cbn [mbind]. destruct (Scope_Validate scope) as [[]|]; [|done].
    destruct (Grant_Validate g) as [[]|]; [|done]. destruct (positive_limit amount) eqn:Hp; [|done]. cbn. unfold Datatypes.id.
    destruct f; cbn; try done;
      destruct (reserve_transaction _ _ _ _ _ db) as [[ok db']|] eqn:Hr; cbn; try done; by eapply spending_ok_reserve.
  - unfold ReleaseAutonomySpend, plain_code, mtry. cbn [mbind]. destruct (Scope_Validate scope) as [[]|]; [|done]. cbn.
    unfold Datatypes.id. destruct f; cbn; try done; by eapply spending_ok_release.
Qed.
Lemma spend_all_ok tenant grant history db : Forall (fun '(c, _) => the_grant tenant grant c) history ->
  spending_ok tenant grant db -> spending_ok tenant grant (spend_all history db).
Proof.
  revert db. induction history as [|[c f] history IH]; intros db Hh Hok; cbn; [done|]. apply Forall_cons in Hh as [Hc Hh].
  apply IH; [done|]. by apply spend_ok.
Qed.

(** [C37] The database keeps a grant's reservations within its aggregate cap,
    through every history of reservations and releases, whatever becomes of
    their transactions on the way; but an answer of true is no promise of
    that: an occurrence that already has a reservation for the same amount is
    told true whatever the reservation's state, and nothing is reserved, also
    when it was released and its amount has gone to another occurrence. *)
Theorem reservations_within_cap (tenant : string) (grant : Grant) (history : list (spending_call * fate)) (db : Tables)
    (Hdb : spending_ok tenant grant db) (Hh : Forall (fun '(c, _) => the_grant tenant grant c) history) :
  let db' := spend_all history db in
  within (grt_AggregateCapBaseUnits grant) (grant_total tenant grant db') /\
  (forall scope occurrence amount at_ row, sc_tenantID scope = tenant -> Scope_Validate scope = Ok tt ->
     Grant_Validate grant = Ok tt -> positive_limit amount = true -> grt_Version grant <= max_int64 ->
     tb_reservations db' !! (tenant, grt_ID grant, grt_Version grant, occurrence) = Some row -> rr_amount row = amount ->
     run_alone (ReserveAutonomySpend scope grant occurrence amount at_) db' = (Ok true, db')).
Proof.
  cbn zeta. split; [by apply spend_all_ok|]. set (db' := spend_all history db). clearbody db'.
  intros scope occurrence amount at_ row Ht Hs Hv Hp Hver Hrow Hamount.
  unfold ReserveAutonomySpend, plain_code, mtry. cbn [mbind]. rewrite Hs, Hv, Hp. cbn [negb fail_if mbind].
  unfold run_alone, mapped_statement. cbn. unfold Datatypes.id, reserve_transaction, bigint.
  rewrite (proj2 (Z.ltb_ge _ _)) by done. cbn [rbind]. rewrite Ht, Hrow. cbn. by rewrite Hamount, eqb_refl.
Qed.
End spending.
