(* ===== verification/AutonomyExclusion.v ===== *)
(** FORBID_OVERLAP and fencing: the claims of internal/storage/postgres
    (autonomy_repository.go) by any number of sessions at once, interleaved
    with every other call of the repository. *)
From stdpp Require Import gmap strings.
From S2P Require Import Prelude GoStrings GoTime AppErrors Storage Statements Autonomy AutonomyLedger AutonomyRuntime.
From S2P Require Import AutonomyStore AutonomyRecords.
Open Scope string_scope.
Open Scope Z_scope.
Open Scope go_scope.

(** * The system *)
(** An open claim transaction: what it was called with, the schedule row it
    locked and, once picked, the occurrence row. *)
Record transaction := MkTransaction {
  tx_user : string; tx_now : Time; tx_worker : string; tx_until : Time; tx_schedule : string * string * Z;
  tx_occurrence : option string
}.
Definition tx_row (t : transaction) : option (string * string) := pair (tx_schedule t).1.1 <$> tx_occurrence t.
Record system := MkSystem { sy_tables : Tables; sy_open : gmap nat transaction }.

Definition schedules_locked (s : system) : list (string * string * Z) := (tx_schedule ∘ snd) <$> map_to_list (sy_open s).
Definition occurrences_locked (s : system) : list (string * string) := omap (tx_row ∘ snd) (map_to_list (sy_open s)).

(** Occurrences are saved as the scheduler makes them, not under way. *)
Definition not_under_way (c : repository_call) : Prop :=
  match c with RSaveOccurrence value _ => active_status (occ_Status value) = false | _ => True end.
(** No schedule has two ACTIVE versions. *)
Definition one_active_version (t : Tables) : Prop :=
  forall tenant sid v v' row row', tb_schedules t !! (tenant, sid, v) = Some row ->
    tb_schedules t !! (tenant, sid, v') = Some row' -> sr_status row = ScheduleActive -> sr_status row' = ScheduleActive -> v = v'.

Section system.
Context `{TimeZones} `{PgTimestamp} `{PgAmount}.

Inductive sys_step : system -> system -> Prop :=
  (** A session opens a transaction and locks a schedule no other one holds. *)
  | step_lock s n owner now worker lease k row :
      sy_open s !! n = None ->
      lock_schedule owner (timestamptz (UTC now)) (schedules_locked s) (sy_tables s) = Some (k, row) ->
      sys_step s (MkSystem (sy_tables s) (<[n := MkTransaction (sr_user_id row) (timestamptz (UTC now)) worker
                                                (timestamptz (Add (UTC now) lease)) k None]> (sy_open s)))
  | step_pick s n t id :
      sy_open s !! n = Some t -> tx_occurrence t = None ->
      pick_occurrence (tx_schedule t) (tx_user t) (tx_now t) (occurrences_locked s) (sy_tables s) = Some id ->
      sys_step s (MkSystem (sy_tables s)
                    (<[n := MkTransaction (tx_user t) (tx_now t) (tx_worker t) (tx_until t) (tx_schedule t) (Some id)]> (sy_open s)))
  | step_commit s n t id fence tables :
      sy_open s !! n = Some t -> tx_occurrence t = Some id ->
      take_occurrence (tx_schedule t).1.1 id (tx_worker t) (tx_until t) (sy_tables s) = Ok (fence, tables) ->
      sys_step s (MkSystem tables (delete n (sy_open s)))
  (** Nothing was found, a statement failed, or the session went away. *)
  | step_rollback s n : sys_step s (MkSystem (sy_tables s) (delete n (sy_open s)))
  (** Another call of the repository; an update of a row that a transaction
      holds waits for it. *)
  | step_call s scope c faults tables :
      not_under_way c -> tables = snd (run (call_method scope c) (MkTurn id <$> faults) (sy_tables s)) ->
      one_active_version tables ->
      (forall k, k ∈ occurrences_locked s -> tb_occurrences tables !! k = tb_occurrences (sy_tables s) !! k) ->
      sys_step s (MkSystem tables (sy_open s)).

(** * What calls do to occurrences *)
Definition same_schedule (row row' : occurrence_row) : Prop :=
  or_schedule_id row = or_schedule_id row' /\ or_schedule_version row = or_schedule_version row'.
Definition active (row : occurrence_row) : Prop := active_status (or_status row) = true.
(** No occurrence goes away, becomes active, or gets an older fence. *)
Definition calm (t t' : Tables) : Prop :=
  (forall k row, tb_occurrences t !! k = Some row ->
     exists row', tb_occurrences t' !! k = Some row' /\ same_schedule row row' /\ or_fence row <= or_fence row') /\
  (forall k row', tb_occurrences t' !! k = Some row' -> active row' -> exists row, tb_occurrences t !! k = Some row /\ active row).
#[global] Instance calm_preorder : PreOrder calm.
Proof.
  split.
  - intros t. split; eauto. intros k row Hk. exists row. by repeat split.
  - intros t1 t2 t3 [Hk12 Ha12] [Hk23 Ha23]. split.
    + intros k row Hk. destruct (Hk12 k row Hk) as (r2 & Hk2 & [? ?] & ?). destruct (Hk23 k r2 Hk2) as (r3 & Hk3 & [? ?] & ?).
      exists r3. split; [done|]. unfold same_schedule. split; [split; congruence|lia].
    + intros k row Hk Ha. destruct (Ha23 k row Hk Ha) as (r2 & Hk2 & Ha2). eauto.
Qed.

Lemma calm_same t t' : tb_occurrences t' = tb_occurrences t -> calm t t'.
Proof. intros E. unfold calm. rewrite E. split; eauto. intros k row Hk. exists row. by repeat split. Qed.
Lemma calm_untouched {Y} (q : statement Tables Y) :
  (forall db y db', q db = Ok (y, db') -> tb_occurrences db' = tb_occurrences db) -> keeps_statement calm q.
Proof. intros Hq db y db' E. apply calm_same. by eapply Hq. Qed.

Lemma owned_row tenant user id db row : owned_occurrence tenant user id db = Some row -> tb_occurrences db !! (tenant, id) = Some row.
Proof. unfold owned_occurrence. repeat case_match; congruence. Qed.
Lemma calm_update tenant user id condition change db n db' :
  (forall row, same_schedule row (change row) /\ or_fence row <= or_fence (change row) /\
     (condition row = true -> active (change row) -> active row)) ->
  update_occurrence tenant user id condition change db = Ok (n, db') -> calm db db'.
Proof.
  intros Hc. unfold update_occurrence. destruct (owned_occurrence tenant user id db) as [row|] eqn:Ho; [|by intros [= _ <-]].
  destruct (condition row) eqn:Hcond; [|by intros [= _ <-]]. intros [= _ <-]. apply owned_row in Ho.
  destruct (Hc row) as (Hs & Hf & Ha). split; cbn.
  - intros k r Hk. destruct (decide (k = (tenant, id))) as [->|Hne].
    + rewrite lookup_insert_eq. replace r with row by congruence. eauto.
    + rewrite lookup_insert_ne by done. exists r. by repeat split.
  - intros k r Hk Har. destruct (decide (k = (tenant, id))) as [->|Hne].
    + rewrite lookup_insert_eq in Hk. injection Hk as <-. eauto.
    + rewrite lookup_insert_ne in Hk by done. eauto.
Qed.

Ltac calm_untouched_tac := apply calm_untouched; intros db y db' E;
  repeat first
    [ progress (apply rbind_ok in E as (? & ? & E))
    | discriminate E
    | (by injection E as _ <-)
    | case_match ].

Lemma calm_insert_schedule tenant value : keeps_statement calm (insert_schedule tenant value).
Proof. unfold insert_schedule. calm_untouched_tac. Qed.
Lemma calm_insert_grant tenant g : keeps_statement calm (insert_grant tenant g).
Proof. unfold insert_grant. calm_untouched_tac. Qed.
Lemma calm_insert_delegation tenant d : keeps_statement calm (insert_delegation tenant d).
Proof. unfold insert_delegation. calm_untouched_tac. Qed.
Lemma calm_reserve tenant g occurrence amount at_ : keeps_statement calm (reserve_transaction tenant g occurrence amount at_).
Proof. unfold reserve_transaction. calm_untouched_tac. Qed.
Lemma calm_release tenant occurrence : keeps_statement calm (release_statement tenant occurrence).
Proof. unfold release_statement. calm_untouched_tac. Qed.
Lemma calm_insert_occurrence tenant value now : active_status (occ_Status value) = false ->
  keeps_statement calm (insert_occurrence tenant value now).
Proof.
  intros Hd db y db'. unfold insert_occurrence. intros Hi. apply rbind_ok in Hi as (row & Hrow & Hi).
  assert (or_status row = occ_Status value) as Hst.
  { unfold occurrence_columns in Hrow. repeat (apply rbind_ok in Hrow as (? & _ & Hrow)). by injection Hrow as <-. }
  case_match; [by injection Hi as _ <-|]. case_match eqn:Hnone; [done|]. case_match; [|done]. case_match; [|done].
  injection Hi as _ <-. split; cbn.
  - intros k r Hk. exists r. rewrite lookup_insert_ne by congruence. by repeat split.
  - intros k r Hk Ha. apply lookup_insert_Some in Hk as [[_ <-]|[_ Hk]]; [|eauto]. unfold active in Ha. congruence.
Qed.
Lemma calm_block scope value reason now : keeps_statement calm (block_statement scope value reason now).
Proof.
  intros db y db' E. unfold block_statement in E. apply rbind_ok in E as (f & _ & E).
  apply rbind_ok in E as ([n db''] & Hu & E). apply rbind_ok in E as ([] & _ & [= _ <-]).
  eapply calm_update, Hu. intros row. by repeat split.
Qed.
Lemma calm_bind scope value id now : keeps_statement calm (bind_statement scope value id now).
Proof.
  intros db y db' E. unfold bind_statement in E. apply rbind_ok in E as (f & _ & E).
  eapply calm_update, E. intros row. by repeat split.
Qed.
Lemma calm_fence scope id worker fence at_ : keeps_statement calm (fence_statement scope id worker fence at_).
Proof.
  intros db y db' E. unfold fence_statement in E. apply rbind_ok in E as (f & _ & E).
  eapply calm_update, E. intros row. by repeat split.
Qed.
Lemma calm_load_each scope keys loaded : keeps calm (load_each scope keys loaded).
Proof. revert loaded. induction keys as [|[id v] keys IH]; intros loaded; cbn [load_each]; [done|]. keeps_tac. Qed.
#[local] Hint Resolve calm_insert_schedule calm_insert_grant calm_insert_delegation calm_reserve calm_release
  calm_insert_occurrence calm_block calm_bind calm_fence calm_load_each : keeps.

Lemma call_calm scope c : not_under_way c -> keeps calm (call_method scope c).
Proof. intros Hc. destruct c; cbn [call_method not_under_way] in *; unfold discard; keeps_tac; calm_untouched_tac. Qed.

(** * Mutual exclusion *)
(** The picked occurrence of a transaction is alone with its schedule. *)
Definition alone (t : transaction) (id : string) (tables : Tables) : Prop :=
  let '(tenant, sid, v) := tx_schedule t in
  exists row, tb_occurrences tables !! (tenant, id) = Some row /\ or_schedule_id row = sid /\ or_schedule_version row = v /\
    forall other active_row, tb_occurrences tables !! (tenant, other) = Some active_row -> or_schedule_id active_row = sid ->
      active active_row -> other = id.
Definition exclusive (tables : Tables) : Prop :=
  forall tenant sid id id' row row', tb_occurrences tables !! (tenant, id) = Some row ->
    tb_occurrences tables !! (tenant, id') = Some row' -> or_schedule_id row = sid -> or_schedule_id row' = sid ->
    active row -> active row' -> id = id'.
Record sys_ok (s : system) : Prop := {
  ok_versions : one_active_version (sy_tables s);
  ok_exclusive : exclusive (sy_tables s);
  ok_active : forall n t, sy_open s !! n = Some t ->
    exists row, tb_schedules (sy_tables s) !! tx_schedule t = Some row /\ sr_status row = ScheduleActive;
  ok_locks : forall n n' t t', sy_open s !! n = Some t -> sy_open s !! n' = Some t' -> tx_schedule t = tx_schedule t' -> n = n';
  ok_alone : forall n t id, sy_open s !! n = Some t -> tx_occurrence t = Some id -> alone t id (sy_tables s)
}.

Lemma not_overlapped tenant id row db : overlapped tenant id row db = false ->
  forall other r, tb_occurrences db !! (tenant, other) = Some r -> or_schedule_id r = or_schedule_id row -> active r -> other = id.
Proof.
  unfold overlapped. intros Ho other r Hr Hs Ha. destruct (decide (other = id)) as [|Hne]; [done|].
  assert (existsb (fun '((t, other), active) =>
    (t == tenant) && (or_schedule_id active == or_schedule_id row) && active_status (or_status active) && (other != id))
    (map_to_list (tb_occurrences db)) = true) as Ht; [|congruence].
  apply existsb_exists. exists ((tenant, other), r). rewrite <-list_elem_of_In, elem_of_map_to_list. split; [done|].
  rewrite !andb_true_iff, !bool_decide_eq_true, neqb_spec_true. by repeat split.
Qed.
Lemma first_by_in {A} (rank : A -> string * Time) l x : first_by rank l = Some x -> x ∈ l.
Proof.
  revert x. induction l as [|y l IH]; intros x; cbn; [done|]. destruct (foldr _ None l) as [z|] eqn:E.
  - destruct (due_before _ _); intros [= <-]; [left|right; by apply IH].
  - intros [= <-]. left.
Qed.
Lemma pick_alone t id locked tables : pick_occurrence (tx_schedule t) (tx_user t) (tx_now t) locked tables = Some id ->
  alone t id tables /\ ((tx_schedule t).1.1, id) ∉ locked.
Proof.
  unfold pick_occurrence, alone. destruct (tx_schedule t) as [[tenant sid] v]. case_match; [|done]. case_match; [|done].
  destruct (first_by _ _) as [[id' at_]|] eqn:Hf; [|done]. intros [= ->]. apply first_by_in in Hf.
  unfold ready_occurrences in Hf. apply list_elem_of_omap in Hf as ([[t' id'] row] & Hin & Hp).
  rewrite elem_of_map_to_list in Hin. case_match eqn:Hc; [|done]. injection Hp as -> _.
  rewrite !andb_true_iff, negb_true_iff, !bool_decide_eq_true, bool_decide_eq_false, Z.eqb_eq in Hc.
  destruct Hc as [[[[-> Hsid] Hv] Hl] Hready]. split; [|done]. exists row. split_and!; [done..|].
  intros other r Hr Hs. unfold claim_ready in Hready. rewrite !andb_true_iff, negb_true_iff in Hready.
  destruct Hready as [_ Hno]. eapply not_overlapped; [exact Hno|exact Hr|congruence].
Qed.
Lemma lock_schedule_row owner at_ locked tables k row : lock_schedule owner at_ locked tables = Some (k, row) ->
  tb_schedules tables !! k = Some row /\ sr_status row = ScheduleActive /\ k ∉ locked.
Proof.
  unfold lock_schedule. destruct (first_by _ _) as [[p c]|] eqn:Hf; [|done]. cbn. intros [= ->]. apply first_by_in in Hf.
  apply list_elem_of_omap in Hf as ([[[t sid] v] row'] & Hin & Hp). rewrite elem_of_map_to_list in Hin.
  case_match eqn:Hc; [|done]. destruct (candidate_of _ _ _); [|done]. injection Hp as <- <- _.
  rewrite !andb_true_iff, negb_true_iff, bool_decide_eq_true, bool_decide_eq_false in Hc. tauto.
Qed.
Lemma locked_schedule s n t : sy_open s !! n = Some t -> tx_schedule t ∈ schedules_locked s.
Proof. intros Hn. apply list_elem_of_fmap. exists (n, t). by rewrite elem_of_map_to_list. Qed.
Lemma locked_occurrence s n t id : sy_open s !! n = Some t -> tx_occurrence t = Some id ->
  ((tx_schedule t).1.1, id) ∈ occurrences_locked s.
Proof.
  intros Hn Ht. apply list_elem_of_omap. exists (n, t). rewrite elem_of_map_to_list. split; [done|]. cbn. unfold tx_row. by rewrite Ht.
Qed.
Lemma take_occurrence_row tenant id worker until tables fence tables' :
  take_occurrence tenant id worker until tables = Ok (fence, tables') ->
  exists row, tb_occurrences tables !! (tenant, id) = Some row /\ fence = or_fence row + 1 /\
    tables' = set_occurrences tables (<[(tenant, id) := taken worker until row]> (tb_occurrences tables)).
Proof.
  unfold take_occurrence. destruct (tb_occurrences tables !! (tenant, id)) as [row|] eqn:Hr; [|done]. intros Ht.
  apply rbind_ok in Ht as ([] & _ & [= <- <-]). by exists row.
Qed.

(** Two open transactions hold different schedules, not just versions. *)
Lemma distinct_schedules s n n' t t' : sys_ok s -> sy_open s !! n = Some t -> sy_open s !! n' = Some t' -> n <> n' ->
  (tx_schedule t).1 <> (tx_schedule t').1.
Proof.
  intros [Hv _ Ha Hl _] Hn Hn' Hne E. apply Hne. apply (Hl n n' t t' Hn Hn').
  destruct (Ha n t Hn) as (row & Hrow & Hst), (Ha n' t' Hn') as (row' & Hrow' & Hst').
  destruct (tx_schedule t) as [[tenant sid] v], (tx_schedule t') as [[tenant' sid'] v']. cbn in E. injection E as -> ->.
  f_equal. by eapply Hv.
Qed.

Lemma commit_ok s n t id fence tables : sys_ok s -> sy_open s !! n = Some t -> tx_occurrence t = Some id ->
  take_occurrence (tx_schedule t).1.1 id (tx_worker t) (tx_until t) (sy_tables s) = Ok (fence, tables) ->
  sys_ok (MkSystem tables (delete n (sy_open s))).
Proof.
  intros Hok Hn Ht Htake. pose proof (ok_alone s Hok n t id Hn Ht) as Halone.
  pose proof (distinct_schedules s n) as Hdist. apply take_occurrence_row in Htake as (row & Hrow & _ & ->).
  unfold alone in Halone. destruct (tx_schedule t) as [[tenant sid] v] eqn:Hk. cbn [fst snd] in *.
  destruct Halone as (row0 & Hrow0 & Hsid & Hver & Honly). replace row0 with row in * by congruence. clear row0 Hrow0.
  destruct Hok as [Hv He Ha Hl Hal]. split; cbn.
  - exact Hv.
  - intros tenant' sid' id1 id2 r1 r2 H1' H2' Hs1 Hs2 Ha1 Ha2. cbn in H1', H2'.
    apply lookup_insert_Some in H1' as [[[= -> ->] <-]|[Hne1 H1']]; apply lookup_insert_Some in H2' as [[E <-]|[Hne2 H2']].
    + by injection E.
    + cbn in Hs1. symmetry. eapply Honly; [exact H2'|congruence|done].
    + injection E as -> ->. cbn in Hs2. eapply Honly; [exact H1'|congruence|done].
    + by eapply (He tenant' sid').
  - intros n' t' Hn'. apply lookup_delete_Some in Hn' as [_ Hn']. by apply (Ha n').
  - intros n1 n2 t1 t2 Hn1 Hn2. apply lookup_delete_Some in Hn1 as [_ Hn1], Hn2 as [_ Hn2]. by apply Hl.
  - intros n' t' id' Hn' Ht'. apply lookup_delete_Some in Hn' as [Hne Hn'].
    pose proof (Hdist n' t t' (Build_sys_ok s Hv He Ha Hl Hal) Hn Hn' Hne) as Hd. rewrite Hk in Hd. cbn in Hd.
    pose proof (Hal n' t' id' Hn' Ht') as Halone'. unfold alone in *. destruct (tx_schedule t') as [[tenant' sid'] v'].
    cbn in Hd. destruct Halone' as (r & Hr & Hrs & Hrv & Hr'). exists r.
    split; [cbn; rewrite lookup_insert_ne; [done|]; intros [= -> ->]; apply Hd; congruence|]. split_and!; [done..|].
    intros other ra Hra Hsa Haa. cbn in Hra. apply lookup_insert_Some in Hra as [[[= -> ->] <-]|[_ Hra]]; [|by eapply Hr'].
    cbn in Hsa. destruct Hd. congruence.
Qed.

Lemma sys_call_ok s scope c faults : sys_ok s -> not_under_way c ->
  let tables := snd (run (call_method scope c) (MkTurn id <$> faults) (sy_tables s)) in
  one_active_version tables ->
  (forall k, k ∈ occurrences_locked s -> tb_occurrences tables !! k = tb_occurrences (sy_tables s) !! k) ->
  sys_ok (MkSystem tables (sy_open s)).
Proof.
  intros Hok Hc tables Hone Hlocked.
  assert (Forall (fun t => forall db : Tables, calm db (before t db)) (MkTurn id <$> faults)) as Hq1
    by (apply Forall_fmap, Forall_true; intros f d; reflexivity).
  assert (Forall (fun t => forall db, schedules_kept db (before t db)) (MkTurn id <$> faults)) as Hq2
    by (apply Forall_fmap, Forall_true; intros f d; reflexivity).
  pose proof (run_keeps calm _ _ (sy_tables s) (call_calm scope c Hc) Hq1) as [Hsame Hnew].
  pose proof (run_keeps schedules_kept _ _ (sy_tables s) (repository_call_keeps scope c) Hq2) as Hkept.
  fold tables in Hsame, Hnew, Hkept. clearbody tables. destruct Hok as [Hv He Ha Hl Hal].
  assert (forall k r, tb_occurrences tables !! k = Some r -> active r ->
            exists r0, tb_occurrences (sy_tables s) !! k = Some r0 /\ active r0 /\ same_schedule r0 r) as Hback.
  { intros k r Hr Har. destruct (Hnew k r Hr Har) as (r0 & Hr0 & Har0). exists r0. split_and!; [done..|].
    destruct (Hsame k r0 Hr0) as (r' & Hr' & Hs & _). by replace r with r' by congruence. }
  split; cbn; [done| | |done|].
  - intros tenant sid id1 id2 r1 r2 Hr1 Hr2 Hs1 Hs2 Ha1 Ha2.
    destruct (Hback _ _ Hr1 Ha1) as (q1 & Hq1' & Haq1 & [Hsq1 _]), (Hback _ _ Hr2 Ha2) as (q2 & Hq2' & Haq2 & [Hsq2 _]).
    by eapply (He tenant sid id1 id2 q1 q2); try done; congruence.
  - intros n t Hn. destruct (Ha n t Hn) as (row & Hrow & Hst). exists row. split; [by apply Hkept|done].
  - intros n t id Hn Ht. pose proof (Hal n t id Hn Ht) as Halone. pose proof (Hlocked _ (locked_occurrence s n t id Hn Ht)) as Hrow.
    unfold alone in *. destruct (tx_schedule t) as [[tenant sid] v]. cbn in Hrow. destruct Halone as (r & Hr & Hrs & Hrv & Honly).
    exists r. rewrite Hrow. split_and!; [done..|]. intros other ra Hra Hsa Haa.
    destruct (Hback _ _ Hra Haa) as (q & Hq & Haq & [Hsq _]). eapply Honly; [done|congruence|done].
Qed.

Lemma sys_step_ok s s' : sys_ok s -> sys_step s s' -> sys_ok s'.
Proof.
  intros Hok Hstep. destruct Hstep as [s n owner now worker lease k row Hfree Hlock|s n t id Hn Ht Hp|s n t id fence tables Hn Ht Htake|s n
    |s scope c faults tables Hc -> Hone Hlocked].
  - apply lock_schedule_row in Hlock as (Hrow & Hact & Hk). destruct Hok as [Hv He Ha Hl Hal]. split; cbn; [done..| | |].
    + intros n' t Hn. apply lookup_insert_Some in Hn as [[_ <-]|[_ Hn]]; [by exists row|by apply (Ha n')].
    + intros n1 n2 t1 t2 Hn1 Hn2 E.
      apply lookup_insert_Some in Hn1 as [[<- <-]|[Hne1 Hn1]]; apply lookup_insert_Some in Hn2 as [[<- <-]|[Hne2 Hn2]]; try done.
      * destruct Hk. cbn in E. rewrite E. by eapply locked_schedule.
      * destruct Hk. cbn in E. rewrite <-E. by eapply locked_schedule.
      * by eapply Hl.
    + intros n' t id Hn Ht. apply lookup_insert_Some in Hn as [[_ <-]|[_ Hn]]; [done|by eapply Hal].
  - apply pick_alone in Hp as [Halone _]. destruct Hok as [Hv He Ha Hl Hal]. split; cbn; [done..| | |].
    + intros n' t' Hn'. apply lookup_insert_Some in Hn' as [[_ <-]|[_ Hn']]; [exact (Ha n t Hn)|exact (Ha n' t' Hn')].
    + intros n1 n2 t1 t2 Hn1 Hn2 E.
      apply lookup_insert_Some in Hn1 as [[<- <-]|[Hne1 Hn1]]; apply lookup_insert_Some in Hn2 as [[<- <-]|[Hne2 Hn2]]; try done;
        by eapply Hl.
    + intros n' t' id' Hn' Ht'. apply lookup_insert_Some in Hn' as [[_ <-]|[_ Hn']]; [|by eapply Hal].
      cbn in Ht'. injection Ht' as <-. exact Halone.
  - by eapply commit_ok.
  - destruct Hok as [Hv He Ha Hl Hal]. split; cbn; [done..| | |].
    + intros n' t Hn. apply lookup_delete_Some in Hn as [_ Hn]. by apply (Ha n').
    + intros n1 n2 t1 t2 Hn1 Hn2. apply lookup_delete_Some in Hn1 as [_ Hn1], Hn2 as [_ Hn2]. by apply Hl.
    + intros n' t id Hn. apply lookup_delete_Some in Hn as [_ Hn]. by eapply Hal.
  - by eapply sys_call_ok.
Qed.

Lemma sys_run_ok s s' : sys_ok s -> rtc sys_step s s' -> sys_ok s'.
Proof. intros Hok Hr. induction Hr; [done|]. eauto using sys_step_ok. Qed.

(** [C33] FORBID_OVERLAP holds under concurrency: however any number of
    sessions interleave the statements of their claims with each other and
    with every other call of the repository, with faults, no two occurrences
    of one schedule are ever CLAIMED, DISPATCHED or under reconciliation at
    the same time, and no two open transactions are about to claim for the
    same schedule, provided no schedule has two ACTIVE versions and
    occurrences are saved before they are under way. *)
Theorem claims_never_overlap (s s' : system) (Hstart : sy_open s = ∅)
    (Hone : one_active_version (sy_tables s)) (Hex : exclusive (sy_tables s)) (Hrun : rtc sys_step s s') :
  exclusive (sy_tables s') /\
  forall n n' t t', sy_open s' !! n = Some t -> sy_open s' !! n' = Some t' -> n <> n' -> (tx_schedule t).1 <> (tx_schedule t').1.
Proof.
  assert (sys_ok s') as Hok.
  { eapply sys_run_ok, Hrun. split; [done..| | |]; intros n *; rewrite Hstart, lookup_empty; done. }
  split; [apply Hok|]. intros n n' t t'. by apply distinct_schedules.
Qed.

(** * Fencing

    Of fences there is no proviso: any call of the repository, whatever it does
    to schedules and whichever rows are locked, with any number of ACTIVE
    versions. *)
Inductive any_step : system -> system -> Prop :=
  | any_claim s s' : sys_step s s' -> any_step s s'
  | any_call s scope c faults :
      any_step s (MkSystem (snd (run (call_method scope c) (MkTurn id <$> faults) (sy_tables s))) (sy_open s)).

(** No occurrence goes away or gets an older fence. *)
Definition fences_rise (t t' : Tables) : Prop :=
  forall k row, tb_occurrences t !! k = Some row -> exists row', tb_occurrences t' !! k = Some row' /\ or_fence row <= or_fence row'.
#[global] Instance fences_rise_preorder : PreOrder fences_rise.
Proof.
  split; [intros t k row Hk; exists row; by split|]. intros t1 t2 t3 H12 H23 k row Hk.
  destruct (H12 k row Hk) as (r2 & Hk2 & ?). destruct (H23 k r2 Hk2) as (r3 & Hk3 & ?). exists r3. split; [done|lia].
Qed.
Lemma calm_fences t t' : calm t t' -> fences_rise t t'.
Proof. intros [Hc _] k row Hk. destruct (Hc k row Hk) as (r & Hr & _ & ?). by exists r. Qed.
Lemma insert_occurrence_fences tenant value now : keeps_statement fences_rise (insert_occurrence tenant value now).
Proof.
  intros db y db'. unfold insert_occurrence. intros Hi. apply rbind_ok in Hi as (row & _ & Hi).
  case_match; [by injection Hi as _ <-|]. case_match eqn:Hnone; [done|]. case_match; [|done]. case_match; [|done].
  injection Hi as _ <-. intros k r Hk. exists r. cbn. rewrite lookup_insert_ne by congruence. by split.
Qed.
Lemma call_fences scope c : keeps fences_rise (call_method scope c).
Proof.
  assert (not_under_way c -> keeps fences_rise (call_method scope c)) as Hcalm.
  { intros Hc. eapply keeps_impl, (call_calm scope c Hc). intros t t'. apply calm_fences. }
  destruct c; try (by apply Hcalm). cbn [call_method]. unfold discard, SaveAutonomyOccurrence. keeps_tac.
  all: try apply insert_occurrence_fences. all: auto using insert_occurrence_fences.
Qed.

Lemma any_step_fences s s' : any_step s s' -> fences_rise (sy_tables s) (sy_tables s').
Proof.
  assert (forall s scope c faults, fences_rise (sy_tables s) (snd (run (call_method scope c) (MkTurn id <$> faults) (sy_tables s)))) as Hcall.
  { intros s0 scope c faults. apply run_keeps; [exact _|apply call_fences|]. apply Forall_fmap, Forall_true. intros f d. reflexivity. }
  intros [s0 s1 Hstep|s0 scope c faults]; [|apply Hcall]. destruct Hstep; cbn; try reflexivity; [|by subst].
  match goal with Ht : take_occurrence _ _ _ _ _ = _ |- _ => apply take_occurrence_row in Ht as (r & Hr & _ & ->) end.
  intros k row Hrow. cbn. destruct (decide (k = ((tx_schedule t).1.1, id))) as [->|Hne].
  - rewrite lookup_insert_eq. eexists. split; [done|]. cbn. replace r with row by congruence. lia.
  - rewrite lookup_insert_ne by done. by exists row.
Qed.
Lemma run_fences s s' : rtc any_step s s' -> fences_rise (sy_tables s) (sy_tables s').
Proof. induction 1 as [s|s s1 s2 Hstep _ IH]; [reflexivity|]. etransitivity; [by apply any_step_fences|done]. Qed.

Lemma never_true {D A} (m : method D A) (f : A -> Occurrence) turns db o :
  fst (run (mbind m (fun r => Return (@Ok error _ (f r, false)))) turns db) <> Ok (o, true).
Proof.
  revert turns db. induction m as [a|Y q k IH]; intros turns db; cbn; [congruence|]. destruct (attempt _ _ _). apply IH.
Qed.

(** An update whose condition asks for an older fence changes nothing. *)
Lemma stale_update tenant user id condition change db row : tb_occurrences db !! (tenant, id) = Some row ->
  condition row = false -> update_occurrence tenant user id condition change db = Ok (0, db).
Proof.
  intros Hrow Hc. unfold update_occurrence. destruct (owned_occurrence tenant user id db) as [r|] eqn:Ho; [|done].
  apply owned_row in Ho. replace r with row by congruence. by rewrite Hc.
Qed.

(** [C36] A claim fences off whoever held the occurrence before: the token it
    hands out is greater than every fence the occurrence had so far, and from
    then on, whatever other sessions do — schedules with two ACTIVE versions
    included, which a pause and a resumption leave behind — a block or an
    approval binding that carries an older token changes nothing, and the check
    before a dispatch with an older token never succeeds. *)
Theorem claims_fence_off (s s1 s2 : system) (n : nat) (t : transaction) (id : string) (row : occurrence_row) (fence : Z)
    (tables : Tables)
    (Hrow : tb_occurrences (sy_tables s) !! ((tx_schedule t).1.1, id) = Some row)
    (Hrun1 : rtc any_step s s1) (Hopen : sy_open s1 !! n = Some t) (Hpicked : tx_occurrence t = Some id)
    (Htake : take_occurrence (tx_schedule t).1.1 id (tx_worker t) (tx_until t) (sy_tables s1) = Ok (fence, tables))
    (Hrun2 : rtc any_step (MkSystem tables (delete n (sy_open s1))) s2) :
  or_fence row < fence /\
  forall scope value old, sc_tenantID scope = (tx_schedule t).1.1 -> occ_ID value = id -> occ_Fence value = old -> old < fence ->
    old <= max_int64 ->
    (forall reason now, block_statement scope value reason now (sy_tables s2) = Ok (0, sy_tables s2)) /\
    (forall approvalID now, bind_statement scope value approvalID now (sy_tables s2) = Ok (0, sy_tables s2)) /\
    (forall worker at_ turns o, before (default quiet (head turns)) = Datatypes.id ->
       fst (run (CheckAutonomyDispatchFence scope id worker old at_) turns (sy_tables s2)) <> Ok (o, true)).
Proof.
  destruct (run_fences s s1 Hrun1 _ row Hrow) as (r1 & Hr1 & Hle1).
  apply take_occurrence_row in Htake as (r & Hr & -> & ->). replace r1 with r in * by congruence. split; [lia|].
  edestruct (run_fences _ s2 Hrun2 ((tx_schedule t).1.1, id) (taken (tx_worker t) (tx_until t) r)) as (r2 & Hr2 & Hle2).
  { cbn. apply lookup_insert_eq. }
  cbn in Hle2. intros scope value old Hten Hid Hold Hlt Hmax. subst id old.
  assert (at_fence (occ_Fence value) r2 = false) as Hstale by (unfold at_fence; apply Z.eqb_neq; lia).
  assert (bigint (occ_Fence value) = Ok (occ_Fence value)) as Hbig by (unfold bigint; by rewrite (proj2 (Z.ltb_ge _ _))).
  rewrite <-Hten in Hr2. split_and!.
  - intros reason now. unfold block_statement. rewrite Hbig. cbn [rbind]. by rewrite (stale_update _ _ _ _ _ _ r2 Hr2 Hstale).
  - intros approvalID now. unfold bind_statement. rewrite Hbig. cbn [rbind].
    apply (stale_update _ _ _ _ _ _ r2 Hr2). by rewrite Hstale.
  - intros worker at_ turns o Hq. unfold CheckAutonomyDispatchFence, plain_code, mapped_statement. cbn [mtry mbind].
    destruct (Scope_Validate scope) as [[]|]; [|done]. cbn [mtry mbind run]. rewrite Hq. unfold fence_statement. rewrite Hbig.
    cbn [rbind]. unfold attempt, Datatypes.id.
    rewrite (stale_update _ _ _ _ _ _ r2 Hr2) by (unfold lease_held; rewrite Hstale; by rewrite andb_false_r).
    destruct (outcome_of _); cbn; try done. apply never_true.
Qed.
End system.
