(* ===== verification/Services.v ===== *)
(** internal/services, what every service shares: the authenticated scope of a
    call (internal/requestauth/scope.go and the services' [scope] methods) and
    the repositories of other components as interfaces.

    A service's methods are programs over a world [E] of databases; the n-th
    reading of its clock is [now n]. *)
From S2P Require Import Prelude GoStrings GoTime AppErrors Wallet Auth Storage Statements.
Open Scope string_scope.
Open Scope Z_scope.
Open Scope go_scope.

(** [storage.AuditRepository], [storage.WalletBindingRepository] *)
Class AuditRepository (E : Type) := AppendAudit : Scope -> AuditRecord -> method E (result unit).
Class WalletBindingRepository (E : Type) := FindBindingByID : Scope -> string -> method E (result Binding).

(** A database that is a part of the world. *)
Class Part (D E : Type) := { part : E -> D; with_part : D -> E -> E }.
Class PartLaws (D E : Type) `{Part D E} : Prop := {
  part_with d e : part (with_part d e) = d;
  with_part_part e : with_part (part e) e = e
}.
#[export] Instance part_whole {D} : Part D D := {| part := fun d => d; with_part := fun d _ => d |}.
#[export] Instance part_whole_laws {D} : PartLaws D D.
Proof. by split. Qed.
(** A repository's method, called by a service. *)
Definition on {D E A} `{Part D E} (m : method D A) : method E A := zoom part with_part m.

Definition StorageScopeFromContext (ctx : option Context) : result Scope :=
  let! request := TrustedRequestFromContext ctx in
  let principal := tr_principal request in
  let metadata := tr_metadata request in
  NewScope (prn_tenantID principal) (prn_actorID principal) (md_RequestID metadata) (md_TraceID metadata).

(** The services' [scope(ctx, permission)]. *)
Definition service_scope (ctx : option Context) (permission : Permission) : result Scope :=
  let! request := TrustedRequestFromContext ctx in
  do! Authorize ctx (MkAuthorization request permission "" None);
  StorageScopeFromContext ctx.

(** The event of an audit record with the identifiers a service sets; the
    other fields are zero. *)
Definition service_event (id type : string) (at_ : Time) : Event :=
  MkEvent id (EventOther type) at_ "" 0 "" "" "" 0 "" "" "" 0 "" "" "" "" "" 0 "" "" 0.

(** * What a scope stands for *)
(** The caller is authenticated, holds the permission, and the scope is its
    own tenant and user. *)
Record authenticated_scope (ctx : option Context) (permission : Permission) (scope : Scope) (request : TrustedRequest) : Prop := {
  as_request : TrustedRequestFromContext ctx = Ok request;
  as_permission : HasPermission (tr_principal request) permission = true;
  as_human : human_permission permission = true -> RequireHuman ctx permission = Ok tt;
  as_tenant : sc_tenantID scope = TrimSpace (prn_tenantID (tr_principal request));
  as_actor : sc_actorID scope = TrimSpace (prn_actorID (tr_principal request))
}.

Lemma service_scope_ok ctx permission scope : service_scope ctx permission = Ok scope ->
  exists request, authenticated_scope ctx permission scope request.
Proof.
  unfold service_scope, StorageScopeFromContext. intros Hs. apply rbind_ok in Hs as (request & Hr & Hs). exists request.
  apply rbind_ok in Hs as ([] & Ha & Hs). rewrite Hr in Hs. cbn [rbind] in Hs. apply NewScope_ok in Hs as ->.
  unfold Authorize in Ha. apply rbind_ok in Ha as ([] & _ & Ha). apply rbind_ok in Ha as ([] & Hh & Ha).
  apply rbind_ok in Ha as ([] & Hp & _). split; cbn in *; [done|by apply fail_if_ok, negb_false_iff in Hp| |done..].
  intros Hhuman. rewrite Hhuman in Hh. by apply rbind_ok in Hh as ([] & ? & _).
Qed.

(** A relation on a part is one on the world. *)
Definition on_part {D E} `{Part D E} (R : relation D) : relation E := fun e e' => R (part e) (part e').
#[export] Instance on_part_preorder {D E} `{Part D E} (R : relation D) `{!PreOrder R} : PreOrder (on_part R).
Proof. split; [by intros e; red|intros x y z Hxy Hyz; red in Hxy, Hyz |- *; by etransitivity]. Qed.
Lemma keeps_on {D E A} `{PartLaws D E} (R : relation D) (m : method D A) : keeps R m -> keeps (on_part R) (on m).
Proof.
  intros Hm. induction m as [a|Y q k IH]; cbn in *; [done|]. destruct Hm as [Hq Hk]. split; [|intros r; by apply IH].
  intros e y e'. destruct (q (part e)) as [[y' d]|] eqn:Eq; [|done]. intros [= <- <-]. red. rewrite part_with. by eapply Hq.
Qed.
(** Reading a part leaves the world as it was. *)
Lemma keeps_eq_on {D E A} `{PartLaws D E} (m : method D A) : keeps eq m -> keeps eq (on m).
Proof.
  intros Hm. induction m as [a|Y q k IH]; cbn in *; [done|]. destruct Hm as [Hq Hk]. split; [|intros r; by apply IH].
  intros e y e'. destruct (q (part e)) as [[y' d]|] eqn:Eq; [|done]. intros [= <- <-].
  rewrite <- (Hq _ _ _ Eq). by rewrite with_part_part.
Qed.
