(* ===== verification/IntentService.v ===== *)
(** internal/services: creating and reading intents (intent.go), and the
    payment services above them (send.go, swap.go, payroll.go), over the
    repositories of Repositories.v. *)
From S2P Require Import Prelude GoStrings GoTime Sha256 AppErrors Contracts IntentTypes Amounts IntentParams Intents.
From S2P Require Import Wallet Auth Approvals Policies Evaluator Execution Storage Statements Services Foundation.
From S2P Require Import Repositories.
Open Scope string_scope.
Open Scope Z_scope.
Open Scope go_scope.

(** The stored repositories, for services over a world that contains them. *)
#[export] Instance stored_bindings {E} `{Part Foundation E} `{UnicodeTables} `{PgTimestamp} : WalletBindingRepository E :=
  fun scope id => on (StoredBindingByID scope id).
#[export] Instance stored_audit {E} `{Part Foundation E} `{UnicodeTables} `{PgTimestamp} : AuditRepository E :=
  fun scope record => on (StoreAudit scope record).

(** [PersistedIntentService]: which dependencies are set. *)
Record IntentService := MkIntentService { is_Intents : bool; is_Wallets : bool; is_Authorizer : bool; is_Audit : bool; is_Now : bool }.

Record CreateIntentCommand := MkCommand {
  cmd_ClientRequestID : string; cmd_Nonce : string; cmd_WalletBindingID : string; cmd_Type : Type_;
  cmd_Financial : FinancialParameters; cmd_Route : Route; cmd_Deadline : Time; cmd_PolicyReference : string
}.

Definition intentID (scope : Scope) (clientRequestID : string) : string :=
  "int_" +:+ String.substring 0 24 (sha256_hex (sc_tenantID scope +:+ ("/" +:+ clientRequestID))).

(** The owner a service gives an intent: the caller, through the wallet. *)
Definition owner_of (scope : Scope) (request : TrustedRequest) (binding : Binding) : Ownership :=
  MkOwnership (sc_actorID scope) (prn_identityProvider (tr_principal request)) (bnd_provider binding)
    (bnd_providerUserReference binding) (bnd_bindingID binding) (bnd_version binding) (bnd_walletID binding)
    (bnd_address binding) (bnd_chainID binding) (bnd_network binding).

(** An audit record of a user's action. *)
Definition user_record (scope : Scope) (event : Event) (resource id previous next component : string) : AuditRecord :=
  MkAuditRecord event "user" (sc_actorID scope) (sc_requestID scope) (sc_traceID scope) resource id previous next "" component.
Definition event_id (scope : Scope) (id type : string) : string :=
  sc_requestID scope +:+ ("/" +:+ (id +:+ ("/" +:+ type))).

Section intents.
Context `{EthCommon} `{UnicodeTables} `{PgTimestamp}.
Implicit Types (s : IntentService) (ctx : option Context) (scope : Scope) (now : nat -> Time).

Definition intent_created_event scope (value : Intent) (at_ : Time) : Event :=
  let p := int_params value in
  MkEvent (event_id scope (prm_IntentID p) "intent_created") (EventOther "intent_created") at_ (prm_IntentID p)
    (Intents.prm_Version p) (int_digest value) "" "" 0 "" "" "" 0 "" "" "" ""
    (own_WalletBindingID (prm_Ownership p)) (own_WalletBindingVersion (prm_Ownership p)) (own_UserID (prm_Ownership p)) "" 0.

Definition intent_scope s ctx (permission : Permission) : result Scope :=
  do! fail_if (negb (is_Authorizer s)) (errorf "intent service is not configured");
  service_scope ctx permission.

(** The frozen intent that a command describes. *)
Definition commanded (id : string) (owner : Ownership) (command : CreateIntentCommand) (now : Time) : Intents.Params :=
  Intents.MkParams id 1 (cmd_ClientRequestID command) (cmd_Nonce command) (cmd_Type command) owner (cmd_Financial command)
    (cmd_Route command) (MkConstraints (cmd_Deadline command) (cmd_PolicyReference command)) now (cmd_Deadline command).

Definition CreateIntent s ctx now (command : CreateIntentCommand) : call Intent :=
  sql! scope := plain_code (intent_scope s ctx PermissionCreateIntent) in
  act! plain_code (fail_if (negb (is_Intents s && is_Wallets s && is_Now s)) (errorf "intent service is not configured"));
  sql! request := plain_code (TrustedRequestFromContext ctx) in
  sql! binding := StoredBindingByID scope (cmd_WalletBindingID command) in
  act! plain_code (Binding_EnsureAuthorizable binding (sc_actorID scope));
  let at_ := UTC (now 0%nat) in
  sql! draft := plain_code (Intents.NewDraft (commanded (intentID scope (cmd_ClientRequestID command))
                              (owner_of scope request binding) command at_)) in
  sql! value := plain_code (Intent_Transition draft Intents.StatusCreated at_) in
  sql! r := Repositories.CreateIntent scope value in
  let '(stored, created) := r in
  act! (if created && is_Audit s
        then StoreAudit scope (user_record scope (intent_created_event scope stored at_) "intent"
               (prm_IntentID (int_params stored)) "" (Intents.Status_string (int_status stored)) "intent.service")
        else plain_code (Ok tt));
  Return (Ok stored).

Definition GetIntent s ctx (id : string) : call Intent :=
  sql! scope := plain_code (intent_scope s ctx PermissionReadIntent) in
  act! plain_code (fail_if (negb (is_Intents s)) (errorf "intent service is not configured"));
  Repositories.FindIntentByID scope id.

(** * Payments *)
(** A payment service: its intent service, whether the others are set, and
    the authority that must admit an execution, [None] in the server. *)
Record PaymentService := MkPaymentService {
  ps_Intents : option IntentService; ps_Executions : bool; ps_ExecutionDB : bool; ps_Wallets : bool; ps_Authorizer : bool;
  ps_Authority : option (Intent -> result unit)
}.
Definition not_configured (what : string) : error := errorf (what +:+ " service is not configured").
Definition invalid_payment (what : string) : error -> error :=
  Wrap CodeValidationError (what +:+ " is invalid.") false true true.

Definition tokenFromResource (resource : TokenResource) : Token :=
  MkToken (res_ChainID resource) "ERC20" (res_Address resource) (res_Symbol resource) (res_Decimals resource).

(** Scope and binding of a preview: the caller's own usable wallet. *)
Definition payment_wallet (p : PaymentService) ctx (what bindingID : string) : call (Scope * TrustedRequest * Binding) :=
  act! plain_code (fail_if (negb (ps_Wallets p && ps_Authorizer p)) (not_configured what));
  sql! request := plain_code (TrustedRequestFromContext ctx) in
  sql! scope := plain_code (service_scope ctx PermissionCreateIntent) in
  sql! binding := StoredBindingByID scope bindingID in
  act! plain_code (Binding_EnsureAuthorizable binding (sc_actorID scope));
  Return (Ok (scope, request, binding)).

(** What the three execute methods share: the authority first. *)
Definition execute_payment (p : PaymentService) ctx (what type : string) (suits : Intent -> bool) (unsuitable : string)
    (intentID : string) (prepare : call Request) : call Request :=
  match ps_Intents p, ps_Authority p with
  | Some intents, Some authority =>
      act! plain_code (fail_if (negb (ps_Executions p))
             (AppErrors.New CodeCapabilityUnavailable ("Arc Mainnet " +:+ (what +:+ " authorization provider is unavailable."))
                false true true));
      sql! intent := GetIntent intents ctx intentID in
      act! plain_code (fail_if (negb (suits intent)) (AppErrors.New CodeValidationError unsuitable false true true));
      act! plain_code (authority intent);
      prepare
  | _, _ =>
      Return (Err (AppErrors.New CodeCapabilityUnavailable
        ("Arc Mainnet " +:+ (what +:+ " authorization provider is unavailable.")) false true true))
  end.

(** What the three status methods share. *)
Definition payment_status (p : PaymentService) ctx (what : string) (kind : Type_) (other : string) (executionID : string)
    : call Execution :=
  act! plain_code (fail_if (negb (ps_ExecutionDB p && ps_Authorizer p
                                  && match ps_Intents p with Some s => is_Intents s | None => false end)) (not_configured what));
  sql! scope := plain_code (service_scope ctx PermissionPrepareExecution) in
  sql! value := FindExecutionByID_ scope executionID in
  sql! intent := Repositories.FindIntentByID scope (req_intentID (exe_request value)) in
  act! plain_code (fail_if ((prm_Type (int_params intent) != kind) || (int_digest intent != req_intentDigest (exe_request value)))
                     (AppErrors.New CodeValidationError other false true true));
  Return (Ok value).

(** ** Sends (send.go) *)
Record SendDraft := MkSendDraft {
  sd_ClientRequestID : string; sd_Nonce : string; sd_WalletBindingID : string; sd_TokenSymbol : string;
  sd_Recipient : string; sd_Amount : Amount; sd_Deadline : Time; sd_PolicyReference : string
}.
Record SendPreview := MkSendPreview {
  sv_Token : Token; sv_Recipient : string; sv_Amount : Amount; sv_ChainID : string; sv_Network : string
}.
Definition send_command (draft : SendDraft) (resource : TokenResource) : CreateIntentCommand :=
  MkCommand (sd_ClientRequestID draft) (sd_Nonce draft) (sd_WalletBindingID draft) TypeSend
    (MkFinancial (Some (MkSend (tokenFromResource resource) (sd_Recipient draft) (sd_Amount draft))) None None None None)
    (MkRoute RouteDirectWallet RouteReferenceSend RouteVersionSend) (sd_Deadline draft) (sd_PolicyReference draft).
Definition PreviewSend (p : PaymentService) ctx now (draft : SendDraft) : call SendPreview :=
  sql! w := payment_wallet p ctx "send" (sd_WalletBindingID draft) in
  let '(scope, request, binding) := w in
  sql! resource := plain_code (map_err (invalid_payment "Send") (CanonicalToken (sd_TokenSymbol draft))) in
  sql! _ := plain_code (Intents.NewDraft (commanded "preview" (owner_of scope request binding) (send_command draft resource)
                          (UTC (now 0%nat)))) in
  Return (Ok (MkSendPreview (tokenFromResource resource) (NormalizeAddress (sd_Recipient draft)) (sd_Amount draft)
                (res_ChainID resource) (res_Network resource))).
Definition CreateSendIntent (p : PaymentService) ctx now (draft : SendDraft) : call Intent :=
  match ps_Intents p with
  | None => Return (Err (not_configured "send"))
  | Some intents =>
      sql! resource := plain_code (map_err (invalid_payment "Send") (CanonicalToken (sd_TokenSymbol draft))) in
      CreateIntent intents ctx now (send_command draft resource)
  end.
Definition ExecuteSend (p : PaymentService) ctx (intentID : string) (prepare : call Request) : call Request :=
  execute_payment p ctx "Send" "SEND" (fun i => prm_Type (int_params i) == TypeSend) "SEND intent is required." intentID prepare.
Definition SendStatus (p : PaymentService) ctx (executionID : string) : call Execution :=
  payment_status p ctx "send" TypeSend "Execution is not a SEND execution." executionID.

(** ** Swaps (swap.go) *)
Record SwapDraft := MkSwapDraft {
  wd_ClientRequestID : string; wd_Nonce : string; wd_WalletBindingID : string; wd_TokenIn : string; wd_TokenOut : string;
  wd_AmountIn : Amount; wd_ExpectedOutput : Amount; wd_MinAmountOut : Amount; wd_MaxSlippageBPS : Z;
  wd_MinHopPriceX36 : string; wd_QuoteID : string; wd_QuoteSource : string; wd_EvidenceReference : string;
  wd_QuoteExpiresAt : Time; wd_SwapDeadline : Time; wd_Deadline : Time; wd_PolicyReference : string
}.
Definition swapFinancial (draft : SwapDraft) (wallet : string) : result SwapParameters :=
  let! input := CanonicalToken (wd_TokenIn draft) in
  let! output := CanonicalToken (wd_TokenOut draft) in
  let params := MkSwap FinancialSchemaPhase12 (tokenFromResource input) (tokenFromResource output) (wd_AmountIn draft)
    (wd_ExpectedOutput draft) (wd_MinAmountOut draft) (wd_QuoteID draft) (wd_MaxSlippageBPS draft) (wd_MinHopPriceX36 draft)
    AddressUniswapUniversalRouter wallet
    (Some (MkQuote (wd_QuoteID draft) (wd_QuoteSource draft) (wd_ExpectedOutput draft) (wd_MinAmountOut draft)
             AddressUniswapUniversalRouter (wd_QuoteExpiresAt draft) (wd_EvidenceReference draft))) (wd_SwapDeadline draft) in
  do! fail_if (negb (Swap_Phase12Executable params)) (errorf "swap economic material is invalid");
  Ok params.
Definition swap_command (draft : SwapDraft) (params : SwapParameters) : CreateIntentCommand :=
  MkCommand (wd_ClientRequestID draft) (wd_Nonce draft) (wd_WalletBindingID draft) TypeSwap
    (MkFinancial None None (Some params) None None)
    (MkRoute RouteAllowlistedContract RouteReferenceSwap RouteVersionSwap) (wd_Deadline draft) (wd_PolicyReference draft).
Record SwapPreview := MkSwapPreview {
  wv_TokenIn : Token; wv_TokenOut : Token; wv_AmountIn : Amount; wv_ExpectedOutput : Amount; wv_MinAmountOut : Amount;
  wv_MinHopPriceX36 : string; wv_SwapDeadline : Time; wv_QuoteExpiresAt : Time; wv_ChainID : string; wv_Network : string;
  wv_Executor : string
}.
Definition swap_preview (draft : SwapDraft) (params : SwapParameters) : SwapPreview :=
  MkSwapPreview (swp_InputToken params) (swp_OutputToken params) (swp_InputAmount params) (swp_ExpectedOutput params)
    (swp_MinimumOutput params) (swp_MinHopPriceX36 params) (swp_Deadline params) (wd_QuoteExpiresAt draft)
    ChainIDArcMainnet NetworkArcMainnet AddressWizPaySwapExecutor.
(** The binding is read a second time. *)
Definition PreviewSwap (p : PaymentService) ctx now (draft : SwapDraft) : call SwapPreview :=
  sql! w := payment_wallet p ctx "swap" (wd_WalletBindingID draft) in
  let '(scope, request, binding) := w in
  sql! params := plain_code (map_err (invalid_payment "Swap") (swapFinancial draft (bnd_address binding))) in
  sql! again := StoredBindingByID scope (wd_WalletBindingID draft) in
  sql! _ := plain_code (Intents.NewDraft (commanded "preview" (owner_of scope request again) (swap_command draft params)
                          (UTC (now 0%nat)))) in
  Return (Ok (swap_preview draft params)).
Definition CreateSwapIntent (p : PaymentService) ctx now (draft : SwapDraft) : call Intent :=
  match ps_Intents p with
  | None => Return (Err (not_configured "swap"))
  | Some intents =>
      sql! w := payment_wallet p ctx "swap" (wd_WalletBindingID draft) in
      sql! params := plain_code (map_err (invalid_payment "Swap") (swapFinancial draft (bnd_address (snd w)))) in
      CreateIntent intents ctx now (swap_command draft params)
  end.
Definition executable_swap (i : Intent) : bool :=
  (prm_Type (int_params i) == TypeSwap)
  && match fin_Swap (prm_Financial (int_params i)) with Some s => Swap_Phase12Executable s | None => false end.
Definition ExecuteSwap (p : PaymentService) ctx (intentID : string) (prepare : call Request) : call Request :=
  execute_payment p ctx "Swap" "SWAP" executable_swap "Canonical SWAP intent is required." intentID prepare.
Definition SwapStatus (p : PaymentService) ctx (executionID : string) : call Execution :=
  payment_status p ctx "swap" TypeSwap "Execution is not a SWAP execution." executionID.

(** ** Payrolls (payroll.go) *)
Record PayrollRecipientDraft := MkRecipientDraft { rd_Address : string; rd_Amount : Amount }.
Record PayrollDraft := MkPayrollDraft {
  pd_ClientRequestID : string; pd_Nonce : string; pd_WalletBindingID : string; pd_TokenSymbol : string;
  pd_OutputTokenSymbol : string; pd_Recipients : list PayrollRecipientDraft; pd_ReferenceID : string; pd_Deadline : Time;
  pd_GrossInput : Amount; pd_MinTotalOut : Amount; pd_MinHopPriceX36 : string; pd_SwapDeadline : Time;
  pd_PolicyReference : string
}.
(** [amountFromBaseUnits]: the canonical decimal of base units. *)
Definition amountFromBaseUnits (value decimals : Z) : Amount :=
  let digits := FormatInt value in
  if decimals =? 0 then MkAmount digits digits decimals
  else
    let width := Z.to_nat decimals in
    let padded := if (String.length digits <=? width)%nat
                  then Repeat "0" (width - String.length digits + 1) +:+ digits else digits in
    let split := (String.length padded - width)%nat in
    let whole := String.substring 0 split padded in
    let fraction := TrimRightZeros (String.substring split width padded) in
    MkAmount (if fraction != "" then whole +:+ ("." +:+ fraction) else whole) digits decimals.

(** One line: its base units added to the total. *)
Definition payroll_total (decimals : Z) (what : string) (total : Z) (line : nat * PayrollRecipientDraft) : result Z :=
  let e := errorf1 what (FormatUint (Z.of_nat (fst line))) in
  match BaseInt (rd_Amount (snd line)) with
  | Ok value => do! fail_if (amt_Decimals (rd_Amount (snd line)) != decimals) e; Ok (total + value)
  | Err _ => Err e
  end.
Definition payroll_variant (lines : list Recipient) : PayrollVariant :=
  if (length lines =? 1)%nat then PayrollVariantSingle else PayrollVariantBatchSingleTokenOut.
Definition payrollFinancial (draft : PayrollDraft) : result PayrollParameters :=
  let! resource := CanonicalToken (pd_TokenSymbol draft) in
  let token := tokenFromResource resource in
  if pd_OutputTokenSymbol draft != "" then
    let! outputResource := CanonicalToken (pd_OutputTokenSymbol draft) in
    let output := tokenFromResource outputResource in
    let! total := fold_result (payroll_total (tok_Decimals output)
                    "recipient %d output amount must use canonical token decimals") 0 (numbered (pd_Recipients draft)) in
    let lines := (fun r => MkRecipient (rd_Address r) zero_amount output zero_amount (rd_Amount r)) <$> pd_Recipients draft in
    let params := MkPayroll FinancialSchemaPhase12 (payroll_variant lines) token zero_token lines
      (amountFromBaseUnits total (tok_Decimals output)) (pd_ReferenceID draft)
      (Some (MkCrossToken (pd_GrossInput draft) (pd_MinTotalOut draft) (pd_MinHopPriceX36 draft) (pd_SwapDeadline draft))) in
    do! ValidateCrossToken params;
    Ok params
  else
    let! total := fold_result (payroll_total (res_Decimals resource)
                    "recipient %d amount must use canonical token decimals") 0 (numbered (pd_Recipients draft)) in
    let lines := (fun r => MkRecipient (rd_Address r) zero_amount token (rd_Amount r) (rd_Amount r)) <$> pd_Recipients draft in
    let params := MkPayroll FinancialSchemaPhase12 (payroll_variant lines) token zero_token lines
      (amountFromBaseUnits total (res_Decimals resource)) (pd_ReferenceID draft) None in
    do! ValidateSameToken params;
    Ok params.
Definition payroll_command (draft : PayrollDraft) (params : PayrollParameters) : CreateIntentCommand :=
  MkCommand (pd_ClientRequestID draft) (pd_Nonce draft) (pd_WalletBindingID draft) TypePayroll
    (MkFinancial None (Some params) None None None)
    (MkRoute RouteAllowlistedContract RouteReferencePayroll RouteVersionPayroll) (pd_Deadline draft) (pd_PolicyReference draft).
Record PayrollPreview := MkPayrollPreview {
  pv_Token : Token; pv_OutputToken : Token; pv_Recipients : list PayrollRecipientDraft; pv_Total : Amount;
  pv_GrossInput : Amount; pv_MinTotalOut : Amount; pv_MinHopPriceX36 : string; pv_SwapDeadline : Time;
  pv_ReferenceID : string; pv_ChainID : string; pv_Network : string
}.
(** The terms of the swap that pays recipients in another token. *)
Definition payroll_preview (draft : PayrollDraft) (params : PayrollParameters) (resource : TokenResource) : PayrollPreview :=
  let preview output gross minimum price deadline :=
    MkPayrollPreview (pay_TokenIn params) output (pd_Recipients draft) (pay_Total params) gross minimum price deadline
      (pay_ReferenceID params) (res_ChainID resource) (res_Network resource) in
  match CrossTokenExecutable params, pay_CrossToken params, pay_Recipients params with
  | true, Some c, r :: _ => preview (rcp_TokenOut r) (ct_GrossInput c) (ct_MinTotalOut c) (ct_MinHopPriceX36 c) (ct_Deadline c)
  | _, _, _ => preview zero_token zero_amount zero_amount "" zero_time
  end.
Definition PreviewPayroll (p : PaymentService) ctx now (draft : PayrollDraft) : call PayrollPreview :=
  sql! w := payment_wallet p ctx "payroll" (pd_WalletBindingID draft) in
  let '(scope, request, binding) := w in
  sql! params := plain_code (map_err (invalid_payment "Payroll") (payrollFinancial draft)) in
  sql! _ := plain_code (Intents.NewDraft (commanded "preview" (owner_of scope request binding) (payroll_command draft params)
                          (UTC (now 0%nat)))) in
  sql! resource := plain_code (CanonicalToken (pd_TokenSymbol draft)) in
  Return (Ok (payroll_preview draft params resource)).
Definition CreatePayrollIntent (p : PaymentService) ctx now (draft : PayrollDraft) : call Intent :=
  match ps_Intents p with
  | None => Return (Err (not_configured "payroll"))
  | Some intents =>
      sql! params := plain_code (map_err (invalid_payment "Payroll") (payrollFinancial draft)) in
      CreateIntent intents ctx now (payroll_command draft params)
  end.
Definition executable_payroll (i : Intent) : bool :=
  (prm_Type (int_params i) == TypePayroll)
  && match fin_Payroll (prm_Financial (int_params i)) with
     | Some p => SameTokenExecutable p || CrossTokenExecutable p
     | None => false
     end.
Definition ExecutePayroll (p : PaymentService) ctx (intentID : string) (prepare : call Request) : call Request :=
  execute_payment p ctx "Payroll" "PAYROLL" executable_payroll "Executable PAYROLL intent is required." intentID prepare.
Definition PayrollStatus (p : PaymentService) ctx (executionID : string) : call Execution :=
  payment_status p ctx "payroll" TypePayroll "Execution is not a PAYROLL execution." executionID.
End intents.
