(* ===== verification/ApprovalService.v ===== *)
(** internal/services: requesting, reading and deciding approvals
    (approval.go, human_authority.go), confirming an execution
    (execution_authorization.go), and step-up approvals of autonomous
    occurrences (stepup.go). *)
From S2P Require Import Prelude GoStrings GoTime Sha256 AppErrors Autonomy AutonomyLedger AutonomyRuntime.
From S2P Require Import AutonomyStore Contracts IntentTypes IntentParams Intents Wallet Auth Approvals Policies.
From S2P Require Import Evaluator Execution Storage Statements Services Foundation Repositories IntentService.
Open Scope string_scope.
Open Scope Z_scope.
Open Scope go_scope.

(** [PersistedApprovalService]: which dependencies are set. *)
Record ApprovalService := MkApprovalService {
  ps_Approvals : bool; ps_ApprovalIntents : bool; ps_ApprovalAuthorizer : bool; ps_ApprovalAudit : bool;
  ps_ApprovalWallets : bool; ps_ApprovalNow : bool
}.

Definition maxApprovalListLimit : Z := 100.
Record ApprovalPage := MkPage { pg_Approvals : list Approval; pg_NextCursor : string }.

(** [hex.EncodeToString(sum[:12])] and [sum[12:]] of a SHA-256 sum. *)
Definition first_half (material : string) : string := String.substring 0 24 (sha256_hex material).
Definition second_half (material : string) : string := String.substring 24 40 (sha256_hex material).

Definition approvalIDs (i : Intent) : string * string :=
  let p := int_params i in
  let material := "approval/" +:+ (prm_IntentID p +:+ ("/" +:+ (FormatUint (Intents.prm_Version p) +:+ ("/" +:+ int_digest i)))) in
  ("apr_" +:+ first_half material, "apr_req_" +:+ second_half material).

(** [ExecutionAuthorization] *)
Record ExecutionAuthorization := MkExecutionAuthorization {
  ea_AuthorizationID : string; ea_ApprovalID : string; ea_IntentID : string; ea_WalletBindingID : string;
  ea_WalletBindingVersion : Z; ea_Status : Approvals.Status; ea_Amount : string; ea_Token : string;
  ea_WalletReference : string; ea_Recipient : string; ea_AgentIdentity : string
}.
(** Amount, token symbol and recipient of a payment. *)
Definition payment_summary (f : FinancialParameters) : string * string * string :=
  match fin_Send f, fin_Payroll f, fin_Swap f with
  | Some s, _, _ => (amt_Decimal (snd_Amount s), tok_Symbol (snd_Token s), snd_Recipient s)
  | None, Some p, _ =>
      (amt_Decimal (pay_Total p), tok_Symbol (SourceToken p),
       match pay_Recipients p with r :: _ => rcp_Address r | [] => "" end)
  | None, None, Some s => (amt_Decimal (swp_InputAmount s), tok_Symbol (swp_InputToken s), swp_Recipient s)
  | None, None, None => ("", "", "")
  end.
Definition executionAuthorizationOf (a : Approval) (i : Intent) : ExecutionAuthorization :=
  let '(amount, token, recipient) := payment_summary (prm_Financial (int_params i)) in
  MkExecutionAuthorization
    ("eauth_" +:+ first_half ("execution-authorization/" +:+ (apr_approvalID a +:+ ("/" +:+ FormatUint (apr_lifecycleRevision a)))))
    (apr_approvalID a) (apr_intentID a) (apr_walletBindingID a) (apr_walletBindingVersion a) (apr_status a) amount token
    (apr_walletID a +:+ (" / " +:+ apr_walletAddress a)) recipient (apr_userID a).

Section approvals.
Context `{EthCommon} `{UnicodeTables} `{PgTimestamp}.
Implicit Types (s : ApprovalService) (ctx : option Context) (scope : Scope) (now : nat -> Time).

Definition approval_not_configured : error := errorf "approval service is not configured".
Definition approval_scope s ctx (permission : Permission) : result Scope :=
  do! fail_if (negb (ps_ApprovalAuthorizer s)) approval_not_configured;
  service_scope ctx permission.
Definition humanScope s ctx (permission : Permission) : result Scope :=
  do! RequireHuman ctx permission;
  approval_scope s ctx permission.

Definition approval_event scope (type : string) (a : Approval) (at_ : Time) : Event :=
  MkEvent (event_id scope (apr_approvalID a) type) (EventOther type) at_ (apr_intentID a) (apr_intentVersion a)
    (apr_intentDigest a) (apr_approvalID a) "" 0 "" "" "" 0 "" "" "" "" "" 0 (apr_userID a) "" 0.
Definition audit_approval s scope (type previous : string) (a : Approval) (at_ : Time) : call unit :=
  if ps_ApprovalAudit s
  then StoreAudit scope (user_record scope (approval_event scope type a at_) "approval" (apr_approvalID a) previous
                           (Approval_Status_string (apr_status a)) "approval.service")
  else plain_code (Ok tt).

(** * Reading *)
Definition list_options (limit : Z) (cursor status : string) : result ApprovalListOptions :=
  do! fail_if ((limit <=? 0) || (maxApprovalListLimit <? limit))
        (AppErrors.New CodeValidationError "Approval list limit is invalid." false true true);
  let status := TrimSpace status in
  do! fail_if ((status != "") && negb (existsb (fun known => Approval_Status_string known == status)
                 [Approvals.StatusPending; Approvals.StatusApproved; Approvals.StatusReadyForExecutionConfirmation;
                  Approvals.StatusRejected; Approvals.StatusExpired; Approvals.StatusConsumed]))
        (AppErrors.New CodeValidationError "Approval status filter is invalid." false true true);
  Ok (MkListOptions (limit + 1) (TrimSpace cursor) status).
(** One more than the limit was asked for: the last shown is the next cursor. *)
Definition page_of (limit : Z) (values : list Approval) : ApprovalPage :=
  if limit <? Z.of_nat (length values) then
    let shown := take (Z.to_nat limit) values in
    MkPage shown (match last shown with Some a => apr_approvalID a | None => "" end)
  else MkPage values "".
Definition ListApprovals s ctx (limit : Z) (cursor status : string) : call ApprovalPage :=
  sql! scope := plain_code (approval_scope s ctx PermissionReadApproval) in
  act! plain_code (fail_if (negb (ps_Approvals s)) approval_not_configured);
  sql! options := plain_code (list_options limit cursor status) in
  sql! values := StoredApprovals scope options in
  Return (Ok (page_of limit values)).
Definition GetApproval s ctx (approvalID : string) : call Approval :=
  sql! scope := plain_code (approval_scope s ctx PermissionReadApproval) in
  act! plain_code (fail_if (negb (ps_Approvals s)) approval_not_configured);
  Repositories.FindApprovalByID scope approvalID.
Definition GetExecutionConfirmation s ctx (approvalID : string) : call ExecutionAuthorization :=
  sql! approval := GetApproval s ctx approvalID in
  act! plain_code (fail_if (negb (ps_ApprovalIntents s)) approval_not_configured);
  sql! scope := plain_code (approval_scope s ctx PermissionReadApproval) in
  sql! intent := Repositories.FindIntentByID scope (apr_intentID approval) in
  Return (Ok (executionAuthorizationOf approval intent)).

(** * Requesting *)
(** [if existing, err := find(); err == nil { return existing, nil }] *)
Definition unless_found {A} (find : call A) (otherwise : call A) : call A :=
  mbind find (fun r => match r with Ok existing => Return (Ok existing) | Err _ => otherwise end).
Definition RequestApproval s ctx now (intentID : string) : call Approval :=
  sql! scope := plain_code (approval_scope s ctx PermissionRequestApproval) in
  act! plain_code (fail_if (negb (ps_Approvals s && ps_ApprovalIntents s && ps_ApprovalNow s)) approval_not_configured);
  sql! intent := Repositories.FindIntentByID scope intentID in
  act! plain_code (fail_if (intent_owner intent != sc_actorID scope) (errorf "intent is not accessible"));
  act! plain_code (fail_if (int_status intent != Intents.StatusApprovalRequired) (errorf "intent is not awaiting approval"));
  let p := int_params intent in
  unless_found (FindApprovalByIntent scope (prm_IntentID p) (Intents.prm_Version p) (int_digest intent))
    (let at_ := UTC (now 0%nat) in
     let '(approvalID, requestID) := approvalIDs intent in
     sql! approval := plain_code (Approvals.New (Approvals.MkParams approvalID 1 requestID at_ (Intents.prm_ExpiresAt p)) intent) in
     sql! r := CreateApproval scope approval in
     let '(stored, created) := r in
     act! (if created then audit_approval s scope "approval_requested" "" stored at_ else plain_code (Ok tt));
     Return (Ok stored)).

(** * Deciding *)
Definition approval_mismatch : error := AppErrors.New CodeApprovalRequired "Approval does not match the intent." false true true.
Definition wallet_changed : error := AppErrors.New CodeWalletMismatch "Wallet binding has changed." false true true.
Definition binds_owner (b : Binding) (o : Ownership) : bool :=
  (bnd_bindingID b == own_WalletBindingID o) && (bnd_version b == own_WalletBindingVersion o)
  && (bnd_userID b == own_UserID o) && (bnd_provider b == EffectiveWalletProvider o)
  && (bnd_providerUserReference b == own_ProviderUserReference o) && (bnd_walletID b == own_WalletID o)
  && (bnd_address b == own_WalletAddress o) && (bnd_chainID b == own_ChainID o) && (bnd_network b == own_Network o).
Definition validateApprovalBinding scope ctx (a : Approval) (i : Intent) : call unit :=
  let o := prm_Ownership (int_params i) in
  sql! request := plain_code (TrustedRequestFromContext ctx) in
  act! plain_code (fail_if (own_IdentityProvider o != idn_provider (tr_identity request))
                     (inaccessible "Intent authentication identity does not match."));
  act! plain_code (fail_if ((own_UserID o != sc_actorID scope) || (apr_userID a != sc_actorID scope)
                            || (apr_intentID a != prm_IntentID (int_params i))
                            || (apr_intentVersion a != Intents.prm_Version (int_params i))
                            || (apr_intentDigest a != int_digest i)
                            || (apr_walletBindingID a != own_WalletBindingID o)
                            || (apr_walletBindingVersion a != own_WalletBindingVersion o)
                            || (apr_walletID a != own_WalletID o) || (apr_walletAddress a != own_WalletAddress o)
                            || (apr_chainID a != own_ChainID o)) approval_mismatch);
  sql! b := StoredBindingByID scope (own_WalletBindingID o) in
  act! plain_code (fail_if (negb (binds_owner b o)) wallet_changed);
  plain_code (Binding_EnsureAuthorizable b (sc_actorID scope)).

Definition not_accessible (userID : string) scope : result unit :=
  fail_if (userID != sc_actorID scope) (inaccessible "Approval is not accessible.").
(** The second reading of the clock dates the decision. *)
Definition DecideApproval s ctx now (approvalID : string) (decision : Approvals.Decision) : call Approval :=
  sql! scope := plain_code (humanScope s ctx PermissionDecideApproval) in
  act! plain_code (fail_if (negb (ps_Approvals s && ps_ApprovalNow s && ps_ApprovalIntents s && ps_ApprovalWallets s))
                     approval_not_configured);
  sql! current := Repositories.FindApprovalByID scope approvalID in
  act! plain_code (not_accessible (apr_userID current) scope);
  sql! intent := Repositories.FindIntentByID scope (apr_intentID current) in
  act! validateApprovalBinding scope ctx current intent;
  act! plain_code (fail_if (negb (Before (UTC (now 0%nat)) (apr_expiresAt current))) approval_expired);
  act! plain_code (fail_if ((decision != Approvals.DecisionApproved) && (decision != Approvals.DecisionRejected))
                     (errorf "invalid approval decision"));
  if ((decision == Approvals.DecisionApproved) && (apr_status current == Approvals.StatusApproved))
     || ((decision == Approvals.DecisionRejected) && (apr_status current == Approvals.StatusRejected))
  then Return (Ok current)
  else
    let at_ := UTC (now 1%nat) in
    sql! next := plain_code (if decision == Approvals.DecisionApproved then Approve current at_ else Reject current at_) in
    sql! updated := UpdateApproval scope next (apr_lifecycleRevision current) in
    act! audit_approval s scope (if decision == Approvals.DecisionRejected then "approval_rejected" else "approval_granted")
           (Approval_Status_string (apr_status current)) updated at_;
    Return (Ok updated).

(** * Confirming an execution (execution_authorization.go) *)
Definition AuthorizeExecution s ctx now (approvalID intentID walletBindingID : string) (walletBindingVersion : Z)
    : call ExecutionAuthorization :=
  sql! scope := plain_code (humanScope s ctx PermissionConfirmExecution) in
  act! plain_code (fail_if (negb (ps_Approvals s && ps_ApprovalIntents s && ps_ApprovalWallets s && ps_ApprovalNow s))
                     approval_not_configured);
  sql! current := Repositories.FindApprovalByID scope approvalID in
  act! plain_code (not_accessible (apr_userID current) scope);
  sql! intent := Repositories.FindIntentByID scope intentID in
  act! plain_code (fail_if ((apr_intentID current != prm_IntentID (int_params intent))
                            || (apr_intentVersion current != Intents.prm_Version (int_params intent))
                            || (apr_intentDigest current != int_digest intent)) approval_mismatch);
  act! plain_code (fail_if ((walletBindingID != apr_walletBindingID current)
                            || (walletBindingVersion != apr_walletBindingVersion current))
                     (AppErrors.New CodeWalletMismatch "Wallet binding does not match the approval." false true true));
  act! validateApprovalBinding scope ctx current intent;
  let at_ := UTC (now 0%nat) in
  act! plain_code (Approval_EnsureAuthorizes current intent at_);
  sql! next := plain_code (ReadyForExecutionConfirmation current at_) in
  act! (if apr_status next != apr_status current
        then sql! _ := UpdateApproval scope next (apr_lifecycleRevision current) in Return (Ok tt)
        else plain_code (Ok tt));
  Return (Ok (executionAuthorizationOf next intent)).

(** * Step-up approvals (stepup.go) *)
Record StepUpCoordinator := MkStepUp { su_Intents : bool; su_Approvals : bool; su_Autonomy : bool; su_Now : bool }.

(** The intent, awaiting approval from now on. *)
Definition await_approval scope (intent : Intent) (at_ : Time) : call Intent :=
  if int_status intent == Intents.StatusCreated then
    sql! next := plain_code (Intent_Transition intent Intents.StatusApprovalRequired at_) in
    UpdateIntent scope next (int_lifecycleRevision intent)
  else Return (Ok intent).
Definition StepUp_Request (c : StepUpCoordinator) scope now (intentID : string) : call Approval :=
  act! plain_code (fail_if (negb (su_Intents c && su_Approvals c && su_Now c)) (errorf "step-up coordinator is not configured"));
  sql! found := Repositories.FindIntentByID scope intentID in
  let at_ := UTC (now 0%nat) in
  sql! intent := await_approval scope found at_ in
  act! plain_code (fail_if (int_status intent != Intents.StatusApprovalRequired)
                     (errorf "intent is not awaiting step-up approval"));
  let p := int_params intent in
  unless_found (FindApprovalByIntent scope (prm_IntentID p) (Intents.prm_Version p) (int_digest intent))
    (let material := "step-up/" +:+ (prm_IntentID p +:+ ("/" +:+ int_digest intent)) in
     sql! approval := plain_code (Approvals.New
       (Approvals.MkParams ("apr_auto_" +:+ first_half material) 1 ("apr_req_auto_" +:+ second_half material) at_
          (Intents.prm_ExpiresAt p)) intent) in
     sql! r := CreateApproval scope approval in
     Return (Ok (fst r))).
Definition StepUp_Valid scope now (intent : Intent) (approvalID : string) : call unit :=
  act! plain_code (fail_if (approvalID == "") (errorf "step-up approval is required"));
  sql! approval := Repositories.FindApprovalByID scope approvalID in
  act! plain_code (fail_if (apr_status approval != Approvals.StatusApproved) (errorf "step-up approval is not approved"));
  plain_code (Approval_EnsureAuthorizes approval intent (UTC (now 0%nat))).

(** Over a world that holds the autonomy tables as well; [bound] is [time.Now()]. *)
Definition RequestForOccurrence {E} `{Part Foundation E} `{Part Tables E} (c : StepUpCoordinator) scope now (bound : Time)
    (occurrence : Occurrence) : method E (result Approval) :=
  act! plain_code (fail_if (negb (su_Autonomy c) || (occ_IntentID occurrence == ""))
                     (errorf "step-up occurrence binding is not configured"));
  sql! approval := on (StepUp_Request c scope now (occ_IntentID occurrence)) in
  act! on (BindAutonomyApproval scope occurrence (apr_approvalID approval) bound);
  Return (Ok approval).
End approvals.
