(* ===== verification/ExecutionService.v ===== *)
(** internal/services: evaluating a policy (policy.go) and preparing an
    execution (execution.go). *)
From S2P Require Import Prelude GoStrings GoTime AppErrors Contracts IntentTypes IntentParams Intents Wallet Auth.
From S2P Require Import Approvals Policies Evaluator Execution Storage Statements Services Foundation Repositories.
From S2P Require Import IntentService.
Open Scope string_scope.
Open Scope Z_scope.
Open Scope go_scope.

(** A service whose dependencies are all set. *)
Record FoundationService := MkFoundationService { fs_configured : bool }.

Section executions.
Context `{EthCommon} `{UnicodeTables} `{PgTimestamp}.
Implicit Types (s : FoundationService) (ctx : option Context) (scope : Scope) (now : nat -> Time).

(** [PersistedPolicyService.EvaluatePolicy]; a stage is one of the two. *)
Definition EvaluatePolicy s ctx now (intentID policyID : string) (policyVersion : Z) (stage : EvaluationStage)
    : call Evaluator.Result :=
  act! plain_code (fail_if (negb (fs_configured s)) (errorf "policy service is not configured"));
  sql! request := plain_code (TrustedRequestFromContext ctx) in
  sql! scope := plain_code (service_scope ctx PermissionEvaluatePolicy) in
  sql! intent := Repositories.FindIntentByID scope intentID in
  sql! policy := FindPolicyByID scope policyID policyVersion in
  sql! binding := StoredBindingByID scope (own_WalletBindingID (prm_Ownership (int_params intent))) in
  sql! identity := plain_code (NewIdentityContext (tr_identity request) (tr_metadata request)) in
  let at_ := UTC (now 0%nat) in
  sql! r := plain_code (match stage with
                        | EvaluationStageBeforeApproval => EvaluateForApproval policy intent identity binding at_
                        | EvaluationStageBeforeExecution => Evaluate policy intent identity binding at_
                        end) in
  CreatePolicyEvaluation scope r.

(** * Preparing an execution *)
Definition execution_mismatch : error := conflicts "Existing execution request does not match the consumed authorization.".
(** Every field in which the stored request must agree. *)
Definition replays (r : Request) (i : Intent) (a : Approval) (policyID : string) (policyVersion : Z) (o : OperationIdentity) : bool :=
  matches_intent a i
  && (req_operationKey r == opi_operationKey o) && (req_operationVersion r == opi_version o)
  && (req_intentID r == prm_IntentID (int_params i)) && (req_intentVersion r == Intents.prm_Version (int_params i))
  && (req_intentDigest r == int_digest i) && (req_approvalID r == apr_approvalID a) && (req_approvalVersion r == apr_version a)
  && (req_policyID r == policyID) && (req_policyVersion r == policyVersion)
  && (con_PolicyReference (prm_Constraints (int_params i)) == (req_policyID r +:+ (":" +:+ FormatUint (req_policyVersion r)))).
Definition replayConsumedExecution scope (i : Intent) (a : Approval) (policyID : string) (policyVersion : Z)
    (o : OperationIdentity) : call Request :=
  mbind (FindExecutionByOperationKey_ scope (opi_operationKey o) (opi_version o)) (fun found => Return (
    match found with
    | Ok existing =>
        if replays (exe_request existing) i a policyID policyVersion o then Ok (exe_request existing)
        else Err execution_mismatch
    | Err e =>
        if error_code e == Some CodeExecutionNotFound
        then Err (AppErrors.New CodeExecutionRecoverable "Consumed approval has no durable execution and requires recovery."
                    false true true)
        else Err e
    end)).

Definition prepared_event (scope : Scope) (r : Request) (e : Execution) (at_ : Time) : Event :=
  MkEvent (req_requestID r +:+ "/execution-prepared") EventExecutionAuthorized at_ (req_intentID r) (req_intentVersion r)
    (req_intentDigest r) (req_approvalID r) "" 0 "" "" (req_executionID r) 0 (req_requestID r) (req_requestKey r)
    (Execution.Status_string (exe_status e)) "" "" 0 (sc_actorID scope) (req_operationKey r) (req_operationVersion r).
Definition prepared_record (scope : Scope) (r : Request) (e : Execution) (at_ : Time) : AuditRecord :=
  user_record scope (prepared_event scope r e at_) "execution" (req_executionID r) ""
    (Execution.Status_string (exe_status e)) "execution.service".

(** A confirmed approval, consumed together with the creation of its execution. *)
Definition consume_and_create scope now (request : TrustedRequest) (intent : Intent) (approval : Approval) (policyID : string)
    (policyVersion : Z) (operation : OperationIdentity) : call Request :=
  sql! policy := FindPolicyByID scope policyID policyVersion in
  sql! binding := StoredBindingByID scope (own_WalletBindingID (prm_Ownership (int_params intent))) in
  sql! identity := plain_code (NewIdentityContext (tr_identity request) (tr_metadata request)) in
  sql! evaluated := plain_code (Evaluate policy intent identity binding (UTC (now 0%nat))) in
  sql! r := CreatePolicyEvaluation scope evaluated in
  sql! consumed := plain_code (Consume approval (UTC (now 1%nat)) operation) in
  sql! requestValue := plain_code (NewRequest intent consumed r (UTC (now 2%nat))) in
  sql! executionValue := plain_code (Execution.New requestValue) in
  sql! created := ConsumeApprovalAndCreateExecution scope consumed (apr_lifecycleRevision approval) executionValue
                    (prepared_record scope requestValue executionValue (UTC (now 3%nat))) in
  Return (Ok (exe_request (fst (snd created)))).

Definition PrepareExecution s ctx now (intentID approvalID policyID : string) (policyVersion : Z) : call Request :=
  act! plain_code (fail_if (negb (fs_configured s)) (errorf "execution service is not configured"));
  sql! request := plain_code (TrustedRequestFromContext ctx) in
  sql! scope := plain_code (service_scope ctx PermissionPrepareExecution) in
  sql! intent := Repositories.FindIntentByID scope intentID in
  sql! approval := Repositories.FindApprovalByID scope approvalID in
  act! plain_code (fail_if ((apr_status approval != Approvals.StatusReadyForExecutionConfirmation)
                            && (apr_status approval != Approvals.StatusConsumed))
         (AppErrors.New CodeExecutionNotAuthorized "Wallet execution confirmation is required." false true true));
  sql! operation := plain_code (NewOperationIdentity intent) in
  if apr_status approval == Approvals.StatusConsumed then
    sql! _ := plain_code (Consume approval (apr_consumedAt approval) operation) in
    replayConsumedExecution scope intent approval policyID policyVersion operation
  else consume_and_create scope now request intent approval policyID policyVersion operation.
End executions.
