(* ===== verification/Authority.v ===== *)
(** What the application services may do to intents, approvals and execution
    requests: the moves a session's statements make and keep to, whoever else is
    at work, and the statements of Foundation.v that make them. *)
From S2P Require Import Prelude GoStrings GoTime AppErrors Contracts IntentTypes IntentParams Intents IntentSafety.
From S2P Require Import Wallet Auth Approvals Policies Evaluator Execution Storage Database RuntimeEffects.
From S2P Require Import ExecutionStore Statements Sessions Foundation Repositories.
Open Scope string_scope.
Open Scope Z_scope.
Open Scope go_scope.

(** * Moves *)
Definition approved_status (s : Intents.Status) : Prop := s = Intents.StatusApproved \/ s = Intents.StatusReadyForExecution.
Definition unapproved_status (s : Intents.Status) : Prop := s = Intents.StatusCreated \/ s = Intents.StatusApprovalRequired.

(** A written intent row stays, or awaits approval from now on. *)
Definition intent_moves (row row' : intent_row) : Prop :=
  row' = row \/
  it_lifecycle_version row < it_lifecycle_version row' /\ it_status row = Intents.StatusCreated /\
  it_status row' = Intents.StatusApprovalRequired.

(** The user's intent of this identifier and digest is approved. *)
Definition approved_intent (f : Foundation) (tenant id user digest : string) : Prop :=
  exists row, fd_intents f !! (tenant, id) = Some row /\ it_digest row = Some digest /\
    own_UserID (it_owner row) = user /\ approved_status (it_status row).
(** The identifiers of intents are as validation leaves them. *)
Definition trimmed (f : Foundation) : Prop := forall k row, fd_intents f !! k = Some row -> TrimSpace k.2 = k.2.

(** What an approval row never changes. *)
Definition approval_columns (row : approval_row) :=
  (aw_intent_id row, aw_intent_version row, aw_intent_digest row, aw_user_id row, aw_wallet_binding_id row,
   aw_wallet_binding_version row, aw_wallet_id row, aw_wallet_address row, aw_chain_id row, aw_expires_at row).

Lemma intent_moves_trans row1 row2 row3 : intent_moves row1 row2 -> intent_moves row2 row3 -> intent_moves row1 row3.
Proof. intros [->|(? & ? & ?)] [->|(? & ? & ?)]; [by left|by right|by right|]. congruence. Qed.
Lemma intent_moves_same row row' :
  intent_moves row row' -> it_lifecycle_version row' = it_lifecycle_version row -> row' = row.
Proof. intros [|(? & _)]; [done|lia]. Qed.
Lemma intent_moves_approved row row' :
  intent_moves row row' -> approved_status (it_status row) \/ approved_status (it_status row') -> row' = row.
Proof. unfold approved_status. intros [|(_ & -> & ->)]; [done|]. by intros [[]|[]]. Qed.

Section authority.
(** Who decides on an approval of a tenant's user, and who confirms its
    execution. *)
Context (decides : string -> string -> string -> Approvals.Decision -> Prop) (confirms : string -> string -> string -> Prop).

Inductive approval_edge (tenant user id : string) : Approvals.Status -> Approvals.Status -> Prop :=
  | Edge_approve : decides tenant user id DecisionApproved -> approval_edge tenant user id StatusPending Approvals.StatusApproved
  | Edge_reject : decides tenant user id DecisionRejected -> approval_edge tenant user id StatusPending StatusRejected
  | Edge_confirm : confirms tenant user id ->
      approval_edge tenant user id Approvals.StatusApproved StatusReadyForExecutionConfirmation
  | Edge_consume : approval_edge tenant user id StatusReadyForExecutionConfirmation StatusConsumed.

Definition approval_moves (k : string * string) (row row' : approval_row) : Prop :=
  row' = row \/
  aw_lifecycle_version row < aw_lifecycle_version row' /\ approval_columns row' = approval_columns row /\
  tc (approval_edge k.1 (aw_user_id row) k.2) (aw_status row) (aw_status row').

(** A request that appeared between two databases has the approval it consumed
    on the way, an evaluation that allows it, and an approved intent. *)
Definition authorized (f f' : Foundation) (tenant : string) (row : request_row) : Prop :=
  let r := rq_request row in
  (exists a, fd_approvals f' !! (tenant, req_approvalID r) = Some a /\ aw_status a = StatusConsumed /\
     aw_user_id a = rq_user_id row /\ aw_intent_digest a = req_intentDigest r /\
     aw_operation_key a = Some (req_operationKey r) /\ fd_approvals f !! (tenant, req_approvalID r) <> Some a) /\
  (exists v, fd_evaluations f' !! (tenant, req_policyEvaluationKey r) = Some v /\ vw_decision v = DecisionAllow /\
     vw_user_id v = rq_user_id row /\ vw_intent_digest v = req_intentDigest r) /\
  approved_intent f' tenant (req_intentID r) (rq_user_id row) (req_intentDigest r).

Record advances (f f' : Foundation) : Prop := {
  adv_intents k row : fd_intents f !! k = Some row -> exists row', fd_intents f' !! k = Some row' /\ intent_moves row row';
  adv_trimmed : trimmed f -> trimmed f';
  adv_new_intents k row' : fd_intents f' !! k = Some row' -> fd_intents f !! k = None -> unapproved_status (it_status row');
  adv_approvals k row : fd_approvals f !! k = Some row -> exists row', fd_approvals f' !! k = Some row' /\ approval_moves k row row';
  adv_new_approvals k row' : fd_approvals f' !! k = Some row' -> fd_approvals f !! k = None ->
    rtc (approval_edge k.1 (aw_user_id row') k.2) StatusPending (aw_status row');
  adv_consumed k row' : fd_approvals f' !! k = Some row' -> aw_status row' = StatusConsumed ->
    fd_approvals f !! k = Some row' \/ approved_intent f' k.1 (aw_intent_id row') (aw_user_id row') (aw_intent_digest row');
  adv_evaluations : fd_evaluations f ⊆ fd_evaluations f';
  adv_requests : db_requests (fd_runtime f) ⊆ db_requests (fd_runtime f');
  adv_authorized k r : db_requests (fd_runtime f') !! k = Some r -> db_requests (fd_runtime f) !! k = None ->
    authorized f f' k.1 r
}.

(** ** Facts of moves *)
Lemma approval_moves_user k row row' : approval_moves k row row' -> approval_columns row' = approval_columns row.
Proof. by intros [->|(_ & ? & _)]. Qed.
Lemma approval_moves_trans k row1 row2 row3 :
  approval_moves k row1 row2 -> approval_moves k row2 row3 -> approval_moves k row1 row3.
Proof.
  intros [->|(H1 & C1 & T1)] [->|(H2 & C2 & T2)]; [by left|by right|by right|]. right.
  split_and!; [lia|congruence|]. replace (aw_user_id row2) with (aw_user_id row1) in T2 by (unfold approval_columns in C1; congruence).
  by etransitivity.
Qed.
Lemma approval_moves_same k row row' :
  approval_moves k row row' -> aw_lifecycle_version row' = aw_lifecycle_version row -> row' = row.
Proof. intros [|(? & _)]; [done|lia]. Qed.
Lemma approval_moves_consumed k row row' : approval_moves k row row' -> aw_status row = StatusConsumed -> row' = row.
Proof. intros [|(_ & _ & Ht)] Hs; [done|]. rewrite Hs in Ht. inversion Ht as [? ? He|? ? ? He]; inversion He. Qed.

Lemma approved_intent_forward f f' t id u d : advances f f' -> approved_intent f t id u d -> approved_intent f' t id u d.
Proof.
  intros HR (row & Hrow & Hd & Hu & Hs). destruct (adv_intents _ _ HR _ _ Hrow) as (row' & Hrow' & Hm).
  assert (row' = row) as -> by (eapply intent_moves_approved; eauto). by exists row.
Qed.
Lemma approved_intent_back f f' t id u d : advances f f' -> approved_intent f' t id u d -> approved_intent f t id u d.
Proof.
  intros HR (row' & Hrow' & Hd & Hu & Hs). destruct (fd_intents f !! (t, id)) as [row|] eqn:Hrow.
  - destruct (adv_intents _ _ HR _ _ Hrow) as (row'' & Hrow'' & Hm). rewrite Hrow' in Hrow''. injection Hrow'' as <-.
    assert (row' = row) as -> by (eapply intent_moves_approved; eauto). by exists row.
  - destruct (adv_new_intents _ _ HR _ _ Hrow' Hrow) as [E|E]; rewrite E in Hs; by destruct Hs.
Qed.

#[global] Instance advances_preorder : PreOrder advances.
Proof.
  split.
  - intros f. split; intros; try done; try congruence; [eexists; split; [done|by left]..|by left].
  - intros f1 f2 f3 H12 H23. split.
    + intros k row Hk. destruct (adv_intents _ _ H12 _ _ Hk) as (row2 & Hk2 & M2).
      destruct (adv_intents _ _ H23 _ _ Hk2) as (row3 & Hk3 & M3). exists row3. split; [done|by eapply intent_moves_trans].
    + intros Ht. by apply (adv_trimmed _ _ H23), (adv_trimmed _ _ H12).
    + intros k row3 Hk3 Hk1. destruct (fd_intents f2 !! k) as [row2|] eqn:Hk2; [|by eapply (adv_new_intents _ _ H23)].
      destruct (adv_intents _ _ H23 _ _ Hk2) as (row & Hk & M). rewrite Hk3 in Hk. injection Hk as <-.
      destruct M as [->|(_ & _ & ->)]; [by eapply (adv_new_intents _ _ H12)|by right].
    + intros k row Hk. destruct (adv_approvals _ _ H12 _ _ Hk) as (row2 & Hk2 & M2).
      destruct (adv_approvals _ _ H23 _ _ Hk2) as (row3 & Hk3 & M3). exists row3. split; [done|by eapply approval_moves_trans].
    + intros k row3 Hk3 Hk1. destruct (fd_approvals f2 !! k) as [row2|] eqn:Hk2; [|by eapply (adv_new_approvals _ _ H23)].
      destruct (adv_approvals _ _ H23 _ _ Hk2) as (row & Hk & M). rewrite Hk3 in Hk. injection Hk as <-.
      pose proof (adv_new_approvals _ _ H12 _ _ Hk2 Hk1) as Ht. destruct M as [->|(_ & C & T)]; [done|].
      unfold approval_columns in C. replace (aw_user_id row3) with (aw_user_id row2) by congruence.
      etransitivity; [done|]. by apply tc_rtc.
    + intros k row3 Hk3 Hs. destruct (adv_consumed _ _ H23 _ _ Hk3 Hs) as [Hk2|]; [|by right].
      destruct (adv_consumed _ _ H12 _ _ Hk2 Hs) as [|Ha]; [by left|right; by eapply approved_intent_forward].
    + etransitivity; [apply (adv_evaluations _ _ H12)|apply (adv_evaluations _ _ H23)].
    + etransitivity; [apply (adv_requests _ _ H12)|apply (adv_requests _ _ H23)].
    + intros k r Hk3 Hk1. destruct (db_requests (fd_runtime f2) !! k) as [r2|] eqn:Hk2.
      * pose proof (lookup_weaken _ _ _ _ Hk2 (adv_requests _ _ H23)) as E. rewrite Hk3 in E. injection E as <-.
        destruct (adv_authorized _ _ H12 _ _ Hk2 Hk1) as ((a & Ha & Hs & Hu & Hd & Ho & Hf) & (v & Hv & Hr) & Hi).
        split_and!; [|exists v; split; [by eapply lookup_weaken, adv_evaluations|done]|by eapply approved_intent_forward].
        destruct (adv_approvals _ _ H23 _ _ Ha) as (a' & Ha' & M).
        rewrite (approval_moves_consumed _ _ _ M Hs) in Ha'. by exists a.
      * destruct (adv_authorized _ _ H23 _ _ Hk3 Hk2) as ((a & Ha & Hs & Hu & Hd & Ho & Hf) & Hv & Hi).
        split_and!; [|done|done]. exists a. split_and!; try done. intros Ha1.
        destruct (adv_approvals _ _ H12 _ _ Ha1) as (a' & Ha' & M). rewrite (approval_moves_consumed _ _ _ M Hs) in Ha'. done.
Qed.

(** * Statements *)
(** The statements that write neither intents nor approvals nor requests. *)
Definition elsewhere (f f' : Foundation) : Prop :=
  fd_intents f' = fd_intents f /\ fd_approvals f' = fd_approvals f /\ fd_evaluations f ⊆ fd_evaluations f' /\
  db_requests (fd_runtime f') = db_requests (fd_runtime f).
#[global] Instance elsewhere_preorder : PreOrder elsewhere.
Proof.
  split; [done|]. intros f1 f2 f3 (I1 & A1 & E1 & R1) (I2 & A2 & E2 & R2). unfold elsewhere. split_and!; [congruence..| |congruence].
  by etransitivity.
Qed.
Lemma elsewhere_advances f f' : elsewhere f f' -> advances f f'.
Proof.
  intros (EI & EA & EE & ER). split; rewrite ?EI, ?EA, ?ER; intros; try done; try congruence;
    [by eexists; split; [done|left]| |by eexists; split; [done|left]|by left].
  unfold trimmed in *. rewrite EI in *. eauto.
Qed.

Lemma intents_advance f k row : TrimSpace k.2 = k.2 -> fd_intents f !! k = None -> unapproved_status (it_status row) ->
  advances f (set_intents (<[k := row]> (fd_intents f)) f).
Proof.
  intros Hi Hk Hs. split; cbn; intros; try done; try congruence; [| | |by eexists; split; [done|left]|by left].
  - exists row0. split; [|by left]. rewrite lookup_insert_ne; congruence.
  - intros k0 row0 Hk0. cbn in Hk0. apply lookup_insert_Some in Hk0 as [[<- _]|[_ ?]]; eauto.
  - match goal with H : <[_ := _]> _ !! _ = Some _ |- _ => apply lookup_insert_Some in H as [[<- <-]|[? ?]] end; [done|congruence].
Qed.
Lemma intent_advances f k row row' : fd_intents f !! k = Some row -> intent_moves row row' ->
  advances f (set_intents (<[k := row']> (fd_intents f)) f).
Proof.
  intros Hk Hm. split; cbn; intros; try done; try congruence; [| | |by eexists; split; [done|left]|by left].
  - destruct (decide (k0 = k)) as [->|Hne].
    + rewrite lookup_insert_eq. exists row'. split; [done|congruence].
    + rewrite lookup_insert_ne by done. exists row0. split; [done|by left].
  - intros k0 row0 Hk0. cbn in Hk0. apply lookup_insert_Some in Hk0 as [[<- _]|[_ ?]]; eauto.
  - match goal with H : <[_ := _]> _ !! _ = Some _ |- _ => apply lookup_insert_Some in H as [[<- <-]|[? ?]] end; congruence.
Qed.
Lemma approvals_advance f k row : fd_approvals f !! k = None -> aw_status row = StatusPending ->
  advances f (set_approvals (<[k := row]> (fd_approvals f)) f).
Proof.
  intros Hk Hs. split; cbn; intros; try done; try congruence; [by eexists; split; [done|left]|..].
  - exists row0. split; [|by left]. rewrite lookup_insert_ne; congruence.
  - match goal with H : <[_ := _]> _ !! _ = Some _ |- _ => apply lookup_insert_Some in H as [[<- <-]|[? ?]] end; [by rewrite Hs|congruence].
  - match goal with H : <[_ := _]> _ !! _ = Some _ |- _ => apply lookup_insert_Some in H as [[<- <-]|[? ?]] end; [congruence|by left].
Qed.
(** An approval moves; when it is consumed, requests appear that name it. *)
Lemma approval_advances f f' k row row' :
  fd_intents f' = fd_intents f -> fd_approvals f' = <[k := row']> (fd_approvals f) -> fd_evaluations f' = fd_evaluations f ->
  fd_approvals f !! k = Some row -> approval_moves k row row' ->
  (aw_status row' = StatusConsumed -> approved_intent f k.1 (aw_intent_id row') (aw_user_id row') (aw_intent_digest row')) ->
  db_requests (fd_runtime f) ⊆ db_requests (fd_runtime f') ->
  (forall k' r, db_requests (fd_runtime f') !! k' = Some r -> db_requests (fd_runtime f) !! k' = None ->
     authorized f f' k'.1 r) ->
  advances f f'.
Proof.
  intros EI EA EE Hk Hm Hc Hr Ha. split; rewrite ?EI, ?EA; try done; intros; try congruence.
  - by eexists; split; [done|left].
  - unfold trimmed. by rewrite EI.
  - destruct (decide (k0 = k)) as [->|Hne].
    + rewrite lookup_insert_eq. exists row'. split; [done|congruence].
    + rewrite lookup_insert_ne by done. exists row0. split; [done|by left].
  - match goal with H : <[_ := _]> _ !! _ = Some _ |- _ => apply lookup_insert_Some in H as [[<- <-]|[? ?]] end; congruence.
  - match goal with H : <[_ := _]> _ !! _ = Some _ |- _ => apply lookup_insert_Some in H as [[<- <-]|[? ?]] end; [|by left].
    right. unfold approved_intent. rewrite EI. by apply Hc.
  - by rewrite EE.
Qed.

(** ** Writing intents *)
Lemma unique_fresh {K A} `{Countable K} (k : K) clash (m : gmap K A) u : unique k clash m = Ok u -> m !! k = None.
Proof. unfold unique. intros Hu%fail_if_ok_any. destruct (m !! k); [|done]. cbn in Hu. done. Qed.

Lemma CreateIntent_q_advances tenant id row f y f' : TrimSpace id = id -> unapproved_status (it_status row) ->
  CreateIntent_q tenant id row f = Ok (y, f') -> advances f f'.
Proof.
  intros Hi Hs Hq. unfold CreateIntent_q in Hq. do 3 (apply rbind_ok in Hq as (? & _ & Hq)).
  apply rbind_ok in Hq as (u & Hu & Hq). apply rbind_ok in Hq as (? & _ & [= <- <-]).
  apply intents_advance; [done|by eapply unique_fresh|done].
Qed.
Lemma owned_intent_ok tenant id actor f row : owned_intent tenant id actor f = Some row ->
  fd_intents f !! (tenant, id) = Some row /\ own_UserID (it_owner row) = actor.
Proof. unfold owned_intent. destruct (fd_intents f !! _); [|done]. destruct (_ == _) eqn:E; [|done]. intros [= <-]. by reflect_all. Qed.
Lemma UpdateIntent_q_ok tenant id status lifecycle expected actor f y f' :
  UpdateIntent_q tenant id status lifecycle expected actor f = Ok (y, f') ->
  exists old row, fd_intents f !! (tenant, id) = Some old /\ it_lifecycle_version old = expected /\
    own_UserID (it_owner old) = actor /\ it_status row = status /\ it_lifecycle_version row = expected + 1 /\
    y = (id, row) /\ f' = set_intents (<[(tenant, id) := row]> (fd_intents f)) f.
Proof.
  unfold UpdateIntent_q, update_intent. destruct (owned_intent tenant id actor f) as [old|] eqn:Eo; [|done].
  apply owned_intent_ok in Eo as [Hold Hu]. intros Hq. apply rbind_ok in Hq as (u & Hg & Hq). apply fail_if_ok_any in Hg.
  do 4 (apply rbind_ok in Hq as (? & _ & Hq)). injection Hq as <- <-. reflect_all. subst.
  eexists old, _. split_and!; try done; done.
Qed.

(** ** Writing approvals *)
Lemma CreateApproval_q_advances tenant id row f y f' : aw_status row = StatusPending ->
  CreateApproval_q tenant id row f = Ok (y, f') -> advances f f'.
Proof.
  intros Hs Hq. unfold CreateApproval_q in Hq. do 2 (apply rbind_ok in Hq as (? & _ & Hq)).
  apply rbind_ok in Hq as (u & Hu & Hq). apply rbind_ok in Hq as (? & _ & [= <- <-]).
  apply approvals_advance; [by eapply unique_fresh|done].
Qed.
Lemma owned_approval_ok tenant id actor f row : owned_approval tenant id actor f = Some row ->
  fd_approvals f !! (tenant, id) = Some row /\ aw_user_id row = actor.
Proof. unfold owned_approval. destruct (fd_approvals f !! _); [|done]. destruct (_ == _) eqn:E; [|done]. intros [= <-]. by reflect_all. Qed.
Lemma UpdateApproval_q_ok p f y f' : UpdateApproval_q p f = Ok (y, f') ->
  exists old, fd_approvals f !! (ua_tenant p, ua_approval_id p) = Some old /\ aw_lifecycle_version old = ua_expected p /\
    aw_user_id old = ua_actor p /\ ua_lifecycle p = ua_expected p + 1 /\ y = (ua_approval_id p, updated_approval old p) /\
    f' = set_approvals (<[(ua_tenant p, ua_approval_id p) := updated_approval old p]> (fd_approvals f)) f.
Proof.
  unfold UpdateApproval_q. destruct (owned_approval _ _ _ f) as [old|] eqn:Eo; [|done].
  apply owned_approval_ok in Eo as [Hold Hu]. intros Hq. apply rbind_ok in Hq as (u & Hg & Hq). apply fail_if_ok_any in Hg.
  apply rbind_ok in Hq as (? & _ & [= <- <-]). reflect_all. subst. exists old. split_and!; try done.
Qed.
End authority.

(** * Repository methods that leave authority alone *)

Section repositories.
Context `{EthCommon} `{UnicodeTables} `{PgTimestamp}.

Lemma keeps_find_row {Y A} (R : relation Foundation) `{!PreOrder R} (q : Foundation -> option Y) missing (restore : Y -> result A) :
  keeps R (find_row (select_row q) missing restore).
Proof. apply keeps_unless; [by apply keeps_select|done]. Qed.
Lemma keeps_found_instead {A} (R : relation Foundation) `{!PreOrder R} (find : call A) unreadable same different :
  keeps R find -> keeps R (found_instead find unreadable same different).
Proof. intros Hf. by apply keeps_mbind. Qed.
Lemma keeps_insert_or {Y A} (R : relation Foundation) (q : Foundation -> result (Y * Foundation)) (made : Y -> result A) conflict :
  keeps_statement R q -> (forall e, keeps R (conflict e)) -> keeps R (insert_or q made conflict).
Proof. intros Hq Hc. split; [done|]. intros [y|e]; [done|]. cbn. by destruct (is_conflict _). Qed.
Lemma on_runtime_elsewhere {Y} (q : Database -> result (Y * Database)) :
  (forall db y db', q db = Ok (y, db') -> db_requests db' = db_requests db) -> keeps_statement elsewhere (on_runtime q).
Proof.
  intros Hq f y f' Hok. unfold on_runtime in Hok. apply rbind_ok in Hok as ([y' db] & Hok & [= <- <-]). cbn.
  unfold elsewhere. split_and!; [done..|by eapply Hq].
Qed.
Lemma read_requests {Y} (found : option Y) db y db' : read found db = Ok (y, db') -> db' = db.
Proof. unfold read. destruct found; [|done]. by intros [= _ <-]. Qed.
Lemma AppendAudit_q_elsewhere row : keeps_statement elsewhere (AppendAudit_q row).
Proof.
  intros f y f' Hok. unfold AppendAudit_q in Hok. apply rbind_ok in Hok as (db & Ha & Hok).
  apply rbind_ok in Hok as (? & _ & [= <- <-]). unfold AppendAudit_row in Ha. apply rbind_ok in Ha as (? & _ & [= <-]). done.
Qed.
Lemma then_do_keeps {X Y} (R : relation Foundation) `{!PreOrder R} (q : Foundation -> result (X * Foundation))
    (k : X -> Foundation -> result (Y * Foundation)) :
  keeps_statement R q -> (forall x, keeps_statement R (k x)) -> keeps_statement R (then_do q k).
Proof.
  intros Hq Hk f y f' Hok. unfold then_do in Hok. apply rbind_ok in Hok as ([x f1] & Hq' & Hk').
  etransitivity; [by eapply Hq|by eapply Hk].
Qed.
Lemma CreatePolicyFinding_q_elsewhere tenant key index finding : keeps_statement elsewhere (CreatePolicyFinding_q tenant key index finding).
Proof.
  intros f y f' Hok. unfold CreatePolicyFinding_q in Hok. apply rbind_ok in Hok as (? & _ & Hok).
  destruct (fd_findings f !! _); [by injection Hok as <- <-|]. by apply rbind_ok in Hok as (? & _ & [= <- <-]).
Qed.
Lemma create_findings_elsewhere tenant key index findings : keeps_statement elsewhere (create_findings tenant key index findings).
Proof.
  revert index. induction findings as [|x l IH]; intros index; cbn; [by intros f y f' [= <- <-]|].
  apply then_do_keeps; [exact _|apply CreatePolicyFinding_q_elsewhere|auto].
Qed.
Lemma CreatePolicyEvaluation_q_elsewhere tenant key row : keeps_statement elsewhere (CreatePolicyEvaluation_q tenant key row).
Proof.
  intros f y f' Hok. unfold CreatePolicyEvaluation_q in Hok. do 2 (apply rbind_ok in Hok as (? & _ & Hok)).
  apply rbind_ok in Hok as (u & Hu & Hok). apply rbind_ok in Hok as (? & _ & [= <- <-]).
  unfold elsewhere. split_and!; [done..| |done]. cbn. by eapply insert_subseteq, unique_fresh.
Qed.

Lemma StoreAudit_elsewhere scope record : keeps elsewhere (StoreAudit scope record).
Proof. apply keeps_mtry; [done|]. intros p. by apply keeps_mapped, AppendAudit_q_elsewhere. Qed.
Lemma FindIntentByID_elsewhere scope id : keeps elsewhere (Repositories.FindIntentByID scope id).
Proof. apply keeps_mtry; [done|]. intros _. apply keeps_find_row, _. Qed.
Lemma FindIntentByClientRequestID_elsewhere scope id : keeps elsewhere (FindIntentByClientRequestID scope id).
Proof. apply keeps_mtry; [done|]. intros _. apply keeps_find_row, _. Qed.
Lemma FindApprovalByID_elsewhere scope id : keeps elsewhere (Repositories.FindApprovalByID scope id).
Proof. apply keeps_mtry; [done|]. intros _. apply keeps_find_row, _. Qed.
Lemma FindApprovalByIntent_elsewhere scope id version digest : keeps elsewhere (FindApprovalByIntent scope id version digest).
Proof. do 2 (apply keeps_mtry; [done|intros _ || intros ?]). apply keeps_find_row, _. Qed.
Lemma FindPolicyByID_elsewhere scope id version : keeps elsewhere (FindPolicyByID scope id version).
Proof. do 2 (apply keeps_mtry; [done|intros ?]). apply keeps_find_row, _. Qed.
Lemma StoredBindingByID_elsewhere scope id : keeps elsewhere (StoredBindingByID scope id).
Proof. apply keeps_mtry; [done|]. intros _. apply keeps_find_row, _. Qed.
Lemma StoredApprovals_elsewhere scope options : keeps elsewhere (StoredApprovals scope options).
Proof.
  apply keeps_mtry; [done|]. intros _. apply keeps_mtry; [|done]. apply keeps_mapped. intros f y f' Hok.
  unfold ListApprovals_q in Hok. apply rbind_ok in Hok as (? & _ & [= <- <-]). reflexivity.
Qed.
Lemma FindPolicyEvaluation_elsewhere scope key : keeps elsewhere (FindPolicyEvaluation scope key).
Proof.
  apply keeps_mtry; [done|]. intros _. apply keeps_unless; [apply keeps_select, _|]. intros row.
  apply keeps_mtry; [|done]. apply keeps_mapped. by intros f y f' [= _ <-].
Qed.
Lemma CreatePolicyEvaluation_elsewhere scope r : keeps elsewhere (CreatePolicyEvaluation scope r).
Proof.
  do 2 (apply keeps_mtry; [done|intros _]). split.
  - apply then_do_keeps; [exact _|apply CreatePolicyEvaluation_q_elsewhere|intros _; apply create_findings_elsewhere].
  - intros [y|e]; [done|]. cbn. destruct (negb _); [done|]. apply keeps_mbind; [apply FindPolicyEvaluation_elsewhere|done].
Qed.
Lemma restored_elsewhere (q : query (string * execution_row * request_row)) :
  (forall db y db', run_query q (MkMoment 0 []) db = Ok (y, db') -> db' = db) ->
  keeps elsewhere (stored not_a_statement (restored q)).
Proof.
  intros Hq. split; [apply on_runtime_elsewhere; intros db y db' Hok; by rewrite (Hq _ _ _ Hok)|].
  intros [[[id e] r]|e]; cbn; [done|]. by destruct (errors_Is e ErrNoRows).
Qed.
Lemma FindExecutionByID_elsewhere scope id : keeps elsewhere (FindExecutionByID_ scope id).
Proof.
  unfold FindExecutionByID_, FindExecutionByID. destruct (Scope_Validate scope); cbn -[restored]; [|done].
  apply restored_elsewhere. intros db y db'. apply read_requests.
Qed.
Lemma FindExecutionByOperationKey_elsewhere scope key version : keeps elsewhere (FindExecutionByOperationKey_ scope key version).
Proof.
  unfold FindExecutionByOperationKey_, FindExecutionByOperationKey. destruct (Scope_Validate scope); cbn -[restored]; [|done].
  destruct (dbVersion version); cbn -[restored]; [|done]. apply restored_elsewhere. intros db y db'. apply read_requests.
Qed.
End repositories.
#[export] Hint Resolve StoreAudit_elsewhere FindIntentByID_elsewhere FindIntentByClientRequestID_elsewhere
  FindApprovalByID_elsewhere FindApprovalByIntent_elsewhere FindPolicyByID_elsewhere StoredBindingByID_elsewhere
  StoredApprovals_elsewhere FindPolicyEvaluation_elsewhere CreatePolicyEvaluation_elsewhere FindExecutionByID_elsewhere
  FindExecutionByOperationKey_elsewhere : keeps.

(** * What a method knows of the rows it read *)
Section knowledge.
Context `{EthCommon} `{UnicodeTables} `{PgTimestamp}.
Context (decides : string -> string -> string -> Approvals.Decision -> Prop) (confirms : string -> string -> string -> Prop).
Abbreviation R := (advances decides confirms).
Abbreviation moves := (approval_moves decides confirms).

(** The row under the key is the one the value was read from, or it moved since. *)
Definition known_intent (tenant user : string) (i : Intent) (f : Foundation) : Prop :=
  exists row row', it_status row = int_status i /\ default "" (it_digest row) = int_digest i /\
    it_lifecycle_version row = int_lifecycleRevision i /\ own_UserID (it_owner row) = user /\
    fd_intents f !! (tenant, prm_IntentID (int_params i)) = Some row' /\ intent_moves row row'.
Definition known_approval (tenant user : string) (a : Approval) (f : Foundation) : Prop :=
  exists row row', aw_status row = apr_status a /\ aw_lifecycle_version row = apr_lifecycleRevision a /\
    aw_user_id row = user /\ apr_userID a = user /\ aw_intent_id row = apr_intentID a /\ aw_intent_digest row = apr_intentDigest a /\
    fd_approvals f !! (tenant, apr_approvalID a) = Some row' /\ moves (tenant, apr_approvalID a) row row'.

Lemma known_intent_lasting t u i : lasting R (known_intent t u i).
Proof.
  intros f f' HR (row & row' & ? & ? & ? & ? & Hr & Hm). destruct (adv_intents _ _ _ _ HR _ _ Hr) as (row2 & Hr2 & Hm2).
  exists row, row2. split_and!; try done. by eapply intent_moves_trans.
Qed.
Lemma known_approval_lasting t u a : lasting R (known_approval t u a).
Proof.
  intros f f' HR (row & row' & ? & ? & ? & ? & ? & ? & Hr & Hm). destruct (adv_approvals _ _ _ _ HR _ _ Hr) as (row2 & Hr2 & Hm2).
  exists row, row2. split_and!; try done. by eapply approval_moves_trans.
Qed.
Lemma intentFromRow_ok id row i : intentFromRow (id, row) = Ok i ->
  it_status row = int_status i /\ default "" (it_digest row) = int_digest i /\
  it_lifecycle_version row = int_lifecycleRevision i /\ TrimSpace id = prm_IntentID (int_params i) /\ Intent_Validate i = Ok tt.
Proof.
  unfold intentFromRow. intros Hr. do 3 (apply rbind_ok in Hr as (? & _ & Hr)). apply rbind_ok in Hr as (l & Hl & Hr).
  apply domainVersion_ok in Hl as [-> _]. unfold Intent_Restore in Hr. apply rbind_ok in Hr as (? & _ & Hr).
  apply rbind_ok in Hr as ([] & Hv & Hr). do 2 (apply rbind_ok in Hr as (? & _ & Hr)). injection Hr as <-. by split_and!.
Qed.
Lemma approvalFromRow_ok id row a : approvalFromRow (id, row) = Ok a ->
  aw_status row = apr_status a /\ aw_lifecycle_version row = apr_lifecycleRevision a /\ aw_user_id row = apr_userID a /\
  aw_intent_id row = apr_intentID a /\ aw_intent_digest row = apr_intentDigest a /\ id = apr_approvalID a /\
  Approval_Validate a = Ok tt.
Proof.
  unfold approvalFromRow. intros Hr. do 3 (apply rbind_ok in Hr as (? & _ & Hr)). apply rbind_ok in Hr as (l & Hl & Hr).
  apply domainVersion_ok in Hl as [-> _]. unfold Approval_Restore in Hr. apply rbind_ok in Hr as ([] & Hv & [= <-]). by split_and!.
Qed.

Lemma safe_find_row {Y A} (q : Foundation -> option Y) missing (restore : Y -> result A) (Q : A -> Foundation -> Prop) db :
  (forall y a d, R db d -> q d = Some y -> restore y = Ok a -> Q a d) ->
  safe R (find_row (select_row q) missing restore) (fun r d => forall a, r = Ok a -> Q a d) db.
Proof.
  intros HQ. eapply safe_execute; [apply _|apply (performs_select R)| |].
  - intros e d _. cbn. by destruct (errors_Is e ErrNoRows).
  - intros y d HR Hy. cbn. intros a Ha. exact (HQ y a d HR Hy Ha).
Qed.
Lemma safe_FindIntentByID scope id db : trimmed db ->
  safe R (Repositories.FindIntentByID scope id)
    (fun r d => forall i, r = Ok i -> known_intent (sc_tenantID scope) (sc_actorID scope) i d /\ Intent_Validate i = Ok tt) db.
Proof.
  intros Ht. apply safe_plain; [done|]. intros _ _. apply safe_find_row. intros [id' row] i d HR Hq Hi.
  destruct (owned_intent _ id _ d) as [row0|] eqn:Ho; [|done]. injection Hq as <- <-. apply owned_intent_ok in Ho as [Hrow Hu].
  apply intentFromRow_ok in Hi as (? & ? & ? & Hid & ?). split; [|done]. exists row0, row0. split_and!; try done; [|by left].
  rewrite <- Hid, (adv_trimmed _ _ _ _ HR Ht (sc_tenantID scope, id) row0 Hrow : TrimSpace id = id). done.
Qed.
Lemma safe_FindApprovalByID scope id db :
  safe R (Repositories.FindApprovalByID scope id)
    (fun r d => forall a, r = Ok a ->
       apr_approvalID a = id /\ known_approval (sc_tenantID scope) (sc_actorID scope) a d /\ Approval_Validate a = Ok tt) db.
Proof.
  apply safe_plain; [done|]. intros _ _. apply safe_find_row. intros [id' row] a d HR Hq Ha.
  destruct (owned_approval _ id _ d) as [row0|] eqn:Ho; [|done]. injection Hq as <- <-. apply owned_approval_ok in Ho as [Hrow Hu].
  apply approvalFromRow_ok in Ha as (? & ? & ? & ? & ? & -> & ?). split_and!; [done| |done].
  exists row0, row0. split_and!; try done; [congruence|by left].
Qed.
End knowledge.

(** * Repository methods that use it *)
Section writes.
Context `{EthCommon} `{UnicodeTables} `{PgTimestamp}.
Context (decides : string -> string -> string -> Approvals.Decision -> Prop) (confirms : string -> string -> string -> Prop).
Abbreviation R := (advances decides confirms).
Abbreviation moves := (approval_moves decides confirms).
Abbreviation anything := (fun _ _ => True).

(** ** Intents *)
Lemma Intent_Validate_trimmed i : Intent_Validate i = Ok tt -> TrimSpace (prm_IntentID (int_params i)) = prm_IntentID (int_params i).
Proof.
  intros Hv. unfold Intent_Validate in Hv. apply rbind_ok in Hv as ([] & Hv & _). apply map_err_ok in Hv.
  by apply normalizeParams_fixed, (f_equal prm_IntentID) in Hv.
Qed.
Lemma intentCreateParams_status i row : intentCreateParams i = Ok row -> it_status row = int_status i.
Proof. unfold intentCreateParams. intros Hr. repeat (apply rbind_ok in Hr as (? & _ & Hr)). by injection Hr as <-. Qed.
Lemma CreateIntent_keeps scope i : unapproved_status (int_status i) -> keeps R (Repositories.CreateIntent scope i).
Proof.
  intros Hs. apply keeps_mtry; [done|]. intros _. apply keeps_known. intros [] Hv. apply keeps_mtry; [done|]. intros _.
  apply keeps_known. intros row Hr. apply keeps_insert_or.
  - intros f y f'. apply CreateIntent_q_advances; [by apply Intent_Validate_trimmed|by rewrite (intentCreateParams_status i)].
  - intros e. eapply keeps_found_instead; [exact _|]. eapply keeps_impl, FindIntentByClientRequestID_elsewhere.
    apply elsewhere_advances.
Qed.
Lemma UpdateIntent_q_advances tenant user i lifecycle expected f y f' : known_intent tenant user i f ->
  int_status i = Intents.StatusCreated -> expected = int_lifecycleRevision i ->
  UpdateIntent_q tenant (prm_IntentID (int_params i)) Intents.StatusApprovalRequired lifecycle expected user f = Ok (y, f') -> R f f'.
Proof.
  intros (row & row' & Hs & _ & Hl & _ & Hrow & Hm) Hc -> Hq.
  apply UpdateIntent_q_ok in Hq as (old & new & Hold & Hlo & _ & Hsn & Hln & _ & ->).
  rewrite Hrow in Hold. injection Hold as <-. assert (row' = row) as -> by (eapply intent_moves_same; [done|congruence]).
  eapply intent_advances; [done|]. right. split_and!; [lia|congruence|done].
Qed.
Lemma safe_UpdateIntent scope i next db : known_intent (sc_tenantID scope) (sc_actorID scope) i db ->
  int_status i = Intents.StatusCreated -> int_status next = Intents.StatusApprovalRequired -> int_params next = int_params i ->
  safe R (UpdateIntent scope next (int_lifecycleRevision i)) anything db.
Proof.
  intros Hk Hc Hn Hp. do 3 (apply safe_plain; [done|intros _ _]). apply safe_plain; [done|]. intros w _.
  apply safe_plain; [done|]. intros e [-> _]%dbVersion_ok. eapply safe_execute.
  - apply _.
  - intros db1 HR1 y db2 Hq. split; [|exact I]. rewrite Hp, Hn in Hq. eapply UpdateIntent_q_advances; [|exact Hc|done|exact Hq].
    by eapply known_intent_lasting.
  - intros e d _. cbn. by destruct (errors_Is e ErrNoRows).
  - done.
Qed.

(** ** Approvals *)
Lemma approvalCreateParams_status a row : approvalCreateParams a = Ok row -> aw_status row = apr_status a.
Proof. unfold approvalCreateParams. intros Hr. repeat (apply rbind_ok in Hr as (? & _ & Hr)). by injection Hr as <-. Qed.
Lemma CreateApproval_keeps scope a : apr_status a = StatusPending -> keeps R (CreateApproval scope a).
Proof.
  intros Hs. do 3 (apply keeps_mtry; [done|intros _]). apply keeps_known. intros row Hr. apply keeps_insert_or.
  - intros f y f'. apply CreateApproval_q_advances. by rewrite (approvalCreateParams_status a).
  - intros e. eapply keeps_found_instead; [exact _|]. eapply keeps_impl, FindApprovalByIntent_elsewhere. apply elsewhere_advances.
Qed.
(** The row an update finds is the one the value was read from. *)
Lemma UpdateApproval_q_known p user a f y f' : known_approval decides confirms (ua_tenant p) user a f ->
  ua_approval_id p = apr_approvalID a -> ua_expected p = apr_lifecycleRevision a ->
  approval_edge decides confirms (ua_tenant p) user (apr_approvalID a) (apr_status a) (ua_status p) ->
  UpdateApproval_q p f = Ok (y, f') ->
  exists old, let k := (ua_tenant p, ua_approval_id p) in
    fd_approvals f !! k = Some old /\ aw_status old = apr_status a /\ aw_user_id old = user /\
    aw_intent_id old = apr_intentID a /\ aw_intent_digest old = apr_intentDigest a /\
    moves k old (updated_approval old p) /\
    f' = set_approvals (<[k := updated_approval old p]> (fd_approvals f)) f.
Proof.
  intros (row & row' & Hs & Hl & Hu & _ & Hi & Hd & Hrow & Hm) Eid Ee He Hq.
  apply UpdateApproval_q_ok in Hq as (old & Hold & Hlo & _ & Hln & _ & ->). rewrite Eid in Hold |- *.
  rewrite Hrow in Hold. injection Hold as <-. assert (row' = row) as -> by (eapply approval_moves_same; [done|congruence]).
  exists row. split_and!; try done. right. cbn. split_and!; [lia|done|]. apply tc_once. by rewrite Hu, Hs.
Qed.
Lemma updateApprovalParams_ok scope a expected p : updateApprovalParams scope a expected = Ok p ->
  ua_tenant p = sc_tenantID scope /\ ua_approval_id p = apr_approvalID a /\ ua_status p = apr_status a /\
  ua_expected p = expected /\ ua_operation_key p = dbOptionalString (apr_operationKey a).
Proof.
  unfold updateApprovalParams. intros Hp. do 2 (apply rbind_ok in Hp as (? & _ & Hp)).
  apply rbind_ok in Hp as (e & [-> _]%dbVersion_ok & Hp). by injection Hp as <-.
Qed.
Lemma safe_UpdateApproval scope a next db : known_approval decides confirms (sc_tenantID scope) (sc_actorID scope) a db ->
  approval_edge decides confirms (sc_tenantID scope) (sc_actorID scope) (apr_approvalID a) (apr_status a) (apr_status next) ->
  apr_status next <> StatusConsumed -> apr_approvalID next = apr_approvalID a ->
  safe R (UpdateApproval scope next (apr_lifecycleRevision a)) anything db.
Proof.
  intros Hk He Hn Hid. do 3 (apply safe_plain; [done|intros _ _]). apply safe_plain; [done|].
  intros p (Et & Ei & Es & Ee & _)%updateApprovalParams_ok. eapply safe_execute.
  - apply _.
  - intros db1 HR1 y db2 Hq. split; [|exact I]. eapply known_approval_lasting in Hk; [|exact HR1]. rewrite <- Et in Hk, He.
    eapply UpdateApproval_q_known in Hq as (old & Hold & _ & _ & _ & _ & Hm & ->); [|done|congruence|done|by rewrite Es].
    eapply approval_advances; [done..| | |]; cbn; [congruence|done|congruence].
  - intros e d _. cbn. by destruct (errors_Is e ErrNoRows).
  - done.
Qed.
End writes.

(** * Consuming an approval for an execution *)
Section consumption.
Context `{EthCommon} `{UnicodeTables} `{PgTimestamp}.
Context (decides : string -> string -> string -> Approvals.Decision -> Prop) (confirms : string -> string -> string -> Prop).
Abbreviation R := (advances decides confirms).

Definition known_evaluation (tenant user : string) (r : Evaluator.Result) (f : Foundation) : Prop :=
  exists v, fd_evaluations f !! (tenant, PolicyEvaluationKey r) = Some v /\ vw_decision v = res_Decision r /\
    vw_user_id v = user /\ vw_intent_digest v = res_IntentDigest r.
Lemma known_evaluation_lasting t u r : lasting R (known_evaluation t u r).
Proof. intros f f' HR (v & Hv & Hr). exists v. split; [by eapply lookup_weaken, adv_evaluations|done]. Qed.
Lemma approved_intent_lasting t id u d : lasting R (fun f => approved_intent f t id u d).
Proof. intros f f' HR. by eapply approved_intent_forward. Qed.

Lemma equalPolicyResult_eq a b : equalPolicyResult a b = true -> a = b.
Proof. destruct a, b. unfold equalPolicyResult. cbn. intros He. reflect_all. by subst. Qed.
Lemma CreatePolicyEvaluation_tx_ok scope key r f y f' : CreatePolicyEvaluation_tx scope key r f = Ok (y, f') ->
  R f f' /\ fd_evaluations f' !! (sc_tenantID scope, key) = Some (evaluation_columns scope r).
Proof.
  unfold CreatePolicyEvaluation_tx, then_do. intros Hq. apply rbind_ok in Hq as ([u f1] & Hq & Hf). cbn in Hf.
  pose proof (CreatePolicyEvaluation_q_elsewhere _ _ _ _ _ _ Hq) as E1. pose proof (create_findings_elsewhere _ _ _ _ _ _ _ Hf) as E2.
  split; [apply elsewhere_advances; by etransitivity|]. destruct E2 as (_ & _ & E2 & _). eapply lookup_weaken, E2.
  unfold CreatePolicyEvaluation_q in Hq. repeat (apply rbind_ok in Hq as (? & _ & Hq)). injection Hq as _ <-. cbn.
  by rewrite lookup_insert_eq.
Qed.
Lemma safe_FindPolicyEvaluation scope key db :
  safe R (FindPolicyEvaluation scope key) (fun r d => forall found, r = Ok found ->
    exists v, fd_evaluations d !! (sc_tenantID scope, key) = Some v /\ vw_decision v = res_Decision found /\
      vw_user_id v = sc_actorID scope /\ vw_intent_digest v = res_IntentDigest found) db.
Proof.
  apply safe_plain; [done|intros _ _]. eapply safe_unless; [apply _|apply (performs_select R)|done|done|].
  intros row d _ Hrow. cbn beta in Hrow. destruct (fd_evaluations d !! _) as [v|] eqn:Hv; [|done].
  destruct (vw_user_id v == sc_actorID scope) eqn:Hu; [|done]. injection Hrow as ->. reflect_all.
  apply (safe_mtry_with R (fun d => exists v, fd_evaluations d !! (sc_tenantID scope, key) = Some v /\ v = row) _ _ (fun _ _ => True)).
  - intros d1 d2 HR (v & Hv1 & ->). exists row. split; [by eapply lookup_weaken, adv_evaluations|done].
  - by exists row.
  - done.
  - eapply safe_impl, safe_keeps; [done|]. apply keeps_mapped. intros f y f' [= _ <-]. reflexivity.
  - intros findings d1 _ (v & Hv1 & ->). cbn. intros found [= <-]. exists row. by split_and!.
Qed.
Lemma safe_CreatePolicyEvaluation scope r db :
  safe R (CreatePolicyEvaluation scope r)
    (fun answer d => forall r', answer = Ok r' -> known_evaluation (sc_tenantID scope) (sc_actorID scope) r' d) db.
Proof.
  do 2 (apply safe_plain; [done|intros _ _]). eapply (safe_execute R _ _ (fun _ d => fd_evaluations d !! (sc_tenantID scope, PolicyEvaluationKey r) = Some (evaluation_columns scope r))).
  - intros db1 HR1 y db2. apply CreatePolicyEvaluation_tx_ok.
  - intros e d _. cbn. destruct (negb _); [done|]. eapply safe_mbind, safe_impl, safe_FindPolicyEvaluation.
    intros [found|e'] d1 Hf; cbn; [|done]. destruct (equalPolicyResult found r) eqn:E; [|done]. intros r' [= <-].
    apply equalPolicyResult_eq in E as ->. by apply Hf.
  - intros y d _ Hv. cbn. intros r' [= <-]. by exists (evaluation_columns scope r).
Qed.

(** ** The transaction *)
Lemma run_create_ok r e db db' : run_create r e db = Ok db' ->
  exists k row, k.1 = rp_tenant r /\ db_requests db !! k = None /\ db_requests db' = <[k := row]> (db_requests db) /\
    rq_user_id row = rp_user_id r /\ req_approvalID (rq_request row) = req_approvalID (rp_request r) /\
    req_intentID (rq_request row) = req_intentID (rp_request r) /\ req_intentDigest (rq_request row) = req_intentDigest (rp_request r) /\
    req_operationKey (rq_request row) = req_operationKey (rp_request r) /\
    req_policyEvaluationKey (rq_request row) = req_policyEvaluationKey (rp_request r).
Proof.
  unfold run_create. intros Hok. apply rbind_ok in Hok as (t1 & _ & Hok). apply rbind_ok in Hok as (t2 & _ & Hok).
  apply rbind_ok in Hok as (db1 & Hc & Hok). do 2 (apply rbind_ok in Hok as (? & _ & Hok)).
  unfold CreateExecutionRequest in Hc. apply rbind_ok in Hc as (u & Hc & [= <-]). apply fail_if_ok_any in Hc. reflect_all.
  unfold CreateExecution_row in Hok. apply rbind_ok in Hok as (? & _ & Hok). cbn in Hok.
  destruct (db_executions db !! _); [done|]. injection Hok as <-. cbn. eexists (_, _), _. split_and!; [done| |done..].
  destruct (db_requests db !! _) as [other|] eqn:Eo; [|done]. destruct Hc. exists (rp_tenant r, req_executionID (rp_request r)), other.
  split; [done|]. cbn. auto.
Qed.
(** What a consumption and the request made with it agree on. *)
Record consumption (a consumed : Approval) (i : Intent) (v : Evaluator.Result) (r : Request) : Prop := {
  cn_status : apr_status consumed = StatusConsumed;
  cn_id : apr_approvalID consumed = apr_approvalID a;
  cn_key : apr_operationKey consumed = req_operationKey r /\ req_operationKey r <> "";
  cn_approval : req_approvalID r = apr_approvalID a;
  cn_bound : apr_intentID a = req_intentID r /\ apr_intentDigest a = req_intentDigest r;
  cn_intent : req_intentID r = prm_IntentID (int_params i) /\ req_intentDigest r = int_digest i;
  cn_approved : approved_status (int_status i);
  cn_frozen : int_digest i <> "";
  cn_evaluation : req_policyEvaluationKey r = PolicyEvaluationKey v;
  cn_allowed : res_Decision v = DecisionAllow /\ res_IntentDigest v = req_intentDigest r
}.
Lemma consumption_of a consumed i v r t1 t2 operation : apr_status a = StatusReadyForExecutionConfirmation ->
  Consume a t1 operation = Ok consumed -> NewRequest i consumed v t2 = Ok r -> consumption a consumed i v r.
Proof.
  intros Ha Hc Hr. unfold Consume in Hc. apply rbind_ok in Hc as (? & _ & Hc). rewrite Ha in Hc. cbn in Hc.
  do 3 (apply rbind_ok in Hc as (? & _ & Hc)). apply rbind_ok in Hc as (? & Hm & Hc). apply validated_ok in Hc as [-> _].
  apply fail_if_ok_any in Hm. unfold NewRequest in Hr. apply rbind_ok in Hr as ([] & Hv & Hr).
  do 2 (apply rbind_ok in Hr as (? & _ & Hr)). apply rbind_ok in Hr as (? & Hs & Hr). apply fail_if_ok_any in Hs.
  apply rbind_ok in Hr as (? & _ & Hr). apply rbind_ok in Hr as (op & Hop & Hr).
  apply rbind_ok in Hr as (? & Hcov & Hr). apply fail_if_ok_any in Hcov. apply rbind_ok in Hr as (? & _ & Hr).
  apply rbind_ok in Hr as (? & Hpol & Hr). apply fail_if_ok_any in Hpol. apply rbind_ok in Hr as (? & _ & [= <-]).
  unfold approval_covers, policy_covers, matches_intent in *. cbn in *.
  assert (approved_status (int_status i)) as Happ.
  { unfold approved_status. apply andb_false_iff in Hs as [Hs|Hs]; reflect_all; auto. }
  assert (int_digest i <> "") as Hd.
  { apply Intent_Validate_ok in Hv as (_ & _ & _ & Hd). unfold digest_matches in Hd. destruct Happ as [E|E]; rewrite E in Hd;
      destruct Hd as (c & _ & Hd); rewrite Hd; apply digestBytes_nonempty. }
  reflect_all. split; cbn; auto; try congruence. split; congruence.
Qed.

Lemma known_approved t u i f : known_intent t u i f -> approved_status (int_status i) -> int_digest i <> "" ->
  approved_intent f t (prm_IntentID (int_params i)) u (int_digest i).
Proof.
  intros (row & row' & Hs & Hd & _ & Hu & Hrow & Hm) Ha Hne. rewrite <- Hs in Ha.
  assert (row' = row) as -> by (eapply intent_moves_approved; eauto). exists row. split_and!; [done| |done|done].
  destruct (it_digest row); cbn in *; congruence.
Qed.

Lemma ConsumeApproval_tx_advances a consumed i v r user p q e record f y f' :
  consumption a consumed i v r -> apr_status a = StatusReadyForExecutionConfirmation ->
  known_approval decides confirms (ua_tenant p) user a f -> known_evaluation (ua_tenant p) user v f ->
  known_intent (ua_tenant p) user i f ->
  ua_approval_id p = apr_approvalID consumed -> ua_expected p = apr_lifecycleRevision a -> ua_status p = StatusConsumed ->
  ua_operation_key p = dbOptionalString (apr_operationKey consumed) ->
  rp_tenant q = ua_tenant p -> rp_user_id q = user -> rp_request q = r ->
  ConsumeApproval_tx p q e record f = Ok (y, f') -> R f f'.
Proof.
  intros HC Ha Hk Hev Hin Hid He Hst Hop Et Eu Er Hq. destruct HC as [_ Cid [Ck Cne] Cr [Cb1 Cb2] [Ci1 Ci2] Capp Cf Cev [Cal Cd]].
  unfold ConsumeApproval_tx, with_audit, then_do in Hq. apply rbind_ok in Hq as ([y1 f1] & Hq & Haud).
  apply rbind_ok in Hq as ([y2 f2] & Hu & Hq). apply rbind_ok in Hq as ([y3 f3] & Hx & [= <- <-]). cbn in Haud, Hx.
  apply rbind_ok in Haud as ([y4 f4] & Haud & [= <- <-]).
  destruct (AppendAudit_q_elsewhere _ _ _ _ Haud) as (AI & AA & _ & AR). assert (fd_evaluations f4 = fd_evaluations f3) as AE.
  { unfold AppendAudit_q in Haud. do 2 (apply rbind_ok in Haud as (? & _ & Haud)). by injection Haud as _ <-. }
  unfold CreateExecution_rows in Hx. apply rbind_ok in Hx as (db & Hx & Hf). apply rbind_ok in Hf as (? & _ & [= _ <-]).
  eapply UpdateApproval_q_known in Hu as (old & Hold & Hs & Hou & Hoi & Hod & Hm & ->);
    [|done|congruence|done|rewrite Ha, Hst; constructor].
  apply run_create_ok in Hx as (k & row & Hk1 & Hk2 & Hk3 & Ru & Ra & Ri & Rd & Rk & Re). cbn in *.
  assert (approved_intent f (ua_tenant p) (req_intentID r) user (req_intentDigest r)) as Happ.
  { rewrite Ci1, Ci2. by apply known_approved. }
  eapply approval_advances; [exact AI|exact AA|exact AE|exact Hold|exact Hm|..]; cbn.
  - intros _. by rewrite Hou, Hoi, Hod, Cb1, Cb2.
  - rewrite AR, Hk3. by apply insert_subseteq.
  - intros k' r'. rewrite AR, Hk3. intros [[<- <-]|[_ ?]]%lookup_insert_Some Hnone; [|congruence].
    assert (k.1 = ua_tenant p) as -> by congruence. unfold authorized. rewrite Ru, Ra, Ri, Rd, Rk, Re, Er, Eu. split_and!.
    + exists (updated_approval old p). cbn. rewrite AA, Cr, <- Cid, <- Hid, lookup_insert_eq. split_and!; try done; [congruence| |].
      * rewrite Hop, Ck. unfold dbOptionalString. destruct (_ == _) eqn:E; [by reflect_all|done].
      * rewrite Hold. intros [= E]. apply (f_equal aw_status) in E. cbn in E. congruence.
    + destruct Hev as (w & Hw & Hwd & Hwu & Hwi). exists w. rewrite AE, Cev. cbn. split_and!; [done|congruence..].
    + destruct Happ as (i' & Hi' & ?). exists i'. split; [|done]. by rewrite AI.
Qed.
End consumption.

Section consume_method.
Context `{EthCommon} `{UnicodeTables} `{PgTimestamp}.
Context (decides : string -> string -> string -> Approvals.Decision -> Prop) (confirms : string -> string -> string -> Prop).
Abbreviation R := (advances decides confirms).

Lemma requestCreateParams_fields scope r q : requestCreateParams scope r = Ok q ->
  rp_tenant q = sc_tenantID scope /\ rp_user_id q = sc_actorID scope /\ rp_request q = r.
Proof. unfold requestCreateParams. intros Hq. repeat (apply rbind_ok in Hq as (? & _ & Hq)). by injection Hq as <-. Qed.

Lemma safe_ConsumeApprovalAndCreateExecution scope consumed a i v value record db :
  consumption a consumed i v (exe_request value) -> apr_status a = StatusReadyForExecutionConfirmation ->
  known_approval decides confirms (sc_tenantID scope) (sc_actorID scope) a db ->
  known_evaluation (sc_tenantID scope) (sc_actorID scope) v db -> known_intent (sc_tenantID scope) (sc_actorID scope) i db ->
  safe R (ConsumeApprovalAndCreateExecution scope consumed (apr_lifecycleRevision a) value record)
    (fun answer _ => forall x, answer = Ok x -> exe_request (fst (snd x)) = exe_request value) db.
Proof.
  intros HC Ha Hk Hev Hin. do 5 (apply safe_plain; [done|intros _ _]). apply safe_plain; [done|].
  intros p (Et & Ei & Es & Ee & Ek)%updateApprovalParams_ok. apply safe_plain; [done|].
  intros q (Qt & Qu & Qr)%requestCreateParams_fields. apply safe_plain; [done|intros e _]. apply safe_plain; [done|intros au _].
  eapply (safe_execute R _ _ (fun _ _ => True)).
  - intros db1 HR1 y db2 Hq. split; [|exact I]. rewrite <- Et in *.
    eapply ConsumeApproval_tx_advances; [exact HC|exact Ha| | | |exact Ei|exact Ee| |exact Ek|exact Qt|exact Qu|exact Qr|exact Hq].
    + by eapply known_approval_lasting.
    + by eapply known_evaluation_lasting.
    + by eapply known_intent_lasting.
    + rewrite Es. apply HC.
  - intros e' d _. cbn. apply safe_mbind. eapply safe_impl; [|apply safe_keeps].
    + intros [existing|e2] d' _; cbn; [|done]. destruct (equalExecutionRequest _ _) eqn:E; [|done]. unfold equalExecutionRequest in E. reflect_all.
      eapply safe_mbind, safe_impl; [|apply safe_keeps; eapply keeps_impl, FindApprovalByID_elsewhere; apply elsewhere_advances].
      intros [ap|] d2 _; cbn; [|done]. by intros x [= <-].
    + eapply keeps_impl, FindExecutionByOperationKey_elsewhere. apply elsewhere_advances.
  - intros row d _ _. cbn. intros x Hx. apply rbind_ok in Hx as (restored & _ & [= <-]). done.
Qed.
End consume_method.
