(* ===== verification/AuthoritySessions.v ===== *)
(** Sessions of the application services over one database: each is a call of
    one service method by an authenticated caller, all of them interleave
    statement by statement, and statements may fail on the way.  What such a
    history can and cannot do to intents, approvals and execution requests; a
    history; and the creation of an intent twice. *)
From S2P Require Import Prelude GoStrings GoTime AppErrors Contracts IntentTypes IntentParams Intents IntentSafety.
From S2P Require Import Wallet Auth Approvals Policies Evaluator Execution Storage Database RuntimeEffects.
From S2P Require Import ExecutionStore Statements Sessions Services Foundation Repositories IntentService.
From S2P Require Import ApprovalService ExecutionService Authority.
Open Scope string_scope.
Open Scope Z_scope.
Open Scope go_scope.

(** * Calls *)
Inductive service_call : Type :=
  | Call_CreateIntent (s : IntentService) (command : CreateIntentCommand)
  | Call_GetIntent (s : IntentService) (id : string)
  | Call_PreviewSend (p : PaymentService) (draft : SendDraft)
  | Call_CreateSendIntent (p : PaymentService) (draft : SendDraft)
  | Call_SendStatus (p : PaymentService) (id : string)
  | Call_PreviewSwap (p : PaymentService) (draft : SwapDraft)
  | Call_CreateSwapIntent (p : PaymentService) (draft : SwapDraft)
  | Call_SwapStatus (p : PaymentService) (id : string)
  | Call_PreviewPayroll (p : PaymentService) (draft : PayrollDraft)
  | Call_CreatePayrollIntent (p : PaymentService) (draft : PayrollDraft)
  | Call_PayrollStatus (p : PaymentService) (id : string)
  | Call_ListApprovals (s : ApprovalService) (limit : Z) (cursor status : string)
  | Call_GetApproval (s : ApprovalService) (id : string)
  | Call_GetExecutionConfirmation (s : ApprovalService) (id : string)
  | Call_RequestApproval (s : ApprovalService) (intent : string)
  | Call_DecideApproval (s : ApprovalService) (id : string) (decision : Approvals.Decision)
  | Call_AuthorizeExecution (s : ApprovalService) (id intent binding : string) (version : Z)
  | Call_EvaluatePolicy (s : FoundationService) (intent policy : string) (version : Z) (stage : EvaluationStage)
  | Call_PrepareExecution (s : FoundationService) (intent approval policy : string) (version : Z)
  | Call_ExecuteSend (p : PaymentService) (s : FoundationService) (intent approval policy : string) (version : Z)
  | Call_ExecuteSwap (p : PaymentService) (s : FoundationService) (intent approval policy : string) (version : Z)
  | Call_ExecutePayroll (p : PaymentService) (s : FoundationService) (intent approval policy : string) (version : Z)
  | Call_StepUp (c : StepUpCoordinator) (scope : Scope) (intent : string)
  | Call_Elsewhere (m : method Foundation unit).
(** The caller, the clock it sees, and the call. *)
Record session := MkSession { sn_ctx : option Context; sn_now : nat -> Time; sn_call : service_call }.

(** Sessions of other components write neither intents, approvals nor
    execution requests, and remove no evaluation. *)
Definition well_formed (s : session) : Prop :=
  match sn_call s with Call_Elsewhere m => keeps elsewhere m | _ => True end.

(** Calls answer with an execution request or with something else. *)
Definition silent {A} (m : call A) : call (option Request) := mtry m (fun _ => Return (Ok None)).
Definition answering (m : call Request) : call (option Request) := mtry m (fun r => Return (Ok (Some r))).

Section sessions.
Context `{EthCommon} `{UnicodeTables} `{PgTimestamp}.

Definition session_program (s : session) : call (option Request) :=
  let ctx := sn_ctx s in
  let now := sn_now s in
  match sn_call s with
  | Call_CreateIntent svc command => silent (CreateIntent svc ctx now command)
  | Call_GetIntent svc id => silent (GetIntent svc ctx id)
  | Call_PreviewSend p draft => silent (PreviewSend p ctx now draft)
  | Call_CreateSendIntent p draft => silent (CreateSendIntent p ctx now draft)
  | Call_SendStatus p id => silent (SendStatus p ctx id)
  | Call_PreviewSwap p draft => silent (PreviewSwap p ctx now draft)
  | Call_CreateSwapIntent p draft => silent (CreateSwapIntent p ctx now draft)
  | Call_SwapStatus p id => silent (SwapStatus p ctx id)
  | Call_PreviewPayroll p draft => silent (PreviewPayroll p ctx now draft)
  | Call_CreatePayrollIntent p draft => silent (CreatePayrollIntent p ctx now draft)
  | Call_PayrollStatus p id => silent (PayrollStatus p ctx id)
  | Call_ListApprovals svc limit cursor status => silent (ListApprovals svc ctx limit cursor status)
  | Call_GetApproval svc id => silent (GetApproval svc ctx id)
  | Call_GetExecutionConfirmation svc id => silent (GetExecutionConfirmation svc ctx id)
  | Call_RequestApproval svc intent => silent (RequestApproval svc ctx now intent)
  | Call_DecideApproval svc id decision => silent (DecideApproval svc ctx now id decision)
  | Call_AuthorizeExecution svc id intent binding version =>
      silent (AuthorizeExecution svc ctx now id intent binding version)
  | Call_EvaluatePolicy svc intent policy version stage => silent (EvaluatePolicy svc ctx now intent policy version stage)
  | Call_PrepareExecution svc intent approval policy version =>
      answering (PrepareExecution svc ctx now intent approval policy version)
  | Call_ExecuteSend p svc intent approval policy version =>
      answering (ExecuteSend p ctx intent (PrepareExecution svc ctx now intent approval policy version))
  | Call_ExecuteSwap p svc intent approval policy version =>
      answering (ExecuteSwap p ctx intent (PrepareExecution svc ctx now intent approval policy version))
  | Call_ExecutePayroll p svc intent approval policy version =>
      answering (ExecutePayroll p ctx intent (PrepareExecution svc ctx now intent approval policy version))
  | Call_StepUp c scope intent => silent (StepUp_Request c scope now intent)
  | Call_Elsewhere m => mbind m (fun _ => Return (Ok None))
  end.

(** ** People *)
(** The session is a call by a person of the tenant, authenticated as such for
    the permission, that decides on this approval in this way, or confirms its
    execution. *)
Definition by_person (s : session) (permission : Permission) (tenant user : string) : Prop :=
  RequireHuman (sn_ctx s) permission = Ok tt /\
  exists scope, service_scope (sn_ctx s) permission = Ok scope /\ sc_tenantID scope = tenant /\ sc_actorID scope = user.
Definition decided_by (s : session) (tenant user id : string) (decision : Approvals.Decision) : Prop :=
  by_person s PermissionDecideApproval tenant user /\
  exists svc, sn_call s = Call_DecideApproval svc id decision.
Definition confirmed_by (s : session) (tenant user id : string) : Prop :=
  by_person s PermissionConfirmExecution tenant user /\
  exists svc intent binding version, sn_call s = Call_AuthorizeExecution svc id intent binding version.
End sessions.

(** * Methods that leave authority alone *)
(** The known methods first, then one step. *)
Ltac elsewhere_tac :=
  repeat (intros; first
    [ solve [auto with keeps]
    | match goal with |- keeps _ (Return _) => exact I | |- True => exact I end
    | apply keeps_plain
    | apply keeps_mtry
    | apply keeps_mbind
    | match goal with |- keeps _ (match ?x with _ => _ end) => destruct x end ]).
Section elsewhere.
Context `{EthCommon} `{UnicodeTables} `{PgTimestamp}.

Lemma GetIntent_elsewhere s ctx id : keeps elsewhere (GetIntent s ctx id).
Proof. unfold GetIntent. elsewhere_tac. Qed.
Lemma payment_wallet_elsewhere p ctx what id : keeps elsewhere (payment_wallet p ctx what id).
Proof. unfold payment_wallet. elsewhere_tac. Qed.
#[local] Hint Resolve GetIntent_elsewhere payment_wallet_elsewhere : keeps.
Lemma payment_status_elsewhere p ctx what kind other id : keeps elsewhere (payment_status p ctx what kind other id).
Proof. unfold payment_status. elsewhere_tac. Qed.
Lemma PreviewSend_elsewhere p ctx now draft : keeps elsewhere (PreviewSend p ctx now draft).
Proof. unfold PreviewSend. elsewhere_tac. Qed.
Lemma PreviewSwap_elsewhere p ctx now draft : keeps elsewhere (PreviewSwap p ctx now draft).
Proof. unfold PreviewSwap. elsewhere_tac. Qed.
Lemma PreviewPayroll_elsewhere p ctx now draft : keeps elsewhere (PreviewPayroll p ctx now draft).
Proof. unfold PreviewPayroll. elsewhere_tac. Qed.
Lemma ListApprovals_elsewhere s ctx limit cursor status : keeps elsewhere (ListApprovals s ctx limit cursor status).
Proof. unfold ListApprovals. elsewhere_tac. Qed.
Lemma GetApproval_elsewhere s ctx id : keeps elsewhere (GetApproval s ctx id).
Proof. unfold GetApproval. elsewhere_tac. Qed.
#[local] Hint Resolve GetApproval_elsewhere : keeps.
Lemma GetExecutionConfirmation_elsewhere s ctx id : keeps elsewhere (GetExecutionConfirmation s ctx id).
Proof. unfold GetExecutionConfirmation. elsewhere_tac. Qed.
Lemma EvaluatePolicy_elsewhere s ctx now intent policy version stage :
  keeps elsewhere (EvaluatePolicy s ctx now intent policy version stage).
Proof. unfold EvaluatePolicy. elsewhere_tac. Qed.
Lemma validateApprovalBinding_elsewhere scope ctx a i : keeps elsewhere (validateApprovalBinding scope ctx a i).
Proof. unfold validateApprovalBinding. elsewhere_tac. Qed.
Lemma audit_approval_elsewhere s scope type previous a at_ : keeps elsewhere (audit_approval s scope type previous a at_).
Proof. unfold audit_approval. elsewhere_tac. Qed.
Lemma replayConsumedExecution_elsewhere scope i a policy version o : keeps elsewhere (replayConsumedExecution scope i a policy version o).
Proof. unfold replayConsumedExecution. elsewhere_tac. Qed.
End elsewhere.

(** * Methods that move intents and approvals *)
Section moving.
Context `{EthCommon} `{UnicodeTables} `{PgTimestamp}.
Context (decides : string -> string -> string -> Approvals.Decision -> Prop) (confirms : string -> string -> string -> Prop).
Abbreviation R := (advances decides confirms).
Abbreviation anything := (fun _ _ => True).

Lemma keeps_elsewhere {A} (m : method Foundation A) : keeps elsewhere m -> keeps R m.
Proof. apply keeps_impl, elsewhere_advances. Qed.
(** A method that leaves authority alone, then the rest. *)
Lemma safe_step {A B} (K : Foundation -> Prop) (m : call A) (f : A -> call B) db : lasting R K -> K db -> keeps elsewhere m ->
  (forall a d, K d -> safe R (f a) anything d) -> safe R (mtry m f) anything db.
Proof. intros HK Hk Hm Hf. apply (safe_after R K); [done..|by apply keeps_elsewhere|done]. Qed.

(** ** Creating *)
Lemma created_status params at_ draft i : Intents.NewDraft params = Ok draft -> Intent_Transition draft Intents.StatusCreated at_ = Ok i ->
  int_status i = Intents.StatusCreated.
Proof.
  intros Hd Hi. unfold Intents.NewDraft in Hd. apply rbind_ok in Hd as (? & _ & [= <-]).
  apply Transition_moved in Hi as (_ & _ & (_ & Hs & _) & _); [done|unfold is_u64; cbn; lia|done].
Qed.
Lemma CreateIntent_moves s ctx now command : keeps R (CreateIntent s ctx now command).
Proof.
  unfold CreateIntent. apply keeps_known. intros scope _. do 2 (apply keeps_known; intros ? _).
  apply keeps_mtry; [apply keeps_elsewhere, StoredBindingByID_elsewhere|]. intros binding. apply keeps_known. intros _ _.
  apply keeps_known. intros draft Hd. apply keeps_known. intros i Hi. apply keeps_mtry.
  - apply CreateIntent_keeps. left. by eapply created_status.
  - intros [stored created]. apply keeps_elsewhere. elsewhere_tac.
Qed.
Lemma CreateSendIntent_moves p ctx now draft : keeps R (CreateSendIntent p ctx now draft).
Proof. unfold CreateSendIntent. destruct (ps_Intents p); [|done]. apply keeps_known. intros ? _. apply CreateIntent_moves. Qed.
Lemma CreateSwapIntent_moves p ctx now draft : keeps R (CreateSwapIntent p ctx now draft).
Proof.
  unfold CreateSwapIntent. destruct (ps_Intents p); [|done]. apply keeps_mtry; [apply keeps_elsewhere, payment_wallet_elsewhere|].
  intros w. apply keeps_known. intros ? _. apply CreateIntent_moves.
Qed.
Lemma CreatePayrollIntent_moves p ctx now draft : keeps R (CreatePayrollIntent p ctx now draft).
Proof. unfold CreatePayrollIntent. destruct (ps_Intents p); [|done]. apply keeps_known. intros ? _. apply CreateIntent_moves. Qed.

(** ** Requesting *)
Lemma new_pending params i a : Approvals.New params i = Ok a -> apr_status a = StatusPending.
Proof.
  unfold Approvals.New. intros Ha. do 2 (apply rbind_ok in Ha as (? & _ & Ha)).
  apply rbind_ok in Ha as (? & _ & Ha). by apply rbind_ok in Ha as (? & _ & [= <-]).
Qed.
Lemma unless_found_keeps {A} (find otherwise : call A) : keeps R find -> keeps R otherwise -> keeps R (unless_found find otherwise).
Proof. intros Hf Ho. apply keeps_mbind; [done|]. by intros []. Qed.
Lemma request_keeps scope params i {A} (f : Approval * bool -> call A) : (forall x, keeps elsewhere (f x)) ->
  keeps R (sql! approval := plain_code (Approvals.New params i) in sql! r := CreateApproval scope approval in f r).
Proof.
  intros Hf. apply keeps_known. intros a Ha. apply keeps_mtry; [by eapply CreateApproval_keeps, new_pending|].
  intros r. apply keeps_elsewhere, Hf.
Qed.
Lemma RequestApproval_moves s ctx now intent : keeps R (RequestApproval s ctx now intent).
Proof.
  unfold RequestApproval. apply keeps_known. intros scope _. apply keeps_known. intros _ _.
  apply keeps_mtry; [apply keeps_elsewhere, FindIntentByID_elsewhere|]. intros i. do 2 (apply keeps_known; intros _ _).
  apply unless_found_keeps; [apply keeps_elsewhere, FindApprovalByIntent_elsewhere|]. cbn -[approvalIDs]. destruct (approvalIDs i).
  apply request_keeps. intros [stored created]. pose proof audit_approval_elsewhere. elsewhere_tac.
Qed.
Lemma awaiting_status i next at_ : Intent_Transition i Intents.StatusApprovalRequired at_ = Ok next ->
  int_status i = Intents.StatusCreated -> int_status next = Intents.StatusApprovalRequired /\ int_params next = int_params i.
Proof.
  unfold Intent_Transition. intros Hn Hs. apply rbind_ok in Hn as (? & _ & Hn). rewrite Hs in Hn. cbn in Hn.
  repeat (apply rbind_ok in Hn as (? & _ & Hn)). by injection Hn as <-.
Qed.
Lemma safe_StepUp c scope now intent db : trimmed db -> safe R (StepUp_Request c scope now intent) anything db.
Proof.
  intros Ht. unfold StepUp_Request. apply safe_plain; [done|intros _ _].
  eapply safe_mtry; [done|by apply safe_FindIntentByID|]. intros i d [Hk _].
  apply (safe_mtry R (await_approval scope i (UTC (now 0%nat))) _ (fun _ _ => True)); [done| |].
  - unfold await_approval. destruct (_ == _) eqn:E; [|done]. reflect_all.
    apply safe_plain; [done|]. intros next [Hs Hp]%awaiting_status; [|done].
    eapply safe_impl; [done|by eapply safe_UpdateIntent].
  - intros i' d' _. apply safe_keeps, keeps_known. intros _ _.
    apply unless_found_keeps; [apply keeps_elsewhere, FindApprovalByIntent_elsewhere|]. apply request_keeps. by intros [].
Qed.
End moving.

(** * Methods that decide, confirm and consume *)
Section deciding.
Context `{EthCommon} `{UnicodeTables} `{PgTimestamp}.
Context (decides : string -> string -> string -> Approvals.Decision -> Prop) (confirms : string -> string -> string -> Prop).
Abbreviation R := (advances decides confirms).
Abbreviation anything := (fun _ _ => True).
Abbreviation known := (known_approval decides confirms).

Lemma humanScope_ok s ctx permission scope : humanScope s ctx permission = Ok scope ->
  RequireHuman ctx permission = Ok tt /\ service_scope ctx permission = Ok scope.
Proof.
  unfold humanScope, approval_scope. intros Hs. apply rbind_ok in Hs as ([] & Hh & Hs). by apply rbind_ok in Hs as (? & _ & Hs).
Qed.
Lemma decided_status a status d at_ next : decide_approval a status d at_ = Ok next -> apr_status a <> status ->
  apr_status a = StatusPending /\ apr_status next = status /\ apr_approvalID next = apr_approvalID a.
Proof.
  intros Hn Hne. unfold decide_approval in Hn. apply rbind_ok in Hn as (? & _ & Hn). rewrite (proj2 (eqb_spec_false _ _) Hne) in Hn.
  apply rbind_ok in Hn as (? & Hs & Hn). apply fail_if_ok_any in Hs. apply rbind_ok in Hn as (? & _ & Hn).
  apply validated_ok in Hn as [-> _]. by reflect_all.
Qed.
Lemma ready_status a at_ next : ReadyForExecutionConfirmation a at_ = Ok next -> apr_status next <> apr_status a ->
  apr_status a = Approvals.StatusApproved /\ apr_status next = StatusReadyForExecutionConfirmation /\
  apr_approvalID next = apr_approvalID a.
Proof.
  intros Hn Hne. unfold ReadyForExecutionConfirmation in Hn. apply rbind_ok in Hn as (? & _ & Hn).
  destruct (apr_status a == _) eqn:E; [by injection Hn as <-|]. apply rbind_ok in Hn as (? & Hs & Hn). apply fail_if_ok_any in Hs.
  apply rbind_ok in Hn as (? & _ & Hn). apply validated_ok in Hn as [-> _]. by reflect_all.
Qed.

Lemma safe_DecideApproval s ctx now id decision db :
  (forall scope, RequireHuman ctx PermissionDecideApproval = Ok tt -> service_scope ctx PermissionDecideApproval = Ok scope ->
     decides (sc_tenantID scope) (sc_actorID scope) id decision) ->
  safe R (DecideApproval s ctx now id decision) anything db.
Proof.
  intros Hd. unfold DecideApproval. apply safe_plain; [done|]. intros scope [Hh Hs]%humanScope_ok. specialize (Hd scope Hh Hs).
  apply safe_plain; [done|intros _ _]. eapply safe_mtry; [done|apply safe_FindApprovalByID|]. intros a d (Hid & Hk & _).
  apply safe_plain; [done|intros _ _].
  apply (safe_step decides confirms (known (sc_tenantID scope) (sc_actorID scope) a)); [apply known_approval_lasting|done|apply FindIntentByID_elsewhere|].
  clear d Hk. intros i d Hk.
  apply (safe_step decides confirms (known (sc_tenantID scope) (sc_actorID scope) a)); [apply known_approval_lasting|done|apply validateApprovalBinding_elsewhere|].
  clear d Hk. intros _ d Hk. apply safe_plain; [done|intros _ _]. apply safe_plain; [done|]. intros _ Hdec%fail_if_ok_any.
  destruct (_ || _) eqn:Eq; [done|]. apply safe_plain; [done|]. intros next Hnext.
  assert (approval_edge decides confirms (sc_tenantID scope) (sc_actorID scope) (apr_approvalID a) (apr_status a) (apr_status next)
          /\ apr_status next <> StatusConsumed /\ apr_approvalID next = apr_approvalID a) as (He & Hn & Hi).
  { rewrite Hid. apply orb_false_iff in Eq as [Ea Er]. destruct (decision == DecisionApproved) eqn:E; reflect_all.
    - cbn in Ea. reflect_all. apply decided_status in Hnext as (-> & -> & ->); [|done]. subst. by split_and!; [constructor|..].
    - destruct (decide (decision = DecisionRejected)) as [->|Hno].
      + rewrite eqb_refl in Er. cbn in Er. reflect_all. apply decided_status in Hnext as (-> & -> & ->); [|done]. by split_and!; [constructor|..].
      + cbn in Hdec. reflect_all. done. }
  apply (safe_mtry R _ _ (fun _ _ => True)); [done| |].
  - eapply safe_impl; [|by eapply safe_UpdateApproval]. done.
  - intros updated d1 _. apply safe_keeps, keeps_elsewhere. pose proof audit_approval_elsewhere. elsewhere_tac.
Qed.
Lemma safe_AuthorizeExecution s ctx now id intent binding version db :
  (forall scope, RequireHuman ctx PermissionConfirmExecution = Ok tt -> service_scope ctx PermissionConfirmExecution = Ok scope ->
     confirms (sc_tenantID scope) (sc_actorID scope) id) ->
  safe R (AuthorizeExecution s ctx now id intent binding version) anything db.
Proof.
  intros Hd. unfold AuthorizeExecution. apply safe_plain; [done|]. intros scope [Hh Hs]%humanScope_ok. specialize (Hd scope Hh Hs).
  apply safe_plain; [done|intros _ _]. eapply safe_mtry; [done|apply safe_FindApprovalByID|]. intros a d (Hid & Hk & _).
  apply safe_plain; [done|intros _ _].
  apply (safe_step decides confirms (known (sc_tenantID scope) (sc_actorID scope) a)); [apply known_approval_lasting|done|apply FindIntentByID_elsewhere|].
  clear d Hk. intros i d Hk. do 2 (apply safe_plain; [done|intros _ _]).
  apply (safe_step decides confirms (known (sc_tenantID scope) (sc_actorID scope) a)); [apply known_approval_lasting|done|apply validateApprovalBinding_elsewhere|].
  clear d Hk. intros _ d Hk. apply safe_plain; [done|intros _ _]. apply safe_plain; [done|]. intros next Hnext.
  apply (safe_mtry R _ _ (fun _ _ => True)); [done| |by intros]. destruct (_ != _) eqn:E; [|done]. reflect_all.
  apply ready_status in Hnext as (Ha & Hn & Hi); [|done].
  apply (safe_mtry R _ _ (fun _ _ => True)); [done| |done]. eapply safe_impl; [|eapply safe_UpdateApproval; [exact Hk|..]]; [done|..].
  - rewrite Hid, Ha, Hn. by constructor.
  - by rewrite Hn.
  - done.
Qed.

(** ** Preparing an execution *)
(** An answered request is for an approved intent, or under a consumed approval. *)
Definition answered (a : result (option Request)) (f : Foundation) : Prop := forall r, a = Ok (Some r) -> exists tenant,
  (exists user, approved_intent f tenant (req_intentID r) user (req_intentDigest r)) \/
  (exists row, fd_approvals f !! (tenant, req_approvalID r) = Some row /\ aw_status row = StatusConsumed).
Lemma answered_lasting a : lasting R (answered a).
Proof.
  intros f f' HR Ha r Hr. destruct (Ha r Hr) as (t & [[u Hi]|(row & Hrow & Hs)]); exists t.
  - left. exists u. by eapply approved_intent_forward.
  - right. destruct (adv_approvals _ _ _ _ HR _ _ Hrow) as (row' & Hrow' & Hm). exists row'. split; [done|].
    by rewrite (approval_moves_consumed _ _ _ _ _ Hm Hs).
Qed.
Definition prepared (r : result Request) (f : Foundation) : Prop := forall x, r = Ok x -> answered (Ok (Some x)) f.

Lemma known_both_lasting t u i a : lasting R (fun f => known_intent t u i f /\ known t u a f).
Proof. intros f f' HR [Hi Ha]. split; [by eapply known_intent_lasting|by eapply known_approval_lasting]. Qed.
Lemma safe_replay scope i a policy version o d : known (sc_tenantID scope) (sc_actorID scope) a d -> apr_status a = StatusConsumed ->
  safe R (replayConsumedExecution scope i a policy version o) prepared d.
Proof.
  intros Hk Hs. unfold replayConsumedExecution. eapply safe_mbind, safe_impl;
    [|eapply (safe_frame R _ _ (known (sc_tenantID scope) (sc_actorID scope) a));
      [apply known_approval_lasting|done|apply safe_keeps, keeps_elsewhere, FindExecutionByOperationKey_elsewhere]].
  intros [existing|e] d' [_ (row & row' & Hrs & _ & _ & _ & _ & _ & Hrow & Hm)]; cbn; [|by destruct (error_code e == _)].
  destruct (replays _ _ _ _ _ _) eqn:E; [|done]. intros x [= <-] r [= <-]. exists (sc_tenantID scope). right.
  unfold replays in E. reflect_all. rewrite Hs in Hrs. rewrite (approval_moves_consumed _ _ _ _ _ Hm Hrs) in Hrow. exists row.
  split; [congruence|done].
Qed.
End deciding.

(** * Preparing *)
Section preparing.
Context `{EthCommon} `{UnicodeTables} `{PgTimestamp}.
Context (decides : string -> string -> string -> Approvals.Decision -> Prop) (confirms : string -> string -> string -> Prop).
Abbreviation R := (advances decides confirms).
Abbreviation known := (known_approval decides confirms).
(** A step that leaves authority alone, on the way to a prepared request. *)
Lemma prepare_step {A} (K : Foundation -> Prop) (m : call A) (f : A -> call Request) db : lasting R K -> K db -> keeps elsewhere m ->
  (forall a d, K d -> safe R (f a) prepared d) -> safe R (mtry m f) prepared db.
Proof. intros HK Hk Hm Hf. apply (safe_after R K); [done..|by apply keeps_elsewhere|done]. Qed.

Lemma consume_and_create_safe scope now request i a policyID policyVersion operation db :
  known_intent (sc_tenantID scope) (sc_actorID scope) i db -> known (sc_tenantID scope) (sc_actorID scope) a db ->
  apr_status a = StatusReadyForExecutionConfirmation ->
  safe R (consume_and_create scope now request i a policyID policyVersion operation) prepared db.
Proof.
  intros Hi Ha Hs. unfold consume_and_create. pose proof (conj Hi Ha) as Hk. clear Hi Ha.
  pose proof (known_both_lasting decides confirms (sc_tenantID scope) (sc_actorID scope) i a) as HK.
  eapply (prepare_step _ _ _ _ HK Hk); [apply FindPolicyByID_elsewhere|]. clear db Hk. intros policy db Hk.
  eapply (prepare_step _ _ _ _ HK Hk); [apply StoredBindingByID_elsewhere|]. clear db Hk. intros binding db Hk.
  do 2 (apply safe_plain; [done|intros ? _]).
  eapply (safe_mtry_with R _ _ _ _ _ _ HK Hk); [done|apply safe_CreatePolicyEvaluation|]. clear db Hk. intros v db Hv [Hi Ha].
  apply safe_plain; [done|]. intros consumed Hc. apply safe_plain; [done|]. intros r Hr.
  pose proof (consumption_of _ _ _ _ _ _ _ _ Hs Hc Hr) as HC. apply safe_plain; [done|]. intros value He.
  assert (exe_request value = r) as Er.
  { unfold Execution.New in He. apply rbind_ok in He as (? & _ & He). by apply rbind_ok in He as (? & _ & [= <-]). }
  apply (safe_mtry_with R (fun d => approved_intent d (sc_tenantID scope) (req_intentID r) (sc_actorID scope) (req_intentDigest r))
           _ _ (fun x _ => exe_request (fst (snd x)) = exe_request value)).
  - apply approved_intent_lasting.
  - destruct HC as [_ _ _ _ _ [-> ->] Happ Hf _ _]. by apply known_approved.
  - done.
  - eapply safe_ConsumeApprovalAndCreateExecution; [by rewrite Er|done..].
  - intros x d Hx Happ. cbn. intros r' [= <-] r'' [= <-]. rewrite Hx, Er. exists (sc_tenantID scope). left. eauto.
Qed.
Lemma safe_PrepareExecution s ctx now intent approval policyID policyVersion db : trimmed db ->
  safe R (PrepareExecution s ctx now intent approval policyID policyVersion) prepared db.
Proof.
  intros Ht. unfold PrepareExecution. apply safe_plain; [done|intros _ _]. apply safe_plain; [done|intros request _].
  apply safe_plain; [done|intros scope _]. eapply safe_mtry; [done|by apply safe_FindIntentByID|]. intros i d [Hi _].
  eapply (safe_mtry_with R _ _ _ _ _ _ (known_intent_lasting decides confirms _ _ i) Hi); [done|apply safe_FindApprovalByID|].
  clear d Hi. intros a d (_ & Ha & _) Hi. apply safe_plain; [done|]. intros _ Hs%fail_if_ok_any.
  apply safe_plain; [done|intros operation _]. destruct (apr_status a == StatusConsumed) eqn:E.
  - reflect_all. apply safe_plain; [done|intros ? _]. by apply safe_replay.
  - apply consume_and_create_safe; [done..|]. apply andb_false_iff in Hs as [Hs|Hs]; by reflect_all.
Qed.
Lemma safe_execute_payment p ctx what type suits unsuitable intent prepare db :
  (forall d, R db d -> safe R prepare prepared d) -> safe R (execute_payment p ctx what type suits unsuitable intent prepare) prepared db.
Proof.
  intros Hp. unfold execute_payment. destruct (ps_Intents p) as [intents|]; [|done]. destruct (ps_Authority p); [|done].
  apply safe_plain; [done|intros _ _].
  apply (prepare_step (R db)); [by intros d d' HR Hd; etransitivity|reflexivity|apply GetIntent_elsewhere|].
  intros i d Hd. do 2 (apply safe_plain; [done|intros _ _]). by apply Hp.
Qed.
End preparing.

(** * Histories *)
Section histories.
Context `{EthCommon} `{UnicodeTables} `{PgTimestamp}.

Section calls.
Context (calls : gmap nat session).
Definition somebody_decides (tenant user id : string) (decision : Approvals.Decision) : Prop :=
  exists n s, calls !! n = Some s /\ decided_by s tenant user id decision.
Definition somebody_confirms (tenant user id : string) : Prop :=
  exists n s, calls !! n = Some s /\ confirmed_by s tenant user id.
Abbreviation R := (advances somebody_decides somebody_confirms).

Lemma safe_silent {A} (m : call A) db : safe R m (fun _ _ => True) db -> safe R (silent m) answered db.
Proof.
  intros Hm. apply (safe_mtry R _ _ (fun _ _ => True)); [done| |done]. by eapply safe_impl, Hm.
Qed.
Lemma safe_silent_keeps {A} (m : call A) db : keeps R m -> safe R (silent m) answered db.
Proof. intros Hm. by apply safe_silent, safe_keeps. Qed.
Lemma safe_silent_elsewhere {A} (m : call A) db : keeps elsewhere m -> safe R (silent m) answered db.
Proof. intros Hm. by apply safe_silent_keeps, keeps_elsewhere. Qed.
Lemma safe_answering (m : call Request) db : safe R m prepared db -> safe R (answering m) answered db.
Proof.
  intros Hm. eapply safe_mbind, safe_impl, Hm. intros [r|e] d Hp; cbn; [|done]. by apply Hp.
Qed.

(** Every session keeps to the moves, whoever else is at work. *)
Lemma session_safe n s db : calls !! n = Some s -> well_formed s -> trimmed db -> safe R (session_program s) answered db.
Proof.
  intros Hn Hw Ht. assert (forall d, R db d -> trimmed d) as Hlater by (intros d HR; by apply (adv_trimmed _ _ _ _ HR)).
  destruct s as [ctx now call]. unfold session_program. cbn [sn_ctx sn_now sn_call] in *.
  destruct call; try (apply safe_silent_elsewhere; solve [eauto using GetIntent_elsewhere, PreviewSend_elsewhere,
    payment_status_elsewhere, PreviewSwap_elsewhere, PreviewPayroll_elsewhere, ListApprovals_elsewhere, GetApproval_elsewhere,
    GetExecutionConfirmation_elsewhere, EvaluatePolicy_elsewhere]).
  - apply safe_silent_keeps, CreateIntent_moves.
  - apply safe_silent_keeps, CreateSendIntent_moves.
  - apply safe_silent_keeps, CreateSwapIntent_moves.
  - apply safe_silent_keeps, CreatePayrollIntent_moves.
  - apply safe_silent_keeps, RequestApproval_moves.
  - apply safe_silent, safe_DecideApproval. intros scope Hh Hs. eexists n, _. split; [done|]. split; [by split; eauto|by eexists].
  - apply safe_silent, safe_AuthorizeExecution. intros scope Hh Hs. eexists n, _. split; [done|].
    split; [by split; eauto|by repeat eexists].
  - by apply safe_answering, safe_PrepareExecution.
  - by apply safe_answering, safe_execute_payment; intros d HR; apply safe_PrepareExecution, Hlater.
  - by apply safe_answering, safe_execute_payment; intros d HR; apply safe_PrepareExecution, Hlater.
  - by apply safe_answering, safe_execute_payment; intros d HR; apply safe_PrepareExecution, Hlater.
  - by apply safe_silent, safe_StepUp.
  - eapply safe_mbind, safe_impl, safe_keeps, keeps_impl, Hw; [done|apply elsewhere_advances].
Qed.

(** A history of the calls from one database to another, however they
    interleave and whatever fails: who is still running, or has answered what. *)
Definition history (f f' : Foundation) (running : gmap nat (call (option Request))) : Prop :=
  rtc session_step (MkSessions f (session_program <$> calls)) (MkSessions f' running).
Definition legitimate (f : Foundation) : Prop := trimmed f /\ map_Forall (fun _ s => well_formed s) calls.

Lemma history_advances f f' running : legitimate f -> history f f' running ->
  R f f' /\ forall n a, running !! n = Some (Return a) -> answered a f'.
Proof.
  intros [Ht Hw] Hrun. apply (sessions_safe R (fun _ => answered)) in Hrun.
  - destruct Hrun as [HR Ha]. split; [done|]. intros n a. apply Ha.
  - intros _ a d d'. apply answered_lasting.
  - intros n m Hm. cbn in *. rewrite lookup_fmap in Hm. destruct (calls !! n) as [s|] eqn:Hs; [|done]. injection Hm as <-.
    eapply session_safe; [done|by eapply Hw|done].
Qed.

(** How an approval comes to be consumed. *)
Lemma edges_to_consumed t u id s : rtc (approval_edge somebody_decides somebody_confirms t u id) s StatusConsumed ->
  s = StatusConsumed \/ s = StatusReadyForExecutionConfirmation \/
  (s = Approvals.StatusApproved /\ somebody_confirms t u id) \/
  (s = StatusPending /\ somebody_confirms t u id /\ somebody_decides t u id DecisionApproved).
Proof.
  intros Hp. remember StatusConsumed as e eqn:Ee. induction Hp as [|x y z Hxy _ IH]; [auto|].
  specialize (IH Ee). subst. destruct Hxy; naive_solver.
Qed.
End calls.

(** ** What a history can do *)
(** The row of a request, its approval and who stands behind it. *)
Definition stood_behind (calls : gmap nat session) (f : Foundation) (tenant user id : string) : Prop :=
  let before (status : Approvals.Status -> Prop) :=
    exists a, fd_approvals f !! (tenant, id) = Some a /\ status (aw_status a) in
  (somebody_confirms calls tenant user id \/ before (fun s => s = StatusReadyForExecutionConfirmation)) /\
  (somebody_decides calls tenant user id DecisionApproved \/
   before (fun s => s = Approvals.StatusApproved \/ s = StatusReadyForExecutionConfirmation)).

Lemma consumed_stood_behind calls f f' k a : advances (somebody_decides calls) (somebody_confirms calls) f f' ->
  fd_approvals f' !! k = Some a -> aw_status a = StatusConsumed -> fd_approvals f !! k <> Some a ->
  stood_behind calls f k.1 (aw_user_id a) k.2.
Proof.
  intros HR Ha Hs Hne. unfold stood_behind. rewrite <- surjective_pairing.
  destruct (fd_approvals f !! k) as [a0|] eqn:H0'.
  - destruct (adv_approvals _ _ _ _ HR _ _ H0') as (a' & Ha' & Hm). rewrite Ha in Ha'. injection Ha' as <-.
    destruct Hm as [->|(_ & Hc & Ht)]; [done|]. rewrite Hs in Ht. unfold approval_columns in Hc.
    replace (aw_user_id a) with (aw_user_id a0) by congruence.
    assert (aw_status a0 <> StatusConsumed) as Hnc.
    { intros E. rewrite E in Ht. inversion Ht as [? ? He|? ? ? He]; inversion He. }
    destruct (edges_to_consumed _ _ _ _ _ (tc_rtc _ _ Ht)) as [?|[?|[(? & ?)|(? & ? & ?)]]]; [done|..];
      split; first [by left|right; exists a0; auto].
  - pose proof (adv_new_approvals _ _ _ _ HR _ _ Ha H0') as Ht. rewrite Hs in Ht.
    destruct (edges_to_consumed _ _ _ _ _ Ht) as [?|[?|[(? & ?)|(? & ? & ?)]]]; [done..|auto].
Qed.

(** [C2] No execution without people.  However service calls interleave and
    whatever fails on the way, an execution request that appears in the
    database has an approval of the same user, intent digest and operation that
    was consumed for it in this history; a person authenticated as that user of
    that tenant approved this very approval, and such a person confirmed its
    execution, by a call of the history unless that had happened before it
    began; the policy evaluation it names allows it, for the same user and
    digest; and the intent it names had been approved, with that digest. *)
Theorem execution_needs_people (calls : gmap nat session) (f f' : Foundation) (running : gmap nat (call (option Request)))
    (k : string * string) (row : request_row)
    (Hl : legitimate calls f) (Hrun : history calls f f' running)
    (Hnew : db_requests (fd_runtime f') !! k = Some row) (Hold : db_requests (fd_runtime f) !! k = None) :
  let r := rq_request row in
  (exists a, fd_approvals f' !! (k.1, req_approvalID r) = Some a /\ aw_status a = StatusConsumed /\
     aw_user_id a = rq_user_id row /\ aw_intent_digest a = req_intentDigest r /\
     aw_operation_key a = Some (req_operationKey r)) /\
  stood_behind calls f k.1 (rq_user_id row) (req_approvalID r) /\
  (exists v, fd_evaluations f' !! (k.1, req_policyEvaluationKey r) = Some v /\ vw_decision v = DecisionAllow /\
     vw_user_id v = rq_user_id row /\ vw_intent_digest v = req_intentDigest r) /\
  approved_intent f k.1 (req_intentID r) (rq_user_id row) (req_intentDigest r).
Proof.
  destruct (history_advances calls f f' running Hl Hrun) as [HR _].
  destruct (adv_authorized _ _ _ _ HR _ _ Hnew Hold) as ((a & Ha & Hs & Hu & Hd & Ho & Hf) & Hv & Hi). split_and!.
  - by exists a.
  - rewrite <- Hu. exact (consumed_stood_behind calls f f' (k.1, req_approvalID (rq_request row)) a HR Ha Hs Hf).
  - done.
  - by eapply approved_intent_back.
Qed.

(** [C3] Nothing is ever executed.  No service approves an intent: in a
    database where no intent is approved and no approval consumed, no history of
    service calls approves an intent, consumes an approval or creates an execution
    request, and none of them answers with one — whatever people decide and
    confirm. *)
Theorem nothing_is_executed (calls : gmap nat session) (f f' : Foundation) (running : gmap nat (call (option Request)))
    (Hl : legitimate calls f) (Hrun : history calls f f' running)
    (Hi : map_Forall (fun _ row => ~ approved_status (it_status row)) (fd_intents f))
    (Hc : map_Forall (fun _ row => aw_status row <> StatusConsumed) (fd_approvals f)) :
  map_Forall (fun _ row => ~ approved_status (it_status row)) (fd_intents f') /\
  map_Forall (fun _ row => aw_status row <> StatusConsumed) (fd_approvals f') /\
  db_requests (fd_runtime f') = db_requests (fd_runtime f) /\
  forall n r, running !! n <> Some (Return (Ok (Some r))).
Proof.
  destruct (history_advances calls f f' running Hl Hrun) as [HR Ha].
  assert (forall t id u d, ~ approved_intent f' t id u d) as Hno.
  { intros t id u d (row & Hrow & _ & _ & Hs)%(approved_intent_back _ _ _ _ _ _ _ _ HR). by eapply Hi. }
  assert (map_Forall (fun _ row => aw_status row <> StatusConsumed) (fd_approvals f')) as Hc'.
  { intros k row Hrow Hs. destruct (adv_consumed _ _ _ _ HR _ _ Hrow Hs) as [Hrow0|]; [by eapply Hc|by eapply Hno]. }
  split_and!; [|done| |].
  - intros k row' Hrow' Hs. destruct (fd_intents f !! k) as [row|] eqn:Hrow.
    + destruct (adv_intents _ _ _ _ HR _ _ Hrow) as (row2 & Hrow2 & Hm). rewrite Hrow' in Hrow2. injection Hrow2 as <-.
      rewrite (intent_moves_approved _ _ Hm (or_intror Hs)) in Hs. by eapply Hi.
    + destruct (adv_new_intents _ _ _ _ HR _ _ Hrow' Hrow) as [E|E]; rewrite E in Hs; by destruct Hs.
  - apply map_eq. intros k. destruct (db_requests (fd_runtime f') !! k) as [row|] eqn:Hrow.
    + destruct (db_requests (fd_runtime f) !! k) as [row0|] eqn:Hrow0.
      * pose proof (lookup_weaken _ _ _ _ Hrow0 (adv_requests _ _ _ _ HR)). congruence.
      * destruct (adv_authorized _ _ _ _ HR _ _ Hrow Hrow0) as (_ & _ & Happ). by eapply Hno in Happ.
    + destruct (db_requests (fd_runtime f) !! k) as [row0|] eqn:Hrow0; [|done].
      pose proof (lookup_weaken _ _ _ _ Hrow0 (adv_requests _ _ _ _ HR)). congruence.
  - intros n r Hn. destruct (Ha _ _ Hn r eq_refl) as (t & [[u Happ]|(row & Hrow & Hs)]); [by eapply Hno|by eapply Hc'].
Qed.
End histories.

(** Concrete histories of AuthoritySessions.v: a person approves a transfer and
    confirms it, an agent has it executed; and the same people and agent with
    an intent that no service approved. *)
From S2P Require Import GoTime AppErrors Contracts IntentTypes IntentParams Intents IntentSafety Wallet Auth Approvals.
From S2P Require Import Policies PolicySafety Evaluator Execution ExecutionSafety Storage Database RuntimeEffects.
From S2P Require Import ExecutionStore Statements Sessions Services Foundation Repositories IntentService.
From S2P Require Import ApprovalService ExecutionService Authority.

Module AuthoritySamples.
Import Samples IntentSamples PolicySamples ExecutionSamples.
#[local] Existing Instance Eth.is_hex_address.
#[local] Existing Instance Eth.no_folding.
#[local] Existing Instance Pg.truncating.

(** * A stored world *)
Definition or_else {A} (a : A) (m : result A) : A := match m with Ok a => a | Err _ => a end.
Definition intent_stored (i : Intent) : gmap (string * string) intent_row :=
  match intentCreateParams i with Ok row => {[ ("tenant-1", "intent-1") := row ]} | Err _ => ∅ end.
Definition approval_stored (a : Approval) : gmap (string * string) approval_row :=
  match approvalCreateParams a with Ok row => {[ ("tenant-1", apr_approvalID a) := row ]} | Err _ => ∅ end.
Definition wallet_stored : option wallet_row :=
  match walletCreateParams WalletSamples.active with Ok row => Some row | Err _ => None end.
Definition policy_stored : gmap (string * string * Z) policy_row :=
  match policyCreateParams active_policy with Ok row => {[ ("tenant-1", "policy", 1) := row ]} | Err _ => ∅ end.
Definition pending_approval : Approval := Eval vm_compute in
  get_approval (Approvals.New (Approvals.MkParams "approval-1" 1 "request-1" (now + Second) (now + 30 * Minute)) governed_requested).
Definition world (i : Intent) (a : Approval) : Foundation :=
  match wallet_stored with
  | Some w =>
      MkFoundation {[ "tenant-1" := now ]}
        {[ ("tenant-1", "user-1") := MkIdentityRow "privy" "did:privy:1" IdentityStatusActive (Some now) ]}
        {[ ("tenant-1", bnd_bindingID WalletSamples.active) := w ]}
        {[ ("tenant-1", bnd_bindingID WalletSamples.active, wr_version w) := w ]}
        (intent_stored i) (approval_stored a) policy_stored ∅ ∅ empty_database
  | None => empty_foundation
  end.

(** * People and an agent *)
Definition claims : AuthenticatedPrincipal :=
  MkPrincipal "tenant-1" "user-1" "privy" "did:privy:1" "client-1" "token-1" now now now (now + Hour)
    [PermissionDecideApproval; PermissionConfirmExecution; PermissionPrepareExecution].
Definition trusted : TrustedRequest :=
  MkTrusted (or_else claims (NewAuthenticatedPrincipal claims)) (MkIdentity "user-1" "privy" "did:privy:1" IdentityStatusActive)
    (MkMetadata "request-1" "" "").
Definition person : option Context := Some (MkContext (Some trusted) (Some trusted)).
Definition agent : option Context := Some (MkContext (Some trusted) None).
Definition minute (n : Z) : nat -> Time := fun reading => now + n * Minute + Z.of_nat reading * Second.
Definition approvals : ApprovalService := MkApprovalService true true true true true true.
Definition configured : FoundationService := MkFoundationService true.
Definition calls : gmap nat session :=
  list_to_map (zip (seq 0 3)
    [ MkSession person (minute 1) (Call_DecideApproval approvals "approval-1" DecisionApproved);
      MkSession person (minute 2) (Call_AuthorizeExecution approvals "approval-1" "intent-1" "binding-1" 2);
      MkSession agent (minute 3) (Call_PrepareExecution configured "intent-1" "approval-1" "policy" 1) ]).
(** One after another: enough statements of each. *)
Definition schedule : list nat := app (repeat 0%nat 12) (app (repeat 1%nat 12) (repeat 2%nat 12)).
Definition start (i : Intent) : sessions Foundation (result (option Request)) :=
  MkSessions (world i pending_approval) (session_program <$> calls).
Definition finish (i : Intent) := follow schedule (start i).

Lemma world_legitimate i : legitimate calls (world i pending_approval).
Proof.
  split.
  - intros k row. unfold world. destruct wallet_stored; cbn; [|done]. unfold intent_stored.
    destruct (intentCreateParams i); [|done]. intros [<- _]%lookup_singleton_Some. vm_compute. reflexivity.
  - intros n s Hs. apply elem_of_list_to_map_2 in Hs. rewrite list_elem_of_In in Hs. cbn in Hs.
    by destruct Hs as [[= _ <-]|[[= _ <-]|[[= _ <-]|[]]]].
Qed.

(** * An approved intent is executed *)
Definition executed : list (string * string * request_row) := Eval vm_compute in
  map_to_list (db_requests (fd_runtime (ss_db (finish governed)))).
Definition the_key : string * string := Eval vm_compute in match executed with x :: _ => x.1 | [] => ("", "") end.
Definition the_row : request_row := Eval vm_compute in
  match executed with x :: _ => x.2 | [] => MkRequestRow "" blank_request end.
Lemma execution_needs_people_witness :
  approved_intent (world governed pending_approval) "tenant-1" "intent-1" "user-1" (int_digest governed).
Proof.
  refine (proj2 (proj2 (proj2 (execution_needs_people calls (world governed pending_approval) (ss_db (finish governed))
    (ss_running (finish governed)) the_key the_row (world_legitimate governed) (follow_steps schedule (start governed)) _ _))));
    vm_compute; reflexivity.
Defined.

(** * The same calls, of an intent that awaits its approval *)
Lemma nothing_is_executed_witness : db_requests (fd_runtime (ss_db (finish governed_requested))) = ∅.
Proof.
  refine (proj1 (proj2 (proj2 (nothing_is_executed calls (world governed_requested pending_approval)
    (ss_db (finish governed_requested)) (ss_running (finish governed_requested)) (world_legitimate governed_requested)
    (follow_steps schedule (start governed_requested)) _ _)))).
  - intros k row. unfold world. destruct wallet_stored; cbn; [|done]. unfold intent_stored.
    destruct (intentCreateParams governed_requested) as [row'|] eqn:E; [|done]. intros [_ <-]%lookup_singleton_Some.
    rewrite (intentCreateParams_status _ _ E). by intros [].
  - intros k row. unfold world. destruct wallet_stored; cbn; [|done]. unfold approval_stored.
    destruct (approvalCreateParams pending_approval) as [row'|] eqn:E; [|done]. intros [_ <-]%lookup_singleton_Some.
    by rewrite (approvalCreateParams_status _ _ E).
Defined.
End AuthoritySamples.

(** Retrying the creation of an intent: what a second call with the same client
    request identifier answers (services/intent.go over
    storage/postgres/intent_repository.go). *)

(** Nothing is asked of the others. *)
Definition anyhow : relation Foundation := fun _ _ => True.
#[global] Instance anyhow_preorder : PreOrder anyhow.
Proof. by split. Qed.
Lemma keeps_anyhow {A} (m : method Foundation A) : keeps anyhow m.
Proof. induction m as [a|Y q k IH]; cbn; [done|]. by split. Qed.

Section retry.
Context `{EthCommon} `{UnicodeTables} `{PgTimestamp}.

(** The intent dates from the instant, or from what the column keeps of it. *)
Definition dated (at_ : Time) (i : Intent) : Prop :=
  let c := truncatePostgresTimestamp at_ in
  Intents.prm_CreatedAt (int_params i) = c \/ Intents.prm_CreatedAt (int_params i) = domainTime (dbTime c).

Lemma commanded_created id owner command at_ draft i :
  Intents.NewDraft (commanded id owner command at_) = Ok draft -> Intent_Transition draft Intents.StatusCreated at_ = Ok i ->
  Intents.prm_CreatedAt (int_params i) = truncatePostgresTimestamp at_.
Proof.
  intros Hd Hi. unfold Intents.NewDraft in Hd. apply rbind_ok in Hd as (? & _ & [= <-]).
  apply Transition_moved in Hi as (_ & _ & (-> & _) & _); [done|unfold is_u64; cbn; lia|done].
Qed.
Lemma intentCreateParams_created i row : intentCreateParams i = Ok row -> it_created_at row = dbTime (Intents.prm_CreatedAt (int_params i)).
Proof. unfold intentCreateParams. intros Hr. repeat (apply rbind_ok in Hr as (? & _ & Hr)). by injection Hr as <-. Qed.
Lemma intentFromRow_created id row i : intentFromRow (id, row) = Ok i -> Intents.prm_CreatedAt (int_params i) = domainTime (it_created_at row).
Proof.
  unfold intentFromRow, Intent_Restore. intros Hr. do 4 (apply rbind_ok in Hr as (? & _ & Hr)).
  do 4 (apply rbind_ok in Hr as (? & _ & Hr)). by injection Hr as <-.
Qed.

Lemma store_dated scope value db :
  safe anyhow (Repositories.CreateIntent scope value)
    (fun r _ => forall x, r = Ok x -> Intents.prm_CreatedAt (int_params (fst x)) = Intents.prm_CreatedAt (int_params value) \/
       Intents.prm_CreatedAt (int_params (fst x)) = domainTime (dbTime (Intents.prm_CreatedAt (int_params value)))) db.
Proof.
  do 3 (apply safe_plain; [done|intros _ _]). apply safe_plain; [done|]. intros row Hr.
  apply (safe_execute anyhow _ _ (fun y _ => snd y = row)).
  - intros db1 _ y db2 Hq. split; [done|]. unfold CreateIntent_q in Hq. repeat (apply rbind_ok in Hq as (? & _ & Hq)).
    by injection Hq as <- _.
  - intros e d _. cbn. destruct (is_conflict _); [|done]. unfold found_instead.
    eapply safe_mbind, safe_impl; [|apply safe_keeps, keeps_anyhow]. intros [existing|] d' _; cbn; [|done].
    destruct (equalIntent existing value) eqn:E; [|done]. intros x [= <-]. left. cbn. unfold equalIntent in E. by reflect_all.
  - intros [id row'] d _ E. cbn in E. subst row'. cbn. intros x Hx. unfold created_intent in Hx.
    apply rbind_ok in Hx as (i & Hi & [= <-]). right. cbn. by rewrite (intentFromRow_created _ _ _ Hi), (intentCreateParams_created _ _ Hr).
Qed.

(** Creating an intent is not repeatable.  Whatever is stored already,
    whatever other sessions do and whatever fails, [CreateIntent] answers only
    with an intent created at the instant of this very call: the retry of a
    creation is never answered with the intent that the first call stored,
    unless both fall into one microsecond. *)
Theorem created_at_this_call (s : IntentService) (ctx : option Context) (now : nat -> Time) (command : CreateIntentCommand)
    (turns : list (turn Foundation)) (f : Foundation) (i : Intent)
    (Hrun : fst (run (CreateIntent s ctx now command) turns f) = Ok i) :
  dated (UTC (now 0%nat)) i.
Proof.
  enough (safe anyhow (CreateIntent s ctx now command) (fun r _ => forall i, r = Ok i -> dated (UTC (now 0%nat)) i) f) as Hs.
  { refine (run_safe anyhow _ _ turns f _ _ Hs i Hrun); [auto|]. apply Forall_forall. by intros. }
  clear i Hrun. unfold CreateIntent. apply safe_plain; [done|intros scope _]. do 2 (apply safe_plain; [done|intros ? _]).
  apply (safe_mtry anyhow _ _ (fun _ _ => True)); [done|eapply safe_impl; [|apply safe_keeps, keeps_anyhow]; done|].
  intros binding d _. apply safe_plain; [done|intros ? _]. apply safe_plain; [done|intros draft Hd].
  apply safe_plain; [done|intros value Hv]. eapply safe_mtry; [done|apply store_dated|]. intros [stored created] d' Hx.
  cbn [fst] in Hx. rewrite (commanded_created _ _ _ _ _ _ Hd Hv) in Hx. clear d.
  apply (safe_mtry anyhow _ _ (fun _ _ => True)); [done|eapply safe_impl; [|apply safe_keeps, keeps_anyhow]; done|].
  intros _ d _. cbn. by intros i [= <-].
Qed.
End retry.

Module RetrySamples.
Import Samples IntentSamples PolicySamples ExecutionSamples AuthoritySamples.
#[local] Existing Instance Eth.is_hex_address.
#[local] Existing Instance Eth.no_folding.
#[local] Existing Instance Pg.truncating.

Definition service : IntentService := MkIntentService true true true true true.
Definition claims : AuthenticatedPrincipal :=
  MkPrincipal "tenant-1" "user-1" "privy" "did:privy:1" "client-1" "token-1" now now now (now + Hour) [PermissionCreateIntent].
Definition caller : option Context :=
  Some (MkContext (Some (MkTrusted (or_else claims (NewAuthenticatedPrincipal claims))
    (MkIdentity "user-1" "privy" "did:privy:1" IdentityStatusActive) (MkMetadata "request-1" "" ""))) None).
Definition command : CreateIntentCommand :=
  MkCommand "client-2" "nonce-2" "binding-1" TypeSend (prm_Financial governed_params) (prm_Route governed_params) (now + Hour) "policy:1".
(** The call, and the same call a minute later. *)
Definition first := run_alone (CreateIntent service caller (minute 1) command) (world governed pending_approval).
Definition again := run_alone (CreateIntent service caller (minute 2) command) (snd first).
Definition the_intent : Intent := Eval vm_compute in get (fst first).

Definition answer_code (r : result Intent) : option Code := match r with Ok _ => None | Err e => error_code e end.
Lemma created_at_this_call_witness : dated (minute 1 0) the_intent /\ answer_code (fst again) = Some CodeIntentMutated.
Proof.
  split; [|vm_compute; reflexivity].
  refine (created_at_this_call service caller (minute 1) command [] (world governed pending_approval) the_intent _).
  vm_compute. reflexivity.
Defined.
End RetrySamples.
