(* ===== verification/AutonomyService.v ===== *)
(** internal/services/autonomy.go: the authenticated controls of the autonomous
    runtime. *)
From stdpp Require Import gmap strings.
From S2P Require Import Prelude GoStrings GoTime AppErrors Wallet Auth Storage Statements Services Autonomy.
From S2P Require Import AutonomyLedger AutonomyRuntime AutonomyStore AutonomyRecords.
Open Scope string_scope.
Open Scope Z_scope.
Open Scope go_scope.

(** [PersistedAutonomyService]: which dependencies are set, and [Enabled]. *)
Record AutonomyService := MkAutonomyService {
  as_Repository : bool; as_Authorizer : bool; as_Audit : bool; as_Wallets : bool; as_Now : bool; as_Enabled : bool
}.

Section service.
Context {E : Type} `{Part Tables E} `{AuditRepository E} `{WalletBindingRepository E}.
Context `{TimeZones} `{PgTimestamp} `{PgAmount}.
Implicit Types (s : AutonomyService) (ctx : option Context) (now : nat -> Time).

Definition autonomy_scope s ctx (permission : Permission) : result Scope :=
  do! fail_if (negb (as_Repository s && as_Authorizer s && as_Now s)) (errorf "autonomy service is not configured");
  service_scope ctx permission.

Definition autonomy_audit s (scope : Scope) (type resourceID previous next : string) (at_ : Time) : method E (result unit) :=
  act! plain_code (fail_if (negb (as_Audit s)) (errorf "durable autonomy audit repository is required"));
  AppendAudit scope
    (MkAuditRecord (service_event (sc_requestID scope +:+ ("/" +:+ (resourceID +:+ ("/" +:+ type)))) type (UTC at_))
       "user" (sc_actorID scope) (sc_requestID scope) (sc_traceID scope) "autonomy" resourceID previous next "" "autonomy.service").

Definition ListSchedules s ctx : method E (result (list Schedule)) :=
  sql! scope := plain_code (autonomy_scope s ctx PermissionAutonomyRead) in
  on (ListAutonomySchedules scope).
Definition GetSchedule s ctx (id : string) (v : Z) : method E (result Schedule) :=
  sql! scope := plain_code (autonomy_scope s ctx PermissionAutonomyRead) in
  on (LoadAutonomySchedule scope id v).

Definition with_Principal (p : Principal) (v : Schedule) : Schedule :=
  MkSchedule (sch_ID v) (sch_Version v) p (sch_WalletBindingID v) (sch_WalletBindingVersion v) (sch_GrantID v)
    (sch_GrantVersion v) (sch_DelegationID v) (sch_DelegationVersion v) (sch_CreatedAt v) (sch_UpdatedAt v) (sch_Status v)
    (sch_Spec v) (sch_Digest v).
(** The checks of [CreateSchedule] against what it loaded. *)
Definition grant_covers (grant : Grant) (value : Schedule) (at_ : Time) : bool :=
  negb ((grt_PrincipalUserID grant != prc_UserID (sch_Principal value)) || (grt_WalletBindingID grant != sch_WalletBindingID value)
        || (grt_Intent grant != spc_Intent (sch_Spec value))
        || ((grt_ScheduleID grant != "") && (grt_ScheduleID grant != sch_ID value)) || negb (Grant_Active grant (UTC at_))).
Definition delegation_covers (delegation : Delegation) (value : Schedule) (at_ : Time) : bool :=
  negb ((dlg_PrincipalUserID delegation != prc_UserID (sch_Principal value))
        || (dlg_AgentID delegation != prc_AgentID (sch_Principal value))
        || negb (is_ok (Delegation_Validate delegation (UTC at_) (spc_Intent (sch_Spec value))))).
Definition binding_covers (binding : Binding) (value : Schedule) : bool :=
  negb ((bnd_version binding != sch_WalletBindingVersion value)
        || negb (is_ok (Binding_EnsureAuthorizable binding (prc_UserID (sch_Principal value))))).

Definition CreateSchedule s ctx now (value : Schedule) : method E (result Schedule) :=
  sql! scope := plain_code (autonomy_scope s ctx PermissionAutonomyControl) in
  sql! request := plain_code (TrustedRequestFromContext ctx) in
  sql! agentID := plain_code (VerifiedAgentID request) in
  act! plain_code (fail_if ((prc_AgentID (sch_Principal value) != "") && (prc_AgentID (sch_Principal value) != agentID))
                     (errorf "acting agent does not match verified client"));
  let value := with_Principal (Autonomy.MkPrincipal (sc_tenantID scope) (prn_actorID (tr_principal request)) agentID) value in
  act! plain_code (Schedule_Validate value);
  sql! grant := on (LoadAutonomyGrant scope (sch_GrantID value) (sch_GrantVersion value)) in
  sql! delegation := on (LoadAutonomyDelegation scope (sch_DelegationID value) (sch_DelegationVersion value)) in
  act! plain_code (fail_if (negb (grant_covers grant value (now 0%nat))) (errorf "grant is not authorized for schedule"));
  act! plain_code (fail_if (negb (delegation_covers delegation value (now 1%nat)))
                     (errorf "delegation is not authorized for schedule"));
  act! plain_code (fail_if (negb (as_Wallets s)) (errorf "wallet binding repository is required"));
  sql! binding := FindBindingByID scope (sch_WalletBindingID value) in
  act! plain_code (fail_if (negb (binding_covers binding value)) (errorf "wallet binding is not authorized for schedule"));
  act! plain_code (fail_if (sch_Digest value != ComputeDigest value) (errorf "schedule digest mismatch"));
  act! autonomy_audit s scope "autonomy_schedule_created" (sch_ID value) "" (sch_Status value) (now 2%nat);
  act! on (SaveAutonomySchedule scope value);
  Return (Ok value).

(** [value.Version++; value.Status = status; ...; value.Digest = value.ComputeDigest()] *)
Definition next_version (value : Schedule) (status : ScheduleStatus) (updated : Time) : Schedule :=
  let changed (digest : string) :=
    MkSchedule (sch_ID value) (u64 (sch_Version value + 1)) (sch_Principal value) (sch_WalletBindingID value)
      (sch_WalletBindingVersion value) (sch_GrantID value) (sch_GrantVersion value) (sch_DelegationID value)
      (sch_DelegationVersion value) (sch_CreatedAt value) (UTC updated) status (sch_Spec value) digest in
  changed (ComputeDigest (changed (sch_Digest value))).
Definition SetScheduleStatus s ctx now (id : string) (v : Z) (status : ScheduleStatus) : method E (result Schedule) :=
  sql! scope := plain_code (autonomy_scope s ctx PermissionAutonomyControl) in
  sql! value := on (LoadAutonomySchedule scope id v) in
  sql! request := plain_code (TrustedRequestFromContext ctx) in
  act! plain_code (match VerifiedAgentID request with
                   | Ok agentID => fail_if (prc_AgentID (sch_Principal value) != agentID)
                                     (errorf "schedule agent does not match verified client")
                   | Err _ => Err (errorf "schedule agent does not match verified client")
                   end);
  act! plain_code (fail_if ((status != ScheduleActive) && (status != SchedulePaused) && (status != ScheduleRevoked))
                     (errorf "invalid schedule status"));
  act! plain_code (fail_if (negb (ValidScheduleTransition (sch_Status value) status))
                     (errorf "invalid schedule status transition"));
  let value := next_version value status (now 0%nat) in
  act! autonomy_audit s scope "autonomy_schedule_versioned" (sch_ID value) "" (sch_Status value) (now 1%nat);
  act! on (SaveAutonomySchedule scope value);
  Return (Ok value).

Definition SetEmergencyStop s ctx now (value : EmergencyStop) : method E (result EmergencyStop) :=
  sql! scope := plain_code (autonomy_scope s ctx PermissionAutonomyControl) in
  sql! request := plain_code (TrustedRequestFromContext ctx) in
  let value := MkEmergencyStop (es_Active value) "TENANT" (UTC (now 0%nat)) (prn_actorID (tr_principal request)) (es_Reason value) in
  act! plain_code (EmergencyStop_Validate value);
  act! autonomy_audit s scope "autonomy_emergency_stop_changed" (sc_tenantID scope) "" (if es_Active value then "true" else "false") (now 1%nat);
  act! on (SetAutonomyEmergencyStop scope value);
  Return (Ok value).

(** [created] is [time.Now()]. *)
Definition SimulateOccurrence s ctx (id : string) (version : Z) (at_ created : Time) : method E (result Decision) :=
  sql! scope := plain_code (autonomy_scope s ctx PermissionAutonomyRead) in
  sql! schedule := on (LoadAutonomySchedule scope id version) in
  let occurrence := NewOccurrence schedule at_ created in
  let decision reason := MkDecision false false reason "" (sch_ID schedule) (occ_ID occurrence) (sch_GrantID schedule) in
  Return (Ok (decision (if negb (as_Enabled s) then ReasonRuntimeDisabled
                        else if sch_Status schedule != ScheduleActive then ReasonSchedulePaused
                        else ReasonProviderUnavailable))).
End service.

(** * Creating schedules *)
From S2P Require Import Contracts Foundation Repositories IntentService.
Section creation.
Context {E : Type} `{Part Tables E} `{Part Foundation E}.
Context `{EthCommon} `{UnicodeTables} `{TimeZones} `{PgTimestamp} `{PgAmount}.

(** A grant and a delegation as they are stored for the scope's tenant and user. *)
Definition grant_at scope (id : string) (version : Z) (g : Grant) (t : Tables) : Prop :=
  exists row, tb_grants t !! (sc_tenantID scope, id, version) = Some row /\ gr_principal_user_id row = sc_actorID scope /\
    restore_grant id version row = Ok g.
Definition delegation_at scope (id : string) (version : Z) (d : Delegation) (t : Tables) : Prop :=
  exists row, tb_delegations t !! (sc_tenantID scope, id, version) = Some row /\ dr_principal_user_id row = sc_actorID scope /\
    d = MkDelegation id version (dr_principal_user_id row) (dr_agent_id row) (dr_capabilities row) (dr_expires_at row)
          (dr_revoked row) (dr_non_transitive row).
Lemma bigint_same version v : bigint version = Ok v -> v = version.
Proof. unfold bigint. destruct (_ <? _); congruence. Qed.
Lemma LoadAutonomyGrant_finds scope id version : finds (LoadAutonomyGrant scope id version) (grant_at scope id version).
Proof.
  apply finds_plain. intros _ _. eapply finds_impl, finds_unless. intros g t (row & t' & Hq & Hg).
  apply rbind_ok in Hq as (v & ->%bigint_same & Hq). unfold select_row in Hq.
  destruct (tb_grants t !! _) as [r|] eqn:Hr; [|done]. destruct (gr_principal_user_id r == sc_actorID scope) eqn:Hu; [|done].
  injection Hq as <- <-. reflect_all. by exists r.
Qed.
Lemma LoadAutonomyDelegation_finds scope id version :
  finds (LoadAutonomyDelegation scope id version) (delegation_at scope id version).
Proof.
  apply finds_plain. intros _ _. unfold LoadAutonomyDelegation.
  eapply finds_impl, (finds_unless _ _ (fun row => Ok (MkDelegation id version (dr_principal_user_id row) (dr_agent_id row)
    (dr_capabilities row) (dr_expires_at row) (dr_revoked row) (dr_non_transitive row)))).
  intros d t (row & t' & Hq & [= <-]). apply rbind_ok in Hq as (v & ->%bigint_same & Hq). unfold select_row in Hq.
  destruct (tb_delegations t !! _) as [r|] eqn:Hr; [|done]. destruct (dr_principal_user_id r == sc_actorID scope) eqn:Hu; [|done].
  injection Hq as <- <-. reflect_all. by exists r.
Qed.

(** What authority over a schedule is, at an instant. *)
Record grant_authorizes (g : Grant) (v : Schedule) (at_ : Time) : Prop := {
  ga_valid : Grant_Validate g = Ok tt;
  ga_user : grt_PrincipalUserID g = prc_UserID (sch_Principal v);
  ga_wallet : grt_WalletBindingID g = sch_WalletBindingID v;
  ga_intent : grt_Intent g = spc_Intent (sch_Spec v);
  ga_schedule : grt_ScheduleID g = "" \/ grt_ScheduleID g = sch_ID v;
  ga_active : grt_Paused g = false /\ grt_Revoked g = false /\ at_ < grt_ExpiresAt g
}.
Record delegation_authorizes (d : Delegation) (v : Schedule) (at_ : Time) : Prop := {
  da_user : dlg_PrincipalUserID d = prc_UserID (sch_Principal v);
  da_agent : dlg_AgentID d = prc_AgentID (sch_Principal v);
  da_intent : spc_Intent (sch_Spec v) ∈ dlg_Capabilities d;
  da_active : dlg_Revoked d = false /\ at_ < dlg_ExpiresAt d
}.
Record binding_authorizes (b : Binding) (v : Schedule) : Prop := {
  ba_version : bnd_version b = sch_WalletBindingVersion v;
  ba_user : bnd_userID b = TrimSpace (prc_UserID (sch_Principal v));
  ba_active : bnd_status b = BindingStatusActive
}.
Lemma grant_covers_authorizes g v at_ : grant_covers g v at_ = true -> grant_authorizes g v (UTC at_).
Proof.
  unfold grant_covers. rewrite negb_true_iff, !orb_false_iff, andb_false_iff, !negb_false_iff, Grant_Active_iff, !bool_decide_eq_true.
  by intros ((((? & ?) & ?) & ?) & ? & ? & ? & ?).
Qed.
Lemma delegation_covers_authorizes d v at_ : delegation_covers d v at_ = true -> delegation_authorizes d v (UTC at_).
Proof.
  unfold delegation_covers. rewrite negb_true_iff, !orb_false_iff, !negb_false_iff, !bool_decide_eq_true, is_ok_true.
  by intros ((? & ?) & [] & (_ & ? & ? & ?)%Delegation_Validate_iff).
Qed.
Lemma binding_covers_authorizes b v : binding_covers b v = true -> binding_authorizes b v.
Proof.
  unfold binding_covers. rewrite negb_true_iff, orb_false_iff, !negb_false_iff, bool_decide_eq_true, is_ok_true.
  intros (? & [] & He). unfold Binding_EnsureAuthorizable in He. apply rbind_ok in He as ([] & _ & He).
  apply rbind_ok in He as ([] & Hu%fail_if_ok & He). reflect_all. split; [done..|]. by destruct (bnd_status b).
Qed.

(** What stands behind the [created] schedule, when [worlds] were read. *)
Definition authorized_creation (ctx : option Context) (now : nat -> Time) (value created : Schedule) (worlds : list E) : Prop :=
  exists scope request grant delegation binding,
    authenticated_scope ctx PermissionAutonomyControl scope request /\
    created = with_Principal (Autonomy.MkPrincipal (sc_tenantID scope) (prn_actorID (tr_principal request))
                                (prn_clientID (tr_principal request))) value /\
    (prc_AgentID (sch_Principal value) = "" \/ prc_AgentID (sch_Principal value) = prn_clientID (tr_principal request)) /\
    Schedule_Validate created = Ok tt /\ sch_Digest created = ComputeDigest created /\
    noticed (fun w => grant_at scope (sch_GrantID created) (sch_GrantVersion created) grant (part w)) worlds /\
    noticed (fun w => delegation_at scope (sch_DelegationID created) (sch_DelegationVersion created) delegation (part w)) worlds /\
    noticed (fun w => binding_at scope (sch_WalletBindingID created) binding (part w)) worlds /\
    grant_authorizes grant created (UTC (now 0%nat)) /\ delegation_authorizes delegation created (UTC (now 1%nat)) /\
    binding_authorizes binding created.

(** [C40] A schedule is created only with stored authority.  Whatever the faults
    and whatever others do meanwhile, a schedule that [CreateSchedule] returns is
    the given one, for the authenticated tenant and user and the verified client,
    with the control permission; it is valid and its digest is the digest of its
    material.  Among the databases its statements read, one stored for that
    tenant and user the very grant version the schedule names, one the delegation
    version and one the wallet binding; the grant is for that user, wallet and
    intent type and for no other schedule, the delegation is to that agent and
    for that intent type, both were active, unexpired and not revoked; and the
    binding is active, the user's, and at the version the schedule names. *)
Theorem schedule_creation_authorized (s : AutonomyService) (ctx : option Context) (now : nat -> Time) (value created : Schedule)
    (turns : list (turn E)) (world : E) (Hok : fst (run (CreateSchedule s ctx now value) turns world) = Ok created) :
  authorized_creation ctx now value created (seen (CreateSchedule s ctx now value) turns world).
Proof.
  assert (forall h, learns (CreateSchedule (E := E) s ctx now value) (told (authorized_creation ctx now value)) h) as Hl.
  2: { exact (run_learns _ _ turns world [] (Hl []) created Hok). }
  intros h. apply learns_plain. intros scope Hscope. apply rbind_ok in Hscope as ([] & _ & Hscope).
  apply service_scope_ok in Hscope as (request & Hauth). apply learns_plain. intros request' Hr.
  rewrite (as_request _ _ _ _ Hauth) in Hr. injection Hr as <-. apply learns_plain. intros agentID Hagent.
  unfold VerifiedAgentID in Hagent. apply rbind_ok in Hagent as ([] & _ & [= <-]).
  apply learns_plain. intros _ Hclaim%fail_if_ok_any. cbv zeta. set (v := with_Principal _ value).
  apply learns_plain. intros [] Hv.
  eapply learns_finds; [apply finds_zoom, LoadAutonomyGrant_finds|]. intros grant h1 _ Ng.
  eapply learns_finds; [apply finds_zoom, LoadAutonomyDelegation_finds|]. intros delegation h2 P2 Nd.
  apply learns_plain. intros _ Hg%fail_if_ok_any%negb_false_iff. apply learns_plain. intros _ Hd%fail_if_ok_any%negb_false_iff.
  apply learns_plain. intros _ _. eapply learns_finds; [apply finds_zoom, StoredBindingByID_finds|]. intros binding h3 P3 Nb.
  apply learns_plain. intros _ Hb%fail_if_ok_any%negb_false_iff. apply learns_plain. intros _ Hdigest%fail_if_ok_any.
  apply learns_step. intros _ h4 P4. apply learns_step. intros _ h5 P5 ? [= <-].
  exists scope, request, grant, delegation, binding. reflect_all.
  split_and!; try done.
  - destruct (andb_false_iff (prc_AgentID (sch_Principal value) != "") (prc_AgentID (sch_Principal value) != prn_clientID (tr_principal request)))
      as [Hc _]. destruct (Hc ltac:(assumption)); reflect_all; auto.
  - eapply noticed_later, Ng. by repeat (etransitivity; [eassumption|]).
  - eapply noticed_later, Nd. by repeat (etransitivity; [eassumption|]).
  - eapply noticed_later, Nb. by repeat (etransitivity; [eassumption|]).
  - by apply grant_covers_authorizes.
  - by apply delegation_covers_authorizes.
  - by apply binding_covers_authorizes.
Qed.
End creation.

(** * Pausing and revoking *)
(** Schedules are added, occurrences are as they were. *)
Definition adds_schedules (t t' : Tables) : Prop := schedules_kept t t' /\ tb_occurrences t' = tb_occurrences t.
#[global] Instance adds_schedules_preorder : PreOrder adds_schedules.
Proof. split; [by split|]. intros x y z [H1 H2] [H3 H4]. split; [by etransitivity|congruence]. Qed.

Section pausing.
Context {E : Type} `{PartLaws Tables E} `{AuditRepository E} `{WalletBindingRepository E}.
Context `{TimeZones} `{PgTimestamp} `{PgAmount}.

Lemma select_adds {Y} (f : Tables -> option Y) : keeps_statement adds_schedules (select_row f).
Proof. apply keeps_select. exact _. Qed.
Lemma insert_schedule_adds tenant value : keeps_statement adds_schedules (insert_schedule tenant value).
Proof.
  intros db y db' Hi. split; [by eapply insert_schedule_keeps|]. unfold insert_schedule in Hi.
  repeat (apply rbind_ok in Hi as (? & _ & Hi)). repeat case_match; try done; by injection Hi as _ <-.
Qed.
#[local] Hint Resolve select_adds insert_schedule_adds : keeps.

(** Pausing or revoking a schedule stops nothing: [SetScheduleStatus]
    saves one more version with the new status and leaves the version it was
    given as it was, so, whatever the faults, that version's due occurrences
    remain candidates of the workers' claims, and a worker that holds its row
    picks the same occurrence as before. *)
Theorem pausing_stops_nothing (s : AutonomyService) (ctx : option Context) (now : nat -> Time) (id : string) (v : Z)
    (status : ScheduleStatus) (faults : list fate) (world : E) (tenant : string) (row : schedule_row)
    (Haudit : forall scope record, keeps (on_part adds_schedules) (AppendAudit (E := E) scope record))
    (Hrow : tb_schedules (part world) !! (tenant, id, v) = Some row) (Hactive : sr_status row = ScheduleActive) :
  let world' := snd (run (SetScheduleStatus s ctx now id v status) (MkTurn Datatypes.id <$> faults) world) in
  tb_schedules (part world') !! (tenant, id, v) = Some row /\
  forall at_ user locked,
    candidate_of at_ (tenant, id, v) (part world') = candidate_of at_ (tenant, id, v) (part world) /\
    pick_occurrence (tenant, id, v) user at_ locked (part world') = pick_occurrence (tenant, id, v) user at_ locked (part world).
Proof.
  assert (keeps (on_part adds_schedules) (SetScheduleStatus (E := E) s ctx now id v status)) as Hk.
  { unfold SetScheduleStatus, autonomy_audit. keeps_tac; apply keeps_on; unfold LoadAutonomySchedule, SaveAutonomySchedule; keeps_tac. }
  assert (Forall (fun t => forall w : E, on_part adds_schedules w (before t w)) (MkTurn Datatypes.id <$> faults)) as Hq
    by (apply Forall_fmap, Forall_true; intros f w; reflexivity).
  cbn zeta. destruct (run_keeps (on_part adds_schedules) _ _ world Hk Hq) as [Hkept Hocc].
  set (world' := snd (run _ _ _)) in *. pose proof (Hkept _ _ Hrow) as Hrow'. split; [done|]. intros at_ user locked.
  unfold candidate_of, pick_occurrence, ready_occurrences, claim_ready, overlapped. by rewrite Hocc, Hrow, Hrow'.
Qed.
End pausing.
