(* ===== verification/AutonomySamples.v ===== *)
(** The autonomous runtime on concrete data: a schedule created, paused and
    resumed through the service, its occurrences claimed by two workers, its
    spending reserved; and what goes wrong when two versions of a schedule are
    ACTIVE. *)
From stdpp Require Import gmap strings.
From S2P Require Import Prelude GoStrings GoTime AppErrors Wallet Auth Storage Statements Services Autonomy Recurrence.
From S2P Require Import AutonomyLedger AutonomyRuntime AutonomyStore AutonomyRecords AutonomyExclusion AutonomyService.
From S2P Require Contracts Database Foundation Repositories IntentService.
Open Scope string_scope.
Open Scope Z_scope.
Open Scope go_scope.

#[local] Existing Instance RecurrenceSamples.zones.
#[local] Existing Instance Pg.truncating.
#[local] Instance sample_amounts : PgAmount := fun s =>
  match SetString10 s with
  | Some z => if (0 <? z) && (z <? 10 ^ 78) then Ok (FormatUint z) else Err (PgError "22003")
  | None => Err (PgError "22P02")
  end.
#[local] Instance sample_amounts_spec : PgAmountSpec.
Proof.
  split; intros s z Hs Hz; unfold amount_column, sample_amounts; rewrite Hs.
  - by rewrite (proj2 (Z.ltb_lt 0 z)), (proj2 (Z.ltb_lt z _)) by lia.
  - by rewrite (proj2 (Z.ltb_ge z _)), andb_false_r by lia.
Qed.

(** The evaluation of a closed term. *)
Ltac vm_refl := match goal with |- _ = ?b => vm_cast_no_check (eq_refl b) end.

(** * The data *)
Definition t0 : Time := of_unix 1700000000.
Definition later : Time := of_unix 1900000000.
Definition scope : Scope := MkScope "tenant-1" "user-1" "request-1" "".
Definition grant : Grant :=
  MkGrant "grant-1" 1 "user-1" "binding-1" IntentPayroll "" later false false "" "100" "" 0 "" [] [] [].
Definition delegation : Delegation := MkDelegation "delegation-1" 1 "user-1" "client-1" [IntentPayroll] later false true.
Definition rule (frequency : string) (dayOfMonth : Z) : Recurrence := MkRecurrence frequency t0 false zero_time 0 dayOfMonth "UTC".
Definition unsealed (id frequency : string) (dayOfMonth : Z) : Schedule :=
  MkSchedule id 1 (Autonomy.MkPrincipal "tenant-1" "user-1" "client-1") "binding-1" 2 "grant-1" 1 "delegation-1" 1 t0 t0 ScheduleActive
    (MkScheduleSpec (rule frequency dayOfMonth) MissedSkip ForbidOverlap 10 IntentPayroll "template") "".
Definition sealed (v : Schedule) : Schedule :=
  MkSchedule (sch_ID v) (sch_Version v) (sch_Principal v) (sch_WalletBindingID v) (sch_WalletBindingVersion v) (sch_GrantID v)
    (sch_GrantVersion v) (sch_DelegationID v) (sch_DelegationVersion v) (sch_CreatedAt v) (sch_UpdatedAt v) (sch_Status v)
    (sch_Spec v) (ComputeDigest v).
Definition daily : Schedule := Eval vm_compute in sealed (unsealed "schedule-1" Daily 0).
Definition monthly : Schedule := Eval vm_compute in sealed (unsealed "schedule-2" Monthly 1).

(** The audit log takes every record; the wallet is bound. *)
#[local] Instance sample_audit : AuditRepository Tables := fun _ _ => Return (Ok tt).
#[local] Instance sample_wallets : WalletBindingRepository Tables := fun _ _ => Return (Ok WalletSamples.active).
Definition service : AutonomyService := MkAutonomyService true true true true true true.
Definition request : TrustedRequest :=
  MkTrusted (Auth.MkPrincipal "tenant-1" "user-1" "privy" "did:privy:1" "client-1" "token-1" t0 t0 t0 later
               [PermissionAutonomyControl; PermissionAutonomyRead])
    (MkIdentity "user-1" "privy" "did:privy:1" IdentityStatusActive) (MkMetadata "request-1" "client-1" "").
Definition ctx : option Context := Some (MkContext (Some request) None).
Definition now (n : nat) : Time := t0 + Minute.

(** The grant and the delegation are stored. *)
Definition granted : Tables := Eval vm_compute in
  snd (run_alone (SaveAutonomyDelegation scope delegation) (snd (run_alone (SaveAutonomyGrant scope grant) no_tables))).
(** The schedule is created through the service, paused and resumed. *)
Definition active_tables : Tables := Eval vm_compute in snd (run_alone (CreateSchedule service ctx now daily) granted).
Definition paused_tables : Tables := Eval vm_compute in
  snd (run_alone (SetScheduleStatus service ctx now "schedule-1" 1 SchedulePaused) active_tables).
Definition resumed_tables : Tables := Eval vm_compute in
  snd (run_alone (SetScheduleStatus service ctx now "schedule-1" 2 ScheduleActive) paused_tables).
Definition statuses (t : Tables) : list (Z * string) := (fun e => (e.1.2, sr_status e.2)) <$> map_to_list (tb_schedules t).
Example statuses_of_versions :
  statuses active_tables = [(1, "ACTIVE")] /\ statuses paused_tables = [(1, "ACTIVE"); (2, "PAUSED")] /\
  length (statuses resumed_tables) = 3%nat /\ (1, "ACTIVE") ∈ statuses resumed_tables /\ (3, "ACTIVE") ∈ statuses resumed_tables.
Proof. vm_compute. split_and!; try reflexivity; set_solver. Qed.

(** * Witnesses *)
Lemma schedule_versions_permanent_witness :
  exists row, tb_schedules active_tables !! ("tenant-1", "schedule-1", 1) = Some row /\
    tb_schedules (snd (run (call_method scope (RSaveSchedule (next_version daily SchedulePaused (now 0%nat))))
                         [MkTurn Datatypes.id (ReplyLost (Sentinel "timeout"))] active_tables))
      !! ("tenant-1", "schedule-1", 1) = Some row.
Proof.
  destruct (tb_schedules active_tables !! ("tenant-1", "schedule-1", 1)) as [row|] eqn:Hrow; [|discriminate Hrow].
  exists row. split; [reflexivity|].
  apply (schedule_versions_permanent scope (RSaveSchedule (next_version daily SchedulePaused (now 0%nat)))
           [MkTurn Datatypes.id (ReplyLost (Sentinel "timeout"))] active_tables ("tenant-1", "schedule-1", 1) row Hrow).
  constructor; [|constructor]. intros db. exists scope, (RSetStop no_stop), []. reflexivity.
Defined.

Lemma schedule_roundtrip_witness :
  exists db', run_alone (SaveAutonomySchedule scope daily) granted = (Ok tt, db') /\
    run_alone (LoadAutonomySchedule scope "schedule-1" 1) db' = (Ok daily, db').
Proof.
  destruct (schedule_roundtrip scope daily granted) as (db' & Hsave & Hload & _);
    [vm_compute; reflexivity|vm_compute; reflexivity| | | | | | | | |].
  - unfold stored_exactly. repeat constructor.
  - unfold in_bigint. repeat constructor; discriminate.
  - intros t id v row Hrow. assert (tb_schedules granted = ∅) as E by (vm_compute; reflexivity). rewrite E, lookup_empty in Hrow. discriminate Hrow.
  - discriminate.
  - split; reflexivity.
  - reflexivity.
  - eexists. vm_compute. reflexivity.
  - eexists. vm_compute. reflexivity.
  - exists db'. split; [exact Hsave|]. apply Hload; reflexivity.
Defined.
Example monthly_is_lost :
  let db := snd (run_alone (SaveAutonomySchedule scope monthly) active_tables) in
  is_ok (fst (run_alone (SaveAutonomySchedule scope monthly) active_tables)) = true /\
  is_ok (fst (run_alone (ListAutonomySchedules scope) active_tables)) = true /\
  is_ok (fst (run_alone (ListAutonomySchedules scope) db)) = false.
Proof. vm_compute. split_and!; reflexivity. Qed.

(** The same creation over the stored wallet bindings. *)
Module CreationSample.
Import Contracts Database Foundation Repositories IntentService.
#[local] Existing Instance Eth.is_hex_address.
#[local] Existing Instance Eth.no_folding.
Definition World : Type := Foundation * Tables.
#[local] Instance world_foundation : Part Foundation World := {| part := fst; with_part f w := (f, snd w) |}.
#[local] Instance world_tables : Part Tables World := {| part := snd; with_part t w := (fst w, t) |}.
Definition bound : World := Eval vm_compute in
  (match walletCreateParams WalletSamples.active with
   | Ok row => MkFoundation {[ "tenant-1" := t0 ]} ∅ {[ ("tenant-1", "binding-1") := row ]} ∅ ∅ ∅ ∅ ∅ ∅ empty_database
   | Err _ => empty_foundation
   end, granted).

Lemma schedule_creation_authorized_witness :
  fst (run (CreateSchedule (E := World) service ctx now daily) [] bound) = Ok daily /\
  authorized_creation ctx now daily daily (seen (CreateSchedule service ctx now daily) [] bound).
Proof.
  assert (fst (run (CreateSchedule (E := World) service ctx now daily) [] bound) = Ok daily) as Hok by (vm_compute; reflexivity).
  split; [exact Hok|]. exact (schedule_creation_authorized service ctx now daily daily [] bound Hok).
Defined.
End CreationSample.

(** * Claims *)
Definition occurrence (s : Schedule) : Occurrence := NewOccurrence s t0 t0.
Definition save_occurrence (v : Z) (db : Tables) : Tables :=
  match fst (run_alone (LoadAutonomySchedule scope "schedule-1" v) db) with
  | Ok s => snd (run_alone (SaveAutonomyOccurrence scope (occurrence s) t0) db)
  | Err _ => db
  end.
Definition due_tables : Tables := Eval vm_compute in save_occurrence 1 active_tables.
Definition resumed_due : Tables := Eval vm_compute in save_occurrence 3 (save_occurrence 1 resumed_tables).

Lemma pausing_stops_nothing_witness :
  exists row, tb_schedules due_tables !! ("tenant-1", "schedule-1", 1) = Some row /\ sr_status row = ScheduleActive /\
    let paused := snd (run (SetScheduleStatus service ctx now "schedule-1" 1 SchedulePaused) [] due_tables) in
    candidate_of t0 ("tenant-1", "schedule-1", 1) paused = candidate_of t0 ("tenant-1", "schedule-1", 1) due_tables /\
    candidate_of t0 ("tenant-1", "schedule-1", 1) due_tables = Some (occ_ID (occurrence daily), t0).
Proof.
  destruct (tb_schedules due_tables !! ("tenant-1", "schedule-1", 1)) as [row|] eqn:Hrow; [|discriminate Hrow].
  assert (sr_status row = ScheduleActive) as Hact by (vm_compute in Hrow; injection Hrow as <-; reflexivity).
  exists row. split; [reflexivity|]. split; [exact Hact|]. split; [|vm_compute; reflexivity].
  refine (proj1 (proj2 (pausing_stops_nothing service ctx now "schedule-1" 1 SchedulePaused [] due_tables "tenant-1" row
            (fun _ _ => I) Hrow Hact) t0 "user-1" [])).
Defined.

(** The steps of the system, as functions. *)
Definition do_lock (n : nat) (worker : string) (s : system) : option system :=
  match sy_open s !! n with
  | Some _ => None
  | None =>
      match lock_schedule None (timestamptz (UTC t0)) (schedules_locked s) (sy_tables s) with
      | Some (k, row) =>
          Some (MkSystem (sy_tables s) (<[n := MkTransaction (sr_user_id row) (timestamptz (UTC t0)) worker
                                                 (timestamptz (Add (UTC t0) Minute)) k None]> (sy_open s)))
      | None => None
      end
  end.
Definition do_pick (n : nat) (s : system) : option system :=
  match sy_open s !! n with
  | Some t =>
      match tx_occurrence t, pick_occurrence (tx_schedule t) (tx_user t) (tx_now t) (occurrences_locked s) (sy_tables s) with
      | None, Some id =>
          Some (MkSystem (sy_tables s)
                  (<[n := MkTransaction (tx_user t) (tx_now t) (tx_worker t) (tx_until t) (tx_schedule t) (Some id)]> (sy_open s)))
      | _, _ => None
      end
  | None => None
  end.
Definition do_commit (n : nat) (s : system) : option system :=
  match sy_open s !! n with
  | Some t =>
      match tx_occurrence t with
      | Some id =>
          match take_occurrence (tx_schedule t).1.1 id (tx_worker t) (tx_until t) (sy_tables s) with
          | Ok (_, tables) => Some (MkSystem tables (delete n (sy_open s)))
          | Err _ => None
          end
      | None => None
      end
  | None => None
  end.
Lemma do_lock_step n worker s s' : do_lock n worker s = Some s' -> sys_step s s'.
Proof.
  unfold do_lock. destruct (sy_open s !! n) eqn:Hn; [done|].
  destruct (lock_schedule _ _ _ _) as [[k row]|] eqn:Hl; [|done]. intros [= <-]. by eapply step_lock.
Qed.
Lemma do_pick_step n s s' : do_pick n s = Some s' -> sys_step s s'.
Proof.
  unfold do_pick. destruct (sy_open s !! n) as [t|] eqn:Hn; [|done]. destruct (tx_occurrence t) eqn:Ht; [done|].
  destruct (pick_occurrence _ _ _ _ _) eqn:Hp; [|done]. intros [= <-]. by eapply step_pick.
Qed.
Lemma do_commit_step n s s' : do_commit n s = Some s' -> sys_step s s'.
Proof.
  unfold do_commit. destruct (sy_open s !! n) as [t|] eqn:Hn; [|done]. destruct (tx_occurrence t) eqn:Ht; [|done].
  destruct (take_occurrence _ _ _ _ _) as [[f tables]|] eqn:Hp; [|done]. intros [= <-]. by eapply step_commit.
Qed.
(** Two workers, each statement of the one followed by the same of the other. *)
Definition two_workers (s : system) : option system :=
  s ← do_lock 1 "worker-1" s; s ← do_lock 2 "worker-2" s; s ← do_pick 1 s; s ← do_pick 2 s; s ← do_commit 1 s; do_commit 2 s.
Lemma two_workers_steps s s' : two_workers s = Some s' -> rtc sys_step s s'.
Proof.
  unfold two_workers. intros Hs.
  apply bind_Some in Hs as (s1 & H1 & Hs). apply bind_Some in Hs as (s2 & H2 & Hs). apply bind_Some in Hs as (s3 & H3 & Hs).
  apply bind_Some in Hs as (s4 & H4 & Hs). apply bind_Some in Hs as (s5 & H5 & H6).
  eapply rtc_l; [eapply do_lock_step, H1|]. eapply rtc_l; [eapply do_lock_step, H2|]. eapply rtc_l; [eapply do_pick_step, H3|].
  eapply rtc_l; [eapply do_pick_step, H4|]. eapply rtc_l; [eapply do_commit_step, H5|]. eapply rtc_once, do_commit_step, H6.
Qed.
Definition claimed_of (t : Tables) : list (string * Z) :=
  omap (fun '(_, row) => if active_status (or_status row) then Some (or_schedule_id row, or_schedule_version row) else None)
    (map_to_list (tb_occurrences t)).

Definition overlapped_system : system := Eval vm_compute in default (MkSystem no_tables ∅) (two_workers (MkSystem resumed_due ∅)).
Definition first_id : string := Eval vm_compute in occ_ID (occurrence daily).
Definition third_id : string := Eval vm_compute in occurrence_id (occurrence_key "schedule-1" 3 t0).
Lemma two_workers_overlap : two_workers (MkSystem resumed_due ∅) = Some overlapped_system.
Proof. vm_refl. Qed.

(** Overlap after a pause: pausing a schedule and resuming it leaves two
    ACTIVE versions, and two workers that claim at the same time then hold an
    occurrence each of the one schedule: the claims are serialised by the row
    of a version, not by the schedule. *)
Theorem resumed_schedule_overlaps :
  rtc sys_step (MkSystem resumed_due ∅) overlapped_system /\
  claimed_of (sy_tables overlapped_system) = [("schedule-1", 1); ("schedule-1", 3)] /\
  ~ exclusive (sy_tables overlapped_system).
Proof.
  split; [apply two_workers_steps, two_workers_overlap|]. split; [vm_compute; reflexivity|]. intros Hex.
  destruct (tb_occurrences (sy_tables overlapped_system) !! ("tenant-1", first_id)) as [r1|] eqn:H1; [|vm_compute in H1; discriminate H1].
  destruct (tb_occurrences (sy_tables overlapped_system) !! ("tenant-1", third_id)) as [r3|] eqn:H3; [|vm_compute in H3; discriminate H3].
  enough (first_id = third_id) as E by discriminate E.
  apply (Hex "tenant-1" "schedule-1" first_id third_id r1 r3 H1 H3); vm_compute in H1, H3; injection H1 as <-; injection H3 as <-; reflexivity.
Qed.

(** One ACTIVE version: the second worker finds the schedule locked. *)
Definition start : system := MkSystem due_tables ∅.
Definition locked_system : system := Eval vm_compute in default start (do_lock 1 "worker-1" start).
Definition picked_system : system := Eval vm_compute in default start (do_pick 1 locked_system).
Definition claimed_system : system := Eval vm_compute in default start (do_commit 1 picked_system).
Definition claim : transaction := Eval vm_compute in
  default (MkTransaction "" 0 "" 0 ("", "", 0) None) (sy_open picked_system !! 1%nat).
Example second_worker_waits : do_lock 2 "worker-2" locked_system = None.
Proof. vm_compute. reflexivity. Qed.
Lemma claim_steps : do_lock 1 "worker-1" start = Some locked_system /\ do_pick 1 locked_system = Some picked_system /\
  do_commit 1 picked_system = Some claimed_system.
Proof. split_and!; vm_refl. Qed.
Lemma to_picked : rtc sys_step start picked_system.
Proof.
  destruct claim_steps as (H1 & H2 & _). eapply rtc_l; [eapply do_lock_step, H1|]. eapply rtc_once, do_pick_step, H2.
Qed.
Lemma only_row {V} (P : string * string -> V -> Prop) (m : gmap (string * string) V) k v :
  m = {[ k := v ]} -> P k v -> forall k' v', m !! k' = Some v' -> P k' v'.
Proof. intros -> Hp k' v' Hk. by apply lookup_singleton_Some in Hk as [<- <-]. Qed.
Lemma start_versions : one_active_version due_tables.
Proof.
  assert (map_to_list (tb_schedules due_tables) = [(("tenant-1", "schedule-1", 1),
    default (row_of daily) (tb_schedules due_tables !! ("tenant-1", "schedule-1", 1)))]) as E by (vm_compute; reflexivity).
  intros tenant sid v v' row row' Hv Hv' _ _. apply elem_of_map_to_list in Hv, Hv'. rewrite E in Hv, Hv'.
  apply list_elem_of_singleton in Hv, Hv'. congruence.
Qed.
Lemma start_exclusive : exclusive due_tables.
Proof.
  assert (forallb (fun e => negb (active_status (or_status e.2))) (map_to_list (tb_occurrences due_tables)) = true) as E
    by (vm_compute; reflexivity).
  intros tenant sid id id' row row' Hrow _ _ _ Ha _. apply elem_of_map_to_list, list_elem_of_In in Hrow.
  rewrite forallb_forall in E. specialize (E _ Hrow). cbn in E. unfold active in Ha. rewrite Ha in E. discriminate E.
Qed.

Lemma claims_never_overlap_witness :
  one_active_version due_tables /\ exclusive due_tables /\ rtc sys_step start claimed_system /\ exclusive (sy_tables claimed_system).
Proof.
  assert (rtc sys_step start claimed_system) as Hrun.
  { eapply rtc_r; [apply to_picked|]. eapply do_commit_step. apply claim_steps. }
  split; [apply start_versions|]. split; [apply start_exclusive|]. split; [exact Hrun|].
  exact (proj1 (claims_never_overlap start claimed_system eq_refl start_versions start_exclusive Hrun)).
Defined.
(** Fencing holds with two ACTIVE versions too: the second worker claims
    between the first one's claim and its late writes. *)
Definition both_picked : system := Eval vm_compute in
  default start (s ← do_lock 1 "worker-1" (MkSystem resumed_due ∅); s ← do_lock 2 "worker-2" s; s ← do_pick 1 s; do_pick 2 s).
Definition first_committed : system := Eval vm_compute in default start (do_commit 1 both_picked).
Definition first_claim : transaction := Eval vm_compute in
  default (MkTransaction "" 0 "" 0 ("", "", 0) None) (sy_open both_picked !! 1%nat).
Definition resumed : Schedule := Eval vm_compute in
  match fst (run_alone (LoadAutonomySchedule scope "schedule-1" 3) resumed_tables) with Ok s => s | Err _ => daily end.
Lemma to_both_picked : rtc any_step (MkSystem resumed_due ∅) both_picked.
Proof.
  assert ((s ← do_lock 1 "worker-1" (MkSystem resumed_due ∅); s ← do_lock 2 "worker-2" s; s ← do_pick 1 s; do_pick 2 s) = Some both_picked)
    as Hs by vm_refl.
  apply bind_Some in Hs as (s1 & H1 & Hs). apply bind_Some in Hs as (s2 & H2 & Hs). apply bind_Some in Hs as (s3 & H3 & H4).
  eapply rtc_l; [eapply any_claim, do_lock_step, H1|]. eapply rtc_l; [eapply any_claim, do_lock_step, H2|].
  eapply rtc_l; [eapply any_claim, do_pick_step, H3|]. eapply rtc_once, any_claim, do_pick_step, H4.
Qed.
Lemma first_commit :
  take_occurrence (tx_schedule first_claim).1.1 third_id (tx_worker first_claim) (tx_until first_claim) (sy_tables both_picked) =
    Ok (2, sy_tables first_committed).
Proof. vm_refl. Qed.
Lemma second_commit : rtc any_step (MkSystem (sy_tables first_committed) (delete 1%nat (sy_open both_picked))) overlapped_system.
Proof.
  apply rtc_once, any_claim, (do_commit_step 2).
  assert (do_commit 2 (MkSystem (sy_tables first_committed) (delete 1%nat (sy_open both_picked))) = Some overlapped_system) as Hc by vm_refl.
  exact Hc.
Qed.
Lemma third_row : or_fence <$> tb_occurrences resumed_due !! ("tenant-1", third_id) = Some 1.
Proof. vm_refl. Qed.
Lemma claims_fence_off_witness :
  exists row, tb_occurrences resumed_due !! ("tenant-1", third_id) = Some row /\ or_fence row < 2 /\
    forall reason, block_statement scope (occurrence resumed) reason t0 (sy_tables overlapped_system) = Ok (0, sy_tables overlapped_system).
Proof.
  destruct (proj1 (fmap_Some _ _ _) third_row) as (row & Hrow & _). exists row. split; [exact Hrow|].
  destruct (claims_fence_off (MkSystem resumed_due ∅) both_picked overlapped_system 1 first_claim third_id row 2
              (sy_tables first_committed) Hrow to_both_picked eq_refl eq_refl first_commit second_commit) as [Hlt Hstale].
  split; [exact Hlt|]. intros reason. refine (proj1 (Hstale scope (occurrence resumed) 1 _ _ _ _ _) reason t0); vm_compute; first [reflexivity|discriminate].
Defined.

(** * Spending *)
Definition spend_row : occurrence_row := default (MkOccurrenceRow "" "" 0 "" 0 "" "" 0 None None None None None 0 "" 0 0)
  (tb_occurrences due_tables !! ("tenant-1", first_id)).
(** Two occurrences of the grant. *)
Definition spending_tables : Tables :=
  set_occurrences due_tables (<[("tenant-1", "a") := spend_row]> (<[("tenant-1", "b") := spend_row]> (tb_occurrences due_tables))).
Definition spending_history : list (spending_call * fate) :=
  [(SReserve scope grant "a" "100" t0, Arrives); (SRelease scope "a", Arrives); (SReserve scope grant "b" "100" t0, Arrives)].
Lemma reservations_within_cap_witness :
  spending_ok "tenant-1" grant spending_tables /\
  grant_total "tenant-1" grant (spend_all spending_history spending_tables) = 100 /\
  within "100" (grant_total "tenant-1" grant (spend_all spending_history spending_tables)) /\
  run_alone (ReserveAutonomySpend scope grant "a" "100" t0) (spend_all spending_history spending_tables) =
    (Ok true, spend_all spending_history spending_tables).
Proof.
  assert (spending_ok "tenant-1" grant spending_tables) as Hok.
  { split; [intros k row Hk; vm_compute in Hk; destruct k as [[[? ?] ?] ?]; discriminate Hk|intros _; vm_compute; discriminate]. }
  assert (Forall (fun '(c, _) => the_grant "tenant-1" grant c) spending_history) as Hh by (repeat constructor).
  destruct (reservations_within_cap "tenant-1" grant spending_history spending_tables Hok Hh) as [Hw Hr].
  split; [exact Hok|]. split; [vm_compute; reflexivity|]. split; [exact Hw|].
  apply (Hr scope "a" "100" t0 (MkReservationRow "100" t0 "RELEASED"));
    first [vm_compute; reflexivity | vm_compute; discriminate].
Defined.
