(* ===== verification/GoBase64.v ===== *)
(** encoding/base64's [RawURLEncoding] and the digests and random identifiers
    written with it (oauth/service.go): what the sign-in services call
    opaque credentials. *)
From S2P Require Import Prelude GoStrings GoText Sha256 AppErrors.
Open Scope string_scope.
Open Scope Z_scope.
Open Scope go_scope.

(** * The alphabet *)
(** [A-Za-z0-9-_] *)
Definition url_digit (n : Z) : Z :=
  if n <? 26 then 65 + n else if n <? 52 then 71 + n else if n <? 62 then n - 4 else if n =? 62 then 45 else 95.
Definition url_value (b : Z) : option Z :=
  if byte_in 65 90 b then Some (b - 65) else if byte_in 97 122 b then Some (b - 71)
  else if byte_in 48 57 b then Some (b + 4) else if b =? 45 then Some 62 else if b =? 95 then Some 63 else None.

(** * [EncodeToString] *)
Fixpoint encode_url (l : list Z) : list Z :=
  match l with
  | a :: b :: c :: l =>
      let v := a * 65536 + b * 256 + c in
      url_digit (v / 262144) :: url_digit (v / 4096 mod 64) :: url_digit (v / 64 mod 64) :: url_digit (v mod 64)
        :: encode_url l
  | [a; b] =>
      let v := a * 65536 + b * 256 in
      [url_digit (v / 262144); url_digit (v / 4096 mod 64); url_digit (v / 64 mod 64)]
  | [a] => let v := a * 65536 in [url_digit (v / 262144); url_digit (v / 4096 mod 64)]
  | [] => []
  end.
Definition RawURL_EncodeToString (s : string) : string := of_bytes (encode_url (bytes s)).

(** * [DecodeString] *)
(** Line breaks are skipped; the unused bits of the last digit are not looked
    at. *)
Definition url_values (l : list Z) : option (list Z) :=
  mapM url_value (filter (fun b => b <> 10 /\ b <> 13) l).
Fixpoint decode_url (l : list Z) : option (list Z) :=
  match l with
  | a :: b :: c :: d :: l =>
      let v := a * 262144 + b * 4096 + c * 64 + d in
      rest ← decode_url l; Some (v / 65536 :: v / 256 mod 256 :: v mod 256 :: rest)
  | [a; b; c] => let v := a * 262144 + b * 4096 + c * 64 in Some [v / 65536; v / 256 mod 256]
  | [a; b] => Some [(a * 262144 + b * 4096) / 65536]
  | [_] => None
  | [] => Some []
  end.
Definition RawURL_DecodeString (s : string) : result string :=
  match v ← url_values (bytes s); decode_url v with
  | Some l => Ok (of_bytes l)
  | None => Err (errorf "illegal base64 data")
  end.

(** * Digests and random identifiers *)
(** [oauth.Digest] *)
Definition Digest (value : string) : string := of_bytes (encode_url (Sum256 (bytes value))).
(** [random(prefix)] of oauth and of browser, from the bytes [rand.Read] wrote
    or its error. *)
Definition random (prefix : string) (entropy : result string) : result string :=
  let! b := entropy in Ok (prefix +:+ RawURL_EncodeToString b).

(** The canonical encoding of 32 bytes: what decodes to them and is what they
    encode to. *)
Definition canonical_32 (s : string) : bool :=
  match RawURL_DecodeString s with
  | Ok b => (len b =? 32) && (RawURL_EncodeToString b == s)
  | Err _ => false
  end.

(** * Lemmas *)
Lemma url_value_digit n : 0 <= n < 64 -> url_value (url_digit n) = Some n.
Proof.
  intros Hn. unfold url_digit.
  repeat match goal with |- context [if ?c then _ else _] => destruct c eqn:?; reflect_all end;
    unfold url_value, byte_in;
    repeat match goal with |- context [if ?c then _ else _] => destruct c eqn:? end;
    repeat match goal with
    | H : (_ && _) = true |- _ => apply andb_true_iff in H as [? ?]
    | H : (_ && _) = false |- _ => apply andb_false_iff in H
    end; reflect_all; try (f_equal; lia); exfalso;
    repeat match goal with H : _ \/ _ |- _ => destruct H end; reflect_all; lia.
Qed.
Lemma url_digit_text n : 0 <= n < 64 -> url_digit n <> 10 /\ url_digit n <> 13.
Proof. intros Hn. unfold url_digit. repeat case_match; reflect_all; lia. Qed.

Lemma url_values_digits l : Forall (fun n => 0 <= n < 64) l -> url_values (url_digit <$> l) = Some l.
Proof.
  unfold url_values. induction 1 as [|n l Hn Hl IH]; [done|].
  rewrite fmap_cons, filter_cons_True by (by apply url_digit_text). cbn [mapM]. rewrite url_value_digit by done. cbn. by rewrite IH.
Qed.

(** The digits, before they are written. *)
Fixpoint sextets (l : list Z) : list Z :=
  match l with
  | a :: b :: c :: l =>
      let v := a * 65536 + b * 256 + c in v / 262144 :: v / 4096 mod 64 :: v / 64 mod 64 :: v mod 64 :: sextets l
  | [a; b] => let v := a * 65536 + b * 256 in [v / 262144; v / 4096 mod 64; v / 64 mod 64]
  | [a] => let v := a * 65536 in [v / 262144; v / 4096 mod 64]
  | [] => []
  end.
(** Three at a time. *)
Lemma triples_ind (P : list Z -> Prop) :
  P [] -> (forall a, P [a]) -> (forall a b, P [a; b]) -> (forall a b c l, P l -> P (a :: b :: c :: l)) -> forall l, P l.
Proof.
  intros H0 H1 H2 H3 l. enough (P l /\ (forall a, P (a :: l)) /\ forall a b, P (a :: b :: l)) by tauto.
  induction l as [|x l (IH0 & IH1 & IH2)]; [by auto|]. split_and!; auto.
Qed.
Lemma encode_url_sextets l : encode_url l = url_digit <$> sextets l.
Proof. induction l using triples_ind; cbn; [done..|]. by rewrite IHl. Qed.
Definition is_byte (b : Z) : Prop := 0 <= b < 256.
Ltac bytes_arith := Z.div_mod_to_equations; lia.
Lemma sextets_range l : Forall is_byte l -> Forall (fun n => 0 <= n < 64) (sextets l).
Proof.
  induction l as [|a|a b|a b c l IH] using triples_ind; cbn; intros Hl; repeat (apply Forall_cons in Hl as [? Hl]);
    unfold is_byte in *; repeat constructor; try bytes_arith; auto.
Qed.
Lemma decode_sextets l : Forall is_byte l -> decode_url (sextets l) = Some l.
Proof.
  induction l as [|a|a b|a b c l IH] using triples_ind; intros Hl; repeat (apply Forall_cons in Hl as [? Hl]);
    unfold is_byte in *; cbn [sextets decode_url]; [done|repeat f_equal; bytes_arith..|].
  rewrite IH by done. cbn. repeat f_equal; bytes_arith.
Qed.
Lemma url_digit_range n : 0 <= n < 64 -> is_byte (url_digit n).
Proof. intros Hn. unfold url_digit, is_byte. repeat case_match; reflect_all; lia. Qed.
Lemma encode_url_range l : Forall is_byte l -> Forall is_byte (encode_url l).
Proof.
  intros Hl. rewrite encode_url_sextets. apply Forall_fmap. eapply Forall_impl; [by apply sextets_range|]. apply url_digit_range.
Qed.

Lemma decode_encode_bytes l : Forall is_byte l -> RawURL_DecodeString (of_bytes (encode_url l)) = Ok (of_bytes l).
Proof.
  intros Hl. unfold RawURL_DecodeString. rewrite bytes_of_bytes by (by apply encode_url_range).
  rewrite encode_url_sextets, url_values_digits by (by apply sextets_range). cbn. by rewrite decode_sextets.
Qed.
(** Decoding undoes encoding. *)
Lemma RawURL_roundtrip s : RawURL_DecodeString (RawURL_EncodeToString s) = Ok s.
Proof.
  unfold RawURL_EncodeToString. rewrite decode_encode_bytes by apply bytes_range. by rewrite of_bytes_bytes.
Qed.

Lemma sextets_length l : Z.of_nat (length (sextets l)) = (Z.of_nat (length l) * 4 + 2) / 3.
Proof. induction l as [| | |a b c l IH] using triples_ind; cbn [sextets length]; [done..|]. rewrite !Nat2Z.inj_succ, IH. bytes_arith. Qed.
Lemma len_encode_url l : len (of_bytes (encode_url l)) = (Z.of_nat (length l) * 4 + 2) / 3.
Proof. unfold len. by rewrite length_of_bytes, encode_url_sextets, length_fmap, sextets_length. Qed.
Lemma len_Digest s : len (Digest s) = 43.
Proof. unfold Digest. by rewrite len_encode_url, Sum256_length. Qed.
(** A digest names its input, up to a collision of SHA-256. *)
Lemma Digest_binding s1 s2 : Digest s1 = Digest s2 -> s1 = s2 \/ collision s1 s2.
Proof.
  intros Hd. assert (Sum256 (bytes s1) = Sum256 (bytes s2)) as Hs.
  { apply (f_equal bytes) in Hd. unfold Digest in Hd. rewrite !bytes_of_bytes in Hd by (by apply encode_url_range, Sum256_range).
    rewrite !encode_url_sextets in Hd. apply (f_equal url_values) in Hd.
    rewrite !url_values_digits in Hd by (by apply sextets_range, Sum256_range). injection Hd as Hd. apply (f_equal decode_url) in Hd.
    rewrite !decode_sextets in Hd by apply Sum256_range. by injection Hd as Hd. }
  destruct (decide (s1 = s2)); [by left|]. right. split; [done|]. unfold sha256_hex. by rewrite Hs.
Qed.
Lemma Digest_canonical s : canonical_32 (Digest s) = true.
Proof.
  unfold canonical_32, Digest. rewrite decode_encode_bytes by apply Sum256_range.
  assert (len (of_bytes (Sum256 (bytes s))) = 32) as -> by (unfold len; by rewrite length_of_bytes, Sum256_length).
  unfold RawURL_EncodeToString. by rewrite bytes_of_bytes, eqb_refl by apply Sum256_range.
Qed.
