(* ===== verification/Siwe.v ===== *)
(** internal/siwe/siwe.go: the EIP-4361 challenge the server issues, the text
    a wallet signs, and the verification of the signature.

    go-ethereum's signature code is a parameter; its addresses and Keccak-256
    are those of Contracts.v and Deployments.v. *)
From S2P Require Import Prelude GoStrings GoText GoTime AppErrors Contracts Deployments.
Open Scope string_scope.
Open Scope Z_scope.
Open Scope go_scope.

Module Siwe.
Definition ErrEnrollmentRequired : error := Sentinel "owner enrollment required".
Definition ErrAccountRevoked : error := Sentinel "account authority revoked".
Definition ErrEnrollmentPending : error := Sentinel "wallet proof verified; owner approval required".
Definition ErrDenied : error := Sentinel "wallet authentication denied".
End Siwe.

Definition SiweDomain : string := "connect.wizpay.xyz".
Definition SiweURI : string := "https://connect.wizpay.xyz".
Definition ChallengeLifetime : Duration := 2 * Minute.

Record Challenge := MkChallenge {
  chl_ID : string; chl_Nonce : string; chl_Message : string; chl_Address : string; chl_SessionReference : string;
  chl_TransactionID : string; chl_ClientID : string; chl_TenantID : string; chl_Purpose : string;
  chl_IssuedAt : Time; chl_ExpiresAt : Time
}.
(** [siwe.Request] *)
Record WalletRequest := MkWalletRequest {
  wq_SessionDigest : string; wq_CSRFDigest : string; wq_TenantID : string; wq_Address : string; wq_RequireEnrollment : bool
}.
Record Rotation := MkRotation { rot_Digest : string; rot_CSRFHash : string; rot_Reference : string }.

(** * Addresses *)
(** [strings.ToUpper] on ASCII text, which the digits of an address are. *)
Definition upper_byte (b : Z) : Z := if byte_in 97 122 b then b - 32 else b.
Definition ToUpperASCII (s : string) : string := of_bytes (upper_byte <$> bytes s).

(** [crypto.ValidateSignatureValues(v, r, s, true)], [crypto.SigToPub] and
    [crypto.PubkeyToAddress]; a public key is its bytes. *)
Class EthSignatures := {
  ValidateSignatureValues : Z -> Z -> Z -> bool;
  SigToPub : string -> string -> result string;
  PubkeyToAddress : string -> string
}.

Section siwe.
Context `{EthCommon} `{UnicodeTables} `{EthCrypto} `{EthSignatures}.

(** [siwe.Address] *)
Definition Address (raw : string) : result string :=
  do! fail_if ((len raw != 42) || negb (HasPrefix raw "0x") || negb (IsHexAddress raw)) Siwe.ErrDenied;
  let a := AddressHex (HexToAddress raw) in
  let text := rest_bytes 2 raw in
  do! fail_if ((text != ToLower text) && (text != ToUpperASCII text) && (raw != a)) Siwe.ErrDenied;
  Ok a.

(** * Messages *)
Definition newline : string := String (ascii_of 10) "".
Definition authenticate_statement : string := "Authenticate to WizPay MCP. This does not authorize transactions.".
Definition enroll_statement : string :=
  "Prove wallet control for WizPay enrollment. Owner approval is required. This does not authenticate or authorize transactions.".
Definition purpose_statement (purpose : string) : result string :=
  if purpose == "ENROLL" then Ok enroll_statement
  else if (purpose != "") && (purpose != "AUTHENTICATE") then Err Siwe.ErrDenied
  else Ok authenticate_statement.

(** [siwe.Message] *)
Definition Message (c : Challenge) : result string :=
  let! a := map_err (fun _ => Siwe.ErrDenied) (Address (chl_Address c)) in
  do! fail_if ((a != chl_Address c) || (len (chl_Nonce c) != 64) || IsZero (chl_IssuedAt c)
               || negb (After (chl_ExpiresAt c) (chl_IssuedAt c))
               || (ChallengeLifetime <? Sub (chl_ExpiresAt c) (chl_IssuedAt c))) Siwe.ErrDenied;
  let! _ := map_err (fun _ => Siwe.ErrDenied) (DecodeString (chl_Nonce c)) in
  let! statement := purpose_statement (chl_Purpose c) in
  Ok (SiweDomain +:+ " wants you to sign in with your Ethereum account:" +:+ newline +:+ a +:+ newline +:+ newline
      +:+ statement +:+ newline +:+ newline +:+ "URI: " +:+ SiweURI +:+ newline +:+ "Version: 1" +:+ newline
      +:+ "Chain ID: 5042" +:+ newline +:+ "Nonce: " +:+ chl_Nonce c +:+ newline
      +:+ "Issued At: " +:+ FormatRFC3339Nano (UTC (chl_IssuedAt c)) +:+ newline
      +:+ "Expiration Time: " +:+ FormatRFC3339Nano (UTC (chl_ExpiresAt c))).

(** * Signatures *)
(** The recovery byte of a 65-byte signature, brought down to 0 or 1. *)
Definition recovery_byte (sig : string) : result Z :=
  match last_byte sig with
  | Some v => if (v =? 0) || (v =? 1) then Ok v else if (v =? 27) || (v =? 28) then Ok (v - 27) else Err Siwe.ErrDenied
  | None => Err Siwe.ErrDenied
  end.
(** What personal_sign hashes. *)
Definition personal_hash (message : string) : string :=
  Keccak256 (String (ascii_of 25) ("Ethereum Signed Message:" +:+ newline +:+ FormatInt (len message)) +:+ message).

(** [siwe.Verify] *)
Definition Verify (message address signature : string) : result unit :=
  do! fail_if ((len signature != 132) || negb (HasPrefix signature "0x") || (len message =? 0) || (2048 <? len message))
        Siwe.ErrDenied;
  let! sig := map_err (fun _ => Siwe.ErrDenied) (DecodeString (rest_bytes 2 signature)) in
  do! fail_if (len sig != 65) Siwe.ErrDenied;
  let! v := recovery_byte sig in
  let r := SetBytes (first_bytes 32 sig) in
  let s := SetBytes (first_bytes 32 (rest_bytes 32 sig)) in
  do! fail_if (negb (ValidateSignatureValues v r s)) Siwe.ErrDenied;
  let! pub := map_err (fun _ => Siwe.ErrDenied)
                (SigToPub (personal_hash message) (first_bytes 64 sig +:+ String (ascii_of v) "")) in
  let! expected := map_err (fun _ => Siwe.ErrDenied) (Address address) in
  fail_if (AddressHex (PubkeyToAddress pub) != expected) Siwe.ErrDenied.

(** [siwe.ValidTime] *)
Definition ValidTime (c : Challenge) (now : Time) : bool :=
  negb (IsZero (chl_IssuedAt c)) && negb (Before now (chl_IssuedAt c)) && Before now (chl_ExpiresAt c)
  && After (chl_ExpiresAt c) (chl_IssuedAt c) && (Sub (chl_ExpiresAt c) (chl_IssuedAt c) <=? ChallengeLifetime).

(** [siwe.Random], from what [rand.Read] wrote. *)
Definition siwe_Random (entropy : result string) : result string := let! b := entropy in Ok (EncodeToString (bytes b)).

(** * What is signed *)
Lemma Message_ok c m : Message c = Ok m ->
  Address (chl_Address c) = Ok (chl_Address c) /\ len (chl_Nonce c) = 64 /\
  chl_IssuedAt c < chl_ExpiresAt c <= chl_IssuedAt c + ChallengeLifetime.
Proof.
  unfold Message. intros Hm. ok_reflect. subst. split_and!; [done|done|by unfold After in *; reflect_all|].
  unfold After, Sub, max_duration, min_duration, ChallengeLifetime, Minute, Second in *. reflect_all. lia.
Qed.

Lemma fixed_app_inj n a a' b b' : len a = Z.of_nat n -> len a' = Z.of_nat n -> a +:+ b = a' +:+ b' -> a = a' /\ b = b'.
Proof.
  intros Ha Ha' E. split.
  - rewrite <- (first_bytes_app n a b), <- (first_bytes_app n a' b') by done. by rewrite E.
  - rewrite <- (rest_bytes_app n a b), <- (rest_bytes_app n a' b') by done. by rewrite E.
Qed.
Lemma line_app_inj a a' b b' : free_of (ascii_of 10) a -> free_of (ascii_of 10) a' ->
  a +:+ newline +:+ b = a' +:+ newline +:+ b' -> a = a' /\ b = b'.
Proof.
  intros Ha Ha' E. apply (f_equal (fun s => Cut s (ascii_of 10))) in E.
  change (newline +:+ b) with (String (ascii_of 10) b) in E. change (newline +:+ b') with (String (ascii_of 10) b') in E.
  rewrite !Cut_app in E by done. by injection E.
Qed.
Lemma append_int_free x w : free_of (ascii_of 10) (append_int x w).
Proof.
  assert (forall n, free_of (ascii_of 10) (pad_left w (FormatUint n))) as Hp.
  { intros n. apply (all_runes_free is_digit_byte); [apply ascii_only_digit|done|].
    change (all_digits (pad_left w (FormatUint n)) = true). rewrite all_digits_spec. apply digit_string_pad_left. }
  unfold append_int. destruct (x <? 0); [|apply Hp]. apply (free_of_app _ "-"); [by repeat constructor|apply Hp].
Qed.
Lemma format_fraction_free n : free_of (ascii_of 10) (format_fraction n).
Proof.
  unfold format_fraction. destruct (n =? 0); [constructor|]. apply (free_of_app _ "."); [by repeat constructor|].
  apply (all_runes_free is_digit_byte); [apply ascii_only_digit|done|].
  change (all_digits (TrimRightZeros (pad_left 9 (FormatUint n))) = true).
  rewrite all_digits_spec. apply digit_string_TrimRightZeros, digit_string_pad_left.
Qed.
Lemma FormatRFC3339Nano_free t : free_of (ascii_of 10) (FormatRFC3339Nano t).
Proof.
  unfold FormatRFC3339Nano.
  repeat (apply free_of_app; [first [apply append_int_free|apply format_fraction_free|by repeat constructor]|]).
  by repeat constructor.
Qed.
Lemma purpose_statement_ok p s : purpose_statement p = Ok s ->
  s = (if p == "ENROLL" then enroll_statement else authenticate_statement) /\ free_of (ascii_of 10) s.
Proof.
  unfold purpose_statement. destruct (p == "ENROLL"); [|case_match; [done|]]; intros [= <-]; split; try done; by repeat constructor.
Qed.

(** [C12] The text a wallet signs is unambiguous: two challenges with the same
    text are for the same account, the same nonce, the same purpose and the same
    period of validity, so a signature over one is a signature over no other. *)
Theorem Message_binds c c' m : Message c = Ok m -> Message c' = Ok m ->
  chl_Address c = chl_Address c' /\ chl_Nonce c = chl_Nonce c' /\ (chl_Purpose c == "ENROLL") = (chl_Purpose c' == "ENROLL") /\
  FormatRFC3339Nano (chl_IssuedAt c) = FormatRFC3339Nano (chl_IssuedAt c') /\
  FormatRFC3339Nano (chl_ExpiresAt c) = FormatRFC3339Nano (chl_ExpiresAt c').
Proof.
  intros Hm Hm'. destruct (Message_ok c m Hm) as (Ha & Hn & _), (Message_ok c' m Hm') as (Ha' & Hn' & _).
  unfold Message in Hm, Hm'. rewrite Ha in Hm. rewrite Ha' in Hm'. cbn [map_err rbind] in Hm, Hm'.
  apply rbind_ok in Hm as ([] & _ & Hm), Hm' as ([] & _ & Hm').
  apply rbind_ok in Hm as (? & _ & Hm), Hm' as (? & _ & Hm').
  apply rbind_ok in Hm as (st & Hst & Hm), Hm' as (st' & Hst' & Hm').
  apply purpose_statement_ok in Hst as [Est Fst], Hst' as [Est' Fst'].
  assert (forall a, Address a = Ok a -> len a = Z.of_nat 42) as Hlen.
  { intros a E. unfold Address in E. apply rbind_ok in E as ([] & E & _). apply fail_if_ok_any in E. by reflect_all. }
  injection Hm as <-. injection Hm' as E. symmetry in E.
  repeat apply string_app_inj_l in E.
  apply (fixed_app_inj 42) in E as [-> E]; [|by apply Hlen..].
  repeat apply string_app_inj_l in E. apply line_app_inj in E as [-> E]; [|done..].
  repeat apply string_app_inj_l in E. apply (fixed_app_inj 64) in E as [-> E]; [|done..].
  repeat apply string_app_inj_l in E. unfold UTC in E.
  apply line_app_inj in E as [EI E]; [|apply FormatRFC3339Nano_free..].
  repeat apply string_app_inj_l in E. split_and!; try done.
  rewrite Est in Est'. by destruct (chl_Purpose c == "ENROLL"), (chl_Purpose c' == "ENROLL").
Qed.

End siwe.
