(* ===== verification/OAuthModel.v ===== *)
(** internal/oauth/model.go and internal/browser/model.go: clients,
    authorization transactions, codes, tokens and browser sessions, with the
    checks of oauth/service.go that need no repository.

    net/url's parser is a parameter: redirect URIs are compared as text with
    what it prints. *)
From S2P Require Import Prelude GoStrings GoText GoTime GoBase64 AppErrors Auth.
Open Scope string_scope.
Open Scope Z_scope.
Open Scope go_scope.

Module OAuth.
Definition ErrInvalidClient : error := Sentinel "oauth client denied".
Definition ErrDenied : error := Sentinel "oauth authority denied".
Definition ErrBrowserUnavailable : error := Sentinel "verified browser authentication and consent unavailable".
Definition Issuer : string := "https://connect.wizpay.xyz".
Definition Resource : string := "https://mcp.wizpay.xyz/mcp".
Definition ReadScope : string := "mcp:read".
Definition CodeLifetime : Duration := 2 * Minute.
Definition TransactionLifetime : Duration := 5 * Minute.
Definition TokenLifetime : Duration := 10 * Minute.
End OAuth.
Module Browser.
Definition ErrDenied : error := Sentinel "browser authority denied".
Definition ErrUnavailable : error := Sentinel "verified browser authentication unavailable".
Definition PendingLifetime : Duration := 5 * Minute.
Definition SessionLifetime : Duration := 30 * Minute.
End Browser.

(** * net/url *)
(** The fields of [url.URL] that the program looks at; the rest is in [url_raw]. *)
Record URL := MkURL {
  url_Scheme : string; url_Opaque : string; url_has_User : bool; url_Host : string; url_Fragment : string;
  url_RawFragment : string; url_RawQuery : string; url_raw : string
}.
(** [url.Values], with at least one value under every key. *)
Abbreviation Values := (gmap string (list string)) (only parsing).
(** [url.Parse], [URL.String], [URL.Hostname], [URL.Query] and [Values.Encode] *)
Class NetUrl := {
  url_Parse : string -> result URL; URL_String : URL -> string; URL_Hostname : URL -> string;
  URL_Query : URL -> gmap string (list string); Values_Encode : gmap string (list string) -> string
}.

(** * Clients *)
Record Client := MkClient {
  cli_ID : string; cli_Name : string; cli_Type : string; cli_AuthMethod : string; cli_Status : string;
  cli_RedirectURIs : list string; cli_Scopes : list string; cli_Resources : list string
}.
(** [A-Za-z0-9._~-] *)
Definition unreserved (b : Z) : bool :=
  byte_in 65 90 b || byte_in 97 122 b || byte_in 48 57 b || (b =? 46) || (b =? 95) || (b =? 126) || (b =? 45).
Definition unreserved_text (lo hi : Z) (s : string) : bool := (lo <=? len s) && (len s <=? hi) && forallb unreserved (bytes s).
Definition opaqueID : string -> bool := unreserved_text 1 128.
Definition verifierSyntax : string -> bool := unreserved_text 43 128.

Section urls.
Context `{UnicodeTables} `{NetUrl}.

Definition validRedirect (raw : string) : bool :=
  match url_Parse raw with
  | Err _ => false
  | Ok u => (len raw <=? 2048) && (url_Scheme u == "https") && (url_Host u != "") && negb (url_has_User u)
            && (url_Fragment u == "") && (url_RawFragment u == "") && (url_Opaque u == "") && (URL_String u == raw)
            && (URL_Hostname u != "localhost") && (url_Host u == ToLower (url_Host u))
            && negb (existsb (fun b => (b =? 42) || (b =? 92)) (bytes (url_Host u)))
  end.

Definition Client_Validate (c : Client) : result unit :=
  do! fail_if (negb (opaqueID (cli_ID c)) || (cli_Name c == "") || (200 <? len (cli_Name c)) || (cli_Type c != "public")
               || (cli_AuthMethod c != "none") || (cli_Status c != "ACTIVE")
               || (cli_RedirectURIs c == []) || (8 <? Z.of_nat (length (cli_RedirectURIs c)))
               || (cli_Scopes c != [OAuth.ReadScope]) || (cli_Resources c != [OAuth.Resource])) OAuth.ErrDenied;
  for_each (fun uri => fail_if (negb (validRedirect uri)) OAuth.ErrDenied) (cli_RedirectURIs c).
End urls.

(** * Transactions, decisions, codes and tokens *)
Record AuthorizationRequest := MkAuthorizationRequest {
  azr_ClientID : string; azr_RedirectURI : string; azr_Resource : string; azr_Scope : string; azr_ResponseType : string;
  azr_Challenge : string; azr_ChallengeMethod : string; azr_State : string
}.
#[global] Instance AuthorizationRequest_eq_dec : EqDecision AuthorizationRequest.
Proof. solve_decision. Defined.
Record Transaction := MkTransaction {
  trx_ID : string; trx_Request : AuthorizationRequest; trx_CreatedAt : Time; trx_ExpiresAt : Time
}.
Record BrowserDecision := MkBrowserDecision {
  bdc_BrowserSessionReference : string; bdc_Principal : AuthenticatedPrincipal; bdc_SessionID : string;
  bdc_SessionExpiresAt : Time; bdc_TransactionID : string; bdc_ClientID : string; bdc_Resource : string; bdc_Scope : string
}.
Record Code := MkCode {
  cod_Digest : string; cod_TransactionID : string; cod_ConsentID : string; cod_SessionID : string; cod_TenantID : string;
  cod_UserID : string; cod_IssuedAt : Time; cod_ExpiresAt : Time
}.
Record Exchange := MkExchange {
  xch_ClientID : string; xch_RedirectURI : string; xch_Resource : string; xch_Code : string; xch_Verifier : string;
  xch_GrantType : string
}.
Record Redemption := MkRedemption {
  rdm_CodeDigest : string; rdm_Challenge : string; rdm_ClientID : string; rdm_RedirectURI : string; rdm_Resource : string;
  rdm_TokenDigest : string; rdm_Now : Time; rdm_TokenExpiresAt : Time
}.
Record Token := MkToken {
  tok_Digest : string; tok_Issuer : string; tok_Resource : string; tok_ClientID : string; tok_TenantID : string;
  tok_UserID : string; tok_IdentityIssuer : string; tok_Subject : string; tok_Scope : string; tok_ConsentID : string;
  tok_SessionID : string; tok_IssuedAt : Time; tok_ExpiresAt : Time
}.
Record TokenResponse := MkTokenResponse {
  tkr_AccessToken : string; tkr_TokenType : string; tkr_ExpiresIn : Z; tkr_Scope : string
}.
Record Revocation := MkRevocation { rvk_TenantID : string; rvk_UserID : string; rvk_ID : string; rvk_Kind : string }.

Definition Permissions (scope : string) : result (list Permission) :=
  do! fail_if (scope != OAuth.ReadScope) OAuth.ErrDenied;
  Ok [PermissionReadIntent; PermissionReadApproval].
Definition minTime (t : Time) (rest : list Time) : Time := fold_left (fun t v => if Before v t then v else t) rest t.

(** * Browser sessions *)
Record Session := MkSession {
  bse_Digest : string; bse_CSRFHash : string; bse_Reference : string; bse_TransactionID : string; bse_State : string;
  bse_Decision : string; bse_TenantID : string; bse_UserID : string; bse_Issuer : string; bse_Subject : string;
  bse_Evidence : string; bse_CreatedAt : Time; bse_ExpiresAt : Time; bse_Revoked : bool
}.
(** [browser.View] *)
Record SessionView := MkSessionView {
  viw_TransactionID : string; viw_ChallengeID : string; viw_State : string; viw_ClientID : string; viw_ClientName : string;
  viw_Scope : string; viw_Resource : string; viw_UserID : string; viw_CSRF : string; viw_AuthenticationAvailable : bool
}.

(** * Lemmas *)
Lemma minTime_le t rest : minTime t rest <= t.
Proof.
  unfold minTime. revert t. induction rest as [|v rest IH]; intros t; cbn; [lia|].
  etransitivity; [apply IH|]. unfold Before. destruct (v <? t) eqn:E; reflect_all; lia.
Qed.
Lemma minTime_le_all t rest v : v ∈ rest -> minTime t rest <= v.
Proof.
  revert t. induction rest as [|w rest IH]; intros t; [by intros ?%not_elem_of_nil|]. cbn.
  intros [->|Hv]%elem_of_cons; [|by apply IH]. etransitivity; [apply minTime_le|].
  unfold Before. destruct (w <? t) eqn:E; reflect_all; lia.
Qed.
