(* ===== verification/SignInTables.v ===== *)
(** The tables of db/migrations/000008 to 000012 — OAuth clients, transactions,
    sessions, consents, codes and tokens, browser sessions, SIWE challenges,
    authentications and enrollment — and the statements the sign-in
    repositories run on them (internal/storage/postgres/oauth_repository.go,
    browser_repository.go, siwe_repository.go, dbsqlc/oauth.sql.go), with the
    constraints and triggers of the migrations.

    A row has the columns of its table less the key, and constant columns are
    left out.  In browser_sessions the empty string stands for NULL, as the
    code's NULLIF and COALESCE have it. *)
From S2P Require Import Prelude GoStrings GoText GoTime Sha256 AppErrors Contracts Deployments Auth Wallet GoBase64.
From S2P Require Import Storage Policies Statements Database Foundation Siwe OAuthModel.
Open Scope string_scope.
Open Scope Z_scope.
Open Scope go_scope.

(** * Rows *)
Record transaction_row := MkTransactionRow {
  tw_client : string; tw_redirect : string; tw_resource : string; tw_scope : string; tw_challenge : string;
  tw_state : string; tw_created : Time; tw_expires : Time; tw_completed : option Time
}.
Record oauth_session_row := MkOAuthSessionRow { ow_expires : Time; ow_revoked : option Time }.
Record consent_row := MkConsentRow {
  uw_client : string; uw_resource : string; uw_scope : string; uw_session : string; uw_issuer : string;
  uw_subject : string; uw_created : Time; uw_expires : Time; uw_revoked : option Time
}.
Record code_row := MkCodeRow {
  kw_transaction : string; kw_tenant : string; kw_user : string; kw_consent : string; kw_session : string;
  kw_client : string; kw_redirect : string; kw_resource : string; kw_scope : string; kw_challenge : string;
  kw_issued : Time; kw_expires : Time; kw_consumed : option Time
}.
Record token_row := MkTokenRow {
  ow_token : Token; ow_token_revoked : option Time
}.
Record browser_row := MkBrowserRow {
  bw_csrf : string; bw_reference : string; bw_transaction : string; bw_state : string; bw_decision : string;
  bw_tenant : string; bw_user : string; bw_issuer : string; bw_subject : string; bw_evidence : string;
  bw_created : Time; bw_expires : Time; bw_revoked : option Time
}.
Record challenge_row := MkChallengeRow { cw_challenge : Challenge; cw_consumed : option Time }.
Record authentication_row := MkAuthenticationRow {
  nw_challenge : string; nw_tenant : string; nw_user : string; nw_binding : string; nw_version : Z; nw_at : Time
}.
Record proof_row := MkProofRow {
  fw_tenant : string; fw_user : string; fw_binding : string; fw_version : Z; fw_verified : Time; fw_digest : string
}.
Record enrollment_row := MkEnrollmentRow { lw_user : string; lw_challenge : string }.
Record oauth_audit_row := MkOAuthAuditRow {
  gw_event : string; gw_tenant : string; gw_user : string; gw_client : string; gw_consent : string; gw_at : Time
}.

(** Tenants, identities and wallets are the foundation's; [sg_status] is the
    column tenants.status, 'INACTIVE' by default. *)
Record SignIn := MkSignIn {
  sg_foundation : Foundation;
  sg_status : gmap string string;
  sg_enrollments : gmap (string * string) enrollment_row;
  sg_clients : gmap string Client;
  sg_transactions : gmap string transaction_row;
  sg_sessions : gmap (string * string * string) oauth_session_row;
  sg_consents : gmap (string * string * string) consent_row;
  sg_restricted : gset (string * string * string);
  sg_codes : gmap string code_row;
  sg_tokens : gmap string token_row;
  sg_audit : list oauth_audit_row;
  sg_browsers : gmap string browser_row;
  sg_challenges : gmap string challenge_row;
  sg_authentications : gmap string authentication_row;
  sg_proofs : gmap string proof_row
}.
Definition empty_sign_in (f : Foundation) (status : gmap string string) : SignIn :=
  MkSignIn f status ∅ ∅ ∅ ∅ ∅ ∅ ∅ ∅ [] ∅ ∅ ∅ ∅.

(** What people with access to the database administer, and what sign-in keeps. *)
Definition set_authority f status enrollments (s : SignIn) : SignIn :=
  MkSignIn f status enrollments (sg_clients s) (sg_transactions s) (sg_sessions s) (sg_consents s) (sg_restricted s)
    (sg_codes s) (sg_tokens s) (sg_audit s) (sg_browsers s) (sg_challenges s) (sg_authentications s) (sg_proofs s).
Definition set_clients m (s : SignIn) : SignIn :=
  MkSignIn (sg_foundation s) (sg_status s) (sg_enrollments s) m (sg_transactions s) (sg_sessions s) (sg_consents s)
    (sg_restricted s) (sg_codes s) (sg_tokens s) (sg_audit s) (sg_browsers s) (sg_challenges s) (sg_authentications s)
    (sg_proofs s).
Definition set_transactions m (s : SignIn) : SignIn :=
  MkSignIn (sg_foundation s) (sg_status s) (sg_enrollments s) (sg_clients s) m (sg_sessions s) (sg_consents s)
    (sg_restricted s) (sg_codes s) (sg_tokens s) (sg_audit s) (sg_browsers s) (sg_challenges s) (sg_authentications s)
    (sg_proofs s).
Definition set_sessions m (s : SignIn) : SignIn :=
  MkSignIn (sg_foundation s) (sg_status s) (sg_enrollments s) (sg_clients s) (sg_transactions s) m (sg_consents s)
    (sg_restricted s) (sg_codes s) (sg_tokens s) (sg_audit s) (sg_browsers s) (sg_challenges s) (sg_authentications s)
    (sg_proofs s).
Definition set_consents m (s : SignIn) : SignIn :=
  MkSignIn (sg_foundation s) (sg_status s) (sg_enrollments s) (sg_clients s) (sg_transactions s) (sg_sessions s) m
    (sg_restricted s) (sg_codes s) (sg_tokens s) (sg_audit s) (sg_browsers s) (sg_challenges s) (sg_authentications s)
    (sg_proofs s).
Definition set_codes m (s : SignIn) : SignIn :=
  MkSignIn (sg_foundation s) (sg_status s) (sg_enrollments s) (sg_clients s) (sg_transactions s) (sg_sessions s)
    (sg_consents s) (sg_restricted s) m (sg_tokens s) (sg_audit s) (sg_browsers s) (sg_challenges s)
    (sg_authentications s) (sg_proofs s).
Definition set_tokens m (s : SignIn) : SignIn :=
  MkSignIn (sg_foundation s) (sg_status s) (sg_enrollments s) (sg_clients s) (sg_transactions s) (sg_sessions s)
    (sg_consents s) (sg_restricted s) (sg_codes s) m (sg_audit s) (sg_browsers s) (sg_challenges s)
    (sg_authentications s) (sg_proofs s).
Definition set_audit l (s : SignIn) : SignIn :=
  MkSignIn (sg_foundation s) (sg_status s) (sg_enrollments s) (sg_clients s) (sg_transactions s) (sg_sessions s)
    (sg_consents s) (sg_restricted s) (sg_codes s) (sg_tokens s) l (sg_browsers s) (sg_challenges s)
    (sg_authentications s) (sg_proofs s).
Definition set_browsers m (s : SignIn) : SignIn :=
  MkSignIn (sg_foundation s) (sg_status s) (sg_enrollments s) (sg_clients s) (sg_transactions s) (sg_sessions s)
    (sg_consents s) (sg_restricted s) (sg_codes s) (sg_tokens s) (sg_audit s) m (sg_challenges s) (sg_authentications s)
    (sg_proofs s).
Definition set_challenges m (s : SignIn) : SignIn :=
  MkSignIn (sg_foundation s) (sg_status s) (sg_enrollments s) (sg_clients s) (sg_transactions s) (sg_sessions s)
    (sg_consents s) (sg_restricted s) (sg_codes s) (sg_tokens s) (sg_audit s) (sg_browsers s) m (sg_authentications s)
    (sg_proofs s).
Definition set_authentications m (s : SignIn) : SignIn :=
  MkSignIn (sg_foundation s) (sg_status s) (sg_enrollments s) (sg_clients s) (sg_transactions s) (sg_sessions s)
    (sg_consents s) (sg_restricted s) (sg_codes s) (sg_tokens s) (sg_audit s) (sg_browsers s) (sg_challenges s) m
    (sg_proofs s).
Definition set_proofs m (s : SignIn) : SignIn :=
  MkSignIn (sg_foundation s) (sg_status s) (sg_enrollments s) (sg_clients s) (sg_transactions s) (sg_sessions s)
    (sg_consents s) (sg_restricted s) (sg_codes s) (sg_tokens s) (sg_audit s) (sg_browsers s) (sg_challenges s)
    (sg_authentications s) m.

(** * Reading *)
(** [QueryRow(...).Scan(...)] whose error the code replaces. *)
Definition found {Y} (row : option Y) (e : error) : result Y := match row with Some y => Ok y | None => Err e end.
Definition tenant_status (tenant : string) (s : SignIn) : option string :=
  _ ← fd_tenants (sg_foundation s) !! tenant; Some (default "INACTIVE" (sg_status s !! tenant)).
Definition identity_at (tenant user : string) (s : SignIn) : option identity_row :=
  fd_identities (sg_foundation s) !! (tenant, user).
Definition has_status (i : identity_row) (status : string) : bool := IdentityStatus_string (ir_status i) == status.
Definition wallet_at (tenant binding : string) (s : SignIn) : option wallet_row :=
  fd_wallets (sg_foundation s) !! (tenant, binding).
(** The active identity with this provider and subject. *)
Definition active_identity (tenant user provider subject : string) (s : SignIn) : option identity_row :=
  i ← identity_at tenant user s;
  if (ir_provider i == provider) && (ir_provider_subject i == subject) && has_status i "ACTIVE" then Some i else None.
Definition browser_by_reference (reference : string) (s : SignIn) : option (string * browser_row) :=
  head (filter (fun kv : string * browser_row => bw_reference kv.2 = reference) (map_to_list (sg_browsers s))).
(** [t.client_id=c.client_id AND c.status='ACTIVE' AND ...] *)
Definition client_allows (c : Client) (redirect resource scope : string) : bool :=
  (cli_Status c == "ACTIVE") && bool_decide (redirect ∈ cli_RedirectURIs c) && bool_decide (resource ∈ cli_Resources c)
  && bool_decide (scope ∈ cli_Scopes c).
Definition public_client (c : Client) : bool := (cli_Type c == "public") && (cli_AuthMethod c == "none").

(** * Constraints *)
(** [^[A-Za-z0-9_-]{43}$] *)
Definition digest_text (s : string) : bool := (len s =? 43) && forallb (fun b => isSome (url_value b)) (bytes s).
(** [^[0-9a-f]{64}$] *)
Definition hex64_text (s : string) : bool := (len s =? 64) && forallb is_lower_hex (bytes s).
(** [^0x[0-9a-fA-F]{40}$] *)
Definition address_text (s : string) : bool :=
  (len s =? 42) && HasPrefix s "0x" && forallb is_hex_byte (bytes (rest_bytes 2 s)).
Definition lasts_at_most (created expires : Time) (d : Duration) : bool := (created <? expires) && (expires <=? created + d).

Definition client_checks (c : Client) : bool :=
  (cli_Type c == "public") && (cli_AuthMethod c == "none") && ((cli_Status c == "ACTIVE") || (cli_Status c == "REVOKED"))
  && (1 <=? Z.of_nat (length (cli_RedirectURIs c))) && (Z.of_nat (length (cli_RedirectURIs c)) <=? 8)
  && (cli_Scopes c == [OAuth.ReadScope]) && (cli_Resources c == [OAuth.Resource]).
Definition transaction_checks (t : transaction_row) : bool :=
  (tw_resource t == OAuth.Resource) && (tw_scope t == OAuth.ReadScope) && digest_text (tw_challenge t)
  && (Z.of_nat (length (runes (tw_state t))) <=? 512) && lasts_at_most (tw_created t) (tw_expires t) (5 * Minute).
Definition consent_checks (u : consent_row) : bool :=
  (uw_resource u == OAuth.Resource) && (uw_scope u == OAuth.ReadScope) && (uw_created u <? uw_expires u).
Definition code_checks (digest : string) (k : code_row) : bool :=
  digest_text digest && lasts_at_most (kw_issued k) (kw_expires k) (2 * Minute).
Definition token_checks (t : Token) : bool :=
  digest_text (tok_Digest t) && (tok_Issuer t == OAuth.Issuer) && lasts_at_most (tok_IssuedAt t) (tok_ExpiresAt t) (10 * Minute).
Definition browser_checks (digest : string) (b : browser_row) : bool :=
  digest_text digest && digest_text (bw_csrf b)
  && ((bw_decision b == "OPEN") || (bw_decision b == "GRANTED") || (bw_decision b == "DENIED"))
  && (((bw_state b == "PENDING") && (bw_tenant b == "") && (bw_user b == "") && (bw_issuer b == "") && (bw_subject b == "")
       && (bw_evidence b == "") && (bw_decision b != "GRANTED") && lasts_at_most (bw_created b) (bw_expires b) (5 * Minute))
      || ((bw_state b == "AUTHENTICATED") && (bw_tenant b != "") && (bw_user b != "") && (bw_issuer b != "")
          && (bw_subject b != "") && (bw_evidence b != "") && (Z.of_nat (length (runes (bw_evidence b))) <=? 256)
          && lasts_at_most (bw_created b) (bw_expires b) (30 * Minute))).
Definition challenge_checks (w : challenge_row) : bool :=
  let c := cw_challenge w in
  hex64_text (chl_ID c) && hex64_text (chl_Nonce c) && (1 <=? len (chl_Message c)) && (len (chl_Message c) <=? 2048)
  && address_text (chl_Address c) && lasts_at_most (chl_IssuedAt c) (chl_ExpiresAt c) (2 * Minute)
  && ((chl_Purpose c == "AUTHENTICATE") || (chl_Purpose c == "ENROLL"))
  && match cw_consumed w with None => true | Some t => (chl_IssuedAt c <=? t) && (t <? chl_ExpiresAt c) end.
Definition audit_event (event : string) : bool :=
  bool_decide (event ∈ ["AUTHORIZED"; "TOKEN_ISSUED"; "CONSENT_REVOKED"; "SESSION_REVOKED"; "TOKEN_REVOKED"]).
(** A terminal marker that is set does not change. *)
Definition set_marker (old : option Time) (t : Time) : result (option Time) :=
  do! fail_if (isSome old && (old != Some t)) trigger_exception; Ok (Some t).
Definition coalesce (old : option Time) (t : Time) : option Time := match old with Some u => Some u | None => Some t end.
