(* ===== verification/SignInStore.v ===== *)
(** The sign-in repositories as methods on the tables of SignInTables.v:
    internal/storage/postgres/oauth_repository.go, browser_repository.go and
    siwe_repository.go.

    A transaction is one statement: it locks the rows it decides on and
    PostgreSQL makes it atomic.  [ck n] is the n-th reading of the clock within
    one — the store's own or the database's, as [authenticationTimeIn] picks,
    zero when it failed. *)
From S2P Require Import Prelude GoStrings GoText GoTime Sha256 AppErrors Contracts Deployments Auth Wallet GoBase64.
From S2P Require Import Storage Policies Statements Database Foundation Siwe OAuthModel SignInTables.
Open Scope string_scope.
Open Scope Z_scope.
Open Scope go_scope.

(** [oauthTx], [pool.QueryRow] and [pool.Exec]: the driver's error as it is. *)
Definition raw_statement {D Y} (q : statement D Y) : method D (result Y) := Execute q (fun r => Return r).
Definition oauthTx {Y} (q : statement SignIn Y) : method SignIn (result Y) := raw_statement q.
Abbreviation method_of A := (method SignIn (result A)) (only parsing).

Section store.
Context `{EthCommon} `{UnicodeTables} `{EthCrypto} `{EthSignatures} `{NetUrl} `{PgTimestamp}.
Implicit Types (db : SignIn) (ck : nat -> Time).

(** * Writes *)
Definition insert_audit (event tenant user client consent : string) (now : Time) db : result SignIn :=
  do! constrained (audit_event event);
  do! referenced (isSome (sg_clients db !! client) && isSome (sg_consents db !! (tenant, user, consent)));
  Ok (set_audit (sg_audit db ++ [MkOAuthAuditRow event tenant user client consent (timestamptz now)]) db).
Definition insert_browser (v : Session) db : result SignIn :=
  let row := MkBrowserRow (bse_CSRFHash v) (bse_Reference v) (bse_TransactionID v) (bse_State v) (bse_Decision v)
               (bse_TenantID v) (bse_UserID v) (bse_Issuer v) (bse_Subject v) (bse_Evidence v)
               (timestamptz (bse_CreatedAt v)) (timestamptz (bse_ExpiresAt v)) None in
  do! constrained (browser_checks (bse_Digest v) row);
  do! unique (bse_Digest v) (fun _ other => bw_reference other == bw_reference row) (sg_browsers db);
  do! referenced (isSome (sg_transactions db !! bw_transaction row));
  do! referenced ((bw_tenant row == "") || isSome (identity_at (bw_tenant row) (bw_user row) db));
  Ok (set_browsers (<[bse_Digest v := row]> (sg_browsers db)) db).
(** [UPDATE oauth_transactions SET completed_at=$2 WHERE transaction_id=$1] *)
Definition complete_transaction (id : string) (t : Time) db : result SignIn :=
  match sg_transactions db !! id with
  | None => Ok db
  | Some r =>
      let! completed := set_marker (tw_completed r) (timestamptz t) in
      Ok (set_transactions (<[id := MkTransactionRow (tw_client r) (tw_redirect r) (tw_resource r) (tw_scope r)
            (tw_challenge r) (tw_state r) (tw_created r) (tw_expires r) completed]> (sg_transactions db)) db)
  end.
Definition with_decision (b : browser_row) (decision : string) : browser_row :=
  MkBrowserRow (bw_csrf b) (bw_reference b) (bw_transaction b) (bw_state b) decision (bw_tenant b) (bw_user b)
    (bw_issuer b) (bw_subject b) (bw_evidence b) (bw_created b) (bw_expires b) (bw_revoked b).
Definition with_revoked (b : browser_row) (t : option Time) : browser_row :=
  MkBrowserRow (bw_csrf b) (bw_reference b) (bw_transaction b) (bw_state b) (bw_decision b) (bw_tenant b) (bw_user b)
    (bw_issuer b) (bw_subject b) (bw_evidence b) (bw_created b) (bw_expires b) t.
Definition decide_browser (digest : string) (b : browser_row) (decision : string) db : result SignIn :=
  do! fail_if ((bw_decision b != "OPEN") && (bw_decision b != decision)) trigger_exception;
  do! constrained (browser_checks digest (with_decision b decision));
  Ok (set_browsers (<[digest := with_decision b decision]> (sg_browsers db)) db).
(** [UPDATE oauth_sessions SET revoked_at=COALESCE(revoked_at,$2) WHERE session_id=$1 AND tenant_id=$3 AND user_id=$4] *)
Definition revoke_session (k : string * string * string) (t : Time) db : SignIn :=
  match sg_sessions db !! k with
  | None => db
  | Some r => set_sessions (<[k := MkOAuthSessionRow (ow_expires r) (coalesce (ow_revoked r) (timestamptz t))]> (sg_sessions db)) db
  end.
(** [revokeBrowser] *)
Definition revokeBrowser (v : Session) (now : Time) db : result SignIn :=
  let! db := match sg_browsers db !! bse_Digest v with
             | None => Ok db
             | Some b =>
                 let! revoked := set_marker (bw_revoked b) (timestamptz now) in
                 Ok (set_browsers (<[bse_Digest v := with_revoked b revoked]> (sg_browsers db)) db)
             end in
  if bse_State v != "AUTHENTICATED" then Ok db
  else Ok (revoke_session (bse_TenantID v, bse_UserID v, bse_Reference v) now db).

(** * Browser sessions (browser_repository.go) *)
Definition scanBrowser (digest : string) (b : browser_row) : Session :=
  MkSession digest (bw_csrf b) (bw_reference b) (bw_transaction b) (bw_state b) (bw_decision b) (bw_tenant b) (bw_user b)
    (bw_issuer b) (bw_subject b) (bw_evidence b) (bw_created b) (bw_expires b) (isSome (bw_revoked b)).
(** [lockBrowser] on the row its column selects. *)
Definition lockBrowser (row : option (string * browser_row)) (now : Time) : result Session :=
  match row with
  | Some (digest, b) =>
      let v := scanBrowser digest b in
      if bse_Revoked v || negb (Before now (bse_ExpiresAt v)) || Before now (bse_CreatedAt v) then Err Browser.ErrDenied
      else Ok v
  | None => Err Browser.ErrDenied
  end.
Definition by_digest (digest : string) db : option (string * browser_row) := (fun b => (digest, b)) <$> sg_browsers db !! digest.
(** The expiry of a transaction that is open for a client that allows it. *)
Definition lockBrowserTransaction (id : string) db : result Time :=
  found (t ← sg_transactions db !! id; c ← sg_clients db !! tw_client t;
         if negb (isSome (tw_completed t)) && client_allows c (tw_redirect t) (tw_resource t) (tw_scope t)
         then Some (tw_expires t) else None) Browser.ErrDenied.

Definition CreateBrowserSession ck (v : Session) : method_of unit :=
  if (bse_State v != "PENDING") || (bse_TenantID v != "") || (bse_UserID v != "") || (bse_Decision v != "OPEN")
  then Return (Err Browser.ErrDenied)
  else oauthTx (fun db =>
    let! expiry := lockBrowserTransaction (bse_TransactionID v) db in
    let now := ck 0%nat in
    do! fail_if (IsZero now) Browser.ErrDenied;
    do! fail_if (negb (Before now expiry) || negb (Before now (bse_ExpiresAt v)) || Before now (bse_CreatedAt v)
                 || After (bse_ExpiresAt v) expiry) Browser.ErrDenied;
    let! db := insert_browser v db in Ok (tt, db)).
Definition FindBrowserSession (digest : string) : method_of Session :=
  raw_statement (select_row (fun db => scanBrowser digest <$> sg_browsers db !! digest)).
Definition RotateBrowserSession ck (digest proof : string) (next : Session) : method_of unit := oauthTx (fun db =>
  let! old := map_err (fun _ => Browser.ErrDenied) (lockBrowser (by_digest digest db) (ck 0%nat)) in
  do! fail_if ((bse_CSRFHash old != proof) || (bse_Decision old != "OPEN") || (bse_TransactionID next != bse_TransactionID old)
               || (bse_State next != "AUTHENTICATED") || (bse_Decision next != "OPEN")
               || (bse_Reference next == bse_Reference old) || (bse_Digest next == bse_Digest old)) Browser.ErrDenied;
  do! fail_if ((bse_State old == "AUTHENTICATED")
               && ((bse_TenantID old != bse_TenantID next) || (bse_UserID old != bse_UserID next)
                   || (bse_Issuer old != bse_Issuer next) || (bse_Subject old != bse_Subject next))) Browser.ErrDenied;
  let! expiry := lockBrowserTransaction (bse_TransactionID old) db in
  let! _ := found (active_identity (bse_TenantID next) (bse_UserID next) (bse_Issuer next) (bse_Subject next) db)
              Browser.ErrDenied in
  let now := ck 1%nat in
  do! fail_if (IsZero now) Browser.ErrDenied;
  do! fail_if (negb (Before now (bse_ExpiresAt old)) || negb (Before now expiry) || negb (Before now (bse_ExpiresAt next))
               || Before now (bse_CreatedAt next)) Browser.ErrDenied;
  let! db := revokeBrowser old now db in
  let! db := insert_browser next db in Ok (tt, db)).
Definition RevokeBrowserSession ck (digest proof : string) : method_of unit := oauthTx (fun db =>
  let! v := map_err (fun _ => Browser.ErrDenied) (lockBrowser (by_digest digest db) (ck 0%nat)) in
  do! fail_if (bse_CSRFHash v != proof) Browser.ErrDenied;
  let now := ck 1%nat in
  do! fail_if (IsZero now) Browser.ErrDenied;
  let! db := revokeBrowser v now db in Ok (tt, db)).
Definition DenyBrowserConsent ck (digest proof : string) : method_of unit := oauthTx (fun db =>
  let! v := map_err (fun _ => Browser.ErrDenied) (lockBrowser (by_digest digest db) (ck 0%nat)) in
  do! fail_if ((bse_CSRFHash v != proof) || (bse_Decision v != "OPEN")) Browser.ErrDenied;
  let! expiry := lockBrowserTransaction (bse_TransactionID v) db in
  let now := ck 1%nat in
  do! fail_if (IsZero now) Browser.ErrDenied;
  do! fail_if (negb (Before now (bse_ExpiresAt v)) || negb (Before now expiry)) Browser.ErrDenied;
  let! db := complete_transaction (bse_TransactionID v) now db in
  match sg_browsers db !! digest with
  | None => Ok (tt, db)
  | Some b => let! db := decide_browser digest b "DENIED" db in Ok (tt, db)
  end).
(** [ck 0] is the statement's [clock_timestamp()]. *)
Definition CleanupBrowserSessions ck : method_of unit := raw_statement (fun db =>
  let challenged (b : browser_row) := existsb (fun '(_, w) => chl_SessionReference (cw_challenge w) == bw_reference b)
                                        (map_to_list (sg_challenges db)) in
  let kept (kv : string * browser_row) : Prop :=
    ~ (bw_state kv.2 = "PENDING" /\ bw_expires kv.2 < ck 0%nat - 24 * Hour /\ challenged kv.2 = false) in
  Ok (tt, set_browsers (filter kept (sg_browsers db)) db)).
End store.

(** internal/storage/postgres/siwe_repository.go: challenges, their one-time
    consumption, and the authority an authenticated session keeps only as long
    as its wallet binding does. *)

Section store.
Context `{EthCommon} `{UnicodeTables} `{EthCrypto} `{EthSignatures} `{PgTimestamp}.
Implicit Types (db : SignIn) (ck : nat -> Time).

Definition siwePending (v : Session) (r : WalletRequest) : bool :=
  (bse_State v == "PENDING") && (bse_Decision v == "OPEN") && negb (bse_Revoked v) && (bse_CSRFHash v == wq_CSRFDigest r).

(** * What is bound to an address *)
Definition on_arc (w : wallet_row) : bool := (wr_chain_id w == "5042") && (wr_network w == "MAINNET").
(** The bindings of a tenant to an address, whatever its case. *)
Definition bindings_of (tenant address : string) db : list (string * wallet_row) :=
  omap (fun '(k, w) => if (k.1 == tenant) && (ToLower (wr_address w) == ToLower address) && on_arc w
                       then Some (k.2, w) else None) (map_to_list (fd_wallets (sg_foundation db))).
(** [hasVerifiedEnrollment] *)
Definition hasVerifiedEnrollment (tenant user binding : string) db : bool :=
  match sg_enrollments db !! (tenant, binding), wallet_at tenant binding db with
  | Some a, Some b =>
      match sg_proofs db !! lw_challenge a with
      | Some p => (lw_user a == user) && (wr_verification_reference b == ("enrollment:" +:+ lw_challenge a))
                  && (wr_version b == (fw_version p + 1))
      | None => false
      end
  | _, _ => false
  end.
(** The staged binding of an external wallet and its owner's identity. *)
Definition staged (tenant address : string) db : option (string * wallet_row * identity_row) :=
  head (omap (fun '(binding, w) =>
          if wr_provider w == ExternalProvider
          then i ← identity_at tenant (wr_user_id w) db; Some (binding, w, i) else None) (bindings_of tenant address db)).

Definition binding_is (w : wallet_row) (status : string) : bool := BindingStatus_string (wr_status w) == status.

(** * Writes *)
Definition insert_challenge (c : Challenge) db : result SignIn :=
  let row := MkChallengeRow (MkChallenge (chl_ID c) (chl_Nonce c) (chl_Message c) (chl_Address c) (chl_SessionReference c)
               (chl_TransactionID c) (chl_ClientID c) (chl_TenantID c) (chl_Purpose c) (timestamptz (chl_IssuedAt c))
               (timestamptz (chl_ExpiresAt c))) None in
  do! constrained (challenge_checks row);
  do! unique (chl_ID c) (fun _ other => chl_Nonce (cw_challenge other) == chl_Nonce c) (sg_challenges db);
  do! referenced (isSome (tenant_status (chl_TenantID c) db) && isSome (sg_clients db !! chl_ClientID c)
                  && match browser_by_reference (chl_SessionReference c) db with
                     | Some (_, b) => bw_transaction b == chl_TransactionID c
                     | None => false
                     end);
  Ok (set_challenges (<[chl_ID c := row]> (sg_challenges db)) db).
(** [UPDATE siwe_challenges SET consumed_at=$2 WHERE challenge_id=$1] *)
Definition consume_challenge (id : string) (now : Time) db : result SignIn :=
  match sg_challenges db !! id with
  | None => Ok db
  | Some w =>
      let! consumed := set_marker (cw_consumed w) (timestamptz now) in
      let w := MkChallengeRow (cw_challenge w) consumed in
      do! constrained (challenge_checks w);
      Ok (set_challenges (<[id := w]> (sg_challenges db)) db)
  end.
(** The trigger [enforce_enrollment_proof_boundary]. *)
Definition proof_boundary (id : string) (p : proof_row) db : bool :=
  match sg_challenges db !! id, wallet_at (fw_tenant p) (fw_binding p) db with
  | Some w, Some b =>
      let c := cw_challenge w in
      (ToLower (wr_address b) == ToLower (chl_Address c)) && (chl_Purpose c == "ENROLL")
      && (cw_consumed w == Some (fw_verified p)) && (fw_tenant p == chl_TenantID c) && (fw_user p == wr_user_id b)
      && (fw_version p == wr_version b) && binding_is b "PENDING" && (wr_provider b == ExternalProvider) && on_arc b
      && (fw_digest p == sha256_hex (chl_Message c))
  | _, _ => false
  end.
(** [wallet_binding_versions(tenant_id,binding_id,version,user_id)] *)
Definition bound_version (tenant binding : string) (version : Z) (user : string) db : bool :=
  match fd_versions (sg_foundation db) !! (tenant, binding, version) with Some w => wr_user_id w == user | None => false end.
Definition insert_proof (id : string) (p : proof_row) db : result SignIn :=
  do! fail_if (negb (proof_boundary id p db)) (PgError "42501");
  do! unique id (fun _ _ => false) (sg_proofs db);
  do! referenced (bound_version (fw_tenant p) (fw_binding p) (fw_version p) (fw_user p) db);
  Ok (set_proofs (<[id := p]> (sg_proofs db)) db).
Definition insert_authentication (reference : string) (a : authentication_row) db : result SignIn :=
  do! unique reference (fun _ other => nw_challenge other == nw_challenge a) (sg_authentications db);
  do! referenced (isSome (sg_challenges db !! nw_challenge a) && isSome (identity_at (nw_tenant a) (nw_user a) db)
                  && match browser_by_reference reference db with
                     | Some (_, b) => (bw_tenant b == nw_tenant a) && (bw_user b == nw_user a)
                     | None => false
                     end
                  && bound_version (nw_tenant a) (nw_binding a) (nw_version a) (nw_user a) db);
  Ok (set_authentications (<[reference := a]> (sg_authentications db)) db).

(** * Issuing a challenge *)
Definition client_of (transaction : string) db : result string :=
  found (tw_client <$> sg_transactions db !! transaction) ErrNoRows.
(** [entropy n] is the n-th answer of [rand.Read]. *)
Definition IssueSIWE ck (entropy : nat -> result string) (r : WalletRequest) : method_of Challenge := oauthTx (fun db =>
  let! v := map_err (fun _ => Siwe.ErrDenied) (lockBrowser (by_digest (wq_SessionDigest r) db) (ck 0%nat)) in
  do! fail_if (negb (siwePending v r)) Siwe.ErrDenied;
  let! expiry := map_err (fun _ => Siwe.ErrDenied) (lockBrowserTransaction (bse_TransactionID v) db) in
  let! tenantStatus := found (tenant_status (wq_TenantID r) db) Siwe.ErrEnrollmentRequired in
  do! fail_if (tenantStatus == "REVOKED") Siwe.ErrAccountRevoked;
  let! bound := found (staged (wq_TenantID r) (wq_Address r) db) Siwe.ErrEnrollmentRequired in
  let '(bindingID, w, i) := bound in
  do! fail_if (binding_is w "REVOKED" || has_status i "REVOKED") Siwe.ErrAccountRevoked;
  do! fail_if ((negb (binding_is w "PENDING") && negb (binding_is w "ACTIVE"))
               || (negb (has_status i "UNKNOWN") && negb (has_status i "ACTIVE"))) Siwe.ErrEnrollmentRequired;
  do! fail_if (binding_is w "ACTIVE" && ((tenantStatus != "ACTIVE") || negb (has_status i "ACTIVE"))) Siwe.ErrEnrollmentRequired;
  do! fail_if (binding_is w "ACTIVE" && wq_RequireEnrollment r
               && negb (hasVerifiedEnrollment (wq_TenantID r) (wr_user_id w) bindingID db)) Siwe.ErrEnrollmentRequired;
  let count := length (filter (fun kv : string * challenge_row => chl_SessionReference (cw_challenge kv.2) = bse_Reference v)
                         (map_to_list (sg_challenges db))) in
  do! fail_if (3 <=? Z.of_nat count) Siwe.ErrDenied;
  let now := ck 1%nat in
  do! fail_if (negb (Before now (bse_ExpiresAt v)) || negb (Before now expiry)) Siwe.ErrDenied;
  let purpose := if binding_is w "PENDING" then "ENROLL" else "AUTHENTICATE" in
  let until := Add now ChallengeLifetime in
  let until := if Before expiry until then expiry else until in
  let until := if Before (bse_ExpiresAt v) until then bse_ExpiresAt v else until in
  let! id := siwe_Random (entropy 0%nat) in
  let! nonce := siwe_Random (entropy 1%nat) in
  let c := MkChallenge id nonce "" (wq_Address r) (bse_Reference v) (bse_TransactionID v) "" (wq_TenantID r) purpose now until in
  let! message := Message c in
  let! client := client_of (bse_TransactionID v) db in
  let c := MkChallenge id nonce message (wq_Address r) (bse_Reference v) (bse_TransactionID v) client (wq_TenantID r)
             purpose now until in
  let! db := insert_challenge c db in
  Ok (c, db)).

(** * Finalizing a sign-in *)
(** [provider='EXTERNAL_EVM' AND revoked_at IS NULL AND (...)], at [clock]. *)
Definition eligible (w : wallet_row) (purpose : string) (clock : Time) : bool :=
  (wr_provider w == ExternalProvider) && negb (isSome (wr_revoked_at w))
  && ((binding_is w "ACTIVE" && match wr_verified_at w with Some t => t <=? clock | None => false end
       && (wr_verification_reference w != ""))
      || ((purpose == "ENROLL") && binding_is w "PENDING")).
(** Still within the challenge, the session and the transaction. *)
Definition in_time (c : Challenge) (v : Session) (expiry now : Time) : bool :=
  ValidTime c now && Before now (bse_ExpiresAt v) && Before now expiry.

(** The single binding of the challenge's address, its owner's identity and the
    tenant, as eligible as the challenge's purpose asks. *)
Definition sign_in_owner (tenant : string) (c : Challenge) (clock : Time) db : result (string * wallet_row * identity_row) :=
  match bindings_of tenant (chl_Address c) db with
  | [(binding, w)] =>
      let! i := found (i ← identity_at tenant (wr_user_id w) db;
                       if has_status i "ACTIVE" || ((chl_Purpose c == "ENROLL") && has_status i "UNKNOWN")
                       then Some i else None) Siwe.ErrDenied in
      let! _ := found (st ← tenant_status tenant db;
                       if (st == "ACTIVE") || ((chl_Purpose c == "ENROLL") && (st == "INACTIVE"))
                       then Some tt else None) Siwe.ErrDenied in
      do! fail_if (negb (eligible w (chl_Purpose c) clock)) Siwe.ErrDenied;
      Ok (binding, w, i)
  | _ => Err Siwe.ErrDenied
  end.

(** The transaction answers whether it recorded an enrollment. *)
Definition FinalizeSIWE_tx ck (r : WalletRequest) (id signature : string) (next : Rotation) : statement SignIn bool := fun db =>
  let! v := map_err (fun _ => Siwe.ErrDenied) (lockBrowser (by_digest (wq_SessionDigest r) db) (ck 0%nat)) in
  do! fail_if (negb (siwePending v r)) Siwe.ErrDenied;
  let! c := found (w ← sg_challenges db !! id; if isSome (cw_consumed w) then None else Some (cw_challenge w)) Siwe.ErrDenied in
  do! fail_if ((chl_SessionReference c != bse_Reference v) || (chl_TransactionID c != bse_TransactionID v)
               || (chl_TenantID c != wq_TenantID r)) Siwe.ErrDenied;
  let! expiry := map_err (fun _ => Siwe.ErrDenied) (lockBrowserTransaction (bse_TransactionID v) db) in
  let! client := map_err (fun _ => Siwe.ErrDenied) (client_of (bse_TransactionID v) db) in
  do! fail_if (client != chl_ClientID c) Siwe.ErrDenied;
  let! owner := sign_in_owner (wq_TenantID r) c (ck 1%nat) db in
  let '(binding, w, i) := owner in
  let user := wr_user_id w in
  do! fail_if (negb (in_time c v expiry (ck 2%nat))) Siwe.ErrDenied;
  let! expected := map_err (fun _ => Siwe.ErrDenied) (Message c) in
  do! fail_if (expected != chl_Message c) Siwe.ErrDenied;
  do! fail_if ((chl_Purpose c == "AUTHENTICATE") && wq_RequireEnrollment r
               && negb (hasVerifiedEnrollment (wq_TenantID r) user binding db)) Siwe.ErrDenied;
  do! Verify (chl_Message c) (chl_Address c) signature;
  let now := ck 3%nat in
  do! fail_if (negb (in_time c v expiry now)) Siwe.ErrDenied;
  do! fail_if ((rot_Digest next == bse_Digest v) || (rot_Reference next == bse_Reference v) || (rot_Digest next == "")
               || (rot_CSRFHash next == "") || (rot_Reference next == "")) Siwe.ErrDenied;
  let! db := consume_challenge id now db in
  if chl_Purpose c == "ENROLL" then
    let! db := insert_proof (chl_ID c) (MkProofRow (wq_TenantID r) user binding (wr_version w) (timestamptz now)
                                          (sha256_hex (chl_Message c))) db in
    Ok (true, db)
  else
    let! db := revokeBrowser v now db in
    let! db := insert_browser (MkSession (rot_Digest next) (rot_CSRFHash next) (rot_Reference next) (bse_TransactionID v)
                 "AUTHENTICATED" "OPEN" (wq_TenantID r) user (ir_provider i) (ir_provider_subject i) ("siwe:" +:+ id) now
                 (Add now Browser.SessionLifetime) false) db in
    let! db := insert_authentication (rot_Reference next)
                 (MkAuthenticationRow id (wq_TenantID r) user binding (wr_version w) (timestamptz now)) db in
    Ok (false, db).
Definition FinalizeSIWE ck (r : WalletRequest) (id signature : string) (next : Rotation) : method_of unit :=
  mtry (oauthTx (FinalizeSIWE_tx ck r id signature next)) (fun enrollment =>
    Return (if enrollment then Err Siwe.ErrEnrollmentPending else Ok tt)).

(** * What stays of a sign-in *)
(** The binding an authentication used is still that binding. *)
Definition binding_holds (a : authentication_row) db : bool :=
  match tenant_status (nw_tenant a) db, wallet_at (nw_tenant a) (nw_binding a) db with
  | Some status, Some b =>
      (status == "ACTIVE") && binding_is b "ACTIVE" && (wr_provider b == ExternalProvider) && on_arc b
      && negb (isSome (wr_revoked_at b)) && isSome (wr_verified_at b) && (wr_verification_reference b != "")
      && (wr_version b == nw_version a) && (wr_user_id b == nw_user a)
  | _, _ => false
  end.
Definition checkSIWESession (reference tenant user : string) db : result unit :=
  match sg_authentications db !! reference with
  | None => Ok tt
  | Some a => fail_if (negb ((nw_tenant a == tenant) && (nw_user a == user) && binding_holds a db)) Siwe.ErrDenied
  end.

(** The challenge behind an open authenticated session. *)
Definition FindBrowserAuthentication ck (expected : Session) : method_of string := oauthTx (fun db =>
  let! v := map_err (fun _ => Siwe.ErrDenied) (lockBrowser (by_digest (bse_Digest expected) db) (ck 0%nat)) in
  do! fail_if (bse_Revoked v || (bse_State v != "AUTHENTICATED") || (bse_Decision v != "OPEN")
               || (bse_Reference v != bse_Reference expected) || (bse_TransactionID v != bse_TransactionID expected))
        Siwe.ErrDenied;
  let! expiry := map_err (fun _ => Siwe.ErrDenied) (lockBrowserTransaction (bse_TransactionID v) db) in
  let! _ := found (active_identity (bse_TenantID v) (bse_UserID v) (bse_Issuer v) (bse_Subject v) db) Siwe.ErrDenied in
  do! checkSIWESession (bse_Reference v) (bse_TenantID v) (bse_UserID v) db;
  let! challenge := found (
    a ← sg_authentications db !! bse_Reference v;
    w ← sg_challenges db !! nw_challenge a;
    p ← browser_by_reference (chl_SessionReference (cw_challenge w)) db;
    t ← sg_transactions db !! chl_TransactionID (cw_challenge w);
    let c := cw_challenge w in
    if (nw_tenant a == bse_TenantID v) && (nw_user a == bse_UserID v) && (chl_TransactionID c == bse_TransactionID v)
       && (bw_transaction p.2 == chl_TransactionID c) && (chl_ClientID c == tw_client t) && (chl_TenantID c == nw_tenant a)
       && isSome (cw_consumed w) && (bse_Evidence v == ("siwe:" +:+ nw_challenge a))
    then Some (nw_challenge a) else None) Siwe.ErrDenied in
  let now := ck 1%nat in
  do! fail_if (negb (Before now (bse_ExpiresAt v)) || negb (Before now expiry)) Siwe.ErrDenied;
  Ok (challenge, db)).
End store.

(** internal/storage/postgres/oauth_repository.go and dbsqlc/oauth.sql.go:
    clients, transactions, consent and codes, the redemption of a code for a
    token, token validation and revocation. *)

Section store.
Context `{EthCommon} `{UnicodeTables} `{EthCrypto} `{EthSignatures} `{NetUrl} `{PgTimestamp}.
Implicit Types (db : SignIn) (ck : nat -> Time).

(** * Clients and transactions *)
Definition CreateOAuthClient (c : Client) : statement SignIn unit := fun db =>
  do! constrained (client_checks c);
  do! unique (cli_ID c) (fun _ _ => false) (sg_clients db);
  Ok (tt, set_clients (<[cli_ID c := c]> (sg_clients db)) db).
Definition RegisterOAuthClient (c : Client) : method_of unit :=
  if negb (is_ok (Client_Validate c)) then Return (Err OAuth.ErrDenied) else raw_statement (CreateOAuthClient c).
Definition FindOAuthClient (id : string) : method_of Client := raw_statement (select_row (fun db => sg_clients db !! id)).

Definition CreateOAuthTransaction (t : Transaction) : method_of unit := raw_statement (fun db =>
  let r := trx_Request t in
  let row := MkTransactionRow (azr_ClientID r) (azr_RedirectURI r) (azr_Resource r) (azr_Scope r) (azr_Challenge r)
               (azr_State r) (timestamptz (trx_CreatedAt t)) (timestamptz (trx_ExpiresAt t)) None in
  do! constrained (transaction_checks row);
  do! unique (trx_ID t) (fun _ _ => false) (sg_transactions db);
  do! referenced (isSome (sg_clients db !! tw_client row));
  Ok (tt, set_transactions (<[trx_ID t := row]> (sg_transactions db)) db)).
Definition transactionFromRow (id : string) (t : transaction_row) : Transaction :=
  MkTransaction id (MkAuthorizationRequest (tw_client t) (tw_redirect t) (tw_resource t) (tw_scope t) "code"
                      (tw_challenge t) "S256" (tw_state t)) (tw_created t) (tw_expires t).
Definition FindOAuthTransaction (id : string) : method_of Transaction := raw_statement (select_row (fun db =>
  t ← sg_transactions db !! id; if isSome (tw_completed t) then None else Some (transactionFromRow id t))).

(** * Writes *)
(** [INSERT INTO oauth_sessions ... ON CONFLICT DO NOTHING] *)
Definition ensure_session (k : string * string * string) (expires : Time) db : result SignIn :=
  match sg_sessions db !! k with
  | Some _ => Ok db
  | None =>
      do! referenced (isSome (identity_at k.1.1 k.1.2 db));
      Ok (set_sessions (<[k := MkOAuthSessionRow (timestamptz expires) None]> (sg_sessions db)) db)
  end.
Definition insert_consent (k : string * string * string) (u : consent_row) db : result SignIn :=
  do! constrained (consent_checks u);
  do! unique k (fun _ _ => false) (sg_consents db);
  do! referenced (isSome (sg_clients db !! uw_client u) && isSome (sg_sessions db !! (k.1, uw_session u)));
  Ok (set_consents (<[k := u]> (sg_consents db)) db).
(** The foreign keys of a code or token to the consent it comes from. *)
Definition of_consent (u : consent_row) (client resource scope session : string) : bool :=
  (uw_client u == client) && (uw_resource u == resource) && (uw_scope u == scope) && (uw_session u == session).
Definition insert_code (digest : string) (k : code_row) db : result SignIn :=
  do! constrained (code_checks digest k);
  do! unique digest (fun _ other => kw_transaction other == kw_transaction k) (sg_codes db);
  do! referenced (match sg_consents db !! (kw_tenant k, kw_user k, kw_consent k) with
                  | Some u => of_consent u (kw_client k) (kw_resource k) (kw_scope k) (kw_session k)
                  | None => false
                  end
                  && match sg_transactions db !! kw_transaction k with
                     | Some t => (tw_client t == kw_client k) && (tw_redirect t == kw_redirect k)
                                 && (tw_resource t == kw_resource k) && (tw_scope t == kw_scope k)
                                 && (tw_challenge t == kw_challenge k)
                     | None => false
                     end);
  Ok (set_codes (<[digest := k]> (sg_codes db)) db).
Definition insert_token (t : Token) db : result SignIn :=
  do! constrained (token_checks t);
  do! unique (tok_Digest t) (fun _ _ => false) (sg_tokens db);
  do! referenced (match sg_consents db !! (tok_TenantID t, tok_UserID t, tok_ConsentID t) with
                  | Some u => of_consent u (tok_ClientID t) (tok_Resource t) (tok_Scope t) (tok_SessionID t)
                              && (uw_issuer u == tok_IdentityIssuer t) && (uw_subject u == tok_Subject t)
                  | None => false
                  end);
  Ok (set_tokens (<[tok_Digest t := MkTokenRow t None]> (sg_tokens db)) db).
(** [UPDATE oauth_codes SET consumed_at=$2 WHERE code_digest=$1] *)
Definition consume_code (digest : string) (now : Time) db : result SignIn :=
  match sg_codes db !! digest with
  | None => Ok db
  | Some k =>
      let! consumed := set_marker (kw_consumed k) (timestamptz now) in
      Ok (set_codes (<[digest := MkCodeRow (kw_transaction k) (kw_tenant k) (kw_user k) (kw_consent k) (kw_session k)
            (kw_client k) (kw_redirect k) (kw_resource k) (kw_scope k) (kw_challenge k) (kw_issued k) (kw_expires k)
            consumed]> (sg_codes db)) db)
  end.

(** * Consent *)
(** The browser session of a decision, when it has one. *)
Definition decided_session ck (t : Transaction) (d : BrowserDecision) (k : Code) db : result (option Session) :=
  if bdc_BrowserSessionReference d == "" then Ok None
  else
    let! bs := map_err (fun _ => OAuth.ErrDenied)
                 (lockBrowser (browser_by_reference (bdc_BrowserSessionReference d) db) (ck 0%nat)) in
    do! fail_if ((bse_State bs != "AUTHENTICATED") || (bse_Decision bs != "OPEN") || (bse_TransactionID bs != trx_ID t)
                 || (bse_Reference bs != cod_SessionID k) || (bse_TenantID bs != cod_TenantID k)
                 || (bse_UserID bs != cod_UserID k) || (bse_Issuer bs != prn_identityProvider (bdc_Principal d))
                 || (bse_Subject bs != prn_providerSubject (bdc_Principal d))) OAuth.ErrDenied;
    Ok (Some bs).
(** The persisted transaction, open for its client, unexpired when the code was
    issued. *)
Definition open_transaction (id : string) (issued : Time) db : option transaction_row :=
  t ← sg_transactions db !! id;
  c ← sg_clients db !! tw_client t;
  if negb (isSome (tw_completed t)) && (timestamptz issued <? tw_expires t) && public_client c
     && client_allows c (tw_redirect t) (tw_resource t) (tw_scope t)
  then Some t else None.

Definition CompleteOAuthAuthorization ck (t : Transaction) (d : BrowserDecision) (k : Code) : method_of unit := oauthTx (fun db =>
  let p := bdc_Principal d in
  let r := trx_Request t in
  let! bs := decided_session ck t d k db in
  let! row := found (open_transaction (trx_ID t) (cod_IssuedAt k) db) OAuth.ErrDenied in
  do! fail_if ((tw_client row != azr_ClientID r) || (tw_redirect row != azr_RedirectURI r) || (tw_resource row != azr_Resource r)
               || (tw_scope row != azr_Scope r) || (tw_challenge row != azr_Challenge r) || (tw_state row != azr_State r)
               || (cod_TransactionID k != trx_ID t) || (cod_TenantID k != prn_tenantID p) || (cod_UserID k != prn_actorID p))
        OAuth.ErrDenied;
  let! _ := found (active_identity (cod_TenantID k) (cod_UserID k) (prn_identityProvider p) (prn_providerSubject p) db)
              OAuth.ErrDenied in
  do! checkSIWESession (cod_SessionID k) (cod_TenantID k) (cod_UserID k) db;
  let session := (cod_TenantID k, cod_UserID k, cod_SessionID k) in
  let! db := ensure_session session (bdc_SessionExpiresAt d) db in
  let! s := found (s ← sg_sessions db !! session;
                   if negb (isSome (ow_revoked s)) && (timestamptz (cod_IssuedAt k) <? ow_expires s) then Some s else None)
              OAuth.ErrDenied in
  do! match bs with
      | None => Ok tt
      | Some bs =>
          let now := ck 1%nat in
          do! fail_if (IsZero now) OAuth.ErrDenied;
          fail_if (negb (Before now (bse_ExpiresAt bs)) || negb (Before now (tw_expires row))
                   || negb (Before now (ow_expires s)) || negb (Before now (cod_ExpiresAt k))
                   || negb (Before now (prn_expiresAt p))) OAuth.ErrDenied
      end;
  let consentExpires := minTime (bdc_SessionExpiresAt d) [ow_expires s; prn_expiresAt p] in
  let! db := insert_consent (cod_TenantID k, cod_UserID k, cod_ConsentID k)
               (MkConsentRow (tw_client row) (tw_resource row) (tw_scope row) (cod_SessionID k) (prn_identityProvider p)
                  (prn_providerSubject p) (timestamptz (cod_IssuedAt k)) (timestamptz consentExpires) None) db in
  let! db := insert_code (cod_Digest k)
               (MkCodeRow (trx_ID t) (cod_TenantID k) (cod_UserID k) (cod_ConsentID k) (cod_SessionID k) (tw_client row)
                  (tw_redirect row) (tw_resource row) (tw_scope row) (tw_challenge row) (timestamptz (cod_IssuedAt k))
                  (timestamptz (cod_ExpiresAt k)) None) db in
  let! db := complete_transaction (trx_ID t) (cod_IssuedAt k) db in
  let! db := match browser_by_reference (bdc_BrowserSessionReference d) db, bs with
             | Some (digest, b), Some _ => decide_browser digest b "GRANTED" db
             | _, _ => Ok db
             end in
  let! db := insert_audit "AUTHORIZED" (cod_TenantID k) (cod_UserID k) (tw_client row) (cod_ConsentID k) (cod_IssuedAt k) db in
  Ok (tt, db)).

(** * Redemption *)
(** An unspent code with the authority it was issued under, still in force. *)
Definition redeemable (digest : string) db : option (code_row * consent_row * oauth_session_row) :=
  k ← sg_codes db !! digest;
  c ← sg_clients db !! kw_client k;
  u ← sg_consents db !! (kw_tenant k, kw_user k, kw_consent k);
  s ← sg_sessions db !! (kw_tenant k, kw_user k, kw_session k);
  i ← active_identity (kw_tenant k) (kw_user k) (uw_issuer u) (uw_subject u) db;
  if of_consent u (kw_client k) (kw_resource k) (kw_scope k) (kw_session k) && negb (isSome (kw_consumed k))
     && public_client c && client_allows c (kw_redirect k) (kw_resource k) (kw_scope k) && negb (isSome (uw_revoked u))
     && negb (bool_decide ((kw_tenant k, kw_user k, kw_consent k) ∈ sg_restricted db)) && negb (isSome (ow_revoked s))
  then Some (k, u, s) else None.

Definition RedeemOAuthCode ck (r : Redemption) : method_of Token := oauthTx (fun db =>
  let! granted := found (redeemable (rdm_CodeDigest r) db) OAuth.ErrDenied in
  let '(k, u, s) := granted in
  do! fail_if ((kw_challenge k != rdm_Challenge r) || (kw_redirect k != rdm_RedirectURI r) || (kw_client k != rdm_ClientID r)
               || (kw_resource k != rdm_Resource r) || (kw_scope k != OAuth.ReadScope)) OAuth.ErrDenied;
  do! checkSIWESession (kw_session k) (kw_tenant k) (kw_user k) db;
  let now := ck 0%nat in
  do! fail_if (IsZero now) OAuth.ErrDenied;
  do! fail_if (Before now (kw_issued k) || Before now (uw_created u) || negb (Before now (kw_expires k))
               || negb (Before now (uw_expires u)) || negb (Before now (ow_expires s))) OAuth.ErrDenied;
  let out := MkToken (rdm_TokenDigest r) OAuth.Issuer (kw_resource k) (kw_client k) (kw_tenant k) (kw_user k) (uw_issuer u)
               (uw_subject u) (kw_scope k) (kw_consent k) (kw_session k) now
               (minTime (Add now OAuth.TokenLifetime) [uw_expires u; ow_expires s]) in
  let! db := consume_code (rdm_CodeDigest r) now db in
  let! db := insert_token (MkToken (tok_Digest out) (tok_Issuer out) (tok_Resource out) (tok_ClientID out) (tok_TenantID out)
               (tok_UserID out) (tok_IdentityIssuer out) (tok_Subject out) (tok_Scope out) (tok_ConsentID out)
               (tok_SessionID out) (timestamptz now) (timestamptz (tok_ExpiresAt out))) db in
  let! db := insert_audit "TOKEN_ISSUED" (kw_tenant k) (kw_user k) (kw_client k) (kw_consent k) now db in
  Ok (out, db)).

(** * Validation *)
(** [ValidateOAuthAccessToken]; its single time argument is compared with every
    instant. *)
Definition valid_token (digest : string) (now : Time) db : option Token :=
  row ← sg_tokens db !! digest;
  let a := ow_token row in
  c ← sg_clients db !! tok_ClientID a;
  u ← sg_consents db !! (tok_TenantID a, tok_UserID a, tok_ConsentID a);
  s ← sg_sessions db !! (tok_TenantID a, tok_UserID a, tok_SessionID a);
  i ← active_identity (tok_TenantID a) (tok_UserID a) (tok_IdentityIssuer a) (tok_Subject a) db;
  let at_ := timestamptz now in
  if of_consent u (tok_ClientID a) (tok_Resource a) (tok_Scope a) (tok_SessionID a) && (tok_Issuer a == OAuth.Issuer)
     && (tok_Resource a == OAuth.Resource) && negb (isSome (ow_token_revoked row)) && (tok_IssuedAt a <=? at_)
     && (at_ <? tok_ExpiresAt a) && (cli_Status c == "ACTIVE") && public_client c
     && bool_decide (tok_Scope a ∈ cli_Scopes c) && bool_decide (tok_Resource a ∈ cli_Resources c)
     && negb (isSome (uw_revoked u)) && (uw_created u <=? at_) && (at_ <? uw_expires u)
     && negb (bool_decide ((tok_TenantID a, tok_UserID a, tok_ConsentID a) ∈ sg_restricted db))
     && negb (isSome (ow_revoked s)) && (at_ <? ow_expires s)
  then Some a else None.
(** The second query: the wallet the session was signed in with no longer
    stands for the user. *)
Definition wallet_withdrawn (reference tenant user : string) db : bool :=
  match sg_authentications db !! reference with
  | None => false
  | Some a =>
      (nw_tenant a != tenant) || (nw_user a != user) || (tenant_status (nw_tenant a) db != Some "ACTIVE")
      || match wallet_at (nw_tenant a) (nw_binding a) db with
         | None => true
         | Some w => negb (binding_is w "ACTIVE") || (wr_version w != nw_version a) || (wr_user_id w != nw_user a)
                     || isSome (wr_revoked_at w) || negb (isSome (wr_verified_at w)) || (wr_verification_reference w == "")
         end
  end.
Definition ValidateOAuthToken (digest : string) (now : Time) : method_of Token :=
  sql! t := raw_statement (select_row (valid_token digest now)) in
  sql! withdrawn := raw_statement (fun db => Ok (wallet_withdrawn (tok_SessionID t) (tok_TenantID t) (tok_UserID t) db, db)) in
  Return (if withdrawn then Err OAuth.ErrDenied else Ok t).

(** * Revocation *)
Definition revoked_consent (k : string * string * string) (now : Time) db : result (consent_row * SignIn) :=
  let! u := found (sg_consents db !! k) OAuth.ErrDenied in
  let u' := MkConsentRow (uw_client u) (uw_resource u) (uw_scope u) (uw_session u) (uw_issuer u) (uw_subject u)
              (uw_created u) (uw_expires u) (coalesce (uw_revoked u) (timestamptz now)) in
  Ok (u', set_consents (<[k := u']> (sg_consents db)) db).
Definition revoked_token (tenant user digest : string) (now : Time) db : result (Token * SignIn) :=
  let! row := found (sg_tokens db !! digest) OAuth.ErrDenied in
  let t := ow_token row in
  do! fail_if ((tok_TenantID t != tenant) || (tok_UserID t != user)) OAuth.ErrDenied;
  Ok (t, set_tokens (<[digest := MkTokenRow t (coalesce (ow_token_revoked row) (timestamptz now))]> (sg_tokens db)) db).
(** [INSERT INTO oauth_audit ... SELECT ... FROM oauth_consents WHERE session_id=$3] *)
Definition audit_session (tenant user session : string) (now : Time) db : SignIn :=
  set_audit (sg_audit db ++ omap (fun '(k, u) =>
    if (k.1.1 == tenant) && (k.1.2 == user) && (uw_session u == session)
    then Some (MkOAuthAuditRow "SESSION_REVOKED" tenant user (uw_client u) k.2 (timestamptz now)) else None)
    (map_to_list (sg_consents db))) db.

Definition RevokeOAuthAuthority ck (r : Revocation) : method_of unit :=
  if (rvk_TenantID r == "") || (rvk_UserID r == "") || (rvk_ID r == "")
     || negb (bool_decide (rvk_Kind r ∈ ["consent"; "session"; "token"])) then Return (Err OAuth.ErrDenied)
  else oauthTx (fun db =>
    let tenant := rvk_TenantID r in
    let user := rvk_UserID r in
    let now := ck 0%nat in
    do! fail_if (IsZero now) OAuth.ErrDenied;
    if rvk_Kind r == "consent" then
      let! done := revoked_consent (tenant, user, rvk_ID r) now db in
      let! db := insert_audit "CONSENT_REVOKED" tenant user (uw_client done.1) (rvk_ID r) now done.2 in Ok (tt, db)
    else if rvk_Kind r == "token" then
      let! done := revoked_token tenant user (rvk_ID r) now db in
      let! db := insert_audit "TOKEN_REVOKED" tenant user (tok_ClientID done.1) (tok_ConsentID done.1) now done.2 in Ok (tt, db)
    else
      let k := (tenant, user, rvk_ID r) in
      do! fail_if (negb (isSome (sg_sessions db !! k))) OAuth.ErrDenied;
      Ok (tt, audit_session tenant user (rvk_ID r) now (revoke_session k now db))).
End store.
