(* ===== verification/SignInService.v ===== *)
(** internal/oauth/service.go: authorization requests, their completion by a
    browser decision, the exchange of codes, the verification and revocation of
    tokens, over the repository as an interface; then internal/browser and the
    service of internal/siwe, from a session's start to consent.

    [now n] is the service clock's n-th reading in a call and [entropy n] the
    n-th answer of [rand.Read]. *)
From S2P Require Import Prelude GoStrings GoText GoTime GoBase64 AppErrors Auth Statements OAuthModel.
Open Scope string_scope.
Open Scope Z_scope.
Open Scope go_scope.

(** [oauth.Repository] *)
Class OAuthRepository (E : Type) := {
  or_FindClient : string -> method E (result Client);
  or_CreateTransaction : Transaction -> method E (result unit);
  or_FindTransaction : string -> method E (result Transaction);
  or_CompleteAuthorization : Transaction -> BrowserDecision -> Code -> method E (result unit);
  or_RedeemCode : Redemption -> method E (result Token);
  or_ValidateToken : string -> Time -> method E (result Token);
  or_RevokeAuthority : Revocation -> method E (result unit)
}.
(** [BrowserAuthorizer] and [RevocationAuthorizer]; a nil port is [None]. *)
Abbreviation BrowserAuthorizer E := (Transaction -> method E (result BrowserDecision)) (only parsing).
Abbreviation RevocationAuthorizer E := (Revocation -> method E (result BrowserDecision)) (only parsing).

(** The error component replaced. *)
Definition or_error {E A} (e : error) (m : method E (result A)) : method E (result A) :=
  mbind m (fun r => Return (map_err (fun _ => e) r)).

Definition validChallenge : string -> bool := canonical_32.

Section service.
Context `{UnicodeTables} `{NetUrl} {E : Type} `{OAuthRepository E}.
Variables (now : nat -> Time) (entropy : nat -> result string).

Definition request_ok (r : AuthorizationRequest) : bool :=
  (azr_ResponseType r == "code") && (azr_Resource r == OAuth.Resource) && (azr_Scope r == OAuth.ReadScope)
  && (azr_ChallengeMethod r == "S256") && validChallenge (azr_Challenge r) && (len (azr_State r) <=? 512)
  && negb (existsb (fun b => (b =? 13) || (b =? 10) || (b =? 0)) (bytes (azr_State r))).

Definition Begin (r : AuthorizationRequest) : method E (result Transaction) :=
  act! plain_code (fail_if (negb (request_ok r)) OAuth.ErrDenied);
  sql! c := or_error OAuth.ErrDenied (or_FindClient (azr_ClientID r)) in
  act! plain_code (fail_if (negb (is_ok (Client_Validate c)) || negb (bool_decide (azr_RedirectURI r ∈ cli_RedirectURIs c)))
                     OAuth.ErrDenied);
  sql! id := plain_code (random "tx_" (entropy 0%nat)) in
  let now := UTC (now 0%nat) in
  act! plain_code (fail_if (IsZero now) OAuth.ErrDenied);
  let t := MkTransaction id r now (Add now OAuth.TransactionLifetime) in
  act! or_CreateTransaction t;
  Return (Ok t).

(** What the service demands of a decision. *)
Definition decision_ok (t : Transaction) (d : BrowserDecision) (now : Time) : bool :=
  let p := bdc_Principal d in
  is_ok (Principal_Validate p) && After (prn_expiresAt p) now && negb (After (prn_issuedAt p) now)
  && negb (After (prn_notBefore p) now) && (bdc_SessionID d != "") && (len (bdc_SessionID d) <=? 128)
  && After (bdc_SessionExpiresAt d) now && (bdc_TransactionID d == trx_ID t) && (bdc_ClientID d == azr_ClientID (trx_Request t))
  && (bdc_Resource d == OAuth.Resource) && (bdc_Scope d == azr_Scope (trx_Request t)).

Definition Complete (id : string) (browser : option (BrowserAuthorizer E)) : method E (result string) :=
  match browser with
  | None => Return (Err OAuth.ErrBrowserUnavailable)
  | Some authorize =>
      sql! t := or_error OAuth.ErrDenied (or_FindTransaction id) in
      act! plain_code (fail_if (negb (Before (now 0%nat) (trx_ExpiresAt t))) OAuth.ErrDenied);
      sql! d := or_error OAuth.ErrDenied (authorize t) in
      let p := bdc_Principal d in
      let now := UTC (now 1%nat) in
      act! plain_code (fail_if (negb (decision_ok t d now)) OAuth.ErrDenied);
      sql! raw := plain_code (random "wmcp_ac_" (entropy 0%nat)) in
      sql! consent := plain_code (random "consent_" (entropy 1%nat)) in
      let code := MkCode (Digest raw) id consent (bdc_SessionID d) (prn_tenantID p) (prn_actorID p) now
                    (minTime (Add now OAuth.CodeLifetime) [trx_ExpiresAt t; bdc_SessionExpiresAt d; prn_expiresAt p]) in
      act! or_CompleteAuthorization t d code;
      Return (Ok raw)
  end.

(** [Values.Set] *)
Definition Values_Set (q : gmap string (list string)) (k v : string) : gmap string (list string) := <[k := [v]]> q.
Definition redirect_query (q : gmap string (list string)) (code state : string) : gmap string (list string) :=
  let q := Values_Set (Values_Set q "code" code) "iss" OAuth.Issuer in
  if state != "" then Values_Set q "state" state else q.
Definition CompleteRedirect (id : string) (browser : option (BrowserAuthorizer E)) : method E (result string) :=
  sql! t := or_error OAuth.ErrDenied (or_FindTransaction id) in
  sql! code := Complete id browser in
  Return (let! u := map_err (fun _ => OAuth.ErrDenied) (url_Parse (azr_RedirectURI (trx_Request t))) in
          let query := Values_Encode (redirect_query (URL_Query u) code (azr_State (trx_Request t))) in
          Ok (URL_String (MkURL (url_Scheme u) (url_Opaque u) (url_has_User u) (url_Host u) (url_Fragment u)
                            (url_RawFragment u) query (url_raw u)))).

(** * Tokens *)
Definition exchange_ok (x : Exchange) : bool :=
  (xch_GrantType x == "authorization_code") && (xch_Resource x == OAuth.Resource) && HasPrefix (xch_Code x) "wmcp_ac_"
  && (len (xch_Code x) =? 51) && verifierSyntax (xch_Verifier x) && validRedirect (xch_RedirectURI x).
(** The method [Exchange]; whole seconds, towards zero, are left. *)
Definition Exchange_ (x : Exchange) : method E (result TokenResponse) :=
  act! plain_code (fail_if (negb (exchange_ok x)) OAuth.ErrDenied);
  sql! client := or_error OAuth.ErrInvalidClient (or_FindClient (xch_ClientID x)) in
  act! plain_code (fail_if (negb (is_ok (Client_Validate client))) OAuth.ErrInvalidClient);
  act! plain_code (fail_if (negb (bool_decide (xch_RedirectURI x ∈ cli_RedirectURIs client))) OAuth.ErrDenied);
  sql! raw := plain_code (random "wmcp_at_" (entropy 0%nat)) in
  let at_ := UTC (now 0%nat) in
  sql! t := or_error OAuth.ErrDenied (or_RedeemCode (MkRedemption (Digest (xch_Code x)) (Digest (xch_Verifier x))
              (xch_ClientID x) (xch_RedirectURI x) (xch_Resource x) (Digest raw) at_ (Add at_ OAuth.TokenLifetime))) in
  Return (Ok (MkTokenResponse raw "Bearer" (Z.quot (Sub (tok_ExpiresAt t) (UTC (now 1%nat))) Second) (tok_Scope t))).

(** The method [Verify]. *)
Definition VerifyToken (raw : string) : method E (result AuthenticatedPrincipal) :=
  act! plain_code (fail_if (negb (HasPrefix raw "wmcp_at_") || (len raw != 51)) OAuth.ErrDenied);
  sql! t := or_error OAuth.ErrDenied (or_ValidateToken (Digest raw) (UTC (now 0%nat))) in
  act! plain_code (fail_if ((tok_Issuer t != OAuth.Issuer) || (tok_Resource t != OAuth.Resource) || (tok_ClientID t == "")
                            || negb (After (tok_ExpiresAt t) (now 1%nat)) || After (tok_IssuedAt t) (now 2%nat)) OAuth.ErrDenied);
  Return (let! permissions := Permissions (tok_Scope t) in
          NewAuthenticatedPrincipal (MkPrincipal (tok_TenantID t) (tok_UserID t) (tok_IdentityIssuer t) (tok_Subject t)
            (tok_ClientID t) (tok_Digest t) zero_time (tok_IssuedAt t) (tok_IssuedAt t) (tok_ExpiresAt t) permissions)).

Definition Revoke (browser : option (RevocationAuthorizer E)) (r : Revocation) : method E (result unit) :=
  match browser with
  | None => Return (Err OAuth.ErrBrowserUnavailable)
  | Some authorize =>
      sql! d := or_error OAuth.ErrDenied (authorize r) in
      let p := bdc_Principal d in
      act! plain_code (fail_if (negb (is_ok (Principal_Validate p)) || negb (After (prn_expiresAt p) (now 0%nat))
             || After (prn_notBefore p) (now 1%nat) || After (prn_issuedAt p) (now 2%nat)
             || negb (After (bdc_SessionExpiresAt d) (now 3%nat)) || (bdc_SessionID d == "")
             || (prn_tenantID p != rvk_TenantID r) || (prn_actorID p != rvk_UserID r)) OAuth.ErrDenied);
      or_RevokeAuthority r
  end.
End service.

(** internal/browser/service.go and siwe.go, with the service of
    internal/siwe/siwe.go: browser sessions from their start to consent, over
    the repositories and the OAuth flow as interfaces.

    [now n] and [entropy n] are as in SignInService.v. *)
From S2P Require Import GoText GoTime AppErrors Contracts Deployments GoBase64 Auth Statements Siwe OAuthModel.

(** [browser.Repository]; the last operation is [AuthenticationCorrelation],
    which a repository need not have. *)
Class BrowserRepository (E : Type) := {
  br_Create : Session -> method E (result unit);
  br_Find : string -> method E (result Session);
  br_Rotate : string -> string -> Session -> method E (result unit);
  br_Revoke : string -> string -> method E (result unit);
  br_Deny : string -> string -> method E (result unit);
  br_Cleanup : method E (result unit);
  br_FindAuthentication : option (Session -> method E (result string))
}.
(** [browser.Catalog] *)
Class Catalog (E : Type) := {
  ca_FindTransaction : string -> method E (result Transaction);
  ca_FindClient : string -> method E (result Client)
}.
(** [browser.OAuth] *)
Class OAuthFlow (E : Type) := {
  fl_Begin : AuthorizationRequest -> method E (result Transaction);
  fl_CompleteRedirect : string -> option (Transaction -> method E (result BrowserDecision)) -> method E (result string)
}.
(** [siwe.Repository] *)
Class SiweRepository (E : Type) := {
  sr_Issue : WalletRequest -> method E (result Challenge);
  sr_Finalize : WalletRequest -> string -> string -> Rotation -> method E (result unit)
}.

(** * The wallet service (siwe.Service) *)
Record WalletService := MkWalletService { ws_tenant : string; ws_requireEnrollment : bool }.
#[global] Instance WalletService_eq_dec : EqDecision WalletService.
Proof. solve_decision. Defined.
Definition NewSiweService (tenant origin : string) : result WalletService :=
  do! fail_if ((origin != SiweURI) || (TrimSpace tenant != tenant) || (tenant == "") || (256 <? len tenant)) Siwe.ErrDenied;
  Ok (MkWalletService tenant false).
Definition NewVerifiedService (tenant origin : string) : result WalletService :=
  let! s := NewSiweService tenant origin in Ok (MkWalletService (ws_tenant s) true).

Section wallet_service.
Context `{EthCommon} `{UnicodeTables} `{EthCrypto} {E : Type} `{SiweRepository E}.
Definition Issue (s : WalletService) (digest proof address : string) : method E (result Challenge) :=
  sql! a := plain_code (Address address) in
  sr_Issue (MkWalletRequest digest proof (ws_tenant s) a (ws_requireEnrollment s)).
Definition Finalize (s : WalletService) (digest proof id signature : string) (r : Rotation) : method E (result unit) :=
  act! plain_code (fail_if ((len id != 64) || (len signature != 132)) Siwe.ErrDenied);
  sr_Finalize (MkWalletRequest digest proof (ws_tenant s) "" (ws_requireEnrollment s)) id signature r.
End wallet_service.

(** * The browser service *)
Record Verification := MkVerification {
  vrf_Principal : AuthenticatedPrincipal; vrf_SessionReference : string; vrf_TransactionID : string; vrf_Evidence : string
}.
(** The ports of a service: a login verifier asked for a session reference and a
    transaction, and the wallet service; nil is [None]. *)
Record BrowserPorts := MkBrowserPorts {
  bp_verifier : option (string -> string -> result Verification); bp_wallet : option WalletService
}.
(** [NewWalletService] has no login verifier. *)
Definition wallet_ports (wallet : WalletService) : BrowserPorts := MkBrowserPorts None (Some wallet).

Definition csrf (raw : string) : string := Digest ("wizpay-browser-csrf-v1:" +:+ raw).
Definition validCredential (raw : string) : bool :=
  HasPrefix raw "wb_" && (len raw =? 46) && canonical_32 (rest_bytes 3 raw).

Section service.
Context `{EthCommon} `{UnicodeTables} `{EthCrypto} `{NetUrl} {E : Type}.
Context `{BrowserRepository E} `{Catalog E} `{OAuthFlow E} `{SiweRepository E}.
Variables (ports : BrowserPorts) (now : nat -> Time) (entropy : nat -> result string).

Definition Start (t : Transaction) : method E (result string) :=
  sql! tr := or_error Browser.ErrDenied (ca_FindTransaction (trx_ID t)) in
  act! plain_code (fail_if ((trx_Request tr != trx_Request t) || negb (Before (now 0%nat) (trx_ExpiresAt tr))) Browser.ErrDenied);
  sql! raw := plain_code (random "wb_" (entropy 0%nat)) in
  sql! ref := plain_code (random "browser_" (entropy 1%nat)) in
  let now := UTC (now 1%nat) in
  let expiry := Add now Browser.PendingLifetime in
  let expiry := if Before (trx_ExpiresAt tr) expiry then trx_ExpiresAt tr else expiry in
  act! br_Create (MkSession (Digest raw) (Digest (csrf raw)) ref (trx_ID tr) "PENDING" "OPEN" "" "" "" "" "" now expiry false);
  Return (Ok raw).

(** [n] counts the readings of the clock before the call. *)
Definition load (n : nat) (raw : string) : method E (result Session) :=
  act! plain_code (fail_if (negb (validCredential raw)) Browser.ErrDenied);
  sql! v := or_error Browser.ErrDenied (br_Find (Digest raw)) in
  act! plain_code (fail_if (bse_Revoked v || negb (Before (now n) (bse_ExpiresAt v)) || Before (now (n + 1)%nat) (bse_CreatedAt v))
                     Browser.ErrDenied);
  Return (Ok v).
Definition proof (n : nat) (raw token : string) : method E (result Session) :=
  sql! v := or_error Browser.ErrDenied (load n raw) in
  act! plain_code (fail_if ((len token != 43) || (Digest token != bse_CSRFHash v)) Browser.ErrDenied);
  Return (Ok v).
Definition transaction (n : nat) (v : Session) : method E (result (Transaction * Client)) :=
  sql! t := or_error Browser.ErrDenied (ca_FindTransaction (bse_TransactionID v)) in
  act! plain_code (fail_if (negb (Before (now n) (trx_ExpiresAt t)) || Before (now (n + 1)%nat) (trx_CreatedAt t)) Browser.ErrDenied);
  sql! c := or_error Browser.ErrDenied (ca_FindClient (azr_ClientID (trx_Request t))) in
  act! plain_code (fail_if (negb (is_ok (Client_Validate c)) || (azr_Resource (trx_Request t) != OAuth.Resource)
                            || (azr_Scope (trx_Request t) != OAuth.ReadScope)) Browser.ErrDenied);
  act! plain_code (fail_if (negb (existsb (fun r => r == azr_RedirectURI (trx_Request t)) (cli_RedirectURIs c))) Browser.ErrDenied);
  Return (Ok (t, c)).

(** [View] *)
Definition correlated (v : Session) : method E (result string) :=
  if (bse_State v == "AUTHENTICATED") && negb (bool_decide (bp_wallet ports = None)) then
    match br_FindAuthentication with
    | None => Return (Err Browser.ErrUnavailable)
    | Some find =>
        sql! challenge := or_error Browser.ErrDenied (find v) in
        act! plain_code (fail_if (challenge == "") Browser.ErrDenied);
        Return (Ok challenge)
    end
  else Return (Ok "").
Definition View (raw : string) : method E (result SessionView) :=
  sql! v := load 0 raw in
  if bse_Decision v == "DENIED" then Return (Ok (MkSessionView "" "" "DENIED" "" "" "" "" "" (csrf raw) false))
  else
    sql! tc := transaction 2 v in
    sql! challenge := correlated v in
    let user := if bse_State v == "AUTHENTICATED" then bse_UserID v else "" in
    Return (Ok (MkSessionView (bse_TransactionID v) challenge (bse_State v) (cli_ID tc.2) (cli_Name tc.2)
      (azr_Scope (trx_Request tc.1)) (azr_Resource (trx_Request tc.1)) user (csrf raw)
      (negb (bool_decide (bp_wallet ports = None)) || match bp_verifier ports with Some _ => true | None => false end))).

(** * Authentication *)
Definition verification_ok (v : Session) (verified : Verification) (now : Time) : bool :=
  let p := vrf_Principal verified in
  is_ok (Principal_Validate p) && After (prn_expiresAt p) now && negb (After (prn_issuedAt p) now)
  && negb (After (prn_notBefore p) now) && (vrf_SessionReference verified == bse_Reference v)
  && (vrf_TransactionID verified == bse_TransactionID v) && (vrf_Evidence verified != "") && (len (vrf_Evidence verified) <=? 256).
Definition Authenticate (raw token : string) : method E (result string) :=
  sql! v := proof 0 raw token in
  match bp_verifier ports with
  | None => Return (Err Browser.ErrUnavailable)
  | Some verify =>
      sql! _ := transaction 2 v in
      sql! verified := plain_code (map_err (fun _ => Browser.ErrDenied) (verify (bse_Reference v) (bse_TransactionID v))) in
      let p := vrf_Principal verified in
      let at_ := UTC (now 4%nat) in
      act! plain_code (fail_if (negb (verification_ok v verified at_)) Browser.ErrDenied);
      act! plain_code (fail_if ((bse_State v == "AUTHENTICATED")
             && ((bse_TenantID v != prn_tenantID p) || (bse_UserID v != prn_actorID p)
                 || (bse_Issuer v != prn_identityProvider p) || (bse_Subject v != prn_providerSubject p))) Browser.ErrDenied);
      sql! next := plain_code (random "wb_" (entropy 0%nat)) in
      sql! ref := plain_code (random "browser_" (entropy 1%nat)) in
      let expires := Add at_ Browser.SessionLifetime in
      let expires := if Before (prn_expiresAt p) expires then prn_expiresAt p else expires in
      act! br_Rotate (bse_Digest v) (bse_CSRFHash v)
             (MkSession (Digest next) (Digest (csrf next)) ref (bse_TransactionID v) "AUTHENTICATED" "OPEN" (prn_tenantID p)
                (prn_actorID p) (prn_identityProvider p) (prn_providerSubject p) (vrf_Evidence verified) at_ expires false);
      Return (Ok next)
  end.

Definition pending_open (v : Session) : bool := (bse_State v == "PENDING") && (bse_Decision v == "OPEN").
(** The method [Challenge]. *)
Definition ChallengeWallet (raw token address : string) : method E (result Challenge) :=
  sql! v := proof 0 raw token in
  match bp_wallet ports with
  | None => Return (Err Browser.ErrUnavailable)
  | Some wallet =>
      act! plain_code (fail_if (negb (pending_open v)) Browser.ErrDenied);
      Issue wallet (bse_Digest v) (bse_CSRFHash v) address
  end.
Definition VerifyWallet (raw token id signature : string) : method E (result string) :=
  sql! v := proof 0 raw token in
  match bp_wallet ports with
  | None => Return (Err Browser.ErrUnavailable)
  | Some wallet =>
      act! plain_code (fail_if (negb (pending_open v)) Browser.ErrDenied);
      sql! next := plain_code (random "wb_" (entropy 0%nat)) in
      sql! ref := plain_code (random "browser_" (entropy 1%nat)) in
      act! Finalize wallet (bse_Digest v) (bse_CSRFHash v) id signature (MkRotation (Digest next) (Digest (csrf next)) ref);
      Return (Ok next)
  end.

(** * Consent *)
(** The port [authorizer] hands to the OAuth flow. *)
Definition AuthorizeBrowser (raw token : string) (t : Transaction) : method E (result BrowserDecision) :=
  sql! v := or_error Browser.ErrDenied (proof 2 raw token) in
  act! plain_code (fail_if ((bse_State v != "AUTHENTICATED") || (bse_Decision v != "OPEN") || (bse_TransactionID v != trx_ID t))
                     Browser.ErrDenied);
  sql! actual := or_error Browser.ErrDenied (transaction 4 v) in
  act! plain_code (fail_if (trx_Request actual.1 != trx_Request t) Browser.ErrDenied);
  let r := trx_Request t in
  Return (let! p := NewAuthenticatedPrincipal (MkPrincipal (bse_TenantID v) (bse_UserID v) (bse_Issuer v) (bse_Subject v)
                      (azr_ClientID r) (bse_Reference v) zero_time (bse_CreatedAt v) (bse_CreatedAt v) (bse_ExpiresAt v) []) in
          Ok (MkBrowserDecision (bse_Reference v) p (bse_Reference v) (bse_ExpiresAt v) (trx_ID t) (azr_ClientID r)
                (azr_Resource r) (azr_Scope r))).
Definition Grant (raw token : string) : method E (result string) :=
  sql! v := proof 0 raw token in
  act! plain_code (fail_if (bool_decide (bp_wallet ports = None) && match bp_verifier ports with None => true | Some _ => false end)
                     Browser.ErrUnavailable);
  act! plain_code (fail_if ((bse_State v != "AUTHENTICATED") || (bse_Decision v != "OPEN")) Browser.ErrDenied);
  fl_CompleteRedirect (bse_TransactionID v) (Some (AuthorizeBrowser raw token)).
Definition Deny (raw token : string) : method E (result unit) :=
  sql! v := proof 0 raw token in br_Deny (bse_Digest v) (bse_CSRFHash v).
Definition Logout (raw token : string) : method E (result unit) :=
  sql! v := proof 0 raw token in br_Revoke (bse_Digest v) (bse_CSRFHash v).
End service.
