(* ===== verification/SignInSafety.v ===== *)
(** What the sign-in tables promise: rows that only grow older ([grows]), and
    the origin of every row that carries authority ([sound]).  Each repository
    method keeps both ([sign_in_moves]). *)
From S2P Require Import Prelude GoStrings GoText GoTime Sha256 AppErrors Contracts Deployments Auth Wallet GoBase64.
From S2P Require Import Storage Policies Statements Database Foundation Siwe OAuthModel SignInTables SignInStore.
Open Scope string_scope.
Open Scope Z_scope.
Open Scope go_scope.

(** * Rows that only grow older *)
(** A marker that is set stays. *)
Definition sticky (old new : option Time) : Prop := forall t, old = Some t -> new = Some t.
#[export] Instance sticky_preorder : PreOrder sticky.
Proof. split; [by intros o t|intros x y z Hxy Hyz t Hx; by apply Hyz, Hxy]. Qed.
Lemma sticky_is_some x y : sticky x y -> is_Some x -> is_Some y.
Proof. intros Hs [t Ht]. exists t. by apply Hs. Qed.
Lemma sticky_none t : sticky None t.
Proof. done. Qed.
Lemma sticky_coalesce o t : sticky o (coalesce o t).
Proof. intros u ->. done. Qed.
Lemma set_marker_ok o t o' : set_marker o t = Ok o' -> o' = Some t /\ sticky o o'.
Proof.
  unfold set_marker. intros Hs. apply rbind_ok in Hs as ([] & Hf & [= <-]). apply fail_if_ok_any in Hf. split; [done|].
  intros u ->. cbn in Hf. reflect_all. congruence.
Qed.
(** Only the marker changes. *)
Definition marked {A B} (erase : A -> B) (marker : A -> option Time) (x y : A) : Prop :=
  erase x = erase y /\ sticky (marker x) (marker y).
#[export] Instance marked_preorder {A B} (erase : A -> B) marker : PreOrder (marked erase marker).
Proof.
  split; [by split|]. intros x y z [E1 S1] [E2 S2]. split; [by rewrite E1|by etransitivity].
Qed.

(** Rows with [P] are there for good, and change by [R] only. *)
Definition persists {K A} `{Countable K} (P : A -> Prop) (R : relation A) (m m' : gmap K A) : Prop :=
  forall k x, m !! k = Some x -> P x -> exists y, m' !! k = Some y /\ P y /\ R x y.
#[export] Instance persists_preorder {K A} `{Countable K} (P : A -> Prop) (R : relation A) `{!PreOrder R} :
  PreOrder (persists (K := K) P R).
Proof.
  split; [intros m k x Hx HP; by exists x|].
  intros m1 m2 m3 H12 H23 k x Hx HP. destruct (H12 k x Hx HP) as (y & Hy & HPy & Rxy).
  destruct (H23 k y Hy HPy) as (z & Hz & HPz & Ryz). exists z. split_and!; [done..|by etransitivity].
Qed.
Lemma persists_insert {K A} `{Countable K} P (R : relation A) `{!PreOrder R} (m : gmap K A) k y :
  (forall x, m !! k = Some x -> P x -> P y /\ R x y) -> persists P R m (<[k := y]> m).
Proof.
  intros Hk k' x Hx HP. destruct (decide (k' = k)) as [->|Hne].
  - exists y. rewrite lookup_insert_eq. destruct (Hk x Hx HP). done.
  - exists x. by rewrite lookup_insert_ne.
Qed.
Lemma persists_fresh {K A} `{Countable K} P (R : relation A) `{!PreOrder R} (m : gmap K A) k y :
  m !! k = None -> persists P R m (<[k := y]> m).
Proof. intros Hk. apply persists_insert; [done|]. intros x Hx. congruence. Qed.
Definition always {A} : A -> Prop := fun _ => True.

(** ** Per table *)
Definition erase_transaction (t : transaction_row) :=
  (tw_client t, tw_redirect t, tw_resource t, tw_scope t, tw_challenge t, tw_state t, tw_created t, tw_expires t).
Definition erase_consent (u : consent_row) :=
  (uw_client u, uw_resource u, uw_scope u, uw_session u, uw_issuer u, uw_subject u, uw_created u, uw_expires u).
Definition erase_code (k : code_row) :=
  (kw_transaction k, (kw_tenant k, kw_user k, kw_consent k), kw_session k, kw_client k, kw_redirect k, kw_resource k,
   kw_scope k, kw_challenge k, kw_issued k, kw_expires k).
Definition erase_browser (b : browser_row) := with_revoked (with_decision b "") None.
Definition browser_later (x y : browser_row) : Prop :=
  marked erase_browser bw_revoked x y /\ (bw_decision x <> "OPEN" -> bw_decision y = bw_decision x).
#[export] Instance browser_later_preorder : PreOrder browser_later.
Proof.
  split; [by split|]. intros x y z [M1 D1] [M2 D2]. split; [by etransitivity|].
  intros Hx. specialize (D1 Hx). rewrite D2; [done|by rewrite D1].
Qed.
Definition is_authenticated (b : browser_row) : Prop := bw_state b = "AUTHENTICATED".

Record grows (s s' : SignIn) : Prop := {
  gr_versions : persists always eq (fd_versions (sg_foundation s)) (fd_versions (sg_foundation s'));
  gr_transactions : persists always (marked erase_transaction tw_completed) (sg_transactions s) (sg_transactions s');
  gr_sessions : persists always (marked ow_expires ow_revoked) (sg_sessions s) (sg_sessions s');
  gr_consents : persists always (marked erase_consent uw_revoked) (sg_consents s) (sg_consents s');
  gr_codes : persists always (marked erase_code kw_consumed) (sg_codes s) (sg_codes s');
  gr_tokens : persists always (marked ow_token ow_token_revoked) (sg_tokens s) (sg_tokens s');
  gr_browsers : persists is_authenticated browser_later (sg_browsers s) (sg_browsers s');
  gr_challenges : persists always (marked cw_challenge cw_consumed) (sg_challenges s) (sg_challenges s');
  gr_authentications : persists always eq (sg_authentications s) (sg_authentications s')
}.
#[export] Instance grows_preorder : PreOrder grows.
Proof.
  split; [intros s; by split|]. intros s1 s2 s3 [] []. split; by etransitivity.
Qed.
(** A row that is there for good. *)
Lemma persists_always {K A} `{Countable K} (R : relation A) (m m' : gmap K A) k x :
  persists always R m m' -> m !! k = Some x -> exists y, m' !! k = Some y /\ R x y.
Proof. intros Hp Hx. destruct (Hp k x Hx I) as (y & Hy & _ & HR). eauto. Qed.

(** * Origins *)
Section origins.
Context `{EthCommon} `{UnicodeTables} `{EthCrypto} `{EthSignatures}.

(** The challenge's text is its own and its account signed it. *)
Definition signed (c : Challenge) : Prop :=
  Message c = Ok (chl_Message c) /\ exists signature, Verify (chl_Message c) (chl_Address c) signature = Ok tt.
(** The wallets of a database are at the version last recorded. *)
Definition wallets_current (f : Foundation) : Prop :=
  forall tenant binding w, fd_wallets f !! (tenant, binding) = Some w ->
  exists v, fd_versions f !! (tenant, binding, wr_version w) = Some v /\ wr_user_id v = wr_user_id w /\ wr_address v = wr_address w.

Definition consent_key (k : code_row) : string * string * string := (kw_tenant k, kw_user k, kw_consent k).
Definition token_consent (t : Token) : string * string * string := (tok_TenantID t, tok_UserID t, tok_ConsentID t).

Definition authentication_origin (s : SignIn) (a : authentication_row) : Prop :=
  exists w v, sg_challenges s !! nw_challenge a = Some w /\ is_Some (cw_consumed w) /\ signed (cw_challenge w) /\
  chl_Purpose (cw_challenge w) <> "ENROLL" /\ chl_TenantID (cw_challenge w) = nw_tenant a /\
  fd_versions (sg_foundation s) !! (nw_tenant a, nw_binding a, nw_version a) = Some v /\ wr_user_id v = nw_user a /\
  ToLower (wr_address v) = ToLower (chl_Address (cw_challenge w)).
Definition browser_origin (s : SignIn) (b : browser_row) : Prop :=
  exists a w, sg_authentications s !! bw_reference b = Some a /\ nw_tenant a = bw_tenant b /\ nw_user a = bw_user b /\
  sg_challenges s !! nw_challenge a = Some w /\ chl_TransactionID (cw_challenge w) = bw_transaction b.
Definition code_origin (s : SignIn) (k : code_row) : Prop :=
  (exists digest b, sg_browsers s !! digest = Some b /\ is_authenticated b /\ bw_decision b = "GRANTED" /\
     bw_reference b = kw_session k /\ bw_transaction b = kw_transaction k /\ bw_tenant b = kw_tenant k /\ bw_user b = kw_user k) /\
  (exists t, sg_transactions s !! kw_transaction k = Some t /\ tw_client t = kw_client k /\ tw_redirect t = kw_redirect k /\
     tw_challenge t = kw_challenge k) /\
  is_Some (sg_consents s !! consent_key k).
(** What redeeming a code took. *)
Definition code_spent (digest : string) (k : code_row) : Prop :=
  is_Some (kw_consumed k) -> exists code verifier, Digest code = digest /\ Digest verifier = kw_challenge k.
Definition from_code (t : Token) (k : code_row) : Prop :=
  token_consent t = consent_key k /\ tok_SessionID t = kw_session k /\ tok_ClientID t = kw_client k /\
  tok_Resource t = kw_resource k /\ tok_Scope t = kw_scope k.
Definition token_origin (s : SignIn) (digest : string) (t : Token) : Prop :=
  tok_Digest t = digest /\ exists code k, sg_codes s !! code = Some k /\ is_Some (kw_consumed k) /\ from_code t k.

(** A logged-out session has no live OAuth session. *)
Definition dead_session (s : SignIn) (b : browser_row) : Prop :=
  is_Some (bw_revoked b) -> forall o, sg_sessions s !! (bw_tenant b, bw_user b, bw_reference b) = Some o -> is_Some (ow_revoked o).

(** Rows of a table with the same [f] are the same row. *)
Definition one_each {K A B} `{Countable K} (f : A -> B) (m : gmap K A) : Prop :=
  forall k k' x x', m !! k = Some x -> m !! k' = Some x' -> f x = f x' -> k = k'.

Record sound (s : SignIn) : Prop := {
  sd_wallets : wallets_current (sg_foundation s);
  sd_authentications : map_Forall (fun _ => authentication_origin s) (sg_authentications s);
  sd_browsers : map_Forall (fun _ b => is_authenticated b -> browser_origin s b) (sg_browsers s);
  sd_dead : map_Forall (fun _ b => is_authenticated b -> dead_session s b) (sg_browsers s);
  sd_codes : map_Forall (fun _ => code_origin s) (sg_codes s);
  sd_spent : map_Forall code_spent (sg_codes s);
  sd_tokens : map_Forall (fun d row => token_origin s d (ow_token row)) (sg_tokens s);
  sd_reference : one_each bw_reference (sg_browsers s);
  sd_challenge : one_each nw_challenge (sg_authentications s);
  sd_consent : one_each consent_key (sg_codes s);
  sd_session : one_each kw_session (sg_codes s);
  sd_token : one_each (fun row => token_consent (ow_token row)) (sg_tokens s)
}.

(** ** Origins stay *)
Lemma authentication_origin_grows s s' a : grows s s' -> authentication_origin s a -> authentication_origin s' a.
Proof.
  intros G (w & v & Hw & Hc & Hs & Hp & Ht & Hv & Hu & Ha).
  destruct (persists_always _ _ _ _ _ (gr_challenges _ _ G) Hw) as (w' & Hw' & Ew & Sw).
  destruct (persists_always _ _ _ _ _ (gr_versions _ _ G) Hv) as (v' & Hv' & <-).
  exists w', v. rewrite <- Ew. split_and!; try done. by eapply sticky_is_some.
Qed.
Lemma browser_origin_later s s' b b' : grows s s' -> erase_browser b = erase_browser b' -> browser_origin s b -> browser_origin s' b'.
Proof.
  intros G E (a & w & Ha & Ht & Hu & Hw & Hx).
  pose proof (f_equal bw_reference E) as E1. pose proof (f_equal bw_tenant E) as E2. pose proof (f_equal bw_user E) as E3.
  pose proof (f_equal bw_transaction E) as E4. cbn in E1, E2, E3, E4.
  destruct (persists_always _ _ _ _ _ (gr_authentications _ _ G) Ha) as (a' & Ha' & <-).
  destruct (persists_always _ _ _ _ _ (gr_challenges _ _ G) Hw) as (w' & Hw' & Ew & _).
  exists a, w'. rewrite <- E1, <- E2, <- E3, <- E4, <- Ew. done.
Qed.
Lemma code_origin_later s s' k k' : grows s s' -> erase_code k = erase_code k' -> code_origin s k -> code_origin s' k'.
Proof.
  intros G E ((d & b & Hb & Hau & Hg & Hr & Hx & Ht & Hu) & (t & Htr & Hc & Hrd & Hch) & [u Hcons]).
  injection E as E1 E2 E3 E4 E5 E6 E7 E8 E9 E10 E11 E12.
  destruct (gr_browsers _ _ G d b Hb Hau) as (b' & Hb' & Hau' & [[Eb _] Hd]).
  destruct (persists_always _ _ _ _ _ (gr_transactions _ _ G) Htr) as (t' & Htr' & Et & _).
  destruct (persists_always _ _ _ _ _ (gr_consents _ _ G) Hcons) as (u' & Hu' & _).
  injection Et as F1 F2 F3 F4 F5 F6 F7 F8.
  pose proof (f_equal bw_reference Eb) as B1. pose proof (f_equal bw_tenant Eb) as B2. pose proof (f_equal bw_user Eb) as B3.
  pose proof (f_equal bw_transaction Eb) as B4. cbn in B1, B2, B3, B4.
  split_and!.
  - exists d, b'. split_and!; try congruence. by rewrite Hd, Hg by (by rewrite Hg).
  - exists t'. split_and!; congruence.
  - exists u'. unfold consent_key in *. congruence.
Qed.
Lemma token_origin_grows s s' d t : grows s s' -> token_origin s d t -> token_origin s' d t.
Proof.
  intros G (Hd & c & k & Hk & Hc & (F1 & F2 & F3 & F4 & F5)). split; [done|].
  destruct (persists_always _ _ _ _ _ (gr_codes _ _ G) Hk) as (k' & Hk' & Ek & Sk).
  injection Ek as E1 E2 E3 E4 E5 E6 E7 E8 E9 E10 E11 E12.
  exists c, k'. split_and!; [done|by eapply sticky_is_some|]. unfold from_code, consent_key in *. split_and!; congruence.
Qed.

(** ** Rows that are the same rows *)
Definition same_rows {K A B} `{Countable K} (erase : A -> B) (m m' : gmap K A) : Prop :=
  forall k y, m' !! k = Some y -> exists x, m !! k = Some x /\ erase x = erase y.
Lemma same_rows_refl {K A B} `{Countable K} (erase : A -> B) (m : gmap K A) : same_rows erase m m.
Proof. intros k x Hx. by exists x. Qed.
Lemma same_rows_insert {K A B} `{Countable K} (erase : A -> B) (m : gmap K A) k x y :
  m !! k = Some x -> erase x = erase y -> same_rows erase m (<[k := y]> m).
Proof.
  intros Hx He k' z. destruct (decide (k' = k)) as [->|Hne].
  - rewrite lookup_insert_eq. intros [= <-]. by exists x.
  - rewrite lookup_insert_ne by done. intros Hz. by exists z.
Qed.
Lemma one_each_same {K A B C} `{Countable K} (erase : A -> B) (f : A -> C) (m m' : gmap K A) :
  (forall x y, erase x = erase y -> f x = f y) -> same_rows erase m m' -> one_each f m -> one_each f m'.
Proof.
  intros Hf Hs Ho k k' y y' Hy Hy' E. destruct (Hs k y Hy) as (x & Hx & Ex), (Hs k' y' Hy') as (x' & Hx' & Ex').
  apply (Ho k k' x x' Hx Hx'). rewrite (Hf _ _ Ex), (Hf _ _ Ex'). done.
Qed.
Lemma one_each_new {K A C} `{Countable K} (f : A -> C) (m : gmap K A) k x :
  (forall k' x', m !! k' = Some x' -> f x' <> f x) -> one_each f m -> one_each f (<[k := x]> m).
Proof.
  intros Hn Ho k1 k2 x1 x2. rewrite !lookup_insert_Some. intros [[<- <-]|[_ L1]] [[<- <-]|[_ L2]] E; [done| | |by eapply Ho].
  - by destruct (Hn _ _ L2).
  - by destruct (Hn _ _ L1).
Qed.
(** A table all of whose rows were there, or one with a new row. *)
Definition rows_from {K A B} `{Countable K} (erase : A -> B) (m m' : gmap K A) (new : K -> A -> Prop) : Prop :=
  forall k y, m' !! k = Some y -> (exists x, m !! k = Some x /\ erase x = erase y) \/ new k y.
Lemma rows_from_same {K A B} `{Countable K} (erase : A -> B) (m m' : gmap K A) new :
  same_rows erase m m' -> rows_from erase m m' new.
Proof. intros Hs k y Hy. left. by apply Hs. Qed.
Lemma rows_from_new {K A B} `{Countable K} (erase : A -> B) (m : gmap K A) k x (new : K -> A -> Prop) :
  new k x -> rows_from erase m (<[k := x]> m) new.
Proof.
  intros Hn k' y. rewrite lookup_insert_Some. intros [[<- <-]|[_ Hy]]; [by right|left; eauto].
Qed.

(** A fresh revocation of a session is also one of its OAuth session. *)
Definition no_new_deaths (s s' : SignIn) : Prop :=
  (forall d b, sg_browsers s' !! d = Some b -> is_authenticated b -> is_Some (bw_revoked b) ->
     (exists b0, sg_browsers s !! d = Some b0 /\ erase_browser b0 = erase_browser b /\ is_Some (bw_revoked b0)) \/
     dead_session s' b) /\
  same_rows (fun _ => tt) (sg_sessions s) (sg_sessions s').
Lemma erase_authenticated b b' : erase_browser b = erase_browser b' -> is_authenticated b -> is_authenticated b'.
Proof. intros E. pose proof (f_equal bw_state E) as E'. cbn in E'. unfold is_authenticated. congruence. Qed.
Lemma no_new_deaths_dead s s' : grows s s' -> no_new_deaths s s' ->
  map_Forall (fun _ b => is_authenticated b -> dead_session s b) (sg_browsers s) ->
  map_Forall (fun _ b => is_authenticated b -> dead_session s' b) (sg_browsers s').
Proof.
  intros G [Hb Hs] Hd d b Hlk Ha Hr o Ho. destruct (Hb d b Hlk Ha Hr) as [(b0 & Hb0 & E & Hr0)|Hn]; [|by apply Hn].
  destruct (Hs _ _ Ho) as (o0 & Ho0 & _). destruct (persists_always _ _ _ _ _ (gr_sessions _ _ G) Ho0) as (o' & Ho' & _ & S).
  rewrite Ho in Ho'. injection Ho' as <-. apply (sticky_is_some (ow_revoked o0)); [done|].
  pose proof (f_equal bw_reference E) as E1. pose proof (f_equal bw_tenant E) as E2. pose proof (f_equal bw_user E) as E3.
  cbn in E1, E2, E3. apply (Hd d b0 Hb0); [|done|by rewrite E1, E2, E3]. by eapply erase_authenticated.
Qed.

Lemma sound_by s s' : sound s -> grows s s' -> wallets_current (sg_foundation s') ->
  rows_from id (sg_authentications s) (sg_authentications s') (fun _ => authentication_origin s') ->
  rows_from erase_browser (sg_browsers s) (sg_browsers s') (fun _ b => is_authenticated b -> browser_origin s' b) ->
  map_Forall (fun _ b => is_authenticated b -> dead_session s' b) (sg_browsers s') ->
  rows_from erase_code (sg_codes s) (sg_codes s') (fun _ => code_origin s') ->
  rows_from id (sg_codes s) (sg_codes s') code_spent ->
  rows_from ow_token (sg_tokens s) (sg_tokens s') (fun d row => token_origin s' d (ow_token row)) ->
  one_each bw_reference (sg_browsers s') -> one_each nw_challenge (sg_authentications s') ->
  one_each consent_key (sg_codes s') -> one_each kw_session (sg_codes s') ->
  one_each (fun row => token_consent (ow_token row)) (sg_tokens s') -> sound s'.
Proof.
  intros S G Hw Ha Hb Hd Hc Hsp Ht O1 O2 O3 O4 O5. split; try done.
  - intros d a Hl. destruct (Ha d a Hl) as [(a0 & Hl0 & E)|]; [|done]. cbn in E. subst a0.
    eapply authentication_origin_grows; [exact G|]. by eapply sd_authentications.
  - intros d b Hl Hau. destruct (Hb d b Hl) as [(b0 & Hl0 & E)|Hn]; [|by apply Hn].
    eapply browser_origin_later; [exact G|exact E|]. eapply sd_browsers; [done..|]. by eapply erase_authenticated.
  - intros d k Hl. destruct (Hc d k Hl) as [(k0 & Hl0 & E)|]; [|done].
    eapply code_origin_later; [exact G|exact E|]. by eapply sd_codes.
  - intros d k Hl. destruct (Hsp d k Hl) as [(k0 & Hl0 & E)|]; [|done]. cbn in E. subst k0. by eapply sd_spent.
  - intros d r Hl. destruct (Ht d r Hl) as [(r0 & Hl0 & E)|]; [|done]. rewrite <- E.
    eapply token_origin_grows; [exact G|]. by eapply (sd_tokens s S).
Qed.
End origins.
