(* ===== verification/SignInMoves.v ===== *)
(** Every write of the sign-in repositories, and every method, keeps the
    tables [sound] and only lets them grow. *)
From S2P Require Import Prelude GoStrings GoText GoTime Sha256 AppErrors Contracts Deployments Auth Wallet GoBase64.
From S2P Require Import Storage Policies Statements Database Foundation Siwe OAuthModel SignInTables SignInStore.
From S2P Require Import SignInSafety.
Open Scope string_scope.
Open Scope Z_scope.
Open Scope go_scope.

Lemma unique_ok {K A} `{Countable K} (k : K) clash (m : gmap K A) u : unique k clash m = Ok u ->
  m !! k = None /\ forall k' x, m !! k' = Some x -> clash k' x = false.
Proof.
  unfold unique. intros [Hs Ht]%fail_if_ok_any%orb_false_iff. split; [by destruct (m !! k)|].
  intros k' x Hx. unfold taken_by in Ht. apply not_true_is_false. intros Hc.
  enough (existsb (fun '(k, a) => clash k a) (map_to_list m) = true) by congruence.
  apply existsb_exists. exists (k', x). split; [|done]. by apply list_elem_of_In, elem_of_map_to_list.
Qed.
Lemma referenced_ok b u : referenced b = Ok u -> b = true.
Proof. unfold referenced. by intros ?%fail_if_ok_any%negb_false_iff. Qed.
Lemma found_ok {Y} (o : option Y) e y : found o e = Ok y -> o = Some y.
Proof. unfold found. destruct o; congruence. Qed.
Lemma isSome_true {A} (o : option A) : isSome o = true -> is_Some o.
Proof. by destruct o. Qed.

(** What is known of a step that went through. *)
Ltac step_inv :=
  repeat match goal with
  | H : (let _ := _ in _) = Ok _ |- _ => cbv zeta in H
  | H : (match ?x with pair _ _ => _ end) = Ok _ |- _ => destruct x
  | H : rbind _ _ = Ok _ |- _ => let a := fresh "r" in let Ha := fresh "Hr" in apply rbind_ok in H; destruct H as (a & Ha & H)
  | H : unique _ _ _ = Ok _ |- _ => apply unique_ok in H; destruct H
  | H : referenced _ = Ok _ |- _ => apply referenced_ok in H
  | H : found _ _ = Ok _ |- _ => apply found_ok in H
  | H : fail_if _ _ = Ok _ |- _ => apply fail_if_ok_any in H
  | H : map_err _ _ = Ok _ |- _ => apply map_err_ok in H
  | H : set_marker _ _ = Ok _ |- _ => apply set_marker_ok in H; destruct H
  | H : Ok _ = Ok _ |- _ => injection H as H
  | H : Err _ = Ok _ |- _ => discriminate H
  | u : unit |- _ => destruct u
  end.
(** One table changes; the others are the same. *)
Ltac grow_one := split; cbn; try reflexivity.

(** Solves the premises of [sound_by] about tables that did not change. *)
Ltac unchanged S := first
  [ exact (sd_wallets _ S) | exact (sd_reference _ S) | exact (sd_challenge _ S) | exact (sd_consent _ S)
  | exact (sd_session _ S) | exact (sd_token _ S)
  | solve [apply rows_from_same, same_rows_refl]
  | exact (sd_dead _ S) ].


Section moves.
Context `{EthCommon} `{UnicodeTables} `{EthCrypto} `{EthSignatures} `{NetUrl} `{PgTimestamp}.
Implicit Types (s : SignIn).

Definition moves s s' : Prop := grows s s' /\ (sound s -> sound s').
#[export] Instance moves_preorder : PreOrder moves.
Proof.
  split; [by intros s; split|]. intros s1 s2 s3 [G1 S1] [G2 S2]. split; [by etransitivity|auto].
Qed.

(** ** Statements that carry no authority *)
Lemma set_audit_moves l s : moves s (set_audit l s).
Proof.
  assert (grows s (set_audit l s)) as G by grow_one. split; [done|]. intros S. apply (sound_by s); try done; unchanged S.
Qed.
Lemma insert_audit_moves event tenant user client consent now s s' :
  insert_audit event tenant user client consent now s = Ok s' -> moves s s'.
Proof. unfold insert_audit. intros Hi. step_inv. subst. apply set_audit_moves. Qed.
Lemma set_clients_moves m s : moves s (set_clients m s).
Proof.
  assert (grows s (set_clients m s)) as G by grow_one. split; [done|]. intros S. apply (sound_by s); try done; unchanged S.
Qed.
Lemma set_proofs_moves m s : moves s (set_proofs m s).
Proof.
  assert (grows s (set_proofs m s)) as G by grow_one. split; [done|]. intros S. apply (sound_by s); try done; unchanged S.
Qed.

Lemma set_consents_moves k u s :
  (forall x, sg_consents s !! k = Some x -> marked erase_consent uw_revoked x u) ->
  moves s (set_consents (<[k := u]> (sg_consents s)) s).
Proof.
  intros Hk. set (s' := set_consents _ s).
  assert (grows s s') as G by (grow_one; apply persists_insert; [exact _|]; intros x Hx _; by split; [|apply Hk]).
  split; [done|]. intros S. apply (sound_by s); try done; unchanged S.
Qed.
Lemma insert_consent_moves k u s s' : insert_consent k u s = Ok s' -> moves s s' /\ is_Some (sg_consents s' !! k).
Proof.
  unfold insert_consent. intros Hi. step_inv. subst. split; [|exists u; apply lookup_insert_eq].
  apply set_consents_moves. congruence.
Qed.
Lemma set_transactions_moves id t s :
  (forall x, sg_transactions s !! id = Some x -> marked erase_transaction tw_completed x t) ->
  moves s (set_transactions (<[id := t]> (sg_transactions s)) s).
Proof.
  intros Hk. set (s' := set_transactions _ s).
  assert (grows s s') as G by (grow_one; apply persists_insert; [exact _|]; intros x Hx _; by split; [|apply Hk]).
  split; [done|]. intros S. apply (sound_by s); try done; unchanged S.
Qed.
Lemma complete_transaction_moves id t s s' : complete_transaction id t s = Ok s' -> moves s s'.
Proof.
  unfold complete_transaction. destruct (sg_transactions s !! id) as [r|] eqn:Er; intros Hc; step_inv; subst; [|reflexivity].
  apply set_transactions_moves. intros x Hx. rewrite Er in Hx. injection Hx as <-. by split.
Qed.
Lemma set_challenges_moves id w s :
  (forall x, sg_challenges s !! id = Some x -> marked cw_challenge cw_consumed x w) ->
  moves s (set_challenges (<[id := w]> (sg_challenges s)) s).
Proof.
  intros Hk. set (s' := set_challenges _ s).
  assert (grows s s') as G by (grow_one; apply persists_insert; [exact _|]; intros x Hx _; by split; [|apply Hk]).
  split; [done|]. intros S. apply (sound_by s); try done; unchanged S.
Qed.
Lemma insert_challenge_moves c s s' : insert_challenge c s = Ok s' -> moves s s'.
Proof.
  unfold insert_challenge. intros Hi. step_inv. subst. apply set_challenges_moves. congruence.
Qed.
Lemma consume_challenge_moves id now s s' : consume_challenge id now s = Ok s' ->
  moves s s' /\ forall w, sg_challenges s !! id = Some w -> exists t,
    s' = set_challenges (<[id := MkChallengeRow (cw_challenge w) (Some t)]> (sg_challenges s)) s.
Proof.
  unfold consume_challenge. destruct (sg_challenges s !! id) as [w|] eqn:Ew; intros Hc; step_inv; subst; [|by split].
  split; [|intros w' [= <-]; eauto]. apply set_challenges_moves. intros x Hx. rewrite Ew in Hx. injection Hx as <-. by split.
Qed.
Lemma insert_proof_moves id p s s' : insert_proof id p s = Ok s' -> moves s s'.
Proof. unfold insert_proof. intros Hi. step_inv. subst. apply set_proofs_moves. Qed.

(** * Codes and tokens *)
(** A code changes by being spent, or is new and has an origin. *)
Lemma consume_code_moves digest now s s' k : sg_codes s !! digest = Some k ->
  (exists code verifier, Digest code = digest /\ Digest verifier = kw_challenge k) -> consume_code digest now s = Ok s' ->
  moves s s' /\ exists k', sg_codes s' !! digest = Some k' /\ erase_code k' = erase_code k /\ is_Some (kw_consumed k') /\
    sg_tokens s' = sg_tokens s.
Proof.
  intros Hk Hx. unfold consume_code. rewrite Hk. intros Hc. step_inv. subst. set (k' := MkCodeRow _ _ _ _ _ _ _ _ _ _ _ _ _).
  set (s' := set_codes _ s).
  split; [|exists k'; split_and!; [apply lookup_insert_eq|done|by eexists|done]].
  assert (grows s s') as G.
  { grow_one. apply persists_insert; [exact _|]. intros x E _. rewrite Hk in E. injection E as <-. by repeat split. }
  assert (same_rows erase_code (sg_codes s) (sg_codes s')) as Hs by exact (same_rows_insert erase_code _ digest k k' Hk eq_refl).
  split; [done|]. intros S. apply (sound_by s); try done; try unchanged S.
  - by apply rows_from_same.
  - apply rows_from_new. intros _. exact Hx.
  - eapply (one_each_same erase_code); [|exact Hs|exact (sd_consent _ S)]. unfold erase_code, consent_key. congruence.
  - eapply (one_each_same erase_code); [|exact Hs|exact (sd_session _ S)]. unfold erase_code. congruence.
Qed.
Lemma insert_code_sound digest k s s' : sound s -> insert_code digest k s = Ok s' -> kw_consumed k = None ->
  code_origin s k ->
  (forall d k', sg_codes s !! d = Some k' -> consent_key k' <> consent_key k /\ kw_session k' <> kw_session k) ->
  grows s s' /\ sound s'.
Proof.
  intros S Hi Hn Ho Hu. unfold insert_code in Hi. step_inv. subst. set (s' := set_codes _ s).
  assert (grows s s') as G by (grow_one; apply persists_fresh; [exact _|done]).
  split; [done|]. apply (sound_by s); try done; try unchanged S.
  - apply rows_from_new. eapply code_origin_later; [exact G|done|done].
  - apply rows_from_new. intros [t Ht]. congruence.
  - apply one_each_new; [|exact (sd_consent _ S)]. intros d k' Hd. by destruct (Hu d k' Hd).
  - apply one_each_new; [|exact (sd_session _ S)]. intros d k' Hd. by destruct (Hu d k' Hd).
Qed.
Lemma insert_token_sound t s s' : sound s -> insert_token t s = Ok s' -> token_origin s (tok_Digest t) t ->
  (forall d r, sg_tokens s !! d = Some r -> token_consent (ow_token r) <> token_consent t) -> grows s s' /\ sound s'.
Proof.
  intros S Hi Ho Hu. unfold insert_token in Hi. step_inv. subst. set (s' := set_tokens _ s).
  assert (grows s s') as G by (grow_one; apply persists_fresh; [exact _|done]).
  split; [done|]. apply (sound_by s); try done; try unchanged S.
  - apply rows_from_new. eapply token_origin_grows; [exact G|done].
  - apply one_each_new; [exact Hu|exact (sd_token _ S)].
Qed.
Lemma revoked_token_moves tenant user digest now s done_ : revoked_token tenant user digest now s = Ok done_ -> moves s done_.2.
Proof.
  unfold revoked_token. intros Hr. step_inv. subst. cbn. set (s' := set_tokens _ s).
  assert (grows s s') as G.
  { grow_one. apply persists_insert; [exact _|]. intros x E _. rewrite Hr0 in E. injection E as <-. split; [done|].
    split; [done|]. apply sticky_coalesce. }
  assert (same_rows ow_token (sg_tokens s) (sg_tokens s')) as Hs by exact (same_rows_insert ow_token _ digest r (MkTokenRow (ow_token r) _) Hr0 eq_refl).
  split; [done|]. intros S. apply (sound_by s); try done; try unchanged S.
  - by apply rows_from_same.
  - eapply (one_each_same ow_token); [|exact Hs|exact (sd_token _ S)]. congruence.
Qed.
Lemma revoked_consent_moves k now s done_ : revoked_consent k now s = Ok done_ -> moves s done_.2.
Proof.
  unfold revoked_consent. intros Hr. step_inv. subst. cbn. apply set_consents_moves. intros x Hx. rewrite Hr0 in Hx.
  injection Hx as <-. split; [done|]. apply sticky_coalesce.
Qed.

(** * Browser sessions *)
Lemma lockBrowser_ok row now v : lockBrowser row now = Ok v ->
  exists digest b, row = Some (digest, b) /\ v = scanBrowser digest b /\ bw_revoked b = None.
Proof.
  unfold lockBrowser. destruct row as [[digest b]|]; [|done]. destruct (_ || _ || _) eqn:E; [done|]. intros [= <-].
  apply orb_false_iff in E as [[E _]%orb_false_iff _]. exists digest, b. cbn in E. by destruct (bw_revoked b).
Qed.
Lemma by_digest_ok digest s d b : by_digest digest s = Some (d, b) -> d = digest /\ sg_browsers s !! digest = Some b.
Proof. unfold by_digest. destruct (sg_browsers s !! digest); [|done]. by intros [= <- <-]. Qed.
Lemma by_reference_ok reference s d b : browser_by_reference reference s = Some (d, b) ->
  sg_browsers s !! d = Some b /\ bw_reference b = reference.
Proof.
  unfold browser_by_reference. destruct (filter _ _) as [|x l] eqn:E; [done|]. intros [= ->].
  assert ((d, b) ∈ (d, b) :: l) as Hin by (by left). rewrite <- E in Hin. apply list_elem_of_filter in Hin as [Hr Hin].
  split; [by apply elem_of_map_to_list|done].
Qed.
Lemma lock_by_digest digest s now v : lockBrowser (by_digest digest s) now = Ok v ->
  exists b, sg_browsers s !! digest = Some b /\ v = scanBrowser digest b /\ bw_revoked b = None.
Proof.
  intros (d & b & Hb & -> & Hr)%lockBrowser_ok. apply by_digest_ok in Hb as [-> Hb]. by exists b.
Qed.

(** A row that is the same session, older. *)
Lemma set_browsers_sound digest b0 b s : sound s -> sg_browsers s !! digest = Some b0 -> browser_later b0 b ->
  let s' := set_browsers (<[digest := b]> (sg_browsers s)) s in
  grows s s' /\ (no_new_deaths s s' -> sound s').
Proof.
  intros S Hb HR s'. destruct HR as [[E Hst] Hd].
  assert (grows s s') as G.
  { grow_one. apply persists_insert; [exact _|]. intros x Hx Hau. rewrite Hb in Hx. injection Hx as <-.
    split; [by eapply erase_authenticated|by split]. }
  assert (same_rows erase_browser (sg_browsers s) (sg_browsers s')) as Hs by exact (same_rows_insert erase_browser _ digest b0 b Hb E).
  split; [done|]. intros Hn. apply (sound_by s); try done; try unchanged S.
  - by apply rows_from_same.
  - apply (no_new_deaths_dead s); [done|done|exact (sd_dead _ S)].
  - eapply (one_each_same erase_browser); [|exact Hs|exact (sd_reference _ S)]. intros x y Exy. exact (f_equal bw_reference Exy).
Qed.
Lemma decide_browser_moves digest b decision s s' : sg_browsers s !! digest = Some b ->
  decide_browser digest b decision s = Ok s' -> moves s s'.
Proof.
  intros Hb Hd. unfold decide_browser in Hd. step_inv. subst. set (b' := with_decision b decision).
  assert (browser_later b b') as HR.
  { split; [by split|]. intros Ho. cbn. apply andb_false_iff in Hr as [Hr|Hr]; reflect_all; congruence. }
  split; [|intros S; apply (set_browsers_sound digest b b' s S Hb HR)].
  - grow_one. apply persists_insert; [exact _|]. intros x Hx Hau. rewrite Hb in Hx. injection Hx as <-. by split.
  - split; [|apply same_rows_refl]. intros d x. cbn. rewrite lookup_insert_Some.
    intros [[<- <-]|[_ Hx]] _ Hrev; left; [by exists b|by exists x].
Qed.
Lemma revoke_session_moves k t s : moves s (revoke_session k t s).
Proof.
  unfold revoke_session. destruct (sg_sessions s !! k) as [o|] eqn:Ek; [|reflexivity]. set (o' := MkOAuthSessionRow _ _). set (s' := set_sessions _ s).
  assert (grows s s') as G.
  { grow_one. apply persists_insert; [exact _|]. intros x Hx _. rewrite Ek in Hx. injection Hx as <-. split; [done|].
    split; [done|apply sticky_coalesce]. }
  split; [done|]. intros S. apply (sound_by s); try done; try unchanged S.
  apply (no_new_deaths_dead s); [done| |exact (sd_dead _ S)].
  split; [|exact (same_rows_insert (fun _ => tt) _ k o o' Ek eq_refl)]. intros d x Hx _ Hrev. left. by exists x.
Qed.
Lemma revoke_session_revoked k t s o : sg_sessions (revoke_session k t s) !! k = Some o -> is_Some (ow_revoked o).
Proof.
  unfold revoke_session. destruct (sg_sessions s !! k) as [x|] eqn:Ek; [|congruence]. cbn. rewrite lookup_insert_eq.
  intros [= <-]. cbn. by destruct (ow_revoked x).
Qed.
Lemma revokeBrowser_moves digest b now s s' : sg_browsers s !! digest = Some b ->
  revokeBrowser (scanBrowser digest b) now s = Ok s' -> moves s s' /\
  exists b', sg_browsers s' = <[digest := b']> (sg_browsers s) /\ erase_browser b' = erase_browser b /\ is_Some (bw_revoked b') /\
    (is_authenticated b -> dead_session s' b') /\ sg_foundation s' = sg_foundation s /\
    sg_challenges s' = sg_challenges s /\ sg_authentications s' = sg_authentications s.
Proof.
  intros Hb. unfold revokeBrowser. cbn [bse_Digest scanBrowser bse_State bse_TenantID bse_UserID bse_Reference]. rewrite Hb. intros Hr.
  apply rbind_ok in Hr as (s1 & H1' & Hr). step_inv. subst. set (b' := with_revoked b (Some (timestamptz now))).
  set (s1 := set_browsers _ s) in *.
  assert (browser_later b b') as HR by (split; [by split|done]).
  assert (grows s s1) as G1.
  { grow_one. apply persists_insert; [exact _|]. intros x Hx Hau. rewrite Hb in Hx. injection Hx as <-. by split. }
  assert (forall d x, sg_browsers s1 !! d = Some x -> is_Some (bw_revoked x) ->
            (exists b0, sg_browsers s !! d = Some b0 /\ erase_browser b0 = erase_browser x /\ is_Some (bw_revoked b0)) \/ x = b') as Hold.
  { intros d x. cbn. rewrite lookup_insert_Some. intros [[<- <-]|[_ Hx]] Hrev; [by right|left; by exists x]. }
  destruct (bw_state b != "AUTHENTICATED") eqn:Est; injection Hr as <-.
  - reflect_all. split; [|exists b'; split_and!; try done; by eexists].
    split; [done|]. intros S. apply (set_browsers_sound digest b b' s S Hb HR).
    split; [|apply same_rows_refl]. intros d x Hx Hau Hrev. destruct (Hold d x Hx Hrev) as [?| ->]; [by left|done].
  - set (k := (bw_tenant b, bw_user b, bw_reference b)). set (sr := revoke_session k now s).
    assert (revoke_session k now s1 = set_browsers (<[digest := b']> (sg_browsers sr)) sr) as ->.
    { unfold sr, revoke_session, s1. cbn. by destruct (sg_sessions s !! k). }
    assert (sg_browsers sr = sg_browsers s) as Eb by (unfold sr, revoke_session; by case_match).
    assert (sg_foundation sr = sg_foundation s /\ sg_challenges sr = sg_challenges s /\ sg_authentications sr = sg_authentications s)
      as [Ef [Ec Ea]] by (unfold sr, revoke_session; by case_match).
    destruct (revoke_session_moves k now s) as [Gr Sr]. fold sr in Gr, Sr. set (s2 := set_browsers _ sr).
    assert (dead_session s2 b') as Hdead by exact (fun _ o Ho => revoke_session_revoked k now s o Ho).
    split; [|exists b'; unfold s2; cbn; rewrite Eb; split_and!; try done; by eexists].
    assert (sg_browsers sr !! digest = Some b) as Hbr by (by rewrite Eb).
    assert (grows sr s2) as G2.
    { grow_one. apply persists_insert; [exact _|]. intros x Hx Hau. rewrite Hbr in Hx. injection Hx as <-. by split. }
    split; [by etransitivity|]. intros S. apply (set_browsers_sound digest b b' sr (Sr S) Hbr HR).
    split; [|apply same_rows_refl]. intros d x Hx Hau Hrev. unfold s2 in Hx. cbn in Hx. rewrite Eb in Hx.
    destruct (Hold d x Hx Hrev) as [(b0 & ? & ?)| ->]; [left; exists b0; by rewrite Eb|by right].
Qed.

(** A new session, alive, with an origin if it is authenticated. *)
Lemma new_browser_sound digest row s : sound s -> sg_browsers s !! digest = None -> bw_revoked row = None ->
  (is_authenticated row -> browser_origin s row) ->
  (forall d x, sg_browsers s !! d = Some x -> bw_reference x <> bw_reference row) ->
  let s' := set_browsers (<[digest := row]> (sg_browsers s)) s in grows s s' /\ sound s'.
Proof.
  intros S Hf Hn Ho Hu s'.
  assert (grows s s') as G by (grow_one; apply persists_fresh; [exact _|done]).
  split; [done|]. apply (sound_by s); try done; try unchanged S.
  - apply rows_from_new. intros Ha. eapply browser_origin_later; [exact G|done|by apply Ho].
  - apply (no_new_deaths_dead s); [done| |exact (sd_dead _ S)]. split; [|apply same_rows_refl].
    intros d x. cbn. rewrite lookup_insert_Some. intros [[<- <-]|[_ Hx]] _ Hrev; [rewrite Hn in Hrev; by destruct Hrev|].
    left. by exists x.
  - apply one_each_new; [exact Hu|exact (sd_reference _ S)].
Qed.
Lemma insert_browser_ok v s s' : insert_browser v s = Ok s' -> exists row,
  s' = set_browsers (<[bse_Digest v := row]> (sg_browsers s)) s /\ sg_browsers s !! bse_Digest v = None /\
  bw_revoked row = None /\ (bw_reference row, bw_transaction row, bw_state row, bw_tenant row, bw_user row) =
    (bse_Reference v, bse_TransactionID v, bse_State v, bse_TenantID v, bse_UserID v) /\
  (forall d x, sg_browsers s !! d = Some x -> bw_reference x <> bse_Reference v) /\
  is_Some (sg_transactions s !! bse_TransactionID v).
Proof.
  unfold insert_browser. intros Hi. step_inv. subst. eexists. split_and!; [reflexivity|done..| |by apply isSome_true].
  intros d x Hx He. match goal with Hc : forall k' y, _ -> bool_decide _ = false |- _ => specialize (Hc d x Hx); cbn in Hc end.
  by reflect_all.
Qed.
Lemma insert_pending_moves v s s' : bse_State v = "PENDING" -> insert_browser v s = Ok s' -> moves s s'.
Proof.
  intros Hp (row & -> & Hf & Hn & Ht & Hu & _)%insert_browser_ok. injection Ht as T1 T2 T3 T4 T5.
  split; [grow_one; apply persists_fresh; [exact _|done]|]. intros S. apply new_browser_sound; try done.
  - intros Ha. unfold is_authenticated in Ha. congruence.
  - by rewrite T1.
Qed.
Lemma same_reference s d d' b b' : sound s -> sg_browsers s !! d = Some b -> sg_browsers s !! d' = Some b' ->
  bw_reference b = bw_reference b' -> d = d' /\ b = b'.
Proof.
  intros S Hb Hb' E. assert (d = d') as -> by by eapply (sd_reference _ S). split; [done|congruence].
Qed.
(** A session signed in with a wallet, and the record of it. *)
Lemma sign_in_sound v a s s1 s2 : sound s -> insert_browser v s = Ok s1 -> insert_authentication (bse_Reference v) a s1 = Ok s2 ->
  authentication_origin s a -> nw_tenant a = bse_TenantID v -> nw_user a = bse_UserID v ->
  (forall w, sg_challenges s !! nw_challenge a = Some w -> chl_TransactionID (cw_challenge w) = bse_TransactionID v) ->
  grows s s2 /\ sound s2.
Proof.
  intros S (row & -> & Hf & Hn & Ht & Hu & _)%insert_browser_ok Hi Ho Hte Hus Htx. injection Ht as T1 T2 T3 T4 T5.
  unfold insert_authentication in Hi. step_inv. subst. rename H5 into Hfresh, H6 into Hother. cbn in Hfresh, Hother.
  set (sa := set_authentications (<[bse_Reference v := a]> (sg_authentications s)) s).
  assert (grows s sa) as G by (grow_one; apply persists_fresh; [exact _|done]).
  assert (sound sa) as Sa.
  { apply (sound_by s); try done; try unchanged S.
    - apply rows_from_new. by eapply authentication_origin_grows.
    - apply one_each_new; [|exact (sd_challenge _ S)]. intros k x Hx E. specialize (Hother k x Hx). by reflect_all. }
  destruct (new_browser_sound (bse_Digest v) row sa Sa Hf Hn) as [G2 S2]; [| |split; [by etransitivity|done]].
  - intros _. destruct Ho as (w & ver & Hw & _). exists a, w. cbn. rewrite T1, T2, T4, T5, lookup_insert_eq. split_and!; try done. by apply Htx.
  - by rewrite T1.
Qed.
Lemma ensure_session_sound k e s s' : sound s -> ensure_session k e s = Ok s' ->
  (forall d b, sg_browsers s !! d = Some b -> is_authenticated b -> is_Some (bw_revoked b) -> (bw_tenant b, bw_user b, bw_reference b) <> k) ->
  grows s s' /\ sound s'.
Proof.
  intros S He Hd. unfold ensure_session in He. destruct (sg_sessions s !! k) as [o|] eqn:Ek; step_inv; subst; [by split|].
  set (s' := set_sessions _ s). assert (grows s s') as G by (grow_one; apply persists_fresh; [exact _|done]).
  split; [done|]. apply (sound_by s); try done; try unchanged S.
  intros d b Hb Ha Hrev o. unfold s'. cbn. rewrite lookup_insert_Some. intros [[E _]|[_ Ho]]; [by destruct (Hd d b Hb Ha Hrev)|].
  by eapply (sd_dead _ S).
Qed.
Lemma ensure_session_same k e s s' : ensure_session k e s = Ok s' -> exists m, s' = set_sessions m s.
Proof.
  unfold ensure_session. destruct (sg_sessions s !! k); intros He; step_inv; subst; [exists (sg_sessions s'); by destruct s'|eauto].
Qed.
Lemma cleanup_moves (P : string * browser_row -> Prop) `{HPd : forall x, base.Decision (P x)} s :
  (forall d b, sg_browsers s !! d = Some b -> is_authenticated b -> P (d, b)) -> moves s (set_browsers (filter P (sg_browsers s)) s).
Proof.
  intros HP. set (s' := set_browsers _ s).
  assert (grows s s') as G.
  { grow_one. intros d b Hb Ha. exists b. split_and!; [|done|reflexivity]. apply map_lookup_filter_Some. split; [done|by apply HP]. }
  assert (same_rows erase_browser (sg_browsers s) (sg_browsers s')) as Hs.
  { intros d b Hb. apply map_lookup_filter_Some in Hb as [Hb _]. by exists b. }
  split; [done|]. intros S. apply (sound_by s); try done; try unchanged S.
  - by apply rows_from_same.
  - apply (no_new_deaths_dead s); [done| |exact (sd_dead _ S)]. split; [|apply same_rows_refl].
    intros d b Hb _ Hr. apply map_lookup_filter_Some in Hb as [Hb _]. left. by exists b.
  - eapply (one_each_same erase_browser); [|exact Hs|exact (sd_reference _ S)]. intros x y Exy. exact (f_equal bw_reference Exy).
Qed.

(** * People with access to the database *)
(** The versions of a wallet are permanent, and a wallet is at its last one: the
    triggers of the wallet tables see to it. *)
Definition authority_step (f f' : Foundation) : Prop :=
  persists always eq (fd_versions f) (fd_versions f') /\ (wallets_current f -> wallets_current f').
Lemma set_authority_moves f status enrollments s : authority_step (sg_foundation s) f -> moves s (set_authority f status enrollments s).
Proof.
  intros [Hv Hw]. set (s' := set_authority _ _ _ s). assert (grows s s') as G by (grow_one; exact Hv).
  split; [done|]. intros S. apply (sound_by s); try done; try unchanged S. apply Hw, (sd_wallets _ S).
Qed.
End moves.

(** Every method of the sign-in repositories keeps the tables sound:
    [carries] is what each transaction does to them. *)

Section methods.
Context `{EthCommon} `{UnicodeTables} `{EthCrypto} `{EthSignatures} `{NetUrl} `{PgTimestamp}.
Implicit Types (s : SignIn) (ck : nat -> Time).

Definition carries s s' : Prop := sound s -> grows s s' /\ sound s'.
#[export] Instance carries_preorder : PreOrder carries.
Proof.
  split; [by intros s S|]. intros s1 s2 s3 C1 C2 S1. destruct (C1 S1) as [G1 S2]. destruct (C2 S2) as [G2 S3].
  split; [by etransitivity|done].
Qed.
Lemma moves_carries s s' : moves s s' -> carries s s'.
Proof. intros [G S] Hs. auto. Qed.
Lemma keeps_tx {Y} (q : statement SignIn Y) : keeps_statement carries q -> keeps carries (oauthTx q).
Proof. intros Hq. by split. Qed.
Lemma keeps_read {Y} (f : SignIn -> option Y) : keeps carries (raw_statement (select_row f)).
Proof. apply keeps_tx, keeps_select. exact _. Qed.

(** * Browser sessions *)
Lemma CreateBrowserSession_keeps ck v : keeps carries (CreateBrowserSession ck v).
Proof.
  unfold CreateBrowserSession. case_match eqn:E; [done|]. apply keeps_tx. intros s y s' Hq. step_inv. subst.
  do 3 apply orb_false_iff in E as [E _]. apply moves_carries. eapply insert_pending_moves; [|eassumption]. by reflect_all.
Qed.
Lemma RevokeBrowserSession_keeps ck digest proof : keeps carries (RevokeBrowserSession ck digest proof).
Proof.
  apply keeps_tx. intros s y s' Hq. step_inv. subst. apply lock_by_digest in Hr as (b & Hb & -> & _).
  apply moves_carries. by eapply revokeBrowser_moves.
Qed.
Lemma complete_transaction_browsers id t s s' : complete_transaction id t s = Ok s' -> sg_browsers s' = sg_browsers s.
Proof. unfold complete_transaction. intros Hc. case_match; step_inv; by subst. Qed.
Lemma DenyBrowserConsent_keeps ck digest proof : keeps carries (DenyBrowserConsent ck digest proof).
Proof.
  apply keeps_tx. intros s y s' Hq. step_inv. apply lock_by_digest in Hr as (b & Hb & -> & _).
  match goal with Hc : complete_transaction _ _ _ = Ok ?s1 |- _ => pose proof (complete_transaction_browsers _ _ _ _ Hc) as Eb;
    transitivity s1; [by eapply moves_carries, complete_transaction_moves|] end.
  rewrite Eb, Hb in Hq. step_inv. subst. eapply moves_carries, decide_browser_moves; [|eassumption]. by rewrite Eb.
Qed.
Lemma CleanupBrowserSessions_keeps ck : keeps carries (CleanupBrowserSessions ck).
Proof.
  apply keeps_tx. intros s y s' Hq. step_inv. subst. apply moves_carries, cleanup_moves. intros d b _ Ha (Hp & _).
  unfold is_authenticated in Ha. cbn in Hp. congruence.
Qed.

(** * Wallet sign-in *)
Lemma IssueSIWE_keeps ck entropy r : keeps carries (IssueSIWE ck entropy r).
Proof.
  apply keeps_tx. intros s y s' Hq. step_inv. subst.
  by eapply moves_carries, insert_challenge_moves.
Qed.
Lemma FindBrowserAuthentication_keeps ck v : keeps carries (FindBrowserAuthentication ck v).
Proof. apply keeps_tx. intros s y s' Hq. step_inv. subst. reflexivity. Qed.

Lemma bindings_of_ok tenant address s binding w : (binding, w) ∈ bindings_of tenant address s ->
  fd_wallets (sg_foundation s) !! (tenant, binding) = Some w /\ ToLower (wr_address w) = ToLower address.
Proof.
  unfold bindings_of. intros ([[t b] w'] & Hin & Hw)%list_elem_of_omap. cbn in Hw.
  destruct (_ && _ && _) eqn:E; [|done]. injection Hw as <- <-. reflect_all. subst. split; [by apply elem_of_map_to_list|done].
Qed.
Lemma sign_in_owner_ok tenant c clock s binding w i : sign_in_owner tenant c clock s = Ok (binding, w, i) ->
  fd_wallets (sg_foundation s) !! (tenant, binding) = Some w /\ ToLower (wr_address w) = ToLower (chl_Address c).
Proof.
  unfold sign_in_owner. intros Ho. destruct (bindings_of _ _ _) as [|[b' w'] [|]] eqn:E; try done. step_inv.
  simplify_eq. apply bindings_of_ok. rewrite E. by left.
Qed.

(** What a finalization that went through found. *)
Record finalizable (s : SignIn) (r : WalletRequest) (id signature : string) (digest : string) (b : browser_row) (w : challenge_row)
    (binding : string) (wallet : wallet_row) : Prop := {
  fz_browser : sg_browsers s !! digest = Some b;
  fz_challenge : sg_challenges s !! id = Some w;
  fz_transaction : chl_TransactionID (cw_challenge w) = bw_transaction b;
  fz_tenant : chl_TenantID (cw_challenge w) = wq_TenantID r;
  fz_message : Message (cw_challenge w) = Ok (chl_Message (cw_challenge w));
  fz_signature : Verify (chl_Message (cw_challenge w)) (chl_Address (cw_challenge w)) signature = Ok tt;
  fz_wallet : fd_wallets (sg_foundation s) !! (wq_TenantID r, binding) = Some wallet;
  fz_address : ToLower (wr_address wallet) = ToLower (chl_Address (cw_challenge w))
}.
Lemma authentication_origin_here s r id signature digest b w binding wallet t now s' :
  finalizable s r id signature digest b w binding wallet -> wallets_current (sg_foundation s) ->
  chl_Purpose (cw_challenge w) <> "ENROLL" -> sg_foundation s' = sg_foundation s ->
  sg_challenges s' = <[id := MkChallengeRow (cw_challenge w) (Some t)]> (sg_challenges s) ->
  authentication_origin s' (MkAuthenticationRow id (wq_TenantID r) (wr_user_id wallet) binding (wr_version wallet) now).
Proof.
  intros F Hw Hp Ef Ec. destruct (Hw _ _ _ (fz_wallet _ _ _ _ _ _ _ _ _ F)) as (v & Hv & Hu & Ha).
  exists (MkChallengeRow (cw_challenge w) (Some t)), v. cbn. rewrite Ec, Ef, lookup_insert_eq. split_and!; try done.
  - split; [apply F|]. exists signature. apply F.
  - by rewrite (fz_tenant _ _ _ _ _ _ _ _ _ F).
  - by rewrite Ha, (fz_address _ _ _ _ _ _ _ _ _ F).
Qed.
Lemma finalize_carries s r id signature digest b w binding wallet t now s1 s2 s3 s4 n :
  finalizable s r id signature digest b w binding wallet -> chl_Purpose (cw_challenge w) <> "ENROLL" ->
  moves s s1 -> s1 = set_challenges (<[id := MkChallengeRow (cw_challenge w) (Some t)]> (sg_challenges s)) s ->
  revokeBrowser (scanBrowser digest b) now s1 = Ok s2 -> insert_browser n s2 = Ok s3 ->
  insert_authentication (bse_Reference n)
    (MkAuthenticationRow id (wq_TenantID r) (wr_user_id wallet) binding (wr_version wallet) (timestamptz now)) s3 = Ok s4 ->
  bse_TenantID n = wq_TenantID r -> bse_UserID n = wr_user_id wallet -> bse_TransactionID n = bw_transaction b -> carries s s4.
Proof.
  intros F Hp [G1 S1] E1 Hr Hi Ha Ht Hu Hx S. assert (sg_browsers s1 !! digest = Some b) as Hb by (rewrite E1; apply F).
  destruct (revokeBrowser_moves digest b now s1 s2 Hb Hr) as ([G2 S2] & b' & _ & _ & _ & _ & Ef & Ec & _).
  destruct (sign_in_sound n _ s2 s3 s4 (S2 (S1 S)) Hi Ha) as [G3 S3]; [|done..|intros x|].
  - eapply (authentication_origin_here s); [exact F|apply S|done|by rewrite Ef, E1|]. rewrite Ec, E1. done.
  - cbn. rewrite Ec, E1. cbn. rewrite lookup_insert_eq. intros [= <-]. cbn. rewrite (fz_transaction _ _ _ _ _ _ _ _ _ F). done.
  - split; [|done]. by do 2 (etransitivity; [eassumption|]).
Qed.
Lemma FinalizeSIWE_tx_carries ck r id signature next : keeps_statement carries (FinalizeSIWE_tx ck r id signature next).
Proof.
  intros s y s' Hq. unfold FinalizeSIWE_tx in Hq. step_inv.
  match goal with Hv : lockBrowser _ _ = Ok _ |- _ => apply lock_by_digest in Hv as (b & Hb & -> & _) end.
  match goal with Hc : (_ ← _; _) = Some _ |- _ => apply bind_Some in Hc as (w0 & Hw0 & Hc); destruct (isSome (cw_consumed w0)); [done|];
    injection Hc as <- end.
  match goal with Ho : sign_in_owner _ _ _ _ = Ok _ |- _ => apply sign_in_owner_ok in Ho as [Hwal Hadr] end.
  match goal with Hm : Message _ = Ok ?m, He : negb (bool_decide (?m = _)) = false |- _ => apply negb_false_iff, bool_decide_eq_true in He; rewrite He in Hm; rename Hm into Hmsg end.
  match goal with Hg : (_ || _ || negb (bool_decide (chl_TenantID _ = _))) = false |- _ =>
    apply orb_false_iff in Hg as [[_ Htx]%orb_false_iff Hte]; apply negb_false_iff, bool_decide_eq_true in Htx, Hte; cbn in Htx end.
  match goal with Hv : Verify _ _ _ = Ok _ |- _ => rename Hv into Hver end.
  match goal with Hc : consume_challenge _ _ _ = Ok _ |- _ => apply consume_challenge_moves in Hc as [M1 E1] end.
  destruct (E1 w0 Hw0) as [t Es1].
  pose proof (Build_finalizable s r id signature _ b w0 _ w Hb Hw0 Htx Hte Hmsg Hver Hwal Hadr) as F.
  destruct (chl_Purpose (cw_challenge w0) == "ENROLL") eqn:Ep.
  - step_inv. subst s'. etransitivity; [by apply moves_carries|]. by eapply moves_carries, insert_proof_moves.
  - step_inv. subst s'. apply bool_decide_eq_false in Ep.
    eapply (finalize_carries s r id signature); [exact F|done|exact M1|exact Es1|eassumption..|done|done|done].
Qed.
Lemma FinalizeSIWE_keeps ck r id signature next : keeps carries (FinalizeSIWE ck r id signature next).
Proof. apply keeps_mtry; [|done]. apply keeps_tx, FinalizeSIWE_tx_carries. Qed.

(** * OAuth *)
Lemma RegisterOAuthClient_keeps c : keeps carries (RegisterOAuthClient c).
Proof.
  unfold RegisterOAuthClient. case_match; [done|]. apply keeps_tx. intros s y s' Hq. unfold CreateOAuthClient in Hq. step_inv. subst.
  apply moves_carries, set_clients_moves.
Qed.
Lemma CreateOAuthTransaction_keeps t : keeps carries (CreateOAuthTransaction t).
Proof.
  apply keeps_tx. intros s y s' Hq. step_inv. subst. apply moves_carries, set_transactions_moves. congruence.
Qed.
Lemma ValidateOAuthToken_keeps digest now : keeps carries (ValidateOAuthToken digest now).
Proof.
  apply keeps_mtry; [apply keeps_read|]. intros t. apply keeps_mtry; [|done]. apply keeps_tx. by intros s y s' [= _ <-].
Qed.
Lemma RevokeOAuthAuthority_keeps ck r : keeps carries (RevokeOAuthAuthority ck r).
Proof.
  unfold RevokeOAuthAuthority. case_match; [done|]. apply keeps_tx. intros s y s' Hq. step_inv. case_match; [|case_match]; step_inv; subst.
  - etransitivity; [by eapply moves_carries, revoked_consent_moves|by eapply moves_carries, insert_audit_moves].
  - etransitivity; [by eapply moves_carries, revoked_token_moves|by eapply moves_carries, insert_audit_moves].
  - etransitivity; [apply moves_carries, revoke_session_moves|apply moves_carries, set_audit_moves].
Qed.

(** ** Redemption *)
Lemma redeemable_ok digest s k u o : redeemable digest s = Some (k, u, o) ->
  sg_codes s !! digest = Some k /\ kw_consumed k = None.
Proof.
  unfold redeemable. intros Hr. repeat (apply bind_Some in Hr as (? & ? & Hr)). destruct (_ && _) eqn:E; [|done].
  injection Hr as <- <- <-. split; [done|]. reflect_all. by destruct (kw_consumed _).
Qed.
Lemma RedeemOAuthCode_keeps ck r : (exists code, Digest code = rdm_CodeDigest r) -> (exists verifier, Digest verifier = rdm_Challenge r) ->
  keeps carries (RedeemOAuthCode ck r).
Proof.
  intros [code Hcode] [verifier Hver]. apply keeps_tx. intros s y s' Hq. step_inv.
  match goal with Hr : redeemable _ _ = Some _ |- _ => apply redeemable_ok in Hr as [Hk Hn] end.
  match goal with Hg : (_ || _ || _ || _ || _) = false |- _ => do 4 apply orb_false_iff in Hg as [Hg _];
    apply negb_false_iff, bool_decide_eq_true in Hg; rename Hg into Hch end.
  match goal with Hc : consume_code _ _ _ = Ok ?x |- _ => rename x into s1; rename Hc into Hcons end.
  match goal with Hc : insert_token _ _ = Ok ?x |- _ => rename x into s2; rename Hc into Htok end. subst s'.
  intros S. destruct (consume_code_moves (rdm_CodeDigest r) (ck 0%nat) s s1 c Hk) as ([G1 S1] & k' & Hk' & Ek & Hcs & Et); [by exists code, verifier; rewrite Hch|done|].
  assert (forall t, token_consent t = consent_key c -> tok_SessionID t = kw_session c -> tok_ClientID t = kw_client c ->
            tok_Resource t = kw_resource c -> tok_Scope t = kw_scope c -> insert_token t s1 = Ok s2 -> grows s1 s2 /\ sound s2) as Hins.
  { intros t F1 F2 F3 F4 F5 Hi. apply (insert_token_sound t); [by apply S1|done| |].
    - split; [done|]. exists (rdm_CodeDigest r), k'. injection Ek as E1 E2 E3 E4 E5 E6 E7 E8 E9 E10 E11 E12.
      unfold from_code, consent_key in *. split_and!; try done; congruence.
    - intros d row Hd E. rewrite Et in Hd. destruct (sd_tokens _ S d row Hd) as (_ & cd & kk & Hkk & Hsp & (F & _)).
      assert (cd = rdm_CodeDigest r) as -> by (eapply (sd_consent _ S); [done..|]; congruence).
      rewrite Hk in Hkk. injection Hkk as <-. rewrite Hn in Hsp. by destruct Hsp. }
  edestruct Hins as [G2 S2]; [| | | | |exact Htok|]; [reflexivity..|].
  match goal with Ha : insert_audit _ _ _ _ _ _ _ = Ok _ |- _ => apply insert_audit_moves in Ha as [G3 S3] end.
  split; [|by apply S3]. by do 2 (etransitivity; [eassumption|]).
Qed.

(** ** Consent *)
Lemma insert_code_frame digest k s s' : insert_code digest k s = Ok s' -> exists m, s' = set_codes m s /\
  forall s0, sg_codes s0 = sg_codes s -> sg_consents s0 = sg_consents s -> sg_transactions s0 = sg_transactions s ->
  insert_code digest k s0 = Ok (set_codes m s0).
Proof.
  intros Hi. pose proof Hi as Hi'. unfold insert_code in Hi'. step_inv. subst. eexists. split; [reflexivity|].
  intros s0 E1 E2 E3. unfold insert_code in *. rewrite E1, E2, E3.
  destruct (constrained _); [|done]. cbn in *. destruct (unique _ _ _); [|done]. cbn in *. destruct (referenced _); [|done]. done.
Qed.
Lemma complete_transaction_frame id t s s' : complete_transaction id t s = Ok s' -> exists m, s' = set_transactions m s /\
  forall s0, sg_transactions s0 = sg_transactions s -> complete_transaction id t s0 = Ok (set_transactions m s0).
Proof.
  unfold complete_transaction. destruct (sg_transactions s !! id) as [r|] eqn:Er; intros Hc.
  - apply rbind_ok in Hc as (m & Hm & [= <-]). eexists. split; [reflexivity|]. intros s0 E. rewrite E, Er, Hm. done.
  - injection Hc as <-. exists (sg_transactions s). split; [by destruct s|]. intros s0 E. rewrite E, Er. destruct s0. cbn in *. by subst.
Qed.
Lemma decide_browser_frame digest b decision s s' : decide_browser digest b decision s = Ok s' ->
  s' = set_browsers (<[digest := with_decision b decision]> (sg_browsers s)) s /\
  forall s0, decide_browser digest b decision s0 = Ok (set_browsers (<[digest := with_decision b decision]> (sg_browsers s0)) s0).
Proof.
  unfold decide_browser. intros Hd. apply rbind_ok in Hd as ([] & E1 & Hd). apply rbind_ok in Hd as ([] & E2 & Hd).
  injection Hd as <-. split; [done|]. intros s0. by rewrite E1, E2.
Qed.
Lemma by_reference_same reference s s' : sg_browsers s' = sg_browsers s -> browser_by_reference reference s' = browser_by_reference reference s.
Proof. unfold browser_by_reference. by intros ->. Qed.

(** A code for a session, whose grant is recorded with it. *)
Lemma granted_sound s digest b code k s1 s2 s3 t issued :
  sound s -> sg_browsers s !! digest = Some b -> is_authenticated b -> bw_decision b = "OPEN" ->
  bw_reference b = kw_session k -> bw_transaction b = kw_transaction k -> bw_tenant b = kw_tenant k -> bw_user b = kw_user k ->
  sg_transactions s !! kw_transaction k = Some t -> tw_client t = kw_client k -> tw_redirect t = kw_redirect k ->
  tw_challenge t = kw_challenge k -> is_Some (sg_consents s !! consent_key k) -> kw_consumed k = None ->
  (forall d k', sg_codes s !! d = Some k' -> consent_key k' <> consent_key k) ->
  insert_code code k s = Ok s1 -> complete_transaction (kw_transaction k) issued s1 = Ok s2 ->
  decide_browser digest b "GRANTED" s2 = Ok s3 -> grows s s3 /\ sound s3.
Proof.
  intros S Hb Hau Hop E1 E2 E3 E4 Ht E5 E6 E7 Hcon Hn Hfresh Hi Hc Hd.
  destruct (insert_code_frame _ _ _ _ Hi) as (mc & -> & Fc). destruct (complete_transaction_frame _ _ _ _ Hc) as (mt & -> & Ft).
  destruct (decide_browser_frame _ _ _ _ _ Hd) as [-> Fd].
  set (sd := set_browsers (<[digest := with_decision b "GRANTED"]> (sg_browsers s)) s).
  destruct (decide_browser_moves digest b "GRANTED" s sd Hb (Fd s)) as [Gd Sd].
  assert (grows sd (set_codes mc sd) /\ sound (set_codes mc sd)) as [G1 S1].
  { apply (insert_code_sound code k); [by apply Sd|by apply Fc|done| |].
    - split_and!; [|by exists t|done]. exists digest, (with_decision b "GRANTED"). cbn. rewrite lookup_insert_eq. done.
    - intros d k' Hk'. split; [by eapply Hfresh|]. intros E. destruct (sd_codes _ S d k' Hk') as ((d' & b' & Hb' & _ & Hg & Hr & _) & _).
      destruct (same_reference s digest d' b b' S Hb Hb') as [_ ->]; [congruence|]. rewrite Hop in Hg. done. }
  destruct (complete_transaction_moves _ _ _ _ (Ft (set_codes mc sd) eq_refl)) as [G2 S2].
  split; [|by apply S2]. etransitivity; [exact Gd|]. etransitivity; [exact G1|exact G2].
Qed.
Lemma decided_session_ok ck t d k s bs : decided_session ck t d k s = Ok bs -> bdc_BrowserSessionReference d <> "" ->
  exists digest b, browser_by_reference (bdc_BrowserSessionReference d) s = Some (digest, b) /\ bs = Some (scanBrowser digest b) /\
  bw_revoked b = None /\ is_authenticated b /\ bw_decision b = "OPEN" /\ bw_transaction b = trx_ID t /\
  bw_reference b = cod_SessionID k /\ bw_tenant b = cod_TenantID k /\ bw_user b = cod_UserID k.
Proof.
  unfold decided_session. intros Hd Hr. destruct (_ == "") eqn:E; [by apply bool_decide_eq_true in E|]. step_inv.
  match goal with Hl : lockBrowser _ _ = Ok _ |- _ => apply lockBrowser_ok in Hl as (digest & b & Hb & -> & Hrev) end.
  exists digest, b. cbn in *. repeat match goal with Hg : (_ || _) = false |- _ => apply orb_false_iff in Hg as [Hg ?] end.
  reflect_all. done.
Qed.
Lemma open_transaction_ok id issued s row : open_transaction id issued s = Some row -> sg_transactions s !! id = Some row.
Proof.
  unfold open_transaction. intros Ho. apply bind_Some in Ho as (t & Ht & Ho). apply bind_Some in Ho as (c & _ & Ho).
  destruct (_ && _); [|done]. by injection Ho as <-.
Qed.
Lemma insert_consent_ok k u s s' : insert_consent k u s = Ok s' -> s' = set_consents (<[k := u]> (sg_consents s)) s /\ sg_consents s !! k = None.
Proof. unfold insert_consent. intros Hi. step_inv. by subst. Qed.
Lemma CompleteOAuthAuthorization_keeps ck t d k : bdc_BrowserSessionReference d <> "" -> keeps carries (CompleteOAuthAuthorization ck t d k).
Proof.
  intros Href. apply keeps_tx. intros s y s' Hq. step_inv.
  match goal with Hd : decided_session _ _ _ _ _ = Ok _ |- _ => apply (fun h => decided_session_ok _ _ _ _ _ _ h Href) in Hd
    as (digest & b & Hby & -> & Hrev & Hau & Hop & Etx & Eref & Ete & Eus) end.
  destruct (by_reference_ok _ _ _ _ Hby) as [Hb _].
  match goal with Ho : open_transaction _ _ _ = Some ?x |- _ => apply open_transaction_ok in Ho as Htr; rename x into row end.
  match goal with Hg : (_ || _ || negb (bool_decide (cod_TransactionID k = _)) || _ || _) = false |- _ =>
    do 2 apply orb_false_iff in Hg as [Hg _]; apply orb_false_iff in Hg as [_ Hg]; apply negb_false_iff, bool_decide_eq_true in Hg;
    rename Hg into Hktx end.
  match goal with He : ensure_session _ _ _ = Ok ?x |- _ => rename He into Hens; rename x into s1 end.
  match goal with He : insert_consent _ _ _ = Ok ?x |- _ => rename He into Hcon; rename x into s2 end.
  match goal with He : insert_code _ _ _ = Ok ?x |- _ => rename He into Hcod; rename x into s3 end.
  match goal with He : complete_transaction _ _ _ = Ok ?x |- _ => rename He into Hcom; rename x into s4 end.
  match goal with He : insert_audit _ _ _ _ _ _ _ = Ok ?x |- _ => apply insert_audit_moves in He as [G6 S6] end.
  match goal with He : (match browser_by_reference _ s4 with _ => _ end) = Ok ?x |- _ => rename He into Hdec; rename x into s5 end.
  subst s'. intros S.
  destruct (ensure_session_same _ _ _ _ Hens) as [m Es1].
  destruct (ensure_session_sound _ _ _ _ S Hens) as [G1 S1].
  { intros d' b' Hb' _ Hrev' E. injection E as _ _ E. destruct (same_reference s digest d' b b' S Hb Hb') as [_ <-]; [congruence|].
    rewrite Hrev in Hrev'. by destruct Hrev'. }
  destruct (insert_consent_moves _ _ _ _ Hcon) as [[G2 S2] Hc2]. destruct (insert_consent_ok _ _ _ _ Hcon) as [Es2 Hfresh].
  destruct (insert_code_frame _ _ _ _ Hcod) as (mc & Es3 & _). destruct (complete_transaction_frame _ _ _ _ Hcom) as (mt & Es4 & _).
  assert (sg_browsers s4 = sg_browsers s) as Eb by (by rewrite Es4, Es3, Es2, Es1).
  rewrite (by_reference_same _ s s4 Eb), Hby in Hdec.
  destruct (granted_sound s2 digest b (cod_Digest k) (MkCodeRow (trx_ID t) (cod_TenantID k) (cod_UserID k) (cod_ConsentID k) (cod_SessionID k)
     (tw_client row) (tw_redirect row) (tw_resource row) (tw_scope row) (tw_challenge row) (timestamptz (cod_IssuedAt k))
     (timestamptz (cod_ExpiresAt k)) None) s3 s4 s5 row (cod_IssuedAt k)) as [G5 S5]; try done.
  - by apply S2.
  - by rewrite Es2, Es1.
  - by rewrite Es2, Es1.
  - rewrite Es2, Es1. cbn. intros d' k' Hk' E. destruct (sd_codes _ S d' k' Hk') as (_ & _ & [u Hu]). rewrite E in Hu.
    rewrite Es1 in Hfresh. cbn in Hfresh. unfold consent_key in Hu. cbn in Hu. congruence.
  - split; [|by apply S6]. etransitivity; [exact G1|]. etransitivity; [exact G2|]. etransitivity; [exact G5|exact G6].
Qed.
End methods.
