(* ===== verification/SignInSessions.v ===== *)
(** Sign-in end to end: the services of internal/oauth, internal/browser and
    internal/siwe over the store, any number of calls interleaved with one
    another, with faults and with people administering the database — and what
    stands behind a token that is accepted. *)
From S2P Require Import Prelude GoStrings GoText GoTime Sha256 AppErrors Contracts Deployments Auth Wallet GoBase64.
From S2P Require Import Storage Policies Statements Database Foundation Siwe OAuthModel SignInTables SignInStore.
From S2P Require Import SignInService SignInSafety SignInMoves Sessions.
Open Scope string_scope.
Open Scope Z_scope.
Open Scope go_scope.

(** What a call reads: the service clock, the clock within its transaction and
    [rand.Read]. *)
Record readings := MkReadings { rd_now : nat -> Time; rd_store : nat -> Time; rd_entropy : nat -> result string }.

Inductive sign_in_call : Type :=
  | CallRegister (c : Client)
  | CallBegin (r : AuthorizationRequest)
  | CallStart (t : Transaction)
  | CallView (raw : string)
  | CallAuthenticate (raw token : string)
  | CallChallenge (raw token address : string)
  | CallVerifyWallet (raw token id signature : string)
  | CallGrant (raw token : string)
  | CallDeny (raw token : string)
  | CallLogout (raw token : string)
  | CallExchange (x : Exchange)
  | CallVerifyToken (raw : string)
  | CallRevoke (decision : option (result BrowserDecision)) (r : Revocation)
  | CallCleanup
  | CallAdminister (q : statement SignIn unit).
(** What a call answered: a principal, or whether it went through. *)
Inductive sign_in_answer : Type := AnswerPrincipal (r : result AuthenticatedPrincipal) | AnswerDone (ok : bool).

Section sign_in.
Context `{EthCommon} `{UnicodeTables} `{EthCrypto} `{EthSignatures} `{NetUrl} `{PgTimestamp}.

(** ** The store behind the interfaces *)
Section program.
Variables (wallet : WalletService) (rd : readings).
Abbreviation ck := (rd_store rd).

#[local] Instance store_oauth : OAuthRepository SignIn := {|
  or_FindClient := FindOAuthClient; or_CreateTransaction := CreateOAuthTransaction; or_FindTransaction := FindOAuthTransaction;
  or_CompleteAuthorization := CompleteOAuthAuthorization ck; or_RedeemCode := RedeemOAuthCode ck;
  or_ValidateToken := ValidateOAuthToken; or_RevokeAuthority := RevokeOAuthAuthority ck |}.
#[local] Instance store_catalog : Catalog SignIn := {|
  ca_FindTransaction := FindOAuthTransaction; ca_FindClient := FindOAuthClient |}.
#[local] Instance store_browser : BrowserRepository SignIn := {|
  br_Create := CreateBrowserSession ck; br_Find := FindBrowserSession; br_Rotate := RotateBrowserSession ck;
  br_Revoke := RevokeBrowserSession ck; br_Deny := DenyBrowserConsent ck; br_Cleanup := CleanupBrowserSessions ck;
  br_FindAuthentication := Some (FindBrowserAuthentication ck) |}.
#[local] Instance store_siwe : SiweRepository SignIn := {| sr_Issue := IssueSIWE ck (rd_entropy rd); sr_Finalize := FinalizeSIWE ck |}.
#[local] Instance flow : OAuthFlow SignIn := {|
  fl_Begin := Begin (rd_now rd) (rd_entropy rd); fl_CompleteRedirect := CompleteRedirect (rd_now rd) (rd_entropy rd) |}.

Definition answered {A} (m : method SignIn (result A)) : method SignIn sign_in_answer := mbind m (fun r => Return (AnswerDone (is_ok r))).
(** The production wiring of cmd/server: a wallet service and no login verifier. *)
Definition sign_in_program (call : sign_in_call) : method SignIn sign_in_answer :=
  let ports := wallet_ports wallet in
  match call with
  | CallRegister c => answered (RegisterOAuthClient c)
  | CallBegin r => answered (fl_Begin r)
  | CallStart t => answered (Start (rd_now rd) (rd_entropy rd) t)
  | CallView raw => answered (View ports (rd_now rd) raw)
  | CallAuthenticate raw token => answered (Authenticate ports (rd_now rd) (rd_entropy rd) raw token)
  | CallChallenge raw token address => answered (ChallengeWallet ports (rd_now rd) raw token address)
  | CallVerifyWallet raw token id signature => answered (VerifyWallet ports (rd_now rd) (rd_entropy rd) raw token id signature)
  | CallGrant raw token => answered (Grant ports (rd_now rd) raw token)
  | CallDeny raw token => answered (Deny (rd_now rd) raw token)
  | CallLogout raw token => answered (Logout (rd_now rd) raw token)
  | CallExchange x => answered (Exchange_ (rd_now rd) (rd_entropy rd) x)
  | CallVerifyToken raw => mbind (VerifyToken (rd_now rd) raw) (fun r => Return (AnswerPrincipal r))
  | CallRevoke decision r => answered (Revoke (rd_now rd) (match decision with Some d => Some (fun _ => Return d) | None => None end) r)
  | CallCleanup => answered br_Cleanup
  | CallAdminister q => answered (raw_statement q)
  end.

(** ** Every call keeps the tables sound *)
Lemma keeps_or_error {A} e (m : method SignIn (result A)) : keeps carries m -> keeps carries (or_error e m).
Proof. intros Hm. by apply keeps_mbind. Qed.
Lemma keeps_answered {A} (m : method SignIn (result A)) : keeps carries m -> keeps carries (answered m).
Proof. intros Hm. by apply keeps_mbind. Qed.
(** What a step is known to answer. *)
Lemma keeps_mtry_yields {A B} (m : method SignIn (result A)) (f : A -> method SignIn (result B)) (P : A -> Prop) :
  keeps carries m -> yields m P -> (forall a, P a -> keeps carries (f a)) -> keeps carries (mtry m f).
Proof.
  unfold mtry, yields. intros Hm Hy Hf. induction m as [r|Y q k IH]; cbn in *.
  - destruct r as [a|e]; [by apply Hf, Hy|done].
  - destruct Hm as [Hq Hk]. split; [done|]. intros r. apply IH; [apply Hk|apply Hy].
Qed.
Lemma FindOAuthClient_keeps id : keeps carries (FindOAuthClient id).
Proof. apply keeps_read. Qed.
Lemma FindOAuthTransaction_keeps id : keeps carries (FindOAuthTransaction id).
Proof. apply keeps_read. Qed.
Lemma FindBrowserSession_keeps digest : keeps carries (FindBrowserSession digest).
Proof. apply keeps_read. Qed.
Ltac keeps_sign_in :=
  repeat (intros; first
    [ match goal with |- True => exact I end
    | match goal with |- keeps _ (Return _) => exact I end
    | simple apply keeps_plain
    | simple apply keeps_or_error
    | simple apply keeps_mtry
    | simple apply FindOAuthClient_keeps | simple apply FindOAuthTransaction_keeps | simple apply FindBrowserSession_keeps
    | simple apply CreateBrowserSession_keeps | simple apply RevokeBrowserSession_keeps | simple apply DenyBrowserConsent_keeps
    | simple apply CleanupBrowserSessions_keeps | simple apply IssueSIWE_keeps | simple apply FinalizeSIWE_keeps
    | simple apply FindBrowserAuthentication_keeps | simple apply RegisterOAuthClient_keeps
    | simple apply CreateOAuthTransaction_keeps | simple apply ValidateOAuthToken_keeps | simple apply RevokeOAuthAuthority_keeps
    | progress cbn [or_FindClient or_CreateTransaction or_FindTransaction or_CompleteAuthorization or_RedeemCode or_ValidateToken
        or_RevokeAuthority ca_FindTransaction ca_FindClient br_Create br_Find br_Rotate br_Revoke br_Deny br_Cleanup
        br_FindAuthentication sr_Issue sr_Finalize fl_Begin fl_CompleteRedirect store_oauth store_catalog store_browser store_siwe flow]
    | match goal with |- keeps _ (match ?x with _ => _ end) => destruct x end
    | progress cbv zeta ]).
Lemma load_keeps now n raw : keeps carries (load now n raw).
Proof. unfold load. keeps_sign_in. Qed.
Lemma proof_keeps now n raw token : keeps carries (proof now n raw token).
Proof. unfold proof. keeps_sign_in. apply load_keeps. Qed.
Lemma transaction_keeps now n v : keeps carries (transaction now n v).
Proof. unfold transaction. keeps_sign_in. Qed.
Lemma AuthorizeBrowser_keeps now raw token t : keeps carries (AuthorizeBrowser now raw token t).
Proof. unfold AuthorizeBrowser. keeps_sign_in; [apply proof_keeps|apply transaction_keeps]. Qed.
Definition own_reference (d : BrowserDecision) : Prop := bdc_BrowserSessionReference d = bdc_SessionID d.
Lemma AuthorizeBrowser_yields now raw token t : yields (AuthorizeBrowser now raw token t) own_reference.
Proof.
  unfold AuthorizeBrowser. do 4 (apply yields_step; intros ?). apply yields_return. intros d Hd. apply rbind_ok in Hd as (p & _ & [= <-]). done.
Qed.
Lemma yields_or_error {A} e (m : method SignIn (result A)) P : yields m P -> yields (or_error e m) P.
Proof.
  intros Hm. eapply returns_mbind; [exact Hm|]. intros [a|x] Ha b; cbn; [intros [= <-]; by apply Ha|done].
Qed.
Lemma CompleteRedirect_keeps id authorize : (forall t, keeps carries (authorize t)) -> (forall t, yields (authorize t) own_reference) ->
  keeps carries (CompleteRedirect (rd_now rd) (rd_entropy rd) id (Some authorize)).
Proof.
  intros Hk Hy. unfold CompleteRedirect. keeps_sign_in. unfold Complete. apply keeps_mtry; [keeps_sign_in|].
  intros t'. apply keeps_mtry; [apply keeps_plain|]. intros [].
  eapply keeps_mtry_yields; [by apply keeps_or_error|by apply yields_or_error|]. intros d Hd. cbv zeta.
  apply keeps_known. intros [] Hok%fail_if_ok_any. keeps_sign_in. cbn.
  apply CompleteOAuthAuthorization_keeps. rewrite Hd. unfold decision_ok in Hok. intros E. rewrite E in Hok.
  repeat match goal with Hg : context [?a && _] |- _ => progress cbn in Hg end.
  apply negb_false_iff in Hok. reflect_all. done.
Qed.
Lemma Exchange_keeps x : keeps carries (Exchange_ (rd_now rd) (rd_entropy rd) x).
Proof. unfold Exchange_. keeps_sign_in. apply RedeemOAuthCode_keeps; by eexists. Qed.

(** A statement of people with access to the database. *)
Definition administrative (q : statement SignIn unit) : Prop := forall s u s', q s = Ok (u, s') ->
  (exists f status enrollments, s' = set_authority f status enrollments s /\ authority_step (sg_foundation s) f) \/
  exists m, s' = set_clients m s.
Definition legitimate_call (call : sign_in_call) : Prop := match call with CallAdminister q => administrative q | _ => True end.

Lemma sign_in_program_keeps call : legitimate_call call -> keeps carries (sign_in_program call).
Proof.
  intros Hl. destruct call; cbn [sign_in_program legitimate_call] in *; try apply keeps_answered.
  - apply RegisterOAuthClient_keeps.
  - cbn [fl_Begin flow]. unfold Begin. keeps_sign_in.
  - unfold Start. keeps_sign_in.
  - unfold View, correlated. keeps_sign_in; [apply load_keeps|apply transaction_keeps].
  - unfold Authenticate. cbn [wallet_ports bp_verifier]. keeps_sign_in. apply proof_keeps.
  - unfold ChallengeWallet, Issue. cbn [wallet_ports bp_wallet]. keeps_sign_in. apply proof_keeps.
  - unfold VerifyWallet, Finalize. cbn [wallet_ports bp_wallet]. keeps_sign_in. apply proof_keeps.
  - unfold Grant. keeps_sign_in; [apply proof_keeps|]. apply CompleteRedirect_keeps; [apply AuthorizeBrowser_keeps|apply AuthorizeBrowser_yields].
  - unfold Deny. keeps_sign_in. apply proof_keeps.
  - unfold Logout. keeps_sign_in. apply proof_keeps.
  - apply Exchange_keeps.
  - apply keeps_mbind; [|done]. unfold VerifyToken. keeps_sign_in.
  - unfold Revoke. destruct decision; keeps_sign_in.
  - keeps_sign_in.
  - apply keeps_tx. intros s u s' Hq. destruct (Hl s u s' Hq) as [(f & st & en & -> & Hs)|[m ->]].
    + by apply moves_carries, set_authority_moves.
    + apply moves_carries, set_clients_moves.
Qed.
End program.
End sign_in.
