(* ===== verification/SignInAuthority.v ===== *)
(** What stands behind an accepted token, and what ends it: the theorems about
    sign-in, for every interleaving of the calls of SignInSessions.v, and a
    sign-in to which they apply. *)
From S2P Require Import Prelude GoStrings GoText GoTime Sha256 AppErrors Contracts Deployments Auth Wallet GoBase64.
From S2P Require Import Storage Policies Statements Database Foundation Siwe OAuthModel SignInTables SignInStore.
From S2P Require Import SignInService SignInSafety SignInMoves Sessions SignInSessions.
Open Scope string_scope.
Open Scope Z_scope.
Open Scope go_scope.

Section authority.
Context `{EthCommon} `{UnicodeTables} `{EthCrypto} `{EthSignatures} `{NetUrl} `{PgTimestamp}.

(** * The chain behind a token *)
(** The token was bought with a code and its verifier (PKCE); the code was
    granted once, by the browser session the token names; that session was
    signed in by consuming the challenge [id], whose text is a statement to this
    site by an account that signed it; and the account is the user's wallet, at
    the version recorded with the sign-in. *)
Record wallet_sign_in (s : SignIn) (t : Token) (id : string) : Prop := {
  wsi_code : exists digest k tr code verifier, sg_codes s !! digest = Some k /\ from_code t k /\ Digest code = digest /\
    Digest verifier = kw_challenge k /\ sg_transactions s !! kw_transaction k = Some tr /\ tw_client tr = tok_ClientID t /\
    tw_challenge tr = Digest verifier;
  wsi_session : exists digest b, sg_browsers s !! digest = Some b /\ is_authenticated b /\ bw_decision b = "GRANTED" /\
    bw_reference b = tok_SessionID t /\ bw_tenant b = tok_TenantID t /\ bw_user b = tok_UserID t;
  wsi_wallet : exists a w v, sg_authentications s !! tok_SessionID t = Some a /\ nw_challenge a = id /\
    sg_challenges s !! id = Some w /\ is_Some (cw_consumed w) /\ signed (cw_challenge w) /\
    chl_TenantID (cw_challenge w) = tok_TenantID t /\
    fd_versions (sg_foundation s) !! (tok_TenantID t, nw_binding a, nw_version a) = Some v /\ wr_user_id v = tok_UserID t /\
    ToLower (wr_address v) = ToLower (chl_Address (cw_challenge w))
}.

Lemma token_chain s digest row : sound s -> sg_tokens s !! digest = Some row -> exists id, wallet_sign_in s (ow_token row) id.
Proof.
  intros S Hr. destruct (sd_tokens _ S digest row Hr) as (_ & code & k & Hk & Hc & F). pose proof F as (F1 & F2 & F3 & F4 & F5).
  destruct (sd_codes _ S code k Hk) as ((d & b & Hb & Hau & Hg & Hre & Htx & Hte & Hus) & (tr & Htr & E1 & E2 & E3) & _).
  destruct (sd_spent _ S code k Hk Hc) as (raw & verifier & Hd & Hv).
  destruct (sd_browsers _ S d b Hb Hau) as (a & w & Ha & A1 & A2 & Hw & _).
  destruct (sd_authentications _ S _ a Ha) as (w' & v & Hw' & Hcs & Hsg & _ & Htn & Hver & Huv & Hadr).
  unfold token_consent, consent_key in F1. injection F1 as G1 G2 G3. exists (nw_challenge a). split.
  - exists code, k, tr, raw, verifier. split_and!; congruence.
  - exists d, b. split_and!; congruence.
  - exists a, w', v. split_and!; congruence.
Qed.

(** * Accepted tokens *)
(** The principal a token stands for: its fields, and permission to read. *)
Definition principal_of (t : Token) (p : AuthenticatedPrincipal) : Prop :=
  tok_Scope t = OAuth.ReadScope /\
  NewAuthenticatedPrincipal (MkPrincipal (tok_TenantID t) (tok_UserID t) (tok_IdentityIssuer t) (tok_Subject t) (tok_ClientID t)
    (tok_Digest t) zero_time (tok_IssuedAt t) (tok_IssuedAt t) (tok_ExpiresAt t) [PermissionReadIntent; PermissionReadApproval]) = Ok p.
Definition accepted (raw : string) (p : AuthenticatedPrincipal) (s : SignIn) : Prop :=
  exists row, sg_tokens s !! Digest raw = Some row /\ principal_of (ow_token row) p.

Lemma principal_reads_only t p x : principal_of t p -> HasPermission p x = true ->
  Permission_string x = "intent:read" \/ Permission_string x = "approval:read".
Proof.
  intros [_ Hp] Hx. apply principal_permissions_valid in Hp as [_ Hp]. unfold HasPermission in Hx.
  apply search_contains_sound in Hx. rewrite Hp, sort_by_perm in Hx. cbn in Hx. apply list_elem_of_fmap in Hx as (y & -> & Hy).
  apply elem_of_remove_dups in Hy. set_solver.
Qed.

(** What is kept as the sessions go on. *)
Definition since (start s : SignIn) : Prop := grows start s /\ sound s.
Lemma since_lasting start : lasting carries (since start).
Proof. intros s s' C [G S]. destruct (C S) as [G' S']. split; [by etransitivity|done]. Qed.

Lemma safe_raw {Y} (q : statement SignIn Y) (P : Y -> SignIn -> Prop) s :
  performs carries q P s -> safe carries (raw_statement q) (fun r d => forall y, r = Ok y -> P y d) s.
Proof. intros Hq. eapply safe_execute; [exact _|exact Hq|done|]. by intros y d _ HP ? [= <-]. Qed.
Lemma safe_or_error {A} e (m : method SignIn (result A)) (P : A -> SignIn -> Prop) s :
  safe carries m (fun r d => forall a, r = Ok a -> P a d) s -> safe carries (or_error e m) (fun r d => forall a, r = Ok a -> P a d) s.
Proof. intros Hm. eapply safe_mbind, safe_impl, Hm. intros [a|x] d Ha b; cbn; [intros [= <-]; by apply Ha|done]. Qed.
Lemma performs_read {Y} (f : SignIn -> option Y) s : performs carries (select_row f) (fun y d => f d = Some y) s.
Proof. apply performs_select. exact _. Qed.

Lemma valid_token_row digest now s t : valid_token digest now s = Some t -> exists row, sg_tokens s !! digest = Some row /\ ow_token row = t.
Proof.
  unfold valid_token. intros Hv. repeat (apply bind_Some in Hv as (? & ? & Hv)). destruct (_ && _); [|done]. injection Hv as <-. eauto.
Qed.
Definition has_token (digest : string) (t : Token) (s : SignIn) : Prop := exists row, sg_tokens s !! digest = Some row /\ ow_token row = t.
Lemma has_token_grows digest t s s' : grows s s' -> has_token digest t s -> has_token digest t s'.
Proof.
  intros G (row & Hr & E). destruct (persists_always _ _ _ _ _ (gr_tokens _ _ G) Hr) as (row' & Hr' & E' & _). exists row'. split; [done|congruence].
Qed.
Definition token_since start digest t s : Prop := since start s /\ has_token digest t s.
Lemma token_since_lasting start digest t : lasting carries (token_since start digest t).
Proof.
  intros s s' C [Hs Ht]. pose proof (since_lasting start s s' C Hs) as Hs'. split; [done|].
  destruct (C (proj2 Hs)) as [G _]. by eapply has_token_grows.
Qed.

Lemma ValidateOAuthToken_safe start digest now s : since start s ->
  safe carries (ValidateOAuthToken digest now) (fun r d => forall t, r = Ok t -> token_since start digest t d) s.
Proof.
  intros Hs. unfold ValidateOAuthToken. eapply (safe_mtry_with carries (since start)); [apply since_lasting|exact Hs|done| |].
  - apply safe_raw, performs_read.
  - intros t d Ht Hd. apply valid_token_row in Ht.
    eapply (safe_after carries (token_since start digest t)); [apply token_since_lasting|by split|done| |].
    + apply keeps_tx. by intros x y x' [= _ <-].
    + intros withdrawn d' Hd' t'. destruct withdrawn; [done|]. by intros [= <-].
Qed.
Lemma VerifyToken_safe start wallet rd raw s : since start s ->
  safe carries (sign_in_program wallet rd (CallVerifyToken raw))
    (fun a d => since start d /\ forall p, a = AnswerPrincipal (Ok p) -> accepted raw p d) s.
Proof.
  intros Hs. cbn [sign_in_program]. apply safe_mbind.
  apply (safe_impl _ _ (fun r d => (forall p, r = Ok p -> accepted raw p d) /\ since start d)).
  { intros r d [Hr Hd]. cbn. split; [exact Hd|]. intros p [= ->]. by apply Hr. }
  apply safe_frame; [apply since_lasting|exact Hs|]. unfold VerifyToken. apply safe_plain; [done|]. intros [] _.
  eapply (safe_mtry carries); [done|apply safe_or_error, (ValidateOAuthToken_safe start), Hs|]. intros t d [Hd Ht].
  apply safe_plain; [done|]. intros [] _ p Hp. apply rbind_ok in Hp as (ps & Hps & Hp). unfold Permissions in Hps.
  apply rbind_ok in Hps as ([] & Hsc & [= <-]). apply fail_if_ok_any, negb_false_iff, bool_decide_eq_true in Hsc.
  destruct Ht as (row & Hrow & <-). exists row. split; [done|]. by split.
Qed.

(** * Logging out *)
(** The session of a credential, at the start and later, revoked. *)
Definition ended (raw : string) (b : browser_row) (s : SignIn) : Prop :=
  exists b', sg_browsers s !! Digest raw = Some b' /\ is_authenticated b' /\ erase_browser b' = erase_browser b /\ is_Some (bw_revoked b').
Lemma ended_grows raw b s s' : grows s s' -> ended raw b s -> ended raw b s'.
Proof.
  intros G (x & Hx & Ha & E & Hr). destruct (gr_browsers _ _ G _ x Hx Ha) as (y & Hy & Hay & [[Ey Sy] _]).
  exists y. split_and!; [done|done|congruence|by eapply sticky_is_some].
Qed.
Definition ended_since start raw b s : Prop := since start s /\ ended raw b s.
Lemma revoke_browser_performs start rd raw csrf b : sg_browsers start !! Digest raw = Some b -> is_authenticated b ->
  forall s, since start s ->
  safe carries (RevokeBrowserSession (rd_store rd) (Digest raw) csrf) (fun r d => forall y, r = Ok y -> ended_since start raw b d) s.
Proof.
  intros Hb Ha s Hs. apply safe_raw. intros d1 C y d2 Hq. pose proof (since_lasting start s d1 C Hs) as Hd1.
  assert (carries d1 d2) as C2 by (destruct (RevokeBrowserSession_keeps (rd_store rd) (Digest raw) csrf) as [Hk _]; by eapply Hk).
  split; [done|]. split; [by eapply since_lasting|]. step_inv. subst.
  match goal with Hl : lockBrowser _ _ = Ok _ |- _ => apply lock_by_digest in Hl as (b1 & Hb1 & -> & _) end.
  match goal with Hr : revokeBrowser _ _ _ = Ok _ |- _ => apply (revokeBrowser_moves _ b1) in Hr as (_ & b2 & E & Eb & Hrev & _); [|done] end.
  destruct (gr_browsers _ _ (proj1 Hd1) _ b Hb Ha) as (b1' & Hb1' & Ha1 & [[E1 _] _]). rewrite Hb1 in Hb1'. injection Hb1' as <-.
  exists b2. rewrite E, lookup_insert_eq. split_and!; [done| |congruence|done]. by eapply erase_authenticated.
Qed.
Lemma load_safe start rd n raw s : since start s ->
  safe carries (load (H3 := store_browser rd) (rd_now rd) n raw) (fun r d => forall v, r = Ok v -> since start d /\ bse_Digest v = Digest raw) s.
Proof.
  intros Hs. unfold load. apply safe_plain; [done|]. intros [] _.
  eapply (safe_mtry_with carries (since start)); [apply since_lasting|exact Hs|done|apply safe_or_error, safe_raw, performs_read|].
  intros v d Hv Hd. apply safe_plain; [done|]. intros [] _ v' [= <-]. split; [done|]. apply fmap_Some in Hv as (b & _ & ->). done.
Qed.
Lemma Logout_safe start wallet rd raw token b s : sg_browsers start !! Digest raw = Some b -> is_authenticated b -> since start s ->
  safe carries (sign_in_program wallet rd (CallLogout raw token))
    (fun a d => since start d /\ (a = AnswerDone true -> ended raw b d)) s.
Proof.
  intros Hb Ha Hs. cbn [sign_in_program]. unfold answered. apply safe_mbind.
  apply (safe_impl _ _ (fun r d => (forall y, r = Ok y -> ended_since start raw b d) /\ since start d)).
  { intros r d [Hr Hd]. cbn. split; [exact Hd|]. destruct r as [y|]; [|done]. intros _. by destruct (Hr y eq_refl). }
  apply safe_frame; [apply since_lasting|exact Hs|]. unfold Logout.
  apply (safe_mtry carries _ _ (fun v d => since start d /\ bse_Digest v = Digest raw)); [done| |].
  - unfold proof. eapply (safe_mtry carries); [done|apply safe_or_error, (load_safe start), Hs|].
    intros v d Hv. apply safe_plain; [done|]. by intros [] _ v' [= <-].
  - intros v d [Hd ->]. by apply revoke_browser_performs.
Qed.

(** ** Where histories start *)
(** Before anybody signs in. *)
Lemma nobody_sound s : wallets_current (sg_foundation s) -> sg_authentications s = ∅ -> sg_browsers s = ∅ -> sg_codes s = ∅ ->
  sg_tokens s = ∅ -> sound s.
Proof. intros Hw Ha Hb Hc Ht. split; rewrite ?Ha, ?Hb, ?Hc, ?Ht; try apply map_Forall_empty; by try intros k k' x x' Hx. Qed.
(** The statements on wallets are steps of authority. *)
Lemma write_wallet_step tenant id row f out f' : write_wallet tenant id row f = Ok (out, f') -> authority_step f f'.
Proof.
  unfold write_wallet. intros Hw. apply rbind_ok in Hw as ([] & Hf & [= _ <-]). apply fail_if_ok_any in Hf. split.
  - cbn. apply persists_fresh; [exact _|]. by destruct (fd_versions f !! _).
  - intros Hcur t b w. cbn. rewrite lookup_insert_Some. intros [[[= <- <-] <-]|[Hne Hl]].
    + exists row. by rewrite lookup_insert_eq.
    + destruct (Hcur t b w Hl) as (v & Hv & E). exists v. split; [|done]. rewrite lookup_insert_ne; [done|]. intros [= <- <- _]. done.
Qed.
Lemma CreateWalletBinding_q_step tenant id row f out f' : CreateWalletBinding_q tenant id row f = Ok (out, f') -> authority_step f f'.
Proof. unfold CreateWalletBinding_q. intros Hc. step_inv. by eapply write_wallet_step. Qed.
Lemma UpdateWalletBinding_q_step tenant id version status reference verified revoked expected actor f out f' :
  UpdateWalletBinding_q tenant id version status reference verified revoked expected actor f = Ok (out, f') -> authority_step f f'.
Proof. unfold UpdateWalletBinding_q. destruct (owned_wallet _ _ _ _); [|done]. intros Hc. step_inv. by eapply write_wallet_step. Qed.

(** * Histories *)
Section history.
Variables (wallet : WalletService) (calls : gmap nat (readings * sign_in_call)) (start : SignIn).
Definition sign_in_start : sessions SignIn sign_in_answer :=
  MkSessions start ((fun c => sign_in_program wallet c.1 c.2) <$> calls).
Definition all_legitimate : Prop := forall n c, calls !! n = Some c -> legitimate_call c.2.

(** What a call that has answered is known to have done. *)
Definition answer_means (n : nat) (a : sign_in_answer) (s : SignIn) : Prop :=
  since start s /\
  match calls !! n with
  | Some (_, CallVerifyToken raw) => forall p, a = AnswerPrincipal (Ok p) -> accepted raw p s
  | Some (_, CallLogout raw _) => forall b, sg_browsers start !! Digest raw = Some b -> is_authenticated b ->
                                  a = AnswerDone true -> ended raw b s
  | _ => True
  end.
Lemma answer_means_lasting n a s s' : carries s s' -> answer_means n a s -> answer_means n a s'.
Proof.
  intros C [Hs Hm]. split; [by eapply since_lasting|]. destruct (C (proj2 Hs)) as [G _].
  destruct (calls !! n) as [[rd []]|]; try done.
  - intros b Hb Ha Hd. eapply ended_grows; [exact G|by apply Hm].
  - intros p Hp. destruct (Hm p Hp) as (row & Hr & Hpr).
    destruct (persists_always _ _ _ _ _ (gr_tokens _ _ G) Hr) as (row' & Hr' & E & _). exists row'. split; [done|]. by rewrite <- E.
Qed.
Lemma sign_in_safe : sound start -> all_legitimate -> all_safe carries answer_means sign_in_start.
Proof.
  intros S L n m Hm. cbn in *. rewrite lookup_fmap in Hm. apply fmap_Some in Hm as ([rd call] & Hc & ->). cbn [fst snd].
  assert (since start start) as Hs by done.
  enough (safe carries (sign_in_program wallet rd call) (fun a d => since start d /\
    match call with
    | CallVerifyToken raw => forall p, a = AnswerPrincipal (Ok p) -> accepted raw p d
    | CallLogout raw _ => forall b, sg_browsers start !! Digest raw = Some b -> is_authenticated b -> a = AnswerDone true -> ended raw b d
    | _ => True
    end) start) as Hsafe.
  { eapply safe_impl, Hsafe. intros a d [Hd Ha]. split; [done|]. rewrite Hc. exact Ha. }
  assert (safe carries (sign_in_program wallet rd call) (fun _ d => True /\ since start d) start) as Hk.
  { apply safe_frame; [apply since_lasting|done|]. apply safe_keeps, sign_in_program_keeps. exact (L n _ Hc). }
  destruct call; try (eapply safe_impl, Hk; by intros a d [_ ?]).
  - destruct (sg_browsers start !! Digest raw) as [b|] eqn:Eb; [|eapply safe_impl, Hk; intros a d [_ ?]; split; [done|]; congruence].
    destruct (decide (is_authenticated b)) as [Ha|Ha]; [|eapply safe_impl, Hk; intros a d [_ ?]; split; [done|]; congruence].
    eapply safe_impl, (Logout_safe start wallet rd raw token b); [|done..]. intros a d [? He]. split; [done|]. intros b' [= <-] _. exact He.
  - by apply VerifyToken_safe.
Qed.
Lemma sign_in_history s' : sound start -> all_legitimate -> rtc session_step sign_in_start s' ->
  sound (ss_db s') /\ grows start (ss_db s') /\
  forall n a, ss_running s' !! n = Some (Return a) -> answer_means n a (ss_db s').
Proof.
  intros S L Hrun. destruct (sessions_safe carries answer_means answer_means_lasting _ _ (sign_in_safe S L) Hrun) as [C Ha].
  destruct (C S). done.
Qed.

(** [C9] Behind every accepted token is a wallet's signature: however any number
    of the calls of sign-in interleave with one another, with faults and with
    people administering the database, a token [VerifyToken] accepts was bought
    with a code and its PKCE verifier; the code was granted once, by the browser
    session the token names; that session was signed in by consuming a challenge
    whose text to this site an account signed; and the account is the wallet of
    the user the principal names.  The principal may only read. *)
Theorem token_needs_wallet_signature s' n rd raw p :
  sound start -> all_legitimate -> calls !! n = Some (rd, CallVerifyToken raw) -> rtc session_step sign_in_start s' ->
  ss_running s' !! n = Some (Return (AnswerPrincipal (Ok p))) ->
  exists row id, sg_tokens (ss_db s') !! Digest raw = Some row /\ principal_of (ow_token row) p /\
    wallet_sign_in (ss_db s') (ow_token row) id /\
    forall x, HasPermission p x = true -> Permission_string x = "intent:read" \/ Permission_string x = "approval:read".
Proof.
  intros S L Hc Hrun Ha. destruct (sign_in_history s' S L Hrun) as (S' & _ & Hm).
  destruct (Hm n _ Ha) as [_ Hn]. rewrite Hc in Hn. destruct (Hn p eq_refl) as (row & Hrow & Hp).
  destruct (token_chain _ _ _ S' Hrow) as [id Hid]. exists row, id. split_and!; [done..|].
  intros x. by eapply principal_reads_only.
Qed.

(** [C10] One signature, at most one token: two tokens of a history behind which
    the same signed challenge stands are the same token, because a challenge
    signs in one browser session, a session grants one code and a code buys one
    token, whatever interleaves. *)
Theorem one_token_per_signature s' :
  sound start -> all_legitimate -> rtc session_step sign_in_start s' -> forall d1 d2 row1 row2 id,
  sg_tokens (ss_db s') !! d1 = Some row1 -> sg_tokens (ss_db s') !! d2 = Some row2 ->
  wallet_sign_in (ss_db s') (ow_token row1) id -> wallet_sign_in (ss_db s') (ow_token row2) id -> d1 = d2.
Proof.
  intros S L Hrun d1 d2 row1 row2 id H1' H2' W1 W2. destruct (sign_in_history s' S L Hrun) as (S' & _ & _).
  destruct (wsi_wallet _ _ _ W1) as (a1 & _ & _ & Ha1 & E1 & _), (wsi_wallet _ _ _ W2) as (a2 & _ & _ & Ha2 & E2 & _).
  assert (tok_SessionID (ow_token row1) = tok_SessionID (ow_token row2)) as Es by (eapply (sd_challenge _ S'); [done..|congruence]).
  destruct (wsi_code _ _ _ W1) as (c1 & k1 & _ & _ & _ & Hk1 & (F1 & F1' & _) & _), (wsi_code _ _ _ W2) as (c2 & k2 & _ & _ & _ & Hk2 & (F2 & F2' & _) & _).
  assert (c1 = c2) as <- by (eapply (sd_session _ S'); [done..|congruence]).
  rewrite Hk1 in Hk2. injection Hk2 as <-. eapply (sd_token _ S'); [done..|]. congruence.
Qed.

(** [C11] Logging out is final: once [Logout] of an authenticated browser session
    has answered that it went through, no token of that session passes the
    token query at any instant, in that state or any later one, whatever the
    calls that were under way go on to do. *)
Theorem logout_is_final s' n rd raw token b :
  sound start -> all_legitimate -> calls !! n = Some (rd, CallLogout raw token) ->
  sg_browsers start !! Digest raw = Some b -> is_authenticated b ->
  rtc session_step sign_in_start s' -> ss_running s' !! n = Some (Return (AnswerDone true)) ->
  forall digest now t, valid_token digest now (ss_db s') = Some t -> tok_SessionID t <> bw_reference b.
Proof.
  intros S L Hc Hb Hau Hrun Ha digest now t Hv E. destruct (sign_in_history s' S L Hrun) as (S' & _ & Hm).
  destruct (Hm n _ Ha) as [_ Hn]. rewrite Hc in Hn. destruct (Hn b Hb Hau eq_refl) as (b' & Hb' & Hau' & Eb & Hrev).
  destruct (valid_token_row _ _ _ _ Hv) as (row & Hrow & Et).
  destruct (token_chain _ _ _ S' Hrow) as [id W]. rewrite Et in W.
  destruct (wsi_session _ _ _ W) as (d & x & Hx & _ & _ & X1 & X2 & X3).
  pose proof (f_equal bw_reference Eb) as B1. cbn in B1.
  destruct (same_reference _ _ _ _ _ S' Hx Hb') as [_ ->]; [congruence|].
  unfold valid_token in Hv. rewrite Hrow in Hv. cbn in Hv. rewrite Et in Hv.
  apply bind_Some in Hv as (c & _ & Hv). apply bind_Some in Hv as (u & _ & Hv). apply bind_Some in Hv as (o & Ho & Hv).
  apply bind_Some in Hv as (i & _ & Hv). destruct (_ && _) eqn:Econd; [|done]. reflect_all.
  rewrite <- X1, <- X2, <- X3 in Ho. destruct (sd_dead _ S' _ b' Hb' Hau' Hrev o Ho) as [rt Hrt].
  match goal with Hg : isSome (ow_revoked o) = false |- _ => by rewrite Hrt in Hg end.
Qed.
End history.
End authority.

(** A sign-in from the authorization request to an accepted token, and a
    logout, on a concrete database. *)

Module SignInSamples.
#[local] Existing Instance Eth.is_hex_address.
#[local] Existing Instance Eth.no_folding.
#[local] Existing Instance Pg.truncating.
#[local] Existing Instance EthDigits.crypto.

(** Signatures that name their account, and URLs of a host and a path. *)
#[local] Instance naming_signatures : EthSignatures := {|
  ValidateSignatureValues v r s := (v <? 2) && (0 <? r);
  SigToPub hash sig := Ok (first_bytes 20 sig);
  PubkeyToAddress pub := pub |}.
#[local] Instance simple_urls : NetUrl := {|
  url_Parse raw := match Cut (rest_bytes 8 raw) (ascii_of 47) with
                   | Some (host, _) => Ok (MkURL "https" "" false host "" "" "" raw)
                   | None => Err (errorf "no path")
                   end;
  URL_String u := if url_RawQuery u == "" then url_raw u else url_raw u +:+ "?" +:+ url_RawQuery u;
  URL_Hostname := url_Host;
  URL_Query _ := ∅;
  Values_Encode q := Join ((fun '(k, v) => k +:+ "=" +:+ Join v ",") <$> map_to_list q) "&" |}.

(** * The world before *)
Definition now : Time := of_unix 1760000000.
Definition minute (n : Z) : nat -> Time := fun reading => now + n * Minute + Z.of_nat reading * Second.
Definition account : string := "0x" +:+ EncodeToString (repeat 171 20).
Definition wallet_bound : wallet_row :=
  MkWalletRow 2 "user-1" ExternalProvider "user-1" "wallet-1" account "5042" "MAINNET" BindingStatusActive
    "enrollment:proof-1" (Some now) (Some now) None.
Definition redirect : string := "https://agent.example/callback".
Definition client : Client := MkClient "client-1" "Agent" "public" "none" "ACTIVE" [redirect] [OAuth.ReadScope] [OAuth.Resource].
Definition people : Foundation :=
  MkFoundation {[ "tenant-1" := now ]} {[ ("tenant-1", "user-1") := MkIdentityRow "wallet" "subject-1" IdentityStatusActive (Some now) ]}
    {[ ("tenant-1", "binding-1") := wallet_bound ]} {[ ("tenant-1", "binding-1", 2) := wallet_bound ]} ∅ ∅ ∅ ∅ ∅ empty_database.
Definition before_sign_in : SignIn :=
  MkSignIn people {[ "tenant-1" := "ACTIVE" ]} {[ ("tenant-1", "binding-1") := MkEnrollmentRow "user-1" "proof-1" ]}
    {[ "client-1" := client ]} ∅ ∅ ∅ ∅ ∅ ∅ [] ∅ ∅ ∅ {[ "proof-1" := MkProofRow "tenant-1" "user-1" "binding-1" 1 now "" ]}.
Definition wallet : WalletService := MkWalletService "tenant-1" true.

(** * What everybody does *)
Definition entropy (seed : Z) : nat -> result string := fun n => Ok (of_bytes (repeat (seed + Z.of_nat n) 32)).
Definition reads (n seed : Z) : readings := MkReadings (minute n) (fun k => minute n k + 30 * Second) (entropy seed).
Definition drawn (prefix : string) (seed : Z) : string := prefix +:+ RawURL_EncodeToString (of_bytes (repeat seed 32)).
Definition verifier : string := of_bytes (repeat 97 43).
Definition request : AuthorizationRequest :=
  MkAuthorizationRequest "client-1" redirect OAuth.Resource OAuth.ReadScope "code" (Digest verifier) "S256" "state".
Definition transaction_id : string := drawn "tx_" 1.
Definition pending : string := drawn "wb_" 10.
Definition signed_in : string := drawn "wb_" 30.
Definition challenge_id : string := EncodeToString (repeat 20 32).
Definition signature : string := "0x" +:+ EncodeToString (repeat 171 64 ++ [27]).
Definition code : string := drawn "wmcp_ac_" 40.
Definition token : string := drawn "wmcp_at_" 50.
Definition calls : gmap nat (readings * sign_in_call) :=
  list_to_map (zip (seq 0 7)
    [ (reads 0 1, CallBegin request);
      (reads 0 10, CallStart (MkTransaction transaction_id request now now));
      (reads 1 20, CallChallenge pending (csrf pending) account);
      (reads 2 30, CallVerifyWallet pending (csrf pending) challenge_id signature);
      (reads 3 40, CallGrant signed_in (csrf signed_in));
      (reads 4 50, CallExchange (MkExchange "client-1" redirect OAuth.Resource code verifier "authorization_code"));
      (reads 5 60, CallVerifyToken token) ]).
(** One after another: enough statements of each. *)
Definition one_after_another (n : nat) : list nat := concat ((fun k => repeat k 14) <$> seq 0 n).
Definition history : sessions SignIn sign_in_answer := sign_in_start wallet calls before_sign_in.

Definition answer_of (s : sessions SignIn sign_in_answer) (n : nat) : option sign_in_answer :=
  match ss_running s !! n with Some (Return a) => Some a | _ => None end.
Definition after : sessions SignIn sign_in_answer := follow (one_after_another 7) history.
Definition principal : AuthenticatedPrincipal := Eval vm_compute in
  match answer_of after 6 with
  | Some (AnswerPrincipal (Ok p)) => p
  | _ => MkPrincipal "" "" "" "" "" "" zero_time zero_time zero_time zero_time []
  end.

Lemma before_sound : sound before_sign_in.
Proof.
  apply nobody_sound; try reflexivity. intros t b w Hw. cbn in Hw. apply lookup_singleton_Some in Hw as [[= <- <-] <-]. by exists wallet_bound.
Qed.
(** Calls that are all of services. *)
Lemma services_only (l : list (readings * sign_in_call)) : Forall (fun c => match c.2 with CallAdminister _ => False | _ => True end) l ->
  all_legitimate (list_to_map (zip (seq 0 (length l)) l)).
Proof.
  intros Hl n [rd call] Hc. apply elem_of_list_to_map_2, elem_of_zip_r in Hc. rewrite Forall_forall in Hl. specialize (Hl _ Hc).
  cbn in *. by destruct call.
Qed.
Lemma calls_legitimate : all_legitimate calls.
Proof. apply (services_only [_; _; _; _; _; _; _]). repeat constructor. Qed.
Lemma after_history : rtc session_step history after.
Proof. unfold after. pose proof (follow_steps (one_after_another 7) history) as Hs. by destruct (follow _ _). Qed.

Lemma token_needs_wallet_signature_witness :
  ss_running after !! 6%nat = Some (Return (AnswerPrincipal (Ok principal))) /\
  exists row id, sg_tokens (ss_db after) !! Digest token = Some row /\ wallet_sign_in (ss_db after) (ow_token row) id.
Proof.
  assert (ss_running after !! 6%nat = Some (Return (AnswerPrincipal (Ok principal)))) as Ha by (vm_compute; reflexivity).
  split; [exact Ha|].
  destruct (token_needs_wallet_signature wallet calls before_sign_in after 6 (reads 5 60) token principal before_sound calls_legitimate
    eq_refl after_history Ha) as (row & id & Hrow & _ & Hw & _). exists row, id. split; [exact Hrow|exact Hw].
Defined.
Lemma after_sound : sound (ss_db after).
Proof. exact (proj1 (sign_in_history wallet calls before_sign_in after before_sound calls_legitimate after_history)). Qed.
Lemma token_bought : exists row, sg_tokens (ss_db after) !! Digest token = Some row.
Proof. eexists. vm_compute. reflexivity. Qed.

Lemma one_token_per_signature_witness :
  exists row id, sg_tokens (ss_db after) !! Digest token = Some row /\ wallet_sign_in (ss_db after) (ow_token row) id /\
    forall digest' row', sg_tokens (ss_db after) !! digest' = Some row' -> wallet_sign_in (ss_db after) (ow_token row') id ->
      Digest token = digest'.
Proof.
  destruct token_bought as [row Hrow]. destruct (token_chain _ _ _ after_sound Hrow) as [id Hid].
  exists row, id. split; [exact Hrow|split; [exact Hid|]]. intros digest' row' Hrow' Hid'.
  exact (one_token_per_signature wallet calls before_sign_in after before_sound calls_legitimate after_history
    (Digest token) digest' row row' id Hrow Hrow' Hid Hid').
Defined.

(** * Logging out *)
Definition leaving : gmap nat (readings * sign_in_call) :=
  list_to_map (zip (seq 0 2) [ (reads 6 70, CallLogout signed_in (csrf signed_in)); (reads 7 80, CallVerifyToken token) ]).
Definition gone : sessions SignIn sign_in_answer := follow (one_after_another 2) (sign_in_start wallet leaving (ss_db after)).
Definition session_row : browser_row := Eval vm_compute in
  default (MkBrowserRow "" "" "" "" "" "" "" "" "" "" 0 0 None) (sg_browsers (ss_db after) !! Digest signed_in).
Lemma leaving_legitimate : all_legitimate leaving.
Proof. apply (services_only [_; _]). repeat constructor. Qed.

Lemma logout_is_final_witness :
  answer_of gone 0 = Some (AnswerDone true) /\ answer_of gone 1 <> Some (AnswerPrincipal (Ok principal)) /\
  forall digest at_ t, valid_token digest at_ (ss_db gone) = Some t -> tok_SessionID t <> bw_reference session_row.
Proof.
  split; [vm_compute; reflexivity|]. split; [vm_compute; discriminate|].
  refine (logout_is_final wallet leaving (ss_db after) gone 0 (reads 6 70) signed_in (csrf signed_in) session_row after_sound
    leaving_legitimate eq_refl _ eq_refl _ _).
  - vm_compute. reflexivity.
  - unfold gone. pose proof (follow_steps (one_after_another 2) (sign_in_start wallet leaving (ss_db after))) as Hs. by destruct (follow _ _).
  - vm_compute. reflexivity.
Defined.
(** The text of the sample's challenge, kept for two sessions. *)
Definition kept (session purpose : string) : Challenge :=
  MkChallenge session (EncodeToString (repeat 21 32)) "" (AddressHex (HexToAddress account)) session "tx" "client-1" "tenant-1" purpose
    now (now + ChallengeLifetime).
Lemma Message_binds_witness :
  Message (kept "a" "") = Message (kept "b" "AUTHENTICATE") /\ chl_Nonce (kept "a" "") = chl_Nonce (kept "b" "AUTHENTICATE").
Proof.
  split; [vm_compute; reflexivity|].
  destruct (Message (kept "a" "")) as [m|] eqn:Em; [|vm_compute in Em; discriminate].
  destruct (Message_binds (kept "a" "") (kept "b" "AUTHENTICATE") m Em) as (_ & Hn & _); [rewrite <- Em; vm_compute; reflexivity|exact Hn].
Defined.
End SignInSamples.
