(* ===== verification/CircleClient.v ===== *)
(** internal/providers/circle: the states of a transaction, of a challenge and
    of an HTTP answer (status.go), the configuration (config.go), the user's
    ephemeral authorization (internal/providers/authorization.go), the HTTP
    client behind its circuit breaker (client.go) and the health probe
    (health.go).

    A call threads a session: the breaker, how often a clock was read, and the
    requests that left the process, latest first.  The n-th request meets the
    n-th answer of the endpoint, whatever it is; net/url, [json.Unmarshal] into
    the four response types and [time.ParseDuration] are parameters. *)
From S2P Require Import Prelude GoStrings GoText GoTime AppErrors Contracts References ChainEvidence Circuit Deployments.
From S2P Require Import OAuthModel ArcAttestation.
Open Scope string_scope.
Open Scope Z_scope.
Open Scope go_scope.

(** * Classification (status.go) *)
Inductive TransactionState : Type :=
  | StateInitiated | StateCleared | StateQueued | StateSent | StateStuck | StateConfirmed | StateComplete
  | StateFailed | StateDenied | StateCancelled | TransactionOther (raw : string).
Definition classifyTransactionState (state : TransactionState) : Classification * string :=
  match state with
  | StateInitiated | StateCleared | StateQueued | StateSent | StateConfirmed | StateComplete => (ClassSubmittedPending, "")
  | StateStuck => (ClassSubmittedPending, "")
  | StateFailed => (ClassPermanentProviderRejection, "PROVIDER_TRANSACTION_FAILED")
  | StateDenied => (ClassPermanentProviderRejection, "PROVIDER_TRANSACTION_DENIED")
  | StateCancelled => (ClassPermanentProviderRejection, "PROVIDER_TRANSACTION_CANCELLED")
  | TransactionOther _ => (ClassAmbiguousSubmission, "PROVIDER_STATE_UNRECOGNIZED")
  end.

Inductive ChallengeStatus : Type :=
  | ChallengePending | ChallengeInProgress | ChallengeComplete | ChallengeFailed | ChallengeExpired
  | ChallengeOther (raw : string).
Definition classifyChallengeStatus (status : ChallengeStatus) : Classification * string :=
  match status with
  | ChallengePending | ChallengeInProgress => (ClassUserAuthorizationRequired, "USER_AUTHORIZATION_REQUIRED")
  | ChallengeComplete => (ClassSubmittedPending, "")
  | ChallengeFailed => (ClassPermanentProviderRejection, "USER_AUTHORIZATION_FAILED")
  | ChallengeExpired => (ClassPermanentProviderRejection, "USER_AUTHORIZATION_EXPIRED")
  | ChallengeOther _ => (ClassAmbiguousSubmission, "PROVIDER_CHALLENGE_STATE_UNRECOGNIZED")
  end.

Definition classifyHTTPStatus (statusCode : Z) (submitted : bool) : Classification * string :=
  if (statusCode =? 401) || (statusCode =? 403) then
    (if submitted then ClassAmbiguousSubmission else ClassPermanentProviderRejection, "PROVIDER_AUTHORIZATION_REJECTED")
  else if (statusCode =? 400) || (statusCode =? 404) || (statusCode =? 422) then
    (if submitted then ClassAmbiguousSubmission else ClassPermanentProviderRejection, "PROVIDER_REQUEST_REJECTED")
  else if statusCode =? 409 then (ClassAmbiguousSubmission, "PROVIDER_REQUEST_CONFLICT")
  else if statusCode =? 429 then
    (if submitted then ClassAmbiguousSubmission else ClassTransientProviderError, "PROVIDER_RATE_LIMITED")
  else if 500 <=? statusCode then
    (if submitted then ClassAmbiguousSubmission else ClassTransientProviderError, "PROVIDER_UNAVAILABLE")
  else (if submitted then ClassAmbiguousSubmission else ClassTransientProviderError, "PROVIDER_RESPONSE_UNEXPECTED").

Definition countsTowardCircuit (class : Classification) (statusCode : Z) : bool :=
  match class with
  | ClassTransientProviderError | ClassAmbiguousSubmission => true
  | ClassPermanentProviderRejection => (statusCode =? 401) || (statusCode =? 403) || (500 <=? statusCode)
  | _ => false
  end.

(** * The user's authorization (authorization.go) *)
Record UserAuthorization := MkUserAuthorization { uat_token : string }.
Definition NewUserAuthorization (token : string) : result UserAuthorization :=
  let trimmed := TrimSpace token in
  do! fail_if (trimmed == "") (errorf "user authorization token is required");
  do! fail_if (4096 <? len trimmed) (errorf "user authorization token is too large");
  do! fail_if (existsb (fun character => (character <? 0x21) || (0x7E <? character)) (runes trimmed))
        (errorf "user authorization token contains unsupported characters");
  Ok (MkUserAuthorization trimmed).
Definition Present (a : UserAuthorization) : bool := uat_token a != "".
Definition Reveal (a : UserAuthorization) : string := uat_token a.
(** The authorizations a request context carries, by execution. *)
Definition WithUserAuthorization (ctx : gmap string UserAuthorization) (executionID : string) (a : UserAuthorization)
    : gmap string UserAuthorization :=
  if (executionID == "") || negb (Present a) then ctx else <[executionID := a]> ctx.
Definition ContextUserAuthorization (ctx : gmap string UserAuthorization) (executionID : string)
    : result (option UserAuthorization) :=
  if executionID == "" then Err (errorf "execution ID is required")
  else match ctx !! executionID with
       | Some a => Ok (if Present a then Some a else None)
       | None => Ok None
       end.

(** * Configuration (config.go) *)
Definition arcMainnetChainID : string := "5042".
Definition arcMainnetNetwork : string := "MAINNET".
Definition defaultBaseURL : string := "https://api.circle.com".
Definition defaultTimeout : Duration := 20 * Second.
Definition maxTimeout : Duration := 2 * Minute.
Record CircleConfig := MkCircleConfig {
  ccf_Enabled : bool; ccf_BaseURL : string; ccf_APIKey : string; ccf_Blockchain : string; ccf_ChainID : string;
  ccf_Network : string; ccf_Timeout : Duration
}.

Definition ParseBool (s : string) : result bool :=
  if bool_decide (s ∈ ["1"; "t"; "T"; "TRUE"; "true"; "True"]) then Ok true
  else if bool_decide (s ∈ ["0"; "f"; "F"; "FALSE"; "false"; "False"]) then Ok false
  else Err (errorf "invalid syntax").

Section config.
Context `{NetUrl} (ParseDuration : string -> result Duration).

Definition Configured (c : CircleConfig) : bool := false.
Definition CircleConfig_Validate (c : CircleConfig) : result unit :=
  if negb (ccf_Enabled c) then Ok tt
  else
    do! fail_if (ccf_APIKey c == "") (errorf "Circle API key is required when the provider is enabled");
    let absolute := errorf "Circle base URL must be an absolute HTTPS URL" in
    let! parsed := map_err (fun _ => absolute) (url_Parse (ccf_BaseURL c)) in
    do! fail_if ((url_Scheme parsed != "https") || (url_Host parsed == "")) absolute;
    do! fail_if ((url_RawQuery parsed != "") || (url_Fragment parsed != ""))
          (errorf "Circle base URL must not contain a query or fragment");
    do! fail_if ((ccf_ChainID c != arcMainnetChainID) || (ccf_Network c != arcMainnetNetwork))
          (errorf2 "Circle provider requires Arc Mainnet chain ID %s and network %s" arcMainnetChainID arcMainnetNetwork);
    do! fail_if ((ccf_Timeout c <=? 0) || (maxTimeout <? ccf_Timeout c))
          (errorf1 "Circle timeout must be positive and at most %s" "2m0s");
    Err (errorf "Circle Arc Mainnet execution is UNVERIFIED / REQUIRES OWNER DECISION and unavailable in Track A").

Definition stringValue (lookup : string -> option string) (key fallback : string) : string :=
  match lookup key with
  | Some value => let trimmed := TrimSpace value in if trimmed != "" then trimmed else fallback
  | None => fallback
  end.
Definition boolValue (lookup : string -> option string) (key : string) (fallback : bool) : bool :=
  match lookup key with
  | Some value => match ParseBool (TrimSpace value) with Ok parsed => parsed | Err _ => fallback end
  | None => fallback
  end.
Definition durationValue (lookup : string -> option string) (key : string) (fallback : Duration) : Duration :=
  match lookup key with
  | Some value => match ParseDuration (TrimSpace value) with
                  | Ok parsed => if 0 <? parsed then parsed else fallback
                  | Err _ => fallback
                  end
  | None => fallback
  end.
Definition LoadConfig (lookup : option (string -> option string)) : result CircleConfig :=
  match lookup with
  | None => Err (errorf "environment lookup is required")
  | Some lookup =>
      let config := MkCircleConfig (boolValue lookup "WIZPAY_CIRCLE_ENABLED" false)
        (stringValue lookup "WIZPAY_CIRCLE_BASE_URL" defaultBaseURL)
        (TrimSpace (stringValue lookup "WIZPAY_CIRCLE_API_KEY" "")) (stringValue lookup "WIZPAY_CIRCLE_BLOCKCHAIN" "")
        (stringValue lookup "WIZPAY_ARC_CHAIN_ID" "") (stringValue lookup "WIZPAY_ARC_NETWORK" "")
        (durationValue lookup "WIZPAY_CIRCLE_TIMEOUT" defaultTimeout) in
      if negb (ccf_Enabled config) then Ok config
      else do! CircleConfig_Validate config; Ok config
  end.
End config.

(** * Requests and answers (client.go) *)
Record HttpRequest := MkHttpRequest {
  hrq_Method : string; hrq_URL : string; hrq_Header : list (string * string); hrq_Body : option string
}.
(** No answer at all, or a status with its body, [None] when reading it fails. *)
Inductive answer : Type := NoAnswer | Answer (statusCode : Z) (body : option string).
Definition MethodGet : string := "GET".
Definition MethodPost : string := "POST".
Definition maxResponseBytes : Z := 2 ^ 20.
(** [io.LimitReader] *)
Definition limited (body : string) : string :=
  if len body <=? maxResponseBytes then body else first_bytes (Z.to_nat maxResponseBytes) body.

(** A [*transportError], or any other error. *)
Inductive failure : Type :=
  | TransportError (class : Classification) (reasonCode : string)
  | OtherError (e : error).

Record Session := MkSession { ses_breaker : option Breaker; ses_reads : nat; ses_sent : list HttpRequest }.
Definition circle (A : Type) : Type := Session -> outcome failure A * Session.
Definition ret_circle {A} (r : outcome failure A) : circle A := fun s => (r, s).
Definition bind_circle {A B} (m : circle A) (k : A -> circle B) : circle B :=
  fun s => match m s with (Ok a, s) => k a s | (Err e, s) => (Err e, s) end.
Notation "'via!' x ':=' m 'in' k" := (bind_circle m (fun x => k))
  (at level 10, x name, m at level 100, k at level 200) : go_scope.
Notation "'via_do!' m ';' k" := (bind_circle m (fun _ : unit => k))
  (at level 10, m at level 100, k at level 200) : go_scope.
Definition transport_failure {A} (class : Classification) (reasonCode : string) : circle A :=
  ret_circle (Err (TransportError class reasonCode)).

Record transferRequest := MkTransferRequest {
  trq_IdempotencyKey : string; trq_DestinationAddress : string; trq_Amounts : list string; trq_WalletID : string;
  trq_TokenID : string; trq_RefID : string; trq_FeeLevel : string
}.
Record contractExecutionRequest := MkContractExecutionRequest {
  xrq_IdempotencyKey : string; xrq_ContractAddress : string; xrq_CallData : string; xrq_WalletID : string;
  xrq_RefID : string; xrq_FeeLevel : string
}.
(** [json.Marshal] of a struct: its members in order, those of [omitempty]
    left out when empty. *)
Definition json_object (members : list (string * string)) : string :=
  "{" +:+ (Join ((fun '(k, v) => json_string k +:+ (":" +:+ v)) <$> members) "," +:+ "}").
Definition omitempty (key value : string) : list (string * string) :=
  if value == "" then [] else [(key, json_string value)].
Definition transfer_json (b : transferRequest) : string :=
  json_object (app
    [("idempotencyKey", json_string (trq_IdempotencyKey b)); ("destinationAddress", json_string (trq_DestinationAddress b));
     ("amounts", json_strings (trq_Amounts b)); ("walletId", json_string (trq_WalletID b));
     ("tokenId", json_string (trq_TokenID b))]
    (app (omitempty "refId" (trq_RefID b)) (omitempty "feeLevel" (trq_FeeLevel b)))).
Definition contract_json (b : contractExecutionRequest) : string :=
  json_object (app
    [("idempotencyKey", json_string (xrq_IdempotencyKey b)); ("contractAddress", json_string (xrq_ContractAddress b));
     ("callData", json_string (xrq_CallData b)); ("walletId", json_string (xrq_WalletID b))]
    (app (omitempty "refId" (xrq_RefID b)) (omitempty "feeLevel" (xrq_FeeLevel b)))).
Definition feeLevelMedium : string := "MEDIUM".

Record transaction := MkTransaction {
  txn_ID : string; txn_State : TransactionState; txn_TxHash : string; txn_Blockchain : string; txn_WalletID : string;
  txn_RefID : string; txn_Operation : string; txn_CustodyType : string
}.
Record challenge := MkChallenge {
  chg_ID : string; chg_Status : ChallengeStatus; chg_Type : string; chg_CorrelationIDs : list string
}.
(** [json.Unmarshal] into [transferResponse] and [contractExecutionResponse]
    (the challenge ID), [transactionResponse], [transactionListResponse] and
    [challengeListResponse]; [url.PathEscape]. *)
Class CircleWire := {
  unmarshal_challenge_id : string -> result string;
  unmarshal_transaction : string -> result transaction;
  unmarshal_transactions : string -> result (list transaction);
  unmarshal_challenges : string -> result (list challenge);
  PathEscape : string -> string
}.

Definition TrimSuffix (s suffix : string) : string :=
  let n := (String.length s - String.length suffix)%nat in
  if (len suffix <=? len s) && (rest_bytes n s == suffix) then first_bytes n s else s.
Definition encodeCallDataHex (callData : string) : result string :=
  do! fail_if (len callData <? 4) (errorf "call data is too short");
  Ok ("0x" +:+ EncodeToString (bytes callData)).

Section client.
Context `{NetUrl} `{CircleWire}.
Context (config : CircleConfig) (endpoint : nat -> HttpRequest -> answer) (clock : nat -> Time).

Definition newClientWithBreaker (breaker : option Breaker) : result Session :=
  do! CircleConfig_Validate config;
  do! fail_if (negb (ccf_Enabled config)) (errorf "Circle provider is not enabled");
  Ok (MkSession breaker 0 []).

Definition read_clock : circle Time := fun s =>
  (Ok (clock (ses_reads s)), MkSession (ses_breaker s) (S (ses_reads s)) (ses_sent s)).
Definition allow : circle (result unit) := fun s =>
  match ses_breaker s with
  | None => (Ok (Ok tt), s)
  | Some b => let '(r, b) := Allow (clock (ses_reads s)) b in (Ok r, MkSession (Some b) (S (ses_reads s)) (ses_sent s))
  end.
Definition recordInfrastructureSuccess : circle unit := fun s =>
  (Ok tt, MkSession (RecordSuccess (clock (ses_reads s)) <$> ses_breaker s) (S (ses_reads s)) (ses_sent s)).
Definition recordInfrastructureFailure : circle unit := fun s =>
  (Ok tt, MkSession (RecordFailure (clock (ses_reads s)) <$> ses_breaker s) (S (ses_reads s)) (ses_sent s)).
(** [c.http.Do] *)
Definition exchange (request : HttpRequest) : circle answer := fun s =>
  (Ok (endpoint (length (ses_sent s)) request), MkSession (ses_breaker s) (ses_reads s) (request :: ses_sent s)).

Definition address_of (path : string) (query : gmap string (list string)) : string :=
  (TrimSuffix (ccf_BaseURL config) "/" +:+ path) +:+ (if 0 <? Z.of_nat (size query) then "?" +:+ Values_Encode query else "").
Definition request_of (method path : string) (query : gmap string (list string)) (body : option string)
    (authorization : UserAuthorization) : HttpRequest :=
  MkHttpRequest method (address_of path query)
    (app [("Accept", "application/json")]
      (app (match body with Some _ => [("Content-Type", "application/json")] | None => [] end)
           [("Authorization", "Bearer " +:+ ccf_APIKey config); ("X-User-Token", Reveal authorization)]))
    body.

(** [do] *)
Definition perform (method path : string) (query : gmap string (list string)) (body : option string)
    (authorization : UserAuthorization) (submitting : bool) : circle string :=
  if negb (Present authorization) then transport_failure ClassUserAuthorizationRequired "USER_AUTHORIZATION_REQUIRED"
  else
    via! allowed := allow in
    match allowed with
    | Err _ => transport_failure ClassTransientProviderError "PROVIDER_CIRCUIT_OPEN"
    | Ok _ =>
        match url_Parse (address_of path query) with
        | Err _ => transport_failure ClassPreSubmissionValidationFailure "PROVIDER_REQUEST_INVALID"
        | Ok _ =>
            via! response := exchange (request_of method path query body authorization) in
            match response with
            | NoAnswer =>
                via_do! recordInfrastructureFailure;
                if submitting then transport_failure ClassAmbiguousSubmission "PROVIDER_SUBMISSION_UNCONFIRMED"
                else transport_failure ClassTransientProviderError "PROVIDER_UNREACHABLE"
            | Answer statusCode payload =>
                if (statusCode <? 200) || (299 <? statusCode) then
                  let '(class, reasonCode) := classifyHTTPStatus statusCode submitting in
                  via_do! (if countsTowardCircuit class statusCode then recordInfrastructureFailure else ret_circle (Ok tt));
                  transport_failure class reasonCode
                else match payload with
                     | None =>
                         via_do! recordInfrastructureFailure;
                         if submitting then transport_failure ClassAmbiguousSubmission "PROVIDER_RESPONSE_UNREADABLE"
                         else transport_failure ClassTransientProviderError "PROVIDER_RESPONSE_UNREADABLE"
                     | Some body => via_do! recordInfrastructureSuccess; ret_circle (Ok (limited body))
                     end
            end
        end
    end.

(** A response that does not decode, or names nothing, is ambiguous. *)
Definition decoded {A} (usable : A -> bool) (r : result A) : circle A :=
  match r with
  | Ok a => if usable a then ret_circle (Ok a) else transport_failure ClassAmbiguousSubmission "PROVIDER_RESPONSE_UNREADABLE"
  | Err _ => transport_failure ClassAmbiguousSubmission "PROVIDER_RESPONSE_UNREADABLE"
  end.
Definition named (id : string) : bool := id != "".

Definition transfer_path : string := "/v1/w3s/user/transactions/transfer".
Definition createTransferChallenge (authorization : UserAuthorization) (body : transferRequest) : circle string :=
  via! response := perform MethodPost transfer_path ∅ (Some (transfer_json body)) authorization true in
  decoded named (unmarshal_challenge_id response).

Definition contract_path : string := "/v1/w3s/user/transactions/contractExecution".
Definition createContractExecutionChallenge (authorization : UserAuthorization) (body : contractExecutionRequest)
    : circle string :=
  if (xrq_IdempotencyKey body == "") || (xrq_ContractAddress body == "") || (xrq_CallData body == "")
     || (xrq_WalletID body == "")
  then transport_failure ClassPreSubmissionValidationFailure "PROVIDER_REQUEST_INVALID"
  else
    let body := MkContractExecutionRequest (xrq_IdempotencyKey body) (xrq_ContractAddress body) (xrq_CallData body)
      (xrq_WalletID body) (xrq_RefID body) (if xrq_FeeLevel body == "" then feeLevelMedium else xrq_FeeLevel body) in
    via! response := perform MethodPost contract_path ∅ (Some (contract_json body)) authorization true in
    decoded named (unmarshal_challenge_id response).

Definition getTransaction (authorization : UserAuthorization) (transactionID : string) : circle transaction :=
  if transactionID == "" then transport_failure ClassAmbiguousSubmission "PROVIDER_REFERENCE_MISSING"
  else
    via! response := perform MethodGet ("/v1/w3s/transactions/" +:+ PathEscape transactionID) ∅ None authorization false in
    decoded (fun t => named (txn_ID t)) (unmarshal_transaction response).

Definition reference_query (walletID : string) : gmap string (list string) :=
  list_to_map [("walletIds", [walletID]); ("blockchain", [ccf_Blockchain config]); ("txType", ["OUTBOUND"]);
               ("pageSize", ["50"]); ("order", ["DESC"])].
Definition findTransactionByRef (authorization : UserAuthorization) (walletID refID : string) : circle (option transaction) :=
  if (walletID == "") || (refID == "") then transport_failure ClassAmbiguousSubmission "PROVIDER_REFERENCE_MISSING"
  else
    via! response := perform MethodGet "/v1/w3s/transactions" (reference_query walletID) None authorization false in
    via! transactions := decoded (fun _ => true) (unmarshal_transactions response) in
    ret_circle (Ok (find (fun candidate => (txn_RefID candidate == refID) && (txn_WalletID candidate == walletID)) transactions)).

Definition findChallenge (authorization : UserAuthorization) (challengeID : string) : circle (option challenge) :=
  if challengeID == "" then transport_failure ClassAmbiguousSubmission "PROVIDER_REFERENCE_MISSING"
  else
    via! response := perform MethodGet "/v1/w3s/user/challenges" ∅ None authorization false in
    via! challenges := decoded (fun _ => true) (unmarshal_challenges response) in
    ret_circle (Ok (find (fun candidate => chg_ID candidate == challengeID) challenges)).

(** * The probe of health.go *)
Definition healthProbe : circle Z :=
  via! allowed := allow in
  match allowed with
  | Err _ => ret_circle (Err (OtherError ErrOpen))
  | Ok _ =>
      let address := TrimSuffix (ccf_BaseURL config) "/" +:+ "/v1/ping" in
      match url_Parse address with
      | Err e => ret_circle (Err (OtherError e))
      | Ok _ =>
          via! response := exchange (MkHttpRequest MethodGet address
            [("Accept", "application/json"); ("Authorization", "Bearer " +:+ ccf_APIKey config)] None) in
          match response with
          | NoAnswer => via_do! recordInfrastructureFailure; ret_circle (Err (OtherError (errorf "circle transport")))
          | Answer statusCode _ =>
              if 500 <=? statusCode then
                via_do! recordInfrastructureFailure;
                ret_circle (Err (OtherError (errorf1 "circle health probe status %d" (FormatInt statusCode))))
              else via_do! recordInfrastructureSuccess; ret_circle (Ok statusCode)
          end
      end
  end.

(** [NewHealthChecker]: the session of its client, if it has one. *)
Definition NewHealthChecker (breaker : option Breaker) : result (option Session) :=
  if negb (Configured config) then Ok None
  else let! transport := newClientWithBreaker breaker in Ok (Some transport).

Definition breaker_state (breaker : option Breaker) : string :=
  match breaker with Some b => state_string (brk_state b) | None => "" end.
(** [errors.Is(err, circuit.ErrOpen)] *)
Definition is_open_error (e : error) : bool :=
  match e with Errorf text [] None => text == "provider circuit breaker is open" | _ => false end.
(** What a probe says about the endpoint. *)
Definition probed (statusCode : Z) : HealthStatus * string :=
  if (200 <=? statusCode) && (statusCode <? 300) then (HealthHealthy, "Circle endpoint answered successfully")
  else if (statusCode =? 401) || (statusCode =? 403) then (HealthDegraded, "Circle endpoint rejected credentials")
  else if statusCode =? 404 then (HealthHealthy, "Circle endpoint is reachable")
  else (HealthDegraded, "Circle endpoint returned an unexpected status").
(** [HealthChecker.Check]; without a client the session is the breaker's. *)
Definition CircleHealthCheck (now : Time) (client : bool) (s : Session) : ComponentHealth * Session :=
  let component status detail b := MkComponentHealth "circle" status detail (UTC now) (breaker_state b) in
  let before := ses_breaker s in
  if negb (Configured config) then (component HealthNotConfigured "Circle provider is not configured" before, s)
  else if negb client then (component HealthUnavailable "Circle health client is unavailable" before, s)
  else match healthProbe s with
  | (Err (OtherError e), s) =>
      (if is_open_error e then component HealthDegraded "Circle circuit breaker is open" before
       else component HealthUnavailable "Circle endpoint is unreachable" before, s)
  | (Err _, s) => (component HealthUnavailable "Circle endpoint is unreachable" before, s)
  | (Ok statusCode, s) => let '(status, detail) := probed statusCode in (component status detail (ses_breaker s), s)
  end.
End client.

(** * Threading the session *)
Section threading.
Lemma bind_circle_ok {A B} (m : circle A) (k : A -> circle B) s b s' :
  bind_circle m k s = (Ok b, s') -> exists a s1, m s = (Ok a, s1) /\ k a s1 = (Ok b, s').
Proof. unfold bind_circle. destruct (m s) as [[a|e] s1]; [eauto|done]. Qed.
Lemma bind_circle_inv {A B} (m : circle A) (k : A -> circle B) s r s' :
  bind_circle m k s = (r, s') ->
  (exists a s1, m s = (Ok a, s1) /\ k a s1 = (r, s')) \/ (exists e, m s = (Err e, s') /\ r = Err e).
Proof. unfold bind_circle. destruct (m s) as [[a|e] s1]; [eauto|intros [= <- <-]; eauto]. Qed.

(** What a computation keeps of the session, whatever it answers. *)
Definition keeps (R : Session -> Session -> Prop) {A} (m : circle A) : Prop := forall s, R s (snd (m s)).
Lemma keeps_ret R `{!Reflexive R} {A} (r : outcome failure A) : keeps R (ret_circle r).
Proof. intros s. reflexivity. Qed.
Lemma keeps_then R `{!Transitive R} {A B} (m : circle A) (k : A -> circle B) :
  keeps R m -> (forall a, keeps R (k a)) -> keeps R (bind_circle m k).
Proof.
  intros Hm Hk s. unfold bind_circle. specialize (Hm s). destruct (m s) as [[a|e] s1]; cbn in *; [|done].
  etransitivity; [exact Hm|apply Hk].
Qed.
End threading.
Create HintDb circle.
#[export] Hint Resolve keeps_ret keeps_then : circle.

(** * What a call does *)
Section calls.
Context `{NetUrl} `{CircleWire}.
Context (config : CircleConfig) (endpoint : nat -> HttpRequest -> answer) (clock : nat -> Time).
Abbreviation perform_ := (perform config endpoint clock).

(** The failures before anything was sent. *)
Definition unsent (class : Classification) : Prop :=
  class = ClassUserAuthorizationRequired \/ class = ClassTransientProviderError \/ class = ClassPreSubmissionValidationFailure.

Lemma classifyHTTPStatus_submitted statusCode : fst (classifyHTTPStatus statusCode true) = ClassAmbiguousSubmission.
Proof. unfold classifyHTTPStatus. repeat case_match; done. Qed.
Lemma classifyHTTPStatus_reason statusCode submitted : validReasonCode (snd (classifyHTTPStatus statusCode submitted)) = true.
Proof. unfold classifyHTTPStatus. repeat case_match; reflexivity. Qed.

(** At most one request leaves, and none without the user's token; once a
    submission has left, every failure is ambiguous. *)
Lemma perform_spec method path query body a submitting s r s' :
  perform_ method path query body a submitting s = (r, s') ->
  (ses_sent s' = ses_sent s /\
   exists class reasonCode, r = Err (TransportError class reasonCode) /\ unsent class /\ validReasonCode reasonCode = true) \/
  (Present a = true /\ ses_sent s' = request_of config method path query body a :: ses_sent s /\
   forall e, r = Err e -> exists class reasonCode, e = TransportError class reasonCode /\ validReasonCode reasonCode = true /\
     (submitting = true -> class = ClassAmbiguousSubmission)).
Proof.
  unfold perform. destruct (Present a) eqn:Ep; cbn [negb].
  2:{ intros [= <- <-]. left. split; [done|]. do 2 eexists. split; [done|]. split; [by left|reflexivity]. }
  assert (forall class reasonCode r s0 s', transport_failure (A := string) class reasonCode s0 = (r, s') ->
            r = Err (TransportError class reasonCode) /\ s' = s0) as Hfail by by intros * [= <- <-].
  intros E. unfold bind_circle in E. destruct (allow clock s) as [allowed s1] eqn:Ea.
  assert (ses_sent s1 = ses_sent s /\ exists x, allowed = Ok x) as [Hs1 [x ->]].
  { unfold allow in Ea. destruct (ses_breaker s) as [b|]; [destruct (Allow _ b)|]; injection Ea as <- <-; split; eauto; done. }
  destruct x as [u|e0]; cycle 1.
  { apply Hfail in E as [-> ->]. left. split; [done|]. do 2 eexists. split; [done|]. split; [by right; left|reflexivity]. }
  destruct (url_Parse _) as [u1|e1]; cycle 1.
  { apply Hfail in E as [-> ->]. left. split; [done|]. do 2 eexists. split; [done|]. split; [by right; right|reflexivity]. }
  right. split; [done|]. unfold exchange in E. cbn [fst snd] in E.
  destruct (endpoint _ _) as [|statusCode payload].
  { cbn in E. destruct submitting; injection E as <- <-; cbn; (split; [by rewrite Hs1|]); intros e [= <-];
      do 2 eexists; (split; [done|]); split; done. }
  destruct ((statusCode <? 200) || (299 <? statusCode)).
  - destruct (classifyHTTPStatus statusCode submitting) as [class code] eqn:Ec.
    assert (validReasonCode code = true) as Hcode by (pose proof (classifyHTTPStatus_reason statusCode submitting) as Hr; by rewrite Ec in Hr).
    assert (submitting = true -> class = ClassAmbiguousSubmission) as Hclass.
    { intros ->. pose proof (classifyHTTPStatus_submitted statusCode) as Hr. by rewrite Ec in Hr. }
    destruct (countsTowardCircuit class statusCode); cbn in E; injection E as <- <-; cbn; (split; [by rewrite Hs1|]);
      intros e [= <-]; eauto 10.
  - destruct payload as [payload|]; cbn in E; [|destruct submitting]; injection E as <- <-; cbn; (split; [by rewrite Hs1|]);
      intros e Hx; try done; injection Hx as <-; do 2 eexists; (split; [done|]); split; done.
Qed.

(** ** Reading is not submitting *)
Definition posts (s : Session) : list HttpRequest := filter (fun q => hrq_Method q = MethodPost) (ses_sent s).
Definition no_post (s s' : Session) : Prop := posts s' = posts s.
#[local] Instance no_post_preorder : PreOrder no_post.
Proof. split; [by intros s|intros s1 s2 s3 H12 H23; unfold no_post in *; congruence]. Qed.

Lemma perform_get path query body a submitting : keeps no_post (perform_ MethodGet path query body a submitting).
Proof.
  intros s. destruct (perform_ _ _ _ _ _ _ s) as [r s'] eqn:E. apply perform_spec in E. unfold no_post, posts. cbn [snd].
  destruct E as [[-> _]|(_ & -> & _)]; done.
Qed.
Lemma decoded_keeps {A} (usable : A -> bool) r : keeps no_post (decoded usable r).
Proof. unfold decoded, transport_failure. destruct r as [a|e]; [destruct (usable a)|]; apply keeps_ret, _. Qed.
Lemma fail_keeps {A} class reasonCode : keeps no_post (transport_failure (A := A) class reasonCode).
Proof. apply keeps_ret, _. Qed.
#[local] Hint Resolve perform_get decoded_keeps fail_keeps : circle.

Lemma getTransaction_keeps a id : keeps no_post (getTransaction config endpoint clock a id).
Proof. unfold getTransaction. destruct (_ == _); auto with circle typeclass_instances. Qed.
Lemma findTransactionByRef_keeps a w id : keeps no_post (findTransactionByRef config endpoint clock a w id).
Proof. unfold findTransactionByRef. destruct (_ || _); auto 6 with circle typeclass_instances. Qed.
Lemma findChallenge_keeps a id : keeps no_post (findChallenge config endpoint clock a id).
Proof. unfold findChallenge. destruct (_ == _); auto 6 with circle typeclass_instances. Qed.

(** ** A probe that nobody answers for *)
Abbreviation probe_ := (healthProbe config endpoint clock).
(** One call after another, of any kind. *)
Inductive later : Session -> Session -> Prop :=
  | later_refl s : later s s
  | later_perform s s' method path query body a submitting :
      later s s' -> later s (snd (perform_ method path query body a submitting s'))
  | later_probe s s' : later s s' -> later s (snd (probe_ s')).

(** Half open, with every probe taken. *)
Definition exhausted (s : Session) : Prop :=
  exists b, ses_breaker s = Some b /\ brk_state b = StateHalfOpen /\ HalfOpenMaxProbes (brk_config b) <= brk_halfOpenProbes b.

Lemma allow_exhausted s : exhausted s ->
  fst (allow clock s) = Ok (Err ErrOpen) /\ exhausted (snd (allow clock s)) /\ ses_sent (snd (allow clock s)) = ses_sent s.
Proof.
  intros (b & Eb & Es & Hp). unfold allow, Allow. rewrite Eb, Es. apply Z.leb_le in Hp as Hle. rewrite Hle. cbn.
  split_and!; try done. by exists b.
Qed.
Lemma perform_exhausted method path query body a submitting s : exhausted s ->
  let '(r, s') := perform_ method path query body a submitting s in
  exhausted s' /\ ses_sent s' = ses_sent s /\
  (Present a = true -> r = Err (TransportError ClassTransientProviderError "PROVIDER_CIRCUIT_OPEN")).
Proof.
  intros Hs. unfold perform. destruct (Present a); cbn [negb]; [|cbn; split_and!; done].
  unfold bind_circle. pose proof (allow_exhausted s Hs) as (Ea & Hs' & Hsent). destruct (allow clock s) as [x s']. cbn in Ea, Hs', Hsent.
  subst x. cbn. split_and!; done.
Qed.
Lemma later_exhausted s s' : later s s' -> exhausted s -> exhausted s' /\ ses_sent s' = ses_sent s.
Proof.
  induction 1 as [s|s s' method path query body a submitting _ IH|s s' _ IH]; intros Hs; [done|..]; destruct (IH Hs) as [He Hsent].
  - pose proof (perform_exhausted method path query body a submitting s' He) as Hp.
    destruct (perform_ _ _ _ _ _ _ s') as [r s2]. destruct Hp as (? & E & _). cbn. split; [done|]. by rewrite E.
  - unfold healthProbe, bind_circle. pose proof (allow_exhausted s' He) as (Ea & He' & Es).
    destruct (allow clock s') as [x s2]. cbn in Ea, He', Es. subst x. cbn. split; [done|]. by rewrite Es.
Qed.

(** A breaker about to admit its last probe. *)
Definition last_probe (s : Session) : Prop :=
  exists b, ses_breaker s = Some b /\
    (brk_state b = StateOpen /\ Before (UTC (clock (ses_reads s))) (Add (brk_openedAt b) (OpenDuration (brk_config b))) = false /\
       HalfOpenMaxProbes (brk_config b) = 1 \/
     brk_state b = StateHalfOpen /\ 0 <= brk_halfOpenProbes b < 2 ^ 63 - 1 /\ HalfOpenMaxProbes (brk_config b) = brk_halfOpenProbes b + 1).
Lemma allow_last s : last_probe s ->
  fst (allow clock s) = Ok (Ok tt) /\ exhausted (snd (allow clock s)) /\ ses_sent (snd (allow clock s)) = ses_sent s.
Proof.
  intros (b & Eb & Hb). unfold allow, Allow. rewrite Eb. destruct Hb as [(Es & Et & Em)|(Es & Hn & Em)]; rewrite Es.
  - rewrite Et. cbn. split_and!; [done| |done].
    eexists. split_and!; [reflexivity|done|cbn; lia].
  - destruct (_ <=? _) eqn:E; reflect_all; [lia|]. cbn. split_and!; [done| |done].
    eexists. split_and!; [reflexivity|done|]. cbn. rewrite i64_small; lia.
Qed.

(** One rejected read can close the provider for good.  A read admitted as
    the last probe of the half-open breaker and answered 400, 404 or 422 is
    neither a success nor a failure to the breaker, so the probe is never given
    back: whatever calls follow, at whatever instants, no request leaves the
    process again, and every call that carries an authorization is answered
    PROVIDER_CIRCUIT_OPEN. *)
Theorem rejected_probe_closes_provider (path : string) (query : gmap string (list string)) (body : option string)
    (a : UserAuthorization) (s s' : Session) (statusCode : Z) (payload : option string)
    (Ha : Present a = true) (Hs : last_probe s) (Hurl : is_ok (url_Parse (address_of config path query)) = true)
    (Hreply : endpoint (length (ses_sent s)) (request_of config MethodGet path query body a) = Answer statusCode payload)
    (Hcode : statusCode = 400 \/ statusCode = 404 \/ statusCode = 422)
    (Hlater : later (snd (perform_ MethodGet path query body a false s)) s') :
  ses_sent s' = request_of config MethodGet path query body a :: ses_sent s /\
  forall method path' query' body' a' submitting, Present a' = true ->
    fst (perform_ method path' query' body' a' submitting s') = Err (TransportError ClassTransientProviderError "PROVIDER_CIRCUIT_OPEN").
Proof.
  assert (exhausted (snd (perform_ MethodGet path query body a false s)) /\
          ses_sent (snd (perform_ MethodGet path query body a false s)) = request_of config MethodGet path query body a :: ses_sent s)
    as [He Hsent].
  { unfold perform, bind_circle. rewrite Ha. cbn [negb]. pose proof (allow_last s Hs) as (Ea & He & Es).
    destruct (allow clock s) as [x s1]. cbn in Ea, He, Es. subst x. destruct (url_Parse _) as [u|e]; [|done].
    unfold exchange. rewrite Es, Hreply. destruct Hcode as [-> | [-> | ->]]; cbn; (split; [|done]);
      destruct He as (b & ? & ? & ?); exists b; split_and!; assumption. }
  apply later_exhausted in Hlater as [He' Hsent']; [|done]. split; [by rewrite Hsent'|].
  intros method path' query' body' a' submitting Ha'. pose proof (perform_exhausted method path' query' body' a' submitting s' He') as Hp.
  destruct (perform_ _ _ _ _ _ _ s') as [r s2]. cbn. by apply Hp.
Qed.
End calls.

(** * A concrete client *)
Module CircleSamples.
#[local] Instance urls : NetUrl := Build_NetUrl (fun s => Ok (MkURL "https" "" false "api.circle.com" "" "" "" s)) url_raw
  url_Host (fun _ => ∅) (fun _ => "q").
#[local] Instance wire : CircleWire := Build_CircleWire (fun s => Ok s) (fun _ => Err (errorf "json")) (fun _ => Ok [])
  (fun _ => Ok []) (fun s => s).
Definition config : CircleConfig := MkCircleConfig true defaultBaseURL "key" "ARC" arcMainnetChainID arcMainnetNetwork (20 * Second).
Definition clock (n : nat) : Time := CircuitSamples.now + (60 + Z.of_nat n) * Second.
Definition endpoint (n : nat) (q : HttpRequest) : answer := Answer 404 (Some "{}").
Definition token : UserAuthorization := MkUserAuthorization "user-token".
(** Five failures opened the breaker a minute ago. *)
Definition start : Session := MkSession (Some (CircuitSamples.fail 5)) 0 [].

Lemma rejected_probe_closes_provider_witness :
  fst (perform config endpoint clock MethodGet "/v1/w3s/user/challenges" ∅ None token false
         (snd (perform config endpoint clock MethodGet "/v1/w3s/transactions/tx-1" ∅ None token false start)))
  = Err (TransportError ClassTransientProviderError "PROVIDER_CIRCUIT_OPEN").
Proof.
  assert (last_probe clock start) as Hs by (eexists; split; [reflexivity|left; vm_compute; auto]).
  destruct (rejected_probe_closes_provider config endpoint clock "/v1/w3s/transactions/tx-1" ∅ None token start
    (snd (perform config endpoint clock MethodGet "/v1/w3s/transactions/tx-1" ∅ None token false start)) 404 (Some "{}"))
    as [_ Hall]; [reflexivity|exact Hs|vm_compute; reflexivity|reflexivity|auto|apply later_refl|].
  by apply Hall.
Defined.
End CircleSamples.
