(* ===== verification/CircleAdapter.v ===== *)
(** internal/providers/circle/adapter.go: the execution adapter of the Circle
    user-controlled wallet.  [Execute] turns a plan into one challenge for the
    user; [GetStatus] and [ResolveReference] read what became of it.

    The planner, the source of user authorizations and the store of provider
    references are arguments, whatever they answer; so are the endpoint and the
    clocks, as in the client. *)
From S2P Require Import Prelude GoStrings GoText GoTime AppErrors Contracts Execution Storage Database RuntimeEffects.
From S2P Require Import Circuit References ChainEvidence Deployments Abi PayrollContract Plans OAuthModel ExecutionStore.
From S2P Require Import Runtime ExecutionSafety CircleClient.
Open Scope string_scope.
Open Scope Z_scope.
Open Scope go_scope.

Record resolution := MkResolution { rsl_reference : Reference; rsl_state : TransactionState; rsl_found : bool }.

Section adapter.
Context `{EthCommon} `{UnicodeTables} `{FoldTables} `{EthCrypto} `{NetUrl} `{CircleWire}.
Context (config : CircleConfig) (endpoint : nat -> HttpRequest -> answer) (clock : nat -> Time).
Context (planner : Request -> result Plan) (authorization : string -> result (option UserAuthorization)).
Context (references : string -> result (option Reference)) (registry : Registry).

(** [NewAdapterWithBreaker] with its dependencies present. *)
Definition NewAdapterWithBreaker (breaker : option Breaker) : result Session :=
  do! fail_if (negb (Configured config)) (errorf "Circle Arc Mainnet execution is unavailable in Track A");
  newClientWithBreaker config breaker.

(** * Plans *)
Definition validateContractExecutionPlan (plan : Plan) : result unit :=
  match pln_encodedCall plan with
  | None => Err (errorf "contract execution plan is missing sealed encoded call")
  | Some call =>
      do! (if cal_contractID call == ContractWizPayPayroll then
             fail_if (cal_function call == SigExecuteCrossTokenPayroll)
               (errorf "Arc Mainnet cross-token payroll submission authority is unavailable")
           else if cal_contractID call == ContractWizPaySwapExecutor then
             Err (errorf "Arc Mainnet swap submission authority is unavailable")
           else Err (errorf1 "contract %q is not supported for provider execution" (cal_contractID call)));
      do! fail_if (cal_registryVersion call != RegistryVersion)
            (errorf1 "contract registry version %d is unsupported" (FormatUint (cal_registryVersion call)));
      do! fail_if ((cal_chainID call != ccf_ChainID config) || (cal_chainID call != ChainIDArcMainnet))
            (errorf "encoded call targets an unsupported chain");
      do! fail_if ((cal_network call != "") && (cal_network call != ccf_Network config))
            (errorf "encoded call targets an unsupported network");
      let! deployment := map_err (errorf_wrap "encoded call deployment is not registered: %w" [])
                           (Require_ registry (cal_contractID call) (cal_registryVersion call) (cal_chainID call) (cal_network call)) in
      do! fail_if (negb (AddressesEqual (cal_to call) (dep_Address deployment)))
            (errorf "encoded call target does not match canonical deployment");
      fail_if (negb (AllowsExecution deployment (cal_function call)))
        (errorf "encoded call function is not allowlisted for execution")
  end.
Definition validatePlan (plan : Plan) : result unit :=
  do! Plan_Validate plan;
  do! fail_if ((pln_ChainID plan != ccf_ChainID config) || (pln_Network plan != ccf_Network config))
        (errorf "submission plan targets an unsupported chain or network");
  match EffectiveKind plan with
  | PlanKindTokenTransfer => Ok tt
  | PlanKindContractExecution => validateContractExecutionPlan plan
  | PlanKindOther _ => Err (errorf "submission plan kind is unsupported")
  end.

(** * Outcomes *)
Definition observed_now (s : Session) : Time * Session :=
  (UTC (clock (ses_reads s)), MkSession (ses_breaker s) (S (ses_reads s)) (ses_sent s)).
Definition outcome_ (executionID : string) (value : Outcome) (s : Session) : result Result * Session :=
  let '(at_, s) := if IsZero (out_ObservedAt value) then observed_now s else (out_ObservedAt value, s) in
  (AdapterResult (MkOutcome (out_Class value) (out_ReasonCode value) (out_Reference value) at_ (out_HasReference value))
     executionID, s).
Definition classifyTransportError (e : failure) : Classification * string :=
  match e with
  | TransportError class reasonCode => (class, reasonCode)
  | OtherError _ => (ClassAmbiguousSubmission, "PROVIDER_OUTCOME_UNKNOWN")
  end.
Definition bare (class : Classification) (reasonCode : string) : Outcome :=
  MkOutcome class reasonCode no_reference zero_time false.

(** * Submission *)
Definition transfer_of (plan : Plan) (idempotencyKey executionID : string) : transferRequest :=
  MkTransferRequest idempotencyKey (pln_DestinationAddress plan) [pln_Amount plan] (pln_WalletID plan) (pln_TokenID plan)
    executionID "".
Definition createChallenge (a : UserAuthorization) (plan : Plan) (idempotencyKey executionID : string) : circle string :=
  let invalid := transport_failure ClassPreSubmissionValidationFailure "SUBMISSION_PLAN_INVALID" in
  match EffectiveKind plan with
  | PlanKindTokenTransfer =>
      createTransferChallenge config endpoint clock a (transfer_of plan idempotencyKey executionID)
  | PlanKindContractExecution =>
      match pln_encodedCall plan with
      | None => invalid
      | Some call =>
          match encodeCallDataHex (cal_callData call) with
          | Err _ => invalid
          | Ok callData =>
              createContractExecutionChallenge config endpoint clock a
                (MkContractExecutionRequest idempotencyKey (cal_to call) callData (pln_WalletID plan) executionID feeLevelMedium)
          end
      end
  | PlanKindOther _ => invalid
  end.

Definition base_reference (plan : Plan) (challengeID : string) : Reference :=
  MkReference ProviderCircleUserControlled (pln_ChainID plan) (pln_WalletID plan) challengeID "" "" false false "" 0 0 "".
Definition transportOutcome (executionID : string) (e : failure) (reference : Reference) (hasReference : bool) (s : Session)
    : result Result * Session :=
  let '(class, reasonCode) := classifyTransportError e in
  outcome_ executionID (MkOutcome class reasonCode reference zero_time hasReference) s.

Definition Execute (r : Request) (s : Session) : result Result * Session :=
  let executionID := req_executionID r in
  let refuse code := outcome_ executionID (bare ClassPreSubmissionValidationFailure code) in
  match planner r with
  | Err _ => refuse "SUBMISSION_PLAN_UNAVAILABLE" s
  | Ok plan =>
      match validatePlan plan with
      | Err _ => refuse "SUBMISSION_PLAN_INVALID" s
      | Ok _ =>
          let '(now, s) := observed_now s in
          if FreshnessExpired plan now then refuse "FINANCIAL_MATERIAL_EXPIRED" s
          else match IdempotencyKey r with
          | Err _ => refuse "IDEMPOTENCY_KEY_UNAVAILABLE" s
          | Ok idempotencyKey =>
              match authorization executionID with
              | Ok (Some a) =>
                  match createChallenge a plan idempotencyKey executionID s with
                  | (Err e, s) => transportOutcome executionID e (base_reference plan "") false s
                  | (Ok challengeID, s) =>
                      outcome_ executionID (MkOutcome ClassUserAuthorizationRequired "USER_AUTHORIZATION_REQUIRED"
                                              (base_reference plan challengeID) zero_time true) s
                  end
              | _ => outcome_ executionID (bare ClassUserAuthorizationRequired "USER_AUTHORIZATION_REQUIRED") s
              end
          end
      end
  end.

(** * Reconciliation *)
Definition applyTransaction (reference : Reference) (record : transaction) : circle resolution :=
  if (txn_Blockchain record != "") && (txn_Blockchain record != ccf_Blockchain config) then
    ret_circle (Err (OtherError (errorf "provider transaction is on an unexpected blockchain")))
  else if (ref_WalletID reference != "") && (txn_WalletID record != "") && (txn_WalletID record != ref_WalletID reference) then
    ret_circle (Err (OtherError (errorf "provider transaction belongs to another wallet")))
  else
    let enriched := WithTransaction reference (txn_ID record) (ToLower (txn_TxHash record)) in
    let enriched :=
      if (ref_TransactionHash enriched != "") && negb (ValidTransactionHash (ref_TransactionHash enriched))
      then MkReference (ref_Provider enriched) (ref_ChainID enriched) (ref_WalletID enriched) (ref_ChallengeID enriched)
             (ref_ProviderTransactionID enriched) "" (ref_ObsPresent enriched) (ref_ObsKnown enriched)
             (ref_ObsBlockHash enriched) (ref_ObsBlockNumber enriched) (ref_ObsConfirmations enriched)
             (ref_ObsLogFingerprint enriched)
      else enriched in
    ret_circle (Ok (MkResolution enriched (txn_State record) true)).

Definition resolveTransaction (executionID : string) (a : UserAuthorization) (reference : Reference) : circle resolution :=
  if ref_ProviderTransactionID reference != "" then
    via! record := getTransaction config endpoint clock a (ref_ProviderTransactionID reference) in
    applyTransaction reference record
  else
    via! found := findTransactionByRef config endpoint clock a (ref_WalletID reference) executionID in
    match found with
    | None => ret_circle (Ok (MkResolution reference (TransactionOther "") false))
    | Some record => applyTransaction reference record
    end.

Definition classifyResolution (observed : resolution) : Classification * string :=
  let '(class, reasonCode) := classifyTransactionState (rsl_state observed) in
  if (ref_TransactionHash (rsl_reference observed) != "") && (class == ClassPermanentProviderRejection)
  then (ClassSubmittedPending, "")
  else if class == ClassSubmittedPending then (class, "")
  else (class, reasonCode).

(** Neither [challengeOutcome] nor [reconcile] ever returns an error. *)
Definition challengeOutcome (a : UserAuthorization) (reference : Reference) (s : Session) : Outcome * Session :=
  let '(observedAt, s) := observed_now s in
  let seen class reasonCode := MkOutcome class reasonCode reference observedAt true in
  if ref_ChallengeID reference == "" then (seen ClassAmbiguousSubmission "PROVIDER_TRANSACTION_NOT_FOUND", s)
  else match findChallenge config endpoint clock a (ref_ChallengeID reference) s with
  | (Err e, s) => let '(class, reasonCode) := classifyTransportError e in (seen class reasonCode, s)
  | (Ok None, s) => (seen ClassAmbiguousSubmission "PROVIDER_CHALLENGE_NOT_OUTSTANDING", s)
  | (Ok (Some record), s) =>
      let '(class, reasonCode) := classifyChallengeStatus (chg_Status record) in
      if class == ClassSubmittedPending then (seen ClassAmbiguousSubmission "PROVIDER_TRANSACTION_NOT_FOUND", s)
      else (seen class reasonCode, s)
  end.

Definition reconcile (executionID : string) (a : UserAuthorization) (reference : Reference) (s : Session) : Outcome * Session :=
  match resolveTransaction executionID a reference s with
  | (Err e, s) =>
      let '(class, reasonCode) := classifyTransportError e in
      let '(observedAt, s) := observed_now s in
      (MkOutcome class reasonCode reference observedAt true, s)
  | (Ok observed, s) =>
      if negb (rsl_found observed) then challengeOutcome a (rsl_reference observed) s
      else
        let '(class, reasonCode) := classifyResolution observed in
        let '(observedAt, s) := observed_now s in
        (MkOutcome class reasonCode (rsl_reference observed) observedAt true, s)
  end.

Definition GetStatus (executionID : string) (s : Session) : result Result * Session :=
  match references executionID with
  | Err _ => outcome_ executionID (bare ClassTransientProviderError "PROVIDER_REFERENCE_UNAVAILABLE") s
  | Ok None => outcome_ executionID (bare ClassAmbiguousSubmission "PROVIDER_REFERENCE_MISSING") s
  | Ok (Some reference) =>
      match authorization executionID with
      | Ok (Some a) => let '(value, s) := reconcile executionID a reference s in outcome_ executionID value s
      | _ => outcome_ executionID (MkOutcome ClassUserAuthorizationRequired "USER_AUTHORIZATION_REQUIRED" reference zero_time true) s
      end
  end.

Definition CircleResolveReference (executionID : string) (reference : Reference) : circle Reference :=
  match authorization executionID with
  | Ok (Some a) =>
      via! observed := resolveTransaction executionID a reference in ret_circle (Ok (rsl_reference observed))
  | _ => ret_circle (Err (OtherError (errorf "user authorization is unavailable for reconciliation")))
  end.
End adapter.

(** * Errors that are not verdicts *)
Section verdicts.
Context `{UnicodeTables}.
(** Errors the runtime does not take for a failure of the adapter. *)
Definition no_verdict {A} (m : result A) : Prop := forall e, m = Err e -> adapterFailure e = None.
Lemma no_verdict_bind {A B} (m : result A) (k : A -> result B) :
  no_verdict m -> (forall a, no_verdict (k a)) -> no_verdict (rbind m k).
Proof. intros Hm Hk e [E|(a & _ & E)]%rbind_err; [by apply Hm|by apply (Hk a)]. Qed.
Lemma no_verdict_fail b e : adapterFailure e = None -> no_verdict (fail_if b e).
Proof. intros He e'. unfold fail_if. destruct b; [by intros [= <-]|done]. Qed.
Lemma no_verdict_err {A} e : adapterFailure e = None -> no_verdict (Err e : result A).
Proof. by intros He e' [= <-]. Qed.
Lemma no_verdict_ok {A} (a : A) : no_verdict (Ok a).
Proof. by intros e. Qed.
Lemma no_verdict_invalid {A} (m : result A) : no_verdict m -> no_verdict (map_err invalidExecution m).
Proof. intros Hm e. destruct m as [a|e0]; cbn; [done|]. intros [= <-]. exact (Hm e0 eq_refl). Qed.

Ltac no_verdicts :=
  repeat first
    [ apply no_verdict_ok | apply no_verdict_invalid
    | apply no_verdict_fail; reflexivity | apply no_verdict_err; reflexivity
    | apply no_verdict_bind; [|intros ?] | progress case_match ].

Lemma NewResult_no_verdict p : no_verdict (NewResult p).
Proof.
  unfold NewResult, Result_Validate, validateExecutionText, validateAdapterReference, validateBoundedText, validateReasonCode.
  no_verdicts.
Qed.
Lemma Reference_Validate_no_verdict r : no_verdict (Reference_Validate r).
Proof. unfold Reference_Validate, validateObservationMetadata, identifier_ok. cbn [for_each fst snd]. no_verdicts. Qed.
Lemma encodedReference_no_verdict o : no_verdict (encodedReference o).
Proof.
  unfold encodedReference, Encode. destruct (negb _); [apply no_verdict_ok|].
  apply no_verdict_bind; [apply Reference_Validate_no_verdict|intros ?; no_verdicts].
Qed.
Lemma Outcome_Validate_no_verdict o : no_verdict (Outcome_Validate o).
Proof.
  unfold Outcome_Validate. do 3 (apply no_verdict_bind; [no_verdicts|intros ?]).
  destruct (out_HasReference o); [apply Reference_Validate_no_verdict|apply no_verdict_ok].
Qed.

(** An outcome that waits is RECOVERY_REQUIRED, or an error that is no verdict. *)
Definition waiting (res : result Result) : Prop :=
  match res with Ok v => res_status v = StatusRecoveryRequired | Err e => adapterFailure e = None end.
Lemma AdapterResult_waiting o id :
  out_Class o = ClassUserAuthorizationRequired \/ out_Class o = ClassAmbiguousSubmission -> waiting (AdapterResult o id).
Proof.
  intros Hc. unfold waiting. destruct (AdapterResult o id) as [v|e] eqn:E; unfold AdapterResult in E.
  - apply rbind_ok in E as ([] & _ & E). apply rbind_ok in E as (s & _ & E).
    destruct Hc as [Hc|Hc]; rewrite Hc in E; by apply NewResult_status in E.
  - assert (no_verdict (AdapterResult o id)) as Hn; [|by apply Hn].
    unfold AdapterResult. apply no_verdict_bind; [apply Outcome_Validate_no_verdict|intros _].
    apply no_verdict_bind; [apply encodedReference_no_verdict|intros s].
    destruct Hc as [-> | ->]; apply NewResult_no_verdict.
Qed.
End verdicts.

(** * Guarantees *)
Section guarantees.
Context `{EthCommonSpec} `{UnicodeTables} `{FoldTables} `{EthCrypto} `{!EthCryptoSpec} `{NetUrl} `{CircleWire}.
Context (config : CircleConfig) (endpoint : nat -> HttpRequest -> answer) (clock : nat -> Time).
Context (planner : Request -> result Plan) (authorization : string -> result (option UserAuthorization)).
Context (references : string -> result (option Reference)) (registry : Registry).
Abbreviation execute := (Execute config endpoint clock planner authorization registry).
Abbreviation get_status := (GetStatus config endpoint clock authorization references).

Lemma outcome_sent id value s : ses_sent (snd (outcome_ clock id value s)) = ses_sent s.
Proof. unfold outcome_. by destruct (IsZero _). Qed.
Lemma outcome_waiting id value s :
  out_Class value = ClassUserAuthorizationRequired \/ out_Class value = ClassAmbiguousSubmission ->
  waiting (fst (outcome_ clock id value s)).
Proof. intros Hc. unfold outcome_. destruct (IsZero _); by apply AdapterResult_waiting. Qed.

(** ** The plans that are submitted *)
Definition accepted (plan : Plan) : Prop :=
  Plan_Validate plan = Ok tt /\ pln_ChainID plan = ccf_ChainID config /\ pln_Network plan = ccf_Network config /\
  match EffectiveKind plan with
  | PlanKindTokenTransfer => True
  | PlanKindContractExecution =>
      exists call, pln_encodedCall plan = Some call /\ cal_contractID call = ContractWizPayPayroll /\
        cal_function call = SigExecuteSameTokenPayroll /\ cal_chainID call = ChainIDArcMainnet /\
        AddressesEqual (cal_to call) AddressWizPayPayroll = true
  | PlanKindOther _ => False
  end.
Lemma validatePlan_accepted plan : registers registry -> validatePlan config registry plan = Ok tt -> accepted plan.
Proof.
  intros Hreg. unfold validatePlan, accepted. intros E. apply rbind_ok in E as ([] & Hv & E).
  apply rbind_ok in E as ([] & Hc & E). apply fail_if_ok in Hc. reflect_all. split_and!; [done..|].
  destruct (EffectiveKind plan); [done| |done]. unfold validateContractExecutionPlan in E.
  destruct (pln_encodedCall plan) as [call|]; [|done]. exists call. split; [done|].
  apply rbind_ok in E as ([] & Hid & E). apply rbind_ok in E as ([] & _ & E). apply rbind_ok in E as ([] & Hchain & E).
  apply rbind_ok in E as ([] & _ & E). apply rbind_ok in E as (d & Hd & E). apply rbind_ok in E as ([] & Hto & Hfun).
  apply map_err_ok in Hd. apply fail_if_ok in Hchain, Hto, Hfun. reflect_all.
  destruct (cal_contractID call == ContractWizPayPayroll) eqn:Eid; [|by repeat case_match]. apply fail_if_ok in Hid. reflect_all.
  unfold Require_ in Hd. apply rbind_ok in Hd as (d' & Hg & Hd).
  assert (d' = d) as -> by (repeat (apply rbind_ok in Hd as ([] & _ & Hd)); by injection Hd).
  apply (GetVersion_entry _ _ _ _ (registers_inv _ Hreg)) in Hg.
  destruct (proj1 (registers_inv _ Hreg) _ _ _ Hg) as (Eid' & _ & _ & (_ & _ & _ & Hva & Hrev) & _).
  destruct Hrev as [(_ & Haddr & Hfs & _)|(E' & _)]; [|exfalso; rewrite Eid', Eid in E'; discriminate].
  split_and!; [done| |done|].
  - unfold AllowsExecution in Hfun. apply existsb_exists in Hfun as (f & Hin & Hf). reflect_all. subst f.
    apply list_elem_of_In in Hin. rewrite Hfs in Hin. unfold canonicalPayrollExecution in Hin.
    apply list_elem_of_In in Hin. cbn in Hin. destruct Hin as [E1|[E2|[]]]; [by destruct Hid|by rewrite <- E2].
  - apply AddressesEqual_spec in Hto as (Hv1 & _ & Hn). apply AddressesEqual_spec.
    split_and!; [done|exact payroll_address_valid|congruence].
Qed.

(** The request that submits a plan. *)
Definition submission (plan : Plan) (idempotencyKey executionID : string) (a : UserAuthorization) : option HttpRequest :=
  match EffectiveKind plan, pln_encodedCall plan with
  | PlanKindTokenTransfer, _ =>
      Some (request_of config MethodPost transfer_path ∅ (Some (transfer_json (transfer_of plan idempotencyKey executionID))) a)
  | PlanKindContractExecution, Some call =>
      Some (request_of config MethodPost contract_path ∅ (Some (contract_json
        (MkContractExecutionRequest idempotencyKey (cal_to call) ("0x" +:+ EncodeToString (bytes (cal_callData call)))
           (pln_WalletID plan) executionID feeLevelMedium))) a)
  | _, _ => None
  end.

(** What a challenge request did: nothing left, or exactly the submission did
    and every failure is ambiguous. *)
Definition submitted (q : option HttpRequest) (s : Session) (r : outcome failure string) (s' : Session) : Prop :=
  ses_sent s' = ses_sent s /\ (exists class reasonCode, r = Err (TransportError class reasonCode)) \/
  exists hr, q = Some hr /\ ses_sent s' = hr :: ses_sent s /\
    forall e, r = Err e -> exists reasonCode, e = TransportError ClassAmbiguousSubmission reasonCode.

Lemma perform_submitted path body a usable s r s' :
  bind_circle (perform config endpoint clock MethodPost path ∅ (Some body) a true)
    (fun response => decoded usable (unmarshal_challenge_id response)) s = (r, s') ->
  submitted (Some (request_of config MethodPost path ∅ (Some body) a)) s r s'.
Proof.
  intros [(response & s1 & E & Hk)|(e & E & ->)]%bind_circle_inv; apply perform_spec in E as [[Hs (class & code & Hr & _)]|(_ & Hs & He)];
    try done; unfold submitted.
  - right. eexists. split; [done|]. unfold decoded, transport_failure, ret_circle in Hk.
    destruct (unmarshal_challenge_id response) as [id|e]; [destruct (usable id)|]; injection Hk as <- <-; (split; [done|]);
      intros e' He'; try done; injection He' as <-; eauto.
  - left. split; [done|]. injection Hr as ->. eauto.
  - right. eexists. split; [done|]. split; [done|]. intros e' [= <-]. destruct (He e eq_refl) as (class & code & -> & _ & Hc).
    rewrite (Hc eq_refl). eauto.
Qed.
Lemma createChallenge_submitted a plan key id s r s' :
  createChallenge config endpoint clock a plan key id s = (r, s') -> submitted (submission plan key id a) s r s'.
Proof.
  unfold createChallenge, submission, transport_failure, ret_circle. destruct (EffectiveKind plan).
  - apply perform_submitted.
  - destruct (pln_encodedCall plan) as [call|]; [|intros [= <- <-]; left; eauto].
    unfold encodeCallDataHex. destruct (len (cal_callData call) <? 4); cbn [fail_if rbind]; [intros [= <- <-]; left; eauto|].
    unfold createContractExecutionChallenge. cbn [xrq_IdempotencyKey xrq_ContractAddress xrq_CallData xrq_WalletID xrq_RefID xrq_FeeLevel].
    destruct (_ || _); [intros [= <- <-]; left; eauto|]. apply perform_submitted.
  - intros [= <- <-]. left. eauto.
Qed.

(** [C24] [Execute] submits at most once, and only what was planned.  Whatever the
    planner, the endpoint and the clocks answer, either no request leaves the
    process, or exactly one does: it carries the user's own authorization, and
    is the request that a plan of this execution determines, which validates, is
    on the configured chain, was fresh at the reading of the clock and carries
    the execution's idempotency key and identifier — a token transfer, or the
    same-token payroll call to the payroll contract, and nothing else.  Once it
    has left, the answer waits (RECOVERY_REQUIRED) or is an error the runtime
    takes for no verdict, so the execution is reconciled and never failed or
    submitted again. *)
Theorem execute_submits_plan (r : Request) (s s' : Session) (res : result Result)
    (Hreg : registers registry) (E : execute r s = (res, s')) :
  ses_sent s' = ses_sent s \/
  exists plan key a q,
    ses_sent s' = q :: ses_sent s /\ planner r = Ok plan /\ accepted plan /\
    FreshnessExpired plan (clock (ses_reads s)) = false /\ IdempotencyKey r = Ok key /\
    authorization (req_executionID r) = Ok (Some a) /\ submission plan key (req_executionID r) a = Some q /\
    waiting res.
Proof.
  unfold Execute in E.
  assert (forall id value s0, outcome_ clock id value s0 = (res, s') -> ses_sent s0 = ses_sent s -> ses_sent s' = ses_sent s) as Hout.
  { intros id value s0 E0 <-. pose proof (outcome_sent id value s0) as Hs. by rewrite E0 in Hs. }
  destruct (planner r) as [plan|]; [|left; by eapply Hout].
  destruct (validatePlan config registry plan) as [[]|] eqn:Hv; [|left; by eapply Hout].
  apply validatePlan_accepted in Hv; [|done]. cbn [observed_now] in E. unfold UTC in E.
  destruct (FreshnessExpired plan (clock (ses_reads s))) eqn:Hf; [left; by eapply Hout|].
  destruct (IdempotencyKey r) as [key|]; [|left; by eapply Hout].
  destruct (authorization (req_executionID r)) as [[a|]|] eqn:Ha; [|left; by eapply Hout..].
  destruct (createChallenge _ _ _ _ _ _ _ _) as [r' s2] eqn:Ec. apply createChallenge_submitted in Ec.
  destruct Ec as [[Hs (class & code & ->)]|(q & Hq & Hs & He)].
  - left. apply (Hout _ _ s2 E Hs).
  - right. exists plan, key, a, q. cbn [ses_sent] in Hs. destruct r' as [challengeID|e].
    + pose proof (outcome_sent (req_executionID r)
        (MkOutcome ClassUserAuthorizationRequired "USER_AUTHORIZATION_REQUIRED" (base_reference plan challengeID) zero_time true) s2) as Hs2.
      pose proof (outcome_waiting (req_executionID r)
        (MkOutcome ClassUserAuthorizationRequired "USER_AUTHORIZATION_REQUIRED" (base_reference plan challengeID) zero_time true) s2
        (or_introl eq_refl)) as Hw.
      rewrite E in Hs2, Hw. cbn in Hs2, Hw. split_and!; try done; congruence.
    + destruct (He e eq_refl) as [code ->]. cbn [transportOutcome classifyTransportError] in E.
      set (value := MkOutcome ClassAmbiguousSubmission code (base_reference plan "") zero_time false) in E.
      pose proof (outcome_sent (req_executionID r) value s2) as Hs2.
      pose proof (outcome_waiting (req_executionID r) value s2 (or_intror eq_refl)) as Hw.
      rewrite E in Hs2, Hw. cbn in Hs2, Hw. split_and!; try done; congruence.
Qed.

(** ** Reconciliation *)
#[local] Existing Instance no_post_preorder.
(** A reference of the same wallet and challenge, with a readable hash. *)
Definition same_identity (reference enriched : Reference) : Prop :=
  ref_Provider enriched = ref_Provider reference /\ ref_ChainID enriched = ref_ChainID reference /\
  ref_WalletID enriched = ref_WalletID reference /\ ref_ChallengeID enriched = ref_ChallengeID reference /\
  (enriched = reference \/ hash_text (ref_TransactionHash enriched)).
Lemma applyTransaction_keeps reference record : keeps no_post (applyTransaction config reference record).
Proof. unfold applyTransaction. destruct (_ && _); [|destruct (_ && _)]; apply keeps_ret, _. Qed.
Lemma applyTransaction_identity reference record s observed s' :
  applyTransaction config reference record s = (Ok observed, s') -> same_identity reference (rsl_reference observed).
Proof.
  unfold applyTransaction, ret_circle. destruct (_ && _); [done|]. destruct (_ && _); [done|].
  destruct (_ && negb (ValidTransactionHash _)) eqn:E; intros [= <- <-]; unfold same_identity; cbn; split_and!; try done; right.
  - by left.
  - apply andb_false_iff in E as [E|E]; [left|right]; [by reflect_all|by apply negb_false_iff in E].
Qed.
Lemma resolve_keeps id a reference : keeps no_post (resolveTransaction config endpoint clock id a reference).
Proof.
  unfold resolveTransaction. destruct (_ != _).
  - apply keeps_then; [exact _|apply getTransaction_keeps|intros record; apply applyTransaction_keeps].
  - apply keeps_then; [exact _|apply findTransactionByRef_keeps|intros [record|]; [apply applyTransaction_keeps|apply keeps_ret, _]].
Qed.
Lemma resolve_identity id a reference s observed s' :
  resolveTransaction config endpoint clock id a reference s = (Ok observed, s') -> same_identity reference (rsl_reference observed).
Proof.
  unfold resolveTransaction. destruct (_ != _); intros (x & s1 & _ & E)%bind_circle_ok.
  - by eapply applyTransaction_identity.
  - destruct x as [record|]; [by eapply applyTransaction_identity|]. injection E as <- <-. unfold same_identity. cbn. split_and!; auto.
Qed.
Lemma reconcile_keeps id a reference s : no_post s (snd (reconcile config endpoint clock id a reference s)).
Proof.
  unfold reconcile. pose proof (resolve_keeps id a reference s) as Hr.
  destruct (resolveTransaction _ _ _ _ _ _ s) as [[observed|e] s1]; cbn in Hr.
  - destruct (negb _).
    + unfold challengeOutcome. cbn. destruct (_ == ""); [done|].
      set (s2 := MkSession _ _ _). pose proof (findChallenge_keeps config endpoint clock a (ref_ChallengeID (rsl_reference observed)) s2) as Hc.
      assert (no_post s s2) as H02 by exact Hr.
      destruct (findChallenge _ _ _ _ _ s2) as [[[record|]|e] s3]; cbn in Hc |- *.
      * destruct (classifyChallengeStatus _) as [class code]. destruct (_ == _); cbn; by transitivity s2.
      * by transitivity s2.
      * destruct (classifyTransportError e). cbn. by transitivity s2.
    + destruct (classifyResolution observed). cbn. exact Hr.
  - destruct (classifyTransportError e). cbn. exact Hr.
Qed.

(** [C25] Reconciliation only reads: neither [GetStatus] nor [ResolveReference]
    ever sends a submission, whatever the endpoint answers; and what
    [ResolveReference] hands to the chain verifier is a reference of the same
    provider, chain, wallet and challenge, whose transaction hash, where it is
    new, is empty or readable. *)
Theorem reconciliation_only_reads (id : string) (reference : Reference) (s : Session) :
  posts (snd (get_status id s)) = posts s /\
  posts (snd (CircleResolveReference config endpoint clock authorization id reference s)) = posts s /\
  (forall enriched, fst (CircleResolveReference config endpoint clock authorization id reference s) = Ok enriched ->
     same_identity reference enriched).
Proof.
  split_and!.
  - unfold GetStatus. assert (forall id value s0, posts (snd (outcome_ clock id value s0)) = posts s0) as Hout.
    { intros id0 value s0. unfold posts. by rewrite outcome_sent. }
    destruct (references id) as [[found|]|]; [|apply Hout..].
    destruct (authorization id) as [[a|]|]; [|apply Hout..].
    pose proof (reconcile_keeps id a found s) as Hr. destruct (reconcile _ _ _ _ _ _ s) as [value s1]. rewrite Hout. exact Hr.
  - unfold CircleResolveReference. destruct (authorization id) as [[a|]|]; [|done..].
    apply keeps_then; [exact _|apply resolve_keeps|intros observed; apply keeps_ret, _].
  - intros enriched. unfold CircleResolveReference. destruct (authorization id) as [[a|]|]; [|done..].
    destruct (bind_circle _ _ s) as [x s1] eqn:E. cbn. intros ->. apply bind_circle_ok in E as (observed & s2 & E & [= <- <-]).
    by apply resolve_identity in E.
Qed.

(** ** A rejected read ends the execution *)
Lemma classifyHTTPStatus_rejected statusCode :
  statusCode = 400 \/ statusCode = 401 \/ statusCode = 403 \/ statusCode = 404 \/ statusCode = 422 ->
  (statusCode <? 200) || (299 <? statusCode) = true /\
  classifyHTTPStatus statusCode false = (ClassPermanentProviderRejection, snd (classifyHTTPStatus statusCode false)).
Proof. intros [-> | [-> | [-> | [-> | ->]]]]; done. Qed.
Lemma Fail_terminal `{PgTimestamp} value code now next :
  exe_status value <> StatusFailed -> Fail_ value (MkFailure code RecoveryTerminal no_status) now = Ok next -> Terminal next = true.
Proof.
  intros Hs. unfold Fail_, advance. intros E. apply rbind_ok in E as ([] & _ & E). destruct (_ == StatusFailed) eqn:Ef; [by reflect_all|].
  repeat (apply rbind_ok in E as ([] & _ & E)). by injection E as <-.
Qed.

(** A read that Circle rejects fails an execution that may have been paid.
    When the execution's transaction is known and reading it is answered 400,
    401, 403, 404 or 422 — an expired user token is enough — [GetStatus] answers
    a permanent adapter failure, although the rejection concerns the read and
    the submission left long ago; and the runtime turns that answer into
    FAILED with no recovery, whatever becomes of the transaction. *)
Theorem rejected_read_fails_execution `{PgTimestamp} (id : string) (reference : Reference) (a : UserAuthorization) (s : Session)
    (statusCode : Z) (payload : option string) (encoded : string)
    (Hclock : forall n, IsZero (clock n) = false)
    (Href : references id = Ok (Some reference)) (Hauth : authorization id = Ok (Some a)) (Ha : Present a = true)
    (Hvalid : Reference_Validate reference = Ok tt) (Henc : Encode reference = Ok encoded)
    (Htx : ref_ProviderTransactionID reference <> "") (Hallow : fst (allow clock s) = Ok (Ok tt))
    (Hurl : is_ok (url_Parse (address_of config ("/v1/w3s/transactions/" +:+ PathEscape (ref_ProviderTransactionID reference)) ∅)) = true)
    (Hreply : endpoint (length (ses_sent s)) (request_of config MethodGet
                ("/v1/w3s/transactions/" +:+ PathEscape (ref_ProviderTransactionID reference)) ∅ None a) = Answer statusCode payload)
    (Hcode : statusCode = 400 \/ statusCode = 401 \/ statusCode = 403 \/ statusCode = 404 \/ statusCode = 422) :
  let code := snd (classifyHTTPStatus statusCode false) in
  fst (get_status id s) = Err (NewAdapterError AdapterFailurePermanent code) /\
  forall claim value now next, exe_status value <> StatusFailed ->
    Fail_ value (MkFailure code RecoveryTerminal no_status) now = Ok next ->
    Terminal next = true /\
    submission_answer claim value now (fst (get_status id s)) =
      or_keep value (NewResult (observed next StatusFailed "" code now))
        (fun observation => persistFailureObservation claim value next observation now code).
Proof.
  intros code. assert (fst (get_status id s) = Err (NewAdapterError AdapterFailurePermanent code)) as Hget.
  { unfold GetStatus. rewrite Href, Hauth. unfold reconcile, resolveTransaction. apply (neqb_spec_true _ _) in Htx as Htx'.
    rewrite Htx'. unfold getTransaction. apply negb_true_iff in Htx'. rewrite Htx'. unfold bind_circle at 1 2, perform.
    rewrite Ha. cbn [negb]. unfold bind_circle at 1. destruct (allow clock s) as [x s1] eqn:Eal. cbn in Hallow. subst x.
    assert (ses_sent s1 = ses_sent s) as Hs1.
    { unfold allow in Eal. destruct (ses_breaker s); [destruct (Allow _ _)|]; injection Eal; intros; by subst. }
    destruct (url_Parse _) as [u|e]; [|done]. unfold bind_circle at 1, exchange. rewrite Hs1, Hreply.
    destruct (classifyHTTPStatus_rejected statusCode Hcode) as [Hout Hclass]. rewrite Hout, Hclass. fold code.
    destruct (countsTowardCircuit _ _); cbn; unfold outcome_, UTC; cbn; rewrite Hclock; cbn; unfold AdapterResult, Outcome_Validate, encodedReference; cbn;
      rewrite Hclock; cbn; unfold code; rewrite classifyHTTPStatus_reason; cbn; by rewrite Hvalid; cbn; rewrite Henc. }
  split; [exact Hget|]. intros claim value now next Hs Hf. split; [by eapply Fail_terminal|].
  rewrite Hget. unfold submission_answer, submission_error, adapterFailure. cbn [errors_As as_adapter NewAdapterError].
  rewrite eqb_refl. unfold or_keep at 1. by rewrite Hf.
Qed.
End guarantees.

(** * A concrete adapter *)
Module AdapterSamples.
#[local] Existing Instances Eth.is_hex_address Eth.no_folding Eth.is_hex_address_spec Pg.truncating.
#[local] Existing Instance EthDigits.crypto.
#[local] Instance crypto_ok : EthCryptoSpec := EthDigits.crypto_spec _.
#[local] Instance folds : FoldTables := fun _ _ => false.
#[local] Existing Instances CircleSamples.urls CircleSamples.wire.
Abbreviation config := CircleSamples.config.
Abbreviation token := CircleSamples.token.
Definition clock (n : nat) : Time := CircuitSamples.now + Z.of_nat n * Second.
Definition registry : Registry := DeploymentSamples.registry.
Definition request : Request := ExecutionSamples.request.
(** A same-token payroll, to be submitted within the hour. *)
Definition plan : Plan :=
  MkPlan PlanKindContractExecution "binding-1" "wallet-1" "0xAbCdEf0000000000000000000000000000000009" "5042" "MAINNET" "" "" "" "" 0 ""
    (Some PayrollContractSamples.call) (Some (CircuitSamples.now + Hour)) (Some "0").
Definition planner (r : Request) : result Plan := Ok plan.
Definition present (id : string) : result (option UserAuthorization) := Ok (Some token).
(** A challenge is created. *)
Definition accepting (n : nat) (q : HttpRequest) : answer := Answer 201 (Some "challenge-1").
Definition start : Session := MkSession (Some CircuitSamples.start) 0 [].
Definition done_ : result Result * Session := Eval vm_compute in Execute config accepting clock planner present registry request start.

Lemma execute_submits_plan_witness :
  exists q key, ses_sent (snd done_) = [q] /\ submission config plan key (req_executionID request) token = Some q /\
    IdempotencyKey request = Ok key /\ waiting (fst done_).
Proof.
  assert (Execute config accepting clock planner present registry request start = (fst done_, snd done_)) as E
    by (vm_compute; reflexivity).
  destruct (execute_submits_plan config accepting clock planner present registry request start (snd done_) (fst done_)
    DeploymentSamples.registry_registers E) as [Hnone|(p & key & a & q & Hs & [= <-] & _ & _ & Hkey & [= <-] & Hq & Hw)].
  - exfalso. apply (f_equal length) in Hnone. vm_compute in Hnone. discriminate.
  - exists q, key. exact (conj Hs (conj Hq (conj Hkey Hw))).
Defined.

(** The user's token has expired since. *)
Definition reference : Reference :=
  MkReference ProviderCircleUserControlled "5042" "wallet-1" "challenge-1" "tx-1" "" false false "" 0 0 "".
Definition stored (id : string) : result (option Reference) := Ok (Some reference).
Definition expired (n : nat) (q : HttpRequest) : answer := Answer 401 (Some "{}").
Definition encoded : string := Eval vm_compute in match Encode reference with Ok s => s | Err _ => "" end.

Lemma rejected_read_fails_execution_witness :
  fst (GetStatus config expired clock present stored (req_executionID request) start)
  = Err (NewAdapterError AdapterFailurePermanent "PROVIDER_AUTHORIZATION_REJECTED").
Proof.
  assert (forall n, IsZero (clock n) = false) as Hclock.
  { intros n. apply Z.eqb_neq. unfold clock, CircuitSamples.now, of_unix, unix_epoch, Second, zero_time. lia. }
  refine (proj1 (rejected_read_fails_execution config expired clock present stored (req_executionID request) reference token start 401
    (Some "{}") encoded Hclock eq_refl eq_refl eq_refl _ _ _ _ _ _ _)).
  - vm_compute. reflexivity.
  - vm_compute. reflexivity.
  - discriminate.
  - vm_compute. reflexivity.
  - vm_compute. reflexivity.
  - vm_compute. reflexivity.
  - right. left. reflexivity.
Defined.
End AdapterSamples.
