(* ===== verification/Capabilities.v ===== *)
(** internal/capabilities: descriptors of what the system offers
    (capability.go, descriptor.go, defaults.go), their registry (registry.go)
    and the decision whether a capability is available (availability.go).

    The registry keeps versions under identifiers.  The provider registry is
    written the same way over its own descriptors, so the operations the two
    share are stated once, over what a descriptor is to a registry. *)
From S2P Require Import Prelude GoStrings GoText AppErrors IntentTypes Auth Contracts Sha256 Deployments.
Open Scope string_scope.
Open Scope Z_scope.
Open Scope go_scope.

(** * Registries of versions *)
(** What a registry uses of its descriptors: [Validate], [normalized] and
    [Digest], and the errors it answers with. *)
Class Versioned (D : Type) := {
  ver_ID : D -> string; ver_Version : D -> Z; ver_Validate : D -> result unit; ver_normalized : D -> D;
  ver_Digest : D -> string; ver_invalid : error -> error; ver_conflict : error
}.
Class VersionedLaws (D : Type) `{Versioned D} : Prop := {
  normalized_ID d : ver_ID (ver_normalized d) = ver_ID d;
  normalized_Version d : ver_Version (ver_normalized d) = ver_Version d;
  valid_version d : ver_Validate d = Ok tt -> ver_Version d <> 0
}.

Section registry.
Context {D : Type} `{Versioned D}.
Abbreviation entries := (gmap string (gmap Z D)).

(** [Register]: an exact replay is accepted, another definition refused. *)
Definition Register (r : entries) (descriptor : D) : result unit * entries :=
  match ver_Validate descriptor with
  | Err err => (Err (ver_invalid err), r)
  | Ok _ =>
      let descriptor := ver_normalized descriptor in
      let versions := default ∅ (r !! ver_ID descriptor) in
      match versions !! ver_Version descriptor with
      | Some existing =>
          (if ver_Digest existing == ver_Digest descriptor then Ok tt else Err ver_conflict, <[ver_ID descriptor := versions]> r)
      | None => (Ok tt, <[ver_ID descriptor := <[ver_Version descriptor := descriptor]> versions]> r)
      end
  end.
(** The descriptors in the order of an iteration; [List] sorts them. *)
Definition registered (r : entries) : list D :=
  map_to_list r ≫= fun '(_, versions) => snd <$> map_to_list versions.
Definition version_le (x y : D) : Prop :=
  if ver_ID x == ver_ID y then ver_Version x <= ver_Version y else String.le (ver_ID x) (ver_ID y).
#[export] Instance version_le_dec x y : base.Decision (version_le x y).
Proof. unfold version_le. destruct (_ == _); apply _. Defined.
Definition List_ (r : entries) : list D := merge_sort version_le (ver_normalized <$> registered r).

Inductive registers : entries -> Prop :=
  | registers_new : registers ∅
  | registers_add r d : registers r -> registers (snd (Register r d)).
Definition entry (r : entries) (id : string) (version : Z) : option D := r !! id ≫= fun versions => versions !! version.

(** Every entry is a valid descriptor, normalized, under its own name. *)
Definition registry_inv (r : entries) : Prop :=
  forall id v d, entry r id v = Some d ->
    ver_ID d = id /\ ver_Version d = v /\ exists x, ver_Validate x = Ok tt /\ d = ver_normalized x.

Lemma versioned_effect r d : let r' := snd (Register r d) in
  (forall id v, entry r' id v = entry r id v) \/
  (let n := ver_normalized d in ver_Validate d = Ok tt /\ entry r (ver_ID n) (ver_Version n) = None /\
   forall id v, entry r' id v = if decide (id = ver_ID n /\ v = ver_Version n) then Some n else entry r id v).
Proof.
  cbn zeta. unfold Register. destruct (ver_Validate d) as [[]|e]; [|by left].
  set (n := ver_normalized d). clearbody n. set (versions := default ∅ (r !! ver_ID n)).
  assert (forall v, entry r (ver_ID n) v = versions !! v) as Hvs.
  { intros v. unfold entry, versions. destruct (r !! ver_ID n); cbn; [done|by rewrite lookup_empty]. }
  destruct (versions !! ver_Version n) as [existing|] eqn:Ev.
  - left. intros id v. cbn. unfold entry at 1. destruct (decide (id = ver_ID n)) as [->|Hne].
    + by rewrite lookup_insert_eq, Hvs.
    + by rewrite lookup_insert_ne by done.
  - right. cbn. split_and!; [done|by rewrite Hvs|]. intros id v. unfold entry at 1.
    destruct (decide (id = ver_ID n)) as [->|Hne].
    + rewrite lookup_insert_eq. cbn. destruct (decide (v = ver_Version n)) as [->|Hv].
      * rewrite lookup_insert_eq. by rewrite decide_True.
      * rewrite lookup_insert_ne, <- Hvs by done. rewrite decide_False; [done|]. by intros [_ ?].
    + rewrite lookup_insert_ne by done. rewrite decide_False; [done|]. by intros [? _].
Qed.

Lemma versioned_entry r d : d ∈ registered r <-> exists id v, entry r id v = Some d.
Proof.
  unfold registered, entry. rewrite list_elem_of_bind. split.
  - intros ([id versions] & Hd & Hv). apply list_elem_of_fmap in Hd as ([v x] & -> & Hx).
    apply elem_of_map_to_list in Hx. apply elem_of_map_to_list in Hv. exists id, v. by rewrite Hv.
  - intros (id & v & (versions & Hv & Hd)%bind_Some). exists (id, versions). split.
    + apply list_elem_of_fmap. exists (v, d). split; [done|]. by apply elem_of_map_to_list.
    + by apply elem_of_map_to_list.
Qed.

Section laws.
Context `{!VersionedLaws D}.
Lemma versioned_inv r : registers r -> registry_inv r.
Proof.
  induction 1 as [|r d _ IH]; [by intros id v d|]. intros id v x.
  destruct (versioned_effect r d) as [-> |(Hv & _ & ->)]; [apply IH|]. case_decide as Hd; [|apply IH].
  intros [= <-]. destruct Hd as [-> ->]. split_and!; [done..|eauto].
Qed.
(** No registration changes what is there. *)
Lemma Register_keeps r d id v x : entry r id v = Some x -> entry (snd (Register r d)) id v = Some x.
Proof.
  intros Hx. destruct (versioned_effect r d) as [-> |(_ & Hnone & ->)]; [done|].
  rewrite decide_False; [done|]. intros [-> ->]. congruence.
Qed.
Lemma entry_version r id v d : registers r -> entry r id v = Some d -> v <> 0.
Proof.
  intros Hr Hd. destruct (versioned_inv r Hr _ _ _ Hd) as (_ & <- & x & Hx & ->).
  rewrite normalized_Version. by apply valid_version.
Qed.
End laws.
End registry.

(** The newest of the descriptors that pass a test: the loops of [GetLatest]. *)
Section newest.
Context {D : Type} `{Versioned D} (usable : D -> bool).
Definition newer (latest : option D) (d : D) : option D :=
  let seen := match latest with Some x => ver_Version x | None => 0 end in
  if usable d && (seen <? ver_Version d) then Some d else latest.
Definition latest (l : list D) : option D := fold_left newer l None.

Lemma latest_spec l :
  match latest l with
  | Some d => d ∈ l /\ usable d = true /\ 0 < ver_Version d /\
      (forall x, x ∈ l -> usable x = true -> ver_Version x <= ver_Version d)
  | None => forall x, x ∈ l -> usable x = true -> ver_Version x <= 0
  end.
Proof.
  unfold latest. induction l as [|d l IH] using rev_ind; cbn; [by intros x ?%elem_of_nil|].
  rewrite fold_left_app. cbn. destruct (fold_left newer l None) as [m|]; unfold newer.
  - destruct IH as (Hin & Hu & Hp & Hmax). destruct (usable d) eqn:Eu; cbn; [destruct (_ <? _) eqn:E; reflect_all|].
    + split_and!; [set_solver|done|lia|]. intros x [Hx| <-%list_elem_of_singleton]%elem_of_app Hux; [|lia].
      specialize (Hmax x Hx Hux). lia.
    + split_and!; [set_solver|done..|]. intros x [Hx| ->%list_elem_of_singleton]%elem_of_app Hux; [auto|lia].
    + split_and!; [set_solver|done..|]. intros x [Hx| ->%list_elem_of_singleton]%elem_of_app Hux; [auto|congruence].
  - destruct (usable d) eqn:Eu; cbn; [destruct (_ <? _) eqn:E; reflect_all|].
    + split_and!; [set_solver|done|lia|]. intros x [Hx| ->%list_elem_of_singleton]%elem_of_app Hux; [|lia].
      specialize (IH x Hx Hux). lia.
    + intros x [Hx| ->%list_elem_of_singleton]%elem_of_app Hux; [auto|lia].
    + intros x [Hx| ->%list_elem_of_singleton]%elem_of_app Hux; [auto|congruence].
Qed.
End newest.

(** * Capabilities (capability.go) *)
Definition CapabilitySend : string := "SEND".
Definition CapabilityPayroll : string := "PAYROLL".
Definition CapabilitySwap : string := "SWAP".
Definition CapabilityBridge : string := "BRIDGE".
Definition CapabilityANS : string := "ANS".
Definition CapabilityID_Valid (id : string) : bool :=
  bool_decide (id ∈ [CapabilitySend; CapabilityPayroll; CapabilitySwap; CapabilityBridge; CapabilityANS]).
Definition expectedIntentType (id : string) : Type_ :=
  if id == CapabilitySend then TypeSend else if id == CapabilityPayroll then TypePayroll
  else if id == CapabilitySwap then TypeSwap else if id == CapabilityBridge then TypeBridge
  else if id == CapabilityANS then TypeANSRegistration else TypeOther "".

Inductive CapabilityStatus : Set := CapabilityEnabled | CapabilityDisabled | CapabilityDeprecated | CapabilityStatusOther (raw : string).
#[global] Instance CapabilityStatus_eq_dec : EqDecision CapabilityStatus.
Proof. solve_decision. Defined.
Definition CapabilityStatus_string (s : CapabilityStatus) : string :=
  match s with
  | CapabilityEnabled => "ENABLED" | CapabilityDisabled => "DISABLED" | CapabilityDeprecated => "DEPRECATED"
  | CapabilityStatusOther raw => raw
  end.
Definition CapabilityStatus_Valid (s : CapabilityStatus) : bool := match s with CapabilityStatusOther _ => false | _ => true end.

Definition RouteDirect : string := "DIRECT".
Definition RouteType_Valid (route : string) : bool := bool_decide (route ∈ [RouteDirect; "CROSS_CHAIN"; "REGISTRATION"]).
Definition FeatureUserControlledWallet : string := "USER_CONTROLLED_WALLET".
Definition FeatureTokenTransfer : string := "TOKEN_TRANSFER".
Definition FeatureContractExecution : string := "CONTRACT_EXECUTION".
Definition FeatureSwapExecution : string := "SWAP_EXECUTION".
Definition FeatureBridgeExecution : string := "BRIDGE_EXECUTION".
Definition FeatureANSRegistration : string := "ANS_REGISTRATION".
Definition ProviderFeature_Valid (feature : string) : bool :=
  bool_decide (feature ∈ [FeatureUserControlledWallet; FeatureTokenTransfer; FeatureContractExecution; FeatureSwapExecution;
                          FeatureBridgeExecution; FeatureANSRegistration]).

(** * Descriptors (descriptor.go) *)
Record Requirements := MkRequirements { rqm_Approval : bool; rqm_Policy : bool; rqm_Execution : bool }.
Record Capability := MkCapability {
  cap_ID : string; cap_Version : Z; cap_Status : CapabilityStatus; cap_IntentType : Type_; cap_Permissions : list Permission;
  cap_SupportedChains : list string; cap_SupportedNetworks : list string; cap_SupportedTokens : list string;
  cap_SupportedRoutes : list string; cap_Requirements : Requirements; cap_ProviderFeatures : list string;
  cap_Description : string
}.

Definition validText (value : string) : bool :=
  if (value == "") || (TrimSpace value != value) then false else negb (has_control value).
Definition maxDescriptionLength : Z := 256.
Definition validateDescription (value : string) : result unit :=
  fail_if (negb (validText value) || (maxDescriptionLength <? Z.of_nat (length (runes value))))
    (errorf1 "capability description must be safe text of 1 to %d characters" (FormatInt maxDescriptionLength)).
(** [validateUnique] on texts; the provider package has its own copy. *)
Definition validateUnique (values : list string) (valid : string -> bool) (name : string) : result unit :=
  let! _ := fold_result (fun (seen : gset string) value =>
    do! fail_if (negb (valid value)) (errorf2 "invalid %s %v" name value);
    do! fail_if (bool_decide (value ∈ seen)) (errorf2 "duplicate %s %v" name value);
    Ok ({[value]} ∪ seen)) ∅ values in
  Ok tt.
(** Permissions are texts in Go; these are the ones it knows. *)
Definition Permission_text_Valid (permissions : list Permission) (text : string) : bool :=
  existsb (fun p => (Permission_string p == text) && Permission_Valid p) permissions.

Definition Capability_Validate (d : Capability) : result unit :=
  do! fail_if (negb (CapabilityID_Valid (cap_ID d))) (errorf1 "invalid capability ID %q" (cap_ID d));
  do! fail_if (cap_Version d =? 0) (errorf "capability version must be positive");
  do! fail_if (negb (CapabilityStatus_Valid (cap_Status d)))
        (errorf1 "invalid capability status %q" (CapabilityStatus_string (cap_Status d)));
  do! fail_if (negb (Type_Valid (cap_IntentType d)) || (cap_IntentType d != expectedIntentType (cap_ID d)))
        (errorf2 "intent type %q does not match capability %q" (Type_string (cap_IntentType d)) (cap_ID d));
  do! validateDescription (cap_Description d);
  do! validateUnique (Permission_string <$> cap_Permissions d) (Permission_text_Valid (cap_Permissions d)) "permission";
  do! validateUnique (cap_SupportedChains d) validText "chain";
  do! validateUnique (cap_SupportedNetworks d) validText "network";
  do! validateUnique (cap_SupportedTokens d) validText "token";
  do! validateUnique (cap_SupportedRoutes d) RouteType_Valid "route";
  validateUnique (cap_ProviderFeatures d) ProviderFeature_Valid "provider feature".

Definition Capability_normalized (d : Capability) : Capability :=
  MkCapability (cap_ID d) (cap_Version d) (cap_Status d) (cap_IntentType d) (sort_by Permission_string (cap_Permissions d))
    (sort_strings (cap_SupportedChains d)) (sort_strings (cap_SupportedNetworks d)) (sort_strings (cap_SupportedTokens d))
    (sort_strings (cap_SupportedRoutes d)) (cap_Requirements d) (sort_strings (cap_ProviderFeatures d)) (cap_Description d).

Definition json_bool (b : bool) : string := if b then "true" else "false".
Definition json_record (members : list (string * string)) : string :=
  "{" +:+ (Join ((fun '(k, v) => json_string k +:+ (":" +:+ v)) <$> members) "," +:+ "}").
Definition Capability_json (d : Capability) : string :=
  json_record
    [("id", json_string (cap_ID d)); ("version", FormatUint (cap_Version d));
     ("status", json_string (CapabilityStatus_string (cap_Status d))); ("intent_type", json_string (Type_string (cap_IntentType d)));
     ("permissions", json_strings (Permission_string <$> cap_Permissions d));
     ("supported_chains", json_strings (cap_SupportedChains d)); ("supported_networks", json_strings (cap_SupportedNetworks d));
     ("supported_tokens", json_strings (cap_SupportedTokens d)); ("supported_routes", json_strings (cap_SupportedRoutes d));
     ("requirements", json_record [("approval", json_bool (rqm_Approval (cap_Requirements d)));
        ("policy", json_bool (rqm_Policy (cap_Requirements d))); ("execution", json_bool (rqm_Execution (cap_Requirements d)))]);
     ("provider_features", json_strings (cap_ProviderFeatures d)); ("description", json_string (cap_Description d))].
Definition Capability_Digest (d : Capability) : string := "sha256:" +:+ sha256_hex (Capability_json (Capability_normalized d)).

(** * The registry (registry.go) *)
Definition capability_invalid (message : string) : error := New CodeValidationError message false true true.
#[export] Instance capability_versioned : Versioned Capability := {
  ver_ID := cap_ID; ver_Version := cap_Version; ver_Validate := Capability_Validate; ver_normalized := Capability_normalized;
  ver_Digest := Capability_Digest;
  ver_invalid := Wrap CodeValidationError "Capability definition is invalid." false true true;
  ver_conflict := New CodeCapabilityConflict "Capability version conflicts with an existing definition." false true true
}.
Abbreviation CapabilityRegistry := (gmap string (gmap Z Capability)).
Definition NewCapabilityRegistry : CapabilityRegistry := ∅.
Definition capabilityNotFound : error := New CodeCapabilityNotFound "Capability was not found." false true true.

Definition Capability_GetVersion (r : CapabilityRegistry) (id : string) (version : Z) : result Capability :=
  do! fail_if (negb (CapabilityID_Valid id) || (version =? 0)) (capability_invalid "Capability lookup is invalid.");
  match r !! id with
  | None => Err capabilityNotFound
  | Some versions =>
      match versions !! version with
      | None => Err (New CodeCapabilityNotFound "Capability version was not found." false true true)
      | Some d => Ok (Capability_normalized d)
      end
  end.
Definition Capability_GetLatest (r : CapabilityRegistry) (id : string) : result Capability :=
  do! fail_if (negb (CapabilityID_Valid id)) (capability_invalid "Capability lookup is invalid.");
  match r !! id with
  | None => Err capabilityNotFound
  | Some versions =>
      match latest (fun d => cap_Status d == CapabilityEnabled) (snd <$> map_to_list versions) with
      | None => Err (New CodeCapabilityUnavailable "Capability is unavailable." false true false)
      | Some d => Ok (Capability_normalized d)
      end
  end.

(** * Availability (availability.go) *)
Inductive AvailabilityReason : Set :=
  | ReasonAvailable | ReasonDisabled | ReasonDeprecated | ReasonUnsupportedChain | ReasonUnsupportedNetwork
  | ReasonUnsupportedToken | ReasonUnsupportedRoute | ReasonMissingProviderFeature.
Record AvailabilityRequest := MkAvailabilityRequest {
  avr_Version : Z; avr_ChainID : string; avr_Network : string; avr_Token : string; avr_Route : string;
  avr_ProviderFeatures : list string
}.
Record AvailabilityDecision := MkAvailabilityDecision {
  avd_Descriptor : Capability; avd_Available : bool; avd_Reason : AvailabilityReason
}.
Definition contains (values : list string) (value : string) : bool := existsb (fun candidate => candidate == value) values.
Definition unavailable (d : Capability) (reason : AvailabilityReason) : AvailabilityDecision :=
  MkAvailabilityDecision d false reason.

Definition Capability_Resolve (r : CapabilityRegistry) (id : string) (q : AvailabilityRequest) : result AvailabilityDecision :=
  let! d := if avr_Version q =? 0 then Capability_GetLatest r id else Capability_GetVersion r id (avr_Version q) in
  if cap_Status d == CapabilityDisabled then Ok (unavailable d ReasonDisabled)
  else if cap_Status d == CapabilityDeprecated then Ok (unavailable d ReasonDeprecated)
  else if (avr_ChainID q != "") && negb (contains (cap_SupportedChains d) (avr_ChainID q)) then
    Ok (unavailable d ReasonUnsupportedChain)
  else if (avr_Network q != "") && negb (contains (cap_SupportedNetworks d) (avr_Network q)) then
    Ok (unavailable d ReasonUnsupportedNetwork)
  else if (avr_Token q != "") && negb (contains (cap_SupportedTokens d) (avr_Token q)) then
    Ok (unavailable d ReasonUnsupportedToken)
  else if (avr_Route q != "") && negb (contains (cap_SupportedRoutes d) (avr_Route q)) then
    Ok (unavailable d ReasonUnsupportedRoute)
  else if existsb (fun required => negb (contains (avr_ProviderFeatures q) required)) (cap_ProviderFeatures d) then
    Ok (unavailable d ReasonMissingProviderFeature)
  else Ok (MkAvailabilityDecision d true ReasonAvailable).

(** * Defaults (defaults.go) *)
Definition defaultDescriptor (id : string) (intentType : Type_) (description : string) (features : list string) : Capability :=
  MkCapability id 1 CapabilityDisabled intentType
    [PermissionCreateIntent; PermissionRequestApproval; PermissionEvaluatePolicy; PermissionPrepareExecution] [] [] [] []
    (MkRequirements true true true) features description.
Definition mainnet (d : Capability) : Capability :=
  MkCapability (cap_ID d) (cap_Version d) (cap_Status d) (cap_IntentType d) (cap_Permissions d) [ChainIDArcMainnet]
    [NetworkArcMainnet] ["USDC"; "EURC"] [RouteDirect] (cap_Requirements d) (cap_ProviderFeatures d) (cap_Description d).
Definition defaultMainnetFinancialDescriptor (id : string) (intentType : Type_) (description : string) (features : list string)
    : Capability := mainnet (defaultDescriptor id intentType description features).
Definition defaultSendDescriptor : Capability :=
  MkCapability CapabilitySend 1 CapabilityDisabled TypeSend
    [PermissionCreateIntent; PermissionRequestApproval; PermissionEvaluatePolicy; PermissionPrepareExecution]
    [ChainIDArcMainnet] [NetworkArcMainnet] ["USDC"; "EURC"] [RouteDirect] (MkRequirements true true true)
    [FeatureUserControlledWallet; FeatureTokenTransfer]
    "Send supports direct canonical ERC-20 transfers on Arc Mainnet; it remains disabled until a validated user-controlled Mainnet authorization provider is configured.".
Definition DefaultDescriptors : list Capability :=
  [defaultSendDescriptor;
   defaultMainnetFinancialDescriptor CapabilityPayroll TypePayroll
     "Payroll supports typed allowlisted contract execution; production availability remains disabled by default and depends on complete provider and runtime authorization configuration."
     [FeatureUserControlledWallet; FeatureContractExecution];
   defaultMainnetFinancialDescriptor CapabilitySwap TypeSwap
     "Swap supports typed allowlisted contract execution; production availability remains disabled by default and depends on complete provider and runtime authorization configuration."
     [FeatureUserControlledWallet; FeatureContractExecution; FeatureSwapExecution];
   defaultDescriptor CapabilityBridge TypeBridge "Bridge capability metadata; execution is not implemented."
     [FeatureUserControlledWallet; FeatureBridgeExecution];
   defaultDescriptor CapabilityANS TypeANSRegistration "ANS registration capability metadata; execution is not implemented."
     [FeatureUserControlledWallet; FeatureANSRegistration]].
(** It panics when a registration is refused. *)
Definition DefaultCapabilityRegistry : result CapabilityRegistry :=
  fold_result (fun r d => let '(answer, r) := Register r d in do! answer; Ok r) NewCapabilityRegistry DefaultDescriptors.

(** * Guarantees *)
#[export] Instance capability_laws : VersionedLaws Capability.
Proof.
  split; [done..|]. intros d. cbn. unfold Capability_Validate. intros E. apply rbind_ok in E as ([] & _ & E).
  apply rbind_ok in E as ([] & Hv & _). apply fail_if_ok in Hv. by reflect_all.
Qed.
Lemma contains_spec values value : contains values value = true <-> value ∈ values.
Proof.
  unfold contains. rewrite existsb_exists, list_elem_of_In. split.
  - intros (x & Hx & E). reflect_all. by subst.
  - intros Hx. exists value. by rewrite eqb_refl.
Qed.
Lemma missing_spec available required :
  existsb (fun r => negb (contains available r)) required = false <-> forall f, f ∈ required -> f ∈ available.
Proof.
  split.
  - intros E f Hf. apply contains_spec. destruct (contains available f) eqn:Ef; [done|].
    apply not_true_iff_false in E. destruct E. apply existsb_exists. exists f. rewrite Ef. by apply list_elem_of_In in Hf.
  - intros Hall. apply not_true_iff_false. intros (f & Hf & E)%existsb_exists. apply list_elem_of_In, Hall, contains_spec in Hf.
    by rewrite Hf in E.
Qed.
Definition allows (wanted : string) (supported : list string) : Prop := wanted = "" \/ wanted ∈ supported.
Lemma refused_spec wanted supported : (wanted != "") && negb (contains supported wanted) = false <-> allows wanted supported.
Proof.
  unfold allows. by rewrite andb_false_iff, !negb_false_iff, contains_spec, bool_decide_eq_true.
Qed.
