(* ===== verification/ProviderPlane.v ===== *)
(** internal/providers/provider.go and registry.go: providers and which of them
    can serve a feature on a chain; internal/providers/arc/config.go; and
    internal/providers/wiring: the assembly of the execution plane (wiring.go),
    the worker over it (runtime.go) and the availability of capabilities
    (availability.go).

    An adapter is a value of any type.  Whether a dependency is nil is all that
    the assembly looks at. *)
From S2P Require Import Prelude GoStrings GoText GoTime AppErrors Sha256 References Circuit ArcAttestation Runtime Deployments.
From S2P Require Import OAuthModel CircleClient Capabilities.
Open Scope string_scope.
Open Scope Z_scope.
Open Scope go_scope.

(** * Providers (provider.go) *)
Record Provider (A : Type) := MkProvider {
  prv_ID : string; prv_Version : Z; prv_Features : list string; prv_ChainIDs : list string; prv_Networks : list string;
  prv_Configured : bool; prv_Adapter : option A
}.
Arguments MkProvider {A}.
Arguments prv_ID {A}.
Arguments prv_Version {A}.
Arguments prv_Features {A}.
Arguments prv_ChainIDs {A}.
Arguments prv_Networks {A}.
Arguments prv_Configured {A}.
Arguments prv_Adapter {A}.

Section providers.
Context {A : Type}.
Implicit Types d : Provider A.
Definition absent {B} (o : option B) : bool := match o with None => true | Some _ => false end.

Definition Provider_Validate (d : Provider A) : result unit :=
  do! fail_if (negb (ProviderID_Valid (prv_ID d))) (errorf1 "invalid provider ID %q" (prv_ID d));
  do! fail_if (prv_Version d =? 0) (errorf "provider version must be positive");
  do! fail_if (Z.of_nat (length (prv_Features d)) =? 0) (errorf "provider must declare at least one supported feature");
  do! validateUnique (prv_Features d) ProviderFeature_Valid "provider feature";
  do! fail_if (Z.of_nat (length (prv_ChainIDs d)) =? 0) (errorf "provider must declare at least one supported chain ID");
  do! validateUnique (prv_ChainIDs d) validChainID "chain ID";
  do! fail_if (Z.of_nat (length (prv_Networks d)) =? 0) (errorf "provider must declare at least one supported network");
  do! validateUnique (prv_Networks d) validSafeText "network";
  fail_if (prv_Configured d && absent (prv_Adapter d)) (errorf "configured provider requires an adapter implementation").
Definition Provider_normalized (d : Provider A) : Provider A :=
  MkProvider (prv_ID d) (prv_Version d) (sort_strings (prv_Features d)) (sort_strings (prv_ChainIDs d))
    (sort_strings (prv_Networks d)) (prv_Configured d) (prv_Adapter d).
(** The adapter is not part of the digest. *)
Definition Provider_Digest (d : Provider A) : string :=
  let d := Provider_normalized d in
  "sha256:" +:+ sha256_hex (json_record
    [("id", json_string (prv_ID d)); ("version", FormatUint (prv_Version d)); ("features", json_strings (prv_Features d));
     ("chain_ids", json_strings (prv_ChainIDs d)); ("networks", json_strings (prv_Networks d));
     ("configured", json_bool (prv_Configured d))]).
Definition Supports (d : Provider A) (feature : string) : bool := contains (prv_Features d) feature.
Definition servesChain (d : Provider A) (chainID : string) : bool := (chainID == "") || contains (prv_ChainIDs d) chainID.
Definition servesNetwork (d : Provider A) (network : string) : bool := (network == "") || contains (prv_Networks d) network.

(** * The registry (registry.go) *)
#[export] Instance provider_versioned : Versioned (Provider A) := {
  ver_ID := prv_ID; ver_Version := prv_Version; ver_Validate := Provider_Validate; ver_normalized := Provider_normalized;
  ver_Digest := Provider_Digest;
  ver_invalid := Wrap CodeValidationError "Provider definition is invalid." false true true;
  ver_conflict := AppErrors.New CodeProviderConflict "Provider version conflicts with an existing definition." false true true
}.
Abbreviation ProviderRegistry := (gmap string (gmap Z (Provider A))).
Definition NewProviderRegistry : ProviderRegistry := ∅.
Definition provider_lookup_invalid : error := AppErrors.New CodeValidationError "Provider lookup is invalid." false true true.
Definition providerNotFound : error := AppErrors.New CodeProviderNotFound "Provider was not found." false true true.
Definition providerUnavailable : error := AppErrors.New CodeProviderUnavailable "Provider is unavailable." false true false.

Definition Provider_GetVersion (r : ProviderRegistry) (id : string) (version : Z) : result (Provider A) :=
  do! fail_if (negb (ProviderID_Valid id) || (version =? 0)) provider_lookup_invalid;
  match entry r id version with Some d => Ok (Provider_normalized d) | None => Err providerNotFound end.
Definition Provider_GetLatest (r : ProviderRegistry) (id : string) : result (Provider A) :=
  do! fail_if (negb (ProviderID_Valid id)) provider_lookup_invalid;
  match r !! id with
  | None => Err providerNotFound
  | Some versions =>
      match latest prv_Configured (snd <$> map_to_list versions) with
      | None => Err providerUnavailable
      | Some d => Ok (Provider_normalized d)
      end
  end.

Record Query := MkQuery { qry_Feature : string; qry_ChainID : string; qry_Network : string }.
Definition serves (q : Query) (d : Provider A) : bool :=
  Supports d (qry_Feature q) && servesChain d (qry_ChainID q) && servesNetwork d (qry_Network q).
(** One round of the loop: the best so far, and whether an unconfigured
    provider would have matched. *)
Definition better (q : Query) (st : option (Provider A) * bool) (d : Provider A) : option (Provider A) * bool :=
  let '(best, matchedUnconfigured) := st in
  if negb (serves q d) then st
  else if negb (prv_Configured d) then (best, true)
  else match best with
       | None => (Some d, matchedUnconfigured)
       | Some b =>
           if String.ltb (prv_ID d) (prv_ID b) || ((prv_ID d == prv_ID b) && (prv_Version b <? prv_Version d))
           then (Some d, matchedUnconfigured) else st
       end.
(** The entries in the order of the iteration, which Go leaves open. *)
Definition Resolve_in (entries : list (Provider A)) (q : Query) : result (Provider A * option A) :=
  do! fail_if (negb (ProviderFeature_Valid (qry_Feature q))) provider_lookup_invalid;
  do! fail_if ((qry_ChainID q != "") && negb (validChainID (qry_ChainID q))) provider_lookup_invalid;
  match fold_left (better q) entries (None, false) with
  | (Some best, _) => Ok (Provider_normalized best, prv_Adapter best)
  | (None, matchedUnconfigured) => Err (if matchedUnconfigured then providerUnavailable else providerNotFound)
  end.
Definition Provider_Resolve (r : ProviderRegistry) (q : Query) : result (Provider A * option A) := Resolve_in (registered r) q.

Definition Features (r : ProviderRegistry) (chainID network : string) : list string :=
  let unique := foldr (fun d acc =>
    if negb (prv_Configured d) || negb (servesChain d chainID) || negb (servesNetwork d network) then acc
    else list_to_set (prv_Features d) ∪ acc) (∅ : gset string) (registered r) in
  sort_strings (elements unique).
End providers.

(** * The Arc configuration (arc/config.go) *)
Definition ChainIDMainnet : string := "5042".
Definition RPCMainnet : string := "https://rpc.mainnet.arc.io".
Definition ExplorerMainnet : string := "https://explorer.arc.io".
Definition NetworkMainnet : string := "MAINNET".
Definition arc_defaultTimeout : Duration := 15 * Second.
Definition arc_maxTimeout : Duration := Minute.
Definition defaultMinConfirmations : Z := 1.
Definition maxMinConfirmations : Z := 64.
Record ArcSettings := MkArcSettings {
  acs_Enabled : bool; acs_ChainID : string; acs_Network : string; acs_RPCURL : string; acs_ExplorerURL : string;
  acs_MinConfirmations : Z; acs_Timeout : Duration
}.

Section arc.
Context `{NetUrl} (ParseDuration : string -> result Duration).
Definition validateHTTPSURL (value name : string) : result unit :=
  let absolute := errorf1 "Arc %s URL must be an absolute HTTPS URL" name in
  let! parsed := map_err (fun _ => absolute) (url_Parse value) in
  fail_if ((url_Scheme parsed != "https") || (url_Host parsed == "")) absolute.
Definition ArcSettings_Validate (c : ArcSettings) : result unit :=
  if negb (acs_Enabled c) then Ok tt
  else
    do! fail_if (acs_ChainID c != ChainIDMainnet) (errorf1 "Arc chain ID %q is not the required Mainnet chain ID" (acs_ChainID c));
    do! fail_if (acs_Network c != NetworkMainnet) (errorf1 "Arc network %q is not the required Mainnet network" (acs_Network c));
    do! validateHTTPSURL (acs_RPCURL c) "RPC";
    do! validateHTTPSURL (acs_ExplorerURL c) "explorer";
    do! fail_if (Contains (acs_RPCURL c) ",") (errorf "Arc RPC URL must be a single endpoint");
    do! fail_if (acs_RPCURL c != RPCMainnet) (errorf1 "Arc RPC URL must be the canonical Mainnet endpoint %s" RPCMainnet);
    do! fail_if (acs_ExplorerURL c != ExplorerMainnet)
          (errorf1 "Arc explorer URL must be the canonical Mainnet explorer %s" ExplorerMainnet);
    do! fail_if ((acs_MinConfirmations c <? 1) || (maxMinConfirmations <? acs_MinConfirmations c))
          (errorf1 "Arc minimum confirmations must be between 1 and %d" (FormatInt maxMinConfirmations));
    fail_if ((acs_Timeout c <=? 0) || (arc_maxTimeout <? acs_Timeout c)) (errorf1 "Arc timeout must be positive and at most %s" "1m0s").
Definition arc_Configured (c : ArcSettings) : bool := is_ok (ArcSettings_Validate c) && acs_Enabled c.
Definition uintValue (lookup : string -> option string) (key : string) (fallback : Z) : Z :=
  match lookup key with
  | Some value => match ParseUint64 (TrimSpace value) with Ok parsed => parsed | Err _ => fallback end
  | None => fallback
  end.
Definition arc_LoadConfig (lookup : option (string -> option string)) : result ArcSettings :=
  match lookup with
  | None => Err (errorf "environment lookup is required")
  | Some lookup =>
      let config := MkArcSettings (boolValue lookup "WIZPAY_ARC_ENABLED" false)
        (stringValue lookup "WIZPAY_ARC_CHAIN_ID" ChainIDMainnet) (stringValue lookup "WIZPAY_ARC_NETWORK" NetworkMainnet)
        (stringValue lookup "WIZPAY_ARC_RPC_URL" RPCMainnet) (stringValue lookup "WIZPAY_ARC_EXPLORER_URL" ExplorerMainnet)
        (uintValue lookup "WIZPAY_ARC_MIN_CONFIRMATIONS" defaultMinConfirmations)
        (durationValue ParseDuration lookup "WIZPAY_ARC_TIMEOUT" arc_defaultTimeout) in
      if negb (acs_Enabled config) then Ok config
      else do! ArcSettings_Validate config; Ok config
  end.

(** [NewClientWithBreaker] and [NewVerifier] of the package. *)
Definition arc_NewClientWithBreaker (c : ArcSettings) : result unit :=
  do! ArcSettings_Validate c;
  fail_if (negb (acs_Enabled c)) (errorf "Arc chain adapter is not enabled").
(** [NewHealthChecker]: whether the checker has a client. *)
Definition arc_NewHealthChecker (c : ArcSettings) : result bool :=
  if negb (arc_Configured c) then Ok false else do! arc_NewClientWithBreaker c; Ok true.
End arc.

(** * The assembly (wiring.go) *)
Record PlaneConfig := MkPlaneConfig { plc_Circle : CircleConfig; plc_Arc : ArcSettings; plc_Breaker : Circuit.Config }.
(** Which of the dependencies are there. *)
Record Dependencies := MkDependencies {
  dps_Now : bool; dps_Intents : bool; dps_Payroll : bool; dps_Swap : bool; dps_PayrollV : bool; dps_SwapV : bool
}.
(** The verifier is its minimum of confirmations. *)
Record Plane (A : Type) := MkPlane {
  ppl_Registry : gmap string (gmap Z (Provider A)); ppl_Verifier : option Z; ppl_DomainVerifier : bool; ppl_Adapter : option A;
  ppl_HealthCheckers : list string; ppl_CircleBreaker : Breaker; ppl_ArcBreaker : Breaker
}.
Arguments MkPlane {A}.
Arguments ppl_Registry {A}.
Arguments ppl_Verifier {A}.
Arguments ppl_DomainVerifier {A}.
Arguments ppl_Adapter {A}.
Arguments ppl_HealthCheckers {A}.
Arguments ppl_CircleBreaker {A}.
Arguments ppl_ArcBreaker {A}.

Section wiring.
Context `{NetUrl} (ParseDuration : string -> result Duration) {A : Type}.
Definition wiring_LoadConfig (lookup : option (string -> option string)) : result PlaneConfig :=
  let! circle := LoadConfig ParseDuration lookup in
  let! arc := arc_LoadConfig ParseDuration lookup in
  Ok (MkPlaneConfig circle arc DefaultConfig).

Definition circle_provider (adapter : option A) : Provider A :=
  MkProvider ProviderCircleUserControlled 1 [FeatureUserControlledWallet; FeatureContractExecution; FeatureSwapExecution]
    [ChainIDMainnet] [NetworkMainnet] false adapter.
Definition breaker_config (config : PlaneConfig) : Circuit.Config :=
  if FailureThreshold (plc_Breaker config) =? 0 then DefaultConfig else plc_Breaker config.

Definition Build (config : PlaneConfig) (deps : Dependencies) : result (Plane A) :=
  do! fail_if (negb (dps_Now deps)) (errorf "provider plane requires a clock");
  let! circleBreaker := Circuit.New (breaker_config config) in
  let! arcBreaker := Circuit.New (breaker_config config) in
  let adapter : option A := None in
  let '(answer, registry) := Register NewProviderRegistry (circle_provider adapter) in
  do! answer;
  let! _ := CircleClient.NewHealthChecker (plc_Circle config) (Some circleBreaker) in
  let! _ := arc_NewHealthChecker (plc_Arc config) in
  let plane verifier domain :=
    MkPlane registry verifier domain adapter ["circle"; "arc"] circleBreaker arcBreaker in
  if negb (arc_Configured (plc_Arc config)) || absent adapter then Ok (plane None false)
  else
    do! arc_NewClientWithBreaker (plc_Arc config);
    do! fail_if (acs_MinConfirmations (plc_Arc config) <? 1) (errorf "verifier requires at least one confirmation");
    Ok (plane (Some (acs_MinConfirmations (plc_Arc config)))
          (dps_Intents deps && dps_Payroll deps && dps_Swap deps && dps_PayrollV deps && dps_SwapV deps)).

Definition ProviderFeatures (plane : Plane A) (chainID network : string) : list string :=
  Features (ppl_Registry plane) chainID network.

(** [BuildWorker] (runtime.go): whether there is a worker. *)
Definition BuildWorker (plane : Plane A) (store clock sleeper : bool) (config : Runtime.Config) : result bool :=
  do! fail_if (negb store) (errorf "execution worker requires persistence");
  do! fail_if (negb clock || negb sleeper) (errorf "execution worker requires a clock and a sleeper");
  if absent (ppl_Adapter plane) || absent (ppl_Verifier plane) || negb (ppl_DomainVerifier plane) then Ok false
  else do! Runtime.Config_Validate config; Ok true.

(** [Availability.Resolve] (availability.go): what the request says about
    features is replaced. *)
Definition Availability_Resolve (capabilities : gmap string (gmap Z Capability)) (plane : Plane A) (id : string)
    (q : AvailabilityRequest) : result AvailabilityDecision :=
  Capability_Resolve capabilities id
    (MkAvailabilityRequest (avr_Version q) (avr_ChainID q) (avr_Network q) (avr_Token q) (avr_Route q)
       (ProviderFeatures plane (avr_ChainID q) (avr_Network q))).
End wiring.

(** * Resolution picks the newest configured provider *)
Section resolution.
Context {A : Type}.
Implicit Types d : Provider A.
#[export] Instance provider_laws : VersionedLaws (Provider A).
Proof.
  split; [done..|]. intros d. cbn. unfold Provider_Validate. intros E. apply rbind_ok in E as ([] & _ & E).
  apply rbind_ok in E as ([] & Hv & _). apply fail_if_ok in Hv. by reflect_all.
Qed.

Lemma Provider_Validate_facts d : Provider_Validate d = Ok tt ->
  prv_ID d = ProviderCircleUserControlled /\ (prv_Configured d = true -> exists a, prv_Adapter d = Some a).
Proof.
  unfold Provider_Validate. intros E. apply rbind_ok in E as ([] & Hid & E). apply fail_if_ok, negb_false_iff in Hid.
  unfold ProviderID_Valid in Hid. reflect_all. split; [done|]. intros Hc.
  repeat (apply rbind_ok in E as ([] & _ & E)). apply fail_if_ok in E. rewrite Hc in E. destruct (prv_Adapter d); [eauto|done].
Qed.
Lemma registered_facts r d : registers r -> d ∈ registered r ->
  prv_ID d = ProviderCircleUserControlled /\ prv_Version d <> 0 /\ entry r (prv_ID d) (prv_Version d) = Some d /\
  (prv_Configured d = true -> exists a, prv_Adapter d = Some a).
Proof.
  intros Hr (id & v & Hd)%versioned_entry. pose proof (entry_version r id v d Hr Hd) as Hv.
  destruct (versioned_inv r Hr _ _ _ Hd) as (<- & <- & x & Hx & E). pose proof (Provider_Validate_facts x Hx) as [Hid Ha].
  subst d. cbn in *. auto.
Qed.

Lemma better_spec q l : (forall d, d ∈ l -> prv_ID d = ProviderCircleUserControlled) ->
  match fold_left (better q) l (None, false) with
  | (Some b, _) => b ∈ l /\ serves q b = true /\ prv_Configured b = true /\
      forall x, x ∈ l -> serves q x = true -> prv_Configured x = true -> prv_Version x <= prv_Version b
  | (None, m) => (forall x, x ∈ l -> serves q x = true -> prv_Configured x = false) /\
      (m = true <-> exists x, x ∈ l /\ serves q x = true)
  end.
Proof.
  induction l as [|d l IH] using rev_ind; intros Hid; cbn.
  { split; [by intros x ?%elem_of_nil|]. split; [done|]. by intros (x & ?%elem_of_nil & _). }
  rewrite fold_left_app. cbn. specialize (IH (fun x Hx => Hid x ltac:(set_solver))).
  destruct (fold_left (better q) l (None, false)) as [[b|] m] eqn:E; unfold better at 1; clear E.
  - destruct IH as (Hin & Hs & Hc & Hmax). destruct (serves q d) eqn:Es; cbn [negb]; [destruct (prv_Configured d) eqn:Ec; cbn [negb]|].
    + rewrite (Hid d), (Hid b) by set_solver. rewrite eqb_refl.
      assert (String.ltb ProviderCircleUserControlled ProviderCircleUserControlled = false) as -> by done. cbn [orb andb].
      destruct (prv_Version b <? prv_Version d) eqn:E; reflect_all.
      * split_and!; [set_solver|done..|]. intros x [Hx| ->%list_elem_of_singleton]%elem_of_app Hsx Hcx; [|lia].
        specialize (Hmax x Hx Hsx Hcx). lia.
      * split_and!; [set_solver|done..|]. intros x [Hx| ->%list_elem_of_singleton]%elem_of_app Hsx Hcx; [auto|lia].
    + split_and!; [set_solver|done..|]. intros x [Hx| ->%list_elem_of_singleton]%elem_of_app Hsx Hcx; [auto|congruence].
    + split_and!; [set_solver|done..|]. intros x [Hx| ->%list_elem_of_singleton]%elem_of_app Hsx Hcx; [auto|congruence].
  - destruct IH as [Hnone Hm]. destruct (serves q d) eqn:Es; cbn [negb]; [destruct (prv_Configured d) eqn:Ec; cbn [negb]|].
    + split_and!; [set_solver|done..|]. intros x [Hx| ->%list_elem_of_singleton]%elem_of_app Hsx Hcx; [|lia].
      specialize (Hnone x Hx Hsx). congruence.
    + split; [intros x [Hx| ->%list_elem_of_singleton]%elem_of_app Hsx; auto|]. split; [|done]. intros _. exists d. set_solver.
    + split; [intros x [Hx| ->%list_elem_of_singleton]%elem_of_app Hsx; [auto|congruence]|]. rewrite Hm. split.
      * intros (x & Hx & Hsx). exists x. set_solver.
      * intros (x & [Hx| ->%list_elem_of_singleton]%elem_of_app & Hsx); [eauto|congruence].
Qed.

(** Resolution is deterministic and fails closed: however the registry's
    maps are iterated, a valid query is answered with the newest configured
    provider that declares the feature and serves the chain and the network,
    together with that provider's adapter, which is there; without one it is
    refused, as unavailable exactly when an unconfigured provider would have
    matched. *)
Theorem resolution_newest_configured (r : gmap string (gmap Z (Provider A))) (entries : list (Provider A)) (q : Query)
    (Hr : registers r) (Hperm : entries ≡ₚ registered r) (Hf : ProviderFeature_Valid (qry_Feature q) = true)
    (Hc : qry_ChainID q = "" \/ validChainID (qry_ChainID q) = true) :
  Resolve_in entries q = Provider_Resolve r q /\
  match Provider_Resolve r q with
  | Ok (d, adapter) =>
      exists e a, d = Provider_normalized e /\ adapter = Some a /\ prv_Adapter e = Some a /\
        entry r (prv_ID e) (prv_Version e) = Some e /\ serves q e = true /\ prv_Configured e = true /\
        forall x, x ∈ registered r -> serves q x = true -> prv_Configured x = true -> prv_Version x <= prv_Version e
  | Err e =>
      (forall x, x ∈ registered r -> serves q x = true -> prv_Configured x = false) /\
      (e = providerUnavailable /\ (exists x, x ∈ registered r /\ serves q x = true) \/
       e = providerNotFound /\ ~ exists x, x ∈ registered r /\ serves q x = true)
  end.
Proof.
  assert (forall l, l ≡ₚ registered r -> forall d, d ∈ l -> d ∈ registered r) as Hin by (intros l Hl d; by rewrite Hl).
  assert (forall l, l ≡ₚ registered r -> forall d, d ∈ l -> prv_ID d = ProviderCircleUserControlled) as Hid.
  { intros l Hl d Hd. apply Hin in Hd; [|done]. by apply (registered_facts r d Hr). }
  assert (negb (ProviderFeature_Valid (qry_Feature q)) = false /\ (qry_ChainID q != "") && negb (validChainID (qry_ChainID q)) = false)
    as [Eq1 Eq2].
  { rewrite Hf. split; [done|]. destruct Hc as [-> | ->]; [by rewrite neqb_refl|by rewrite andb_false_r]. }
  pose proof (better_spec q (registered r) (Hid (registered r) (Permutation_refl _))) as Hs.
  pose proof (better_spec q entries (Hid _ Hperm)) as Hs'.
  unfold Provider_Resolve, Resolve_in. rewrite Eq1, Eq2. cbn [fail_if rbind].
  destruct (fold_left (better q) (registered r) (None, false)) as [[b|] m], (fold_left (better q) entries (None, false)) as [[b'|] m'].
  - destruct Hs as (Hb & Sb & Cb & Mb), Hs' as (Hb' & Sb' & Cb' & Mb'). apply (Hin _ Hperm) in Hb' as Hb2.
    destruct (registered_facts r b Hr Hb) as (I1 & _ & E1 & A1), (registered_facts r b' Hr Hb2) as (I2 & _ & E2 & _).
    assert (prv_Version b = prv_Version b') as Ev.
    { apply Z.le_antisymm; [apply Mb'; [by rewrite Hperm|done..]|by apply Mb]. }
    assert (b' = b) as -> by (rewrite I1, Ev in E1; rewrite I2 in E2; congruence). split; [done|].
    destruct (A1 Cb) as [a Ha]. exists b, a. split_and!; done.
  - destruct Hs as (Hb & Sb & Cb & _), Hs' as [Hn _]. rewrite (Hn b) in Cb; [done|by rewrite Hperm|done].
  - destruct Hs as [Hn _], Hs' as (Hb & Sb & Cb & _). rewrite (Hn b') in Cb; [done|by apply (Hin _ Hperm)|done].
  - destruct Hs as [Hn Hm], Hs' as [_ Hm']. assert (m' = m) as ->.
    { apply eq_true_iff_eq. rewrite Hm, Hm'. by setoid_rewrite Hperm. }
    split; [done|]. split; [done|]. destruct m; [left|right]; (split; [done|]); [by apply Hm|]. intros Hx%Hm. done.
Qed.
End resolution.

(** * The plane never executes *)
Section plane.
Context `{NetUrl} {A : Type}.

Lemma unconfigured_resolves (r : gmap string (gmap Z (Provider A))) q :
  (forall x, x ∈ registered r -> prv_Configured x = false) -> exists e, Provider_Resolve r q = Err e.
Proof.
  intros Hall. unfold Provider_Resolve, Resolve_in. destruct (negb _); [by eexists|]. destruct (_ && _); [by eexists|]. cbn [fail_if rbind].
  assert (forall (l : list (Provider A)) st, (forall x, x ∈ l -> prv_Configured x = false) -> fst (fold_left (better q) l st) = fst st) as Hfold.
  { induction l as [|d l IH]; intros [b m] Hl; [done|]. cbn. rewrite IH by set_solver. unfold better.
    destruct (negb (serves q d)); [done|]. by rewrite (Hl d) by set_solver. }
  specialize (Hfold (registered r) (None, false) Hall). destruct (fold_left _ _ _) as [[b|] m]; [done|eauto].
Qed.
Lemma unconfigured_features (r : gmap string (gmap Z (Provider A))) chainID network :
  (forall x, x ∈ registered r -> prv_Configured x = false) -> Features r chainID network = [].
Proof.
  unfold Features. generalize (registered r). intros l Hall.
  assert (foldr (fun d acc => if negb (prv_Configured d) || negb (servesChain d chainID) || negb (servesNetwork d network) then acc
            else list_to_set (prv_Features d) ∪ acc) (∅ : gset string) l = ∅) as ->; [|done].
  induction l as [|d l IH]; [done|]. cbn. rewrite (Hall d) by set_solver. cbn. apply IH. set_solver.
Qed.

(** The registry that [Build] makes. *)
Lemma plane_registry :
  Register NewProviderRegistry (circle_provider (A := A) None) =
  (Ok tt, {[ProviderCircleUserControlled := {[1 := Provider_normalized (circle_provider None)]}]}).
Proof. vm_compute. reflexivity. Qed.
Lemma Build_ok config deps plane : Build (A := A) config deps = Ok plane ->
  ppl_Adapter plane = None /\ ppl_Verifier plane = None /\ ppl_DomainVerifier plane = false /\
  forall x, x ∈ registered (ppl_Registry plane) -> prv_Configured x = false.
Proof.
  unfold Build. rewrite plane_registry. intros E. apply rbind_ok in E as ([] & _ & E). apply rbind_ok in E as (b1 & _ & E).
  apply rbind_ok in E as (b2 & _ & E). apply rbind_ok in E as ([] & _ & E). apply rbind_ok in E as (h1 & _ & E).
  apply rbind_ok in E as (h2 & _ & E). cbn [absent] in E. rewrite orb_true_r in E. injection E as <-. cbn.
  split_and!; [done..|]. intros x (id & v & Hx)%versioned_entry. unfold entry in Hx.
  apply bind_Some in Hx as (versions & [<- <-]%lookup_singleton_Some & [<- <-]%lookup_singleton_Some). done.
Qed.
Lemma Build_total config deps :
  (exists plane : Plane A, Build config deps = Ok plane) <->
  dps_Now deps = true /\ Circuit.Config_Validate (breaker_config config) = Ok tt.
Proof.
  unfold Build. rewrite plane_registry. split.
  - intros [plane E]. apply rbind_ok in E as ([] & Hn & E). apply fail_if_ok, negb_false_iff in Hn. split; [done|].
    apply rbind_ok in E as (b1 & Hb & _). unfold Circuit.New in Hb. by apply rbind_ok in Hb as ([] & Hb & _).
  - intros [-> Hb]. unfold Circuit.New. rewrite Hb. cbn [fail_if negb rbind absent]. unfold NewHealthChecker. cbn [Configured negb rbind].
    unfold arc_NewHealthChecker, arc_Configured, arc_NewClientWithBreaker.
    destruct (ArcSettings_Validate (plc_Arc config)) as [[]|e]; cbn; [destruct (acs_Enabled (plc_Arc config))|]; cbn; eauto.
Qed.

(** The default capabilities are disabled. *)
Definition default_capabilities : gmap string (gmap Z Capability) :=
  Eval vm_compute in match DefaultCapabilityRegistry with Ok r => r | Err _ => ∅ end.
Lemma default_registry : DefaultCapabilityRegistry = Ok default_capabilities.
Proof. vm_compute. reflexivity. Qed.
Lemma default_disabled id v d : entry default_capabilities id v = Some d -> cap_Status d = CapabilityDisabled.
Proof.
  intros Hd. assert (forallb (fun d => cap_Status d == CapabilityDisabled) (registered default_capabilities) = true) as Hall
    by (vm_compute; reflexivity).
  rewrite forallb_forall in Hall. specialize (Hall d). rewrite <- list_elem_of_In, versioned_entry in Hall.
  pose proof (Hall (ex_intro _ id (ex_intro _ v Hd))) as E. by apply bool_decide_eq_true in E.
Qed.

Lemma Capability_Resolve_ok r id q dec : Capability_Resolve r id q = Ok dec ->
  exists v d, entry r id v = Some d /\ avd_Descriptor dec = Capability_normalized d /\
    (avd_Available dec = true ->
       cap_Status d <> CapabilityDisabled /\ forall f, f ∈ cap_ProviderFeatures d -> f ∈ avr_ProviderFeatures q).
Proof.
  unfold Capability_Resolve. intros E. apply rbind_ok in E as (n & Hn & E).
  assert (exists v d, entry r id v = Some d /\ n = Capability_normalized d) as (v & d & Hd & ->).
  { destruct (_ =? 0).
    - unfold Capability_GetLatest in Hn. apply rbind_ok in Hn as ([] & _ & Hn). destruct (r !! id) as [versions|] eqn:Er; [|done].
      set (usable := fun d => _) in Hn. pose proof (latest_spec usable (snd <$> map_to_list versions)) as Hl.
      destruct (latest usable _) as [d|]; [|done]. injection Hn as <-. destruct Hl as (Hin & _).
      apply list_elem_of_fmap in Hin as ([v x] & -> & Hx%elem_of_map_to_list). exists v, x. split; [|done].
      unfold entry. by rewrite Er.
    - unfold Capability_GetVersion in Hn. apply rbind_ok in Hn as ([] & _ & Hn). destruct (r !! id) as [versions|] eqn:Er; [|done].
      destruct (versions !! avr_Version q) as [d|] eqn:Ev; [|done]. injection Hn as <-. exists (avr_Version q), d.
      split; [|done]. unfold entry. by rewrite Er. }
  exists v, d. split; [done|].
  destruct (cap_Status (Capability_normalized d) == CapabilityDisabled) eqn:E1; [by injection E as <-|].
  destruct (_ == CapabilityDeprecated); [by injection E as <-|]. do 4 (destruct (_ && _); [by injection E as <-|]).
  destruct (existsb _ _) eqn:E2; [by injection E as <-|]. injection E as <-. split; [done|]. intros _.
  split; [by reflect_all|]. intros f Hf. apply (proj1 (missing_spec _ _) E2). cbn. unfold sort_strings. by rewrite sort_by_perm.
Qed.

(** [C26] The assembled system executes nothing.  Whatever the configuration —
    every field of both providers set by hand — and whatever dependencies are
    supplied, the assembly succeeds exactly when there is a clock and the
    breaker's configuration is valid, and then no worker can be built over the
    plane, no query resolves to a provider, and no capability that needs a
    provider feature is available, in particular none of the default ones. *)
Theorem plane_never_executes (config : PlaneConfig) (deps : Dependencies) :
  ((exists plane : Plane A, Build config deps = Ok plane) <->
   dps_Now deps = true /\ Circuit.Config_Validate (breaker_config config) = Ok tt) /\
  forall plane : Plane A, Build config deps = Ok plane ->
    (forall store clock sleeper worker, BuildWorker plane store clock sleeper worker <> Ok true) /\
    (forall q, exists e, Provider_Resolve (ppl_Registry plane) q = Err e) /\
    (forall capabilities id q decision,
       Availability_Resolve capabilities plane id q = Ok decision -> avd_Available decision = true ->
       cap_ProviderFeatures (avd_Descriptor decision) = []) /\
    (forall capabilities id q decision, DefaultCapabilityRegistry = Ok capabilities ->
       Availability_Resolve capabilities plane id q = Ok decision -> avd_Available decision = false).
Proof.
  split; [apply Build_total|]. intros plane Hb. destruct (Build_ok _ _ _ Hb) as (Ha & Hv & Hd & Hall). split_and!.
  - intros store clock sleeper worker. unfold BuildWorker. destruct store; [|done]. destruct (negb clock || negb sleeper); [done|].
    by rewrite Ha.
  - intros q. by apply unconfigured_resolves.
  - intros caps id q dec E Hav. apply Capability_Resolve_ok in E as (v & d & _ & -> & Hfeat). destruct (Hfeat Hav) as [_ Hf].
    cbn in Hf. unfold ProviderFeatures in Hf. rewrite unconfigured_features in Hf by done. cbn.
    destruct (cap_ProviderFeatures d) as [|f l]; [done|]. exfalso. apply (not_elem_of_nil f), Hf. set_solver.
  - intros caps id q dec Hc E. rewrite default_registry in Hc. injection Hc as <-.
    apply Capability_Resolve_ok in E as (v & d & Hent & _ & Hav). apply default_disabled in Hent.
    destruct (avd_Available dec); [|done]. by destruct (Hav eq_refl) as [Hne _].
Qed.
End plane.

(** * A concrete registry *)
Module PlaneSamples.
(** Two configured versions, and a newer one that is not. *)
Definition version (v : Z) (adapter : option nat) : Provider nat :=
  MkProvider ProviderCircleUserControlled v [FeatureTokenTransfer; FeatureUserControlledWallet] ["5042"] ["MAINNET"]
    (negb (absent adapter)) adapter.
Definition add (r : gmap string (gmap Z (Provider nat))) (d : Provider nat) := snd (Register r d).
Definition registry : gmap string (gmap Z (Provider nat)) :=
  add (add (add NewProviderRegistry (version 1 (Some 10%nat))) (version 3 None)) (version 2 (Some 20%nat)).
Definition query : Query := MkQuery FeatureTokenTransfer "5042" "".

Lemma resolution_newest_configured_witness :
  Resolve_in (reverse (registered registry)) query = Ok (Provider_normalized (version 2 (Some 20%nat)), Some 20%nat).
Proof.
  assert (registers registry) as Hr by (do 3 apply registers_add; apply registers_new).
  destruct (resolution_newest_configured registry (reverse (registered registry)) query Hr (reverse_Permutation _)
    ltac:(vm_compute; reflexivity) ltac:(right; vm_compute; reflexivity)) as [E _].
  rewrite E. vm_compute. reflexivity.
Defined.
End PlaneSamples.
