(* ===== verification/ToolInputs.v ===== *)
(** internal/mcp/tools, what tools are given: their inputs (schemas.go) and the
    checks made before a service is called (validation.go).

    Several checks range over a map literal, in the order the Go runtime
    chooses: [MapOrder] is that choice.  It decides which field a rejection
    names, and nothing a client sees ([ToolHandlers.v]). *)
From S2P Require Import Prelude GoStrings GoTime AppErrors Contracts IntentTypes IntentParams Intents Evaluator Execution.
From S2P Require Import Policies Autonomy.
Open Scope string_scope.
Open Scope Z_scope.
Open Scope go_scope.

(** * Inputs (schemas.go) *)
Record CreateIntentInput := MkCreateIntentInput {
  ci_RequestID : string; ci_ClientRequestID : string; ci_Nonce : string; ci_WalletBindingID : string;
  ci_IntentType : Type_; ci_Financial : FinancialParameters; ci_Route : Route; ci_Deadline : Time;
  ci_PolicyReference : string
}.
Record GetIntentInput := MkGetIntentInput { gi_RequestID : string; gi_IntentID : string }.
Record RequestApprovalInput := MkRequestApprovalInput { ra_RequestID : string; ra_IntentID : string }.
Record GetApprovalInput := MkGetApprovalInput { ga_RequestID : string; ga_ApprovalID : string }.
Record EvaluatePolicyInput := MkEvaluatePolicyInput {
  ep_RequestID : string; ep_IntentID : string; ep_PolicyID : string; ep_PolicyVersion : Z; ep_Stage : string
}.
Record PrepareExecutionInput := MkPrepareExecutionInput {
  pe_RequestID : string; pe_IntentID : string; pe_ApprovalID : string; pe_PolicyID : string; pe_PolicyVersion : Z
}.
(** The execute inputs of the three payments have the same fields. *)
Definition SendExecuteInput : Type := PrepareExecutionInput.
Definition PayrollExecuteInput : Type := PrepareExecutionInput.
Definition SwapExecuteInput : Type := PrepareExecutionInput.

Record SendDraftInput := MkSendDraftInput {
  si_RequestID : string; si_ClientRequestID : string; si_Nonce : string; si_WalletBindingID : string; si_Token : string;
  si_Recipient : string; si_Amount : Amount; si_Deadline : Time; si_PolicyReference : string
}.
Record SendStatusInput := MkStatusInput { st_RequestID : string; st_ExecutionID : string }.
Definition PayrollStatusInput : Type := SendStatusInput.
Definition SwapStatusInput : Type := SendStatusInput.

Record PayrollRecipientInput := MkRecipientInput { ri_Address : string; ri_Amount : Amount }.
Record PayrollDraftInput := MkPayrollDraftInput {
  pi_RequestID : string; pi_ClientRequestID : string; pi_Nonce : string; pi_WalletBindingID : string; pi_Token : string;
  pi_OutputToken : string; pi_Recipients : list PayrollRecipientInput; pi_ReferenceID : string; pi_Deadline : Time;
  pi_GrossInput : Amount; pi_MinTotalOut : Amount; pi_MinHopPriceX36 : string; pi_SwapDeadline : Time;
  pi_PolicyReference : string
}.
Record SwapDraftInput := MkSwapDraftInput {
  wi_RequestID : string; wi_ClientRequestID : string; wi_Nonce : string; wi_WalletBindingID : string; wi_TokenIn : string;
  wi_TokenOut : string; wi_AmountIn : Amount; wi_ExpectedOutput : Amount; wi_MinAmountOut : Amount;
  wi_MaxSlippageBPS : Z; wi_MinHopPriceX36 : string; wi_QuoteID : string; wi_QuoteSource : string;
  wi_EvidenceReference : string; wi_QuoteExpiresAt : Time; wi_SwapDeadline : Time; wi_Deadline : Time;
  wi_PolicyReference : string
}.

Record ListSchedulesInput := MkListSchedulesInput { ls_RequestID : string }.
Record GetScheduleInput := MkGetScheduleInput { gs_RequestID : string; gs_ScheduleID : string; gs_Version : Z }.
Record SimulateScheduleInput := MkSimulateInput {
  ss_RequestID : string; ss_ScheduleID : string; ss_Version : Z; ss_At : Time
}.
Record CreateScheduleInput := MkCreateScheduleInput { cs_RequestID : string; cs_Schedule : Schedule }.
Record ControlScheduleInput := MkControlInput {
  ct_RequestID : string; ct_ScheduleID : string; ct_Version : Z; ct_Status : ScheduleStatus
}.
Record EmergencyStopInput := MkStopInput {
  ei_RequestID : string; ei_Active : bool; ei_Scope : string; ei_Reason : string
}.

(** * Checks (validation.go) *)
Class MapOrder := map_order : list (string * string) -> list (string * string).
(** Each entry of the map once. *)
Class MapOrderLaws `{MapOrder} : Prop := map_order_perm fields : map_order fields ≡ₚ fields.

Definition safe_reference (value : string) : bool :=
  negb ((value == "") || (TrimSpace value != value) || (256 <? len value) || has_control value).
Definition validateReference (name value : string) : result unit :=
  fail_if (negb (safe_reference value)) (errorf1 "%s must be a non-empty safe reference" name).
Definition validateRequestID (value : string) : result unit := validateReference "request_id" value.
(** [for name, value := range map[string]string{...}] *)
Definition validateReferences `{MapOrder} (fields : list (string * string)) : result unit :=
  for_each (fun '(name, value) => validateReference name value) (map_order fields).

(** ** Financial payloads *)
Definition validateSend (s : SendParameters) : result unit :=
  do! Token_Validate (snd_Token s);
  do! validateReference "recipient" (snd_Recipient s);
  Amount_Validate (snd_Amount s).
Definition validatePayroll (p : PayrollParameters) : result unit :=
  do! Token_Validate (pay_Token p);
  do! fail_if ((length (pay_Recipients p) =? 0)%nat || (500 <? Z.of_nat (length (pay_Recipients p))))
        (errorf "payroll requires 1 to 500 recipients");
  do! for_each (fun '(index, recipient) =>
                  let at_index := map_err (errorf_wrap "recipient %d: %w" [FormatUint (Z.of_nat index)]) in
                  do! at_index (validateReference "recipient address" (rcp_Address recipient));
                  at_index (Amount_Validate (rcp_Amount recipient))) (numbered (pay_Recipients p));
  Amount_Validate (pay_Total p).
Definition validateSwap (s : SwapParameters) : result unit :=
  do! Token_Validate (swp_InputToken s);
  do! Token_Validate (swp_OutputToken s);
  do! for_each (fun '(name, amount) => map_err (errorf_wrap "%s amount: %w" [name]) (Amount_Validate amount))
        [("input", swp_InputAmount s); ("expected output", swp_ExpectedOutput s); ("minimum output", swp_MinimumOutput s)];
  validateReference "quote_reference" (swp_QuoteReference s).
Definition validateBridge (b : BridgeParameters) : result unit :=
  do! validateChainID (brg_SourceChainID b);
  do! validateChainID (brg_DestinationChainID b);
  do! Token_Validate (brg_SourceToken b);
  do! Amount_Validate (brg_SourceAmount b);
  do! Amount_Validate (brg_DestinationAmount b);
  do! validateReference "destination_address" (brg_DestinationAddress b);
  validateReference "plan_reference" (brg_PlanReference b).
Definition validateANS (a : ANSParameters) : result unit :=
  do! validateReference "normalized_name" (ans_NormalizedName a);
  do! validateReference "name_version" (ans_NameVersion a);
  do! validateReference "controller" (ans_Controller a);
  do! Token_Validate (ans_CostToken a);
  Amount_Validate (ans_Cost a).
(** [if p := financial.P; p != nil { ... }] *)
Definition if_present {A} (validate : A -> result unit) (payload : option A) : result unit :=
  match payload with Some p => validate p | None => Ok tt end.
Definition validateFinancial (financial : FinancialParameters) : result unit :=
  do! if_present validateSend (fin_Send financial);
  do! if_present validatePayroll (fin_Payroll financial);
  do! if_present validateSwap (fin_Swap financial);
  do! if_present validateBridge (fin_Bridge financial);
  if_present validateANS (fin_ANS financial).

Definition payload_count (f : FinancialParameters) : nat :=
  length (List.filter (fun set_ => set_) [isSome (fin_Send f); isSome (fin_Payroll f); isSome (fin_Swap f);
                                          isSome (fin_Bridge f); isSome (fin_ANS f)]).
Definition payload_mismatch (t : Type_) (f : FinancialParameters) : bool :=
  ((t == TypeSend) != isSome (fin_Send f)) || ((t == TypePayroll) != isSome (fin_Payroll f))
  || ((t == TypeSwap) != isSome (fin_Swap f)) || ((t == TypeBridge) != isSome (fin_Bridge f))
  || ((t == TypeANSRegistration) != isSome (fin_ANS f)).

Section inputs.
Context `{MapOrder}.

Definition CreateIntentInput_Validate (i : CreateIntentInput) : result unit :=
  do! validateReferences [("request_id", ci_RequestID i); ("client_request_id", ci_ClientRequestID i); ("nonce", ci_Nonce i);
                          ("wallet_binding_id", ci_WalletBindingID i); ("policy_reference", ci_PolicyReference i)];
  do! fail_if (negb (Type_Valid (ci_IntentType i))) (errorf "intent_type is invalid");
  do! fail_if (IsZero (ci_Deadline i)) (errorf "deadline is required");
  do! fail_if (negb (RouteType_Valid (rte_Type (ci_Route i))) || (rte_Version (ci_Route i) =? 0)) (errorf "route is invalid");
  do! validateReference "route.reference" (rte_Reference (ci_Route i));
  do! fail_if (negb (payload_count (ci_Financial i) =? 1)%nat) (errorf "financial must contain exactly one typed payload");
  do! fail_if (payload_mismatch (ci_IntentType i) (ci_Financial i)) (errorf "financial payload does not match intent_type");
  validateFinancial (ci_Financial i).

Definition GetIntentInput_Validate (i : GetIntentInput) : result unit :=
  do! validateRequestID (gi_RequestID i);
  validateReference "intent_id" (gi_IntentID i).
Definition RequestApprovalInput_Validate (i : RequestApprovalInput) : result unit :=
  do! validateRequestID (ra_RequestID i);
  validateReference "intent_id" (ra_IntentID i).
Definition GetApprovalInput_Validate (i : GetApprovalInput) : result unit :=
  do! validateRequestID (ga_RequestID i);
  validateReference "approval_id" (ga_ApprovalID i).

Definition version_required (version : Z) : result unit :=
  fail_if (version =? 0) (errorf "policy_version must be at least 1").
(** [policies.EvaluationStage(in.Stage)]: one of the two stages, or no stage. *)
Definition evaluation_stage (s : string) : option EvaluationStage :=
  if s == Stage_string EvaluationStageBeforeApproval then Some EvaluationStageBeforeApproval
  else if s == Stage_string EvaluationStageBeforeExecution then Some EvaluationStageBeforeExecution else None.
Definition EvaluatePolicyInput_Validate (i : EvaluatePolicyInput) : result unit :=
  do! validateReferences [("request_id", ep_RequestID i); ("intent_id", ep_IntentID i); ("policy_id", ep_PolicyID i)];
  do! version_required (ep_PolicyVersion i);
  fail_if (negb (isSome (evaluation_stage (ep_Stage i)))) (errorf "stage is invalid").
Definition PrepareExecutionInput_Validate (i : PrepareExecutionInput) : result unit :=
  do! validateReferences [("request_id", pe_RequestID i); ("intent_id", pe_IntentID i); ("approval_id", pe_ApprovalID i);
                          ("policy_id", pe_PolicyID i)];
  version_required (pe_PolicyVersion i).
Definition SendExecuteInput_Validate : SendExecuteInput -> result unit := PrepareExecutionInput_Validate.
Definition PayrollExecuteInput_Validate : PayrollExecuteInput -> result unit := PrepareExecutionInput_Validate.
Definition SwapExecuteInput_Validate : SwapExecuteInput -> result unit := PrepareExecutionInput_Validate.

(** [in.Token != "USDC" && in.Token != "EURC"] is the rejected case. *)
Definition known_symbol (symbol : string) : bool := (symbol == "USDC") || (symbol == "EURC").

Definition SendDraftInput_Validate (i : SendDraftInput) : result unit :=
  do! validateReferences [("request_id", si_RequestID i); ("client_request_id", si_ClientRequestID i); ("nonce", si_Nonce i);
                          ("wallet_binding_id", si_WalletBindingID i); ("recipient", si_Recipient i);
                          ("policy_reference", si_PolicyReference i)];
  do! fail_if (negb (known_symbol (si_Token i))) (errorf "token must be USDC or EURC");
  do! fail_if (negb (Amount_IsPositive (si_Amount i))) (errorf "amount must be positive and exact");
  fail_if (IsZero (si_Deadline i)) (errorf "deadline is required").
Definition SendStatusInput_Validate (i : SendStatusInput) : result unit :=
  do! validateRequestID (st_RequestID i);
  validateReference "execution_id" (st_ExecutionID i).
Definition PayrollStatusInput_Validate : PayrollStatusInput -> result unit := SendStatusInput_Validate.
Definition SwapStatusInput_Validate : SwapStatusInput -> result unit := SendStatusInput_Validate.

(** [new(big.Int).SetString(price, 10)] succeeds and is positive. *)
Definition positive_price (price : string) : bool :=
  match SetString10 price with Some p => 0 <? p | None => false end.

(** The fields of a payroll paid in another token: all, or none. *)
Definition validate_cross_token (i : PayrollDraftInput) : result unit :=
  if pi_OutputToken i != "" then
    do! fail_if (negb (known_symbol (pi_OutputToken i)) || (pi_OutputToken i == pi_Token i))
          (errorf "output_token must be the opposite canonical token");
    do! fail_if (negb (Amount_IsPositive (pi_GrossInput i)) || negb (Amount_IsPositive (pi_MinTotalOut i)))
          (errorf "cross-token aggregate amounts must be positive");
    do! fail_if (negb (positive_price (pi_MinHopPriceX36 i))) (errorf "min_hop_price_x36 must be positive");
    fail_if (IsZero (pi_SwapDeadline i)) (errorf "swap_deadline is required for cross-token payroll")
  else
    fail_if (negb (Amount_IsZero (pi_GrossInput i)) || negb (Amount_IsZero (pi_MinTotalOut i))
             || (pi_MinHopPriceX36 i != "") || negb (IsZero (pi_SwapDeadline i)))
      (errorf "cross-token fields require output_token").
Definition validate_line (line : nat * PayrollRecipientInput) : result unit :=
  let name := "recipients[" +:+ (FormatUint (Z.of_nat (fst line)) +:+ "].address") in
  do! validateReference name (ri_Address (snd line));
  fail_if (negb (Amount_IsPositive (ri_Amount (snd line))))
    (errorf1 "recipients[%d].amount must be positive and exact" (FormatUint (Z.of_nat (fst line)))).
Definition PayrollDraftInput_Validate (i : PayrollDraftInput) : result unit :=
  do! validateReferences [("request_id", pi_RequestID i); ("client_request_id", pi_ClientRequestID i); ("nonce", pi_Nonce i);
                          ("wallet_binding_id", pi_WalletBindingID i); ("reference_id", pi_ReferenceID i);
                          ("policy_reference", pi_PolicyReference i)];
  do! fail_if (negb (known_symbol (pi_Token i))) (errorf "token must be USDC or EURC");
  do! validate_cross_token i;
  do! fail_if ((length (pi_Recipients i) <? 1)%nat || (50 <? Z.of_nat (length (pi_Recipients i))))
        (errorf "recipients must contain 1 to 50 entries");
  do! fail_if (64 <? len (pi_ReferenceID i)) (errorf "reference_id exceeds 64 UTF-8 bytes");
  do! for_each validate_line (numbered (pi_Recipients i));
  fail_if (IsZero (pi_Deadline i)) (errorf "deadline is required").

Definition SwapDraftInput_Validate (i : SwapDraftInput) : result unit :=
  do! validateReferences [("request_id", wi_RequestID i); ("client_request_id", wi_ClientRequestID i); ("nonce", wi_Nonce i);
                          ("wallet_binding_id", wi_WalletBindingID i); ("quote_id", wi_QuoteID i);
                          ("quote_source", wi_QuoteSource i); ("evidence_reference", wi_EvidenceReference i);
                          ("policy_reference", wi_PolicyReference i)];
  do! fail_if (negb (known_symbol (wi_TokenIn i)) || negb (known_symbol (wi_TokenOut i)) || (wi_TokenIn i == wi_TokenOut i))
        (errorf "token pair must be USDC to EURC or EURC to USDC");
  do! fail_if (negb (Amount_IsPositive (wi_AmountIn i)) || negb (Amount_IsPositive (wi_ExpectedOutput i))
               || negb (Amount_IsPositive (wi_MinAmountOut i))) (errorf "swap amounts must be positive and exact");
  do! fail_if (negb (positive_price (wi_MinHopPriceX36 i)) || leading_zero (wi_MinHopPriceX36 i))
        (errorf "min_hop_price_x36 must be a canonical positive integer");
  fail_if (IsZero (wi_QuoteExpiresAt i) || IsZero (wi_SwapDeadline i) || IsZero (wi_Deadline i))
    (errorf "quote expiry and deadlines are required").
End inputs.
