(* ===== verification/ToolHandlers.v ===== *)
(** internal/mcp/tools: the services a tool may call (services.go), what tools
    answer (schemas.go, the [...Output] functions), the handlers (handlers.go,
    send.go, payroll.go, swap.go, autonomy.go), the definitions and the
    registries (definitions.go, registry.go, oauth_registry.go).

    The value [string(x)] of an enumeration that has no textual form in this
    library is kept as the enumeration's value. *)
From S2P Require Import Prelude GoStrings GoTime AppErrors Contracts IntentTypes IntentParams Intents Wallet Auth Approvals.
From S2P Require Import Policies Evaluator Execution Storage Autonomy AutonomyRuntime Statements Services Foundation.
From S2P Require Import Repositories IntentService ApprovalService Sessions ToolInputs.
Open Scope string_scope.
Open Scope Z_scope.
Open Scope go_scope.

(** * Ports (internal/services/services.go, send.go, payroll.go, swap.go) *)
Abbreviation operation E A := (option Context -> method E (result A)) (only parsing).
Record IntentPort (E : Type) := MkIntentPort {
  port_CreateIntent : CreateIntentCommand -> operation E Intent;
  port_GetIntent : string -> operation E Intent
}.
Record ApprovalPort (E : Type) := MkApprovalPort {
  port_ListApprovals : Z -> string -> string -> operation E ApprovalPage;
  port_RequestApproval : string -> operation E Approval;
  port_GetApproval : string -> operation E Approval;
  port_DecideApproval : string -> Approvals.Decision -> operation E Approval;
  port_AuthorizeExecution : string -> string -> string -> Z -> operation E ExecutionAuthorization
}.
Record PolicyPort (E : Type) := MkPolicyPort {
  port_EvaluatePolicy : string -> string -> Z -> EvaluationStage -> operation E Evaluator.Result
}.
Record ExecutionPort (E : Type) := MkExecutionPort {
  port_PrepareExecution : string -> string -> string -> Z -> operation E Request
}.
(** A payment service: its draft, and what a preview of it shows. *)
Record PaymentPort (E Draft Preview : Type) := MkPaymentPort {
  port_Preview : Draft -> operation E Preview;
  port_Create : Draft -> operation E Intent;
  port_Execute : string -> string -> string -> Z -> operation E Request;
  port_Status : string -> operation E Execution
}.
Definition SendService (E : Type) : Type := PaymentPort E SendDraft SendPreview.
Definition PayrollService (E : Type) : Type := PaymentPort E PayrollDraft PayrollPreview.
Definition SwapService (E : Type) : Type := PaymentPort E SwapDraft SwapPreview.
Record AutonomyPort (E : Type) := MkAutonomyPort {
  port_ListSchedules : operation E (list Schedule);
  port_GetSchedule : string -> Z -> operation E Schedule;
  port_SimulateOccurrence : string -> Z -> Time -> operation E AutonomyRuntime.Decision;
  port_CreateSchedule : Schedule -> operation E Schedule;
  port_SetScheduleStatus : string -> Z -> ScheduleStatus -> operation E Schedule;
  port_SetEmergencyStop : EmergencyStop -> operation E EmergencyStop
}.
#[global] Arguments port_CreateIntent {_} _ _ _.
#[global] Arguments port_GetIntent {_} _ _ _.
#[global] Arguments port_ListApprovals {_} _ _ _ _ _.
#[global] Arguments port_RequestApproval {_} _ _ _.
#[global] Arguments port_GetApproval {_} _ _ _.
#[global] Arguments port_DecideApproval {_} _ _ _ _.
#[global] Arguments port_AuthorizeExecution {_} _ _ _ _ _ _.
#[global] Arguments port_EvaluatePolicy {_} _ _ _ _ _ _.
#[global] Arguments port_PrepareExecution {_} _ _ _ _ _ _.
#[global] Arguments port_Preview {_ _ _} _ _ _.
#[global] Arguments port_Create {_ _ _} _ _ _.
#[global] Arguments port_Execute {_ _ _} _ _ _ _ _ _.
#[global] Arguments port_Status {_ _ _} _ _ _.
#[global] Arguments port_ListSchedules {_} _ _.
#[global] Arguments port_GetSchedule {_} _ _ _ _.
#[global] Arguments port_SimulateOccurrence {_} _ _ _ _ _.
#[global] Arguments port_CreateSchedule {_} _ _ _.
#[global] Arguments port_SetScheduleStatus {_} _ _ _ _ _.
#[global] Arguments port_SetEmergencyStop {_} _ _ _.

(** [services.Bundle]; [None] is nil. *)
Record Bundle (E : Type) := MkBundle {
  bdl_Intents : option (IntentPort E); bdl_Approvals : option (ApprovalPort E); bdl_Policies : option (PolicyPort E);
  bdl_Executions : option (ExecutionPort E)
}.
#[global] Arguments MkBundle {_} _ _ _ _.
#[global] Arguments bdl_Intents {_} _.
#[global] Arguments bdl_Approvals {_} _.
#[global] Arguments bdl_Policies {_} _.
#[global] Arguments bdl_Executions {_} _.

(** * Outputs *)
Record ToolError := MkToolError {
  te_Code : Code; te_Message : string; te_RequestID : string; te_Retryable : bool; te_UserActionRequired : bool;
  te_Terminal : bool
}.
Record IntentOutput := MkIntentOutput {
  io_IntentID : string; io_IntentVersion : Z; io_IntentDigest : string; io_IntentType : string; io_Status : string;
  io_WalletBindingID : string; io_CreatedAt : string; io_ExpiresAt : string
}.
Record ApprovalOutput := MkApprovalOutput {
  ao_ApprovalID : string; ao_ApprovalVersion : Z; ao_IntentID : string; ao_IntentVersion : Z; ao_Status : string;
  ao_Decision : Approvals.Decision; ao_CreatedAt : string; ao_ExpiresAt : string
}.
Record PolicyFindingOutput := MkFindingOutput {
  fo_RuleID : string; fo_RuleType : RuleType; fo_Decision : Policies.Decision; fo_Reason : Evaluator.Reason
}.
Record PolicyOutput := MkPolicyOutput {
  po_PolicyID : string; po_PolicyVersion : Z; po_IntentID : string; po_IntentVersion : Z; po_IntentDigest : string;
  po_Stage : string; po_Decision : string; po_EvaluatedAt : string; po_Findings : list PolicyFindingOutput
}.
Record ExecutionOutput := MkExecutionOutput {
  xo_ExecutionRequestID : string; xo_ExecutionRequestKey : string; xo_ExecutionRequestVersion : Z; xo_ExecutionID : string;
  xo_IntentID : string; xo_ApprovalID : string; xo_PolicyEvaluationKey : string; xo_Status : string; xo_CreatedAt : string
}.
Record SendPreviewOutput := MkSendPreviewOutput {
  so_Token : string; so_TokenAddress : string; so_Recipient : string; so_Amount : Amount; so_ChainID : string;
  so_Network : string
}.
Record PayrollPreviewOutput := MkPayrollPreviewOutput {
  yo_Token : string; yo_TokenAddress : string; yo_OutputToken : string; yo_OutputTokenAddress : string;
  yo_Recipients : list PayrollRecipientInput; yo_Total : Amount; yo_GrossInput : Amount; yo_MinTotalOut : Amount;
  yo_MinHopPriceX36 : string; yo_SwapDeadline : string; yo_ReferenceID : string; yo_ChainID : string; yo_Network : string
}.
Record SwapPreviewOutput := MkSwapPreviewOutput {
  wo_TokenIn : string; wo_TokenInAddress : string; wo_TokenOut : string; wo_TokenOutAddress : string;
  wo_AmountIn : Amount; wo_ExpectedOutput : Amount; wo_MinAmountOut : Amount; wo_MinHopPriceX36 : string;
  wo_SwapDeadline : string; wo_QuoteExpiresAt : string; wo_Executor : string; wo_ChainID : string; wo_Network : string
}.
Record ScheduleOutput := MkScheduleOutput {
  co_ScheduleID : string; co_Version : Z; co_Digest : string; co_Status : string; co_IntentType : string;
  co_WalletBindingID : string; co_GrantID : string; co_CreatedAt : string; co_UpdatedAt : string
}.
Record DecisionOutput := MkDecisionOutput {
  do_Eligible : bool; do_RequiresStepUp : bool; do_Reason : ReasonCode; do_ScheduleID : string; do_OccurrenceID : string;
  do_GrantID : string
}.
Record EmergencyStopOutput := MkStopOutput { eo_Active : bool; eo_Scope : string; eo_Reason : string; eo_ChangedAt : string }.

(** The response types all hold a result or an error; a reply is a response
    and the [IsError] of the call's result.  Handlers return no Go error. *)
Record Response (A : Type) := MkResponse { rsp_Result : option A; rsp_Error : option ToolError }.
#[global] Arguments MkResponse {_} _ _.
#[global] Arguments rsp_Result {_} _.
#[global] Arguments rsp_Error {_} _.
Record Reply (A : Type) := MkReply { rep_IsError : bool; rep_Response : Response A }.
#[global] Arguments MkReply {_} _ _.
#[global] Arguments rep_IsError {_} _.
#[global] Arguments rep_Response {_} _.

Definition publicToolError (requestID : string) (e : error) : ToolError :=
  let p := ToPublic (Some e) in
  MkToolError (pub_Code p) (pub_Message p) requestID (pub_Retryable p) (pub_UserActionRequired p) (pub_Terminal p).
Definition validationToolError (requestID : string) (e : error) : ToolError :=
  publicToolError requestID (Wrap CodeValidationError "Tool input is invalid." false true true e).
Definition succeeded {A} (a : A) : Reply A := MkReply false (MkResponse (Some a) None).
Definition failed {A} (e : ToolError) : Reply A := MkReply true (MkResponse None (Some e)).

Definition formatTime (value : Time) : string := FormatRFC3339Nano (UTC value).
(** [value.UTC().Format("2006-01-02T15:04:05Z07:00")]: to the second. *)
Definition formatSeconds (value : Time) : string := FormatRFC3339Nano (Truncate (UTC value) Second).

Definition intentOutput (i : Intent) : IntentOutput :=
  let p := int_params i in
  MkIntentOutput (prm_IntentID p) (Intents.prm_Version p) (int_digest i) (Type_string (prm_Type p))
    (Intents.Status_string (int_status i)) (own_WalletBindingID (prm_Ownership p)) (formatTime (Intents.prm_CreatedAt p))
    (formatTime (Intents.prm_ExpiresAt p)).
Definition approvalOutput (a : Approval) : ApprovalOutput :=
  MkApprovalOutput (apr_approvalID a) (apr_version a) (apr_intentID a) (apr_intentVersion a)
    (Approval_Status_string (apr_status a)) (apr_decision a) (formatTime (apr_createdAt a)) (formatTime (apr_expiresAt a)).
Definition policyOutput (r : Evaluator.Result) : PolicyOutput :=
  MkPolicyOutput (res_PolicyID r) (res_PolicyVersion r) (res_IntentID r) (res_IntentVersion r) (res_IntentDigest r)
    (Stage_string (res_Stage r)) (Decision_string (res_Decision r)) (formatTime (res_EvaluatedAt r))
    ((fun f => MkFindingOutput (fnd_RuleID f) (fnd_RuleType f) (fnd_Decision f) (fnd_Reason f)) <$> res_Findings r).
(** The status of a request just prepared; the status handlers replace it. *)
Definition execution_output (r : Request) (status : Execution.Status) : ExecutionOutput :=
  MkExecutionOutput (req_requestID r) (req_requestKey r) (req_version r) (req_executionID r) (req_intentID r)
    (req_approvalID r) (req_policyEvaluationKey r) (Execution.Status_string status) (formatTime (req_createdAt r)).
Definition executionOutput (r : Request) : ExecutionOutput := execution_output r Execution.StatusCreated.
Definition status_output (e : Execution) : ExecutionOutput := execution_output (exe_request e) (exe_status e).
Definition scheduleOutput (s : Schedule) : ScheduleOutput :=
  MkScheduleOutput (sch_ID s) (sch_Version s) (sch_Digest s) (sch_Status s) (spc_Intent (sch_Spec s))
    (sch_WalletBindingID s) (sch_GrantID s) (formatTime (sch_CreatedAt s)) (formatTime (sch_UpdatedAt s)).
Definition decision_output (d : AutonomyRuntime.Decision) : DecisionOutput :=
  MkDecisionOutput (dec_Eligible d) (dec_RequiresStepUp d) (dec_Reason d) (dec_ScheduleID d) (dec_OccurrenceID d)
    (dec_GrantID d).
Definition stop_output (e : EmergencyStop) : EmergencyStopOutput :=
  MkStopOutput (es_Active e) (es_Scope e) (es_Reason e) (formatTime (es_ChangedAt e)).
Definition send_preview_output (v : SendPreview) : SendPreviewOutput :=
  MkSendPreviewOutput (tok_Symbol (sv_Token v)) (tok_Address (sv_Token v)) (sv_Recipient v) (sv_Amount v) (sv_ChainID v)
    (sv_Network v).
Definition payroll_preview_output (v : PayrollPreview) : PayrollPreviewOutput :=
  MkPayrollPreviewOutput (tok_Symbol (pv_Token v)) (tok_Address (pv_Token v)) (tok_Symbol (pv_OutputToken v))
    (tok_Address (pv_OutputToken v)) ((fun r => MkRecipientInput (rd_Address r) (rd_Amount r)) <$> pv_Recipients v)
    (pv_Total v) (pv_GrossInput v) (pv_MinTotalOut v) (pv_MinHopPriceX36 v)
    (if IsZero (pv_SwapDeadline v) then "" else formatSeconds (pv_SwapDeadline v)) (pv_ReferenceID v) (pv_ChainID v)
    (pv_Network v).
Definition swap_preview_output (v : SwapPreview) : SwapPreviewOutput :=
  MkSwapPreviewOutput (tok_Symbol (wv_TokenIn v)) (tok_Address (wv_TokenIn v)) (tok_Symbol (wv_TokenOut v))
    (tok_Address (wv_TokenOut v)) (wv_AmountIn v) (wv_ExpectedOutput v) (wv_MinAmountOut v) (wv_MinHopPriceX36 v)
    (formatSeconds (wv_SwapDeadline v)) (formatSeconds (wv_QuoteExpiresAt v)) (wv_Executor v) (wv_ChainID v) (wv_Network v).

(** * Handlers *)
Section handlers.
Context {E : Type} `{MapOrder}.
Implicit Types (ctx : option Context).
Abbreviation handler In Out := (option Context -> In -> method E (Reply Out)) (only parsing).

(** [if err != nil { return errorResult(), ...Response{Error: ...}, nil }] *)
Definition answer {A B} (requestID : string) (call : method E (result A)) (out : A -> B) : method E (Reply B) :=
  mbind call (fun r => Return (match r with
                               | Ok a => succeeded (out a)
                               | Err e => failed (publicToolError requestID e)
                               end)).
(** What the handlers with a [Validate] share. *)
Definition validated {A B} (check : result unit) (requestID : string) (call : method E (result A)) (out : A -> B)
    : method E (Reply B) :=
  match check with
  | Err e => Return (failed (validationToolError requestID e))
  | Ok _ => answer requestID call out
  end.

(** handlers.go *)
Definition createIntentHandler (service : IntentPort E) : handler CreateIntentInput IntentOutput := fun ctx i =>
  validated (CreateIntentInput_Validate i) (ci_RequestID i)
    (port_CreateIntent service (MkCommand (ci_ClientRequestID i) (ci_Nonce i) (ci_WalletBindingID i) (ci_IntentType i)
                                  (ci_Financial i) (ci_Route i) (ci_Deadline i) (ci_PolicyReference i)) ctx) intentOutput.
Definition getIntentHandler (service : IntentPort E) : handler GetIntentInput IntentOutput := fun ctx i =>
  validated (GetIntentInput_Validate i) (gi_RequestID i) (port_GetIntent service (gi_IntentID i) ctx) intentOutput.
Definition requestApprovalHandler (service : ApprovalPort E) : handler RequestApprovalInput ApprovalOutput := fun ctx i =>
  validated (RequestApprovalInput_Validate i) (ra_RequestID i) (port_RequestApproval service (ra_IntentID i) ctx)
    approvalOutput.
Definition getApprovalHandler (service : ApprovalPort E) : handler GetApprovalInput ApprovalOutput := fun ctx i =>
  validated (GetApprovalInput_Validate i) (ga_RequestID i) (port_GetApproval service (ga_ApprovalID i) ctx) approvalOutput.
(** [Validate] admits the two stages only. *)
Definition evaluatePolicyHandler (service : PolicyPort E) : handler EvaluatePolicyInput PolicyOutput := fun ctx i =>
  validated (EvaluatePolicyInput_Validate i) (ep_RequestID i)
    (match evaluation_stage (ep_Stage i) with
     | Some stage => port_EvaluatePolicy service (ep_IntentID i) (ep_PolicyID i) (ep_PolicyVersion i) stage ctx
     | None => plain_code (Err (errorf "invalid policy evaluation stage"))
     end) policyOutput.
Definition prepareExecutionHandler (service : ExecutionPort E) : handler PrepareExecutionInput ExecutionOutput := fun ctx i =>
  validated (PrepareExecutionInput_Validate i) (pe_RequestID i)
    (port_PrepareExecution service (pe_IntentID i) (pe_ApprovalID i) (pe_PolicyID i) (pe_PolicyVersion i) ctx)
    executionOutput.

(** send.go, payroll.go, swap.go *)
Definition sendDraft (i : SendDraftInput) : SendDraft :=
  MkSendDraft (si_ClientRequestID i) (si_Nonce i) (si_WalletBindingID i) (si_Token i) (si_Recipient i) (si_Amount i)
    (si_Deadline i) (si_PolicyReference i).
Definition payrollDraft (i : PayrollDraftInput) : PayrollDraft :=
  MkPayrollDraft (pi_ClientRequestID i) (pi_Nonce i) (pi_WalletBindingID i) (pi_Token i) (pi_OutputToken i)
    ((fun r => MkRecipientDraft (ri_Address r) (ri_Amount r)) <$> pi_Recipients i) (pi_ReferenceID i) (pi_Deadline i)
    (pi_GrossInput i) (pi_MinTotalOut i) (pi_MinHopPriceX36 i) (pi_SwapDeadline i) (pi_PolicyReference i).
Definition swapDraft (i : SwapDraftInput) : SwapDraft :=
  MkSwapDraft (wi_ClientRequestID i) (wi_Nonce i) (wi_WalletBindingID i) (wi_TokenIn i) (wi_TokenOut i) (wi_AmountIn i)
    (wi_ExpectedOutput i) (wi_MinAmountOut i) (wi_MaxSlippageBPS i) (wi_MinHopPriceX36 i) (wi_QuoteID i) (wi_QuoteSource i)
    (wi_EvidenceReference i) (wi_QuoteExpiresAt i) (wi_SwapDeadline i) (wi_Deadline i) (wi_PolicyReference i).

(** Execute and status, alike in the three payments. *)
Definition executeHandler {D P} (service : PaymentPort E D P) : handler PrepareExecutionInput ExecutionOutput := fun ctx i =>
  validated (PrepareExecutionInput_Validate i) (pe_RequestID i)
    (port_Execute service (pe_IntentID i) (pe_ApprovalID i) (pe_PolicyID i) (pe_PolicyVersion i) ctx) executionOutput.
Definition statusHandler {D P} (service : PaymentPort E D P) : handler SendStatusInput ExecutionOutput := fun ctx i =>
  validated (SendStatusInput_Validate i) (st_RequestID i) (port_Status service (st_ExecutionID i) ctx) status_output.

Definition sendPreviewHandler (service : SendService E) : handler SendDraftInput SendPreviewOutput := fun ctx i =>
  validated (SendDraftInput_Validate i) (si_RequestID i) (port_Preview service (sendDraft i) ctx) send_preview_output.
Definition sendCreateHandler (service : SendService E) : handler SendDraftInput IntentOutput := fun ctx i =>
  validated (SendDraftInput_Validate i) (si_RequestID i) (port_Create service (sendDraft i) ctx) intentOutput.
Definition sendExecuteHandler (service : SendService E) : handler SendExecuteInput ExecutionOutput := executeHandler service.
Definition sendStatusHandler (service : SendService E) : handler SendStatusInput ExecutionOutput := statusHandler service.

Definition payrollPreviewHandler (service : PayrollService E) : handler PayrollDraftInput PayrollPreviewOutput := fun ctx i =>
  validated (PayrollDraftInput_Validate i) (pi_RequestID i) (port_Preview service (payrollDraft i) ctx)
    payroll_preview_output.
Definition payrollCreateHandler (service : PayrollService E) : handler PayrollDraftInput IntentOutput := fun ctx i =>
  validated (PayrollDraftInput_Validate i) (pi_RequestID i) (port_Create service (payrollDraft i) ctx) intentOutput.
Definition payrollExecuteHandler (service : PayrollService E) : handler PayrollExecuteInput ExecutionOutput :=
  executeHandler service.
Definition payrollStatusHandler (service : PayrollService E) : handler PayrollStatusInput ExecutionOutput :=
  statusHandler service.

Definition swapPreviewHandler (service : SwapService E) : handler SwapDraftInput SwapPreviewOutput := fun ctx i =>
  validated (SwapDraftInput_Validate i) (wi_RequestID i) (port_Preview service (swapDraft i) ctx) swap_preview_output.
Definition swapCreateHandler (service : SwapService E) : handler SwapDraftInput IntentOutput := fun ctx i =>
  validated (SwapDraftInput_Validate i) (wi_RequestID i) (port_Create service (swapDraft i) ctx) intentOutput.
Definition swapExecuteHandler (service : SwapService E) : handler SwapExecuteInput ExecutionOutput := executeHandler service.
Definition swapStatusHandler (service : SwapService E) : handler SwapStatusInput ExecutionOutput := statusHandler service.

(** autonomy.go: these inputs have no [Validate]. *)
Definition listSchedulesHandler (s : AutonomyPort E) : handler ListSchedulesInput (list ScheduleOutput) := fun ctx i =>
  answer (ls_RequestID i) (port_ListSchedules s ctx) (fmap scheduleOutput).
Definition getScheduleHandler (s : AutonomyPort E) : handler GetScheduleInput ScheduleOutput := fun ctx i =>
  answer (gs_RequestID i) (port_GetSchedule s (gs_ScheduleID i) (gs_Version i) ctx) scheduleOutput.
Definition simulateHandler (s : AutonomyPort E) : handler SimulateScheduleInput DecisionOutput := fun ctx i =>
  answer (ss_RequestID i) (port_SimulateOccurrence s (ss_ScheduleID i) (ss_Version i) (ss_At i) ctx) decision_output.
Definition createScheduleHandler (s : AutonomyPort E) : handler CreateScheduleInput ScheduleOutput := fun ctx i =>
  answer (cs_RequestID i) (port_CreateSchedule s (cs_Schedule i) ctx) scheduleOutput.
Definition controlScheduleHandler (s : AutonomyPort E) : handler ControlScheduleInput ScheduleOutput := fun ctx i =>
  answer (ct_RequestID i) (port_SetScheduleStatus s (ct_ScheduleID i) (ct_Version i) (ct_Status i) ctx) scheduleOutput.
Definition emergencyStopHandler (s : AutonomyPort E) : handler EmergencyStopInput EmergencyStopOutput := fun ctx i =>
  answer (ei_RequestID i)
    (port_SetEmergencyStop s (MkEmergencyStop (ei_Active i) (ei_Scope i) zero_time "" (ei_Reason i)) ctx) stop_output.
End handlers.

(** * Definitions (definitions.go) *)
(** The schema library: inferring the schema of a Go type and resolving it. *)
Class JsonSchema := { schema_For : string -> result unit; schema_Resolve : string -> result unit }.

(** A definition built by [newDefinition]; a call goes to [def_handler] once
    the SDK has decoded its arguments into [def_In].  The schemas themselves and
    the hints that are the same for every tool are left out. *)
Record Definition_ (E : Type) := MkDefinition {
  def_name : string; def_description : string; def_readOnly : bool; def_In : Type; def_Out : Type;
  def_handler : option Context -> def_In -> method E (Reply def_Out)
}.
#[global] Arguments MkDefinition {_} _ _ _ {_ _} _.
#[global] Arguments def_name {_} _.
#[global] Arguments def_description {_} _.
#[global] Arguments def_readOnly {_} _.
#[global] Arguments def_In {_} _.
#[global] Arguments def_Out {_} _.
#[global] Arguments def_handler {_} _ _ _.

Definition CreateIntentName : string := "wizpay.create_intent".
Definition GetIntentName : string := "wizpay.get_intent".
Definition RequestApprovalName : string := "wizpay.request_approval".
Definition GetApprovalName : string := "wizpay.get_approval".
Definition EvaluatePolicyName : string := "wizpay.evaluate_policy".
Definition PrepareExecutionName : string := "wizpay.prepare_execution".
Definition ListSchedulesName : string := "wizpay.autonomy.list_schedules".
Definition GetScheduleName : string := "wizpay.autonomy.get_schedule".
Definition SimulateScheduleName : string := "wizpay.autonomy.simulate".
Definition CreateScheduleName : string := "wizpay.autonomy.create_schedule".
Definition ControlScheduleName : string := "wizpay.autonomy.control_schedule".
Definition EmergencyStopName : string := "wizpay.autonomy.emergency_stop".
Definition SendPreviewName : string := "wizpay.send.preview".
Definition SendCreateIntentName : string := "wizpay.send.create_intent".
Definition SendExecuteName : string := "wizpay.send.execute".
Definition SendStatusName : string := "wizpay.send.status".
Definition PayrollPreviewName : string := "wizpay.payroll.preview".
Definition PayrollCreateIntentName : string := "wizpay.payroll.create_intent".
Definition PayrollExecuteName : string := "wizpay.payroll.execute".
Definition PayrollStatusName : string := "wizpay.payroll.status".
Definition SwapPreviewName : string := "wizpay.swap.preview".
Definition SwapCreateIntentName : string := "wizpay.swap.create_intent".
Definition SwapExecuteName : string := "wizpay.swap.execute".
Definition SwapStatusName : string := "wizpay.swap.status".

Section definitions.
Context {E : Type} `{MapOrder} `{JsonSchema}.

(** [newDefinition[In, Out](...)]; the Go types are named. *)
Definition newDefinition {In Out} (inType outType name description : string) (readOnly : bool)
    (handler : option Context -> In -> method E (Reply Out)) : result (Definition_ E) :=
  do! map_err (errorf_wrap "infer input schema for %s: %w" [name]) (schema_For inType);
  do! map_err (errorf_wrap "resolve input schema for %s: %w" [name]) (schema_Resolve inType);
  do! map_err (errorf_wrap "infer output schema for %s: %w" [name]) (schema_For outType);
  do! map_err (errorf_wrap "resolve output schema for %s: %w" [name]) (schema_Resolve outType);
  Ok (MkDefinition name description readOnly handler).
(** What [newDefinition] builds has its schemas and its registration. *)
Definition Definition_validate (d : Definition_ E) : result unit :=
  fail_if ((def_name d == "") || (def_description d == "")) (errorf1 "incomplete MCP tool definition %q" (def_name d)).

Definition getIntentDefinition (service : IntentPort E) : result (Definition_ E) :=
  newDefinition "GetIntentInput" "GetIntentResponse" GetIntentName
    "Read the safe lifecycle metadata for one authorized intent." true (getIntentHandler service).
Definition getApprovalDefinition (service : ApprovalPort E) : result (Definition_ E) :=
  newDefinition "GetApprovalInput" "GetApprovalResponse" GetApprovalName
    "Read the safe lifecycle metadata for one authorized approval request." true (getApprovalHandler service).

Definition foundationDefinitions (intents : IntentPort E) (approvals : ApprovalPort E) (policies : PolicyPort E)
    (executions : ExecutionPort E) : result (list (Definition_ E)) :=
  let! createIntent := newDefinition "CreateIntentInput" "CreateIntentResponse" CreateIntentName
    "Create a typed, provider-neutral financial intent; this does not approve or execute it." false
    (createIntentHandler intents) in
  let! getIntent := getIntentDefinition intents in
  let! requestApproval := newDefinition "RequestApprovalInput" "RequestApprovalResponse" RequestApprovalName
    "Create an explicit approval request for a frozen intent; this does not approve or execute it." false
    (requestApprovalHandler approvals) in
  let! getApproval := getApprovalDefinition approvals in
  let! evaluatePolicy := newDefinition "EvaluatePolicyInput" "EvaluatePolicyResponse" EvaluatePolicyName
    "Evaluate a referenced policy against an authorized intent; this does not execute the intent." true
    (evaluatePolicyHandler policies) in
  let! prepareExecution := newDefinition "PrepareExecutionInput" "PrepareExecutionResponse" PrepareExecutionName
    "Prepare an immutable execution request from existing authorization references; this never submits or executes it."
    false (prepareExecutionHandler executions) in
  Ok [createIntent; getIntent; requestApproval; getApproval; evaluatePolicy; prepareExecution].

Definition sendDefinitions (service : SendService E) : result (list (Definition_ E)) :=
  let! preview := newDefinition "SendDraftInput" "SendPreviewResponse" SendPreviewName
    "Validate an Arc Mainnet canonical ERC-20 Send without persisting or submitting it." true (sendPreviewHandler service) in
  let! create := newDefinition "SendDraftInput" "SendIntentResponse" SendCreateIntentName
    "Create an immutable typed SEND intent; this does not approve or submit it." false (sendCreateHandler service) in
  let! execute := newDefinition "SendExecuteInput" "SendExecuteResponse" SendExecuteName
    "Prepare execution from an already approved SEND intent; frozen financial fields cannot be overridden." false
    (sendExecuteHandler service) in
  let! status := newDefinition "SendStatusInput" "SendStatusResponse" SendStatusName "Read persisted SEND execution state."
    true (sendStatusHandler service) in
  Ok [preview; create; execute; status].
Definition payrollDefinitions (service : PayrollService E) : result (list (Definition_ E)) :=
  let! preview := newDefinition "PayrollDraftInput" "PayrollPreviewResponse" PayrollPreviewName
    "Validate an Arc Mainnet same-token or canonical cross-token Payroll without persisting or submitting it." true
    (payrollPreviewHandler service) in
  let! create := newDefinition "PayrollDraftInput" "PayrollIntentResponse" PayrollCreateIntentName
    "Create an immutable same-token or canonical cross-token PAYROLL intent; this does not approve or submit it." false
    (payrollCreateHandler service) in
  let! execute := newDefinition "PayrollExecuteInput" "PayrollExecuteResponse" PayrollExecuteName
    "Prepare execution from an already approved PAYROLL intent; frozen financial fields cannot be overridden." false
    (payrollExecuteHandler service) in
  let! status := newDefinition "PayrollStatusInput" "PayrollStatusResponse" PayrollStatusName
    "Read persisted PAYROLL execution state." true (payrollStatusHandler service) in
  Ok [preview; create; execute; status].
Definition swapDefinitions (service : SwapService E) : result (list (Definition_ E)) :=
  let! preview := newDefinition "SwapDraftInput" "SwapPreviewResponse" SwapPreviewName
    "Validate a canonical Arc Mainnet USDC/EURC Swap without persisting or submitting it." true
    (swapPreviewHandler service) in
  let! create := newDefinition "SwapDraftInput" "SwapIntentResponse" SwapCreateIntentName
    "Create an immutable canonical SWAP intent; this does not approve or submit it." false (swapCreateHandler service) in
  let! execute := newDefinition "SwapExecuteInput" "SwapExecuteResponse" SwapExecuteName
    "Prepare execution from an already approved SWAP intent; frozen economics cannot be overridden." false
    (swapExecuteHandler service) in
  let! status := newDefinition "SwapStatusInput" "SwapStatusResponse" SwapStatusName "Read persisted SWAP execution state."
    true (swapStatusHandler service) in
  Ok [preview; create; execute; status].
Definition autonomyDefinitions (service : option (AutonomyPort E)) : result (list (Definition_ E)) :=
  match service with
  | None => Err (errorf "autonomy service is required")
  | Some s =>
      let! list := newDefinition "ListSchedulesInput" "ListSchedulesResponse" ListSchedulesName
        "List authenticated user's bounded autonomous schedules." true (listSchedulesHandler s) in
      let! get := newDefinition "GetScheduleInput" "ScheduleResponse" GetScheduleName
        "Read one authenticated user's autonomous schedule metadata." true (getScheduleHandler s) in
      let! simulate := newDefinition "SimulateScheduleInput" "SimulateScheduleResponse" SimulateScheduleName
        "Simulate an autonomous occurrence without financial mutation or provider calls." true (simulateHandler s) in
      let! create := newDefinition "CreateScheduleInput" "ScheduleResponse" CreateScheduleName
        "Create one typed, bounded autonomous schedule." false (createScheduleHandler s) in
      let! control := newDefinition "ControlScheduleInput" "ScheduleResponse" ControlScheduleName
        "Pause, resume, or revoke a schedule by creating a new version." false (controlScheduleHandler s) in
      let! stop := newDefinition "EmergencyStopInput" "EmergencyStopResponse" EmergencyStopName
        "Activate or deactivate the authenticated tenant's autonomous emergency stop." false (emergencyStopHandler s) in
      Ok [list; get; simulate; create; control; stop]
  end.

(** * Registries (registry.go, oauth_registry.go) *)
Abbreviation Registry := (gmap string (Definition_ E)).

Definition Registry_Register (r : Registry) (d : Definition_ E) : result Registry :=
  do! Definition_validate d;
  do! fail_if (isSome (r !! def_name d)) (errorf1 "duplicate MCP tool %q" (def_name d));
  Ok (<[def_name d := d]> r).
Definition NewRegistry (definitions : list (Definition_ E)) : result Registry :=
  fold_result Registry_Register ∅ definitions.
Definition Registry_Lookup (r : Registry) (name : string) : option (Definition_ E) := r !! name.
Definition Registry_Definitions (r : Registry) : list (Definition_ E) := sort_by def_name ((map_to_list r).*2).
(** [Tools] is the same list, at the interface [Tool]. *)
Definition Registry_Tools (r : Registry) : list (Definition_ E) := Registry_Definitions r.

Definition NewFoundationRegistry (bundle : Bundle E) : result Registry :=
  match bdl_Intents bundle, bdl_Approvals bundle, bdl_Policies bundle, bdl_Executions bundle with
  | Some intents, Some approvals, Some policies, Some executions =>
      let! definitions := foundationDefinitions intents approvals policies executions in NewRegistry definitions
  | _, _, _, _ => Err (errorf "all MCP domain services are required")
  end.
Definition NewAutonomyRegistry (service : option (AutonomyPort E)) : result Registry :=
  let! definitions := autonomyDefinitions service in NewRegistry definitions.
Definition NewSendRegistry (service : option (SendService E)) : result Registry :=
  match service with
  | None => Err (errorf "send service is required")
  | Some s => let! definitions := sendDefinitions s in NewRegistry definitions
  end.
Definition NewPayrollRegistry (service : option (PayrollService E)) : result Registry :=
  match service with
  | None => Err (errorf "payroll service is required")
  | Some s => let! definitions := payrollDefinitions s in NewRegistry definitions
  end.
Definition NewSwapRegistry (service : option (SwapService E)) : result Registry :=
  match service with
  | None => Err (errorf "swap service is required")
  | Some s => let! definitions := swapDefinitions s in NewRegistry definitions
  end.
Definition NewOAuthReadOnlyRegistry (intents : option (IntentPort E)) (approvals : option (ApprovalPort E)) : result Registry :=
  match intents, approvals with
  | Some intents, Some approvals =>
      let! getIntent := getIntentDefinition intents in
      let! getApproval := getApprovalDefinition approvals in
      NewRegistry [getIntent; getApproval]
  | _, _ => Err (errorf "OAuth read services are required")
  end.
End definitions.

(** * What registries hold *)
Section registries.
Context {E : Type} `{MapOrder} `{JsonSchema}.

Lemma newDefinition_ok {In Out} inType outType name description readOnly
    (handler : option Context -> In -> method E (Reply Out)) d :
  newDefinition inType outType name description readOnly handler = Ok d -> d = MkDefinition name description readOnly handler.
Proof. unfold newDefinition. intros Hd. do 4 (apply rbind_ok in Hd as ([] & _ & Hd)). by injection Hd. Qed.

(** The definitions registered so far, each under its name. *)
Definition holds (ds : list (Definition_ E)) (r : gmap string (Definition_ E)) : Prop :=
  forall name d, r !! name = Some d <-> d ∈ ds /\ def_name d = name.
Lemma NewRegistry_holds ds r : NewRegistry ds = Ok r -> holds ds r.
Proof.
  unfold NewRegistry. apply fold_result_inv.
  - intros name d. rewrite lookup_empty. split; [done|]. by intros [?%not_elem_of_nil _].
  - intros seen d r0 r1 Hh Hr name x. unfold Registry_Register in Hr. apply rbind_ok in Hr as ([] & _ & Hr).
    apply rbind_ok in Hr as ([] & Hn & [= <-]). apply fail_if_ok in Hn. rewrite elem_of_app, list_elem_of_singleton.
    destruct (decide (name = def_name d)) as [->|Hne].
    + rewrite lookup_insert_eq. split; [intros [= <-]; auto|]. intros [[Hx | ->] Ex]; [|done].
      assert (r0 !! def_name d = Some x) as Hin by (by apply Hh). by rewrite Hin in Hn.
    + rewrite lookup_insert_ne by done. rewrite (Hh name x). split; [naive_solver|]. intros [[Hx | ->] Ex]; [done|congruence].
Qed.
Lemma Registry_Tools_elem (ds : list (Definition_ E)) r d : NewRegistry ds = Ok r -> d ∈ Registry_Tools r <-> d ∈ ds.
Proof.
  intros Hr%NewRegistry_holds. unfold Registry_Tools, Registry_Definitions. rewrite sort_by_perm, list_elem_of_fmap. split.
  - intros ([name x] & -> & Hx%elem_of_map_to_list). by apply Hr in Hx as [? _].
  - intros Hd. exists (def_name d, d). split; [done|]. by apply elem_of_map_to_list, Hr.
Qed.
End registries.

(** A property of the definitions a component builds, one goal for each. *)
Ltac each_definition :=
  let ds := fresh "ds" in let Hds := fresh "Hds" in
  intros ds Hds; repeat (apply rbind_ok in Hds as (? & ?%newDefinition_ok & Hds)); injection Hds as <-; subst;
  repeat (apply Forall_cons; split); [..|by apply Forall_nil].

(** * Replies *)
Section replies.
Context {E : Type}.

Lemma answer_keeps {A B} (R : relation E) `{!PreOrder R} id (call : method E (result A)) (out : A -> B) :
  keeps R call -> keeps R (answer id call out).
Proof. intros Hc. apply keeps_mbind; [done|]. by intros []. Qed.
Lemma validated_keeps {A B} (R : relation E) `{!PreOrder R} check id (call : method E (result A)) (out : A -> B) :
  keeps R call -> keeps R (validated check id call out).
Proof. intros Hc. destruct check; [by apply answer_keeps|done]. Qed.
Lemma answer_safe {A B} (R : relation E) `{!PreOrder R} id (call : method E (result A)) (out : A -> B) e :
  safe R call (fun _ _ => True) e -> safe R (answer id call out) (fun _ _ => True) e.
Proof. intros Hc. eapply safe_mbind, safe_impl, Hc. by intros [] ? _. Qed.
Lemma validated_safe {A B} (R : relation E) `{!PreOrder R} check id (call : method E (result A)) (out : A -> B) e :
  safe R call (fun _ _ => True) e -> safe R (validated check id call out) (fun _ _ => True) e.
Proof. intros Hc. destruct check; [by apply answer_safe|done]. Qed.
(** A rejection does not say which check failed. *)
Lemma validated_rejection {A B} check check' id (call : method E (result A)) (out : A -> B) :
  is_ok check = is_ok check' -> validated check id call out = validated check' id call out.
Proof. by destruct check, check'. Qed.
End replies.

(** A registry of proper, distinct definitions: it is built, and lists them by
    name. *)
Section building.
Context {E : Type} `{MapOrder} `{JsonSchema}.
Implicit Types (ds : list (Definition_ E)).

Lemma NewRegistry_builds ds : Forall (fun d => Definition_validate d = Ok tt) ds -> NoDup (def_name <$> ds) ->
  exists r, NewRegistry ds = Ok r.
Proof.
  intros Hv Hnd. unfold NewRegistry. generalize (∅ : gmap string (Definition_ E)), (fun (d : Definition_ E) (_ : d ∈ ds) => lookup_empty (M := gmap string) (A := Definition_ E) (def_name d)).
  induction ds as [|d ds IH]; intros r Hr; cbn; [eauto|]. apply Forall_cons in Hv as [Hd Hv]. apply NoDup_cons in Hnd as [Hnin Hnd].
  unfold Registry_Register at 1. rewrite Hd. cbn [rbind]. rewrite (Hr d) by constructor. cbn [isSome fail_if rbind].
  apply IH; [done..|]. intros x Hx. rewrite lookup_insert_ne; [apply Hr; by constructor|]. intros Ex. apply Hnin.
  rewrite Ex. by apply list_elem_of_fmap_2.
Qed.
Lemma Registry_Tools_sorted ds r : NewRegistry ds = Ok r -> NoDup (def_name <$> ds) -> Registry_Tools r = sort_by def_name ds.
Proof.
  intros Hr Hnd. pose proof (NewRegistry_holds ds r Hr) as Hh. symmetry. apply sort_by_unique; [done|].
  apply NoDup_Permutation.
  - by eapply NoDup_fmap_1.
  - apply (NoDup_fmap_1 def_name). assert (def_name <$> (map_to_list r).*2 = (map_to_list r).*1) as ->; [|apply NoDup_fst_map_to_list].
    rewrite <- list_fmap_compose. apply list_fmap_ext. intros i [n x] Hi%list_elem_of_lookup_2%elem_of_map_to_list.
    by apply Hh in Hi as [_ <-].
  - intros d. rewrite <- (Registry_Tools_elem ds r d Hr). unfold Registry_Tools, Registry_Definitions. by rewrite sort_by_perm.
Qed.
Lemma sort_by_names ds : def_name <$> sort_by def_name ds = sort_strings (def_name <$> ds).
Proof.
  apply (StronglySorted_unique_strong String.le).
  - intros x y _ _. apply (anti_symm String.le).
  - pose proof (sort_by_sorted def_name ds) as Hs. induction Hs as [|d l Hs IH Hd]; cbn; constructor; [done|].
    by apply Forall_fmap.
  - apply (sort_by_sorted (fun s : string => s)).
  - unfold sort_strings. by rewrite !sort_by_perm.
Qed.
(** Its names, in order. *)
Definition names_sorted ds (names : list string) : Prop :=
  forallb (fun d => is_ok (Definition_validate d)) ds = true /\ NoDup (def_name <$> ds) /\ sort_strings (def_name <$> ds) = names.
Lemma NewRegistry_names ds names : names_sorted ds names ->
  exists r, NewRegistry ds = Ok r /\ def_name <$> Registry_Tools r = names /\ forall d, d ∈ Registry_Tools r <-> d ∈ ds.
Proof.
  intros (Hv & Hnd & Hn). destruct (NewRegistry_builds ds) as [r Hr]; [|done|].
  - apply Forall_forall. intros d Hd%list_elem_of_In. rewrite forallb_forall in Hv. apply Hv, is_ok_true in Hd as [[] Hd]. done.
  - exists r. split; [done|]. split; [|by intros d; apply Registry_Tools_elem].
    by rewrite (Registry_Tools_sorted ds r Hr Hnd), sort_by_names.
Qed.
End building.
