(* ===== verification/ToolServer.v ===== *)
(** The MCP server: its registration of tools (internal/mcp/server.go), the
    services and registrations of the process (cmd/server/main.go), and what
    calls of its tools can do to the stored world. *)
From S2P Require Import Prelude GoStrings GoTime AppErrors Contracts IntentTypes IntentParams Intents Wallet Auth Approvals.
From S2P Require Import Policies Evaluator Execution Storage Database RuntimeEffects Autonomy AutonomyRuntime Statements.
From S2P Require Import ExecutionStore Sessions Services Foundation Repositories AutonomyStore IntentService ApprovalService.
From S2P Require Import ExecutionService Authority AuthoritySessions AutonomyService ToolInputs ToolHandlers.
Open Scope string_scope.
Open Scope Z_scope.
Open Scope go_scope.

(** * The server (internal/mcp/server.go) *)
Section registration.
Context {E : Type}.

(** The names seen and the tools of the SDK server, in order of registration. *)
Record registering := MkRegistering { rg_seen : gset string; rg_sdk : list (Definition_ E) }.
(** [Definition.Register], at the SDK's [AddTool]. *)
Definition Definition_Register (d : Definition_ E) (sdk : list (Definition_ E)) : result (list (Definition_ E)) :=
  do! Definition_validate d;
  Ok (app sdk [d]).
Definition register_tool (s : registering) (registration : option (Definition_ E)) : result registering :=
  match registration with
  | None => Err (errorf "MCP tool registration must not be nil")
  | Some d =>
      let name := TrimSpace (def_name d) in
      do! fail_if (name == "") (errorf "MCP tool name is required");
      do! fail_if (TrimSpace (def_description d) == "") (errorf1 "MCP tool %q description is required" name);
      do! fail_if (bool_decide (name ∈ rg_seen s)) (errorf1 "duplicate MCP tool %q" name);
      let! sdk := map_err (errorf_wrap "register MCP tool %q: %w" [name]) (Definition_Register d (rg_sdk s)) in
      Ok (MkRegistering ({[ name ]} ∪ rg_seen s) sdk)
  end.
(** [logger] tells whether one was given. *)
Definition NewServer (logger : bool) (registrations : list (option (Definition_ E))) : result (list (Definition_ E)) :=
  do! fail_if (negb logger) (errorf "MCP logger is required");
  let! s := fold_result register_tool (MkRegistering ∅ []) registrations in
  Ok (rg_sdk s).
End registration.

(** * The process (cmd/server/main.go) *)
(** A part does not see the writes to another. *)
Class Apart (D1 D2 E : Type) `{Part D1 E} `{Part D2 E} : Prop :=
  part_with_other (d : D2) (e : E) : part (D := D1) (with_part d e) = part e.

Section process.
Context {E : Type} `{Part Foundation E} `{Part Tables E}.
Context `{EthCommon} `{UnicodeTables} `{PgTimestamp} `{TimeZones} `{PgAmount} `{MapOrder} `{JsonSchema}.
(** The readings of [time.Now] during one call, and [cfg.AutonomousEnabled]. *)
Context (now : nat -> Time) (autonomous : bool).

Definition persisted_intents : IntentService := MkIntentService true true true true true.
Definition persisted_approvals : ApprovalService := MkApprovalService true true true true true true.
Definition persisted_foundation : FoundationService := MkFoundationService true.
(** No authority is wired: [Authority intentionally remains nil]. *)
Definition persisted_payments : PaymentService := MkPaymentService (Some persisted_intents) true true true true None.
Definition persisted_autonomy : AutonomyService := MkAutonomyService true true true true true autonomous.

Definition intents_port : IntentPort E := MkIntentPort _
  (fun command ctx => on (CreateIntent persisted_intents ctx now command))
  (fun id ctx => on (GetIntent persisted_intents ctx id)).
Definition approvals_port : ApprovalPort E := MkApprovalPort _
  (fun limit cursor status ctx => on (ListApprovals persisted_approvals ctx limit cursor status))
  (fun intentID ctx => on (RequestApproval persisted_approvals ctx now intentID))
  (fun id ctx => on (GetApproval persisted_approvals ctx id))
  (fun id decision ctx => on (DecideApproval persisted_approvals ctx now id decision))
  (fun id intentID bindingID version ctx => on (AuthorizeExecution persisted_approvals ctx now id intentID bindingID version)).
Definition policies_port : PolicyPort E := MkPolicyPort _
  (fun intentID policyID version stage ctx => on (EvaluatePolicy persisted_foundation ctx now intentID policyID version stage)).
Definition prepare ctx (intentID approvalID policyID : string) (version : Z) : call Request :=
  PrepareExecution persisted_foundation ctx now intentID approvalID policyID version.
Definition executions_port : ExecutionPort E := MkExecutionPort _
  (fun intentID approvalID policyID version ctx => on (prepare ctx intentID approvalID policyID version)).
(** [newFoundationBundle] *)
Definition newFoundationBundle : Bundle E :=
  MkBundle (Some intents_port) (Some approvals_port) (Some policies_port) (Some executions_port).
Definition send_port : SendService E := MkPaymentPort _ _ _
  (fun draft ctx => on (PreviewSend persisted_payments ctx now draft))
  (fun draft ctx => on (CreateSendIntent persisted_payments ctx now draft))
  (fun intentID approvalID policyID version ctx =>
     on (ExecuteSend persisted_payments ctx intentID (prepare ctx intentID approvalID policyID version)))
  (fun id ctx => on (SendStatus persisted_payments ctx id)).
Definition payroll_port : PayrollService E := MkPaymentPort _ _ _
  (fun draft ctx => on (PreviewPayroll persisted_payments ctx now draft))
  (fun draft ctx => on (CreatePayrollIntent persisted_payments ctx now draft))
  (fun intentID approvalID policyID version ctx =>
     on (ExecutePayroll persisted_payments ctx intentID (prepare ctx intentID approvalID policyID version)))
  (fun id ctx => on (PayrollStatus persisted_payments ctx id)).
Definition swap_port : SwapService E := MkPaymentPort _ _ _
  (fun draft ctx => on (PreviewSwap persisted_payments ctx now draft))
  (fun draft ctx => on (CreateSwapIntent persisted_payments ctx now draft))
  (fun intentID approvalID policyID version ctx =>
     on (ExecuteSwap persisted_payments ctx intentID (prepare ctx intentID approvalID policyID version)))
  (fun id ctx => on (SwapStatus persisted_payments ctx id)).
Definition autonomy_port : AutonomyPort E := MkAutonomyPort _
  (fun ctx => ListSchedules persisted_autonomy ctx)
  (fun id version ctx => GetSchedule persisted_autonomy ctx id version)
  (fun id version at_ ctx => SimulateOccurrence persisted_autonomy ctx id version at_ (now 0%nat))
  (fun value ctx => CreateSchedule persisted_autonomy ctx now value)
  (fun id version status ctx => SetScheduleStatus persisted_autonomy ctx now id version status)
  (fun stop ctx => SetEmergencyStop persisted_autonomy ctx now stop).

(** What the process registers where authentication is required; elsewhere it
    registers nothing. *)
Definition registrations (oauthEnabled : bool) : result (list (Definition_ E)) :=
  let! foundation := NewFoundationRegistry newFoundationBundle in
  let! send := NewSendRegistry (Some send_port) in
  let! payroll := NewPayrollRegistry (Some payroll_port) in
  let! swap := NewSwapRegistry (Some swap_port) in
  let! autonomy := NewAutonomyRegistry (Some autonomy_port) in
  if oauthEnabled then
    let! read := NewOAuthReadOnlyRegistry (bdl_Intents newFoundationBundle) (bdl_Approvals newFoundationBundle) in
    Ok (Registry_Tools read)
  else
    Ok (concat [Registry_Tools foundation; Registry_Tools send; Registry_Tools payroll; Registry_Tools swap;
                Registry_Tools autonomy]).
Definition server_tools (authRequired oauthEnabled : bool) : result (list (Definition_ E)) :=
  let! tools := if authRequired then registrations oauthEnabled else Ok [] in
  NewServer true (Some <$> tools).
End process.

(** * What is registered *)
Lemma NewServer_registers {E} logger (registrations : list (option (Definition_ E))) tools :
  NewServer logger registrations = Ok tools -> registrations = Some <$> tools.
Proof.
  unfold NewServer. intros Hs. apply rbind_ok in Hs as ([] & _ & Hs). apply rbind_ok in Hs as (s & Hs & [= <-]). revert Hs.
  apply (fold_result_inv (fun seen s => seen = Some <$> rg_sdk s)); [done|].
  intros seen x s0 s1 -> Hr. destruct x as [d|]; [|done]. cbn in Hr. do 3 (apply rbind_ok in Hr as ([] & _ & Hr)).
  apply rbind_ok in Hr as (sdk & Hsdk & [= <-]). apply map_err_ok in Hsdk. unfold Definition_Register in Hsdk.
  apply rbind_ok in Hsdk as ([] & _ & [= <-]). cbn. by rewrite fmap_app.
Qed.

Section registered.
Context {E : Type} `{Part Foundation E} `{Part Tables E}.
Context `{EthCommon} `{UnicodeTables} `{PgTimestamp} `{TimeZones} `{PgAmount} `{MapOrder} `{JsonSchema}.
Context (now : nat -> Time) (autonomous : bool).

(** A property of every tool: it holds of what each component defines. *)
Lemma every_tool (P : Definition_ E -> Prop) auth oauth tools :
  server_tools now autonomous auth oauth = Ok tools ->
  (forall ds, foundationDefinitions (intents_port now) (approvals_port now) (policies_port now) (executions_port now) = Ok ds -> Forall P ds) ->
  (forall ds, sendDefinitions (send_port now) = Ok ds -> Forall P ds) ->
  (forall ds, payrollDefinitions (payroll_port now) = Ok ds -> Forall P ds) ->
  (forall ds, swapDefinitions (swap_port now) = Ok ds -> Forall P ds) ->
  (forall ds, autonomyDefinitions (Some (autonomy_port now autonomous)) = Ok ds -> Forall P ds) ->
  Forall P tools.
Proof.
  unfold server_tools. intros Ht Hf Hs Hp Hw Ha. apply rbind_ok in Ht as (regs & Hregs & Ht).
  apply NewServer_registers, (inj (fmap Some)) in Ht as ->. destruct auth; [|by injection Hregs as <-].
  assert (forall ds r, NewRegistry ds = Ok r -> Forall P ds -> Forall P (Registry_Tools r)) as Hreg.
  { intros ds r Hr. rewrite !Forall_forall. intros Hall d Hd. by apply Hall, (Registry_Tools_elem ds r). }
  unfold registrations in Hregs. apply rbind_ok in Hregs as (f & Hf' & Hregs). apply rbind_ok in Hregs as (s & Hs' & Hregs).
  apply rbind_ok in Hregs as (p & Hp' & Hregs). apply rbind_ok in Hregs as (w & Hw' & Hregs).
  apply rbind_ok in Hregs as (a & Ha' & Hregs). apply rbind_ok in Hf' as (dsf & Ef & Hf'). apply rbind_ok in Hs' as (dss & Es & Hs').
  apply rbind_ok in Hp' as (dsp & Ep & Hp'). apply rbind_ok in Hw' as (dsw & Ew & Hw'). apply rbind_ok in Ha' as (dsa & Ea & Ha').
  destruct oauth.
  - apply rbind_ok in Hregs as (r & Hr & [= <-]). apply rbind_ok in Hr as (d1 & E1 & Hr). apply rbind_ok in Hr as (d2 & E2 & Hr).
    apply (Hreg _ _ Hr). pose proof (Hf _ Ef) as Hall. unfold foundationDefinitions in Ef.
    rewrite E1, E2 in Ef. apply rbind_ok in Ef as (d0 & _ & Ef). cbn [rbind] in Ef. do 3 (apply rbind_ok in Ef as (? & _ & Ef)).
    injection Ef as <-. rewrite !Forall_cons in *. naive_solver.
  - injection Hregs as <-. cbn. rewrite !Forall_app. split_and!; try done; eauto.
Qed.
End registered.

(** * Methods that only read *)
Section reading.
Context `{EthCommon} `{UnicodeTables} `{PgTimestamp}.

Lemma find_row_reads {Y A} (q : Foundation -> option Y) missing (restore : Y -> result A) :
  keeps eq (find_row (select_row q) missing restore).
Proof. apply keeps_find_row, _. Qed.
Lemma FindIntentByID_reads scope id : keeps eq (Repositories.FindIntentByID scope id).
Proof. apply keeps_mtry; [done|]. intros _. apply find_row_reads. Qed.
Lemma FindApprovalByID_reads scope id : keeps eq (Repositories.FindApprovalByID scope id).
Proof. apply keeps_mtry; [done|]. intros _. apply find_row_reads. Qed.
Lemma StoredBindingByID_reads scope id : keeps eq (StoredBindingByID scope id).
Proof. apply keeps_mtry; [done|]. intros _. apply find_row_reads. Qed.
Lemma FindExecutionByID_reads scope id : keeps eq (FindExecutionByID_ scope id).
Proof.
  unfold FindExecutionByID_, FindExecutionByID. destruct (Scope_Validate scope); cbn -[restored]; [|done]. split.
  - intros f y f' Hok. unfold on_runtime in Hok. apply rbind_ok in Hok as ([y' db] & Hok & [= <- <-]).
    apply read_requests in Hok. cbn in *. subst. by destruct f.
  - intros [[[i x] r]|e]; cbn; [done|]. by destruct (errors_Is e ErrNoRows).
Qed.
#[local] Hint Resolve FindIntentByID_reads FindApprovalByID_reads StoredBindingByID_reads FindExecutionByID_reads : keeps.

Lemma GetIntent_reads s ctx id : keeps eq (GetIntent s ctx id).
Proof. unfold GetIntent. elsewhere_tac. Qed.
Lemma GetApproval_reads s ctx id : keeps eq (GetApproval s ctx id).
Proof. unfold GetApproval. elsewhere_tac. Qed.
Lemma payment_wallet_reads p ctx what id : keeps eq (payment_wallet p ctx what id).
Proof. unfold payment_wallet. elsewhere_tac. Qed.
#[local] Hint Resolve payment_wallet_reads : keeps.
Lemma payment_status_reads p ctx what kind other id : keeps eq (payment_status p ctx what kind other id).
Proof. unfold payment_status. elsewhere_tac. Qed.
Lemma PreviewSend_reads p ctx now draft : keeps eq (PreviewSend p ctx now draft).
Proof. unfold PreviewSend. elsewhere_tac. Qed.
Lemma PreviewSwap_reads p ctx now draft : keeps eq (PreviewSwap p ctx now draft).
Proof. unfold PreviewSwap. elsewhere_tac. Qed.
Lemma PreviewPayroll_reads p ctx now draft : keeps eq (PreviewPayroll p ctx now draft).
Proof. unfold PreviewPayroll. elsewhere_tac. Qed.
End reading.

(** On a larger world. *)
Lemma keeps_on_other {D1 D2 E A} `{Apart D1 D2 E} (R : relation D1) `{!PreOrder R} (m : method D2 A) :
  keeps (on_part R) (on m).
Proof.
  induction m as [a|Y q k IH]; cbn; [done|]. split; [|intros r; apply IH].
  intros e y e'. destruct (q (part e)) as [[y' d]|] eqn:Eq; [|done]. intros [= <- <-]. red. by rewrite part_with_other.
Qed.
Lemma safe_on {D E A} `{PartLaws D E} (R : relation D) (m : method D A) e :
  safe R m (fun _ _ => True) (part e) -> safe (on_part R) (on m) (fun _ _ => True) e.
Proof.
  revert e. induction m as [a|Y q k IH]; intros e; cbn; [done|]. intros Hm e1 H1. destruct (Hm _ H1) as [He Ho].
  split; [intros x; apply IH, He|]. intros y e2 Hq. destruct (q (part e1)) as [[y' d]|] eqn:Eq; [|done].
  injection Hq as <- <-. destruct (Ho _ _ eq_refl) as (HR & Hy & Hl). unfold on_part.
  rewrite part_with. split_and!; [done|apply IH; by rewrite part_with|intros x; apply IH; rewrite part_with; apply Hl].
Qed.

(** * What tools can do *)
Section tools.
Context {E : Type} `{PartLaws Foundation E} `{PartLaws Tables E} `{!Apart Foundation Tables E}.
Context `{EthCommon} `{UnicodeTables} `{PgTimestamp} `{TimeZones} `{PgAmount} `{MapOrder} `{JsonSchema}.

(** ** Reading *)
(** Read-only in name: a policy evaluation is stored. *)
Definition reads_only (d : Definition_ E) : Prop :=
  def_readOnly d = true -> def_name d <> EvaluatePolicyName -> forall ctx i, keeps eq (def_handler d ctx i).
Lemma service_reads {A B} check id (call : method Foundation (result A)) (out : A -> B) :
  keeps eq call -> keeps eq (validated (E := E) check id (on call) out).
Proof. intros Hc. apply validated_keeps; [exact _|by apply keeps_eq_on]. Qed.
Lemma LoadAutonomySchedule_reads scope id version : keeps eq (LoadAutonomySchedule scope id version).
Proof. unfold LoadAutonomySchedule. keeps_tac. Qed.
Lemma ListAutonomySchedules_reads scope : keeps eq (ListAutonomySchedules scope).
Proof.
  apply keeps_mtry; [done|intros _]. apply keeps_mtry; [by apply keeps_mapped, keeps_select, _|].
  intros keys. generalize (@nil Schedule) as shown. induction keys as [|[id version] keys IH]; intros shown; cbn; [done|].
  apply keeps_mtry; [apply LoadAutonomySchedule_reads|auto].
Qed.
Lemma ListSchedules_reads s ctx : keeps eq (ListSchedules (E := E) s ctx).
Proof. apply keeps_mtry; [done|]. intros scope. apply keeps_eq_on, ListAutonomySchedules_reads. Qed.
Lemma GetSchedule_reads s ctx id version : keeps eq (GetSchedule (E := E) s ctx id version).
Proof. apply keeps_mtry; [done|]. intros scope. apply keeps_eq_on, LoadAutonomySchedule_reads. Qed.
Lemma SimulateOccurrence_reads s ctx id version at_ created :
  keeps eq (SimulateOccurrence (E := E) s ctx id version at_ created).
Proof.
  apply keeps_mtry; [done|]. intros scope. apply keeps_mtry; [apply keeps_eq_on, LoadAutonomySchedule_reads|done].
Qed.
#[local] Hint Resolve GetIntent_reads GetApproval_reads PreviewSend_reads PreviewSwap_reads PreviewPayroll_reads
  payment_status_reads : keeps.
Lemma tools_read now autonomous auth oauth tools :
  server_tools now autonomous auth oauth = Ok tools -> Forall reads_only tools.
Proof.
  intros Ht. eapply every_tool; [exact Ht|each_definition..]; intros Hro Hne ctx i; try done.
  all: first [apply service_reads|apply answer_keeps; [exact _|]]; first [solve [auto with keeps]|apply payment_status_reads
    |apply ListSchedules_reads|apply GetSchedule_reads|apply SimulateOccurrence_reads].
Qed.

(** The read allowlist of OAuth. *)
Lemma oauth_tools now autonomous auth tools : server_tools now autonomous auth true = Ok tools ->
  Forall (fun d => def_readOnly d = true /\ def_name d <> EvaluatePolicyName) tools.
Proof.
  unfold server_tools. intros Ht. apply rbind_ok in Ht as (regs & Hregs & Ht).
  apply NewServer_registers, (inj (fmap Some)) in Ht as ->. destruct auth; [|by injection Hregs as <-].
  unfold registrations in Hregs. do 5 (apply rbind_ok in Hregs as (? & _ & Hregs)).
  apply rbind_ok in Hregs as (r & Hr & [= <-]). apply rbind_ok in Hr as (d1 & ->%newDefinition_ok & Hr).
  apply rbind_ok in Hr as (d2 & ->%newDefinition_ok & Hr). apply Forall_forall. intros d Hd.
  apply (Registry_Tools_elem _ _ d Hr) in Hd. by apply elem_of_cons in Hd as [->| ->%list_elem_of_singleton].
Qed.

(** [C8] Reading changes nothing: whatever becomes of its statements, a call of
    a tool that is announced as read-only, other than the policy evaluation,
    leaves the stored world exactly as it was; in OAuth mode this is so of every
    tool the server has. *)
Theorem read_only_tools_change_nothing (now : nat -> Time) (autonomous auth oauth : bool) (tools : list (Definition_ E))
    (d : Definition_ E) (ctx : option Context) (i : def_In d) (faults : list fate) (world : E)
    (Ht : server_tools now autonomous auth oauth = Ok tools) (Hd : d ∈ tools)
    (Hro : oauth = true \/ (def_readOnly d = true /\ def_name d <> EvaluatePolicyName)) :
  snd (run (def_handler d ctx i) (MkTurn Datatypes.id <$> faults) world) = world.
Proof.
  assert (def_readOnly d = true /\ def_name d <> EvaluatePolicyName) as [Hr Hn].
  { destruct Hro as [->|]; [|done]. apply oauth_tools in Ht. rewrite Forall_forall in Ht. by apply Ht. }
  apply tools_read in Ht. rewrite Forall_forall in Ht. symmetry.
  apply (run_keeps eq _ _ world (Ht d Hd Hr Hn ctx i)). apply Forall_fmap, Forall_true. by intros f w.
Qed.

(** ** Executing payments *)
Definition execute_names : list string := [SendExecuteName; PayrollExecuteName; SwapExecuteName].
Definition fails_closed (d : Definition_ E) : Prop := def_name d ∈ execute_names -> forall ctx i,
  exists e, def_handler d ctx i = Return (failed e) /\ (te_Code e = CodeValidationError \/ te_Code e = CodeCapabilityUnavailable).
Lemma executeHandler_closed {D P} (service : PaymentPort E D P) ctx i message :
  (forall intentID approvalID policyID version, port_Execute service intentID approvalID policyID version ctx
     = Return (Err (AppErrors.New CodeCapabilityUnavailable message false true true))) ->
  exists e, executeHandler service ctx i = Return (failed e) /\
    (te_Code e = CodeValidationError \/ te_Code e = CodeCapabilityUnavailable).
Proof.
  intros Hp. unfold executeHandler, validated. destruct (PrepareExecutionInput_Validate i).
  - rewrite Hp. eexists. split; [done|auto].
  - eexists. split; [done|auto].
Qed.
Lemma tools_fail_closed now autonomous auth oauth tools :
  server_tools now autonomous auth oauth = Ok tools -> Forall fails_closed tools.
Proof.
  intros Ht. eapply every_tool; [exact Ht|each_definition..]; intros Hn ctx i;
    try (exfalso; repeat (apply elem_of_cons in Hn as [Hn|Hn]; [discriminate Hn|]); by apply not_elem_of_nil in Hn).
  all: by eapply executeHandler_closed.
Qed.

(** The execute tools fail closed: no authority is wired, so a call of the
    send, payroll or swap execute tool, whoever makes it and with whatever
    input, is answered with an error that says the input is invalid or the
    capability unavailable, before any statement reaches the databases. *)
Theorem execute_tools_fail_closed (now : nat -> Time) (autonomous auth oauth : bool) (tools : list (Definition_ E))
    (d : Definition_ E) (ctx : option Context) (i : def_In d) (turns : list (turn E)) (world : E)
    (Ht : server_tools now autonomous auth oauth = Ok tools) (Hd : d ∈ tools) (Hname : def_name d ∈ execute_names) :
  exists e, run (def_handler d ctx i) turns world = (failed e, world) /\
    (te_Code e = CodeValidationError \/ te_Code e = CodeCapabilityUnavailable).
Proof.
  apply tools_fail_closed in Ht. rewrite Forall_forall in Ht. destruct (Ht d Hd Hname ctx i) as (e & -> & He). by exists e.
Qed.

(** ** Deciding *)
(** What is possible where nobody decides or confirms. *)
Definition undecided : relation Foundation := advances (fun _ _ _ _ => False) (fun _ _ _ => False).
#[local] Instance undecided_preorder : PreOrder undecided.
Proof. apply _. Qed.
Definition undeciding (d : Definition_ E) : Prop := forall ctx i e, trimmed (part e) ->
  safe (on_part undecided) (def_handler d ctx i) (fun _ _ => True) e.

Lemma validated_undecided {A B} check id (call : method Foundation (result A)) (out : A -> B) (e : E) :
  safe undecided call (fun _ _ => True) (part e) ->
  safe (on_part undecided) (validated check id (on call) out) (fun _ _ => True) e.
Proof. intros Hc. apply validated_safe; [exact _|by apply safe_on]. Qed.
Lemma elsewhere_undecided {A} (m : method Foundation A) db : keeps elsewhere m -> safe undecided m (fun _ _ => True) db.
Proof. intros Hm. by apply safe_keeps, keeps_elsewhere. Qed.
Lemma PrepareExecution_undecided ctx now intentID approvalID policyID version db : trimmed db ->
  safe undecided (prepare now ctx intentID approvalID policyID version) (fun _ _ => True) db.
Proof. intros Ht. by eapply safe_impl, safe_PrepareExecution. Qed.

(** The autonomy methods write to the other part, and audit. *)
Lemma on_tables_elsewhere {A} (m : method Tables A) : keeps (on_part (E := E) elsewhere) (on m).
Proof. apply keeps_on_other, _. Qed.
Lemma audit_elsewhere scope record : keeps (on_part (E := E) elsewhere) (AppendAudit scope record).
Proof. apply keeps_on, StoreAudit_elsewhere. Qed.
Lemma binding_elsewhere scope id : keeps (on_part (E := E) elsewhere) (Services.FindBindingByID scope id).
Proof. apply keeps_on, StoredBindingByID_elsewhere. Qed.
#[local] Hint Resolve on_tables_elsewhere audit_elsewhere binding_elsewhere : keeps.
Lemma autonomy_audit_elsewhere s scope type id previous next at_ :
  keeps (on_part (E := E) elsewhere) (autonomy_audit s scope type id previous next at_).
Proof. unfold autonomy_audit. elsewhere_tac. Qed.
#[local] Hint Resolve autonomy_audit_elsewhere : keeps.
Lemma answer_undecided {A B} id (call : method E (result A)) (out : A -> B) (e : E) :
  keeps (on_part elsewhere) call -> safe (on_part undecided) (answer id call out) (fun _ _ => True) e.
Proof.
  intros Hc. apply answer_safe; [exact _|]. apply safe_keeps. eapply keeps_impl, Hc. intros x y. apply elsewhere_advances.
Qed.
Lemma autonomy_undeciding now autonomous ds :
  autonomyDefinitions (Some (autonomy_port (E := E) now autonomous)) = Ok ds -> Forall undeciding ds.
Proof.
  revert ds. each_definition; intros ctx i e _; apply answer_undecided.
  - apply keeps_mtry; [done|]. intros scope. apply on_tables_elsewhere.
  - apply keeps_mtry; [done|]. intros scope. apply on_tables_elsewhere.
  - apply keeps_mtry; [done|]. intros scope. apply keeps_mtry; [apply on_tables_elsewhere|done].
  - change (keeps (on_part (E := E) elsewhere) (CreateSchedule (persisted_autonomy autonomous) ctx now (cs_Schedule i))).
    unfold CreateSchedule. elsewhere_tac.
  - change (keeps (on_part (E := E) elsewhere)
              (SetScheduleStatus (persisted_autonomy autonomous) ctx now (ct_ScheduleID i) (ct_Version i) (ct_Status i))).
    unfold SetScheduleStatus. elsewhere_tac.
  - match goal with |- keeps _ (port_SetEmergencyStop _ ?stop _) =>
      change (keeps (on_part (E := E) elsewhere) (SetEmergencyStop (persisted_autonomy autonomous) ctx now stop)) end.
    unfold SetEmergencyStop. elsewhere_tac.
Qed.

Lemma tools_undeciding now autonomous auth oauth tools :
  server_tools now autonomous auth oauth = Ok tools -> Forall undeciding tools.
Proof.
  intros Ht. eapply every_tool; [exact Ht|each_definition..|apply autonomy_undeciding]; intros ctx i e Htrim;
    try apply validated_undecided.
  - apply safe_keeps, CreateIntent_moves.
  - apply elsewhere_undecided, GetIntent_elsewhere.
  - apply safe_keeps, RequestApproval_moves.
  - apply elsewhere_undecided, GetApproval_elsewhere.
  - apply validated_safe; [exact _|]. destruct (evaluation_stage (ep_Stage i)) as [stage|]; [|done].
    apply safe_on, elsewhere_undecided, EvaluatePolicy_elsewhere.
  - by apply PrepareExecution_undecided.
  - apply elsewhere_undecided, PreviewSend_elsewhere.
  - apply safe_keeps, CreateSendIntent_moves.
  - done.
  - apply elsewhere_undecided, payment_status_elsewhere.
  - apply elsewhere_undecided, PreviewPayroll_elsewhere.
  - apply safe_keeps, CreatePayrollIntent_moves.
  - done.
  - apply elsewhere_undecided, payment_status_elsewhere.
  - apply elsewhere_undecided, PreviewSwap_elsewhere.
  - apply safe_keeps, CreateSwapIntent_moves.
  - done.
  - apply elsewhere_undecided, payment_status_elsewhere.
Qed.

(** A call of a tool of the server: the clock it sees, its context, its input. *)
Record tool_call := MkToolCall {
  tc_now : nat -> Time; tc_autonomous : bool; tc_tool : Definition_ E; tc_ctx : option Context; tc_input : def_In tc_tool
}.
Definition of_server (auth oauth : bool) (c : tool_call) : Prop :=
  exists tools, server_tools (tc_now c) (tc_autonomous c) auth oauth = Ok tools /\ tc_tool c ∈ tools.
Definition tool_program (c : tool_call) : method E unit :=
  mbind (def_handler (tc_tool c) (tc_ctx c) (tc_input c)) (fun _ => Return tt).
Definition decided (s : Approvals.Status) : Prop :=
  s = Approvals.StatusApproved \/ s = StatusRejected \/ s = StatusReadyForExecutionConfirmation.

Lemma tool_calls_undecided auth oauth (calls : gmap nat tool_call) world world' running :
  map_Forall (fun _ c => of_server auth oauth c) calls -> trimmed (part world) ->
  rtc session_step (MkSessions world (tool_program <$> calls)) (MkSessions world' running) ->
  undecided (part world) (part world').
Proof.
  intros Hcalls Ht Hrun. apply (sessions_safe (on_part undecided) (fun _ _ _ => True)) in Hrun; [apply Hrun|done|].
  intros n m Hm. cbn in *. rewrite lookup_fmap in Hm. destruct (calls !! n) as [c|] eqn:Hc; [|done]. injection Hm as <-.
  destruct (Hcalls n c Hc) as (tools & Htools%tools_undeciding & Hin). rewrite Forall_forall in Htools.
  eapply safe_mbind, safe_impl; [|by apply (Htools _ Hin)]. done.
Qed.
Lemma undecided_edge t u id s s' :
  approval_edge (fun _ _ _ _ => False) (fun _ _ _ => False) t u id s s' ->
  s = StatusReadyForExecutionConfirmation /\ s' = StatusConsumed.
Proof. by inversion 1. Qed.
Lemma undecided_path t u id s s' :
  rtc (approval_edge (fun _ _ _ _ => False) (fun _ _ _ => False) t u id) s s' ->
  s' = s \/ (s = StatusReadyForExecutionConfirmation /\ s' = StatusConsumed).
Proof.
  intros Hp. induction Hp as [x|x y z [-> ->]%undecided_edge _ IH]; [by left|]. destruct IH as [->|[? _]]; [by right|done].
Qed.

(** [C6] No tool decides.  However calls of the server's tools interleave,
    whoever makes them and whatever fails on the way: an approval is approved,
    rejected or confirmed for execution at the end only if it had that status
    already; and an execution request that appears consumed an approval whose
    execution had been confirmed before the first call. *)
Theorem tools_never_decide (auth oauth : bool) (calls : gmap nat tool_call) (world world' : E)
    (running : gmap nat (method E unit))
    (Hcalls : map_Forall (fun _ c => of_server auth oauth c) calls) (Htrim : trimmed (part world))
    (Hrun : rtc session_step (MkSessions world (tool_program <$> calls)) (MkSessions world' running)) :
  (forall k row', fd_approvals (part world') !! k = Some row' -> decided (aw_status row') ->
     exists row, fd_approvals (part world) !! k = Some row /\ aw_status row = aw_status row') /\
  (forall k r, db_requests (fd_runtime (part world')) !! k = Some r -> db_requests (fd_runtime (part world)) !! k = None ->
     exists row, fd_approvals (part world) !! (k.1, req_approvalID (rq_request r)) = Some row /\
       aw_status row = StatusReadyForExecutionConfirmation).
Proof.
  pose proof (tool_calls_undecided auth oauth calls world world' running Hcalls Htrim Hrun) as HR.
  assert (forall k row', fd_approvals (part world') !! k = Some row' -> aw_status row' <> StatusPending ->
    exists row, fd_approvals (part world) !! k = Some row /\ (row' = row \/
      aw_status row' = aw_status row \/ (aw_status row = StatusReadyForExecutionConfirmation /\ aw_status row' = StatusConsumed)))
    as Hold.
  { intros k row' Hrow' Hs. destruct (fd_approvals (part world) !! k) as [row|] eqn:Hrow.
    - destruct (adv_approvals _ _ _ _ HR _ _ Hrow) as (row2 & Hrow2 & Hm). rewrite Hrow' in Hrow2. injection Hrow2 as <-.
      exists row. split; [done|]. destruct Hm as [->|(_ & _ & Hp)]; [by left|right]. by eapply undecided_path, tc_rtc.
    - pose proof (adv_new_approvals _ _ _ _ HR _ _ Hrow' Hrow) as Hp. apply undecided_path in Hp as [?|[? _]]; done. }
  split.
  - intros k row' Hrow' Hs. destruct (Hold k row' Hrow') as (row & Hrow & Hm); [by destruct Hs as [->|[->| ->]]|].
    exists row. split; [done|]. destruct Hm as [->|[->|[_ Hc]]]; [done..|]. rewrite Hc in Hs. by destruct Hs as [?|[?|?]].
  - intros k r Hr Hr0. destruct (adv_authorized _ _ _ _ HR _ _ Hr Hr0) as ((a & Ha & Hs & _ & _ & _ & Hne) & _).
    destruct (Hold _ _ Ha) as (row & Hrow & Hm); [by rewrite Hs|]. exists row. split; [done|].
    destruct Hm as [->|[E2|[? _]]]; [done| |done].
    destruct (adv_approvals _ _ _ _ HR _ _ Hrow) as (row2 & Hrow2 & Hmv). rewrite Ha in Hrow2. injection Hrow2 as <-.
    rewrite (approval_moves_consumed _ _ _ _ _ Hmv) in Hne; [done|congruence].
Qed.
End tools.

(** * What a client sees of the checks *)
Lemma is_ok_then {A} (r : result unit) (k : result A) : is_ok (do! r; k) = is_ok r && is_ok k.
Proof. by destruct r as [[]|]. Qed.
Lemma validateReferences_order (o1 o2 : MapOrder) (H1 : @MapOrderLaws o1) (H2 : @MapOrderLaws o2) fields :
  is_ok (@validateReferences o1 fields) = is_ok (@validateReferences o2 fields).
Proof.
  assert (forall (o : MapOrder), @MapOrderLaws o -> is_ok (@validateReferences o fields) = forallb (fun f => safe_reference (snd f)) fields) as Hgen.
  { intros o Ho. apply eq_bool_prop_intro. rewrite !Is_true_true, forallb_forall. unfold validateReferences. split.
    - intros [[] Hall%for_each_ok]%is_ok_true. rewrite Forall_forall in Hall. intros [n v] Hin. cbn.
      rewrite <- list_elem_of_In, <- (@map_order_perm o Ho fields) in Hin. specialize (Hall _ Hin). cbn in Hall.
      unfold validateReference in Hall. by apply fail_if_ok, negb_false_iff in Hall.
    - intros Hall. apply is_ok_true. exists tt. apply for_each_ok, Forall_forall. intros [n v] Hin.
      rewrite (@map_order_perm o Ho fields), list_elem_of_In in Hin. specialize (Hall _ Hin). cbn in *.
      unfold validateReference. by rewrite Hall. }
  by rewrite !Hgen.
Qed.

Section orders.
Context {E : Type} (o1 o2 : MapOrder) (H1 : @MapOrderLaws o1) (H2 : @MapOrderLaws o2).

(** The checks after the references are the same. *)
Ltac same_checks := intros i; cbv beta delta [CreateIntentInput_Validate EvaluatePolicyInput_Validate
  PrepareExecutionInput_Validate SendDraftInput_Validate PayrollDraftInput_Validate SwapDraftInput_Validate];
  rewrite !is_ok_then; f_equal; by apply validateReferences_order.
Lemma CreateIntentInput_order : forall i, is_ok (@CreateIntentInput_Validate o1 i) = is_ok (@CreateIntentInput_Validate o2 i).
Proof. same_checks. Qed.
Lemma EvaluatePolicyInput_order : forall i, is_ok (@EvaluatePolicyInput_Validate o1 i) = is_ok (@EvaluatePolicyInput_Validate o2 i).
Proof. same_checks. Qed.
Lemma PrepareExecutionInput_order : forall i,
  is_ok (@PrepareExecutionInput_Validate o1 i) = is_ok (@PrepareExecutionInput_Validate o2 i).
Proof. same_checks. Qed.
Lemma SendDraftInput_order : forall i, is_ok (@SendDraftInput_Validate o1 i) = is_ok (@SendDraftInput_Validate o2 i).
Proof. same_checks. Qed.
Lemma PayrollDraftInput_order : forall i, is_ok (@PayrollDraftInput_Validate o1 i) = is_ok (@PayrollDraftInput_Validate o2 i).
Proof. same_checks. Qed.
Lemma SwapDraftInput_order : forall i, is_ok (@SwapDraftInput_Validate o1 i) = is_ok (@SwapDraftInput_Validate o2 i).
Proof. same_checks. Qed.

(** [C35] The order in which Go iterates over a map is invisible: which field a
    rejected input is blamed for depends on it, yet every tool whose checks range
    over a map literal behaves in the same way for any two orders, in its answer
    and in the calls it makes. *)
Theorem map_order_invisible :
  (forall (s : IntentPort E) ctx i, @createIntentHandler E o1 s ctx i = @createIntentHandler E o2 s ctx i) /\
  (forall (s : PolicyPort E) ctx i, @evaluatePolicyHandler E o1 s ctx i = @evaluatePolicyHandler E o2 s ctx i) /\
  (forall (s : ExecutionPort E) ctx i, @prepareExecutionHandler E o1 s ctx i = @prepareExecutionHandler E o2 s ctx i) /\
  (forall D P (s : PaymentPort E D P) ctx i, @executeHandler E o1 D P s ctx i = @executeHandler E o2 D P s ctx i) /\
  (forall (s : SendService E) ctx i, @sendPreviewHandler E o1 s ctx i = @sendPreviewHandler E o2 s ctx i /\
     @sendCreateHandler E o1 s ctx i = @sendCreateHandler E o2 s ctx i) /\
  (forall (s : PayrollService E) ctx i, @payrollPreviewHandler E o1 s ctx i = @payrollPreviewHandler E o2 s ctx i /\
     @payrollCreateHandler E o1 s ctx i = @payrollCreateHandler E o2 s ctx i) /\
  (forall (s : SwapService E) ctx i, @swapPreviewHandler E o1 s ctx i = @swapPreviewHandler E o2 s ctx i /\
     @swapCreateHandler E o1 s ctx i = @swapCreateHandler E o2 s ctx i).
Proof.
  split_and!; intros; try split; apply validated_rejection; auto using CreateIntentInput_order, EvaluatePolicyInput_order,
    PrepareExecutionInput_order, SendDraftInput_order, PayrollDraftInput_order, SwapDraftInput_order.
Qed.
End orders.

(** * The tools of the server *)
Section exposed.
Context {E : Type} `{Part Foundation E} `{Part Tables E}.
Context `{EthCommon} `{UnicodeTables} `{PgTimestamp} `{TimeZones} `{PgAmount} `{MapOrder} `{JsonSchema}.
Hypothesis inferred : forall t, schema_For t = Ok tt.
Hypothesis resolved : forall t, schema_Resolve t = Ok tt.

Lemma newDefinition_builds {In Out} inType outType name description readOnly
    (handler : option Context -> In -> method E (Reply Out)) :
  newDefinition inType outType name description readOnly handler = Ok (MkDefinition name description readOnly handler).
Proof. unfold newDefinition. by rewrite !inferred, !resolved. Qed.

Definition foundation_names : list string :=
  [CreateIntentName; EvaluatePolicyName; GetApprovalName; GetIntentName; PrepareExecutionName; RequestApprovalName].
Definition send_names : list string := [SendCreateIntentName; SendExecuteName; SendPreviewName; SendStatusName].
Definition payroll_names : list string := [PayrollCreateIntentName; PayrollExecuteName; PayrollPreviewName; PayrollStatusName].
Definition swap_names : list string := [SwapCreateIntentName; SwapExecuteName; SwapPreviewName; SwapStatusName].
Definition autonomy_names : list string :=
  [ControlScheduleName; CreateScheduleName; EmergencyStopName; GetScheduleName; ListSchedulesName; SimulateScheduleName].
Definition read_names : list string := [GetApprovalName; GetIntentName].

(** A registry of these definitions, with these names. *)
Definition named (definitions : result (list (Definition_ E))) (r : result (gmap string (Definition_ E))) (names : list string) : Prop :=
  exists registry, r = Ok registry /\ def_name <$> Registry_Tools registry = names /\
    Forall (fun d => TrimSpace (def_description d) <> "") (Registry_Tools registry) /\
    forall ds d, definitions = Ok ds -> d ∈ ds -> d ∈ Registry_Tools registry.
Lemma NewRegistry_named ds names : names_sorted ds names ->
  forallb (fun d => negb (TrimSpace (def_description d) == "")) ds = true -> named (Ok ds) (NewRegistry ds) names.
Proof.
  intros Hn Hd. destruct (NewRegistry_names ds names Hn) as (r & Hr & Hnames & Hin). exists r. split_and!; [done..| |].
  - apply Forall_forall. intros d Hin'%Hin%list_elem_of_In. rewrite forallb_forall in Hd. apply Hd in Hin'. by reflect_all.
  - by intros ? d [= <-] ?%Hin.
Qed.
Ltac named_tac :=
  rewrite !newDefinition_builds; cbn [rbind]; apply NewRegistry_named;
  [split_and!; [reflexivity|apply (bool_decide_unpack _); vm_compute; exact I|vm_compute; reflexivity]|reflexivity].
Lemma foundation_named (i : IntentPort E) a p x :
  named (foundationDefinitions i a p x) (NewFoundationRegistry (MkBundle (Some i) (Some a) (Some p) (Some x))) foundation_names.
Proof.
  unfold NewFoundationRegistry, foundationDefinitions, getIntentDefinition, getApprovalDefinition.
  cbn [bdl_Intents bdl_Approvals bdl_Policies bdl_Executions]. named_tac.
Qed.
Lemma send_named (s : SendService E) : named (sendDefinitions s) (NewSendRegistry (Some s)) send_names.
Proof. unfold NewSendRegistry, sendDefinitions. named_tac. Qed.
Lemma payroll_named (s : PayrollService E) : named (payrollDefinitions s) (NewPayrollRegistry (Some s)) payroll_names.
Proof. unfold NewPayrollRegistry, payrollDefinitions. named_tac. Qed.
Lemma swap_named (s : SwapService E) : named (swapDefinitions s) (NewSwapRegistry (Some s)) swap_names.
Proof. unfold NewSwapRegistry, swapDefinitions. named_tac. Qed.
Lemma autonomy_named (s : AutonomyPort E) : named (autonomyDefinitions (Some s)) (NewAutonomyRegistry (Some s)) autonomy_names.
Proof. unfold NewAutonomyRegistry, autonomyDefinitions. named_tac. Qed.
Lemma read_named (i : IntentPort E) a :
  named (Ok [MkDefinition GetIntentName "Read the safe lifecycle metadata for one authorized intent." true (getIntentHandler i)])
    (NewOAuthReadOnlyRegistry (Some i) (Some a)) read_names.
Proof.
  unfold NewOAuthReadOnlyRegistry, getIntentDefinition, getApprovalDefinition. rewrite !newDefinition_builds. cbn [rbind].
  match goal with |- named _ (NewRegistry ?ds) _ => destruct (NewRegistry_named ds read_names) as (r & Hr & Hn & Hd & Hin) end.
  - split_and!; [reflexivity|apply (bool_decide_unpack _); vm_compute; exact I|vm_compute; reflexivity].
  - reflexivity.
  - exists r. split_and!; [done..|]. intros ? d [= <-] ->%list_elem_of_singleton. eapply Hin; [done|constructor].
Qed.

(** The server takes tools whose trimmed names differ. *)
Lemma NewServer_accepts (ds : list (Definition_ E)) :
  Forall (fun d => TrimSpace (def_description d) <> "") ds -> Forall (fun n => TrimSpace n <> "") (def_name <$> ds) ->
  NoDup (TrimSpace <$> (def_name <$> ds)) -> NewServer true (Some <$> ds) = Ok ds.
Proof.
  intros Hd Hn Hnd. unfold NewServer. cbn [negb fail_if rbind].
  enough (forall s, (forall d, d ∈ ds -> TrimSpace (def_name d) ∉ rg_seen s) ->
    exists seen, fold_result register_tool s (Some <$> ds) = Ok (MkRegistering seen (app (rg_sdk s) ds))) as Hgen.
  { destruct (Hgen (MkRegistering ∅ [])) as [seen ->]; [set_solver|done]. }
  induction ds as [|d ds IH]; intros s Hs; cbn [fmap list_fmap fold_result].
  { exists (rg_seen s). rewrite app_nil_r. by destruct s. }
  cbn in Hn, Hnd. apply Forall_cons in Hd as [Hd Hds], Hn as [Hn Hns]. apply NoDup_cons in Hnd as [Hnin Hnd].
  unfold register_tool at 1. rewrite (proj2 (eqb_spec_false _ _) Hn), (proj2 (eqb_spec_false _ _) Hd). cbn [fail_if rbind].
  rewrite bool_decide_eq_false_2 by (apply Hs; constructor). cbn [fail_if rbind]. unfold Definition_Register, Definition_validate.
  assert (def_name d <> "") as Hn' by (intros Ed; by rewrite Ed in Hn).
  assert (def_description d <> "") as Hd' by (intros Ed; by rewrite Ed in Hd).
  rewrite (proj2 (eqb_spec_false _ _) Hn'), (proj2 (eqb_spec_false _ _) Hd'). cbn [orb fail_if rbind map_err].
  destruct (IH Hds Hns Hnd (MkRegistering ({[ TrimSpace (def_name d) ]} ∪ rg_seen s) (app (rg_sdk s) [d]))) as [seen Hseen].
  - intros x Hx. cbn. apply not_elem_of_union. split; [|apply Hs; by constructor]. rewrite elem_of_singleton. intros Ex.
    apply Hnin. rewrite <- Ex. by do 2 apply list_elem_of_fmap_2.
  - exists seen. rewrite Hseen. cbn. by rewrite <- app_assoc.
Qed.

Lemma server_starts now autonomous : exists tools, server_tools now autonomous true false = Ok tools /\
  def_name <$> tools = concat [foundation_names; send_names; payroll_names; swap_names; autonomy_names] /\
  forall ds d, d ∈ ds ->
    foundationDefinitions (intents_port now) (approvals_port now) (policies_port now) (executions_port now) = Ok ds \/
    sendDefinitions (send_port now) = Ok ds -> d ∈ tools.
Proof.
  destruct (foundation_named (intents_port now) (approvals_port now) (policies_port now) (executions_port now)) as (f & Ef & Nf & Df & If).
  destruct (send_named (send_port now)) as (s & Es & Ns & Ds & Is), (payroll_named (payroll_port now)) as (p & Ep & Np & Dp & _).
  destruct (swap_named (swap_port now)) as (w & Ew & Nw & Dw & _), (autonomy_named (autonomy_port now autonomous)) as (a & Ea & Na & Da & _).
  unfold server_tools, registrations, newFoundationBundle. rewrite Ef, Es, Ep, Ew, Ea. cbn [rbind].
  assert (def_name <$> concat [Registry_Tools f; Registry_Tools s; Registry_Tools p; Registry_Tools w; Registry_Tools a]
          = concat [foundation_names; send_names; payroll_names; swap_names; autonomy_names]) as En.
  { cbn. by rewrite !fmap_app, Nf, Ns, Np, Nw, Na. }
  eexists. split_and!; [apply NewServer_accepts|done|].
  - cbn. rewrite !Forall_app. split_and!; done.
  - rewrite En. by repeat constructor.
  - rewrite En. apply (bool_decide_unpack _). vm_compute. exact I.
  - intros ds d Hd [Hds|Hds]; cbn; rewrite !elem_of_app; [left; by eapply If|right; left; by eapply Is].
Qed.
Lemma oauth_server_starts now autonomous : exists tools, server_tools now autonomous true true = Ok tools /\
  def_name <$> tools = read_names.
Proof.
  destruct (server_starts now autonomous) as (all & Hall & _). unfold server_tools, registrations, newFoundationBundle in *.
  apply rbind_ok in Hall as (regs & Hregs & _). do 5 (apply rbind_ok in Hregs as (? & -> & Hregs)). cbn [rbind bdl_Intents bdl_Approvals].
  destruct (read_named (intents_port now) (approvals_port now)) as (r & -> & Nr & Dr & _). cbn [rbind].
  eexists. split; [apply NewServer_accepts|done]; [done|rewrite Nr; by repeat constructor|].
  rewrite Nr. apply (bool_decide_unpack _). vm_compute. exact I.
Qed.

(** What the server exposes.  Where authentication is required, and the
    schemas of the Go types can be inferred, the process starts with 24 tools of
    distinct names, listed by name within each component; in OAuth mode these are
    the two read tools alone; where authentication is not required there is no
    tool at all. *)
Theorem server_exposes (now : nat -> Time) (autonomous : bool) :
  (exists tools, server_tools now autonomous true false = Ok tools /\
     def_name <$> tools = concat [foundation_names; send_names; payroll_names; swap_names; autonomy_names]) /\
  (exists tools, server_tools now autonomous true true = Ok tools /\ def_name <$> tools = read_names) /\
  (forall oauth, server_tools now autonomous false oauth = Ok []).
Proof.
  split_and!; [|apply oauth_server_starts|done]. destruct (server_starts now autonomous) as (tools & ? & ? & _). eauto.
Qed.
End exposed.

(** The server over one database: the foundation's tables and the autonomous
    runtime's, and calls of its tools on the world of AuthoritySessions.v. *)
From S2P Require Import AutonomySamples Recurrence IntentSafety PolicySafety.

Module ServerSamples.
Import Samples IntentSamples PolicySamples AuthoritySamples.
#[local] Existing Instance Eth.is_hex_address.
#[local] Existing Instance Eth.no_folding.
#[local] Existing Instance Pg.truncating.
#[local] Existing Instance RecurrenceSamples.zones.
#[local] Existing Instance AutonomySamples.sample_amounts.
Definition World : Type := Foundation * Tables.
#[local] Instance world_foundation : Part Foundation World := {| part := fst; with_part f w := (f, snd w) |}.
#[local] Instance world_tables : Part Tables World := {| part := snd; with_part t w := (fst w, t) |}.
#[local] Instance world_foundation_laws : PartLaws Foundation World.
Proof. split; [by intros t []|by intros []]. Qed.
#[local] Instance world_tables_laws : PartLaws Tables World.
Proof. split; [by intros t []|by intros []]. Qed.
#[local] Instance world_apart : Apart Foundation Tables World.
Proof. by intros t []. Qed.
#[local] Instance some_schemas : JsonSchema := {| schema_For _ := Ok tt; schema_Resolve _ := Ok tt |}.
Lemma schemas_inferred t : schema_For t = Ok tt.
Proof. done. Qed.
Lemma schemas_resolved t : schema_Resolve t = Ok tt.
Proof. done. Qed.
#[local] Instance source_order : MapOrder := fun fields => fields.
#[local] Instance source_order_laws : MapOrderLaws.
Proof. by intros fields. Qed.
Definition reverse_order : MapOrder := fun fields => rev fields.
Lemma reverse_order_laws : @MapOrderLaws reverse_order.
Proof. intros fields. symmetry. apply Permutation_rev. Qed.

(** A confirmed transfer's intent and approval, no autonomous schedule. *)
Definition approved : Approval := Eval vm_compute in or_else pending_approval (Approve pending_approval (Samples.now + Minute)).
Definition confirmed : Approval := Eval vm_compute in or_else approved (ReadyForExecutionConfirmation approved (Samples.now + 2 * Minute)).
Definition stored_world : World := (AuthoritySamples.world governed approved, no_tables).
Definition confirmed_world : World := (AuthoritySamples.world governed confirmed, no_tables).
Definition clock : nat -> Time := minute 3.

Lemma server_exposes_witness : exists tools : list (Definition_ World), server_tools clock false true true = Ok tools /\
  def_name <$> tools = [GetApprovalName; GetIntentName].
Proof. exact (proj1 (proj2 (server_exposes schemas_inferred schemas_resolved clock false))). Defined.

(** ** The witnesses *)
Definition prepare_input : PrepareExecutionInput := MkPrepareExecutionInput "request-1" "intent-1" "approval-1" "policy" 1.
Definition send_execute : Definition_ World := MkDefinition SendExecuteName
  "Prepare execution from an already approved SEND intent; frozen financial fields cannot be overridden." false
  (sendExecuteHandler (send_port clock)).
Definition get_intent : Definition_ World := MkDefinition GetIntentName
  "Read the safe lifecycle metadata for one authorized intent." true (getIntentHandler (intents_port clock)).
Definition prepare_execution : Definition_ World := MkDefinition PrepareExecutionName
  "Prepare an immutable execution request from existing authorization references; this never submits or executes it." false
  (prepareExecutionHandler (executions_port clock)).
Lemma sample_tools : exists tools, server_tools (E := World) clock false true false = Ok tools /\
  send_execute ∈ tools /\ get_intent ∈ tools /\ prepare_execution ∈ tools.
Proof.
  destruct (server_starts (E := World) schemas_inferred schemas_resolved clock false) as (tools & Ht & _ & Hin).
  exists tools. split; [done|]. split_and!.
  - eapply Hin; [|by right]. do 2 apply list_elem_of_further. apply list_elem_of_here.
  - eapply Hin; [|by left]. apply list_elem_of_further. apply list_elem_of_here.
  - eapply Hin; [|by left]. do 5 apply list_elem_of_further. apply list_elem_of_here.
Qed.

Lemma execute_tools_fail_closed_witness : exists e,
  run (def_handler send_execute agent prepare_input) [] stored_world = (failed e, stored_world) /\
  (te_Code e = CodeValidationError \/ te_Code e = CodeCapabilityUnavailable).
Proof.
  destruct sample_tools as (tools & Ht & Hd & _).
  apply (execute_tools_fail_closed clock false true false tools send_execute agent prepare_input [] stored_world Ht Hd).
  constructor.
Defined.
Lemma read_only_tools_change_nothing_witness :
  snd (run (def_handler get_intent agent (MkGetIntentInput "request-1" "intent-1")) (MkTurn Datatypes.id <$> [Arrives]) stored_world)
  = stored_world.
Proof.
  destruct sample_tools as (tools & Ht & _ & Hd & _).
  apply (read_only_tools_change_nothing clock false true false tools get_intent agent _ [Arrives] stored_world Ht Hd).
  right. split; [reflexivity|discriminate].
Defined.

(** An agent prepares the execution that a person confirmed. *)
Definition agent_calls : gmap nat (tool_call (E := World)) :=
  {[ 0%nat := MkToolCall clock false prepare_execution agent prepare_input ]}.
Definition begun : sessions World unit := MkSessions confirmed_world (tool_program <$> agent_calls).
Definition ended : sessions World unit := follow (repeat 0%nat 12) begun.
Definition prepared_request : list (string * string * request_row) := Eval vm_compute in
  map_to_list (db_requests (fd_runtime (fst (ss_db ended)))).
Definition request_key : string * string := Eval vm_compute in match prepared_request with x :: _ => x.1 | [] => ("", "") end.
Lemma tools_never_decide_witness : exists row, fd_approvals (fst confirmed_world) !! ("tenant-1", "approval-1") = Some row /\
  aw_status row = StatusReadyForExecutionConfirmation.
Proof.
  destruct (db_requests (fd_runtime (fst (ss_db ended))) !! request_key) as [r|] eqn:Hr; [|by vm_compute in Hr].
  assert (("tenant-1", "approval-1") = (request_key.1, req_approvalID (rq_request r))) as -> by (vm_compute in Hr; by injection Hr as <-).
  destruct sample_tools as (tools & Ht & _ & _ & Hd).
  destruct (tools_never_decide true false agent_calls confirmed_world (ss_db ended) (ss_running ended)) as [_ Hreq].
  - unfold agent_calls. intros n c [_ <-]%lookup_singleton_Some. exists tools. split; [exact Ht|exact Hd].
  - exact (proj1 (world_legitimate governed)).
  - exact (follow_steps (repeat 0%nat 12) begun).
  - apply (Hreq _ _ Hr). vm_compute. reflexivity.
Defined.
Lemma tools_never_decide_answers :
  fst (run (def_handler prepare_execution agent prepare_input) [] stored_world)
  = failed (MkToolError CodeExecutionNotAuthorized "Wallet execution confirmation is required." "request-1" false true true).
Proof. vm_compute. reflexivity. Qed.

(** The tool that is announced as read-only and stores an evaluation. *)
Definition evaluator_claims : AuthenticatedPrincipal :=
  Auth.MkPrincipal "tenant-1" "user-1" "privy" "did:privy:1" "client-1" "token-1" Samples.now Samples.now Samples.now
    (Samples.now + Hour) [PermissionEvaluatePolicy].
Definition evaluator : option Context :=
  Some (MkContext (Some (MkTrusted (or_else evaluator_claims (NewAuthenticatedPrincipal evaluator_claims))
                           (MkIdentity "user-1" "privy" "did:privy:1" IdentityStatusActive) (MkMetadata "request-1" "" ""))) None).
Definition evaluate_policy : Definition_ World := MkDefinition EvaluatePolicyName
  "Evaluate a referenced policy against an authorized intent; this does not execute the intent." true
  (evaluatePolicyHandler (policies_port clock)).
Definition evaluation_input : EvaluatePolicyInput :=
  MkEvaluatePolicyInput "request-1" "intent-1" "policy" 1 "BEFORE_EXECUTION".
Lemma evaluation_is_stored : def_readOnly evaluate_policy = true /\
  size (fd_evaluations (fst stored_world)) = 0%nat /\
  size (fd_evaluations (fst (snd (run (def_handler evaluate_policy evaluator evaluation_input) [] stored_world)))) = 1%nat.
Proof. vm_compute. done. Qed.

(** Two fields are unsafe: the orders blame different ones. *)
Definition bad_draft : SendDraftInput := MkSendDraftInput "request-1" "" "" "binding-1" "USDC" "0x1" zero_amount 1 "policy:1".
Lemma map_order_invisible_witness :
  sendCreateHandler (send_port (E := World) clock) agent bad_draft
  = @sendCreateHandler World reverse_order (send_port clock) agent bad_draft /\
  SendDraftInput_Validate bad_draft <> @SendDraftInput_Validate reverse_order bad_draft.
Proof.
  destruct (map_order_invisible (E := World) source_order reverse_order source_order_laws reverse_order_laws) as (_ & _ & _ & _ & Hs & _).
  split; [apply Hs|]. vm_compute. discriminate.
Defined.
End ServerSamples.
