(* ===== verification/RequestAuth.v ===== *)
(** internal/requestauth: the middleware in front of the MCP endpoint
    (middleware.go), its audit records (access_audit.go, the table
    [mcp_access_audit] and storage/postgres/mcp_access_audit.go) and the
    resolution of identities (scope.go).

    The verifier of credentials is a port, as in the code; in OAuth mode it is
    [VerifyToken] over the sign-in store.  [entropy n] is the n-th answer of
    [rand.Read]. *)
From S2P Require Import Prelude GoStrings GoText GoTime AppErrors Contracts Deployments GoBase64 Wallet Auth Storage Statements Sessions Services.
From S2P Require Import Foundation Repositories ChainEvidence Siwe OAuthModel SignInTables SignInStore SignInService SignInAuthority.
Open Scope string_scope.
Open Scope Z_scope.
Open Scope go_scope.

(** * [strings.Fields] *)
Fixpoint fields_from (fuel : nat) (l field : list Z) : list (list Z) :=
  let emit rest := match field with [] => rest | _ => field :: rest end in
  match fuel, l with
  | S fuel, _ :: _ =>
      let '(r, size) := decode_rune l in
      if IsSpace r then emit (fields_from fuel (drop size l) []) else fields_from fuel (drop size l) (app field (take size l))
  | _, _ => emit []
  end.
Definition Fields (s : string) : list string := of_bytes <$> fields_from (String.length s) (bytes s) [].

(** * Requests and responses of net/http *)
(** The values of the header fields the middleware reads, and the rest. *)
Record HttpRequest (Rest : Type) := MkHttpRequest {
  hr_Method : string; hr_Authorization : list string; hr_Cookie : list string; hr_ctx : option Context; hr_rest : Rest
}.
#[global] Arguments MkHttpRequest {_} _ _ _ _ _.
#[global] Arguments hr_Method {_} _.
#[global] Arguments hr_Authorization {_} _.
#[global] Arguments hr_Cookie {_} _.
#[global] Arguments hr_ctx {_} _.
#[global] Arguments hr_rest {_} _.
(** [Header.Get] *)
Definition Header_Get (values : list string) : string := default "" (head values).
(** Status, [WWW-Authenticate] and [Cache-Control] of a refusal. *)
Record HttpResponse := MkHttpResponse { hs_Status : Z; hs_Challenge : option string; hs_CacheControl : option string }.

(** * Audit of access *)
Record AccessRecord := MkAccessRecord {
  ac_RequestID : string; ac_TenantID : string; ac_UserID : string; ac_ClientID : string; ac_Method : string; ac_Decision : string
}.
#[global] Instance AccessRecord_eq_dec : EqDecision AccessRecord.
Proof. solve_decision. Defined.
(** The rows of [mcp_access_audit]: no row is changed or removed. *)
Abbreviation AccessLog := (list AccessRecord).
Definition lower_hex_32 (s : string) : bool := (len s =? 32) && all_runes is_lower_hex s.
Definition access_checks (r : AccessRecord) : bool :=
  lower_hex_32 (ac_RequestID r)
  && existsb (fun m => ac_Method r == m) ["GET"; "POST"; "DELETE"; "OPTIONS"; "OTHER"]
  && existsb (fun d => ac_Decision r == d) ["RECEIVED"; "AUTHORIZED"]
  && ((ac_Decision r != "AUTHORIZED") || ((ac_TenantID r != "") && (ac_UserID r != "") && (ac_ClientID r != ""))).
Definition insert_access (r : AccessRecord) : statement AccessLog unit := fun log =>
  do! constrained (access_checks r);
  Ok (tt, app log [r]).
(** [Store.RecordMCPAccess]; the driver's error is returned as it is. *)
Definition RecordMCPAccess (r : AccessRecord) : method AccessLog (result unit) := Execute (insert_access r) (fun x => Return x).

(** * Resolution of identities (scope.go) *)
Definition authAccessDenied : error := AppErrors.New CodeAuthorizationRequired "Access is forbidden." false true true.
Section resolution.
Context `{EthCommon} `{UnicodeTables} `{PgTimestamp}.

(** [configured]: the repository is set. *)
Definition ResolveIdentity (configured : bool) (p : AuthenticatedPrincipal) : call Identity :=
  act! plain_code (fail_if (negb configured) authAccessDenied);
  sql! scope := plain_code (map_err (fun _ => authAccessDenied) (NewScope (prn_tenantID p) (prn_actorID p) "auth-resolution" "")) in
  mbind (FindIdentityByID scope (prn_actorID p)) (fun found => Return (
    match found with
    | Err _ => Err authAccessDenied
    | Ok identity =>
        do! fail_if ((idn_provider identity != prn_identityProvider p) || (idn_providerSubject identity != prn_providerSubject p)
                     || (idn_userID identity != prn_actorID p)) authAccessDenied;
        do! map_err (fun _ => authAccessDenied) (Identity_EnsureAuthorizable identity);
        Ok identity
    end)).
End resolution.

(** * The middleware *)
Definition MetadataURL : string := "https://mcp.wizpay.xyz/.well-known/oauth-protected-resource/mcp".
(** [None] is the zero principal. *)
Definition access_method (verb : string) : string :=
  if existsb (fun m => verb == m) ["GET"; "POST"; "DELETE"; "OPTIONS"] then verb else "OTHER".
Definition access_record (verb id decision : string) (p : option AuthenticatedPrincipal) : AccessRecord :=
  let field (get : AuthenticatedPrincipal -> string) := match p with Some p => get p | None => "" end in
  MkAccessRecord id (field prn_tenantID) (field prn_actorID) (field prn_clientID) (access_method verb) decision.

Definition bearerCredential `{FoldTables} (value : string) : option string :=
  match Fields value with
  | [scheme; credential] => if EqualFold scheme "Bearer" && (credential != "") then Some credential else None
  | _ => None
  end.
Definition randomID (read : result (list Z)) : result string := let! bytes := read in Ok (EncodeToString bytes).
Definition serverMetadata (entropy : nat -> result (list Z)) : result RequestMetadata :=
  let! requestID := randomID (entropy 0%nat) in
  let! traceID := randomID (entropy 1%nat) in
  Ok (MkMetadata requestID "" traceID).

(** Refusals. *)
Definition unavailable : HttpResponse := MkHttpResponse 503 None (Some "no-store").
Definition quoted (s : string) : string := String (Ascii.ascii_of_nat 34) (s +:+ String (Ascii.ascii_of_nat 34) "").
Definition unauthorized (oauth invalid : bool) : HttpResponse :=
  MkHttpResponse 401
    (Some (if negb oauth then "Bearer realm=" +:+ quoted "wizpay-mcp"
           else "Bearer resource_metadata=" +:+ (quoted MetadataURL +:+ (", scope=" +:+ (quoted OAuth.ReadScope
                +:+ (if invalid then ", error=" +:+ quoted "invalid_token" else "")))))) (Some "no-store").
Definition insufficient_scope : HttpResponse :=
  MkHttpResponse 403
    (Some ("Bearer resource_metadata=" +:+ (quoted MetadataURL +:+ (", error=" +:+ (quoted "insufficient_scope"
           +:+ (", scope=" +:+ quoted OAuth.ReadScope)))))) (Some "no-store").

Section middleware.
Context {E Rest : Type} `{FoldTables}.

Record Middleware := MkMiddleware {
  mw_verifier : string -> method E (result AuthenticatedPrincipal);
  mw_resolver : AuthenticatedPrincipal -> method E (result Identity);
  mw_oauth : bool;
  mw_auditor : option (AccessRecord -> method E (result unit))
}.

(** The error component only is looked at. *)
Definition audit (m : Middleware) (verb id decision : string) (p : option AuthenticatedPrincipal) : method E (result unit) :=
  match mw_auditor m with
  | None => Return (Ok tt)
  | Some record => record (access_record verb id decision p)
  end.

(** The handler up to [next.ServeHTTP]: a refusal, or the request to serve. *)
Inductive admission : Type := Refused_ (response : HttpResponse) | PassedOn (downstream : HttpRequest Rest).
Definition refuse (response : HttpResponse) : method E admission := Return (Refused_ response).
(** [if err != nil { refuse; return }] *)
Definition or_refuse {A} (response : HttpResponse) (call : method E (result A)) (k : A -> method E admission) : method E admission :=
  mbind call (fun r => match r with Ok a => k a | Err _ => refuse response end).
Definition multiple_credentials (m : Middleware) (r : HttpRequest Rest) : bool :=
  (1 <? length (hr_Authorization r))%nat
  || (mw_oauth m && ((Header_Get (hr_Cookie r) != "") || (256 <? len (Header_Get (hr_Authorization r))))).

Definition admission_of (m : Middleware) (entropy : nat -> result (list Z)) (request : HttpRequest Rest) : method E admission :=
  let header := Header_Get (hr_Authorization request) in
  or_refuse unavailable (plain_code (serverMetadata entropy)) (fun metadata =>
  or_refuse unavailable (audit m (hr_Method request) (md_RequestID metadata) "RECEIVED" None) (fun _ =>
  if multiple_credentials m request then refuse (unauthorized (mw_oauth m) true)
  else match bearerCredential header with
  | None => refuse (unauthorized (mw_oauth m) (header != ""))
  | Some credential =>
      or_refuse (unauthorized (mw_oauth m) true) (mw_verifier m credential) (fun principal =>
      if mw_oauth m && (negb (HasPermission principal PermissionReadIntent) || negb (HasPermission principal PermissionReadApproval))
      then refuse insufficient_scope
      else
        or_refuse (unauthorized (mw_oauth m) true) (mw_resolver m principal) (fun identity =>
        or_refuse (unauthorized (mw_oauth m) true) (plain_code (NewTrustedRequest principal identity metadata)) (fun trusted =>
        or_refuse unavailable (audit m (hr_Method request) (md_RequestID metadata) "AUTHORIZED" (Some principal)) (fun _ =>
        Return (PassedOn (MkHttpRequest (hr_Method request) [] (hr_Cookie request)
                             (WithTrustedRequest (hr_ctx request) trusted) (hr_rest request)))))))
  end)).

(** [Middleware.Handler] *)
Definition Handler {A} (m : Middleware) (entropy : nat -> result (list Z)) (refused : HttpResponse -> A)
    (next : HttpRequest Rest -> method E A) (request : HttpRequest Rest) : method E A :=
  mbind (admission_of m entropy request) (fun a => match a with Refused_ r => Return (refused r) | PassedOn d => next d end).

(** The constructors; a nil port is [None]. *)
Definition NewMiddleware (verifier : option (string -> method E (result AuthenticatedPrincipal)))
    (resolver : option (AuthenticatedPrincipal -> method E (result Identity))) : result Middleware :=
  match verifier, resolver with
  | Some v, Some r => Ok (MkMiddleware v r false None)
  | _, _ => Err (errorf "token verifier and identity resolver are required")
  end.
Definition NewOAuthMiddleware verifier resolver : result Middleware :=
  let! m := NewMiddleware verifier resolver in
  Ok (MkMiddleware (mw_verifier m) (mw_resolver m) true (mw_auditor m)).
Definition NewAuditedOAuthMiddleware verifier resolver (auditor : option (AccessRecord -> method E (result unit))) : result Middleware :=
  match auditor with
  | None => Err (errorf "MCP access auditor is required")
  | Some a =>
      let! m := NewOAuthMiddleware verifier resolver in
      Ok (MkMiddleware (mw_verifier m) (mw_resolver m) (mw_oauth m) (Some a))
  end.
End middleware.

(** * Who is served *)
(** The log grows. *)
Definition logged {E} `{Part AccessLog E} : relation E := on_part prefix.
Definition in_log {E} `{Part AccessLog E} (r : AccessRecord) (e : E) : Prop := r ∈ part (D := AccessLog) e.

Lemma safe_yields {E A} (R : relation E) `{!PreOrder R} (m : method E A) (Q : A -> Prop) e :
  keeps R m -> returns m Q -> safe R m (fun a _ => Q a) e.
Proof.
  revert e. induction m as [a|Y q k IH]; intros e; cbn; [done|]. intros [Hq Hk] Hr e1 _.
  split; [intros x; by apply IH|]. intros y e2 Hok. split_and!; [by eapply Hq|by apply IH|intros x; by apply IH].
Qed.

Section resolved.
Context `{EthCommon} `{UnicodeTables} `{PgTimestamp}.
(** The row of the principal's user, in its tenant. *)
Definition stored_identity (p : AuthenticatedPrincipal) (i : Identity) (f : Foundation) : Prop :=
  exists row, fd_identities f !! (TrimSpace (prn_tenantID p), prn_actorID p) = Some row /\
    identity_from_row (prn_actorID p) row = Ok i.
(** An identity the resolver gives was found stored, is active and is the
    principal's. *)
Definition resolved_for (p : AuthenticatedPrincipal) (i : Identity) (h : list Foundation) : Prop :=
  noticed (stored_identity p i) h /\ idn_status i = IdentityStatusActive /\ idn_userID i = prn_actorID p /\
  idn_provider i = prn_identityProvider p /\ idn_providerSubject i = prn_providerSubject p.
Lemma ResolveIdentity_learns configured p h : learns (ResolveIdentity configured p) (told (resolved_for p)) h.
Proof.
  apply learns_plain. intros _ _. apply learns_plain. intros scope Hs%map_err_ok%NewScope_ok.
  eapply learns_mbind; [apply FindIdentityByID_finds|]. intros [i|x] h' _ Hi a Ha; [|done].
  apply rbind_ok in Ha as ([] & Hm & Ha). apply rbind_ok in Ha as ([] & He & [= <-]).
  apply fail_if_ok in Hm. apply map_err_ok in He. unfold Identity_EnsureAuthorizable in He. apply rbind_ok in He as (? & _ & He).
  reflect_all. split; [|split_and!; try done; by destruct (idn_status i)].
  eapply Exists_impl; [by apply Hi|]. intros f (row & Hrow & _ & Hr). exists row. by rewrite Hs in Hrow.
Qed.
Lemma ResolveIdentity_reads configured p : keeps eq (ResolveIdentity configured p).
Proof.
  do 2 (apply keeps_mtry; [done|intros ?]). apply keeps_mbind; [|done]. apply keeps_mtry; [done|]. intros _.
  apply keeps_unless; [by apply keeps_select, _|done].
Qed.
End resolved.

(** ** Served requests *)
Section served.
Context {E Rest : Type} `{PartLaws AccessLog E} `{FoldTables}.
Implicit Types (request downstream : HttpRequest Rest) (m : Middleware (E := E)).

#[local] Instance logged_preorder : PreOrder (logged (E := E)).
Proof. apply on_part_preorder, _. Qed.
Lemma in_log_lasting r : lasting logged (in_log (E := E) r).
Proof. intros e e' [l Hl] Hr. unfold in_log in *. rewrite Hl. apply elem_of_app. by left. Qed.
Lemma RecordMCPAccess_safe r (e : E) :
  safe logged (on (RecordMCPAccess r)) (fun x d => forall u, x = Ok u -> in_log r d) e.
Proof.
  eapply (safe_execute logged _ _ (fun _ d => in_log r d)); [|done|by intros y d _ Hd u _; exact Hd].
  intros e1 _ y e2. unfold insert_access. destruct (constrained (access_checks r)) as [[]|]; cbn; [|done]. intros [= <- <-].
  unfold logged, on_part, in_log. rewrite part_with. split; [by exists [r]|]. apply elem_of_app. right. constructor.
Qed.

(** A step of the admission, with what is known before and after it. *)
Lemma safe_or_refuse {A} (K : E -> Prop) (P : A -> E -> Prop) (Q : admission (Rest := Rest) -> E -> Prop) response call k e :
  lasting logged K -> K e -> (forall r d, Q (Refused_ r) d) -> safe logged call (fun x d => forall a, x = Ok a -> P a d) e ->
  (forall a d, P a d -> K d -> safe logged (k a) Q d) -> safe logged (or_refuse response call k) Q e.
Proof.
  intros HK Hk Hr Hc Hs. eapply safe_mbind, safe_impl, (safe_frame logged _ _ K); [|exact HK|exact Hk|exact Hc].
  intros [a|x] d [Ha Hd]; [by apply Hs; [apply Ha|]|apply Hr].
Qed.

(** What is known of a served request and the log when it is served. *)
Record served (m : Middleware (E := E)) (request downstream : HttpRequest Rest) (trusted : TrustedRequest)
    (id : string) (log : AccessRecord -> Prop) : Prop := {
  sv_once : (length (hr_Authorization request) <= 1)%nat;
  sv_removed : hr_Authorization downstream = [];
  sv_oauth : mw_oauth m = true -> Header_Get (hr_Cookie request) = "" /\ len (Header_Get (hr_Authorization request)) <= 256;
  sv_received : log (access_record (hr_Method request) id "RECEIVED" None);
  sv_permitted : mw_oauth m = true -> HasPermission (tr_principal trusted) PermissionReadIntent = true /\
    HasPermission (tr_principal trusted) PermissionReadApproval = true;
  sv_valid : Trusted_Validate trusted = Ok tt;
  sv_context : hr_ctx downstream = WithTrustedRequest (hr_ctx request) trusted;
  sv_admitted : log (access_record (hr_Method request) id "AUTHORIZED" (Some (tr_principal trusted)))
}.

Lemma EncodeToString_trimmed l : Forall (fun b => 0 <= b < 256) l -> TrimSpace (EncodeToString l) = EncodeToString l.
Proof.
  intros Hl%EncodeToString_lower_hex. apply plain_trim. eapply all_runes_plain, Hl; [apply ascii_only_lower_hex|].
  intros r. unfold is_lower_hex, is_digit_byte, plain_byte, byte_in. intros. reflect_all. lia.
Qed.
Lemma NewTrustedRequest_valid p i md trusted : NewTrustedRequest p i md = Ok trusted ->
  TrimSpace (md_RequestID md) = md_RequestID md -> TrimSpace (md_ClientID md) = md_ClientID md ->
  TrimSpace (md_TraceID md) = md_TraceID md ->
  trusted = MkTrusted p i md /\ Trusted_Validate trusted = Ok tt.
Proof.
  intros Ht Er Ec Et. assert (trusted = MkTrusted p i md) as ->.
  { unfold NewTrustedRequest in Ht. do 2 (apply rbind_ok in Ht as ([] & _ & Ht)). apply rbind_ok in Ht as (ic & Hic & Ht).
    apply rbind_ok in Ht as ([] & _ & [= <-]). unfold NewIdentityContext in Hic. apply rbind_ok in Hic as ([] & _ & Hic).
    do 3 (apply rbind_ok in Hic as ([] & _ & Hic)). injection Hic as <-. cbn. rewrite Er, Ec, Et. by destruct md. }
  split; [done|]. unfold Trusted_Validate. cbn. by rewrite Ht.
Qed.

Lemma audit_safe m auditor verb id decision p (e : E) : mw_auditor m = Some auditor -> auditor = (fun r => on (RecordMCPAccess r)) ->
  safe logged (audit m verb id decision p) (fun x d => forall u, x = Ok u -> in_log (access_record verb id decision p) d) e.
Proof. intros Ha ->. unfold audit. rewrite Ha. apply RecordMCPAccess_safe. Qed.

(** Whom the ports vouch for, by the databases they have seen. *)
Context (V : string -> AuthenticatedPrincipal -> list E -> Prop) (I : AuthenticatedPrincipal -> Identity -> list E -> Prop).
Context (m : Middleware (E := E)).
Hypothesis audited : mw_auditor m = Some (fun r => on (RecordMCPAccess r)).
Hypothesis verifier_logs : forall c, keeps logged (mw_verifier m c).
Hypothesis resolver_logs : forall p, keeps logged (mw_resolver m p).
Hypothesis verifies : forall c h, learns (mw_verifier m c) (told (V c)) h.
Hypothesis resolves : forall p h, learns (mw_resolver m p) (told (I p)) h.
Hypothesis verified_later : forall c p h h', h `prefix_of` h' -> V c p h -> V c p h'.
Hypothesis resolved_later : forall p i h h', h `prefix_of` h' -> I p i h -> I p i h'.
Definition random_bytes (entropy : nat -> result (list Z)) : Prop :=
  forall n l, entropy n = Ok l -> Forall (fun b => 0 <= b < 256) l.
Definition admitted_served (entropy : nat -> result (list Z)) request (a : admission (Rest := Rest)) (e : E) : Prop :=
  forall downstream, a = PassedOn downstream -> exists bytes trusted, entropy 0%nat = Ok bytes /\
    served m request downstream trusted (EncodeToString bytes) (fun r => in_log r e).
Definition admitted_known request (a : admission (Rest := Rest)) (h : list E) : Prop :=
  forall downstream, a = PassedOn downstream -> exists credential trusted,
    bearerCredential (Header_Get (hr_Authorization request)) = Some credential /\
    V credential (tr_principal trusted) h /\ I (tr_principal trusted) (tr_identity trusted) h /\
    Trusted_Validate trusted = Ok tt /\ hr_ctx downstream = WithTrustedRequest (hr_ctx request) trusted.

(** The metadata of the server, as the trusted request takes it. *)
Lemma serverMetadata_bytes entropy md : serverMetadata entropy = Ok md -> random_bytes entropy -> exists bytes bytes',
  entropy 0%nat = Ok bytes /\ md = MkMetadata (EncodeToString bytes) "" (EncodeToString bytes') /\
  TrimSpace (md_RequestID md) = md_RequestID md /\ TrimSpace (md_TraceID md) = md_TraceID md.
Proof.
  unfold serverMetadata, randomID. intros Emd Hrand. apply rbind_ok in Emd as (rid & Er & Emd).
  apply rbind_ok in Er as (bytes & Eb & [= <-]). apply rbind_ok in Emd as (tid & Et & [= <-]).
  apply rbind_ok in Et as (bytes' & Eb' & [= <-]). exists bytes, bytes'. cbn.
  split_and!; [done|done|by eapply EncodeToString_trimmed, Hrand..].
Qed.

Lemma admission_safe entropy request (e : E) : random_bytes entropy ->
  safe logged (admission_of m entropy request) (admitted_served entropy request) e.
Proof.
  intros Hrand. unfold admission_of.
  assert (forall r d, admitted_served entropy request (Refused_ r) d) as Hno by done.
  unfold or_refuse at 1. destruct (serverMetadata entropy) as [md|] eqn:Emd; cbn [plain_code mbind]; [|apply Hno].
  destruct (serverMetadata_bytes _ _ Emd Hrand) as (bytes & bytes' & Eb & -> & Hrid & Htid). clear Emd. cbn [md_RequestID] in *.
  eapply (safe_or_refuse (fun _ => True)); [done|done|exact Hno|by eapply audit_safe|]. intros [] d Hrec _. clear e.
  destruct (multiple_credentials m request) eqn:Em; [apply Hno|].
  destruct (bearerCredential (Header_Get (hr_Authorization request))) as [credential|] eqn:Ec; [|apply Hno].
  eapply (safe_or_refuse _ (fun _ _ => True)); [apply in_log_lasting|exact Hrec|exact Hno| |].
  { apply (safe_yields logged _ (fun x => forall a, x = Ok a -> True)); [apply verifier_logs|by apply returns_any]. }
  clear d Hrec. intros p d _ Hrec. destruct (mw_oauth m && _) eqn:Eo; [apply Hno|].
  eapply (safe_or_refuse _ (fun _ _ => True)); [apply in_log_lasting|exact Hrec|exact Hno| |].
  { apply (safe_yields logged _ (fun x => forall a, x = Ok a -> True)); [apply resolver_logs|by apply returns_any]. }
  clear d Hrec. intros i d _ Hrec. unfold or_refuse at 1.
  destruct (NewTrustedRequest p i _) as [trusted|] eqn:Et; cbn [plain_code mbind]; [|apply Hno].
  eapply safe_or_refuse; [apply in_log_lasting|exact Hrec|exact Hno|by eapply audit_safe|].
  clear d Hrec. intros [] d Hauth Hrec downstream [= <-]. exists bytes, trusted. split; [done|].
  unfold multiple_credentials in Em. apply orb_false_iff in Em as [Em Eoa].
  apply NewTrustedRequest_valid in Et as [-> Hvalid]; [|done..].
  split; [apply Nat.ltb_ge in Em; lia|done| |done| |done..].
  - intros Ho. rewrite Ho in Eoa. cbn in Eoa. apply orb_false_iff in Eoa as [E1 E2]. reflect_all. split; [done|lia].
  - intros Ho. rewrite Ho in Eo. cbn in Eo. by apply orb_false_iff in Eo as [?%negb_false_iff ?%negb_false_iff].
Qed.

Lemma learns_or_refuse {A} (P : A -> list E -> Prop) (Q : admission (Rest := Rest) -> list E -> Prop) response call k h :
  (forall r h', Q (Refused_ r) h') -> learns call (told P) h ->
  (forall a h', h `prefix_of` h' -> P a h' -> learns (k a) Q h') -> learns (or_refuse response call k) Q h.
Proof. intros Hr Hc Hk. eapply learns_mbind; [exact Hc|]. intros [a|x] h' Hp Ha; [by apply Hk, Ha|apply Hr]. Qed.
Lemma admission_learns entropy request h : random_bytes entropy ->
  learns (admission_of m entropy request) (admitted_known request) h.
Proof.
  intros Hrand. unfold admission_of. assert (forall r h', admitted_known request (Refused_ r) h') as Hno by done.
  unfold or_refuse at 1. destruct (serverMetadata entropy) as [md|] eqn:Emd; cbn [plain_code mbind]; [|apply Hno].
  destruct (serverMetadata_bytes _ _ Emd Hrand) as (bytes & bytes' & _ & -> & Hrid & Htid). cbn [md_RequestID] in *.
  eapply (learns_or_refuse (fun _ _ => True)); [exact Hno|by apply learns_any|]. intros [] h1 _ _.
  destruct (multiple_credentials m request); [apply Hno|].
  destruct (bearerCredential (Header_Get (hr_Authorization request))) as [credential|] eqn:Ec; [|apply Hno].
  eapply learns_or_refuse; [exact Hno|apply verifies|]. intros p h2 _ Hp. destruct (mw_oauth m && _); [apply Hno|].
  eapply learns_or_refuse; [exact Hno|apply resolves|]. intros i h3 Hp3 Hi. unfold or_refuse at 1.
  destruct (NewTrustedRequest p i _) as [trusted|] eqn:Et; cbn [plain_code mbind]; [|apply Hno].
  eapply (learns_or_refuse (fun _ _ => True)); [exact Hno|by apply learns_any|]. intros [] h4 Hp4 _ downstream [= <-].
  apply NewTrustedRequest_valid in Et as [-> Hvalid]; [|done..]. eexists credential, _. split_and!; [done| | |exact Hvalid|done]; cbn.
  - eapply verified_later, Hp. by etransitivity.
  - by eapply resolved_later.
Qed.
End served.

(** ** The OAuth middleware *)
Lemma run_mbind {D A B} (m : method D A) (f : A -> method D B) turns db : exists turns',
  run (mbind m f) turns db = run (f (fst (run m turns db))) turns' (snd (run m turns db)).
Proof.
  revert turns db. induction m as [a|Y q k IH]; intros turns db; cbn; [by exists turns|].
  destruct (attempt q _ _) as [r db']. apply IH.
Qed.
Definition refusal_statuses : list Z := [401; 403; 503].
Lemma admission_refusals {E Rest} `{FoldTables} (m : Middleware (E := E)) entropy (request : HttpRequest Rest) :
  returns (admission_of m entropy request) (fun a => forall r, a = Refused_ r -> hs_Status r ∈ refusal_statuses).
Proof.
  unfold admission_of, or_refuse. repeat (match goal with
    | |- returns (Return _) _ => cbn; intros ? [= <-]; cbn; unfold refusal_statuses; set_solver
    | |- returns (refuse _) _ => cbn; intros ? [= <-]; cbn; unfold refusal_statuses; set_solver
    | |- returns (mbind _ _) _ => eapply returns_mbind; [by apply (returns_any _ (fun _ => True))|]; intros [?|?] _
    | |- returns (if ?b then _ else _) _ => destruct b
    | |- returns (match ?x with _ => _ end) _ => destruct x
    end).
Qed.

Section oauth.
Context {E Rest : Type} `{PartLaws AccessLog E} `{PartLaws SignIn E}.
Context `{FoldTables} `{EthCommon} `{UnicodeTables} `{EthCrypto} `{EthSignatures} `{NetUrl} `{PgTimestamp}.
Context (now : nat -> Time) (ck : nat -> Time).

(** One database holds the sign-in tables and the identities. *)
#[local] Instance identities_of_sign_in : Part Foundation E := {|
  part e := sg_foundation (part (D := SignIn) e);
  with_part f e := let s := part (D := SignIn) e in with_part (set_authority f (sg_status s) (sg_enrollments s) s) e |}.
#[local] Instance identities_of_sign_in_laws : PartLaws Foundation E.
Proof.
  split; intros; cbn; [by rewrite part_with|]. replace (set_authority _ _ _ _) with (part (D := SignIn) e) by by destruct (part e).
  apply with_part_part.
Qed.
(** The store behind [oauth.Repository]. *)
Definition oauth_store : OAuthRepository E := {|
  or_FindClient id := on (FindOAuthClient id); or_CreateTransaction t := on (CreateOAuthTransaction t);
  or_FindTransaction id := on (FindOAuthTransaction id);
  or_CompleteAuthorization t d k := on (CompleteOAuthAuthorization ck t d k); or_RedeemCode r := on (RedeemOAuthCode ck r);
  or_ValidateToken digest at_ := on (ValidateOAuthToken digest at_); or_RevokeAuthority r := on (RevokeOAuthAuthority ck r) |}.
#[local] Existing Instance oauth_store.

(** The middleware of the process in OAuth mode. *)
Definition oauth_middleware : result (Middleware (E := E)) :=
  NewAuditedOAuthMiddleware (Some (VerifyToken now)) (Some (fun p => on (ResolveIdentity true p)))
    (Some (fun r => on (RecordMCPAccess r))).

(** ** Whom it vouches for *)
(** The credential is an access token and the principal its stored row's: the
    row was found valid at the service's clock, with its session, consent,
    client and identity in force, the wallet of its sign-in was found to stand,
    and it had not expired by the next reading of the clock. *)
Definition verified_by (credential : string) (p : AuthenticatedPrincipal) (h : list SignIn) : Prop :=
  HasPrefix credential "wmcp_at_" = true /\ len credential = 51 /\
  exists t, noticed (fun s => valid_token (Digest credential) (UTC (now 0%nat)) s = Some t) h /\
    noticed (fun s => wallet_withdrawn (tok_SessionID t) (tok_TenantID t) (tok_UserID t) s = false) h /\
    now 1%nat < tok_ExpiresAt t /\ principal_of t p.
Definition reads_only (p : AuthenticatedPrincipal) : Prop :=
  forall x, HasPermission p x = true -> Permission_string x = "intent:read" \/ Permission_string x = "approval:read".

Lemma ValidateOAuthToken_learns digest at_ h :
  learns (ValidateOAuthToken digest at_) (told (fun t h' => noticed (fun s => valid_token digest at_ s = Some t) h' /\
    noticed (fun s => wallet_withdrawn (tok_SessionID t) (tok_TenantID t) (tok_UserID t) s = false) h')) h.
Proof.
  eapply (learns_mtry _ _ (fun t h' => noticed (fun s => valid_token digest at_ s = Some t) h')).
  - intros s. split; [|done]. unfold select_row. intros t s' Hq. destruct (valid_token digest at_ s) as [t'|] eqn:Ev; [|done].
    injection Hq as <- <-. intros a [= <-]. apply Exists_app. right. by constructor.
  - intros t h' _ Ht s. split; [|done]. intros withdrawn s' [= <- <-]. cbn. intros a Ha.
    destruct (wallet_withdrawn _ _ _ s) eqn:Ew; [done|]. injection Ha as <-. split; [by apply Exists_app; left|].
    apply Exists_app. right. by constructor.
Qed.
Lemma ValidateOAuthToken_reads digest at_ : keeps eq (ValidateOAuthToken digest at_).
Proof.
  apply keeps_mtry; [split; [by apply keeps_select, _|done]|]. intros t. apply keeps_mtry; [|done].
  split; [by intros s y s' [= _ <-]|done].
Qed.
Lemma VerifyToken_learns raw h : learns (VerifyToken (E := E) now raw) (told (fun p h' => verified_by raw p (part <$> h'))) h.
Proof.
  apply learns_plain. intros [] Hraw%fail_if_ok. eapply learns_mtry.
  { eapply learns_mbind; [apply (learns_zoom part with_part), ValidateOAuthToken_learns|]. intros r h' _ Hr. cbn.
    intros a Ha%map_err_ok. exact (Hr a Ha). }
  intros t h' _ [Hv Hw]. apply learns_plain. intros [] Ht%fail_if_ok p Hp. apply rbind_ok in Hp as (ps & Hps & Hp).
  unfold Permissions in Hps. apply rbind_ok in Hps as ([] & Hsc & [= <-]).
  apply fail_if_ok_any, negb_false_iff, bool_decide_eq_true in Hsc. reflect_all.
  split_and!; [done..|]. exists t. split_and!; try done. unfold After in *. lia.
Qed.
Lemma verified_by_reads raw p h : verified_by raw p h -> reads_only p.
Proof. intros (_ & _ & t & _ & _ & _ & Hp) x. by apply (principal_reads_only t). Qed.
Lemma keeps_eq_logged {A} (m : method E A) : keeps eq m -> keeps logged m.
Proof. apply keeps_impl. by intros e e' <-; exists []; rewrite app_nil_r. Qed.
Lemma VerifyToken_logs raw : keeps logged (VerifyToken (E := E) now raw).
Proof. apply keeps_eq_logged. unfold VerifyToken, or_error. keeps_tac; apply keeps_eq_on, ValidateOAuthToken_reads. Qed.

Lemma resolver_learns p h :
  learns (on (E := E) (ResolveIdentity true p)) (told (fun i h' => resolved_for p i (sg_foundation <$> (part (D := SignIn) <$> h')))) h.
Proof.
  unfold on. eapply learns_impl, (learns_zoom part with_part), ResolveIdentity_learns. intros r h'. unfold told.
  by rewrite <-list_fmap_compose.
Qed.
Lemma resolver_logs p : keeps logged (on (E := E) (ResolveIdentity true p)).
Proof. apply keeps_eq_logged, keeps_eq_on, ResolveIdentity_reads. Qed.

(** The databases of sign-in and identities among what was seen. *)
Definition vouched (credential : string) (trusted : TrustedRequest) (h : list SignIn) : Prop :=
  verified_by credential (tr_principal trusted) h /\
  resolved_for (tr_principal trusted) (tr_identity trusted) (sg_foundation <$> h).

(** [C7] Who reaches a tool in OAuth mode.  Whatever fails and whatever others
    do who only add to the access log, a request is refused with 401, 403 or 503,
    or it goes on to the next handler: then it carried one bearer credential of
    at most 256 bytes and no cookie, and the credential is gone from it.  In the
    databases the admission's own statements found, the credential's digest was
    that of a valid access token whose session, consent, client and identity were
    in force and whose wallet stood; the caller is the principal of that token's
    row, with the two read permissions and no other; and its identity is a row
    found stored under that tenant and user, active and with the token's provider
    and subject.  The request carries no human attestation, and both its
    reception and its admission, with tenant, user and client, are in the log. *)
Theorem oauth_serves_readers (m : Middleware) (entropy : nat -> result (list Z)) {A} (refused : HttpResponse -> A)
    (next : HttpRequest Rest -> method E A) (request : HttpRequest Rest) (c : Context) (turns : list (turn E)) (world : E)
    (Hm : oauth_middleware = Ok m) (Hrand : random_bytes entropy) (Hctx : hr_ctx request = Some c)
    (Hothers : Forall (fun t => forall w, logged w (before t w)) turns) :
  let admission := admission_of m entropy request in
  let '(answer, world') := run admission turns world in
  (exists response, answer = Refused_ response /\ hs_Status response ∈ refusal_statuses /\
     fst (run (Handler m entropy refused next request) turns world) = refused response) \/
  (exists downstream credential trusted turns' id, answer = PassedOn downstream /\
     run (Handler m entropy refused next request) turns world = run (next downstream) turns' world' /\
     bearerCredential (Header_Get (hr_Authorization request)) = Some credential /\
     vouched credential trusted (part <$> seen admission turns world) /\ reads_only (tr_principal trusted) /\
     served m request downstream trusted id (fun r => in_log r world') /\
     hr_ctx downstream = Some (MkContext (Some trusted) None)).
Proof.
  assert (Ok (MkMiddleware (VerifyToken now) (fun p => on (ResolveIdentity true p)) true (Some (fun r => on (RecordMCPAccess r))))
    = Ok (E := error) m) as [= <-] by exact Hm. clear Hm. cbn zeta. match goal with |- context [Handler ?x] => set (m := x) end.
  set (V := fun c p (h : list E) => verified_by c p (part <$> h)).
  set (I := fun p i (h : list E) => resolved_for p i (sg_foundation <$> (part (D := SignIn) <$> h))).
  pose proof (admission_safe m eq_refl VerifyToken_logs resolver_logs entropy request world Hrand) as Hsafe.
  assert (learns (admission_of m entropy request) (admitted_known V I request) []) as Hknown.
  { apply (admission_learns V I m); [apply VerifyToken_learns|apply resolver_learns| | |exact Hrand].
    - intros cr p h h' Hp (Hpre & Hlen & t & Ht & Hw & Hx & Hpr). split_and!; [done..|]. exists t.
      split_and!; [eapply noticed_later, Ht|eapply noticed_later, Hw|done..]; by apply seen_prefix.
    - intros p i h h' Hp [Hs Hrest]. split; [|done]. eapply noticed_later, Hs. by do 2 apply seen_prefix. }
  apply (run_learns _ _ turns world) in Hknown. rewrite app_nil_l in Hknown.
  apply (run_safe logged _ _ turns) in Hsafe; [| |done].
  - unfold Handler. destruct (run_mbind (admission_of m entropy request)
      (fun a => match a with Refused_ r => Return (refused r) | PassedOn d => next d end) turns world) as [turns' ->].
    pose proof (run_returns _ _ turns world (admission_refusals m entropy request)) as Hst.
    destruct (run (admission_of m entropy request) turns world) as [[response|d] world'] eqn:Ea; cbn [fst snd] in *.
    + left. exists response. split_and!; [done|by apply Hst|done].
    + right. destruct (Hsafe d eq_refl) as (bytes & trusted & _ & Hserved).
      destruct (Hknown d eq_refl) as (credential & trusted' & Hc & Hv & Hi & Hvalid & Hcd).
      pose proof (sv_context _ _ _ _ _ _ Hserved) as Hcd'. rewrite Hctx in Hcd, Hcd'. unfold WithTrustedRequest in Hcd, Hcd'.
      rewrite Hvalid in Hcd. rewrite (sv_valid _ _ _ _ _ _ Hserved) in Hcd'. cbn in Hcd, Hcd'.
      assert (trusted' = trusted) as -> by congruence.
      exists d, credential, trusted, turns', (EncodeToString bytes).
      split_and!; [done..|by split|by eapply verified_by_reads|done|done].
  - intros a w w' Hl Ha downstream Hd. destruct (Ha downstream Hd) as (bytes & trusted & Hb & [S1 S2 S3 S4 S5 S6 S7 S8]).
    exists bytes, trusted. split; [done|]. split; try done; by eapply in_log_lasting.
Qed.
End oauth.

(** A request served with the token of the sign-in of SignInAuthority.v. *)
Module AccessSamples.
Import SignInSamples.
#[local] Existing Instance Eth.is_hex_address.
#[local] Existing Instance Eth.no_folding.
#[local] Existing Instance Pg.truncating.
#[local] Existing Instance EthDigits.crypto.
#[local] Existing Instance naming_signatures.
#[local] Existing Instance simple_urls.
#[local] Instance folds : FoldTables := fun _ _ => false.
Definition World : Type := AccessLog * SignIn.
#[local] Instance world_log : Part AccessLog World := {| part := fst; with_part l w := (l, snd w) |}.
#[local] Instance world_sign_in : Part SignIn World := {| part := snd; with_part s w := (fst w, s) |}.
#[local] Instance world_log_laws : PartLaws AccessLog World.
Proof. split; [by intros t []|by intros []]. Qed.
#[local] Instance world_sign_in_laws : PartLaws SignIn World.
Proof. split; [by intros t []|by intros []]. Qed.

Definition entropy (n : nat) : result (list Z) := Ok (repeat (Z.of_nat n mod 256) 16).
Lemma entropy_bytes : random_bytes entropy.
Proof.
  unfold random_bytes, entropy. intros n l E. assert (l = repeat (Z.of_nat n mod 256) 16) as -> by congruence.
  apply Forall_forall. intros b Hb%list_elem_of_In%repeat_spec. subst. by apply Z.mod_pos_bound.
Qed.
Definition access : HttpRequest unit := MkHttpRequest "POST" ["Bearer " +:+ token] [] (Some (MkContext None None)) ().
Definition start : World := ([], ss_db after).
Definition middleware : option (Middleware (E := World)) :=
  match oauth_middleware (E := World) (minute 5) (minute 5) with Ok m => Some m | Err _ => None end.

Lemma oauth_serves_readers_witness : exists m downstream trusted, middleware = Some m /\
  fst (Statements.run (admission_of m entropy access) [] start) = PassedOn downstream /\
  vouched (minute 5) token trusted (part (D := SignIn) <$> seen (admission_of m entropy access) [] start) /\
  hr_ctx downstream = Some (MkContext (Some trusted) None).
Proof.
  destruct (oauth_middleware (E := World) (minute 5) (minute 5)) as [m|] eqn:Em; [|discriminate Em].
  assert (match Statements.run (admission_of m entropy access) [] start with (PassedOn _, _) => true | _ => false end = true) as Hpass.
  { injection Em as <-. vm_compute. reflexivity. }
  pose proof (oauth_serves_readers (minute 5) (minute 5) m entropy (fun r => hs_Status r) (fun _ => Return 200) access (MkContext None None)
                [] start Em entropy_bytes eq_refl (List.Forall_nil _)) as Hserved. cbn zeta in Hserved.
  destruct (Statements.run (admission_of m entropy access) [] start) as [[r|d] w'] eqn:Hrun; [discriminate Hpass|].
  destruct Hserved as [(response & Hr & _)|(d' & credential & trusted & turns' & id & Hd & _ & Hc & Hv & _ & _ & Hctx)]; [discriminate Hr|].
  exists m, d', trusted. unfold middleware. rewrite Em. split; [reflexivity|]. split; [exact (eq_trans (f_equal fst Hrun) Hd)|].
  assert (bearerCredential (Header_Get (hr_Authorization access)) = Some token) as Ht by (vm_compute; reflexivity).
  rewrite Ht in Hc. injection Hc as <-. split; [exact Hv|exact Hctx].
Defined.
(** The answer and the log of a request with these authorization headers. *)
Definition answer_to (authorization : list string) (world : World) : option (Z * AccessLog) :=
  m ← middleware;
  let '(status, world') := Statements.run (Handler m entropy (fun r => hs_Status r) (fun _ => Return 200)
                             (MkHttpRequest "POST" authorization [] (hr_ctx access) ())) [] world in Some (status, fst world').
(** The same request without its credential, and with it after its owner logged out. *)
Lemma others_are_refused :
  answer_to [] start = Some (401, [access_record "POST" (EncodeToString (repeat 0 16)) "RECEIVED" None]) /\
  answer_to (hr_Authorization access) ([], ss_db gone) =
    Some (401, [access_record "POST" (EncodeToString (repeat 0 16)) "RECEIVED" None]).
Proof. vm_compute. split; reflexivity. Qed.
End AccessSamples.
